(* ===== verification/_CoqProject ===== *)
-Q . S2P
Prelude.v
Ordering.v
Binary64.v
Enums.v
Models.v
CanonicalJson.v
Records.v
Measurements.v
Collector.v
CollectorTheorems.v
Auth.v
AuthTheorems.v
Opportunities.v
Scheduler.v
SchedulerTheorems.v
SchedulerReplay.v
Hazards.v
HazardTheorems.v
Artifacts.v
ArtifactTheorems.v
Configuration.v
ConfigurationTheorems.v
Journal.v
JournalTheorems.v
EvidenceRows.v
HumanFactors.v
Engine.v
EngineTheorems.v
Spool.v
SpoolTheorems.v
Tombstones.v
TombstoneTheorems.v
Base64.v
KeyLifecycle.v
KeyLifecycleTheorems.v
AuditCheckpoints.v
AuditTheorems.v
Disposition.v
Evidence.v
DispositionClosure.v
DispositionTheorems.v
EvidenceTheorems.v
ClosureTheorems.v
Collaboration.v
CollaborationTheorems.v
Updates.v
UpdateTheorems.v
Projections.v
ProjectionTheorems.v
TrustedTime.v
TimeTheorems.v
Identity.v
IdentityTheorems.v
ProtectedState.v
ProtectedTheorems.v
Offline.v
OfflineTheorems.v
Analysis.v
AnalysisTheorems.v
Pipeline.v
PipelineTheorems.v
ModelGraph.v
ModelGraphTheorems.v
ModelAdmission.v
AdmissionTheorems.v
