(* ===== verification/Prelude.v ===== *)
(** * Sentinel Edge: the decision core of a hazard-monitoring node

    Sentinel Edge is a Python program (src/src/sentinel_edge) that runs on one
    small machine in the field.  It collects sensor readings, runs a model for
    each of four hazards (wildfire, flood, earthquake, landslide), turns the
    results into incidents, notifies people, and keeps the evidence, the
    configuration and the privacy obligations that go with them.  This library
    translates the parts that decide something into Rocq, function by function,
    and proves what makes them correct.

    ** How the parts interact

    Readings enter through the collector (component 1), which checks them
    against the measurement contract.  The scheduler (component 2) decides which
    analysis runs when, and accounts for every opportunity to run one.  The
    hazard adapters (component 3) turn a window of readings into an analysis.
    The incident engine (component 4) is the only writer of incidents: it
    appends records to the incident journal store, fills the notification
    outbox, and applies authorized commands and reviews.  While it is
    unavailable, critical analyses wait in a spool.  Around the journal live the
    evidence service, the governed artifact store, privacy disposition and
    tombstones, the key registry, audit checkpoints over the authority journal,
    signed projections for clients, and offline updates that must not undo a
    deletion.  A scenario run drives all of them on one virtual clock.

    ** The files

    Foundations.
    - Prelude: exceptions, the state-and-exception monad [M] (a method of a
      Python object is a function of its attributes), [transaction], [Steps]
      (what every run of a method respects) with the tactic [steps], Python's
      string and list helpers, stable sorting.  Ordering: [ORDER BY] and
      [sorted].  Binary64: floats.  Base64: [base64].  CanonicalJson:
      security/digests.py and json.dumps on canonical values.
    - Enums, Models, Records: domain/models.py, one module per class, with the
      validators as functions to [res].

    Components.  Each is a file with the operations and a file of theorems
    about it.
    - Measurements, Collector, CollectorTheorems: semantics/measurements.py,
      collector/service.py and [SourceCursorStore] of storage/sqlite_store.py.
      Accepted readings are in order, a restart recovers the health of every
      source.
    - Opportunities, Scheduler, SchedulerTheorems, SchedulerReplay:
      runtime/opportunities.py, runtime/scheduler.py.  No interfering jobs run
      together, dispatch starts the first job the admission policy lets run, a
      drained scheduler has a balanced ledger.  SchedulerReplay relates two
      runs of the scheduler that draw different job identifiers.
    - Hazards, HazardTheorems: hazards/*.py, qualification/thresholds.py.
      The adapters are total, escalate only past their guards, and the pruned
      rain history refines the full one.
    - Journal, JournalTheorems, EvidenceRows: [IncidentJournalStore] of
      storage/sqlite_store.py.  Replaying the authority journal rebuilds every
      table; the journal is conformant; evidence lifecycles have no gap.
    - Engine, EngineTheorems, HumanFactors, Auth, AuthTheorems:
      incidents/engine.py, incidents/human_factors.py, authority.py,
      security/auth.py.  Histories are well formed and refine the projection,
      late and repeated analyses are harmless, alerts keep to their budget,
      commands and reviews need an authentic decision and apply once, every
      notification is attempted as the policy says.
    - Identity, IdentityTheorems: incidents/identity.py, the resolver that
      says which incident a candidate belongs to.
    - Projections, ProjectionTheorems: projections/service.py, the signed
      projection and the bounded buffer of a client.
    - Spool, SpoolTheorems: storage/spool.py, operations/capabilities.py and
      [apply_or_spool] / [recover_incident_authority] of scenario/engine.py.
      An outage of the incident authority leads to the incidents there would be
      without it, had each analysis been accepted when it was produced.
    - Artifacts, ArtifactTheorems: storage/artifact_governance.py,
      storage/artifacts.py, storage/health.py.  Nothing protected is deleted.
    - Configuration, ConfigurationTheorems: configuration/manager.py and
      [ConfigurationStore].  Only tested configurations become active.
    - Evidence, EvidenceTheorems: evidence/service.py.  Evidence lives legally,
      trust snapshots say what the store holds, consent is respected.
    - Disposition, DispositionTheorems, DispositionClosure, ClosureTheorems:
      privacy/disposition.py.  Recipients are contacted on a bounded schedule;
      an erasure that reports completion is complete across the incident store,
      the artifact store and the lineage.
    - Tombstones, TombstoneTheorems: privacy/tombstones.py.  Deleted evidence
      does not come back when an older state that knew it is restored.
    - KeyLifecycle, KeyLifecycleTheorems, AuditCheckpoints, AuditTheorems:
      security/key_lifecycle.py, audit/checkpoints.py.  An inactive key stays
      out of use, which signatures are accepted (and the historical ones that
      should not be), a checkpoint binds the history before it.
    - Updates, UpdateTheorems: update/manager.py.  Versions only advance, and
      a bundle that is built of canonical paths verifies.
    - TrustedTime, TimeTheorems: runtime/trusted_time.py.  Wall-clock time is
      relied upon only on agreeing trusted sources.
    - Collaboration, CollaborationTheorems: collaboration/policy.py,
      repository.py and service.py.  Under a policy that says so, unverified
      peers never trigger more than a review.
    - ProtectedState, ProtectedTheorems: security/protected_state.py.  Grants,
      the protected cache and the authority queued offline: a read returns the
      last value written, and a revocation purges for good.
    - Offline, OfflineTheorems: gateway/offline.py.  Commands prepared offline
      are signed tickets; a ticket is admitted as it was prepared and its
      command is applied at most once, however often it is reconciled.
    - Analysis, AnalysisTheorems: analysis/service.py.  The measurement
      contract in front of the hazard adapters: an escalation rests on usable
      measurements, and the same observations give the same results.
    - Pipeline, PipelineTheorems: the run of scenario/engine.py over the
      collector, the scheduler, the analysis service and the incident
      authority.  A run settles, and the identifiers drawn on the way do not
      reach its result (measured latencies do).
    - ModelGraph, ModelGraphTheorems, ModelAdmission, AdmissionTheorems:
      runtime/model_packages.py.  The reader of the protobuf wire format reads
      back what was written; the inspection of an untrusted file ends within
      its budget; an admitted package has only unchanged files and allowed
      operators, at every depth of nesting, and its tensors fit the declared
      memory.

    ** Conventions

    - Text is ASCII; a [string] also stands for a byte string.  A [datetime] is
      the number of microseconds since the epoch in UTC, and [isoformat] texts
      are compared in the order of the times they denote; datetimes do not
      overflow.  [UUID] is the text of an identifier.
    - Python integers are [Z]; floats are binary64 with CPython's rounding
      ([sum] compensates, as CPython does since 3.12).
    - What the code takes from libraries is a parameter of the section that uses
      it: SHA-256, HMAC, Ed25519, [uuid5] in the URL name space, [isoformat],
      pydantic's dump of an object, [float.__repr__], trigonometry.  Laws they
      must satisfy are hypotheses of the theorems that use them and are
      discharged in the witnesses by concrete functions.  Collisions of a digest
      are never assumed away: a theorem that depends on them has a disjunct
      that exhibits one among the texts of the execution, or speaks of
      executions whose own finitely many texts do not collide.
    - [uuid4()] and clock readings are arguments.  Freshness is a hypothesis
      where it matters.
    - A SQLite table is the list of its rows in insertion order or a finite map
      by primary key; a row is the object in its [payload_json].
      [with self._connection:] is [transaction]: commit, or roll back on an
      exception.  Integers of SQLite have no bound, except in the cursor store,
      where the code meets it.
    - Methods run one after the other, as the locks of the code make them; an
      execution is a list of calls.  Crashes are modelled where the code
      handles them (the spool) as executions that stop between two writes.
    - Almost every loop of the code is structural on a list or bounded by a
      count.  The dispatch loop of a run is a [while]; it gets as fuel the
      length of the queue, which [scenario_run_settles] proves enough: an
      iteration takes a job out of the queue or stops.  A loop over the bytes of
      a model file gets their number as fuel, and nested graphs get seven
      levels; [inspection_is_bounded] proves that no file uses them up.  The
      definitions compute and concrete witnesses are evaluated by [vm_compute].

    ** Not modelled

    - I/O and wiring: the command line (cli.py), the HTTP gateway (gateway/
      apart from offline.py), the scenario fixtures, their signatures and their
      proofs (scenario/fixtures, faults.py, replay.py, proof.py), the
      construction of the scenario engine and the parts of its result that
      repeat the state of trusted time, storage, timing and notifications,
      process sandboxing (media/), third-party services (integrations/,
      collaboration/gmail.py and smtp.py), file formats and backups
      (storage/backup.py, storage/encrypted_backup.py).
    - The durable collaboration repository: the model has the in-memory one,
      which is the fixture default.
    - Metadata documents of updates: parsing them, reading key files and
      Ed25519 are parameters of the update manager; libm's trigonometry is a
      parameter of the identity service.
    - Evidence generators and release tooling (scripts/, release/,
      qualification/ apart from thresholds.py, benchmark/, evolution/): they
      describe, measure or package the program and decide nothing at run time.
    - Model execution (runtime/clip.py) and the secret registry
      (security/secrets.py), which are calls into inference and key-storage
      libraries; the worker process of the model inspection, whose outcome is
      an argument, and the scan of the source tree for imports.
    - Schema migrations of old databases and the unused read-only filters of
      the stores. *)

From stdpp Require Export base strings sorting gmap pretty numbers list.

(** ** Exceptions and results

    Python exceptions raised by the modelled code.  [ValidationError] is the
    exception pydantic raises when a [model_validator] or a field constraint
    fails; [IntegrityError] is sqlite3's exception for a violated UNIQUE or
    PRIMARY KEY constraint. *)
Inductive exn : Type :=
  | ValueError (msg : string)
  | KeyError (key : string)
  | RuntimeError (msg : string)
  | AdmissionError (msg : string)
  | AuthenticationError (msg : string)
  | AuthorizationError (msg : string)
  | IntegrityError (constraint : string)
  | ValidationError (msg : string)
  | AssertionError
  | SpoolExhaustedError (msg : string)
  | OSError (msg : string)
  | PermissionError (msg : string)
  | FileNotFoundError (msg : string)
  | OtherError (type_name : string).

(** [type(exc).__name__] *)
Definition exn_name (e : exn) : string :=
  match e with
  | ValueError _ => "ValueError"
  | KeyError _ => "KeyError"
  | RuntimeError _ => "RuntimeError"
  | AdmissionError _ => "AdmissionError"
  | AuthenticationError _ => "AuthenticationError"
  | AuthorizationError _ => "AuthorizationError"
  | IntegrityError _ => "IntegrityError"
  | ValidationError _ => "ValidationError"
  | AssertionError => "AssertionError"
  | SpoolExhaustedError _ => "SpoolExhaustedError"
  | OSError _ => "OSError"
  | PermissionError _ => "PermissionError"
  | FileNotFoundError _ => "FileNotFoundError"
  | OtherError name => name
  end.

#[export] Instance exn_eq_dec : EqDecision exn.
Proof. solve_decision. Defined.

Inductive res (A : Type) : Type :=
  | Ok (a : A)
  | Raise (e : exn).
Arguments Ok {A} a.
Arguments Raise {A} e.

#[export] Instance res_eq_dec `{EqDecision A} : EqDecision (res A).
Proof. solve_decision. Defined.

Definition is_ok {A} (r : res A) : bool :=
  match r with Ok _ => true | Raise _ => false end.

(** ** The state and exception monad

    A method of a Python object with attributes [S] is a function from the
    attributes to a result and the attributes afterwards.  The attributes
    survive an exception: whatever was assigned before the [raise] stays. *)
Definition M (S A : Type) : Type := S -> res A * S.

Definition ret {S A} (a : A) : M S A := fun s => (Ok a, s).
Definition raise {S A} (e : exn) : M S A := fun s => (Raise e, s).
Definition bind {S A B} (m : M S A) (k : A -> M S B) : M S B :=
  fun s => match m s with
           | (Ok a, s') => k a s'
           | (Raise e, s') => (Raise e, s')
           end.
Definition get {S} : M S S := fun s => (Ok s, s).
Definition put {S} (s : S) : M S unit := fun _ => (Ok tt, s).
Definition modify {S} (f : S -> S) : M S unit := fun s => (Ok tt, f s).
Definition gets {S A} (f : S -> A) : M S A := fun s => (Ok (f s), s).
(** [raise_if c e] is [if c: raise e]. *)
Definition raise_if {S} (c : bool) (e : exn) : M S unit :=
  if c then raise e else ret tt.
(** A result computed by a pure validator, as a step of a method. *)
Definition lift {S A} (r : res A) : M S A := fun s => (r, s).
(** [with self._connection:] commits when the block returns and rolls the
    database back when it raises. *)
Definition transaction {S A} (m : M S A) : M S A :=
  fun s => match m s with
           | (Ok a, s') => (Ok a, s')
           | (Raise e, _) => (Raise e, s)
           end.
(** A call on an attribute: run [m] on the part of the state [getter] reads
    and [setter] writes back. *)
Definition zoom {S T A} (getter : S -> T) (setter : T -> S -> S) (m : M T A) : M S A :=
  fun s => match m (getter s) with (r, t) => (r, setter t s) end.

(** [try: m; except ...]: [handler] answers the exceptions it catches. *)
Definition catch {S A} (m : M S A) (handler : exn -> option (M S A)) : M S A :=
  fun s => match m s with
           | (Ok a, s') => (Ok a, s')
           | (Raise e, s') => match handler e with Some h => h s' | None => (Raise e, s') end
           end.

(** A call whose value is not used. *)
Definition void {S A} (m : M S A) : M S unit := bind m (fun _ => ret tt).

Declare Scope py_scope.
Delimit Scope py_scope with py.
Notation "'let!' x ':=' m 'in' k" := (bind m (fun x => k))
  (at level 10, x binder, m at level 100, k at level 200,
   format "'[v' 'let!'  x  ':='  m  'in' '/' k ']'") : py_scope.
Notation "m ';;;' k" := (bind m (fun _ : unit => k))
  (at level 199, right associativity, format "'[v' m ';;;' '/' k ']'") : py_scope.
#[global] Open Scope py_scope.

(** Pure computations that may raise. *)
Definition rbind {A B} (r : res A) (k : A -> res B) : res B :=
  match r with Ok a => k a | Raise e => Raise e end.
Definition check (c : bool) (e : exn) : res unit := if c then Raise e else Ok tt.
Notation "r '>>!' k" := (rbind r (fun _ : unit => k))
  (at level 199, right associativity, format "'[v' r '>>!' '/' k ']'") : py_scope.

Section MonadLaws.
Context {S A B C : Type}.

Lemma bind_ret_l (a : A) (k : A -> M S B) s : bind (ret a) k s = k a s.
Proof. reflexivity. Qed.

Lemma bind_ret_r (m : M S A) s : bind m ret s = m s.
Proof. unfold bind. by destruct (m s) as [[] ]. Qed.

Lemma bind_assoc (m : M S A) (k : A -> M S B) (h : B -> M S C) s :
  bind (bind m k) h s = bind m (fun a => bind (k a) h) s.
Proof. unfold bind. by destruct (m s) as [[] ]. Qed.

Lemma bind_ok (m : M S A) (k : A -> M S B) s b s' :
  bind m k s = (Ok b, s') <->
  exists a s1, m s = (Ok a, s1) /\ k a s1 = (Ok b, s').
Proof.
  unfold bind. destruct (m s) as [[a|e] s1]; split.
  - intros H. by exists a, s1.
  - by intros (? & ? & [= -> ->] & ?).
  - discriminate.
  - by intros (? & ? & ? & ?).
Qed.

Lemma bind_raise (m : M S A) (k : A -> M S B) s e s' :
  bind m k s = (Raise e, s') <->
  m s = (Raise e, s') \/ exists a s1, m s = (Ok a, s1) /\ k a s1 = (Raise e, s').
Proof.
  unfold bind. destruct (m s) as [[a|e1] s1]; split.
  - intros H. right. by exists a, s1.
  - by intros [?|(? & ? & [= -> ->] & ?)].
  - intros [= -> ->]. by left.
  - by intros [[= -> ->]|(? & ? & ? & ?)].
Qed.

Lemma bind_raise_if_false e (k : unit -> M S A) s : bind (raise_if false e) k s = k tt s.
Proof. reflexivity. Qed.

Lemma raise_if_ok c e (s : S) u s' :
  raise_if c e s = (Ok u, s') <-> c = false /\ s' = s.
Proof. destruct c, u; cbv; intuition congruence. Qed.

Lemma raise_if_raise c e (s : S) e' s' :
  raise_if c e s = (Raise e', s') <-> c = true /\ e' = e /\ s' = s.
Proof. destruct c; cbv; intuition congruence. Qed.

(** A transaction either commits the block's state or leaves the state
    exactly as it found it. *)
Lemma transaction_ok (m : M S A) s a s' :
  transaction m s = (Ok a, s') <-> m s = (Ok a, s').
Proof. unfold transaction. by destruct (m s) as [[] ]. Qed.

Lemma transaction_raise (m : M S A) s e s' :
  transaction m s = (Raise e, s') <-> (exists s1, m s = (Raise e, s1)) /\ s' = s.
Proof.
  unfold transaction. destruct (m s) as [[]?]; split.
  - discriminate.
  - by intros [[? ?] _].
  - intros [= -> ->]. eauto.
  - by intros [[? [= -> ->]] ->].
Qed.

Lemma check_ok c e u : check c e = Ok u <-> c = false.
Proof. destruct c, u; cbv; intuition congruence. Qed.
End MonadLaws.

Lemma rbind_ok {A B} (r : res A) (k : A -> res B) b :
  rbind r k = Ok b <-> exists a, r = Ok a /\ k a = Ok b.
Proof. destruct r; cbn; split; [eauto|by intros (? & [= ->] & ?)|done|by intros (? & ? & ?)]. Qed.

Lemma void_run {S A} (m : M S A) s r s' :
  void m s = (r, s') -> exists r1, m s = (r1, s') /\ is_ok r1 = is_ok r.
Proof. unfold void, bind, ret. destruct (m s) as [[a|e] s1]; intros [= <- <-]; by eexists. Qed.

Lemma zoom_ok {S T A} (g : S -> T) (st : T -> S -> S) (m : M T A) s a s' :
  zoom g st m s = (Ok a, s') <-> exists t, m (g s) = (Ok a, t) /\ s' = st t s.
Proof.
  unfold zoom. destruct (m (g s)) as [r t]; split.
  - intros [= -> <-]. eauto.
  - by intros (? & [= -> ->] & ->).
Qed.

Create HintDb py discriminated.
Create Rewrite HintDb py.
#[export] Hint Rewrite @bind_ok @bind_raise @raise_if_ok @raise_if_raise
  @transaction_ok @transaction_raise @zoom_ok @rbind_ok @check_ok : py.

(** [py_inv H] turns an equation about a run of a method into the equations
    of its steps. *)
Ltac py_inv_step H :=
  first
    [ apply bind_ok in H; let a := fresh "x" in let s := fresh "st" in
      let H1 := fresh "Hrun" in destruct H as (a & s & H1 & H); py_inv_step H1
    | apply raise_if_ok in H; let H1 := fresh "Hcond" in destruct H as [H1 H]; subst
    | apply transaction_ok in H; py_inv_step H
    | apply zoom_ok in H; let t := fresh "st" in let H1 := fresh "Hrun" in
      destruct H as (t & H1 & H); subst; py_inv_step H1
    | idtac ].
Ltac py_inv H := repeat (progress (py_inv_step H)); simplify_eq/=.

(** ** Strings

    Identifiers and reason codes are ASCII text: code point order is the
    order of the bytes, and the characters [str.strip] removes are the ASCII
    white-space characters. *)
Definition ascii_is_space (a : Ascii.ascii) : bool :=
  let n := Ascii.nat_of_ascii a in
  ((9 <=? n) && (n <=? 13) || (28 <=? n) && (n <=? 32))%nat.

Fixpoint lstrip (s : string) : string :=
  match s with
  | String a s' => if ascii_is_space a then lstrip s' else s
  | EmptyString => EmptyString
  end.

Fixpoint all_space (s : string) : bool :=
  match s with
  | String a s' => ascii_is_space a && all_space s'
  | EmptyString => true
  end.

Fixpoint rstrip (s : string) : string :=
  match s with
  | String a s' => if all_space s then EmptyString else String a (rstrip s')
  | EmptyString => EmptyString
  end.

(** [s.strip()] *)
Definition strip (s : string) : string := rstrip (lstrip s).

(** [not s.strip()] *)
Definition blank (s : string) : bool := bool_decide (strip s = "").

Fixpoint startswith (s prefix : string) {struct prefix} : bool :=
  match prefix, s with
  | EmptyString, _ => true
  | String a p, String b s' => if decide (a = b) then startswith s' p else false
  | String _ _, EmptyString => false
  end.

Definition endswith (s suffix : string) : bool :=
  startswith (String.rev s) (String.rev suffix).

(** [sub in s] *)
Fixpoint contains (s sub : string) : bool :=
  startswith s sub ||
  match s with
  | String _ s' => contains s' sub
  | EmptyString => false
  end.

(** [str.lower] on ASCII. *)
Definition lower_char (c : Ascii.ascii) : Ascii.ascii :=
  let n := Ascii.nat_of_ascii c in if ((65 <=? n) && (n <=? 90))%nat then Ascii.ascii_of_nat (n + 32) else c.
Fixpoint lower (s : string) : string :=
  match s with EmptyString => EmptyString | String c s => String (lower_char c) (lower s) end.

(** ** Collections as the code uses them *)

(** [if x not in l: l.append(x)] *)
Definition append_new `{EqDecision A} (x : A) (l : list A) : list A :=
  if decide (x ∈ l) then l else l ++ [x].

(** [tuple(sorted(set(l)))] on strings *)
Definition sorted_set (l : list string) : list string :=
  merge_sort String.le (remove_dups l).

(** [sorted(l)] on strings *)
Definition sorted_strings (l : list string) : list string := merge_sort String.le l.

(** [Counter(l)] *)
Definition counter (l : list string) : gmap string Z :=
  foldl (fun m x => <[x := default 0%Z (m !! x) + 1]> m)%Z ∅ l.

(** [",".join(l)] *)
Fixpoint join (sep : string) (l : list string) : string :=
  match l with
  | [] => ""
  | [x] => x
  | x :: l' => x +:+ sep +:+ join sep l'
  end.

(** [sorted(l, key=...)]: a stable insertion sort for the order [leb] of the keys. *)
Section StableSort.
Context {A : Type} (leb : A -> A -> bool).

Fixpoint insert_sorted (x : A) (l : list A) : list A :=
  match l with
  | [] => [x]
  | y :: l' => if leb x y then x :: l else y :: insert_sorted x l'
  end.

Fixpoint sort_by (l : list A) : list A :=
  match l with
  | [] => []
  | x :: l' => insert_sorted x (sort_by l')
  end.

Lemma insert_sorted_perm x l : insert_sorted x l ≡ₚ x :: l.
Proof.
  induction l as [|y l IH]; cbn; [done|].
  destruct (leb x y); [done|]. rewrite IH. apply Permutation_swap.
Qed.

Lemma sort_by_perm l : sort_by l ≡ₚ l.
Proof. induction l as [|x l IH]; cbn; [done|]. by rewrite insert_sorted_perm, IH. Qed.

(** A sorted list is left as it is. *)
Lemma sort_by_id l : StronglySorted (fun a b => leb a b = true) l -> sort_by l = l.
Proof.
  induction 1 as [|x l Hs IH Hall]; cbn; [done|]. rewrite IH. destruct l as [|y l]; [done|].
  apply List.Forall_cons_iff in Hall as [Hxy _]. cbn. by rewrite Hxy.
Qed.

Context (leb_total : forall x y, leb x y = false -> leb y x = true).
Context (leb_trans : forall x y z, leb x y = true -> leb y z = true -> leb x z = true).

Lemma insert_sorted_sorted x l :
  StronglySorted (fun a b => leb a b = true) l ->
  StronglySorted (fun a b => leb a b = true) (insert_sorted x l).
Proof.
  induction 1 as [|y l Hs IH Hall]; cbn; [repeat constructor|].
  destruct (leb x y) eqn:Hxy.
  - constructor; [by constructor|]. constructor; [done|].
    eapply List.Forall_impl; [|exact Hall]. eauto.
  - constructor; [done|]. rewrite insert_sorted_perm. constructor; auto.
Qed.

Lemma sort_by_sorted l : StronglySorted (fun a b => leb a b = true) (sort_by l).
Proof. induction l; cbn; [constructor|]. by apply insert_sorted_sorted. Qed.
End StableSort.

(** Two lists with the same elements are interchangeable wherever the code
    only reads the sorted set of their elements. *)
Definition same_elements {A} (l k : list A) : Prop := forall x, x ∈ l <-> x ∈ k.
#[export] Instance same_elements_equiv {A} : Equivalence (@same_elements A).
Proof. split; unfold same_elements; [done|by intros l k H x; rewrite H|]. intros ??? H1 H2 x. by rewrite H1. Qed.

#[export] Instance same_elements_app {A} :
  Proper (same_elements ==> same_elements ==> same_elements) (@app A).
Proof. intros ?? H ?? H' x. by rewrite !elem_of_app, (H x), (H' x). Qed.

Lemma elem_of_sorted_set l x : x ∈ sorted_set l <-> x ∈ l.
Proof. unfold sorted_set. by rewrite merge_sort_Permutation, elem_of_remove_dups. Qed.

Lemma NoDup_sorted_set l : NoDup (sorted_set l).
Proof. unfold sorted_set. rewrite merge_sort_Permutation. apply NoDup_remove_dups. Qed.

Lemma sorted_set_sorted l : StronglySorted String.le (sorted_set l).
Proof. apply (StronglySorted_merge_sort _). Qed.

#[export] Instance sorted_set_proper : Proper (same_elements ==> (=)) sorted_set.
Proof.
  intros l k H. eapply (StronglySorted_unique String.le); [apply sorted_set_sorted..|].
  apply NoDup_Permutation; [apply NoDup_sorted_set..|].
  intros x. rewrite !elem_of_sorted_set. apply H.
Qed.

Lemma sorted_set_idemp l : sorted_set (sorted_set l) = sorted_set l.
Proof. apply sorted_set_proper. intros x. apply elem_of_sorted_set. Qed.

Lemma elem_of_append_new `{EqDecision A} (x y : A) l :
  y ∈ append_new x l <-> y = x \/ y ∈ l.
Proof. unfold append_new. case_decide; set_solver. Qed.

Lemma NoDup_append_new `{EqDecision A} (x : A) l : NoDup l -> NoDup (append_new x l).
Proof.
  unfold append_new. case_decide; [done|]. intros. apply NoDup_app. split_and!; [done|set_solver|].
  apply NoDup_singleton.
Qed.

#[export] Hint Rewrite elem_of_sorted_set @elem_of_append_new : py.
#[export] Hint Resolve NoDup_sorted_set sorted_set_sorted NoDup_append_new : py.

(** ** Maps *)
Lemma alter_insert_lookup `{Countable K} {A} (f : A -> A) (m : gmap K A) i x :
  m !! i = Some x -> alter f i m = <[i := f x]> m.
Proof.
  intros Hi. apply map_eq. intros k. rewrite lookup_alter, lookup_insert.
  case_decide; [|done]. subst. by rewrite Hi.
Qed.

Lemma Forall_impl_in {A} (P Q : A -> Prop) l :
  Forall P l -> (forall x, x ∈ l -> P x -> Q x) -> Forall Q l.
Proof. rewrite !Forall_forall. eauto. Qed.

(** A list whose keys are distinct holds one element per key. *)
Lemma NoDup_fmap_elem {A B} (f : A -> B) l x y :
  NoDup (f <$> l) -> x ∈ l -> y ∈ l -> f x = f y -> x = y.
Proof.
  induction l as [|z l IH]; cbn; [set_solver|].
  intros [Hz Hnd]%NoDup_cons [->|Hx]%elem_of_cons [->|Hy]%elem_of_cons Hf; auto.
  - destruct Hz. rewrite Hf. by apply list_elem_of_fmap_2.
  - destruct Hz. rewrite <- Hf. by apply list_elem_of_fmap_2.
Qed.

Lemma Forall_in {A} (P : A -> Prop) l x : Forall P l -> x ∈ l -> P x.
Proof. rewrite Forall_forall. auto. Qed.

(** ** Dictionaries that are iterated

    A dict whose iteration order matters is the list of its items in insertion
    order; assigning an existing key keeps its place. *)
Section Dict.
Context {K V : Type} `{EqDecision K}.

Fixpoint dict_get (k : K) (d : list (K * V)) : option V :=
  match d with
  | [] => None
  | (k', v) :: d => if decide (k' = k) then Some v else dict_get k d
  end.

Fixpoint dict_set (k : K) (v : V) (d : list (K * V)) : list (K * V) :=
  match d with
  | [] => [(k, v)]
  | (k', v') :: d => if decide (k' = k) then (k', v) :: d else (k', v') :: dict_set k v d
  end.

Lemma dict_get_set k k' v d :
  dict_get k' (dict_set k v d) = if decide (k = k') then Some v else dict_get k' d.
Proof.
  induction d as [|[k1 v1] d IH]; cbn; [done|].
  repeat (case_decide; subst; cbn); try done; rewrite IH; by repeat case_decide.
Qed.

Lemma dict_get_elem k v d : dict_get k d = Some v -> (k, v) ∈ d.
Proof.
  induction d as [|[k1 v1] d IH]; cbn; [done|]. case_decide; subst.
  - intros [= ->]. left.
  - intros Hg. right. auto.
Qed.

Lemma dict_elem_get k v d : NoDup d.*1 -> (k, v) ∈ d -> dict_get k d = Some v.
Proof.
  induction d as [|[k1 v1] d IH]; cbn; [set_solver|].
  intros [Hk Hd]%NoDup_cons [[= -> ->]|Hin]%elem_of_cons; [by rewrite decide_True|].
  rewrite decide_False; [auto|]. intros ->. apply Hk. apply list_elem_of_fmap. by exists (k, v).
Qed.

Lemma dict_set_keys k v d : (dict_set k v d).*1 ≡ₚ append_new k d.*1.
Proof.
  unfold append_new. induction d as [|[k1 v1] d IH]; cbn; [done|].
  destruct (decide (k1 = k)) as [->|Hne]; cbn.
  - by rewrite (decide_True (P := k ∈ _)) by set_solver.
  - rewrite IH. destruct (decide (k ∈ d.*1)) as [Hin|Hin].
    + by rewrite decide_True by set_solver.
    + by rewrite decide_False by set_solver.
Qed.

Lemma dict_set_fresh k v d : k ∉ d.*1 -> dict_set k v d = d ++ [(k, v)].
Proof.
  induction d as [|[k1 v1] d IH]; cbn; [done|]. intros Hk.
  rewrite decide_False by set_solver. rewrite IH by set_solver. done.
Qed.

(** A dict comprehension over items with distinct keys. *)
Lemma dict_of_items (key : V -> K) l d :
  NoDup (d.*1 ++ (key <$> l)) ->
  fold_left (fun d x => dict_set (key x) x d) l d = d ++ ((fun x => (key x, x)) <$> l).
Proof.
  revert d. induction l as [|x l IH]; intros d; cbn; [symmetry; apply app_nil_r|]. intros Hnd.
  rewrite dict_set_fresh.
  - rewrite IH; [by rewrite <- app_assoc|]. rewrite fmap_app, <- app_assoc. exact Hnd.
  - apply NoDup_app in Hnd as (_ & H & _). intros Hin. apply (H _ Hin). cbn. set_solver.
Qed.

Lemma dict_get_None k d : dict_get k d = None <-> k ∉ d.*1.
Proof.
  induction d as [|[k1 v1] d IH]; cbn; [set_solver|]. case_decide as Hk; [set_solver|].
  rewrite IH. set_solver.
Qed.

Lemma dict_set_NoDup k v d : NoDup d.*1 -> NoDup (dict_set k v d).*1.
Proof. intros Hd. rewrite dict_set_keys. by apply NoDup_append_new. Qed.
End Dict.

(** ** Relations kept by every run of a method

    [Steps R m]: whatever [m] returns or raises, the state it leaves is
    related by [R] to the state it found.  Components instantiate [R] with
    what their methods promise to each other. *)
Class Steps {S A} (R : relation S) (m : M S A) : Prop :=
  steps_run s r s' : m s = (r, s') -> R s s'.

Section Steps.
Context {S : Type} (R : relation S) `{!PreOrder R}.

#[export] Instance steps_ret {A} (a : A) : Steps R (ret a).
Proof. intros s r s' [= _ <-]. reflexivity. Qed.

#[export] Instance steps_raise {A} e : Steps R (@raise S A e).
Proof. intros s r s' [= _ <-]. reflexivity. Qed.

#[export] Instance steps_get : Steps R get.
Proof. intros s r s' [= _ <-]. reflexivity. Qed.

#[export] Instance steps_gets {A} (f : S -> A) : Steps R (gets f).
Proof. intros s r s' [= _ <-]. reflexivity. Qed.

#[export] Instance steps_lift {A} (r : res A) : Steps R (@lift S A r).
Proof. intros s r' s' [= _ <-]. reflexivity. Qed.

#[export] Instance steps_raise_if c e : Steps R (raise_if c e).
Proof. destruct c; apply _. Qed.

#[export] Instance steps_bind {A B} (m : M S A) (k : A -> M S B) :
  Steps R m -> (forall a, Steps R (k a)) -> Steps R (bind m k).
Proof.
  intros Hm Hk s r s' H. unfold bind in H. destruct (m s) as [[a|e] s1] eqn:E.
  - transitivity s1; [by eapply Hm|by eapply Hk].
  - injection H as _ <-. by eapply Hm.
Qed.

#[export] Instance steps_transaction {A} (m : M S A) : Steps R m -> Steps R (transaction m).
Proof.
  intros Hm s r s' H. unfold transaction in H. destruct (m s) as [[a|e] s1] eqn:E.
  - injection H as _ <-. by eapply Hm.
  - injection H as _ <-. reflexivity.
Qed.

Lemma steps_modify f : (forall s, R s (f s)) -> Steps R (modify f).
Proof. intros Hf s r s' [= _ <-]. apply Hf. Qed.

Lemma steps_elim {A} (m : M S A) s r s' : Steps R m -> m s = (r, s') -> R s s'.
Proof. intros Hm. apply Hm. Qed.

(** A read followed by a continuation that may use what it read. *)
Lemma steps_get_bind {B} (k : S -> M S B) :
  (forall s r s', k s s = (r, s') -> R s s') -> Steps R (bind get k).
Proof. intros Hk s r s' H. by apply Hk in H. Qed.
End Steps.

(** [steps] splits the cases of a method; instances do the rest. *)
Ltac steps :=
  repeat match goal with
  | |- Steps _ (bind _ _) => apply steps_bind; [apply _| |intros ?]
  | |- Steps _ (transaction _) => apply steps_transaction; [apply _|]
  | |- Steps _ (match ?x with _ => _ end) => destruct x
  | |- Steps _ (let _ := _ in _) => intros ?
  | |- Steps _ _ => apply _
  end.

(** ** Tables

    A table is the list of its rows; [SELECT] filters and sorts it, [INSERT]
    raises when the new row clashes with one of a PRIMARY KEY or UNIQUE
    constraint. *)
Definition select_one {R} (p : R -> bool) (rows : list R) : option R := List.find p rows.
Definition select {R} (p : R -> bool) (rows : list R) : list R := List.filter p rows.
(** [ORDER BY time, id] *)
Definition order_by {R} (time : R -> Z) (id : R -> string) (rows : list R) : list R :=
  sort_by (fun x y => match (time x ?= time y)%Z with
                      | Lt => true | Gt => false | Eq => String.leb (id x) (id y)
                      end) rows.

(** Two rows agree on a key. *)
Definition same_key {R K} `{EqDecision K} (key : R -> K) (x y : R) : bool :=
  bool_decide (key x = key y).

Definition insert_row {R} (constraint : string) (clash : R -> R -> bool) (rows : list R) (row : R)
  : res (list R) :=
  if existsb (clash row) rows then Raise (IntegrityError constraint) else Ok (rows ++ [row]).

(** The integers an INTEGER column can be bound to. *)
Definition sqlite_integer (z : Z) : bool := ((- 2 ^ 63 <=? z) && (z <? 2 ^ 63))%Z.

(** ** Sorted lists *)
Lemma Sorted_snoc {A} (R : relation A) l y :
  Sorted R l -> (forall x, last l = Some x -> R x y) -> Sorted R (l ++ [y]).
Proof.
  induction 1 as [|x l Hs IH Hhd]; intros Hl; cbn; [repeat constructor|].
  constructor.
  - apply IH. intros z Hz. apply Hl. by rewrite last_cons, Hz.
  - destruct l as [|z l]; cbn; constructor; [by apply Hl|by inversion Hhd].
Qed.

Lemma String_leb_total a b : String.leb a b = false -> String.leb b a = true.
Proof.
  unfold String.leb. rewrite (String.compare_antisym b a).
  by destruct (String.compare a b).
Qed.

Lemma String_leb_le a b : String.leb a b = true <-> String.le a b.
Proof. unfold String.le. by rewrite Is_true_true. Qed.

(** ** Hashing

    Two different inputs with one image: what a digest, a tag or a key that
    fails to tell them apart would be evidence of. *)
Definition collide {A B} (h : A -> B) (x y : A) : Prop := x <> y /\ h x = h y.

Lemma collide_or_inj {A B} `{EqDecision A} (h : A -> B) x y : h x = h y -> x = y \/ collide h x y.
Proof. intros H. destruct (decide (x = y)) as [->|Hne]; [by left|by right]. Qed.
