(* ===== verification/Ordering.v ===== *)
(** Sorting as [ORDER BY] and [sorted] do it: the order of two columns is
    total, and filtering commutes with sorting. *)

From Stdlib Require Import ZArith.
From S2P Require Import Prelude.

Lemma find_app {A} (p : A -> bool) l k :
  List.find p (l ++ k) = match List.find p l with Some x => Some x | None => List.find p k end.
Proof. induction l as [|x l IH]; cbn; [done|]. by destruct (p x). Qed.

Lemma filter_permutation {A} (p : A -> bool) l k : l ≡ₚ k -> List.filter p l ≡ₚ List.filter p k.
Proof.
  induction 1 as [|x l k _ IH|x y l|l k m _ IH1 _ IH2]; cbn; [done| | |by rewrite IH1].
  - destruct (p x); [by rewrite IH|done].
  - destruct (p x), (p y); [apply Permutation_swap|done..].
Qed.


Section Filter.
Context {A : Type} (leb : A -> A -> bool).
Context (leb_total : forall x y, leb x y = false -> leb y x = true).
Context (leb_trans : forall x y z, leb x y = true -> leb y z = true -> leb x z = true).

Lemma insert_least x l : Forall (fun y => leb x y = true) l -> insert_sorted leb x l = x :: l.
Proof. intros [|y k Hy Hk]; cbn; [done|]. by rewrite Hy. Qed.

Lemma filter_insert_sorted (p : A -> bool) x l :
  StronglySorted (fun a b => leb a b = true) l ->
  List.filter p (insert_sorted leb x l)
  = if p x then insert_sorted leb x (List.filter p l) else List.filter p l.
Proof.
  induction 1 as [|y l Hl IH Hy]; cbn; [by destruct (p x)|].
  destruct (leb x y) eqn:Hxy; cbn.
  - destruct (p x); [|done]. rewrite insert_least; [done|].
    assert (Forall (fun z => leb x z = true) (y :: l)) as Hall.
    { constructor; [done|]. eapply List.Forall_impl; [|exact Hy]. cbn. eauto. }
    apply Forall_forall. intros z Hz. apply (Forall_in _ _ _ Hall).
    change (z ∈ List.filter p (y :: l)) in Hz. by apply list_elem_of_In, List.filter_In in Hz as [Hz%list_elem_of_In _].
  - rewrite IH. destruct (p y), (p x); cbn; by rewrite ?Hxy.
Qed.

(** Filtering sorted rows is sorting the filtered ones. *)
Lemma filter_sort_by (p : A -> bool) l : List.filter p (sort_by leb l) = sort_by leb (List.filter p l).
Proof.
  induction l as [|x l IH]; cbn; [done|]. rewrite filter_insert_sorted by by apply sort_by_sorted.
  destruct (p x); cbn; by rewrite IH.
Qed.
End Filter.

(** ** The order of [ORDER BY time, id] *)
Section TimeOrder.
Context {R : Type} (time : R -> Z) (id : R -> string).

Definition time_leb (x y : R) : bool :=
  match (time x ?= time y)%Z with Lt => true | Gt => false | Eq => String.leb (id x) (id y) end.

Lemma order_by_time rows : order_by time id rows = sort_by time_leb rows.
Proof. reflexivity. Qed.

Lemma time_leb_total x y : time_leb x y = false -> time_leb y x = true.
Proof.
  unfold time_leb. rewrite (Z.compare_antisym (time x) (time y)).
  destruct (time x ?= time y)%Z; cbn; [apply String_leb_total|done|done].
Qed.

Lemma time_leb_trans x y z : time_leb x y = true -> time_leb y z = true -> time_leb x z = true.
Proof.
  unfold time_leb. destruct (Z.compare_spec (time x) (time y)) as [H1|H1|H1];
    destruct (Z.compare_spec (time y) (time z)) as [H2|H2|H2]; try done; intros Hx Hy.
  - rewrite (proj2 (Z.compare_eq_iff _ _)) by congruence. apply String_leb_le in Hx, Hy. apply String_leb_le.
    by transitivity (id y).
  - by rewrite (proj2 (Z.compare_lt_iff _ _)) by congruence.
  - by rewrite (proj2 (Z.compare_lt_iff _ _)) by congruence.
  - by rewrite (proj2 (Z.compare_lt_iff _ _)) by (by etransitivity).
Qed.

Lemma time_leb_lt x y : (time x < time y)%Z -> time_leb x y = true.
Proof. intros H. unfold time_leb. by rewrite (proj2 (Z.compare_lt_iff _ _)) by done. Qed.

Lemma filter_order_by (p : R -> bool) rows :
  List.filter p (order_by time id rows) = order_by time id (List.filter p rows).
Proof. apply (filter_sort_by time_leb); [apply time_leb_total|apply time_leb_trans]. Qed.

(** Rows in the order of increasing times are left in place. *)
Lemma order_by_increasing rows :
  StronglySorted (fun x y => (time x < time y)%Z) rows -> order_by time id rows = rows.
Proof.
  intros H. apply (sort_by_id time_leb). induction H as [|x l Hl IH Hx]; constructor; [done|].
  eapply List.Forall_impl; [|exact Hx]. apply time_leb_lt.
Qed.
End TimeOrder.
