(* ===== verification/Binary64.v ===== *)
(** Python floats.

    A Python [float] is an IEEE 754 binary64 number; the model is
    [spec_float] of the Standard Library with precision 53 and maximal
    exponent 1024.  Every operation below is the correctly rounded one, so the
    definitions that use them compute the very numbers CPython computes.  The
    lemmas collect what the hazard rules need: comparisons form a preorder,
    [min] and [max] clamp, and sums, products and quotients of non-negative
    numbers are non-negative. *)

From Stdlib Require Import ZArith SpecFloat Lia.
From S2P Require Import Prelude.

Abbreviation f64 := spec_float.
Definition prec : Z := 53.
Definition emax : Z := 1024.

Declare Scope f64_scope.
Delimit Scope f64_scope with f64.

(** ** Conversions and literals *)

(** An integer as an unrounded operand: [int / int] in Python rounds the exact
    quotient once. *)
Definition exact_Z (z : Z) : f64 :=
  match z with
  | Z0 => S754_zero false
  | Zpos p => S754_finite false p 0
  | Zneg p => S754_finite true p 0
  end.

(** [float(z)] *)
Definition of_Z (z : Z) : f64 := binary_normalize prec emax z 0 false.

(** [a / b] on integers, for [b] not zero, and the decimal literal [a / b]. *)
Definition int_truediv (a b : Z) : f64 := SFdiv prec emax (exact_Z a) (exact_Z b).
Abbreviation lit := int_truediv.

Definition f0 : f64 := S754_zero false.
Definition f1 : f64 := of_Z 1.

(** ** Arithmetic *)
Definition fadd (x y : f64) : f64 := SFadd prec emax x y.
Definition fsub (x y : f64) : f64 := SFsub prec emax x y.
Definition fmul (x y : f64) : f64 := SFmul prec emax x y.
Definition fdiv (x y : f64) : f64 := SFdiv prec emax x y.
Definition fsqrt (x : f64) : f64 := SFsqrt prec emax x.
Definition fabs (x : f64) : f64 := SFabs x.
Definition flt (x y : f64) : bool := SFltb x y.
Definition fle (x y : f64) : bool := SFleb x y.
Definition feq (x y : f64) : bool := SFeqb x y.

Infix "+" := fadd : f64_scope.
Infix "-" := fsub : f64_scope.
Infix "*" := fmul : f64_scope.
Infix "/" := fdiv : f64_scope.
Infix "<?" := flt : f64_scope.
Infix "<=?" := fle : f64_scope.
Notation "x >=? y" := (fle y x) : f64_scope.
Notation "x >? y" := (flt y x) : f64_scope.

(** [x / y] on floats, which raises when [y] is zero. *)
Definition py_div (x y : f64) : res f64 :=
  if feq y f0 then Raise (OtherError "ZeroDivisionError") else Ok (fdiv x y).

(** [min(x, y)] and [max(x, y)] keep the first argument unless the second is
    strictly better, hence also when the second is NaN. *)
Definition py_min (x y : f64) : f64 := if flt y x then y else x.
Definition py_max (x y : f64) : f64 := if flt x y then y else x.
(** [max(0.0, min(1.0, x))] *)
Definition clamp01 (x : f64) : f64 := py_max f0 (py_min f1 x).

(** [float(b)] for a Boolean. *)
Definition of_bool (b : bool) : f64 := if b then f1 else f0.

(** [math.isfinite(x)] *)
Definition isfinite (x : f64) : bool :=
  match x with S754_zero _ | S754_finite _ _ _ => true | _ => false end.

(** [float(z)]; raises when [z] is too large. *)
Definition py_float (z : Z) : res f64 :=
  if isfinite (of_Z z) then Ok (of_Z z) else Raise (OtherError "OverflowError").

(** [sum(xs)] on floats, starting from the integer 0: CPython adds with
    Neumaier's compensation and adds the compensation back at the end. *)
Fixpoint sum_from (hi lo : f64) (xs : list f64) : f64 :=
  match xs with
  | [] => if negb (feq lo f0) && isfinite lo then fadd hi lo else hi
  | x :: xs =>
      let t := fadd hi x in
      let lo := if fle (fabs x) (fabs hi) then fadd lo (fadd (fsub hi t) x)
                else fadd lo (fadd (fsub x t) hi) in
      sum_from t lo xs
  end.
Definition py_sum (xs : list f64) : f64 :=
  match xs with [] => f0 | x :: xs => sum_from (fadd f0 x) f0 xs end.

(** ** Integers from floats *)

(** [num * 2^e / den], rounded half to even. *)
Definition div_half_even (num den : Z) : Z :=
  let q := (num / den)%Z in
  let r := (num mod den)%Z in
  match (2 * r ?= den)%Z with
  | Lt => q
  | Gt => q + 1
  | Eq => if Z.even q then q else q + 1
  end%Z.

(** [round(x)]; raises on infinities and NaN. *)
Definition py_round (x : f64) : res Z :=
  match x with
  | S754_zero _ => Ok 0%Z
  | S754_infinity _ => Raise (OtherError "OverflowError")
  | S754_nan => Raise (ValueError "cannot convert float NaN to integer")
  | S754_finite s m e =>
      let v := match e with
               | Zneg d => div_half_even (Zpos m) (2 ^ Zpos d)
               | _ => (Zpos m * 2 ^ e)%Z
               end in
      Ok (if s then - v else v)%Z
  end.

(** [int(x)]: truncation. *)
Definition py_int (x : f64) : res Z :=
  match x with
  | S754_zero _ => Ok 0%Z
  | S754_infinity _ => Raise (OtherError "OverflowError")
  | S754_nan => Raise (ValueError "cannot convert float NaN to integer")
  | S754_finite s m e =>
      let v := match e with
               | Zneg d => (Zpos m / 2 ^ Zpos d)%Z
               | _ => (Zpos m * 2 ^ e)%Z
               end in
      Ok (if s then - v else v)%Z
  end.

(** [math.ceil(x)] *)
Definition py_ceil (x : f64) : res Z :=
  match x with
  | S754_zero _ => Ok 0%Z
  | S754_infinity _ => Raise (OtherError "OverflowError")
  | S754_nan => Raise (ValueError "cannot convert float NaN to integer")
  | S754_finite s m e =>
      let v := if s then Zneg m else Zpos m in
      Ok (match e with
          | Zneg d => - ((- v) / 2 ^ Zpos d)
          | _ => v * 2 ^ e
          end)%Z
  end.

(** [round(x, 6)]: the decimal with six digits nearest to [x], as a float. *)
Definition py_round6 (x : f64) : f64 :=
  match x with
  | S754_finite s m e =>
      let v := match e with
               | Zneg d => div_half_even (Zpos m * 1000000) (2 ^ Zpos d)
               | _ => (Zpos m * 2 ^ e * 1000000)%Z
               end in
      match int_truediv v 1000000 with
      | S754_finite _ m' e' => S754_finite s m' e'
      | _ => S754_zero s
      end
  | _ => x
  end.

(** [x >= z] for a float [x] and an integer [z], compared exactly. *)
Definition fge_Z (x : f64) (z : Z) : bool :=
  match x with
  | S754_zero _ => (z <=? 0)%Z
  | S754_infinity s => negb s
  | S754_nan => false
  | S754_finite s m e =>
      let v := if s then Zneg m else Zpos m in
      match e with
      | Zneg d => (z * 2 ^ Zpos d <=? v)%Z
      | _ => (z <=? v * 2 ^ e)%Z
      end
  end.

#[export] Instance f64_eq_dec : EqDecision f64.
Proof. solve_decision. Defined.

(** ** Comparisons *)
Definition is_nan (x : f64) : bool := match x with S754_nan => true | _ => false end.
(** [x > z] for a float [x] and an integer [z], compared exactly. *)
Definition fgt_Z (x : f64) (z : Z) : bool := negb (is_nan x) && negb (fge_Z (SFopp x) (- z)).

(** The order of floats is the lexicographic order of a key of integers: the
    class and sign, then the exponent, then the mantissa. *)
Definition fkey (x : f64) : option (Z * Z * Z) :=
  match x with
  | S754_nan => None
  | S754_infinity true => Some (-2, 0, 0)%Z
  | S754_finite true m e => Some (-1, - e, - Zpos m)%Z
  | S754_zero _ => Some (0, 0, 0)%Z
  | S754_finite false m e => Some (1, e, Zpos m)%Z
  | S754_infinity false => Some (2, 0, 0)%Z
  end.

Definition lexcmp (k l : Z * Z * Z) : comparison :=
  match k, l with
  | (a, b, c), (a', b', c') =>
      match (a ?= a')%Z with
      | Eq => match (b ?= b')%Z with Eq => (c ?= c')%Z | r => r end
      | r => r
      end
  end.

Lemma fcompare_key x y :
  SFcompare x y =
  match fkey x, fkey y with Some k, Some l => Some (lexcmp k l) | _, _ => None end.
Proof.
  destruct x as [[]|[]| |[] mx ex], y as [[]|[]| |[] my ey]; try reflexivity; cbn.
  all: rewrite ?Z.compare_opp; try rewrite (Z.compare_antisym ex ey);
    destruct (ex ?= ey)%Z; try reflexivity; cbn.
  f_equal. symmetry. apply (Pos.compare_antisym mx my).
Qed.

Lemma lexcmp_le k l m : lexcmp k l <> Gt -> lexcmp l m <> Gt -> lexcmp k m <> Gt.
Proof.
  destruct k as [[??]?], l as [[??]?], m as [[??]?]; cbn.
  repeat case Z.compare_spec; intros; subst; try done; lia.
Qed.

Lemma lexcmp_antisym k l : lexcmp l k = CompOpp (lexcmp k l).
Proof.
  destruct k as [[a b] c], l as [[a' b'] c']; cbn.
  rewrite (Z.compare_antisym a a'), (Z.compare_antisym b b'), (Z.compare_antisym c c').
  by destruct (a ?= a')%Z; cbn; [destruct (b ?= b')%Z|..].
Qed.

Lemma fle_key x y :
  fle x y = true <->
  exists k l, fkey x = Some k /\ fkey y = Some l /\ lexcmp k l <> Gt.
Proof.
  unfold fle, SFleb. rewrite fcompare_key. destruct (fkey x) as [k|], (fkey y) as [l|].
  - destruct (lexcmp k l) eqn:E; split; intros H; try done;
      try (exists k, l; rewrite E; done);
      destruct H as (? & ? & [= <-] & [= <-] & H); congruence.
  - split; [done|]. by intros (?&?&?&?&?).
  - split; [done|]. by intros (?&?&?&?&?).
  - split; [done|]. by intros (?&?&?&?&?).
Qed.

Lemma flt_key x y :
  flt x y = true <->
  exists k l, fkey x = Some k /\ fkey y = Some l /\ lexcmp k l = Lt.
Proof.
  unfold flt, SFltb. rewrite fcompare_key. destruct (fkey x) as [k|], (fkey y) as [l|].
  - destruct (lexcmp k l) eqn:E; split; intros H; try done;
      try (exists k, l; rewrite E; done);
      destruct H as (? & ? & [= <-] & [= <-] & H); congruence.
  - split; [done|]. by intros (?&?&?&?&?).
  - split; [done|]. by intros (?&?&?&?&?).
  - split; [done|]. by intros (?&?&?&?&?).
Qed.

Lemma fle_trans x y z : fle x y = true -> fle y z = true -> fle x z = true.
Proof.
  rewrite !fle_key. intros (k & l & Hk & Hl & H) (l' & m & Hl' & Hm & H').
  rewrite Hl in Hl'. injection Hl' as <-. exists k, m. eauto using lexcmp_le.
Qed.

Lemma flt_fle x y : flt x y = true -> fle x y = true.
Proof. rewrite fle_key, flt_key. intros (k & l & ? & ? & H). exists k, l. by rewrite H. Qed.

Lemma fle_refl x : is_nan x = false -> fle x x = true.
Proof.
  intros H. apply fle_key. destruct (fkey x) as [k|] eqn:E; [|by destruct x as [[]|[]| |[]]].
  exists k, k. split_and!; [done..|]. destruct k as [[??]?]. cbn. by rewrite !Z.compare_refl.
Qed.

(** Neither operand is NaN when a comparison succeeds. *)
Lemma fle_not_nan x y : fle x y = true -> is_nan x = false /\ is_nan y = false.
Proof. by destruct x as [[]|[]| |[]], y as [[]|[]| |[]]. Qed.

Lemma flt_false_fle x y :
  is_nan x = false -> is_nan y = false -> flt x y = false -> fle y x = true.
Proof.
  intros Hx Hy H. apply fle_key.
  destruct (fkey x) as [k|] eqn:E; [|by destruct x as [[]|[]| |[]]].
  destruct (fkey y) as [l|] eqn:E'; [|by destruct y as [[]|[]| |[]]].
  exists l, k. split_and!; [done..|]. rewrite lexcmp_antisym. intros Hgt.
  destruct (lexcmp k l) eqn:Hc; try done.
  assert (flt x y = true) by (apply flt_key; eauto). congruence.
Qed.

(** [fle] and [flt] exclude each other. *)
Lemma fle_flt_false x y : fle x y = true -> flt y x = false.
Proof.
  intros H. destruct (flt y x) eqn:E; [|done].
  apply fle_key in H as (k & l & Hk & Hl & H). apply flt_key in E as (l' & k' & Hl' & Hk' & E).
  simplify_eq. rewrite lexcmp_antisym, E in H. done.
Qed.

Lemma fle_false_flt x y :
  is_nan x = false -> is_nan y = false -> fle x y = false -> flt y x = true.
Proof.
  intros Hx Hy H. destruct (flt y x) eqn:E; [done|].
  apply flt_false_fle in E; congruence.
Qed.

(** ** Minimum and maximum *)
Lemma py_min_le_l x y : is_nan x = false -> fle (py_min x y) x = true.
Proof.
  intros H. unfold py_min. destruct (flt y x) eqn:E; [by apply flt_fle|by apply fle_refl].
Qed.

Lemma py_max_ge_l x y : is_nan x = false -> fle x (py_max x y) = true.
Proof.
  intros H. unfold py_max. destruct (flt x y) eqn:E; [by apply flt_fle|by apply fle_refl].
Qed.

Lemma py_min_glb z x y : fle z x = true -> fle z y = true -> fle z (py_min x y) = true.
Proof. unfold py_min. by destruct (flt y x). Qed.

Lemma py_max_lub z x y : fle x z = true -> fle y z = true -> fle (py_max x y) z = true.
Proof. unfold py_max. by destruct (flt x y). Qed.

(** [max(0.0, min(1.0, x))] lies in the unit interval whatever [x] is, NaN included. *)
Lemma clamp01_unit x : fle f0 (clamp01 x) = true /\ fle (clamp01 x) f1 = true.
Proof.
  unfold clamp01. split; [by apply py_max_ge_l|].
  apply py_max_lub; [reflexivity|]. by apply py_min_le_l.
Qed.

(** ** Signs

    [nonneg x]: [x] is zero or positive, possibly infinite, and not NaN. *)
Definition nonneg (x : f64) : bool :=
  match x with
  | S754_zero _ | S754_finite false _ _ | S754_infinity false => true
  | _ => false
  end.

Lemma nonneg_fle x : nonneg x = fle f0 x.
Proof. by destruct x as [[]|[]| |[] ]. Qed.

Section Signs.
Open Scope Z_scope.

Lemma shr_1_nonneg r : 0 <= shr_m r -> 0 <= shr_m (shr_1 r).
Proof. destruct r as [m ? ?]. by destruct m as [|[]|]. Qed.

Lemma iter_pos_inv {A} (P : A -> Prop) (f : A -> A) n x :
  (forall a, P a -> P (f a)) -> P x -> P (SpecFloat.iter_pos f n x).
Proof. intros Hf. revert x. induction n; cbn; intros x Hx; auto. Qed.

Lemma shr_nonneg r e n : 0 <= shr_m r -> 0 <= shr_m (fst (shr r e n)).
Proof.
  intros H. destruct n; cbn; [done| |done].
  apply (iter_pos_inv (fun r => 0 <= shr_m r)); [apply shr_1_nonneg|done].
Qed.

Lemma round_nearest_even_nonneg m l : 0 <= m -> 0 <= round_nearest_even m l.
Proof. destruct l as [|[]]; cbn; try lia. destruct (Z.even m); lia. Qed.

(** Rounding keeps the requested sign and never produces NaN. *)
Lemma binary_round_aux_sign s m e l :
  0 <= m ->
  match binary_round_aux prec emax s m e l with
  | S754_zero s' | S754_infinity s' | S754_finite s' _ _ => s' = s
  | S754_nan => False
  end.
Proof.
  intros Hm. unfold binary_round_aux, shr_fexp.
  assert (H1 : 0 <= shr_m (shr_record_of_loc m l)) by (destruct l as [|[]]; done).
  apply (shr_nonneg _ e (fexp prec emax (Zdigits2 m + e) - e)) in H1.
  destruct (shr _ _ _) as [r1 e1] in *. cbn in H1 |- *.
  apply (round_nearest_even_nonneg _ (loc_of_shr_record r1)) in H1.
  set (m1 := round_nearest_even _ _) in *.
  assert (H2 : 0 <= shr_m (shr_record_of_loc m1 loc_Exact)) by done.
  apply (shr_nonneg _ e1 (fexp prec emax (Zdigits2 m1 + e1) - e1)) in H2.
  cbn [shr_record_of_loc] in H2.
  destruct (shr (Build_shr_record m1 false false) e1 _) as [r2 e2] in *. cbn in H2 |- *.
  destruct (shr_m r2); [done| |lia]. by destruct (e2 <=? emax - prec).
Qed.

Lemma binary_round_aux_nonneg m e l :
  0 <= m -> nonneg (binary_round_aux prec emax false m e l) = true.
Proof.
  intros H. pose proof (binary_round_aux_sign false m e l H) as H'.
  by destruct (binary_round_aux _ _ _ _ _ _) as [[]|[]| |[]].
Qed.

Lemma binary_normalize_nonneg m e :
  0 <= m -> nonneg (binary_normalize prec emax m e false) = true.
Proof.
  intros H. destruct m as [|p|]; [done| |lia]. cbn. unfold binary_round.
  destruct (shl_align _ _ _) as [mz ez]. by apply binary_round_aux_nonneg.
Qed.

Lemma fadd_nonneg x y : nonneg x = true -> nonneg y = true -> nonneg (fadd x y) = true.
Proof.
  destruct x as [[]|[]| |[] mx ex], y as [[]|[]| |[] my ey]; try done; intros _ _.
  cbn [fadd SFadd]. apply binary_normalize_nonneg. cbn. lia.
Qed.

(** The product of a finite positive constant and a non-negative number. *)
Lemma fmul_nonneg c x :
  nonneg c = true -> isfinite c = true -> feq c f0 = false ->
  nonneg x = true -> nonneg (fmul c x) = true.
Proof.
  destruct c as [[]|[]| |[] mc ec], x as [[]|[]| |[] mx ex]; try done; intros _ _ _ _.
  cbn [fmul SFmul xorb]. by apply binary_round_aux_nonneg.
Qed.

(** The product of two finite non-negative numbers. *)
Lemma fmul_finite_nonneg x y :
  nonneg x = true -> isfinite x = true -> nonneg y = true -> isfinite y = true ->
  nonneg (fmul x y) = true.
Proof.
  destruct x as [[]|[]| |[] mc ec], y as [[]|[]| |[] mx ex]; try done; intros _ _ _ _.
  cbn [fmul SFmul xorb]. by apply binary_round_aux_nonneg.
Qed.

Lemma fdiv_nonneg x c :
  nonneg c = true -> isfinite c = true -> feq c f0 = false ->
  nonneg x = true -> nonneg (fdiv x c) = true.
Proof.
  destruct c as [[]|[]| |[] mc ec], x as [[]|[]| |[] mx ex]; try done; intros _ _ _ _.
  cbn [fdiv SFdiv xorb]. unfold SFdiv_core_binary.
  match goal with |- context [Z.div_eucl ?a ?b] => set (a0 := a) end.
  assert (Ha : 0 <= a0).
  { unfold a0. destruct (_ - _ - _); try lia. by apply Z.shiftl_nonneg. }
  pose proof (Z.div_pos a0 (Zpos mc) Ha eq_refl) as Hq. unfold Z.div in Hq.
  destruct (Z.div_eucl a0 (Zpos mc)) as [q r]. by apply binary_round_aux_nonneg.
Qed.
End Signs.

Lemma py_min_nonneg x y : nonneg x = true -> nonneg y = true -> nonneg (py_min x y) = true.
Proof. unfold py_min. by destruct (flt y x). Qed.

Lemma py_max_nonneg_l x y : nonneg x = true -> nonneg (py_max x y) = true.
Proof.
  rewrite !nonneg_fle. intros H. apply (fle_trans _ x); [done|].
  apply py_max_ge_l. by apply fle_not_nan in H as [_ ?].
Qed.

Lemma clamp01_nonneg x : nonneg (clamp01 x) = true.
Proof. rewrite nonneg_fle. apply clamp01_unit. Qed.

Lemma fle_finite_between x y z :
  fle x y = true -> fle y z = true -> isfinite x = true -> isfinite z = true ->
  isfinite y = true.
Proof. by destruct x as [[]|[]| |[]], y as [[]|[]| |[]], z as [[]|[]| |[]]. Qed.

Lemma clamp01_finite x : isfinite (clamp01 x) = true.
Proof. destruct (clamp01_unit x). by eapply fle_finite_between. Qed.

(** [unit_interval x]: [0.0 <= x <= 1.0], the constraint of every score field. *)
Definition unit_interval (x : f64) : bool := fle f0 x && fle x f1.

(** ** Results that stay finite

    Every float of the program is a canonical binary64 number. *)
Definition canonical (x : f64) : Prop := valid_binary prec emax x = true.

Section Finite.
Open Scope Z_scope.

Lemma digits2_log2 p : Zpos (digits2_pos p) = Z.log2 (Zpos p) + 1.
Proof.
  assert (digits2_pos p = Pos.size p) as -> by (induction p; cbn; congruence).
  destruct p; cbn; lia.
Qed.

Lemma Zdigits2_bound m k : 0 <= m < 2 ^ k -> 0 <= k -> Zdigits2 m <= k.
Proof.
  intros [H0 Hm] Hk. destruct m as [|p|p]; [done| |lia]. cbn.
  rewrite digits2_log2. apply Z.log2_lt_pow2 in Hm; lia.
Qed.

Lemma shr_m_le r e n :
  0 <= shr_m r -> shr_m (fst (shr r e n)) <= shr_m r /\ snd (shr r e n) <= Z.max e (e + n).
Proof.
  intros H. destruct n as [|p|]; cbn; [lia| |lia]. split; [|lia].
  apply (iter_pos_inv (fun r' => 0 <= shr_m r' <= shr_m r)); [|lia].
  intros [m a b] Hm. destruct m as [|[]|]; cbn in *; lia.
Qed.

(** Rounding an integer below [2^200] with a non-positive exponent does not overflow. *)
Lemma binary_round_aux_finite s m e l :
  0 <= m < 2 ^ 200 -> e <= 0 -> isfinite (binary_round_aux prec emax s m e l) = true.
Proof.
  intros Hm He. unfold binary_round_aux, shr_fexp.
  assert (H1 : 0 <= shr_m (shr_record_of_loc m l)) by (destruct l as [|[]]; cbn; lia).
  assert (Hm1 : shr_m (shr_record_of_loc m l) = m) by (destruct l as [|[]]; done).
  pose proof (Zdigits2_bound m 200 Hm) as Hd.
  pose proof (shr_m_le _ e (fexp prec emax (Zdigits2 m + e) - e) H1) as [Hle1 He1].
  apply (shr_nonneg _ e (fexp prec emax (Zdigits2 m + e) - e)) in H1.
  destruct (shr _ _ _) as [r1 e1] in *. cbn [fst snd] in *.
  assert (Hr : 0 <= round_nearest_even (shr_m r1) (loc_of_shr_record r1) < 2 ^ 201).
  { unfold round_nearest_even. destruct (loc_of_shr_record r1) as [|[]]; [lia|destruct (Z.even _)|..]; lia. }
  set (m1 := round_nearest_even _ _) in *.
  pose proof (Zdigits2_bound m1 201 Hr) as Hd1.
  assert (H2 : 0 <= shr_m (shr_record_of_loc m1 loc_Exact)) by (cbn; lia).
  pose proof (shr_m_le _ e1 (fexp prec emax (Zdigits2 m1 + e1) - e1) H2) as [_ He2].
  apply (shr_nonneg _ e1 (fexp prec emax (Zdigits2 m1 + e1) - e1)) in H2.
  cbn [shr_record_of_loc] in *.
  destruct (shr (Build_shr_record m1 false false) e1 _) as [r2 e2] in *. cbn [fst snd] in *.
  unfold fexp, SpecFloat.emin, prec, emax in *.
  destruct (shr_m r2); [done| |lia]. replace (e2 <=? 1024 - 53) with true by lia. done.
Qed.

Lemma canonical_mantissa_bound s m e : canonical (S754_finite s m e) -> Zpos m < 2 ^ 53.
Proof.
  unfold canonical, valid_binary, bounded, canonical_mantissa. intros [H%Z.eqb_eq _]%andb_true_iff.
  unfold fexp, SpecFloat.emin, prec, emax in H.
  assert (Hd : Zpos (digits2_pos m) <= 53) by lia.
  rewrite digits2_log2 in Hd. apply Z.log2_lt_cancel. rewrite Z.log2_pow2; lia.
Qed.

(** A canonical number of the unit interval times a small canonical constant. *)
Lemma fmul_unit_finite x s m e :
  canonical x -> fle f0 x = true -> fle x f1 = true -> Zpos m < 2 ^ 100 -> e <= 0 ->
  isfinite (fmul x (S754_finite s m e)) = true.
Proof.
  intros Hc H0 H1 Hm He. destruct x as [sx|[]| |sx mx ex]; try done.
  unfold fmul, SFmul. apply binary_round_aux_finite.
  - apply canonical_mantissa_bound in Hc. split; [lia|].
    change (2 ^ 200) with (2 ^ 100 * 2 ^ 100).
    change (Zpos (mx * m)) with (Zpos mx * Zpos m).
    enough (Zpos mx < 2 ^ 100) by nia. eapply Z.lt_trans; [exact Hc|]. done.
  - destruct sx; [done|].
    assert (E : f1 = S754_finite false 4503599627370496 (-52)) by (vm_compute; reflexivity).
    rewrite E in H1. unfold fle, SFleb, SFcompare in H1.
    destruct (Z.compare_spec ex (-52)); [lia|lia|done].
Qed.

Lemma clamp01_canonical x : canonical x -> canonical (clamp01 x).
Proof.
  unfold clamp01, py_max, py_min. intros H.
  by destruct (flt x f1); destruct (flt f0 _).
Qed.
End Finite.

#[export] Hint Resolve fadd_nonneg fmul_nonneg fdiv_nonneg py_min_nonneg py_max_nonneg_l
  clamp01_nonneg clamp01_finite : py.
