(* ===== verification/Enums.v ===== *)
(** Enumerations of the domain model (domain/models.py).

    One module per enumeration, with the members as constructors, decidable
    equality, the string (or integer) the code obtains with [.value], and the
    list of members a [for ... in Enum] loop visits.  The command life cycle
    table and its guard close the file. *)

From Stdlib Require Import ZArith.
From S2P Require Import Prelude.
Open Scope Z_scope.

Module HazardKind.
Inductive t : Type :=
  | WILDFIRE
  | FLOOD
  | EARTHQUAKE
  | LANDSLIDE.
#[global] Instance eq_dec : EqDecision t.
Proof. solve_decision. Defined.
(** [.value] *)
Definition value (x : t) : string :=
  match x with
  | WILDFIRE => "wildfire"
  | FLOOD => "flood"
  | EARTHQUAKE => "earthquake"
  | LANDSLIDE => "landslide"
  end.
(** The members, in declaration order. *)
Definition members : list t :=
  [WILDFIRE; FLOOD; EARTHQUAKE; LANDSLIDE].
End HazardKind.

Module SourceMode.
Inductive t : Type :=
  | LIVE
  | CACHED
  | SIMULATED
  | FIXTURE
  | REPLAYED.
#[global] Instance eq_dec : EqDecision t.
Proof. solve_decision. Defined.
(** [.value] *)
Definition value (x : t) : string :=
  match x with
  | LIVE => "live"
  | CACHED => "cached"
  | SIMULATED => "simulated"
  | FIXTURE => "fixture"
  | REPLAYED => "replayed"
  end.
(** The members, in declaration order. *)
Definition members : list t :=
  [LIVE; CACHED; SIMULATED; FIXTURE; REPLAYED].
End SourceMode.

Module ContentOrigin.
Inductive t : Type :=
  | SOURCE
  | OPERATOR
  | DETERMINISTIC_TRANSFORM
  | ANALYTICAL_MODEL
  | GENERATIVE_MODEL
  | UNKNOWN.
#[global] Instance eq_dec : EqDecision t.
Proof. solve_decision. Defined.
(** [.value] *)
Definition value (x : t) : string :=
  match x with
  | SOURCE => "source"
  | OPERATOR => "operator"
  | DETERMINISTIC_TRANSFORM => "deterministic_transform"
  | ANALYTICAL_MODEL => "analytical_model"
  | GENERATIVE_MODEL => "generative_model"
  | UNKNOWN => "unknown"
  end.
(** The members, in declaration order. *)
Definition members : list t :=
  [SOURCE; OPERATOR; DETERMINISTIC_TRANSFORM; ANALYTICAL_MODEL; GENERATIVE_MODEL; UNKNOWN].
End ContentOrigin.

Module MeasurementQuality.
Inductive t : Type :=
  | VALID
  | SUSPECT
  | INVALID
  | MISSING.
#[global] Instance eq_dec : EqDecision t.
Proof. solve_decision. Defined.
(** [.value] *)
Definition value (x : t) : string :=
  match x with
  | VALID => "valid"
  | SUSPECT => "suspect"
  | INVALID => "invalid"
  | MISSING => "missing"
  end.
(** The members, in declaration order. *)
Definition members : list t :=
  [VALID; SUSPECT; INVALID; MISSING].
End MeasurementQuality.

Module MeasurementStatistic.
Inductive t : Type :=
  | INSTANTANEOUS
  | RATE
  | ACCUMULATION
  | MEAN
  | RMS
  | CHANGE.
#[global] Instance eq_dec : EqDecision t.
Proof. solve_decision. Defined.
(** [.value] *)
Definition value (x : t) : string :=
  match x with
  | INSTANTANEOUS => "instantaneous"
  | RATE => "rate"
  | ACCUMULATION => "accumulation"
  | MEAN => "mean"
  | RMS => "rms"
  | CHANGE => "change"
  end.
(** The members, in declaration order. *)
Definition members : list t :=
  [INSTANTANEOUS; RATE; ACCUMULATION; MEAN; RMS; CHANGE].
End MeasurementStatistic.

Module UncertaintyStatus.
Inductive t : Type :=
  | KNOWN
  | UNKNOWN
  | NOT_APPLICABLE.
#[global] Instance eq_dec : EqDecision t.
Proof. solve_decision. Defined.
(** [.value] *)
Definition value (x : t) : string :=
  match x with
  | KNOWN => "known"
  | UNKNOWN => "unknown"
  | NOT_APPLICABLE => "not_applicable"
  end.
(** The members, in declaration order. *)
Definition members : list t :=
  [KNOWN; UNKNOWN; NOT_APPLICABLE].
End UncertaintyStatus.

Module RuntimeMode.
Inductive t : Type :=
  | JUDGE
  | BENCHMARK
  | FIELD_LAB
  | DEVELOPMENT.
#[global] Instance eq_dec : EqDecision t.
Proof. solve_decision. Defined.
(** [.value] *)
Definition value (x : t) : string :=
  match x with
  | JUDGE => "judge"
  | BENCHMARK => "benchmark"
  | FIELD_LAB => "field_lab"
  | DEVELOPMENT => "development"
  end.
(** The members, in declaration order. *)
Definition members : list t :=
  [JUDGE; BENCHMARK; FIELD_LAB; DEVELOPMENT].
End RuntimeMode.

Module HealthState.
Inductive t : Type :=
  | HEALTHY
  | DEGRADED
  | STALE
  | FAILED
  | UNKNOWN.
#[global] Instance eq_dec : EqDecision t.
Proof. solve_decision. Defined.
(** [.value] *)
Definition value (x : t) : string :=
  match x with
  | HEALTHY => "healthy"
  | DEGRADED => "degraded"
  | STALE => "stale"
  | FAILED => "failed"
  | UNKNOWN => "unknown"
  end.
(** The members, in declaration order. *)
Definition members : list t :=
  [HEALTHY; DEGRADED; STALE; FAILED; UNKNOWN].
End HealthState.

Module CoverageState.
Inductive t : Type :=
  | SUFFICIENT
  | PARTIAL
  | BLIND.
#[global] Instance eq_dec : EqDecision t.
Proof. solve_decision. Defined.
(** [.value] *)
Definition value (x : t) : string :=
  match x with
  | SUFFICIENT => "sufficient"
  | PARTIAL => "partial"
  | BLIND => "blind"
  end.
(** The members, in declaration order. *)
Definition members : list t :=
  [SUFFICIENT; PARTIAL; BLIND].
End CoverageState.

Module IncidentState.
Inductive t : Type :=
  | NORMAL
  | WATCH
  | SUSPECTED
  | CONFIRMED
  | RESOLVING
  | RESOLVED
  | DEGRADED.
#[global] Instance eq_dec : EqDecision t.
Proof. solve_decision. Defined.
(** [.value] *)
Definition value (x : t) : string :=
  match x with
  | NORMAL => "normal"
  | WATCH => "watch"
  | SUSPECTED => "suspected"
  | CONFIRMED => "confirmed"
  | RESOLVING => "resolving"
  | RESOLVED => "resolved"
  | DEGRADED => "degraded"
  end.
(** The members, in declaration order. *)
Definition members : list t :=
  [NORMAL; WATCH; SUSPECTED; CONFIRMED; RESOLVING; RESOLVED; DEGRADED].
End IncidentState.

Module CriticalityTier.
Inductive t : Type :=
  | A_IMMEDIATE
  | B_URGENT
  | C_TIMELY
  | D_PERIODIC
  | E_BACKGROUND.
#[global] Instance eq_dec : EqDecision t.
Proof. solve_decision. Defined.
(** [int(tier)] *)
Definition value (x : t) : Z :=
  match x with
  | A_IMMEDIATE => 0
  | B_URGENT => 1
  | C_TIMELY => 2
  | D_PERIODIC => 3
  | E_BACKGROUND => 4
  end.
(** The members, in declaration order. *)
Definition members : list t :=
  [A_IMMEDIATE; B_URGENT; C_TIMELY; D_PERIODIC; E_BACKGROUND].
End CriticalityTier.

Module JobStatus.
Inductive t : Type :=
  | QUEUED
  | RUNNING
  | COMPLETED
  | DEFERRED
  | REJECTED
  | CANCELLED.
#[global] Instance eq_dec : EqDecision t.
Proof. solve_decision. Defined.
(** [.value] *)
Definition value (x : t) : string :=
  match x with
  | QUEUED => "queued"
  | RUNNING => "running"
  | COMPLETED => "completed"
  | DEFERRED => "deferred"
  | REJECTED => "rejected"
  | CANCELLED => "cancelled"
  end.
(** The members, in declaration order. *)
Definition members : list t :=
  [QUEUED; RUNNING; COMPLETED; DEFERRED; REJECTED; CANCELLED].
End JobStatus.

Module OpportunityDisposition.
Inductive t : Type :=
  | OFFERED
  | QUEUED
  | DEFERRED
  | PROCESSED
  | SKIPPED
  | REPLACED
  | INVALID
  | DROPPED
  | EXPIRED
  | FAILED
  | DEADLINE_MISSED.
#[global] Instance eq_dec : EqDecision t.
Proof. solve_decision. Defined.
(** [.value] *)
Definition value (x : t) : string :=
  match x with
  | OFFERED => "offered"
  | QUEUED => "queued"
  | DEFERRED => "deferred"
  | PROCESSED => "processed"
  | SKIPPED => "skipped"
  | REPLACED => "replaced"
  | INVALID => "invalid"
  | DROPPED => "dropped"
  | EXPIRED => "expired"
  | FAILED => "failed"
  | DEADLINE_MISSED => "deadline_missed"
  end.
(** The members, in declaration order. *)
Definition members : list t :=
  [OFFERED; QUEUED; DEFERRED; PROCESSED; SKIPPED; REPLACED; INVALID; DROPPED; EXPIRED; FAILED; DEADLINE_MISSED].
End OpportunityDisposition.

Module ConfigurationState.
Inductive t : Type :=
  | STAGED
  | ACTIVE
  | LAST_KNOWN_GOOD
  | REJECTED
  | ROLLED_BACK.
#[global] Instance eq_dec : EqDecision t.
Proof. solve_decision. Defined.
(** [.value] *)
Definition value (x : t) : string :=
  match x with
  | STAGED => "staged"
  | ACTIVE => "active"
  | LAST_KNOWN_GOOD => "last_known_good"
  | REJECTED => "rejected"
  | ROLLED_BACK => "rolled_back"
  end.
(** The members, in declaration order. *)
Definition members : list t :=
  [STAGED; ACTIVE; LAST_KNOWN_GOOD; REJECTED; ROLLED_BACK].
End ConfigurationState.

Module ReviewActionKind.
Inductive t : Type :=
  | ACKNOWLEDGE
  | SNOOZE
  | UNSNOOZE
  | COMMENT.
#[global] Instance eq_dec : EqDecision t.
Proof. solve_decision. Defined.
(** [.value] *)
Definition value (x : t) : string :=
  match x with
  | ACKNOWLEDGE => "acknowledge"
  | SNOOZE => "snooze"
  | UNSNOOZE => "unsnooze"
  | COMMENT => "comment"
  end.
(** The members, in declaration order. *)
Definition members : list t :=
  [ACKNOWLEDGE; SNOOZE; UNSNOOZE; COMMENT].
End ReviewActionKind.

Module NotificationStatus.
Inductive t : Type :=
  | PENDING
  | DELIVERED
  | FAILED
  | SUPPRESSED
  | EXPIRED
  | DEAD_LETTER.
#[global] Instance eq_dec : EqDecision t.
Proof. solve_decision. Defined.
(** [.value] *)
Definition value (x : t) : string :=
  match x with
  | PENDING => "pending"
  | DELIVERED => "delivered"
  | FAILED => "failed"
  | SUPPRESSED => "suppressed"
  | EXPIRED => "expired"
  | DEAD_LETTER => "dead_letter"
  end.
(** The members, in declaration order. *)
Definition members : list t :=
  [PENDING; DELIVERED; FAILED; SUPPRESSED; EXPIRED; DEAD_LETTER].
End NotificationStatus.

Module AuthorityMutationKind.
Inductive t : Type :=
  | INCIDENT
  | REVIEW
  | NOTIFICATION_INTENT
  | NOTIFICATION_DELIVERY
  | CONFIGURATION
  | COMMAND
  | EVIDENCE
  | CLAIM
  | CLAIM_LINK
  | INCIDENT_RELATION
  | EVIDENCE_LIFECYCLE
  | MEDIA_PARSE
  | EVIDENCE_REEVALUATION
  | DISPOSITION.
#[global] Instance eq_dec : EqDecision t.
Proof. solve_decision. Defined.
(** [.value] *)
Definition value (x : t) : string :=
  match x with
  | INCIDENT => "incident"
  | REVIEW => "review"
  | NOTIFICATION_INTENT => "notification_intent"
  | NOTIFICATION_DELIVERY => "notification_delivery"
  | CONFIGURATION => "configuration"
  | COMMAND => "command"
  | EVIDENCE => "evidence"
  | CLAIM => "claim"
  | CLAIM_LINK => "claim_link"
  | INCIDENT_RELATION => "incident_relation"
  | EVIDENCE_LIFECYCLE => "evidence_lifecycle"
  | MEDIA_PARSE => "media_parse"
  | EVIDENCE_REEVALUATION => "evidence_reevaluation"
  | DISPOSITION => "disposition"
  end.
(** The members, in declaration order. *)
Definition members : list t :=
  [INCIDENT; REVIEW; NOTIFICATION_INTENT; NOTIFICATION_DELIVERY; CONFIGURATION; COMMAND; EVIDENCE; CLAIM; CLAIM_LINK; INCIDENT_RELATION; EVIDENCE_LIFECYCLE; MEDIA_PARSE; EVIDENCE_REEVALUATION; DISPOSITION].
End AuthorityMutationKind.

Module SourceStanding.
Inductive t : Type :=
  | OFFICIAL
  | AUTHORITATIVE
  | FIRST_PARTY
  | NEWS
  | COMMUNITY
  | UNKNOWN.
#[global] Instance eq_dec : EqDecision t.
Proof. solve_decision. Defined.
(** [.value] *)
Definition value (x : t) : string :=
  match x with
  | OFFICIAL => "official"
  | AUTHORITATIVE => "authoritative"
  | FIRST_PARTY => "first_party"
  | NEWS => "news"
  | COMMUNITY => "community"
  | UNKNOWN => "unknown"
  end.
(** The members, in declaration order. *)
Definition members : list t :=
  [OFFICIAL; AUTHORITATIVE; FIRST_PARTY; NEWS; COMMUNITY; UNKNOWN].
End SourceStanding.

Module MediaIntegrityState.
Inductive t : Type :=
  | ORIGINAL_VERIFIED
  | DERIVATIVE
  | MANIPULATION_SUSPECT
  | UNKNOWN
  | NOT_APPLICABLE.
#[global] Instance eq_dec : EqDecision t.
Proof. solve_decision. Defined.
(** [.value] *)
Definition value (x : t) : string :=
  match x with
  | ORIGINAL_VERIFIED => "original_verified"
  | DERIVATIVE => "derivative"
  | MANIPULATION_SUSPECT => "manipulation_suspect"
  | UNKNOWN => "unknown"
  | NOT_APPLICABLE => "not_applicable"
  end.
(** The members, in declaration order. *)
Definition members : list t :=
  [ORIGINAL_VERIFIED; DERIVATIVE; MANIPULATION_SUSPECT; UNKNOWN; NOT_APPLICABLE].
End MediaIntegrityState.

Module ExtractionConfidenceState.
Inductive t : Type :=
  | VERIFIED
  | MODEL_ESTIMATE
  | LOW
  | UNKNOWN
  | NOT_APPLICABLE.
#[global] Instance eq_dec : EqDecision t.
Proof. solve_decision. Defined.
(** [.value] *)
Definition value (x : t) : string :=
  match x with
  | VERIFIED => "verified"
  | MODEL_ESTIMATE => "model_estimate"
  | LOW => "low"
  | UNKNOWN => "unknown"
  | NOT_APPLICABLE => "not_applicable"
  end.
(** The members, in declaration order. *)
Definition members : list t :=
  [VERIFIED; MODEL_ESTIMATE; LOW; UNKNOWN; NOT_APPLICABLE].
End ExtractionConfidenceState.

Module EvidenceRetentionState.
Inductive t : Type :=
  | RETAINED
  | METADATA_ONLY
  | REJECTED.
#[global] Instance eq_dec : EqDecision t.
Proof. solve_decision. Defined.
(** [.value] *)
Definition value (x : t) : string :=
  match x with
  | RETAINED => "retained"
  | METADATA_ONLY => "metadata_only"
  | REJECTED => "rejected"
  end.
(** The members, in declaration order. *)
Definition members : list t :=
  [RETAINED; METADATA_ONLY; REJECTED].
End EvidenceRetentionState.

Module EvidenceRightsMode.
Inductive t : Type :=
  | RETAIN_BYTES
  | DERIVED_ONLY
  | REFERENCE_ONLY.
#[global] Instance eq_dec : EqDecision t.
Proof. solve_decision. Defined.
(** [.value] *)
Definition value (x : t) : string :=
  match x with
  | RETAIN_BYTES => "retain_bytes"
  | DERIVED_ONLY => "derived_only"
  | REFERENCE_ONLY => "reference_only"
  end.
(** The members, in declaration order. *)
Definition members : list t :=
  [RETAIN_BYTES; DERIVED_ONLY; REFERENCE_ONLY].
End EvidenceRightsMode.

Module EvidenceContentState.
Inductive t : Type :=
  | AVAILABLE
  | METADATA_ONLY
  | REDACTED
  | EXPIRED
  | DELETED
  | UNAVAILABLE_AT_CAPTURE
  | MISSING_EXTERNAL.
#[global] Instance eq_dec : EqDecision t.
Proof. solve_decision. Defined.
(** [.value] *)
Definition value (x : t) : string :=
  match x with
  | AVAILABLE => "available"
  | METADATA_ONLY => "metadata_only"
  | REDACTED => "redacted"
  | EXPIRED => "expired"
  | DELETED => "deleted"
  | UNAVAILABLE_AT_CAPTURE => "unavailable_at_capture"
  | MISSING_EXTERNAL => "missing_external"
  end.
(** The members, in declaration order. *)
Definition members : list t :=
  [AVAILABLE; METADATA_ONLY; REDACTED; EXPIRED; DELETED; UNAVAILABLE_AT_CAPTURE; MISSING_EXTERNAL].
End EvidenceContentState.

Module EvidenceLifecycleAction.
Inductive t : Type :=
  | REGISTER
  | REDACT
  | EXPIRE
  | DELETE
  | MARK_EXTERNAL_MISSING.
#[global] Instance eq_dec : EqDecision t.
Proof. solve_decision. Defined.
(** [.value] *)
Definition value (x : t) : string :=
  match x with
  | REGISTER => "register"
  | REDACT => "redact"
  | EXPIRE => "expire"
  | DELETE => "delete"
  | MARK_EXTERNAL_MISSING => "mark_external_missing"
  end.
(** The members, in declaration order. *)
Definition members : list t :=
  [REGISTER; REDACT; EXPIRE; DELETE; MARK_EXTERNAL_MISSING].
End EvidenceLifecycleAction.

Module MediaParserStatus.
Inductive t : Type :=
  | COMPLETED
  | QUARANTINED
  | REJECTED
  | FAILED.
#[global] Instance eq_dec : EqDecision t.
Proof. solve_decision. Defined.
(** [.value] *)
Definition value (x : t) : string :=
  match x with
  | COMPLETED => "completed"
  | QUARANTINED => "quarantined"
  | REJECTED => "rejected"
  | FAILED => "failed"
  end.
(** The members, in declaration order. *)
Definition members : list t :=
  [COMPLETED; QUARANTINED; REJECTED; FAILED].
End MediaParserStatus.

Module ParserIsolationState.
Inductive t : Type :=
  | NOT_REQUIRED
  | SANDBOXED
  | QUARANTINED
  | REJECTED.
#[global] Instance eq_dec : EqDecision t.
Proof. solve_decision. Defined.
(** [.value] *)
Definition value (x : t) : string :=
  match x with
  | NOT_REQUIRED => "not_required"
  | SANDBOXED => "sandboxed"
  | QUARANTINED => "quarantined"
  | REJECTED => "rejected"
  end.
(** The members, in declaration order. *)
Definition members : list t :=
  [NOT_REQUIRED; SANDBOXED; QUARANTINED; REJECTED].
End ParserIsolationState.

Module ClaimEvidenceRelation.
Inductive t : Type :=
  | SUPPORTS
  | CONTRADICTS
  | SAME_FAMILY
  | DERIVED_FROM.
#[global] Instance eq_dec : EqDecision t.
Proof. solve_decision. Defined.
(** [.value] *)
Definition value (x : t) : string :=
  match x with
  | SUPPORTS => "supports"
  | CONTRADICTS => "contradicts"
  | SAME_FAMILY => "same_family"
  | DERIVED_FROM => "derived_from"
  end.
(** The members, in declaration order. *)
Definition members : list t :=
  [SUPPORTS; CONTRADICTS; SAME_FAMILY; DERIVED_FROM].
End ClaimEvidenceRelation.

Module IncidentRelationKind.
Inductive t : Type :=
  | CASCADE_CONTEXT
  | SUSCEPTIBILITY_INCREASE
  | TEMPORAL_ASSOCIATION
  | SAME_EVENT_SOLUTION
  | MERGED_ALIAS.
#[global] Instance eq_dec : EqDecision t.
Proof. solve_decision. Defined.
(** [.value] *)
Definition value (x : t) : string :=
  match x with
  | CASCADE_CONTEXT => "cascade_context"
  | SUSCEPTIBILITY_INCREASE => "susceptibility_increase"
  | TEMPORAL_ASSOCIATION => "temporal_association"
  | SAME_EVENT_SOLUTION => "same_event_solution"
  | MERGED_ALIAS => "merged_alias"
  end.
(** The members, in declaration order. *)
Definition members : list t :=
  [CASCADE_CONTEXT; SUSCEPTIBILITY_INCREASE; TEMPORAL_ASSOCIATION; SAME_EVENT_SOLUTION; MERGED_ALIAS].
End IncidentRelationKind.

Module IncidentIdentityOutcome.
Inductive t : Type :=
  | NEW
  | DUPLICATE.
#[global] Instance eq_dec : EqDecision t.
Proof. solve_decision. Defined.
(** [.value] *)
Definition value (x : t) : string :=
  match x with
  | NEW => "new"
  | DUPLICATE => "duplicate"
  end.
(** The members, in declaration order. *)
Definition members : list t :=
  [NEW; DUPLICATE].
End IncidentIdentityOutcome.

Module IncidentCommandKind.
Inductive t : Type :=
  | CORROBORATE
  | CONTRADICT
  | CONTROL
  | RESOLVE
  | REOPEN
  | LINK
  | MERGE.
#[global] Instance eq_dec : EqDecision t.
Proof. solve_decision. Defined.
(** [.value] *)
Definition value (x : t) : string :=
  match x with
  | CORROBORATE => "corroborate"
  | CONTRADICT => "contradict"
  | CONTROL => "control"
  | RESOLVE => "resolve"
  | REOPEN => "reopen"
  | LINK => "link"
  | MERGE => "merge"
  end.
(** The members, in declaration order. *)
Definition members : list t :=
  [CORROBORATE; CONTRADICT; CONTROL; RESOLVE; REOPEN; LINK; MERGE].
End IncidentCommandKind.

Module IncidentLabel.
Inductive t : Type :=
  | CONFIRM
  | REJECT
  | UNCERTAIN
  | CONTROL.
#[global] Instance eq_dec : EqDecision t.
Proof. solve_decision. Defined.
(** [.value] *)
Definition value (x : t) : string :=
  match x with
  | CONFIRM => "confirm"
  | REJECT => "reject"
  | UNCERTAIN => "uncertain"
  | CONTROL => "control"
  end.
(** The members, in declaration order. *)
Definition members : list t :=
  [CONFIRM; REJECT; UNCERTAIN; CONTROL].
End IncidentLabel.

Module PrincipalRole.
Inductive t : Type :=
  | VIEWER
  | OPERATOR
  | ADMIN.
#[global] Instance eq_dec : EqDecision t.
Proof. solve_decision. Defined.
(** [.value] *)
Definition value (x : t) : string :=
  match x with
  | VIEWER => "viewer"
  | OPERATOR => "operator"
  | ADMIN => "admin"
  end.
(** The members, in declaration order. *)
Definition members : list t :=
  [VIEWER; OPERATOR; ADMIN].
End PrincipalRole.

Module CommandStatus.
Inductive t : Type :=
  | ACCEPTED
  | VALIDATING
  | COMMITTED
  | PROJECTED
  | REJECTED
  | EXPIRED
  | SUPERSEDED
  | CONFLICT.
#[global] Instance eq_dec : EqDecision t.
Proof. solve_decision. Defined.
(** [.value] *)
Definition value (x : t) : string :=
  match x with
  | ACCEPTED => "accepted"
  | VALIDATING => "validating"
  | COMMITTED => "committed"
  | PROJECTED => "projected"
  | REJECTED => "rejected"
  | EXPIRED => "expired"
  | SUPERSEDED => "superseded"
  | CONFLICT => "conflict"
  end.
(** The members, in declaration order. *)
Definition members : list t :=
  [ACCEPTED; VALIDATING; COMMITTED; PROJECTED; REJECTED; EXPIRED; SUPERSEDED; CONFLICT].
End CommandStatus.

(** ** The command life cycle *)

(** [_COMMAND_STATUS_TRANSITIONS] *)
Definition command_status_transitions (s : CommandStatus.t) : list CommandStatus.t :=
  match s with
  | CommandStatus.ACCEPTED =>
      [CommandStatus.VALIDATING; CommandStatus.REJECTED; CommandStatus.EXPIRED; CommandStatus.SUPERSEDED]
  | CommandStatus.VALIDATING =>
      [CommandStatus.COMMITTED; CommandStatus.REJECTED; CommandStatus.EXPIRED; CommandStatus.SUPERSEDED]
  | CommandStatus.COMMITTED => [CommandStatus.PROJECTED]
  | CommandStatus.PROJECTED | CommandStatus.REJECTED | CommandStatus.EXPIRED
  | CommandStatus.SUPERSEDED | CommandStatus.CONFLICT => []
  end.

Definition validate_command_status_transition (previous current : CommandStatus.t)
  : res CommandStatus.t :=
  if decide (current ∈ command_status_transitions previous) then Ok current
  else Raise (ValueError ("illegal command lifecycle transition "
                          +:+ CommandStatus.value previous +:+ "->" +:+ CommandStatus.value current)).

(** Enumeration values identify the members: the code may compare either. *)
Lemma HazardKind_value_inj x y : HazardKind.value x = HazardKind.value y -> x = y.
Proof. by destruct x, y. Qed.

Lemma CriticalityTier_value_inj x y : CriticalityTier.value x = CriticalityTier.value y -> x = y.
Proof. by destruct x, y. Qed.
#[export] Hint Resolve HazardKind_value_inj CriticalityTier_value_inj : py.
