(* ===== verification/Models.v ===== *)
(** Data classes of the domain model (domain/models.py).

    One module per pydantic class: the fields as a record with the names of
    the source, and [validate], the field constraints and [model_validator] in
    the order pydantic runs them.  Constructing an instance in the code is
    [validate] applied to the record; [model_copy(update=...)] re-validates
    nothing and is a plain record. *)

From Stdlib Require Import ZArith SpecFloat.
From S2P Require Import Prelude Binary64 Enums.
Open Scope Z_scope.

(** Aware UTC timestamps in microseconds, and UUIDs by their text. *)
Abbreviation datetime := Z.
Abbreviation UUID := string.
Definition hours (n : Z) : Z := n * 3600 * 1000000.
Definition seconds (n : Z) : Z := n * 1000000.
Definition milliseconds (n : Z) : Z := n * 1000.
(** [timedelta.total_seconds()] *)
Definition total_seconds (d : Z) : f64 := int_truediv d 1000000.

(** JSON values ([dict[str, Any]] fields). *)
Inductive json : Type :=
  | JNull
  | JBool (b : bool)
  | JInt (z : Z)
  | JFloat (x : f64)
  | JStr (s : string)
  | JList (l : list json)
  | JDict (d : list (string * json)).

(** [d.get(key)] on a JSON object. *)
Definition json_get (j : json) (key : string) : option json :=
  match j with
  | JDict d => snd <$> List.find (fun kv => bool_decide (kv.1 = key)) d
  | _ => None
  end.

Definition is_sha256_hex (s : string) : bool :=
  let lower (c : Ascii.ascii) :=
    let n := Ascii.nat_of_ascii c in
    ((48 <=? n) && (n <=? 57) || (97 <=? n) && (n <=? 102) || (65 <=? n) && (n <=? 70))%nat in
  (String.length s =? 64)%nat && forallb lower (String.list_ascii_of_string s).

(** Option tests of field constraints: [None] is admitted. *)
Definition opt_all {A} (p : A -> bool) (o : option A) : bool :=
  match o with Some a => p a | None => true end.

Fixpoint rmap {A B} (f : A -> res B) (l : list A) : res (list B) :=
  match l with
  | [] => Ok []
  | x :: l' => rbind (f x) (fun y => rbind (rmap f l') (fun ys => Ok (y :: ys)))
  end.

Lemma rmap_ok {A B} (f : A -> res B) (g : A -> B) l :
  Forall (fun x => f x = Ok (g x)) l -> rmap f l = Ok (g <$> l).
Proof. induction 1 as [|x l Hx Hl IH]; cbn; [done|]. by rewrite Hx, IH. Qed.

(** The items of a dict in key order ([sorted(d.items())]). *)
Definition sorted_items {A} (d : gmap string A) : list (string * A) :=
  sort_by (fun x y => String.leb x.1 y.1) (map_to_list d).

Lemma sorted_items_perm {A} (d : gmap string A) : sorted_items d ≡ₚ map_to_list d.
Proof. apply sort_by_perm. Qed.

Lemma sorted_items_sorted {A} (d : gmap string A) :
  StronglySorted (fun x y => String.leb x.1 y.1 = true) (sorted_items d).
Proof.
  apply sort_by_sorted.
  - intros x y. apply String_leb_total.
  - intros x y z. rewrite !String_leb_le. apply (transitivity (R := String.le)).
Qed.

(** The keys of a dict, sorted. *)
Definition sorted_keys {A} (d : gmap string A) : list string :=
  sorted_strings (elements (dom d)).

Module MeasurementValue.
Record t : Type := mk {
  observed_property_id : string;
  value : f64;
  unit : string;
  quality : MeasurementQuality.t;
  uncertainty : option f64;
  uncertainty_status : UncertaintyStatus.t;
  phenomenon_start : datetime;
  phenomenon_end : datetime;
  statistic : MeasurementStatistic.t;
  axis : option string;
  orientation : option string;
  reference : option string;
  source_value_key : string
}.
Definition validate (m : t) : res t :=
  check (negb (opt_all (fun u => fle f0 u) (uncertainty m)))
    (ValidationError "uncertainty must be >= 0") >>!
  check (phenomenon_end m <? phenomenon_start m)
    (ValidationError "phenomenon_end cannot precede phenomenon_start") >>!
  check (bool_decide (uncertainty_status m = UncertaintyStatus.KNOWN)
         && bool_decide (uncertainty m = None))
    (ValidationError "known uncertainty requires a numeric value") >>!
  check (bool_decide (uncertainty_status m <> UncertaintyStatus.KNOWN)
         && bool_decide (uncertainty m <> None))
    (ValidationError "numeric uncertainty requires known uncertainty_status") >>!
  check (blank (observed_property_id m) || blank (unit m) || blank (source_value_key m))
    (ValidationError "measurement identifiers and unit must not be blank") >>!
  Ok m.
#[global] Instance eq_dec : EqDecision t.
Proof. solve_decision. Defined.
End MeasurementValue.

Module Observation.
Record t : Type := mk {
  schema_version : string;
  observation_id : UUID;
  correlation_id : UUID;
  source_id : string;
  hazard : HazardKind.t;
  source_mode : SourceMode.t;
  boot_id : string;
  sequence : Z;
  observed_at : datetime;
  received_at : datetime;
  values : gmap string f64;
  units : gmap string string;
  quality_flags : list string;
  source_lineage : string;
  clock_epoch : Z;
  clock_uncertainty_ms : f64;
  measurements : list MeasurementValue.t;
  measurement_references : gmap string string;
  measurement_orientations : gmap string string;
  measurement_uncertainty : gmap string f64
}.

(** [flag.split(":", 1)[1] for flag in quality_flags if flag.startswith(prefix)] *)
Definition flagged (prefix : string) (flags : list string) : list string :=
  (fun f => String.substring (String.length prefix) (String.length f) f)
    <$> List.filter (fun f => startswith f prefix) flags.

(** The measurement generated for one legacy value. *)
Definition generated_measurement (o : t) (key : string) (value : f64) : res MeasurementValue.t :=
  let quality :=
    if decide (key ∈ flagged "invalid:" (quality_flags o)) then MeasurementQuality.INVALID
    else if decide (key ∈ flagged "suspect:" (quality_flags o)) then MeasurementQuality.SUSPECT
    else MeasurementQuality.VALID in
  let '(statistic, start) :=
    if endswith key "_mm_h" || endswith key "_m_per_h" || endswith key "_deg_h" then
      (MeasurementStatistic.RATE, observed_at o - hours 1)
    else if contains key "_1h_" then (MeasurementStatistic.ACCUMULATION, observed_at o - hours 1)
    else if contains key "_6h_" then (MeasurementStatistic.ACCUMULATION, observed_at o - hours 6)
    else if contains key "_24h_" then (MeasurementStatistic.ACCUMULATION, observed_at o - hours 24)
    else if endswith key "_rms" then (MeasurementStatistic.RMS, observed_at o)
    else (MeasurementStatistic.INSTANTANEOUS, observed_at o) in
  let axis :=
    if decide (key = "accel_x") then Some "x"
    else if decide (key = "accel_y") then Some "y"
    else if decide (key = "accel_z") then Some "z"
    else None in
  let orientation :=
    match measurement_orientations o !! key with
    | Some v => Some v
    | None =>
        if startswith key "accel_" then
          Some ("sensor-frame:" +:+ default "None" axis +:+ ":positive-source-declared")
        else if contains key "tilt" then Some "positive-source-declared"
        else if contains key "rate_of_rise" || contains key "water_level" then Some "positive-up"
        else None
    end in
  let reference :=
    match measurement_references o !! key with
    | Some v => Some v
    | None =>
        if startswith key "accel_" then Some ("sensor-frame:" +:+ source_id o)
        else if contains key "tilt" || contains key "vibration" then
          Some ("sensor-frame:" +:+ source_id o)
        else if contains key "water_level" || contains key "rate_of_rise"
                || contains key "elevation" || contains key "depth" then
          Some ("local-datum-unqualified:" +:+ source_id o)
        else None
    end in
  let uncertainty := measurement_uncertainty o !! key in
  MeasurementValue.validate
    {| MeasurementValue.observed_property_id := key;
       MeasurementValue.value := value;
       MeasurementValue.unit := default "" (units o !! key);
       MeasurementValue.quality := quality;
       MeasurementValue.uncertainty := uncertainty;
       MeasurementValue.uncertainty_status :=
         match uncertainty with
         | Some _ => UncertaintyStatus.KNOWN | None => UncertaintyStatus.UNKNOWN
         end;
       MeasurementValue.phenomenon_start := start;
       MeasurementValue.phenomenon_end := observed_at o;
       MeasurementValue.statistic := statistic;
       MeasurementValue.axis := axis;
       MeasurementValue.orientation := orientation;
       MeasurementValue.reference := reference;
       MeasurementValue.source_value_key := key |}.

Definition with_measurements (o : t) (ms : list MeasurementValue.t) : t :=
  {| schema_version := schema_version o; observation_id := observation_id o;
     correlation_id := correlation_id o; source_id := source_id o; hazard := hazard o;
     source_mode := source_mode o; boot_id := boot_id o; sequence := sequence o;
     observed_at := observed_at o; received_at := received_at o; values := values o;
     units := units o; quality_flags := quality_flags o; source_lineage := source_lineage o;
     clock_epoch := clock_epoch o; clock_uncertainty_ms := clock_uncertainty_ms o;
     measurements := ms; measurement_references := measurement_references o;
     measurement_orientations := measurement_orientations o;
     measurement_uncertainty := measurement_uncertainty o |}.

Definition validate (o : t) : res t :=
  check (negb (0 <=? sequence o)) (ValidationError "sequence must be >= 0") >>!
  check (negb (0 <=? clock_epoch o)) (ValidationError "clock_epoch must be >= 0") >>!
  check (negb (fle f0 (clock_uncertainty_ms o)))
    (ValidationError "clock_uncertainty_ms must be >= 0") >>!
  check (received_at o <? observed_at o)
    (ValidationError "received_at cannot precede observed_at") >>!
  check (negb (bool_decide (dom (values o) ∖ dom (units o) = ∅)))
    (ValidationError "every value must have a unit") >>!
  check (blank (boot_id o)) (ValidationError "boot_id must not be blank") >>!
  match measurements o with
  | [] =>
      rbind (rmap (fun kv => generated_measurement o kv.1 kv.2) (sorted_items (values o)))
            (fun generated => Ok (with_measurements o generated))
  | ms =>
      let keys := MeasurementValue.source_value_key <$> ms in
      check (negb (bool_decide (NoDup keys)))
        (ValidationError "measurement source_value_key values must be unique") >>!
      check (negb (bool_decide (list_to_set keys = dom (values o))))
        (ValidationError "measurements must cover exactly the observation values") >>!
      check (existsb (fun item =>
               let key := MeasurementValue.source_value_key item in
               negb (bool_decide (units o !! key = Some (MeasurementValue.unit item)))
               || negb (opt_all (fun v => feq v (MeasurementValue.value item)) (values o !! key))) ms)
        (ValidationError "measurement values/units must match observation compatibility fields") >>!
      Ok o
  end.

Definition capture_age_ms (o : t) : f64 :=
  py_max f0 (fmul (total_seconds (received_at o - observed_at o)) (of_Z 1000)).
#[global] Instance eq_dec : EqDecision t.
Proof. solve_decision. Defined.
End Observation.

Module AnalysisResult.
Record t : Type := mk {
  analysis_id : UUID;
  observation_id : UUID;
  correlation_id : UUID;
  boot_id : string;
  source_mode : SourceMode.t;
  hazard : HazardKind.t;
  score : f64;
  state_hint : IncidentState.t;
  features : gmap string f64;
  coverage : CoverageState.t;
  abstained : bool;
  reason_codes : list string;
  model_profile_id : string;
  source_lineage : string;
  config_hashes : list string;
  incident_id_hint : option UUID;
  produced_at : datetime;
  event_time : option datetime
}.
Definition validate (a : t) : res t :=
  check (negb (unit_interval (score a))) (ValidationError "score must be within [0, 1]") >>!
  Ok a.
#[global] Instance eq_dec : EqDecision t.
Proof. solve_decision. Defined.
End AnalysisResult.

Module WorkloadSpec.
Record t : Type := mk {
  workload_id : string;
  hazard : HazardKind.t;
  tier : CriticalityTier.t;
  period_ms : Z;
  deadline_ms : Z;
  max_deferral_ms : Z;
  estimated_cost_ms : Z;
  memory_mb : Z;
  profile_id : string;
  forced_scan_ms : option Z
}.
Definition validate (w : t) : res t :=
  check (negb ((0 <? period_ms w) && (0 <? deadline_ms w) && (0 <=? max_deferral_ms w)
               && (0 <? estimated_cost_ms w) && (0 <? memory_mb w)
               && opt_all (fun s => 0 <? s) (forced_scan_ms w)))
    (ValidationError "workload bounds must be positive") >>!
  Ok w.
#[global] Instance eq_dec : EqDecision t.
Proof. solve_decision. Defined.
(** [model_copy(update={"period_ms": p})] *)
Definition with_period (w : t) (p : Z) : t :=
  {| workload_id := workload_id w; hazard := hazard w; tier := tier w; period_ms := p;
     deadline_ms := deadline_ms w; max_deferral_ms := max_deferral_ms w;
     estimated_cost_ms := estimated_cost_ms w; memory_mb := memory_mb w;
     profile_id := profile_id w; forced_scan_ms := forced_scan_ms w |}.
End WorkloadSpec.

Module ResourceSnapshot.
Record t : Type := mk {
  cpu_pressure : f64;
  memory_pressure : f64;
  io_pressure : f64;
  temperature_c : f64;
  available_memory_mb : Z;
  power_degraded : bool
}.
Definition validate (r : t) : res t :=
  check (negb (unit_interval (cpu_pressure r) && unit_interval (memory_pressure r)
               && unit_interval (io_pressure r) && (0 <=? available_memory_mb r)))
    (ValidationError "resource snapshot out of range") >>!
  Ok r.
Definition overloaded (r : t) : bool :=
  (cpu_pressure r >=? lit 90 100)%f64
  || (memory_pressure r >=? lit 85 100)%f64
  || (io_pressure r >=? lit 85 100)%f64
  || (temperature_c r >=? of_Z 82)%f64
  || power_degraded r.
End ResourceSnapshot.

Module JobRequest.
Record t : Type := mk {
  job_id : UUID;
  opportunity_id : UUID;
  correlation_id : UUID;
  workload : WorkloadSpec.t;
  released_at : datetime;
  absolute_deadline : datetime;
  released_monotonic_ns : Z;
  deadline_monotonic_ns : Z;
  payload : json;
  status : JobStatus.t;
  deferral_count : Z;
  reason_codes : list string;
  service_started_monotonic_ns : option Z;
  completed_monotonic_ns : option Z
}.
Definition validate (j : t) : res t :=
  check (negb ((0 <=? released_monotonic_ns j) && (0 <=? deadline_monotonic_ns j)
               && opt_all (fun n => 0 <=? n) (service_started_monotonic_ns j)
               && opt_all (fun n => 0 <=? n) (completed_monotonic_ns j)))
    (ValidationError "monotonic time must be >= 0") >>!
  Ok j.
(** Attribute assignments ([job.status = ...]). *)
Definition set_status v (s : t) : t :=
  mk (job_id s) (opportunity_id s) (correlation_id s) (workload s) (released_at s) (absolute_deadline s) (released_monotonic_ns s) (deadline_monotonic_ns s) (payload s) v (deferral_count s) (reason_codes s) (service_started_monotonic_ns s) (completed_monotonic_ns s).
Definition set_deferral_count v (s : t) : t :=
  mk (job_id s) (opportunity_id s) (correlation_id s) (workload s) (released_at s) (absolute_deadline s) (released_monotonic_ns s) (deadline_monotonic_ns s) (payload s) (status s) v (reason_codes s) (service_started_monotonic_ns s) (completed_monotonic_ns s).
Definition set_reason_codes v (s : t) : t :=
  mk (job_id s) (opportunity_id s) (correlation_id s) (workload s) (released_at s) (absolute_deadline s) (released_monotonic_ns s) (deadline_monotonic_ns s) (payload s) (status s) (deferral_count s) v (service_started_monotonic_ns s) (completed_monotonic_ns s).
Definition set_service_started_monotonic_ns v (s : t) : t :=
  mk (job_id s) (opportunity_id s) (correlation_id s) (workload s) (released_at s) (absolute_deadline s) (released_monotonic_ns s) (deadline_monotonic_ns s) (payload s) (status s) (deferral_count s) (reason_codes s) v (completed_monotonic_ns s).
Definition set_completed_monotonic_ns v (s : t) : t :=
  mk (job_id s) (opportunity_id s) (correlation_id s) (workload s) (released_at s) (absolute_deadline s) (released_monotonic_ns s) (deadline_monotonic_ns s) (payload s) (status s) (deferral_count s) (reason_codes s) (service_started_monotonic_ns s) v.
End JobRequest.

Module OpportunityRecord.
Record t : Type := mk {
  opportunity_id : UUID;
  correlation_id : UUID;
  workload_id : string;
  hazard : HazardKind.t;
  scheduled_release_at : datetime;
  actual_release_at : option datetime;
  captured_at : option datetime;
  queue_started_monotonic_ns : option Z;
  service_started_monotonic_ns : option Z;
  completed_monotonic_ns : option Z;
  deadline_monotonic_ns : option Z;
  disposition : OpportunityDisposition.t;
  reason_codes : list string
}.
(** Attribute assignments ([record.disposition = ...]). *)
Definition set_actual_release_at v (s : t) : t :=
  mk (opportunity_id s) (correlation_id s) (workload_id s) (hazard s) (scheduled_release_at s) v (captured_at s) (queue_started_monotonic_ns s) (service_started_monotonic_ns s) (completed_monotonic_ns s) (deadline_monotonic_ns s) (disposition s) (reason_codes s).
Definition set_queue_started_monotonic_ns v (s : t) : t :=
  mk (opportunity_id s) (correlation_id s) (workload_id s) (hazard s) (scheduled_release_at s) (actual_release_at s) (captured_at s) v (service_started_monotonic_ns s) (completed_monotonic_ns s) (deadline_monotonic_ns s) (disposition s) (reason_codes s).
Definition set_service_started_monotonic_ns v (s : t) : t :=
  mk (opportunity_id s) (correlation_id s) (workload_id s) (hazard s) (scheduled_release_at s) (actual_release_at s) (captured_at s) (queue_started_monotonic_ns s) v (completed_monotonic_ns s) (deadline_monotonic_ns s) (disposition s) (reason_codes s).
Definition set_completed_monotonic_ns v (s : t) : t :=
  mk (opportunity_id s) (correlation_id s) (workload_id s) (hazard s) (scheduled_release_at s) (actual_release_at s) (captured_at s) (queue_started_monotonic_ns s) (service_started_monotonic_ns s) v (deadline_monotonic_ns s) (disposition s) (reason_codes s).
Definition set_deadline_monotonic_ns v (s : t) : t :=
  mk (opportunity_id s) (correlation_id s) (workload_id s) (hazard s) (scheduled_release_at s) (actual_release_at s) (captured_at s) (queue_started_monotonic_ns s) (service_started_monotonic_ns s) (completed_monotonic_ns s) v (disposition s) (reason_codes s).
Definition set_disposition v (s : t) : t :=
  mk (opportunity_id s) (correlation_id s) (workload_id s) (hazard s) (scheduled_release_at s) (actual_release_at s) (captured_at s) (queue_started_monotonic_ns s) (service_started_monotonic_ns s) (completed_monotonic_ns s) (deadline_monotonic_ns s) v (reason_codes s).
Definition set_reason_codes v (s : t) : t :=
  mk (opportunity_id s) (correlation_id s) (workload_id s) (hazard s) (scheduled_release_at s) (actual_release_at s) (captured_at s) (queue_started_monotonic_ns s) (service_started_monotonic_ns s) (completed_monotonic_ns s) (deadline_monotonic_ns s) (disposition s) v.
End OpportunityRecord.

Module SchedulerSnapshot.
Record t : Type := mk {
  active : list string;
  queued : list string;
  deferred : list string;
  sleeping : list string;
  overloaded : bool;
  degradation_level : Z;
  reason_codes : list string;
  scheduling_policy : string
}.
End SchedulerSnapshot.
