(* ===== verification/CanonicalJson.v ===== *)
(** Canonical JSON (security/digests.py): the bytes every digest, tag and
    idempotency key of the node is computed from.

    [json.dumps(value, sort_keys=True, separators=(",", ":"),
    ensure_ascii=False)] on the JSON values of [Models]; text is the list of
    its UTF-8 bytes, so [encode] is the identity.  [float.__repr__] (with the
    [NaN] and [Infinity] of the json module) is a parameter; the laws the
    encoding relies on are the class [FloatRepr]. *)

From Stdlib Require Import ZArith SpecFloat.
From S2P Require Import Prelude Binary64 Enums Models.
Open Scope Z_scope.

Notation chr n := (Ascii.ascii_of_nat n).
Definition quote_char : Ascii.ascii := chr 34.
Definition backslash : Ascii.ascii := chr 92.

(** ["%x" % n] for one digit. *)
Definition hex_digit (n : nat) : Ascii.ascii :=
  if (n <? 10)%nat then chr (48 + n) else chr (87 + n).

(** The json encoder's escapes without [ensure_ascii]. *)
Definition escape_char (c : Ascii.ascii) : string :=
  let n := Ascii.nat_of_ascii c in
  let escaped (letter : nat) := String backslash (String (chr letter) "") in
  if (n =? 34)%nat then escaped 34%nat
  else if (n =? 92)%nat then escaped 92%nat
  else if (n =? 8)%nat then escaped 98%nat
  else if (n =? 12)%nat then escaped 102%nat
  else if (n =? 10)%nat then escaped 110%nat
  else if (n =? 13)%nat then escaped 114%nat
  else if (n =? 9)%nat then escaped 116%nat
  else if (n <? 32)%nat then
    String backslash ("u00" +:+ String (hex_digit (n / 16)) (String (hex_digit (n mod 16)) ""))
  else String c "".

Fixpoint escape (s : string) : string :=
  match s with
  | EmptyString => EmptyString
  | String c s => escape_char c +:+ escape s
  end.

Definition quote (s : string) : string := String quote_char (escape s) +:+ String quote_char "".

(** Items sorted by key, as [sort_keys] does. *)
Definition by_key {A} (items : list (string * A)) : list (string * A) :=
  sort_by (fun x y => String.leb x.1 y.1) items.

Section Dumps.
Context (float_repr : f64 -> string).

Fixpoint dumps (j : json) : string :=
  match j with
  | JNull => "null"
  | JBool true => "true"
  | JBool false => "false"
  | JInt z => pretty z
  | JFloat x => float_repr x
  | JStr s => quote s
  | JList l => "[" +:+ join "," (map dumps l) +:+ "]"
  | JDict d =>
      "{" +:+ join "," (map (fun item => quote item.1 +:+ ":" +:+ item.2)
                          (by_key (map (fun item => (item.1, dumps item.2)) d))) +:+ "}"
  end.

Definition canonical_json_bytes (value : json) : string := dumps value.
End Dumps.

(** The value with the items of every object in key order. *)
Fixpoint normalize (j : json) : json :=
  match j with
  | JList l => JList (map normalize l)
  | JDict d => JDict (by_key (map (fun item => (item.1, normalize item.2)) d))
  | _ => j
  end.

(** ** Unique decoding *)

(** The characters that can follow a value. *)
Definition delimiter (c : Ascii.ascii) : bool :=
  bool_decide (c = chr 44) || bool_decide (c = chr 93) || bool_decide (c = chr 125)
  || bool_decide (c = chr 58).
(** The characters that open a string, an array or an object. *)
Definition opener (c : Ascii.ascii) : bool :=
  bool_decide (c = quote_char) || bool_decide (c = chr 91) || bool_decide (c = chr 123).

Fixpoint all_of (p : Ascii.ascii -> bool) (s : string) : bool :=
  match s with EmptyString => true | String c s => p c && all_of p s end.

Definition plain (c : Ascii.ascii) : bool := negb (delimiter c) && negb (opener c).

(** A bare token: a number or a constant. *)
Definition token (s : string) : bool := all_of plain s && negb (bool_decide (s = "")).

Definition ends (r : string) : bool :=
  match r with EmptyString => true | String c _ => delimiter c end.

(** What is assumed of the text of a float: a bare token, different for
    different floats, and never the text of another constant. *)
Class FloatRepr (float_repr : f64 -> string) : Prop := {
  repr_token x : token (float_repr x) = true;
  repr_inj x y : float_repr x = float_repr y -> x = y;
  repr_not_int x z : float_repr x <> pretty (z : Z);
  repr_not_const x : float_repr x ∉ ["null"; "true"; "false"]
}.

Lemma append_nil (s : string) : "" +:+ s = s.
Proof. reflexivity. Qed.
Lemma append_cons c (a b : string) : String c a +:+ b = String c (a +:+ b).
Proof. reflexivity. Qed.
Lemma append_assoc (a b c : string) : (a +:+ b) +:+ c = a +:+ b +:+ c.
Proof. induction a as [|x a IH]; [done|]. by rewrite !append_cons, IH. Qed.

(** Two runs of characters of one class, each followed by another character
    or by nothing. *)
Lemma class_split p a b r r' :
  all_of p a = true -> all_of p b = true ->
  match r with EmptyString => true | String c _ => negb (p c) end = true ->
  match r' with EmptyString => true | String c _ => negb (p c) end = true ->
  a +:+ r = b +:+ r' -> a = b /\ r = r'.
Proof.
  revert b. induction a as [|c a IH]; intros [|c' b]; cbn; rewrite ?append_nil, ?append_cons.
  - auto.
  - intros _ [Hc _]%andb_true_iff Hr _ ->. by rewrite Hc in Hr.
  - intros [Hc _]%andb_true_iff _ _ Hr <-. by rewrite Hc in Hr.
  - intros [_ Ha]%andb_true_iff [_ Hb]%andb_true_iff Hr Hr' [= -> H].
    destruct (IH b Ha Hb Hr Hr' H) as [-> ->]. done.
Qed.

Lemma token_split a b r r' :
  all_of plain a = true -> all_of plain b = true -> ends r = true -> ends r' = true ->
  a +:+ r = b +:+ r' -> a = b /\ r = r'.
Proof.
  intros Ha Hb Hr Hr'. apply class_split with plain; [done|done| |]; unfold plain.
  - destruct r as [|c r]; [done|]. cbn in Hr. by rewrite Hr.
  - destruct r' as [|c r']; [done|]. cbn in Hr'. by rewrite Hr'.
Qed.

(** No escape is a prefix of another. *)
Definition all_chars : list Ascii.ascii := map Ascii.ascii_of_nat (seq 0 256).

Lemma elem_of_all_chars c : c ∈ all_chars.
Proof.
  apply list_elem_of_fmap. exists (Ascii.nat_of_ascii c).
  split; [by rewrite Ascii.ascii_nat_embedding|]. apply elem_of_seq.
  pose proof (Ascii.nat_ascii_bounded c). lia.
Qed.

(** The character an escaped text starts with. *)
Definition unhex (c : Ascii.ascii) : nat :=
  let n := Ascii.nat_of_ascii c in if (n <? 58)%nat then n - 48 else n - 87.

Definition first_char (s : string) : option Ascii.ascii :=
  match s with
  | EmptyString => None
  | String c r =>
      if decide (c = backslash) then
        match r with
        | EmptyString => None
        | String letter r =>
            match Ascii.nat_of_ascii letter, r with
            | 98%nat, _ => Some (chr 8)
            | 102%nat, _ => Some (chr 12)
            | 110%nat, _ => Some (chr 10)
            | 114%nat, _ => Some (chr 13)
            | 116%nat, _ => Some (chr 9)
            | 117%nat, String _ (String _ (String x (String y _))) => Some (chr (unhex x * 16 + unhex y))
            | _, _ => Some letter
            end
        end
      else Some c
  end.

Lemma first_char_escape c r : first_char (escape_char c +:+ r) = Some c.
Proof. destruct c as [[] [] [] [] [] [] [] []]; reflexivity. Qed.

Lemma escape_char_split c c' r r' : escape_char c +:+ r = escape_char c' +:+ r' -> c = c' /\ r = r'.
Proof.
  intros H. assert (c = c') as ->.
  { pose proof (first_char_escape c r) as Hc. rewrite H, first_char_escape in Hc. congruence. }
  split; [done|]. by apply (inj (String.append (escape_char c'))) in H.
Qed.

(** An escape never begins with the closing quote. *)
Lemma escape_char_not_quote c r r' : escape_char c +:+ r <> String quote_char r'.
Proof.
  assert (Hall : forallb (fun c => match escape_char c with
    | String d _ => negb (bool_decide (d = quote_char)) | EmptyString => false end) all_chars = true)
    by (vm_compute; reflexivity).
  rewrite List.forallb_forall in Hall.
  specialize (Hall c (proj1 (list_elem_of_In _ _) (elem_of_all_chars c))).
  destruct (escape_char c) as [|d e]; [done|]. rewrite append_cons. intros [= -> _].
  by rewrite bool_decide_eq_true_2 in Hall.
Qed.

Lemma escape_split s s' r r' :
  escape s +:+ String quote_char r = escape s' +:+ String quote_char r' -> s = s' /\ r = r'.
Proof.
  revert s'. induction s as [|c s IH]; intros [|c' s']; cbn [escape];
    rewrite ?append_nil, ?append_assoc.
  - intros H. by injection H as ->.
  - intros H. symmetry in H. by apply escape_char_not_quote in H.
  - intros H. by apply escape_char_not_quote in H.
  - intros H. apply escape_char_split in H as [-> H]. destruct (IH s' H) as [-> ->]. done.
Qed.

Lemma quote_app s r : quote s +:+ r = String quote_char (escape s +:+ String quote_char r).
Proof. unfold quote. by rewrite !append_cons, append_assoc. Qed.

Lemma quote_split s s' r r' : quote s +:+ r = quote s' +:+ r' -> s = s' /\ r = r'.
Proof. rewrite !quote_app. intros [= H]. by apply escape_split. Qed.

(** Integers are bare tokens of digits and a sign. *)
Definition int_char (c : Ascii.ascii) : bool :=
  let n := Ascii.nat_of_ascii c in (n =? 45)%nat || ((48 <=? n) && (n <=? 57))%nat.

Lemma int_char_plain c : int_char c = true -> plain c = true.
Proof.
  assert (Hall : forallb (fun c => implb (int_char c) (plain c)) all_chars = true)
    by (vm_compute; reflexivity).
  rewrite List.forallb_forall in Hall.
  specialize (Hall c (proj1 (list_elem_of_In _ _) (elem_of_all_chars c))).
  by destruct (int_char c).
Qed.

Lemma all_of_impl (p q : Ascii.ascii -> bool) s :
  (forall c, p c = true -> q c = true) -> all_of p s = true -> all_of q s = true.
Proof.
  intros Hpq. induction s as [|c s IH]; [done|]. cbn. intros [Hc Hs]%andb_true_iff.
  by rewrite (Hpq _ Hc), IH.
Qed.

Lemma pretty_N_go_int n s : all_of int_char s = true -> all_of int_char (pretty_N_go n s) = true.
Proof.
  revert s. induction (N.lt_wf_0 n) as [n _ IH]. intros s Hs.
  destruct (decide (n = 0)%N) as [->|Hn]; [by rewrite pretty_N_go_0|].
  rewrite pretty_N_go_step by lia. apply IH; [apply N.div_lt; lia|]. cbn. rewrite Hs.
  unfold pretty_N_char. by repeat case_match.
Qed.

Lemma pretty_N_go_nonempty n c s : pretty_N_go n (String c s) <> "".
Proof.
  revert c s. induction (N.lt_wf_0 n) as [n _ IH]. intros c s.
  destruct (decide (n = 0)%N) as [->|Hn]; [by rewrite pretty_N_go_0|].
  rewrite pretty_N_go_step by lia. apply IH, N.div_lt; lia.
Qed.

Lemma pretty_int z : all_of int_char (pretty (z : Z)) = true /\ pretty z <> "".
Proof.
  assert (Hpos : forall p, all_of int_char (pretty (p : positive)) = true /\ pretty p <> "").
  { intros p. unfold pretty, pretty_positive, pretty, pretty_N. case_decide; [done|]. split.
    - by apply pretty_N_go_int.
    - rewrite pretty_N_go_step by lia. apply pretty_N_go_nonempty. }
  destruct z as [|p|p]; [done|apply Hpos|]. unfold pretty, pretty_Z. rewrite append_cons, append_nil.
  split; [|done]. cbn. apply Hpos.
Qed.

Lemma pretty_token z : token (pretty (z : Z)) = true.
Proof.
  destruct (pretty_int z) as [H1 H2]. unfold token. rewrite bool_decide_eq_false_2 by done.
  rewrite andb_true_r. eapply all_of_impl; [apply int_char_plain|done].
Qed.

(** ** Induction over nested values *)
Section JsonInd.
Context (P : json -> Prop) (HNull : P JNull) (HBool : forall b, P (JBool b)) (HInt : forall z, P (JInt z))
  (HFloat : forall x, P (JFloat x)) (HStr : forall s, P (JStr s))
  (HList : forall l, Forall P l -> P (JList l))
  (HDict : forall d, Forall (fun item => P item.2) d -> P (JDict d)).

Fixpoint json_nested_ind (j : json) : P j :=
  match j with
  | JNull => HNull
  | JBool b => HBool b
  | JInt z => HInt z
  | JFloat x => HFloat x
  | JStr s => HStr s
  | JList l => HList l ((fix go l : Forall P l :=
      match l with
      | [] => @List.Forall_nil _ _
      | x :: l => @List.Forall_cons _ _ x l (json_nested_ind x) (go l)
      end) l)
  | JDict d => HDict d ((fix go d : Forall (fun item => P item.2) d :=
      match d with
      | [] => @List.Forall_nil _ _
      | x :: d => @List.Forall_cons _ _ x d (json_nested_ind x.2) (go d)
      end) d)
  end.
End JsonInd.

(** Sorting by key commutes with a change of the values. *)
Lemma by_key_map {A B} (h : A -> B) d :
  by_key (map (fun item => (item.1, h item.2)) d) = map (fun item => (item.1, h item.2)) (by_key d).
Proof.
  unfold by_key. induction d as [|x d IH]; cbn; [done|]. rewrite IH. clear IH.
  induction (sort_by _ d) as [|y l IH]; cbn; [done|]. destruct (String.leb _ _); [done|]. cbn. by rewrite IH.
Qed.

Lemma by_key_idemp {A} (d : list (string * A)) : by_key (by_key d) = by_key d.
Proof.
  apply sort_by_id, sort_by_sorted.
  - intros x y H. destruct (String.leb_total x.1 y.1); [congruence|done].
  - intros x y z Hxy Hyz. apply Is_true_true in Hxy, Hyz. apply Is_true_true. by trans y.1.
Qed.

Section Decode.
Context (float_repr : f64 -> string) `{!FloatRepr float_repr}.
Notation dumps := (dumps float_repr).

(** The character that opens a string, an array or an object. *)
Definition opens (j : json) : option Ascii.ascii :=
  match j with
  | JStr _ => Some quote_char
  | JList _ => Some (chr 91)
  | JDict _ => Some (chr 123)
  | _ => None
  end.

Lemma dumps_open j c : opens j = Some c -> exists t, dumps j = String c t.
Proof. destruct j; try done; intros [= <-]; cbn [CanonicalJson.dumps]; unfold quote; rewrite ?append_cons; eauto. Qed.

Lemma dumps_token j : opens j = None -> token (dumps j) = true.
Proof.
  destruct j as [|[]|z|x|s|l|d]; try done; intros _; [apply pretty_token|exact (repr_token x)].
Qed.

Lemma token_head s r c t : token s = true -> s +:+ r = String c t -> plain c = true.
Proof.
  unfold token. destruct s as [|c' s]; [done|]. rewrite append_cons. intros [[Hc _]%andb_true_iff _]%andb_true_iff.
  by intros [= <- _].
Qed.

Lemma dumps_opens j j' r r' : dumps j +:+ r = dumps j' +:+ r' -> opens j = opens j'.
Proof.
  intros H.
  assert (Hplain : forall i c, opens i = Some c -> plain c = false) by (intros []; try done; by intros ? [= <-]).
  assert (Hhead : forall i i' q q' c, opens i = Some c -> opens i' = None ->
    dumps i +:+ q = dumps i' +:+ q' -> False).
  { intros i i' q q' c Hi Hi' He. destruct (dumps_open i c Hi) as [t Ht]. rewrite Ht, append_cons in He.
    symmetry in He. apply token_head in He; [|by apply dumps_token]. by rewrite (Hplain i c) in He. }
  destruct (opens j) as [c|] eqn:Hj, (opens j') as [c'|] eqn:Hj'; [| | |done].
  - destruct (dumps_open j c Hj) as [t Ht], (dumps_open j' c' Hj') as [t' Ht'].
    rewrite Ht, Ht', !append_cons in H. congruence.
  - by destruct (Hhead _ _ _ _ _ Hj Hj' H).
  - by destruct (Hhead _ _ _ _ _ Hj' Hj (eq_sym H)).
Qed.

#[local] Opaque pretty.

Lemma token_inj j j' : opens j = None -> opens j' = None -> dumps j = dumps j' -> j = j'.
Proof.
  assert (Hint : forall z s, all_of int_char s = false -> pretty (z : Z) = s -> False).
  { intros z s Hs He. destruct (pretty_int z) as [Hz _]. congruence. }
  assert (Hconst : forall x s, s ∈ ["null"; "true"; "false"] -> float_repr x = s -> False).
  { intros x s Hs He. apply (repr_not_const x). by rewrite He. }
  assert (Hnum : forall z x, pretty (z : Z) = float_repr x -> False).
  { intros z x He. symmetry in He. by apply repr_not_int in He. }
  destruct j as [|[]|z|x|s|l|d], j' as [|[]|z'|x'|s'|l'|d']; try discriminate; intros _ _;
    cbn [CanonicalJson.dumps]; intros H; first
    [ reflexivity | discriminate H
    | exfalso; refine (Hint _ _ _ H); reflexivity | exfalso; refine (Hint _ _ _ (eq_sym H)); reflexivity
    | exfalso; exact (Hnum _ _ H) | exfalso; exact (Hnum _ _ (eq_sym H))
    | f_equal; exact (pretty_Z_inj _ _ H) | f_equal; exact (repr_inj _ _ H)
    | exfalso; refine (Hconst _ _ _ H); set_solver | exfalso; refine (Hconst _ _ _ (eq_sym H)); set_solver ].
Qed.

(** Text that begins a value. *)
Definition begins (s : string) : bool :=
  match s with EmptyString => false | String c _ => negb (delimiter c) end.

Lemma dumps_begins j : begins (dumps j) = true.
Proof.
  destruct (opens j) as [c|] eqn:Hj.
  - destruct (dumps_open j c Hj) as [t ->]. by destruct j; try done; injection Hj as <-.
  - pose proof (dumps_token j Hj) as Ht. unfold token in Ht. destruct (dumps j); [done|].
    apply andb_true_iff in Ht as [[Hp _]%andb_true_iff _]. by apply andb_true_iff in Hp as [? _].
Qed.

(** A comma-separated sequence up to its closing bracket. *)
Section Sequence.
Context {A B : Type} (f : A -> string) (g : A -> B) (close : Ascii.ascii).
Context (Hclose : delimiter close = true) (Hcomma : close <> chr 44).
Context (Hf : forall x, begins (f x) = true).

Definition rest (xs : list A) (r : string) : string :=
  match xs with
  | [] => String close r
  | _ => String (chr 44) (join "," (map f xs) +:+ String close r)
  end.

Lemma rest_ends xs r : ends (rest xs r) = true.
Proof. by destruct xs. Qed.

Lemma join_rest x xs r : join "," (map f (x :: xs)) +:+ String close r = f x +:+ rest xs r.
Proof. destruct xs; cbn [map join rest]; [done|]. by rewrite !append_assoc. Qed.

Lemma join_split xs ys r r' :
  Forall (fun x => forall y q q', ends q = true -> ends q' = true ->
    f x +:+ q = f y +:+ q' -> g x = g y /\ q = q') xs ->
  join "," (map f xs) +:+ String close r = join "," (map f ys) +:+ String close r' ->
  map g xs = map g ys /\ r = r'.
Proof.
  assert (Hbegin : forall y ys q q', String close q <> f y +:+ rest ys q').
  { intros y ys' q q' H. pose proof (Hf y) as Hy. destruct (f y); [done|].
    rewrite append_cons in H. injection H as <- _. cbn in Hy. by rewrite Hclose in Hy. }
  intros Hxs. revert ys r r'. induction Hxs as [|x xs Hx _ IH]; intros [|y ys] r r'; rewrite ?join_rest.
  - intros H. by injection H as ->.
  - intros H. by destruct (Hbegin y ys r r').
  - intros H. by destruct (Hbegin x xs r' r).
  - intros H. apply Hx in H as [Hg H]; [|apply rest_ends..].
    assert (map g xs = map g ys /\ r = r') as [Heq ->]; [|cbn; by rewrite Hg, Heq].
    destruct xs as [|x2 xs], ys as [|y2 ys]; cbn [rest] in H.
    + by injection H as ->.
    + by injection H as ? _.
    + by injection H as ? _.
    + injection H as H. by apply IH.
Qed.
End Sequence.

Definition decodes (j : json) : Prop :=
  forall j' r r', ends r = true -> ends r' = true -> dumps j +:+ r = dumps j' +:+ r' ->
  normalize j = normalize j' /\ r = r'.

Lemma bare_decodes j : opens j = None -> decodes j.
Proof.
  intros Hj j' r r' Hr Hr' H. pose proof (dumps_opens _ _ _ _ H) as Hj'. rewrite Hj in Hj'. symmetry in Hj'.
  assert (Hp : forall i, opens i = None -> all_of plain (dumps i) = true).
  { intros i Hi. pose proof (dumps_token i Hi) as Ht. by apply andb_true_iff in Ht as [? _]. }
  apply token_split in H as [H ->]; auto. by rewrite (token_inj j j').
Qed.

Lemma dumps_decodes j : decodes j.
Proof.
  induction j as [| | | |s|l IH|d IH] using json_nested_ind; try (by apply bare_decodes);
    intros j' r r' Hr Hr' H; pose proof (dumps_opens _ _ _ _ H) as Hj; destruct j' as [| | | |s'|l'|d'];
    try discriminate; cbn [CanonicalJson.dumps normalize] in *.
  - by apply quote_split in H as [-> ->].
  - rewrite !append_assoc in H. injection H as H. apply (join_split dumps normalize) in H as [H ->];
      [by rewrite H|done|done|apply dumps_begins|done].
  - rewrite !by_key_map, !map_map, !append_assoc in H. injection H as H.
    apply (join_split (fun item => quote item.1 +:+ ":" +:+ dumps item.2)
      (fun item => (item.1, normalize item.2))) in H as [H ->];
      [by rewrite !by_key_map, H|done|done|done|].
    unfold by_key. rewrite sort_by_perm. apply (Forall_impl _ _ _ IH). intros [k v] Hv [k' v'] q q' Hq Hq' He.
    cbn [fst snd] in *. rewrite !append_assoc in He. apply quote_split in He as [-> He].
    rewrite !append_cons, !append_nil in He. injection He as He. by apply Hv in He as [-> ->].
Qed.

Lemma dumps_normalize j : dumps (normalize j) = dumps j.
Proof.
  induction j as [| | | |s|l IH|d IH] using json_nested_ind; try done; cbn [normalize CanonicalJson.dumps].
  - rewrite map_map. by rewrite (map_ext_Forall _ _ IH).
  - rewrite !by_key_map, !map_map, by_key_idemp. do 3 f_equal. apply map_ext_Forall.
    unfold by_key. rewrite sort_by_perm. apply (Forall_impl _ _ _ IH). intros [k v] Hv. cbn [fst snd] in *. by rewrite Hv.
Qed.

Lemma canonical_json_inj j j' :
  canonical_json_bytes float_repr j = canonical_json_bytes float_repr j' -> normalize j = normalize j'.
Proof.
  unfold canonical_json_bytes. intros H. assert (dumps j +:+ "" = dumps j' +:+ "") as He by by rewrite H.
  by apply dumps_decodes in He as [? _].
Qed.

Lemma canonical_json_normalize j j' :
  normalize j = normalize j' -> canonical_json_bytes float_repr j = canonical_json_bytes float_repr j'.
Proof. unfold canonical_json_bytes. intros H. by rewrite <- dumps_normalize, H, dumps_normalize. Qed.

(** C34: the canonical encoding is faithful and unambiguous.  Two values have
    the same canonical bytes exactly when they are the same value up to the
    order in which their objects list their keys; so a digest, tag or
    idempotency key of those bytes never identifies two different values, and
    never distinguishes two equal ones. *)
Theorem canonical_json_injective j j' :
  canonical_json_bytes float_repr j = canonical_json_bytes float_repr j' <-> normalize j = normalize j'.
Proof. split; [apply canonical_json_inj|apply canonical_json_normalize]. Qed.
End Decode.

(** ** A concrete text of floats *)
Definition demo_repr (x : f64) : string :=
  match x with
  | S754_nan => "NaN"
  | S754_infinity false => "Infinity"
  | S754_infinity true => "-Infinity"
  | S754_zero false => "0.0"
  | S754_zero true => "-0.0"
  | S754_finite s m e => pretty (if s then Zneg m else Zpos m) +:+ "e" +:+ pretty e
  end.

Lemma all_of_app p a b : all_of p (a +:+ b) = all_of p a && all_of p b.
Proof. induction a as [|c a IH]; [done|]. rewrite append_cons. cbn. by rewrite IH, andb_assoc. Qed.

Lemma demo_finite s m e :
  demo_repr (S754_finite s m e) = pretty (if s then Zneg m else Zpos m) +:+ String (chr 101) (pretty e).
Proof. reflexivity. Qed.

Lemma demo_not_int x : all_of int_char (demo_repr x) = false.
Proof.
  destruct x as [[]|[]| |s m e]; try reflexivity. rewrite demo_finite, all_of_app. apply andb_false_iff.
  right. reflexivity.
Qed.

(** The letter that separates mantissa and exponent. *)
Definition not_e (c : Ascii.ascii) : bool := negb (bool_decide (c = chr 101)).

#[export] Instance demo_repr_laws : FloatRepr demo_repr.
Proof.
  split.
  - intros [[]|[]| |s m e]; try reflexivity. rewrite demo_finite. unfold token. rewrite all_of_app.
    destruct (pretty_int (if s then Zneg m else Zpos m)) as [H1 H2], (pretty_int e) as [H3 _].
    cbn [all_of]. rewrite !(all_of_impl _ _ _ int_char_plain) by done.
    destruct (pretty _); [done|]. by rewrite append_cons.
  - intros x y H.
    assert (Hfin : forall s m e z, all_of not_e z = true -> demo_repr (S754_finite s m e) <> z).
    { intros s m e z Hz <-. rewrite demo_finite, all_of_app in Hz. by apply andb_true_iff in Hz as [_ Hz]. }
    destruct x as [[]|[]| |s m e], y as [[]|[]| |s' m' e']; try reflexivity; try discriminate H;
      try (exfalso; refine (Hfin _ _ _ _ _ H); reflexivity);
      try (exfalso; refine (Hfin _ _ _ _ _ (eq_sym H)); reflexivity).
    rewrite !demo_finite in H. apply (class_split int_char) in H as [Hm He];
      [|apply pretty_int|apply pretty_int|done|done].
    apply pretty_Z_inj in Hm. injection He as He. apply pretty_Z_inj in He. subst. by destruct s, s'; simplify_eq.
  - intros x z H. pose proof (demo_not_int x) as Hx. rewrite H in Hx. by rewrite (proj1 (pretty_int z)) in Hx.
  - intros x H. destruct x as [[]|[]| |s m e]; try (by vm_compute in H; set_solver).
    rewrite demo_finite in H. destruct (pretty_int (if s then Zneg m else Zpos m)) as [Hi Hn].
    destruct (pretty (if s then Zneg m else Zpos m)) as [|c t]; [done|]. rewrite append_cons in H.
    cbn in Hi. apply andb_true_iff in Hi as [Hi _].
    repeat (apply elem_of_cons in H as [[= -> _]|H]; [by vm_compute in Hi|]). by apply not_elem_of_nil in H.
Qed.

(** Two texts of the same object, and one of another. *)
Lemma canonical_json_injective_witness :
  canonical_json_bytes demo_repr (JDict [("b", JInt 1); ("a", JList [JNull; JFloat f0])])
  = canonical_json_bytes demo_repr (JDict [("a", JList [JNull; JFloat f0]); ("b", JInt 1)]) /\
  canonical_json_bytes demo_repr (JDict [("a", JInt 1)]) <> canonical_json_bytes demo_repr (JDict [("a", JStr "1")]).
Proof.
  split.
  - apply (canonical_json_injective demo_repr). vm_compute. reflexivity.
  - intros H. apply (canonical_json_injective demo_repr) in H. vm_compute in H. discriminate H.
Defined.
