(* ===== verification/Records.v ===== *)
(** Data classes of the records the node persists and of the commands it
    accepts (domain/models.py), in the style of [Models]. *)

From Stdlib Require Import ZArith SpecFloat.
From S2P Require Import Prelude Binary64 Enums Models.
Open Scope Z_scope.

(** [x and x.strip()] on an optional string. *)
Definition present (o : option string) : bool :=
  match o with Some s => negb (blank s) | None => false end.
(** [bool(x)] on an optional string. *)
Definition truthy (o : option string) : bool :=
  match o with Some s => negb (bool_decide (s = "")) | None => false end.

Module IncidentRecord.
Record t : Type := mk {
  incident_id : UUID;
  hazard : HazardKind.t;
  state : IncidentState.t;
  confidence : f64;
  coverage : CoverageState.t;
  source_mode : SourceMode.t;
  first_observed_at : datetime;
  last_observed_at : datetime;
  event_time_watermark : option datetime;
  version : Z;
  reason_codes : list string;
  analysis_ids : list UUID;
  correlation_ids : list UUID;
  last_boot_id : string;
  source_lineage : string;
  model_profile_id : string;
  config_hashes : list string;
  labels : list IncidentLabel.t
}.
Definition validate (r : t) : res t :=
  check (negb (unit_interval (confidence r))) (ValidationError "confidence must be within [0, 1]") >>!
  check (version r <? 1) (ValidationError "version must be >= 1") >>!
  Ok r.
#[global] Instance eq_dec : EqDecision t.
Proof. solve_decision. Defined.
(** [model_copy(update=...)]: one function per updated field. *)
Definition set_state v (s : t) : t :=
  mk (incident_id s) (hazard s) v (confidence s) (coverage s) (source_mode s) (first_observed_at
    s) (last_observed_at s) (event_time_watermark s) (version s) (reason_codes s) (analysis_ids
    s) (correlation_ids s) (last_boot_id s) (source_lineage s) (model_profile_id s)
    (config_hashes s) (labels s).
Definition set_confidence v (s : t) : t :=
  mk (incident_id s) (hazard s) (state s) v (coverage s) (source_mode s) (first_observed_at s)
    (last_observed_at s) (event_time_watermark s) (version s) (reason_codes s) (analysis_ids s)
    (correlation_ids s) (last_boot_id s) (source_lineage s) (model_profile_id s) (config_hashes
    s) (labels s).
Definition set_last_observed_at v (s : t) : t :=
  mk (incident_id s) (hazard s) (state s) (confidence s) (coverage s) (source_mode s)
    (first_observed_at s) v (event_time_watermark s) (version s) (reason_codes s) (analysis_ids
    s) (correlation_ids s) (last_boot_id s) (source_lineage s) (model_profile_id s)
    (config_hashes s) (labels s).
Definition set_version v (s : t) : t :=
  mk (incident_id s) (hazard s) (state s) (confidence s) (coverage s) (source_mode s)
    (first_observed_at s) (last_observed_at s) (event_time_watermark s) v (reason_codes s)
    (analysis_ids s) (correlation_ids s) (last_boot_id s) (source_lineage s) (model_profile_id
    s) (config_hashes s) (labels s).
Definition set_reason_codes v (s : t) : t :=
  mk (incident_id s) (hazard s) (state s) (confidence s) (coverage s) (source_mode s)
    (first_observed_at s) (last_observed_at s) (event_time_watermark s) (version s) v
    (analysis_ids s) (correlation_ids s) (last_boot_id s) (source_lineage s) (model_profile_id
    s) (config_hashes s) (labels s).
Definition set_analysis_ids v (s : t) : t :=
  mk (incident_id s) (hazard s) (state s) (confidence s) (coverage s) (source_mode s)
    (first_observed_at s) (last_observed_at s) (event_time_watermark s) (version s)
    (reason_codes s) v (correlation_ids s) (last_boot_id s) (source_lineage s) (model_profile_id
    s) (config_hashes s) (labels s).
Definition set_correlation_ids v (s : t) : t :=
  mk (incident_id s) (hazard s) (state s) (confidence s) (coverage s) (source_mode s)
    (first_observed_at s) (last_observed_at s) (event_time_watermark s) (version s)
    (reason_codes s) (analysis_ids s) v (last_boot_id s) (source_lineage s) (model_profile_id s)
    (config_hashes s) (labels s).
Definition set_labels v (s : t) : t :=
  mk (incident_id s) (hazard s) (state s) (confidence s) (coverage s) (source_mode s)
    (first_observed_at s) (last_observed_at s) (event_time_watermark s) (version s)
    (reason_codes s) (analysis_ids s) (correlation_ids s) (last_boot_id s) (source_lineage s)
    (model_profile_id s) (config_hashes s) v.
End IncidentRecord.

Module EvidenceItem.
Record t : Type := mk {
  evidence_id : UUID;
  incident_id : UUID;
  hazard : HazardKind.t;
  source_id : string;
  source_standing : SourceStanding.t;
  authority_role : string;
  media_integrity : MediaIntegrityState.t;
  extraction_confidence_state : ExtractionConfidenceState.t;
  extraction_confidence : option f64;
  freshness_state : HealthState.t;
  claim_text : string;
  content_sha256 : string;
  perceptual_hash : option string;
  origin_key : string;
  family_id : option string;
  parent_evidence_id : option UUID;
  independent_origin_proven : bool;
  retention_state : EvidenceRetentionState.t;
  parser_state : ParserIsolationState.t;
  rights_basis : option string;
  rights_mode : option EvidenceRightsMode.t;
  rights_expires_at : option datetime;
  modality : string;
  received_at : datetime;
  reason_codes : list string;
  person_identification_performed : bool;
  subject_ref : option string;
  processing_basis : string
}.
#[global] Instance eq_dec : EqDecision t.
Proof. solve_decision. Defined.
(** [model_copy(update=...)]: one function per updated field. *)
Definition set_family_id v (s : t) : t :=
  mk (evidence_id s) (incident_id s) (hazard s) (source_id s) (source_standing s)
    (authority_role s) (media_integrity s) (extraction_confidence_state s)
    (extraction_confidence s) (freshness_state s) (claim_text s) (content_sha256 s)
    (perceptual_hash s) (origin_key s) v (parent_evidence_id s) (independent_origin_proven s)
    (retention_state s) (parser_state s) (rights_basis s) (rights_mode s) (rights_expires_at s)
    (modality s) (received_at s) (reason_codes s) (person_identification_performed s)
    (subject_ref s) (processing_basis s).
Definition set_rights_mode v (s : t) : t :=
  mk (evidence_id s) (incident_id s) (hazard s) (source_id s) (source_standing s)
    (authority_role s) (media_integrity s) (extraction_confidence_state s)
    (extraction_confidence s) (freshness_state s) (claim_text s) (content_sha256 s)
    (perceptual_hash s) (origin_key s) (family_id s) (parent_evidence_id s)
    (independent_origin_proven s) (retention_state s) (parser_state s) (rights_basis s) v
    (rights_expires_at s) (modality s) (received_at s) (reason_codes s)
    (person_identification_performed s) (subject_ref s) (processing_basis s).
Definition validate (e : t) : res t :=
  check (negb (opt_all unit_interval (extraction_confidence e)))
    (ValidationError "extraction_confidence must be within [0, 1]") >>!
  check (blank (authority_role e)) (ValidationError "authority_role must not be blank") >>!
  check (blank (source_id e) || blank (claim_text e) || blank (content_sha256 e)
         || blank (origin_key e) || blank (modality e))
    (ValidationError "evidence identity and content fields must not be blank") >>!
  check (negb (is_sha256_hex (content_sha256 e)))
    (ValidationError "content_sha256 must be a lowercase SHA-256 hex digest") >>!
  check (match extraction_confidence_state e with
         | ExtractionConfidenceState.VERIFIED | ExtractionConfidenceState.MODEL_ESTIMATE
         | ExtractionConfidenceState.LOW => bool_decide (extraction_confidence e = None)
         | _ => bool_decide (extraction_confidence e <> None)
         end)
    (ValidationError "extraction confidence does not match its state") >>!
  let retained := bool_decide (retention_state e = EvidenceRetentionState.RETAINED) in
  let metadata_only := bool_decide (retention_state e = EvidenceRetentionState.METADATA_ONLY) in
  let rejected := bool_decide (retention_state e = EvidenceRetentionState.REJECTED) in
  check (retained && negb (present (rights_basis e)))
    (ValidationError "retained evidence requires a rights_basis") >>!
  let derived :=
    match rights_mode e with
    | Some mode => mode
    | None => if retained then EvidenceRightsMode.RETAIN_BYTES
              else if metadata_only then EvidenceRightsMode.DERIVED_ONLY
              else EvidenceRightsMode.REFERENCE_ONLY
    end in
  let e := set_rights_mode (Some derived) e in
  let retain_bytes := bool_decide (derived = EvidenceRightsMode.RETAIN_BYTES) in
  check (retained && negb retain_bytes)
    (ValidationError "retained evidence requires retain_bytes rights mode") >>!
  check (metadata_only && retain_bytes)
    (ValidationError "metadata-only evidence cannot retain source bytes") >>!
  check (rejected && negb (bool_decide (derived = EvidenceRightsMode.REFERENCE_ONLY)))
    (ValidationError "rejected evidence must remain reference_only") >>!
  check (negb (opt_all (fun t => received_at e <? t) (rights_expires_at e)))
    (ValidationError "rights_expires_at must be later than received_at") >>!
  check (rejected && negb (bool_decide (parser_state e = ParserIsolationState.REJECTED)))
    (ValidationError "rejected retention requires rejected parser state") >>!
  check (person_identification_performed e)
    (ValidationError "face, speaker, or person re-identification is outside Sentinel Edge scope") >>!
  check (negb (opt_all (fun s => negb (blank s)) (subject_ref e)))
    (ValidationError "subject_ref must not be blank") >>!
  check (blank (processing_basis e)) (ValidationError "processing_basis must not be blank") >>!
  Ok e.
End EvidenceItem.

Module EvidenceLifecycleEvent.
Record t : Type := mk {
  lifecycle_event_id : UUID;
  evidence_id : UUID;
  incident_id : UUID;
  action : EvidenceLifecycleAction.t;
  from_state : option EvidenceContentState.t;
  to_state : EvidenceContentState.t;
  expected_version : Z;
  resulting_version : Z;
  actor : string;
  reason : string;
  created_at : datetime;
  deletion_proof_sha256 : option string;
  redaction_profile_id : option string;
  reason_codes : list string
}.
#[global] Instance eq_dec : EqDecision t.
Proof. solve_decision. Defined.
Definition validate (e : t) : res t :=
  check ((expected_version e <? 0) || (resulting_version e <? 1))
    (ValidationError "evidence lifecycle versions out of range") >>!
  check (blank (actor e) || blank (reason e))
    (ValidationError "evidence lifecycle event requires actor and reason") >>!
  check (negb (resulting_version e =? expected_version e + 1))
    (ValidationError "evidence lifecycle version must increment by one") >>!
  check (bool_decide (action e = EvidenceLifecycleAction.DELETE) && negb (truthy (deletion_proof_sha256 e)))
    (ValidationError "deletion requires a proof digest") >>!
  check (negb (opt_all is_sha256_hex (deletion_proof_sha256 e)))
    (ValidationError "deletion_proof_sha256 must be a lowercase SHA-256 digest") >>!
  Ok e.
End EvidenceLifecycleEvent.

Module EvidenceLifecycleProjection.
Record t : Type := mk {
  evidence_id : UUID;
  incident_id : UUID;
  state : EvidenceContentState.t;
  version : Z;
  readable : bool;
  claim_eligible : bool;
  rights_active : bool;
  deletion_proven : bool;
  last_event_id : option UUID;
  updated_at : option datetime;
  reason_codes : list string
}.
End EvidenceLifecycleProjection.

Module MediaParserReport.
Record t : Type := mk {
  parse_id : UUID;
  profile_id : string;
  status : MediaParserStatus.t;
  parser_state : ParserIsolationState.t;
  input_sha256 : string;
  input_bytes : Z;
  media_type : string;
  detected_media_type : option string;
  output_sha256 : option string;
  output_bytes : option Z;
  width : option Z;
  height : option Z;
  source_format : option string;
  sanitized_format : option string;
  metadata_stripped : bool;
  alpha_preserved : bool;
  network_namespace_proven : bool;
  filesystem_scope : string;
  release_eligible : bool;
  created_at : datetime;
  reason_codes : list string
}.
#[global] Instance eq_dec : EqDecision t.
Proof. solve_decision. Defined.
End MediaParserReport.

Module EvidenceReevaluationRecord.
Record t : Type := mk {
  reevaluation_id : UUID;
  incident_id : UUID;
  evidence_id : UUID;
  trigger_action : EvidenceLifecycleAction.t;
  status : string;
  decision : string;
  created_at : datetime;
  active_supporting_links : Z;
  active_contradictory_links : Z;
  invalidated_links : Z;
  incident_state_mutated : bool;
  reason_codes : list string
}.
#[global] Instance eq_dec : EqDecision t.
Proof. solve_decision. Defined.
End EvidenceReevaluationRecord.

Module ClaimNode.
Record t : Type := mk {
  claim_id : UUID;
  incident_id : UUID;
  hazard : HazardKind.t;
  statement : string;
  origin : ContentOrigin.t;
  lineage : list string;
  model_id : option string;
  created_at : datetime;
  status : string;
  reason_codes : list string
}.
#[global] Instance eq_dec : EqDecision t.
Proof. solve_decision. Defined.
Definition validate (c : t) : res t :=
  check (blank (statement c) || blank (status c)) (ValidationError "claim fields must not be blank") >>!
  let generated := bool_decide (origin c = ContentOrigin.ANALYTICAL_MODEL)
                   || bool_decide (origin c = ContentOrigin.GENERATIVE_MODEL) in
  check (generated && negb (present (model_id c)))
    (ValidationError "model-generated claim requires model_id") >>!
  check (generated && bool_decide (lineage c = []))
    (ValidationError "model-generated claim requires lineage") >>!
  Ok c.
End ClaimNode.

Module ClaimEvidenceLink.
Record t : Type := mk {
  link_id : UUID;
  claim_id : UUID;
  evidence_id : UUID;
  relation : ClaimEvidenceRelation.t;
  created_at : datetime;
  reason_codes : list string
}.
#[global] Instance eq_dec : EqDecision t.
Proof. solve_decision. Defined.
End ClaimEvidenceLink.

Module IncidentRelation.
Record t : Type := mk {
  relation_id : UUID;
  source_incident_id : UUID;
  source_hazard : HazardKind.t;
  target_incident_id : UUID;
  target_hazard : HazardKind.t;
  relation : IncidentRelationKind.t;
  confidence : f64;
  expected_source_version : Z;
  expected_target_version : Z;
  created_at : datetime;
  actor : string;
  reason : string
}.
#[global] Instance eq_dec : EqDecision t.
Proof. solve_decision. Defined.
Definition validate (r : t) : res t :=
  check (negb (unit_interval (confidence r)) || (expected_source_version r <? 1)
         || (expected_target_version r <? 1))
    (ValidationError "incident relation fields out of range") >>!
  check (bool_decide (source_incident_id r = target_incident_id r))
    (ValidationError "incident relation must connect two distinct incidents") >>!
  check (blank (actor r) || blank (reason r))
    (ValidationError "incident relation requires actor and reason") >>!
  check (negb (bool_decide (relation r = IncidentRelationKind.MERGED_ALIAS))
         && bool_decide (source_hazard r = target_hazard r))
    (ValidationError "same-hazard relation is allowed only for merged_alias") >>!
  Ok r.
End IncidentRelation.

Module IncidentStatusCommand.
Record t : Type := mk {
  command_id : UUID;
  incident_id : UUID;
  hazard : HazardKind.t;
  command : IncidentCommandKind.t;
  expected_version : Z;
  actor : string;
  reason : string;
  related_incident_id : option UUID;
  related_hazard : option HazardKind.t;
  idempotency_key : string;
  submitted_at : datetime
}.
Definition relational (k : IncidentCommandKind.t) : bool :=
  bool_decide (k = IncidentCommandKind.LINK) || bool_decide (k = IncidentCommandKind.MERGE).
Definition validate (c : t) : res t :=
  check (expected_version c <? 1) (ValidationError "expected_version must be >= 1") >>!
  check (blank (actor c) || blank (reason c) || blank (idempotency_key c))
    (ValidationError "incident command fields must not be blank") >>!
  check (relational (command c)
         && (bool_decide (related_incident_id c = None) || bool_decide (related_hazard c = None)))
    (ValidationError "link/merge command requires a related incident") >>!
  check (negb (relational (command c))
         && (bool_decide (related_incident_id c <> None) || bool_decide (related_hazard c <> None)))
    (ValidationError "related incident is valid only for link/merge commands") >>!
  Ok c.
End IncidentStatusCommand.

Module IncidentCandidate.
Record t : Type := mk {
  candidate_id : UUID;
  hazard : HazardKind.t;
  observed_at : datetime;
  latitude : f64;
  longitude : f64;
  horizontal_uncertainty_m : f64;
  temporal_window_seconds : f64;
  spatial_window_m : f64;
  source_id : string;
  source_event_id : option string
}.
#[global] Instance eq_dec : EqDecision t.
Proof. solve_decision. Defined.
End IncidentCandidate.

Module IncidentIdentityDecision.
Record t : Type := mk {
  decision_id : UUID;
  candidate_id : UUID;
  incident_id : UUID;
  outcome : IncidentIdentityOutcome.t;
  matched_candidate_id : option UUID;
  separation_m : option f64;
  time_delta_seconds : option f64;
  decided_at : datetime;
  reason_codes : list string
}.
#[global] Instance eq_dec : EqDecision t.
Proof. solve_decision. Defined.
End IncidentIdentityDecision.

Module SourceHealth.
Record t : Type := mk {
  source_id : string;
  state : HealthState.t;
  boot_id : option string;
  clock_epoch : option Z;
  last_sequence : option Z;
  last_observed_at : option datetime;
  event_time_watermark : option datetime;
  clock_uncertainty_ms : f64;
  reason_codes : list string
}.
#[global] Instance eq_dec : EqDecision t.
Proof. solve_decision. Defined.
(** [model_copy(update=...)]: one function per updated field. *)
Definition set_state v (s : t) : t :=
  mk (source_id s) v (boot_id s) (clock_epoch s) (last_sequence s) (last_observed_at s)
    (event_time_watermark s) (clock_uncertainty_ms s) (reason_codes s).
Definition set_reason_codes v (s : t) : t :=
  mk (source_id s) (state s) (boot_id s) (clock_epoch s) (last_sequence s) (last_observed_at s)
    (event_time_watermark s) (clock_uncertainty_ms s) v.
Definition validate (h : t) : res t :=
  check (negb (fle f0 (clock_uncertainty_ms h)))
    (ValidationError "clock_uncertainty_ms must be >= 0") >>!
  Ok h.
End SourceHealth.

Module SourceHealthEvent.
Record t : Type := mk {
  event_id : UUID;
  source_id : string;
  previous_state : option HealthState.t;
  state : HealthState.t;
  recorded_at : datetime;
  boot_id : option string;
  sequence : option Z;
  clock_uncertainty_ms : f64;
  reason_codes : list string
}.
#[global] Instance eq_dec : EqDecision t.
Proof. solve_decision. Defined.
Definition validate (e : t) : res t :=
  check (negb (opt_all (fun n => 0 <=? n) (sequence e))) (ValidationError "sequence must be >= 0") >>!
  check (negb (fle f0 (clock_uncertainty_ms e)))
    (ValidationError "clock_uncertainty_ms must be >= 0") >>!
  Ok e.
End SourceHealthEvent.

Module ConfigurationBundle.
Record t : Type := mk {
  schema_version : string;
  bundle_id : string;
  version : string;
  actor : string;
  workloads : list WorkloadSpec.t;
  settings : json;
  model_hashes : gmap string string;
  source_hashes : gmap string string;
  created_at : datetime
}.
Definition validate (b : t) : res t :=
  check (negb (bool_decide (schema_version b = "1.0.0")))
    (ValidationError "unsupported configuration schema_version") >>!
  check (blank (bundle_id b) || blank (version b) || blank (actor b))
    (ValidationError "bundle_id, version, and actor must not be blank") >>!
  check (negb (bool_decide (NoDup (WorkloadSpec.workload_id <$> workloads b))))
    (ValidationError "workload identifiers must be unique") >>!
  check (bool_decide (workloads b = [])) (ValidationError "at least one workload is required") >>!
  Ok b.
End ConfigurationBundle.

Module ConfigurationActivationRecord.
Record t : Type := mk {
  activation_id : UUID;
  bundle_id : string;
  version : string;
  state : ConfigurationState.t;
  actor : string;
  bundle_sha256 : string;
  diff_sha256 : string;
  previous_bundle_id : option string;
  reason_codes : list string;
  activated_at : datetime
}.
End ConfigurationActivationRecord.

Module ReviewAction.
Record t : Type := mk {
  review_id : UUID;
  incident_id : UUID;
  hazard : HazardKind.t;
  action : ReviewActionKind.t;
  actor : string;
  created_at : datetime;
  snooze_until : option datetime;
  comment : option string
}.
#[global] Instance eq_dec : EqDecision t.
Proof. solve_decision. Defined.
Definition validate (a : t) : res t :=
  check (blank (actor a)) (ValidationError "actor must not be blank") >>!
  check (match action a with
         | ReviewActionKind.SNOOZE =>
             negb (match snooze_until a with Some u => created_at a <? u | None => false end)
         | _ => false
         end)
    (ValidationError "snooze_until must be after created_at") >>!
  check (negb (bool_decide (action a = ReviewActionKind.SNOOZE))
         && bool_decide (snooze_until a <> None))
    (ValidationError "snooze_until is only valid for snooze actions") >>!
  check (bool_decide (action a = ReviewActionKind.COMMENT) && negb (present (comment a)))
    (ValidationError "comment action requires text") >>!
  Ok a.
End ReviewAction.

Module IncidentReviewState.
Record t : Type := mk {
  incident_id : UUID;
  acknowledged_at : option datetime;
  acknowledged_by : option string;
  snoozed_until : option datetime;
  snoozed_by : option string;
  review_count : Z
}.
#[global] Instance eq_dec : EqDecision t.
Proof. solve_decision. Defined.
(** [model_copy(update=...)]: one function per updated field. *)
Definition set_incident_id v (s : t) : t :=
  mk v (acknowledged_at s) (acknowledged_by s) (snoozed_until s) (snoozed_by s) (review_count
    s).
Definition set_acknowledged_at v (s : t) : t :=
  mk (incident_id s) v (acknowledged_by s) (snoozed_until s) (snoozed_by s) (review_count s).
Definition set_acknowledged_by v (s : t) : t :=
  mk (incident_id s) (acknowledged_at s) v (snoozed_until s) (snoozed_by s) (review_count s).
Definition set_snoozed_until v (s : t) : t :=
  mk (incident_id s) (acknowledged_at s) (acknowledged_by s) v (snoozed_by s) (review_count s).
Definition set_snoozed_by v (s : t) : t :=
  mk (incident_id s) (acknowledged_at s) (acknowledged_by s) (snoozed_until s) v (review_count
    s).
Definition set_review_count v (s : t) : t :=
  mk (incident_id s) (acknowledged_at s) (acknowledged_by s) (snoozed_until s) (snoozed_by s) v.
End IncidentReviewState.

Module NotificationIntent.
Record t : Type := mk {
  notification_id : UUID;
  incident_id : UUID;
  hazard : HazardKind.t;
  incident_version : Z;
  incident_state : IncidentState.t;
  idempotency_key : string;
  status : NotificationStatus.t;
  created_at : datetime;
  updated_at : datetime;
  attempt_count : Z;
  max_attempts : Z;
  last_error : option string;
  receipt_id : option string;
  reason_codes : list string
}.
#[global] Instance eq_dec : EqDecision t.
Proof. solve_decision. Defined.
(** [model_copy(update=...)]: one function per updated field. *)
Definition set_status v (s : t) : t :=
  mk (notification_id s) (incident_id s) (hazard s) (incident_version s) (incident_state s)
    (idempotency_key s) v (created_at s) (updated_at s) (attempt_count s) (max_attempts s)
    (last_error s) (receipt_id s) (reason_codes s).
Definition set_updated_at v (s : t) : t :=
  mk (notification_id s) (incident_id s) (hazard s) (incident_version s) (incident_state s)
    (idempotency_key s) (status s) (created_at s) v (attempt_count s) (max_attempts s)
    (last_error s) (receipt_id s) (reason_codes s).
Definition set_attempt_count v (s : t) : t :=
  mk (notification_id s) (incident_id s) (hazard s) (incident_version s) (incident_state s)
    (idempotency_key s) (status s) (created_at s) (updated_at s) v (max_attempts s) (last_error
    s) (receipt_id s) (reason_codes s).
Definition set_last_error v (s : t) : t :=
  mk (notification_id s) (incident_id s) (hazard s) (incident_version s) (incident_state s)
    (idempotency_key s) (status s) (created_at s) (updated_at s) (attempt_count s) (max_attempts
    s) v (receipt_id s) (reason_codes s).
Definition set_receipt_id v (s : t) : t :=
  mk (notification_id s) (incident_id s) (hazard s) (incident_version s) (incident_state s)
    (idempotency_key s) (status s) (created_at s) (updated_at s) (attempt_count s) (max_attempts
    s) (last_error s) v (reason_codes s).
Definition validate (n : t) : res t :=
  check ((incident_version n <? 1) || (attempt_count n <? 0)
         || negb ((1 <=? max_attempts n) && (max_attempts n <=? 20)))
    (ValidationError "notification fields out of range") >>!
  check (blank (idempotency_key n)) (ValidationError "idempotency_key must not be blank") >>!
  Ok n.
End NotificationIntent.

(** [Literal["human", "service", "device", "system"]] *)
Module PrincipalKind.
Inductive t : Type := human | service | device | system.
#[global] Instance eq_dec : EqDecision t.
Proof. solve_decision. Defined.
Definition value (x : t) : string :=
  match x with human => "human" | service => "service" | device => "device" | system => "system" end.
End PrincipalKind.

Module PrincipalRef.
Record t : Type := mk {
  principal_id : string;
  roles : list PrincipalRole.t;
  scopes : list string;
  authentication_method : string;
  principal_kind : PrincipalKind.t;
  session_epoch : Z;
  device_trust_epoch : Z
}.
#[global] Instance eq_dec : EqDecision t.
Proof. solve_decision. Defined.
Definition validate (p : t) : res t :=
  check (blank (principal_id p) || blank (authentication_method p))
    (ValidationError "principal fields must not be blank") >>!
  check ((session_epoch p <? 1) || (device_trust_epoch p <? 1))
    (ValidationError "principal epochs must be >= 1") >>!
  Ok p.
End PrincipalRef.

Module AuthorizationDecision.
Record t : Type := mk {
  decision_id : UUID;
  principal : PrincipalRef.t;
  operation : string;
  target : string;
  payload_sha256 : string;
  policy_version : string;
  canonical_encoding_version : string;
  accepted_at : datetime;
  expires_at : datetime;
  authorization_tag : string
}.
#[global] Instance eq_dec : EqDecision t.
Proof. solve_decision. Defined.
Definition validate (d : t) : res t :=
  check (expires_at d <=? accepted_at d)
    (ValidationError "authorization decision must expire after acceptance") >>!
  check (blank (operation d) || blank (target d) || blank (policy_version d))
    (ValidationError "authorization decision fields must not be blank") >>!
  Ok d.
End AuthorizationDecision.

Module AuthorizedReviewCommand.
Record t : Type := mk {
  command_id : UUID;
  incident_id : UUID;
  hazard : HazardKind.t;
  action : ReviewActionKind.t;
  snooze_until : option datetime;
  comment : option string;
  idempotency_key : string;
  authorization : AuthorizationDecision.t;
  payload_sha256 : string;
  submitted_at : datetime
}.
Definition validate (c : t) : res t :=
  check (negb (bool_decide (payload_sha256 c = AuthorizationDecision.payload_sha256 (authorization c))))
    (ValidationError "authorization payload digest mismatch") >>!
  check (bool_decide (action c = ReviewActionKind.SNOOZE) && bool_decide (snooze_until c = None))
    (ValidationError "snooze command requires snooze_until") >>!
  check (blank (idempotency_key c)) (ValidationError "idempotency_key must not be blank") >>!
  Ok c.
End AuthorizedReviewCommand.

Module CommandReceipt.
Record t : Type := mk {
  command_id : UUID;
  principal_id : string;
  operation : string;
  target : string;
  scoped_idempotency_key : string;
  payload_sha256 : string;
  status : CommandStatus.t;
  accepted_at : datetime;
  committed_at : option datetime;
  result_version : option Z;
  result_sha256 : option string;
  reason_codes : list string
}.
#[global] Instance eq_dec : EqDecision t.
Proof. solve_decision. Defined.
Definition validate (r : t) : res t :=
  check (negb (opt_all (fun v => 1 <=? v) (result_version r)))
    (ValidationError "result_version must be >= 1") >>!
  Ok r.
End CommandReceipt.

Module EvidenceFamilySummary.
Record t : Type := mk {
  family_id : string;
  incident_id : UUID;
  evidence_ids : list UUID;
  origin_keys : list string;
  independence_units : Z;
  exact_duplicates : Z;
  near_duplicates : Z;
  independent_origins : Z
}.
#[global] Instance eq_dec : EqDecision t.
Proof. solve_decision. Defined.
Definition validate (f : t) : res t :=
  check ((independence_units f <? 1) || (exact_duplicates f <? 0) || (near_duplicates f <? 0)
         || (independent_origins f <? 0))
    (ValidationError "family counts out of range") >>!
  Ok f.
End EvidenceFamilySummary.

Module TrustDimensionSnapshot.
Record t : Type := mk {
  incident_id : UUID;
  source_standing_counts : gmap string Z;
  media_integrity_counts : gmap string Z;
  extraction_confidence_counts : gmap string Z;
  freshness_counts : gmap string Z;
  evidence_families : Z;
  independence_units : Z;
  supporting_links : Z;
  contradictory_links : Z;
  invalidated_links : Z;
  unresolved_claims : Z;
  formula_version : string;
  summary_band : string;
  reason_codes : list string
}.
#[global] Instance eq_dec : EqDecision t.
Proof. solve_decision. Defined.
Definition validate (s : t) : res t :=
  check ((evidence_families s <? 0) || (independence_units s <? 0) || (supporting_links s <? 0)
         || (contradictory_links s <? 0) || (invalidated_links s <? 0) || (unresolved_claims s <? 0))
    (ValidationError "trust counts out of range") >>!
  Ok s.
End TrustDimensionSnapshot.
