(* ===== verification/Measurements.v ===== *)
(** The measurement contract (semantics/measurements.py): observed properties,
    their admissible units, ranges, statistics, axes and references, checked
    before any hazard logic runs.

    The dict of definitions is a finite map.  The loop of [validate] keeps its
    local variables in the record [loop]; lists the code only sorts into sets
    keep the order of the appends. *)

From Stdlib Require Import ZArith SpecFloat.
From S2P Require Import Prelude Binary64 Enums Models.
Open Scope Z_scope.

Module PropertyDefinition.
Record t : Type := mk {
  property_id : string;
  allowed_units : list string;
  minimum : option f64;
  maximum : option f64;
  statistic : option MeasurementStatistic.t;
  requires_reference : bool;
  requires_orientation : bool;
  allowed_axes : list string
}.
End PropertyDefinition.

Module MeasurementContractReport.
Record t : Type := mk {
  valid : bool;
  usable_properties : list string;
  invalid_properties : list string;
  suspect_properties : list string;
  fusion_allowed : bool;
  reason_codes : list string
}.
End MeasurementContractReport.

Module MeasurementRegistry.
Import PropertyDefinition.

(** [PropertyDefinition(id, units, minimum, maximum, ...)] *)
Definition property (id : string) (units : list string) (minimum maximum : Z)
    (statistic : option MeasurementStatistic.t) (requires_reference requires_orientation : bool)
    (axes : list string) : PropertyDefinition.t :=
  PropertyDefinition.mk id units (Some (of_Z minimum)) (Some (of_Z maximum)) statistic
    requires_reference requires_orientation axes.

Definition DEFAULTS : list PropertyDefinition.t :=
  let rate := Some MeasurementStatistic.RATE in
  [property "smoke_score" ["ratio"] 0 1 None false false [];
   property "flame_score" ["ratio"] 0 1 None false false [];
   property "temporal_persistence" ["ratio"] 0 1 None false false [];
   property "accel_x" ["g"; "m/s2"] (-1000) 1000 None true true ["x"];
   property "accel_y" ["g"; "m/s2"] (-1000) 1000 None true true ["y"];
   property "accel_z" ["g"; "m/s2"] (-1000) 1000 None true true ["z"];
   property "water_level_m" ["m"] (-1000) 10000 None true true [];
   property "rate_of_rise_m_per_h" ["m/h"] (-1000) 1000 rate true true [];
   property "rainfall_mm_h" ["mm/h"] 0 10000 rate false false [];
   property "soil_moisture_fraction" ["ratio"] 0 1 None false false [];
   property "tilt_rate_deg_h" ["deg/h"] (-10000) 10000 rate true true [];
   property "vibration_rms" ["g"; "m/s2"] 0 1000 (Some MeasurementStatistic.RMS) true false [];
   property "flood_susceptibility" ["ratio"] 0 1 None false false [];
   property "landslide_susceptibility" ["ratio"] 0 1 None false false [];
   property "seismic_context_score" ["ratio"] 0 1 None false false [];
   property "camera_luminance" ["level"] 0 255 None false false [];
   property "camera_blur_score" ["score"; "ratio"] 0 1 None false false [];
   property "camera_occlusion_fraction" ["ratio"] 0 1 None false false [];
   property "camera_frame_change" ["ratio"] 0 1 None false false []].

Definition t : Type := gmap string PropertyDefinition.t.

(** [__init__] *)
Definition create (definitions : list PropertyDefinition.t) : res t :=
  let definitions_ : t := list_to_map (reverse ((fun d => (property_id d, d)) <$> definitions)) in
  check (negb (bool_decide (size definitions_ = length definitions)))
    (ValueError "property definitions must be unique") >>!
  Ok definitions_.

Definition definition (property_id : string) (r : t) : option PropertyDefinition.t := r !! property_id.

(** [bool(x)] on an optional string. *)
Definition given (o : option string) : bool :=
  match o with Some s => negb (bool_decide (s = "")) | None => false end.

(** The local variables of [validate]. *)
Record loop : Type := mkLoop {
  reasons : list string;
  invalid : list string;
  suspect : list string;
  usable : list string;
  references : list (string * string);
  seen : list string;
  fusion_allowed : bool
}.
Definition start : loop := mkLoop [] [] [] [] [] [] true.

(** [invalid.append(key); reasons.append(reason)] *)
Definition reject (key reason : string) (l : loop) : loop :=
  mkLoop (reasons l ++ [reason]) (invalid l ++ [key]) (suspect l) (usable l) (references l) (seen l)
    (fusion_allowed l).

Definition add_seen (key : string) (l : loop) : loop :=
  mkLoop (reasons l) (invalid l) (suspect l) (usable l) (references l) (seen l ++ [key]) (fusion_allowed l).

Definition add_reference (key reference : string) (l : loop) : loop :=
  if contains reference "unqualified" then
    mkLoop (reasons l ++ ["reference_unqualified:" +:+ key]) (invalid l) (suspect l) (usable l)
      (references l ++ [(key, reference)]) (seen l) false
  else
    mkLoop (reasons l) (invalid l) (suspect l) (usable l) (references l ++ [(key, reference)])
      (seen l) (fusion_allowed l).

(** The end of the loop body: quality, then uncertainty. *)
Definition check_quality (m : MeasurementValue.t) (l : loop) : loop :=
  let key := MeasurementValue.source_value_key m in
  let quality := MeasurementValue.quality m in
  match quality with
  | MeasurementQuality.INVALID | MeasurementQuality.MISSING =>
      reject key ("quality_not_usable:" +:+ key +:+ ":" +:+ MeasurementQuality.value quality) l
  | _ =>
      let '(reasons, suspect) :=
        match quality with
        | MeasurementQuality.SUSPECT => (reasons l ++ ["quality_suspect:" +:+ key], suspect l ++ [key])
        | _ => (reasons l, suspect l)
        end in
      mkLoop
        (match MeasurementValue.uncertainty m with
         | None => reasons ++ ["uncertainty_unknown:" +:+ key]
         | Some _ => reasons
         end)
        (invalid l) suspect (usable l ++ [key]) (references l) (seen l) (fusion_allowed l)
  end.

(** The first clause of the contract a measurement breaks, as its reason. *)
Definition contract_violation (d : PropertyDefinition.t) (m : MeasurementValue.t) : option string :=
  let key := MeasurementValue.source_value_key m in
  if negb (bool_decide (MeasurementValue.unit m ∈ allowed_units d)) then
    Some ("unit_not_admissible:" +:+ key +:+ ":" +:+ MeasurementValue.unit m)
  else if negb (opt_all (fun lo => negb (MeasurementValue.value m <? lo)%f64) (minimum d)) then
    Some ("below_property_range:" +:+ key)
  else if negb (opt_all (fun hi => negb (hi <? MeasurementValue.value m)%f64) (maximum d)) then
    Some ("above_property_range:" +:+ key)
  else if negb (opt_all (fun s => bool_decide (MeasurementValue.statistic m = s)) (statistic d)) then
    Some ("statistic_mismatch:" +:+ key)
  else if negb (bool_decide (allowed_axes d = []))
          && negb (match MeasurementValue.axis m with
                   | Some axis => bool_decide (axis ∈ allowed_axes d) | None => false end) then
    Some ("axis_mismatch:" +:+ key)
  else if requires_orientation d && negb (given (MeasurementValue.orientation m)) then
    Some ("orientation_missing:" +:+ key)
  else if requires_reference d && negb (given (MeasurementValue.reference m)) then
    Some ("reference_missing:" +:+ key)
  else None.

(** One iteration of [for measurement in observation.measurements]. *)
Definition check_measurement (r : t) (l : loop) (m : MeasurementValue.t) : loop :=
  let key := MeasurementValue.source_value_key m in
  if decide (key ∈ seen l) then reject key ("duplicate_property:" +:+ key) l
  else
    let l := add_seen key l in
    match definition (MeasurementValue.observed_property_id m) r with
    | None => reject key ("unknown_property:" +:+ key) l
    | Some d =>
        match contract_violation d m with
        | Some reason => reject key reason l
        | None =>
            check_quality m
              (if requires_reference d
               then add_reference key (default "" (MeasurementValue.reference m)) l else l)
        end
    end.

(** The references of one semantic family disagree. *)
Definition incompatible (family : string -> bool) (l : loop) : bool :=
  (1 <? length (remove_dups (List.filter (fun kv => family kv.1) (references l)).*2))%nat.

Definition motion (k : string) : bool :=
  startswith k "accel_" || contains k "tilt" || contains k "vibration".
Definition vertical (k : string) : bool :=
  contains k "water_level" || contains k "elevation" || contains k "depth".

Definition structural_prefixes : list string :=
  ["duplicate_property:"; "unknown_property:"; "unit_not_admissible:";
   "below_property_range:"; "above_property_range:"; "statistic_mismatch:";
   "axis_mismatch:"; "orientation_missing:"; "reference_missing:"; "measurement_cardinality_mismatch"].

(** [code.startswith(structural_prefixes)] *)
Definition structural (code : string) : bool := existsb (startswith code) structural_prefixes.

Definition validate (o : Observation.t) (r : t) : MeasurementContractReport.t :=
  let l := foldl (check_measurement r) start (Observation.measurements o) in
  let mismatch := negb (bool_decide (dom (Observation.values o) = list_to_set (seen l))) in
  let missing := elements (dom (Observation.values o) ∖ list_to_set (seen l)) in
  let invalid := if mismatch then invalid l ++ sorted_strings missing else invalid l in
  let reasons := if mismatch then reasons l ++ ["measurement_cardinality_mismatch"] else reasons l in
  let reasons := if incompatible motion l then reasons ++ ["reference_incompatible:motion"] else reasons in
  let reasons := if incompatible vertical l then reasons ++ ["reference_incompatible:vertical"] else reasons in
  let valid := negb (existsb structural reasons) in
  {| MeasurementContractReport.valid := valid;
     MeasurementContractReport.usable_properties := sorted_set (usable l);
     MeasurementContractReport.invalid_properties := sorted_set invalid;
     MeasurementContractReport.suspect_properties := sorted_set (suspect l);
     MeasurementContractReport.fusion_allowed :=
       fusion_allowed l && negb (incompatible motion l) && negb (incompatible vertical l);
     MeasurementContractReport.reason_codes :=
       sorted_set (if valid then reasons ++ ["measurement_contract_valid"] else reasons) |}.

(** [observation.model_copy(update={...})] *)
Definition restrict (o : Observation.t) (values : gmap string f64) (units : gmap string string)
    (measurements : list MeasurementValue.t) (quality_flags : list string) : Observation.t :=
  Observation.mk (Observation.schema_version o) (Observation.observation_id o)
    (Observation.correlation_id o) (Observation.source_id o) (Observation.hazard o)
    (Observation.source_mode o) (Observation.boot_id o) (Observation.sequence o)
    (Observation.observed_at o) (Observation.received_at o) values units quality_flags
    (Observation.source_lineage o) (Observation.clock_epoch o) (Observation.clock_uncertainty_ms o)
    measurements (Observation.measurement_references o) (Observation.measurement_orientations o)
    (Observation.measurement_uncertainty o).

(** What [sanitize] keeps of an observation with a valid report. *)
Definition sanitized (o : Observation.t) (report : MeasurementContractReport.t) : Observation.t :=
  let usable := MeasurementContractReport.usable_properties report in
  let kept {A} (d : gmap string A) : gmap string A := filter (fun kv => kv.1 ∈ usable) d in
  restrict o (kept (Observation.values o)) (kept (Observation.units o))
    (List.filter (fun m => bool_decide (MeasurementValue.source_value_key m ∈ usable))
       (Observation.measurements o))
    (sorted_set (Observation.quality_flags o ++
                 (String.append "measurement:" <$> MeasurementContractReport.reason_codes report))).

Definition sanitize (o : Observation.t) (r : t) : res (Observation.t * MeasurementContractReport.t) :=
  let report := validate o r in
  check (negb (MeasurementContractReport.valid report))
    (ValueError ("invalid measurement contract: "
                 +:+ join "," (MeasurementContractReport.reason_codes report))) >>!
  Ok (sanitized o report, report).

Definition compare_references (left right : MeasurementValue.t) : bool * string :=
  match MeasurementValue.reference left, MeasurementValue.reference right with
  | Some a, Some b =>
      if negb (bool_decide (a = b)) then (false, "reference_incompatible")
      else if contains a "unqualified" then (false, "reference_unqualified")
      else (true, "reference_compatible")
  | _, _ => (false, "reference_missing")
  end.

(** An example: a smoke score and an unusable flame score. *)
Definition demo_registry : t := match create DEFAULTS with Ok r => r | Raise _ => ∅ end.

Definition demo_reading : Observation.t :=
  Observation.mk "2.0.0" "observation-1" "correlation-1" "camera-1" HazardKind.WILDFIRE SourceMode.LIVE
    "boot-1" 1 1000 2000 {["smoke_score" := lit 1 2; "flame_score" := lit 1 5]}
    {["smoke_score" := "ratio"; "flame_score" := "ratio"]} ["invalid:flame_score"] "lineage" 0 f0 [] ∅ ∅ ∅.

Definition demo_observation : Observation.t :=
  match Observation.validate demo_reading with Ok o => o | Raise _ => demo_reading end.

(** ** The contract

    What the definition of a property asks of a measurement. *)
Definition admissible (d : PropertyDefinition.t) (m : MeasurementValue.t) : Prop :=
  MeasurementValue.unit m ∈ allowed_units d /\
  (forall lo, minimum d = Some lo -> flt (MeasurementValue.value m) lo = false) /\
  (forall hi, maximum d = Some hi -> flt hi (MeasurementValue.value m) = false) /\
  (forall s, statistic d = Some s -> MeasurementValue.statistic m = s) /\
  (allowed_axes d = [] \/ exists axis, MeasurementValue.axis m = Some axis /\ axis ∈ allowed_axes d) /\
  (requires_orientation d = true -> exists s, MeasurementValue.orientation m = Some s /\ s <> "") /\
  (requires_reference d = true -> exists s, MeasurementValue.reference m = Some s /\ s <> "").

Definition admitted (r : t) (m : MeasurementValue.t) : Prop :=
  exists d, r !! MeasurementValue.observed_property_id m = Some d /\ admissible d m.

Lemma given_true o : given o = true <-> exists s, o = Some s /\ s <> "".
Proof.
  unfold given. destruct o as [s|]; [|naive_solver].
  rewrite negb_true_iff, bool_decide_eq_false. naive_solver.
Qed.

Lemma guard_none {A} (b : bool) (x : A) o :
  (if b then Some x else o) = None <-> b = false /\ o = None.
Proof. destruct b; naive_solver. Qed.

Lemma opt_all_spec {A} (p : A -> bool) (o : option A) :
  opt_all p o = true <-> forall a, o = Some a -> p a = true.
Proof. destruct o; naive_solver. Qed.

Lemma contract_violation_none d m : contract_violation d m = None <-> admissible d m.
Proof.
  unfold contract_violation, admissible. rewrite !guard_none, !negb_false_iff, !opt_all_spec.
  rewrite bool_decide_eq_true, !andb_false_iff, !negb_false_iff, !given_true, bool_decide_eq_true.
  setoid_rewrite negb_true_iff. setoid_rewrite bool_decide_eq_true.
  assert ((match MeasurementValue.axis m with
           | Some axis => bool_decide (axis ∈ allowed_axes d) | None => false end) = true <->
          exists axis, MeasurementValue.axis m = Some axis /\ axis ∈ allowed_axes d) as ->.
  { destruct (MeasurementValue.axis m); [rewrite bool_decide_eq_true|]; naive_solver. }
  destruct (requires_orientation d), (requires_reference d); naive_solver.
Qed.

(** ** The loop

    Appending never removes a reason, and a structural reason appears exactly
    when a measurement is repeated or not admitted. *)
Lemma structural_app l k : existsb structural (l ++ k) = existsb structural l || existsb structural k.
Proof. apply List.existsb_app. Qed.

Lemma contract_violation_structural d m reason :
  contract_violation d m = Some reason -> structural reason = true.
Proof.
  unfold contract_violation.
  repeat match goal with |- context [if ?b then Some _ else _] => destruct b end;
    intros [= <-]; reflexivity.
Qed.

Lemma seen_check r l m x :
  x ∈ seen (check_measurement r l m) <-> x = MeasurementValue.source_value_key m \/ x ∈ seen l.
Proof.
  unfold check_measurement. case_decide as Hs; [cbn; naive_solver|].
  assert (Hadd : forall x, x ∈ seen (add_seen (MeasurementValue.source_value_key m) l)
    <-> x = MeasurementValue.source_value_key m \/ x ∈ seen l) by (cbn; set_solver).
  destruct (definition _ r) as [d|]; [|apply Hadd].
  destruct (contract_violation d m); [apply Hadd|].
  unfold check_quality, add_reference.
  repeat case_match; cbn in *; simplify_eq/=; apply Hadd.
Qed.

Lemma structural_reject key reason l :
  existsb structural (reasons (reject key reason l)) = existsb structural (reasons l) || structural reason.
Proof. cbn [reasons reject]. rewrite structural_app. cbn [existsb]. by rewrite orb_false_r. Qed.

Lemma structural_check r l m :
  existsb structural (reasons (check_measurement r l m)) = false <->
  existsb structural (reasons l) = false /\ MeasurementValue.source_value_key m ∉ seen l /\ admitted r m.
Proof.
  unfold check_measurement, admitted. case_decide as Hs.
  { rewrite structural_reject, orb_true_r. naive_solver. }
  destruct (definition _ r) as [d|] eqn:Ed; unfold definition in Ed.
  2:{ rewrite structural_reject, orb_true_r. naive_solver. }
  destruct (contract_violation d m) as [reason|] eqn:Ev.
  - rewrite structural_reject, (contract_violation_structural _ _ _ Ev), orb_true_r.
    split; [done|]. intros (_ & _ & d' & Hd & Ha). rewrite Ed in Hd. injection Hd as <-.
    apply contract_violation_none in Ha. congruence.
  - apply contract_violation_none in Ev. transitivity (existsb structural (reasons l) = false); [|naive_solver].
    unfold check_quality, add_reference.
    repeat case_match; simplify_eq/=; rewrite ?structural_app; cbn; by rewrite ?orb_false_r.
Qed.

Definition keys (ms : list MeasurementValue.t) : list string := MeasurementValue.source_value_key <$> ms.

Lemma seen_fold r ms x : x ∈ seen (foldl (check_measurement r) start ms) <-> x ∈ keys ms.
Proof.
  unfold keys. induction ms as [|m ms IH] using rev_ind; [cbn; set_solver|].
  rewrite foldl_snoc, seen_check, IH, fmap_app, elem_of_app. cbn.
  rewrite list_elem_of_singleton. tauto.
Qed.

Lemma structural_fold r ms :
  existsb structural (reasons (foldl (check_measurement r) start ms)) = false <->
  NoDup (keys ms) /\ Forall (admitted r) ms.
Proof.
  induction ms as [|m ms IH] using rev_ind.
  { cbn. split; [|done]. intros _. split; constructor. }
  rewrite foldl_snoc, structural_check, IH, seen_fold. unfold keys.
  rewrite fmap_app, NoDup_app, Forall_app, Forall_singleton. cbn.
  split; [intros ([? ?] & ? & ?)|intros ([? [H ?]] & ? & ?)]; split_and!; auto.
  - intros x Hx ->%list_elem_of_singleton. done.
  - apply NoDup_singleton.
  - intros Hin. by apply (H _ Hin), list_elem_of_singleton.
Qed.

(** ** Reports *)

Lemma validate_valid (o : Observation.t) (r : t) :
  MeasurementContractReport.valid (validate o r) = true <->
  NoDup (keys (Observation.measurements o)) /\
  dom (Observation.values o) = list_to_set (keys (Observation.measurements o)) /\
  Forall (admitted r) (Observation.measurements o).
Proof.
  unfold validate. cbv zeta. cbn [MeasurementContractReport.valid].
  set (l := foldl _ _ _). set (mismatch := negb (bool_decide (_ = _))).
  rewrite negb_true_iff.
  transitivity (mismatch = false /\ existsb structural (reasons l) = false).
  - destruct mismatch, (incompatible motion l), (incompatible vertical l);
      rewrite ?structural_app; cbn; rewrite ?orb_true_r, ?orb_false_r; naive_solver.
  - unfold mismatch, l. rewrite negb_false_iff, bool_decide_eq_true, structural_fold.
    assert (list_to_set (C := gset string) (seen (foldl (check_measurement r) start (Observation.measurements o)))
            = list_to_set (keys (Observation.measurements o))) as ->; [|tauto].
    apply set_eq. intros x. by rewrite !elem_of_list_to_set, seen_fold.
Qed.

(** A report is valid exactly when the measurements carry distinct keys,
    these are the keys of the observed values, and every measurement meets the
    definition of its property: an admissible unit, a value that is not out of
    range, the statistic, the axis, and an orientation and a reference where
    they are required. *)
Theorem measurement_contract (o : Observation.t) (r : t) :
  MeasurementContractReport.valid (validate o r) = true <->
  NoDup (keys (Observation.measurements o)) /\
  dom (Observation.values o) = list_to_set (keys (Observation.measurements o)) /\
  Forall (admitted r) (Observation.measurements o).
Proof. apply validate_valid. Qed.

(** What one admitted measurement adds to the report. *)
Definition usable_quality (m : MeasurementValue.t) : bool :=
  match MeasurementValue.quality m with
  | MeasurementQuality.INVALID | MeasurementQuality.MISSING => false
  | _ => true
  end.

Definition reference_of (r : t) (m : MeasurementValue.t) : list (string * string) :=
  match r !! MeasurementValue.observed_property_id m with
  | Some d =>
      if requires_reference d
      then [(MeasurementValue.source_value_key m, default "" (MeasurementValue.reference m))] else []
  | None => []
  end.

Definition reasons_of (r : t) (m : MeasurementValue.t) : list string :=
  let key := MeasurementValue.source_value_key m in
  ((fun kv => "reference_unqualified:" +:+ kv.1)
     <$> List.filter (fun kv => contains kv.2 "unqualified") (reference_of r m))
  ++ (if usable_quality m then
        (if decide (MeasurementValue.quality m = MeasurementQuality.SUSPECT)
         then ["quality_suspect:" +:+ key] else [])
        ++ (if decide (MeasurementValue.uncertainty m = None) then ["uncertainty_unknown:" +:+ key] else [])
      else ["quality_not_usable:" +:+ key +:+ ":" +:+ MeasurementQuality.value (MeasurementValue.quality m)]).

Lemma check_admitted r l m :
  MeasurementValue.source_value_key m ∉ seen l -> admitted r m ->
  let l' := check_measurement r l m in
  reasons l' = reasons l ++ reasons_of r m /\
  references l' = references l ++ reference_of r m /\
  usable l' = usable l ++ keys (List.filter usable_quality [m]) /\
  invalid l' = invalid l ++ keys (List.filter (fun m => negb (usable_quality m)) [m]).
Proof.
  intros Hs (d & Hd & Ha%contract_violation_none). cbv zeta.
  unfold check_measurement, definition, reasons_of, reference_of, keys.
  rewrite decide_False, Hd, Ha by done. unfold check_quality, add_reference, usable_quality. cbn.
  destruct (requires_reference d); cbn; [destruct (contains _ "unqualified")|];
    destruct (MeasurementValue.quality m) eqn:Eq, (MeasurementValue.uncertainty m); cbn;
    rewrite ?Eq, ?app_nil_r, <-?app_assoc; done.
Qed.

Lemma fold_admitted r ms :
  NoDup (keys ms) -> Forall (admitted r) ms ->
  let l := foldl (check_measurement r) start ms in
  reasons l = ms ≫= reasons_of r /\ references l = ms ≫= reference_of r /\
  usable l = keys (List.filter usable_quality ms) /\
  invalid l = keys (List.filter (fun m => negb (usable_quality m)) ms).
Proof.
  induction ms as [|m ms IH] using rev_ind; [done|].
  unfold keys. rewrite fmap_app, NoDup_app, Forall_app, Forall_singleton.
  intros (Hnd & Hdis & _) [Hall Hm]. destruct (IH Hnd Hall) as (Hr & Hrf & Hu & Hi). cbv zeta.
  rewrite foldl_snoc.
  destruct (check_admitted r (foldl (check_measurement r) start ms) m) as (-> & -> & -> & ->).
  { rewrite seen_fold. intros Hin. apply (Hdis _ Hin). cbn. by apply list_elem_of_singleton. }
  { done. }
  rewrite !bind_app, !List.filter_app, Hr, Hrf, Hu, Hi. unfold keys. rewrite !fmap_app.
  cbn [mbind list_bind]. by rewrite !app_nil_r.
Qed.

Lemma incompatible_submseteq (family : string -> bool) l l' :
  references l' ⊆ references l -> incompatible family l' = true -> incompatible family l = true.
Proof.
  unfold incompatible. rewrite !Nat.ltb_lt. intros Hsub Hlt. eapply Nat.lt_le_trans; [exact Hlt|].
  apply submseteq_length, NoDup_submseteq; [apply NoDup_remove_dups|].
  intros x. rewrite !elem_of_remove_dups, !list_elem_of_fmap. intros (kv & -> & Hkv).
  exists kv. split; [done|]. apply list_elem_of_In, List.filter_In in Hkv as [Hin Hf].
  apply list_elem_of_In, List.filter_In. split; [|done]. by apply list_elem_of_In, Hsub, list_elem_of_In.
Qed.

(** The reasons of a valid report. *)
Lemma elem_of_reason_codes o r c :
  let l := foldl (check_measurement r) start (Observation.measurements o) in
  MeasurementContractReport.valid (validate o r) = true ->
  c ∈ MeasurementContractReport.reason_codes (validate o r) <->
  c ∈ reasons l \/ incompatible motion l = true /\ c = "reference_incompatible:motion"
  \/ incompatible vertical l = true /\ c = "reference_incompatible:vertical"
  \/ c = "measurement_contract_valid".
Proof.
  cbv zeta. intros Hv. pose proof Hv as (_ & Hdom & _)%validate_valid.
  unfold validate in *. cbv zeta in *. cbn [MeasurementContractReport.valid MeasurementContractReport.reason_codes] in *.
  rewrite Hv. set (l := foldl _ _ _). rewrite (bool_decide_eq_true_2 (dom _ = _)).
  2:{ rewrite Hdom. apply set_eq. intros x. unfold l. by rewrite !elem_of_list_to_set, seen_fold. }
  cbn [negb]. rewrite elem_of_sorted_set, elem_of_app, list_elem_of_singleton.
  destruct (incompatible motion l), (incompatible vertical l);
    rewrite ?elem_of_app, ?list_elem_of_singleton; naive_solver.
Qed.

Lemma report_properties o r :
  MeasurementContractReport.valid (validate o r) = true ->
  MeasurementContractReport.usable_properties (validate o r)
    = sorted_set (keys (List.filter usable_quality (Observation.measurements o))) /\
  MeasurementContractReport.invalid_properties (validate o r)
    = sorted_set (keys (List.filter (fun m => negb (usable_quality m)) (Observation.measurements o))).
Proof.
  intros (Hnd & Hdom & Hall)%validate_valid.
  destruct (fold_admitted r _ Hnd Hall) as (_ & _ & Hu & Hi).
  unfold validate. cbv zeta. cbn. rewrite Hu, Hi, (bool_decide_eq_true_2 (dom _ = _)); [done|].
  rewrite Hdom. apply set_eq. intros x. by rewrite !elem_of_list_to_set, seen_fold.
Qed.

Lemma filter_usable o :
  NoDup (keys (Observation.measurements o)) ->
  List.filter (fun m => bool_decide (MeasurementValue.source_value_key m
     ∈ sorted_set (keys (List.filter usable_quality (Observation.measurements o)))))
    (Observation.measurements o) = List.filter usable_quality (Observation.measurements o).
Proof.
  intros Hnd. apply List.filter_ext_in. intros m Hm%list_elem_of_In.
  destruct (usable_quality m) eqn:Hu.
  - apply bool_decide_eq_true. apply elem_of_sorted_set, list_elem_of_fmap. exists m.
    split; [done|]. apply list_elem_of_In, List.filter_In. split; [by apply list_elem_of_In|done].
  - apply bool_decide_eq_false. rewrite elem_of_sorted_set. unfold keys. rewrite list_elem_of_fmap.
    intros (m' & Hk & [Hm' Hu']%list_elem_of_In%List.filter_In).
    rewrite (NoDup_fmap_elem _ _ m m' Hnd Hm) in Hu by (by try apply list_elem_of_In). congruence.
Qed.

Lemma keys_filter_NoDup p ms : NoDup (keys ms) -> NoDup (keys (List.filter p ms)).
Proof.
  unfold keys. induction ms as [|m ms IH]; cbn; [done|]. intros [Hm Hnd]%NoDup_cons.
  destruct (p m); cbn; [|auto]. apply NoDup_cons. split; [|auto].
  intros (m' & Hk & [Hin _]%list_elem_of_In%List.filter_In)%list_elem_of_fmap. apply Hm.
  apply list_elem_of_fmap. exists m'. split; [done|]. by apply list_elem_of_In.
Qed.

Lemma restrict_id o :
  restrict o (Observation.values o) (Observation.units o) (Observation.measurements o)
    (Observation.quality_flags o) = o.
Proof. by destruct o. Qed.

Lemma bind_filter_sub {A} (f : MeasurementValue.t -> list A) p ms : List.filter p ms ≫= f ⊆ ms ≫= f.
Proof.
  intros x (m & Hx & [Hm _]%list_elem_of_In%List.filter_In)%list_elem_of_bind.
  apply list_elem_of_bind. exists m. split; [done|]. by apply list_elem_of_In.
Qed.

Lemma sanitize_ok o o' r report :
  sanitize o r = Ok (o', report) <->
  MeasurementContractReport.valid report = true /\ report = validate o r /\ o' = sanitized o report.
Proof.
  unfold sanitize. cbv zeta. destruct (MeasurementContractReport.valid (validate o r)) eqn:Hv; cbn [negb check rbind].
  - split; [|by intros (_ & -> & ->)]. intros H. apply (f_equal (fun x => match x with Ok a => Some a | _ => None end)) in H.
    apply (inj Some), pair_equal_spec in H as [<- <-]. done.
  - split; [done|]. intros (H & -> & _). congruence.
Qed.

Lemma sanitized_measurements o r :
  MeasurementContractReport.valid (validate o r) = true ->
  Observation.measurements (sanitized o (validate o r))
  = List.filter usable_quality (Observation.measurements o).
Proof.
  intros Hv. destruct (report_properties _ _ Hv) as [Hu _].
  pose proof Hv as (Hnd & _ & _)%validate_valid.
  unfold sanitized, restrict. cbv zeta. cbn [Observation.measurements]. by rewrite Hu, filter_usable.
Qed.

Lemma sanitized_valid o r :
  MeasurementContractReport.valid (validate o r) = true ->
  MeasurementContractReport.valid (validate (sanitized o (validate o r)) r) = true.
Proof.
  intros Hv. pose proof Hv as (Hnd & Hdom & Hall)%validate_valid.
  destruct (report_properties _ _ Hv) as [Hu _].
  apply validate_valid. rewrite (sanitized_measurements _ _ Hv). split_and!.
  - by apply keys_filter_NoDup.
  - unfold sanitized, restrict. cbv zeta. cbn [Observation.values]. rewrite Hu. apply set_eq. intros k.
    rewrite elem_of_list_to_set, elem_of_dom. unfold is_Some. 
    setoid_rewrite map_lookup_filter_Some. cbn [fst]. setoid_rewrite elem_of_sorted_set. split; [naive_solver|].
    intros Hk. assert (is_Some (Observation.values o !! k)) as [x Hx]; [|eauto].
    apply elem_of_dom. rewrite Hdom, elem_of_list_to_set.
    unfold keys in *. apply list_elem_of_fmap in Hk as (m & -> & [Hm _]%list_elem_of_In%List.filter_In).
    apply list_elem_of_fmap. exists m. split; [done|]. by apply list_elem_of_In.
  - rewrite Forall_forall in *. intros m [Hm _]%list_elem_of_In%List.filter_In.
    apply Hall. by apply list_elem_of_In.
Qed.

Lemma filter_filter_usable ms :
  List.filter usable_quality (List.filter usable_quality ms) = List.filter usable_quality ms.
Proof. apply List.forallb_filter_id, List.forallb_forall. by intros m [_ ?]%List.filter_In. Qed.

Lemma filter_not_usable ms :
  List.filter (fun m => negb (usable_quality m)) (List.filter usable_quality ms) = [].
Proof. induction ms as [|m ms IH]; cbn; [done|]. by destruct (usable_quality m) eqn:E; cbn; rewrite ?E. Qed.

(** The report of a sanitized observation finds nothing more to remove. *)
Lemma sanitized_report o r :
  let report := validate o r in
  let report' := validate (sanitized o report) r in
  MeasurementContractReport.valid report = true ->
  MeasurementContractReport.usable_properties report' = MeasurementContractReport.usable_properties report /\
  MeasurementContractReport.invalid_properties report' = [] /\
  MeasurementContractReport.reason_codes report' ⊆ MeasurementContractReport.reason_codes report.
Proof.
  cbv zeta. intros Hv. pose proof (sanitized_valid _ _ Hv) as Hv'. set (o' := sanitized _ _) in *.
  destruct (report_properties _ _ Hv) as [-> _]. destruct (report_properties _ _ Hv') as [-> ->].
  pose proof (sanitized_measurements _ _ Hv) as Hms. fold o' in Hms.
  rewrite Hms, filter_filter_usable, filter_not_usable. split_and!; [done|done|].
  pose proof Hv as (Hnd & _ & Hall)%validate_valid.
  pose proof Hv' as (Hnd' & _ & Hall')%validate_valid.
  destruct (fold_admitted r _ Hnd' Hall') as (Hr & Hrf & _).
  destruct (fold_admitted r _ Hnd Hall) as (Hr0 & Hrf0 & _). intros c.
  rewrite !elem_of_reason_codes by done. rewrite Hr, Hr0.
  assert (Hsub : references (foldl (check_measurement r) start (Observation.measurements o'))
                 ⊆ references (foldl (check_measurement r) start (Observation.measurements o))).
  { rewrite Hrf, Hrf0, Hms. apply bind_filter_sub. }
  rewrite Hms at 1. intros [Hc|[[Hc ->]|[[Hc ->]| ->]]].
  - left. by eapply bind_filter_sub.
  - right. left. split; [|done]. by eapply incompatible_submseteq.
  - right. right. left. split; [|done]. by eapply incompatible_submseteq.
  - auto.
Qed.

Lemma sanitized_again o report report' :
  MeasurementContractReport.usable_properties report' = MeasurementContractReport.usable_properties report ->
  MeasurementContractReport.reason_codes report' ⊆ MeasurementContractReport.reason_codes report ->
  sanitized (sanitized o report) report' = sanitized o report.
Proof.
  intros Hu Hc. unfold sanitized, restrict. cbv zeta.
  cbn [Observation.values Observation.units Observation.measurements Observation.quality_flags]. rewrite Hu.
  match goal with |- ?a = ?b => change a with (restrict o (Observation.values a) (Observation.units a)
    (Observation.measurements a) (Observation.quality_flags a));
    change b with (restrict o (Observation.values b) (Observation.units b)
    (Observation.measurements b) (Observation.quality_flags b)) end.
  f_equal; cbn [Observation.values Observation.units Observation.measurements Observation.quality_flags].
  - apply map_filter_id. by intros k x [_ ?]%map_lookup_filter_Some.
  - apply map_filter_id. by intros k x [_ ?]%map_lookup_filter_Some.
  - apply List.forallb_filter_id, List.forallb_forall. by intros m [_ ?]%List.filter_In.
  - apply sorted_set_proper. intros x. rewrite !elem_of_app, elem_of_sorted_set, elem_of_app, !list_elem_of_fmap.
    set_solver.
Qed.

(** Sanitizing keeps exactly the measurements a report calls usable, and is
    idempotent: the sanitized observation is itself valid, nothing in it is
    invalid, and sanitizing it again gives the same observation. *)
Theorem sanitize_idempotent (o o' : Observation.t) (r : t) (report : MeasurementContractReport.t)
    (Hs : sanitize o r = Ok (o', report)) :
  (forall k, k ∈ keys (Observation.measurements o') <->
             k ∈ MeasurementContractReport.usable_properties report) /\
  exists report', sanitize o' r = Ok (o', report') /\
    MeasurementContractReport.invalid_properties report' = [].
Proof.
  apply sanitize_ok in Hs as (Hv & -> & ->). destruct (sanitized_report _ _ Hv) as (Hu & Hi & Hc).
  split.
  - intros k. rewrite (sanitized_measurements _ _ Hv).
    destruct (report_properties _ _ Hv) as [-> _]. by rewrite elem_of_sorted_set.
  - eexists. split; [|exact Hi]. apply sanitize_ok. split_and!; [by apply sanitized_valid|done|].
    symmetry. by apply sanitized_again.
Qed.

Lemma sanitize_idempotent_witness :
  let report := validate demo_observation demo_registry in
  let o' := sanitized demo_observation report in
  keys (Observation.measurements o') = ["smoke_score"] /\
  exists report', sanitize o' demo_registry = Ok (o', report') /\
    MeasurementContractReport.invalid_properties report' = [].
Proof.
  cbv zeta. split; [vm_compute; reflexivity|].
  apply (sanitize_idempotent demo_observation _ demo_registry (validate demo_observation demo_registry)).
  apply sanitize_ok. split_and!; [vm_compute; reflexivity|done|done].
Defined.
End MeasurementRegistry.
