(* ===== verification/Collector.v ===== *)
(** Component 1: the streaming source collector (collector/service.py) and its
    cursor store (storage/sqlite_store.py, [SourceCursorStore]).

    The collector checks an observation against the measurement contract and
    against the last accepted observation of its source, buffers it, and keeps
    the health of every source both in memory and in the cursor store.  The
    dict [_health] is iterated, so it is the list of its items in insertion
    order; ring buffers are reached through their collector only.  [uuid5]
    is [uuid5(NAMESPACE_URL, name)]; clock readings are arguments. *)

From Stdlib Require Import ZArith SpecFloat.
From S2P Require Import Prelude Binary64 Enums Models Records Measurements.
Open Scope Z_scope.

Module SourceConfiguration.
Record t : Type := mk {
  source_id : string;
  source_kind : string;
  location : string;
  max_lateness_seconds : f64
}.
Definition supported_kinds : list string := ["camera"; "imu"; "video_fixture"; "rtsp"].
Definition validate (c : t) : res t :=
  check (blank (source_id c) || blank (location c))
    (ValidationError "source configuration values must not be blank") >>!
  check (negb (bool_decide (source_kind c ∈ supported_kinds)))
    (ValidationError "source kind must be camera, imu, video_fixture, or rtsp") >>!
  check (max_lateness_seconds c <? f0)%f64
    (ValidationError "max_lateness_seconds must be non-negative") >>!
  Ok c.
(** [==], with the equality of floats on the bound. *)
Definition eqb (a b : t) : bool :=
  bool_decide (source_id a = source_id b) && bool_decide (source_kind a = source_kind b)
  && bool_decide (location a = location b) && feq (max_lateness_seconds a) (max_lateness_seconds b).
End SourceConfiguration.

Module BoundedRingBuffer.
Record t : Type := mk { capacity : Z; items : list Observation.t; dropped : Z }.

Definition create (capacity : Z) : res t :=
  check (capacity <=? 0) (ValueError "capacity must be positive") >>!
  Ok (mk capacity [] 0).

(** [deque(maxlen=capacity)] drops its first item when it is full. *)
Definition append (o : Observation.t) (b : t) : t :=
  let full := Z.of_nat (length (items b)) =? capacity b in
  mk (capacity b) ((if full then drop 1 (items b) else items b) ++ [o])
    (if full then dropped b + 1 else dropped b).

Definition latest (b : t) : option Observation.t := last (items b).
Definition snapshot (b : t) : list Observation.t := items b.
End BoundedRingBuffer.

Module SourceCursorStore.

(** A row of [source_cursors]. *)
Record cursor : Type := mkCursor {
  boot_id : string;
  clock_epoch : Z;
  last_sequence : Z;
  last_observed_at : datetime;
  clock_uncertainty_ms : f64;
  state : HealthState.t;
  reason_codes : list string
}.
#[export] Instance cursor_eq_dec : EqDecision cursor.
Proof. solve_decision. Defined.

Record t : Type := mk {
  source_cursors : gmap string cursor;
  source_health_events : list SourceHealthEvent.t
}.
Definition init : t := mk ∅ [].

(** The row of a complete cursor; [upsert] refuses the others. *)
Definition cursor_of (h : SourceHealth.t) : option cursor :=
  match SourceHealth.boot_id h, SourceHealth.clock_epoch h, SourceHealth.last_sequence h,
        SourceHealth.last_observed_at h with
  | Some boot, Some epoch, Some sequence, Some observed =>
      Some (mkCursor boot epoch sequence observed (SourceHealth.clock_uncertainty_ms h)
              (SourceHealth.state h) (SourceHealth.reason_codes h))
  | _, _, _, _ => None
  end.

Definition health_of (source_id : string) (c : cursor) : SourceHealth.t :=
  SourceHealth.mk source_id (state c) (Some (boot_id c)) (Some (clock_epoch c)) (Some (last_sequence c))
    (Some (last_observed_at c)) (Some (last_observed_at c)) (clock_uncertainty_ms c) (reason_codes c).

(** [ORDER BY source_id] *)
Definition load_all (s : t) : res (list SourceHealth.t) :=
  rmap (fun kv => SourceHealth.validate (health_of kv.1 kv.2)) (sorted_items (source_cursors s)).

Section Operations.
Context (uuid5 : string -> UUID) (isoformat : datetime -> string).

Definition health_event (previous : option cursor) (source_id : string) (c : cursor) (recorded_at : datetime)
  : res SourceHealthEvent.t :=
  let event_key := join ":"
    [source_id; default "none" (HealthState.value ∘ state <$> previous); HealthState.value (state c);
     pretty (last_sequence c); isoformat recorded_at; join "," (reason_codes c)] in
  SourceHealthEvent.validate
    {| SourceHealthEvent.event_id := uuid5 ("sentinel-source-health:" +:+ event_key);
       SourceHealthEvent.source_id := source_id;
       SourceHealthEvent.previous_state := state <$> previous;
       SourceHealthEvent.state := state c;
       SourceHealthEvent.recorded_at := recorded_at;
       SourceHealthEvent.boot_id := Some (boot_id c);
       SourceHealthEvent.sequence := Some (last_sequence c);
       SourceHealthEvent.clock_uncertainty_ms := clock_uncertainty_ms c;
       SourceHealthEvent.reason_codes := reason_codes c |}.

(** The row's state and reasons differ from those stored before. *)
Definition health_changed (previous : option cursor) (c : cursor) : bool :=
  match previous with
  | None => true
  | Some p => negb (bool_decide (state p = state c)) || negb (bool_decide (reason_codes p = reason_codes c))
  end.

Definition upsert (h : SourceHealth.t) (recorded_at : option datetime) : M t unit :=
  match cursor_of h with
  | None => raise (ValueError "complete source cursor required")
  | Some c =>
      let source_id := SourceHealth.source_id h in
      transaction
        (let! s := get in
         let previous := source_cursors s !! source_id in
         raise_if (negb (sqlite_integer (clock_epoch c) && sqlite_integer (last_sequence c)))
           (OtherError "OverflowError") ;;;
         put (mk (<[source_id := c]> (source_cursors s)) (source_health_events s)) ;;;
         if health_changed previous c then
           let! event := lift (health_event previous source_id c (default (last_observed_at c) recorded_at)) in
           let! events := lift (insert_row "source_health_events" (same_key SourceHealthEvent.event_id)
                                  (source_health_events s) event) in
           modify (fun s => mk (source_cursors s) events)
         else ret tt)
  end.
End Operations.

(** The rows carry the clock uncertainty, the events rebuilt from them do not. *)
Definition events (s : t) : list SourceHealthEvent.t :=
  (fun e => SourceHealthEvent.mk (SourceHealthEvent.event_id e) (SourceHealthEvent.source_id e)
     (SourceHealthEvent.previous_state e) (SourceHealthEvent.state e) (SourceHealthEvent.recorded_at e)
     (SourceHealthEvent.boot_id e) (SourceHealthEvent.sequence e) f0 (SourceHealthEvent.reason_codes e))
  <$> order_by SourceHealthEvent.recorded_at SourceHealthEvent.event_id (source_health_events s).
End SourceCursorStore.

Module StreamingSourceCollector.

Record t : Type := mk {
  capacity : Z;
  measurements : MeasurementRegistry.t;
  buffers : gmap string BoundedRingBuffer.t;
  cursor_store : SourceCursorStore.t;
  health_ : list (string * SourceHealth.t);
  source_configurations_ : gmap string SourceConfiguration.t
}.
Definition set_buffers v (c : t) : t :=
  mk (capacity c) (measurements c) v (cursor_store c) (health_ c) (source_configurations_ c).
Definition set_cursor_store v (c : t) : t :=
  mk (capacity c) (measurements c) (buffers c) v (health_ c) (source_configurations_ c).
Definition set_health v (c : t) : t :=
  mk (capacity c) (measurements c) (buffers c) (cursor_store c) v (source_configurations_ c).
Definition set_source_configurations v (c : t) : t :=
  mk (capacity c) (measurements c) (buffers c) (cursor_store c) (health_ c) v.

(** [__init__] *)
Definition create (buffer_capacity : Z) (store : SourceCursorStore.t) (registry : MeasurementRegistry.t)
  : res t :=
  rbind (SourceCursorStore.load_all store) (fun loaded =>
    Ok (mk buffer_capacity registry ∅ store
          (fold_left (fun d item => dict_set (SourceHealth.source_id item) item d) loaded []) ∅)).

Definition default_lateness (source_kind : string) : option f64 :=
  if decide (source_kind = "imu") then Some (lit 1 2)
  else if decide (source_kind = "camera") then Some (of_Z 2)
  else if decide (source_kind = "rtsp") then Some (of_Z 2)
  else if decide (source_kind = "video_fixture") then Some f0
  else None.

Definition configure_source (source_id source_kind location : string) (max_lateness_seconds : option f64)
  : M t SourceConfiguration.t :=
  match default_lateness source_kind with
  | None => raise (KeyError source_kind)
  | Some lateness =>
      let! configuration := lift (SourceConfiguration.validate
        (SourceConfiguration.mk source_id source_kind location (default lateness max_lateness_seconds))) in
      let! c := get in
      raise_if (match source_configurations_ c !! source_id with
                | Some previous => negb (SourceConfiguration.eqb previous configuration)
                | None => false
                end)
        (ValueError "source configuration is immutable") ;;;
      put (set_source_configurations (<[source_id := configuration]> (source_configurations_ c)) c) ;;;
      ret configuration
  end.

Definition source_configurations (c : t) : list SourceConfiguration.t :=
  snd <$> sorted_items (source_configurations_ c).

Section Operations.
Context (uuid5 : string -> UUID) (isoformat : datetime -> string).

Definition on_store {A} (m : M SourceCursorStore.t A) : M t A := zoom cursor_store set_cursor_store m.

Definition upsert (h : SourceHealth.t) (recorded_at : option datetime) : M t unit :=
  on_store (SourceCursorStore.upsert uuid5 isoformat h recorded_at).

Definition remember (h : SourceHealth.t) : M t unit :=
  modify (fun c => set_health (dict_set (SourceHealth.source_id h) h (health_ c)) c).

(** [reason_codes=tuple(sorted(set(reason_codes + (reason,))))] *)
Definition with_reason (reason : string) (h : SourceHealth.t) : SourceHealth.t :=
  SourceHealth.set_reason_codes (sorted_set (SourceHealth.reason_codes h ++ [reason])) h.

Definition same_epoch (p : SourceHealth.t) (o : Observation.t) : bool :=
  bool_decide (SourceHealth.boot_id p = Some (Observation.boot_id o))
  && bool_decide (SourceHealth.clock_epoch p = Some (Observation.clock_epoch o)).

(** [(previous.last_observed_at - observation.observed_at).total_seconds()], when positive *)
Definition lateness_seconds (p : SourceHealth.t) (o : Observation.t) : option f64 :=
  match SourceHealth.last_observed_at p with
  | Some last =>
      if Observation.observed_at o <? last then Some (total_seconds (last - Observation.observed_at o))
      else None
  | None => None
  end.

Definition lateness_bound (source_id : string) (c : t) : f64 :=
  match source_configurations_ c !! source_id with
  | Some configuration => SourceConfiguration.max_lateness_seconds configuration
  | None => f0
  end.

(** [if previous and previous.last_sequence is not None: ...] *)
Definition check_previous (previous : option SourceHealth.t) (o : Observation.t)
    (reasons : list string) (state : HealthState.t) : M t (list string * HealthState.t) :=
  match previous with
  | None => ret (reasons, state)
  | Some p =>
      match SourceHealth.last_sequence p with
      | None => ret (reasons, state)
      | Some last_sequence =>
          let same_epoch := same_epoch p o in
          raise_if (same_epoch && (Observation.sequence o <=? last_sequence))
            (ValueError "sequence must increase per source boot and clock epoch") ;;;
          let! c := get in
          let! '(reasons, state) :=
            match lateness_seconds p o with
            | Some lateness =>
                if (lateness >? lateness_bound (Observation.source_id o) c)%f64 then
                  let rejected := with_reason "late_event_exceeded"
                                    (SourceHealth.set_state HealthState.DEGRADED p) in
                  upsert rejected (Some (Observation.received_at o)) ;;;
                  modify (fun c =>
                    set_health (dict_set (Observation.source_id o) rejected (health_ c)) c) ;;;
                  raise (ValueError "event time exceeds adapter lateness bound")
                else ret (reasons ++ ["late_event"], HealthState.DEGRADED)
            | None => ret (reasons, state)
            end in
          let '(reasons, state) :=
            if same_epoch && (last_sequence + 1 <? Observation.sequence o)
            then (reasons ++ ["sequence_gap"], HealthState.DEGRADED) else (reasons, state) in
          ret (if same_epoch then reasons else reasons ++ ["source_epoch_transition"], state)
      end
  end.

(** Staleness of the capture, or recovery of the source. *)
Definition check_age (previous : option SourceHealth.t) (o : Observation.t)
    (reasons : list string) (state : HealthState.t) : list string * HealthState.t :=
  if (Observation.capture_age_ms o >? of_Z 5000)%f64 then (reasons ++ ["stale_capture"], HealthState.STALE)
  else
    match previous with
    | Some p =>
        if decide (SourceHealth.state p = HealthState.STALE \/ SourceHealth.state p = HealthState.FAILED)
        then (reasons ++ ["source_recovered"], HealthState.HEALTHY) else (reasons, state)
    | None => (reasons, state)
    end.

(** [self._buffers.setdefault(...).append(observation)]; the buffer's drop count. *)
Definition buffer_observation (o : Observation.t) : M t Z :=
  let! c := get in
  let! fresh := lift (BoundedRingBuffer.create (capacity c)) in
  let buffer := BoundedRingBuffer.append o (default fresh (buffers c !! Observation.source_id o)) in
  put (set_buffers (<[Observation.source_id o := buffer]> (buffers c)) c) ;;;
  ret (BoundedRingBuffer.dropped buffer).

Definition event_time_watermark (previous : option SourceHealth.t) (o : Observation.t) : datetime :=
  match previous ≫= SourceHealth.event_time_watermark with
  | Some w => if Observation.observed_at o <? w then w else Observation.observed_at o
  | None => Observation.observed_at o
  end.

Definition implausible (o : Observation.t) : bool :=
  existsb (fun kv => fabs kv.2 >? of_Z 1000000)%f64 (map_to_list (Observation.values o)).

Definition ingest (o : Observation.t) : M t Observation.t :=
  raise_if (bool_decide (Observation.source_mode o = SourceMode.REPLAYED))
    (ValueError "replayed observations cannot enter the live collector") ;;;
  let! c := get in
  let report := MeasurementRegistry.validate o (measurements c) in
  raise_if (negb (MeasurementContractReport.valid report))
    (ValueError ("measurement contract rejected: "
                 +:+ join "," (MeasurementContractReport.reason_codes report))) ;;;
  let previous := dict_get (Observation.source_id o) (health_ c) in
  let state :=
    if negb (bool_decide (MeasurementContractReport.invalid_properties report = []))
       || negb (bool_decide (MeasurementContractReport.suspect_properties report = []))
    then HealthState.DEGRADED else HealthState.HEALTHY in
  let! '(reasons, state) :=
    check_previous previous o (MeasurementContractReport.reason_codes report) state in
  let '(reasons, state) := check_age previous o reasons state in
  raise_if (implausible o) (ValueError "implausible numeric value") ;;;
  let! dropped := buffer_observation o in
  let '(reasons, state) :=
    if negb (dropped =? 0)
    then (reasons ++ ["ring_buffer_overwrite"],
          if decide (state = HealthState.HEALTHY) then HealthState.DEGRADED else state)
    else (reasons, state) in
  let! health := lift (SourceHealth.validate
    {| SourceHealth.source_id := Observation.source_id o;
       SourceHealth.state := state;
       SourceHealth.boot_id := Some (Observation.boot_id o);
       SourceHealth.clock_epoch := Some (Observation.clock_epoch o);
       SourceHealth.last_sequence := Some (Observation.sequence o);
       SourceHealth.last_observed_at := Some (Observation.observed_at o);
       SourceHealth.event_time_watermark := Some (event_time_watermark previous o);
       SourceHealth.clock_uncertainty_ms := Observation.clock_uncertainty_ms o;
       SourceHealth.reason_codes := sorted_set reasons |}) in
  upsert health None ;;;
  remember health ;;;
  ret o.

(** [tuple(sorted(self._health.values(), key=lambda item: item.source_id))] *)
Definition health (c : t) : list SourceHealth.t :=
  sort_by (fun x y => String.leb (SourceHealth.source_id x) (SourceHealth.source_id y)) (health_ c).*2.

(** The loop over [list(self._health.items())]. *)
Fixpoint mark_stale_items (items : list (string * SourceHealth.t)) (now : datetime) (threshold_seconds : Z)
  : M t unit :=
  match items with
  | [] => ret tt
  | (source_id, health) :: items =>
      (match SourceHealth.last_observed_at health with
       | Some last =>
           if fgt_Z (total_seconds (now - last)) threshold_seconds then
             let updated := with_reason "timeout" (SourceHealth.set_state HealthState.STALE health) in
             modify (fun c => set_health (dict_set source_id updated (health_ c)) c) ;;;
             upsert updated (Some now)
           else ret tt
       | None => ret tt
       end) ;;;
      mark_stale_items items now threshold_seconds
  end.

Definition mark_stale (now : datetime) (threshold_seconds : Z) : M t unit :=
  let! c := get in mark_stale_items (health_ c) now threshold_seconds.

Definition mark_failed (source_id reason : string) (now : datetime) : M t unit :=
  let! c := get in
  match dict_get source_id (health_ c) with
  | None => raise (KeyError source_id)
  | Some current =>
      let updated := with_reason reason (SourceHealth.set_state HealthState.FAILED current) in
      modify (fun c => set_health (dict_set source_id updated (health_ c)) c) ;;;
      upsert updated (Some now)
  end.

Definition health_events (c : t) : list SourceHealthEvent.t := SourceCursorStore.events (cursor_store c).
End Operations.
End StreamingSourceCollector.
