(* ===== verification/CollectorTheorems.v ===== *)
(** What the collector keeps in every execution, restarts included: memory and
    the cursor store agree, sequences increase within a source epoch, late
    events stay within the configured bound, and event-time watermarks only
    regress at a restart. *)

From Stdlib Require Import ZArith SpecFloat.
From S2P Require Import Prelude Binary64 Enums Models Records Measurements Collector.
Import StreamingSourceCollector.
Open Scope Z_scope.

Section Executions.
Context (uuid5 : string -> UUID) (isoformat : datetime -> string).

Notation rows c := (SourceCursorStore.source_cursors (cursor_store c)).

(** ** Calls and executions *)
Inductive op : Type :=
  | Configure (source_id source_kind location : string) (max_lateness_seconds : option f64)
  | Ingest (o : Observation.t)
  | MarkStale (now : datetime) (threshold_seconds : Z)
  | MarkFailed (source_id reason : string) (now : datetime)
  | Restart (buffer_capacity : Z).

(** A restart builds a new collector on the same database. *)
Definition restart (buffer_capacity : Z) : M t unit := fun c =>
  match create buffer_capacity (cursor_store c) (measurements c) with
  | Ok c' => (Ok tt, c')
  | Raise e => (Raise e, c)
  end.

Definition exec (o : op) : M t (option Observation.t) :=
  match o with
  | Configure id kind location lateness =>
      let! _ := configure_source id kind location lateness in ret None
  | Ingest o => let! o := ingest uuid5 isoformat o in ret (Some o)
  | MarkStale now threshold => mark_stale uuid5 isoformat now threshold ;;; ret None
  | MarkFailed id reason now => mark_failed uuid5 isoformat id reason now ;;; ret None
  | Restart capacity => restart capacity ;;; ret None
  end.

(** Observations are validated objects. *)
Definition op_valid (o : op) : Prop :=
  match o with
  | Ingest o => 0 <= Observation.sequence o /\ fle f0 (Observation.clock_uncertainty_ms o) = true
  | _ => True
  end.

(** [mark_stale] and [mark_failed] change the memory before they write: the
    executions considered are those in which the database takes the write. *)
Definition written {A} (o : op) (r : res A) : Prop :=
  match o, r with
  | MarkStale _ _, Raise (IntegrityError _) | MarkFailed _ _ _, Raise (IntegrityError _) => False
  | _, _ => True
  end.

(** The accepted observations, each with the lateness bound of its source. *)
Definition accepted (c : t) (o : op) (r : res (option Observation.t)) : list (Observation.t * f64) :=
  match o, r with
  | Ingest o, Ok _ => [(o, lateness_bound (Observation.source_id o) c)]
  | _, _ => []
  end.

Inductive execution : list (Observation.t * f64) -> t -> Prop :=
  | execution_start n registry c :
      create n SourceCursorStore.init registry = Ok c -> execution [] c
  | execution_step log c o r c' :
      execution log c -> op_valid o -> exec o c = (r, c') -> written o r ->
      execution (log ++ accepted c o r) c'.

(** ** The cursor store *)
Definition row_ok (row : SourceCursorStore.cursor) : Prop :=
  0 <= SourceCursorStore.last_sequence row /\
  fle f0 (SourceCursorStore.clock_uncertainty_ms row) = true /\
  sqlite_integer (SourceCursorStore.clock_epoch row)
    && sqlite_integer (SourceCursorStore.last_sequence row) = true.

Definition integrity_error {A} (r : res A) : Prop :=
  match r with Raise (IntegrityError _) => True | _ => False end.

Lemma store_upsert_run h at_ s r s' :
  SourceCursorStore.upsert uuid5 isoformat h at_ s = (r, s') ->
  (exists row, r = Ok tt /\ SourceCursorStore.cursor_of h = Some row /\
     sqlite_integer (SourceCursorStore.clock_epoch row)
       && sqlite_integer (SourceCursorStore.last_sequence row) = true /\
     SourceCursorStore.source_cursors s'
       = <[SourceHealth.source_id h := row]> (SourceCursorStore.source_cursors s)) \/
  (is_ok r = false /\ s' = s /\
   forall row, SourceCursorStore.cursor_of h = Some row -> row_ok row -> integrity_error r).
Proof.
  unfold SourceCursorStore.upsert. destruct (SourceCursorStore.cursor_of h) as [row|] eqn:Erow.
  2:{ intros [= <- <-]. right. split_and!; done. }
  unfold transaction, bind, get, raise_if, put, lift, modify.
  destruct (sqlite_integer _ && sqlite_integer _) eqn:Eint; cbn [negb].
  2:{ intros [= <- <-]. right. split_and!; [done..|]. intros row' [= <-] (_ & _ & H). congruence. }
  cbn [ret]. destruct (SourceCursorStore.health_changed _ row).
  2:{ intros [= <- <-]. left. by exists row. }
  destruct (SourceCursorStore.health_event _ _ _ _ _ _) as [event|e] eqn:Eev.
  - unfold insert_row. destruct (existsb _ _); intros [= <- <-].
    + right. done.
    + left. by exists row.
  - intros [= <- <-]. right. split_and!; [done..|]. intros row' [= <-] (Hs & Hu & _).
    unfold SourceCursorStore.health_event, SourceHealthEvent.validate in Eev. cbn in Eev.
    rewrite Hu in Eev. apply Z.leb_le in Hs. rewrite Hs in Eev. done.
Qed.

(** ** Memory and store *)
Definition complete (c : t) : Prop :=
  forall id h, dict_get id (health_ c) = Some h ->
    SourceHealth.source_id h = id /\
    exists row, SourceCursorStore.cursor_of h = Some row /\ row_ok row.

Record agree (c : t) : Prop := {
  ag_keys : NoDup (health_ c).*1;
  ag_rows : forall id, rows c !! id = dict_get id (health_ c) ≫= SourceCursorStore.cursor_of;
  ag_complete : complete c
}.

(** Only the buffers and configurations differ. *)
Definition same_health (c c' : t) : Prop := health_ c' = health_ c /\ cursor_store c' = cursor_store c.

Lemma agree_same c c' : same_health c c' -> agree c -> agree c'.
Proof. intros [Hh Hs] []. split; unfold complete in *; rewrite ?Hh, ?Hs; done. Qed.

(** [h] becomes the health of its source, in memory and in the store. *)
Definition stored (h : SourceHealth.t) (c c' : t) : Prop :=
  health_ c' = dict_set (SourceHealth.source_id h) h (health_ c) /\
  exists row, SourceCursorStore.cursor_of h = Some row /\ row_ok row /\
    rows c' = <[SourceHealth.source_id h := row]> (rows c).

Lemma agree_stored h c c' : stored h c c' -> agree c -> agree c'.
Proof.
  intros (Hh & row & Hrow & Hok & Hs) [Hk Hr Hc]. split.
  - rewrite Hh. by apply dict_set_NoDup.
  - intros id. rewrite Hs, Hh, dict_get_set, lookup_insert.
    destruct (decide (SourceHealth.source_id h = id)) as [He|He]; [exact (eq_sym Hrow)|apply Hr].
  - intros id h'. rewrite Hh, dict_get_set. case_decide; [|apply Hc].
    intros [= <-]. eauto.
Qed.

Lemma upsert_run h at_ c r c' :
  upsert uuid5 isoformat h at_ c = (r, c') ->
  health_ c' = health_ c /\
  ((exists row, r = Ok tt /\ SourceCursorStore.cursor_of h = Some row /\
     sqlite_integer (SourceCursorStore.clock_epoch row)
       && sqlite_integer (SourceCursorStore.last_sequence row) = true /\
     rows c' = <[SourceHealth.source_id h := row]> (rows c)) \/
   (is_ok r = false /\ cursor_store c' = cursor_store c /\
    forall row, SourceCursorStore.cursor_of h = Some row -> row_ok row -> integrity_error r)).
Proof.
  unfold upsert, on_store, zoom.
  destruct (SourceCursorStore.upsert _ _ _ _ _) as [r1 s1] eqn:E. intros [= <- <-].
  split; [done|]. destruct (store_upsert_run _ _ _ _ _ E) as [(row & ? & ? & ? & ?)|(? & ? & ?)].
  - left. by exists row.
  - right. done.
Qed.

(** Writing the health of a source with another state and more reasons. *)
Lemma restate_complete state reason h row :
  SourceCursorStore.cursor_of h = Some row -> row_ok row ->
  let h' := with_reason reason (SourceHealth.set_state state h) in
  SourceHealth.source_id h' = SourceHealth.source_id h /\
  exists row', SourceCursorStore.cursor_of h' = Some row' /\ row_ok row'.
Proof.
  intros Hrow Hok. split; [done|]. revert Hrow. unfold SourceCursorStore.cursor_of. cbn.
  repeat case_match; try done. intros [= <-]. eexists. split; [done|]. exact Hok.
Qed.

(** The health kept for the latest accepted observation of a source. *)
Definition health_matches (o : Observation.t) (h : SourceHealth.t) : Prop :=
  SourceHealth.boot_id h = Some (Observation.boot_id o) /\
  SourceHealth.clock_epoch h = Some (Observation.clock_epoch o) /\
  SourceHealth.last_sequence h = Some (Observation.sequence o) /\
  SourceHealth.last_observed_at h = Some (Observation.observed_at o).

(** What an accepted observation satisfies relative to the health before. *)
Definition follows_health (bound : f64) (p : SourceHealth.t) (o : Observation.t) : Prop :=
  forall last, SourceHealth.last_sequence p = Some last ->
    (same_epoch p o = true -> last < Observation.sequence o) /\
    (forall lateness, lateness_seconds p o = Some lateness -> flt bound lateness = false).

(** The three ways a call of [ingest] ends. *)
Inductive ingested (o : Observation.t) (c : t) : res Observation.t -> t -> Prop :=
  | ingest_refused e c' : same_health c c' -> ingested o c (Raise e) c'
  | ingest_late p e c' :
      dict_get (Observation.source_id o) (health_ c) = Some p ->
      (stored (with_reason "late_event_exceeded" (SourceHealth.set_state HealthState.DEGRADED p)) c c') ->
      ingested o c (Raise e) c'
  | ingest_accepted h c' :
      SourceHealth.source_id h = Observation.source_id o -> health_matches o h ->
      SourceHealth.event_time_watermark h
        = Some (event_time_watermark (dict_get (Observation.source_id o) (health_ c)) o) ->
      (forall p, dict_get (Observation.source_id o) (health_ c) = Some p ->
         follows_health (lateness_bound (Observation.source_id o) c) p o) ->
      stored h c c' ->
      ingested o c (Ok o) c'.

Lemma check_previous_run o reasons state c r c' :
  complete c ->
  check_previous uuid5 isoformat (dict_get (Observation.source_id o) (health_ c)) o reasons state c = (r, c') ->
  (exists x, r = Ok x /\ c' = c /\ forall p, dict_get (Observation.source_id o) (health_ c) = Some p ->
     follows_health (lateness_bound (Observation.source_id o) c) p o) \/
  (exists e, r = Raise e /\ ingested o c (Raise e) c').
Proof.
  intros Hc. unfold check_previous.
  destruct (dict_get _ (health_ c)) as [p|] eqn:Ep; [|intros [= <- <-]; left; by eexists].
  destruct (SourceHealth.last_sequence p) as [last|] eqn:El.
  2:{ intros [= <- <-]. left. eexists. split_and!; [done..|]. intros ? [= <-]. unfold follows_health. by rewrite El. }
  destruct (same_epoch p o && (Observation.sequence o <=? last)) eqn:Eseq.
  { intros [= <- <-]. right. eexists. split; [done|]. by apply ingest_refused. }
  assert (Hseq : same_epoch p o = true -> last < Observation.sequence o).
  { intros He. rewrite He in Eseq. cbn in Eseq. apply Z.leb_gt in Eseq. lia. }
  cbn -[with_reason]. unfold bind at 1 2, get. cbn -[with_reason].
  assert (Hdone : (forall lateness, lateness_seconds p o = Some lateness ->
            flt (lateness_bound (Observation.source_id o) c) lateness = false) ->
    forall p', Some p = Some p' -> follows_health (lateness_bound (Observation.source_id o) c) p' o).
  { intros Hl p' [= <-] last' Hlast. rewrite El in Hlast. injection Hlast as <-. done. }
  destruct (lateness_seconds p o) as [lateness|] eqn:Elate.
  2:{ intros H. left. destruct (same_epoch p o && _) in H; injection H as <- <-;
        (eexists; split_and!; [done..|]); by apply Hdone. }
  destruct (flt _ lateness) eqn:Ebound.
  2:{ intros H. left. destruct (same_epoch p o && _) in H; injection H as <- <-;
        (eexists; split_and!; [done..|]); apply Hdone; congruence. }
  clear Hdone. unfold bind.
  destruct (upsert _ _ _ _ c) as [ru c1] eqn:Eu. intros H. right.
  destruct (Hc _ _ Ep) as (Hid & row & Hrow & Hok).
  destruct (restate_complete HealthState.DEGRADED "late_event_exceeded" p row Hrow Hok)
    as (Hid' & row' & Hrow' & Hok').
  destruct (upsert_run _ _ _ _ _ Eu) as [Hh [(row1 & -> & Hrow1 & _ & Hs)|(Hru & Hs & _)]].
  - cbn -[with_reason] in H. injection H as <- <-. eexists. split; [done|].
    eapply ingest_late; [done|]. split; [cbn -[with_reason]; by rewrite Hh, Hid', Hid|].
    exists row1. split_and!; [done|congruence|done].
  - destruct ru as [|e]; [done|]. injection H as <- <-. eexists. split; [done|]. by apply ingest_refused.
Qed.

Lemma ingest_run o c r c' :
  complete c -> op_valid (Ingest o) -> ingest uuid5 isoformat o c = (r, c') -> ingested o c r c'.
Proof.
  intros Hag [Hseq Hunc]. unfold ingest.
  destruct (bool_decide _); [intros [= <- <-]; by apply ingest_refused|]. cbn [raise_if].
  unfold bind at 1 2. cbn [ret get]. set (report := MeasurementRegistry.validate _ _).
  destruct (MeasurementContractReport.valid report); [|intros [= <- <-]; by apply ingest_refused].
  cbn [negb raise_if]. unfold bind at 1. cbn [ret]. unfold bind at 1.
  destruct (check_previous _ _ _ _ _ _ c) as [rp c1] eqn:Ep.
  destruct (check_previous_run _ _ _ _ _ _ Hag Ep) as [(x & -> & -> & Hf)|(e & -> & He)].
  2:{ by intros [= <- <-]. }
  clear Ep. destruct x as [reasons1 state1]. destruct (check_age _ o _ _) as [reasons2 state2].
  destruct (implausible o); [intros [= <- <-]; by apply ingest_refused|]. cbn [raise_if].
  unfold bind at 1. cbn [ret].
  unfold bind at 1. destruct (buffer_observation o c) as [rb c1] eqn:Eb.
  assert (Hsame : same_health c c1).
  { unfold buffer_observation, bind, get, lift in Eb. cbn in Eb.
    destruct (BoundedRingBuffer.create _) in Eb; by injection Eb as _ <-. }
  destruct rb as [n|e]; [|intros [= <- <-]; by apply ingest_refused].
  set (rs := if negb (n =? 0) then _ else _). destruct rs as [reasons3 state3].
  unfold bind at 1, lift. unfold SourceHealth.validate at 1. cbn [SourceHealth.clock_uncertainty_ms].
  rewrite Hunc. cbn [negb check rbind]. set (h := SourceHealth.mk _ _ _ _ _ _ _ _ _).
  unfold bind at 1. destruct (upsert _ _ h None c1) as [ru c2] eqn:Eu. destruct Hsame as [Hh1 Hs1].
  destruct (upsert_run _ _ _ _ _ Eu) as [Hh [(row & -> & Hrow & Hint & Hs)|(Hru & Hs & _)]].
  - intros [= <- <-]. eapply ingest_accepted with (h := h); [done|done|done|exact Hf|].
    split; [cbn; by rewrite Hh, Hh1|]. exists row. split_and!; [done| |].
    + injection Hrow as <-. done.
    + cbn. by rewrite Hs, Hs1.
  - destruct ru as [|e]; [done|]. intros [= <- <-]. apply ingest_refused. split; congruence.
Qed.

(** ** Staleness and failure marks *)
Definition core (h : SourceHealth.t) :=
  (SourceHealth.boot_id h, SourceHealth.clock_epoch h, SourceHealth.last_sequence h,
   SourceHealth.last_observed_at h, SourceHealth.event_time_watermark h).
Definition cores (c : t) (id : string) := core <$> dict_get id (health_ c).

Lemma stored_cores h c c' id :
  stored h c c' -> cores c' id = if decide (SourceHealth.source_id h = id) then Some (core h) else cores c id.
Proof. intros [Hh _]. unfold cores. rewrite Hh, dict_get_set. by case_decide. Qed.

(** [self._health[source_id] = updated; self._cursor_store.upsert(updated)] *)
Lemma restate_run state reason id h at_ c r c' :
  agree c -> SourceHealth.source_id h = id -> cores c id = Some (core h) ->
  (exists row, SourceCursorStore.cursor_of h = Some row /\ row_ok row) ->
  let updated := with_reason reason (SourceHealth.set_state state h) in
  (modify (fun c => set_health (dict_set id updated (health_ c)) c) ;;;
   upsert uuid5 isoformat updated at_) c = (r, c') ->
  integrity_error r \/ r = Ok tt /\ agree c' /\ forall id, cores c' id = cores c id.
Proof.
  intros Hag Hid Hcore (row & Hrow & Hok). cbv zeta.
  destruct (restate_complete state reason h row Hrow Hok) as (Hid' & row' & Hrow' & Hok').
  set (updated := with_reason _ _) in *. unfold bind, modify.
  intros Hu. destruct (upsert_run _ _ _ _ _ Hu) as [Hh [(row1 & -> & Hrow1 & _ & Hs)|(_ & _ & Hru)]].
  2:{ left. by eapply Hru. }
  right. split; [done|].
  assert (Hst : stored updated c c').
  { split; [by rewrite Hh, Hid', Hid|]. exists row1. split_and!; [done|congruence|done]. }
  split; [by eapply agree_stored|]. intros id'. rewrite (stored_cores _ _ _ _ Hst), Hid', Hid.
  case_decide; [|done]. subst id'. by rewrite Hcore.
Qed.

Lemma mark_stale_items_run items now threshold c r c' :
  agree c ->
  Forall (fun kh => SourceHealth.source_id kh.2 = kh.1 /\ cores c kh.1 = Some (core kh.2) /\
                    exists row, SourceCursorStore.cursor_of kh.2 = Some row /\ row_ok row) items ->
  mark_stale_items uuid5 isoformat items now threshold c = (r, c') ->
  integrity_error r \/ r = Ok tt /\ agree c' /\ forall id, cores c' id = cores c id.
Proof.
  revert c. induction items as [|[id h] items IH]; intros c Hag Hitems; cbn [mark_stale_items].
  { intros [= <- <-]. right. done. }
  apply List.Forall_cons_iff in Hitems as [(Hid & Hcore & Hrow) Hitems]. cbn [fst snd] in *.
  destruct (SourceHealth.last_observed_at h) as [last|]; [|by apply IH].
  destruct (fgt_Z _ threshold); [|by apply IH].
  unfold bind at 1. destruct (bind _ _ c) as [r1 c1] eqn:E1.
  destruct (restate_run _ _ _ _ _ _ _ _ Hag Hid Hcore Hrow E1) as [He|(-> & Hag1 & Hc1)].
  { destruct r1; [done|]. intros [= <- <-]. by left. }
  intros H. destruct (IH c1 Hag1) with (2 := H) as [He|(-> & Hag' & Hc')]; [|by left|].
  { eapply List.Forall_impl; [|exact Hitems]. cbn. intros kh (? & ? & ?). by rewrite Hc1. }
  right. split_and!; [done..|]. intros id'. by rewrite Hc', Hc1.
Qed.

(** ** Restarts *)
Definition as_restored (h : SourceHealth.t) : SourceHealth.t :=
  SourceHealth.mk (SourceHealth.source_id h) (SourceHealth.state h) (SourceHealth.boot_id h)
    (SourceHealth.clock_epoch h) (SourceHealth.last_sequence h) (SourceHealth.last_observed_at h)
    (SourceHealth.last_observed_at h) (SourceHealth.clock_uncertainty_ms h) (SourceHealth.reason_codes h).

Definition id_le (x y : SourceHealth.t) : Prop :=
  String.leb (SourceHealth.source_id x) (SourceHealth.source_id y) = true.

Lemma id_le_trans : Transitive id_le.
Proof. intros x y z. unfold id_le. rewrite !String_leb_le. apply (transitivity (R := String.le)). Qed.

Lemma health_of_cursor h row :
  SourceCursorStore.cursor_of h = Some row ->
  SourceCursorStore.health_of (SourceHealth.source_id h) row = as_restored h.
Proof.
  destruct h. unfold SourceCursorStore.cursor_of. cbn. repeat case_match; try done.
  intros [= <-]. by subst.
Qed.

Lemma health_ids c : agree c -> SourceHealth.source_id <$> (health_ c).*2 = (health_ c).*1.
Proof.
  intros [Hk _ Hc]. rewrite <- list_fmap_compose. apply list_fmap_ext. intros i [id h] Hi.
  apply list_elem_of_lookup_2, (dict_elem_get _ _ _ Hk), Hc in Hi as [? _]. done.
Qed.

Lemma health_sorted c : StronglySorted id_le (health c).
Proof.
  apply sort_by_sorted; [intros x y; apply String_leb_total|]. intros x y z. apply id_le_trans.
Qed.

Lemma sorted_fmap {A B} (R : relation B) (f : A -> B) l :
  StronglySorted (fun x y => R (f x) (f y)) l -> StronglySorted R (f <$> l).
Proof. induction 1 as [|x l Hs IH Hx]; cbn; constructor; [done|]. by apply List.Forall_map. Qed.

Definition loaded (s : SourceCursorStore.t) : list SourceHealth.t :=
  (fun kv => SourceCursorStore.health_of kv.1 kv.2) <$> sorted_items (SourceCursorStore.source_cursors s).

Lemma elem_of_loaded c h : agree c -> h ∈ loaded (cursor_store c) <-> h ∈ as_restored <$> health c.
Proof.
  intros [Hk Hr Hc]. unfold loaded, health. rewrite sorted_items_perm, sort_by_perm, !list_elem_of_fmap.
  split.
  - intros ([id row] & -> & Hin%elem_of_map_to_list). rewrite Hr in Hin.
    apply bind_Some in Hin as (h' & Hget & Hrow). destruct (Hc _ _ Hget) as [<- _].
    exists h'. split; [by apply health_of_cursor|]. apply list_elem_of_fmap.
    exists (SourceHealth.source_id h', h'). split; [done|]. by apply dict_get_elem.
  - intros (h' & -> & ([id h1] & -> & Hin)%list_elem_of_fmap).
    apply (dict_elem_get _ _ _ Hk) in Hin. destruct (Hc _ _ Hin) as (<- & row & Hrow & _). cbn in *.
    exists (SourceHealth.source_id h1, row). split; [symmetry; by apply health_of_cursor|].
    apply elem_of_map_to_list. by rewrite Hr, Hin.
Qed.

Lemma loaded_ids s : SourceHealth.source_id <$> loaded s = (sorted_items (SourceCursorStore.source_cursors s)).*1.
Proof. unfold loaded. by rewrite <- list_fmap_compose. Qed.

Lemma loaded_NoDup s : NoDup (SourceHealth.source_id <$> loaded s).
Proof. rewrite loaded_ids, sorted_items_perm. apply NoDup_fst_map_to_list. Qed.

Lemma restored_ids c : agree c -> NoDup (SourceHealth.source_id <$> (as_restored <$> health c)).
Proof.
  intros Hag. rewrite <- list_fmap_compose. unfold health. rewrite sort_by_perm.
  change (NoDup (SourceHealth.source_id <$> (health_ c).*2)). rewrite health_ids by done. apply Hag.
Qed.

(** What the store gives back is the health in memory, watermarks aside. *)
Lemma loaded_health c : agree c -> loaded (cursor_store c) = as_restored <$> health c.
Proof.
  intros Hag. apply (StronglySorted_unique_strong id_le).
  - intros x y Hx Hy Hxy Hyx. apply elem_of_loaded in Hx; [|done].
    apply (NoDup_fmap_elem SourceHealth.source_id (as_restored <$> health c)); [by apply restored_ids|done..|].
    apply (anti_symm String.le); by apply String_leb_le.
  - apply sorted_fmap, sorted_items_sorted.
  - apply sorted_fmap, health_sorted.
  - apply NoDup_Permutation.
    + eapply NoDup_fmap_1, loaded_NoDup.
    + by eapply NoDup_fmap_1, restored_ids.
    + intros h. by apply elem_of_loaded.
Qed.

Lemma load_all_agree c :
  agree c -> SourceCursorStore.load_all (cursor_store c) = Ok (as_restored <$> health c).
Proof.
  intros Hag. unfold SourceCursorStore.load_all.
  rewrite (rmap_ok _ (fun kv => SourceCursorStore.health_of kv.1 kv.2)).
  { f_equal. apply (loaded_health c Hag). }
  apply Forall_forall. intros [id row] Hin. rewrite sorted_items_perm in Hin.
  apply elem_of_map_to_list in Hin. destruct Hag as [Hk Hr Hc]. rewrite Hr in Hin.
  apply bind_Some in Hin as (h & Hget & Hrow). destruct (Hc _ _ Hget) as (_ & row' & Hrow' & _ & Hu & _).
  rewrite Hrow in Hrow'. injection Hrow' as <-.
  unfold SourceHealth.validate. cbn in *. by rewrite Hu.
Qed.

Lemma create_agree n c registry :
  agree c -> exists c', create n (cursor_store c) registry = Ok c' /\
    cursor_store c' = cursor_store c /\
    health_ c' = (fun h => (SourceHealth.source_id h, h)) <$> (as_restored <$> health c).
Proof.
  intros Hag. unfold create. rewrite load_all_agree by done. cbn [rbind].
  eexists. split_and!; [done..|]. cbn [health_].
  rewrite dict_of_items; [done|]. by apply restored_ids.
Qed.

Lemma dict_get_keyed {V} (key : V -> string) (l : list V) id v :
  NoDup (key <$> l) ->
  dict_get id ((fun x => (key x, x)) <$> l) = Some v <-> v ∈ l /\ key v = id.
Proof.
  intros Hnd. assert (Hk : ((fun x => (key x, x)) <$> l).*1 = key <$> l) by by rewrite <- list_fmap_compose.
  split.
  - intros (x & [= -> ->] & Hx)%dict_get_elem%list_elem_of_fmap. done.
  - intros [Hv <-]. apply dict_elem_get; [by rewrite Hk|]. apply list_elem_of_fmap. by exists v.
Qed.

Lemma dict_get_health c id h : agree c -> dict_get id (health_ c) = Some h <-> h ∈ health c /\ SourceHealth.source_id h = id.
Proof.
  intros [Hk _ Hc]. unfold health. rewrite sort_by_perm, list_elem_of_fmap. split.
  - intros Hg. split; [|by apply Hc]. exists (id, h). split; [done|]. by apply dict_get_elem.
  - intros [([id' h'] & -> & Hin) <-]. cbn. apply (dict_elem_get _ _ _ Hk) in Hin.
    by destruct (Hc _ _ Hin) as [-> _].
Qed.

(** A restart keeps everything but the watermark. *)
Lemma restart_health n c c' registry id :
  agree c -> create n (cursor_store c) registry = Ok c' ->
  dict_get id (health_ c') = as_restored <$> dict_get id (health_ c).
Proof.
  intros Hag Hc'. destruct (create_agree n c registry Hag) as (c1 & Hc1 & _ & Hh).
  rewrite Hc' in Hc1. injection Hc1 as <-. rewrite Hh.
  apply option_eq. intros h. rewrite dict_get_keyed by by apply restored_ids.
  rewrite list_elem_of_fmap, fmap_Some. split.
  - intros [(h' & -> & Hin) Hid]. exists h'. split; [|done]. by apply dict_get_health.
  - intros (h' & Hg & ->). apply dict_get_health in Hg as [Hin Hid]; [|done]. split; [by exists h'|done].
Qed.

Lemma create_agrees n c c' registry :
  agree c -> create n (cursor_store c) registry = Ok c' -> agree c'.
Proof.
  intros Hag Hc'. pose proof (restart_health n c c' registry) as Hget.
  destruct (create_agree n c registry Hag) as (c1 & Hc1 & Hs & Hh).
  rewrite Hc' in Hc1. injection Hc1 as <-. destruct Hag as [Hk Hr Hc] eqn:Eag. split.
  - rewrite Hh, <- list_fmap_compose. by apply restored_ids.
  - intros id. rewrite Hs, (Hget id), Hr by done. destruct (dict_get id (health_ c)) as [h|]; [|done].
    by destruct h.
  - intros id h. rewrite (Hget id) by done. intros (h' & Hg & ->)%fmap_Some. by destruct (Hc _ _ Hg), h'.
Qed.

(** ** Calls *)
Lemma start_agree n registry c : create n SourceCursorStore.init registry = Ok c -> agree c /\ health_ c = [].
Proof.
  intros [= <-]. split; [|done]. split; cbn; [constructor| |done]. intros id. apply lookup_empty.
Qed.

Lemma configure_run id kind location lateness c r c' :
  configure_source id kind location lateness c = (r, c') -> same_health c c'.
Proof.
  unfold configure_source. destruct (default_lateness kind); [|by intros [= _ <-]].
  unfold bind, lift, get, put, ret. destruct (SourceConfiguration.validate _); [|by intros [= _ <-]].
  unfold raise_if. destruct (match _ with Some _ => _ | None => _ end); by intros [= _ <-].
Qed.

(** How one call changes the health of the sources. *)
Inductive effect (c : t) : op -> res (option Observation.t) -> t -> Prop :=
  | effect_none o r c' : accepted c o r = [] -> (forall id, cores c' id = cores c id) -> effect c o r c'
  | effect_accept o h c' :
      ingested o c (Ok o) c' -> stored h c c' -> SourceHealth.source_id h = Observation.source_id o ->
      health_matches o h ->
      SourceHealth.event_time_watermark h
        = Some (event_time_watermark (dict_get (Observation.source_id o) (health_ c)) o) ->
      (forall p, dict_get (Observation.source_id o) (health_ c) = Some p ->
         follows_health (lateness_bound (Observation.source_id o) c) p o) ->
      effect c (Ingest o) (Ok (Some o)) c'
  | effect_restart n r c' :
      (forall id, dict_get id (health_ c') = as_restored <$> dict_get id (health_ c)) ->
      effect c (Restart n) r c'.

Lemma same_cores c c' : same_health c c' -> forall id, cores c' id = cores c id.
Proof. intros [Hh _] id. unfold cores. by rewrite Hh. Qed.

Lemma exec_ingest o c r c' :
  agree c -> op_valid (Ingest o) -> exec (Ingest o) c = (r, c') -> agree c' /\ effect c (Ingest o) r c'.
Proof.
  intros Hag Hv. cbn [exec]. unfold bind. destruct (ingest uuid5 isoformat o c) as [r1 c1] eqn:E.
  pose proof (ingest_run _ _ _ _ (ag_complete _ Hag) Hv E) as Hi. destruct Hi as [e c1 Hs|p e c1 Hp Hs|h c1 Hid Hm Hw Hf Hs].
  - intros [= <- <-]. split; [by eapply agree_same|]. apply effect_none; [done|]. by apply same_cores.
  - intros [= <- <-]. split; [by eapply agree_stored|]. apply effect_none; [done|].
    intros id. rewrite (stored_cores _ _ _ _ Hs). case_decide as Hid; [|done]. unfold cores.
    destruct Hag as [_ _ Hc]. destruct (Hc _ _ Hp) as [Hp' _]. rewrite <- Hid. cbn. by rewrite Hp', Hp.
  - intros [= <- <-]. split; [by eapply agree_stored|]. eapply effect_accept; try done.
    by eapply ingest_accepted.
Qed.

Lemma exec_mark_stale now threshold c r c' :
  agree c -> exec (MarkStale now threshold) c = (r, c') -> written (MarkStale now threshold) r ->
  agree c' /\ effect c (MarkStale now threshold) r c'.
Proof.
  intros Hag. cbn [exec]. unfold bind at 1.
  change (mark_stale uuid5 isoformat now threshold c)
    with (mark_stale_items uuid5 isoformat (health_ c) now threshold c).
  destruct (mark_stale_items uuid5 isoformat (health_ c) now threshold c) as [r1 c1] eqn:E.
  assert (Hitems : Forall (fun kh => SourceHealth.source_id kh.2 = kh.1 /\ cores c kh.1 = Some (core kh.2) /\
                    exists row, SourceCursorStore.cursor_of kh.2 = Some row /\ row_ok row) (health_ c)).
  { apply Forall_forall. intros [id h] Hin. destruct Hag as [Hk _ Hc].
    apply (dict_elem_get _ _ _ Hk) in Hin. destruct (Hc _ _ Hin). split_and!; [done| |done].
    unfold cores. cbn. by rewrite Hin. }
  destruct (mark_stale_items_run _ _ _ _ _ _ Hag Hitems E) as [He|(-> & Hag' & Hc')].
  - destruct r1 as [|[]]; cbn in He; try done; intros [= <- <-] [].
  - intros [= <- <-] _. split; [done|]. by apply effect_none.
Qed.

Lemma exec_mark_failed id reason now c r c' :
  agree c -> exec (MarkFailed id reason now) c = (r, c') -> written (MarkFailed id reason now) r ->
  agree c' /\ effect c (MarkFailed id reason now) r c'.
Proof.
  intros Hag. cbn [exec]. unfold bind at 1, mark_failed. unfold bind at 1, get.
  destruct (dict_get id (health_ c)) as [h|] eqn:Eh.
  2:{ intros [= <- <-] _. split; [done|]. by apply effect_none. }
  pose proof Hag as [_ _ Hc]. destruct (Hc _ _ Eh) as [Hid Hrow].
  destruct (bind _ _ c) as [r1 c1] eqn:E.
  destruct (restate_run _ _ _ _ _ _ _ _ Hag Hid ltac:(unfold cores; by rewrite Eh) Hrow E)
    as [He|(-> & Hag' & Hc')].
  - destruct r1 as [|[]]; cbn in He; try done; intros [= <- <-] [].
  - intros [= <- <-] _. split; [done|]. by apply effect_none.
Qed.

Lemma exec_effect c o r c' :
  agree c -> op_valid o -> exec o c = (r, c') -> written o r -> agree c' /\ effect c o r c'.
Proof.
  intros Hag Hv. destruct o as [id kind location lateness|o|now threshold|id reason now|n].
  - cbn [exec]. unfold bind. destruct (configure_source _ _ _ _ c) as [r1 c1] eqn:E.
    apply configure_run in E. destruct r1; intros [= <- <-] _;
      (split; [by eapply agree_same|apply effect_none; [done|by apply same_cores]]).
  - intros H _. by apply exec_ingest.
  - by apply exec_mark_stale.
  - by apply exec_mark_failed.
  - cbn [exec]. unfold bind, restart. destruct (create_agree n c (measurements c) Hag) as (c1 & E & _ & _).
    rewrite E. intros [= <- <-] _. split; [by eapply create_agrees|].
    apply effect_restart. intros id. by eapply restart_health.
Qed.

Lemma execution_agree log c : execution log c -> agree c.
Proof.
  induction 1 as [n registry c Hc|log c o r c' _ IH Hv He Hw]; [by eapply start_agree|].
  by eapply exec_effect.
Qed.

(** After any execution, calls that failed included, the database can be
    loaded, and the collector a restart builds from it reports exactly the
    health that was in memory, with the event-time watermark set back to the
    last observed time. *)
Theorem restart_recovers_health log c n (Hx : execution log c) :
  exists c', create n (cursor_store c) (measurements c) = Ok c' /\
    health c' = as_restored <$> health c.
Proof.
  apply execution_agree in Hx as Hag.
  destruct (create_agree n c (measurements c) Hag) as (c' & Hc' & _ & Hh). exists c'. split; [done|].
  unfold health at 1. rewrite Hh, <- list_fmap_compose.
  match goal with |- sort_by _ ?l = _ => replace l with (as_restored <$> health c) end.
  - apply sort_by_id, sorted_fmap, health_sorted.
  - rewrite <- list_fmap_compose. by apply list_fmap_ext.
Qed.

(** ** The accepted observations of a source *)
Definition of_source (id : string) (log : list (Observation.t * f64)) : list (Observation.t * f64) :=
  filter (fun e => Observation.source_id e.1 = id) log.

(** [y], accepted under its bound, after [x]. *)
Definition follows (x y : Observation.t * f64) : Prop :=
  (Observation.boot_id x.1 = Observation.boot_id y.1 ->
   Observation.clock_epoch x.1 = Observation.clock_epoch y.1 ->
   Observation.sequence x.1 < Observation.sequence y.1) /\
  (Observation.observed_at y.1 < Observation.observed_at x.1 ->
   flt y.2 (total_seconds (Observation.observed_at x.1 - Observation.observed_at y.1)) = false).

Definition tracks (log : list (Observation.t * f64)) (c : t) : Prop :=
  forall id, match last (of_source id log) with
             | Some e => exists h, dict_get id (health_ c) = Some h /\ health_matches e.1 h
             | None => dict_get id (health_ c) = None
             end.

Lemma tracks_cores log c c' : (forall id, cores c' id = cores c id) -> tracks log c -> tracks log c'.
Proof.
  intros Hc Ht id. specialize (Ht id). specialize (Hc id). unfold cores in Hc.
  destruct (last _) as [e|].
  - destruct Ht as (h & Hh & Hm). rewrite Hh in Hc. apply fmap_Some in Hc as (h' & Hh' & Hcore).
    exists h'. split; [done|]. unfold core in Hcore. injection Hcore as E1 E2 E3 E4 _.
    destruct Hm as (? & ? & ? & ?). split_and!; congruence.
  - rewrite Ht in Hc. by apply fmap_None in Hc.
Qed.

Lemma tracks_restored log c c' :
  (forall id, dict_get id (health_ c') = as_restored <$> dict_get id (health_ c)) -> tracks log c -> tracks log c'.
Proof.
  intros Hc Ht id. specialize (Ht id). rewrite (Hc id). destruct (last _) as [e|]; [|by rewrite Ht].
  destruct Ht as (h & -> & Hm). by exists (as_restored h).
Qed.

Lemma of_source_snoc id log e :
  of_source id (log ++ [e])
  = of_source id log ++ (if decide (Observation.source_id e.1 = id) then [e] else []).
Proof. unfold of_source. by rewrite filter_app, filter_cons, filter_nil. Qed.

Lemma tracks_accept log c o h c' bound :
  tracks log c -> stored h c c' -> SourceHealth.source_id h = Observation.source_id o -> health_matches o h ->
  tracks (log ++ [(o, bound)]) c'.
Proof.
  intros Ht [Hh _] Hid Hm id. rewrite of_source_snoc, Hh, dict_get_set, Hid. cbn [fst].
  case_decide; [rewrite last_snoc; eauto|]. rewrite app_nil_r. apply Ht.
Qed.

Lemma follows_last x o bound p :
  health_matches x.1 p -> follows_health bound p o -> follows x (o, bound).
Proof.
  intros (Hb & He & Hs & Ho) Hf. destruct (Hf _ Hs) as [Hseq Hlate]. split; cbn.
  - intros E1 E2. apply Hseq. unfold same_epoch. by rewrite Hb, He, E1, E2, !bool_decide_eq_true_2.
  - intros Hlt. apply Hlate. unfold lateness_seconds. rewrite Ho. by apply Z.ltb_lt in Hlt as ->.
Qed.

(** ** Executions with writes that fail

    When the database refuses the write of [mark_stale] or [mark_failed], the
    memory keeps the new state and reasons all the same.  The positions of the
    sources still agree: with [hs] in place of the health in memory the
    collector agrees with its store. *)
Inductive any_execution : list (Observation.t * f64) -> t -> Prop :=
  | any_start n registry c :
      create n SourceCursorStore.init registry = Ok c -> any_execution [] c
  | any_step log c o r c' :
      any_execution log c -> op_valid o -> exec o c = (r, c') -> any_execution (log ++ accepted c o r) c'.

Record loose (c : t) : Prop := {
  lo_keys : NoDup (health_ c).*1;
  lo_complete : complete c;
  lo_store : exists hs, agree (set_health hs c) /\ forall id, core <$> dict_get id hs = cores c id
}.

Lemma agree_loose c : agree c -> loose c.
Proof. intros Hag. split; [apply Hag..|]. exists (health_ c). by destruct c. Qed.

Lemma loose_same c c' : same_health c c' -> loose c -> loose c'.
Proof.
  intros [Hh Hs] [Hk Hc (hs & Hag & Hcore)]. split.
  - by rewrite Hh.
  - unfold complete. by rewrite Hh.
  - exists hs. split; [by eapply agree_same; [|exact Hag]|]. intros id. unfold cores in *. by rewrite Hh.
Qed.

Lemma complete_set h c c' :
  health_ c' = dict_set (SourceHealth.source_id h) h (health_ c) ->
  (exists row, SourceCursorStore.cursor_of h = Some row /\ row_ok row) -> complete c -> complete c'.
Proof.
  intros Hh Hrow Hc id h'. rewrite Hh, dict_get_set. case_decide; [by intros [= <-]|apply Hc].
Qed.

Lemma loose_stored h c c' : stored h c c' -> loose c -> loose c'.
Proof.
  intros (Hh & row & Hrow & Hok & Hs) [Hk Hc (hs & Hag & Hcore)]. split.
  - rewrite Hh. by apply dict_set_NoDup.
  - by eapply complete_set; [|exists row|].
  - exists (dict_set (SourceHealth.source_id h) h hs). split.
    + eapply (agree_stored h (set_health hs c)); [|exact Hag]. split; [done|]. by exists row.
    + intros id. unfold cores in *. rewrite Hh, !dict_get_set. case_decide; [done|apply Hcore].
Qed.

Lemma restate_loose state reason id h at_ c r c' :
  loose c -> SourceHealth.source_id h = id -> cores c id = Some (core h) ->
  (exists row, SourceCursorStore.cursor_of h = Some row /\ row_ok row) ->
  let updated := with_reason reason (SourceHealth.set_state state h) in
  (modify (fun c => set_health (dict_set id updated (health_ c)) c) ;;;
   upsert uuid5 isoformat updated at_) c = (r, c') ->
  loose c' /\ forall id, cores c' id = cores c id.
Proof.
  intros Hlo Hid Hcore (row & Hrow & Hok). cbv zeta.
  destruct (restate_complete state reason h row Hrow Hok) as (Hid' & row' & Hrow' & Hok').
  set (updated := with_reason _ _) in *. unfold bind, modify. intros Hu.
  destruct (upsert_run _ _ _ _ _ Hu) as [Hh Hend].
  assert (Hset : health_ c' = dict_set (SourceHealth.source_id updated) updated (health_ c)) by by rewrite Hh, Hid', Hid.
  assert (Hcores : forall id', cores c' id' = cores c id').
  { intros id'. unfold cores. rewrite Hset, dict_get_set. case_decide as He; [|done].
    rewrite Hid', Hid in He. subst id'. symmetry. exact Hcore. }
  split; [|done]. destruct Hend as [(row1 & -> & Hrow1 & _ & Hs)|(_ & Hs & _)].
  - eapply (loose_stored updated); [|exact Hlo]. split; [done|]. exists row1. split_and!; [done|congruence|done].
  - destruct Hlo as [Hk Hc (hs & Hag & Hg)]. split.
    + rewrite Hset. by apply dict_set_NoDup.
    + by eapply complete_set; [|exists row'|].
    + exists hs. split; [eapply agree_same; [|exact Hag]; split; [done|exact Hs]|]. intros id'. by rewrite Hcores.
Qed.

Lemma mark_stale_items_loose items now threshold c r c' :
  loose c ->
  Forall (fun kh => SourceHealth.source_id kh.2 = kh.1 /\ cores c kh.1 = Some (core kh.2) /\
                    exists row, SourceCursorStore.cursor_of kh.2 = Some row /\ row_ok row) items ->
  mark_stale_items uuid5 isoformat items now threshold c = (r, c') ->
  loose c' /\ forall id, cores c' id = cores c id.
Proof.
  revert c. induction items as [|[id h] items IH]; intros c Hlo Hitems; cbn [mark_stale_items].
  { by intros [= <- <-]. }
  apply List.Forall_cons_iff in Hitems as [(Hid & Hcore & Hrow) Hitems]. cbn [fst snd] in *.
  destruct (SourceHealth.last_observed_at h) as [last|]; [|by apply IH].
  destruct (fgt_Z _ threshold); [|by apply IH].
  unfold bind at 1. destruct (bind _ _ c) as [r1 c1] eqn:E1.
  destruct (restate_loose _ _ _ _ _ _ _ _ Hlo Hid Hcore Hrow E1) as [Hlo1 Hc1].
  destruct r1; [|by intros [= <- <-]].
  intros H. destruct (IH c1 Hlo1) with (2 := H) as [Hlo' Hc'].
  { eapply List.Forall_impl; [|exact Hitems]. cbn. intros kh (? & ? & ?). by rewrite Hc1. }
  split; [done|]. intros id'. by rewrite Hc', Hc1.
Qed.

(** How one call changes the positions of the sources. *)
Inductive loose_effect (c : t) : op -> res (option Observation.t) -> t -> Prop :=
  | loose_none o r c' : accepted c o r = [] ->
      (forall id, (fun x => (x.1, ())) <$> cores c' id = (fun x => (x.1, ())) <$> cores c id) -> loose_effect c o r c'
  | loose_accept o h c' :
      stored h c c' -> SourceHealth.source_id h = Observation.source_id o -> health_matches o h ->
      (forall p, dict_get (Observation.source_id o) (health_ c) = Some p ->
         follows_health (lateness_bound (Observation.source_id o) c) p o) ->
      loose_effect c (Ingest o) (Ok (Some o)) c'.

Lemma loose_items c : loose c ->
  Forall (fun kh => SourceHealth.source_id kh.2 = kh.1 /\ cores c kh.1 = Some (core kh.2) /\
                    exists row, SourceCursorStore.cursor_of kh.2 = Some row /\ row_ok row) (health_ c).
Proof.
  intros [Hk Hc _]. apply Forall_forall. intros [id h] Hin. apply (dict_elem_get _ _ _ Hk) in Hin.
  destruct (Hc _ _ Hin). split_and!; [done| |done]. unfold cores. cbn. by rewrite Hin.
Qed.

Lemma exec_loose c o r c' :
  loose c -> op_valid o -> exec o c = (r, c') -> loose c' /\ loose_effect c o r c'.
Proof.
  intros Hlo Hv. destruct o as [id kind location lateness|o|now threshold|id reason now|n]; cbn [exec]; unfold bind at 1.
  - destruct (configure_source _ _ _ _ c) as [r1 c1] eqn:E. apply configure_run in E.
    destruct r1; intros [= <- <-];
      (split; [by eapply loose_same|apply loose_none; [done|intros id'; by rewrite (same_cores _ _ E)]]).
  - destruct (ingest uuid5 isoformat o c) as [r1 c1] eqn:E.
    destruct (ingest_run _ _ _ _ (lo_complete _ Hlo) Hv E) as [e c1 Hs|p e c1 Hp Hs|h c1 Hid Hm Hw Hf Hs].
    + intros [= <- <-]. split; [by eapply loose_same|]. apply loose_none; [done|]. intros id'. by rewrite (same_cores _ _ Hs).
    + intros [= <- <-]. split; [by eapply loose_stored|]. apply loose_none; [done|].
      intros id. rewrite (stored_cores _ _ _ _ Hs). case_decide as Hid; [|done]. unfold cores.
      destruct (lo_complete _ Hlo _ _ Hp) as [Hp' _]. rewrite <- Hid. cbn. by rewrite Hp', Hp.
    + intros [= <- <-]. split; [by eapply loose_stored|]. by eapply loose_accept.
  - change (mark_stale uuid5 isoformat now threshold c)
      with (mark_stale_items uuid5 isoformat (health_ c) now threshold c).
    destruct (mark_stale_items uuid5 isoformat (health_ c) now threshold c) as [r1 c1] eqn:E.
    destruct (mark_stale_items_loose _ _ _ _ _ _ Hlo (loose_items c Hlo) E) as [Hlo' Hc'].
    destruct r1; intros [= <- <-]; (split; [done|]; apply loose_none; [done|]; intros id'; by rewrite Hc').
  - unfold mark_failed. unfold bind at 1, get. destruct (dict_get id (health_ c)) as [h|] eqn:Eh.
    2:{ intros [= <- <-]. split; [done|]. by apply loose_none. }
    destruct (lo_complete _ Hlo _ _ Eh) as [Hid Hrow]. destruct (bind _ _ c) as [r1 c1] eqn:E.
    destruct (restate_loose _ _ _ _ _ _ _ _ Hlo Hid ltac:(unfold cores; by rewrite Eh) Hrow E) as [Hlo' Hc'].
    destruct r1; intros [= <- <-]; (split; [done|]; apply loose_none; [done|]; intros id'; by rewrite Hc').
  - destruct Hlo as [Hk Hc (hs & Hag & Hcore)]. unfold restart.
    destruct (create_agree n (set_health hs c) (measurements c) Hag) as (c1 & E & _ & _).
    change (cursor_store (set_health hs c)) with (cursor_store c) in E. rewrite E. intros [= <- <-].
    split; [apply agree_loose; by eapply (create_agrees n (set_health hs c))|]. apply loose_none; [done|]. intros id.
    pose proof (restart_health n (set_health hs c) c1 (measurements c) id Hag E) as H. cbn in H.
    rewrite <-(Hcore id). unfold cores. rewrite H. by destruct (dict_get id hs).
Qed.

Lemma tracks_positions log c c' :
  (forall id, (fun x => (x.1, ())) <$> cores c' id = (fun x => (x.1, ())) <$> cores c id) ->
  tracks log c -> tracks log c'.
Proof.
  intros Hc Ht id. specialize (Ht id). specialize (Hc id). unfold cores in Hc.
  destruct (last _) as [e|].
  - destruct Ht as (h & Hh & Hm). rewrite Hh in Hc. cbn in Hc.
    destruct (dict_get id (health_ c')) as [h'|]; [|done]. exists h'. split; [done|].
    injection Hc as E1 E2 E3 E4. destruct Hm as (? & ? & ? & ?). split_and!; congruence.
  - rewrite Ht in Hc. by destruct (dict_get id (health_ c')).
Qed.

(** C32: in every execution, restarts and failed calls included (also those
    whose write the database refuses), consecutive accepted observations of a
    source carry increasing sequence numbers within one boot and clock epoch,
    and one that is older than its predecessor is late by at most the bound its
    source was configured with. *)
Theorem accepted_in_order log c id (Hx : any_execution log c) : Sorted follows (of_source id log).
Proof.
  enough (Sorted follows (of_source id log) /\ tracks log c /\ loose c) by tauto. revert id.
  induction Hx as [n registry c Hc|log c o r c' Hx IH Hv He]; intros id.
  { split; [constructor|]. apply start_agree in Hc as [Hag Hh]. split; [|by apply agree_loose].
    intros id'. cbn. by rewrite Hh. }
  destruct (IH id) as (Hs & Ht & Hlo). destruct (exec_loose _ _ _ _ Hlo Hv He) as [Hlo' Heff].
  destruct Heff as [o r c' Hnone Hcores|o h c' Hst Hid Hm Hf].
  - rewrite Hnone, app_nil_r. split_and!; [done|by eapply tracks_positions|done].
  - cbn [accepted]. split_and!; [|by eapply tracks_accept|done].
    rewrite of_source_snoc. cbn [fst]. case_decide as Hsrc; [|by rewrite app_nil_r].
    apply Sorted_snoc; [done|]. intros x Hx'. specialize (Ht id). rewrite Hx' in Ht.
    destruct Ht as (p & Hp & Hmp). eapply follows_last; [done|]. apply Hf. by rewrite Hsrc.
Qed.

(** The event-time watermark of a source never decreases, whatever is
    called and whether or not it fails, except by a restart. *)
Theorem watermark_monotone log c o r c' id w
    (Hx : execution log c) (Hv : op_valid o) (He : exec o c = (r, c')) (Hw : written o r)
    (Hrun : forall n, o <> Restart n)
    (Hwm : dict_get id (health_ c) ≫= SourceHealth.event_time_watermark = Some w) :
  exists w', dict_get id (health_ c') ≫= SourceHealth.event_time_watermark = Some w' /\ w <= w'.
Proof.
  apply execution_agree in Hx as Hag. apply bind_Some in Hwm as (h0 & Hh0 & Hw0).
  destruct (exec_effect _ _ _ _ Hag Hv He Hw) as [_ Heff]. clear He Hv Hw. revert Hrun.
  destruct Heff as [o1 r1 c1 _ Hcores|o1 h c1 _ Hst Hid _ Hwm _|n r1 c1 _]; intros Hrun.
  - specialize (Hcores id). unfold cores in Hcores. rewrite Hh0 in Hcores.
    apply fmap_Some in Hcores as (h' & -> & Hcore). unfold core in Hcore. injection Hcore as _ _ _ _ E.
    exists w. split; [cbn; congruence|lia].
  - destruct Hst as [Hh _]. rewrite Hh, dict_get_set. case_decide as Hsrc; cbn.
    + rewrite Hwm. eexists. split; [done|]. rewrite <- Hid, Hsrc, Hh0. unfold event_time_watermark. cbn.
      rewrite Hw0. destruct (Z.ltb_spec (Observation.observed_at o1) w); lia.
    + exists w. rewrite Hh0. split; [done|lia].
  - by destruct (Hrun n).
Qed.
End Executions.

(** ** An execution

    A camera with a bound of two seconds delivers one observation in order and
    a late one, and the node restarts. *)
Definition demo_uuid5 (name : string) : UUID := "uuid5:" +:+ name.
Definition demo_isoformat (d : datetime) : string := pretty d.

Definition demo_reading (sequence : Z) (observed_at : datetime) : Observation.t :=
  match Observation.validate (Observation.mk "2.0.0" "observation" "correlation" "camera-1"
    HazardKind.WILDFIRE SourceMode.LIVE "boot-1" sequence observed_at observed_at
    {["smoke_score" := lit 1 2]} {["smoke_score" := "ratio"]} [] "lineage" 0 f0 [] ∅ ∅ ∅) with
  | Ok o => o
  | Raise _ => MeasurementRegistry.demo_reading
  end.

Definition demo_ops : list op :=
  [Configure "camera-1" "camera" "roof" None;
   Ingest (demo_reading 1 (seconds 100));
   Ingest (demo_reading 2 (seconds 99));
   Ingest (demo_reading 3 (seconds 50))].

Fixpoint run (ops : list op) (log : list (Observation.t * f64)) (c : t) : list (Observation.t * f64) * t :=
  match ops with
  | [] => (log, c)
  | o :: ops =>
      let '(r, c') := exec demo_uuid5 demo_isoformat o c in run ops (log ++ accepted c o r) c'
  end.

Definition ordinary (o : op) : bool :=
  match o with
  | Ingest o => (0 <=? Observation.sequence o) && fle f0 (Observation.clock_uncertainty_ms o)
  | Configure _ _ _ _ => true
  | _ => false
  end.

Lemma run_execution ops log c :
  forallb ordinary ops = true -> execution demo_uuid5 demo_isoformat log c ->
  execution demo_uuid5 demo_isoformat (run ops log c).1 (run ops log c).2.
Proof.
  revert log c. induction ops as [|o ops IH]; intros log c; [done|].
  cbn [forallb run]. intros [Ho Hops]%andb_true_iff Hx.
  destruct (exec _ _ o c) as [r c'] eqn:E. apply IH; [done|].
  eapply execution_step; [done| |done|].
  - destruct o; try done. cbn in Ho. apply andb_true_iff in Ho as [Ho ?]. split; [lia|done].
  - by destruct o, r as [|[]].
Qed.

Definition demo_start : t :=
  mk 4 MeasurementRegistry.demo_registry ∅ SourceCursorStore.init [] ∅.
Definition demo_run : list (Observation.t * f64) * t := run demo_ops [] demo_start.

Lemma demo_execution : execution demo_uuid5 demo_isoformat demo_run.1 demo_run.2.
Proof.
  apply run_execution; [vm_compute; reflexivity|].
  by apply (execution_start _ _ 4 MeasurementRegistry.demo_registry).
Qed.

Lemma restart_recovers_health_witness :
  length (health demo_run.2) = 1%nat /\
  exists c', create 4 (cursor_store demo_run.2) (measurements demo_run.2) = Ok c' /\
    health c' = as_restored <$> health demo_run.2.
Proof.
  split; [vm_compute; reflexivity|].
  apply (restart_recovers_health demo_uuid5 demo_isoformat demo_run.1). apply demo_execution.
Defined.

(** The same execution on a database that takes one health event only: the
    second write, of [mark_failed], is refused, and the source goes on. *)
Definition one_event (_ : string) : UUID := "event".
Definition refused_ops : list op :=
  [Configure "camera-1" "camera" "roof" None; Ingest (demo_reading 1 (seconds 100));
   MarkFailed "camera-1" "operator" (seconds 101); Restart 4; Ingest (demo_reading 2 (seconds 101))].

Fixpoint outcomes (ops : list op) (c : t) : list bool :=
  match ops with
  | [] => []
  | o :: ops => let '(r, c') := exec one_event demo_isoformat o c in is_ok r :: outcomes ops c'
  end.

Fixpoint run_any (ops : list op) (log : list (Observation.t * f64)) (c : t) : list (Observation.t * f64) * t :=
  match ops with
  | [] => (log, c)
  | o :: ops => let '(r, c') := exec one_event demo_isoformat o c in run_any ops (log ++ accepted c o r) c'
  end.

Lemma run_any_execution ops log c :
  Forall op_valid ops -> any_execution one_event demo_isoformat log c ->
  any_execution one_event demo_isoformat (run_any ops log c).1 (run_any ops log c).2.
Proof.
  intros Hops. revert log c. induction Hops as [|o ops Ho Hops IH]; intros log c; [done|].
  cbn [run_any]. intros Hx. destruct (exec _ _ o c) as [r c'] eqn:E. apply IH. by eapply any_step.
Qed.

Lemma accepted_in_order_witness :
  outcomes refused_ops demo_start = [true; true; false; true; true] /\
  Observation.sequence ∘ fst <$> of_source "camera-1" (run_any refused_ops [] demo_start).1 = [1; 2] /\
  Sorted follows (of_source "camera-1" (run_any refused_ops [] demo_start).1).
Proof.
  split; [vm_compute; reflexivity|]. split; [vm_compute; reflexivity|].
  apply (accepted_in_order one_event demo_isoformat _ (run_any refused_ops [] demo_start).2).
  apply run_any_execution.
  - repeat constructor; vm_compute; congruence.
  - by apply (any_start _ _ 4 MeasurementRegistry.demo_registry).
Defined.

Lemma watermark_monotone_witness :
  exists w', dict_get "camera-1" (health_ (exec demo_uuid5 demo_isoformat (Ingest (demo_reading 3 (seconds 99)))
                                     demo_run.2).2)
               ≫= SourceHealth.event_time_watermark = Some w' /\ seconds 100 <= w'.
Proof.
  apply (watermark_monotone demo_uuid5 demo_isoformat demo_run.1 demo_run.2
           (Ingest (demo_reading 3 (seconds 99)))
           (exec demo_uuid5 demo_isoformat (Ingest (demo_reading 3 (seconds 99))) demo_run.2).1).
  - apply demo_execution.
  - vm_compute. split; [discriminate|reflexivity].
  - apply surjective_pairing.
  - by destruct (exec _ _ _ _).1 as [|[]].
  - discriminate.
  - vm_compute. reflexivity.
Defined.

(** A restart after a late observation sets the watermark back. *)
Theorem restart_regresses_watermark :
  exists log c c' w w',
    execution demo_uuid5 demo_isoformat log c /\
    create 4 (cursor_store c) (measurements c) = Ok c' /\
    dict_get "camera-1" (health_ c) ≫= SourceHealth.event_time_watermark = Some w /\
    dict_get "camera-1" (health_ c') ≫= SourceHealth.event_time_watermark = Some w' /\ w' < w.
Proof.
  exists demo_run.1, demo_run.2. eexists _, _, _.
  split; [apply demo_execution|]. split; [vm_compute; reflexivity|].
  split; [vm_compute; reflexivity|]. split; [vm_compute; reflexivity|]. vm_compute. reflexivity.
Qed.
