(* ===== verification/Auth.v ===== *)
(** Authentication and command authorization (security/auth.py).

    [sha256] maps the bytes of a token or of a canonical encoding to the
    hexadecimal digest and [hmac secret message] is the HMAC-SHA256 tag: both
    are arguments, as is the text of floats and timestamps. *)

From Stdlib Require Import ZArith.
From S2P Require Import Prelude Binary64 Enums Models Records CanonicalJson.
Open Scope Z_scope.

(** ** Machine principals *)
Record ProducerIdentityDecision : Type := mkProducerIdentityDecision {
  allowed : bool;
  reason : string
}.

Definition machine (p : PrincipalRef.t) : bool :=
  match PrincipalRef.principal_kind p with PrincipalKind.human => false | _ => true end.

Definition authorize_producer_identity (principal : PrincipalRef.t) (sending_component : string)
  : ProducerIdentityDecision :=
  let component := strip sending_component in
  if bool_decide (component = "") then mkProducerIdentityDecision false "sending_component_required"
  else if machine principal && negb (bool_decide (PrincipalRef.principal_id principal = component))
  then mkProducerIdentityDecision false "producer_identity_mismatch_audited"
  else mkProducerIdentityDecision true "producer_identity_bound".

Definition ROLE_PERMISSIONS (role : PrincipalRole.t) : list string :=
  match role with
  | PrincipalRole.VIEWER =>
      ["health:read"; "incidents:read"; "runtime:read"; "configuration:read"; "notifications:read";
       "sources:read"; "reviews:read"; "evidence:read"; "storage:read"]
  | PrincipalRole.OPERATOR =>
      ["health:read"; "incidents:read"; "runtime:read"; "configuration:read"; "notifications:read";
       "sources:read"; "reviews:read"; "evidence:read"; "evidence:write"; "incidents:command";
       "scenarios:run"; "incidents:acknowledge"; "incidents:snooze"; "notifications:dispatch";
       "reviews:generate"; "storage:read"; "spool:reconcile"]
  | PrincipalRole.ADMIN => ["*"]
  end.

Module AuthManager.

(** [TokenRecord] *)
Record token_record : Type := mkTokenRecord {
  token_sha256 : string;
  principal : PrincipalRef.t;
  expires_at : option datetime;
  disabled : bool
}.

Record t : Type := mk {
  development_only : bool;
  records : gmap string token_record
}.

Definition set_records r (s : t) : t := mk (development_only s) r.

Section Manager.
Context (sha256 : string -> string).

Definition digest_token (token : string) : string := sha256 token.

Definition add_token (token : string) (principal : PrincipalRef.t) (expires_at : option datetime) : M t unit :=
  raise_if (String.length token <? 16)%nat (ValueError "bearer token must contain at least 16 characters") ;;;
  let digest := digest_token token in
  let! s := get in
  raise_if (bool_decide (is_Some (records s !! digest))) (ValueError "duplicate bearer token") ;;;
  put (set_records (<[digest := mkTokenRecord digest principal expires_at false]> (records s)) s).

(** [for token, principal in records: self.add_token(token, principal)] *)
Fixpoint add_tokens (items : list (string * PrincipalRef.t)) : M t unit :=
  match items with
  | [] => ret tt
  | (token, principal) :: items => add_token token principal None ;;; add_tokens items
  end.

(** [__init__] raises with the first token refused. *)
Definition init (items : list (string * PrincipalRef.t)) (development_only : bool) : res t :=
  match add_tokens items (mk development_only ∅) with
  | (Ok _, s) => Ok s
  | (Raise e, _) => Raise e
  end.

Definition authenticate (token : option string) (now : datetime) (s : t) : res PrincipalRef.t :=
  match token with
  | None => Raise (AuthenticationError "missing bearer token")
  | Some token =>
      if bool_decide (token = "") then Raise (AuthenticationError "missing bearer token")
      else
        let digest := digest_token token in
        match records s !! digest with
        | None => Raise (AuthenticationError "invalid bearer token")
        | Some record =>
            if negb (bool_decide (token_sha256 record = digest))
            then Raise (AuthenticationError "invalid bearer token")
            else if disabled record then Raise (AuthenticationError "bearer token is disabled")
            else if match expires_at record with Some e => e <=? now | None => false end
            then Raise (AuthenticationError "bearer token is expired")
            else Ok (principal record)
        end
  end.

Definition permissions (principal : PrincipalRef.t) : list string :=
  flat_map ROLE_PERMISSIONS (PrincipalRef.roles principal).

Definition authorize (principal : PrincipalRef.t) (permission : string) : res unit :=
  if machine principal && bool_decide (permission = "reviews:generate")
  then Raise (AuthorizationError "non-human principal cannot exercise operator review authority")
  else if negb (bool_decide ("*" ∈ permissions principal)) && negb (bool_decide (permission ∈ permissions principal))
  then Raise (AuthorizationError ("permission denied: " +:+ permission))
  else Ok tt.

Definition disable (r : token_record) : token_record :=
  mkTokenRecord (token_sha256 r) (principal r) (expires_at r) true.

Definition disable_token (token : string) : M t PrincipalRef.t :=
  let digest := digest_token token in
  let! s := get in
  match records s !! digest with
  | None => raise (AuthenticationError "invalid bearer token")
  | Some record =>
      raise_if (negb (bool_decide (token_sha256 record = digest))) (AuthenticationError "invalid bearer token") ;;;
      put (set_records (<[digest := disable record]> (records s)) s) ;;;
      ret (principal record)
  end.

(** The records [disable_principal] changes. *)
Definition to_disable (principal_id : string) (r : token_record) : bool :=
  bool_decide (PrincipalRef.principal_id (principal r) = principal_id) && negb (disabled r).

Definition disable_principal (principal_id : string) : M t Z :=
  let! s := get in
  put (set_records ((fun r => if to_disable principal_id r then disable r else r) <$> records s) s) ;;;
  ret (Z.of_nat (length (List.filter (fun kv => to_disable principal_id kv.2) (map_to_list (records s))))).

End Manager.

Definition development_principal (principal_id : string) (role : PrincipalRole.t) : PrincipalRef.t :=
  {| PrincipalRef.principal_id := principal_id; PrincipalRef.roles := [role]; PrincipalRef.scopes := [];
     PrincipalRef.authentication_method := "local_bearer"; PrincipalRef.principal_kind := PrincipalKind.human;
     PrincipalRef.session_epoch := 1; PrincipalRef.device_trust_epoch := 1 |}.

Definition development (sha256 : string -> string) : res t :=
  init sha256
    [("sentinel-dev-viewer-token", development_principal "development-viewer" PrincipalRole.VIEWER);
     ("sentinel-dev-operator-token", development_principal "development-operator" PrincipalRole.OPERATOR);
     ("sentinel-dev-admin-token", development_principal "development-admin" PrincipalRole.ADMIN)] true.

(** [from_environment], with the value of SENTINEL_EDGE_ADMIN_TOKEN. *)
Definition from_environment (sha256 : string -> string) (token : option string) : res t :=
  match token with
  | None => Raise (RuntimeError "SENTINEL_EDGE_ADMIN_TOKEN is required outside development mode")
  | Some token =>
      if bool_decide (token = "")
      then Raise (RuntimeError "SENTINEL_EDGE_ADMIN_TOKEN is required outside development mode")
      else init sha256 [(token, development_principal "local-admin" PrincipalRole.ADMIN)] false
  end.
End AuthManager.

Module CommandAuthorizer.

Definition CANONICAL_ENCODING_VERSION : string := "sentinel-cjson-v1".

Record t : Type := mk {
  secret : string;
  policy_version : string;
  ttl_seconds : Z
}.

Definition init (secret policy_version : string) (ttl_seconds : Z) : res t :=
  if (String.length secret <? 32)%nat
  then Raise (ValueError "authorization secret must contain at least 32 bytes")
  else Ok (mk secret policy_version ttl_seconds).

(** [principal.model_dump(mode="json")] *)
Definition dump_principal (p : PrincipalRef.t) : json :=
  JDict [("principal_id", JStr (PrincipalRef.principal_id p));
         ("roles", JList (map (fun r => JStr (PrincipalRole.value r)) (PrincipalRef.roles p)));
         ("scopes", JList (map JStr (PrincipalRef.scopes p)));
         ("authentication_method", JStr (PrincipalRef.authentication_method p));
         ("principal_kind", JStr (PrincipalKind.value (PrincipalRef.principal_kind p)));
         ("session_epoch", JInt (PrincipalRef.session_epoch p));
         ("device_trust_epoch", JInt (PrincipalRef.device_trust_epoch p))].

Section Authorizer.
Context (float_repr : f64 -> string) (isoformat : datetime -> string).
Context (sha256 : string -> string) (hmac : string -> string -> string).

Definition payload_digest (payload : json) : string := sha256 (canonical_json_bytes float_repr payload).

Definition tag_json (a : t) (principal : PrincipalRef.t) (operation target payload_sha256 : string)
    (accepted_at expires_at : datetime) : json :=
  JDict [("principal", dump_principal principal);
         ("operation", JStr operation);
         ("target", JStr target);
         ("payload_sha256", JStr payload_sha256);
         ("policy_version", JStr (policy_version a));
         ("canonical_encoding_version", JStr CANONICAL_ENCODING_VERSION);
         ("accepted_at", JStr (isoformat accepted_at));
         ("expires_at", JStr (isoformat expires_at))].

Definition tag_payload (a : t) (principal : PrincipalRef.t) (operation target payload_sha256 : string)
    (accepted_at expires_at : datetime) : string :=
  canonical_json_bytes float_repr (tag_json a principal operation target payload_sha256 accepted_at expires_at).

(** [decision_id] is the fresh [uuid4()]. *)
Definition decide (a : t) (principal : PrincipalRef.t) (operation target : string) (payload : json)
    (accepted_at : datetime) (decision_id : UUID) : res AuthorizationDecision.t :=
  let expires_at := accepted_at + seconds (ttl_seconds a) in
  let digest := payload_digest payload in
  let tag := hmac (secret a) (tag_payload a principal operation target digest accepted_at expires_at) in
  AuthorizationDecision.validate
    {| AuthorizationDecision.decision_id := decision_id;
       AuthorizationDecision.principal := principal;
       AuthorizationDecision.operation := operation;
       AuthorizationDecision.target := target;
       AuthorizationDecision.payload_sha256 := digest;
       AuthorizationDecision.policy_version := policy_version a;
       AuthorizationDecision.canonical_encoding_version := CANONICAL_ENCODING_VERSION;
       AuthorizationDecision.accepted_at := accepted_at;
       AuthorizationDecision.expires_at := expires_at;
       AuthorizationDecision.authorization_tag := tag |}.

Definition verify (a : t) (decision : AuthorizationDecision.t) (payload : json) (operation target : string)
    (current_principal : option PrincipalRef.t) (now : datetime) : res unit :=
  check (AuthorizationDecision.expires_at decision <=? now)
    (AuthorizationError "authorization decision expired") >>!
  check (negb (bool_decide (AuthorizationDecision.canonical_encoding_version decision
                            = CANONICAL_ENCODING_VERSION)))
    (AuthorizationError "authorization canonical encoding version mismatch") >>!
  check (negb (bool_decide (AuthorizationDecision.operation decision = operation))
         || negb (bool_decide (AuthorizationDecision.target decision = target)))
    (AuthorizationError "authorization operation or target mismatch") >>!
  let digest := payload_digest payload in
  check (negb (bool_decide (digest = AuthorizationDecision.payload_sha256 decision)))
    (AuthorizationError "authorization payload mismatch") >>!
  check (match current_principal with
         | Some p => negb (bool_decide (AuthorizationDecision.principal decision = p))
         | None => false
         end)
    (AuthorizationError "authorization principal or trust epoch changed") >>!
  let expected := hmac (secret a)
    (tag_payload a (AuthorizationDecision.principal decision) (AuthorizationDecision.operation decision)
       (AuthorizationDecision.target decision) (AuthorizationDecision.payload_sha256 decision)
       (AuthorizationDecision.accepted_at decision) (AuthorizationDecision.expires_at decision)) in
  check (negb (bool_decide (expected = AuthorizationDecision.authorization_tag decision)))
    (AuthorizationError "authorization tag invalid").

Definition scope_json (principal : PrincipalRef.t) (operation target client_key : string) : json :=
  JDict [("principal_id", JStr (PrincipalRef.principal_id principal));
         ("session_epoch", JInt (PrincipalRef.session_epoch principal));
         ("device_trust_epoch", JInt (PrincipalRef.device_trust_epoch principal));
         ("canonical_encoding_version", JStr CANONICAL_ENCODING_VERSION);
         ("operation", JStr operation);
         ("target", JStr target);
         ("client_key", JStr client_key)].

Definition scoped_idempotency_key (principal : PrincipalRef.t) (operation target client_key : string) : string :=
  sha256 (canonical_json_bytes float_repr (scope_json principal operation target client_key)).

End Authorizer.
End CommandAuthorizer.
