(* ===== verification/AuthTheorems.v ===== *)
(** What authentication and command authorization guarantee: revoked tokens
    stay revoked, only added tokens authenticate, a decision verifies for the
    request it was made for and for no other, and idempotency keys are scoped. *)

From Stdlib Require Import ZArith.
From S2P Require Import Prelude Binary64 Enums Models Records CanonicalJson Auth.
Open Scope Z_scope.

(** ** Decisions *)
Section Decisions.
Import CommandAuthorizer.
Context (float_repr : f64 -> string) `{!FloatRepr float_repr}.
Context (isoformat : datetime -> string) `{!Inj (=) (=) isoformat}.
Context (sha256 : string -> string) (hmac : string -> string -> string).

Lemma map_JStr_inj {A} (f : A -> string) (Hf : forall x y, f x = f y -> x = y) l k :
  map normalize (map (fun x => JStr (f x)) l) = map normalize (map (fun x => JStr (f x)) k) -> l = k.
Proof.
  revert k. induction l as [|x l IH]; intros [|y k]; try done. cbn. intros [= Hx H].
  by rewrite (Hf _ _ Hx), (IH _ H).
Qed.

Lemma role_value_inj x y : PrincipalRole.value x = PrincipalRole.value y -> x = y.
Proof. by destruct x, y. Qed.
Lemma kind_value_inj x y : PrincipalKind.value x = PrincipalKind.value y -> x = y.
Proof. by destruct x, y. Qed.

(** The parts of an object in key order are the object's parts. *)
Lemma dump_principal_inj p q : normalize (dump_principal p) = normalize (dump_principal q) -> p = q.
Proof.
  unfold dump_principal. cbn -[map]. intros H. injection H as Ha Ht Hi Hk Hr Hs He.
  apply (map_JStr_inj PrincipalRole.value role_value_inj) in Hr.
  apply (map_JStr_inj (fun s => s)) in Hs; [|done]. apply kind_value_inj in Hk.
  destruct p, q; cbn in *. congruence.
Qed.

Lemma tag_json_inj a p q op op' tgt tgt' d d' t t' e e' :
  normalize (tag_json isoformat a p op tgt d t e) = normalize (tag_json isoformat a q op' tgt' d' t' e') ->
  p = q /\ op = op' /\ tgt = tgt' /\ d = d' /\ t = t' /\ e = e'.
Proof.
  unfold tag_json. remember (dump_principal p) as P eqn:Hp. remember (dump_principal q) as Q eqn:Hq. cbn.
  intros H. injection H as Ht He Hop Hd HP Htgt. subst P Q. apply dump_principal_inj in HP.
  apply (inj isoformat) in Ht, He. by split_and!.
Qed.

Lemma scope_json_inj p q op op' tgt tgt' k k' :
  normalize (scope_json p op tgt k) = normalize (scope_json q op' tgt' k') ->
  PrincipalRef.principal_id p = PrincipalRef.principal_id q /\
  PrincipalRef.session_epoch p = PrincipalRef.session_epoch q /\
  PrincipalRef.device_trust_epoch p = PrincipalRef.device_trust_epoch q /\
  op = op' /\ tgt = tgt' /\ k = k'.
Proof. unfold scope_json. cbn. intros H. injection H. intros. by split_and!. Qed.

Lemma auth_decide_ok a p op tgt payload t id d :
  decide float_repr isoformat sha256 hmac a p op tgt payload t id = Ok d ->
  0 < seconds (ttl_seconds a) /\
  AuthorizationDecision.principal d = p /\ AuthorizationDecision.operation d = op /\
  AuthorizationDecision.target d = tgt /\
  AuthorizationDecision.payload_sha256 d = payload_digest float_repr sha256 payload /\
  AuthorizationDecision.canonical_encoding_version d = CANONICAL_ENCODING_VERSION /\
  AuthorizationDecision.accepted_at d = t /\ AuthorizationDecision.expires_at d = t + seconds (ttl_seconds a) /\
  AuthorizationDecision.authorization_tag d
  = hmac (secret a) (tag_payload float_repr isoformat a p op tgt (payload_digest float_repr sha256 payload)
                       t (t + seconds (ttl_seconds a))).
Proof.
  unfold decide, AuthorizationDecision.validate. intros H.
  apply rbind_ok in H as ([] & Hexp%check_ok & H). cbn in Hexp. apply Z.leb_gt in Hexp.
  apply rbind_ok in H as ([] & _ & [= <-]). cbn. split_and!; try done; lia.
Qed.

Lemma verify_ok a d payload op tgt cp now :
  verify float_repr isoformat sha256 hmac a d payload op tgt cp now = Ok tt <->
  now < AuthorizationDecision.expires_at d /\
  AuthorizationDecision.canonical_encoding_version d = CANONICAL_ENCODING_VERSION /\
  AuthorizationDecision.operation d = op /\ AuthorizationDecision.target d = tgt /\
  AuthorizationDecision.payload_sha256 d = payload_digest float_repr sha256 payload /\
  (forall p, cp = Some p -> AuthorizationDecision.principal d = p) /\
  AuthorizationDecision.authorization_tag d
  = hmac (secret a) (tag_payload float_repr isoformat a (AuthorizationDecision.principal d)
      (AuthorizationDecision.operation d) (AuthorizationDecision.target d)
      (AuthorizationDecision.payload_sha256 d) (AuthorizationDecision.accepted_at d)
      (AuthorizationDecision.expires_at d)).
Proof.
  unfold verify. repeat setoid_rewrite rbind_ok. setoid_rewrite check_ok. split.
  - intros ([] & H1 & [] & H2 & [] & [H3 H4]%orb_false_iff & [] & H5 & [] & H6 & H7).
    apply negb_false_iff, bool_decide_eq_true in H2, H3, H4, H5, H7.
    split_and!; try done; [lia|]. intros p ->. by apply negb_false_iff, bool_decide_eq_true in H6.
  - intros (H1 & H2 & H3 & H4 & H5 & H6 & H7). exists tt. split; [lia|].
    exists tt. split; [by rewrite bool_decide_eq_true_2|].
    exists tt. split; [by rewrite !bool_decide_eq_true_2|].
    exists tt. split; [by rewrite bool_decide_eq_true_2|].
    exists tt. split; [|by rewrite bool_decide_eq_true_2].
    destruct cp as [p|]; [|done]. by rewrite bool_decide_eq_true_2 by auto.
Qed.

(** A decision authorizes the request it was made for: until it expires it
    verifies for the same principal, operation and target and for any
    serialisation of the same payload, whatever the order of its keys. *)
Theorem decide_then_verify a p op tgt payload payload' t id d now :
  decide float_repr isoformat sha256 hmac a p op tgt payload t id = Ok d ->
  normalize payload' = normalize payload -> now < t + seconds (ttl_seconds a) ->
  verify float_repr isoformat sha256 hmac a d payload' op tgt (Some p) now = Ok tt.
Proof.
  intros (Httl & Hp & Hop & Htgt & Hd & Hc & Ht & He & Htag)%auth_decide_ok Hn Hnow. apply verify_ok.
  split_and!; try done; [lia| |by intros q [= <-]|congruence].
  rewrite Hd. unfold payload_digest. f_equal. by apply canonical_json_normalize.
Qed.

(** C35: and for no other request.  A decision that carries the tag of an
    issued one verifies only for the principal, operation, target, payload and
    time window that were authorized; changing any of them, in the decision or
    in the request, is refused unless SHA-256 or HMAC is broken. *)
Theorem tag_binds_request a p op tgt payload t id d0 d payload' op' tgt' cp now :
  decide float_repr isoformat sha256 hmac a p op tgt payload t id = Ok d0 ->
  AuthorizationDecision.authorization_tag d = AuthorizationDecision.authorization_tag d0 ->
  verify float_repr isoformat sha256 hmac a d payload' op' tgt' cp now = Ok tt ->
  op' = op /\ tgt' = tgt /\ normalize payload' = normalize payload /\
  AuthorizationDecision.principal d = p /\ (forall q, cp = Some q -> q = p) /\
  AuthorizationDecision.accepted_at d = t /\ now < t + seconds (ttl_seconds a)
  \/ collide sha256 (canonical_json_bytes float_repr payload') (canonical_json_bytes float_repr payload)
  \/ collide (hmac (secret a))
       (tag_payload float_repr isoformat a (AuthorizationDecision.principal d) op' tgt'
          (payload_digest float_repr sha256 payload') (AuthorizationDecision.accepted_at d)
          (AuthorizationDecision.expires_at d))
       (tag_payload float_repr isoformat a p op tgt (payload_digest float_repr sha256 payload) t
          (t + seconds (ttl_seconds a))).
Proof.
  intros (_ & _ & _ & _ & _ & _ & _ & _ & Htag0)%auth_decide_ok Htag
    (Hnow & _ & Hop & Htgt & Hd & Hp & Htag')%verify_ok.
  rewrite <- Htag, Htag', Hop, Htgt, Hd in Htag0. apply (collide_or_inj (hmac (secret a))) in Htag0 as [H|H]; [|auto].
  apply canonical_json_inj in H; [|done]. apply tag_json_inj in H as (Hp' & Ho & Hg & Hdd & Ht & He).
  apply (collide_or_inj sha256) in Hdd as [Hdd|Hdd]; [|auto].
  apply canonical_json_inj in Hdd; [|done].
  left. split_and!; try congruence. intros q Hq. apply Hp in Hq. congruence.
Qed.

(** Idempotency keys are scoped.  Two commands share a key only when they
    agree on the principal, both trust epochs, the operation, the target and
    the client's key, unless their scopes collide under SHA-256. *)
Theorem idempotency_key_scoped p q op op' tgt tgt' k k' :
  scoped_idempotency_key float_repr sha256 p op tgt k
  = scoped_idempotency_key float_repr sha256 q op' tgt' k' ->
  PrincipalRef.principal_id p = PrincipalRef.principal_id q /\
  PrincipalRef.session_epoch p = PrincipalRef.session_epoch q /\
  PrincipalRef.device_trust_epoch p = PrincipalRef.device_trust_epoch q /\
  op = op' /\ tgt = tgt' /\ k = k'
  \/ collide sha256 (canonical_json_bytes float_repr (scope_json p op tgt k))
       (canonical_json_bytes float_repr (scope_json q op' tgt' k')).
Proof.
  unfold scoped_idempotency_key. intros [H|H]%(collide_or_inj sha256); [left|by right].
  apply canonical_json_inj in H; [|done]. by apply scope_json_inj in H.
Qed.
End Decisions.

(** ** Tokens *)
Section Tokens.
Import AuthManager.
Context (sha256 : string -> string).

Inductive op : Type :=
  | AddToken (token : string) (p : PrincipalRef.t) (expires_at : option datetime)
  | DisableToken (token : string)
  | DisablePrincipal (principal_id : string).

Definition exec (o : op) (s : t) : t :=
  match o with
  | AddToken token p e => (add_token sha256 token p e s).2
  | DisableToken token => (disable_token sha256 token s).2
  | DisablePrincipal id => (disable_principal id s).2
  end.

Definition run (ops : list op) (s : t) : t := fold_left (fun s o => exec o s) ops s.

Lemma run_snoc ops o s : run (ops ++ [o]) s = exec o (run ops s).
Proof. unfold run. by rewrite fold_left_app. Qed.

(** Every record is kept under its own digest. *)
Definition keyed (s : t) : Prop := forall d r, records s !! d = Some r -> token_sha256 r = d.

(** An operation that revokes the tokens of digest [d] and principal [p]. *)
Definition revokes (d : string) (p : PrincipalRef.t) (o : op) : Prop :=
  match o with
  | AddToken _ _ _ => False
  | DisableToken token => sha256 token = d
  | DisablePrincipal id => PrincipalRef.principal_id p = id
  end.

(** What [exec] does to the record of one digest. *)
Lemma exec_lookup o s d :
  keyed s ->
  records (exec o s) !! d =
  match o with
  | AddToken token p e =>
      match records s !! d with
      | Some r => Some r
      | None => if bool_decide (sha256 token = d) && negb (String.length token <? 16)%nat
                then Some (mkTokenRecord d p e false) else None
      end
  | DisableToken token =>
      (fun r => if decide (sha256 token = d) then disable r else r) <$> records s !! d
  | DisablePrincipal id => (fun r => if to_disable id r then disable r else r) <$> records s !! d
  end.
Proof.
  intros Hk. destruct o as [token p e|token|id]; cbn; unfold add_token, disable_token, disable_principal,
    digest_token, bind, get, put, raise, raise_if, ret; cbn.
  - destruct (String.length token <=? 15)%nat; cbn; [rewrite andb_false_r; by destruct (_ !! d)|].
    case_bool_decide as Hs; cbn.
    + destruct (records s !! d) eqn:Hd; [done|]. case_bool_decide; [|done]. subst.
      rewrite Hd in Hs. by destruct Hs.
    + rewrite lookup_insert. case_decide as He; [subst d|].
      * destruct (records s !! sha256 token); [destruct Hs; eauto|]. by rewrite bool_decide_eq_true_2.
      * rewrite bool_decide_eq_false_2 by done. by destruct (_ !! d).
  - destruct (records s !! sha256 token) as [r|] eqn:Hr; cbn.
    + rewrite bool_decide_eq_true_2 by (by apply Hk). cbn. rewrite lookup_insert.
      case_decide as He; [subst d; by rewrite Hr|]. by destruct (_ !! d).
    + case_decide as He; [subst d; by rewrite Hr|]. by destruct (_ !! d).
  - by rewrite lookup_fmap.
Qed.

Lemma exec_keyed o s : keyed s -> keyed (exec o s).
Proof.
  intros Hk d r. rewrite exec_lookup by done. destruct o as [token p e|token|id].
  - destruct (records s !! d) as [r'|] eqn:Hr; [intros [= <-]; by apply Hk|].
    destruct (_ && _); [by intros [= <-]|done].
  - destruct (records s !! d) as [r'|] eqn:Hr; [|done]. intros [= <-]. apply Hk in Hr. by case_decide.
  - destruct (records s !! d) as [r'|] eqn:Hr; [|done]. intros [= <-]. apply Hk in Hr. by destruct (to_disable _ _).
Qed.

Lemma run_keyed ops s : keyed s -> keyed (run ops s).
Proof. revert s. induction ops as [|o ops IH]; intros s Hs; [done|]. by apply IH, exec_keyed. Qed.

Lemma init_keyed dev : keyed (mk dev ∅).
Proof. intros d r. cbn. by rewrite lookup_empty. Qed.

Lemma disabled_stays ops s d r :
  keyed s -> records s !! d = Some r -> disabled r = true ->
  exists r', records (run ops s) !! d = Some r' /\ disabled r' = true.
Proof.
  revert s r. induction ops as [|o ops IH]; intros s r Hk Hr Hd; [eauto|].
  assert (exists r1, records (exec o s) !! d = Some r1 /\ disabled r1 = true) as (r1 & H1 & H2).
  { rewrite exec_lookup, Hr by done. destruct o; cbn; eexists; (split; [reflexivity|]); [done|by case_decide|].
    by destruct (to_disable _ _). }
  by apply (IH _ r1); [apply exec_keyed| |].
Qed.

(** Revocation is permanent.  Once a token is disabled it never
    authenticates again, whatever tokens are added and disabled later; adding
    the same token again does not bring it back. *)
Theorem revocation_permanent dev before token after now :
  let s := run before (mk dev ∅) in
  is_ok (disable_token sha256 token s).1 = true ->
  exists message, authenticate sha256 (Some token) now (run (DisableToken token :: after) s)
    = Raise (AuthenticationError message).
Proof.
  cbv zeta. set (s := run before _). intros Hok.
  assert (Hk : keyed s) by apply run_keyed, init_keyed.
  assert (exists r, records (exec (DisableToken token) s) !! sha256 token = Some r /\ disabled r = true)
    as (r & Hr & Hd).
  { rewrite exec_lookup by done. unfold disable_token, bind, get, digest_token in Hok.
    destruct (records s !! sha256 token) as [r|]; [|done]. eexists. split; [reflexivity|]. by rewrite decide_True. }
  destruct (disabled_stays after _ _ _ (exec_keyed _ _ Hk) Hr Hd) as (r' & Hr' & Hd').
  unfold authenticate. case_bool_decide; [by eexists|]. unfold digest_token.
  change (run (DisableToken token :: after) s) with (run after (exec (DisableToken token) s)). rewrite Hr'.
  destruct (negb _); [by eexists|]. rewrite Hd'. by eexists.
Qed.

(** Only unrevoked, unexpired tokens authenticate.  When a token
    authenticates as a principal, a token of the same digest, at least 16
    characters long, was added for exactly that principal, its expiry is still
    ahead, and no later operation disabled the token or the principal. *)
Theorem authenticated_was_added dev ops token now p :
  authenticate sha256 (Some token) now (run ops (mk dev ∅)) = Ok p ->
  exists before token' expires_at after,
    ops = before ++ AddToken token' p expires_at :: after /\
    sha256 token' = sha256 token /\ (16 <= String.length token')%nat /\
    (forall e, expires_at = Some e -> now < e) /\
    Forall (fun o => ~ revokes (sha256 token) p o) after.
Proof.
  assert (Hinv : forall d r, records (run ops (mk dev ∅)) !! d = Some r -> disabled r = false ->
    exists before token' after, ops = before ++ AddToken token' (principal r) (expires_at r) :: after /\
      sha256 token' = d /\ (16 <= String.length token')%nat /\
      Forall (fun o => ~ revokes d (principal r) o) after).
  { clear. intros d. induction ops as [|o ops IH] using rev_ind; intros r; [cbn; by rewrite lookup_empty|].
    rewrite run_snoc, exec_lookup by apply run_keyed, init_keyed.
    set (s := run ops _) in *.
    assert (Hkeep : forall r, records s !! d = Some r -> disabled r = false -> ~ revokes d (principal r) o ->
      exists before token' after, ops ++ [o] = before ++ AddToken token' (principal r) (expires_at r) :: after /\
        sha256 token' = d /\ (16 <= String.length token')%nat /\
        Forall (fun o => ~ revokes d (principal r) o) after).
    { intros r' Hr Hd Ho. destruct (IH r' Hr Hd) as (b & tok & a & -> & ? & ? & Ha).
      exists b, tok, (a ++ [o]). split; [by rewrite <- app_assoc|]. split_and!; [done|done|].
      apply Forall_app. split; [done|by constructor]. }
    destruct o as [tok q e|tok|id]; (destruct (records s !! d) as [r'|] eqn:Hr; cbn [fmap option_fmap option_map]).
    - intros [= <-] Hd. apply (Hkeep r'); [done|done|by intros []].
    - destruct (bool_decide _) eqn:Htok; [|done]. destruct (_ <? 16)%nat eqn:Hlen; [done|].
      intros [= <-] _. apply bool_decide_eq_true in Htok. apply Nat.ltb_ge in Hlen.
      exists ops, tok, []. by split_and!.
    - intros [= <-]. case_decide as Htok; [done|]. intros Hd. by apply (Hkeep r').
    - done.
    - intros [= <-]. destruct (to_disable id r') eqn:Hid; [done|]. intros Hd. apply (Hkeep r'); [done|done|].
      cbn. intros He. unfold to_disable in Hid. by rewrite bool_decide_eq_true_2, Hd in Hid.
    - done. }
  unfold authenticate. case_bool_decide; [done|]. unfold digest_token.
  destruct (records _ !! _) as [r|] eqn:Hr; [|done]. destruct (negb _); [done|].
  destruct (disabled r) eqn:Hd; [done|]. destruct (match expires_at r with Some e => _ | None => _ end) eqn:He; [done|].
  intros [= <-]. destruct (Hinv _ _ Hr Hd) as (b & tok & a & ? & ? & ? & ?).
  exists b, tok, (expires_at r), a. split_and!; try done. intros e Hexp. rewrite Hexp in He. lia.
Qed.
End Tokens.

(** ** Concrete instances *)
Definition demo_principal : PrincipalRef.t := AuthManager.development_principal "operator" PrincipalRole.OPERATOR.
Definition demo_authorizer : CommandAuthorizer.t :=
  CommandAuthorizer.mk "0123456789abcdef0123456789abcdef" "local-policy-v1" 30.
Definition demo_hash (s : string) : string := "digest:" +:+ s.
Definition demo_hmac (secret message : string) : string := secret +:+ ":" +:+ message.
Definition demo_isoformat (t : datetime) : string := pretty t.
Definition demo_payload : json := JDict [("incident_id", JStr "i"); ("action", JStr "acknowledge")].
Definition demo_payload' : json := JDict [("action", JStr "acknowledge"); ("incident_id", JStr "i")].
Definition demo_decide : res AuthorizationDecision.t :=
  CommandAuthorizer.decide demo_repr demo_isoformat demo_hash demo_hmac demo_authorizer demo_principal
    "incidents:acknowledge" "incident:i" demo_payload 1000 "decision-1".
Definition demo_decision : AuthorizationDecision.t :=
  match demo_decide with
  | Ok d => d
  | Raise _ => AuthorizationDecision.mk "" demo_principal "" "" "" "" "" 0 0 ""
  end.

Lemma demo_decide_ok : demo_decide = Ok demo_decision.
Proof. vm_compute. reflexivity. Qed.

#[export] Instance demo_isoformat_inj : Inj (=) (=) demo_isoformat.
Proof. intros x y H. by apply (inj pretty) in H. Qed.

Lemma decide_then_verify_witness :
  CommandAuthorizer.verify demo_repr demo_isoformat demo_hash demo_hmac demo_authorizer demo_decision
    demo_payload' "incidents:acknowledge" "incident:i" (Some demo_principal) 2000 = Ok tt.
Proof.
  apply (decide_then_verify demo_repr demo_isoformat demo_hash demo_hmac demo_authorizer demo_principal
    "incidents:acknowledge" "incident:i" demo_payload demo_payload' 1000 "decision-1").
  - exact demo_decide_ok.
  - vm_compute. reflexivity.
  - vm_compute. reflexivity.
Defined.

Lemma tag_binds_request_witness :
  AuthorizationDecision.principal demo_decision = demo_principal.
Proof.
  destruct (tag_binds_request demo_repr demo_isoformat demo_hash demo_hmac demo_authorizer demo_principal
    "incidents:acknowledge" "incident:i" demo_payload 1000 "decision-1" demo_decision demo_decision
    demo_payload' "incidents:acknowledge" "incident:i" None 2000) as [(_ & _ & _ & H & _)|[[Hne _]|[Hne _]]].
  - exact demo_decide_ok.
  - reflexivity.
  - vm_compute. reflexivity.
  - exact H.
  - destruct Hne. vm_compute. reflexivity.
  - destruct Hne. vm_compute. reflexivity.
Defined.

Lemma idempotency_key_scoped_witness : ("k" : string) = "k".
Proof.
  destruct (idempotency_key_scoped demo_repr demo_hash demo_principal demo_principal "o" "o" "t" "t" "k" "k")
    as [(_ & _ & _ & _ & _ & H)|[Hne _]]; [reflexivity|exact H|destruct Hne; reflexivity].
Defined.

Definition demo_before : list op := [AddToken "sentinel-operator-token" demo_principal (Some 5000)].
Definition demo_after : list op := [AddToken "sentinel-operator-token" demo_principal None; DisablePrincipal "x"].

Lemma revocation_permanent_witness :
  exists message, AuthManager.authenticate demo_hash (Some "sentinel-operator-token") 100
    (run demo_hash (DisableToken "sentinel-operator-token" :: demo_after)
       (run demo_hash demo_before (AuthManager.mk false ∅))) = Raise (AuthenticationError message).
Proof.
  apply (revocation_permanent demo_hash false demo_before "sentinel-operator-token" demo_after 100).
  vm_compute. reflexivity.
Defined.

Lemma authenticated_was_added_witness :
  AuthManager.authenticate demo_hash (Some "sentinel-operator-token") 100
    (run demo_hash demo_before (AuthManager.mk false ∅)) = Ok demo_principal /\
  exists token' expires_at, In (AddToken token' demo_principal expires_at) demo_before.
Proof.
  assert (H : AuthManager.authenticate demo_hash (Some "sentinel-operator-token") 100
    (run demo_hash demo_before (AuthManager.mk false ∅)) = Ok demo_principal) by (vm_compute; reflexivity).
  split; [exact H|].
  destruct (authenticated_was_added demo_hash false demo_before "sentinel-operator-token" 100 demo_principal H)
    as (before & token' & e & after & Heq & _). exists token', e. rewrite Heq.
  apply in_or_app. right. left. reflexivity.
Defined.
