(* ===== verification/Opportunities.v ===== *)
(** The opportunity ledger (runtime/opportunities.py, [OpportunityLedger]).

    The ledger keeps one mutable record per offered opportunity, keyed by its
    identifier.  Methods that mark a record raise [KeyError] when it is
    unknown, as the dict access does.  [uuid5] and [isoformat] are the
    standard library's name-based UUIDs (in the URL name space) and timestamp
    text; the ledger only uses that they are functions. *)

From Stdlib Require Import ZArith.
From S2P Require Import Prelude Binary64 Enums Models.
Open Scope Z_scope.

Module OpportunityLedger.

Record t : Type := mk { records_ : gmap UUID OpportunityRecord.t }.

Definition init : t := mk ∅.

(** The dispositions [mark_terminal] and [reconcile] call terminal. *)
Definition terminal : list OpportunityDisposition.t :=
  [OpportunityDisposition.PROCESSED; OpportunityDisposition.SKIPPED;
   OpportunityDisposition.REPLACED; OpportunityDisposition.INVALID;
   OpportunityDisposition.DROPPED; OpportunityDisposition.EXPIRED;
   OpportunityDisposition.FAILED; OpportunityDisposition.DEADLINE_MISSED].

Definition is_terminal (r : OpportunityRecord.t) : bool :=
  bool_decide (OpportunityRecord.disposition r ∈ terminal).

Section Operations.
Context (uuid5 : string -> UUID) (isoformat : datetime -> string).

Definition opportunity_id_of (correlation_id workload_id : string) (scheduled_release_at : datetime)
  : UUID :=
  uuid5 ("sentinel-opportunity:" +:+ correlation_id +:+ ":" +:+ workload_id +:+ ":"
         +:+ isoformat scheduled_release_at).

Definition offer (workload_id : string) (hazard : HazardKind.t)
    (scheduled_release_at : datetime) (captured_at : option datetime) (correlation_id : UUID)
  : M t OpportunityRecord.t :=
  let opportunity_id := opportunity_id_of correlation_id workload_id scheduled_release_at in
  let record :=
    {| OpportunityRecord.opportunity_id := opportunity_id;
       OpportunityRecord.correlation_id := correlation_id;
       OpportunityRecord.workload_id := workload_id;
       OpportunityRecord.hazard := hazard;
       OpportunityRecord.scheduled_release_at := scheduled_release_at;
       OpportunityRecord.actual_release_at := None;
       OpportunityRecord.captured_at := captured_at;
       OpportunityRecord.queue_started_monotonic_ns := None;
       OpportunityRecord.service_started_monotonic_ns := None;
       OpportunityRecord.completed_monotonic_ns := None;
       OpportunityRecord.deadline_monotonic_ns := None;
       OpportunityRecord.disposition := OpportunityDisposition.OFFERED;
       OpportunityRecord.reason_codes := [] |} in
  modify (fun l => mk (<[opportunity_id := record]> (records_ l))) ;;;
  ret record.
End Operations.

(** [record = self._records[opportunity_id]] followed by attribute assignments. *)
Definition update (opportunity_id : UUID) (f : OpportunityRecord.t -> OpportunityRecord.t)
  : M t unit :=
  let! l := get in
  match records_ l !! opportunity_id with
  | None => raise (KeyError opportunity_id)
  | Some record => put (mk (<[opportunity_id := f record]> (records_ l)))
  end.

Definition mark_queued (opportunity_id : UUID) (actual_release_at : datetime)
    (queue_ns deadline_ns : Z) : M t unit :=
  update opportunity_id (fun record =>
    OpportunityRecord.set_disposition OpportunityDisposition.QUEUED
      (OpportunityRecord.set_deadline_monotonic_ns (Some deadline_ns)
        (OpportunityRecord.set_queue_started_monotonic_ns (Some queue_ns)
          (OpportunityRecord.set_actual_release_at (Some actual_release_at) record)))).

Definition deferred_mark (reason : string) (record : OpportunityRecord.t) : OpportunityRecord.t :=
  let record := OpportunityRecord.set_disposition OpportunityDisposition.DEFERRED record in
  OpportunityRecord.set_reason_codes
    (append_new reason (OpportunityRecord.reason_codes record)) record.

Definition mark_deferred (opportunity_id : UUID) (reason : string) : M t unit :=
  update opportunity_id (deferred_mark reason).

Definition mark_started (opportunity_id : UUID) (service_ns : Z) : M t unit :=
  update opportunity_id (OpportunityRecord.set_service_started_monotonic_ns (Some service_ns)).

Definition terminal_mark (disposition : OpportunityDisposition.t) (completed_ns : Z)
    (reason : option string) (record : OpportunityRecord.t) : OpportunityRecord.t :=
  let record := OpportunityRecord.set_disposition disposition
                  (OpportunityRecord.set_completed_monotonic_ns (Some completed_ns) record) in
  match reason with
  | None => record
  | Some r =>
      if decide (r = "") then record
      else OpportunityRecord.set_reason_codes
             (append_new r (OpportunityRecord.reason_codes record)) record
  end.

Definition mark_terminal (opportunity_id : UUID) (disposition : OpportunityDisposition.t)
    (completed_ns : Z) (reason : option string) : M t unit :=
  raise_if (negb (bool_decide (disposition ∈ terminal)))
    (ValueError "terminal opportunity disposition required") ;;;
  update opportunity_id (terminal_mark disposition completed_ns reason).

(** [records()]: by scheduled release, then by identifier. *)
Definition record_leb (x y : OpportunityRecord.t) : bool :=
  match OpportunityRecord.scheduled_release_at x ?= OpportunityRecord.scheduled_release_at y with
  | Lt => true
  | Gt => false
  | Eq => String.leb (OpportunityRecord.opportunity_id x) (OpportunityRecord.opportunity_id y)
  end.

Definition all_records (l : t) : list OpportunityRecord.t := (map_to_list (records_ l)).*2.

Definition records (l : t) : list OpportunityRecord.t := sort_by record_leb (all_records l).

Definition count_if (p : OpportunityRecord.t -> bool) (l : t) : Z :=
  Z.of_nat (length (List.filter p (all_records l))).

(** [counts()]: the number offered, then one entry per other disposition. *)
Definition counts (l : t) : list (string * Z) :=
  ("offered", Z.of_nat (size (records_ l))) ::
  ((fun name => (OpportunityDisposition.value name,
      count_if (fun r => bool_decide (OpportunityRecord.disposition r = name)) l))
   <$> List.filter (fun name => bool_decide (name <> OpportunityDisposition.OFFERED))
         OpportunityDisposition.members).

Record reconciliation : Type := { offered : Z; terminal_count : Z; balanced : bool }.

Definition reconcile (l : t) : reconciliation :=
  let offered := Z.of_nat (size (records_ l)) in
  let terminal_count := count_if is_terminal l in
  {| offered := offered; terminal_count := terminal_count;
     balanced := bool_decide (offered = terminal_count) |}.

(** ** Lemmas *)

(** The books balance exactly when every record is terminal. *)
Lemma filter_length_all {A} (p : A -> bool) l :
  length (List.filter p l) = length l <-> Forall (fun x => p x = true) l.
Proof.
  induction l as [|x l IH]; cbn; [split; auto|].
  pose proof (List.filter_length_le p l) as Hle.
  destruct (p x) eqn:Hp; cbn; rewrite Forall_cons, <- IH, Hp.
  - split; [intros H; split; [done|lia]|intros [_ H]; lia].
  - split; [intros H; lia|by intros [? _]].
Qed.

Lemma reconcile_balanced_iff l :
  balanced (reconcile l) = true <->
  map_Forall (fun _ r => is_terminal r = true) (records_ l).
Proof.
  unfold reconcile, count_if; cbn. rewrite bool_decide_eq_true, Nat2Z.inj_iff.
  unfold all_records.
  transitivity (length (List.filter is_terminal (map_to_list (records_ l)).*2)
                = length (map_to_list (records_ l)).*2).
  { rewrite length_fmap, length_map_to_list. split; congruence. }
  rewrite filter_length_all, Forall_fmap, map_Forall_to_list. unfold uncurry.
  apply Forall_proper; [|done]. by intros [].
Qed.

Lemma update_ok id f l u l' :
  update id f l = (Ok u, l') <->
  exists r, records_ l !! id = Some r /\ l' = mk (<[id := f r]> (records_ l)).
Proof.
  unfold update, bind, get. destruct (records_ l !! id) as [r|] eqn:E; cbn; split.
  - intros [= <- <-]. eauto.
  - intros (r' & [= <-] & ->). by destruct u.
  - discriminate.
  - by intros (? & ? & ?).
Qed.

Lemma update_total id f l :
  is_Some (records_ l !! id) -> exists l', update id f l = (Ok tt, l').
Proof. intros [r Hr]. eexists. apply update_ok. eauto. Qed.

Lemma mark_terminal_update id d ns reason l :
  d ∈ terminal -> mark_terminal id d ns reason l = update id (terminal_mark d ns reason) l.
Proof. intros H. unfold mark_terminal. by rewrite bool_decide_eq_true_2. Qed.

Lemma terminal_mark_disposition d ns reason r :
  OpportunityRecord.disposition (terminal_mark d ns reason r) = d.
Proof. unfold terminal_mark. destruct reason; [|done]. by case_decide. Qed.

End OpportunityLedger.
