(* ===== verification/Scheduler.v ===== *)
(** The workload scheduler (runtime/scheduler.py, [WorkloadScheduler]).

    Jobs are mutable objects shared by the queue, the table of active jobs and
    the callers, so the state carries a store [jobs] of job objects and the
    queue and the active table hold identifiers.  The binary heap of [heapq]
    is the list of its items in priority order: items are totally ordered by
    (tier, deadline, counter) and the code only pushes, pops the least item
    and reads the items as a collection.  The clock and the generator of
    random UUIDs are read by the methods and appear as arguments. *)

From Stdlib Require Import ZArith SpecFloat.
From S2P Require Import Prelude Binary64 Enums Models Opportunities.
Open Scope Z_scope.

Module WorkloadScheduler.

(** An entry [(int(spec.tier), deadline_ns, next(counter), job)] of the heap. *)
Record item : Type := mkItem { tier : Z; deadline_ns : Z; seqno : Z; job : UUID }.

Definition item_leb (x y : item) : bool :=
  match tier x ?= tier y with
  | Lt => true
  | Gt => false
  | Eq => match deadline_ns x ?= deadline_ns y with
          | Lt => true
          | Gt => false
          | Eq => seqno x <=? seqno y
          end
  end.

Definition heappush (q : list item) (x : item) : list item := insert_sorted item_leb x q.

(** A reading of the injected [Clock]. *)
Record clock : Type := mkClock { now_utc : datetime; monotonic_ns : Z }.

Record t : Type := mk {
  queue_limit : Z;
  tier_a_reserve_memory_mb : Z;
  mode : RuntimeMode.t;
  approved_profiles : option (gset string);
  known_safe : gset (string * string);
  registry_ : gmap string WorkloadSpec.t;
  queue : list item;
  counter : Z;
  jobs : gmap UUID JobRequest.t;
  active : list UUID;
  deferred_ids : gset UUID;
  degradation_level : Z;
  overloaded : bool;
  reason_codes : list string;
  opportunities : OpportunityLedger.t;
  frozen : bool
}.

Definition set_registry_ v (s : t) : t :=
  mk (queue_limit s) (tier_a_reserve_memory_mb s) (mode s) (approved_profiles s) (known_safe s) v (queue s) (counter s) (jobs s) (active s) (deferred_ids s) (degradation_level s) (overloaded s) (reason_codes s) (opportunities s) (frozen s).
Definition set_queue v (s : t) : t :=
  mk (queue_limit s) (tier_a_reserve_memory_mb s) (mode s) (approved_profiles s) (known_safe s) (registry_ s) v (counter s) (jobs s) (active s) (deferred_ids s) (degradation_level s) (overloaded s) (reason_codes s) (opportunities s) (frozen s).
Definition set_counter v (s : t) : t :=
  mk (queue_limit s) (tier_a_reserve_memory_mb s) (mode s) (approved_profiles s) (known_safe s) (registry_ s) (queue s) v (jobs s) (active s) (deferred_ids s) (degradation_level s) (overloaded s) (reason_codes s) (opportunities s) (frozen s).
Definition set_jobs v (s : t) : t :=
  mk (queue_limit s) (tier_a_reserve_memory_mb s) (mode s) (approved_profiles s) (known_safe s) (registry_ s) (queue s) (counter s) v (active s) (deferred_ids s) (degradation_level s) (overloaded s) (reason_codes s) (opportunities s) (frozen s).
Definition set_active v (s : t) : t :=
  mk (queue_limit s) (tier_a_reserve_memory_mb s) (mode s) (approved_profiles s) (known_safe s) (registry_ s) (queue s) (counter s) (jobs s) v (deferred_ids s) (degradation_level s) (overloaded s) (reason_codes s) (opportunities s) (frozen s).
Definition set_deferred_ids v (s : t) : t :=
  mk (queue_limit s) (tier_a_reserve_memory_mb s) (mode s) (approved_profiles s) (known_safe s) (registry_ s) (queue s) (counter s) (jobs s) (active s) v (degradation_level s) (overloaded s) (reason_codes s) (opportunities s) (frozen s).
Definition set_degradation_level v (s : t) : t :=
  mk (queue_limit s) (tier_a_reserve_memory_mb s) (mode s) (approved_profiles s) (known_safe s) (registry_ s) (queue s) (counter s) (jobs s) (active s) (deferred_ids s) v (overloaded s) (reason_codes s) (opportunities s) (frozen s).
Definition set_overloaded v (s : t) : t :=
  mk (queue_limit s) (tier_a_reserve_memory_mb s) (mode s) (approved_profiles s) (known_safe s) (registry_ s) (queue s) (counter s) (jobs s) (active s) (deferred_ids s) (degradation_level s) v (reason_codes s) (opportunities s) (frozen s).
Definition set_reason_codes v (s : t) : t :=
  mk (queue_limit s) (tier_a_reserve_memory_mb s) (mode s) (approved_profiles s) (known_safe s) (registry_ s) (queue s) (counter s) (jobs s) (active s) (deferred_ids s) (degradation_level s) (overloaded s) v (opportunities s) (frozen s).
Definition set_opportunities v (s : t) : t :=
  mk (queue_limit s) (tier_a_reserve_memory_mb s) (mode s) (approved_profiles s) (known_safe s) (registry_ s) (queue s) (counter s) (jobs s) (active s) (deferred_ids s) (degradation_level s) (overloaded s) (reason_codes s) v (frozen s).
Definition set_frozen v (s : t) : t :=
  mk (queue_limit s) (tier_a_reserve_memory_mb s) (mode s) (approved_profiles s) (known_safe s) (registry_ s) (queue s) (counter s) (jobs s) (active s) (deferred_ids s) (degradation_level s) (overloaded s) (reason_codes s) (opportunities s) v.

(** [tuple(sorted((a, b)))] *)
Definition sorted_pair (a b : string) : string * string :=
  if String.leb a b then (a, b) else (b, a).

(** [__init__] *)
Definition init (queue_limit tier_a_reserve_memory_mb : Z) (mode : RuntimeMode.t)
    (approved_profile_ids : option (gset string))
    (known_safe_interference_pairs : list (string * string)) : t :=
  {| queue_limit := queue_limit; tier_a_reserve_memory_mb := tier_a_reserve_memory_mb;
     mode := mode; approved_profiles := approved_profile_ids;
     known_safe := list_to_set ((fun p => sorted_pair p.1 p.2) <$> known_safe_interference_pairs);
     registry_ := ∅; queue := []; counter := 0; jobs := ∅; active := []; deferred_ids := ∅;
     degradation_level := 0; overloaded := false; reason_codes := [];
     opportunities := OpportunityLedger.init; frozen := false |}.

Definition register (spec : WorkloadSpec.t) : M t unit :=
  let! s := get in
  raise_if (frozen s) (ValueError "workload registry is frozen") ;;;
  raise_if (match approved_profiles s with
            | Some ids => negb (bool_decide (WorkloadSpec.profile_id spec ∈ ids))
            | None => false
            end)
    (ValueError ("profile is not approved: " +:+ WorkloadSpec.profile_id spec)) ;;;
  raise_if (match registry_ s !! WorkloadSpec.workload_id spec with
            | Some old => negb (bool_decide (old = spec))
            | None => false
            end)
    (ValueError "workload registration is immutable") ;;;
  put (set_registry_ (<[WorkloadSpec.workload_id spec := spec]> (registry_ s)) s).

Definition freeze : M t unit := modify (set_frozen true).

Definition declare_overload (reason : string) : M t unit :=
  modify (fun s =>
    set_reason_codes (append_new reason (reason_codes s))
      (set_degradation_level (Z.max (degradation_level s) 1)
        (set_overloaded true s))).

Definition reallocate_cadence (workload_id : string) (multiplier : f64) (reason_code : string)
  : M t WorkloadSpec.t :=
  let! s := get in
  raise_if (frozen s) (ValueError "workload registry is frozen") ;;;
  match registry_ s !! workload_id with
  | None => raise (KeyError workload_id)
  | Some current =>
      raise_if (negb (isfinite multiplier) || (multiplier <=? f0)%f64)
        (ValueError "cadence multiplier must be finite and positive") ;;;
      raise_if (blank reason_code)
        (ValueError "cadence reallocation requires a reason code") ;;;
      let! period := lift (py_ceil (fdiv (of_Z (WorkloadSpec.period_ms current)) multiplier)) in
      let updated := WorkloadSpec.with_period current (Z.max 1 period) in
      modify (fun s => set_registry_ (<[workload_id := updated]> (registry_ s)) s) ;;;
      declare_overload ("cadence_reallocated:" +:+ strip reason_code) ;;;
      ret updated
  end.

(** Methods of the ledger, run on the attribute [self.opportunities]. *)
Definition on_ledger {A} (m : M OpportunityLedger.t A) : M t A :=
  zoom opportunities set_opportunities m.

(** Attribute assignments on a job object. *)
Definition update_job (job_id : UUID) (f : JobRequest.t -> JobRequest.t) : M t unit :=
  modify (fun s => set_jobs (alter f job_id (jobs s)) s).

Definition push (x : item) : M t unit :=
  modify (fun s => set_queue (heappush (queue s) x) s).

Record submission : Type := mkSubmission {
  sub_workload_id : string;
  sub_payload : json;
  sub_released_at : option datetime;
  sub_scheduled_release_at : option datetime;
  sub_captured_at : option datetime;
  sub_correlation_id : option UUID
}.

Section Operations.
Context (uuid5 : string -> UUID) (isoformat : datetime -> string).

(** [job_id] and [new_correlation_id] are the fresh [uuid4()] values. *)
Definition submit (a : submission) (c : clock) (job_id new_correlation_id : UUID)
  : M t JobRequest.t :=
  let! s := get in
  match registry_ s !! sub_workload_id a with
  | None => raise (KeyError (sub_workload_id a))
  | Some spec =>
      raise_if (queue_limit s <=? Z.of_nat (length (queue s)))
        (AdmissionError "bounded queue is full") ;;;
      (if decide (mode s = RuntimeMode.BENCHMARK \/ mode s = RuntimeMode.JUDGE)
       then freeze else ret tt) ;;;
      let released_at := default (now_utc c) (sub_released_at a) in
      let scheduled_release_at := default released_at (sub_scheduled_release_at a) in
      let correlation_id := default new_correlation_id (sub_correlation_id a) in
      let release_ns := monotonic_ns c in
      let deadline_ns := release_ns + WorkloadSpec.deadline_ms spec * 1000000 in
      let! opportunity := on_ledger
        (OpportunityLedger.offer uuid5 isoformat (WorkloadSpec.workload_id spec)
           (WorkloadSpec.hazard spec) scheduled_release_at (sub_captured_at a) correlation_id) in
      let! job := lift (JobRequest.validate
        {| JobRequest.job_id := job_id;
           JobRequest.opportunity_id := OpportunityRecord.opportunity_id opportunity;
           JobRequest.correlation_id := correlation_id;
           JobRequest.workload := spec;
           JobRequest.released_at := released_at;
           JobRequest.absolute_deadline :=
             released_at + milliseconds (WorkloadSpec.deadline_ms spec);
           JobRequest.released_monotonic_ns := release_ns;
           JobRequest.deadline_monotonic_ns := deadline_ns;
           JobRequest.payload := sub_payload a;
           JobRequest.status := JobStatus.QUEUED;
           JobRequest.deferral_count := 0;
           JobRequest.reason_codes := [];
           JobRequest.service_started_monotonic_ns := None;
           JobRequest.completed_monotonic_ns := None |}) in
      modify (fun s => set_jobs (<[job_id := job]> (jobs s)) s) ;;;
      on_ledger (OpportunityLedger.mark_queued (JobRequest.opportunity_id job)
                   released_at release_ns deadline_ns) ;;;
      let! n := gets counter in
      modify (set_counter (n + 1)) ;;;
      push (mkItem (CriticalityTier.value (WorkloadSpec.tier spec)) deadline_ns n job_id) ;;;
      ret job
  end.
End Operations.

(** The interference test of [_admissible]: the active job and the candidate
    may not run together when one of them is tier A and the pair is not known
    to be safe. *)
Definition interferes (safe : gset (string * string)) (a b : WorkloadSpec.t) : bool :=
  (bool_decide (WorkloadSpec.tier a = CriticalityTier.A_IMMEDIATE)
   || bool_decide (WorkloadSpec.tier b = CriticalityTier.A_IMMEDIATE))
  && negb (bool_decide
       (sorted_pair (WorkloadSpec.workload_id a) (WorkloadSpec.workload_id b) ∈ safe)).

Definition active_specs (s : t) : list WorkloadSpec.t :=
  omap (fun id => JobRequest.workload <$> jobs s !! id) (active s).

Definition elapsed_ms (j : JobRequest.t) (now_ns : Z) : f64 :=
  int_truediv (now_ns - JobRequest.released_monotonic_ns j) 1000000.

Definition deferral_expired (j : JobRequest.t) (now_ns : Z) : bool :=
  fge_Z (elapsed_ms j now_ns) (WorkloadSpec.max_deferral_ms (JobRequest.workload j)).

Definition forced_scan_due (j : JobRequest.t) (now_ns : Z) : bool :=
  match WorkloadSpec.forced_scan_ms (JobRequest.workload j) with
  | Some ms => negb (ms =? 0) && fge_Z (elapsed_ms j now_ns) ms
  | None => false
  end.

(** [spec.tier <= t] on the integer enumeration. *)
Definition tier_le (a b : CriticalityTier.t) : bool :=
  CriticalityTier.value a <=? CriticalityTier.value b.

(** [_admissible]: whether the job may start, or the reason it is terminally
    rejected. *)
Definition admissible (j : JobRequest.t) (r : ResourceSnapshot.t) (now_ns : Z)
  : M t (bool * option string) :=
  let! s := get in
  let spec := JobRequest.workload j in
  if existsb (fun a => interferes (known_safe s) a spec) (active_specs s) then
    update_job (JobRequest.job_id j) (fun j =>
      JobRequest.set_reason_codes
        (append_new "unknown_tier_a_interference_serialized" (JobRequest.reason_codes j)) j) ;;;
    ret (false, None)
  else
  let expired := deferral_expired j now_ns in
  let deadline_missed := JobRequest.deadline_monotonic_ns j <? now_ns in
  if ResourceSnapshot.available_memory_mb r <? WorkloadSpec.memory_mb spec then
    declare_overload "insufficient_memory" ;;;
    ret (false, if expired then Some "max_deferral_exceeded_insufficient_memory" else None)
  else if forced_scan_due j now_ns then
    declare_overload "forced_scan_due" ;;;
    ret (true, None)
  else if decide (WorkloadSpec.tier spec = CriticalityTier.A_IMMEDIATE) then
    (if deadline_missed then declare_overload "tier_a_deadline_miss" else ret tt) ;;;
    ret (true, None)
  else if ResourceSnapshot.available_memory_mb r - WorkloadSpec.memory_mb spec
          <? tier_a_reserve_memory_mb s then
    if expired then
      declare_overload "tier_a_reserve_conflict" ;;;
      ret (if tier_le (WorkloadSpec.tier spec) CriticalityTier.C_TIMELY then (true, None)
           else (false, Some "max_deferral_exceeded_reserve"))
    else ret (false, None)
  else if ResourceSnapshot.overloaded r then
    modify (fun s => set_degradation_level (Z.max (degradation_level s) 1) s) ;;;
    declare_overload "node_overload" ;;;
    ret (if tier_le (WorkloadSpec.tier spec) CriticalityTier.B_URGENT then (true, None)
         else if expired && tier_le (WorkloadSpec.tier spec) CriticalityTier.C_TIMELY
              then (true, None)
         else if expired then (false, Some "max_deferral_exceeded_overload")
         else (false, None))
  else
    (if deadline_missed then declare_overload "deadline_miss" else ret tt) ;;;
    ret (true, None).

(** The branches of the loop of [dispatch]: a terminal rejection, a deferral. *)
Definition reject_step (x : item) (opportunity_id : UUID) (reason : string) (now_ns : Z)
  : M t unit :=
  update_job (job x) (fun j =>
    JobRequest.set_reason_codes (append_new reason (JobRequest.reason_codes j))
      (JobRequest.set_status JobStatus.REJECTED j)) ;;;
  on_ledger (OpportunityLedger.mark_terminal opportunity_id
               OpportunityDisposition.SKIPPED now_ns (Some reason)).

Definition defer_step (x : item) (opportunity_id : UUID) : M t unit :=
  update_job (job x) (fun j =>
    JobRequest.set_reason_codes
      (append_new "resource_admission_deferred" (JobRequest.reason_codes j))
      (JobRequest.set_status JobStatus.DEFERRED
        (JobRequest.set_deferral_count (JobRequest.deferral_count j + 1) j))) ;;;
  modify (fun s => set_deferred_ids ({[job x]} ∪ deferred_ids s) s) ;;;
  on_ledger (OpportunityLedger.mark_deferred opportunity_id
               "resource_admission_deferred").

(** The [while self._queue] loop of [dispatch]: [q] is what is left of the
    heap, [held] the deferred items so far.  Returns the selected job, the
    rest of the heap and the held items. *)
Fixpoint dispatch_loop (q held : list item) (r : ResourceSnapshot.t) (now_ns : Z)
  : M t (option UUID * list item * list item) :=
  match q with
  | [] => ret (None, [], held)
  | x :: q =>
      let! s := get in
      match jobs s !! job x with
      | None => raise (KeyError (job x))
      | Some j =>
          let! '(ok, terminal_reason) := admissible j r now_ns in
          match terminal_reason with
          | Some reason =>
              reject_step x (JobRequest.opportunity_id j) reason now_ns ;;;
              dispatch_loop q held r now_ns
          | None =>
              if (ok : bool) then ret (Some (job x), q, held)
              else
                defer_step x (JobRequest.opportunity_id j) ;;;
                dispatch_loop q (held ++ [x]) r now_ns
          end
      end
  end.

Definition dispatch (r : ResourceSnapshot.t) (now_ns : Z) : M t (option UUID) :=
  let! s := get in
  match queue s with
  | [] => ret None
  | q =>
      let! '(selected, rest, held) := dispatch_loop q [] r now_ns in
      modify (fun s => set_queue (fold_left heappush held rest) s) ;;;
      match selected with
      | None => ret None
      | Some job_id =>
          let! s := get in
          match jobs s !! job_id with
          | None => raise (KeyError job_id)
          | Some j =>
              update_job job_id (fun j =>
                JobRequest.set_service_started_monotonic_ns (Some now_ns)
                  (JobRequest.set_status JobStatus.RUNNING j)) ;;;
              modify (fun s => set_deferred_ids (deferred_ids s ∖ {[job_id]}) s) ;;;
              modify (fun s => set_active (append_new job_id (active s)) s) ;;;
              on_ledger (OpportunityLedger.mark_started (JobRequest.opportunity_id j) now_ns) ;;;
              ret (Some job_id)
          end
      end
  end.

(** [complete(job)] on a job object of this scheduler. *)
Definition complete (job_id : UUID) (now_ns : Z) : M t unit :=
  let! s := get in
  match jobs s !! job_id with
  | None => raise (KeyError job_id)
  | Some j =>
      raise_if (negb (bool_decide (JobRequest.status j = JobStatus.RUNNING)))
        (ValueError "only running jobs can complete") ;;;
      update_job job_id (fun j =>
        JobRequest.set_completed_monotonic_ns (Some now_ns)
          (JobRequest.set_status JobStatus.COMPLETED j)) ;;;
      modify (fun s => set_active (List.filter (fun id => negb (bool_decide (id = job_id)))
                                     (active s)) s) ;;;
      on_ledger (OpportunityLedger.mark_terminal (JobRequest.opportunity_id j)
                   OpportunityDisposition.PROCESSED now_ns None)
  end.

Definition spec_leb (x y : WorkloadSpec.t) : bool :=
  match CriticalityTier.value (WorkloadSpec.tier x) ?= CriticalityTier.value (WorkloadSpec.tier y) with
  | Lt => true
  | Gt => false
  | Eq => String.leb (WorkloadSpec.workload_id x) (WorkloadSpec.workload_id y)
  end.

Definition fallback_schedule : M t (list string) :=
  modify (fun s => set_reason_codes (append_new "static_fallback_active" (reason_codes s)) s) ;;;
  let! s := get in
  ret (WorkloadSpec.workload_id <$> sort_by spec_leb (map_to_list (registry_ s)).*2).

Definition workload_ids_of (s : t) (ids : list UUID) : list string :=
  omap (fun id => (fun j => WorkloadSpec.workload_id (JobRequest.workload j)) <$> jobs s !! id) ids.

Definition snapshot (s : t) : SchedulerSnapshot.t :=
  let queued_jobs := job <$> queue s in
  let queued := sorted_strings (workload_ids_of s
                  (List.filter (fun id => negb (bool_decide (id ∈ deferred_ids s))) queued_jobs)) in
  let deferred := sorted_strings (workload_ids_of s
                  (List.filter (fun id => bool_decide (id ∈ deferred_ids s)) queued_jobs)) in
  let active := sorted_strings (workload_ids_of s (active s)) in
  let present : gset string := list_to_set active ∪ list_to_set queued ∪ list_to_set deferred in
  let sleeping := sorted_strings (elements (dom (registry_ s) ∖ present)) in
  {| SchedulerSnapshot.active := active;
     SchedulerSnapshot.queued := queued;
     SchedulerSnapshot.deferred := deferred;
     SchedulerSnapshot.sleeping := sleeping;
     SchedulerSnapshot.overloaded := overloaded s;
     SchedulerSnapshot.degradation_level := degradation_level s;
     SchedulerSnapshot.reason_codes := sorted_set (reason_codes s);
     SchedulerSnapshot.scheduling_policy := "normal" |}.

Definition queued (s : t) : Z := Z.of_nat (length (queue s)).

Definition registry (s : t) : list WorkloadSpec.t :=
  sort_by (fun x y => String.leb (WorkloadSpec.workload_id x) (WorkloadSpec.workload_id y))
    (map_to_list (registry_ s)).*2.

(** ** Invariants of the scheduler *)

(** What the queue operations never change about a job. *)
Definition core (j : JobRequest.t) : UUID * UUID * WorkloadSpec.t * Z * Z :=
  (JobRequest.job_id j, JobRequest.opportunity_id j, JobRequest.workload j,
   JobRequest.released_monotonic_ns j, JobRequest.deadline_monotonic_ns j).

(** A run that only touches the overload flags and the reason codes of jobs. *)
Record quiet (s s' : t) : Prop := {
  quiet_limit : queue_limit s' = queue_limit s;
  quiet_safe : known_safe s' = known_safe s;
  quiet_registry : registry_ s' = registry_ s;
  quiet_frozen : frozen s' = frozen s;
  quiet_queue : queue s' = queue s;
  quiet_counter : counter s' = counter s;
  quiet_active : active s' = active s;
  quiet_reserve : tier_a_reserve_memory_mb s' = tier_a_reserve_memory_mb s;
  quiet_ledger : opportunities s' = opportunities s;
  quiet_jobs : forall id, (fun j => (core j, JobRequest.status j)) <$> jobs s' !! id
                          = (fun j => (core j, JobRequest.status j)) <$> jobs s !! id
}.

#[local] Instance quiet_preorder : PreOrder quiet.
Proof.
  split; [done|]. intros s1 s2 s3 [] []. split; try congruence.
Qed.

Lemma declare_overload_run reason s : exists s', declare_overload reason s = (Ok tt, s') /\ quiet s s'.
Proof. eexists. split; [reflexivity|]. by split. Qed.

(** ** The admission policy

    What [_admissible] is meant to decide, in terms of the state at the time of
    the call.  A job waits behind an active job it may interfere with. *)
Definition blocked (s : t) (j : JobRequest.t) : bool :=
  existsb (fun a => interferes (known_safe s) a (JobRequest.workload j)) (active_specs s).

(** A job may run when nothing active may interfere, its memory is there, and
    it cannot be put off (tier A, a due scan, a used up deferral budget of
    tier C or more urgent) or leaves the tier A reserve alone on a node that
    is not overloaded, or overloaded and the job of tier B or more urgent. *)
Definition may_run (s : t) (r : ResourceSnapshot.t) (now_ns : Z) (j : JobRequest.t) : Prop :=
  let w := JobRequest.workload j in
  blocked s j = false /\ WorkloadSpec.memory_mb w <= ResourceSnapshot.available_memory_mb r /\
  (forced_scan_due j now_ns = true \/ WorkloadSpec.tier w = CriticalityTier.A_IMMEDIATE \/
   deferral_expired j now_ns = true /\ tier_le (WorkloadSpec.tier w) CriticalityTier.C_TIMELY = true \/
   tier_a_reserve_memory_mb s <= ResourceSnapshot.available_memory_mb r - WorkloadSpec.memory_mb w /\
     (ResourceSnapshot.overloaded r = false \/ tier_le (WorkloadSpec.tier w) CriticalityTier.B_URGENT = true)).

(** Otherwise it waits while it is blocked or has deferral budget left, and is
    refused for good after that. *)
Definition must_wait (s : t) (r : ResourceSnapshot.t) (now_ns : Z) (j : JobRequest.t) : Prop :=
  ~ may_run s r now_ns j /\ (blocked s j = true \/ deferral_expired j now_ns = false).
Definition refused (s : t) (r : ResourceSnapshot.t) (now_ns : Z) (j : JobRequest.t) : Prop :=
  ~ may_run s r now_ns j /\ blocked s j = false /\ deferral_expired j now_ns = true.

(** [admissible] never raises, and decides (True, None), (False, None) or
    (False, reason) as the policy says. *)
Definition decision_ok (j : JobRequest.t) (r : ResourceSnapshot.t) (now_ns : Z) (s : t)
    (d : bool * option string) : Prop :=
  match d with
  | (true, reason) => reason = None /\ may_run s r now_ns j
  | (false, None) => must_wait s r now_ns j
  | (false, Some _) => refused s r now_ns j
  end.

Lemma admissible_run j r now_ns s :
  exists d s', admissible j r now_ns s = (Ok d, s') /\ quiet s s' /\ decision_ok j r now_ns s d.
Proof.
  unfold admissible, bind at 1, get at 1. fold (blocked s j).
  destruct (blocked s j) eqn:Hint.
  { eexists _, _. split; [reflexivity|]. split.
    - split; try done. intros id. cbn. rewrite lookup_alter.
      case_decide as Heq; [subst|done]. by destruct (jobs s !! _).
    - split; [|by left]. intros [H _]. congruence. }
  unfold decision_ok, must_wait, refused, may_run. rewrite Hint.
  destruct (Z.ltb_spec (ResourceSnapshot.available_memory_mb r) (WorkloadSpec.memory_mb (JobRequest.workload j))).
  { destruct (deferral_expired j now_ns); (eexists _, _; split; [reflexivity|]; split; [by split|]);
      intuition (lia || congruence). }
  destruct (forced_scan_due j now_ns).
  { eexists _, _; split; [reflexivity|]; split; [by split|]. intuition lia. }
  case_decide as HA.
  { destruct (JobRequest.deadline_monotonic_ns j <? now_ns); (eexists _, _; split; [reflexivity|]; split; [by split|]); intuition lia. }
  destruct (Z.ltb_spec (ResourceSnapshot.available_memory_mb r - WorkloadSpec.memory_mb (JobRequest.workload j))
              (tier_a_reserve_memory_mb s)), (ResourceSnapshot.overloaded r),
    (deferral_expired j now_ns), (JobRequest.deadline_monotonic_ns j <? now_ns),
    (WorkloadSpec.tier (JobRequest.workload j));
    unfold tier_le; cbn; (eexists _, _; split; [reflexivity|]; split; [by split|]);
    intuition (lia || congruence).
Qed.

(** The scheduler state with [ids] as the jobs still waiting. *)
Record pending_inv (ids : list UUID) (s : t) : Prop := {
  inv_jobs : forall id j, jobs s !! id = Some j -> JobRequest.job_id j = id;
  inv_waiting : forall id, id ∈ ids -> exists j, jobs s !! id = Some j /\
    (JobRequest.status j = JobStatus.QUEUED \/ JobRequest.status j = JobStatus.DEFERRED) /\
    is_Some (OpportunityLedger.records_ (opportunities s) !! JobRequest.opportunity_id j);
  inv_running : forall id, id ∈ active s -> exists j, jobs s !! id = Some j /\
    JobRequest.status j = JobStatus.RUNNING /\
    is_Some (OpportunityLedger.records_ (opportunities s) !! JobRequest.opportunity_id j);
  inv_all_running : forall id j, jobs s !! id = Some j ->
    JobRequest.status j = JobStatus.RUNNING -> id ∈ active s;
  inv_nodup : NoDup ids;
  inv_active_nodup : NoDup (active s);
  inv_open : forall oid rec, OpportunityLedger.records_ (opportunities s) !! oid = Some rec ->
    OpportunityLedger.is_terminal rec = false ->
    exists id j, (id ∈ ids \/ id ∈ active s) /\ jobs s !! id = Some j /\
      JobRequest.opportunity_id j = oid;
  inv_exclusive : forall i k ji jk, i ∈ active s -> k ∈ active s -> i <> k ->
    jobs s !! i = Some ji -> jobs s !! k = Some jk ->
    interferes (known_safe s) (JobRequest.workload ji) (JobRequest.workload jk) = false
}.

Lemma quiet_job s s' id j :
  quiet s s' -> jobs s !! id = Some j ->
  exists j', jobs s' !! id = Some j' /\ core j' = core j /\ JobRequest.status j' = JobRequest.status j.
Proof.
  intros Hq Hj. pose proof (quiet_jobs _ _ Hq id) as H. rewrite Hj in H. cbn in H.
  destruct (jobs s' !! id) as [j'|]; [|done]. injection H as ? ? ? ? ? ?.
  exists j'. unfold core. split_and!; congruence.
Qed.

Lemma quiet_sym s s' : quiet s s' -> quiet s' s.
Proof. intros []. by split. Qed.

Lemma quiet_pending ids s s' : quiet s s' -> pending_inv ids s -> pending_inv ids s'.
Proof.
  intros Hq []. assert (Hq' := quiet_sym _ _ Hq).
  assert (Hback : forall id j, jobs s' !! id = Some j ->
            exists j', jobs s !! id = Some j' /\ core j' = core j /\
              JobRequest.status j' = JobRequest.status j) by eauto using quiet_job.
  split; rewrite ?(quiet_active _ _ Hq), ?(quiet_ledger _ _ Hq), ?(quiet_safe _ _ Hq); try done.
  - intros id j Hj. destruct (Hback _ _ Hj) as (j' & Hj' & Hc & _).
    injection Hc as <-. eauto.
  - intros id Hid. destruct (inv_waiting0 _ Hid) as (j & Hj & Hst & Hrec).
    destruct (quiet_job _ _ _ _ Hq Hj) as (j' & Hj' & Hc & Hs).
    exists j'. unfold core in Hc. simplify_eq. rewrite Hs. split_and!; congruence.
  - intros id Hid. destruct (inv_running0 _ Hid) as (j & Hj & Hst & Hrec).
    destruct (quiet_job _ _ _ _ Hq Hj) as (j' & Hj' & Hc & Hs).
    exists j'. unfold core in Hc. simplify_eq. rewrite Hs. split_and!; congruence.
  - intros id j Hj Hst. destruct (Hback _ _ Hj) as (j' & Hj' & _ & Hs). eapply inv_all_running0; [done|congruence].
  - intros oid rec Hrec Ht. destruct (inv_open0 _ _ Hrec Ht) as (id & j & Hid & Hj & <-).
    destruct (quiet_job _ _ _ _ Hq Hj) as (j' & Hj' & Hc & Hs).
    exists id, j'. unfold core in Hc. by simplify_eq.
  - intros i k ji jk Hi Hk Hne Hji Hjk.
    destruct (Hback _ _ Hji) as (ji' & Hji' & Hci & _), (Hback _ _ Hjk) as (jk' & Hjk' & Hck & _).
    unfold core in *. simplify_eq. replace (JobRequest.workload ji) with (JobRequest.workload ji') by congruence.
    replace (JobRequest.workload jk) with (JobRequest.workload jk') by congruence. eauto.
Qed.

#[local] Instance pending_inv_perm : Proper ((≡ₚ) ==> (=) ==> iff) pending_inv.
Proof.
  assert (H : forall l k s, l ≡ₚ k -> pending_inv l s -> pending_inv k s).
  { intros l k s Hp []. split; try done.
    - intros id. rewrite <- Hp. eauto.
    - by rewrite <- Hp.
    - intros oid rec Hr Ht. destruct (inv_open0 _ _ Hr Ht) as (id & j & Hid & ?).
      rewrite Hp in Hid. eauto. }
  intros l k Hp s ? <-. split; apply H; [done|by symmetry].
Qed.

Definition recs (s : t) := OpportunityLedger.records_ (opportunities s).

(** One waiting job is marked on its object and on its ledger record: it
    either keeps waiting, or leaves with a terminal record. *)
Lemma touch_pending ids ids' id j j' rec' s s' :
  pending_inv ids s -> id ∈ ids -> jobs s !! id = Some j ->
  core j' = core j -> JobRequest.status j' <> JobStatus.RUNNING ->
  known_safe s' = known_safe s -> active s' = active s ->
  jobs s' = <[id := j']> (jobs s) ->
  recs s' = <[JobRequest.opportunity_id j := rec']> (recs s) ->
  NoDup ids' -> (forall k, k <> id -> k ∈ ids' <-> k ∈ ids) ->
  (id ∈ ids' -> JobRequest.status j' = JobStatus.QUEUED \/ JobRequest.status j' = JobStatus.DEFERRED) ->
  (OpportunityLedger.is_terminal rec' = true \/ id ∈ ids') ->
  pending_inv ids' s'.
Proof.
  intros [] Hid Hj Hcore Hrun Hsafe Hact Hjobs Hrecs Hnd Hids Hst Hterm. unfold recs in *.
  assert (Hout : id ∉ active s).
  { intros Ha. destruct (inv_running0 _ Ha) as (j1 & ? & ? & _).
    destruct (inv_waiting0 _ Hid) as (j2 & ? & [|] & _); simplify_eq; congruence. }
  unfold core in Hcore. injection Hcore as Hc1 Hc2 Hc3 Hc4 Hc5.
  split; rewrite ?Hsafe, ?Hact, ?Hjobs, ?Hrecs; try done.
  - intros k jk [[<- <-]|[? ?]]%lookup_insert_Some; [|eauto]. rewrite Hc1. eauto.
  - intros k Hk. destruct (decide (k = id)) as [->|Hne].
    + exists j'. rewrite lookup_insert_eq, Hc2, lookup_insert_eq. eauto.
    + rewrite lookup_insert_ne by done. apply Hids in Hk; [|done].
      destruct (inv_waiting0 _ Hk) as (jk & ? & ? & [r ?]). exists jk.
      rewrite lookup_insert_is_Some. split_and!; [done..|].
      destruct (decide (JobRequest.opportunity_id j = JobRequest.opportunity_id jk)); eauto.
  - intros k Hk. rewrite lookup_insert_ne by (intros ->; done).
    destruct (inv_running0 _ Hk) as (jk & ? & ? & [r ?]). exists jk.
    rewrite lookup_insert_is_Some. split_and!; [done..|].
    destruct (decide (JobRequest.opportunity_id j = JobRequest.opportunity_id jk)); eauto.
  - intros k jk [[<- <-]|[? ?]]%lookup_insert_Some ?; [done|eauto].
  - intros oid rec [[<- <-]|[Hne Hrec]]%lookup_insert_Some Ht.
    + destruct Hterm as [|Hin]; [congruence|]. exists id, j'. rewrite lookup_insert_eq. eauto.
    + destruct (inv_open0 _ _ Hrec Ht) as (k & jk & Hk & Hjk & <-).
      assert (k <> id) by (intros ->; congruence). exists k, jk.
      rewrite lookup_insert_ne by done. rewrite Hids by done. eauto.
  - intros i k ji jk Hi Hk Hne. rewrite !lookup_insert_ne by (intros ->; done). eauto.
Qed.

(** A job as the queue operations see it. *)
Definition view (s : t) (id : UUID) := (fun j => (core j, JobRequest.status j)) <$> jobs s !! id.

(** The part of the state the dispatch loop leaves alone. *)
Record loop_frame (s s' : t) : Prop := {
  lf_limit : queue_limit s' = queue_limit s;
  lf_safe : known_safe s' = known_safe s;
  lf_registry : registry_ s' = registry_ s;
  lf_frozen : frozen s' = frozen s;
  lf_queue : queue s' = queue s;
  lf_counter : counter s' = counter s;
  lf_active : active s' = active s;
  lf_reserve : tier_a_reserve_memory_mb s' = tier_a_reserve_memory_mb s;
  lf_core : forall id, core <$> jobs s' !! id = core <$> jobs s !! id;
  lf_recs : dom (recs s') = dom (recs s)
}.

#[local] Instance loop_frame_preorder : PreOrder loop_frame.
Proof. split; [done|]. intros s1 s2 s3 [] []. split; congruence. Qed.

Lemma quiet_frame s s' : quiet s s' -> loop_frame s s'.
Proof.
  intros []. split; try done; [|unfold recs; congruence].
  intros id. specialize (quiet_jobs0 id).
  destruct (jobs s' !! id), (jobs s !! id); cbn in *; congruence.
Qed.

Definition status_of (s : t) (x : item) : option JobStatus.t :=
  JobRequest.status <$> jobs s !! job x.

Lemma on_ledger_update oid f s :
  is_Some (recs s !! oid) ->
  exists rec, recs s !! oid = Some rec /\
    on_ledger (OpportunityLedger.update oid f) s
    = (Ok tt, set_opportunities (OpportunityLedger.mk (<[oid := f rec]> (recs s))) s).
Proof.
  intros [rec Hrec]. exists rec. split; [done|].
  unfold on_ledger, zoom. unfold recs in *.
  assert (H : OpportunityLedger.update oid f (opportunities s)
              = (Ok tt, OpportunityLedger.mk (<[oid := f rec]> (OpportunityLedger.records_ (opportunities s))))).
  { apply OpportunityLedger.update_ok. eauto. }
  by rewrite H.
Qed.

Section Steps.
Context (ids : list UUID) (x : item) (j : JobRequest.t) (s : t).
Context (Hinv : pending_inv (job x :: ids) s) (Hj : jobs s !! job x = Some j).

Lemma pending_record : is_Some (recs s !! JobRequest.opportunity_id j).
Proof using Hinv Hj.
  destruct (inv_waiting _ _ Hinv (job x)) as (j' & Hj' & _ & ?); [set_solver|].
  by simplify_eq.
Qed.

(** What both branches leave alone, and how they change the store of jobs. *)
Definition marked (status : JobStatus.t) (s' : t) : Prop :=
  loop_frame s s' /\ status_of s' x = Some status /\
  (forall id, id <> job x -> jobs s' !! id = jobs s !! id).

(** The state after the job object is changed by [f], the set of deferred
    identifiers becomes [d] and the ledger record becomes [rec']. *)
Definition mark (f : JobRequest.t -> JobRequest.t) (d : gset UUID) (rec' : OpportunityRecord.t) : t :=
  set_opportunities
    (OpportunityLedger.mk (<[JobRequest.opportunity_id j := rec']> (recs s)))
    (set_deferred_ids d (set_jobs (alter f (job x) (jobs s)) s)).

Lemma mark_run f d rec' status ids' :
  core (f j) = core j -> JobRequest.status (f j) = status -> status <> JobStatus.RUNNING ->
  NoDup ids' -> (forall k, k <> job x -> k ∈ ids' <-> k ∈ job x :: ids) ->
  (job x ∈ ids' -> status = JobStatus.QUEUED \/ status = JobStatus.DEFERRED) ->
  (OpportunityLedger.is_terminal rec' = true \/ job x ∈ ids') ->
  marked status (mark f d rec') /\ pending_inv ids' (mark f d rec').
Proof using Hinv Hj.
  intros Hcore Hst Hrun Hnd Hids Hin Hterm.
  assert (Hjobs : jobs (mark f d rec') = <[job x := f j]> (jobs s))
    by (cbn; by apply alter_insert_lookup).
  split.
  - split; [|split].
    + split; try done.
      * intros id. rewrite Hjobs, lookup_insert.
        case_decide; [subst; rewrite Hj; exact (f_equal Some Hcore)|done].
      * apply dom_insert_lookup_L, pending_record.
    + unfold status_of. rewrite Hjobs, lookup_insert_eq. cbn. by rewrite Hst.
    + intros id Hne. by rewrite Hjobs, lookup_insert_ne by done.
  - subst status. apply (touch_pending (job x :: ids) ids' (job x) j (f j) rec' s); try done.
    set_solver.
Qed.

Lemma reject_run reason now_ns :
  exists s', reject_step x (JobRequest.opportunity_id j) reason now_ns s = (Ok tt, s') /\
    marked JobStatus.REJECTED s' /\ pending_inv ids s'.
Proof using Hinv Hj.
  set (f := fun j => JobRequest.set_reason_codes (append_new reason (JobRequest.reason_codes j))
                       (JobRequest.set_status JobStatus.REJECTED j)).
  destruct (on_ledger_update (JobRequest.opportunity_id j)
    (OpportunityLedger.terminal_mark OpportunityDisposition.SKIPPED now_ns (Some reason))
    (set_jobs (alter f (job x) (jobs s)) s) pending_record) as (rec & Hrec & Hrun).
  exists (mark f (deferred_ids s)
            (OpportunityLedger.terminal_mark OpportunityDisposition.SKIPPED now_ns (Some reason) rec)).
  split.
  - unfold reject_step, update_job, bind, modify.
    unfold on_ledger, zoom in *. rewrite OpportunityLedger.mark_terminal_update by (cbn; set_solver).
    exact Hrun.
  - pose proof (inv_nodup _ _ Hinv) as [Hx Hnd]%NoDup_cons.
    apply mark_run; try done; [set_solver|]. left. unfold OpportunityLedger.is_terminal.
    by rewrite OpportunityLedger.terminal_mark_disposition.
Qed.

Lemma defer_run :
  exists s', defer_step x (JobRequest.opportunity_id j) s = (Ok tt, s') /\
    marked JobStatus.DEFERRED s' /\ pending_inv (job x :: ids) s'.
Proof using Hinv Hj.
  set (f := fun j => JobRequest.set_reason_codes
                       (append_new "resource_admission_deferred" (JobRequest.reason_codes j))
                       (JobRequest.set_status JobStatus.DEFERRED
                         (JobRequest.set_deferral_count (JobRequest.deferral_count j + 1) j))).
  destruct (on_ledger_update (JobRequest.opportunity_id j)
    (OpportunityLedger.deferred_mark "resource_admission_deferred")
    (set_deferred_ids ({[job x]} ∪ deferred_ids s) (set_jobs (alter f (job x) (jobs s)) s))
    pending_record) as (rec & Hrec & Hrun).
  eexists. split; [exact Hrun|].
  apply (mark_run f); try done; [apply (inv_nodup _ _ Hinv)|by right|right; set_solver].
Qed.

End Steps.
(** ** The dispatch loop *)

Lemma active_specs_core s s' :
  active s' = active s -> (forall id, core <$> jobs s' !! id = core <$> jobs s !! id) ->
  active_specs s' = active_specs s.
Proof.
  intros Ha Hc. unfold active_specs. rewrite Ha. clear Ha.
  induction (active s) as [|id ids IH]; cbn; [done|]. specialize (Hc id).
  destruct (jobs s' !! id), (jobs s !! id); cbn in *; try done. injection Hc as _ _ -> _ _. by rewrite IH.
Qed.

(** The policy's verdict on the job of a queued item. *)
Definition judged (verdict : t -> ResourceSnapshot.t -> Z -> JobRequest.t -> Prop) (s : t)
    (r : ResourceSnapshot.t) (now_ns : Z) (x : item) : Prop :=
  exists j, jobs s !! job x = Some j /\ verdict s r now_ns j.

(** Verdicts do not change while the loop runs. *)
Definition stable (verdict : t -> ResourceSnapshot.t -> Z -> JobRequest.t -> Prop) : Prop :=
  forall s s' r now_ns j j', loop_frame s s' -> core j' = core j -> verdict s' r now_ns j' -> verdict s r now_ns j.

Lemma blocked_frame s s' j j' : loop_frame s s' -> core j' = core j -> blocked s' j' = blocked s j.
Proof.
  intros Hf [= _ _ Hw _ _]. unfold blocked. by rewrite Hw, (lf_safe _ _ Hf), (active_specs_core s s' (lf_active _ _ Hf) (lf_core _ _ Hf)).
Qed.

Lemma may_run_frame s s' r now_ns j j' :
  loop_frame s s' -> core j' = core j -> may_run s' r now_ns j' <-> may_run s r now_ns j.
Proof.
  intros Hf Hc. unfold may_run. rewrite (blocked_frame _ _ _ _ Hf Hc), (lf_reserve _ _ Hf).
  injection Hc as _ _ Hw Hr _.
  unfold forced_scan_due, deferral_expired, elapsed_ms. by rewrite Hw, Hr.
Qed.

Lemma expired_core now_ns j j' : core j' = core j -> deferral_expired j' now_ns = deferral_expired j now_ns.
Proof. intros [= _ _ Hw Hr _]. unfold deferral_expired, elapsed_ms. by rewrite Hw, Hr. Qed.

Lemma stable_may_run : stable may_run.
Proof. intros s s' r now_ns j j' Hf Hc. by apply (may_run_frame _ _ _ _ _ _ Hf Hc). Qed.
Lemma stable_must_wait : stable must_wait.
Proof.
  intros s s' r now_ns j j' Hf Hc [H1 H2]. split; [by rewrite <-(may_run_frame _ _ _ _ _ _ Hf Hc)|].
  by rewrite <-(blocked_frame _ _ _ _ Hf Hc), <-(expired_core _ _ _ Hc).
Qed.
Lemma stable_refused : stable refused.
Proof.
  intros s s' r now_ns j j' Hf Hc [H1 H2]. split; [by rewrite <-(may_run_frame _ _ _ _ _ _ Hf Hc)|].
  by rewrite <-(blocked_frame _ _ _ _ Hf Hc), <-(expired_core _ _ _ Hc).
Qed.

Lemma judged_frame verdict s s' r now_ns x :
  stable verdict -> loop_frame s s' -> judged verdict s' r now_ns x -> judged verdict s r now_ns x.
Proof.
  intros Hv Hf (j' & Hj' & H). pose proof (lf_core _ _ Hf (job x)) as Hc. rewrite Hj' in Hc.
  destruct (jobs s !! job x) as [j|] eqn:Hj; [|done]. injection Hc as Hc. exists j. split; [done|].
  eapply Hv; [done| |done]. unfold core. congruence.
Qed.

(** What a run of the loop over [q] with [held] items promises: the items are
    split into those passed over, the selected one and the rest; the items
    passed over were either deferred (and held) or rejected. *)
Record loop_post (r : ResourceSnapshot.t) (now_ns : Z) (q held : list item) (s : t)
    (sel : option item) (rest held' : list item) (s' : t) : Prop := {
  lp_frame : loop_frame s s';
  lp_passed : exists pre kept dropped,
    q = pre ++ option_list sel ++ rest /\ held' = held ++ kept /\ pre ≡ₚ kept ++ dropped /\
    Forall (fun x => status_of s' x = Some JobStatus.DEFERRED /\ judged must_wait s r now_ns x) kept /\
    Forall (fun x => status_of s' x = Some JobStatus.REJECTED /\ judged refused s r now_ns x) dropped;
  lp_rest : sel = None -> rest = [];
  lp_inv : pending_inv (job <$> held' ++ option_list sel ++ rest) s';
  lp_other : forall id, id ∉ (job <$> q) -> view s' id = view s id;
  lp_sel : forall x j, sel = Some x -> jobs s' !! job x = Some j ->
    existsb (fun a => interferes (known_safe s') a (JobRequest.workload j)) (active_specs s') = false;
  lp_run : forall x, sel = Some x -> judged may_run s r now_ns x
}.

(** Extending the promise by one item marked first. *)
Lemma loop_post_cons r now_ns x q held held1 s s2 sel rest held' s' (kept dropped : list item) status :
  loop_frame s s2 -> (forall id, id <> job x -> view s2 id = view s id) ->
  job x ∉ job <$> q -> status_of s2 x = Some status ->
  held1 = held ++ kept -> [x] = kept ++ dropped ->
  Forall (fun x => status = JobStatus.DEFERRED /\ judged must_wait s r now_ns x) kept ->
  Forall (fun x => status = JobStatus.REJECTED /\ judged refused s r now_ns x) dropped ->
  loop_post r now_ns q held1 s2 sel rest held' s' -> loop_post r now_ns (x :: q) held s sel rest held' s'.
Proof.
  intros Hf Hoth Hx Hst -> Hone Hk Hd [Hf' (pre & kept' & dropped' & -> & -> & Hp & Hk' & Hd')].
  assert (Hst' : status_of s' x = Some status).
  { specialize (lp_other0 _ Hx). unfold status_of, view in *.
    destruct (jobs s' !! job x), (jobs s2 !! job x); cbn in *; congruence. }
  split; try done.
  - by transitivity s2.
  - exists (x :: pre), (kept ++ kept'), (dropped ++ dropped'). split_and!; [done|by rewrite app_assoc| | |].
    + rewrite Hp. change (x :: kept' ++ dropped') with ([x] ++ kept' ++ dropped'). rewrite Hone.
      solve_Permutation.
    + apply Forall_app. split.
      * destruct kept as [|? []], dropped; try done. injection Hone as <-.
        apply Forall_singleton in Hk as [-> ?]. by apply Forall_singleton.
      * eapply Forall_impl; [exact Hk'|]. intros y [? ?]. split; [done|]. by eapply judged_frame; [apply stable_must_wait|..].
    + apply Forall_app. split.
      * destruct dropped as [|? []], kept as [|? []]; try done. injection Hone as <-.
        apply Forall_singleton in Hd as [-> ?]. by apply Forall_singleton.
      * eapply Forall_impl; [exact Hd'|]. intros y [? ?]. split; [done|]. by eapply judged_frame; [apply stable_refused|..].
  - intros id Hid. rewrite lp_other0, Hoth; [done|set_solver..].
  - intros y Hy. eapply judged_frame; [apply stable_may_run|done|by apply lp_run0].
Qed.

Lemma dispatch_loop_run r now_ns q held s :
  pending_inv (job <$> held ++ q) s ->
  exists sel rest held' s',
    dispatch_loop q held r now_ns s = (Ok (job <$> sel, rest, held'), s') /\
    loop_post r now_ns q held s sel rest held' s'.
Proof.
  revert held s. induction q as [|x q IH]; intros held s Hinv.
  { exists None, [], held, s. split; [done|]. split; try done.
    exists [], [], []. by rewrite !app_nil_r. }
  assert (Hperm : job <$> held ++ x :: q ≡ₚ job x :: (job <$> held ++ q)).
  { rewrite !fmap_app. cbn. by rewrite Permutation_middle. }
  rewrite Hperm in Hinv. clear Hperm.
  destruct (inv_waiting _ _ Hinv (job x)) as (j & Hj & _); [set_solver|].
  destruct (admissible_run j r now_ns s) as ([ok reason] & s1 & Hadm & Hq & Hok).
  destruct (quiet_job _ _ _ _ Hq Hj) as (j1 & Hj1 & Hcore & _).
  apply (quiet_pending _ _ _ Hq) in Hinv.
  assert (Hopp : JobRequest.opportunity_id j = JobRequest.opportunity_id j1) by (by injection Hcore).
  assert (Hw : JobRequest.workload j1 = JobRequest.workload j) by (by injection Hcore).
  assert (Hout : job x ∉ job <$> q).
  { pose proof (inv_nodup _ _ Hinv) as [Hx _]%NoDup_cons. set_solver. }
  cbn [dispatch_loop]. unfold bind at 1, get at 1. rewrite Hj. unfold bind at 1. rewrite Hadm, Hopp.
  destruct reason as [reason|]; destruct ok; [by destruct Hok|..].
  - destruct (reject_run _ x j1 s1 Hinv Hj1 reason now_ns) as (s2 & Hrun & (Hf & Hst & Hrest) & Hinv2).
    unfold bind at 1. rewrite Hrun.
    destruct (IH held s2 Hinv2) as (sel & rest & held' & s3 & Hloop & Hpost). rewrite Hloop.
    exists sel, rest, held', s3. split; [done|].
    eapply (loop_post_cons _ _ _ _ _ held _ s2 _ _ _ _ [] [x]); eauto.
    + by transitivity s1; [apply quiet_frame|].
    + intros id Hne. unfold view. rewrite Hrest by done. apply (quiet_jobs _ _ Hq).
    + by rewrite app_nil_r.
    + apply Forall_singleton. split; [done|]. by exists j.
  - exists (Some x), q, held, s1. split; [done|].
    assert (Hperm : job <$> held ++ option_list (Some x) ++ q ≡ₚ job x :: (job <$> held ++ q)).
    { rewrite !fmap_app. cbn. by rewrite Permutation_middle. }
    split; [by apply quiet_frame| |done| | | |].
    + exists [], [], []. by rewrite app_nil_r.
    + by rewrite Hperm.
    + intros id _. apply (quiet_jobs _ _ Hq).
    + intros ? ? [= <-] Hj1'. simplify_eq. destruct Hok as (_ & Hint & _). unfold blocked in Hint.
      destruct (quiet_frame _ _ Hq). by rewrite (active_specs_core s s1), lf_safe0, Hw.
    + intros ? [= <-]. exists j. split; [done|apply Hok].
  - destruct (defer_run _ x j1 s1 Hinv Hj1) as (s2 & Hrun & (Hf & Hst & Hrest) & Hinv2).
    unfold bind at 1. rewrite Hrun.
    destruct (IH (held ++ [x]) s2) as (sel & rest & held' & s3 & Hloop & Hpost).
    { rewrite <- app_assoc, fmap_app. cbn. rewrite <- Permutation_middle, <- fmap_app. done. }
    rewrite Hloop. exists sel, rest, held', s3. split; [done|].
    eapply (loop_post_cons _ _ _ _ _ (held ++ [x]) _ s2 _ _ _ _ [x] []); eauto.
    + by transitivity s1; [apply quiet_frame|].
    + intros id Hne. unfold view. rewrite Hrest by done. apply (quiet_jobs _ _ Hq).
    + apply Forall_singleton. split; [done|]. by exists j.
Qed.

(** ** Starting the selected job *)
Lemma sorted_pair_comm a b : sorted_pair a b = sorted_pair b a.
Proof.
  unfold sorted_pair. destruct (String.leb a b) eqn:Hab, (String.leb b a) eqn:Hba; try done.
  - by rewrite (String.leb_antisym a b Hab Hba).
  - destruct (String.leb_total a b); congruence.
Qed.

Lemma interferes_comm safe a b : interferes safe a b = interferes safe b a.
Proof. unfold interferes. by rewrite sorted_pair_comm, orb_comm. Qed.

Lemma active_specs_no_interference s spec k jk :
  existsb (fun a => interferes (known_safe s) a spec) (active_specs s) = false ->
  k ∈ active s -> jobs s !! k = Some jk ->
  interferes (known_safe s) (JobRequest.workload jk) spec = false.
Proof.
  intros H Hk Hjk. destruct (interferes _ _ _) eqn:E; [|done]. exfalso.
  rewrite <- not_true_iff_false, existsb_exists in H. apply H.
  exists (JobRequest.workload jk). split; [|done]. apply list_elem_of_In.
  unfold active_specs. apply list_elem_of_omap. exists k. by rewrite Hjk.
Qed.

Definition start (j : JobRequest.t) (now_ns : Z) (id : UUID) (rec' : OpportunityRecord.t) (s : t) : t :=
  set_opportunities (OpportunityLedger.mk (<[JobRequest.opportunity_id j := rec']> (recs s)))
    (set_active (append_new id (active s))
      (set_deferred_ids (deferred_ids s ∖ {[id]})
        (set_jobs (alter (fun j => JobRequest.set_service_started_monotonic_ns (Some now_ns)
                                     (JobRequest.set_status JobStatus.RUNNING j)) id (jobs s)) s))).

Lemma start_pending ids id j now_ns rec' rec s :
  pending_inv (id :: ids) s -> jobs s !! id = Some j ->
  existsb (fun a => interferes (known_safe s) a (JobRequest.workload j)) (active_specs s) = false ->
  recs s !! JobRequest.opportunity_id j = Some rec ->
  OpportunityRecord.disposition rec' = OpportunityRecord.disposition rec ->
  pending_inv ids (start j now_ns id rec' s).
Proof.
  intros Hinv Hj Hint Hrec Hdisp. pose proof (inv_nodup _ _ Hinv) as [Hout Hnd]%NoDup_cons.
  assert (Hterm : OpportunityLedger.is_terminal rec' = OpportunityLedger.is_terminal rec)
    by (unfold OpportunityLedger.is_terminal; by rewrite Hdisp).
  assert (Hact : id ∉ active s).
  { intros Ha. destruct (inv_running _ _ Hinv _ Ha) as (j1 & ? & ? & _).
    destruct (inv_waiting _ _ Hinv id) as (j2 & ? & [|] & _); [set_solver|..]; simplify_eq; congruence. }
  assert (Hrecs : forall oid, is_Some (recs s !! oid) ->
            is_Some (<[JobRequest.opportunity_id j := rec']> (recs s) !! oid)).
  { intros oid [? ?]. rewrite lookup_insert_is_Some.
    destruct (decide (JobRequest.opportunity_id j = oid)); eauto. }
  pose proof (fun k jk => active_specs_no_interference s _ k jk Hint) as Hself.
  assert (Hopen := inv_open _ _ Hinv). fold (recs s) in Hopen.
  destruct Hinv. unfold start, append_new. rewrite decide_False by done.
  split; cbn; rewrite ?(alter_insert_lookup _ _ _ _ Hj); try done.
  - intros k jk [[<- <-]|[? ?]]%lookup_insert_Some; [|eauto]. by apply (inv_jobs0 id j).
  - intros k Hk. destruct (inv_waiting0 k) as (jk & ? & ? & ?); [set_solver|].
    exists jk. rewrite lookup_insert_ne by (intros ->; done). eauto.
  - intros k [Hk| ->%list_elem_of_singleton]%elem_of_app.
    + destruct (inv_running0 k Hk) as (jk & ? & ? & ?).
      exists jk. rewrite lookup_insert_ne by (intros ->; done). eauto.
    + eexists. rewrite lookup_insert_eq. split_and!; [done..|]. by apply Hrecs; eexists.
  - intros k jk [[<- <-]|[? ?]]%lookup_insert_Some ?; rewrite elem_of_app; [set_solver|eauto].
  - apply NoDup_app. split_and!; [done|set_solver|apply NoDup_singleton].
  - assert (Hback : forall oid rec, recs s !! oid = Some rec -> OpportunityLedger.is_terminal rec = false ->
      exists k jk, (k ∈ ids \/ k ∈ active s ++ [id]) /\
        <[id := JobRequest.set_service_started_monotonic_ns (Some now_ns)
                  (JobRequest.set_status JobStatus.RUNNING j)]> (jobs s) !! k = Some jk /\
        JobRequest.opportunity_id jk = oid).
    { intros oid r Hr Ht. destruct (Hopen _ _ Hr Ht) as (k & jk & Hk & Hjk & <-).
      destruct (decide (k = id)) as [->|Hne].
      - eexists id, _. rewrite lookup_insert_eq. simplify_eq. split_and!; [set_solver|done..].
      - exists k, jk. rewrite lookup_insert_ne by done. split_and!; [set_solver|done..]. }
    intros oid r [[<- <-]|[_ Hr]]%lookup_insert_Some Ht; [|by eapply Hback].
    eapply Hback; [done|congruence].
  - intros i k ji jk Hi Hk Hne Hji Hjk. apply elem_of_app in Hi, Hk.
    apply lookup_insert_Some in Hji, Hjk.
    destruct Hji as [[<- <-]|[Hni Hji]], Hjk as [[<- <-]|[Hnk Hjk]]; try done.
    + rewrite interferes_comm. apply (Hself k); [set_solver|done].
    + apply (Hself i); [set_solver|done].
    + apply (inv_exclusive0 i k); try done; set_solver.
Qed.

(** ** The priority queue *)
Lemma item_leb_total x y : item_leb x y = false -> item_leb y x = true.
Proof.
  unfold item_leb. rewrite (Z.compare_antisym (tier x)), (Z.compare_antisym (deadline_ns x)).
  destruct (tier x ?= tier y); try done. destruct (deadline_ns x ?= deadline_ns y); try done.
  cbn. lia.
Qed.

Lemma item_leb_trans x y z : item_leb x y = true -> item_leb y z = true -> item_leb x z = true.
Proof.
  unfold item_leb. repeat case Z.compare_spec; intros; try done; lia.
Qed.

Lemma item_leb_antisym x y : item_leb x y = true -> item_leb y x = true -> seqno x = seqno y.
Proof.
  unfold item_leb. rewrite (Z.compare_antisym (tier x)), (Z.compare_antisym (deadline_ns x)).
  destruct (tier x ?= tier y), (deadline_ns x ?= deadline_ns y); cbn; try done. lia.
Qed.

Abbreviation in_order := (fun x y => item_leb x y = true).

Lemma heappush_all_perm l q : fold_left heappush l q ≡ₚ l ++ q.
Proof.
  revert q. induction l as [|x l IH]; intros q; cbn; [done|].
  rewrite IH. unfold heappush. rewrite insert_sorted_perm. apply Permutation_sym, Permutation_middle.
Qed.

Lemma heappush_all_sorted l q :
  StronglySorted in_order q -> StronglySorted in_order (fold_left heappush l q).
Proof.
  revert q. induction l as [|x l IH]; intros q Hq; cbn; [done|].
  apply IH, insert_sorted_sorted; eauto using item_leb_total, item_leb_trans.
Qed.

(** ** Well-formed schedulers *)

(** An item carries the tier and the deadline of its job. *)
Definition item_of_job (s : t) (x : item) : Prop :=
  exists j, jobs s !! job x = Some j /\
    tier x = CriticalityTier.value (WorkloadSpec.tier (JobRequest.workload j)) /\
    deadline_ns x = JobRequest.deadline_monotonic_ns j.

Record wf (s : t) : Prop := {
  wf_pending : pending_inv (job <$> queue s) s;
  wf_sorted : StronglySorted in_order (queue s);
  wf_bound : Z.of_nat (length (queue s)) <= Z.max 0 (queue_limit s);
  wf_items : Forall (item_of_job s) (queue s);
  wf_seqnos : NoDup (seqno <$> queue s);
  wf_counter : Forall (fun x => seqno x < counter s) (queue s)
}.

Lemma item_of_job_core s s' x :
  (forall id, core <$> jobs s' !! id = core <$> jobs s !! id) -> item_of_job s x -> item_of_job s' x.
Proof.
  intros Hc (j & Hj & Ht & Hd). specialize (Hc (job x)). rewrite Hj in Hc.
  destruct (jobs s' !! job x) as [j'|] eqn:Hj'; [|done]. injection Hc as _ _ Hw _ Hdl.
  exists j'. by rewrite Hw, Hdl.
Qed.

Lemma pending_set_queue ids q s : pending_inv ids s -> pending_inv ids (set_queue q s).
Proof. intros []. by split. Qed.

(** What [dispatch] promises from a well-formed state. *)
Record dispatch_post (r : ResourceSnapshot.t) (now_ns : Z) (s : t) (sel : option item) (s' : t) : Prop := {
  dp_wf : wf s';
  dp_limit : queue_limit s' = queue_limit s;
  dp_safe : known_safe s' = known_safe s;
  dp_registry : registry_ s' = registry_ s;
  dp_frozen : frozen s' = frozen s;
  dp_recs : dom (recs s') = dom (recs s);
  dp_active : active s' = active s ++ (job <$> option_list sel);
  dp_split : exists pre rest kept dropped,
    queue s = pre ++ option_list sel ++ rest /\ pre ≡ₚ kept ++ dropped /\
    queue s' ≡ₚ kept ++ rest /\ (sel = None -> rest = []) /\
    Forall (fun x => status_of s' x = Some JobStatus.DEFERRED /\ judged must_wait s r now_ns x) kept /\
    Forall (fun x => status_of s' x = Some JobStatus.REJECTED /\ judged refused s r now_ns x) dropped;
  dp_running : forall x, sel = Some x -> status_of s' x = Some JobStatus.RUNNING /\ judged may_run s r now_ns x
}.

Lemma dispatch_run r now_ns s :
  wf s -> exists sel s', dispatch r now_ns s = (Ok (job <$> sel), s') /\ dispatch_post r now_ns s sel s'.
Proof.
  intros [Hinv Hsort Hbound Hitems Hseq Hcnt]. unfold dispatch, bind at 1, get at 1.
  destruct (queue s) as [|x0 q0] eqn:Hq.
  { exists None, s. split; [done|]. split; rewrite ?Hq; try done.
    - by split; rewrite ?Hq.
    - by rewrite app_nil_r.
    - by exists [], [], [], []. }
  rewrite <- Hq in *. clear x0 q0 Hq.
  destruct (dispatch_loop_run r now_ns (queue s) [] s Hinv)
    as (sel & rest & held & s1 & Hloop & [Hf (pre & kept & dropped & Hsplit & -> & Hp & Hk & Hd) Hrest Hinv1 _ Hsel Hmay]).
  unfold bind at 1. rewrite Hloop. clear Hloop. cbn [app] in *.
  set (q' := fold_left heappush kept rest).
  assert (Hq' : q' ≡ₚ kept ++ rest) by apply heappush_all_perm.
  assert (Hqs : queue s ≡ₚ option_list sel ++ q' ++ dropped).
  { rewrite Hsplit, Hp, Hq'. solve_Permutation. }
  assert (Hsort' : StronglySorted in_order q').
  { apply heappush_all_sorted. rewrite Hsplit in Hsort.
    by apply StronglySorted_app_1_r in Hsort; apply StronglySorted_app_1_r in Hsort. }
  assert (Hlen : (length q' <= length (queue s))%nat).
  { rewrite Hqs, !length_app. lia. }
  assert (Hitems' : Forall (item_of_job s) q').
  { rewrite Hqs in Hitems. by apply Forall_app in Hitems as [_ [? _]%Forall_app]. }
  assert (Hseq' : NoDup (seqno <$> q')).
  { rewrite Hqs, !fmap_app in Hseq. by apply NoDup_app in Hseq as (_ & _ & [? _]%NoDup_app). }
  assert (Hcnt' : Forall (fun x => seqno x < counter s1) q').
  { rewrite (lf_counter _ _ Hf). rewrite Hqs in Hcnt. by apply Forall_app in Hcnt as [_ [? _]%Forall_app]. }
  assert (Hinv2 : pending_inv (job <$> option_list sel ++ q') (set_queue q' s1)).
  { apply pending_set_queue. eapply pending_inv_perm; [|reflexivity|exact Hinv1].
    rewrite Hq'. apply fmap_Permutation. solve_Permutation. }
  destruct Hf, sel as [x|]; cbn [fmap option_fmap option_map option_list] in *.
  - destruct (inv_waiting _ _ Hinv1 (job x)) as (j & Hj & _ & Hrec); [set_solver|].
    unfold bind at 1, modify at 1, bind at 1, get at 1. cbn [jobs set_queue]. rewrite Hj.
    set (f := fun j => JobRequest.set_service_started_monotonic_ns (Some now_ns)
                         (JobRequest.set_status JobStatus.RUNNING j)).
    set (s2 := set_active (append_new (job x) (active s1)) (set_deferred_ids (deferred_ids s1 ∖ {[job x]})
        (set_jobs (alter f (job x) (jobs s1)) (set_queue q' s1)))).
    destruct (on_ledger_update (JobRequest.opportunity_id j)
      (OpportunityRecord.set_service_started_monotonic_ns (Some now_ns)) s2 Hrec) as (rec & Hrec' & Hrun).
    exists (Some x), (start j now_ns (job x)
      (OpportunityRecord.set_service_started_monotonic_ns (Some now_ns) rec) (set_queue q' s1)).
    split.
    { transitivity (bind (on_ledger (OpportunityLedger.mark_started (JobRequest.opportunity_id j) now_ns))
                      (fun _ => ret (Some (job x))) s2); [reflexivity|].
      unfold bind, OpportunityLedger.mark_started. by rewrite Hrun. }
    assert (Hinv3 : pending_inv (job <$> q') (start j now_ns (job x)
      (OpportunityRecord.set_service_started_monotonic_ns (Some now_ns) rec) (set_queue q' s1))).
    { eapply start_pending; [exact Hinv2|exact Hj|exact (Hsel x j eq_refl Hj)|exact Hrec'|done]. }
    set (s3 := start _ _ _ _ _) in *.
    assert (Hjobs : jobs s3 = <[job x := f j]> (jobs s1)) by exact (alter_insert_lookup f (jobs s1) (job x) j Hj).
    assert (Hnotin : job x ∉ job <$> q').
    { by pose proof (inv_nodup _ _ Hinv2) as [? _]%NoDup_cons. }
    assert (Hcore3 : forall id, core <$> jobs s3 !! id = core <$> jobs s !! id).
    { intros id. rewrite <- lf_core0, Hjobs, lookup_insert. case_decide; [subst; by rewrite Hj|done]. }
    assert (Hst : forall y, job y <> job x -> status_of s3 y = status_of s1 y).
    { intros y Hne. unfold status_of. by rewrite Hjobs, lookup_insert_ne. }
    split; try done.
    + split; [done|exact Hsort'|cbn; lia| |done..]. eapply Forall_impl; [exact Hitems'|].
      intros y. by apply item_of_job_core.
    + cbn. rewrite <- lf_recs0. by apply dom_insert_lookup_L.
    + cbn. rewrite lf_active0. unfold append_new. rewrite decide_False; [done|].
      rewrite <- lf_active0. intros Ha. destruct (inv_running _ _ Hinv1 _ Ha) as (j2 & ? & ? & _).
      destruct (inv_waiting _ _ Hinv1 (job x)) as (j3 & ? & [|] & _); [set_solver|..];
        simplify_eq; congruence.
    + pose proof (inv_nodup _ _ Hinv) as Hnd.
      rewrite Hqs in Hnd. cbn in Hnd. apply NoDup_cons in Hnd as [Hx _].
      rewrite fmap_app in Hx. exists pre, rest, kept, dropped. split_and!; try done.
      * eapply Forall_impl_in; [exact Hk|]. intros y Hy [? ?]. rewrite Hst; [done|].
        intros He. apply Hnotin. rewrite <- He, Hq'. set_solver.
      * eapply Forall_impl_in; [exact Hd|]. intros y Hy [? ?]. rewrite Hst; [done|].
        intros He. apply Hx. rewrite <- He. set_solver.
    + intros ? [= <-]. split; [unfold status_of; by rewrite Hjobs, lookup_insert_eq|by apply Hmay].
  - unfold bind, modify, ret. exists None, (set_queue q' s1). split; [done|].
    split; try done.
    + split; try done; cbn; [lia|]. eapply Forall_impl; [exact Hitems'|].
      intros y. by apply item_of_job_core.
    + by rewrite app_nil_r.
    + exists pre, rest, kept, dropped. split_and!; try done.
Qed.

(** ** Submission and completion *)

Definition valid_registry (s : t) : Prop :=
  map_Forall (fun _ w => WorkloadSpec.validate w = Ok w) (registry_ s).

Lemma valid_spec_deadline w : WorkloadSpec.validate w = Ok w -> 0 < WorkloadSpec.deadline_ms w.
Proof.
  unfold WorkloadSpec.validate. intros (u & H & _)%rbind_ok. apply check_ok in H.
  rewrite negb_false_iff, !andb_true_iff in H. lia.
Qed.

Section Submit.
Context (uuid5 : string -> UUID) (isoformat : datetime -> string).

Lemma submit_pending ids j rec s s' :
  pending_inv ids s -> jobs s !! JobRequest.job_id j = None ->
  JobRequest.status j = JobStatus.QUEUED ->
  known_safe s' = known_safe s -> active s' = active s ->
  jobs s' = <[JobRequest.job_id j := j]> (jobs s) ->
  recs s' = <[JobRequest.opportunity_id j := rec]> (recs s) ->
  pending_inv (JobRequest.job_id j :: ids) s'.
Proof.
  intros [] Hnew Hst Hsafe Hact Hjobs Hrecs. unfold recs in *.
  set (id := JobRequest.job_id j) in *.
  assert (Hne : forall k jk, jobs s !! k = Some jk -> id <> k) by (intros; congruence).
  assert (Hr : forall o, is_Some (OpportunityLedger.records_ (opportunities s) !! o) ->
    is_Some (<[JobRequest.opportunity_id j := rec]> (OpportunityLedger.records_ (opportunities s)) !! o)).
  { intros o Ho. rewrite lookup_insert_is_Some.
    destruct (decide (JobRequest.opportunity_id j = o)); eauto. }
  split; rewrite ?Hsafe, ?Hact, ?Hjobs, ?Hrecs; try done.
  - by intros k jk [[<- <-]|[? ?]]%lookup_insert_Some; [|eauto].
  - intros k [->|Hk]%elem_of_cons.
    + exists j. rewrite !lookup_insert_eq. eauto.
    + destruct (inv_waiting0 _ Hk) as (jk & Hjk & ?). exists jk.
      rewrite lookup_insert_ne by eauto. naive_solver.
  - intros k Hk. destruct (inv_running0 _ Hk) as (jk & Hjk & ?). exists jk.
    rewrite lookup_insert_ne by eauto. naive_solver.
  - intros k jk [[<- <-]|[? ?]]%lookup_insert_Some ?; [congruence|eauto].
  - apply NoDup_cons. split; [|done]. intros Hin.
    destruct (inv_waiting0 _ Hin) as (? & ? & _). congruence.
  - intros oid r [[<- <-]|[Hn Hold]]%lookup_insert_Some Ht.
    + exists id, j. rewrite lookup_insert_eq. split_and!; [set_solver|done..].
    + destruct (inv_open0 _ _ Hold Ht) as (k & jk & Hk & Hjk & <-). exists k, jk.
      rewrite lookup_insert_ne by eauto. split_and!; [set_solver|done..].
  - intros i k ji jk Hi Hk Hik.
    destruct (inv_running0 _ Hi) as (? & Hji & _), (inv_running0 _ Hk) as (? & Hjk & _).
    rewrite !lookup_insert_ne by eauto. eauto.
Qed.

(** What an accepted submission does: it queues exactly one new job, with its
    ledger record. *)
Record accepted (spec : WorkloadSpec.t) (c : clock) (id : UUID) (s : t) (j : JobRequest.t) (s' : t)
  : Prop := {
  ac_wf : wf s';
  ac_safe : known_safe s' = known_safe s;
  ac_registry : registry_ s' = registry_ s;
  ac_limit : queue_limit s' = queue_limit s;
  ac_active : active s' = active s;
  ac_queue : (job <$> queue s') ≡ₚ id :: (job <$> queue s);
  ac_frozen : frozen s' =
    frozen s || bool_decide (mode s = RuntimeMode.BENCHMARK \/ mode s = RuntimeMode.JUDGE);
  ac_job : jobs s' !! id = Some j;
  ac_workload : JobRequest.workload j = spec;
  ac_status : JobRequest.status j = JobStatus.QUEUED;
  ac_deadline : JobRequest.deadline_monotonic_ns j =
    monotonic_ns c + WorkloadSpec.deadline_ms spec * 1000000;
  ac_record : exists rec, recs s' !! JobRequest.opportunity_id j = Some rec /\
    OpportunityRecord.disposition rec = OpportunityDisposition.QUEUED
}.

Lemma submit_accepts a c id cid s spec :
  wf s -> valid_registry s -> jobs s !! id = None -> 0 <= monotonic_ns c ->
  registry_ s !! sub_workload_id a = Some spec -> Z.of_nat (length (queue s)) < queue_limit s ->
  exists j s', submit uuid5 isoformat a c id cid s = (Ok j, s') /\ accepted spec c id s j s'.
Proof.
  intros [Hinv Hsort Hbound Hitems Hseq Hcnt] Hreg Hnew Hns Hspec Hroom.
  unfold submit, bind at 1, get at 1. cbv beta iota. rewrite Hspec.
  replace (queue_limit s <=? Z.of_nat (length (queue s))) with false by lia.
  rewrite bind_raise_if_false.
  pose proof (valid_spec_deadline _ (Hreg _ _ Hspec)) as Hdl.
  set (s1 := if decide (mode s = RuntimeMode.BENCHMARK \/ mode s = RuntimeMode.JUDGE)
             then set_frozen true s else s).
  assert (Hfr : (if decide (mode s = RuntimeMode.BENCHMARK \/ mode s = RuntimeMode.JUDGE)
                 then freeze else ret tt) s = (Ok tt, s1)) by (unfold s1; by case_decide).
  unfold bind at 1. rewrite Hfr. clear Hfr.
  unfold OpportunityLedger.offer, on_ledger, zoom, bind, lift, modify, ret. cbn [OpportunityLedger.records_].
  set (j := JobRequest.mk _ _ _ _ _ _ _ _ _ _ _ _ _ _).
  assert (Hval : JobRequest.validate j = Ok j).
  { unfold JobRequest.validate, check. cbn. destruct (_ && _) eqn:E; [done|]. lia. }
  rewrite Hval. unfold OpportunityLedger.mark_queued, OpportunityLedger.update, gets, push, modify, get, put, bind.
  cbn -[insert lookup heappush]. rewrite lookup_insert_eq. cbn -[insert heappush].
  match goal with |- exists _ _, (Ok _, ?st) = _ /\ _ => set (s' := st) end.
  exists j, s'. split; [done|].
  assert (Hs1 : queue s1 = queue s /\ jobs s1 = jobs s /\ recs s1 = recs s /\ active s1 = active s /\
    known_safe s1 = known_safe s /\ registry_ s1 = registry_ s /\ queue_limit s1 = queue_limit s /\
    counter s1 = counter s) by (unfold s1; by case_decide).
  destruct Hs1 as (Hq1 & Hj1 & Hr1 & Ha1 & Hk1 & Hg1 & Hl1 & Hc1).
  assert (Hq : queue s' ≡ₚ mkItem (CriticalityTier.value (WorkloadSpec.tier spec))
      (monotonic_ns c + WorkloadSpec.deadline_ms spec * 1000000) (counter s1) id :: queue s).
  { cbn -[heappush]. unfold heappush. by rewrite insert_sorted_perm, Hq1. }
  assert (Hjobs : jobs s' = <[JobRequest.job_id j := j]> (jobs s)) by (cbn -[insert]; by rewrite Hj1).
  split; try done.
  - split.
    + rewrite Hq. cbn [fmap list_fmap job].
      eapply (submit_pending _ j); [done|done|done|done|done|done|].
      cbn -[insert]. by rewrite insert_insert_eq, <- Hr1.
    + cbn -[heappush]. apply insert_sorted_sorted; eauto using item_leb_total, item_leb_trans.
      by rewrite Hq1.
    + rewrite Hq. cbn [length]. replace (queue_limit s') with (queue_limit s) by done. lia.
    + rewrite Hq. apply Forall_cons. split.
      * exists j. rewrite Hjobs. by rewrite lookup_insert_eq.
      * eapply Forall_impl; [exact Hitems|]. intros x (jx & Hjx & ?). exists jx.
        rewrite Hjobs, lookup_insert_ne; [done|]. cbn. congruence.
    + rewrite Hq. cbn [fmap list_fmap seqno]. apply NoDup_cons. split; [|done]. rewrite Hc1.
      intros (x & He & Hx)%list_elem_of_fmap. eapply Forall_forall in Hcnt; [|exact Hx]. cbn in Hcnt. lia.
    + rewrite Hq. replace (counter s') with (counter s1 + 1) by done. rewrite Hc1.
      apply Forall_cons. split; [cbn; lia|]. eapply Forall_impl; [exact Hcnt|]. cbn. lia.
  - exact (fmap_Permutation job _ _ Hq).
  - unfold s', s1. cbn. case_decide as Hm.
    + by rewrite (bool_decide_eq_true_2 _ Hm), orb_true_r.
    + by rewrite (bool_decide_eq_false_2 _ Hm), orb_false_r.
  - apply lookup_insert_eq.
  - eexists. split; [apply lookup_insert_eq|done].
Qed.

Lemma submit_unknown a c id cid s :
  registry_ s !! sub_workload_id a = None ->
  submit uuid5 isoformat a c id cid s = (Raise (KeyError (sub_workload_id a)), s).
Proof. intros H. unfold submit, bind, get. by rewrite H. Qed.

Lemma submit_full a c id cid s spec :
  registry_ s !! sub_workload_id a = Some spec -> queue_limit s <= Z.of_nat (length (queue s)) ->
  submit uuid5 isoformat a c id cid s = (Raise (AdmissionError "bounded queue is full"), s).
Proof.
  intros H Hfull. unfold submit, bind at 1, get at 1. rewrite H.
  by replace (queue_limit s <=? Z.of_nat (length (queue s))) with true by lia.
Qed.

(** A submission either raises and changes nothing, or is accepted. *)
Lemma submit_run a c id cid s :
  wf s -> valid_registry s -> jobs s !! id = None -> 0 <= monotonic_ns c ->
  (exists e, submit uuid5 isoformat a c id cid s = (Raise e, s)) \/
  (exists spec j s', submit uuid5 isoformat a c id cid s = (Ok j, s') /\ accepted spec c id s j s').
Proof.
  intros Hwf Hreg Hnew Hns. destruct (registry_ s !! sub_workload_id a) as [spec|] eqn:Hs.
  - destruct (decide (Z.of_nat (length (queue s)) < queue_limit s)).
    + right. exists spec. by apply submit_accepts.
    + left. eexists. eapply submit_full; [done|lia].
  - left. eexists. by apply submit_unknown.
Qed.
End Submit.

(** ** Completion *)
Lemma complete_pending ids id j f rec' s s' :
  pending_inv ids s -> jobs s !! id = Some j -> JobRequest.status j = JobStatus.RUNNING ->
  core (f j) = core j -> JobRequest.status (f j) = JobStatus.COMPLETED ->
  known_safe s' = known_safe s ->
  active s' = List.filter (fun k => negb (bool_decide (k = id))) (active s) ->
  jobs s' = <[id := f j]> (jobs s) ->
  recs s' = <[JobRequest.opportunity_id j := rec']> (recs s) ->
  OpportunityLedger.is_terminal rec' = true ->
  pending_inv ids s'.
Proof.
  intros [] Hj Hrun Hcore Hdone Hsafe Hact Hjobs Hrecs Hterm. unfold recs in *.
  injection Hcore as Hc1 Hc2 Hc3 _ _.
  assert (Hmem : forall k, k ∈ active s' <-> k ∈ active s /\ k <> id).
  { intros k. rewrite Hact, list_elem_of_In, List.filter_In, <- list_elem_of_In, negb_true_iff.
    by rewrite bool_decide_eq_false. }
  assert (Hnw : id ∉ ids).
  { intros Hin. destruct (inv_waiting0 _ Hin) as (? & ? & [|] & _); simplify_eq; congruence. }
  assert (Hr : forall o, is_Some (OpportunityLedger.records_ (opportunities s) !! o) ->
    is_Some (<[JobRequest.opportunity_id j := rec']> (OpportunityLedger.records_ (opportunities s)) !! o)).
  { intros o Ho. rewrite lookup_insert_is_Some.
    destruct (decide (JobRequest.opportunity_id j = o)); eauto. }
  split; rewrite ?Hsafe, ?Hjobs, ?Hrecs; try done.
  - intros k jk [[<- <-]|[? ?]]%lookup_insert_Some; [|eauto]. rewrite Hc1. eauto.
  - intros k Hk. destruct (inv_waiting0 _ Hk) as (jk & ? & ? & ?). exists jk.
    rewrite lookup_insert_ne by (intros ->; done). eauto.
  - intros k [Hk Hne]%Hmem. destruct (inv_running0 _ Hk) as (jk & ? & ? & ?). exists jk.
    rewrite lookup_insert_ne by done. eauto.
  - intros k jk [[<- <-]|[? ?]]%lookup_insert_Some Hs; [congruence|]. apply Hmem. eauto.
  - rewrite Hact. by apply NoDup_ListNoDup, List.NoDup_filter, NoDup_ListNoDup.
  - intros oid rec [[<- <-]|[Hne Hrec]]%lookup_insert_Some Ht; [congruence|].
    destruct (inv_open0 _ _ Hrec Ht) as (k & jk & Hk & Hjk & <-).
    assert (k <> id) by (intros ->; congruence). exists k, jk.
    rewrite lookup_insert_ne by done. rewrite Hmem. naive_solver.
  - intros i k ji jk [Hi ?]%Hmem [Hk ?]%Hmem Hne. rewrite !lookup_insert_ne by done. eauto.
Qed.

End WorkloadScheduler.
