(* ===== verification/SchedulerTheorems.v ===== *)
(** Executions of the scheduler and what holds in all of them.

    An execution is a sequence of calls on one [WorkloadScheduler]: each call
    runs to its end, with its result or its exception, and the next call
    starts from the state it left.  Workload specifications are validated
    objects, [uuid4()] never returns the identifier of an existing job and the
    monotonic clock is not negative; nothing else is assumed of the callers. *)

From Stdlib Require Import ZArith SpecFloat.
From S2P Require Import Prelude Binary64 Enums Models Opportunities Scheduler.
Import WorkloadScheduler.
Open Scope Z_scope.

Inductive op : Type :=
  | Register (spec : WorkloadSpec.t)
  | Freeze
  | ReallocateCadence (workload_id : string) (multiplier : f64) (reason_code : string)
  | Submit (a : submission) (c : clock) (job_id new_correlation_id : UUID)
  | Dispatch (r : ResourceSnapshot.t) (now_ns : Z)
  | Complete (job_id : UUID) (now_ns : Z)
  | FallbackSchedule.

Section Executions.
Context (uuid5 : string -> UUID) (isoformat : datetime -> string).

Definition exec (o : op) : M t unit :=
  match o with
  | Register spec => register spec
  | Freeze => freeze
  | ReallocateCadence w m r => let! _ := reallocate_cadence w m r in ret tt
  | Submit a c id cid => let! _ := submit uuid5 isoformat a c id cid in ret tt
  | Dispatch r now_ns => let! _ := dispatch r now_ns in ret tt
  | Complete id now_ns => complete id now_ns
  | FallbackSchedule => let! _ := fallback_schedule in ret tt
  end.

(** What the environment guarantees about a call. *)
Definition env_ok (o : op) (s : t) : Prop :=
  match o with
  | Register spec => WorkloadSpec.validate spec = Ok spec
  | Submit _ c id _ => jobs s !! id = None /\ 0 <= monotonic_ns c
  | _ => True
  end.

Inductive step (s s' : t) : Prop :=
  | step_op o r (Henv : env_ok o s) (Hrun : exec o s = (r, s')).

Definition reachable (s : t) : Prop :=
  exists queue_limit reserve mode approved safe,
    rtc step (init queue_limit reserve mode approved safe) s.

Record good (s : t) : Prop := {
  good_wf : wf s;
  good_registry : valid_registry s
}.

(** ** Every call keeps the scheduler well formed *)
Lemma same_books s s' :
  known_safe s' = known_safe s -> active s' = active s -> jobs s' = jobs s ->
  counter s' = counter s ->
  opportunities s' = opportunities s -> queue s' = queue s -> queue_limit s' = queue_limit s ->
  wf s -> wf s'.
Proof.
  intros H1 H2 H3 H0 H4 H5 H6 [[] ? ? Hitems].
  split; rewrite ?H0, ?H5, ?H6; try done.
  - split; rewrite ?H1, ?H2, ?H3, ?H4; try done.
  - eapply Forall_impl; [exact Hitems|]. intros x (j & ? & ?). exists j. by rewrite H3.
Qed.

Lemma init_good ql rs md ap sf : good (init ql rs md ap sf).
Proof.
  split; [|apply map_Forall_empty].
  split; cbn; [|constructor|lia|constructor..].
  split; cbn; try (intros ??; by rewrite lookup_empty); try set_solver; try constructor.
Qed.

Lemma register_good spec s r s' :
  WorkloadSpec.validate spec = Ok spec -> good s -> register spec s = (r, s') -> good s'.
Proof.
  intros Hv [Hwf Hreg] H. unfold register, bind, get, raise_if, put, raise, ret in H.
  repeat case_match; simplify_eq; try done.
  all: split; [by eapply same_books; [..|eassumption]|by apply map_Forall_insert_2].
Qed.

Lemma with_period_valid w p :
  WorkloadSpec.validate w = Ok w ->
  WorkloadSpec.validate (WorkloadSpec.with_period w (Z.max 1 p)) = Ok (WorkloadSpec.with_period w (Z.max 1 p)).
Proof.
  unfold WorkloadSpec.validate, check. cbn.
  intros H. destruct (0 <? WorkloadSpec.period_ms w); [|done]. cbn in H.
  replace (0 <? Z.max 1 p) with true by lia. cbn. by destruct (negb _).
Qed.

Lemma reallocate_good w m rc s r s' :
  good s -> reallocate_cadence w m rc s = (r, s') -> good s'.
Proof.
  intros [Hwf Hreg] H.
  unfold reallocate_cadence, declare_overload, bind, get, raise_if, lift, modify, raise, ret in H.
  repeat case_match; simplify_eq; try done.
  all: split; [by eapply same_books; [..|eassumption]|cbn; try done].
  apply map_Forall_insert_2; [|done]. apply with_period_valid. eapply Hreg. eassumption.
Qed.

Definition finish (now_ns : Z) (j : JobRequest.t) : JobRequest.t :=
  JobRequest.set_completed_monotonic_ns (Some now_ns) (JobRequest.set_status JobStatus.COMPLETED j).

(** Completing a running job closes its record and takes it off the active
    table; any other job is refused. *)
Definition completed (j : JobRequest.t) (id : UUID) (now_ns : Z) (rec : OpportunityRecord.t) (s : t) : t :=
  set_opportunities
    (OpportunityLedger.mk (<[JobRequest.opportunity_id j := OpportunityLedger.terminal_mark
       OpportunityDisposition.PROCESSED now_ns None rec]> (recs s)))
    (set_active (List.filter (fun k => negb (bool_decide (k = id))) (active s))
      (set_jobs (alter (finish now_ns) id (jobs s)) s)).

Lemma complete_run id now_ns j s :
  wf s -> jobs s !! id = Some j -> JobRequest.status j = JobStatus.RUNNING ->
  exists rec, recs s !! JobRequest.opportunity_id j = Some rec /\
    complete id now_ns s = (Ok tt, completed j id now_ns rec s).
Proof.
  intros [Hinv _ _ _] Hj Hrun.
  destruct (inv_running _ _ Hinv id) as (j' & Hj' & _ & Hrec); [by eapply inv_all_running|].
  simplify_eq. destruct Hrec as [rec Hrec]. exists rec. split; [done|].
  unfold complete, bind at 1, get at 1. rewrite Hj, (bool_decide_eq_true_2 _ Hrun).
  cbn [negb]. rewrite bind_raise_if_false.
  unfold update_job, bind, modify, on_ledger, zoom.
  rewrite OpportunityLedger.mark_terminal_update by (cbn; set_solver).
  unfold OpportunityLedger.update, bind, get, put, completed, recs in *. cbn. by rewrite Hrec.
Qed.

Lemma complete_other id now_ns j s :
  jobs s !! id = Some j -> JobRequest.status j <> JobStatus.RUNNING ->
  complete id now_ns s = (Raise (ValueError "only running jobs can complete"), s).
Proof.
  intros Hj Hrun. unfold complete, bind at 1, get at 1.
  by rewrite Hj, (bool_decide_eq_false_2 _ Hrun).
Qed.

Lemma completed_good j id now_ns rec s :
  good s -> jobs s !! id = Some j -> JobRequest.status j = JobStatus.RUNNING ->
  good (completed j id now_ns rec s).
Proof.
  intros [[Hinv Hsort Hbound Hitems Hseq Hcnt] Hreg] Hj Hrun. split; [|done]. split; try done.
  - eapply (complete_pending _ id j (finish now_ns) _ s); try done.
    by apply alter_insert_lookup.
  - eapply Forall_impl; [exact Hitems|]. intros y. apply item_of_job_core.
    intros k. cbn. rewrite lookup_alter. case_decide; [|done]. subst. by rewrite Hj.
Qed.

Lemma complete_good id now_ns s r s' : good s -> complete id now_ns s = (r, s') -> good s'.
Proof.
  intros Hg H. destruct (jobs s !! id) as [j|] eqn:Hj.
  - destruct (decide (JobRequest.status j = JobStatus.RUNNING)) as [Hrun|Hrun].
    + destruct (complete_run id now_ns j s) as (rec & _ & Hc); [apply Hg|done..|].
      rewrite Hc in H. injection H as _ <-. by apply completed_good.
    + rewrite (complete_other _ _ _ _ Hj Hrun) in H. by injection H as _ <-.
  - unfold complete, bind at 1, get at 1 in H. rewrite Hj in H. by injection H as _ <-.
Qed.

Lemma submit_good a c id cid s r s' :
  good s -> jobs s !! id = None -> 0 <= monotonic_ns c ->
  submit uuid5 isoformat a c id cid s = (r, s') -> good s'.
Proof.
  intros [Hwf Hreg] Hnew Hns H.
  destruct (submit_run uuid5 isoformat a c id cid s Hwf Hreg Hnew Hns)
    as [[e He]|(spec & j & s2 & He & Hacc)]; rewrite He in H; injection H as _ <-; [done|].
  split; [apply Hacc|]. unfold valid_registry. by rewrite (ac_registry _ _ _ _ _ _ Hacc).
Qed.

Lemma dispatch_good rs now_ns s r s' : good s -> dispatch rs now_ns s = (r, s') -> good s'.
Proof.
  intros [Hwf Hreg] H. destruct (dispatch_run rs now_ns s Hwf) as (sel & s2 & Hd & Hpost).
  rewrite Hd in H. injection H as _ <-. split; [apply Hpost|].
  unfold valid_registry. by rewrite (dp_registry _ _ _ _ _ Hpost).
Qed.

Lemma step_good s s' : good s -> step s s' -> good s'.
Proof.
  intros Hg [o r Henv Hrun]. destruct o; unfold env_ok in Henv; unfold exec in Hrun.
  - by eapply register_good.
  - injection Hrun as _ <-. destruct Hg as [Hwf Hreg]. split; [by eapply same_books; [..|exact Hwf]|done].
  - unfold bind in Hrun. destruct (reallocate_cadence _ _ _ s) as [[]] eqn:E;
      injection Hrun as _ <-; by eapply reallocate_good.
  - unfold bind in Hrun. destruct (submit _ _ _ _ _ _ s) as [[]] eqn:E;
      injection Hrun as _ <-; destruct Henv; by eapply submit_good.
  - unfold bind in Hrun. destruct (dispatch _ _ s) as [[]] eqn:E;
      injection Hrun as _ <-; by eapply dispatch_good.
  - by eapply complete_good.
  - injection Hrun as _ <-. destruct Hg as [Hwf Hreg]. split; [by eapply same_books; [..|exact Hwf]|done].
Qed.

Lemma reachable_good s : reachable s -> good s.
Proof.
  intros (ql & rs & md & ap & sf & Hsteps).
  remember (init ql rs md ap sf) as s0 eqn:E.
  assert (good s0) as Hg by (subst; apply init_good). clear E.
  induction Hsteps; eauto using step_good.
Qed.

(** A frozen registry stays as it is. *)
Lemma frozen_step s s' : good s -> frozen s = true -> step s s' ->
  frozen s' = true /\ registry_ s' = registry_ s.
Proof.
  intros [Hwf Hreg] Hf [o r Henv Hrun].
  destruct o as [spec| |w m rc|a c id cid|rs now_ns|id now_ns|]; unfold env_ok in Henv; unfold exec in Hrun.
  - unfold register, bind at 1, get at 1 in Hrun. rewrite Hf in Hrun. by injection Hrun as _ <-.
  - by injection Hrun as _ <-.
  - unfold reallocate_cadence, bind at 1, bind at 1, get at 1 in Hrun. rewrite Hf in Hrun.
    by injection Hrun as _ <-.
  - destruct Henv as [Hnew Hns].
    unfold bind in Hrun.
    destruct (submit_run uuid5 isoformat a c id cid s Hwf Hreg Hnew Hns)
      as [[e He]|(spec & j & s2 & He & Hacc)]; rewrite He in Hrun; injection Hrun as _ <-; [done|].
    destruct Hacc. by rewrite ac_frozen0, Hf.
  - destruct (dispatch_run rs now_ns s Hwf) as (sel & s2 & Hd & Hpost).
    unfold bind in Hrun. rewrite Hd in Hrun. injection Hrun as _ <-.
    split; [|apply Hpost]. by rewrite (dp_frozen _ _ _ _ _ Hpost).
  - destruct (jobs s !! id) as [j|] eqn:Hj.
    + destruct (decide (JobRequest.status j = JobStatus.RUNNING)) as [Hr|Hr].
      * destruct (complete_run id now_ns j s Hwf Hj Hr) as (rec & _ & Hc).
        rewrite Hc in Hrun. by injection Hrun as _ <-.
      * rewrite (complete_other _ _ _ _ Hj Hr) in Hrun. by injection Hrun as _ <-.
    + unfold complete, bind at 1, get at 1 in Hrun. rewrite Hj in Hrun. by injection Hrun as _ <-.
  - by injection Hrun as _ <-.
Qed.

#[global] Instance env_ok_dec o s : Decision (env_ok o s).
Proof. destruct o; unfold env_ok; apply _. Defined.

(** A sequence of calls, each within what the environment guarantees. *)
Fixpoint run_ops (ops : list op) (s : t) : option t :=
  match ops with
  | [] => Some s
  | o :: ops => if decide (env_ok o s) then run_ops ops (exec o s).2 else None
  end.

Lemma run_ops_steps ops s s' : run_ops ops s = Some s' -> rtc step s s'.
Proof.
  revert s. induction ops as [|o ops IH]; intros s H; cbn in H; [simplify_eq; constructor|].
  case_decide as Henv; [|done]. eapply rtc_l; [|by apply IH].
  exists o (exec o s).1; [done|]. by destruct (exec o s).
Qed.

(** A well-formed scheduler with nothing queued and nothing running has a
    reconciled ledger. *)
Lemma good_balanced s :
  good s -> queue s = [] -> active s = [] ->
  OpportunityLedger.balanced (OpportunityLedger.reconcile (opportunities s)) = true.
Proof.
  intros [[Hinv] _] Hq Ha.
  apply OpportunityLedger.reconcile_balanced_iff. intros oid rec Hrec.
  destruct (OpportunityLedger.is_terminal rec) eqn:Ht; [done|].
  destruct (inv_open _ _ Hinv _ _ Hrec Ht) as (id & j & Hin & _).
  rewrite Hq, Ha in Hin. destruct Hin; by apply not_elem_of_nil in H.
Qed.

(** ** Properties *)

(** C12: when nothing is queued and nothing runs, every opportunity offered to
    the scheduler since it was built has reached a terminal disposition: the
    ledger reconciles. *)
Theorem drained_ledger_balanced s :
  reachable s -> queue s = [] -> active s = [] ->
  OpportunityLedger.balanced (OpportunityLedger.reconcile (opportunities s)) = true.
Proof. intros Hg%reachable_good. by apply good_balanced. Qed.

(** C24: two jobs never run together when one of them is tier A and the pair of
    workloads has not been declared safe. *)
Theorem active_jobs_never_interfere s i k ji jk :
  reachable s -> i ∈ active s -> k ∈ active s -> i <> k ->
  jobs s !! i = Some ji -> jobs s !! k = Some jk ->
  interferes (known_safe s) (JobRequest.workload ji) (JobRequest.workload jk) = false.
Proof. intros [[Hinv] _]%reachable_good. apply (inv_exclusive _ _ Hinv). Qed.

(** C36: [dispatch] never raises and follows the admission policy.  The job it
    starts may run by the policy; every queued item before it in (tier,
    deadline, submission) order was examined in this call and may not run: it
    is deferred and stays queued when the policy makes it wait, and terminally
    rejected when the policy refuses it.  When it returns None that holds of
    every item.  No job is lost: the queue afterwards is the queue before, less
    the started and the rejected jobs. *)
Theorem dispatch_earliest_admissible s r now_ns :
  reachable s ->
  exists sel s', dispatch r now_ns s = (Ok (job <$> sel), s') /\
    active s' = active s ++ (job <$> option_list sel) /\
    (forall x, sel = Some x ->
       x ∈ queue s /\ status_of s' x = Some JobStatus.RUNNING /\ judged may_run s r now_ns x) /\
    (forall y, y ∈ queue s -> (forall x, sel = Some x -> y <> x /\ item_leb y x = true) ->
       status_of s' y = Some JobStatus.DEFERRED /\ y ∈ queue s' /\ judged must_wait s r now_ns y \/
       status_of s' y = Some JobStatus.REJECTED /\ judged refused s r now_ns y) /\
    exists dropped, queue s ≡ₚ option_list sel ++ dropped ++ queue s' /\
      Forall (fun x => status_of s' x = Some JobStatus.REJECTED /\ judged refused s r now_ns x) dropped.
Proof.
  intros [Hwf _]%reachable_good. destruct (dispatch_run r now_ns s Hwf) as (sel & s' & Hd & Hpost).
  destruct (dp_split _ _ _ _ _ Hpost) as (pre & rest & kept & dropped & Hq & Hp & Hq' & Hnone & Hk & Hdr).
  exists sel, s'. split_and!; [done|apply Hpost| | |].
  - intros x ->. split; [rewrite Hq; set_solver|by apply (dp_running _ _ _ _ _ Hpost)].
  - intros y Hy Hbefore. assert (Hin : y ∈ pre).
    { rewrite Hq in Hy. destruct sel as [x|]; [|rewrite (Hnone eq_refl) in Hy; set_solver].
      destruct (Hbefore x eq_refl) as [Hne Hle].
      apply elem_of_app in Hy as [?|Hy]; [done|]. cbn in Hy.
      apply elem_of_cons in Hy as [?|Hrest]; [done|]. exfalso. apply Hne.
      pose proof (wf_sorted _ Hwf) as Hs. rewrite Hq in Hs.
      apply StronglySorted_app_1_r in Hs. inversion Hs as [|? ? _ Hall]; subst.
      apply (NoDup_fmap_elem seqno (queue s)); [apply Hwf|rewrite Hq; set_solver..|].
      apply item_leb_antisym; [done|]. exact (Forall_in _ _ _ Hall Hrest). }
    rewrite Hp in Hin. apply elem_of_app in Hin as [Hin|Hin].
    + left. destruct (Forall_in _ _ _ Hk Hin). split; [done|]. split; [|done]. rewrite Hq'. set_solver.
    + right. exact (Forall_in _ _ _ Hdr Hin).
  - exists dropped. split; [|done]. rewrite Hq, Hp, Hq'. solve_Permutation.
Qed.

(** C40: [submit] refuses an unknown workload and a full queue and changes
    nothing then; otherwise it returns a job of the registered workload whose
    deadline is its release plus the workload's deadline, the queue grows by
    that job and stays within its bound, and the ledger holds the offer as
    queued. *)
Theorem submit_outcomes s a c id cid :
  reachable s -> jobs s !! id = None -> 0 <= monotonic_ns c ->
  match registry_ s !! sub_workload_id a with
  | None => submit uuid5 isoformat a c id cid s = (Raise (KeyError (sub_workload_id a)), s)
  | Some spec =>
      if queue_limit s <=? queued s then
        submit uuid5 isoformat a c id cid s = (Raise (AdmissionError "bounded queue is full"), s)
      else exists j s', submit uuid5 isoformat a c id cid s = (Ok j, s') /\
        JobRequest.workload j = spec /\
        JobRequest.deadline_monotonic_ns j = monotonic_ns c + WorkloadSpec.deadline_ms spec * 1000000 /\
        (job <$> queue s') ≡ₚ id :: (job <$> queue s) /\ queued s' <= queue_limit s' /\
        jobs s' !! id = Some j /\
        exists rec, recs s' !! JobRequest.opportunity_id j = Some rec /\
          OpportunityRecord.disposition rec = OpportunityDisposition.QUEUED
  end.
Proof.
  intros [Hwf Hreg]%reachable_good Hnew Hns.
  destruct (registry_ s !! sub_workload_id a) as [spec|] eqn:Hs; [|by apply submit_unknown].
  destruct (queue_limit s <=? queued s) eqn:Hfull; unfold queued in Hfull.
  { eapply submit_full; [done|lia]. }
  destruct (submit_accepts uuid5 isoformat a c id cid s spec Hwf Hreg Hnew Hns Hs) as (j & s' & Hrun & []);
    [lia|].
  exists j, s'. split_and!; try done.
  apply Permutation_length in ac_queue0. cbn in ac_queue0. rewrite !length_fmap in ac_queue0.
  unfold queued. lia.
Qed.

Lemma frozen_steps s s' : good s -> frozen s = true -> rtc step s s' -> registry_ s' = registry_ s.
Proof.
  intros Hg Hf H. induction H as [|s1 s2 s3 Hstep Hsteps IH]; [done|].
  destruct (frozen_step _ _ Hg Hf Hstep) as [Hf2 <-]. apply IH; [by eapply step_good|done].
Qed.

(** In benchmark and judge mode the first accepted submission freezes the
    registry: whatever is called afterwards, the registered workloads and
    their cadences stay as they were. *)
Theorem judged_registry_immutable s a c id cid j s1 s2 :
  reachable s -> mode s = RuntimeMode.BENCHMARK \/ mode s = RuntimeMode.JUDGE ->
  jobs s !! id = None -> 0 <= monotonic_ns c ->
  submit uuid5 isoformat a c id cid s = (Ok j, s1) -> rtc step s1 s2 ->
  registry_ s2 = registry_ s.
Proof.
  intros Hg%reachable_good Hmode Hnew Hns Hrun Hsteps. destruct Hg as [Hwf Hreg].
  destruct (submit_run uuid5 isoformat a c id cid s Hwf Hreg Hnew Hns)
    as [[e He]|(spec & j' & s' & He & Hacc)]; rewrite He in Hrun; simplify_eq.
  rewrite <- (ac_registry _ _ _ _ _ _ Hacc). apply frozen_steps; [|by destruct Hacc as [];
    rewrite ac_frozen0, (bool_decide_eq_true_2 _ Hmode), orb_true_r|done].
  by eapply submit_good; [split|..].
Qed.
End Executions.

(** What [_admissible] promises.  It never raises.  It admits only jobs
    whose memory is available and that interfere with no active job; such a
    job is always admitted when it is tier A, when its forced scan is due, and
    when it is tier C or more urgent and its deferral budget is used up.  It
    rejects terminally only jobs whose deferral budget is used up, never a
    job of tier A..C for which there is memory; and a job past its budget is
    put back only behind an interfering active job. *)
Theorem admission_guarantees j r now_ns s :
  let w := JobRequest.workload j in
  let serialized := existsb (fun a => interferes (known_safe s) a w) (active_specs s) in
  let fits := WorkloadSpec.memory_mb w <=? ResourceSnapshot.available_memory_mb r in
  exists ok reason s', admissible j r now_ns s = (Ok (ok, reason), s') /\
    (ok = true -> serialized = false /\ fits = true /\ reason = None) /\
    (serialized = false -> fits = true ->
       WorkloadSpec.tier w = CriticalityTier.A_IMMEDIATE \/ forced_scan_due j now_ns = true \/
       deferral_expired j now_ns = true /\
         tier_le (WorkloadSpec.tier w) CriticalityTier.C_TIMELY = true -> ok = true) /\
    (reason <> None -> ok = false /\ deferral_expired j now_ns = true /\
       (fits = false \/ tier_le (WorkloadSpec.tier w) CriticalityTier.C_TIMELY = false)) /\
    (deferral_expired j now_ns = true -> ok = false -> reason = None -> serialized = true).
Proof.
  cbv zeta. unfold admissible, bind at 1, get at 1.
  destruct (existsb _ _); [eexists _, _, _; by split_and!; [reflexivity|..]|].
  replace (WorkloadSpec.memory_mb _ <=? _)
    with (negb (ResourceSnapshot.available_memory_mb r <? WorkloadSpec.memory_mb (JobRequest.workload j))) by lia.
  destruct (ResourceSnapshot.available_memory_mb r <? _); cbn [negb].
  { eexists _, _, _. split; [reflexivity|]. destruct (deferral_expired j now_ns); intuition congruence. }
  destruct (forced_scan_due j now_ns); [eexists _, _, _; by split_and!; [reflexivity|..]|].
  case_decide as HA.
  { destruct (JobRequest.deadline_monotonic_ns j <? now_ns); eexists _, _, _; by split_and!; [reflexivity|..]. }
  destruct (ResourceSnapshot.available_memory_mb r - WorkloadSpec.memory_mb (JobRequest.workload j)
            <? tier_a_reserve_memory_mb s), (ResourceSnapshot.overloaded r),
    (deferral_expired j now_ns), (JobRequest.deadline_monotonic_ns j <? now_ns), (WorkloadSpec.tier (JobRequest.workload j));
    try done; unfold tier_le; cbn; eexists _, _, _; (split; [reflexivity|]);
    intuition congruence.
Qed.

(** ** Concrete executions *)
Definition demo_uuid5 (s : string) : UUID := s.
Definition demo_isoformat (d : datetime) : string := pretty d.

Definition demo_spec (name : string) (tier : CriticalityTier.t) : WorkloadSpec.t :=
  {| WorkloadSpec.workload_id := name; WorkloadSpec.hazard := HazardKind.EARTHQUAKE;
     WorkloadSpec.tier := tier; WorkloadSpec.period_ms := 1000; WorkloadSpec.deadline_ms := 500;
     WorkloadSpec.max_deferral_ms := 2000; WorkloadSpec.estimated_cost_ms := 10;
     WorkloadSpec.memory_mb := 32; WorkloadSpec.profile_id := "p"; WorkloadSpec.forced_scan_ms := None |}.

Definition demo_resources (memory : Z) : ResourceSnapshot.t :=
  {| ResourceSnapshot.cpu_pressure := f0; ResourceSnapshot.memory_pressure := f0;
     ResourceSnapshot.io_pressure := f0; ResourceSnapshot.temperature_c := f0;
     ResourceSnapshot.available_memory_mb := memory; ResourceSnapshot.power_degraded := false |}.

Definition demo_submission (name : string) : submission :=
  mkSubmission name JNull None None None None.

Definition demo_init (mode : RuntimeMode.t) : t := init 4 64 mode None [("quake", "smoke")].

Definition demo_setup : list op :=
  [Register (demo_spec "quake" CriticalityTier.A_IMMEDIATE);
   Register (demo_spec "smoke" CriticalityTier.B_URGENT);
   Submit (demo_submission "smoke") (mkClock 0 0) "job-1" "corr-1";
   Submit (demo_submission "quake") (mkClock 1 1000) "job-2" "corr-2"].

Definition demo_dispatch (memory : Z) : op := Dispatch (demo_resources memory) 2000.

Definition demo_after (ops : list op) : t :=
  default (demo_init RuntimeMode.DEVELOPMENT)
    (run_ops demo_uuid5 demo_isoformat ops (demo_init RuntimeMode.DEVELOPMENT)).

Definition demo_running : t := demo_after (demo_setup ++ [demo_dispatch 256; demo_dispatch 256]).
Definition demo_drained : t :=
  demo_after (demo_setup ++ [demo_dispatch 256; demo_dispatch 256; Complete "job-1" 3000; Complete "job-2" 3000]).

(** Every call of the run is one the environment allows. *)
Definition allowed (ops : list op) : bool :=
  if run_ops demo_uuid5 demo_isoformat ops (demo_init RuntimeMode.DEVELOPMENT) then true else false.

Lemma demo_reachable ops : allowed ops = true -> reachable demo_uuid5 demo_isoformat (demo_after ops).
Proof.
  unfold allowed, demo_after. destruct (run_ops _ _ ops _) as [s|] eqn:H; [|done].
  intros _. do 5 eexists. eapply run_ops_steps. exact H.
Qed.

Lemma drained_ledger_balanced_witness :
  OpportunityLedger.reconcile (opportunities demo_drained)
    = {| OpportunityLedger.offered := 2; OpportunityLedger.terminal_count := 2;
         OpportunityLedger.balanced := true |} /\
  OpportunityLedger.balanced (OpportunityLedger.reconcile (opportunities demo_drained)) = true.
Proof.
  split; [vm_compute; reflexivity|].
  apply (drained_ledger_balanced demo_uuid5 demo_isoformat); [|vm_compute; reflexivity..].
  apply demo_reachable. vm_compute. reflexivity.
Defined.

Lemma active_jobs_never_interfere_witness :
  active demo_running = ["job-2"; "job-1"] /\
  exists ji jk, interferes (known_safe demo_running) (JobRequest.workload ji) (JobRequest.workload jk) = false.
Proof.
  split; [vm_compute; reflexivity|]. eexists _, _.
  apply (active_jobs_never_interfere demo_uuid5 demo_isoformat demo_running "job-2" "job-1").
  - apply demo_reachable. vm_compute. reflexivity.
  - change (active demo_running) with ["job-2"; "job-1"]. apply list_elem_of_here.
  - change (active demo_running) with ["job-2"; "job-1"]. apply list_elem_of_further, list_elem_of_here.
  - discriminate.
  - vm_compute. reflexivity.
  - vm_compute. reflexivity.
Defined.

(** A tier A job for which there is no memory waits, the job behind it runs. *)
Definition heavy_spec : WorkloadSpec.t :=
  {| WorkloadSpec.workload_id := "heavy"; WorkloadSpec.hazard := HazardKind.EARTHQUAKE;
     WorkloadSpec.tier := CriticalityTier.A_IMMEDIATE; WorkloadSpec.period_ms := 1000;
     WorkloadSpec.deadline_ms := 500; WorkloadSpec.max_deferral_ms := 2000;
     WorkloadSpec.estimated_cost_ms := 10; WorkloadSpec.memory_mb := 512; WorkloadSpec.profile_id := "p";
     WorkloadSpec.forced_scan_ms := None |}.
Definition demo_heavy : t :=
  demo_after [Register heavy_spec; Register (demo_spec "smoke" CriticalityTier.B_URGENT);
    Submit (demo_submission "heavy") (mkClock 0 0) "job-1" "corr-1";
    Submit (demo_submission "smoke") (mkClock 1 1000) "job-2" "corr-2"].

Lemma dispatch_earliest_admissible_witness :
  exists x y s', dispatch (demo_resources 256) 2000 demo_heavy = (Ok (Some "job-2"), s') /\
    queue demo_heavy = [y; x] /\ job x = "job-2" /\ judged may_run demo_heavy (demo_resources 256) 2000 x /\
    status_of s' y = Some JobStatus.DEFERRED /\ judged must_wait demo_heavy (demo_resources 256) 2000 y.
Proof.
  assert (Hrun : (dispatch (demo_resources 256) 2000 demo_heavy).1 = Ok (Some "job-2")) by (vm_compute; reflexivity).
  assert (Hq : exists y x, queue demo_heavy = [y; x] /\ job x = "job-2" /\ job y = "job-1" /\ item_leb y x = true)
    by (eexists _, _; vm_compute; repeat split).
  destruct Hq as (y & x & Hq & Hx & Hy & Hle).
  assert (Hst : status_of (dispatch (demo_resources 256) 2000 demo_heavy).2 y = Some JobStatus.DEFERRED).
  { unfold status_of. rewrite Hy. vm_compute. reflexivity. }
  destruct (dispatch_earliest_admissible demo_uuid5 demo_isoformat demo_heavy (demo_resources 256) 2000)
    as (sel & s' & H & _ & Hsel & Hbefore & _).
  { apply demo_reachable. vm_compute. reflexivity. }
  rewrite H in Hrun, Hst. cbn in Hrun, Hst. destruct sel as [z|]; [|done]. injection Hrun as Hz.
  destruct (Hsel z eq_refl) as (Hin & _ & Hmay). rewrite Hq in Hin.
  assert (z = x) as ->.
  { apply elem_of_cons in Hin as [->|Hin]; [congruence|]. by apply list_elem_of_singleton in Hin. }
  exists x, y, s'. cbn in H. rewrite Hz in H. split_and!; try done.
  destruct (Hbefore y) as [(_ & _ & Hw)|(Hr & _)]; [rewrite Hq; left| |done|congruence].
  intros ? [= <-]. split; [|done]. intros ->. congruence.
Defined.

Lemma submit_outcomes_witness :
  exists j s', submit demo_uuid5 demo_isoformat (demo_submission "smoke") (mkClock 9 9000) "job-3" "corr-3"
    (demo_after demo_setup) = (Ok j, s') /\ JobRequest.deadline_monotonic_ns j = 500009000.
Proof.
  assert (Hs : registry_ (demo_after demo_setup) !! sub_workload_id (demo_submission "smoke")
    = Some (demo_spec "smoke" CriticalityTier.B_URGENT)) by (vm_compute; reflexivity).
  assert (Hroom : (queue_limit (demo_after demo_setup) <=? queued (demo_after demo_setup)) = false)
    by (vm_compute; reflexivity).
  pose proof (submit_outcomes demo_uuid5 demo_isoformat (demo_after demo_setup) (demo_submission "smoke")
    (mkClock 9 9000) "job-3" "corr-3") as H. rewrite Hs, Hroom in H.
  destruct H as (j & s' & H & _ & Hd & _).
  - apply demo_reachable. vm_compute. reflexivity.
  - vm_compute. reflexivity.
  - vm_compute. discriminate.
  - exists j, s'. split; [exact H|exact Hd].
Defined.

Definition demo_judge : t :=
  default (demo_init RuntimeMode.JUDGE)
    (run_ops demo_uuid5 demo_isoformat (take 2 demo_setup) (demo_init RuntimeMode.JUDGE)).
Definition demo_judge_submit : res JobRequest.t * t :=
  submit demo_uuid5 demo_isoformat (demo_submission "smoke") (mkClock 0 0) "job-1" "corr-1" demo_judge.
Definition demo_late : op := Register (demo_spec "late" CriticalityTier.C_TIMELY).

Lemma judged_registry_immutable_witness :
  registry_ (exec demo_uuid5 demo_isoformat demo_late demo_judge_submit.2).2 = registry_ demo_judge.
Proof.
  destruct demo_judge_submit as [[j|e] s1] eqn:E; [|vm_compute in E; discriminate].
  cbn [snd]. apply (judged_registry_immutable demo_uuid5 demo_isoformat demo_judge (demo_submission "smoke")
    (mkClock 0 0) "job-1" "corr-1" j s1).
  - exists 4, 64, RuntimeMode.JUDGE, None, [("quake", "smoke")].
    apply (run_ops_steps _ _ (take 2 demo_setup)). vm_compute. reflexivity.
  - right. vm_compute. reflexivity.
  - vm_compute. reflexivity.
  - vm_compute. discriminate.
  - exact E.
  - apply rtc_once. exists demo_late (exec demo_uuid5 demo_isoformat demo_late s1).1; [vm_compute; reflexivity|].
    destruct (exec demo_uuid5 demo_isoformat demo_late s1). reflexivity.
Defined.
