(* ===== verification/SchedulerReplay.v ===== *)
(** Two runs of the scheduler that draw different job identifiers.

    [twins L s s'] relates the states of the two runs: [L] pairs the
    identifiers of their jobs, the jobs of a pair agree in every other
    attribute, and the rest of the scheduler is equal, up to the set of
    deferred jobs, which no method reads to decide.  [Both] lifts the relation
    to methods, with one lemma per construct of the monad. *)

From Stdlib Require Import ZArith.
From S2P Require Import Prelude Binary64 Enums Models Opportunities Scheduler.
Import WorkloadScheduler.
Open Scope Z_scope.

(** The same job under another identifier. *)
Definition with_id (b : UUID) (j : JobRequest.t) : JobRequest.t :=
  JobRequest.mk b (JobRequest.opportunity_id j) (JobRequest.correlation_id j) (JobRequest.workload j)
    (JobRequest.released_at j) (JobRequest.absolute_deadline j) (JobRequest.released_monotonic_ns j)
    (JobRequest.deadline_monotonic_ns j) (JobRequest.payload j) (JobRequest.status j) (JobRequest.deferral_count j)
    (JobRequest.reason_codes j) (JobRequest.service_started_monotonic_ns j) (JobRequest.completed_monotonic_ns j).

(** The parts of the state that hold identifiers. *)
Definition with_parts (q : list item) (js : gmap UUID JobRequest.t) (ids : list UUID) (deferred : gset UUID) (s : t) : t :=
  set_queue q (set_jobs js (set_active ids (set_deferred_ids deferred s))).

Notation pairing := (list (UUID * UUID)) (only parsing).
Definition paired (L : pairing) (a b : UUID) : Prop := (a, b) ∈ L.
Definition same_item (L : pairing) (x y : item) : Prop :=
  y = mkItem (tier x) (deadline_ns x) (seqno x) (job y) /\ paired L (job x) (job y).
Definition one_one (L : pairing) : Prop := NoDup L.*1 /\ NoDup L.*2.

Inductive twins (L : pairing) (s : t) : t -> Prop :=
  | twins_intro q js ids deferred
      (Hqueue : Forall2 (same_item L) (queue s) q) (Hactive : Forall2 (paired L) (active s) ids)
      (Hjobs : forall a b, paired L a b ->
         exists j, jobs s !! a = Some j /\ JobRequest.job_id j = a /\ js !! b = Some (with_id b j)) :
      twins L s (with_parts q js ids deferred s).

Lemma paired_iff L a b c d : one_one L -> paired L a b -> paired L c d -> a = c <-> b = d.
Proof.
  intros [H1 H2] Ha Hc. split; intros He.
  - by injection (NoDup_fmap_elem fst _ _ _ H1 Ha Hc He).
  - by injection (NoDup_fmap_elem snd _ _ _ H2 Ha Hc He).
Qed.

(** ** The relation on methods *)
Definition Both {A B} (L L' : pairing) (R : A -> B -> Prop) (m : M t A) (m' : M t B) : Prop :=
  forall s s', twins L s s' ->
  match m s, m' s' with
  | (Ok a, s1), (Ok b, s1') => R a b /\ twins L' s1 s1'
  | (Raise _, _), (Raise _, _) => True
  | _, _ => False
  end.

Section Both.
Context (L : pairing).
Notation both := (Both L L).

Lemma both_ret {A B} (R : A -> B -> Prop) a b : R a b -> both R (ret a) (ret b).
Proof. by intros HR s s' H. Qed.

Lemma both_raise {A B} L' (R : A -> B -> Prop) e e' : Both L L' R (raise e) (raise e').
Proof. by intros s s' H. Qed.

Lemma both_raise_if c c' e : c = c' -> both eq (raise_if c e) (raise_if c' e).
Proof. intros <- s s' H. by destruct c. Qed.

Lemma both_lift {A B} (R : A -> B -> Prop) r r' :
  match r, r' with Ok a, Ok b => R a b | Raise _, Raise _ => True | _, _ => False end ->
  both R (lift r) (lift r').
Proof. intros HR s s' H. cbn. by destruct r, r'. Qed.

Lemma both_bind {A B A' B'} L1 L2 (R : A -> B -> Prop) (R' : A' -> B' -> Prop) m m' k k' :
  Both L L1 R m m' -> (forall a b, R a b -> Both L1 L2 R' (k a) (k' b)) -> Both L L2 R' (bind m k) (bind m' k').
Proof.
  intros Hm Hk s s' H. specialize (Hm s s' H). unfold bind.
  destruct (m s) as [[a|e] s1], (m' s') as [[b|e'] s1']; try done.
  destruct Hm as [HR H1]. by apply Hk.
Qed.

Lemma both_get {A B} L' (R : A -> B -> Prop) k k' :
  (forall s s', twins L s s' -> Both L L' R (k s) (k' s')) -> Both L L' R (bind get k) (bind get k').
Proof. intros Hk s s' H. exact (Hk s s' H s s' H). Qed.

Lemma both_modify f f' : (forall s s', twins L s s' -> twins L (f s) (f' s')) -> both eq (modify f) (modify f').
Proof. intros Hf s s' H. split; [done|by apply Hf]. Qed.

(** A change of what the two states share. *)
Lemma both_shared f f' :
  (forall s, queue (f s) = queue s /\ jobs (f s) = jobs s /\ active (f s) = active s) ->
  (forall q js ids d s, f' (with_parts q js ids d s) = with_parts q js ids d (f s)) ->
  both eq (modify f) (modify f').
Proof.
  intros Hkeep Hf. apply both_modify. intros s _ [q js ids d Hq Ha Hj]. rewrite Hf.
  destruct (Hkeep s) as (E1 & E2 & E3). split; by rewrite ?E1, ?E2, ?E3.
Qed.

Lemma both_ledger {A} (m : M OpportunityLedger.t A) : both eq (on_ledger m) (on_ledger m).
Proof.
  intros s _ [q js ids d Hq Ha Hj]. unfold on_ledger, zoom. change (opportunities (with_parts q js ids d s)) with (opportunities s).
  destruct (m (opportunities s)) as [[a|e] l]; [|done]. split; [done|].
  exact (twins_intro L (set_opportunities l s) q js ids d Hq Ha Hj).
Qed.

(** An assignment to the attributes of a job, on both of its names. *)
Lemma both_job a b f :
  one_one L -> paired L a b ->
  (forall c j, f (with_id c j) = with_id c (f j)) -> (forall j, JobRequest.job_id (f j) = JobRequest.job_id j) ->
  both eq (update_job a f) (update_job b f).
Proof.
  intros HL Hab Hf Hid. apply both_modify. intros s _ [q js ids d Hq Ha Hj].
  cut (twins L (set_jobs (alter f a (jobs s)) s) (with_parts q (alter f b js) ids d (set_jobs (alter f a (jobs s)) s)));
    [done|]. split; [done|done|]. intros a' b' Hab'. change (jobs (set_jobs ?m s)) with m.
  destruct (Hj a' b' Hab') as (j & E & Ei & E'). pose proof (paired_iff _ _ _ _ _ HL Hab Hab') as Heq.
  destruct (decide (a = a')) as [<-|Hx].
  - assert (b = b') as <- by tauto. rewrite !lookup_alter_eq, E, E'. exists (f j). cbn. by rewrite Hf, Hid.
  - rewrite !lookup_alter_ne by tauto. by exists j.
Qed.

Lemma both_active (g : list UUID -> list UUID) (h : list UUID -> list UUID) :
  (forall ids ids', Forall2 (paired L) ids ids' -> Forall2 (paired L) (g ids) (h ids')) ->
  both eq (modify (fun s => set_active (g (active s)) s)) (modify (fun s => set_active (h (active s)) s)).
Proof.
  intros Hg. apply both_modify. intros s _ [q js ids d Hq Ha Hj].
  exact (twins_intro L (set_active (g (active s)) s) q js (h ids) d Hq (Hg _ _ Ha) Hj).
Qed.

Lemma both_queue (g : list item -> list item) (h : list item -> list item) :
  (forall q q', Forall2 (same_item L) q q' -> Forall2 (same_item L) (g q) (h q')) ->
  both eq (modify (fun s => set_queue (g (queue s)) s)) (modify (fun s => set_queue (h (queue s)) s)).
Proof.
  intros Hg. apply both_modify. intros s _ [q js ids d Hq Ha Hj].
  exact (twins_intro L (set_queue (g (queue s)) s) (h q) js ids d (Hg _ _ Hq) Ha Hj).
Qed.
Lemma both_deferred f f' :
  both eq (modify (fun s => set_deferred_ids (f s) s)) (modify (fun s => set_deferred_ids (f' s) s)).
Proof.
  apply both_modify. intros s _ [q js ids d Hq Ha Hj].
  exact (twins_intro L (set_deferred_ids (f s) s) q js ids (f' (with_parts q js ids d s)) Hq Ha Hj).
Qed.
End Both.

(** One step of the comparison of two methods. *)
Ltac both :=
  repeat match goal with
  | |- Both _ _ _ (bind get _) (bind get _) => apply both_get; intros ? ? []
  | |- Both ?L ?L _ (bind _ _) (bind _ _) => eapply (both_bind L L L eq); [|intros ? ? <-]
  | |- Both _ _ _ (ret _) (ret _) => apply both_ret; try done
  | |- Both _ _ _ (raise _) (raise _) => apply both_raise
  | |- Both _ _ _ (raise_if _ _) (raise_if _ _) => apply both_raise_if; try done
  | |- Both _ _ _ (on_ledger _) (on_ledger _) => apply both_ledger
  | |- Both _ _ _ (modify (fun s => set_deferred_ids _ s)) (modify _) => apply both_deferred
  | |- Both _ _ _ (declare_overload _) (declare_overload _) => unfold declare_overload
  | |- Both _ _ _ (modify _) (modify _) => apply both_shared; [by intros; split_and!|done]
  | |- Both _ _ _ (update_job _ _) (update_job _ _) => apply both_job; try done
  | |- Both _ _ _ (if ?b then _ else _) (if ?c then _ else _) => change c with b; destruct b
  | |- Both _ _ _ (match ?x with _ => _ end) (match ?y with _ => _ end) => change y with x; destruct x
  | |- Both _ _ _ (let _ := _ in _) _ => cbv zeta
  end.

(** ** The methods *)
Lemma item_leb_same L x x' y y' : same_item L x x' -> same_item L y y' -> item_leb x' y' = item_leb x y.
Proof. by intros [-> _] [-> _]. Qed.

Lemma heappush_same L q q' x x' :
  Forall2 (same_item L) q q' -> same_item L x x' -> Forall2 (same_item L) (heappush q x) (heappush q' x').
Proof.
  intros Hq Hx. unfold heappush. induction Hq as [|y y' q q' Hy Hq IH]; cbn; [by constructor|].
  rewrite (item_leb_same _ _ _ _ _ Hx Hy). destruct (item_leb x y); repeat (constructor; try done).
Qed.

Lemma heappush_all_same L l l' q q' :
  Forall2 (same_item L) l l' -> Forall2 (same_item L) q q' ->
  Forall2 (same_item L) (fold_left heappush l q) (fold_left heappush l' q').
Proof. intros Hl. revert q q'. induction Hl; intros; cbn; [done|]. auto using heappush_same. Qed.

Section Methods.
Context (L : pairing) (HL : one_one L).
Notation both := (Both L L).

Lemma active_specs_same s s' : twins L s s' -> active_specs s' = active_specs s.
Proof.
  intros [q js ids d _ Ha Hj]. unfold active_specs. cbn. induction Ha as [|a b l l' Hab _ IH]; cbn; [done|].
  destruct (Hj a b Hab) as (j & E & _ & E'). rewrite E, E'. cbn. by rewrite IH.
Qed.

Lemma admissible_same b j r now_ns :
  paired L (JobRequest.job_id j) b -> both eq (admissible j r now_ns) (admissible (with_id b j) r now_ns).
Proof.
  intros Hb. unfold admissible. apply both_get. intros s s' H. rewrite (active_specs_same _ _ H). destruct H. cbv zeta.
  cbn [with_parts known_safe tier_a_reserve_memory_mb].
  both.
Qed.

Definition same_loop (x y : option UUID * list item * list item) : Prop :=
  option_Forall2 (paired L) x.1.1 y.1.1 /\ Forall2 (same_item L) x.1.2 y.1.2 /\ Forall2 (same_item L) x.2 y.2.

Lemma dispatch_loop_same q q' held held' r now_ns :
  Forall2 (same_item L) q q' -> Forall2 (same_item L) held held' ->
  both same_loop (dispatch_loop q held r now_ns) (dispatch_loop q' held' r now_ns).
Proof.
  intros Hq. revert held held'. induction Hq as [|x x' q q' [Ex Hx] Hq IH]; intros held held' Hheld; cbn [dispatch_loop].
  { apply both_ret. split_and!; [constructor|constructor|done]. }
  apply both_get. intros s _ [q0 js ids d _ _ Hj]. destruct (Hj _ _ Hx) as (j & -> & Hid & E). cbn [with_parts set_queue set_jobs jobs].
  rewrite E. eapply (both_bind _ _ _ eq); [apply admissible_same; by rewrite Hid|]. intros [ok reason] _ <-.
  destruct reason as [reason|]; [|destruct ok].
  - unfold reject_step. both. by apply IH.
  - apply both_ret. split_and!; [by constructor|done|done].
  - unfold defer_step. both. apply IH. apply Forall2_app; [done|by repeat (constructor; try done)].
Qed.

Lemma elem_of_same a b l l' : paired L a b -> Forall2 (paired L) l l' -> a ∈ l <-> b ∈ l'.
Proof.
  intros Hab Hl. induction Hl as [|c d l l' Hc _ IH]; [by rewrite !elem_of_nil|].
  rewrite !elem_of_cons, IH. by rewrite (paired_iff _ _ _ _ _ HL Hab Hc).
Qed.

Lemma dispatch_same r now_ns : both (option_Forall2 (paired L)) (dispatch r now_ns) (dispatch r now_ns).
Proof.
  unfold dispatch. apply both_get. intros s _ [q js ids d Hq Ha Hj]. cbn [with_parts set_queue queue].
  destruct Hq as [|x x' q q' Hx Hq]; [apply both_ret; constructor|].
  eapply both_bind; [apply dispatch_loop_same; [by constructor|constructor]|].
  intros [[sel rest] held] [[sel' rest'] held'] (Hsel & Hrest & Hheld). cbn in Hsel, Hrest, Hheld.
  eapply (both_bind _ _ _ eq).
  { apply (both_queue L (fun _ => _) (fun _ => _)). intros _ _ _. by apply heappush_all_same. }
  intros _ _ _. destruct Hsel as [a b Hab|]; [|apply both_ret; constructor].
  apply both_get. intros s0 _ [q0 js0 ids0 d0 _ _ Hj0]. destruct (Hj0 _ _ Hab) as (j & -> & Hid & E).
  cbn [with_parts set_queue set_jobs jobs]. rewrite E. both; [|by constructor].
  apply both_active. intros l l' Hl. unfold append_new.
  pose proof (elem_of_same _ _ _ _ Hab Hl) as Hin. destruct (decide (a ∈ l)).
  - by rewrite decide_True by tauto.
  - rewrite decide_False by tauto. by repeat (apply Forall2_app || constructor).
Qed.

Lemma complete_same a b now_ns : paired L a b -> both eq (complete a now_ns) (complete b now_ns).
Proof.
  intros Hab. unfold complete. apply both_get. intros s _ [q js ids d Hq Ha Hj].
  destruct (Hj _ _ Hab) as (j & -> & Hid & E). cbn [with_parts set_queue set_jobs jobs]. rewrite E. both.
  apply both_active. intros l l' Hl. induction Hl as [|c c' l l' Hc Hl IH]; cbn; [done|].
  pose proof (paired_iff _ _ _ _ _ HL Hc Hab) as Heq.
  destruct (decide (c = a)) as [->|Hne].
  - by rewrite (bool_decide_eq_true_2 (a = a)), (bool_decide_eq_true_2 (c' = b)) by tauto.
  - rewrite (bool_decide_eq_false_2 (c = a)), (bool_decide_eq_false_2 (c' = b)) by tauto.
    by constructor.
Qed.
End Methods.

(** A submission extends the pairing by the identifiers the two runs drew. *)
Section Submission.
Context (uuid5 : string -> UUID) (isoformat : datetime -> string) (L : pairing) (id id' : UUID).
Context (HL : one_one ((id, id') :: L)).

Lemma paired_cons a b : paired L a b -> paired ((id, id') :: L) a b.
Proof. apply list_elem_of_further. Qed.
Lemma paired_head : paired ((id, id') :: L) id id'.
Proof. apply list_elem_of_here. Qed.

Lemma both_new_job j :
  JobRequest.job_id j = id ->
  Both L ((id, id') :: L) eq (modify (fun s => set_jobs (<[id := j]> (jobs s)) s))
    (modify (fun s => set_jobs (<[id' := with_id id' j]> (jobs s)) s)).
Proof.
  intros Hid s _ [q js ids d Hq Ha Hj]. split; [done|].
  cut (twins ((id, id') :: L) (set_jobs (<[id := j]> (jobs s)) s)
         (with_parts q (<[id' := with_id id' j]> js) ids d (set_jobs (<[id := j]> (jobs s)) s))); [done|].
  split.
  - eapply Forall2_impl; [exact Hq|]. intros x y [E H]. split; [done|by apply paired_cons].
  - eapply Forall2_impl; [exact Ha|]. apply paired_cons.
  - intros a b Hab. change (jobs (set_jobs ?m s)) with m. pose proof (paired_iff _ _ _ _ _ HL paired_head Hab) as Heq.
    apply elem_of_cons in Hab as [[= -> ->]|Hab]; [by rewrite !lookup_insert_eq; exists j|].
    destruct (Hj a b Hab) as (k & E & Hk & E'). destruct (decide (id = a)) as [<-|Hne].
    + exists j. assert (id' = b) as <- by tauto. by rewrite !lookup_insert_eq.
    + rewrite !lookup_insert_ne by tauto. by exists k.
Qed.

Lemma submit_same a c cid cid' :
  is_Some (sub_correlation_id a) ->
  Both L ((id, id') :: L) (fun _ _ => True) (submit uuid5 isoformat a c id cid) (submit uuid5 isoformat a c id' cid').
Proof.
  intros [correlation Hc]. unfold submit. rewrite Hc. cbn [default]. apply both_get.
  intros s _ [q js ids d Hq _ _]. cbn [with_parts set_queue set_jobs set_active set_deferred_ids registry_ queue_limit queue mode].
  destruct (registry_ s !! _) as [spec|]; [|apply both_raise].
  apply (both_bind L L _ eq); [apply both_raise_if; by rewrite (Forall2_length _ _ _ Hq)|]. intros _ _ _.
  apply (both_bind L L _ eq); [unfold freeze; both|]. intros _ _ _. cbv zeta.
  apply (both_bind L L _ eq); [apply both_ledger|]. intros o _ <-.
  eapply (both_bind L L _ (fun j j' => j' = with_id id' j /\ JobRequest.job_id j = id)).
  { apply both_lift. unfold JobRequest.validate. cbn. by destruct (check _ _). }
  intros j _ [-> Hid]. apply (both_bind L ((id, id') :: L) _ eq); [by apply both_new_job|]. intros _ _ _.
  apply (both_bind _ ((id, id') :: L) _ eq); [apply both_ledger|]. intros _ _ _.
  apply (both_bind _ ((id, id') :: L) _ eq).
  { intros s1 _ [q1 js1 ids1 d1 Hq1 Ha1 Hj1]. by split. }
  intros n _ <-. apply (both_bind _ ((id, id') :: L) _ eq); [both|]. intros _ _ _.
  apply (both_bind _ ((id, id') :: L) _ eq); [|intros _ _ _; by apply both_ret].
  apply (both_queue _ (fun q => heappush q _) (fun q => heappush q _)). intros l l' Hl. apply heappush_same; [done|].
  split; [done|exact paired_head].
Qed.
End Submission.

(** A well-formed scheduler is its own twin. *)
Definition self (s : t) : pairing := (fun id => (id, id)) <$> (map_to_list (jobs s)).*1.

Lemma paired_self s id : is_Some (jobs s !! id) -> paired (self s) id id.
Proof.
  intros [j Hj]. unfold paired, self. apply list_elem_of_fmap. exists id. split; [done|].
  apply list_elem_of_fmap. exists (id, j). split; [done|]. by apply elem_of_map_to_list.
Qed.

Lemma twins_self s : wf s -> twins (self s) s s.
Proof.
  intros [[Hid Hwait Hrun _ _ _ _ _] _ _ _ _ _].
  assert (Hs : s = with_parts (queue s) (jobs s) (active s) (deferred_ids s) s) by (by destruct s).
  cut (twins (self s) s (with_parts (queue s) (jobs s) (active s) (deferred_ids s) s)); [by rewrite <- Hs|]. split.
  - apply Forall_Forall2_diag, Forall_forall. intros x Hx. split; [by destruct x|]. apply paired_self.
    destruct (Hwait (job x)) as (j & -> & _); [by apply list_elem_of_fmap_2|done].
  - apply Forall_Forall2_diag, Forall_forall. intros x Hx. apply paired_self.
    by destruct (Hrun x Hx) as (j & -> & _).
  - intros a b (x & [= -> ->] & Hx)%list_elem_of_fmap. apply list_elem_of_fmap in Hx as ([k j] & -> & Hj).
    apply elem_of_map_to_list in Hj. pose proof (Hid _ _ Hj) as Hk. exists j. split_and!; [done|done|].
    cbn in Hk |- *. rewrite Hj, <- Hk. by destruct j.
Qed.

(** Identifiers that name no job yet extend the pairing one to one. *)
Lemma self_extends s ids ids' :
  length ids = length ids' -> NoDup ids -> NoDup ids' ->
  Forall (fun id => jobs s !! id = None) ids -> Forall (fun id => jobs s !! id = None) ids' ->
  one_one (zip ids ids' ++ self s).
Proof.
  intros Hlen Hnd Hnd' Hnew Hnew'. unfold one_one. rewrite !fmap_app, fst_zip, snd_zip by lia.
  assert (Hself : (self s).*1 = (map_to_list (jobs s)).*1 /\ (self s).*2 = (map_to_list (jobs s)).*1).
  { unfold self. generalize (map_to_list (jobs s)).*1. intros l. rewrite <- !list_fmap_compose. split; apply list_fmap_id. }
  destruct Hself as [-> ->].
  assert (Happ : forall l, NoDup l -> Forall (fun id => jobs s !! id = None) l -> NoDup (l ++ (map_to_list (jobs s)).*1)).
  { intros l Hl HF. apply NoDup_app. split_and!; [done| |apply NoDup_fst_map_to_list].
    intros x Hx ([k j] & -> & Hj)%list_elem_of_fmap. apply elem_of_map_to_list in Hj.
    rewrite Forall_forall in HF. apply HF in Hx. cbn in Hx. congruence. }
  split; by apply Happ.
Qed.

Lemma one_one_next p L L' : one_one ((p :: L) ++ L') -> one_one (p :: L') /\ one_one (L ++ p :: L').
Proof.
  unfold one_one. rewrite !fmap_app, !fmap_cons. cbn [app]. intros [H1 H2]. split.
  - rewrite !NoDup_cons, !elem_of_app, !NoDup_app in *. tauto.
  - by rewrite <- !Permutation_middle.
Qed.
