(* ===== verification/Hazards.v ===== *)
(** The hazard adapters (hazards/, qualification/thresholds.py).

    Each adapter turns one observation into an analysis result.  A [stamp]
    holds what the constructor of the result takes from outside: the two
    [uuid4()] values and the clock.  The measured latency of the wildfire
    stage and the optional learned predictors are arguments.  The dictionary
    of features keeps the keys of the source. *)

From Stdlib Require Import ZArith SpecFloat.
From S2P Require Import Prelude Binary64 Enums Models.
Open Scope Z_scope.

Record stamp : Type := mkStamp { new_analysis_id : UUID; new_correlation : UUID; now : datetime }.

(** [observation.values.get(key, d)] *)
Definition value_or (o : Observation.t) (key : string) (d : f64) : f64 :=
  default d (Observation.values o !! key).
(** [key in set(observation.values)] *)
Definition has (o : Observation.t) (key : string) : bool := bool_decide (key ∈ dom (Observation.values o)).

(** [features[f"missing_{key}"] = 1.0] for each missing key. *)
Definition mark_missing (missing : gset string) (features : gmap string f64) : gmap string f64 :=
  fold_left (fun fs key => <["missing_" +:+ key := f1]> fs)
    (sorted_strings (elements missing)) features.

(** The result an adapter returns for an observation; the fields it does not
    mention take the defaults of the class. *)
Definition build_result (st : stamp) (o : Observation.t) (score : f64) (state : IncidentState.t)
    (features : gmap string f64) (coverage : CoverageState.t) (abstained : bool)
    (reasons : list string) (model_profile_id : string) : res AnalysisResult.t :=
  AnalysisResult.validate
    {| AnalysisResult.analysis_id := new_analysis_id st;
       AnalysisResult.observation_id := Observation.observation_id o;
       AnalysisResult.correlation_id := new_correlation st;
       AnalysisResult.boot_id := "fixture-boot-1";
       AnalysisResult.source_mode := SourceMode.FIXTURE;
       AnalysisResult.hazard := Observation.hazard o;
       AnalysisResult.score := score;
       AnalysisResult.state_hint := state;
       AnalysisResult.features := features;
       AnalysisResult.coverage := coverage;
       AnalysisResult.abstained := abstained;
       AnalysisResult.reason_codes := sorted_set reasons;
       AnalysisResult.model_profile_id := model_profile_id;
       AnalysisResult.source_lineage := "fixture-v1";
       AnalysisResult.config_hashes := [];
       AnalysisResult.incident_id_hint := None;
       AnalysisResult.produced_at := now st;
       AnalysisResult.event_time := None |}.

(** qualification/thresholds.py *)
Module Thresholds.

Record ThresholdDecision : Type := mkDecision {
  state : IncidentState.t;
  abstained : bool;
  reason_code : option string
}.

Abbreviation threshold := (f64 * IncidentState.t)%type.

Definition near (score margin : f64) (t : threshold) : bool := fle (fabs (fsub score t.1)) margin.

Definition threshold_leb (x y : threshold) : bool := negb (flt y.1 x.1).

Definition decide_with_margin (score : f64) (thresholds : list threshold) (margin : f64)
  : res ThresholdDecision :=
  check (negb (fle f0 score && fle score f1)) (ValueError "score must be within [0,1]") >>!
  check (flt margin f0) (ValueError "threshold margin must be non-negative") >>!
  let ordered := sort_by threshold_leb thresholds in
  check (existsb (fun t => negb (fle f0 t.1 && fle t.1 f1)) ordered)
    (ValueError "thresholds must be within [0,1]") >>!
  check (existsb (fun p => fle p.2.1 p.1.1) (zip ordered (tail ordered)))
    (ValueError "thresholds must be strictly increasing") >>!
  if existsb (near score margin) ordered then
    Ok (mkDecision IncidentState.WATCH true (Some "decision_threshold_margin_abstention"))
  else
    Ok (mkDecision (fold_left (fun st t => if fle t.1 score then t.2 else st) ordered
                      IncidentState.NORMAL) false None).

Definition default_margin : f64 := lit 3 100.

End Thresholds.

Module EarthquakeAdapter.

Definition quantize (g : f64) : res Z :=
  rbind (py_round (fmul g (of_Z 64))) (fun n => Ok (Z.max (-128) (Z.min 127 n))).

Definition classify_int8 (dynamic_acceleration_g : f64) : res string :=
  rbind (quantize dynamic_acceleration_g) (fun quantized =>
    Ok (if 54 <=? quantized then "earthquake-like"
        else if quantized <=? 12 then "nonseismic"
        else "uncertain")).

Definition public_summary (result : AnalysisResult.t) : string :=
  if decide (AnalysisResult.coverage result = CoverageState.BLIND) then
    "Seismic monitoring coverage is unavailable; inspect the IMU and local conditions."
  else match AnalysisResult.state_hint result with
       | IncidentState.SUSPECTED | IncidentState.CONFIRMED =>
           "Seismic-like motion was observed; review the waveform and local reports."
       | IncidentState.WATCH =>
           "Elevated motion context was observed; continue monitoring."
       | _ => "No significant seismic-like motion was observed in the available window."
       end.

Definition required : gset string := {["accel_x"; "accel_y"; "accel_z"]}.

Definition thresholds : list Thresholds.threshold :=
  [(lit 20 100, IncidentState.WATCH); (lit 45 100, IncidentState.SUSPECTED);
   (lit 85 100, IncidentState.CONFIRMED)].

(** Dynamic acceleration: the norm of the axes above one g. *)
Definition vibration (o : Observation.t) : f64 :=
  let x := value_or o "accel_x" f0 in
  let y := value_or o "accel_y" f0 in
  let z := value_or o "accel_z" f0 in
  py_max f0 (fsub (fsqrt (fadd (fadd (fmul x x) (fmul y y)) (fmul z z))) f1).

(** The cap of both degraded branches. *)
Definition capped (score : f64) : f64 * IncidentState.t :=
  let score := py_min score (lit 54 100) in
  (score, if fle (lit 20 100) score then IncidentState.WATCH else IncidentState.NORMAL).

Definition analyze (st : stamp) (o : Observation.t) : res AnalysisResult.t :=
  check (negb (bool_decide (Observation.hazard o = HazardKind.EARTHQUAKE)))
    (ValueError "earthquake adapter received another hazard") >>!
  let missing := required ∖ dom (Observation.values o) in
  let vibration := vibration o in
  let score := py_min f1 (fdiv vibration (lit 75 100)) in
  rbind (classify_int8 vibration) (fun classifier_label =>
  rbind (Thresholds.decide_with_margin score thresholds Thresholds.default_margin)
    (fun threshold_decision =>
  let state := Thresholds.state threshold_decision in
  let reasons := ["deterministic_trigger"] in
  let clock_unsafe := 0 <? Observation.clock_epoch o in
  let '(score, state, reasons) :=
    if clock_unsafe then
      (capped score, reasons ++ ["clock_health_unsafe_auto_confirmation_blocked"])
    else ((score, state), reasons) in
  let '(score, state, reasons, coverage, abstained) :=
    if decide (missing <> ∅) then
      (capped score, reasons ++ ["imu_axis_missing"; "missing_data_mask_applied"],
       if decide (size missing = size required) then CoverageState.BLIND
       else CoverageState.PARTIAL,
       true)
    else
      ((score, state),
       reasons ++ option_list (Thresholds.reason_code threshold_decision),
       CoverageState.SUFFICIENT, Thresholds.abstained threshold_decision) in
  rbind (quantize vibration) (fun quantized =>
  rbind (py_float (Observation.clock_epoch o)) (fun epoch =>
  let features : gmap string f64 :=
    <["dynamic_acceleration_g" := vibration]>
    (<["int8_quantized_acceleration" := of_Z quantized]>
    (<["clock_epoch" := epoch]>
    (<["clock_health_unsafe" := of_bool clock_unsafe]> ∅))) in
  build_result st o score state (mark_missing missing features) coverage abstained
    (reasons ++ ["classifier:" +:+ classifier_label]) "seismic-int8-1d-v1")))).

End EarthquakeAdapter.

(** hazards/forecast.py *)
Module ForecastMetadata.

Record t : Type := mk {
  available : bool;
  score : option f64;
  horizon_seconds : option Z;
  uncertainty : option f64;
  profile_id : option string;
  reason_code : string
}.

Definition unavailable (reason_code : string) : t := mk false None None None None reason_code.
Definition not_applicable : t := unavailable "forecast_not_applicable".

Definition from_prediction (score : f64) (horizon_seconds : Z) (uncertainty : f64)
    (profile_id : string) : res t :=
  check (negb (unit_interval score)) (ValueError "forecast score outside [0,1]") >>!
  check ((horizon_seconds <=? 0) || negb (unit_interval uncertainty) || blank profile_id)
    (ValueError "forecast horizon, uncertainty, and profile are required") >>!
  Ok (mk true (Some score) (Some horizon_seconds) (Some uncertainty) (Some profile_id)
        "validated_forecast_available").

Definition feature_values (m : t) : res (gmap string f64) :=
  if available m then
    match score m, horizon_seconds m, uncertainty m with
    | Some s, Some h, Some u =>
        rbind (py_float h) (fun h =>
        Ok (<["forecast_available" := f1]> (<["forecast_score" := s]>
             (<["forecast_horizon_seconds" := h]> (<["forecast_uncertainty" := u]> ∅)))))
    | _, _, _ => Raise AssertionError
    end
  else Ok {["forecast_available" := f0]}.

End ForecastMetadata.

Module FloodAdapter.

(** [FloodThresholdProfile] *)
Record profile : Type := mkProfile {
  profile_id : string;
  threshold_source : string;
  threshold_version : string;
  water_level_watch_m : f64;
  water_level_suspected_m : f64;
  water_level_confirmed_m : f64;
  rise_watch_m_per_h : f64;
  rise_suspected_m_per_h : f64;
  rise_confirmed_m_per_h : f64;
  rainfall_watch_mm_h : f64;
  rainfall_suspected_mm_h : f64;
  rainfall_confirmed_mm_h : f64
}.

Definition default_profile : profile :=
  {| profile_id := "flood-rules-v2"; threshold_source := "bundled-development-profile";
     threshold_version := "2026-08-02";
     water_level_watch_m := lit 50 100; water_level_suspected_m := lit 100 100;
     water_level_confirmed_m := lit 180 100;
     rise_watch_m_per_h := lit 10 100; rise_suspected_m_per_h := lit 25 100;
     rise_confirmed_m_per_h := lit 45 100;
     rainfall_watch_mm_h := of_Z 10; rainfall_suspected_mm_h := of_Z 30;
     rainfall_confirmed_mm_h := of_Z 50 |}.

Definition ordered (watch suspected confirmed : f64) : bool :=
  fle f0 watch && flt watch suspected && flt suspected confirmed.

(** [__post_init__] *)
Definition validate_profile (p : profile) : res profile :=
  check (negb (ordered (water_level_watch_m p) (water_level_suspected_m p) (water_level_confirmed_m p)
               && ordered (rise_watch_m_per_h p) (rise_suspected_m_per_h p) (rise_confirmed_m_per_h p)
               && ordered (rainfall_watch_mm_h p) (rainfall_suspected_mm_h p) (rainfall_confirmed_mm_h p)))
    (ValueError "flood thresholds must be non-negative and strictly ordered") >>!
  check (blank (profile_id p) || blank (threshold_source p) || blank (threshold_version p))
    (ValueError "flood threshold provenance must be non-blank") >>!
  Ok p.

(** What the optional predictor returns. *)
Inductive prediction : Type :=
  | Score (x : f64)
  | Metadata (m : ForecastMetadata.t).

Record t : Type := mk {
  profile_ : profile;
  forecast_predictor : option (Observation.t -> res prediction);
  forecast_horizon_seconds : Z;
  forecast_uncertainty : f64;
  forecast_profile_id : string
}.

Definition channel_score (value watch suspected confirmed : f64) : res f64 :=
  if flt value watch then Ok f0
  else if flt value suspected then
    rbind (py_div (fsub value watch) (fsub suspected watch)) (fun q =>
    Ok (fadd (lit 25 100) (fmul (lit 29 100) q)))
  else if flt value confirmed then
    rbind (py_div (fsub value suspected) (fsub confirmed suspected)) (fun q =>
    Ok (fadd (lit 55 100) (fmul (lit 29 100) q)))
  else
    rbind (py_div (fsub value confirmed) (py_max confirmed (lit 1 1000000000))) (fun q =>
    Ok (py_min f1 (fadd (lit 85 100) (fmul (lit 15 100) q)))).

(** One observed channel: its features and its weighted score, when present. *)
Definition channel (o : Observation.t) (key feature : string) (weight watch suspected confirmed : f64)
    (acc : gmap string f64 * list (f64 * f64)) : res (gmap string f64 * list (f64 * f64)) :=
  match Observation.values o !! key with
  | None => Ok acc
  | Some v =>
      let value := py_max f0 v in
      rbind (channel_score value watch suspected confirmed) (fun s =>
      Ok (<[feature := value]> acc.1, acc.2 ++ [(weight, s)]))
  end.

Definition required : gset string := {["water_level_m"; "rate_of_rise_m_per_h"]}.

Definition base_features (o : Observation.t) : gmap string f64 :=
  <["water_level_present" := of_bool (has o "water_level_m")]>
  (<["rate_of_rise_present" := of_bool (has o "rate_of_rise_m_per_h")]>
  (<["rainfall_present" := of_bool (has o "rainfall_mm_h")]>
  (<["susceptibility_present" := of_bool (has o "flood_susceptibility")]>
  (<["flood_susceptibility" := clamp01 (value_or o "flood_susceptibility" f0)]> ∅)))).

(** The features and channel scores of an observation. *)
Definition channels (p : profile) (o : Observation.t) : res (gmap string f64 * list (f64 * f64)) :=
  rbind (channel o "water_level_m" "water_level_m" (lit 50 100)
           (water_level_watch_m p) (water_level_suspected_m p) (water_level_confirmed_m p)
           (base_features o, [])) (fun acc =>
  rbind (channel o "rate_of_rise_m_per_h" "rise_m_h" (lit 35 100)
           (rise_watch_m_per_h p) (rise_suspected_m_per_h p) (rise_confirmed_m_per_h p) acc) (fun acc =>
  channel o "rainfall_mm_h" "rain_mm_h" (lit 15 100)
           (rainfall_watch_mm_h p) (rainfall_suspected_mm_h p) (rainfall_confirmed_mm_h p) acc)).

(** The observed weights are renormalised. *)
Definition weighted_mean (scores : list (f64 * f64)) : f64 :=
  let total_weight := py_sum scores.*1 in
  if feq total_weight f0 then f0
  else fdiv (py_sum ((fun ws => fmul ws.1 ws.2) <$> scores)) total_weight.

(** What the optional forecast leaves behind: the metadata, the features, the
    score and the reasons; the block catches every exception, and what was
    done before the exception stays. *)
Definition apply_forecast (a : t) (o : Observation.t) (features : gmap string f64) (score : f64)
    (reasons : list string) : ForecastMetadata.t * gmap string f64 * f64 * list string :=
  match forecast_predictor a with
  | None =>
      let forecast := ForecastMetadata.not_applicable in
      (forecast, features, score, reasons ++ [ForecastMetadata.reason_code forecast])
  | Some predictor =>
      let failed features reasons :=
        (ForecastMetadata.unavailable "forecast_failed_deterministic_fallback", features, score,
         reasons ++ ["forecast_failed_deterministic_fallback"]) in
      let forecast :=
        rbind (predictor o) (fun raw =>
        match raw with
        | Metadata m => Ok m
        | Score x => ForecastMetadata.from_prediction x (forecast_horizon_seconds a)
                       (forecast_uncertainty a) (forecast_profile_id a)
        end) in
      match forecast with
      | Raise _ => failed features reasons
      | Ok forecast =>
          match ForecastMetadata.feature_values forecast with
          | Raise _ => failed features reasons
          | Ok extra =>
              let features := extra ∪ features in
              let reasons := reasons ++ [ForecastMetadata.reason_code forecast] in
              match ForecastMetadata.score forecast with
              | None => failed features reasons
              | Some s =>
                  (forecast, features,
                   py_min f1 (fadd (fmul (lit 85 100) score) (fmul (lit 15 100) s)), reasons)
              end
          end
      end
  end.

Definition state_of (score : f64) : IncidentState.t :=
  if fle (lit 85 100) score then IncidentState.CONFIRMED
  else if fle (lit 55 100) score then IncidentState.SUSPECTED
  else if fle (lit 25 100) score then IncidentState.WATCH
  else IncidentState.NORMAL.

Definition analyze (a : t) (st : stamp) (o : Observation.t) : res AnalysisResult.t :=
  check (negb (bool_decide (Observation.hazard o = HazardKind.FLOOD)))
    (ValueError "flood adapter received another hazard") >>!
  let missing := required ∖ dom (Observation.values o) in
  let p := profile_ a in
  rbind (channels p o) (fun '(features, channel_scores) =>
  let reasons := ["threshold_source:" +:+ threshold_source p;
                  "threshold_version:" +:+ threshold_version p;
                  "susceptibility_separate_from_observation"; "deterministic_rules"] in
  let '(forecast, features, deterministic_score, reasons) :=
    apply_forecast a o features (weighted_mean channel_scores) reasons in
  rbind (ForecastMetadata.feature_values forecast) (fun extra =>
  let features := extra ∪ features in
  let '(coverage, abstained, score, state, reasons) :=
    if decide (size missing = size required) then
      (CoverageState.BLIND, true, f0, IncidentState.WATCH,
       reasons ++ ["required_channels_missing"; "missing_data_mask_applied"])
    else if decide (missing <> ∅) then
      let score := py_min deterministic_score (lit 54 100) in
      (CoverageState.PARTIAL, true, score,
       if fle (lit 25 100) score then IncidentState.WATCH else IncidentState.NORMAL,
       reasons ++ ["required_channel_missing"; "missing_data_mask_applied"])
    else
      (CoverageState.SUFFICIENT, false, deterministic_score, state_of deterministic_score, reasons) in
  build_result st o score state (mark_missing missing features) coverage abstained reasons
    (profile_id p))).

End FloodAdapter.

(** hazards/instability.py *)
Module InstabilityMetadata.

Record t : Type := mk {
  available : bool;
  score : option f64;
  uncertainty : option f64;
  profile_id : option string;
  reason_code : string
}.

Definition unavailable (reason : string) : t := mk false None None None reason.
Definition not_applicable : t := unavailable "instability_not_applicable".

Definition from_prediction (score uncertainty : f64) (profile_id : string) : res t :=
  check (negb (unit_interval score) || negb (unit_interval uncertainty) || blank profile_id)
    (ValueError "instability score, uncertainty, and profile are required") >>!
  Ok (mk true (Some score) (Some uncertainty) (Some profile_id) "validated_instability_available").

(** [x or 0.0] *)
Definition or_zero (x : option f64) : f64 :=
  match x with Some v => if feq v f0 then f0 else v | None => f0 end.

Definition feature_values (m : t) : gmap string f64 :=
  <["instability_available" := of_bool (available m)]>
  (<["instability_score" := or_zero (score m)]>
  (<["instability_uncertainty" := or_zero (uncertainty m)]> ∅)).

End InstabilityMetadata.

Module LandslideAdapter.

(** [LandslideSiteProfile] *)
Record profile : Type := mkProfile {
  profile_id : string;
  profile_source : string;
  profile_version : string;
  tilt_watch_deg_h : f64;
  tilt_suspected_deg_h : f64;
  tilt_confirmed_deg_h : f64;
  vibration_watch_rms : f64;
  vibration_suspected_rms : f64;
  vibration_confirmed_rms : f64;
  rain_1h_context_mm : f64;
  rain_6h_context_mm : f64;
  rain_24h_context_mm : f64
}.

Definition default_profile : profile :=
  {| profile_id := "landslide-rules-v2"; profile_source := "bundled-development-profile";
     profile_version := "2026-08-02";
     tilt_watch_deg_h := lit 15 100; tilt_suspected_deg_h := lit 40 100;
     tilt_confirmed_deg_h := lit 90 100;
     vibration_watch_rms := lit 8 100; vibration_suspected_rms := lit 22 100;
     vibration_confirmed_rms := lit 45 100;
     rain_1h_context_mm := of_Z 20; rain_6h_context_mm := of_Z 55; rain_24h_context_mm := of_Z 110 |}.

(** [__post_init__] *)
Definition validate_profile (p : profile) : res profile :=
  check (negb (FloodAdapter.ordered (tilt_watch_deg_h p) (tilt_suspected_deg_h p) (tilt_confirmed_deg_h p)
               && FloodAdapter.ordered (vibration_watch_rms p) (vibration_suspected_rms p)
                    (vibration_confirmed_rms p)))
    (ValueError "landslide movement thresholds must be non-negative and strictly ordered") >>!
  check (existsb (fun value => fle value f0)
           [rain_1h_context_mm p; rain_6h_context_mm p; rain_24h_context_mm p])
    (ValueError "rainfall accumulation thresholds must be positive") >>!
  Ok p.

(** The rain samples of a source, oldest first: the deque of its history. *)
Abbreviation history := (list (datetime * f64)).

(** What the optional predictor returns. *)
Inductive prediction : Type :=
  | Score (x : f64)
  | Metadata (m : InstabilityMetadata.t).

Record t : Type := mk {
  profile_ : profile;
  rain_history : gmap string history;
  instability_predictor : option (Observation.t -> res prediction);
  instability_uncertainty : f64;
  instability_profile_id : string
}.

Definition set_rain_history (h : gmap string history) (a : t) : t :=
  mk (profile_ a) h (instability_predictor a) (instability_uncertainty a) (instability_profile_id a).

(** The history of a source; a [defaultdict] entry that was never written is
    the empty deque. *)
Definition history_of (a : t) (source_id : string) : history :=
  default [] (rain_history a !! source_id).

Definition movement_score (value watch suspected confirmed : f64) : res f64 :=
  if flt value watch then Ok f0
  else if flt value suspected then
    rbind (py_div (fsub value watch) (fsub suspected watch)) (fun q =>
    Ok (fadd (lit 25 100) (fmul (lit 29 100) q)))
  else if flt value confirmed then
    rbind (py_div (fsub value suspected) (fsub confirmed suspected)) (fun q =>
    Ok (fadd (lit 55 100) (fmul (lit 29 100) q)))
  else
    rbind (py_div (fsub value confirmed) (py_max confirmed (lit 1 1000000000))) (fun q =>
    Ok (py_min f1 (fadd (lit 85 100) (fmul (lit 15 100) q)))).

(** [while len(history) > 1 and history[1][0] <= cutoff: history.popleft()] *)
Fixpoint prune (cutoff : datetime) (h : history) : history :=
  match h with
  | _ :: ((t1, _) :: _) as h' => if t1 <=? cutoff then prune cutoff h' else h
  | _ => h
  end.

Definition record_rain (o : Observation.t) : M t unit :=
  match Observation.values o !! "rainfall_mm_h" with
  | None => ret tt
  | Some rate =>
      let! a := get in
      let source := Observation.source_id o in
      let history := history_of a source in
      let timestamp := Observation.observed_at o in
      let store h := put (set_rain_history (<[source := h]> (rain_history a)) a) in
      let append := store (prune (timestamp - hours 24) (history ++ [(timestamp, py_max f0 rate)])) in
      match last history with
      | Some (newest, _) =>
          if timestamp <=? newest then
            if timestamp =? newest then
              store (removelast history ++ [(timestamp, py_max f0 rate)])
            else raise (ValueError "landslide rainfall event time must increase")
          else append
      | None => append
      end
  end.

(** The loop of [_accumulation] over the points from one index on. *)
Fixpoint accumulate (points : history) (start now : datetime) (total : f64) : f64 :=
  match points with
  | [] => total
  | (timestamp, rate) :: rest =>
      let segment_start := Z.max timestamp start in
      let next_time := match rest with (t1, _) :: _ => t1 | [] => now end in
      let segment_end := Z.min next_time now in
      accumulate rest start now
        (if segment_start <? segment_end
         then fadd total (fmul rate (fdiv (total_seconds (segment_end - segment_start)) (of_Z 3600)))
         else total)
  end.

(** [_accumulation]. The window is called [window], in hours. *)
Definition accumulation (h : history) (now : datetime) (window : Z) : f64 :=
  match h with
  | [] => f0
  | _ => py_max f0 (accumulate h (now - hours window) now f0)
  end.

Definition public_summary (result : AnalysisResult.t) : string :=
  if decide (AnalysisResult.coverage result = CoverageState.BLIND) then
    "Slope-movement monitoring coverage is unavailable; inspect sensors and local conditions."
  else match AnalysisResult.state_hint result with
       | IncidentState.SUSPECTED | IncidentState.CONFIRMED =>
           "Slope-movement indicators require human review and comparison with local observations."
       | IncidentState.WATCH =>
           "Rainfall or susceptibility context is elevated; continue monitoring for movement evidence."
       | _ => "No significant slope-movement indicator is present in the available observations."
       end.

Definition movement_channels : gset string := {["tilt_rate_deg_h"; "vibration_rms"]}.

(** [max(parts, default=0.0)] *)
Definition max_or_zero (parts : list f64) : f64 :=
  match parts with [] => f0 | x :: xs => fold_left py_max xs x end.

Definition tilt (o : Observation.t) : f64 := py_max f0 (value_or o "tilt_rate_deg_h" f0).
Definition vibration (o : Observation.t) : f64 := py_max f0 (value_or o "vibration_rms" f0).

(** The movement score of the channels the observation has. *)
Definition movement (p : profile) (o : Observation.t) : res f64 :=
  rbind (if has o "tilt_rate_deg_h" then
           rbind (movement_score (tilt o) (tilt_watch_deg_h p) (tilt_suspected_deg_h p)
                    (tilt_confirmed_deg_h p)) (fun s => Ok [s])
         else Ok []) (fun parts1 =>
  rbind (if has o "vibration_rms" then
           rbind (movement_score (vibration o) (vibration_watch_rms p) (vibration_suspected_rms p)
                    (vibration_confirmed_rms p)) (fun s => Ok [s])
         else Ok []) (fun parts2 =>
  Ok (max_or_zero (parts1 ++ parts2)))).

(** Rainfall context of the three windows. *)
Definition rain_context_of (p : profile) (rain_1h rain_6h rain_24h : f64) : res f64 :=
  rbind (py_div rain_1h (rain_1h_context_mm p)) (fun c1 =>
  rbind (py_div rain_6h (rain_6h_context_mm p)) (fun c6 =>
  rbind (py_div rain_24h (rain_24h_context_mm p)) (fun c24 =>
  Ok (py_max (py_max (py_min f1 c1) (py_min f1 c6)) (py_min f1 c24))))).

(** The optional learned metadata; every exception is caught. *)
Definition instability_of (a : t) (o : Observation.t) : InstabilityMetadata.t :=
  match instability_predictor a with
  | None => InstabilityMetadata.not_applicable
  | Some predictor =>
      match rbind (predictor o) (fun raw =>
              match raw with
              | Metadata m => Ok m
              | Score x => InstabilityMetadata.from_prediction x (instability_uncertainty a)
                             (instability_profile_id a)
              end) with
      | Ok m => m
      | Raise _ => InstabilityMetadata.unavailable "instability_failed_deterministic_fallback"
      end
  end.

(** The decision on the movement and susceptibility scores. *)
Record decision : Type := mkDecision {
  d_coverage : CoverageState.t;
  d_abstained : bool;
  d_score : f64;
  d_state : IncidentState.t;
  d_reasons : list string
}.

Definition movement_state (score susceptibility_score : f64) : IncidentState.t :=
  if fle (lit 85 100) score then IncidentState.CONFIRMED
  else if fle (lit 55 100) score then IncidentState.SUSPECTED
  else if fle (lit 25 100) (py_max score susceptibility_score) then IncidentState.WATCH
  else IncidentState.NORMAL.

Definition decide_movement (missing : gset string) (movement_score susceptibility_score : f64)
  : decision :=
  if decide (size missing = size movement_channels) then
    {| d_coverage := CoverageState.BLIND; d_abstained := true;
       d_score := py_min (lit 54 100) susceptibility_score;
       d_state := if fle (lit 25 100) susceptibility_score then IncidentState.WATCH
                  else IncidentState.NORMAL;
       d_reasons := ["movement_channels_missing"; "missing_data_mask_applied"] |}
  else if decide (missing <> ∅) then
    let abstained := flt movement_score (lit 85 100) in
    let score := if abstained then py_min movement_score (lit 84 100) else movement_score in
    {| d_coverage := CoverageState.PARTIAL; d_abstained := abstained; d_score := score;
       d_state := movement_state score susceptibility_score;
       d_reasons := ["movement_channel_missing"; "missing_data_mask_applied"] |}
  else
    {| d_coverage := CoverageState.SUFFICIENT; d_abstained := false; d_score := movement_score;
       d_state := movement_state movement_score susceptibility_score; d_reasons := [] |}.

Definition analyze (st : stamp) (o : Observation.t) : M t AnalysisResult.t :=
  raise_if (negb (bool_decide (Observation.hazard o = HazardKind.LANDSLIDE)))
    (ValueError "landslide adapter received another hazard") ;;;
  record_rain o ;;;
  let! a := get in
  let p := profile_ a in
  let missing_movement := movement_channels ∖ dom (Observation.values o) in
  let soil := clamp01 (value_or o "soil_moisture_fraction" f0) in
  let static_susceptibility := clamp01 (value_or o "landslide_susceptibility" f0) in
  let history := history_of a (Observation.source_id o) in
  let rain_1h := accumulation history (Observation.observed_at o) 1 in
  let rain_6h := accumulation history (Observation.observed_at o) 6 in
  let rain_24h := accumulation history (Observation.observed_at o) 24 in
  let! movement_score := lift (movement p o) in
  let! rain_context := lift (rain_context_of p rain_1h rain_6h rain_24h) in
  let susceptibility_score :=
    py_min f1 (fadd (fadd (fmul (lit 45 100) soil) (fmul (lit 35 100) rain_context))
                 (fmul (lit 20 100) static_susceptibility)) in
  let instability := instability_of a o in
  let seismic := fle (lit 1 2) (value_or o "seismic_context_score" f0) in
  let wet := fle (lit 1 2) rain_context in
  let d := decide_movement missing_movement movement_score susceptibility_score in
  let reasons :=
    ["profile_source:" +:+ profile_source p; "profile_version:" +:+ profile_version p;
     "susceptibility_separate_from_movement"; "deterministic_movement_rules"]
    ++ (if wet then ["rainfall_context_elevated"] else [])
    ++ (if seismic then ["seismic_context_elevated"] else [])
    ++ d_reasons d ++ [InstabilityMetadata.reason_code instability] in
  let features : gmap string f64 :=
    <["soil_moisture_fraction" := soil]> (<["tilt_rate_deg_h" := tilt o]>
    (<["vibration_rms" := vibration o]> (<["rainfall_1h_mm" := rain_1h]>
    (<["rainfall_6h_mm" := rain_6h]> (<["rainfall_24h_mm" := rain_24h]>
    (<["rainfall_context_score" := rain_context]>
    (<["susceptibility_score" := susceptibility_score]> (<["movement_score" := movement_score]>
    (<["static_susceptibility" := static_susceptibility]>
    (<["cadence_multiplier_recommended" := if wet || seismic then of_Z 2 else f1]>
    (<["tilt_present" := of_bool (has o "tilt_rate_deg_h")]>
    (<["vibration_present" := of_bool (has o "vibration_rms")]>
    (<["soil_present" := of_bool (has o "soil_moisture_fraction")]> ∅))))))))))))) in
  lift (build_result st o (d_score d) (d_state d)
    (mark_missing missing_movement (InstabilityMetadata.feature_values instability ∪ features))
    (d_coverage d) (d_abstained d) reasons (profile_id p)).

End LandslideAdapter.

Module WildfireAdapter.

Definition clamped (o : Observation.t) (key : string) (d : f64) : f64 := clamp01 (value_or o key d).

Definition smoke (o : Observation.t) : f64 := clamped o "smoke_score" f0.
Definition flame (o : Observation.t) : f64 := clamped o "flame_score" f0.
Definition persistence (o : Observation.t) : f64 := clamped o "temporal_persistence" f0.

(** Camera health reasons, each from a value or a quality flag. *)
Definition health_reasons (o : Observation.t) : list string :=
  let flag f := bool_decide (f ∈ Observation.quality_flags o) in
  (if flt (value_or o "camera_luminance" (of_Z 128)) (of_Z 12) || flag "camera_dark"
   then ["camera_dark"] else [])
  ++ (if flt (value_or o "camera_blur_score" (of_Z 100)) (of_Z 20) || flag "camera_blurred"
      then ["camera_blurred"] else [])
  ++ (if flt (lit 85 100) (clamped o "camera_occlusion_fraction" f0) || flag "camera_occluded"
      then ["camera_occluded"] else [])
  ++ (if fle (clamped o "camera_frame_change" f1) (lit 1 100) || flag "camera_frozen"
      then ["camera_frozen"] else []).

Definition coverage_of (health : list string) : CoverageState.t :=
  if (2 <=? length health)%nat || bool_decide ("camera_frozen" ∈ health) then CoverageState.BLIND
  else match health with [] => CoverageState.SUFFICIENT | _ => CoverageState.PARTIAL end.

Definition score_of (o : Observation.t) : f64 :=
  py_min f1 (fadd (fadd (fmul (lit 55 100) (smoke o)) (fmul (lit 30 100) (flame o)))
               (fmul (lit 15 100) (persistence o))).

Definition uncertainty_of (o : Observation.t) : f64 :=
  py_min f1 (fadd (fmul (lit 60 100) (fsub f1 (persistence o)))
                  (fmul (lit 40 100) (fsub f1 (py_max (smoke o) (flame o))))).

Definition thresholds : list Thresholds.threshold :=
  [(lit 30 100, IncidentState.WATCH); (lit 55 100, IncidentState.SUSPECTED);
   (lit 80 100, IncidentState.CONFIRMED)].

(** The state and the abstention after the persistence and quality guards. *)
Definition guarded (d : Thresholds.ThresholdDecision) (coverage : CoverageState.t)
    (persistence_sufficient : bool) : IncidentState.t * bool :=
  let escalated state :=
    bool_decide (state = IncidentState.SUSPECTED) || bool_decide (state = IncidentState.CONFIRMED) in
  let abstained := negb (bool_decide (coverage = CoverageState.SUFFICIENT)) || Thresholds.abstained d in
  let '(state, abstained) :=
    if negb persistence_sufficient && escalated (Thresholds.state d)
    then (IncidentState.WATCH, true) else (Thresholds.state d, abstained) in
  let state :=
    if abstained && negb (bool_decide (state = IncidentState.NORMAL)
                          || bool_decide (state = IncidentState.WATCH))
    then IncidentState.WATCH else state in
  (state, abstained).

(** [latency_ms] is the measured duration of the stage. *)
Definition analyze (latency_ms : f64) (st : stamp) (o : Observation.t) : res AnalysisResult.t :=
  check (negb (bool_decide (Observation.hazard o = HazardKind.WILDFIRE)))
    (ValueError "wildfire adapter received another hazard") >>!
  let region_smoke := clamped o "stage2_region_smoke_score" (smoke o) in
  let region_flame := clamped o "stage2_region_flame_score" (flame o) in
  let region_x := clamped o "stage2_region_center_x" (lit 1 2) in
  let region_y := clamped o "stage2_region_center_y" (lit 1 2) in
  rbind (py_int (fmul region_y (of_Z 3))) (fun row =>
  rbind (py_int (fmul region_x (of_Z 3))) (fun column =>
  let camera_sector_index := of_Z (Z.min 8 (row * 3 + column)) in
  let health := health_reasons o in
  let score := score_of o in
  let stage2_score := py_round6 (py_min f1 (fadd (fmul (lit 65 100) region_smoke)
                                              (fmul (lit 35 100) region_flame))) in
  let coverage := coverage_of health in
  let persistence_sufficient := fle (lit 50 100) (persistence o) in
  rbind (Thresholds.decide_with_margin score thresholds Thresholds.default_margin) (fun d =>
  let '(state, abstained) := guarded d coverage persistence_sufficient in
  let reasons :=
    health ++ ["camera_sector_only"] ++ (if abstained then ["visual_quality_abstention"] else [])
    ++ (if persistence_sufficient then [] else ["temporal_persistence_insufficient"])
    ++ option_list (Thresholds.reason_code d) in
  let features : gmap string f64 :=
    <["smoke" := smoke o]> (<["flame" := flame o]> (<["persistence" := persistence o]>
    (<["camera_luminance" := value_or o "camera_luminance" (of_Z 128)]>
    (<["camera_blur_score" := value_or o "camera_blur_score" (of_Z 100)]>
    (<["camera_occlusion_fraction" := clamped o "camera_occlusion_fraction" f0]>
    (<["camera_frame_change" := clamped o "camera_frame_change" f1]>
    (<["stage1_score" := score]> (<["stage1_uncertainty" := uncertainty_of o]>
    (<["stage1_latency_ms" := latency_ms]> (<["stage2_score" := stage2_score]>
    (<["stage2_region_center_x" := region_x]> (<["stage2_region_center_y" := region_y]>
    (<["camera_sector_index" := camera_sector_index]>
    (<["stage2_latency_ms" := latency_ms]> ∅)))))))))))))) in
  build_result st o score state features coverage abstained reasons "wildfire-deterministic-v2"))).

End WildfireAdapter.
