(* ===== verification/HazardTheorems.v ===== *)
(** What the hazard adapters promise: the decision margin, the guards on
    escalated states, totality, and the rain history of the landslide adapter
    against a log that is never pruned. *)

From Stdlib Require Import ZArith SpecFloat.
From S2P Require Import Prelude Binary64 Enums Models Hazards.
Open Scope Z_scope.
(** Literals are compared by evaluation only. *)
#[local] Opaque int_truediv.

(** ** Decision margins *)

Definition reached (score : f64) (t : Thresholds.threshold) : bool := fle t.1 score.

Lemma zip_tail_increasing (l : list Thresholds.threshold) :
  existsb (fun p => fle p.2.1 p.1.1) (zip l (tail l)) = false ->
  Forall (fun t => is_nan t.1 = false) l ->
  Sorted (fun x y => flt x.1 y.1 = true) l.
Proof.
  induction l as [|x l IH]; intros H Hn; [constructor|].
  apply Forall_cons in Hn as [Hx Hn].
  destruct l as [|y l]; [repeat constructor|].
  cbn in H. apply orb_false_iff in H as [Hxy H]. constructor; [by apply IH|].
  constructor. apply Forall_cons in Hn as [Hy _]. by apply fle_false_flt.
Qed.

Lemma flt_trans_1 x y z : flt x y = true -> flt y z = true -> flt x z = true.
Proof.
  rewrite !flt_key. intros (k & l & Hk & Hl & H) (l' & m & Hl' & Hm & H'). simplify_eq.
  exists k, m. split_and!; [done..|]. destruct k as [[??]?], l as [[??]?], m as [[??]?]; cbn in *.
  revert H H'. repeat case Z.compare_spec; intros; subst; try done; lia.
Qed.

Lemma last_reached score l st :
  StronglySorted (fun x y => flt x.1 y.1 = true) l ->
  let r := fold_left (fun st t => if reached score t then t.2 else st) l st in
  r = st /\ Forall (fun t => reached score t = false) l \/
  exists t, t ∈ l /\ reached score t = true /\ r = t.2 /\
    Forall (fun t' => reached score t' = true -> t' = t \/ flt t'.1 t.1 = true) l.
Proof.
  intros Hs. revert st. induction Hs as [|x l Hs IH Hall]; intros st; cbn; [left; eauto|].
  destruct (IH (if reached score x then x.2 else st)) as [[Hr Hf]|(t & Ht & Hrt & Hr & Hf)].
  - destruct (reached score x) eqn:Hx.
    + right. exists x. split_and!; [set_solver|done|done|]. apply Forall_cons. split; [by left|].
      eapply Forall_impl; [exact Hf|]. cbn. congruence.
    + left. split; [done|]. by apply Forall_cons.
  - right. exists t. split_and!; [set_solver|done|done|]. apply Forall_cons. split; [|done].
    intros _. right. exact (Forall_in _ _ _ Hall Ht).
Qed.

Lemma threshold_leb_total x y :
  Thresholds.threshold_leb x y = false -> Thresholds.threshold_leb y x = true.
Proof.
  unfold Thresholds.threshold_leb. rewrite negb_false_iff, negb_true_iff. intros H.
  apply fle_flt_false. by apply flt_fle.
Qed.

(** The decision without its error checks. *)
Lemma decide_ok score ts margin d :
  Thresholds.decide_with_margin score ts margin = Ok d ->
  unit_interval score = true /\ Forall (fun t => unit_interval t.1 = true) ts /\
  let ordered := sort_by Thresholds.threshold_leb ts in
  StronglySorted (fun x y => flt x.1 y.1 = true) ordered /\
  (existsb (Thresholds.near score margin) ordered = true /\
     d = Thresholds.mkDecision IncidentState.WATCH true (Some "decision_threshold_margin_abstention")
   \/ existsb (Thresholds.near score margin) ordered = false /\
     d = Thresholds.mkDecision
           (fold_left (fun st t => if reached score t then t.2 else st) ordered IncidentState.NORMAL)
           false None).
Proof.
  unfold Thresholds.decide_with_margin. intros H.
  apply rbind_ok in H as ([] & H1%check_ok & H). apply rbind_ok in H as ([] & _ & H).
  cbv zeta in H. apply rbind_ok in H as ([] & H2%check_ok & H).
  apply rbind_ok in H as ([] & H3%check_ok & H).
  assert (Hu : Forall (fun t => unit_interval t.1 = true) (sort_by Thresholds.threshold_leb ts)).
  { apply Forall_forall. intros t Ht. destruct (unit_interval t.1) eqn:E; [done|].
    exfalso. enough (existsb (fun t : Thresholds.threshold => negb (fle f0 t.1 && fle t.1 f1))
      (sort_by Thresholds.threshold_leb ts) = true) by congruence.
    apply List.existsb_exists. exists t. split; [by apply list_elem_of_In|].
    unfold unit_interval in E. by rewrite E. }
  split; [by apply negb_false_iff|]. split; [by rewrite sort_by_perm in Hu|].
  split.
  - apply Sorted_StronglySorted; [|apply zip_tail_increasing; [done|]].
    + intros x y z. apply flt_trans_1.
    + eapply Forall_impl; [exact Hu|]. intros t Ht. cbn in Ht. unfold unit_interval in Ht.
      apply andb_true_iff in Ht as [_ Ht]. by apply fle_not_nan in Ht as [? _].
  - destruct (existsb (Thresholds.near score margin) _); [left|right]; by injection H as <-.
Qed.

(** A decision abstains exactly when the score lies within the margin of
    some threshold, and then says WATCH; otherwise its state is the one of the
    highest threshold the score reaches, NORMAL when it reaches none. *)
Theorem decide_with_margin_spec score ts margin d :
  Thresholds.decide_with_margin score ts margin = Ok d ->
  (Thresholds.abstained d = true <->
     exists t, t ∈ ts /\ fle (fabs (fsub score t.1)) margin = true) /\
  (Thresholds.abstained d = true -> Thresholds.state d = IncidentState.WATCH) /\
  (Thresholds.abstained d = false ->
     Thresholds.state d = IncidentState.NORMAL /\ Forall (fun t => fle t.1 score = false) ts \/
     exists t, t ∈ ts /\ fle t.1 score = true /\ Thresholds.state d = t.2 /\
       Forall (fun t' => fle t'.1 score = true -> t' = t \/ flt t'.1 t.1 = true) ts).
Proof.
  intros (_ & _ & Hs & H)%decide_ok.
  assert (Hnear : existsb (Thresholds.near score margin) (sort_by Thresholds.threshold_leb ts) = true
    <-> exists t, t ∈ ts /\ fle (fabs (fsub score t.1)) margin = true).
  { rewrite List.existsb_exists. unfold Thresholds.near.
    setoid_rewrite <- list_elem_of_In. by setoid_rewrite sort_by_perm. }
  destruct H as [[Hn ->]|[Hn ->]]; cbn; rewrite <- Hnear, Hn; split_and!; try done.
  intros _. destruct (last_reached score _ IncidentState.NORMAL Hs) as [[Hr Hf]|(t & Ht & Hrt & Hr & Hf)].
  - left. split; [done|]. by rewrite sort_by_perm in Hf.
  - right. exists t. rewrite sort_by_perm in Ht, Hf. done.
Qed.

Lemma decide_with_margin_spec_witness :
  exists t, t ∈ EarthquakeAdapter.thresholds /\
    fle (fabs (fsub (lit 43 100) t.1)) Thresholds.default_margin = true.
Proof.
  apply (decide_with_margin_spec (lit 43 100) EarthquakeAdapter.thresholds Thresholds.default_margin
    (Thresholds.mkDecision IncidentState.WATCH true (Some "decision_threshold_margin_abstention")));
    vm_compute; reflexivity.
Defined.

(** ** Results *)

Definition escalated (state : IncidentState.t) : Prop :=
  state = IncidentState.SUSPECTED \/ state = IncidentState.CONFIRMED.

Lemma build_result_ok st o score state features coverage abstained reasons profile a :
  build_result st o score state features coverage abstained reasons profile = Ok a ->
  unit_interval score = true /\ AnalysisResult.score a = score /\
  AnalysisResult.state_hint a = state /\ AnalysisResult.coverage a = coverage /\
  AnalysisResult.abstained a = abstained /\ AnalysisResult.features a = features /\
  AnalysisResult.reason_codes a = sorted_set reasons.
Proof.
  unfold build_result, AnalysisResult.validate. intros ([] & H%check_ok & H2)%rbind_ok.
  injection H2 as <-. by apply negb_false_iff in H.
Qed.

Lemma build_result_total st o score state features coverage abstained reasons profile :
  unit_interval score = true ->
  exists a, build_result st o score state features coverage abstained reasons profile = Ok a.
Proof. intros H. unfold build_result, AnalysisResult.validate. cbn. rewrite H. eauto. Qed.

Lemma unit_not_nan x : unit_interval x = true -> is_nan x = false.
Proof. unfold unit_interval. intros [_ H]%andb_true_iff. by apply fle_not_nan in H as [? _]. Qed.

Lemma py_min_le_r x y : is_nan y = false -> is_nan (py_min x y) = false -> fle (py_min x y) y = true.
Proof.
  unfold py_min. intros Hy. destruct (flt y x) eqn:E; intros Hx; [by apply fle_refl|].
  by apply flt_false_fle.
Qed.

Lemma unit_interval_py_min x : nonneg x = true -> unit_interval (py_min f1 x) = true.
Proof.
  intros H. unfold unit_interval. apply andb_true_iff. split.
  - rewrite <- nonneg_fle. by apply py_min_nonneg.
  - by apply py_min_le_l.
Qed.

(** ** Earthquake *)

Lemma capped_not_escalated score : ~ escalated (EarthquakeAdapter.capped score).2.
Proof. unfold EarthquakeAdapter.capped, escalated; cbn. destruct (fle _ _); intuition congruence. Qed.

(** An escalated decision of a table whose escalated thresholds are at least
    [least] has reached [least] and does not abstain. *)
Lemma decide_escalated score ts margin d least :
  Thresholds.decide_with_margin score ts margin = Ok d -> escalated (Thresholds.state d) ->
  Forall (fun t => escalated t.2 -> fle least t.1 = true) ts ->
  Thresholds.abstained d = false /\ fle least score = true.
Proof.
  intros (_ & _ & Hs & [[_ ->]|[_ ->]])%decide_ok; cbn; unfold escalated at 1; [intuition congruence|].
  intros He Hts. split; [done|].
  destruct (last_reached score _ IncidentState.NORMAL Hs) as [[Hr _]|(t & Ht & Hrt & Hr & _)];
    rewrite Hr in He; [intuition congruence|].
  rewrite sort_by_perm in Ht. eapply fle_trans; [|exact Hrt]. by apply (Forall_in _ _ _ Hts Ht).
Qed.

(** An earthquake observation raises the state to SUSPECTED or CONFIRMED
    only when all three axes were measured, the clock was never stepped and
    the score reaches the SUSPECTED threshold outside its margin; the coverage
    is then sufficient and the result does not abstain.  With an axis missing
    or an unsafe clock the score is capped at 0.54, and a missing axis always
    abstains. *)
Theorem earthquake_escalation_guarded st o a :
  EarthquakeAdapter.analyze st o = Ok a ->
  let missing := EarthquakeAdapter.required ∖ dom (Observation.values o) in
  (escalated (AnalysisResult.state_hint a) ->
     missing = ∅ /\ Observation.clock_epoch o <= 0 /\
     AnalysisResult.coverage a = CoverageState.SUFFICIENT /\ AnalysisResult.abstained a = false /\
     fle (lit 45 100) (AnalysisResult.score a) = true) /\
  (missing <> ∅ \/ 0 < Observation.clock_epoch o ->
     fle (AnalysisResult.score a) (lit 54 100) = true) /\
  (missing <> ∅ -> AnalysisResult.abstained a = true /\
     AnalysisResult.coverage a <> CoverageState.SUFFICIENT).
Proof.
  unfold EarthquakeAdapter.analyze. intros H.
  apply rbind_ok in H as ([] & _ & H). cbv zeta in H.
  apply rbind_ok in H as (label & _ & H). apply rbind_ok in H as (d & Hd & H). cbv zeta.
  set (missing := EarthquakeAdapter.required ∖ dom (Observation.values o)) in *.
  set (score := py_min f1 _) in *.
  destruct (0 <? Observation.clock_epoch o) eqn:Hc.
  - assert (Hclock : 0 < Observation.clock_epoch o) by lia.
    destruct (decide (missing <> ∅)) as [Hm|Hm]; cbn beta iota in H;
      apply rbind_ok in H as (q & _ & H); apply rbind_ok in H as (e & _ & H);
      apply build_result_ok in H as (Hu & -> & -> & -> & -> & _); split_and!;
      try (intros He; destruct (capped_not_escalated _ He)); try done;
      try (intros _; apply py_min_le_r; [reflexivity|by apply unit_not_nan]).
    intros _. split; [done|]. by case_decide.
  - assert (Hclock : ~ 0 < Observation.clock_epoch o) by lia.
    destruct (decide (missing <> ∅)) as [Hm|Hm]; cbn beta iota in H;
      apply rbind_ok in H as (q & _ & H); apply rbind_ok in H as (e & _ & H);
      apply build_result_ok in H as (Hu & -> & -> & -> & -> & _).
    + split_and!; [intros He; destruct (capped_not_escalated _ He)| |].
      * intros _. apply py_min_le_r; [reflexivity|by apply unit_not_nan].
      * intros _. split; [done|]. by case_decide.
    + split_and!; [|intros [?|?]; done|done].
      intros He. apply (decide_escalated _ _ _ _ (lit 45 100)) in Hd; [|done|].
      * apply dec_stable in Hm. split_and!; [done|lia|done|apply Hd|apply Hd].
      * repeat constructor; cbn; unfold escalated; [intuition congruence|done..].
Qed.

Lemma decide_total score ts margin :
  unit_interval score = true -> flt margin f0 = false ->
  existsb (fun t => negb (fle f0 t.1 && fle t.1 f1)) (sort_by Thresholds.threshold_leb ts) = false ->
  existsb (fun p => fle p.2.1 p.1.1) (zip (sort_by Thresholds.threshold_leb ts)
    (tail (sort_by Thresholds.threshold_leb ts))) = false ->
  exists d, Thresholds.decide_with_margin score ts margin = Ok d.
Proof.
  intros Hs Hm H1 H2. unfold Thresholds.decide_with_margin. unfold unit_interval in Hs.
  rewrite Hs, Hm, H1, H2. cbn. destruct (existsb (Thresholds.near _ _) _); eauto.
Qed.

Lemma py_round_finite x : isfinite x = true -> exists n, py_round x = Ok n.
Proof. destruct x as [| | |s m e]; try done; cbn; eauto. Qed.

Lemma py_int_finite x : isfinite x = true -> exists n, py_int x = Ok n.
Proof. destruct x as [| | |s m e]; try done; cbn; eauto. Qed.

(** The earthquake adapter returns a result, with a score in [0, 1], for
    every earthquake observation whose acceleration and clock epoch are in the
    range of the quantiser and of floats, missing axes included. *)
Theorem earthquake_total st o :
  Observation.hazard o = HazardKind.EARTHQUAKE ->
  isfinite (fmul (EarthquakeAdapter.vibration o) (of_Z 64)) = true ->
  isfinite (of_Z (Observation.clock_epoch o)) = true ->
  exists a, EarthquakeAdapter.analyze st o = Ok a /\ unit_interval (AnalysisResult.score a) = true.
Proof.
  intros Hh Hv Hc. unfold EarthquakeAdapter.analyze. rewrite (bool_decide_eq_true_2 _ Hh).
  destruct (py_round_finite _ Hv) as [n Hn].
  unfold EarthquakeAdapter.classify_int8, EarthquakeAdapter.quantize, py_float. rewrite Hn, Hc.
  assert (Hu : unit_interval (py_min f1 (fdiv (EarthquakeAdapter.vibration o) (lit 75 100))) = true).
  { apply unit_interval_py_min, fdiv_nonneg; [reflexivity..|]. by apply py_max_nonneg_l. }
  assert (Hcap : forall x, unit_interval x = true -> unit_interval (EarthquakeAdapter.capped x).1 = true).
  { intros x Hx. unfold EarthquakeAdapter.capped; cbn [fst]. unfold unit_interval in *.
    apply andb_true_iff in Hx as [H0 H1]. apply andb_true_iff. split.
    - by apply py_min_glb.
    - eapply fle_trans; [|exact H1]. apply py_min_le_l. by apply fle_not_nan in H1 as [? _]. }
  cbn -[EarthquakeAdapter.thresholds Thresholds.decide_with_margin build_result fdiv lit py_min of_Z
    EarthquakeAdapter.capped].
  destruct (decide_total (py_min f1 (fdiv (EarthquakeAdapter.vibration o) (lit 75 100)))
    EarthquakeAdapter.thresholds Thresholds.default_margin Hu) as [d Hd];
    [vm_compute; reflexivity..|]. rewrite Hd.
  cbn -[build_result fdiv lit py_min of_Z EarthquakeAdapter.capped].
  assert (Hdone : forall score state fs cov ab rs, unit_interval score = true ->
    exists a, build_result st o score state fs cov ab rs "seismic-int8-1d-v1" = Ok a /\
      unit_interval (AnalysisResult.score a) = true).
  { intros score state fs cov ab rs Hs.
    destruct (build_result_total st o score state fs cov ab rs "seismic-int8-1d-v1" Hs) as [a Ha].
    exists a. split; [done|]. by apply build_result_ok in Ha as (? & -> & _). }
  destruct (0 <? Observation.clock_epoch o); case_decide;
    repeat match goal with |- context [EarthquakeAdapter.capped ?x] =>
      pose proof (Hcap x); destruct (EarthquakeAdapter.capped x) end;
    apply Hdone; cbn in *; auto.
Qed.

Definition empty_observation (hazard : HazardKind.t) (values : gmap string f64) : Observation.t :=
  {| Observation.schema_version := "2.0.0"; Observation.observation_id := "obs-1";
     Observation.correlation_id := "corr-1"; Observation.source_id := "source-1";
     Observation.hazard := hazard; Observation.source_mode := SourceMode.FIXTURE;
     Observation.boot_id := "boot-1"; Observation.sequence := 1; Observation.observed_at := 0;
     Observation.received_at := 0; Observation.values := values; Observation.units := ∅;
     Observation.quality_flags := []; Observation.source_lineage := "fixture-v1";
     Observation.clock_epoch := 0; Observation.clock_uncertainty_ms := f0;
     Observation.measurements := []; Observation.measurement_references := ∅;
     Observation.measurement_orientations := ∅; Observation.measurement_uncertainty := ∅ |}.

Definition demo_stamp : stamp := mkStamp "analysis-1" "corr-1" 0.

Definition demo_shaking : Observation.t :=
  empty_observation HazardKind.EARTHQUAKE
    (<["accel_x" := lit 12 10]> (<["accel_y" := f0]> (<["accel_z" := f1]> ∅))).

Lemma earthquake_escalation_guarded_witness :
  exists a, EarthquakeAdapter.analyze demo_stamp demo_shaking = Ok a /\
    EarthquakeAdapter.required ∖ dom (Observation.values demo_shaking) = ∅.
Proof.
  destruct (EarthquakeAdapter.analyze demo_stamp demo_shaking) as [a|e] eqn:E;
    [|vm_compute in E; discriminate].
  exists a. split; [reflexivity|].
  assert (He : escalated (AnalysisResult.state_hint a)).
  { left. vm_compute in E. injection E as <-. reflexivity. }
  apply (earthquake_escalation_guarded demo_stamp demo_shaking a E). exact He.
Defined.

Lemma earthquake_total_witness :
  exists a, EarthquakeAdapter.analyze demo_stamp demo_shaking = Ok a /\
    unit_interval (AnalysisResult.score a) = true.
Proof. apply earthquake_total; vm_compute; reflexivity. Defined.

(** ** Wildfire *)

Lemma guarded_spec d coverage sufficient state abstained :
  WildfireAdapter.guarded d coverage sufficient = (state, abstained) ->
  (escalated state -> sufficient = true /\ coverage = CoverageState.SUFFICIENT /\
     abstained = false /\ state = Thresholds.state d) /\
  (abstained = true -> state = IncidentState.NORMAL \/ state = IncidentState.WATCH).
Proof.
  unfold escalated. destruct d as [s ab rc]. intros H.
  destruct sufficient, coverage, ab, s; cbn in H; injection H as <- <-; cbn; intuition congruence.
Qed.

(** Visible smoke is escalated to SUSPECTED or CONFIRMED only with
    persistence of at least one half, a healthy camera, and a score that
    reaches the SUSPECTED threshold outside its margin; any abstention leaves
    NORMAL or WATCH. *)
Theorem wildfire_escalation_guarded latency_ms st o a :
  WildfireAdapter.analyze latency_ms st o = Ok a ->
  (escalated (AnalysisResult.state_hint a) ->
     fle (lit 1 2) (WildfireAdapter.persistence o) = true /\ WildfireAdapter.health_reasons o = [] /\
     AnalysisResult.coverage a = CoverageState.SUFFICIENT /\ AnalysisResult.abstained a = false /\
     fle (lit 55 100) (AnalysisResult.score a) = true) /\
  (AnalysisResult.abstained a = true ->
     AnalysisResult.state_hint a = IncidentState.NORMAL \/
     AnalysisResult.state_hint a = IncidentState.WATCH).
Proof.
  unfold WildfireAdapter.analyze. intros H.
  apply rbind_ok in H as ([] & _ & H). cbv zeta in H.
  apply rbind_ok in H as (row & _ & H). apply rbind_ok in H as (col & _ & H).
  apply rbind_ok in H as (d & Hd & H).
  destruct (WildfireAdapter.guarded _ _ _) as [state abstained] eqn:Hg.
  apply build_result_ok in H as (_ & -> & -> & -> & -> & _).
  destruct (guarded_spec _ _ _ _ _ Hg) as [He Hab]. split; [|done].
  intros Hesc. destruct (He Hesc) as (Hp & Hcov & -> & ->).
  apply (decide_escalated _ _ _ _ (lit 55 100)) in Hd as [_ Hle]; [|done|].
  - split_and!; try done. unfold WildfireAdapter.coverage_of in Hcov.
    destruct (WildfireAdapter.health_reasons o); [done|]. by destruct (_ || _).
  - repeat constructor; cbn; unfold escalated; [intuition congruence|done..].
Qed.

(** The wildfire adapter returns a result with a score in [0, 1] for
    every wildfire observation whose values are floats, NaN and infinities
    included. *)
Theorem wildfire_total latency_ms st o :
  Observation.hazard o = HazardKind.WILDFIRE ->
  map_Forall (fun _ v => canonical v) (Observation.values o) ->
  exists a, WildfireAdapter.analyze latency_ms st o = Ok a /\
    unit_interval (AnalysisResult.score a) = true.
Proof.
  intros Hh Hcan. unfold WildfireAdapter.analyze. rewrite (bool_decide_eq_true_2 _ Hh).
  cbn [negb check rbind].
  assert (Hthird : forall key, exists n,
    py_int (fmul (WildfireAdapter.clamped o key (lit 1 2)) (of_Z 3)) = Ok n).
  { intros key. apply py_int_finite.
    replace (of_Z 3) with (S754_finite false 6755399441055744 (-51)) by (vm_compute; reflexivity).
    destruct (clamp01_unit (value_or o key (lit 1 2))) as [H0 H1].
    apply fmul_unit_finite; try done.
    apply clamp01_canonical. unfold value_or.
    destruct (Observation.values o !! key) as [v|] eqn:Hv; [by apply (Hcan key)|]. vm_compute. reflexivity. }
  cbv zeta.
  destruct (Hthird "stage2_region_center_y") as [row Hrow], (Hthird "stage2_region_center_x") as [col Hcol].
  rewrite Hrow, Hcol. cbn [rbind].
  assert (Hu : unit_interval (WildfireAdapter.score_of o) = true).
  { apply unit_interval_py_min. repeat apply fadd_nonneg; apply fmul_nonneg; try reflexivity;
      apply clamp01_nonneg. }
  destruct (decide_total (WildfireAdapter.score_of o) WildfireAdapter.thresholds
    Thresholds.default_margin Hu) as [d Hd]; [vm_compute; reflexivity..|].
  rewrite Hd. cbn [rbind]. destruct (WildfireAdapter.guarded _ _ _) as [state abstained].
  match goal with |- exists a, ?r = Ok a /\ _ => destruct (build_result_total st o
    (WildfireAdapter.score_of o) state ∅ CoverageState.BLIND abstained [] "" Hu) as [? _];
    destruct r as [a|e] eqn:E end.
  - exists a. split; [done|]. by apply build_result_ok in E as (? & -> & _).
  - unfold build_result, AnalysisResult.validate in E. cbn in E. by rewrite Hu in E.
Qed.

Definition demo_smoke : Observation.t :=
  empty_observation HazardKind.WILDFIRE
    (<["smoke_score" := f1]> (<["temporal_persistence" := lit 9 10]> ∅)).

Lemma wildfire_escalation_guarded_witness :
  exists a, WildfireAdapter.analyze f0 demo_stamp demo_smoke = Ok a /\
    AnalysisResult.coverage a = CoverageState.SUFFICIENT.
Proof.
  destruct (WildfireAdapter.analyze f0 demo_stamp demo_smoke) as [a|e] eqn:E;
    [|vm_compute in E; discriminate].
  exists a. split; [reflexivity|].
  assert (He : escalated (AnalysisResult.state_hint a)).
  { left. vm_compute in E. injection E as <-. reflexivity. }
  apply (wildfire_escalation_guarded f0 demo_stamp demo_smoke a E). exact He.
Defined.

Lemma wildfire_total_witness :
  exists a, WildfireAdapter.analyze f0 demo_stamp demo_smoke = Ok a /\
    unit_interval (AnalysisResult.score a) = true.
Proof.
  apply wildfire_total; [reflexivity|].
  intros key v Hv. unfold demo_smoke, empty_observation, Observation.values in Hv.
  apply lookup_insert_Some in Hv as [[_ <-]|[_ Hv]]; [vm_compute; reflexivity|].
  apply lookup_insert_Some in Hv as [[_ <-]|[_ Hv]]; [vm_compute; reflexivity|].
  rewrite lookup_empty in Hv. discriminate.
Defined.

(** ** Flood *)

Lemma state_of_escalated score : escalated (FloodAdapter.state_of score) -> fle (lit 55 100) score = true.
Proof.
  unfold FloodAdapter.state_of, escalated. destruct (fle (lit 85 100) score) eqn:E.
  - intros _. by apply (fle_trans _ (lit 85 100)).
  - destruct (fle (lit 55 100) score); [done|]. by destruct (fle (lit 25 100) score); intros [].
Qed.

(** The flood adapter escalates to SUSPECTED or CONFIRMED only when the
    water level and its rate of rise were both observed.  With one of them
    missing it abstains with a score of at most 0.54 and at most WATCH; with
    both missing the result is BLIND, scores zero, and asks for a watch,
    whatever the rainfall or the forecast says. *)
Theorem flood_escalation_guarded a st o r :
  FloodAdapter.analyze a st o = Ok r ->
  let missing := FloodAdapter.required ∖ dom (Observation.values o) in
  (escalated (AnalysisResult.state_hint r) ->
     missing = ∅ /\ AnalysisResult.coverage r = CoverageState.SUFFICIENT /\
     fle (lit 55 100) (AnalysisResult.score r) = true) /\
  (missing <> ∅ ->
     AnalysisResult.abstained r = true /\ fle (AnalysisResult.score r) (lit 54 100) = true /\
     (AnalysisResult.state_hint r = IncidentState.NORMAL \/
      AnalysisResult.state_hint r = IncidentState.WATCH)) /\
  (missing = FloodAdapter.required ->
     AnalysisResult.coverage r = CoverageState.BLIND /\ AnalysisResult.score r = f0 /\
     AnalysisResult.state_hint r = IncidentState.WATCH).
Proof.
  unfold FloodAdapter.analyze. intros H. apply rbind_ok in H as ([] & _ & H). cbv zeta in H.
  apply rbind_ok in H as ([features scores] & _ & H).
  destruct (FloodAdapter.apply_forecast _ _ _ _ _) as [[[forecast fs] score] reasons].
  apply rbind_ok in H as (extra & _ & H). cbv zeta.
  set (missing := FloodAdapter.required ∖ dom (Observation.values o)) in *.
  destruct (decide (size missing = size FloodAdapter.required)) as [Hall|Hall].
  - apply build_result_ok in H as (Hu & -> & -> & -> & -> & _). unfold escalated.
    split_and!; [intros [?|?]; discriminate| |intros _; split_and!; reflexivity].
    intros _. split_and!; [reflexivity|vm_compute; reflexivity|right; reflexivity].
  - assert (Hne : missing <> FloodAdapter.required) by (by intros Heq; rewrite Heq in Hall).
    destruct (decide (missing <> ∅)) as [Hm|Hm];
      apply build_result_ok in H as (Hu & -> & -> & -> & -> & _); split_and!; try done.
    + by destruct (fle (lit 25 100) _); intros [].
    + intros _. split_and!; [done| |destruct (fle (lit 25 100) _); auto].
      apply py_min_le_r; [reflexivity|by apply unit_not_nan].
    + intros He%state_of_escalated. apply dec_stable in Hm. done.
Qed.

Definition with_predictor (f : option (Observation.t -> res FloodAdapter.prediction)) (a : FloodAdapter.t)
  : FloodAdapter.t :=
  FloodAdapter.mk (FloodAdapter.profile_ a) f (FloodAdapter.forecast_horizon_seconds a)
    (FloodAdapter.forecast_uncertainty a) (FloodAdapter.forecast_profile_id a).

(** What a reader of the result acts on. *)
Definition verdict (r : AnalysisResult.t) :=
  (AnalysisResult.score r, AnalysisResult.state_hint r, AnalysisResult.coverage r,
   AnalysisResult.abstained r, AnalysisResult.features r).

Lemma build_result_reasons st o score state features coverage abstained rs1 rs2 profile :
  match build_result st o score state features coverage abstained rs1 profile,
        build_result st o score state features coverage abstained rs2 profile with
  | Ok r1, Ok r2 => verdict r1 = verdict r2
  | Raise e1, Raise e2 => e1 = e2
  | _, _ => False
  end.
Proof.
  unfold build_result, AnalysisResult.validate. cbn [AnalysisResult.score].
  destruct (check _ _); reflexivity.
Qed.

(** A forecast model that fails on an observation, with whatever
    exception, leaves exactly the verdict of the adapter without a model:
    the failure neither escapes nor changes score, state, coverage or
    features. *)
Theorem flood_forecast_failure_is_contained a f e st o :
  f o = Raise e ->
  match FloodAdapter.analyze (with_predictor (Some f) a) st o,
        FloodAdapter.analyze (with_predictor None a) st o with
  | Ok r1, Ok r2 => verdict r1 = verdict r2
  | Raise e1, Raise e2 => e1 = e2
  | _, _ => False
  end.
Proof.
  intros Hf. unfold FloodAdapter.analyze. destruct (check _ _); [|done]. cbn [rbind]. cbv zeta.
  destruct (FloodAdapter.channels _ o) as [[features scores]|]; [|done]. cbn [rbind].
  unfold FloodAdapter.apply_forecast; cbn [FloodAdapter.forecast_predictor with_predictor].
  rewrite Hf. cbn [rbind ForecastMetadata.feature_values ForecastMetadata.unavailable
    ForecastMetadata.not_applicable ForecastMetadata.available].
  set (score := FloodAdapter.weighted_mean scores).
  destruct (decide (size _ = size _)); [|destruct (decide (_ <> ∅))]; apply build_result_reasons.
Qed.

(** A predictor that fails on every observation. *)
Definition demo_flood : FloodAdapter.t :=
  FloodAdapter.mk FloodAdapter.default_profile (Some (fun _ => Raise (RuntimeError "no model")))
    3600 (lit 25 100) "flood-forecast-development-v1".

Definition demo_rising : Observation.t :=
  empty_observation HazardKind.FLOOD
    (<["water_level_m" := of_Z 3]> (<["rate_of_rise_m_per_h" := f1]> ∅)).

Lemma flood_escalation_guarded_witness :
  exists r, FloodAdapter.analyze demo_flood demo_stamp demo_rising = Ok r /\
    AnalysisResult.coverage r = CoverageState.SUFFICIENT.
Proof.
  destruct (FloodAdapter.analyze demo_flood demo_stamp demo_rising) as [a|e] eqn:E;
    [|vm_compute in E; discriminate].
  exists a. split; [reflexivity|].
  assert (He : escalated (AnalysisResult.state_hint a)).
  { right. vm_compute in E. injection E as <-. reflexivity. }
  apply (flood_escalation_guarded demo_flood demo_stamp demo_rising a E). exact He.
Defined.

Lemma both_ok {A} (P : A -> A -> Prop) (x y : res A) :
  match x, y with
  | Ok a, Ok b => P a b
  | Raise e1, Raise e2 => e1 = e2
  | _, _ => False
  end -> is_ok x = true -> exists a b, x = Ok a /\ y = Ok b /\ P a b.
Proof. destruct x, y; try done. eauto. Qed.

Lemma flood_forecast_failure_is_contained_witness :
  exists r1 r2, FloodAdapter.analyze
      (with_predictor (Some (fun _ => Raise (RuntimeError "no model"))) demo_flood) demo_stamp demo_rising
      = Ok r1 /\
    FloodAdapter.analyze (with_predictor None demo_flood) demo_stamp demo_rising = Ok r2 /\
    verdict r1 = verdict r2.
Proof.
  apply (both_ok (fun r1 r2 => verdict r1 = verdict r2)).
  - apply (flood_forecast_failure_is_contained demo_flood (fun _ => Raise (RuntimeError "no model"))
      (RuntimeError "no model")). reflexivity.
  - vm_compute. reflexivity.
Defined.

(** ** Landslide *)

Lemma decide_movement_escalated missing m s :
  escalated (LandslideAdapter.d_state (LandslideAdapter.decide_movement missing m s)) ->
  missing <> LandslideAdapter.movement_channels /\
  fle (lit 55 100) (LandslideAdapter.d_score (LandslideAdapter.decide_movement missing m s)) = true.
Proof.
  unfold LandslideAdapter.decide_movement.
  destruct (decide (size missing = _)) as [Hall|Hall].
  { simpl LandslideAdapter.d_state. destruct (fle (lit 25 100) s); intros [|]; discriminate. }
  assert (Hm : forall score, escalated (LandslideAdapter.movement_state score s) ->
    missing <> LandslideAdapter.movement_channels /\ fle (lit 55 100) score = true).
  { intros score. split; [by intros ->|]. revert H. unfold LandslideAdapter.movement_state.
    destruct (fle (lit 85 100) score) eqn:E.
    - intros _. apply (fle_trans _ (lit 85 100)); [vm_compute; reflexivity|done].
    - destruct (fle (lit 55 100) score); [done|]. destruct (fle (lit 25 100) _); intros [|]; discriminate. }
  destruct (decide (missing <> ∅)); apply Hm.
Qed.

(** Rainfall, soil moisture, susceptibility and learned metadata alone
    never escalate a landslide beyond WATCH: a SUSPECTED or CONFIRMED result
    has an observed movement channel and a movement score that reaches the
    SUSPECTED threshold; with no movement channel the result is BLIND, abstains
    and scores at most 0.54. *)
Theorem landslide_escalation_needs_movement st o a r a' :
  LandslideAdapter.analyze st o a = (Ok r, a') ->
  (escalated (AnalysisResult.state_hint r) ->
     (has o "tilt_rate_deg_h" || has o "vibration_rms") = true /\
     fle (lit 55 100) (AnalysisResult.score r) = true) /\
  ((has o "tilt_rate_deg_h" || has o "vibration_rms") = false ->
     AnalysisResult.coverage r = CoverageState.BLIND /\ AnalysisResult.abstained r = true /\
     fle (AnalysisResult.score r) (lit 54 100) = true).
Proof.
  unfold LandslideAdapter.analyze. intros H.
  apply bind_ok in H as ([] & s1 & _ & H). apply bind_ok in H as ([] & s2 & _ & H).
  apply bind_ok in H as (a2 & s3 & _ & H). cbv zeta in H.
  apply bind_ok in H as (m & s4 & _ & H). apply bind_ok in H as (c & s5 & _ & H).
  injection H as H _. apply build_result_ok in H as (Hu & -> & -> & -> & -> & _).
  set (missing := LandslideAdapter.movement_channels ∖ dom (Observation.values o)) in *.
  set (sus := py_min f1 _) in *.
  assert (Hmiss : (has o "tilt_rate_deg_h" || has o "vibration_rms") = false <->
    missing = LandslideAdapter.movement_channels).
  { unfold has, missing, LandslideAdapter.movement_channels.
    rewrite orb_false_iff, !bool_decide_eq_false. split; [set_solver|].
    intros Heq. split; intros Hin.
    - assert (Hx : "tilt_rate_deg_h" ∈ ({["tilt_rate_deg_h"; "vibration_rms"]} : gset string)) by set_solver.
      rewrite <- Heq in Hx. set_solver.
    - assert (Hx : "vibration_rms" ∈ ({["tilt_rate_deg_h"; "vibration_rms"]} : gset string)) by set_solver.
      rewrite <- Heq in Hx. set_solver. }
  split.
  - intros [Hne Hle]%decide_movement_escalated. split; [|done].
    apply not_false_iff_true. by rewrite Hmiss.
  - intros Heq%Hmiss. unfold LandslideAdapter.decide_movement. rewrite Heq, decide_True by done.
    cbn [LandslideAdapter.d_coverage LandslideAdapter.d_abstained LandslideAdapter.d_score].
    split_and!; [done..|]. apply py_min_le_l. vm_compute. reflexivity.
Qed.

(** *** Rain history

    [full_log] is the rain log the adapter would have if it never pruned. *)
Definition full_record (o : Observation.t) (log : gmap string LandslideAdapter.history)
  : option (gmap string LandslideAdapter.history) :=
  match Observation.values o !! "rainfall_mm_h" with
  | None => Some log
  | Some rate =>
      let source := Observation.source_id o in
      let h := default [] (log !! source) in
      let sample := (Observation.observed_at o, py_max f0 rate) in
      match last h with
      | Some (newest, _) =>
          if Observation.observed_at o <? newest then None
          else if Observation.observed_at o =? newest then Some (<[source := removelast h ++ [sample]]> log)
          else Some (<[source := h ++ [sample]]> log)
      | None => Some (<[source := h ++ [sample]]> log)
      end
  end.

Abbreviation increasing := (StronglySorted (fun x y : datetime * f64 => x.1 < y.1)).

(** The pruned history is the full one less samples that end before the
    24-hour window of the newest sample. *)
Definition pruned_of (full h : LandslideAdapter.history) : Prop :=
  increasing full /\
  exists dropped, full = dropped ++ h /\
    (dropped = [] \/ exists t0 r0 rest t1, h = (t0, r0) :: rest /\ last (fst <$> h) = Some t1 /\
       t0 <= t1 - hours 24).

Lemma increasing_app_inv l1 l2 x y :
  increasing (l1 ++ l2) -> x ∈ l1 -> y ∈ l2 -> x.1 < y.1.
Proof.
  induction l1 as [|z l1 IH]; cbn; [set_solver|]. intros Hs [->|Hx]%elem_of_cons Hy.
  - apply StronglySorted_inv in Hs as [_ Hs]. eapply Forall_in in Hs; [exact Hs|]. set_solver.
  - apply StronglySorted_inv in Hs as [Hs _]. auto.
Qed.

(** Samples that end before the window opens contribute nothing. *)
Lemma accumulate_skip dropped h start now total t0 r0 rest :
  h = (t0, r0) :: rest -> increasing (dropped ++ h) -> t0 <= start ->
  LandslideAdapter.accumulate (dropped ++ h) start now total
  = LandslideAdapter.accumulate h start now total.
Proof.
  intros Hh. revert total. induction dropped as [|[t r] dropped IH]; intros total Hs Hle; [done|].
  assert (Hnext : exists t1 r1 l, dropped ++ h = (t1, r1) :: l /\ t1 <= t0).
  { destruct dropped as [|[t1 r1] l]; [exists t0, r0, rest; split; [done|lia]|].
    exists t1, r1, (l ++ h). split; [done|].
    apply StronglySorted_inv in Hs as [Hs _].
    apply (increasing_app_inv ((t1, r1) :: l) h (t1, r1) (t0, r0)) in Hs; [cbn in Hs; lia|left|].
    rewrite Hh. left. }
  apply StronglySorted_inv in Hs as [Hs _]. rewrite <- (IH total Hs Hle).
  destruct Hnext as (t1 & r1 & l & Heq & Ht1). cbn [app]. rewrite Heq. cbn [LandslideAdapter.accumulate].
  replace (Z.max t start <? Z.min t1 now) with false by lia. done.
Qed.

Lemma accumulation_pruned full h now window :
  pruned_of full h -> 0 <= window <= 24 ->
  (forall t, last (fst <$> h) = Some t -> t <= now) ->
  LandslideAdapter.accumulation h now window = LandslideAdapter.accumulation full now window.
Proof.
  intros [Hs (dropped & Hfull & Hd)] Hw Hnow. subst full.
  destruct Hd as [->|(t0 & r0 & rest & t1 & Hh & Hlast & Hle)]; [done|].
  specialize (Hnow t1 Hlast). unfold hours in Hle.
  unfold LandslideAdapter.accumulation.
  assert (Hskip : LandslideAdapter.accumulate (dropped ++ h) (now - hours window) now f0
                = LandslideAdapter.accumulate h (now - hours window) now f0).
  { apply (accumulate_skip _ _ _ _ _ t0 r0 rest Hh Hs). unfold hours. lia. }
  rewrite Hskip, Hh. by destruct dropped.
Qed.

Lemma prune_spec cutoff l :
  exists d, l = d ++ LandslideAdapter.prune cutoff l /\
    (d = [] \/ exists t r rest, LandslideAdapter.prune cutoff l = (t, r) :: rest /\ t <= cutoff).
Proof.
  induction l as [|x l IH]; cbn; [exists []; auto|].
  destruct l as [|[t1 r1] l]; [exists []; auto|]. destruct (t1 <=? cutoff) eqn:E; [|exists []; auto].
  destruct IH as (d & Hd & Hh). exists (x :: d). split; [cbn; f_equal; exact Hd|]. right.
  destruct Hh as [->|Hh]; [|done]. cbn [app] in Hd. rewrite <- Hd. exists t1, r1, l. split; [done|lia].
Qed.

Lemma increasing_times l k : fst <$> l = fst <$> k -> increasing l -> increasing k.
Proof.
  revert k. induction l as [|x l IH]; intros [|y k] Heq Hs; try done.
  cbn in Heq. injection Heq as Hxy Heq. apply StronglySorted_inv in Hs as [Hs Hall].
  constructor; [by apply IH|]. rewrite <- Hxy. clear -Heq Hall. revert k Heq.
  induction Hall as [|z l Hz Hall IH]; intros [|w k] Heq; try done. cbn in Heq.
  injection Heq as Hzw Heq. constructor; [by rewrite <- Hzw|auto].
Qed.

Lemma increasing_snoc l x :
  increasing l -> (forall y, last l = Some y -> y.1 < x.1) -> increasing (l ++ [x]).
Proof.
  intros Hs. induction Hs as [|y l Hs IH Hall]; intros Hlast; cbn; [repeat constructor|].
  destruct l as [|z l]; [repeat constructor; by apply Hlast|].
  constructor; [by apply IH|]. apply Forall_app. split; [done|]. apply Forall_singleton.
  destruct (last (z :: l)) as [w|] eqn:Hw; [|by apply last_None in Hw].
  specialize (Hlast w). rewrite last_cons, Hw in Hlast. specialize (Hlast eq_refl).
  assert (Hyw : y.1 < w.1) by (apply (Forall_in _ _ _ Hall); by apply last_Some_elem_of). lia.
Qed.

Lemma pruned_last full h : pruned_of full h -> last full = last h.
Proof.
  intros [_ (dropped & -> & [->|(t0 & r0 & rest & t1 & -> & _)])]; [done|].
  rewrite last_app, last_cons. by destruct (last rest).
Qed.

Lemma pruned_snoc full h ts r :
  pruned_of full h -> (forall t r, last h = Some (t, r) -> t < ts) ->
  pruned_of (full ++ [(ts, r)]) (LandslideAdapter.prune (ts - hours 24) (h ++ [(ts, r)])).
Proof.
  intros Hp Hlt. pose proof (pruned_last _ _ Hp) as Hlast.
  destruct Hp as [Hs (dropped & Hfull & Hd)]. split.
  { apply increasing_snoc; [done|]. intros [t r'] Hy. rewrite Hlast in Hy. by eapply Hlt. }
  destruct (prune_spec (ts - hours 24) (h ++ [(ts, r)])) as (d & Heq & Hhead).
  assert (Hl : last (h ++ [(ts, r)]) = Some (ts, r)) by apply last_snoc.
  set (h' := LandslideAdapter.prune _ _) in *.
  assert (Hl' : forall t0 r0 rest, h' = (t0, r0) :: rest -> last (fst <$> h') = Some ts).
  { intros t0 r0 rest Hh'. rewrite fmap_last. rewrite Heq, Hh', last_app, last_cons in Hl.
    rewrite Hh', last_cons. by destruct (last rest); simplify_eq/=. }
  exists (dropped ++ d). split; [by rewrite Hfull, <- app_assoc, Heq, app_assoc|].
  destruct Hhead as [->|(t & r' & rest & Hh' & Hle)].
  - cbn [app] in Heq. destruct Hd as [->|(t0 & r0 & rest & t1 & Hh & Hlast1 & Hle)]; [by left|].
    right. rewrite Hh in Heq. exists t0, r0, (rest ++ [(ts, r)]), ts.
    split_and!; [by rewrite <- Heq|eapply Hl'; by rewrite <- Heq|].
    rewrite fmap_last in Hlast1. destruct (last h) as [[t2 r2]|] eqn:Eh; [|done].
    specialize (Hlt t2 r2 eq_refl). cbn in Hlast1. simplify_eq. lia.
  - right. exists t, r', rest, ts. split_and!; [done|by eapply Hl'|done].
Qed.

Lemma pruned_replace full h t r :
  pruned_of full h -> (exists r', last h = Some (t, r')) ->
  pruned_of (removelast full ++ [(t, r)]) (removelast h ++ [(t, r)]).
Proof.
  intros [Hs (dropped & -> & Hd)] [r' Hlast].
  apply last_Some in Hlast as [h1 ->]. rewrite app_assoc in *. rewrite !removelast_last.
  split.
  - eapply increasing_times; [|exact Hs]. by rewrite !fmap_app.
  - exists dropped. split; [by rewrite app_assoc|].
    destruct Hd as [->|(t0 & r0 & rest & t1 & Hh & Hl & Hle)]; [by left|]. right.
    rewrite fmap_last, last_snoc in Hl. injection Hl as <-.
    destruct h1 as [|[t2 r2] h1]; cbn in Hh; simplify_eq.
    + by exists t0, r, [], t0.
    + exists t0, r0, (h1 ++ [(t, r)]), t. split_and!; [done| |done].
      rewrite fmap_last. exact (f_equal (fmap fst) (last_snoc (t, r) ((t0, r0) :: h1))).
Qed.

(** One observation: the adapter and the log accept or reject it together. *)
Definition rain_related (log : gmap string LandslideAdapter.history) (a : LandslideAdapter.t) : Prop :=
  forall source, pruned_of (default [] (log !! source)) (LandslideAdapter.history_of a source).

Lemma rain_related_insert log a source full h :
  rain_related log a -> pruned_of full h ->
  rain_related (<[source := full]> log)
    (LandslideAdapter.set_rain_history (<[source := h]> (LandslideAdapter.rain_history a)) a).
Proof.
  intros Hr Hp s. unfold LandslideAdapter.history_of; cbn. rewrite !lookup_insert.
  case_decide; [done|]. apply Hr.
Qed.

Lemma record_rain_related o log a :
  rain_related log a ->
  match full_record o log with
  | Some log' => exists a', LandslideAdapter.record_rain o a = (Ok tt, a') /\ rain_related log' a'
  | None => exists e, LandslideAdapter.record_rain o a = (Raise e, a)
  end.
Proof.
  intros Hr. unfold full_record, LandslideAdapter.record_rain.
  destruct (Observation.values o !! "rainfall_mm_h") as [rate|]; [|by exists a].
  unfold bind, get. pose proof (Hr (Observation.source_id o)) as Hp.
  pose proof (pruned_last _ _ Hp) as Hlast. rewrite Hlast.
  destruct (last (LandslideAdapter.history_of a _)) as [[newest r]|] eqn:El.
  - destruct (Observation.observed_at o <? newest) eqn:Elt.
    { replace (Observation.observed_at o <=? newest) with true by lia.
      replace (Observation.observed_at o =? newest) with false by lia. eauto. }
    destruct (Observation.observed_at o =? newest) eqn:Eeq.
    + replace (Observation.observed_at o <=? newest) with true by lia.
      eexists. split; [reflexivity|]. apply rain_related_insert; [done|].
      apply Z.eqb_eq in Eeq. rewrite Eeq. apply pruned_replace; eauto.
    + replace (Observation.observed_at o <=? newest) with false by lia.
      eexists. split; [reflexivity|]. apply rain_related_insert; [done|].
      apply pruned_snoc; [done|]. intros t r' Ht. rewrite El in Ht. injection Ht as <- <-. lia.
  - eexists. split; [reflexivity|]. apply rain_related_insert; [done|].
    apply pruned_snoc; [done|]. intros t r' Ht. by rewrite El in Ht.
Qed.

(** Feeding observations one after the other; a rejected one changes nothing. *)
Fixpoint rain_run (os : list Observation.t) (a : LandslideAdapter.t) : LandslideAdapter.t :=
  match os with
  | [] => a
  | o :: os => rain_run os (LandslideAdapter.record_rain o a).2
  end.

Fixpoint full_run (os : list Observation.t) (log : gmap string LandslideAdapter.history)
  : gmap string LandslideAdapter.history :=
  match os with
  | [] => log
  | o :: os => full_run os (default log (full_record o log))
  end.

Lemma rain_run_related os log a : rain_related log a -> rain_related (full_run os log) (rain_run os a).
Proof.
  revert log a. induction os as [|o os IH]; intros log a Hr; cbn; [done|].
  pose proof (record_rain_related o log a Hr) as H. destruct (full_record o log) as [log'|]; cbn.
  - destruct H as (a' & -> & H). by apply IH.
  - destruct H as [e ->]. by apply IH.
Qed.

(** Pruning the rain history to 24 hours is an optimisation only: after
    any sequence of observations, accepted or rejected, every rainfall
    accumulation over at most 24 hours, at or after the newest sample of the
    source, is bit for bit the one computed from a log that is never pruned. *)
Theorem rain_pruning_refines_full_log os a source now window :
  LandslideAdapter.rain_history a = ∅ -> 0 <= window <= 24 ->
  (forall t, last (fst <$> LandslideAdapter.history_of (rain_run os a) source) = Some t -> t <= now) ->
  LandslideAdapter.accumulation (LandslideAdapter.history_of (rain_run os a) source) now window
  = LandslideAdapter.accumulation (default [] (full_run os ∅ !! source)) now window.
Proof.
  intros Hempty. apply accumulation_pruned. apply rain_run_related.
  intros s. unfold LandslideAdapter.history_of. rewrite Hempty, lookup_empty. cbn.
  split; [constructor|]. exists []. auto.
Qed.

Definition demo_landslide : LandslideAdapter.t :=
  LandslideAdapter.mk LandslideAdapter.default_profile ∅ None (lit 25 100) "profile".

Definition demo_rain (t : Z) : Observation.t :=
  let o := empty_observation HazardKind.LANDSLIDE
    (<["rainfall_mm_h" := of_Z 12]> (<["tilt_rate_deg_h" := f1]> ∅)) in
  Observation.mk (Observation.schema_version o) (Observation.observation_id o)
    (Observation.correlation_id o) (Observation.source_id o) (Observation.hazard o)
    (Observation.source_mode o) (Observation.boot_id o) (Observation.sequence o)
    (hours t) (hours t) (Observation.values o) (Observation.units o)
    (Observation.quality_flags o) (Observation.source_lineage o) (Observation.clock_epoch o)
    (Observation.clock_uncertainty_ms o) (Observation.measurements o)
    (Observation.measurement_references o) (Observation.measurement_orientations o)
    (Observation.measurement_uncertainty o).

Definition demo_rains : list Observation.t := demo_rain <$> [0; 1; 30; 29; 31].

Lemma rain_pruning_refines_full_log_witness :
  length (LandslideAdapter.history_of (rain_run demo_rains demo_landslide) "source-1") = 3%nat /\
  length (default [] (full_run demo_rains ∅ !! "source-1")) = 4%nat /\
  LandslideAdapter.accumulation
    (LandslideAdapter.history_of (rain_run demo_rains demo_landslide) "source-1") (hours 31) 24
  = LandslideAdapter.accumulation (default [] (full_run demo_rains ∅ !! "source-1")) (hours 31) 24.
Proof.
  split; [vm_compute; reflexivity|]. split; [vm_compute; reflexivity|].
  apply rain_pruning_refines_full_log; [reflexivity|lia|].
  intros t Ht. vm_compute in Ht. injection Ht as <-. vm_compute. discriminate.
Defined.

Lemma landslide_escalation_needs_movement_witness :
  exists r a', LandslideAdapter.analyze demo_stamp (demo_rain 1) demo_landslide = (Ok r, a') /\
    fle (lit 55 100) (AnalysisResult.score r) = true.
Proof.
  destruct (LandslideAdapter.analyze demo_stamp (demo_rain 1) demo_landslide) as [[r|e] a'] eqn:E;
    [|vm_compute in E; discriminate].
  exists r, a'. split; [reflexivity|].
  assert (He : escalated (AnalysisResult.state_hint r)).
  { right. vm_compute in E. injection E as <- _. reflexivity. }
  apply (landslide_escalation_needs_movement demo_stamp (demo_rain 1) demo_landslide r a' E). exact He.
Defined.
