(* ===== verification/Artifacts.v ===== *)
(** Governed artifact storage (storage/artifact_governance.py,
    storage/artifacts.py): policies, the catalog of registrations, references
    and deletion events, and the content-addressed store on top of it.

    Bytes are strings.  The directory tree of the store is the finite map from
    relative paths to contents; what happens to it outside the store is an
    argument of the executions.  The catalog's tables are lists of rows.
    [sha256] is the hexadecimal digest, [uuid5] is [uuid5(NAMESPACE_URL, name)],
    [isoformat] and [json_time] the two texts of a timestamp (Python's and
    pydantic's); clock readings and the outcome of a file write are arguments. *)

From Stdlib Require Import ZArith.
From S2P Require Import Prelude Binary64 Enums Models CanonicalJson.
Open Scope Z_scope.

Module ArtifactClassification.
Inductive t : Type :=
  | PUBLIC
  | INTERNAL
  | RESTRICTED
  | SECRET_PROHIBITED.
#[global] Instance eq_dec : EqDecision t.
Proof. solve_decision. Defined.
Definition value (x : t) : string :=
  match x with
  | PUBLIC => "public"
  | INTERNAL => "internal"
  | RESTRICTED => "restricted"
  | SECRET_PROHIBITED => "secret_prohibited"
  end.
End ArtifactClassification.

Module ArtifactRetention.
Inductive t : Type :=
  | EPHEMERAL
  | OPERATIONAL
  | INCIDENT_EVIDENCE
  | RELEASE_PROOF
  | LEGAL_HOLD.
#[global] Instance eq_dec : EqDecision t.
Proof. solve_decision. Defined.
Definition value (x : t) : string :=
  match x with
  | EPHEMERAL => "ephemeral"
  | OPERATIONAL => "operational"
  | INCIDENT_EVIDENCE => "incident_evidence"
  | RELEASE_PROOF => "release_proof"
  | LEGAL_HOLD => "legal_hold"
  end.
End ArtifactRetention.

Module ArtifactEncryption.
Inductive t : Type :=
  | NONE
  | NODE_AT_REST
  | EXTERNAL_ENVELOPE_REQUIRED.
#[global] Instance eq_dec : EqDecision t.
Proof. solve_decision. Defined.
Definition value (x : t) : string :=
  match x with
  | NONE => "none"
  | NODE_AT_REST => "node_at_rest"
  | EXTERNAL_ENVELOPE_REQUIRED => "external_envelope_required"
  end.
End ArtifactEncryption.

Module ArtifactExportPolicy.
Inductive t : Type :=
  | ALLOWED
  | REDACTED_ONLY
  | PROHIBITED.
#[global] Instance eq_dec : EqDecision t.
Proof. solve_decision. Defined.
Definition value (x : t) : string :=
  match x with
  | ALLOWED => "allowed"
  | REDACTED_ONLY => "redacted_only"
  | PROHIBITED => "prohibited"
  end.
End ArtifactExportPolicy.

Module ArtifactDeletionPolicy.
Inductive t : Type :=
  | GC_ALLOWED
  | TOMBSTONE_REQUIRED
  | HOLD_PROTECTED
  | MANUAL_ONLY.
#[global] Instance eq_dec : EqDecision t.
Proof. solve_decision. Defined.
Definition value (x : t) : string :=
  match x with
  | GC_ALLOWED => "gc_allowed"
  | TOMBSTONE_REQUIRED => "tombstone_required"
  | HOLD_PROTECTED => "hold_protected"
  | MANUAL_ONLY => "manual_only"
  end.
End ArtifactDeletionPolicy.

Module ArtifactReferenceKind.
Inductive t : Type :=
  | LEASE
  | LEGAL_HOLD
  | INCIDENT_HOLD
  | RELEASE_CANDIDATE
  | TARGET_BINDING
  | MINIMUM_PROOF.
#[global] Instance eq_dec : EqDecision t.
Proof. solve_decision. Defined.
Definition value (x : t) : string :=
  match x with
  | LEASE => "lease"
  | LEGAL_HOLD => "legal_hold"
  | INCIDENT_HOLD => "incident_hold"
  | RELEASE_CANDIDATE => "release_candidate"
  | TARGET_BINDING => "target_binding"
  | MINIMUM_PROOF => "minimum_proof"
  end.
End ArtifactReferenceKind.

(* validate_policy *)
(* internal_operational *)
(* incident_evidence *)
(* configuration_bundle *)
(* telemetry_batch *)
(* after_event_review *)
(* claim_registry *)
(* sanitized_media *)
(* export_bundle *)
(* release_proof *)
Module ArtifactPolicy.
Record t : Type := mk {
  classification : ArtifactClassification.t;
  retention : ArtifactRetention.t;
  encryption : ArtifactEncryption.t;
  export_policy : ArtifactExportPolicy.t;
  deletion_policy : ArtifactDeletionPolicy.t;
  retention_expires_at : option datetime;
  reason_codes : list string
}.
#[global] Instance eq_dec : EqDecision t.
Proof. solve_decision. Defined.

Definition validate (p : t) : res t :=
  check (bool_decide (classification p = ArtifactClassification.SECRET_PROHIBITED))
    (ValidationError "secret-prohibited artifact persistence is forbidden") >>!
  check (bool_decide (classification p = ArtifactClassification.RESTRICTED)
         && bool_decide (export_policy p = ArtifactExportPolicy.ALLOWED))
    (ValidationError "restricted artifacts require redacted-only or prohibited export policy") >>!
  check (bool_decide (retention p = ArtifactRetention.LEGAL_HOLD)
         && negb (bool_decide (deletion_policy p = ArtifactDeletionPolicy.HOLD_PROTECTED)))
    (ValidationError "legal-hold artifacts must be hold protected") >>!
  check (negb (bool_decide (retention_expires_at p = None))
         && bool_decide (retention p = ArtifactRetention.LEGAL_HOLD))
    (ValidationError "legal-hold retention expiry must be represented by an explicit hold reference") >>!
  Ok p.

Definition internal_operational : t :=
  mk ArtifactClassification.INTERNAL ArtifactRetention.OPERATIONAL ArtifactEncryption.NODE_AT_REST
    ArtifactExportPolicy.ALLOWED ArtifactDeletionPolicy.GC_ALLOWED None ["default_internal_operational"].
Definition incident_evidence (restricted : bool) : t :=
  mk (if restricted then ArtifactClassification.RESTRICTED else ArtifactClassification.INTERNAL)
    ArtifactRetention.INCIDENT_EVIDENCE ArtifactEncryption.NODE_AT_REST
    (if restricted then ArtifactExportPolicy.REDACTED_ONLY else ArtifactExportPolicy.ALLOWED)
    ArtifactDeletionPolicy.TOMBSTONE_REQUIRED None ["incident_evidence"].
Definition configuration_bundle : t :=
  mk ArtifactClassification.INTERNAL ArtifactRetention.OPERATIONAL ArtifactEncryption.NODE_AT_REST
    ArtifactExportPolicy.PROHIBITED ArtifactDeletionPolicy.MANUAL_ONLY None ["configuration_bundle"].
Definition telemetry_batch : t :=
  mk ArtifactClassification.INTERNAL ArtifactRetention.EPHEMERAL ArtifactEncryption.NODE_AT_REST
    ArtifactExportPolicy.PROHIBITED ArtifactDeletionPolicy.GC_ALLOWED None ["noncritical_telemetry"].
Definition after_event_review : t :=
  mk ArtifactClassification.RESTRICTED ArtifactRetention.INCIDENT_EVIDENCE ArtifactEncryption.NODE_AT_REST
    ArtifactExportPolicy.REDACTED_ONLY ArtifactDeletionPolicy.TOMBSTONE_REQUIRED None ["after_event_review"].
Definition claim_registry : t :=
  mk ArtifactClassification.INTERNAL ArtifactRetention.RELEASE_PROOF ArtifactEncryption.NODE_AT_REST
    ArtifactExportPolicy.REDACTED_ONLY ArtifactDeletionPolicy.HOLD_PROTECTED None ["claim_registry"].
Definition sanitized_media : t :=
  mk ArtifactClassification.RESTRICTED ArtifactRetention.INCIDENT_EVIDENCE ArtifactEncryption.NODE_AT_REST
    ArtifactExportPolicy.REDACTED_ONLY ArtifactDeletionPolicy.TOMBSTONE_REQUIRED None
    ["sanitized_untrusted_media"].
Definition release_proof : t :=
  mk ArtifactClassification.PUBLIC ArtifactRetention.RELEASE_PROOF ArtifactEncryption.NONE
    ArtifactExportPolicy.ALLOWED ArtifactDeletionPolicy.HOLD_PROTECTED None ["release_proof"].
Definition export_bundle (public : bool) : t :=
  if public then release_proof
  else mk ArtifactClassification.INTERNAL ArtifactRetention.OPERATIONAL ArtifactEncryption.NODE_AT_REST
         ArtifactExportPolicy.ALLOWED ArtifactDeletionPolicy.MANUAL_ONLY None ["governed_internal_export"].
End ArtifactPolicy.

(** [_CLASS_ORDER], and [list(ArtifactRetention).index]. *)
Definition CLASS_ORDER (c : ArtifactClassification.t) : Z :=
  match c with
  | ArtifactClassification.PUBLIC => 0 | ArtifactClassification.INTERNAL => 1
  | ArtifactClassification.RESTRICTED => 2 | ArtifactClassification.SECRET_PROHIBITED => 3
  end.
Definition retention_index (r : ArtifactRetention.t) : Z :=
  match r with
  | ArtifactRetention.EPHEMERAL => 0 | ArtifactRetention.OPERATIONAL => 1
  | ArtifactRetention.INCIDENT_EVIDENCE => 2 | ArtifactRetention.RELEASE_PROOF => 3
  | ArtifactRetention.LEGAL_HOLD => 4
  end.

Module ArtifactReadDecision.
Record t : Type := mk { allowed : bool; disclose_digest : bool; reason_codes : list string }.
End ArtifactReadDecision.

Definition authorize_artifact_read (policy : ArtifactPolicy.t) (owner requester : string)
    (verification_role integrity_valid : bool) (observed_bytes max_bytes : Z) : ArtifactReadDecision.t :=
  let restricted := bool_decide (ArtifactPolicy.classification policy = ArtifactClassification.RESTRICTED) in
  let reasons :=
    (if blank owner || negb (bool_decide (requester = owner)) then ["wrong_owner"] else [])
    ++ (if integrity_valid then [] else ["integrity_failed"])
    ++ (if (observed_bytes <? 0) || (max_bytes <=? 0) || (max_bytes <? observed_bytes) then ["oversize"] else [])
    ++ (if restricted && negb verification_role then ["restricted_read_unauthorized"] else []) in
  let allowed := bool_decide (reasons = []) in
  ArtifactReadDecision.mk allowed (allowed && (negb restricted || verification_role))
    (if allowed then ["artifact_read_authorized"] else reasons).

Module ArtifactScope.
Record t : Type := mk {
  source_id : option string;
  incident_id : option string;
  scenario_run_id : option string;
  release_candidate_id : option string
}.
#[global] Instance eq_dec : EqDecision t.
Proof. solve_decision. Defined.
Definition validate (s : t) : res t :=
  let given_blank (o : option string) := match o with Some v => blank v | None => false end in
  check (given_blank (source_id s) || given_blank (incident_id s) || given_blank (scenario_run_id s)
         || given_blank (release_candidate_id s))
    (ValidationError "artifact scope values must not be blank") >>!
  Ok s.
Definition empty : t := mk None None None None.
End ArtifactScope.

Module ArtifactBudgetPolicy.
Record t : Type := mk {
  node_max_objects : Z;
  per_source_max_objects : Z;
  per_source_max_bytes : Z;
  per_incident_max_objects : Z;
  per_incident_max_bytes : Z;
  per_run_max_objects : Z;
  per_run_max_bytes : Z;
  per_candidate_max_objects : Z;
  per_candidate_max_bytes : Z
}.
Definition validate (b : t) : res t :=
  check (negb (forallb (Z.leb 1)
    [node_max_objects b; per_source_max_objects b; per_source_max_bytes b; per_incident_max_objects b;
     per_incident_max_bytes b; per_run_max_objects b; per_run_max_bytes b; per_candidate_max_objects b;
     per_candidate_max_bytes b]))
    (ValidationError "budgets must be >= 1") >>!
  Ok b.
Definition defaults : t :=
  mk 100000 10000 (128 * 1024 * 1024) 10000 (256 * 1024 * 1024) 20000 (512 * 1024 * 1024)
    20000 (512 * 1024 * 1024).
End ArtifactBudgetPolicy.

Module ArtifactRecord.
Record t : Type := mk {
  registration_id : UUID;
  sha256 : string;
  relative_path : string;
  bytes : Z;
  media_type : string;
  policy : ArtifactPolicy.t;
  scope : ArtifactScope.t;
  critical : bool;
  created_at : datetime;
  policy_sha256 : string
}.
End ArtifactRecord.

Module ArtifactReference.
Record t : Type := mk {
  reference_id : UUID;
  artifact_sha256 : string;
  kind : ArtifactReferenceKind.t;
  owner : string;
  reason : string;
  created_at : datetime;
  expires_at : option datetime
}.
Definition validate (r : t) : res t :=
  check (blank (owner r) || blank (reason r))
    (ValidationError "artifact reference owner and reason are required") >>!
  check (match expires_at r with Some e => e <=? created_at r | None => false end)
    (ValidationError "artifact reference expiry must follow creation") >>!
  Ok r.
End ArtifactReference.

(** ** The catalog *)
Module ArtifactCatalog.

Record gc_event : Type := mkGc {
  event_id : UUID;
  gc_artifact_sha256 : string;
  action : string;
  actor : string;
  gc_reason_codes : list string;
  gc_created_at : datetime
}.

Record t : Type := mk {
  budgets : ArtifactBudgetPolicy.t;
  artifact_registrations : list ArtifactRecord.t;
  artifact_references : list ArtifactReference.t;
  artifact_gc_events : list gc_event
}.
Definition init (budgets : ArtifactBudgetPolicy.t) : t := mk budgets [] [] [].
Definition set_registrations v (c : t) : t := mk (budgets c) v (artifact_references c) (artifact_gc_events c).
Definition set_references v (c : t) : t := mk (budgets c) (artifact_registrations c) v (artifact_gc_events c).
Definition set_gc_events v (c : t) : t := mk (budgets c) (artifact_registrations c) (artifact_references c) v.

(** [SELECT COUNT( * ), SUM(bytes) ... WHERE field=?] *)
Definition scope_usage (field : ArtifactScope.t -> option string) (value : string) (c : t) : Z * Z :=
  let rows := select (fun r => bool_decide (field (ArtifactRecord.scope r) = Some value))
                (artifact_registrations c) in
  (Z.of_nat (length rows), foldr Z.add 0 (ArtifactRecord.bytes <$> rows)).

Fixpoint check_budgets (checks : list (string * (ArtifactScope.t -> option string) * Z * Z))
    (scope : ArtifactScope.t) (size : Z) (c : t) : res unit :=
  match checks with
  | [] => Ok tt
  | (name, field, max_objects, max_bytes) :: checks =>
      match field scope with
      | None => check_budgets checks scope size c
      | Some value =>
          let '(objects, used) := scope_usage field value c in
          check (max_objects <? objects + 1)
            (OSError ("artifact " +:+ name +:+ " object-count budget exceeded")) >>!
          check (max_bytes <? used + size)
            (OSError ("artifact " +:+ name +:+ " byte budget exceeded")) >>!
          check_budgets checks scope size c
      end
  end.

Definition check_scope_budget (scope : ArtifactScope.t) (size : Z) (c : t) : res unit :=
  let b := budgets c in
  check (ArtifactBudgetPolicy.node_max_objects b <? Z.of_nat (length (artifact_registrations c)) + 1)
    (OSError "artifact node object-count budget exceeded") >>!
  check_budgets
    [("source_id", ArtifactScope.source_id, ArtifactBudgetPolicy.per_source_max_objects b,
      ArtifactBudgetPolicy.per_source_max_bytes b);
     ("incident_id", ArtifactScope.incident_id, ArtifactBudgetPolicy.per_incident_max_objects b,
      ArtifactBudgetPolicy.per_incident_max_bytes b);
     ("scenario_run_id", ArtifactScope.scenario_run_id, ArtifactBudgetPolicy.per_run_max_objects b,
      ArtifactBudgetPolicy.per_run_max_bytes b);
     ("release_candidate_id", ArtifactScope.release_candidate_id,
      ArtifactBudgetPolicy.per_candidate_max_objects b, ArtifactBudgetPolicy.per_candidate_max_bytes b)]
    scope size c.

(** [records(sha256)]; the row of a registration holds the record. *)
Definition records_of (sha256 : string) (c : t) : list ArtifactRecord.t :=
  order_by ArtifactRecord.created_at ArtifactRecord.registration_id
    (select (fun r => bool_decide (ArtifactRecord.sha256 r = sha256)) (artifact_registrations c)).
Definition records (c : t) : list ArtifactRecord.t :=
  order_by ArtifactRecord.created_at ArtifactRecord.registration_id (artifact_registrations c).

(** [max(items, key=...)]: the first item with the largest key. *)
Fixpoint max_item {A} (key : A -> Z) (x : A) (l : list A) : A :=
  match l with
  | [] => x
  | y :: l => max_item key (if key x <? key y then y else x) l
  end.

(** [min(...)] of a list that may be empty. *)
Definition min_of (l : list Z) : option Z :=
  match l with [] => None | x :: l => Some (foldl Z.min x l) end.

Definition any_export (p : ArtifactExportPolicy.t) (l : list ArtifactPolicy.t) : bool :=
  existsb (fun q => bool_decide (ArtifactPolicy.export_policy q = p)) l.
Definition any_deletion (p : ArtifactDeletionPolicy.t) (l : list ArtifactPolicy.t) : bool :=
  existsb (fun q => bool_decide (ArtifactPolicy.deletion_policy q = p)) l.
Definition any_encryption (p : ArtifactEncryption.t) (l : list ArtifactPolicy.t) : bool :=
  existsb (fun q => bool_decide (ArtifactPolicy.encryption q = p)) l.

(** The policy merged from those of all registrations. *)
Definition merged (first : ArtifactPolicy.t) (rest : list ArtifactPolicy.t) : ArtifactPolicy.t :=
  let l := first :: rest in
  ArtifactPolicy.mk
    (ArtifactPolicy.classification
       (max_item (fun p => CLASS_ORDER (ArtifactPolicy.classification p)) first rest))
    (ArtifactPolicy.retention
       (max_item (fun p => retention_index (ArtifactPolicy.retention p)) first rest))
    (if any_encryption ArtifactEncryption.EXTERNAL_ENVELOPE_REQUIRED l
     then ArtifactEncryption.EXTERNAL_ENVELOPE_REQUIRED
     else if any_encryption ArtifactEncryption.NODE_AT_REST l then ArtifactEncryption.NODE_AT_REST
     else ArtifactEncryption.NONE)
    (if any_export ArtifactExportPolicy.PROHIBITED l then ArtifactExportPolicy.PROHIBITED
     else if any_export ArtifactExportPolicy.REDACTED_ONLY l then ArtifactExportPolicy.REDACTED_ONLY
     else ArtifactExportPolicy.ALLOWED)
    (if any_deletion ArtifactDeletionPolicy.HOLD_PROTECTED l then ArtifactDeletionPolicy.HOLD_PROTECTED
     else if any_deletion ArtifactDeletionPolicy.TOMBSTONE_REQUIRED l
     then ArtifactDeletionPolicy.TOMBSTONE_REQUIRED
     else if any_deletion ArtifactDeletionPolicy.MANUAL_ONLY l then ArtifactDeletionPolicy.MANUAL_ONLY
     else ArtifactDeletionPolicy.GC_ALLOWED)
    (min_of (omap ArtifactPolicy.retention_expires_at l))
    (sorted_set (l ≫= ArtifactPolicy.reason_codes)).

Definition effective_policy (sha256 : string) (c : t) : res ArtifactPolicy.t :=
  match ArtifactRecord.policy <$> records_of sha256 c with
  | [] => Raise (KeyError sha256)
  | first :: rest => ArtifactPolicy.validate (merged first rest)
  end.

(** The references of an artifact that have not expired. *)
Definition references (sha256 : string) (now : datetime) (c : t) : list ArtifactReference.t :=
  List.filter (fun r => match ArtifactReference.expires_at r with Some e => now <? e | None => true end)
    (order_by ArtifactReference.created_at ArtifactReference.reference_id
       (select (fun r => bool_decide (ArtifactReference.artifact_sha256 r = sha256)) (artifact_references c))).

Definition deletion_blockers (sha256 : string) (now : datetime) (c : t) : res (list string) :=
  rbind (effective_policy sha256 c) (fun policy =>
    let deletion := ArtifactPolicy.deletion_policy policy in
    Ok (sorted_strings
      ((if decide (deletion = ArtifactDeletionPolicy.GC_ALLOWED) then []
        else ["policy:" +:+ ArtifactDeletionPolicy.value deletion])
       ++ ((fun r => "reference:" +:+ ArtifactReferenceKind.value (ArtifactReference.kind r) +:+ ":"
                     +:+ ArtifactReference.reference_id r) <$> references sha256 now c)))).

Definition remove_reference (reference_id : UUID) : M t unit :=
  transaction (modify (fun c => set_references
    (List.filter (fun r => negb (bool_decide (ArtifactReference.reference_id r = reference_id)))
       (artifact_references c)) c)).

Section Operations.
Context (float_repr : f64 -> string) (sha256 : string -> string) (uuid5 : string -> UUID).
Context (isoformat json_time : datetime -> string).

Definition opt_str (o : option string) : json := match o with Some s => JStr s | None => JNull end.

(** [policy.model_dump(mode="json")] and [scope.model_dump(mode="json")] *)
Definition dump_policy (p : ArtifactPolicy.t) : json :=
  JDict [("classification", JStr (ArtifactClassification.value (ArtifactPolicy.classification p)));
         ("retention", JStr (ArtifactRetention.value (ArtifactPolicy.retention p)));
         ("encryption", JStr (ArtifactEncryption.value (ArtifactPolicy.encryption p)));
         ("export_policy", JStr (ArtifactExportPolicy.value (ArtifactPolicy.export_policy p)));
         ("deletion_policy", JStr (ArtifactDeletionPolicy.value (ArtifactPolicy.deletion_policy p)));
         ("retention_expires_at", opt_str (json_time <$> ArtifactPolicy.retention_expires_at p));
         ("reason_codes", JList (JStr <$> ArtifactPolicy.reason_codes p))].
Definition dump_scope (s : ArtifactScope.t) : json :=
  JDict [("source_id", opt_str (ArtifactScope.source_id s));
         ("incident_id", opt_str (ArtifactScope.incident_id s));
         ("scenario_run_id", opt_str (ArtifactScope.scenario_run_id s));
         ("release_candidate_id", opt_str (ArtifactScope.release_candidate_id s))].

Definition policy_digest (p : ArtifactPolicy.t) : string :=
  sha256 (canonical_json_bytes float_repr (dump_policy p)).

Definition registration_id_of (digest policy_sha256 : string) (scope : ArtifactScope.t) (critical : bool) : UUID :=
  uuid5 ("sentinel-artifact-registration:" +:+ sha256 (canonical_json_bytes float_repr
    (JDict [("sha256", JStr digest); ("policy_sha256", JStr policy_sha256);
            ("scope", dump_scope scope); ("critical", JBool critical)]))).

Definition register (digest relative_path : string) (bytes_count : Z) (media_type : string)
    (policy : ArtifactPolicy.t) (scope : ArtifactScope.t) (critical : bool) (created_at : datetime)
  : M t ArtifactRecord.t :=
  let policy_sha256 := policy_digest policy in
  let registration_id := registration_id_of digest policy_sha256 scope critical in
  let record := ArtifactRecord.mk registration_id digest relative_path bytes_count media_type policy scope
                  critical created_at policy_sha256 in
  transaction
    (let! c := get in
     match select_one (fun r => bool_decide (ArtifactRecord.registration_id r = registration_id))
             (artifact_registrations c) with
     | Some existing =>
         raise_if (negb (bool_decide (ArtifactRecord.policy_sha256 existing = policy_sha256))
                   || negb (bool_decide (ArtifactRecord.scope existing = scope)))
           (ValueError "artifact registration identity conflict") ;;;
         ret record
     | None =>
         lift (check_scope_budget scope bytes_count c) ;;;
         put (set_registrations (artifact_registrations c ++ [record]) c) ;;;
         ret record
     end).

Definition add_reference (digest : string) (kind : ArtifactReferenceKind.t) (owner reason : string)
    (expires_at : option datetime) (created_at : datetime) : M t ArtifactReference.t :=
  let! c := get in
  raise_if (bool_decide (records_of digest c = [])) (KeyError digest) ;;;
  let reference_id := uuid5 ("sentinel-artifact-reference:" +:+ digest +:+ ":"
    +:+ ArtifactReferenceKind.value kind +:+ ":" +:+ owner +:+ ":" +:+ reason +:+ ":"
    +:+ default "" (isoformat <$> expires_at)) in
  let! ref := lift (ArtifactReference.validate
    (ArtifactReference.mk reference_id digest kind owner reason created_at expires_at)) in
  transaction
    (let! c := get in
     match select_one (fun r => bool_decide (ArtifactReference.reference_id r = reference_id))
             (artifact_references c) with
     | Some existing => ret existing
     | None => put (set_references (artifact_references c ++ [ref]) c) ;;; ret ref
     end).

(** [INSERT OR IGNORE]: an event with a known identifier is dropped. *)
Definition record_gc_event (digest action actor : string) (reason_codes : list string) (created_at : datetime)
  : M t gc_event :=
  let payload :=
    JDict [("artifact_sha256", JStr digest); ("action", JStr action); ("actor", JStr actor);
           ("reason_codes", JList (JStr <$> reason_codes)); ("created_at", JStr (isoformat created_at))] in
  let event_id := uuid5 ("sentinel-artifact-gc:" +:+ sha256 (canonical_json_bytes float_repr payload)) in
  let event := mkGc event_id digest action actor reason_codes created_at in
  transaction
    (modify (fun c =>
       if existsb (same_key ArtifactCatalog.event_id event) (artifact_gc_events c) then c
       else set_gc_events (artifact_gc_events c ++ [event]) c)) ;;;
  ret event.
End Operations.
End ArtifactCatalog.

(** ** The content-addressed store *)
Module ArtifactRef.
Record t : Type := mk { sha256 : string; relative_path : string; bytes : Z; media_type : string }.
End ArtifactRef.

Module StorageHealthReport.
Record t : Type := mk {
  state : HealthState.t;
  path : string;
  writable : bool;
  total_bytes : Z;
  free_bytes : Z;
  used_bytes : Z;
  configured_max_bytes : Z;
  reserve_bytes : Z;
  reason_codes : list string
}.
End StorageHealthReport.

(** [shutil.disk_usage] and [os.access(root, os.W_OK)] *)
Record medium : Type := mkMedium { disk_total : Z; disk_free : Z; disk_used : Z; access : bool }.

Definition inspect_storage (m : medium) (path : string) (configured_max_bytes reserve_bytes : Z)
    (forced_read_only : bool) : StorageHealthReport.t :=
  let writable := access m && negb forced_read_only in
  let '(state, reasons) :=
    if negb writable then (HealthState.FAILED, ["medium_read_only_or_unwritable"])
    else if disk_free m <? reserve_bytes then (HealthState.DEGRADED, ["filesystem_free_space_below_reserve"])
    else (HealthState.HEALTHY, ["storage_writable"]) in
  StorageHealthReport.mk state path writable (disk_total m) (disk_free m) (disk_used m)
    configured_max_bytes reserve_bytes reasons.

Module ContentAddressedArtifactStore.

Record t : Type := mk {
  root : string;
  files : gmap string string;
  catalog : ArtifactCatalog.t;
  max_bytes : Z;
  reserve_bytes : Z;
  forced_read_only : bool;
  last_failure : option string
}.
Definition set_files v (s : t) : t :=
  mk (root s) v (catalog s) (max_bytes s) (reserve_bytes s) (forced_read_only s) (last_failure s).
Definition set_catalog v (s : t) : t :=
  mk (root s) (files s) v (max_bytes s) (reserve_bytes s) (forced_read_only s) (last_failure s).
Definition set_forced_read_only v (s : t) : t :=
  mk (root s) (files s) (catalog s) (max_bytes s) (reserve_bytes s) v (last_failure s).
Definition set_last_failure v (s : t) : t :=
  mk (root s) (files s) (catalog s) (max_bytes s) (reserve_bytes s) (forced_read_only s) v.

(** [__init__] on the tree and catalog found under [root]. *)
Definition create (root : string) (files : gmap string string) (catalog : ArtifactCatalog.t)
    (max_bytes reserve_bytes : Z) : res t :=
  check ((max_bytes <=? 0) || (reserve_bytes <? 0) || (max_bytes <=? reserve_bytes))
    (ValueError "artifact capacity budget is invalid") >>!
  Ok (mk root files catalog max_bytes reserve_bytes false None).

(** [Path(digest[:2]) / digest[2:]], for a digest of more than two characters *)
Definition slash : Ascii.ascii := chr 47.
Definition path_of (digest : string) : string :=
  match digest with
  | String a (String b rest) => String a (String b (String slash rest))
  | _ => digest
  end.

Definition size_of (data : string) : Z := Z.of_nat (String.length data).

(** The files of the tree that are not temporary, quarantined or metadata. *)
Definition used_bytes (s : t) : Z := map_fold (fun _ data total => size_of data + total) 0 (files s).

Definition set_read_only (value : bool) : M t unit :=
  modify (set_forced_read_only value) ;;;
  if value then modify (set_last_failure (Some "medium_read_only_or_unwritable")) else ret tt.

Definition health (m : medium) (s : t) : StorageHealthReport.t :=
  let report := inspect_storage m (root s) (max_bytes s) (reserve_bytes s) (forced_read_only s) in
  let used := used_bytes s in
  let with_state state configured reserve reasons :=
    StorageHealthReport.mk state (StorageHealthReport.path report) (StorageHealthReport.writable report)
      (StorageHealthReport.total_bytes report) (StorageHealthReport.free_bytes report) used
      configured reserve reasons in
  match last_failure s with
  | Some failure =>
      if negb (bool_decide (failure = ""))
         && negb (bool_decide (failure ∈ StorageHealthReport.reason_codes report)) then
        with_state (if forced_read_only s then HealthState.FAILED else HealthState.DEGRADED)
          (StorageHealthReport.configured_max_bytes report) (StorageHealthReport.reserve_bytes report)
          (sorted_set (StorageHealthReport.reason_codes report ++ [failure]))
      else if bool_decide (StorageHealthReport.state report = HealthState.HEALTHY)
              && (max_bytes s - reserve_bytes s <? used) then
        with_state HealthState.DEGRADED (max_bytes s) (reserve_bytes s) ["artifact_reserve_in_use"]
      else with_state (StorageHealthReport.state report) (max_bytes s) (reserve_bytes s)
             (StorageHealthReport.reason_codes report)
  | None =>
      if bool_decide (StorageHealthReport.state report = HealthState.HEALTHY)
         && (max_bytes s - reserve_bytes s <? used) then
        with_state HealthState.DEGRADED (max_bytes s) (reserve_bytes s) ["artifact_reserve_in_use"]
      else with_state (StorageHealthReport.state report) (max_bytes s) (reserve_bytes s)
             (StorageHealthReport.reason_codes report)
  end.

(** [noncritical_budget_remaining_bytes] and [critical_budget_remaining_bytes] *)
Definition budget_remaining (m : medium) (s : t) : Z * Z :=
  let used := StorageHealthReport.used_bytes (health m s) in
  (Z.max 0 (max_bytes s - reserve_bytes s - used), Z.max 0 (max_bytes s - used)).

Definition hex_digit (c : Ascii.ascii) : bool :=
  let n := Ascii.nat_of_ascii c in ((48 <=? n) && (n <=? 57) || (97 <=? n) && (n <=? 102))%nat.
Definition hex_digit_any_case (c : Ascii.ascii) : bool :=
  let n := Ascii.nat_of_ascii c in hex_digit c || ((65 <=? n) && (n <=? 70))%nat.
Definition is_digest (digit : Ascii.ascii -> bool) (digest : string) : bool :=
  (String.length digest =? 64)%nat && forallb digit (String.list_ascii_of_string digest).

(** What [delete_digest] reports. *)
Module Deletion.
Record t : Type := mk {
  artifact_sha256 : string;
  existed : bool;
  bytes_removed : Z;
  deletion_proof_sha256 : string;
  relative_path : string;
  policy : option ArtifactPolicy.t
}.
End Deletion.

Section Operations.
Context (float_repr : f64 -> string) (sha256 : string -> string) (uuid5 : string -> UUID).
Context (isoformat json_time : datetime -> string).

Definition on_catalog {A} (m : M ArtifactCatalog.t A) : M t A := zoom catalog set_catalog m.

(** [write] is the name of the exception the file operations raise, if they
    do; a failed write leaves no file behind. *)
Definition put_bytes (data media_type : string) (critical : bool) (policy : ArtifactPolicy.t)
    (scope : option ArtifactScope.t) (write : option string) (now : datetime) : M t ArtifactRef.t :=
  let! s := get in
  raise_if (forced_read_only s) (OSError "artifact medium is read-only") ;;;
  let scope := default ArtifactScope.empty scope in
  let digest := sha256 data in
  let relative := path_of digest in
  match files s !! relative with
  | Some existing =>
      raise_if (negb (bool_decide (sha256 existing = digest))) (RuntimeError "content-address collision") ;;;
      let! _ := on_catalog (ArtifactCatalog.register float_repr sha256 uuid5 json_time digest relative
                              (size_of existing) media_type policy scope critical now) in
      ret (ArtifactRef.mk digest relative (size_of existing) media_type)
  | None =>
      let limit := if critical then max_bytes s else max_bytes s - reserve_bytes s in
      (if limit <? used_bytes s + size_of data then
         modify (set_last_failure (Some
           (if critical then "artifact_capacity_exhausted"
            else "artifact_capacity_reserve_would_be_violated"))) ;;;
         raise (OSError (if critical then "artifact capacity exhausted"
                         else "artifact capacity reserve would be violated"))
       else ret tt) ;;;
      match write with
      | Some exc =>
          modify (set_last_failure (Some ("artifact_write_failed:" +:+ exc))) ;;;
          raise (OSError exc)
      | None =>
          modify (fun s => set_files (<[relative := data]> (files s)) s) ;;;
          let! _ := on_catalog (ArtifactCatalog.register float_repr sha256 uuid5 json_time digest relative
                                  (size_of data) media_type policy scope critical now) in
          ret (ArtifactRef.mk digest relative (size_of data) media_type)
      end
  end.

Definition read_bytes (digest : string) (s : t) : res string :=
  check (negb (is_digest hex_digit digest))
    (ValueError "artifact digest must be a lowercase SHA-256 value") >>!
  match files s !! path_of digest with
  | None => Raise (FileNotFoundError ("artifact not found for digest " +:+ digest))
  | Some data =>
      check (negb (bool_decide (sha256 data = digest)))
        (RuntimeError "artifact digest mismatch after reference") >>!
      Ok data
  end.

Definition verify (ref : ArtifactRef.t) (s : t) : bool :=
  match files s !! ArtifactRef.relative_path ref with
  | Some data => (size_of data =? ArtifactRef.bytes ref) && bool_decide (sha256 data = ArtifactRef.sha256 ref)
  | None => false
  end.

(** The policy check of a deletion; an artifact without registration has none. *)
Definition authorize_deletion (digest : string) (tombstone_authorized force : bool) (now : datetime) (s : t)
  : res (option ArtifactPolicy.t) :=
  match ArtifactCatalog.effective_policy digest (catalog s) with
  | Raise (KeyError _) => Ok None
  | Raise e => Raise e
  | Ok policy =>
      let deletion := ArtifactPolicy.deletion_policy policy in
      check (negb (bool_decide (ArtifactCatalog.references digest now (catalog s) = [])) && negb force)
        (PermissionError "artifact deletion blocked by active references") >>!
      check (bool_decide (deletion = ArtifactDeletionPolicy.TOMBSTONE_REQUIRED)
             && negb tombstone_authorized && negb force)
        (PermissionError "artifact deletion requires tombstone authorization") >>!
      check ((bool_decide (deletion = ArtifactDeletionPolicy.HOLD_PROTECTED)
              || bool_decide (deletion = ArtifactDeletionPolicy.MANUAL_ONLY)) && negb force)
        (PermissionError ("artifact deletion blocked by policy " +:+ ArtifactDeletionPolicy.value deletion)) >>!
      Ok (Some policy)
  end.

Definition delete_digest (digest actor : string) (tombstone_authorized force : bool) (now : datetime)
  : M t Deletion.t :=
  raise_if (negb (is_digest hex_digit_any_case digest))
    (ValueError "digest must be a lowercase SHA-256 hex value") ;;;
  let! s := get in
  let relative := path_of digest in
  let! policy := lift (authorize_deletion digest tombstone_authorized force now s) in
  let content := files s !! relative in
  let existed := bool_decide (is_Some content) in
  let bytes_removed := default 0 (size_of <$> content) in
  raise_if (match content with Some data => negb (bool_decide (sha256 data = digest)) | None => false end)
    (RuntimeError "artifact digest mismatch before deletion") ;;;
  modify (fun s => set_files (delete relative (files s)) s) ;;;
  let proof_payload := "sentinel-artifact-delete-v1:" +:+ digest +:+ ":"
    +:+ (if existed then "1" else "0") +:+ ":" +:+ pretty bytes_removed in
  (match policy with
   | Some _ =>
       let! _ := on_catalog (ArtifactCatalog.record_gc_event float_repr sha256 uuid5 isoformat digest
         (if existed then "deleted" else "already_absent") actor
         (if tombstone_authorized then ["tombstone_authorized"]
          else if force then ["forced"] else ["policy_allowed"]) now) in
       ret tt
   | None => ret tt
   end) ;;;
  ret (Deletion.mk digest existed bytes_removed (sha256 proof_payload) relative policy).

Definition add_reference (digest : string) (kind : ArtifactReferenceKind.t) (owner reason : string)
    (expires_at : option datetime) (now : datetime) : M t ArtifactReference.t :=
  on_catalog (ArtifactCatalog.add_reference uuid5 isoformat digest kind owner reason expires_at now).

(** The digests deleted, and those kept back with what blocks them. *)
Definition garbage : Type := list string * list (string * list string).

(** The loop of [collect_garbage]: [now] decides expiry, [clock digest] is the
    reading of the clock while [digest] is deleted. *)
Fixpoint collect (digests : list string) (actor : string) (now : datetime) (clock : string -> datetime)
    (found : garbage) : M t garbage :=
  match digests with
  | [] => ret found
  | digest :: digests =>
      let! s := get in
      let! policy := lift (ArtifactCatalog.effective_policy digest (catalog s)) in
      if match ArtifactPolicy.retention_expires_at policy with Some e => now <? e | None => true end
      then collect digests actor now clock found
      else
        let! blockers := lift (ArtifactCatalog.deletion_blockers digest now (catalog s)) in
        if bool_decide (blockers = []) then
          let! found := catch
            (let! _ := delete_digest digest actor false false (clock digest) in
             ret (found.1 ++ [digest], found.2))
            (fun e => match e with
                      | PermissionError msg => Some (ret (found.1, found.2 ++ [(digest, [msg])]))
                      | _ => None
                      end) in
          collect digests actor now clock found
        else collect digests actor now clock (found.1, found.2 ++ [(digest, blockers)])
  end.

Definition collect_garbage (actor : string) (now : datetime) (clock : string -> datetime) : M t garbage :=
  let! s := get in
  collect (sorted_set (ArtifactRecord.sha256 <$> ArtifactCatalog.records (catalog s))) actor now clock ([], []).
End Operations.
End ContentAddressedArtifactStore.
