(* ===== verification/ArtifactTheorems.v ===== *)
(** What the artifact store promises: the effective policy is the strictest of
    the registered ones, nothing is deleted that a policy or a reference
    protects, stored bytes are returned unchanged, and the capacity holds. *)

From Stdlib Require Import ZArith Lia ZifyBool.
From S2P Require Import Prelude Binary64 Enums Models CanonicalJson Artifacts.
Import ContentAddressedArtifactStore.
Open Scope Z_scope.

(** ** Policies as a product of orders *)
Definition export_rank (p : ArtifactExportPolicy.t) : Z :=
  match p with
  | ArtifactExportPolicy.ALLOWED => 0 | ArtifactExportPolicy.REDACTED_ONLY => 1
  | ArtifactExportPolicy.PROHIBITED => 2
  end.
Definition deletion_rank (p : ArtifactDeletionPolicy.t) : Z :=
  match p with
  | ArtifactDeletionPolicy.GC_ALLOWED => 0 | ArtifactDeletionPolicy.MANUAL_ONLY => 1
  | ArtifactDeletionPolicy.TOMBSTONE_REQUIRED => 2 | ArtifactDeletionPolicy.HOLD_PROTECTED => 3
  end.
Definition encryption_rank (e : ArtifactEncryption.t) : Z :=
  match e with
  | ArtifactEncryption.NONE => 0 | ArtifactEncryption.NODE_AT_REST => 1
  | ArtifactEncryption.EXTERNAL_ENVELOPE_REQUIRED => 2
  end.

(** The aspects of a policy, each measured by how much it restricts. *)
Definition aspects : list (ArtifactPolicy.t -> Z) :=
  [fun p => CLASS_ORDER (ArtifactPolicy.classification p);
   fun p => retention_index (ArtifactPolicy.retention p);
   fun p => encryption_rank (ArtifactPolicy.encryption p);
   fun p => export_rank (ArtifactPolicy.export_policy p);
   fun p => deletion_rank (ArtifactPolicy.deletion_policy p)].

(** [z] is the largest of the measures of [l]. *)
Definition largest {A} (f : A -> Z) (l : list A) (z : Z) : Prop :=
  (forall x, x ∈ l -> f x <= z) /\ exists x, x ∈ l /\ f x = z.

Lemma max_item_largest {A} (f : A -> Z) x l : largest f (x :: l) (f (ArtifactCatalog.max_item f x l)).
Proof.
  revert x. induction l as [|y l IH]; intros x; cbn.
  { split; [|exists x; split; [left|done]]. intros z ->%list_elem_of_singleton. lia. }
  destruct (IH (if f x <? f y then y else x)) as [Hle (z & Hz & Hfz)]. split.
  - intros w Hw. assert (f (if f x <? f y then y else x) <= f (ArtifactCatalog.max_item f (if f x <? f y then y else x) l)).
    { apply Hle. left. }
    apply elem_of_cons in Hw as [->|[->|Hw]%elem_of_cons]; [destruct (Z.ltb_spec (f x) (f y)); lia..|].
    apply Hle. by right.
  - exists z. split; [|done]. apply elem_of_cons in Hz as [->|Hz]; [|by do 2 right].
    destruct (f x <? f y); [right; left|left].
Qed.

Lemma existsb_elem {A} (p : A -> bool) l : existsb p l = true <-> exists x, x ∈ l /\ p x = true.
Proof. rewrite List.existsb_exists. by setoid_rewrite list_elem_of_In. Qed.

(** A cascade of tests from the strictest choice down computes the largest. *)
Lemma ranked_largest {A V} `{EqDecision V} (field : A -> V) (rank : V -> Z) (l : list A) (v : V) :
  (exists x, x ∈ l /\ field x = v) -> (forall x, x ∈ l -> rank (field x) <= rank v) ->
  largest (fun x => rank (field x)) l (rank v).
Proof. intros (x & Hx & <-) Hle. split; [done|]. by exists x. Qed.

Lemma any_false {A V} `{EqDecision V} (field : A -> V) (v : V) l x :
  existsb (fun q => bool_decide (field q = v)) l = false -> x ∈ l -> field x <> v.
Proof.
  intros He Hx Hf. enough (existsb (fun q => bool_decide (field q = v)) l = true) by congruence.
  apply existsb_elem. exists x. split; [done|]. by apply bool_decide_eq_true.
Qed.

Lemma any_true {A V} `{EqDecision V} (field : A -> V) (v : V) l :
  existsb (fun q => bool_decide (field q = v)) l = true -> exists x, x ∈ l /\ field x = v.
Proof. rewrite existsb_elem. by setoid_rewrite bool_decide_eq_true. Qed.

(** Splits a cascade of [any_*] tests over [l] and compares the ranks. *)
Ltac cascade l field :=
  repeat match goal with
  | |- context [if existsb ?p l then _ else _] =>
      let E := fresh "E" in destruct (existsb p l) eqn:E
  end;
  repeat match goal with
  | E : existsb (fun q => bool_decide (_ = ?v)) l = true |- _ => apply (any_true field v l) in E
  | E : existsb (fun q => bool_decide (_ = ?v)) l = false |- _ =>
      let H := fresh "H" in pose proof (fun x => any_false field v l x E) as H; clear E
  end.
Ltac by_rank l field first :=
  cascade l field; (apply ranked_largest;
  [first [assumption
         | exists first; split; [left|];
           repeat match goal with H : forall x, x ∈ l -> _ |- _ => specialize (H first ltac:(left)) end;
           destruct (field first); congruence]
  | let x := fresh "x" in let Hx := fresh "Hx" in intros x Hx;
    repeat match goal with H : forall x, x ∈ l -> _ |- _ => specialize (H x Hx) end;
    destruct (field x); cbn; first [congruence | lia]]).

Lemma merged_largest first rest f :
  f ∈ aspects -> largest f (first :: rest) (f (ArtifactCatalog.merged first rest)).
Proof.
  unfold aspects, ArtifactCatalog.merged, ArtifactCatalog.any_encryption, ArtifactCatalog.any_export,
    ArtifactCatalog.any_deletion. cbv zeta. set (l := first :: rest).
  rewrite !elem_of_cons. intros [->|[->|[->|[->|[->|[]%not_elem_of_nil]]]]]; cbn -[l largest].
  - exact (max_item_largest (fun p => CLASS_ORDER (ArtifactPolicy.classification p)) first rest).
  - exact (max_item_largest (fun p => retention_index (ArtifactPolicy.retention p)) first rest).
  - by_rank l ArtifactPolicy.encryption first.
  - by_rank l ArtifactPolicy.export_policy first.
  - by_rank l ArtifactPolicy.deletion_policy first.
Qed.

(** ** The effective policy *)
Definition policies (digest : string) (c : ArtifactCatalog.t) : list ArtifactPolicy.t :=
  ArtifactRecord.policy <$> ArtifactCatalog.records_of digest c.

Lemma elem_of_records_of digest c r :
  r ∈ ArtifactCatalog.records_of digest c <->
  r ∈ ArtifactCatalog.artifact_registrations c /\ ArtifactRecord.sha256 r = digest.
Proof.
  unfold ArtifactCatalog.records_of, order_by, select.
  rewrite sort_by_perm, list_elem_of_In, List.filter_In, <- list_elem_of_In, bool_decide_eq_true. done.
Qed.

(** What the tables say of an artifact: the policies it was registered with
    and the references to it that have not expired. *)
Definition registered (p : ArtifactPolicy.t) (digest : string) (c : ArtifactCatalog.t) : Prop :=
  exists r, r ∈ ArtifactCatalog.artifact_registrations c /\ ArtifactRecord.sha256 r = digest /\
    ArtifactRecord.policy r = p.
Definition active (r : ArtifactReference.t) (digest : string) (now : datetime) (c : ArtifactCatalog.t) : Prop :=
  r ∈ ArtifactCatalog.artifact_references c /\ ArtifactReference.artifact_sha256 r = digest /\
  match ArtifactReference.expires_at r with Some e => now < e | None => True end.
Definition unreferenced (digest : string) (now : datetime) (c : ArtifactCatalog.t) : Prop :=
  forall r, ~ active r digest now c.

Lemma registered_policies p digest c : registered p digest c <-> p ∈ policies digest c.
Proof.
  unfold registered, policies. rewrite list_elem_of_fmap. setoid_rewrite elem_of_records_of. naive_solver.
Qed.

Lemma elem_of_references r digest now c : r ∈ ArtifactCatalog.references digest now c <-> active r digest now c.
Proof.
  unfold ArtifactCatalog.references, active, order_by, select.
  rewrite list_elem_of_In, List.filter_In, <- list_elem_of_In, sort_by_perm, list_elem_of_In, List.filter_In.
  rewrite <- list_elem_of_In, bool_decide_eq_true.
  destruct (ArtifactReference.expires_at r); rewrite ?Z.ltb_lt; naive_solver.
Qed.

Lemma no_references digest now c : ArtifactCatalog.references digest now c = [] <-> unreferenced digest now c.
Proof.
  unfold unreferenced. setoid_rewrite <- elem_of_references. split; [by intros -> r ?%not_elem_of_nil|].
  destruct (ArtifactCatalog.references _ _ _) as [|r l]; [done|]. intros H. destruct (H r). left.
Qed.

Lemma effective_policy_ok digest c p :
  ArtifactCatalog.effective_policy digest c = Ok p ->
  exists first rest, policies digest c = first :: rest /\ p = ArtifactCatalog.merged first rest.
Proof.
  unfold ArtifactCatalog.effective_policy, policies.
  destruct (ArtifactRecord.policy <$> _) as [|first rest]; [done|]. intros H. exists first, rest.
  split; [done|]. unfold ArtifactPolicy.validate in H.
  repeat (apply rbind_ok in H as ([] & _ & H)). by injection H as <-.
Qed.

Lemma effective_policy_largest (digest : string) (c : ArtifactCatalog.t) p f :
  ArtifactCatalog.effective_policy digest c = Ok p -> f ∈ aspects -> largest f (policies digest c) (f p).
Proof. intros Hp Hf. apply effective_policy_ok in Hp as (first & rest & -> & ->). by apply merged_largest. Qed.

Lemma effective_policy_missing (digest : string) (c : ArtifactCatalog.t) :
  policies digest c = [] <-> ArtifactCatalog.effective_policy digest c = Raise (KeyError digest).
Proof.
  unfold policies, ArtifactCatalog.effective_policy.
  destruct (ArtifactRecord.policy <$> _) as [|first rest]; [done|]. split; [done|].
  unfold ArtifactPolicy.validate, check. intros H. by repeat case_match.
Qed.

(** In each aspect (classification, retention class, encryption, export and
    deletion) the effective policy of an artifact is exactly the strictest of
    the policies it was registered with; an artifact with no registration
    raises [KeyError]. *)
Theorem effective_policy_strictest (digest : string) (c : ArtifactCatalog.t) :
  (forall p f, ArtifactCatalog.effective_policy digest c = Ok p -> f ∈ aspects ->
     largest f (policies digest c) (f p)) /\
  (policies digest c = [] <-> ArtifactCatalog.effective_policy digest c = Raise (KeyError digest)).
Proof. split; [apply effective_policy_largest|apply effective_policy_missing]. Qed.

(** An artifact registered both under a legal hold and under a policy that
    expires has no effective policy: merging the two violates the rule that a
    legal hold carries no expiry. *)
Theorem legal_hold_and_expiry_conflict (digest : string) (c : ArtifactCatalog.t) (p q : ArtifactPolicy.t) e :
  p ∈ policies digest c -> ArtifactPolicy.retention p = ArtifactRetention.LEGAL_HOLD ->
  q ∈ policies digest c -> ArtifactPolicy.retention_expires_at q = Some e ->
  exists msg, ArtifactCatalog.effective_policy digest c = Raise (ValidationError msg).
Proof.
  intros Hp Hhold Hq He. unfold ArtifactCatalog.effective_policy. fold (policies digest c).
  destruct (policies digest c) as [|first rest] eqn:El; [by apply not_elem_of_nil in Hp|].
  destruct (merged_largest first rest (fun p => retention_index (ArtifactPolicy.retention p)))
    as [Hle _]; [unfold aspects; set_solver|].
  specialize (Hle p Hp). rewrite Hhold in Hle. cbn in Hle.
  assert (Hret : ArtifactPolicy.retention (ArtifactCatalog.merged first rest) = ArtifactRetention.LEGAL_HOLD).
  { cbn. destruct (ArtifactPolicy.retention (ArtifactCatalog.max_item _ _ _)); cbn in Hle; first [done|lia]. }
  assert (Hexp : ArtifactPolicy.retention_expires_at (ArtifactCatalog.merged first rest) <> None).
  { unfold ArtifactCatalog.merged. cbv zeta. cbn [ArtifactPolicy.retention_expires_at].
    destruct (omap _ (first :: rest)) as [|x l] eqn:Eo; [|done].
    assert (e ∈ omap ArtifactPolicy.retention_expires_at (first :: rest)) as Hin by
      (apply list_elem_of_omap; by exists q). rewrite Eo in Hin. by apply not_elem_of_nil in Hin. }
  unfold ArtifactPolicy.validate. rewrite Hret. unfold check.
  repeat (case_bool_decide; cbn [andb negb rbind]; eauto); done.
Qed.

(** ** Paths and sizes *)
Lemma path_of_inj a b :
  (2 <= String.length a)%nat -> (2 <= String.length b)%nat -> path_of a = path_of b -> a = b.
Proof.
  destruct a as [|a1 [|a2 a]], b as [|b1 [|b2 b]]; cbn; try lia. intros _ _ [= -> -> ->]. done.
Qed.

Lemma is_digest_length digit d : is_digest digit d = true -> (2 <= String.length d)%nat.
Proof. unfold is_digest. intros [H%Nat.eqb_eq _]%andb_true_iff. lia. Qed.

Definition total_size (fs : gmap string string) : Z := map_fold (fun _ data total => size_of data + total) 0 fs.

Lemma total_size_insert fs path data :
  fs !! path = None -> total_size (<[path := data]> fs) = size_of data + total_size fs.
Proof. intros H. unfold total_size. rewrite map_fold_insert_L; [done| |done]. intros. lia. Qed.

Lemma total_size_delete fs path : total_size (delete path fs) <= total_size fs.
Proof.
  destruct (fs !! path) as [data|] eqn:E; [|by rewrite delete_id by done].
  rewrite <- (insert_delete_id fs path data E) at 2. rewrite total_size_insert by apply lookup_delete_eq.
  unfold size_of. lia.
Qed.

Section Store.
Context (float_repr : f64 -> string) (sha256 : string -> string) (uuid5 : string -> UUID).
Context (isoformat json_time : datetime -> string).

(** ** Calls *)
Inductive op : Type :=
  | PutBytes (data media_type : string) (critical : bool) (policy : ArtifactPolicy.t)
      (scope : option ArtifactScope.t) (write : option string) (now : datetime)
  | DeleteDigest (digest actor : string) (tombstone_authorized force : bool) (now : datetime)
  | CollectGarbage (actor : string) (now : datetime) (clock : string -> datetime)
  | AddReference (digest : string) (kind : ArtifactReferenceKind.t) (owner reason : string)
      (expires_at : option datetime) (now : datetime)
  | RemoveReference (reference_id : UUID)
  | SetReadOnly (value : bool).

Definition exec (o : op) : M t unit :=
  match o with
  | PutBytes data media critical policy scope write now =>
      void (put_bytes float_repr sha256 uuid5 json_time data media critical policy scope write now)
  | DeleteDigest digest actor tombstone force now =>
      void (delete_digest float_repr sha256 uuid5 isoformat digest actor tombstone force now)
  | CollectGarbage actor now clock =>
      void (collect_garbage float_repr sha256 uuid5 isoformat actor now clock)
  | AddReference digest kind owner reason expires now =>
      void (add_reference uuid5 isoformat digest kind owner reason expires now)
  | RemoveReference id => on_catalog (ArtifactCatalog.remove_reference id)
  | SetReadOnly value => set_read_only value
  end.

(** Capacity limits never change, and the tree may only change as stated. *)
Definition same_limits (s s' : t) : Prop := max_bytes s' = max_bytes s /\ reserve_bytes s' = reserve_bytes s.

(** The catalog keeps its registrations and references. *)
Definition same_claims (s s' : t) : Prop :=
  ArtifactCatalog.artifact_registrations (catalog s') = ArtifactCatalog.artifact_registrations (catalog s) /\
  ArtifactCatalog.artifact_references (catalog s') = ArtifactCatalog.artifact_references (catalog s).

Lemma same_claims_trans s1 s2 s3 : same_claims s1 s2 -> same_claims s2 s3 -> same_claims s1 s3.
Proof. intros [] []. split; congruence. Qed.

Lemma policies_same s s' digest : same_claims s s' -> policies digest (catalog s') = policies digest (catalog s).
Proof. intros [Hr _]. unfold policies, ArtifactCatalog.records_of. by rewrite Hr. Qed.

Lemma references_same s s' digest now :
  same_claims s s' ->
  ArtifactCatalog.references digest now (catalog s') = ArtifactCatalog.references digest now (catalog s).
Proof. intros [_ Hr]. unfold ArtifactCatalog.references. by rewrite Hr. Qed.

Lemma effective_same s s' digest :
  same_claims s s' ->
  ArtifactCatalog.effective_policy digest (catalog s') = ArtifactCatalog.effective_policy digest (catalog s).
Proof. intros H. unfold ArtifactCatalog.effective_policy. fold (policies digest (catalog s')).
  fold (policies digest (catalog s)). by rewrite (policies_same s s'). Qed.

(** A call on the catalog leaves the tree and the limits alone. *)
Lemma on_catalog_run {A} (m : M ArtifactCatalog.t A) s r s' :
  on_catalog m s = (r, s') -> files s' = files s /\ same_limits s s'.
Proof. unfold on_catalog, zoom. destruct (m _). by intros [= _ <-]. Qed.

(** ** Storing *)
Definition content_addressed (fs : gmap string string) : Prop :=
  forall path data, fs !! path = Some data -> path = path_of (sha256 data).

Lemma put_bytes_run data media critical policy scope write now s r s' :
  put_bytes float_repr sha256 uuid5 json_time data media critical policy scope write now s = (r, s') ->
  same_limits s s' /\
  ((files s' = files s /\ forall ref, r = Ok ref -> is_Some (files s !! path_of (sha256 data))) \/
   files s !! path_of (sha256 data) = None /\
   files s' = <[path_of (sha256 data) := data]> (files s) /\
   used_bytes s + size_of data <= (if critical then max_bytes s else max_bytes s - reserve_bytes s)) /\
  forall ref, r = Ok ref -> ArtifactRef.sha256 ref = sha256 data.
Proof.
  unfold put_bytes. unfold bind at 1, get. destruct (forced_read_only s).
  { intros [= <- <-]. split_and!; [done|by left|done]. }
  cbn [raise_if]. unfold bind at 1. cbn [ret].
  destruct (files s !! path_of (sha256 data)) as [existing|] eqn:Ef.
  - destruct (bool_decide _); cbn [negb raise_if].
    2:{ intros [= <- <-]. split_and!; [done|by left|done]. }
    unfold bind at 1. cbn [ret]. unfold bind. destruct (on_catalog _ s) as [r1 s1] eqn:E1.
    destruct (on_catalog_run _ _ _ _ E1) as [Hf Hl].
    destruct r1; intros [= <- <-]; (split; [done|split; [left|]]); [done|by intros ref [= <-]|done..].
  - set (limit := if critical then _ else _). destruct (limit <? used_bytes s + size_of data) eqn:Elim.
    { intros [= <- <-]. split_and!; [done|by left|done]. }
    unfold bind at 1. cbn [ret]. destruct write as [exc|].
    { intros [= <- <-]. split_and!; [done|by left|done]. }
    unfold bind at 1, modify. unfold bind. destruct (on_catalog _ _) as [r1 s1] eqn:E1.
    destruct (on_catalog_run _ _ _ _ E1) as [Hf Hl]. cbn in Hf.
    destruct r1; intros [= <- <-]; (split; [done|split; [right|]]); [|by intros ref [= <-]| |done];
      (split_and!; [done|done|unfold limit in Elim; destruct critical; lia]).
Qed.

(** ** Deleting *)
Lemma delete_digest_run digest actor tombstone force now s r s' :
  delete_digest float_repr sha256 uuid5 isoformat digest actor tombstone force now s = (r, s') ->
  s' = s \/
  (is_digest hex_digit_any_case digest = true /\
   (exists policy, authorize_deletion digest tombstone force now s = Ok policy) /\
   files s' = delete (path_of digest) (files s) /\ same_limits s s' /\ same_claims s s').
Proof.
  unfold delete_digest. destruct (is_digest _ digest); [|intros [= _ <-]; by left].
  cbn [negb raise_if]. unfold bind at 1 2, get. cbn [ret]. unfold bind at 1, lift.
  destruct (authorize_deletion _ _ _ _ s) as [policy|e]; [|intros [= _ <-]; by left].
  unfold bind at 1. destruct (match files s !! path_of digest with Some _ => _ | None => _ end);
    [intros [= _ <-]; by left|].
  cbn [raise_if ret]. unfold bind at 1, modify. destruct policy as [policy|];
    intros [= _ <-]; right; (split_and!; [done|by eexists|done|done|]); [|done].
  split; cbn; by destruct (existsb _ _).
Qed.

(** The registrations allow a deletion without force: none is held, a
    tombstone is there where one is required, and a registration for manual
    deletion only gives way to a tombstone another one requires. *)
Definition allowed (digest : string) (tombstone : bool) (c : ArtifactCatalog.t) : Prop :=
  forall p, registered p digest c ->
    match ArtifactPolicy.deletion_policy p with
    | ArtifactDeletionPolicy.GC_ALLOWED => True
    | ArtifactDeletionPolicy.TOMBSTONE_REQUIRED => tombstone = true
    | ArtifactDeletionPolicy.MANUAL_ONLY => tombstone = true /\ exists q, registered q digest c /\
        ArtifactPolicy.deletion_policy q = ArtifactDeletionPolicy.TOMBSTONE_REQUIRED
    | ArtifactDeletionPolicy.HOLD_PROTECTED => False
    end.

Lemma authorize_deletion_policies digest tombstone now s policy :
  authorize_deletion digest tombstone false now s = Ok policy ->
  (forall p, ~ registered p digest (catalog s)) \/
  unreferenced digest now (catalog s) /\ allowed digest tombstone (catalog s).
Proof.
  unfold authorize_deletion. destruct (ArtifactCatalog.effective_policy _ _) as [p|e] eqn:Ep.
  2:{ pose proof (effective_policy_missing digest (catalog s)) as Hn.
      destruct e; try done. intros _. left. intros p Hp%registered_policies. unfold ArtifactCatalog.effective_policy in Ep.
      fold (policies digest (catalog s)) in Ep. destruct (policies digest _); [by apply not_elem_of_nil in Hp|].
      unfold ArtifactPolicy.validate, check in Ep. by repeat case_match. }
  intros H. right. apply rbind_ok in H as ([] & H1%check_ok & H).
  apply rbind_ok in H as ([] & H2%check_ok & H). apply rbind_ok in H as ([] & H3%check_ok & _).
  rewrite andb_true_r, negb_false_iff, bool_decide_eq_true in H1. apply no_references in H1. split; [done|].
  intros q Hq%registered_policies. pose proof (effective_policy_largest digest (catalog s)) as Hl.
  destruct (Hl p _ Ep ltac:(unfold aspects; do 4 right; left)) as [Hle (m & Hm & Hmax)].
  specialize (Hle q Hq). cbn in Hle, Hmax. apply registered_policies in Hm.
  rewrite andb_true_r in H2, H3. apply orb_false_iff in H3 as [H3 H4].
  apply bool_decide_eq_false in H3, H4.
  destruct (ArtifactPolicy.deletion_policy p) eqn:Hp; try done; cbn in H2;
    destruct (ArtifactPolicy.deletion_policy q); cbn in Hle; try lia; try done.
  - by destruct tombstone.
  - split; [by destruct tombstone|]. exists m. split; [done|].
    destruct (ArtifactPolicy.deletion_policy m); cbn in Hmax; done.
Qed.

(** ** Garbage collection *)
Definition collectable (digest : string) (now : datetime) (clock : string -> datetime) (s : t) : Prop :=
  (forall p, registered p digest (catalog s) ->
     ArtifactPolicy.deletion_policy p = ArtifactDeletionPolicy.GC_ALLOWED) /\
  (exists p e, registered p digest (catalog s) /\
     ArtifactPolicy.retention_expires_at p = Some e /\ e <= now) /\
  unreferenced digest now (catalog s) /\ unreferenced digest (clock digest) (catalog s).

(** The tree of [s'] is that of [s] without some collectable artifacts. *)
Definition swept (now : datetime) (clock : string -> datetime) (s s' : t) : Prop :=
  same_claims s s' /\ same_limits s s' /\
  forall path, files s' !! path = files s !! path \/
    files s' !! path = None /\ exists digest, path = path_of digest /\ collectable digest now clock s.

Lemma collectable_same digest now clock s s' :
  same_claims s s' -> collectable digest now clock s' -> collectable digest now clock s.
Proof.
  intros Hs. unfold collectable. setoid_rewrite registered_policies. rewrite <- !no_references.
  by rewrite (policies_same s s'), !(references_same s s').
Qed.

Lemma swept_refl now clock s : swept now clock s s.
Proof. split_and!; try done. auto. Qed.

Lemma swept_trans now clock s1 s2 s3 : swept now clock s1 s2 -> swept now clock s2 s3 -> swept now clock s1 s3.
Proof.
  intros (Hc & Hl & Hf) (Hc' & Hl' & Hf'). split_and!.
  - by eapply same_claims_trans.
  - destruct Hl, Hl'. split; congruence.
  - intros path. destruct (Hf' path) as [E|[E (d & Hd & Hcol)]].
    + rewrite E. destruct (Hf path) as [E1|[E1 H]]; [by left|by right].
    + right. split; [done|]. exists d. split; [done|]. by eapply collectable_same.
Qed.

Lemma min_of_elem l m : ArtifactCatalog.min_of l = Some m -> m ∈ l.
Proof.
  destruct l as [|x l]; [done|]. cbn. intros [= <-].
  revert x. induction l as [|y l IH]; intros x; cbn; [by left|].
  specialize (IH (Z.min x y)). apply elem_of_cons in IH as [->|IH]; [|by do 2 right].
  destruct (Z.min_dec x y) as [->| ->]; [left|right; left].
Qed.

Lemma merged_expiry digest c p e :
  ArtifactCatalog.effective_policy digest c = Ok p -> ArtifactPolicy.retention_expires_at p = Some e ->
  exists q, q ∈ policies digest c /\ ArtifactPolicy.retention_expires_at q = Some e.
Proof.
  intros (first & rest & -> & ->)%effective_policy_ok H.
  unfold ArtifactCatalog.merged in H. cbv zeta in H. cbn [ArtifactPolicy.retention_expires_at] in H.
  by apply min_of_elem, list_elem_of_omap in H.
Qed.

Lemma blockers_nil digest now c p :
  ArtifactCatalog.effective_policy digest c = Ok p ->
  ArtifactCatalog.deletion_blockers digest now c = Ok [] ->
  ArtifactPolicy.deletion_policy p = ArtifactDeletionPolicy.GC_ALLOWED /\
  ArtifactCatalog.references digest now c = [].
Proof.
  unfold ArtifactCatalog.deletion_blockers. intros ->. cbn [rbind]. intros [= H].
  unfold sorted_strings in H.
  match type of H with merge_sort _ ?l = _ => pose proof (merge_sort_Permutation String.le l) as Hl end.
  rewrite H in Hl. symmetry in Hl. apply Permutation_nil_r, app_eq_nil in Hl as [Hd Hr].
  split; [by case_decide|]. by apply fmap_nil_inv in Hr.
Qed.

Lemma swept_delete digest actor now clock s r s' p :
  delete_digest float_repr sha256 uuid5 isoformat digest actor false false (clock digest) s = (r, s') ->
  ArtifactCatalog.effective_policy digest (catalog s) = Ok p ->
  (exists e, ArtifactPolicy.retention_expires_at p = Some e /\ e <= now) ->
  ArtifactPolicy.deletion_policy p = ArtifactDeletionPolicy.GC_ALLOWED ->
  ArtifactCatalog.references digest now (catalog s) = [] ->
  swept now clock s s'.
Proof.
  intros Hrun Hp (e & He & Hle) Hgc Hrefs.
  destruct (delete_digest_run _ _ _ _ _ _ _ _ Hrun) as [->|(_ & (policy & Ha) & Hf & Hl & Hc)];
    [apply swept_refl|].
  split_and!; [done|done|]. intros path. rewrite Hf.
  destruct (decide (path = path_of digest)) as [->|Hne]; [|left; by rewrite lookup_delete_ne].
  right. rewrite lookup_delete_eq. split; [done|]. exists digest. split; [done|].
  destruct (merged_expiry _ _ _ _ Hp He) as (q & Hq & Heq).
  unfold collectable. rewrite <- !no_references. split_and!; [| |done|].
  - intros x Hx%registered_policies. pose proof (effective_policy_largest digest (catalog s)) as Hlg.
    destruct (Hlg p _ Hp ltac:(unfold aspects; do 4 right; left)) as [Hmax _]. specialize (Hmax x Hx).
    cbn in Hmax. rewrite Hgc in Hmax. by destruct (ArtifactPolicy.deletion_policy x).
  - exists q, e. by rewrite registered_policies.
  - apply no_references. apply registered_policies in Hq.
    destruct (authorize_deletion_policies _ _ _ _ _ Ha) as [Hnil|[? _]]; [|done]. by destruct (Hnil q).
Qed.

Lemma collect_run digests actor now clock found s r s' :
  collect float_repr sha256 uuid5 isoformat digests actor now clock found s = (r, s') ->
  swept now clock s s'.
Proof.
  revert found s. induction digests as [|digest digests IH]; intros found s; cbn [collect].
  { intros [= _ <-]. apply swept_refl. }
  unfold bind at 1 2, get, lift.
  destruct (ArtifactCatalog.effective_policy digest (catalog s)) as [p|e] eqn:Ep;
    [|intros [= _ <-]; apply swept_refl].
  destruct (match ArtifactPolicy.retention_expires_at p with Some e => now <? e | None => true end) eqn:Ex;
    [apply IH|].
  unfold bind at 1.
  destruct (ArtifactCatalog.deletion_blockers digest now (catalog s)) as [blockers|e] eqn:Eb;
    [|intros [= _ <-]; apply swept_refl].
  case_bool_decide as Hb; [|apply IH]. subst blockers.
  destruct (blockers_nil _ _ _ _ Ep Eb) as [Hgc Hrefs].
  assert (Hexp : exists e, ArtifactPolicy.retention_expires_at p = Some e /\ e <= now).
  { destruct (ArtifactPolicy.retention_expires_at p) as [e|]; [|done]. exists e. split; [done|lia]. }
  unfold bind at 1, catch. unfold bind at 1.
  destruct (delete_digest _ _ _ _ _ _ _ _ _ s) as [rd s1] eqn:Ed.
  pose proof (swept_delete _ _ _ _ _ _ _ _ Ed Ep Hexp Hgc Hrefs) as Hs1.
  destruct rd as [d|e].
  - intros H. eapply swept_trans; [exact Hs1|exact (IH _ _ H)].
  - destruct e; intros H; try (by injection H as _ <-).
    eapply swept_trans; [exact Hs1|exact (IH _ _ H)].
Qed.

(** ** What may remove a file *)
Definition may_delete (o : op) (path : string) (s : t) : Prop :=
  match o with
  | DeleteDigest digest _ tombstone force now =>
      path = path_of digest /\
      (force = true \/ (forall p, ~ registered p digest (catalog s)) \/
       unreferenced digest now (catalog s) /\ allowed digest tombstone (catalog s))
  | CollectGarbage _ now clock => exists digest, path = path_of digest /\ collectable digest now clock s
  | _ => False
  end.

Lemma exec_limits o s r s' : exec o s = (r, s') -> same_limits s s'.
Proof.
  destruct o as [data media critical policy scope write now|digest actor tombstone force now
    |actor now clock|digest kind owner reason expires now|id|value]; cbn [exec].
  - intros (r' & H & _)%void_run. by eapply put_bytes_run.
  - intros (r' & H & _)%void_run. by destruct (delete_digest_run _ _ _ _ _ _ _ _ H) as [->|(_ & _ & _ & ? & _)].
  - intros (r' & H & _)%void_run. unfold collect_garbage in H. by apply collect_run in H as (_ & ? & _).
  - intros (r' & H & _)%void_run. by eapply on_catalog_run.
  - intros H. by eapply on_catalog_run.
  - unfold set_read_only, bind, modify. destruct value; by intros [= _ <-].
Qed.

Lemma file_kept_or_deleted (o : op) (s s' : t) (r : res unit) (path data : string)
    (Hrun : exec o s = (r, s')) (Hfile : files s !! path = Some data) :
  files s' !! path = Some data \/ files s' !! path = None /\ may_delete o path s.
Proof.
  destruct o as [data' media critical policy scope write now|digest actor tombstone force now
    |actor now clock|digest kind owner reason expires now|id|value]; cbn [exec] in Hrun.
  - apply void_run in Hrun as (r' & H & _). left.
    destruct (put_bytes_run _ _ _ _ _ _ _ _ _ _ H) as (_ & [[-> _]|(Hn & -> & _)] & _); [done|].
    rewrite lookup_insert_ne; [done|]. intros <-. congruence.
  - apply void_run in Hrun as (r' & H & _).
    destruct (delete_digest_run _ _ _ _ _ _ _ _ H) as [->|(_ & (policy & Ha) & Hf & _ & _)]; [by left|].
    rewrite Hf. destruct (decide (path = path_of digest)) as [->|Hne].
    + right. rewrite lookup_delete_eq. split; [done|]. split; [done|]. destruct force; [by left|]. right.
      by eapply authorize_deletion_policies.
    + left. by rewrite lookup_delete_ne.
  - apply void_run in Hrun as (r' & H & _). unfold collect_garbage, bind, get in H.
    apply collect_run in H as (_ & _ & Hf). destruct (Hf path) as [->|?]; [by left|by right].
  - apply void_run in Hrun as (r' & H & _). apply on_catalog_run in H as [-> _]. by left.
  - apply on_catalog_run in Hrun as [-> _]. by left.
  - left. unfold set_read_only, bind, modify in Hrun. by destruct value; injection Hrun as _ <-.
Qed.

(** C18: whatever is called on the store, and whether or not it fails, a stored
    file keeps its exact content until a call that may delete it does.  Without
    force a registered artifact is deleted only when no reference to it is
    active and its registrations allow it: none is under a hold, a tombstone is
    given where one requires it, and one for manual deletion only blocks it
    unless another requires the tombstone that is given.  Garbage collection
    removes only artifacts all of whose registrations are free to collect, one
    of which has expired, and that nothing references. *)
Theorem deletions_authorized (o : op) (s s' : t) (r : res unit) (path data : string)
    (Hrun : exec o s = (r, s')) (Hfile : files s !! path = Some data) :
  files s' !! path = Some data \/ files s' !! path = None /\ may_delete o path s.
Proof. by eapply file_kept_or_deleted. Qed.

(** ** Executions *)
Definition step (s s' : t) : Prop := exists o r, exec o s = (r, s').
Definition reachable (s : t) : Prop :=
  exists root budgets max_bytes reserve_bytes s0,
    create root ∅ (ArtifactCatalog.init budgets) max_bytes reserve_bytes = Ok s0 /\ rtc step s0 s.

Record good (s : t) : Prop := {
  good_limits : 0 <= reserve_bytes s < max_bytes s;
  good_used : used_bytes s <= max_bytes s;
  good_files : content_addressed (files s)
}.

Lemma exec_files o s r s' :
  exec o s = (r, s') ->
  files s' ⊆ files s \/
  (exists data, files s' = <[path_of (sha256 data) := data]> (files s) /\
     files s !! path_of (sha256 data) = None /\
     used_bytes s + size_of data <= Z.max (max_bytes s) (max_bytes s - reserve_bytes s)).
Proof.
  intros H. destruct o as [data media critical policy scope write now|digest actor tombstone force now
    |actor now clock|digest kind owner reason expires now|id|value]; cbn [exec] in H.
  - apply void_run in H as (r' & H & _).
    destruct (put_bytes_run _ _ _ _ _ _ _ _ _ _ H) as (_ & [[-> _]|(Hn & Hf & Hu)] & _); [by left|].
    right. exists data. split_and!; [done|done|]. destruct critical; lia.
  - apply void_run in H as (r' & H & _). left.
    destruct (delete_digest_run _ _ _ _ _ _ _ _ H) as [->|(_ & _ & -> & _)]; [done|]. apply delete_subseteq.
  - apply void_run in H as (r' & H & _). left. unfold collect_garbage, bind, get in H.
    apply collect_run in H as (_ & _ & Hf). apply map_subseteq_spec. intros path data Hd.
    destruct (Hf path) as [<-|[Hn _]]; congruence.
  - apply void_run in H as (r' & H & _). left. by apply on_catalog_run in H as [-> _].
  - left. by apply on_catalog_run in H as [-> _].
  - left. unfold set_read_only, bind, modify in H. by destruct value; injection H as _ <-.
Qed.

Lemma total_size_nonneg fs : 0 <= total_size fs.
Proof.
  induction fs as [|path data fs Hn IH] using map_ind; [done|].
  rewrite total_size_insert by done. unfold size_of. lia.
Qed.

Lemma total_size_subseteq fs fs' : fs ⊆ fs' -> total_size fs <= total_size fs'.
Proof.
  revert fs'. induction fs as [|path data fs Hn IH] using map_ind; intros fs' Hsub.
  - apply total_size_nonneg.
  - assert (fs' !! path = Some data) as Hd.
    { eapply lookup_weaken; [|exact Hsub]. apply lookup_insert_eq. }
    rewrite total_size_insert by done. rewrite <- (insert_delete_id fs' path data Hd).
    rewrite total_size_insert by apply lookup_delete_eq.
    specialize (IH (delete path fs')). enough (fs ⊆ delete path fs') by (specialize (IH H); lia).
    rewrite <- (delete_insert_id fs path data Hn). by apply delete_mono.
Qed.

Lemma used_total s : used_bytes s = total_size (files s).
Proof. done. Qed.

Lemma store_exec_good o s r s' : good s -> exec o s = (r, s') -> good s'.
Proof.
  intros [Hl Hu Hc] H. destruct (exec_limits _ _ _ _ H) as [Hm Hr].
  destruct (exec_files _ _ _ _ H) as [Hsub|(data & Hf & Hn & Hsize)]; split;
    rewrite ?Hm, ?Hr, ?used_total in *; try lia.
  - apply total_size_subseteq in Hsub. lia.
  - intros path data Hd. apply Hc. by eapply lookup_weaken.
  - rewrite Hf, total_size_insert by done. lia.
  - intros path data' Hd. rewrite Hf in Hd.
    apply lookup_insert_Some in Hd as [[<- ->]|[_ Hd]]; [done|by apply Hc].
Qed.

Lemma create_good root budgets m rs s0 :
  create root ∅ (ArtifactCatalog.init budgets) m rs = Ok s0 -> good s0.
Proof.
  unfold create. intros ([] & Hc%check_ok & [= <-])%rbind_ok. split; [cbn; lia| |].
  - rewrite used_total. change (total_size ∅ <= m). assert (total_size ∅ = 0) as -> by done. lia.
  - intros path data. cbn. by rewrite lookup_empty.
Qed.

Lemma steps_good s s' : good s -> rtc step s s' -> good s'.
Proof. intros Hg H. induction H as [|s1 s2 s3 (o & r & Hs) _ IH]; [done|]. by eapply IH, store_exec_good. Qed.

Lemma store_reachable_good s : reachable s -> good s.
Proof. intros (root & b & m & rs & s0 & Hc & Hs). eapply steps_good; [by eapply create_good|done]. Qed.

(** In every execution the files of the tree never exceed [max_bytes], and
    an upload that is not critical never brings them above the limit that
    leaves [reserve_bytes] free. *)
Theorem capacity_respected (s s' : t) data media policy scope write now r (Hs : reachable s)
    (Hput : put_bytes float_repr sha256 uuid5 json_time data media false policy scope write now s = (r, s')) :
  used_bytes s <= max_bytes s /\
  (used_bytes s' <= max_bytes s' - reserve_bytes s' \/ files s' = files s).
Proof.
  apply store_reachable_good in Hs as [Hl Hu _]. split; [done|].
  destruct (put_bytes_run _ _ _ _ _ _ _ _ _ _ Hput) as ([-> ->] & [[-> _]|(Hn & Hf & Hb)] & _); [by right|].
  left. rewrite !used_total in *. rewrite Hf, total_size_insert by done. lia.
Qed.

(** ** What was stored is what is read *)
Definition collision (data : string) : Prop := exists data', data' <> data /\ sha256 data' = sha256 data.

(** A call that may not delete the file at [path]. *)
Definition keeps (path : string) (s s' : t) : Prop :=
  exists o r, exec o s = (r, s') /\ ~ may_delete o path s.

Lemma keeps_file path data s s' :
  rtc (keeps path) s s' -> files s !! path = Some data -> files s' !! path = Some data.
Proof.
  induction 1 as [|s1 s2 s3 (o & r & He & Hn) _ IH]; [done|]. intros Hd. apply IH.
  by destruct (file_kept_or_deleted _ _ _ _ _ _ He Hd) as [|[_ ?]].
Qed.

Lemma keeps_steps path s s' : rtc (keeps path) s s' -> rtc step s s'.
Proof. apply rtc_subrel. intros x y (o & r & He & _). by exists o, r. Qed.

Context (Hsha256 : forall data, is_digest hex_digit (sha256 data) = true).

(** Bytes that were stored are returned unchanged by their digest for as
    long as no call that may delete them is made, unless SHA-256 collides on
    them. *)
Theorem stored_bytes_returned (s s1 s2 : t) data media critical policy scope write now ref
    (Hs : reachable s)
    (Hput : put_bytes float_repr sha256 uuid5 json_time data media critical policy scope write now s
            = (Ok ref, s1))
    (Hkeep : rtc (keeps (path_of (sha256 data))) s1 s2) :
  read_bytes sha256 (ArtifactRef.sha256 ref) s2 = Ok data \/ collision data.
Proof.
  destruct (put_bytes_run _ _ _ _ _ _ _ _ _ _ Hput) as (_ & Hf & Href). rewrite (Href ref eq_refl).
  assert (exists data', files s1 !! path_of (sha256 data) = Some data') as [data' Hd].
  { destruct Hf as [[-> He]|(_ & -> & _)]; [by destruct (He ref eq_refl); eauto|].
    exists data. apply lookup_insert_eq. }
  pose proof (keeps_file _ _ _ _ Hkeep Hd) as Hd2.
  assert (Hg2 : good s2).
  { eapply steps_good; [|by eapply keeps_steps].
    eapply (store_exec_good (PutBytes data media critical policy scope write now)); [by apply store_reachable_good|].
    cbn [exec]. unfold void, bind. by rewrite Hput. }
  assert (sha256 data = sha256 data') as Heq.
  { apply path_of_inj; [by eapply is_digest_length..|]. by apply (good_files _ Hg2). }
  unfold read_bytes. rewrite Hsha256, Hd2. cbn [negb check rbind].
  rewrite <- Heq, bool_decide_eq_true_2 by done. cbn [negb check rbind].
  destruct (decide (data' = data)) as [->|Hne]; [by left|]. right. by exists data'.
Qed.
End Store.

(** ** An execution

    The same bytes are stored under a policy that expires at 100 and under one
    that retains them until 1000. *)
Definition demo_float_repr (x : f64) : string := "0.0".
Fixpoint digits (n : nat) (h : N) : list Ascii.ascii :=
  match n with
  | O => []
  | S n => CanonicalJson.hex_digit (N.to_nat (h mod 16)) :: digits n (h / 16)%N
  end.
Definition checksum (data : string) : N :=
  foldl (fun h c => ((h * 31 + Ascii.N_of_ascii c) mod 2 ^ 32)%N) 7%N (String.list_ascii_of_string data).
Definition demo_sha256 (data : string) : string := String.string_of_list_ascii (digits 64 (checksum data)).
Definition demo_uuid5 (name : string) : UUID := "uuid5:" +:+ name.
Definition demo_time (d : datetime) : string := pretty d.

Lemma digits_hex n h : forallb hex_digit (digits n h) = true.
Proof.
  revert h. induction n as [|n IH]; intros h; cbn [digits forallb]; [done|]. rewrite IH, andb_true_r.
  assert (N.to_nat (h mod 16) < 16)%nat as H by (pose proof (N.mod_upper_bound h 16 ltac:(lia)); lia).
  destruct (N.to_nat (h mod 16)) as [|m]; [done|]. do 15 (destruct m as [|m]; [done|]). lia.
Qed.

Lemma length_digits n h : length (digits n h) = n.
Proof. revert h. induction n; intros h; cbn; auto. Qed.

Lemma length_string_of_list l : String.length (String.string_of_list_ascii l) = length l.
Proof. induction l; cbn; auto. Qed.

Lemma demo_sha256_digest data : is_digest hex_digit (demo_sha256 data) = true.
Proof.
  unfold is_digest, demo_sha256.
  by rewrite length_string_of_list, length_digits, String.list_ascii_of_string_of_list_ascii, digits_hex.
Qed.

Definition expiring (e : datetime) : ArtifactPolicy.t :=
  ArtifactPolicy.mk ArtifactClassification.INTERNAL ArtifactRetention.OPERATIONAL
    ArtifactEncryption.NODE_AT_REST ArtifactExportPolicy.ALLOWED ArtifactDeletionPolicy.GC_ALLOWED (Some e) [].

Definition demo_init : t :=
  mk "root" ∅ (ArtifactCatalog.init ArtifactBudgetPolicy.defaults) 64 16 false None.
Definition demo_exec : op -> M t unit := exec demo_float_repr demo_sha256 demo_uuid5 demo_time demo_time.
Definition demo_put (data : string) (policy : ArtifactPolicy.t) : op :=
  PutBytes data "text/plain" false policy None None 10.
Definition demo_put_bytes (data : string) (policy : ArtifactPolicy.t) : M t ArtifactRef.t :=
  put_bytes demo_float_repr demo_sha256 demo_uuid5 demo_time data "text/plain" false policy None None 10.
Definition demo_store : t :=
  (demo_exec (demo_put "abc" (expiring 1000)) (demo_exec (demo_put "abc" (expiring 100)) demo_init).2).2.
Definition demo_gc : op := CollectGarbage "gc" 200 (fun _ => 200).
Definition demo_path : string := path_of (demo_sha256 "abc").

Notation demo_reachable :=
  (reachable demo_float_repr demo_sha256 demo_uuid5 demo_time demo_time).

Lemma demo_init_reachable : demo_reachable demo_init.
Proof. exists "root", ArtifactBudgetPolicy.defaults, 64, 16, demo_init. split; [done|]. apply rtc_refl. Qed.

Lemma demo_step o s : demo_reachable s -> demo_reachable (demo_exec o s).2.
Proof.
  intros (root & b & m & rs & s0 & Hc & Hs). exists root, b, m, rs, s0. split; [done|].
  eapply rtc_r; [exact Hs|]. exists o, (demo_exec o s).1. apply surjective_pairing.
Qed.

Lemma demo_artifacts_reachable : demo_reachable demo_store.
Proof. apply demo_step, demo_step, demo_init_reachable. Qed.

(** Collection deletes bytes that another registration still retains: the
    effective expiry is the earliest one. *)
Theorem gc_ignores_longer_retention :
  demo_reachable demo_store /\
  files demo_store !! demo_path = Some "abc" /\
  expiring 1000 ∈ policies (demo_sha256 "abc") (catalog demo_store) /\
  (demo_exec demo_gc demo_store).1 = Ok tt /\
  files (demo_exec demo_gc demo_store).2 !! demo_path = None.
Proof.
  split; [apply demo_artifacts_reachable|]. split; [vm_compute; reflexivity|].
  split; [|split; vm_compute; reflexivity].
  assert (policies (demo_sha256 "abc") (catalog demo_store) = [expiring 100; expiring 1000]) as ->
    by (vm_compute; reflexivity).
  right. left.
Qed.

Lemma effective_policy_strictest_witness :
  exists p, ArtifactCatalog.effective_policy (demo_sha256 "abc") (catalog demo_store) = Ok p /\
    largest (fun p => deletion_rank (ArtifactPolicy.deletion_policy p))
      (policies (demo_sha256 "abc") (catalog demo_store)) (deletion_rank (ArtifactPolicy.deletion_policy p)).
Proof.
  eexists. split; [vm_compute; reflexivity|].
  refine (proj1 (effective_policy_strictest (demo_sha256 "abc") (catalog demo_store)) _
    (fun p => deletion_rank (ArtifactPolicy.deletion_policy p)) _ _).
  - vm_compute. reflexivity.
  - unfold aspects. do 4 right. left.
Defined.

Lemma deletions_authorized_witness :
  files (demo_exec demo_gc demo_store).2 !! demo_path = None /\
  (files (demo_exec demo_gc demo_store).2 !! demo_path = Some "abc" \/
   files (demo_exec demo_gc demo_store).2 !! demo_path = None /\ may_delete demo_gc demo_path demo_store).
Proof.
  split; [vm_compute; reflexivity|].
  apply (deletions_authorized demo_float_repr demo_sha256 demo_uuid5 demo_time demo_time demo_gc demo_store
           _ (demo_exec demo_gc demo_store).1).
  - apply surjective_pairing.
  - vm_compute. reflexivity.
Defined.

Lemma capacity_respected_witness :
  let s' := (demo_put_bytes "a longer text" (expiring 5) demo_store).2 in
  used_bytes demo_store <= max_bytes demo_store /\
  (used_bytes s' <= max_bytes s' - reserve_bytes s' \/ files s' = files demo_store).
Proof.
  cbv zeta. apply (capacity_respected demo_float_repr demo_sha256 demo_uuid5 demo_time demo_time demo_store
    (demo_put_bytes "a longer text" (expiring 5) demo_store).2 "a longer text" "text/plain" (expiring 5)
    None None 10 (demo_put_bytes "a longer text" (expiring 5) demo_store).1).
  - apply demo_artifacts_reachable.
  - exact (surjective_pairing (demo_put_bytes "a longer text" (expiring 5) demo_store)).
Defined.

Definition demo_hold : op :=
  AddReference (demo_sha256 "abc") ArtifactReferenceKind.LEGAL_HOLD "counsel" "case" None 20.

Definition demo_stored : t := (demo_put_bytes "abc" (expiring 100) demo_init).2.
Definition demo_held : t := (demo_exec demo_hold demo_stored).2.

Lemma stored_bytes_returned_witness :
  exists ref, read_bytes demo_sha256 (ArtifactRef.sha256 ref) demo_held = Ok "abc" \/ collision demo_sha256 "abc".
Proof.
  destruct (demo_put_bytes "abc" (expiring 100) demo_init).1 as [ref|e] eqn:E; [|vm_compute in E; done].
  exists ref.
  apply (stored_bytes_returned demo_float_repr demo_sha256 demo_uuid5 demo_time demo_time
           demo_sha256_digest demo_init demo_stored demo_held "abc" "text/plain" false (expiring 100)
           None None 10 ref).
  - apply demo_init_reachable.
  - fold (demo_put_bytes "abc" (expiring 100)). unfold demo_stored.
    rewrite (surjective_pairing (demo_put_bytes _ _ _)). by rewrite E.
  - apply rtc_once. exists demo_hold, (demo_exec demo_hold demo_stored).1.
    split; [apply surjective_pairing|intros []].
Defined.
