(* ===== verification/Configuration.v ===== *)
(** The configuration life cycle (configuration/manager.py) and its store
    (storage/sqlite_store.py, [ConfigurationStore]): validate, stage, self-test,
    activate, canary, roll back.

    [configuration_bundles] is a map by its primary key; the row of pointers is
    two fields.  A manager owns its store and the artifact store; the self-test
    and the canary are functions that may raise.  [dump_bundle] is pydantic's
    [model_dump(mode="json")]; the identifiers and times of the activation
    records are arguments. *)

From Stdlib Require Import ZArith.
From S2P Require Import Prelude Binary64 Enums Models CanonicalJson Records Artifacts.
Open Scope Z_scope.

Module ConfigurationStore.

Record row : Type := mkRow {
  state : ConfigurationState.t;
  bundle_sha256 : string;
  artifact_ref : string;
  payload : ConfigurationBundle.t
}.
Definition set_state (v : ConfigurationState.t) (r : row) : row :=
  mkRow v (bundle_sha256 r) (artifact_ref r) (payload r).

Record t : Type := mk {
  bundles : gmap string row;
  activations : list ConfigurationActivationRecord.t;
  active_bundle_key : option string;
  last_known_good_bundle_key : option string
}.
Definition init : t := mk ∅ [] None None.
Definition set_bundles v (s : t) : t :=
  mk v (activations s) (active_bundle_key s) (last_known_good_bundle_key s).
Definition set_activations v (s : t) : t :=
  mk (bundles s) v (active_bundle_key s) (last_known_good_bundle_key s).
Definition set_pointers active lkg (s : t) : t := mk (bundles s) (activations s) active lkg.

Definition key_of (bundle_id version : string) : string := bundle_id +:+ "@" +:+ version.
Definition key (b : ConfigurationBundle.t) : string :=
  key_of (ConfigurationBundle.bundle_id b) (ConfigurationBundle.version b).

Definition stage (b : ConfigurationBundle.t) (bundle_sha256_ artifact_ref_ : string) : M t unit :=
  transaction
    (let! s := get in
     match bundles s !! key b with
     | Some existing =>
         raise_if (negb (bool_decide (bundle_sha256 existing = bundle_sha256_)))
           (ValueError "configuration identity is immutable")
     | None =>
         put (set_bundles (<[key b := mkRow ConfigurationState.STAGED bundle_sha256_ artifact_ref_ b]>
                             (bundles s)) s)
     end).

Definition bundle_for_key (k : option string) (s : t) : option ConfigurationBundle.t :=
  payload <$> (k ≫= fun k => bundles s !! k).

Definition active (s : t) : option ConfigurationBundle.t := bundle_for_key (active_bundle_key s) s.
Definition last_known_good (s : t) : option ConfigurationBundle.t :=
  bundle_for_key (last_known_good_bundle_key s) s.

(** [UPDATE configuration_bundles SET state=? WHERE bundle_key=?] *)
Definition update_state (v : ConfigurationState.t) (k : string) : M t unit :=
  modify (fun s => set_bundles (alter (set_state v) k (bundles s)) s).

Definition insert_activation (a : ConfigurationActivationRecord.t) : M t unit :=
  let! s := get in
  let! rows := lift (insert_row "configuration_activations" (same_key ConfigurationActivationRecord.activation_id)
                       (activations s) a) in
  put (set_activations rows s) ;;;
  update_state (ConfigurationActivationRecord.state a)
    (key_of (ConfigurationActivationRecord.bundle_id a) (ConfigurationActivationRecord.version a)).

Definition record (a : ConfigurationActivationRecord.t) : M t unit := transaction (insert_activation a).

(** [previous] is a key: it is never the empty string. *)
Definition activate (b : ConfigurationBundle.t) (a : ConfigurationActivationRecord.t) : M t unit :=
  transaction
    (let! s := get in
     let previous := active_bundle_key s in
     (match previous with
      | Some p => if decide (p <> key b) then update_state ConfigurationState.LAST_KNOWN_GOOD p else ret tt
      | None => ret tt
      end) ;;;
     insert_activation a ;;;
     let! s := get in
     put (set_pointers (Some (key b))
            (if decide (previous = Some (key b)) then last_known_good_bundle_key s else previous) s)).

Definition rollback (candidate : ConfigurationBundle.t) (previous : option ConfigurationBundle.t)
    (a : ConfigurationActivationRecord.t) : M t unit :=
  let previous_key := key <$> previous in
  transaction
    (insert_activation a ;;;
     (match previous_key with Some p => update_state ConfigurationState.ACTIVE p | None => ret tt end) ;;;
     modify (set_pointers previous_key previous_key) ;;;
     update_state ConfigurationState.ROLLED_BACK (key candidate)).

Definition activation_records (s : t) : list ConfigurationActivationRecord.t :=
  order_by ConfigurationActivationRecord.activated_at ConfigurationActivationRecord.activation_id (activations s).
End ConfigurationStore.

(** [int(x)] on the values of a settings dictionary. *)
Definition digit_value (c : Ascii.ascii) : option Z :=
  let n := Z.of_nat (Ascii.nat_of_ascii c) in
  if (48 <=? n) && (n <=? 57) then Some (n - 48) else None.

(** Decimal digits, with single underscores between them. *)
Fixpoint digits_value (l : list Ascii.ascii) (acc : Z) : option Z :=
  match l with
  | [] => None
  | [c] => (fun d => acc * 10 + d) <$> digit_value c
  | c :: ((u :: rest') as rest) =>
      match digit_value c with
      | None => None
      | Some d =>
          digits_value (if decide (u = chr 95) then rest' else rest) (acc * 10 + d)
      end
  end.

Definition int_of_string (s : string) : res Z :=
  let parsed :=
    match String.list_ascii_of_string (strip s) with
    | c :: l =>
        if decide (c = chr 45) then Z.opp <$> digits_value l 0
        else if decide (c = chr 43) then digits_value l 0 else digits_value (c :: l) 0
    | [] => None
    end in
  match parsed with
  | Some z => Ok z
  | None => Raise (ValueError "invalid literal for int() with base 10")
  end.

Definition int_of_json (j : json) : res Z :=
  match j with
  | JInt z => Ok z
  | JBool b => Ok (if b then 1 else 0)
  | JFloat x => py_int x
  | JStr s => int_of_string s
  | _ => Raise (OtherError "TypeError")
  end.

Module ConfigurationManager.

Record t : Type := mk { store : ConfigurationStore.t; artifacts : ContentAddressedArtifactStore.t }.
Definition set_store v (m : t) : t := mk v (artifacts m).
Definition set_artifacts v (m : t) : t := mk (store m) v.

Definition verdict : Type := res (bool * list string).

(** What a caller passes: a bundle, or the fields of one still to be validated. *)
Inductive raw : Type :=
  | Bundle (b : ConfigurationBundle.t)
  | Fields (b : ConfigurationBundle.t).

Definition invalid_hashes (hashes : gmap string string) : list string :=
  (List.filter (fun kv => negb (ContentAddressedArtifactStore.is_digest
                                  ContentAddressedArtifactStore.hex_digit kv.2))
     (sorted_items hashes)).*1.

Definition check_hashes (label : string) (hashes : gmap string string) : res unit :=
  let invalid := invalid_hashes hashes in
  check (negb (bool_decide (invalid = [])))
    (ValueError ("invalid " +:+ label +:+ " SHA-256 for: " +:+ join "," invalid)).

Definition validate (r : raw) : res ConfigurationBundle.t :=
  rbind (match r with Bundle b => Ok b | Fields b => ConfigurationBundle.validate b end) (fun b =>
    check_hashes "model" (ConfigurationBundle.model_hashes b) >>!
    check_hashes "source" (ConfigurationBundle.source_hashes b) >>!
    Ok b).

(** [any(item.memory_mb > int(settings.get("available_memory_mb", 1024)) ...)] *)
Definition exceeds_memory (b : ConfigurationBundle.t) : res bool :=
  match ConfigurationBundle.workloads b with
  | [] => Ok false
  | workloads =>
      rbind (int_of_json (default (JInt 1024) (json_get (ConfigurationBundle.settings b) "available_memory_mb")))
        (fun available => Ok (existsb (fun w => available <? WorkloadSpec.memory_mb w) workloads))
  end.

Definition default_self_test (b : ConfigurationBundle.t) : verdict :=
  let workloads := ConfigurationBundle.workloads b in
  rbind (exceeds_memory b) (fun exceeds =>
    let reasons :=
      (if decide (NoDup (WorkloadSpec.profile_id <$> workloads)) then [] else ["duplicate_profile_id"])
      ++ (if existsb (fun w => bool_decide (WorkloadSpec.tier w = CriticalityTier.A_IMMEDIATE)) workloads
          then [] else ["tier_a_workload_missing"])
      ++ (if exceeds then ["workload_exceeds_memory_envelope"] else [])
      ++ (if existsb (fun w => WorkloadSpec.deadline_ms w <? WorkloadSpec.estimated_cost_ms w) workloads
          then ["service_budget_exceeds_deadline"] else []) in
    Ok (bool_decide (reasons = []), sorted_strings reasons)).

Section Operations.
Context (float_repr : f64 -> string) (sha256 : string -> string) (uuid5 : string -> UUID).
Context (json_time : datetime -> string) (dump_bundle : ConfigurationBundle.t -> json).
Context (self_test : ConfigurationBundle.t -> verdict).

Definition on_store {A} (m : M ConfigurationStore.t A) : M t A := zoom store set_store m.
Definition on_artifacts {A} (m : M ContentAddressedArtifactStore.t A) : M t A := zoom artifacts set_artifacts m.

(** [write] and [now] are the outcome of the file write and the clock. *)
Definition stage (r : raw) (write : option string) (now : datetime)
  : M t (ConfigurationBundle.t * string * string) :=
  let! b := lift (validate r) in
  let payload := canonical_json_bytes float_repr (dump_bundle b) in
  let! scope := lift (ArtifactScope.validate
    (ArtifactScope.mk None None (Some ("configuration:" +:+ ConfigurationBundle.bundle_id b)) None)) in
  let! ref := on_artifacts (ContentAddressedArtifactStore.put_bytes float_repr sha256 uuid5 json_time
    payload "application/json" false ArtifactPolicy.configuration_bundle (Some scope) write now) in
  on_store (ConfigurationStore.stage b (ArtifactRef.sha256 ref) ("sha256:" +:+ ArtifactRef.sha256 ref)) ;;;
  ret (b, ArtifactRef.sha256 ref, ArtifactRef.relative_path ref).

(** What a new activation record takes from outside. *)
Record stamp : Type := mkStamp { activation_id : UUID; activated_at : datetime }.

Definition diff_of (previous : option ConfigurationBundle.t) (b : ConfigurationBundle.t) : string :=
  sha256 (canonical_json_bytes float_repr
    (JDict [("from", match previous with Some p => dump_bundle p | None => JDict [] end);
            ("to", dump_bundle b)])).

Definition activation (b : ConfigurationBundle.t) (state : ConfigurationState.t)
    (bundle_sha256 diff_sha256 : string) (previous : option ConfigurationBundle.t)
    (reasons : list string) (st : stamp) : ConfigurationActivationRecord.t :=
  {| ConfigurationActivationRecord.activation_id := activation_id st;
     ConfigurationActivationRecord.bundle_id := ConfigurationBundle.bundle_id b;
     ConfigurationActivationRecord.version := ConfigurationBundle.version b;
     ConfigurationActivationRecord.state := state;
     ConfigurationActivationRecord.actor := ConfigurationBundle.actor b;
     ConfigurationActivationRecord.bundle_sha256 := bundle_sha256;
     ConfigurationActivationRecord.diff_sha256 := diff_sha256;
     ConfigurationActivationRecord.previous_bundle_id := ConfigurationBundle.bundle_id <$> previous;
     ConfigurationActivationRecord.reason_codes := reasons;
     ConfigurationActivationRecord.activated_at := activated_at st |}.

(** [first] stamps the activation or its rejection, [second] the roll-back. *)
Definition activate (r : raw) (canary : option (ConfigurationBundle.t -> verdict))
    (write : option string) (now : datetime) (first second : stamp) : M t ConfigurationActivationRecord.t :=
  let! m := get in
  let previous := ConfigurationStore.active (store m) in
  let! '(b, bundle_sha256, _) := stage r write now in
  let diff_sha256 := diff_of previous b in
  let! '(passed, reasons) := lift (self_test b) in
  if negb (passed : bool) then
    let rejected := activation b ConfigurationState.REJECTED bundle_sha256 diff_sha256 previous
                      ("self_test_failed" :: reasons) first in
    on_store (ConfigurationStore.record rejected) ;;;
    ret rejected
  else
    let activated := activation b ConfigurationState.ACTIVE bundle_sha256 diff_sha256 previous
                       ["self_test_passed"] first in
    on_store (ConfigurationStore.activate b activated) ;;;
    match canary with
    | None => ret activated
    | Some canary =>
        let! '(canary_passed, canary_reasons) := lift (canary b) in
        if canary_passed : bool then ret activated
        else
          let rolled_back := activation b ConfigurationState.ROLLED_BACK bundle_sha256 diff_sha256 previous
                               ("canary_failed" :: canary_reasons) second in
          on_store (ConfigurationStore.rollback b previous rolled_back) ;;;
          ret rolled_back
    end.
End Operations.
End ConfigurationManager.
