(* ===== verification/ConfigurationTheorems.v ===== *)
(** What the configuration life cycle guarantees: what each outcome of an
    activation leaves behind, staged bundles never change, and the active and
    the last known good bundle have passed their self-test. *)

From Stdlib Require Import ZArith.
From S2P Require Import Prelude Binary64 Enums Models CanonicalJson Records Artifacts ArtifactTheorems Configuration.
Import ConfigurationManager.
Open Scope Z_scope.

Notation active_key m := (ConfigurationStore.active_bundle_key (store m)).
Notation lkg_key m := (ConfigurationStore.last_known_good_bundle_key (store m)).
Notation history m := (ConfigurationStore.activations (store m)).

(** The columns of a bundle that no update touches. *)
Definition identity_of (r : ConfigurationStore.row) : string * string * ConfigurationBundle.t :=
  (ConfigurationStore.bundle_sha256 r, ConfigurationStore.artifact_ref r, ConfigurationStore.payload r).
Definition staged (s : ConfigurationStore.t) : gmap string (string * string * ConfigurationBundle.t) :=
  identity_of <$> ConfigurationStore.bundles s.

(** ** The store *)
Lemma staged_update v k s :
  identity_of <$> alter (ConfigurationStore.set_state v) k (ConfigurationStore.bundles s) = staged s.
Proof.
  apply map_eq. intros i. unfold staged. rewrite !lookup_fmap, lookup_alter.
  case_decide; [|done]. subst. by destruct (ConfigurationStore.bundles s !! i).
Qed.

Lemma insert_activation_run a s r s' :
  ConfigurationStore.insert_activation a s = (r, s') ->
  is_ok r = false \/
  r = Ok tt /\ staged s' = staged s /\
  ConfigurationStore.active_bundle_key s' = ConfigurationStore.active_bundle_key s /\
  ConfigurationStore.last_known_good_bundle_key s' = ConfigurationStore.last_known_good_bundle_key s /\
  ConfigurationStore.activations s' = ConfigurationStore.activations s ++ [a].
Proof.
  unfold ConfigurationStore.insert_activation, bind, get, lift, put, ConfigurationStore.update_state, modify, insert_row.
  destruct (existsb _ _); intros [= <- <-]; [by left|right]. split_and!; try done. apply staged_update.
Qed.

Lemma transaction_run {S A} (m : M S A) s r s' :
  transaction m s = (r, s') ->
  (exists a, r = Ok a /\ m s = (Ok a, s')) \/ (is_ok r = false /\ s' = s).
Proof. unfold transaction. destruct (m s) as [[a|e] s1]; intros [= <- <-]; [left|right]; eauto. Qed.

Lemma record_run a s r s' :
  ConfigurationStore.record a s = (r, s') ->
  (is_ok r = false /\ s' = s) \/
  r = Ok tt /\ staged s' = staged s /\
  ConfigurationStore.active_bundle_key s' = ConfigurationStore.active_bundle_key s /\
  ConfigurationStore.last_known_good_bundle_key s' = ConfigurationStore.last_known_good_bundle_key s /\
  ConfigurationStore.activations s' = ConfigurationStore.activations s ++ [a].
Proof.
  intros [([] & -> & H)|?]%transaction_run; [right|by left].
  apply insert_activation_run in H as [?|?]; done.
Qed.

Lemma activate_run b a s r s' :
  ConfigurationStore.activate b a s = (r, s') ->
  (is_ok r = false /\ s' = s) \/
  r = Ok tt /\ staged s' = staged s /\
  ConfigurationStore.active_bundle_key s' = Some (ConfigurationStore.key b) /\
  ConfigurationStore.last_known_good_bundle_key s'
    = (if decide (ConfigurationStore.active_bundle_key s = Some (ConfigurationStore.key b))
       then ConfigurationStore.last_known_good_bundle_key s else ConfigurationStore.active_bundle_key s) /\
  ConfigurationStore.activations s' = ConfigurationStore.activations s ++ [a].
Proof.
  intros [([] & -> & H)|?]%transaction_run; [right|by left]. split; [done|].
  apply bind_ok in H as (s0 & s1 & [= <- <-] & H). apply bind_ok in H as ([] & s1 & H1 & H).
  assert (Hs1 : staged s1 = staged s /\ ConfigurationStore.active_bundle_key s1 = ConfigurationStore.active_bundle_key s /\
    ConfigurationStore.last_known_good_bundle_key s1 = ConfigurationStore.last_known_good_bundle_key s /\
    ConfigurationStore.activations s1 = ConfigurationStore.activations s).
  { destruct (ConfigurationStore.active_bundle_key s) as [p|] eqn:Ep; [|by injection H1 as <-].
    destruct (decide _) in H1; injection H1 as <-; [|done]. split_and!; try done. apply staged_update. }
  destruct Hs1 as (Hst & Hact & Hlkg & Hhist).
  apply bind_ok in H as ([] & s2 & H2 & H). apply bind_ok in H as (s3 & s4 & [= <- <-] & [= <-]).
  apply insert_activation_run in H2 as [?|(_ & Hst2 & _ & Hlkg2 & Hhist2)]; [done|]. cbn.
  split_and!; [|done| |].
  - unfold staged in *. cbn. congruence.
  - by rewrite Hlkg2, Hlkg.
  - by rewrite Hhist2, Hhist.
Qed.

Lemma rollback_run c p a s r s' :
  ConfigurationStore.rollback c p a s = (r, s') ->
  (is_ok r = false /\ s' = s) \/
  r = Ok tt /\ staged s' = staged s /\
  ConfigurationStore.active_bundle_key s' = ConfigurationStore.key <$> p /\
  ConfigurationStore.last_known_good_bundle_key s' = ConfigurationStore.key <$> p /\
  ConfigurationStore.activations s' = ConfigurationStore.activations s ++ [a].
Proof.
  intros [([] & -> & H)|?]%transaction_run; [right|by left]. split; [done|].
  apply bind_ok in H as ([] & s1 & H1 & H). apply bind_ok in H as ([] & s2 & H2 & H).
  apply bind_ok in H as ([] & s3 & [= <-] & [= <-]).
  apply insert_activation_run in H1 as [?|(_ & Hst & _ & _ & Hhist)]; [done|].
  assert (staged s2 = staged s1 /\ ConfigurationStore.activations s2 = ConfigurationStore.activations s1)
    as [Hst2 Hhist2].
  { destruct (ConfigurationStore.key <$> p); injection H2 as <-; [|done]. split; [apply staged_update|done]. }
  cbn. split_and!; [|done|done|].
  - etrans; [apply staged_update|]. by rewrite <- Hst.
  - by rewrite Hhist2, Hhist.
Qed.

Lemma store_stage_run b sha ref s r s' :
  ConfigurationStore.stage b sha ref s = (r, s') ->
  (is_ok r = false /\ s' = s) \/
  r = Ok tt /\
  ConfigurationStore.active_bundle_key s' = ConfigurationStore.active_bundle_key s /\
  ConfigurationStore.last_known_good_bundle_key s' = ConfigurationStore.last_known_good_bundle_key s /\
  ConfigurationStore.activations s' = ConfigurationStore.activations s /\
  ((exists ref' b', staged s !! ConfigurationStore.key b = Some (sha, ref', b') /\ staged s' = staged s) \/
   staged s !! ConfigurationStore.key b = None /\
   staged s' = <[ConfigurationStore.key b := (sha, ref, b)]> (staged s)).
Proof.
  intros [([] & -> & H)|?]%transaction_run; [right|by left]. split; [done|].
  apply bind_ok in H as (s0 & s1 & [= <- <-] & H). unfold staged. setoid_rewrite lookup_fmap.
  destruct (ConfigurationStore.bundles s !! ConfigurationStore.key b) as [row|] eqn:Erow.
  - apply raise_if_ok in H as [Hsha ->]. apply negb_false_iff, bool_decide_eq_true in Hsha.
    split_and!; try done. left. exists (ConfigurationStore.artifact_ref row), (ConfigurationStore.payload row).
    split; [|done]. cbn. unfold identity_of. by rewrite Hsha.
  - injection H as <-. split_and!; try done. right. split; [done|]. cbn. by rewrite fmap_insert.
Qed.

Section Manager.
Context (float_repr : f64 -> string) (sha256 : string -> string) (uuid5 : string -> UUID).
Context (json_time : datetime -> string) (dump_bundle : ConfigurationBundle.t -> json).
Context (self_test : ConfigurationBundle.t -> verdict).

(** ** Calls *)
Definition digest (b : ConfigurationBundle.t) : string :=
  sha256 (canonical_json_bytes float_repr (dump_bundle b)).

Inductive op : Type :=
  | Stage (r : raw) (write : option string) (now : datetime)
  | Activate (r : raw) (canary : option (ConfigurationBundle.t -> verdict)) (write : option string)
      (now : datetime) (first second : stamp).

Definition exec (o : op) : M t unit :=
  match o with
  | Stage r write now => let! _ := stage float_repr sha256 uuid5 json_time dump_bundle r write now in ret tt
  | Activate r canary write now first second =>
      let! _ := activate float_repr sha256 uuid5 json_time dump_bundle self_test r canary write now first second in
      ret tt
  end.

(** An execution starts with an empty configuration store. *)
Inductive execution : t -> Prop :=
  | execution_start artifacts : execution (mk ConfigurationStore.init artifacts)
  | execution_step m o r m' : execution m -> exec o m = (r, m') -> execution m'.

(** The bundle staged under [k] has passed the self-test. *)
Definition tested (k : string) (m : t) : Prop :=
  exists sha ref b0 b reasons, staged (store m) !! k = Some (sha, ref, b0) /\
    ConfigurationStore.key b = k /\ digest b = sha /\ self_test b = Ok (true, reasons).

Record good (m : t) : Prop := {
  good_rows : forall k sha ref b, staged (store m) !! k = Some (sha, ref, b) ->
    ConfigurationStore.key b = k /\ digest b = sha /\ ref = "sha256:" +:+ sha;
  good_active : forall k, active_key m = Some k -> tested k m;
  good_lkg : forall k, lkg_key m = Some k -> tested k m
}.

(** Rows are added, never changed. *)
Definition grows (m m' : t) : Prop := staged (store m) ⊆ staged (store m').

Lemma tested_grows k m m' : grows m m' -> tested k m -> tested k m'.
Proof.
  intros Hg (sha & ref & b0 & b & reasons & Hk & H). exists sha, ref, b0, b, reasons.
  split; [|done]. by eapply lookup_weaken.
Qed.

(** ** Staging *)
Definition same_pointers (m m' : t) : Prop :=
  active_key m' = active_key m /\ lkg_key m' = lkg_key m.

Lemma stage_run r write now m res m' :
  good m -> stage float_repr sha256 uuid5 json_time dump_bundle r write now m = (res, m') ->
  same_pointers m m' /\ history m' = history m /\ grows m m' /\ good m' /\
  forall b sha path, res = Ok (b, sha, path) ->
    validate r = Ok b /\ sha = digest b /\
    exists ref b', staged (store m') !! ConfigurationStore.key b = Some (sha, ref, b').
Proof.
  intros Hg. unfold stage.
  assert (Hsame : forall m1, store m1 = store m -> same_pointers m m1 /\ history m1 = history m /\ grows m m1 /\ good m1).
  { intros m1 Hm1. unfold same_pointers, grows. rewrite Hm1. split_and!; try done.
    destruct Hg as [H1 H2 H3]. split; unfold tested in *; by rewrite Hm1. }
  unfold bind at 1, lift. destruct (validate r) as [b|e] eqn:Ev;
    [|intros [= <- <-]; destruct (Hsame m eq_refl) as (? & ? & ? & ?); by split_and!].
  unfold bind at 1. destruct (ArtifactScope.validate _) as [scope|e];
    [|intros [= <- <-]; destruct (Hsame m eq_refl) as (? & ? & ? & ?); by split_and!].
  unfold bind at 1. unfold on_artifacts, zoom.
  destruct (ContentAddressedArtifactStore.put_bytes _ _ _ _ _ _ _ _ _ _ _ _) as [rp a1] eqn:Ep.
  pose proof (ArtifactTheorems.put_bytes_run _ _ _ _ _ _ _ _ _ _ _ _ _ _ Ep) as (_ & _ & Href).
  destruct rp as [ref|e];
    [|intros [= <- <-]; destruct (Hsame (set_artifacts a1 m) eq_refl) as (? & ? & ? & ?); by split_and!].
  specialize (Href ref eq_refl). unfold bind at 1, on_store, zoom.
  destruct (ConfigurationStore.stage _ _ _ _) as [rs s1] eqn:Es.
  destruct (store_stage_run _ _ _ _ _ _ Es) as [[Hr ->]|(-> & Ha & Hl & Hh & Hst)].
  { destruct rs; [done|]. intros [= <- <-].
    destruct (Hsame (set_store (store m) (set_artifacts a1 m)) eq_refl) as (? & ? & ? & ?). by split_and!. }
  intros [= <- <-]. cbn [store set_artifacts] in *. fold (digest b) in Href. rewrite Href in *.
  assert (Hgrow : staged (store m) ⊆ staged s1).
  { destruct Hst as [(? & ? & _ & ->)|[Hn ->]]; [done|]. by apply insert_subseteq. }
  split_and!; [done|done|exact Hgrow| |].
  - destruct Hg as [H1 H2 H3]. split; cbn [store set_store].
    + intros k sha ref' b' Hk. destruct Hst as [(? & ? & _ & Heq)|[Hn Heq]]; rewrite Heq in Hk; [by apply H1|].
      apply lookup_insert_Some in Hk as [[<- [= <- <- <-]]|[_ Hk]]; [done|by apply H1].
    + rewrite Ha. intros k Hk. eapply (tested_grows k m); [exact Hgrow|by apply H2].
    + rewrite Hl. intros k Hk. eapply (tested_grows k m); [exact Hgrow|by apply H3].
  - intros b' sha path [= <- <- <-]. split_and!; [done|done|]. cbn [store set_store].
    destruct Hst as [(ref' & b' & Hk & ->)|[_ ->]]; [by eexists _, _|].
    eexists _, _. apply lookup_insert_eq.
Qed.

Lemma active_previous m :
  good m -> ConfigurationStore.key <$> ConfigurationStore.active (store m) = active_key m.
Proof.
  intros [H1 H2 _]. unfold ConfigurationStore.active, ConfigurationStore.bundle_for_key.
  destruct (active_key m) as [k|] eqn:Ek; [|done]. cbn.
  destruct (H2 k eq_refl) as (sha & ref & b0 & _ & _ & Hk & _).
  destruct (H1 _ _ _ _ Hk) as [Hkey _]. unfold staged in Hk.
  rewrite lookup_fmap in Hk. destruct (ConfigurationStore.bundles (store m) !! k) as [row|]; [|done].
  cbn in *. injection Hk as _ _ <-. by rewrite Hkey.
Qed.

(** ** Activating *)
Definition passed (v : verdict) : Prop := exists reasons, v = Ok (true, reasons).
Definition failed (v : verdict) : Prop := exists reasons, v = Ok (false, reasons).

(** What an activation that returns [rec] has done. *)
Definition outcome (b : ConfigurationBundle.t) (canary : option (ConfigurationBundle.t -> verdict))
    (m m' : t) (rec : ConfigurationActivationRecord.t) : Prop :=
  match ConfigurationActivationRecord.state rec with
  | ConfigurationState.REJECTED =>
      failed (self_test b) /\ same_pointers m m' /\ history m' = history m ++ [rec]
  | ConfigurationState.ACTIVE =>
      passed (self_test b) /\ (forall c, canary = Some c -> passed (c b)) /\
      active_key m' = Some (ConfigurationStore.key b) /\
      lkg_key m' = (if decide (active_key m = Some (ConfigurationStore.key b)) then lkg_key m else active_key m) /\
      history m' = history m ++ [rec]
  | ConfigurationState.ROLLED_BACK =>
      passed (self_test b) /\ (exists c, canary = Some c /\ failed (c b)) /\
      active_key m' = active_key m /\ lkg_key m' = active_key m /\
      exists activated, history m' = history m ++ [activated; rec]
  | _ => False
  end.

(** Where an activation that raises can leave the pointers. *)
Definition interrupted (r : raw) (canary : option (ConfigurationBundle.t -> verdict)) (m m' : t) (e : exn)
  : Prop :=
  same_pointers m m' \/
  exists b c, validate r = Ok b /\ canary = Some c /\ passed (self_test b) /\ ~ passed (c b) /\
    active_key m' = Some (ConfigurationStore.key b) /\ (failed (c b) \/ c b = Raise e).

Lemma on_store_run {A} (sm : M ConfigurationStore.t A) m r m' :
  on_store sm m = (r, m') -> exists s', sm (store m) = (r, s') /\ m' = set_store s' m.
Proof. unfold on_store, zoom. destruct (sm _) as [r1 s1]. intros [= <- <-]. eauto. Qed.

(** What every exit of [activate] establishes. *)
Definition exits (r : raw) (canary : option (ConfigurationBundle.t -> verdict)) (m : t)
    (res : res ConfigurationActivationRecord.t) (m' : t) : Prop :=
  good m' /\ grows m m' /\
  match res with
  | Ok rec => exists b, validate r = Ok b /\ outcome b canary m m' rec
  | Raise e => interrupted r canary m m' e
  end.

(** A store call that changes nothing but the states and the history. *)
Lemma good_recorded m s :
  good m -> staged s = staged (store m) ->
  ConfigurationStore.active_bundle_key s = active_key m ->
  ConfigurationStore.last_known_good_bundle_key s = lkg_key m -> good (set_store s m).
Proof.
  intros [G1 G2 G3] Hst Ha Hl. split; unfold tested in *; cbn [store set_store]; rewrite ?Hst, ?Ha, ?Hl; done.
Qed.

Lemma good_pointed m s :
  good m -> staged s = staged (store m) ->
  (forall k, ConfigurationStore.active_bundle_key s = Some k -> tested k m) ->
  (forall k, ConfigurationStore.last_known_good_bundle_key s = Some k -> tested k m) -> good (set_store s m).
Proof.
  intros [G1 _ _] Hst Ha Hl. split; unfold tested in *; cbn [store set_store]; rewrite ?Hst; done.
Qed.

Lemma grows_staged m m1 s : grows m m1 -> staged s = staged (store m1) -> grows m (set_store s m1).
Proof. unfold grows. cbn [store set_store]. by intros ? ->. Qed.

(** After staging: [b] is staged, and pointers and history are those of [m]. *)
Record ready (r : raw) (b : ConfigurationBundle.t) (m m1 : t) : Prop := {
  ready_valid : validate r = Ok b;
  ready_good : good m1;
  ready_grows : grows m m1;
  ready_pointers : same_pointers m m1;
  ready_history : history m1 = history m;
  ready_row : exists ref b', staged (store m1) !! ConfigurationStore.key b = Some (digest b, ref, b')
}.

Lemma rejected_exit r b canary m m1 rec res m' :
  ready r b m m1 -> failed (self_test b) ->
  ConfigurationActivationRecord.state rec = ConfigurationState.REJECTED ->
  (on_store (ConfigurationStore.record rec) ;;; ret rec) m1 = (res, m') -> exits r canary m res m'.
Proof.
  intros [Hv Hg Hgr [Ha1 Hl1] Hh1 _] Hfail Hrec. unfold bind. destruct (on_store _ m1) as [rr m2] eqn:Er.
  apply on_store_run in Er as (s2 & Er & ->).
  destruct (record_run _ _ _ _ Er) as [[Hr ->]|(-> & Hst & Ha & Hl & Hh)].
  - destruct rr; [done|]. intros [= <- <-]. split_and!; [by destruct Hg|by apply grows_staged|by left].
  - intros [= <- <-]. split_and!; [by apply good_recorded|by apply grows_staged|].
    exists b. split; [done|]. unfold outcome. rewrite Hrec. cbn. unfold same_pointers. cbn.
    rewrite Ha, Hl, Hh, Hh1, Ha1, Hl1. done.
Qed.

Lemma rolled_back_exit r b c m m2 rec prev res m' :
  good m -> validate r = Ok b -> good m2 -> grows m m2 -> passed (self_test b) -> failed (c b) ->
  active_key m2 = Some (ConfigurationStore.key b) -> (exists a, history m2 = history m ++ [a]) ->
  ConfigurationStore.key <$> prev = active_key m ->
  ConfigurationActivationRecord.state rec = ConfigurationState.ROLLED_BACK ->
  (on_store (ConfigurationStore.rollback b prev rec) ;;; ret rec) m2 = (res, m') -> exits r (Some c) m res m'.
Proof.
  intros Hg Hv Hg2 Hgr Hpass Hfail Hact [a Hh2] Hprev Hrec. unfold bind.
  destruct (on_store _ m2) as [rb m3] eqn:Eb. apply on_store_run in Eb as (s3 & Eb & ->).
  destruct (rollback_run _ _ _ _ _ _ Eb) as [[Hr ->]|(-> & Hst & Ha & Hl & Hh)].
  - destruct rb; [done|]. intros [= <- <-]. split_and!; [by destruct Hg2|by apply grows_staged|].
    right. exists b, c. cbn. split_and!; try done; [|by left].
    destruct Hfail as [? ->]. by intros [? ?].
  - assert (Hprevious : forall k, ConfigurationStore.key <$> prev = Some k -> tested k m2).
    { rewrite Hprev. intros k Hk. apply (tested_grows k m); [done|]. by apply (good_active _ Hg). }
    intros [= <- <-]. split_and!; [|by apply grows_staged|].
    + apply good_pointed; [done..| |]; rewrite ?Ha, ?Hl; exact Hprevious.
    + exists b. split; [done|]. unfold outcome. rewrite Hrec. cbn. rewrite Ha, Hl, Hprev, Hh, Hh2.
      split_and!; [done|by exists c|done|done|]. exists a. by rewrite <- app_assoc.
Qed.

Lemma activated_ready r b m m1 rec res m2 :
  ready r b m m1 -> passed (self_test b) ->
  ConfigurationActivationRecord.state rec = ConfigurationState.ACTIVE ->
  on_store (ConfigurationStore.activate b rec) m1 = (res, m2) ->
  (is_ok res = false /\ m2 = m1) \/
  res = Ok tt /\ good m2 /\ grows m m2 /\ active_key m2 = Some (ConfigurationStore.key b) /\
  history m2 = history m ++ [rec] /\
  forall canary, (forall c, canary = Some c -> passed (c b)) -> outcome b canary m m2 rec.
Proof.
  intros [Hv Hg Hgr [Ha1 Hl1] Hh1 (ref & b' & Hrow)] Hpass Hrec Ea.
  apply on_store_run in Ea as (s2 & Ea & ->).
  destruct (activate_run _ _ _ _ _ Ea) as [[Hr ->]|(-> & Hst & Ha & Hl & Hh)]; [left; by destruct m1|right].
  assert (Htb : tested (ConfigurationStore.key b) m1).
  { destruct Hpass as [reasons ?]. by exists (digest b), ref, b', b, reasons. }
  split_and!; [done| |by apply grows_staged|done|by cbn; rewrite Hh, Hh1|].
  - apply good_pointed; [done..| |].
    + rewrite Ha. by intros k [= <-].
    + rewrite Hl. intros k Hk. case_decide; [by apply (good_lkg _ Hg)|by apply (good_active _ Hg)].
  - intros canary Hc. unfold outcome. rewrite Hrec. cbn. rewrite Ha, Hl, Hh, Hh1, Ha1, Hl1. done.
Qed.

Lemma activate_cases r canary write now first second m res m' :
  good m ->
  activate float_repr sha256 uuid5 json_time dump_bundle self_test r canary write now first second m = (res, m') ->
  exits r canary m res m'.
Proof.
  intros Hg. unfold activate. unfold bind at 1, get. unfold bind at 1.
  destruct (stage _ _ _ _ _ r write now m) as [rs m1] eqn:Es.
  destruct (stage_run _ _ _ _ _ _ Hg Es) as (Hp1 & Hh1 & Hgr1 & Hg1 & Hok).
  destruct rs as [[[b sha] path]|e]; [|intros [= <- <-]; split_and!; [done|done|by left]].
  destruct (Hok b sha path eq_refl) as (Hv & -> & Hrow). clear Hok Es.
  assert (Hready : ready r b m m1) by by split.
  unfold bind at 1, lift. destruct (self_test b) as [[[] reasons]|e] eqn:Et; cbn [negb].
  2:{ intros H. apply (rejected_exit r b canary m m1 _ _ _ Hready) in H; [done|by exists reasons|done]. }
  2:{ intros [= <- <-]. split_and!; [done|done|by left]. }
  unfold bind at 1. destruct (on_store _ m1) as [ra m2] eqn:Ea.
  apply (activated_ready _ _ _ _ _ _ _ Hready) in Ea; [|by exists reasons|done].
  destruct Ea as [[Hr ->]|(-> & Hg2 & Hgr2 & Hact & Hh2 & Hout)].
  { destruct ra; [done|]. intros [= <- <-]. split_and!; [done|done|by left]. }
  assert (Hpass : passed (self_test b)) by by exists reasons.
  destruct canary as [c|].
  2:{ intros [= <- <-]. split_and!; [done|done|]. exists b. split; [done|]. by apply Hout. }
  unfold bind at 1. destruct (c b) as [[[] creasons]|e] eqn:Ec.
  - intros [= <- <-]. split_and!; [done|done|]. exists b. split; [done|]. apply Hout.
    intros ? [= <-]. by exists creasons.
  - intros H. apply (rolled_back_exit r b c m m2) in H;
      [done..|by exists creasons|done|by eexists|by apply active_previous|done].
  - intros [= <- <-]. split_and!; [done|done|]. right. exists b, c.
    split_and!; try done; [|by right]. rewrite Ec. by intros [? ?].
Qed.

(** ** Executions *)
Lemma manager_exec_good o m r m' : good m -> exec o m = (r, m') -> good m' /\ grows m m'.
Proof.
  intros Hg. destruct o as [rw write now|rw canary write now first second]; cbn [exec]; unfold bind.
  - destruct (stage _ _ _ _ _ _ _ _ m) as [rs m1] eqn:E.
    destruct (stage_run _ _ _ _ _ _ Hg E) as (_ & _ & ? & ? & _). destruct rs; by intros [= _ <-].
  - destruct (activate _ _ _ _ _ _ _ _ _ _ _ _ m) as [rs m1] eqn:E.
    destruct (activate_cases _ _ _ _ _ _ _ _ _ Hg E) as (? & ? & _). destruct rs; by intros [= _ <-].
Qed.

Lemma execution_good m : execution m -> good m.
Proof.
  induction 1 as [artifacts|m o r m' _ IH He]; [|by eapply manager_exec_good].
  split; cbn; [|done..]. intros k sha ref b. unfold staged. cbn. by rewrite fmap_empty, lookup_empty.
Qed.

(** The outcomes of [activate] in any execution.  A bundle that fails its
    self-test is REJECTED and the pointers stay; one that passes becomes active
    and the bundle active before it becomes the last known good one; when the
    canary then fails, the bundle active before is active again.  Every outcome
    is recorded.  An activation that raises leaves the pointers as they were,
    unless the canary itself raised or could not be rolled back. *)
Theorem activate_outcomes r canary write now first second m res m' (Hx : execution m)
    (Hrun : activate float_repr sha256 uuid5 json_time dump_bundle self_test r canary write now first second m
            = (res, m')) :
  match res with
  | Ok rec => exists b, validate r = Ok b /\ outcome b canary m m' rec
  | Raise e => interrupted r canary m m' e
  end.
Proof. by destruct (activate_cases _ _ _ _ _ _ _ _ _ (execution_good _ Hx) Hrun) as (_ & _ & ?). Qed.

(** C37: in every execution the active and the last known good bundle are staged
    rows whose digest is that of a bundle with the same identity that passed
    the self-test, and the staged rows (digest, artifact and contents) never
    change. *)
Theorem active_configuration_tested m (Hx : execution m) :
  (forall k, active_key m = Some k \/ lkg_key m = Some k -> tested k m) /\
  (forall k sha ref b, staged (store m) !! k = Some (sha, ref, b) ->
     ConfigurationStore.key b = k /\ digest b = sha) /\
  (forall o r m', exec o m = (r, m') -> staged (store m) ⊆ staged (store m')).
Proof.
  pose proof (execution_good _ Hx) as Hg. split_and!.
  - intros k [Hk|Hk]; [by apply (good_active _ Hg)|by apply (good_lkg _ Hg)].
  - intros k sha ref b Hk. by destruct (good_rows _ Hg _ _ _ _ Hk) as (? & ? & _).
  - intros o r m' He. by apply (manager_exec_good _ _ _ _ Hg) in He as [_ ?].
Qed.
End Manager.

(** ** An execution

    Version 1 and then version 2 of a bundle are activated. *)
Definition demo_workload : WorkloadSpec.t :=
  WorkloadSpec.mk "quake" HazardKind.EARTHQUAKE CriticalityTier.A_IMMEDIATE 100 50 0 10 64 "profile-1" None.
Definition demo_bundle (version : string) : ConfigurationBundle.t :=
  ConfigurationBundle.mk "1.0.0" "site" version "operator" [demo_workload] (JDict []) ∅ ∅ 5.
Definition demo_dump (b : ConfigurationBundle.t) : json :=
  JDict [("bundle_id", JStr (ConfigurationBundle.bundle_id b)); ("version", JStr (ConfigurationBundle.version b))].
Definition demo_activate (version : string) (canary : option (ConfigurationBundle.t -> verdict)) (n : string) : op :=
  Activate (Fields (demo_bundle version)) canary None 10 (mkStamp ("activation-" +:+ n) 10)
    (mkStamp ("rollback-" +:+ n) 11).
Definition demo_run : op -> M t unit :=
  exec demo_float_repr demo_sha256 demo_uuid5 demo_time demo_dump default_self_test.
Definition demo_empty : t :=
  mk ConfigurationStore.init
    (ContentAddressedArtifactStore.mk "root" ∅ (ArtifactCatalog.init ArtifactBudgetPolicy.defaults)
       4096 16 false None).
Definition demo_manager : t :=
  (demo_run (demo_activate "2" None "b") (demo_run (demo_activate "1" None "a") demo_empty).2).2.
Definition failing_canary (b : ConfigurationBundle.t) : verdict := Ok (false, ["smoke_test"]).

Notation demo_execution := (execution demo_float_repr demo_sha256 demo_uuid5 demo_time demo_dump default_self_test).

Lemma demo_execution_step o m : demo_execution m -> demo_execution (demo_run o m).2.
Proof. intros Hx. eapply execution_step; [exact Hx|]. apply (surjective_pairing (demo_run o m)). Qed.

Lemma demo_manager_execution : demo_execution demo_manager.
Proof. apply demo_execution_step, demo_execution_step, execution_start. Qed.

Definition demo_third (canary : option (ConfigurationBundle.t -> verdict)) : M t ConfigurationActivationRecord.t :=
  activate demo_float_repr demo_sha256 demo_uuid5 demo_time demo_dump default_self_test
    (Fields (demo_bundle "3")) canary None 20 (mkStamp "activation-c" 20) (mkStamp "rollback-c" 21).

Lemma activate_outcomes_witness :
  (ConfigurationActivationRecord.state <$>
     (match (demo_third (Some failing_canary) demo_manager).1 with Ok r => Some r | Raise _ => None end))
    = Some ConfigurationState.ROLLED_BACK /\
  active_key (demo_third (Some failing_canary) demo_manager).2 = Some "site@2" /\
  match (demo_third (Some failing_canary) demo_manager).1 with
  | Ok rec => exists b, validate (Fields (demo_bundle "3")) = Ok b /\
      outcome default_self_test b (Some failing_canary) demo_manager
        (demo_third (Some failing_canary) demo_manager).2 rec
  | Raise e => interrupted default_self_test (Fields (demo_bundle "3")) (Some failing_canary) demo_manager
      (demo_third (Some failing_canary) demo_manager).2 e
  end.
Proof.
  split; [vm_compute; reflexivity|]. split; [vm_compute; reflexivity|].
  apply (activate_outcomes demo_float_repr demo_sha256 demo_uuid5 demo_time demo_dump default_self_test
    (Fields (demo_bundle "3")) (Some failing_canary) None 20 (mkStamp "activation-c" 20) (mkStamp "rollback-c" 21)
    demo_manager (demo_third (Some failing_canary) demo_manager).1).
  - apply demo_manager_execution.
  - exact (surjective_pairing (demo_third (Some failing_canary) demo_manager)).
Defined.

Lemma active_configuration_tested_witness :
  active_key demo_manager = Some "site@2" /\ lkg_key demo_manager = Some "site@1" /\
  tested demo_float_repr demo_sha256 demo_dump default_self_test "site@2" demo_manager.
Proof.
  split; [vm_compute; reflexivity|]. split; [vm_compute; reflexivity|].
  refine (proj1 (active_configuration_tested demo_float_repr demo_sha256 demo_uuid5 demo_time demo_dump
    default_self_test demo_manager demo_manager_execution) "site@2" _).
  left. vm_compute. reflexivity.
Defined.

(** Re-activating the active bundle with a canary that fails marks it
    ROLLED_BACK and leaves it active; the last known good bundle is lost. *)
Theorem reactivation_loses_last_known_good :
  demo_execution demo_manager /\
  active_key demo_manager = Some "site@2" /\ lkg_key demo_manager = Some "site@1" /\
  let m := (demo_run (demo_activate "2" (Some failing_canary) "c") demo_manager).2 in
  active_key m = Some "site@2" /\ lkg_key m = Some "site@2" /\
  (ConfigurationStore.state <$> ConfigurationStore.bundles (store m) !! "site@2")
    = Some ConfigurationState.ROLLED_BACK.
Proof. split; [apply demo_manager_execution|]. repeat split; vm_compute; reflexivity. Qed.
