(* ===== verification/Journal.v ===== *)
(** The incident journal (storage/sqlite_store.py, [IncidentJournalStore]).

    The database is a record of tables.  A table is the list of its rows in
    insertion order; a row is the object the code serialises into it, so
    [payload_json] columns hold the object itself (a [payload]) and reading a
    row back is the identity.  Primary keys and UNIQUE constraints raise
    [IntegrityError] on insertion; foreign keys are not enforced, as in the
    code's connection.  [with self._connection:] is [transaction].  The digest
    of an object's canonical JSON, [sha256], is a parameter.  AUTOINCREMENT
    columns take the next value of a counter, which a rollback restores.
    [ORDER BY] on timestamps sorts by time. *)

From Stdlib Require Import ZArith.
From S2P Require Import Prelude Binary64 Enums Models Records.
Open Scope Z_scope.

(** The objects the authority journal serialises. *)
Inductive payload : Type :=
  | PIncident (r : IncidentRecord.t)
  | PNotification (n : NotificationIntent.t)
  | PReview (a : ReviewAction.t)
  | PCommand (r : CommandReceipt.t)
  | PEvidence (e : EvidenceItem.t)
  | PLifecycle (e : EvidenceLifecycleEvent.t)
  | PMediaParse (r : MediaParserReport.t)
  | PReevaluation (r : EvidenceReevaluationRecord.t)
  | PClaim (c : ClaimNode.t)
  | PClaimLink (l : ClaimEvidenceLink.t)
  | PRelation (r : IncidentRelation.t)
  | PCandidate (c : IncidentCandidate.t)
  | PDecision (d : IncidentIdentityDecision.t)
  | PJson (j : json).

#[global] Instance json_eq_dec : EqDecision json.
Proof.
  refine (fix go (x y : json) {struct x} : {x = y} + {x <> y} := _).
  destruct x as [|b|z|f|s|l|d], y as [|b'|z'|f'|s'|l'|d']; try (right; discriminate).
  - left. reflexivity.
  - destruct (decide (b = b')) as [->|]; [left; reflexivity|right; congruence].
  - destruct (decide (z = z')) as [->|]; [left; reflexivity|right; congruence].
  - destruct (decide (f = f')) as [->|]; [left; reflexivity|right; congruence].
  - destruct (decide (s = s')) as [->|]; [left; reflexivity|right; congruence].
  - assert (H : {l = l'} + {l <> l'}).
    { revert l'. induction l as [|x l IH]; intros [|y l']; try (right; discriminate); [left; reflexivity|].
      destruct (go x y) as [->|]; [|right; congruence].
      destruct (IH l') as [->|]; [left; reflexivity|right; congruence]. }
    destruct H as [->|]; [left; reflexivity|right; congruence].
  - assert (H : {d = d'} + {d <> d'}).
    { revert d'. induction d as [|[k x] d IH]; intros [|[k' y] d']; try (right; discriminate); [left; reflexivity|].
      destruct (decide (k = k')) as [->|]; [|right; congruence].
      destruct (go x y) as [->|]; [|right; congruence].
      destruct (IH d') as [->|]; [left; reflexivity|right; congruence]. }
    destruct H as [->|]; [left; reflexivity|right; congruence].
Defined.

#[global] Instance payload_eq_dec : EqDecision payload.
Proof. solve_decision. Defined.

Module IncidentJournalStore.

(** A row of [authority_events]. *)
Record authority_event : Type := mkEvent {
  position : Z;
  epoch_id : string;
  epoch_ordinal : option Z;
  predecessor_position : option Z;
  kind : AuthorityMutationKind.t;
  entity_id : string;
  accepted_at : datetime;
  payload_sha256 : option string;
  payload_json : payload
}.

(** A row of [authority_event_subtypes]. *)
Record subtype : Type := mkSubtype {
  authority_position : Z;
  subtype_kind : AuthorityMutationKind.t;
  subtype_id : string;
  subtype_sha256 : string;
  subtype_payload : payload
}.

(** A row of [incident_events]. *)
Record incident_event : Type := mkIncident {
  event_id : Z;
  incident_position : Z;
  incident : IncidentRecord.t
}.

Record t : Type := mk {
  authority_events : list authority_event;
  authority_seq : Z;
  subtypes : list subtype;
  incident_events : list incident_event;
  incident_seq : Z;
  notification_intents : list NotificationIntent.t;
  review_actions : list ReviewAction.t;
  incident_review_state : gmap UUID IncidentReviewState.t;
  receipts : list CommandReceipt.t;
  evidence_items : list EvidenceItem.t;
  lifecycle_events : list EvidenceLifecycleEvent.t;
  media_parser_runs : list MediaParserReport.t;
  reevaluations : list EvidenceReevaluationRecord.t;
  claim_nodes : list ClaimNode.t;
  claim_evidence_links : list ClaimEvidenceLink.t;
  relations : list IncidentRelation.t;
  candidates : list (IncidentCandidate.t * UUID);
  decisions : list IncidentIdentityDecision.t
}.

Definition set_authority_events v (s : t) : t :=
  mk v (authority_seq s) (subtypes s) (incident_events s) (incident_seq s) (notification_intents
    s) (review_actions s) (incident_review_state s) (receipts s) (evidence_items s)
    (lifecycle_events s) (media_parser_runs s) (reevaluations s) (claim_nodes s)
    (claim_evidence_links s) (relations s) (candidates s) (decisions s).
Definition set_authority_seq v (s : t) : t :=
  mk (authority_events s) v (subtypes s) (incident_events s) (incident_seq s)
    (notification_intents s) (review_actions s) (incident_review_state s) (receipts s)
    (evidence_items s) (lifecycle_events s) (media_parser_runs s) (reevaluations s) (claim_nodes
    s) (claim_evidence_links s) (relations s) (candidates s) (decisions s).
Definition set_subtypes v (s : t) : t :=
  mk (authority_events s) (authority_seq s) v (incident_events s) (incident_seq s)
    (notification_intents s) (review_actions s) (incident_review_state s) (receipts s)
    (evidence_items s) (lifecycle_events s) (media_parser_runs s) (reevaluations s) (claim_nodes
    s) (claim_evidence_links s) (relations s) (candidates s) (decisions s).
Definition set_incident_events v (s : t) : t :=
  mk (authority_events s) (authority_seq s) (subtypes s) v (incident_seq s)
    (notification_intents s) (review_actions s) (incident_review_state s) (receipts s)
    (evidence_items s) (lifecycle_events s) (media_parser_runs s) (reevaluations s) (claim_nodes
    s) (claim_evidence_links s) (relations s) (candidates s) (decisions s).
Definition set_incident_seq v (s : t) : t :=
  mk (authority_events s) (authority_seq s) (subtypes s) (incident_events s) v
    (notification_intents s) (review_actions s) (incident_review_state s) (receipts s)
    (evidence_items s) (lifecycle_events s) (media_parser_runs s) (reevaluations s) (claim_nodes
    s) (claim_evidence_links s) (relations s) (candidates s) (decisions s).
Definition set_notification_intents v (s : t) : t :=
  mk (authority_events s) (authority_seq s) (subtypes s) (incident_events s) (incident_seq s) v
    (review_actions s) (incident_review_state s) (receipts s) (evidence_items s)
    (lifecycle_events s) (media_parser_runs s) (reevaluations s) (claim_nodes s)
    (claim_evidence_links s) (relations s) (candidates s) (decisions s).
Definition set_review_actions v (s : t) : t :=
  mk (authority_events s) (authority_seq s) (subtypes s) (incident_events s) (incident_seq s)
    (notification_intents s) v (incident_review_state s) (receipts s) (evidence_items s)
    (lifecycle_events s) (media_parser_runs s) (reevaluations s) (claim_nodes s)
    (claim_evidence_links s) (relations s) (candidates s) (decisions s).
Definition set_incident_review_state v (s : t) : t :=
  mk (authority_events s) (authority_seq s) (subtypes s) (incident_events s) (incident_seq s)
    (notification_intents s) (review_actions s) v (receipts s) (evidence_items s)
    (lifecycle_events s) (media_parser_runs s) (reevaluations s) (claim_nodes s)
    (claim_evidence_links s) (relations s) (candidates s) (decisions s).
Definition set_receipts v (s : t) : t :=
  mk (authority_events s) (authority_seq s) (subtypes s) (incident_events s) (incident_seq s)
    (notification_intents s) (review_actions s) (incident_review_state s) v (evidence_items s)
    (lifecycle_events s) (media_parser_runs s) (reevaluations s) (claim_nodes s)
    (claim_evidence_links s) (relations s) (candidates s) (decisions s).
Definition set_evidence_items v (s : t) : t :=
  mk (authority_events s) (authority_seq s) (subtypes s) (incident_events s) (incident_seq s)
    (notification_intents s) (review_actions s) (incident_review_state s) (receipts s) v
    (lifecycle_events s) (media_parser_runs s) (reevaluations s) (claim_nodes s)
    (claim_evidence_links s) (relations s) (candidates s) (decisions s).
Definition set_lifecycle_events v (s : t) : t :=
  mk (authority_events s) (authority_seq s) (subtypes s) (incident_events s) (incident_seq s)
    (notification_intents s) (review_actions s) (incident_review_state s) (receipts s)
    (evidence_items s) v (media_parser_runs s) (reevaluations s) (claim_nodes s)
    (claim_evidence_links s) (relations s) (candidates s) (decisions s).
Definition set_media_parser_runs v (s : t) : t :=
  mk (authority_events s) (authority_seq s) (subtypes s) (incident_events s) (incident_seq s)
    (notification_intents s) (review_actions s) (incident_review_state s) (receipts s)
    (evidence_items s) (lifecycle_events s) v (reevaluations s) (claim_nodes s)
    (claim_evidence_links s) (relations s) (candidates s) (decisions s).
Definition set_reevaluations v (s : t) : t :=
  mk (authority_events s) (authority_seq s) (subtypes s) (incident_events s) (incident_seq s)
    (notification_intents s) (review_actions s) (incident_review_state s) (receipts s)
    (evidence_items s) (lifecycle_events s) (media_parser_runs s) v (claim_nodes s)
    (claim_evidence_links s) (relations s) (candidates s) (decisions s).
Definition set_claim_nodes v (s : t) : t :=
  mk (authority_events s) (authority_seq s) (subtypes s) (incident_events s) (incident_seq s)
    (notification_intents s) (review_actions s) (incident_review_state s) (receipts s)
    (evidence_items s) (lifecycle_events s) (media_parser_runs s) (reevaluations s) v
    (claim_evidence_links s) (relations s) (candidates s) (decisions s).
Definition set_claim_evidence_links v (s : t) : t :=
  mk (authority_events s) (authority_seq s) (subtypes s) (incident_events s) (incident_seq s)
    (notification_intents s) (review_actions s) (incident_review_state s) (receipts s)
    (evidence_items s) (lifecycle_events s) (media_parser_runs s) (reevaluations s) (claim_nodes
    s) v (relations s) (candidates s) (decisions s).
Definition set_relations v (s : t) : t :=
  mk (authority_events s) (authority_seq s) (subtypes s) (incident_events s) (incident_seq s)
    (notification_intents s) (review_actions s) (incident_review_state s) (receipts s)
    (evidence_items s) (lifecycle_events s) (media_parser_runs s) (reevaluations s) (claim_nodes
    s) (claim_evidence_links s) v (candidates s) (decisions s).
Definition set_candidates v (s : t) : t :=
  mk (authority_events s) (authority_seq s) (subtypes s) (incident_events s) (incident_seq s)
    (notification_intents s) (review_actions s) (incident_review_state s) (receipts s)
    (evidence_items s) (lifecycle_events s) (media_parser_runs s) (reevaluations s) (claim_nodes
    s) (claim_evidence_links s) (relations s) v (decisions s).
Definition set_decisions v (s : t) : t :=
  mk (authority_events s) (authority_seq s) (subtypes s) (incident_events s) (incident_seq s)
    (notification_intents s) (review_actions s) (incident_review_state s) (receipts s)
    (evidence_items s) (lifecycle_events s) (media_parser_runs s) (reevaluations s) (claim_nodes
    s) (claim_evidence_links s) (relations s) (candidates s) v.

(** A new database. *)
Definition init : t := mk [] 0 [] [] 0 [] [] ∅ [] [] [] [] [] [] [] [] [] [].

(** [INSERT] of a row into a table with a uniqueness constraint. *)
Definition insert {R} (constraint : string) (clash : R -> R -> bool) (table : t -> list R)
    (set_table : list R -> t -> t) (row : R) : M t unit :=
  let! s := get in
  raise_if (existsb (clash row) (table s)) (IntegrityError constraint) ;;;
  put (set_table (table s ++ [row]) s).

Definition epoch : string := "authority-epoch-1".

Section Operations.
Context (sha256 : payload -> string).

Definition append_authority (kind : AuthorityMutationKind.t) (entity_id : string)
    (accepted_at : datetime) (payload : payload) : M t Z :=
  let digest := sha256 payload in
  let! s := get in
  let previous := last (authority_events s) in
  let predecessor := position <$> previous in
  let ordinal :=
    match previous with
    | Some p =>
        (match epoch_ordinal p with
         | Some n => if n =? 0 then position p else n
         | None => position p
         end) + 1
    | None => 1
    end in
  let position := authority_seq s + 1 in
  put (set_authority_seq position s) ;;;
  insert "authority_events" (fun x y => same_key epoch_id x y && same_key epoch_ordinal x y)
    authority_events set_authority_events
    (mkEvent position epoch (Some ordinal) predecessor kind entity_id accepted_at (Some digest) payload) ;;;
  insert "authority_event_subtypes" (same_key authority_position) subtypes set_subtypes
    (mkSubtype position kind entity_id digest payload) ;;;
  ret position.

Definition record_authority_mutation (kind : AuthorityMutationKind.t) (entity_id : string)
    (accepted_at : datetime) (payload : payload) : M t Z :=
  transaction (append_authority kind entity_id accepted_at payload).

Definition incident_key (e : incident_event) : UUID * Z :=
  (IncidentRecord.incident_id (incident e), IncidentRecord.version (incident e)).

Definition insert_incident (position : Z) (r : IncidentRecord.t) : M t unit :=
  let! s := get in
  let event_id := incident_seq s + 1 in
  put (set_incident_seq event_id s) ;;;
  insert "incident_events" (fun x y => same_key incident_key x y || same_key incident_position x y)
    incident_events set_incident_events (mkIncident event_id position r).

Definition insert_notification (item : NotificationIntent.t) : M t unit :=
  insert "notification_intents" (fun x y => same_key NotificationIntent.notification_id x y
                                            || same_key NotificationIntent.idempotency_key x y)
    notification_intents set_notification_intents item.

(** Event truth and any accepted notification intent, in one transaction. *)
Definition append_incident_with_notification (r : IncidentRecord.t)
    (notification : option NotificationIntent.t) : M t bool :=
  transaction
    (let! position := append_authority AuthorityMutationKind.INCIDENT (IncidentRecord.incident_id r)
                        (IncidentRecord.last_observed_at r) (PIncident r) in
     insert_incident position r ;;;
     match notification with
     | None => ret false
     | Some n =>
         let! s := get in
         match select_one (same_key NotificationIntent.idempotency_key n) (notification_intents s) with
         | Some _ => ret false
         | None =>
             let! _ := append_authority AuthorityMutationKind.NOTIFICATION_INTENT
                         (NotificationIntent.notification_id n) (NotificationIntent.created_at n)
                         (PNotification n) in
             insert_notification n ;;;
             ret true
         end
     end).

Definition append (r : IncidentRecord.t) : M t unit :=
  let! _ := append_incident_with_notification r None in ret tt.

Definition all (s : t) : list IncidentRecord.t := incident <$> incident_events s.

Definition incident_hazard (e : incident_event) : HazardKind.t := IncidentRecord.hazard (incident e).
Definition incident_version (e : incident_event) : Z := IncidentRecord.version (incident e).

(** [SELECT MAX(version) ... WHERE hazard = h] *)
Definition max_version (h : HazardKind.t) (rows : list incident_event) : Z :=
  fold_right Z.max 0 (incident_version <$> select (fun e => bool_decide (incident_hazard e = h)) rows).

Definition latest_by_hazard (s : t) : list IncidentRecord.t :=
  incident <$> sort_by (fun x y => String.leb (HazardKind.value (incident_hazard x))
                                     (HazardKind.value (incident_hazard y)))
    (select (fun e => incident_version e =? max_version (incident_hazard e) (incident_events s))
       (incident_events s)).

Definition authority_journal (s : t) : list authority_event := authority_events s.

Definition notifications (s : t) : list NotificationIntent.t :=
  order_by NotificationIntent.created_at NotificationIntent.notification_id (notification_intents s).

Definition dispatchable (now : datetime) (n : NotificationIntent.t) : bool :=
  (bool_decide (NotificationIntent.status n = NotificationStatus.PENDING)
   || bool_decide (NotificationIntent.status n = NotificationStatus.FAILED))
  && (NotificationIntent.attempt_count n <? NotificationIntent.max_attempts n)
  && (NotificationIntent.created_at n <=? now).

Definition dispatchable_notifications (now : datetime) (s : t) : list NotificationIntent.t :=
  select (dispatchable now) (notifications s).

(** [UPDATE notification_intents SET ... WHERE notification_id = ?] *)
Definition update_notification (n : NotificationIntent.t) : M t unit :=
  modify (fun s => set_notification_intents
    ((fun row => if decide (NotificationIntent.notification_id row = NotificationIntent.notification_id n)
                 then n else row) <$> notification_intents s) s).

(** The intent after one delivery attempt. *)
Definition delivery_update (current : NotificationIntent.t) (delivered : bool)
    (receipt_id error : option string) (accepted_at : datetime) : NotificationIntent.t :=
  let attempts := NotificationIntent.attempt_count current + 1 in
  let status :=
    if delivered then NotificationStatus.DELIVERED
    else if NotificationIntent.max_attempts current <=? attempts then NotificationStatus.DEAD_LETTER
    else NotificationStatus.FAILED in
  NotificationIntent.set_last_error
    (if delivered then None
     else Some (match error with
                | Some e => if decide (e = "") then "delivery_failed" else e
                | None => "delivery_failed"
                end))
    (NotificationIntent.set_receipt_id (if delivered then receipt_id else None)
      (NotificationIntent.set_updated_at accepted_at
        (NotificationIntent.set_attempt_count attempts
          (NotificationIntent.set_status status current)))).

Definition record_delivery (notification_id : UUID) (delivered : bool) (receipt_id error : option string)
    (accepted_at : datetime) : M t NotificationIntent.t :=
  transaction
    (let! s := get in
     match select_one (fun n => bool_decide (NotificationIntent.notification_id n = notification_id))
             (notification_intents s) with
     | None => raise (KeyError notification_id)
     | Some current =>
         if decide (NotificationIntent.status current = NotificationStatus.DELIVERED) then ret current
         else
           let updated := delivery_update current delivered receipt_id error accepted_at in
           let! _ := append_authority AuthorityMutationKind.NOTIFICATION_DELIVERY
                       (NotificationIntent.notification_id updated) accepted_at (PNotification updated) in
           update_notification updated ;;;
           ret updated
     end).

Definition notification_count (incident_id : UUID) (s : t) : Z :=
  Z.of_nat (length (select (fun n => bool_decide (NotificationIntent.incident_id n = incident_id))
                      (notification_intents s))).

(** The row of an incident, or the initial state. *)
Definition review_row (incident_id : UUID) (rows : gmap UUID IncidentReviewState.t)
  : IncidentReviewState.t :=
  match rows !! incident_id with
  | Some row => IncidentReviewState.set_incident_id incident_id row
  | None => {| IncidentReviewState.incident_id := incident_id;
               IncidentReviewState.acknowledged_at := None;
               IncidentReviewState.acknowledged_by := None;
               IncidentReviewState.snoozed_until := None;
               IncidentReviewState.snoozed_by := None;
               IncidentReviewState.review_count := 0 |}
  end.

Definition review_state (incident_id : UUID) (s : t) : IncidentReviewState.t :=
  review_row incident_id (incident_review_state s).

(** The review state after an action. *)
Definition apply_review (current : IncidentReviewState.t) (action : ReviewAction.t)
  : IncidentReviewState.t :=
  let counted := IncidentReviewState.set_review_count (IncidentReviewState.review_count current + 1) current in
  match ReviewAction.action action with
  | ReviewActionKind.ACKNOWLEDGE =>
      IncidentReviewState.set_acknowledged_by (Some (ReviewAction.actor action))
        (IncidentReviewState.set_acknowledged_at (Some (ReviewAction.created_at action)) counted)
  | ReviewActionKind.SNOOZE =>
      IncidentReviewState.set_snoozed_by (Some (ReviewAction.actor action))
        (IncidentReviewState.set_snoozed_until (ReviewAction.snooze_until action) counted)
  | ReviewActionKind.UNSNOOZE =>
      IncidentReviewState.set_snoozed_by None (IncidentReviewState.set_snoozed_until None counted)
  | ReviewActionKind.COMMENT => counted
  end.

Definition record_review (action : ReviewAction.t) : M t IncidentReviewState.t :=
  transaction
    (let! s := get in
     let current := review_state (ReviewAction.incident_id action) s in
     let updated := apply_review current action in
     let! _ := append_authority AuthorityMutationKind.REVIEW (ReviewAction.review_id action)
                 (ReviewAction.created_at action) (PReview action) in
     insert "review_actions" (same_key ReviewAction.review_id) review_actions set_review_actions action ;;;
     modify (fun s => set_incident_review_state
       (<[IncidentReviewState.incident_id updated := updated]> (incident_review_state s)) s) ;;;
     ret updated).

Definition reviews (s : t) : list ReviewAction.t :=
  order_by ReviewAction.created_at ReviewAction.review_id (review_actions s).

(** [ORDER BY incident_id] *)
Definition review_states (s : t) : list IncidentReviewState.t :=
  (fun id => review_state id s) <$> sorted_keys (incident_review_state s).

Definition command_receipt (scoped_idempotency_key : string) (s : t) : option CommandReceipt.t :=
  select_one (fun r => bool_decide (CommandReceipt.scoped_idempotency_key r = scoped_idempotency_key))
    (receipts s).

Definition record_command_receipt (receipt : CommandReceipt.t) : M t CommandReceipt.t :=
  transaction
    (let! s := get in
     match command_receipt (CommandReceipt.scoped_idempotency_key receipt) s with
     | Some existing =>
         raise_if (negb (bool_decide (CommandReceipt.payload_sha256 existing
                                      = CommandReceipt.payload_sha256 receipt)))
           (ValueError "idempotency key reused with a different payload") ;;;
         ret existing
     | None =>
         let! _ := append_authority AuthorityMutationKind.COMMAND (CommandReceipt.command_id receipt)
                     (default (CommandReceipt.accepted_at receipt) (CommandReceipt.committed_at receipt))
                     (PCommand receipt) in
         insert "command_receipts"
           (fun x y => same_key CommandReceipt.command_id x y
                       || same_key CommandReceipt.scoped_idempotency_key x y)
           receipts set_receipts receipt ;;;
         ret receipt
     end).

Definition command_receipts (s : t) : list CommandReceipt.t :=
  order_by CommandReceipt.accepted_at CommandReceipt.command_id (receipts s).

(** The shape the record operations share: a row with the same key must carry
    the same object and is returned as it is; otherwise the object is
    journaled and inserted. *)
Definition record_once {R} (find : t -> option R) (wrap : R -> payload) (row : R)
    (conflict : string) (commit : M t unit) : M t R :=
  let! s := get in
  match find s with
  | Some old =>
      raise_if (negb (bool_decide (sha256 (wrap old) = sha256 (wrap row)))) (ValueError conflict) ;;;
      ret old
  | None => commit ;;; ret row
  end.

Definition evidence_by_id (id : UUID) (s : t) : option EvidenceItem.t :=
  select_one (fun e => bool_decide (EvidenceItem.evidence_id e = id)) (evidence_items s).

(** [SELECT ... WHERE evidence_id=? ORDER BY resulting_version] *)
Definition lifecycle_of (evidence_id : UUID) (s : t) : list EvidenceLifecycleEvent.t :=
  sort_by (fun x y => EvidenceLifecycleEvent.resulting_version x
                      <=? EvidenceLifecycleEvent.resulting_version y)
    (select (fun e => bool_decide (EvidenceLifecycleEvent.evidence_id e = evidence_id))
       (lifecycle_events s)).

Definition record_evidence_lifecycle_locked (event : EvidenceLifecycleEvent.t)
  : M t EvidenceLifecycleEvent.t :=
  record_once
    (fun s => select_one (same_key EvidenceLifecycleEvent.lifecycle_event_id event) (lifecycle_events s))
    PLifecycle event "evidence lifecycle identity conflict"
    (let! s := get in
     let latest := last (lifecycle_of (EvidenceLifecycleEvent.evidence_id event) s) in
     let current_version :=
       match latest with Some e => EvidenceLifecycleEvent.resulting_version e | None => 0 end in
     let current_state := EvidenceLifecycleEvent.to_state <$> latest in
     raise_if (negb (EvidenceLifecycleEvent.expected_version event =? current_version)
               || negb (bool_decide (EvidenceLifecycleEvent.from_state event = current_state)))
       (ValueError "evidence lifecycle stale version or state") ;;;
     let! _ := append_authority AuthorityMutationKind.EVIDENCE_LIFECYCLE
                 (EvidenceLifecycleEvent.lifecycle_event_id event)
                 (EvidenceLifecycleEvent.created_at event) (PLifecycle event) in
     insert "evidence_lifecycle_events"
       (fun x y => same_key EvidenceLifecycleEvent.lifecycle_event_id x y
                   || same_key EvidenceLifecycleEvent.evidence_id x y
                      && same_key EvidenceLifecycleEvent.resulting_version x y)
       lifecycle_events set_lifecycle_events event).

Definition initial_content_state (item : EvidenceItem.t) : EvidenceContentState.t :=
  match EvidenceItem.retention_state item with
  | EvidenceRetentionState.RETAINED => EvidenceContentState.AVAILABLE
  | EvidenceRetentionState.METADATA_ONLY => EvidenceContentState.METADATA_ONLY
  | _ => EvidenceContentState.UNAVAILABLE_AT_CAPTURE
  end.

(** [lifecycle_event_id] is the fresh [uuid4()] of the initial event. *)
Definition record_evidence (item : EvidenceItem.t) (lifecycle_event_id : UUID) : M t EvidenceItem.t :=
  raise_if (bool_decide (EvidenceItem.family_id item = None))
    (ValueError "evidence family_id must be assigned before persistence") ;;;
  transaction
    (record_once (evidence_by_id (EvidenceItem.evidence_id item)) PEvidence item
       "evidence identity conflict"
       (let! _ := append_authority AuthorityMutationKind.EVIDENCE (EvidenceItem.evidence_id item)
                    (EvidenceItem.received_at item) (PEvidence item) in
        insert "evidence_items" (same_key EvidenceItem.evidence_id) evidence_items set_evidence_items item ;;;
        let! initial := lift (EvidenceLifecycleEvent.validate
          {| EvidenceLifecycleEvent.lifecycle_event_id := lifecycle_event_id;
             EvidenceLifecycleEvent.evidence_id := EvidenceItem.evidence_id item;
             EvidenceLifecycleEvent.incident_id := EvidenceItem.incident_id item;
             EvidenceLifecycleEvent.action := EvidenceLifecycleAction.REGISTER;
             EvidenceLifecycleEvent.from_state := None;
             EvidenceLifecycleEvent.to_state := initial_content_state item;
             EvidenceLifecycleEvent.expected_version := 0;
             EvidenceLifecycleEvent.resulting_version := 1;
             EvidenceLifecycleEvent.actor := "component-4-evidence-ingest";
             EvidenceLifecycleEvent.reason := "evidence_registered";
             EvidenceLifecycleEvent.created_at := EvidenceItem.received_at item;
             EvidenceLifecycleEvent.deletion_proof_sha256 := None;
             EvidenceLifecycleEvent.redaction_profile_id := None;
             EvidenceLifecycleEvent.reason_codes :=
               ["initial_retention:" +:+ EvidenceRetentionState.value (EvidenceItem.retention_state item)] |}) in
        let! _ := record_evidence_lifecycle_locked initial in
        ret tt)).

Definition evidence (incident_id : option UUID) (s : t) : list EvidenceItem.t :=
  order_by EvidenceItem.received_at EvidenceItem.evidence_id
    (select (fun e => opt_all (fun id => bool_decide (EvidenceItem.incident_id e = id)) incident_id)
       (evidence_items s)).

Definition record_evidence_lifecycle (event : EvidenceLifecycleEvent.t) : M t EvidenceLifecycleEvent.t :=
  transaction
    (let! s := get in
     raise_if (match evidence_by_id (EvidenceLifecycleEvent.evidence_id event) s with
               | Some item => negb (bool_decide (EvidenceItem.incident_id item
                                                 = EvidenceLifecycleEvent.incident_id event))
               | None => true
               end)
       (ValueError "evidence lifecycle target does not exist or incident differs") ;;;
     record_evidence_lifecycle_locked event).

Definition evidence_lifecycle_events (evidence_id incident_id : option UUID) (s : t)
  : list EvidenceLifecycleEvent.t :=
  match evidence_id, incident_id with
  | Some id, _ => lifecycle_of id s
  | None, Some id =>
      order_by EvidenceLifecycleEvent.created_at EvidenceLifecycleEvent.lifecycle_event_id
        (select (fun e => bool_decide (EvidenceLifecycleEvent.incident_id e = id)) (lifecycle_events s))
  | None, None =>
      order_by EvidenceLifecycleEvent.created_at EvidenceLifecycleEvent.lifecycle_event_id (lifecycle_events s)
  end.

Definition evidence_lifecycle_projection (evidence_id : UUID) (now : datetime) (s : t)
  : res EvidenceLifecycleProjection.t :=
  match evidence_by_id evidence_id s with
  | None => Raise (KeyError evidence_id)
  | Some item =>
      match last (lifecycle_of evidence_id s) with
      | None => Raise (RuntimeError "evidence lifecycle is missing")
      | Some last =>
          let state := EvidenceLifecycleEvent.to_state last in
          let rights_active := opt_all (fun t => now <? t) (EvidenceItem.rights_expires_at item) in
          let in_state x := bool_decide (state = x) in
          Ok {| EvidenceLifecycleProjection.evidence_id := EvidenceItem.evidence_id item;
                EvidenceLifecycleProjection.incident_id := EvidenceItem.incident_id item;
                EvidenceLifecycleProjection.state := state;
                EvidenceLifecycleProjection.version := EvidenceLifecycleEvent.resulting_version last;
                EvidenceLifecycleProjection.readable :=
                  in_state EvidenceContentState.AVAILABLE && rights_active;
                EvidenceLifecycleProjection.claim_eligible :=
                  (in_state EvidenceContentState.AVAILABLE || in_state EvidenceContentState.METADATA_ONLY
                   || in_state EvidenceContentState.REDACTED) && rights_active;
                EvidenceLifecycleProjection.rights_active := rights_active;
                EvidenceLifecycleProjection.deletion_proven :=
                  in_state EvidenceContentState.DELETED
                  && truthy (EvidenceLifecycleEvent.deletion_proof_sha256 last);
                EvidenceLifecycleProjection.last_event_id :=
                  Some (EvidenceLifecycleEvent.lifecycle_event_id last);
                EvidenceLifecycleProjection.updated_at := Some (EvidenceLifecycleEvent.created_at last);
                EvidenceLifecycleProjection.reason_codes := EvidenceLifecycleEvent.reason_codes last |}
      end
  end.

Definition record_media_parser_report (report : MediaParserReport.t) : M t MediaParserReport.t :=
  transaction
    (record_once (fun s => select_one (same_key MediaParserReport.parse_id report) (media_parser_runs s))
       PMediaParse report "media parser report identity conflict"
       (let! _ := append_authority AuthorityMutationKind.MEDIA_PARSE (MediaParserReport.parse_id report)
                    (MediaParserReport.created_at report) (PMediaParse report) in
        insert "media_parser_runs" (same_key MediaParserReport.parse_id)
          media_parser_runs set_media_parser_runs report)).

Definition media_parser_reports (s : t) : list MediaParserReport.t :=
  order_by MediaParserReport.created_at MediaParserReport.parse_id (media_parser_runs s).

Definition record_evidence_reevaluation (record : EvidenceReevaluationRecord.t)
  : M t EvidenceReevaluationRecord.t :=
  transaction
    (record_once
       (fun s => select_one (same_key EvidenceReevaluationRecord.reevaluation_id record) (reevaluations s))
       PReevaluation record "evidence reevaluation identity conflict"
       (let! _ := append_authority AuthorityMutationKind.EVIDENCE_REEVALUATION
                    (EvidenceReevaluationRecord.reevaluation_id record)
                    (EvidenceReevaluationRecord.created_at record) (PReevaluation record) in
        insert "evidence_reevaluations" (same_key EvidenceReevaluationRecord.reevaluation_id)
          reevaluations set_reevaluations record)).

Definition evidence_reevaluations (incident_id : option UUID) (s : t)
  : list EvidenceReevaluationRecord.t :=
  order_by EvidenceReevaluationRecord.created_at EvidenceReevaluationRecord.reevaluation_id
    (select (fun r => opt_all (fun id => bool_decide (EvidenceReevaluationRecord.incident_id r = id))
                        incident_id) (reevaluations s)).

Definition record_claim (claim : ClaimNode.t) : M t ClaimNode.t :=
  transaction
    (record_once (fun s => select_one (same_key ClaimNode.claim_id claim) (claim_nodes s))
       PClaim claim "claim identity conflict"
       (let! _ := append_authority AuthorityMutationKind.CLAIM (ClaimNode.claim_id claim)
                    (ClaimNode.created_at claim) (PClaim claim) in
        insert "claim_nodes" (same_key ClaimNode.claim_id) claim_nodes set_claim_nodes claim)).

Definition claims (incident_id : option UUID) (s : t) : list ClaimNode.t :=
  order_by ClaimNode.created_at ClaimNode.claim_id
    (select (fun c => opt_all (fun id => bool_decide (ClaimNode.incident_id c = id)) incident_id)
       (claim_nodes s)).

Definition link_key (l : ClaimEvidenceLink.t) : UUID * UUID * ClaimEvidenceRelation.t :=
  (ClaimEvidenceLink.claim_id l, ClaimEvidenceLink.evidence_id l, ClaimEvidenceLink.relation l).

Definition record_claim_link (link : ClaimEvidenceLink.t) : M t ClaimEvidenceLink.t :=
  transaction
    (let! s := get in
     raise_if (negb (existsb (fun c => bool_decide (ClaimNode.claim_id c = ClaimEvidenceLink.claim_id link))
                       (claim_nodes s))
               || negb (existsb (fun e => bool_decide (EvidenceItem.evidence_id e
                                                       = ClaimEvidenceLink.evidence_id link))
                          (evidence_items s)))
       (ValueError "claim link target does not exist") ;;;
     record_once (fun s => select_one (same_key link_key link) (claim_evidence_links s))
       PClaimLink link "claim link identity conflict"
       (let! _ := append_authority AuthorityMutationKind.CLAIM_LINK (ClaimEvidenceLink.link_id link)
                    (ClaimEvidenceLink.created_at link) (PClaimLink link) in
        insert "claim_evidence_links"
          (fun x y => same_key ClaimEvidenceLink.link_id x y || same_key link_key x y)
          claim_evidence_links set_claim_evidence_links link)).

(** With an incident, the links of its claims. *)
Definition claim_links (incident_id : option UUID) (s : t) : list ClaimEvidenceLink.t :=
  order_by ClaimEvidenceLink.created_at ClaimEvidenceLink.link_id
    (select (fun l =>
       opt_all (fun id => existsb (fun c =>
           bool_decide (ClaimNode.claim_id c = ClaimEvidenceLink.claim_id l)
           && bool_decide (ClaimNode.incident_id c = id)) (claim_nodes s)) incident_id)
       (claim_evidence_links s)).

Definition relation_key (r : IncidentRelation.t) : UUID * UUID * IncidentRelationKind.t :=
  (IncidentRelation.source_incident_id r, IncidentRelation.target_incident_id r,
   IncidentRelation.relation r).

Definition record_incident_relation (relation : IncidentRelation.t) : M t IncidentRelation.t :=
  transaction
    (record_once (fun s => select_one (same_key relation_key relation) (relations s))
       PRelation relation "incident relation conflict"
       (let! _ := append_authority AuthorityMutationKind.INCIDENT_RELATION
                    (IncidentRelation.relation_id relation) (IncidentRelation.created_at relation)
                    (PRelation relation) in
        insert "incident_relations"
          (fun x y => same_key IncidentRelation.relation_id x y || same_key relation_key x y)
          relations set_relations relation)).

Definition incident_relations (s : t) : list IncidentRelation.t :=
  order_by IncidentRelation.created_at IncidentRelation.relation_id (relations s).

Definition record_identity_decision (candidate : IncidentCandidate.t)
    (decision : IncidentIdentityDecision.t) : M t IncidentIdentityDecision.t :=
  transaction
    (record_once
       (fun s => select_one (fun d => bool_decide (IncidentIdentityDecision.candidate_id d
                                                   = IncidentCandidate.candidate_id candidate))
                   (decisions s))
       PDecision decision "incident identity decision conflict"
       (insert "incident_candidates" (fun x y => same_key (fun r => IncidentCandidate.candidate_id r.1) x y)
          candidates set_candidates (candidate, IncidentIdentityDecision.incident_id decision) ;;;
        insert "incident_identity_decisions"
          (fun x y => same_key IncidentIdentityDecision.decision_id x y
                      || same_key IncidentIdentityDecision.candidate_id x y)
          decisions set_decisions decision)).

Definition incident_candidates (hazard : option HazardKind.t) (s : t)
  : list (IncidentCandidate.t * UUID) :=
  order_by (fun r => IncidentCandidate.observed_at r.1) (fun r => IncidentCandidate.candidate_id r.1)
    (select (fun r => opt_all (fun h => bool_decide (IncidentCandidate.hazard r.1 = h)) hazard)
       (candidates s)).

Definition identity_decisions (s : t) : list IncidentIdentityDecision.t :=
  order_by IncidentIdentityDecision.decided_at IncidentIdentityDecision.decision_id (decisions s).

(** ** Conformance of the authority journal *)
Record conformance : Type := mkConformance {
  valid : bool;
  event_count : Z;
  highest_contiguous_position : Z;
  failures : list string
}.

(** The failures of one row against its subtype row, its expected ordinal and
    the previous position. *)
Definition row_failures (expected_ordinal : Z) (previous : option Z) (row : authority_event)
    (sub : option subtype) : list string :=
  let p := pretty (position row) in
  let digest := sha256 (payload_json row) in
  (if negb (bool_decide (epoch_id row = epoch)) then ["wrong_epoch:" +:+ p] else [])
  ++ (if negb (match epoch_ordinal row with
               | Some n => (if n =? 0 then -1 else n) =? expected_ordinal
               | None => -1 =? expected_ordinal
               end) then ["ordinal_gap:" +:+ p] else [])
  ++ (if negb (bool_decide (predecessor_position row = previous))
      then ["predecessor_mismatch:" +:+ p] else [])
  ++ (match sub with
      | None => ["missing_subtype:" +:+ p]
      | Some x => if negb (bool_decide (subtype_kind x = kind row))
                     || negb (bool_decide (subtype_id x = entity_id row))
                  then ["subtype_identity_mismatch:" +:+ p] else []
      end)
  ++ (if negb (bool_decide (payload_sha256 row = Some digest))
      then ["supertype_digest_mismatch:" +:+ p] else [])
  ++ (if match sub with
         | None => true
         | Some x => negb (bool_decide (subtype_sha256 x = digest))
                     || negb (bool_decide (subtype_payload x = payload_json row))
         end
      then ["subtype_digest_mismatch:" +:+ p] else []).

Definition subtype_of (row : authority_event) (s : t) : option subtype :=
  select_one (fun x => authority_position x =? position row) (subtypes s).

Fixpoint journal_failures (rows : list authority_event) (expected_ordinal : Z) (previous : option Z)
    (s : t) : list string :=
  match rows with
  | [] => []
  | row :: rows =>
      row_failures expected_ordinal previous row (subtype_of row s)
      ++ journal_failures rows (expected_ordinal + 1) (Some (position row)) s
  end.

Definition orphan_count (s : t) : Z :=
  Z.of_nat (length (select (fun x => negb (existsb (fun row => position row =? authority_position x)
                                             (authority_events s))) (subtypes s))).

Definition authority_conformance (s : t) : conformance :=
  let rows := authority_events s in
  let failures :=
    journal_failures rows 1 None s
    ++ (if orphan_count s =? 0 then [] else ["orphan_subtypes:" +:+ pretty (orphan_count s)]) in
  let watermark := match last rows with Some row => position row | None => 0 end in
  let valid := bool_decide (failures = []) in
  {| valid := valid; event_count := Z.of_nat (length rows);
     highest_contiguous_position := if valid then watermark else 0; failures := failures |}.

End Operations.
End IncidentJournalStore.
