(* ===== verification/JournalTheorems.v ===== *)
(** What the journal store keeps in every execution: a conformant, append-only
    authority journal, tables that only grow, atomic operations, evidence
    lifecycles without gaps, and the delivery states of notifications. *)

From Stdlib Require Import ZArith.
From S2P Require Import Prelude Binary64 Enums Models Records Journal.
Import IncidentJournalStore.
Open Scope Z_scope.

Section Journal.
Context (sha256 : payload -> string).

(** ** The shape of the authority journal *)

(** The [n]-th event follows the one at position [n]. *)
Definition event_ok (n : Z) (e : authority_event) : Prop :=
  position e = n + 1 /\ epoch_id e = epoch /\ epoch_ordinal e = Some (n + 1) /\
  predecessor_position e = (if n =? 0 then None else Some n) /\
  payload_sha256 e = Some (sha256 (payload_json e)).

Fixpoint numbered (n : Z) (rows : list authority_event) : Prop :=
  match rows with
  | [] => True
  | e :: rows => event_ok n e /\ numbered (n + 1) rows
  end.

Definition subtype_row (e : authority_event) : subtype :=
  mkSubtype (position e) (kind e) (entity_id e) (sha256 (payload_json e)) (payload_json e).

Record conformant (s : t) : Prop := {
  cf_events : numbered 0 (authority_events s);
  cf_subtypes : subtypes s = subtype_row <$> authority_events s;
  cf_seq : authority_seq s = Z.of_nat (length (authority_events s))
}.

Lemma numbered_snoc n rows e :
  numbered n (rows ++ [e]) <-> numbered n rows /\ event_ok (n + Z.of_nat (length rows)) e.
Proof.
  revert n. induction rows as [|e' rows IH]; intros n; cbn -[Z.of_nat].
  - rewrite Z.add_0_r. tauto.
  - rewrite IH. replace (n + 1 + Z.of_nat (length rows)) with (n + Z.of_nat (S (length rows))) by lia. tauto.
Qed.

Lemma numbered_positions n rows e :
  numbered n rows -> e ∈ rows -> n < position e <= n + Z.of_nat (length rows) /\
    epoch_ordinal e = Some (position e).
Proof.
  revert n. induction rows as [|e' rows IH]; intros n; cbn -[Z.of_nat]; [set_solver|].
  intros [(Hp & _ & Ho & _) H] [->|He]%elem_of_cons; [split; [lia|congruence]|].
  destruct (IH _ H He). split; [lia|done].
Qed.

Lemma numbered_app n rows rows' :
  numbered n (rows ++ rows') <-> numbered n rows /\ numbered (n + Z.of_nat (length rows)) rows'.
Proof.
  revert n. induction rows as [|e rows IH]; intros n; cbn -[Z.of_nat].
  - rewrite Z.add_0_r. tauto.
  - rewrite IH. replace (n + 1 + Z.of_nat (length rows)) with (n + Z.of_nat (S (length rows))) by lia. tauto.
Qed.

Lemma numbered_seq n rows :
  numbered (Z.of_nat n) rows -> position <$> rows = (fun n => Z.of_nat n + 1) <$> seq n (length rows).
Proof.
  revert n. induction rows as [|e rows IH]; intros n; cbn -[Z.of_nat]; [done|].
  intros [(-> & _) Hn]. f_equal. apply IH. by replace (Z.of_nat (S n)) with (Z.of_nat n + 1) by lia.
Qed.

Lemma numbered_last n rows e :
  numbered n rows -> last rows = Some e ->
  position e = n + Z.of_nat (length rows) /\ epoch_ordinal e = Some (n + Z.of_nat (length rows)).
Proof.
  intros Hn Hl. apply last_Some in Hl as [l ->]. apply numbered_snoc in Hn as [_ (Hp & _ & Ho & _)].
  rewrite length_app. cbn. split; [lia|]. rewrite Ho. f_equal. lia.
Qed.

(** What [append_authority] does on a conformant journal. *)
Definition next_event (k : AuthorityMutationKind.t) (id : string) (at_ : datetime) (p : payload) (s : t)
  : authority_event :=
  let n := Z.of_nat (length (authority_events s)) in
  mkEvent (n + 1) epoch (Some (n + 1)) (if n =? 0 then None else Some n) k id at_ (Some (sha256 p)) p.

Definition journaled (e : authority_event) (s : t) : t :=
  set_subtypes (subtypes s ++ [subtype_row e])
    (set_authority_events (authority_events s ++ [e]) (set_authority_seq (authority_seq s + 1) s)).

Lemma append_authority_run k id at_ p s :
  conformant s ->
  append_authority sha256 k id at_ p s
  = (Ok (Z.of_nat (length (authority_events s)) + 1), journaled (next_event k id at_ p s) s).
Proof.
  intros [Hev Hsub Hseq]. unfold append_authority, insert, bind, get, put, raise_if, ret.
  cbn [authority_events set_authority_seq authority_seq].
  set (n := Z.of_nat (length (authority_events s))) in *.
  assert (Hlast : position <$> last (authority_events s) = (if n =? 0 then None else Some n) /\
    match last (authority_events s) with
    | Some p => (match epoch_ordinal p with
                 | Some n => if n =? 0 then position p else n | None => position p end) + 1
    | None => 1
    end = n + 1).
  { destruct (last (authority_events s)) as [e|] eqn:El.
    - destruct (numbered_last _ _ _ Hev El) as [Hp Ho]. cbn. rewrite Ho, Hp. fold n.
      destruct (authority_events s); [done|]. cbn [length] in n.
      replace (n =? 0) with false by lia. replace (0 + n =? 0) with false by lia.
      by rewrite Z.add_0_l.
    - apply last_None in El. unfold n. by rewrite El. }
  destruct Hlast as [-> ->]. rewrite Hseq.
  set (e := mkEvent (n + 1) epoch (Some (n + 1)) _ k id at_ (Some (sha256 p)) p).
  assert (existsb (fun y => same_key epoch_id e y && same_key epoch_ordinal e y) (authority_events s) = false)
    as ->.
  { apply not_true_iff_false. rewrite List.existsb_exists. intros (y & Hy & Heq).
    apply list_elem_of_In in Hy. destruct (numbered_positions _ _ _ Hev Hy) as [Hb Ho].
    unfold same_key in Heq. apply andb_true_iff in Heq as [_ Heq]. apply bool_decide_eq_true in Heq.
    rewrite Ho in Heq. cbn in Heq. injection Heq as Heq. fold n in Hb. lia. }
  cbv beta iota. cbn [subtypes set_authority_events set_authority_seq].
  assert (existsb (same_key authority_position (mkSubtype (n + 1) k id (sha256 p) p)) (subtypes s) = false)
    as ->.
  { apply not_true_iff_false. rewrite List.existsb_exists. intros (y & Hy & Heq).
    unfold same_key in Heq. apply bool_decide_eq_true in Heq. rewrite Hsub in Hy.
    apply list_elem_of_In, list_elem_of_fmap in Hy as (y' & -> & Hy). cbn in Heq.
    destruct (numbered_positions _ _ _ Hev Hy) as [Hb _]. fold n in Hb. lia. }
  unfold journaled. by rewrite Hseq.
Qed.

Lemma journaled_conformant k id at_ p s :
  conformant s -> conformant (journaled (next_event k id at_ p s) s).
Proof.
  intros [Hev Hsub Hseq]. split; cbn.
  - apply numbered_snoc. split; [done|]. unfold event_ok; cbn. auto.
  - by rewrite fmap_app, Hsub.
  - rewrite length_app. cbn. lia.
Qed.

(** ** Growth

    Every operation keeps the journal conformant and extends the append-only
    tables; rows are never changed, removed or reordered. *)
Definition outbox_ok (s : t) : Prop :=
  NoDup (NotificationIntent.notification_id <$> notification_intents s).

Record grows (s s' : t) : Prop := {
  gr_conformant : conformant s -> conformant s';
  gr_events : conformant s -> authority_events s `prefix_of` authority_events s';
  gr_incidents : incident_events s `prefix_of` incident_events s';
  gr_reviews : review_actions s `prefix_of` review_actions s';
  gr_receipts : receipts s `prefix_of` receipts s';
  gr_evidence : evidence_items s `prefix_of` evidence_items s';
  gr_lifecycle : lifecycle_events s `prefix_of` lifecycle_events s';
  gr_claims : claim_nodes s `prefix_of` claim_nodes s';
  gr_links : claim_evidence_links s `prefix_of` claim_evidence_links s';
  gr_relations : relations s `prefix_of` relations s';
  gr_candidates : candidates s `prefix_of` candidates s';
  gr_decisions : decisions s `prefix_of` decisions s';
  gr_outbox : outbox_ok s -> outbox_ok s'
}.

#[local] Instance grows_preorder : PreOrder grows.
Proof.
  split; [by split|]. intros s1 s2 s3 [] []. split; try (etrans; eassumption); auto.
  intros Hc. transitivity (authority_events s2); auto.
Qed.

Lemma insert_run {R} constraint clash table set_table (row : R) s :
  insert constraint clash table set_table row s
  = if existsb (clash row) (table s) then (Raise (IntegrityError constraint), s)
    else (Ok tt, set_table (table s ++ [row]) s).
Proof. unfold insert, bind, get, raise_if, put. by destruct (existsb _ _). Qed.

Lemma set_subtypes_id s : set_subtypes (subtypes s) s = s.
Proof. by destruct s. Qed.

(** Only the journal's own tables change. *)
Lemma append_authority_frame k id at_ p s r s' :
  append_authority sha256 k id at_ p s = (r, s') ->
  exists ev seq sub, s' = set_subtypes sub (set_authority_events ev (set_authority_seq seq s)).
Proof.
  unfold append_authority, bind, get, put, ret. rewrite insert_run.
  destruct (existsb _ _).
  - intros [= _ <-]. exists (authority_events s), (authority_seq s + 1), (subtypes s). by destruct s.
  - rewrite insert_run. destruct (existsb _ _); intros [= _ <-]; [|do 3 eexists; reflexivity].
    eexists _, _, _. symmetry. apply set_subtypes_id.
Qed.

#[local] Instance append_authority_steps k id at_ p : Steps grows (append_authority sha256 k id at_ p).
Proof.
  intros s r s' H. pose proof (append_authority_frame _ _ _ _ _ _ _ H) as (ev & seq & sub & Hs').
  split; try (by subst s').
  - intros Hc. rewrite append_authority_run in H by done. injection H as _ <-.
    by apply journaled_conformant.
  - intros Hc. rewrite append_authority_run in H by done. injection H as _ <-. by eexists.
Qed.

(** An insertion into a table other than the journal's. *)
Lemma insert_steps {R} constraint clash table set_table (row : R) :
  (forall s, existsb (clash row) (table s) = false -> grows s (set_table (table s ++ [row]) s)) ->
  Steps grows (insert constraint clash table set_table row).
Proof.
  intros Hg s r s' H. rewrite insert_run in H.
  destruct (existsb _ _) eqn:E; injection H as _ <-; [reflexivity|by apply Hg].
Qed.

#[local] Hint Extern 1 (Steps grows (insert _ _ _ _ _)) =>
  apply insert_steps; intros [] _; split; cbn; done || (by eexists) || (intros []; done) : typeclass_instances.
#[local] Hint Extern 1 (Steps grows (modify _)) =>
  apply steps_modify; intros []; split; cbn; done || (intros []; done) : typeclass_instances.
#[local] Hint Extern 1 (Steps grows (put _)) => fail : typeclass_instances.

(** Each operation of the store grows it. *)
Ltac grow := unfold record_once; steps.

#[local] Instance record_once_steps {R} find (wrap : R -> payload) row conflict commit :
  Steps grows commit -> Steps grows (record_once sha256 find wrap row conflict commit).
Proof. intros Hc. grow. Qed.

#[local] Instance record_authority_mutation_steps k id at_ p :
  Steps grows (record_authority_mutation sha256 k id at_ p).
Proof. unfold record_authority_mutation. grow. Qed.

#[local] Instance insert_incident_steps p r : Steps grows (insert_incident p r).
Proof.
  intros s res s' H. unfold insert_incident, bind, get, put in H. rewrite insert_run in H.
  destruct (existsb _ _); injection H as _ <-; destruct s; split; cbn; try done; try (intros []; done).
  by eexists.
Qed.

#[local] Instance insert_notification_steps n : Steps grows (insert_notification n).
Proof.
  apply insert_steps. intros s Hclash. destruct s; split; try done; try (intros []; done); cbn.
  intros Hnd. unfold outbox_ok in *; cbn in *. rewrite fmap_app. apply NoDup_app.
  split_and!; [done| |apply NoDup_singleton]. intros id Hid Hin. apply list_elem_of_singleton in Hin.
  apply list_elem_of_fmap in Hid as (row & -> & Hrow). apply not_true_iff_false in Hclash.
  apply Hclash. apply List.existsb_exists. exists row. split; [by apply list_elem_of_In|].
  unfold same_key. by rewrite (bool_decide_eq_true_2 _ (eq_sym Hin)).
Qed.

#[local] Instance append_incident_with_notification_steps r n :
  Steps grows (append_incident_with_notification sha256 r n).
Proof. unfold append_incident_with_notification. grow. Qed.

#[local] Instance update_notification_steps n : Steps grows (update_notification n).
Proof.
  apply steps_modify. intros []; split; try done; try (intros []; done); cbn.
  unfold outbox_ok; cbn. rewrite <- list_fmap_compose.
  erewrite list_fmap_ext; [intros Hnd; exact Hnd|]. intros i row _. cbn. by case_decide.
Qed.

#[local] Instance record_delivery_steps id d rc e at_ : Steps grows (record_delivery sha256 id d rc e at_).
Proof. unfold record_delivery. grow. Qed.

#[local] Instance record_review_steps a : Steps grows (record_review sha256 a).
Proof. unfold record_review. grow. Qed.

#[local] Instance record_command_receipt_steps r : Steps grows (record_command_receipt sha256 r).
Proof. unfold record_command_receipt. grow. Qed.

#[local] Instance record_evidence_lifecycle_locked_steps e :
  Steps grows (record_evidence_lifecycle_locked sha256 e).
Proof. unfold record_evidence_lifecycle_locked. grow. Qed.

#[local] Instance record_evidence_steps e id : Steps grows (record_evidence sha256 e id).
Proof. unfold record_evidence. grow. Qed.

#[local] Instance record_evidence_lifecycle_steps e : Steps grows (record_evidence_lifecycle sha256 e).
Proof. unfold record_evidence_lifecycle. grow. Qed.

#[local] Instance record_media_parser_report_steps r : Steps grows (record_media_parser_report sha256 r).
Proof. unfold record_media_parser_report. grow. Qed.

#[local] Instance record_evidence_reevaluation_steps r :
  Steps grows (record_evidence_reevaluation sha256 r).
Proof. unfold record_evidence_reevaluation. grow. Qed.

#[local] Instance record_claim_steps c : Steps grows (record_claim sha256 c).
Proof. unfold record_claim. grow. Qed.

#[local] Instance record_claim_link_steps l : Steps grows (record_claim_link sha256 l).
Proof. unfold record_claim_link. grow. Qed.

#[local] Instance record_incident_relation_steps r : Steps grows (record_incident_relation sha256 r).
Proof. unfold record_incident_relation. grow. Qed.

#[local] Instance record_identity_decision_steps c d : Steps grows (record_identity_decision sha256 c d).
Proof. unfold record_identity_decision. grow. Qed.

(** ** Executions

    One constructor per method of the store that writes. *)
Inductive op : Type :=
  | RecordAuthorityMutation (k : AuthorityMutationKind.t) (id : string) (at_ : datetime) (p : payload)
  | AppendIncident (r : IncidentRecord.t) (n : option NotificationIntent.t)
  | RecordDelivery (id : UUID) (delivered : bool) (receipt error : option string) (at_ : datetime)
  | RecordReview (a : ReviewAction.t)
  | RecordCommandReceipt (r : CommandReceipt.t)
  | RecordEvidence (e : EvidenceItem.t) (event_id : UUID)
  | RecordEvidenceLifecycle (e : EvidenceLifecycleEvent.t)
  | RecordMediaParserReport (r : MediaParserReport.t)
  | RecordEvidenceReevaluation (r : EvidenceReevaluationRecord.t)
  | RecordClaim (c : ClaimNode.t)
  | RecordClaimLink (l : ClaimEvidenceLink.t)
  | RecordIncidentRelation (r : IncidentRelation.t)
  | RecordIdentityDecision (c : IncidentCandidate.t) (d : IncidentIdentityDecision.t).

Definition exec (o : op) : M t unit :=
  match o with
  | RecordAuthorityMutation k id at_ p => void (record_authority_mutation sha256 k id at_ p)
  | AppendIncident r n => void (append_incident_with_notification sha256 r n)
  | RecordDelivery id d rc e at_ => void (record_delivery sha256 id d rc e at_)
  | RecordReview a => void (record_review sha256 a)
  | RecordCommandReceipt r => void (record_command_receipt sha256 r)
  | RecordEvidence e id => void (record_evidence sha256 e id)
  | RecordEvidenceLifecycle e => void (record_evidence_lifecycle sha256 e)
  | RecordMediaParserReport r => void (record_media_parser_report sha256 r)
  | RecordEvidenceReevaluation r => void (record_evidence_reevaluation sha256 r)
  | RecordClaim c => void (record_claim sha256 c)
  | RecordClaimLink l => void (record_claim_link sha256 l)
  | RecordIncidentRelation r => void (record_incident_relation sha256 r)
  | RecordIdentityDecision c d => void (record_identity_decision sha256 c d)
  end.

#[local] Instance exec_steps o : Steps grows (exec o).
Proof. destruct o; unfold exec, void; apply _. Qed.

(** ** One writer for incidents, two for the outbox *)
Definition same_incidents (s s' : t) : Prop := incident_events s' = incident_events s.
Definition same_outbox (s s' : t) : Prop :=
  incident_events s' = incident_events s /\ notification_intents s' = notification_intents s.

#[local] Instance same_incidents_preorder : PreOrder same_incidents.
Proof. split; [done|]. unfold same_incidents. congruence. Qed.
#[local] Instance same_outbox_preorder : PreOrder same_outbox.
Proof. split; [done|]. intros s1 s2 s3 [] []. split; congruence. Qed.

#[local] Instance append_authority_outbox k id at_ p : Steps same_outbox (append_authority sha256 k id at_ p).
Proof. intros s r s' H. by apply append_authority_frame in H as (? & ? & ? & ->). Qed.

Lemma insert_outbox {R} constraint clash table set_table (row : R) :
  (forall s, same_outbox s (set_table (table s ++ [row]) s)) ->
  Steps same_outbox (insert constraint clash table set_table row).
Proof.
  intros Hs s r s' H. rewrite insert_run in H. destruct (existsb _ _); injection H as _ <-; [done|apply Hs].
Qed.

#[local] Hint Extern 1 (Steps same_outbox (insert _ _ _ _ _)) =>
  apply insert_outbox; by intros [] : typeclass_instances.
#[local] Hint Extern 1 (Steps same_outbox (modify _)) =>
  apply steps_modify; by intros [] : typeclass_instances.

#[local] Instance record_once_outbox {R} find (wrap : R -> payload) row conflict commit :
  Steps same_outbox commit -> Steps same_outbox (record_once sha256 find wrap row conflict commit).
Proof. intros Hc. grow. Qed.

#[local] Instance lifecycle_locked_outbox e : Steps same_outbox (record_evidence_lifecycle_locked sha256 e).
Proof. unfold record_evidence_lifecycle_locked. grow. Qed.

(** The operations that write neither. *)
Lemma exec_outbox o s r s' :
  (forall i n, o <> AppendIncident i n) -> (forall id d rc e at_, o <> RecordDelivery id d rc e at_) ->
  exec o s = (r, s') -> same_outbox s s'.
Proof.
  intros Ho Hd. enough (Steps same_outbox (exec o)) as H by apply H.
  destruct o as [| |id d rc e at_| | | | | | | | | |]; [|by edestruct Ho|by edestruct Hd|..];
    unfold exec, void, record_authority_mutation, record_review, record_command_receipt,
      record_evidence, record_evidence_lifecycle, record_media_parser_report, record_evidence_reevaluation,
      record_claim, record_claim_link, record_incident_relation, record_identity_decision;
    grow.
Qed.

#[local] Instance append_authority_incidents k id at_ p :
  Steps same_incidents (append_authority sha256 k id at_ p).
Proof. intros s r s' H. by apply append_authority_outbox in H as [? _]. Qed.

(** Only [append_incident_with_notification] writes incident records. *)
Lemma exec_incidents o s r s' :
  (forall i n, o <> AppendIncident i n) -> exec o s = (r, s') -> incident_events s' = incident_events s.
Proof.
  intros Ho H.
  assert ((forall id d rc e at_, o <> RecordDelivery id d rc e at_)
          \/ exists id d rc e at_, o = RecordDelivery id d rc e at_) as [Hd|(id & d & rc & e & at_ & ->)]
    by (destruct o; (by left) || (right; by repeat eexists)).
  { by destruct (exec_outbox _ _ _ _ Ho Hd H). }
  revert H. enough (Steps same_incidents (exec (RecordDelivery id d rc e at_))) as Hs by apply Hs.
  unfold exec, void, record_delivery, update_notification. steps.
  apply steps_modify. by intros [].
Qed.

(** What a delivery attempt never changes of an intent. *)
Definition intent_core (n : NotificationIntent.t) : UUID * UUID * IncidentState.t * string * list string :=
  (NotificationIntent.notification_id n, NotificationIntent.incident_id n,
   NotificationIntent.incident_state n, NotificationIntent.idempotency_key n, NotificationIntent.reason_codes n).

Lemma record_delivery_core id d rc er at_ s r s' :
  outbox_ok s -> record_delivery sha256 id d rc er at_ s = (r, s') ->
  (intent_core <$> notification_intents s') = (intent_core <$> notification_intents s).
Proof.
  intros Hnd. unfold record_delivery, transaction, bind at 1, get at 1.
  destruct (select_one _ _) as [cur|] eqn:Hcur; [|by intros [= _ <-]].
  destruct (decide _); [by intros [= _ <-]|]. unfold bind at 1.
  destruct (append_authority sha256 _ _ _ _ s) as [[p|exc] s1] eqn:Ha; [|by intros [= _ <-]].
  apply append_authority_outbox in Ha as [_ Ha]. cbn. intros [= _ <-]. cbn. rewrite Ha.
  apply List.find_some in Hcur as [Hin Hid%bool_decide_eq_true]. apply list_elem_of_In in Hin.
  rewrite <- list_fmap_compose. apply list_fmap_ext. intros i row Hrow. cbn. case_decide as Heq; [|done].
  apply list_elem_of_lookup_2 in Hrow.
  assert (row = cur) as -> by exact (NoDup_fmap_elem _ _ _ _ Hnd Hrow Hin Heq). done.
Qed.

(** Objects are validated when they are built; the public entry of the journal
    is used for configuration and disposition events only. *)
Definition op_valid (o : op) : Prop :=
  match o with
  | RecordEvidenceLifecycle e => EvidenceLifecycleEvent.validate e = Ok e
  | RecordAuthorityMutation k _ _ _ =>
      k = AuthorityMutationKind.CONFIGURATION \/ k = AuthorityMutationKind.DISPOSITION
  | _ => True
  end.

Definition step (s s' : t) : Prop := exists o r, op_valid o /\ exec o s = (r, s').

Definition reachable (s : t) : Prop := rtc step init s.

Lemma step_grows s s' : step s s' -> grows s s'.
Proof. intros (o & r & _ & H). by eapply exec_steps. Qed.

Lemma steps_grow s s' : rtc step s s' -> grows s s'.
Proof. induction 1; [done|]. etrans; [by apply step_grows|done]. Qed.

Lemma reachable_conformant s : reachable s -> conformant s.
Proof. intros H. apply steps_grow in H. apply (gr_conformant _ _ H). by split. Qed.

Lemma conformant_no_failures s : conformant s -> failures (authority_conformance sha256 s) = [].
Proof.
  intros [Hev Hsub _]. unfold authority_conformance; cbn [failures].
  assert (Horphan : orphan_count s = 0).
  { unfold orphan_count, select. rewrite Hsub.
    assert (List.filter (fun x => negb (existsb (fun row => position row =? authority_position x)
      (authority_events s))) (subtype_row <$> authority_events s) = []) as ->; [|done].
    destruct (List.filter _ _) as [|x l] eqn:E; [done|].
    assert (Hx : List.In x (x :: l)) by by left. rewrite <- E in Hx.
    apply List.filter_In in Hx as [Hx Hno]. apply list_elem_of_In, list_elem_of_fmap in Hx as (e & -> & He).
    apply negb_true_iff, not_true_iff_false in Hno. destruct Hno. apply List.existsb_exists.
    exists e. split; [by apply list_elem_of_In|]. cbn. lia. }
  rewrite Horphan. cbn. rewrite app_nil_r.
  assert (Hall : forall rows n prev, numbered n rows -> (forall e, e ∈ rows -> subtype_of e s = Some (subtype_row e)) ->
    0 <= n -> prev = (if n =? 0 then None else Some n) -> journal_failures sha256 rows (n + 1) prev s = []).
  { intros rows. induction rows as [|e rows IH]; intros n prev; [done|].
    intros [(Hp & He & Ho & Hpr & Hd) Hn] Hs H0 ->. cbn [journal_failures].
    rewrite (Hs e), (IH (n + 1)); [|done| |lia| |].
    - rewrite app_nil_r. unfold row_failures. rewrite Ho, He, Hpr, Hd. cbn [subtype_row subtype_kind
        subtype_id subtype_sha256 subtype_payload].
      rewrite !bool_decide_eq_true_2 by done. replace (n + 1 =? 0) with false by lia.
      by rewrite Z.eqb_refl.
    - intros e' He'. apply Hs. by right.
    - rewrite Hp. by replace (n + 1 =? 0) with false by lia.
    - by left. }
  apply (Hall _ 0); [done| |lia|done].
  intros e He. unfold subtype_of, select_one. rewrite Hsub.
  assert (Hu : forall rows n, numbered n rows -> e ∈ rows ->
    List.find (fun x => authority_position x =? position e) (subtype_row <$> rows) = Some (subtype_row e)).
  { clear. induction rows as [|e' rows IH]; intros n; [set_solver|]. intros [(Hp & _) Hn] He. cbn.
    destruct (position e' =? position e) eqn:E.
    - apply elem_of_cons in He as [->|He]; [done|]. destruct (numbered_positions _ _ _ Hn He). lia.
    - apply elem_of_cons in He as [->|He]; [lia|]. by apply (IH (n + 1)). }
  by apply (Hu _ 0).
Qed.

(** C17: after any sequence of operations of the store, failed and repeated ones
    included, the authority journal passes its own audit: no failure of any
    kind is reported, and the watermark is the number of events, so positions
    are contiguous from 1. *)
Theorem authority_journal_conformant s :
  reachable s ->
  let c := authority_conformance sha256 s in
  valid c = true /\ failures c = [] /\
  highest_contiguous_position c = event_count c /\
  (position <$> authority_events s) = (fun n => Z.of_nat n + 1) <$> seq 0 (length (authority_events s)).
Proof.
  intros H%reachable_conformant. cbv zeta. pose proof (conformant_no_failures s H) as Hf.
  assert (Hv : valid (authority_conformance sha256 s) = true).
  { unfold authority_conformance in *; cbn in *. by rewrite Hf. }
  destruct H as [Hev _ _]. split_and!; [done|done| |].
  - unfold authority_conformance in *; cbn [valid failures highest_contiguous_position event_count] in *.
    rewrite Hv. destruct (last (authority_events s)) as [e|] eqn:El.
    + destruct (numbered_last _ _ _ Hev El) as [-> _]. lia.
    + apply last_None in El. by rewrite El.
  - by apply (numbered_seq 0%nat).
Qed.

(** History is append-only.  Whatever is called after a reachable state,
    every journal event, incident version, review, receipt, piece of evidence,
    lifecycle event, claim, link, relation and identity decision recorded
    there is still the same row at the same place. *)
Theorem history_append_only s s' :
  reachable s -> rtc step s s' ->
  authority_events s `prefix_of` authority_events s' /\ all s `prefix_of` all s' /\
  review_actions s `prefix_of` review_actions s' /\ receipts s `prefix_of` receipts s' /\
  evidence_items s `prefix_of` evidence_items s' /\ lifecycle_events s `prefix_of` lifecycle_events s' /\
  claim_nodes s `prefix_of` claim_nodes s' /\ claim_evidence_links s `prefix_of` claim_evidence_links s' /\
  relations s `prefix_of` relations s' /\ decisions s `prefix_of` decisions s'.
Proof.
  intros Hs%reachable_conformant []%steps_grow. split_and!; auto.
  destruct gr_incidents0 as [l Hl]. exists (incident <$> l). unfold all. by rewrite Hl, fmap_app.
Qed.

(** Operations are atomic: one that raises, whatever it had written
    before, leaves the database exactly as it found it. *)
Theorem failed_operation_changes_nothing o s e s' : exec o s = (Raise e, s') -> s' = s.
Proof.
  assert (Htx : forall A (m : M t A) s e s', void (transaction m) s = (Raise e, s') -> s' = s).
  { clear. intros A m s e s' H. apply bind_raise in H as [H|(a & s1 & _ & H)]; [|done].
    by apply transaction_raise in H as [_ ->]. }
  destruct o; try apply Htx. cbn [exec]. unfold record_evidence.
  destruct (bool_decide (EvidenceItem.family_id e0 = None)).
  - by intros [= _ <-].
  - apply Htx.
Qed.

(** ** The journal determines the tables

    [apply_event] is what a reader of the journal does with one event;
    replaying the journal from nothing rebuilds every journaled table. *)
Record tables : Type := mkTables {
  tb_incidents : list IncidentRecord.t;
  tb_notifications : list NotificationIntent.t;
  tb_reviews : list ReviewAction.t;
  tb_review_state : gmap UUID IncidentReviewState.t;
  tb_receipts : list CommandReceipt.t;
  tb_evidence : list EvidenceItem.t;
  tb_lifecycle : list EvidenceLifecycleEvent.t;
  tb_media : list MediaParserReport.t;
  tb_reevaluations : list EvidenceReevaluationRecord.t;
  tb_claims : list ClaimNode.t;
  tb_links : list ClaimEvidenceLink.t;
  tb_relations : list IncidentRelation.t
}.

Definition tables_of (s : t) : tables :=
  mkTables (all s) (notification_intents s) (review_actions s) (incident_review_state s) (receipts s)
    (evidence_items s) (lifecycle_events s) (media_parser_runs s) (reevaluations s) (claim_nodes s)
    (claim_evidence_links s) (relations s).

Definition apply_event (tb : tables) (e : authority_event) : tables :=
  let '(mkTables i n r rs c ev l m re cl ln rel) := tb in
  match kind e, payload_json e with
  | AuthorityMutationKind.INCIDENT, PIncident x => mkTables (i ++ [x]) n r rs c ev l m re cl ln rel
  | AuthorityMutationKind.NOTIFICATION_INTENT, PNotification x =>
      mkTables i (n ++ [x]) r rs c ev l m re cl ln rel
  | AuthorityMutationKind.NOTIFICATION_DELIVERY, PNotification x =>
      mkTables i ((fun row => if decide (NotificationIntent.notification_id row
                                         = NotificationIntent.notification_id x)
                              then x else row) <$> n) r rs c ev l m re cl ln rel
  | AuthorityMutationKind.REVIEW, PReview x =>
      let id := ReviewAction.incident_id x in
      mkTables i n (r ++ [x]) (<[id := apply_review (review_row id rs) x]> rs)
        c ev l m re cl ln rel
  | AuthorityMutationKind.COMMAND, PCommand x => mkTables i n r rs (c ++ [x]) ev l m re cl ln rel
  | AuthorityMutationKind.EVIDENCE, PEvidence x => mkTables i n r rs c (ev ++ [x]) l m re cl ln rel
  | AuthorityMutationKind.EVIDENCE_LIFECYCLE, PLifecycle x =>
      mkTables i n r rs c ev (l ++ [x]) m re cl ln rel
  | AuthorityMutationKind.MEDIA_PARSE, PMediaParse x => mkTables i n r rs c ev l (m ++ [x]) re cl ln rel
  | AuthorityMutationKind.EVIDENCE_REEVALUATION, PReevaluation x =>
      mkTables i n r rs c ev l m (re ++ [x]) cl ln rel
  | AuthorityMutationKind.CLAIM, PClaim x => mkTables i n r rs c ev l m re (cl ++ [x]) ln rel
  | AuthorityMutationKind.CLAIM_LINK, PClaimLink x => mkTables i n r rs c ev l m re cl (ln ++ [x]) rel
  | AuthorityMutationKind.INCIDENT_RELATION, PRelation x =>
      mkTables i n r rs c ev l m re cl ln (rel ++ [x])
  | _, _ => tb
  end.

Definition replay (rows : list authority_event) : tables :=
  fold_left apply_event rows (tables_of init).

(** ** Evidence lifecycles *)

(** The lifecycle events of one piece of evidence, from a version and state on. *)
Fixpoint chain (version : Z) (state : option EvidenceContentState.t)
    (events : list EvidenceLifecycleEvent.t) : Prop :=
  match events with
  | [] => True
  | e :: events =>
      EvidenceLifecycleEvent.expected_version e = version /\
      EvidenceLifecycleEvent.from_state e = state /\
      EvidenceLifecycleEvent.resulting_version e = version + 1 /\
      chain (version + 1) (Some (EvidenceLifecycleEvent.to_state e)) events
  end.

Definition events_of (id : UUID) (events : list EvidenceLifecycleEvent.t) :=
  select (fun e => bool_decide (EvidenceLifecycleEvent.evidence_id e = id)) events.

Definition lifecycles_ok (s : t) : Prop := forall id, chain 0 None (events_of id (lifecycle_events s)).

Lemma chain_sorted v st l :
  chain v st l ->
  sort_by (fun x y => EvidenceLifecycleEvent.resulting_version x
                      <=? EvidenceLifecycleEvent.resulting_version y) l = l.
Proof.
  revert v st. induction l as [|e l IH]; intros v st; [done|].
  intros (_ & _ & Hr & Hc). cbn. rewrite (IH _ _ Hc). destruct l as [|e' l]; [done|].
  destruct Hc as (_ & _ & Hr' & _). cbn. rewrite Hr, Hr'. by replace (v + 1 <=? v + 1 + 1) with true by lia.
Qed.

Definition chain_end (v : Z) (st : option EvidenceContentState.t) (l : list EvidenceLifecycleEvent.t) :=
  match last l with
  | Some e => (EvidenceLifecycleEvent.resulting_version e, Some (EvidenceLifecycleEvent.to_state e))
  | None => (v, st)
  end.

Lemma chain_snoc v st l e :
  chain v st l -> EvidenceLifecycleEvent.expected_version e = (chain_end v st l).1 ->
  EvidenceLifecycleEvent.from_state e = (chain_end v st l).2 ->
  EvidenceLifecycleEvent.resulting_version e = EvidenceLifecycleEvent.expected_version e + 1 ->
  chain v st (l ++ [e]).
Proof.
  revert v st. induction l as [|e' l IH]; intros v st; cbn.
  - intros _ -> -> ->. auto.
  - intros (H1 & H2 & H3 & Hc) Hv Hf Hr. split_and!; try done. apply IH; try done.
    + rewrite Hv. unfold chain_end. rewrite last_cons. destruct (last l); [done|]. cbn. lia.
    + rewrite Hf. unfold chain_end. rewrite last_cons. by destruct (last l).
Qed.

(** ** Successful runs *)

(** What a successful operation does to the journal and to the tables. *)
Definition journals (s s' : t) : Prop :=
  conformant s -> lifecycles_ok s ->
  lifecycles_ok s' /\
  exists es, authority_events s' = authority_events s ++ es /\
    tables_of s' = fold_left apply_event es (tables_of s).

Lemma journals_refl s : journals s s.
Proof. intros _ Hl. split; [done|]. exists []. by rewrite app_nil_r. Qed.

Lemma transaction_journals {A} (m : M t A) s r s' :
  (forall a s', m s = (Ok a, s') -> journals s s') -> transaction m s = (r, s') -> journals s s'.
Proof.
  intros Hm H. unfold transaction in H. destruct (m s) as [[a|e] s1] eqn:E; injection H as _ <-.
  - by eapply Hm.
  - apply journals_refl.
Qed.

Lemma record_once_ok {R} find (wrap : R -> payload) row conflict commit s a s' :
  record_once sha256 find wrap row conflict commit s = (Ok a, s') ->
  s' = s \/ find s = None /\ commit s = (Ok tt, s').
Proof.
  unfold record_once, bind, get. destruct (find s) as [old|].
  - unfold raise_if. destruct (negb _); intros H; [done|]. injection H as _ <-. by left.
  - destruct (commit s) as [[[]|] s1]; intros H; [|done]. injection H as _ <-. by right.
Qed.

Lemma insert_ok {R} constraint clash table set_table (row : R) s u s' :
  insert constraint clash table set_table row s = (Ok u, s') ->
  s' = set_table (table s ++ [row]) s /\ existsb (clash row) (table s) = false.
Proof. rewrite insert_run. destruct (existsb _ _); intros H; [done|]. by injection H as _ <-. Qed.

(** Journaling an object and inserting it, the body of most operations. *)
Lemma journal_insert_ok {R} k id at_ p constraint clash table set_table (row : R) s u s' :
  conformant s ->
  bind (append_authority sha256 k id at_ p) (fun _ => insert constraint clash table set_table row) s
  = (Ok u, s') ->
  s' = set_table (table (journaled (next_event k id at_ p s) s) ++ [row])
         (journaled (next_event k id at_ p s) s).
Proof.
  intros Hc H. apply bind_ok in H as (n & s1 & H1 & H). rewrite append_authority_run in H1 by done.
  injection H1 as <- <-. by apply insert_ok in H as [-> _].
Qed.

(** One event, whose effect on the tables is its own. *)
Lemma journals_one e s s' :
  (forall id, events_of id (lifecycle_events s') = events_of id (lifecycle_events s)) ->
  authority_events s' = authority_events s ++ [e] ->
  tables_of s' = apply_event (tables_of s) e -> journals s s'.
Proof.
  intros Hl He Ht _ Hok. split; [intros id; rewrite Hl; apply Hok|]. by exists [e].
Qed.

(** The operations of the shape of [record_once] that journal one event. *)
Ltac one_event s :=
  eapply transaction_journals; [|eassumption];
  let a := fresh "a" in let s1 := fresh "s1" in let H := fresh "H" in
  intros a s1 H Hc;
  match goal with
  | _ => apply record_once_ok in H as [->|[_ H]]; [by apply journals_refl|]
  | _ => idtac
  end;
  apply journal_insert_ok in H; [|done]; revert Hc; subst s1;
  eapply journals_one; [done|reflexivity|by destruct s].

Lemma record_media_parser_report_journals r s x s' :
  record_media_parser_report sha256 r s = (x, s') -> journals s s'.
Proof. intros Hrun. unfold record_media_parser_report in Hrun. one_event s. Qed.

Lemma record_evidence_reevaluation_journals r s x s' :
  record_evidence_reevaluation sha256 r s = (x, s') -> journals s s'.
Proof. intros Hrun. unfold record_evidence_reevaluation in Hrun. one_event s. Qed.

Lemma record_claim_journals c s x s' : record_claim sha256 c s = (x, s') -> journals s s'.
Proof. intros Hrun. unfold record_claim in Hrun. one_event s. Qed.

Lemma record_incident_relation_journals r s x s' :
  record_incident_relation sha256 r s = (x, s') -> journals s s'.
Proof. intros Hrun. unfold record_incident_relation in Hrun. one_event s. Qed.

Lemma record_claim_link_journals l s x s' : record_claim_link sha256 l s = (x, s') -> journals s s'.
Proof.
  intros Hrun. unfold record_claim_link in Hrun. eapply transaction_journals; [|eassumption].
  intros a s1 H. apply bind_ok in H as (z & s2 & [= <- <-] & H).
  apply bind_ok in H as ([] & s2 & [_ ->]%raise_if_ok & H).
  apply record_once_ok in H as [->|[_ H]]; [by apply journals_refl|].
  intros Hc. apply journal_insert_ok in H; [|done]. revert Hc. subst s1.
  eapply journals_one; [done|reflexivity|by destruct s].
Qed.

Lemma record_identity_decision_journals c d s x s' :
  record_identity_decision sha256 c d s = (x, s') -> journals s s'.
Proof.
  intros Hrun. unfold record_identity_decision in Hrun. eapply transaction_journals; [|eassumption].
  intros a s1 H. apply record_once_ok in H as [->|[_ H]]; [by apply journals_refl|].
  apply bind_ok in H as ([] & s2 & [-> _]%insert_ok & [-> _]%insert_ok).
  intros _ Hok. split; [done|]. exists []. by rewrite app_nil_r.
Qed.

Lemma record_command_receipt_journals r s x s' :
  record_command_receipt sha256 r s = (x, s') -> journals s s'.
Proof.
  intros Hrun. unfold record_command_receipt in Hrun. eapply transaction_journals; [|eassumption].
  intros a s1 H. apply bind_ok in H as (z & s2 & [= <- <-] & H).
  destruct (command_receipt _ s).
  - apply bind_ok in H as ([] & s2 & [_ ->]%raise_if_ok & [= _ <-]). apply journals_refl.
  - intros Hc. apply bind_ok in H as (n & s2 & H1 & H). apply bind_ok in H as ([] & s3 & H2 & [= _ <-]).
    rewrite append_authority_run in H1 by done. injection H1 as <- <-.
    apply insert_ok in H2 as [-> _]. revert Hc.
    eapply journals_one; [done|reflexivity|by destruct s].
Qed.

Lemma record_authority_mutation_journals k id at_ p s x s' :
  k = AuthorityMutationKind.CONFIGURATION \/ k = AuthorityMutationKind.DISPOSITION ->
  record_authority_mutation sha256 k id at_ p s = (x, s') -> journals s s'.
Proof.
  intros Hk Hrun. unfold record_authority_mutation in Hrun. eapply transaction_journals; [|eassumption].
  intros a s1 H Hc. rewrite append_authority_run in H by done. injection H as _ <-. revert Hc.
  eapply journals_one; [done|reflexivity|]. destruct s. by destruct Hk as [->| ->].
Qed.

Lemma append_incident_journals r n s x s' :
  append_incident_with_notification sha256 r n s = (x, s') -> journals s s'.
Proof.
  intros Hrun. unfold append_incident_with_notification in Hrun. eapply transaction_journals; [|eassumption].
  intros a s1 H Hc. apply bind_ok in H as (p & s2 & H1 & H). rewrite append_authority_run in H1 by done.
  injection H1 as <- <-. apply bind_ok in H as ([] & s3 & H1 & H).
  unfold insert_incident, bind at 1, get at 1, bind at 1, put at 1 in H1. apply insert_ok in H1 as [-> _].
  set (e := next_event _ _ _ _ s) in *. set (st := set_incident_events _ _) in *.
  assert (Hst : authority_events st = authority_events s ++ [e] /\
    tables_of st = apply_event (tables_of s) e /\ lifecycle_events st = lifecycle_events s).
  { destruct s; cbn. split_and!; try done. unfold tables_of, all; cbn. by rewrite fmap_app. }
  assert (Hcs : conformant st) by (destruct (journaled_conformant AuthorityMutationKind.INCIDENT
    (IncidentRecord.incident_id r) (IncidentRecord.last_observed_at r) (PIncident r) s Hc); by split).
  assert (Hone : journals s st).
  { eapply journals_one; [by rewrite (proj2 (proj2 Hst))|apply Hst|apply Hst]. }
  destruct n as [n|]; [|by injection H as _ <-; apply Hone].
  apply bind_ok in H as (z & s4 & [= <- <-] & H).
  destruct (select_one _ _); [by injection H as _ <-; apply Hone|].
  apply bind_ok in H as (p2 & s5 & H1 & H). rewrite append_authority_run in H1 by done.
  injection H1 as <- <-. apply bind_ok in H as ([] & s6 & H1 & [= _ <-]).
  apply insert_ok in H1 as [-> _]. intros Hok. destruct Hst as (Hev & Htb & Hlc).
  clearbody st. split; [intros id; cbn; rewrite Hlc; apply Hok|].
  eexists [e; _]. split; [cbn; by rewrite Hev, <- app_assoc|].
  cbn [fold_left]. rewrite <- Htb. by destruct st.
Qed.

Lemma record_delivery_journals id d rc er at_ s x s' :
  record_delivery sha256 id d rc er at_ s = (x, s') -> journals s s'.
Proof.
  intros Hrun. unfold record_delivery in Hrun. eapply transaction_journals; [|eassumption].
  intros a s1 H. apply bind_ok in H as (z & s2 & [= <- <-] & H).
  destruct (select_one _ _) as [cur|]; [|done].
  destruct (decide _); [injection H as _ <-; apply journals_refl|]. intros Hc.
  apply bind_ok in H as (p & s2 & H1 & H). rewrite append_authority_run in H1 by done. injection H1 as <- <-.
  apply bind_ok in H as ([] & s3 & [= <-] & [= _ <-]). revert Hc.
  eapply journals_one; [done|reflexivity|by destruct s].
Qed.

Lemma record_review_journals act s x s' : record_review sha256 act s = (x, s') -> journals s s'.
Proof.
  intros Hrun. unfold record_review in Hrun. eapply transaction_journals; [|eassumption].
  intros a s1 H Hc. apply bind_ok in H as (z & s2 & [= <- <-] & H).
  apply bind_ok in H as (p & s2 & H1 & H). rewrite append_authority_run in H1 by done. injection H1 as <- <-.
  apply bind_ok in H as ([] & s3 & [-> _]%insert_ok & H).
  apply bind_ok in H as ([] & s4 & [= <-] & [= _ <-]). revert Hc.
  eapply journals_one; [done|reflexivity|]. destruct s. unfold tables_of; cbn. f_equal.
  unfold review_state; cbn.
  assert (Hid : forall st, IncidentReviewState.incident_id (apply_review st act)
    = IncidentReviewState.incident_id st) by (intros st; unfold apply_review; by destruct (ReviewAction.action act)).
  rewrite Hid. unfold review_row. by destruct (_ !! _).
Qed.

(** Appending to the events of a piece of evidence. *)
Lemma events_of_snoc id l e :
  events_of id (l ++ [e]) =
  if decide (EvidenceLifecycleEvent.evidence_id e = id) then events_of id l ++ [e] else events_of id l.
Proof.
  unfold events_of, select. rewrite List.filter_app. cbn. repeat case_decide || case_bool_decide; try done.
  by rewrite app_nil_r.
Qed.

Lemma lifecycle_locked_journals e s x s' :
  EvidenceLifecycleEvent.resulting_version e = EvidenceLifecycleEvent.expected_version e + 1 ->
  record_evidence_lifecycle_locked sha256 e s = (Ok x, s') -> journals s s'.
Proof.
  intros Hv H. unfold record_evidence_lifecycle_locked in H.
  apply record_once_ok in H as [->|[_ H]]; [apply journals_refl|]. intros Hc Hok.
  apply bind_ok in H as (z & s1 & [= <- <-] & H). cbv zeta in H.
  apply bind_ok in H as ([] & s1 & [Hfresh ->]%raise_if_ok & H).
  apply journal_insert_ok in H; [|done]. subst s'.
  set (id := EvidenceLifecycleEvent.evidence_id e) in *.
  assert (Hlc : lifecycle_of id s = events_of id (lifecycle_events s)) by (eapply chain_sorted, Hok).
  rewrite Hlc in Hfresh. apply orb_false_iff in Hfresh as [H1 H2].
  apply negb_false_iff in H1, H2. apply bool_decide_eq_true in H2. apply Z.eqb_eq in H1.
  split.
  - intros id'. change (chain 0 None (events_of id' (lifecycle_events s ++ [e]))).
    rewrite events_of_snoc. case_decide as Hid; [|apply Hok]. subst id'. fold id.
    apply chain_snoc; [apply Hok| | |done]; unfold chain_end; fold id.
    + rewrite H1. by destruct (last _).
    + rewrite H2. by destruct (last _).
  - eexists [_]. split; [reflexivity|]. by destruct s.
Qed.

Lemma record_evidence_lifecycle_journals e s x s' :
  EvidenceLifecycleEvent.validate e = Ok e ->
  record_evidence_lifecycle sha256 e s = (x, s') -> journals s s'.
Proof.
  intros Hv Hrun. unfold record_evidence_lifecycle in Hrun. eapply transaction_journals; [|eassumption].
  intros a s1 H. apply bind_ok in H as (z & s2 & [= <- <-] & H).
  apply bind_ok in H as ([] & s2 & [_ ->]%raise_if_ok & H).
  eapply lifecycle_locked_journals; [|exact H].
  unfold EvidenceLifecycleEvent.validate in Hv. apply rbind_ok in Hv as ([] & _ & Hv).
  apply rbind_ok in Hv as ([] & _ & Hv). apply rbind_ok in Hv as ([] & Hv%check_ok & _). lia.
Qed.

Lemma journals_trans s1 s2 s3 :
  (conformant s1 -> conformant s2) -> journals s1 s2 -> journals s2 s3 -> journals s1 s3.
Proof.
  intros Hc H1 H2 Hcf Hok. destruct (H1 Hcf Hok) as (Hok2 & es1 & He1 & Ht1).
  destruct (H2 (Hc Hcf) Hok2) as (Hok3 & es2 & He2 & Ht2). split; [done|].
  exists (es1 ++ es2). by rewrite He2, He1, Ht2, Ht1, <- app_assoc, fold_left_app.
Qed.

Lemma record_evidence_journals item id s x s' :
  record_evidence sha256 item id s = (x, s') -> journals s s'.
Proof.
  intros Hrun. unfold record_evidence in Hrun.
  destruct (bool_decide _); [injection Hrun as _ <-; apply journals_refl|].
  unfold bind at 1, raise_if at 1, ret at 1 in Hrun.
  eapply transaction_journals; [|eassumption]. intros a s1 H.
  apply record_once_ok in H as [->|[_ H]]; [apply journals_refl|]. intros Hc.
  apply bind_ok in H as (p & s2 & H1 & H). rewrite append_authority_run in H1 by done. injection H1 as <- <-.
  apply bind_ok in H as ([] & s3 & [-> _]%insert_ok & H).
  apply bind_ok in H as (initial & s4 & H1 & H). injection H1 as H1 <-.
  apply bind_ok in H as (y & s5 & H & [= <-]). revert Hc.
  eapply journals_trans; [| |eapply lifecycle_locked_journals; [|exact H]].
  - intros Hc. destruct (journaled_conformant AuthorityMutationKind.EVIDENCE (EvidenceItem.evidence_id item)
      (EvidenceItem.received_at item) (PEvidence item) s Hc). by split.
  - eapply journals_one; [done|reflexivity|by destruct s].
  - by rewrite <- H1.
Qed.

Lemma exec_journals o s r s' : op_valid o -> exec o s = (r, s') -> journals s s'.
Proof.
  assert (Hvoid : forall A (m : M t A) s r s', void m s = (r, s') -> exists r', m s = (r', s')).
  { clear. intros A m s r s'. unfold void, bind. destruct (m s) as [[]]; intros [= _ <-]; eauto. }
  destruct o; cbn [op_valid exec]; intros Hv (r' & H)%Hvoid;
    eauto using record_authority_mutation_journals, append_incident_journals, record_delivery_journals,
      record_review_journals, record_command_receipt_journals, record_evidence_journals,
      record_evidence_lifecycle_journals, record_media_parser_report_journals,
      record_evidence_reevaluation_journals, record_claim_journals, record_claim_link_journals,
      record_incident_relation_journals, record_identity_decision_journals.
Qed.

Lemma reachable_journals s : reachable s -> journals init s.
Proof.
  unfold reachable. induction 1 as [s|s1 s2 s3 (o & r & Hv & Hrun) _ IH]; [apply journals_refl|].
  eapply journals_trans; [|by eapply exec_journals|done].
  apply (gr_conformant _ _ (exec_steps o _ _ _ Hrun)).
Qed.

Lemma init_conformant : conformant init.
Proof. by split. Qed.

(** C8: the authority journal is complete.  Replaying its events from an empty
    node rebuilds exactly the incident history, the notification outbox with
    every delivery outcome, the reviews and the review states, the receipts,
    the evidence with its lifecycle, the parser runs, the reevaluations, the
    claims, links and relations that the tables hold. *)
Theorem journal_replay_rebuilds_tables s :
  reachable s -> replay (authority_events s) = tables_of s.
Proof.
  intros H%reachable_journals. destruct (H init_conformant) as (_ & es & -> & ->); [by intros id|done].
Qed.

(** The lifecycle of every piece of evidence is a gapless chain: its events
    are numbered 1, 2, 3, ..., each starts in the state the previous one left,
    and none is recorded from a stale version or state. *)
Theorem evidence_lifecycle_gapless s id :
  reachable s -> chain 0 None (lifecycle_of id s).
Proof.
  intros H%reachable_journals. destruct (H init_conformant) as [Hok _]; [by intros id'|].
  specialize (Hok id). unfold lifecycle_of. change (select _ (lifecycle_events s)) with (events_of id (lifecycle_events s)).
  by rewrite (chain_sorted _ _ _ Hok).
Qed.
End Journal.

(** ** A concrete store *)
Definition run_store (sha256 : payload -> string) (ops : list op) (s : t) : t :=
  fold_left (fun s o => (exec sha256 o s).2) ops s.

Lemma run_store_steps sha256 ops s : Forall op_valid ops -> rtc (step sha256) s (run_store sha256 ops s).
Proof.
  revert s. induction ops as [|o ops IH]; intros s; [done|].
  intros [Ho Hops]%List.Forall_cons_iff. cbn. econstructor; [|by apply IH].
  exists o, (exec sha256 o s).1. split; [done|]. by destruct (exec sha256 o s).
Qed.

Definition demo_sha256 (p : payload) : string :=
  match p with PIncident r => IncidentRecord.incident_id r | _ => "digest" end.

Definition demo_incident (version : Z) (state : IncidentState.t) : IncidentRecord.t :=
  {| IncidentRecord.incident_id := "incident-1"; IncidentRecord.hazard := HazardKind.WILDFIRE;
     IncidentRecord.state := state; IncidentRecord.confidence := f0;
     IncidentRecord.coverage := CoverageState.SUFFICIENT; IncidentRecord.source_mode := SourceMode.LIVE;
     IncidentRecord.first_observed_at := 10; IncidentRecord.last_observed_at := 10 + version;
     IncidentRecord.event_time_watermark := Some 10; IncidentRecord.version := version;
     IncidentRecord.reason_codes := []; IncidentRecord.analysis_ids := [];
     IncidentRecord.correlation_ids := []; IncidentRecord.last_boot_id := "boot";
     IncidentRecord.source_lineage := "lineage"; IncidentRecord.model_profile_id := "model";
     IncidentRecord.config_hashes := []; IncidentRecord.labels := [] |}.

Definition demo_intent (id : string) (version : Z) (max_attempts : Z) : NotificationIntent.t :=
  {| NotificationIntent.notification_id := id; NotificationIntent.incident_id := "incident-1";
     NotificationIntent.hazard := HazardKind.WILDFIRE; NotificationIntent.incident_version := version;
     NotificationIntent.incident_state := IncidentState.WATCH;
     NotificationIntent.idempotency_key := "key:" +:+ id; NotificationIntent.status := NotificationStatus.PENDING;
     NotificationIntent.created_at := 10 + version; NotificationIntent.updated_at := 10 + version;
     NotificationIntent.attempt_count := 0; NotificationIntent.max_attempts := max_attempts;
     NotificationIntent.last_error := None; NotificationIntent.receipt_id := None;
     NotificationIntent.reason_codes := [] |}.

Definition demo_evidence : EvidenceItem.t :=
  {| EvidenceItem.evidence_id := "evidence-1"; EvidenceItem.incident_id := "incident-1";
     EvidenceItem.hazard := HazardKind.WILDFIRE; EvidenceItem.source_id := "camera";
     EvidenceItem.source_standing := SourceStanding.FIRST_PARTY; EvidenceItem.authority_role := "observer";
     EvidenceItem.media_integrity := MediaIntegrityState.UNKNOWN;
     EvidenceItem.extraction_confidence_state := ExtractionConfidenceState.UNKNOWN;
     EvidenceItem.extraction_confidence := None; EvidenceItem.freshness_state := HealthState.HEALTHY;
     EvidenceItem.claim_text := "smoke"; EvidenceItem.content_sha256 := "00";
     EvidenceItem.perceptual_hash := None; EvidenceItem.origin_key := "origin";
     EvidenceItem.family_id := Some "family"; EvidenceItem.parent_evidence_id := None;
     EvidenceItem.independent_origin_proven := false;
     EvidenceItem.retention_state := EvidenceRetentionState.RETAINED;
     EvidenceItem.parser_state := ParserIsolationState.NOT_REQUIRED;
     EvidenceItem.rights_basis := Some "consent"; EvidenceItem.rights_mode := Some EvidenceRightsMode.RETAIN_BYTES;
     EvidenceItem.rights_expires_at := None; EvidenceItem.modality := "image"; EvidenceItem.received_at := 12;
     EvidenceItem.reason_codes := []; EvidenceItem.person_identification_performed := false;
     EvidenceItem.subject_ref := None; EvidenceItem.processing_basis := "basis" |}.

(** Expiring a piece of evidence from a version. *)
Definition demo_expire (id : UUID) (version : Z) : EvidenceLifecycleEvent.t :=
  {| EvidenceLifecycleEvent.lifecycle_event_id := id; EvidenceLifecycleEvent.evidence_id := "evidence-1";
     EvidenceLifecycleEvent.incident_id := "incident-1"; EvidenceLifecycleEvent.action := EvidenceLifecycleAction.EXPIRE;
     EvidenceLifecycleEvent.from_state := Some EvidenceContentState.AVAILABLE;
     EvidenceLifecycleEvent.to_state := EvidenceContentState.EXPIRED;
     EvidenceLifecycleEvent.expected_version := version; EvidenceLifecycleEvent.resulting_version := version + 1;
     EvidenceLifecycleEvent.actor := "operator"; EvidenceLifecycleEvent.reason := "retention";
     EvidenceLifecycleEvent.created_at := 20; EvidenceLifecycleEvent.deletion_proof_sha256 := None;
     EvidenceLifecycleEvent.redaction_profile_id := None; EvidenceLifecycleEvent.reason_codes := [] |}.

Definition demo_ops : list op :=
  [AppendIncident (demo_incident 1 IncidentState.WATCH) (Some (demo_intent "n1" 1 2));
   AppendIncident (demo_incident 2 IncidentState.CONFIRMED) (Some (demo_intent "n2" 2 2));
   AppendIncident (demo_incident 2 IncidentState.DEGRADED) None;
   RecordEvidence demo_evidence "lc-1";
   RecordEvidenceLifecycle (demo_expire "lc-2" 1);
   RecordEvidenceLifecycle (demo_expire "lc-3" 1)].

Definition demo_store : t := run_store demo_sha256 demo_ops init.

Lemma demo_ops_valid : Forall op_valid demo_ops.
Proof. repeat constructor. Qed.

Lemma demo_store_reachable : reachable demo_sha256 demo_store.
Proof. apply run_store_steps, demo_ops_valid. Qed.

Lemma authority_journal_conformant_witness :
  authority_conformance demo_sha256 demo_store = mkConformance true 7 7 [] /\
  valid (authority_conformance demo_sha256 demo_store) = true.
Proof.
  split; [vm_compute; reflexivity|].
  apply (authority_journal_conformant demo_sha256 demo_store). exact demo_store_reachable.
Defined.

Lemma history_append_only_witness :
  let s' := run_store demo_sha256 [RecordDelivery "n1" true (Some "r") None 30] demo_store in
  authority_events demo_store `prefix_of` authority_events s' /\ all demo_store `prefix_of` all s'.
Proof.
  cbv zeta. destruct (history_append_only demo_sha256 demo_store
    (run_store demo_sha256 [RecordDelivery "n1" true (Some "r") None 30] demo_store)) as (H1 & H2 & _).
  - exact demo_store_reachable.
  - apply run_store_steps. repeat constructor.
  - split; assumption.
Defined.

(** The second expiry is stale: the journal event it had written is undone. *)
Lemma failed_operation_changes_nothing_witness :
  let o := RecordEvidenceLifecycle (demo_expire "lc-3" 1) in
  (exec demo_sha256 o demo_store).2 = demo_store.
Proof.
  cbv zeta. apply (failed_operation_changes_nothing demo_sha256 (RecordEvidenceLifecycle (demo_expire "lc-3" 1))
    demo_store (match (exec demo_sha256 (RecordEvidenceLifecycle (demo_expire "lc-3" 1)) demo_store).1 with
                | Raise e => e | Ok _ => AssertionError end)).
  vm_compute. reflexivity.
Defined.

Lemma journal_replay_rebuilds_tables_witness :
  length (authority_events demo_store) = 7%nat /\ replay (authority_events demo_store) = tables_of demo_store.
Proof.
  split; [vm_compute; reflexivity|].
  apply (journal_replay_rebuilds_tables demo_sha256 demo_store). exact demo_store_reachable.
Defined.

Lemma evidence_lifecycle_gapless_witness :
  length (lifecycle_of "evidence-1" demo_store) = 2%nat /\
  chain 0 None (lifecycle_of "evidence-1" demo_store).
Proof.
  split; [vm_compute; reflexivity|].
  apply (evidence_lifecycle_gapless demo_sha256 demo_store "evidence-1"). exact demo_store_reachable.
Defined.
