(* ===== verification/EvidenceRows.v ===== *)
(** The rows of evidence and of its lifecycle in the incident store: what each
    operation does to the two tables, and that every lifecycle event belongs to
    registered evidence. *)

From Stdlib Require Import ZArith Lia ZifyBool.
From S2P Require Import Prelude Ordering Binary64 Enums Models Records Journal JournalTheorems.
Import IncidentJournalStore.
Open Scope Z_scope.

Section Rows.
Context (store_sha256 : payload -> string).
Notation reachable := (reachable store_sha256).
Notation step := (step store_sha256).
Notation exec := (exec store_sha256).

(** ** Operations that leave both tables alone *)
Definition same_rows (s s' : t) : Prop :=
  lifecycle_events s' = lifecycle_events s /\ evidence_items s' = evidence_items s.

#[local] Instance same_rows_preorder : PreOrder same_rows.
Proof. split; [by intros s|]. intros s1 s2 s3 [] []. split; congruence. Qed.

#[local] Instance append_authority_rows k id at_ p : Steps same_rows (append_authority store_sha256 k id at_ p).
Proof. intros s r s' H. by apply append_authority_frame in H as (ev & seq & sub & ->). Qed.

Lemma insert_rows {R} constraint clash table set_table (row : R) :
  (forall s, same_rows s (set_table (table s ++ [row]) s)) ->
  Steps same_rows (insert constraint clash table set_table row).
Proof.
  intros Hs s r s' H. rewrite insert_run in H. destruct (existsb _ _); injection H as _ <-; [done|apply Hs].
Qed.

#[local] Hint Extern 1 (Steps same_rows (insert _ _ _ _ _)) =>
  apply insert_rows; by intros [] : typeclass_instances.
#[local] Hint Extern 1 (Steps same_rows (modify _)) =>
  apply steps_modify; by intros [] : typeclass_instances.

#[local] Instance record_once_rows {R} find (wrap : R -> payload) row conflict commit :
  Steps same_rows commit -> Steps same_rows (record_once store_sha256 find wrap row conflict commit).
Proof. intros Hc. unfold record_once. steps. Qed.

#[local] Instance insert_incident_rows p r : Steps same_rows (insert_incident p r).
Proof.
  intros s res s' H. unfold insert_incident, bind, get, put in H. rewrite insert_run in H.
  destruct (existsb _ _); by injection H as _ <-.
Qed.

Definition on_evidence (o : op) : bool :=
  match o with RecordEvidence _ _ | RecordEvidenceLifecycle _ => true | _ => false end.

Lemma other_rows o : on_evidence o = false -> Steps same_rows (exec o).
Proof.
  destruct o; intros Ho; try discriminate Ho; unfold JournalTheorems.exec, void; (apply steps_bind; [apply _| |apply _]).
  all: unfold record_authority_mutation, append_incident_with_notification, insert_notification,
    record_delivery, update_notification, record_review, record_command_receipt, record_media_parser_report,
    record_evidence_reevaluation, record_claim, record_claim_link, record_incident_relation, record_identity_decision.
  all: steps.
Qed.

(** ** Operations on evidence *)

(** An event whose identifier is new. *)
Definition fresh (e : EvidenceLifecycleEvent.t) (s : t) : Prop :=
  EvidenceLifecycleEvent.lifecycle_event_id e ∉ EvidenceLifecycleEvent.lifecycle_event_id <$> lifecycle_events s.

Definition adds_event (e : EvidenceLifecycleEvent.t) (s s' : t) : Prop :=
  fresh e s /\ lifecycle_events s' = lifecycle_events s ++ [e] /\ evidence_items s' = evidence_items s.

Lemma lifecycle_locked_run e s r s' :
  record_evidence_lifecycle_locked store_sha256 e s = (r, s') -> same_rows s s' \/ adds_event e s s'.
Proof.
  intros H. unfold record_evidence_lifecycle_locked, record_once, bind at 1, get at 1 in H.
  destruct (select_one _ _) as [old|] eqn:Hf.
  { unfold raise_if, bind in H. destruct (negb _); injection H as _ <-; by left. }
  revert H. unfold bind at 1 2, get at 1. cbv zeta. unfold bind at 1, raise_if.
  destruct (_ || _); [intros [= _ <-]; by left|]. unfold ret at 1, bind at 1.
  destruct (append_authority store_sha256 _ _ _ _ s) as [[p|exc] s1] eqn:Ha;
    apply append_authority_frame in Ha as (ev & seq & sub & ->); [|intros [= _ <-]; by left].
  rewrite insert_run. destruct (existsb _ _) eqn:Hc; intros [= _ <-]; [by left|]. right. split_and!; [|done..].
  intros (x & Heq & Hx)%list_elem_of_fmap. apply not_true_iff_false in Hc. apply Hc. apply List.existsb_exists.
  exists x. split; [by apply list_elem_of_In|]. unfold same_key. by rewrite (bool_decide_eq_true_2 _ Heq).
Qed.

(** The event that registers evidence. *)
Definition registers (item : EvidenceItem.t) (e : EvidenceLifecycleEvent.t) : Prop :=
  EvidenceLifecycleEvent.evidence_id e = EvidenceItem.evidence_id item /\
  EvidenceLifecycleEvent.incident_id e = EvidenceItem.incident_id item /\
  EvidenceLifecycleEvent.action e = EvidenceLifecycleAction.REGISTER /\
  EvidenceLifecycleEvent.from_state e = None /\
  EvidenceLifecycleEvent.to_state e = initial_content_state item.

Definition adds_item (item : EvidenceItem.t) (s s' : t) : Prop :=
  evidence_by_id (EvidenceItem.evidence_id item) s = None /\ evidence_items s' = evidence_items s ++ [item].

Lemma record_evidence_run item id s r s' :
  record_evidence store_sha256 item id s = (r, s') ->
  same_rows s s' \/
  adds_item item s s' /\
    (lifecycle_events s' = lifecycle_events s \/
     exists e, registers item e /\ fresh e s /\ lifecycle_events s' = lifecycle_events s ++ [e]).
Proof.
  unfold record_evidence, bind at 1. intros H.
  destruct (raise_if _ _ s) as [[u|exc] s0] eqn:Hr; [|apply raise_if_raise in Hr as (_ & _ & ->); injection H as _ <-; by left].
  apply raise_if_ok in Hr as [_ ->]. unfold transaction in H. revert H.
  match goal with |- context [match ?m s with _ => _ end] => destruct (m s) as [[a|exc] s1] eqn:E end;
    intros [= _ <-]; [|by left].
  unfold record_once, bind at 1, get at 1 in E. destruct (evidence_by_id _ s) as [old|] eqn:Hf.
  { unfold raise_if, bind in E. destruct (negb _); [done|]. injection E as _ <-. by left. }
  revert E. unfold bind at 1 2.
  destruct (append_authority store_sha256 _ _ _ _ s) as [[p|exc] s0] eqn:Ha;
    apply append_authority_frame in Ha as (ev & seq & sub & ->); [|done].
  unfold bind at 1. rewrite insert_run. destruct (existsb _ _); [done|]. unfold bind, lift, ret.
  destruct (EvidenceLifecycleEvent.validate _) as [e|exc] eqn:Hv; [|done].
  destruct (record_evidence_lifecycle_locked store_sha256 e _) as [[x|exc] s3] eqn:Hl; [|done]. intros [= _ <-].
  right. apply lifecycle_locked_run in Hl as [[Hl Hi]|(He & Hl & Hi)]; (split; [by split|]); [by left|right].
  exists e. split; [|done].
  unfold EvidenceLifecycleEvent.validate in Hv. repeat (apply rbind_ok in Hv as ([] & _ & Hv)). by injection Hv as <-.
Qed.

(** A lifecycle event belongs to evidence of the same incident. *)
Definition linked (s : t) (e : EvidenceLifecycleEvent.t) : Prop :=
  exists item, evidence_by_id (EvidenceLifecycleEvent.evidence_id e) s = Some item /\
    EvidenceItem.incident_id item = EvidenceLifecycleEvent.incident_id e.

Lemma record_evidence_lifecycle_run e s r s' :
  record_evidence_lifecycle store_sha256 e s = (r, s') -> same_rows s s' \/ linked s e /\ adds_event e s s'.
Proof.
  unfold record_evidence_lifecycle, transaction, bind at 1, get. unfold bind at 1. unfold raise_if.
  destruct (evidence_by_id _ s) as [item|] eqn:Hitem; [|intros [= _ <-]; by left].
  destruct (bool_decide _) eqn:Hb; [|intros [= _ <-]; by left]. apply bool_decide_eq_true in Hb.
  cbn -[record_evidence_lifecycle_locked].
  destruct (record_evidence_lifecycle_locked store_sha256 e s) as [[x|exc] s1] eqn:Hl; intros [= _ <-]; [|by left].
  apply lifecycle_locked_run in Hl as [?|?]; [by left|right]. split; [by exists item|done].
Qed.

(** Registered evidence stays. *)
Lemma item_stays item s s' id x :
  adds_item item s s' -> evidence_by_id id s = Some x -> evidence_by_id id s' = Some x.
Proof.
  intros [_ Hi] Hx. unfold evidence_by_id, select_one in *. by rewrite Hi, find_app, Hx.
Qed.

Lemma item_added item s s' : adds_item item s s' -> evidence_by_id (EvidenceItem.evidence_id item) s' = Some item.
Proof.
  intros [Hn Hi]. unfold evidence_by_id, select_one in *. rewrite Hi, find_app, Hn. cbn. by rewrite bool_decide_eq_true_2.
Qed.

(** What any operation does to the tables. *)
Inductive evidence_step (s s' : t) : Prop :=
  | step_same : same_rows s s' -> evidence_step s s'
  | step_item item : adds_item item s s' -> lifecycle_events s' = lifecycle_events s -> evidence_step s s'
  | step_register item e : adds_item item s s' -> registers item e -> fresh e s ->
      lifecycle_events s' = lifecycle_events s ++ [e] -> evidence_step s s'
  | step_event e : linked s e -> adds_event e s s' -> evidence_step s s'.

Lemma exec_evidence o s r s' : exec o s = (r, s') -> evidence_step s s'.
Proof.
  intros H. destruct (on_evidence o) eqn:Ho; [|apply step_same; by apply (other_rows o Ho) in H].
  destruct o; try discriminate Ho; unfold JournalTheorems.exec, void, bind in H.
  - destruct (record_evidence _ _ _ s) as [r1 s1] eqn:E. assert (s' = s1) as -> by (destruct r1; by injection H).
    apply record_evidence_run in E as [?|(? & [?|(ev & ? & ? & ?)])];
      [by apply step_same|by eapply step_item|by eapply step_register].
  - destruct (record_evidence_lifecycle _ _ s) as [r1 s1] eqn:E. assert (s' = s1) as -> by (destruct r1; by injection H).
    apply record_evidence_lifecycle_run in E as [?|[? ?]]; [by apply step_same|by eapply step_event].
Qed.

Record evidence_ok (s : t) : Prop := {
  ev_ids : NoDup (EvidenceLifecycleEvent.lifecycle_event_id <$> lifecycle_events s);
  ev_linked e : e ∈ lifecycle_events s -> linked s e;
  ev_items : NoDup (EvidenceItem.evidence_id <$> evidence_items s)
}.

Lemma items_snoc item s s' :
  adds_item item s s' -> NoDup (EvidenceItem.evidence_id <$> evidence_items s) ->
  NoDup (EvidenceItem.evidence_id <$> evidence_items s').
Proof.
  intros [Hn ->] Hnd. rewrite fmap_app. apply NoDup_app. split_and!; [done| |apply NoDup_singleton].
  intros x (y & -> & Hy)%list_elem_of_fmap Heq%list_elem_of_singleton. unfold evidence_by_id, select_one in Hn.
  apply list_elem_of_In in Hy. apply (List.find_none _ _ Hn) in Hy. by apply bool_decide_eq_false in Hy.
Qed.

Lemma evidence_step_ok s s' : evidence_step s s' -> evidence_ok s -> evidence_ok s'.
Proof.
  assert (Hsnoc : forall e, fresh e s -> evidence_ok s ->
    NoDup (EvidenceLifecycleEvent.lifecycle_event_id <$> (lifecycle_events s ++ [e]))).
  { intros e Hf [Hids _ _]. rewrite fmap_app. apply NoDup_app. split_and!; [done| |apply NoDup_singleton].
    by intros x Hx ->%list_elem_of_singleton. }
  intros [[Hl Hi]|item Ha Hl|item e Ha He Hf Hl|e Hlink (Hf & Hl & Hi)] Hok; pose proof Hok as [Hids Hall Hnd];
    split; rewrite ?Hl, ?Hi; eauto using items_snoc.
  - intros e He. destruct (Hall e He) as (x & Hx & ?). exists x. unfold evidence_by_id in *. by rewrite Hi.
  - intros e He. destruct (Hall e He) as (x & Hx & ?). exists x. by rewrite (item_stays _ _ _ _ _ Ha Hx).
  - intros x [Hx| ->%list_elem_of_singleton]%elem_of_app.
    + destruct (Hall x Hx) as (y & Hy & ?). exists y. by rewrite (item_stays _ _ _ _ _ Ha Hy).
    + exists item. destruct He as (-> & -> & _). by rewrite (item_added _ _ _ Ha).
  - intros x Hx. assert (linked s x) as (y & Hy & ?).
    { apply elem_of_app in Hx as [Hx| ->%list_elem_of_singleton]; auto. }
    exists y. unfold evidence_by_id in *. by rewrite Hi.
Qed.

Lemma reachable_evidence s : reachable s -> evidence_ok s.
Proof.
  unfold JournalTheorems.reachable. intros H.
  cut (evidence_ok init); [|split; [constructor|by intros e ?%not_elem_of_nil|constructor]].
  induction H as [s|s1 s2 s3 (o & r & _ & Ho) _ IH]; [done|]. intros H1. apply IH.
  by apply (evidence_step_ok s1), H1; apply exec_evidence in Ho.
Qed.

Lemma reachable_lifecycles s : reachable s -> lifecycles_ok s.
Proof. intros H%reachable_journals. by destruct (H (init_conformant _)) as [Hok _]. Qed.

Lemma lifecycle_of_events s id : lifecycles_ok s -> lifecycle_of id s = events_of id (lifecycle_events s).
Proof. intros Hok. eapply chain_sorted, Hok. Qed.

Lemma elem_of_events_of id l e :
  e ∈ events_of id l <-> e ∈ l /\ EvidenceLifecycleEvent.evidence_id e = id.
Proof. unfold events_of, select. by rewrite !list_elem_of_In, List.filter_In, bool_decide_eq_true. Qed.

(** The event at index [i] of a chain leads to version [i + 1]. *)
Lemma chain_lookup v st l i e :
  chain v st l -> l !! i = Some e ->
  EvidenceLifecycleEvent.expected_version e = v + Z.of_nat i /\
  EvidenceLifecycleEvent.resulting_version e = v + Z.of_nat i + 1 /\
  EvidenceLifecycleEvent.from_state e = (chain_end v st (take i l)).2.
Proof.
  revert v st i. induction l as [|x l IH]; intros v st i; [done|]. intros (Hv & Hf & Hr & Hc).
  destruct i as [|i]; cbn [lookup list_lookup take].
  - intros [= <-]. cbn. split_and!; [lia|lia|done].
  - intros Hi. destruct (IH _ _ _ Hc Hi) as (-> & -> & ->). split_and!; [lia|lia|].
    unfold chain_end. rewrite last_cons. by destruct (last (take i l)).
Qed.

Lemma projection_version id now s p :
  lifecycles_ok s -> evidence_lifecycle_projection id now s = Ok p ->
  EvidenceLifecycleProjection.version p = Z.of_nat (length (events_of id (lifecycle_events s))) /\
  is_Some (evidence_by_id id s) /\ events_of id (lifecycle_events s) <> [].
Proof.
  intros Hok. unfold evidence_lifecycle_projection. rewrite lifecycle_of_events by done.
  destruct (evidence_by_id id s) as [item|]; [|done].
  destruct (last (events_of id (lifecycle_events s))) as [e|] eqn:Hl; [|done]. intros [= <-]. cbn.
  rewrite last_lookup in Hl. destruct (chain_lookup _ _ _ _ _ (Hok id) Hl) as (_ & -> & _).
  destruct (events_of id (lifecycle_events s)); [done|]. cbn [length Nat.pred]. split_and!; [lia|by eexists|done].
Qed.

Lemma projection_ok id now s :
  lifecycles_ok s -> is_Some (evidence_by_id id s) -> events_of id (lifecycle_events s) <> [] ->
  exists p, evidence_lifecycle_projection id now s = Ok p.
Proof.
  intros Hok [item Hi] Hne. unfold evidence_lifecycle_projection. rewrite lifecycle_of_events by done. rewrite Hi.
  destruct (last _) as [e|] eqn:Hl; [by eexists|by apply last_None in Hl].
Qed.
End Rows.
