(* ===== verification/HumanFactors.v ===== *)
(** Notification delivery (incidents/human_factors.py): the at-least-once
    dispatcher over the outbox of the journal store, and the idempotent sink.

    The provider is an argument: it has a state of its own, [W], and for each
    intent it returns a receipt or raises.  [describe] is the text [f"{type(exc).__name__}:{exc}"] of an
    exception, [recorded_at] the reading of the clock when the outcome of an
    intent is recorded. *)

From Stdlib Require Import ZArith.
From S2P Require Import Prelude Binary64 Enums Models Records Journal JournalTheorems.
Import IncidentJournalStore.
Open Scope Z_scope.

Module InMemoryIdempotentNotificationSink.

Record t : Type := mk {
  receipts : list (string * string);
  effects : list string
}.

Definition init : t := mk [] [].

Definition send (intent : NotificationIntent.t) : M t string :=
  let key := NotificationIntent.idempotency_key intent in
  let! s := get in
  match dict_get key (receipts s) with
  | Some receipt => ret receipt
  | None =>
      let receipt := "local:" +:+ pretty (Z.of_nat (length (receipts s)) + 1) +:+ ":" +:+ key in
      put (mk (dict_set key receipt (receipts s)) (effects s ++ [key])) ;;;
      ret receipt
  end.

(** Any number of sends, one after the other. *)
Fixpoint send_all (intents : list NotificationIntent.t) : M t (list string) :=
  match intents with
  | [] => ret []
  | intent :: intents =>
      let! receipt := send intent in
      let! receipts := send_all intents in
      ret (receipt :: receipts)
  end.
End InMemoryIdempotentNotificationSink.

Module NotificationDispatcher.
Section Dispatch.
Context (sha256 : payload -> string) (describe : exn -> string) {W : Type}.

Definition sender : Type := NotificationIntent.t -> M W string.

(** The store with the provider's own state. *)
Definition on_store {A} (m : M IncidentJournalStore.t A) : M (IncidentJournalStore.t * W) A :=
  zoom fst (fun s st => (s, snd st)) m.

(** The outcome of one intent: a provider failure becomes evidence. *)
Definition deliver (send : sender) (recorded_at : NotificationIntent.t -> datetime)
    (intent : NotificationIntent.t) : M (IncidentJournalStore.t * W) NotificationIntent.t :=
  fun st =>
    match send intent (snd st) with
    | (Raise exc, w) =>
        on_store (record_delivery sha256 (NotificationIntent.notification_id intent) false None
          (Some (describe exc)) (recorded_at intent)) (fst st, w)
    | (Ok receipt, w) =>
        on_store (record_delivery sha256 (NotificationIntent.notification_id intent) true (Some receipt)
          None (recorded_at intent)) (fst st, w)
    end.

(** [for intent in dispatchable: results.append(...)] *)
Fixpoint deliver_all (send : sender) (recorded_at : NotificationIntent.t -> datetime)
    (intents : list NotificationIntent.t) : M (IncidentJournalStore.t * W) (list NotificationIntent.t) :=
  match intents with
  | [] => ret []
  | intent :: intents =>
      let! result := deliver send recorded_at intent in
      let! results := deliver_all send recorded_at intents in
      ret (result :: results)
  end.

Definition dispatch (send : sender) (now : datetime) (recorded_at : NotificationIntent.t -> datetime)
  : M (IncidentJournalStore.t * W) (list NotificationIntent.t) :=
  let! st := get in
  deliver_all send recorded_at (dispatchable_notifications now (fst st)).

(** Several calls of [dispatch], each with its sender and its clock. *)
Fixpoint dispatch_rounds (rounds : list (sender * datetime)) : M (IncidentJournalStore.t * W) unit :=
  match rounds with
  | [] => ret tt
  | (send, now) :: rounds =>
      let! _ := dispatch send now (fun _ => now) in dispatch_rounds rounds
  end.

(** The intent an attempt leaves behind. *)
Definition outcome (recorded_at : datetime) (n : NotificationIntent.t) (answer : res string)
  : NotificationIntent.t :=
  match answer with
  | Ok receipt => delivery_update n true (Some receipt) None recorded_at
  | Raise exc => delivery_update n false None (Some (describe exc)) recorded_at
  end.

(** What the provider answers to a list of intents, one after the other. *)
Fixpoint answers (send : sender) (l : list NotificationIntent.t) (w : W)
  : list (NotificationIntent.t * res string) * W :=
  match l with
  | [] => ([], w)
  | n :: l => let '(r, w1) := send n w in
              let '(rs, w2) := answers send l w1 in ((n, r) :: rs, w2)
  end.

(** ** Lemmas *)

Definition row_of (id : UUID) (s : IncidentJournalStore.t) : option NotificationIntent.t :=
  select_one (fun n => bool_decide (NotificationIntent.notification_id n = id)) (notification_intents s).

Lemma option_eta {A} (o : option A) : match o with Some x => Some x | None => None end = o.
Proof. by destruct o. Qed.

Lemma find_fmap_update rows id n :
  NotificationIntent.notification_id n = id ->
  forall id', List.find (fun m => bool_decide (NotificationIntent.notification_id m = id'))
    ((fun row => if decide (NotificationIntent.notification_id row = id) then n else row) <$> rows)
  = match List.find (fun m => bool_decide (NotificationIntent.notification_id m = id')) rows with
    | Some m => Some (if decide (id = id') then n else m)
    | None => None
    end.
Proof.
  intros Hid id'. induction rows as [|row rows IH]; [done|].
  cbn [fmap list_fmap List.find]. rewrite IH.
  destruct (decide (NotificationIntent.notification_id row = id)) as [Hr|Hr].
  - rewrite Hid, Hr. by destruct (decide (id = id')) as [->|Hne]; [rewrite !bool_decide_eq_true_2|
      rewrite !bool_decide_eq_false_2].
  - destruct (bool_decide (NotificationIntent.notification_id row = id')) eqn:Hb; [|done].
    apply bool_decide_eq_true in Hb. by rewrite decide_False by congruence.
Qed.

Lemma record_delivery_run id d rc er at_ cur s :
  conformant sha256 s -> row_of id s = Some cur ->
  NotificationIntent.status cur <> NotificationStatus.DELIVERED ->
  exists s', record_delivery sha256 id d rc er at_ s = (Ok (delivery_update cur d rc er at_), s') /\
    conformant sha256 s' /\
    (NotificationIntent.notification_id <$> notification_intents s')
    = (NotificationIntent.notification_id <$> notification_intents s) /\
    forall id', row_of id' s' = if decide (id = id') then Some (delivery_update cur d rc er at_) else row_of id' s.
Proof.
  intros Hc Hrow Hst. unfold record_delivery, transaction, bind at 1, get at 1.
  unfold row_of in Hrow. rewrite Hrow. rewrite decide_False by done.
  unfold bind at 1. rewrite append_authority_run by done.
  assert (Hid : NotificationIntent.notification_id cur = id).
  { apply List.find_some in Hrow as [_ H]. by apply bool_decide_eq_true in H. }
  eexists. split; [reflexivity|]. split; [|split].
  - destruct (journaled_conformant sha256 AuthorityMutationKind.NOTIFICATION_DELIVERY
      (NotificationIntent.notification_id (delivery_update cur d rc er at_)) at_
      (PNotification (delivery_update cur d rc er at_)) s Hc). by split.
  - cbn. rewrite <- list_fmap_compose. apply list_fmap_ext. intros i row _. cbn. case_decide; [done|done].
  - intros id'. unfold row_of, select_one in *. cbn [notification_intents set_notification_intents].
    change (NotificationIntent.notification_id (delivery_update cur d rc er at_))
      with (NotificationIntent.notification_id cur). rewrite Hid.
    change (notification_intents (journaled sha256 _ s)) with (notification_intents s).
    rewrite find_fmap_update by done. destruct (decide (id = id')) as [<-|]; [by rewrite Hrow|].
    apply option_eta.
Qed.

Lemma deliver_run send recorded_at n s w :
  conformant sha256 s -> row_of (NotificationIntent.notification_id n) s = Some n ->
  NotificationIntent.status n <> NotificationStatus.DELIVERED ->
  exists s', deliver send recorded_at n (s, w)
      = (Ok (outcome (recorded_at n) n (send n w).1), (s', (send n w).2)) /\
    conformant sha256 s' /\
    (NotificationIntent.notification_id <$> notification_intents s')
    = (NotificationIntent.notification_id <$> notification_intents s) /\
    forall id', row_of id' s' = if decide (NotificationIntent.notification_id n = id')
                               then Some (outcome (recorded_at n) n (send n w).1) else row_of id' s.
Proof.
  intros Hc Hr Hs. unfold deliver, outcome, on_store, zoom. cbn.
  destruct (send n w) as [[receipt|exc] w']; cbn;
    edestruct record_delivery_run as (s' & -> & Hc' & Hids & Hrows); eauto.
Qed.

Lemma deliver_all_run send recorded_at l s w :
  conformant sha256 s -> NoDup (NotificationIntent.notification_id <$> l) ->
  (forall n, n ∈ l -> row_of (NotificationIntent.notification_id n) s = Some n /\
     NotificationIntent.status n <> NotificationStatus.DELIVERED) ->
  let '(rs, w') := answers send l w in
  exists s', deliver_all send recorded_at l (s, w)
      = (Ok ((fun p => outcome (recorded_at p.1) p.1 p.2) <$> rs), (s', w')) /\
    conformant sha256 s' /\
    (NotificationIntent.notification_id <$> notification_intents s')
    = (NotificationIntent.notification_id <$> notification_intents s) /\
    (forall n, n ∈ l -> exists r, (n, r) ∈ rs /\
       row_of (NotificationIntent.notification_id n) s' = Some (outcome (recorded_at n) n r)) /\
    (forall id, id ∉ NotificationIntent.notification_id <$> l -> row_of id s' = row_of id s).
Proof.
  revert s w. induction l as [|n l IH]; intros s w Hc Hnd Hl.
  { exists s. split_and!; try done. by intros n ?%not_elem_of_nil. }
  apply NoDup_cons in Hnd as [Hn Hnd].
  destruct (Hl n) as [Hrow Hst]; [left|].
  destruct (deliver_run send recorded_at n s w Hc Hrow Hst) as (s1 & H1 & Hc1 & Hids1 & Hrows1).
  cbn [answers deliver_all]. unfold bind. rewrite H1. destruct (send n w) as [r w1]. cbn [fst snd] in *.
  specialize (IH s1 w1 Hc1 Hnd). destruct (answers send l w1) as [rs w2].
  destruct IH as (s2 & H2 & Hc2 & Hids2 & Hin & Hout).
  { intros m Hm. rewrite Hrows1, decide_False; [apply Hl; by right|].
    intros Heq. apply Hn. rewrite Heq. by apply list_elem_of_fmap_2. }
  exists s2. rewrite H2. split_and!; [done|done|congruence| |].
  - intros m [->|Hm]%elem_of_cons.
    + exists r. split; [left|]. by rewrite Hout, Hrows1, decide_True.
    + destruct (Hin m Hm) as (r' & ? & ?). exists r'. split; [by right|done].
  - intros id Hid. cbn in Hid. rewrite not_elem_of_cons in Hid. destruct Hid as [Hne Hid].
    rewrite Hout, Hrows1, decide_False; [done|congruence|done].
Qed.
End Dispatch.
End NotificationDispatcher.

Import NotificationDispatcher.

Section Delivery.
Context (sha256 : payload -> string) (describe : exn -> string) {W : Type}.
Notation sender := (@sender W).

Record ready (s : IncidentJournalStore.t) : Prop := {
  ready_conformant : conformant sha256 s;
  ready_outbox : outbox_ok s
}.

Lemma reachable_ready s : reachable sha256 s -> ready s.
Proof.
  intros H. split; [by apply reachable_conformant|].
  apply steps_grow in H. apply (gr_outbox _ _ _ H). constructor.
Qed.

Lemma find_row rows n :
  NoDup (NotificationIntent.notification_id <$> rows) -> n ∈ rows ->
  List.find (fun m => bool_decide (NotificationIntent.notification_id m
    = NotificationIntent.notification_id n)) rows = Some n.
Proof.
  induction rows as [|m rows IH]; [set_solver|]. intros [Hm Hnd]%NoDup_cons Hn. cbn.
  case_bool_decide as Heq.
  - apply elem_of_cons in Hn as [->|Hn]; [done|]. destruct Hm. rewrite Heq. by apply list_elem_of_fmap_2.
  - apply elem_of_cons in Hn as [->|Hn]; [done|auto].
Qed.

Lemma row_of_elem s n :
  outbox_ok s -> n ∈ notification_intents s -> row_of (NotificationIntent.notification_id n) s = Some n.
Proof. intros Hnd Hn. by apply find_row. Qed.

Lemma elem_of_dispatchable now s n :
  n ∈ dispatchable_notifications now s <-> n ∈ notification_intents s /\ dispatchable now n = true.
Proof.
  unfold dispatchable_notifications, select, notifications, order_by.
  rewrite list_elem_of_In, List.filter_In, <- list_elem_of_In. by rewrite sort_by_perm.
Qed.

Lemma NoDup_filter_ids p rows :
  NoDup (NotificationIntent.notification_id <$> rows) ->
  NoDup (NotificationIntent.notification_id <$> List.filter p rows).
Proof.
  induction rows as [|m rows IH]; [done|]. intros [Hm Hnd]%NoDup_cons. cbn.
  destruct (p m); [|auto]. apply NoDup_cons. split; [|auto]. intros Hin. apply Hm.
  apply list_elem_of_fmap in Hin as (x & -> & [Hx _]%list_elem_of_In%List.filter_In). apply list_elem_of_fmap_2.
  by apply list_elem_of_In.
Qed.

Lemma NoDup_dispatchable now s :
  outbox_ok s -> NoDup (NotificationIntent.notification_id <$> dispatchable_notifications now s).
Proof.
  intros H. apply NoDup_filter_ids. unfold notifications, order_by. by rewrite sort_by_perm.
Qed.

Lemma answers_intents (send : sender) l w : (answers send l w).1.*1 = l.
Proof.
  revert w. induction l as [|n l IH]; intros w; [done|]. cbn. destruct (send n w) as [r w1].
  specialize (IH w1). destruct (answers send l w1). cbn in *. by rewrite IH.
Qed.

(** What one call of [dispatch] does to a row of the outbox. *)
Definition attempted (now : datetime) (recorded_at : NotificationIntent.t -> datetime)
    (rs : list (NotificationIntent.t * res string)) (n n' : NotificationIntent.t) : Prop :=
  if dispatchable now n then exists r, (n, r) ∈ rs /\ n' = outcome describe (recorded_at n) n r
  else n' = n.

Lemma outbox_dispatch_run (send : sender) now recorded_at s w :
  ready s ->
  let '(rs, w') := answers send (dispatchable_notifications now s) w in
  exists s', dispatch sha256 describe send now recorded_at (s, w)
      = (Ok ((fun p => outcome describe (recorded_at p.1) p.1 p.2) <$> rs), (s', w')) /\
    ready s' /\
    Forall2 (attempted now recorded_at rs) (notification_intents s) (notification_intents s').
Proof.
  intros [Hc Hnd]. pose proof (deliver_all_run sha256 describe send recorded_at
    (dispatchable_notifications now s) s w Hc (NoDup_dispatchable now s Hnd)) as H.
  destruct (answers send _ w) as [rs w']. destruct H as (s' & Hrun & Hc' & Hids & Hin & Hout).
  { intros n [Hn Hd]%elem_of_dispatchable. split; [by apply row_of_elem|]. intros Hs.
    unfold dispatchable in Hd. by rewrite Hs in Hd. }
  assert (Hnd' : outbox_ok s') by (unfold outbox_ok; by rewrite Hids).
  exists s'. split; [exact Hrun|]. split; [by split|].
  apply Forall2_same_length_lookup_2.
  { rewrite <- !(length_fmap NotificationIntent.notification_id). by rewrite Hids. }
  intros i n n' Hn Hn'.
  assert (Hid : NotificationIntent.notification_id n = NotificationIntent.notification_id n').
  { apply (f_equal (lookup i)) in Hids. rewrite !list_lookup_fmap, Hn, Hn' in Hids. by injection Hids. }
  apply list_elem_of_lookup_2 in Hn, Hn'. apply (row_of_elem _ _ Hnd') in Hn' as Hrow. unfold attempted.
  destruct (dispatchable now n) eqn:Hd.
  - destruct (Hin n) as (r & Hr & Hrow'); [by apply elem_of_dispatchable|]. exists r. split; [done|].
    rewrite Hid in Hrow'. congruence.
  - rewrite <- Hid, Hout, row_of_elem in Hrow; try done; [congruence|].
    intros (m & Hm & [Hmr Hmd]%elem_of_dispatchable)%list_elem_of_fmap.
    assert (n = m) as -> by exact (NoDup_fmap_elem _ _ _ _ Hnd Hn Hmr Hm). congruence.
Qed.

(** One call of [dispatch] never raises, whatever the provider answers or
    raises.  It sends the due intents and only those, in the order of their
    creation, each exactly once; the outcome of every one is recorded
    (DELIVERED with the receipt, or FAILED, or DEAD_LETTER once the attempts
    are exhausted) and every other intent stays as it was. *)
Theorem dispatch_attempts_each_once (send : sender) now recorded_at s w :
  reachable sha256 s ->
  let '(rs, w') := answers send (dispatchable_notifications now s) w in
  rs.*1 = dispatchable_notifications now s /\
  exists s', dispatch sha256 describe send now recorded_at (s, w)
      = (Ok ((fun p => outcome describe (recorded_at p.1) p.1 p.2) <$> rs), (s', w')) /\
    Forall2 (attempted now recorded_at rs) (notification_intents s) (notification_intents s').
Proof.
  intros Hs%reachable_ready. pose proof (outbox_dispatch_run send now recorded_at s w Hs) as H.
  pose proof (answers_intents send (dispatchable_notifications now s) w) as Hi.
  destruct (answers _ _ _) as [rs w']. split; [done|]. destruct H as (s' & ? & _ & ?). eauto.
Qed.

(** ** Draining the outbox *)

Definition waiting (n : NotificationIntent.t) : bool :=
  bool_decide (NotificationIntent.status n = NotificationStatus.PENDING)
  || bool_decide (NotificationIntent.status n = NotificationStatus.FAILED).

(** The rounds in which an intent is due: the clock has reached its creation. *)
Definition due (rounds : list (sender * datetime)) (n : NotificationIntent.t) : Z :=
  Z.of_nat (length (List.filter (fun r => NotificationIntent.created_at n <=? r.2) rounds)).

(** What becomes of an intent: one that has attempts left is delivered within
    them, or is a dead letter with all of them used, or has been tried in every
    round it was due in and has attempts left; any other does not move. *)
Definition settles (rounds : list (sender * datetime)) (n n' : NotificationIntent.t) : Prop :=
  if waiting n && (NotificationIntent.attempt_count n <? NotificationIntent.max_attempts n) then
    NotificationIntent.status n' = NotificationStatus.DELIVERED /\
      NotificationIntent.attempt_count n < NotificationIntent.attempt_count n'
        <= Z.min (NotificationIntent.max_attempts n) (NotificationIntent.attempt_count n + due rounds n) \/
    NotificationIntent.status n' = NotificationStatus.DEAD_LETTER /\
      NotificationIntent.attempt_count n' = NotificationIntent.max_attempts n /\
      NotificationIntent.max_attempts n <= NotificationIntent.attempt_count n + due rounds n \/
    waiting n' = true /\ NotificationIntent.attempt_count n' = NotificationIntent.attempt_count n + due rounds n /\
      NotificationIntent.attempt_count n + due rounds n < NotificationIntent.max_attempts n
  else n' = n.

Lemma due_nonneg rounds n : 0 <= due rounds n.
Proof. unfold due. lia. Qed.

Lemma due_cons send now rounds n :
  due ((send, now) :: rounds) n = due rounds n + if NotificationIntent.created_at n <=? now then 1 else 0.
Proof. unfold due. cbn. destruct (_ <=? now); cbn; lia. Qed.

Lemma round_settles send now rounds rs n n1 n' :
  attempted now (fun _ => now) rs n n1 -> settles rounds n1 n' -> settles ((send, now) :: rounds) n n'.
Proof.
  intros Ha. unfold attempted, dispatchable in Ha. fold (waiting n) in Ha. unfold settles.
  rewrite due_cons. pose proof (due_nonneg rounds n).
  destruct (waiting n) eqn:Hw; cbn [andb] in *; [|subst n1; by rewrite Hw].
  destruct (Z.ltb_spec (NotificationIntent.attempt_count n) (NotificationIntent.max_attempts n)); cbn [andb] in *;
    [|subst n1; rewrite Hw; cbn [andb]; by destruct (Z.ltb_spec (NotificationIntent.attempt_count n) (NotificationIntent.max_attempts n)); [lia|]].
  destruct (Z.leb_spec (NotificationIntent.created_at n) now); cbn [andb] in *.
  2:{ subst n1. rewrite Hw. cbn [andb]. rewrite Z.add_0_r.
      by destruct (Z.ltb_spec (NotificationIntent.attempt_count n) (NotificationIntent.max_attempts n)); [|lia]. }
  destruct Ha as (r & _ & ->). unfold outcome, delivery_update, waiting.
  destruct r as [receipt|exc]; cbn.
  - intros ->. cbn. left. split; [done|lia].
  - destruct (Z.leb_spec (NotificationIntent.max_attempts n) (NotificationIntent.attempt_count n + 1)); cbn.
    + intros ->. cbn. right. left. split_and!; [done|lia..].
    + destruct (Z.ltb_spec (NotificationIntent.attempt_count n + 1) (NotificationIntent.max_attempts n)); [|lia].
      change (due rounds _) with (due rounds n) at 1 2 3 4.
      intros [[? ?]|[(? & ? & ?)|(? & ? & ?)]]; [left|right; left|right; right]; split_and!; try done; lia.
Qed.

(** C39: delivery ends.  Whatever the providers do, no round of [dispatch]
    raises, and an intent that has attempts left is tried in every round whose
    clock has reached its creation until it is DELIVERED within its attempts or
    DEAD_LETTER with all of them used, which as many such rounds as it has
    attempts left bring about; the other intents do not move. *)
Theorem outbox_drains (rounds : list (sender * datetime)) s w :
  reachable sha256 s ->
  exists s' w', dispatch_rounds sha256 describe rounds (s, w) = (Ok tt, (s', w')) /\
    Forall2 (settles rounds) (notification_intents s) (notification_intents s').
Proof.
  intros Hs%reachable_ready. revert s w Hs. induction rounds as [|[send now] rounds IH]; intros s w Hs.
  { exists s, w. split; [done|]. apply Forall2_same_length_lookup_2; [done|].
    intros i n n' Hn Hn'. assert (n' = n) as -> by congruence. unfold settles, due.
    destruct (waiting n) eqn:Hw; [|done]. cbn.
    destruct (Z.ltb_spec (NotificationIntent.attempt_count n) (NotificationIntent.max_attempts n)); [|done].
    right. right. split_and!; [done|lia..]. }
  cbn [dispatch_rounds]. unfold bind.
  pose proof (outbox_dispatch_run send now (fun _ => now) s w Hs) as H.
  destruct (answers _ _ _) as [rs w1]. destruct H as (s1 & -> & Hs1 & Hrows).
  destruct (IH s1 w1 Hs1) as (s2 & w2 & Hrun & Hrows2).
  exists s2, w2. split; [done|]. eapply Forall2_same_length_lookup_2.
  { by rewrite (Forall2_length _ _ _ Hrows), (Forall2_length _ _ _ Hrows2). }
  intros i n n' Hn Hn'. destruct (Forall2_lookup_l _ _ _ _ _ Hrows Hn) as (n1 & Hn1 & Ha).
  eapply round_settles; [exact Ha|]. by eapply Forall2_lookup_lr.
Qed.
End Delivery.

(** ** The idempotent sink *)
Section Sink.
Import InMemoryIdempotentNotificationSink.

(** The keys sent, each at its first send. *)
Definition first_sends (intents : list NotificationIntent.t) : list string :=
  fold_left (fun keys n => append_new (NotificationIntent.idempotency_key n) keys) intents [].

Definition sink_ok (s : t) : Prop := effects s = (receipts s).*1 /\ NoDup (effects s).

Lemma dict_set_new (key receipt : string) d :
  dict_get key d = None -> dict_set key receipt d = d ++ [(key, receipt)].
Proof.
  induction d as [|[k v] d IH]; cbn; [done|]. destruct (decide (k = key)); [done|].
  intros H. by rewrite IH.
Qed.

Lemma send_run n s :
  sink_ok s ->
  exists receipt s', send n s = (Ok receipt, s') /\ sink_ok s' /\
    effects s' = append_new (NotificationIntent.idempotency_key n) (effects s) /\
    dict_get (NotificationIntent.idempotency_key n) (receipts s') = Some receipt /\
    forall key r, dict_get key (receipts s) = Some r -> dict_get key (receipts s') = Some r.
Proof.
  intros [He Hnd]. set (key := NotificationIntent.idempotency_key n).
  unfold send, bind, get, put, ret, append_new. fold key.
  destruct (dict_get key (receipts s)) as [receipt|] eqn:Hk.
  - exists receipt, s. rewrite decide_True; [by split_and!|]. rewrite He.
    apply list_elem_of_fmap. exists (key, receipt). split; [done|by apply dict_get_elem].
  - pose proof Hk as Hfresh. apply dict_get_None in Hfresh. rewrite <- He in Hfresh.
    eexists _, _. split; [reflexivity|]. rewrite decide_False by done. unfold sink_ok; cbn.
    split_and!; [| |done| |].
    + rewrite dict_set_new by done. by rewrite fmap_app, He.
    + apply NoDup_app. split_and!; [done| |apply NoDup_singleton].
      by intros k Hin ->%list_elem_of_singleton.
    + by rewrite dict_get_set, decide_True.
    + intros k r Hr. rewrite dict_get_set, decide_False; congruence.
Qed.

Lemma send_all_run intents s :
  sink_ok s ->
  exists rs s', send_all intents s = (Ok rs, s') /\ sink_ok s' /\
    effects s' = fold_left (fun keys n => append_new (NotificationIntent.idempotency_key n) keys)
                   intents (effects s) /\
    Forall2 (fun n r => dict_get (NotificationIntent.idempotency_key n) (receipts s') = Some r) intents rs /\
    forall key r, dict_get key (receipts s) = Some r -> dict_get key (receipts s') = Some r.
Proof.
  revert s. induction intents as [|n intents IH]; intros s Hok; [by exists [], s; split_and!|].
  destruct (send_run n s Hok) as (r & s1 & H1 & Hok1 & He1 & Hr1 & Hk1).
  destruct (IH s1 Hok1) as (rs & s2 & H2 & Hok2 & He2 & Hr2 & Hk2).
  exists (r :: rs), s2. split_and!; auto.
  - cbn. unfold bind. by rewrite H1, H2.
  - by rewrite He2, He1.
Qed.

(** The sink turns at-least-once delivery into effects applied exactly
    once.  However often the intents are sent and resent, no send fails, the
    effects are the distinct idempotency keys in the order of their first
    send, and every send of a key returns the receipt of its first. *)
Theorem sink_applies_each_key_once intents :
  exists rs s', send_all intents init = (Ok rs, s') /\
    effects s' = first_sends intents /\ NoDup (effects s') /\
    Forall2 (fun n r => dict_get (NotificationIntent.idempotency_key n) (receipts s') = Some r) intents rs.
Proof.
  destruct (send_all_run intents init) as (rs & s' & ? & [? ?] & ? & ? & _); [split; [done|constructor]|].
  by exists rs, s'.
Qed.
End Sink.

(** ** A concrete outbox *)
Definition demo_describe (e : exn) : string := "ProviderError".

(** A provider that fails on the first intent. *)
Definition demo_provider : @NotificationDispatcher.sender unit := fun n w =>
  if decide (NotificationIntent.notification_id n = "n1") then (Raise (OtherError "Timeout"), w)
  else (Ok "receipt", w).

Lemma dispatch_attempts_each_once_witness :
  exists s', NotificationDispatcher.dispatch demo_sha256 demo_describe demo_provider 100 (fun _ => 100)
      (demo_store, tt)
    = (Ok [outcome demo_describe 100 (demo_intent "n1" 1 2) (Raise (OtherError "Timeout"));
           outcome demo_describe 100 (demo_intent "n2" 2 2) (Ok "receipt")], (s', tt)).
Proof.
  pose proof (dispatch_attempts_each_once demo_sha256 demo_describe demo_provider 100 (fun _ => 100)
    demo_store tt demo_store_reachable) as H.
  assert (E : answers demo_provider (dispatchable_notifications 100 demo_store) tt
    = ([(demo_intent "n1" 1 2, Raise (OtherError "Timeout")); (demo_intent "n2" 2 2, Ok "receipt")], tt))
    by (vm_compute; reflexivity).
  rewrite E in H. destruct H as (_ & s' & H & _). exists s'. exact H.
Defined.

Lemma outbox_drains_witness :
  exists s' w', dispatch_rounds demo_sha256 demo_describe [(demo_provider, 100); (demo_provider, 200)]
      (demo_store, tt) = (Ok tt, (s', w')) /\
    Forall (fun n => waiting n = true /\ due [(demo_provider, 100); (demo_provider, 200)] n = 2)
      (notification_intents demo_store) /\
    Forall2 (settles [(demo_provider, 100); (demo_provider, 200)])
      (notification_intents demo_store) (notification_intents s').
Proof.
  destruct (outbox_drains demo_sha256 demo_describe [(demo_provider, 100); (demo_provider, 200)] demo_store tt)
    as (s' & w' & Hrun & Hs); [exact demo_store_reachable|].
  exists s', w'. split; [exact Hrun|]. split; [|exact Hs].
  assert (E : notification_intents demo_store = [demo_intent "n1" 1 2; demo_intent "n2" 2 2])
    by (vm_compute; reflexivity).
  rewrite E. repeat constructor.
Defined.
