(* ===== verification/Engine.v ===== *)
(** The incident event engine (incidents/engine.py, authority.py): the sole
    writer of incident records, reviews and notification intents.

    The engine owns the journal store and the dict [_current] from hazards to
    their latest record.  [uuid5] is [uuid5(NAMESPACE_URL, name)];
    [dump_incident] and [dump_review_state] are pydantic's
    [model_dump(mode="json")]; clock readings are arguments. *)

From Stdlib Require Import ZArith.
From S2P Require Import Prelude Binary64 Enums Models Records CanonicalJson Auth Journal.
Open Scope Z_scope.

(** [_ALLOWED] *)
Definition ALLOWED (s : IncidentState.t) : list IncidentState.t :=
  match s with
  | IncidentState.NORMAL =>
      [IncidentState.NORMAL; IncidentState.WATCH; IncidentState.SUSPECTED; IncidentState.CONFIRMED;
       IncidentState.DEGRADED]
  | IncidentState.WATCH =>
      [IncidentState.NORMAL; IncidentState.WATCH; IncidentState.SUSPECTED; IncidentState.CONFIRMED;
       IncidentState.DEGRADED]
  | IncidentState.SUSPECTED =>
      [IncidentState.WATCH; IncidentState.SUSPECTED; IncidentState.CONFIRMED; IncidentState.RESOLVING;
       IncidentState.DEGRADED]
  | IncidentState.CONFIRMED => [IncidentState.CONFIRMED; IncidentState.RESOLVING; IncidentState.DEGRADED]
  | IncidentState.RESOLVING =>
      [IncidentState.CONFIRMED; IncidentState.RESOLVING; IncidentState.RESOLVED; IncidentState.DEGRADED]
  | IncidentState.RESOLVED =>
      [IncidentState.RESOLVED; IncidentState.WATCH; IncidentState.SUSPECTED; IncidentState.CONFIRMED;
       IncidentState.DEGRADED]
  | IncidentState.DEGRADED =>
      [IncidentState.DEGRADED; IncidentState.WATCH; IncidentState.SUSPECTED; IncidentState.CONFIRMED]
  end.

(** [_NOTIFY_STATES] *)
Definition NOTIFY_STATES : list IncidentState.t :=
  [IncidentState.WATCH; IncidentState.SUSPECTED; IncidentState.CONFIRMED; IncidentState.DEGRADED].

Module AuthorityWatermark.
Record t : Type := mk {
  epoch_id : string;
  highest_contiguous_position : Z;
  accepted_event_count : Z;
  valid : bool;
  failures : list string
}.
Definition validate (w : t) : res t :=
  check ((highest_contiguous_position w <? 0) || (accepted_event_count w <? 0))
    (ValidationError "authority watermark positions must be >= 0") >>!
  check (blank (epoch_id w)) (ValidationError "authority watermark epoch_id must not be blank") >>!
  check (valid w && negb (bool_decide (failures w = [])))
    (ValidationError "valid authority watermark cannot carry failures") >>!
  check (negb (valid w) && negb (highest_contiguous_position w =? 0))
    (ValidationError "invalid authority watermark must fail closed at position zero") >>!
  Ok w.
(** The conformance report of the store names its epoch. *)
Definition from_conformance (c : IncidentJournalStore.conformance) : res t :=
  validate
    {| epoch_id := IncidentJournalStore.epoch;
       highest_contiguous_position := IncidentJournalStore.highest_contiguous_position c;
       accepted_event_count := IncidentJournalStore.event_count c;
       valid := IncidentJournalStore.valid c;
       failures := IncidentJournalStore.failures c |}.
End AuthorityWatermark.

Module IncidentEventEngine.

Record t : Type := mk {
  store : IncidentJournalStore.t;
  current_ : list (HazardKind.t * IncidentRecord.t);
  notification_budget : Z;
  command_authorizer : CommandAuthorizer.t
}.

Definition set_store st (e : t) : t := mk st (current_ e) (notification_budget e) (command_authorizer e).
Definition set_current c (e : t) : t := mk (store e) c (notification_budget e) (command_authorizer e).

Definition on_store {A} (m : M IncidentJournalStore.t A) : M t A := zoom store set_store m.

(** [__init__] on an existing store. *)
Definition init (st : IncidentJournalStore.t) (notification_budget : Z) (authorizer : CommandAuthorizer.t) : t :=
  mk st (fold_left (fun d item => dict_set (IncidentRecord.hazard item) item d)
           (IncidentJournalStore.latest_by_hazard st) [])
    notification_budget authorizer.

Section Engine.
Context (float_repr : f64 -> string) (isoformat : datetime -> string) (uuid5 : string -> UUID).
Context (sha256 : string -> string) (hmac : string -> string -> string).
Context (dump_incident : IncidentRecord.t -> json) (dump_review_state : IncidentReviewState.t -> json).
(** The digest the store computes of the objects it journals. *)
Context (store_sha256 : payload -> string).

Definition digest (j : json) : string := sha256 (canonical_json_bytes float_repr j).

(** ** Analyses *)
Definition event_time (analysis : AnalysisResult.t) : datetime :=
  match AnalysisResult.event_time analysis with Some t => t | None => AnalysisResult.produced_at analysis end.

Definition state_rank (s : IncidentState.t) : Z :=
  match s with
  | IncidentState.NORMAL => 0
  | IncidentState.WATCH => 1
  | IncidentState.SUSPECTED => 2
  | IncidentState.CONFIRMED => 3
  | IncidentState.DEGRADED => 1
  | IncidentState.RESOLVING => 1
  | IncidentState.RESOLVED => 0
  end.

(** The event is older than the watermark of the current record. *)
Definition late (current : IncidentRecord.t) (analysis : AnalysisResult.t) : bool :=
  match IncidentRecord.event_time_watermark current with
  | Some w => event_time analysis <? w
  | None => false
  end.

(** A late analysis that adds nothing to the record. *)
Definition superseded (current : IncidentRecord.t) (analysis : AnalysisResult.t) : bool :=
  fle (AnalysisResult.score analysis) (IncidentRecord.confidence current)
  && (state_rank (AnalysisResult.state_hint analysis) <=? state_rank (IncidentRecord.state current)).

Definition late_correction (current : IncidentRecord.t) (analysis : AnalysisResult.t) (accepted_at : datetime)
  : IncidentRecord.t :=
  IncidentRecord.set_correlation_ids
    (IncidentRecord.correlation_ids current ++ [AnalysisResult.correlation_id analysis])
  (IncidentRecord.set_analysis_ids (IncidentRecord.analysis_ids current ++ [AnalysisResult.analysis_id analysis])
  (IncidentRecord.set_reason_codes
    (sorted_set (IncidentRecord.reason_codes current ++ AnalysisResult.reason_codes analysis
                 ++ ["late_context_correction"]))
  (IncidentRecord.set_version (IncidentRecord.version current + 1)
  (IncidentRecord.set_last_observed_at accepted_at current)))).

(** The state an analysis asks for, and the reasons added on the way. *)
Definition target_of (current : option IncidentRecord.t) (analysis : AnalysisResult.t)
  : IncidentState.t * list string :=
  let '(target, reasons) :=
    if AnalysisResult.abstained analysis
       || bool_decide (AnalysisResult.coverage analysis = CoverageState.BLIND)
    then (IncidentState.DEGRADED, AnalysisResult.reason_codes analysis ++ ["coverage_prevents_strong_state"])
    else (AnalysisResult.state_hint analysis, AnalysisResult.reason_codes analysis) in
  match current with
  | Some c =>
      if bool_decide (target = IncidentState.NORMAL)
         && (bool_decide (IncidentRecord.state c = IncidentState.SUSPECTED)
             || bool_decide (IncidentRecord.state c = IncidentState.CONFIRMED))
      then (IncidentState.RESOLVING, reasons ++ ["negative_evidence_requires_resolution_window"])
      else (target, reasons)
  | None => (target, reasons)
  end.

Definition label_of (analysis : AnalysisResult.t) (target : IncidentState.t) : IncidentLabel.t :=
  if AnalysisResult.abstained analysis then IncidentLabel.UNCERTAIN
  else if bool_decide (target = IncidentState.CONFIRMED) then IncidentLabel.CONFIRM
  else IncidentLabel.REJECT.

Definition previous_state (current : option IncidentRecord.t) : IncidentState.t :=
  match current with Some c => IncidentRecord.state c | None => IncidentState.NORMAL end.

(** A field of the current record, or a default. *)
Definition of_current {A} (current : option IncidentRecord.t) (field : IncidentRecord.t -> A) (d : A) : A :=
  match current with Some c => field c | None => d end.

Definition new_record (current : option IncidentRecord.t) (analysis : AnalysisResult.t)
    (target : IncidentState.t) (reasons : list string) (accepted_at : datetime) : IncidentRecord.t :=
  let time := event_time analysis in
  {| IncidentRecord.incident_id :=
       match current, AnalysisResult.incident_id_hint analysis with
       | Some c, _ => IncidentRecord.incident_id c
       | None, Some hint => hint
       | None, None => uuid5 ("sentinel-incident:" +:+ HazardKind.value (AnalysisResult.hazard analysis)
                              +:+ ":" +:+ AnalysisResult.correlation_id analysis)
       end;
     IncidentRecord.hazard := AnalysisResult.hazard analysis;
     IncidentRecord.state := target;
     IncidentRecord.confidence := AnalysisResult.score analysis;
     IncidentRecord.coverage := AnalysisResult.coverage analysis;
     IncidentRecord.source_mode := AnalysisResult.source_mode analysis;
     IncidentRecord.first_observed_at := of_current current IncidentRecord.first_observed_at time;
     IncidentRecord.last_observed_at := accepted_at;
     IncidentRecord.event_time_watermark :=
       Some (match current with
             | Some c => match IncidentRecord.event_time_watermark c with
                         | Some w => Z.max time w
                         | None => time
                         end
             | None => time
             end);
     IncidentRecord.version := of_current current (fun c => IncidentRecord.version c + 1) 1;
     IncidentRecord.reason_codes := sorted_set (of_current current IncidentRecord.reason_codes [] ++ reasons);
     IncidentRecord.analysis_ids :=
       of_current current IncidentRecord.analysis_ids [] ++ [AnalysisResult.analysis_id analysis];
     IncidentRecord.correlation_ids :=
       of_current current IncidentRecord.correlation_ids [] ++ [AnalysisResult.correlation_id analysis];
     IncidentRecord.last_boot_id := AnalysisResult.boot_id analysis;
     IncidentRecord.source_lineage := AnalysisResult.source_lineage analysis;
     IncidentRecord.model_profile_id := AnalysisResult.model_profile_id analysis;
     IncidentRecord.config_hashes := AnalysisResult.config_hashes analysis;
     IncidentRecord.labels := of_current current IncidentRecord.labels [] ++ [label_of analysis target] |}.

Definition idempotency_key_of (record : IncidentRecord.t) : string :=
  "incident:" +:+ IncidentRecord.incident_id record +:+ ":version:" +:+ pretty (IncidentRecord.version record)
  +:+ ":state:" +:+ IncidentState.value (IncidentRecord.state record).

(** The snooze of an incident is still running. *)
Definition snoozed (review : IncidentReviewState.t) (accepted_at : datetime) : bool :=
  match IncidentReviewState.snoozed_until review with Some t => accepted_at <? t | None => false end.

Definition notification_for (record : IncidentRecord.t) (previous : IncidentState.t) (accepted_at : datetime)
    (e : t) : option NotificationIntent.t :=
  if negb (bool_decide (IncidentRecord.state record ∈ NOTIFY_STATES))
     || bool_decide (IncidentRecord.state record = previous)
  then None
  else
    let confirmed := bool_decide (IncidentRecord.state record = IncidentState.CONFIRMED) in
    let review := IncidentJournalStore.review_state (IncidentRecord.incident_id record) (store e) in
    let '(status, reasons) :=
      if snoozed review accepted_at then
        if confirmed then (NotificationStatus.PENDING, ["incident_state_changed"; "snooze_overridden_by_confirmation"])
        else (NotificationStatus.SUPPRESSED, ["incident_state_changed"; "incident_snoozed"])
      else (NotificationStatus.PENDING, ["incident_state_changed"]) in
    let count := IncidentJournalStore.notification_count (IncidentRecord.incident_id record) (store e) in
    let '(status, reasons) :=
      if (notification_budget e <=? count) && negb confirmed
      then (NotificationStatus.SUPPRESSED, reasons ++ ["notification_budget_exhausted"])
      else (status, reasons) in
    let key := idempotency_key_of record in
    Some {| NotificationIntent.notification_id := uuid5 ("sentinel-notification:" +:+ key);
            NotificationIntent.incident_id := IncidentRecord.incident_id record;
            NotificationIntent.hazard := IncidentRecord.hazard record;
            NotificationIntent.incident_version := IncidentRecord.version record;
            NotificationIntent.incident_state := IncidentRecord.state record;
            NotificationIntent.idempotency_key := key;
            NotificationIntent.status := status;
            NotificationIntent.created_at := accepted_at;
            NotificationIntent.updated_at := accepted_at;
            NotificationIntent.attempt_count := 0;
            NotificationIntent.max_attempts := 3;
            NotificationIntent.last_error := None;
            NotificationIntent.receipt_id := None;
            NotificationIntent.reason_codes := reasons |}.

(** [self._store.append_incident_with_notification(...)] and
    [self._current[record.hazard] = record] *)
Definition commit (hazard : HazardKind.t) (record : IncidentRecord.t)
    (notification : option NotificationIntent.t) : M t unit :=
  let! _ := on_store (IncidentJournalStore.append_incident_with_notification store_sha256 record notification) in
  modify (fun e => set_current (dict_set hazard record (current_ e)) e).

(** An analysis at or after the watermark. *)
Definition accept_analysis (current : option IncidentRecord.t) (analysis : AnalysisResult.t)
    (accepted_at : datetime) : M t IncidentRecord.t :=
  let! e := get in
  let '(target, reasons) := target_of current analysis in
  let previous := previous_state current in
  raise_if (negb (bool_decide (target ∈ ALLOWED previous)))
    (ValueError ("illegal incident transition " +:+ IncidentState.value previous +:+ "->"
                 +:+ IncidentState.value target)) ;;;
  let! record := lift (IncidentRecord.validate (new_record current analysis target reasons accepted_at)) in
  commit (AnalysisResult.hazard analysis) record (notification_for record previous accepted_at e) ;;;
  ret record.

Definition apply_analysis (analysis : AnalysisResult.t) (accepted_at : datetime) : M t IncidentRecord.t :=
  let! e := get in
  let hazard := AnalysisResult.hazard analysis in
  match dict_get hazard (current_ e) with
  | Some current =>
      if decide (AnalysisResult.analysis_id analysis ∈ IncidentRecord.analysis_ids current) then ret current
      else if late current analysis then
        if superseded current analysis then ret current
        else
          let correction := late_correction current analysis accepted_at in
          commit hazard correction None ;;;
          ret correction
      else accept_analysis (Some current) analysis accepted_at
  | None => accept_analysis None analysis accepted_at
  end.

(** ** Operator commands *)

(** The first element with the largest key ([max(..., key=...)]). *)
Fixpoint max_by {A} (key : A -> Z) (l : list A) : option A :=
  match l with
  | [] => None
  | x :: l =>
      match max_by key l with
      | Some y => Some (if key x <? key y then y else x)
      | None => Some x
      end
  end.

Definition incident_by_id (incident_id : UUID) (e : t) : option IncidentRecord.t :=
  let matches r := bool_decide (IncidentRecord.incident_id r = incident_id) in
  match List.find matches (current_ e).*2 with
  | Some r => Some r
  | None => max_by IncidentRecord.version (List.filter matches (IncidentJournalStore.all (store e)))
  end.

Definition target_key (command : IncidentStatusCommand.t) : string :=
  "incident-status:" +:+ IncidentStatusCommand.incident_id command +:+ ":"
  +:+ IncidentCommandKind.value (IncidentStatusCommand.command command).

Definition status_scope (command : IncidentStatusCommand.t) : string :=
  digest (JDict [("actor", JStr (IncidentStatusCommand.actor command));
                 ("target", JStr (target_key command));
                 ("idempotency_key", JStr (IncidentStatusCommand.idempotency_key command))]).

Definition opt_json (o : option string) : json :=
  match o with Some s => JStr s | None => JNull end.

Definition status_payload_sha256 (command : IncidentStatusCommand.t) : string :=
  digest (JDict [("incident_id", JStr (IncidentStatusCommand.incident_id command));
                 ("hazard", JStr (HazardKind.value (IncidentStatusCommand.hazard command)));
                 ("command", JStr (IncidentCommandKind.value (IncidentStatusCommand.command command)));
                 ("expected_version", JInt (IncidentStatusCommand.expected_version command));
                 ("actor", JStr (IncidentStatusCommand.actor command));
                 ("reason", JStr (IncidentStatusCommand.reason command));
                 ("related_incident_id", opt_json (IncidentStatusCommand.related_incident_id command));
                 ("related_hazard",
                   opt_json (HazardKind.value <$> IncidentStatusCommand.related_hazard command));
                 ("idempotency_key", JStr (IncidentStatusCommand.idempotency_key command))]).

(** What a status command returns. *)
Inductive status_result : Type :=
  | StatusRecord (r : IncidentRecord.t)
  | StatusRelation (r : IncidentRelation.t).

Definition status_receipt (command : IncidentStatusCommand.t) (result_version : Z) (result_sha256 : string)
    (committed_code : string) : CommandReceipt.t :=
  {| CommandReceipt.command_id := IncidentStatusCommand.command_id command;
     CommandReceipt.principal_id := IncidentStatusCommand.actor command;
     CommandReceipt.operation :=
       "incidents:" +:+ IncidentCommandKind.value (IncidentStatusCommand.command command);
     CommandReceipt.target := target_key command;
     CommandReceipt.scoped_idempotency_key := status_scope command;
     CommandReceipt.payload_sha256 := status_payload_sha256 command;
     CommandReceipt.status := CommandStatus.COMMITTED;
     CommandReceipt.accepted_at := IncidentStatusCommand.submitted_at command;
     CommandReceipt.committed_at := Some (IncidentStatusCommand.submitted_at command);
     CommandReceipt.result_version := Some result_version;
     CommandReceipt.result_sha256 := Some result_sha256;
     CommandReceipt.reason_codes := ["expected_version_verified"; committed_code] |}.

Definition record_receipt (receipt : CommandReceipt.t) : M t CommandReceipt.t :=
  let! receipt := lift (CommandReceipt.validate receipt) in
  on_store (IncidentJournalStore.record_command_receipt store_sha256 receipt).

(** A command that was accepted before. *)
Definition replayed (command : IncidentStatusCommand.t) (existing : CommandReceipt.t) (e : t)
  : res status_result :=
  if negb (bool_decide (CommandReceipt.payload_sha256 existing = status_payload_sha256 command))
  then Raise (ValueError "idempotency key conflict")
  else
    let relation :=
      if IncidentStatusCommand.relational (IncidentStatusCommand.command command) then
        List.find (fun r => bool_decide (Some (IncidentRelation.relation_id r)
                                         = CommandReceipt.result_sha256 existing))
          (IncidentJournalStore.incident_relations (store e))
      else None in
    match relation with
    | Some r => Ok (StatusRelation r)
    | None =>
        match incident_by_id (IncidentStatusCommand.incident_id command) e with
        | Some r => Ok (StatusRecord r)
        | None => Raise AssertionError
        end
    end.

(** LINK and MERGE *)
Definition relate (command : IncidentStatusCommand.t) (current : IncidentRecord.t) : M t status_result :=
  let! e := get in
  match IncidentStatusCommand.related_incident_id command, IncidentStatusCommand.related_hazard command with
  | Some related_id, Some related_hazard =>
      match incident_by_id related_id e with
      | None => raise (ValueError "related incident not found")
      | Some related =>
          let same := bool_decide (IncidentRecord.hazard related = IncidentRecord.hazard current) in
          let merge := bool_decide (IncidentStatusCommand.command command = IncidentCommandKind.MERGE) in
          raise_if (negb (bool_decide (IncidentRecord.hazard related = related_hazard)))
            (ValueError "related incident not found") ;;;
          raise_if (merge && negb same)
            (ValueError "merge requires the same hazard; use link for cross-hazard context") ;;;
          raise_if (negb merge && same)
            (ValueError "same-hazard incidents require merge rather than cross-hazard link") ;;;
          let! relation := lift (IncidentRelation.validate
            {| IncidentRelation.relation_id :=
                 uuid5 ("sentinel-incident-relation:" +:+ IncidentStatusCommand.command_id command);
               IncidentRelation.source_incident_id := IncidentRecord.incident_id current;
               IncidentRelation.source_hazard := IncidentRecord.hazard current;
               IncidentRelation.target_incident_id := IncidentRecord.incident_id related;
               IncidentRelation.target_hazard := IncidentRecord.hazard related;
               IncidentRelation.relation :=
                 if merge then IncidentRelationKind.MERGED_ALIAS
                 else IncidentRelationKind.TEMPORAL_ASSOCIATION;
               IncidentRelation.confidence := f1;
               IncidentRelation.expected_source_version := IncidentRecord.version current;
               IncidentRelation.expected_target_version := IncidentRecord.version related;
               IncidentRelation.created_at := IncidentStatusCommand.submitted_at command;
               IncidentRelation.actor := IncidentStatusCommand.actor command;
               IncidentRelation.reason := IncidentStatusCommand.reason command |}) in
          let! relation := on_store (IncidentJournalStore.record_incident_relation store_sha256 relation) in
          let! _ := record_receipt (status_receipt command (IncidentRecord.version current)
                      (IncidentRelation.relation_id relation) "incident_relation_committed") in
          ret (StatusRelation relation)
      end
  | _, _ => raise AssertionError
  end.

(** The state and confidence a command asks for. *)
Definition commanded (command : IncidentStatusCommand.t) (current : IncidentRecord.t) (e : t)
  : res (IncidentState.t * f64) :=
  let state := IncidentRecord.state current in
  let confidence := IncidentRecord.confidence current in
  match IncidentStatusCommand.command command with
  | IncidentCommandKind.CORROBORATE => Ok (state, py_min f1 (fadd confidence (lit 5 100)))
  | IncidentCommandKind.CONTRADICT => Ok (state, py_max f0 (fsub confidence (lit 10 100)))
  | IncidentCommandKind.RESOLVE =>
      check (bool_decide (IncidentRecord.coverage current = CoverageState.BLIND))
        (ValueError "blind required sensor cannot resolve an event") >>!
      check (bool_decide (state = IncidentState.CONFIRMED)
             && bool_decide (IncidentReviewState.acknowledged_at
                  (IncidentJournalStore.review_state (IncidentRecord.incident_id current) (store e)) = None))
        (ValueError "unreviewed high-severity incident cannot be auto-closed") >>!
      Ok (if decide (state = IncidentState.RESOLVING) then IncidentState.RESOLVED else IncidentState.RESOLVING,
          confidence)
  | IncidentCommandKind.REOPEN =>
      check (negb (bool_decide (state = IncidentState.RESOLVED)))
        (ValueError "only a resolved incident can be reopened") >>!
      Ok (IncidentState.SUSPECTED, confidence)
  | IncidentCommandKind.CONTROL | IncidentCommandKind.LINK | IncidentCommandKind.MERGE => Ok (state, confidence)
  end.

Definition commanded_record (command : IncidentStatusCommand.t) (current : IncidentRecord.t)
    (state : IncidentState.t) (confidence : f64) : IncidentRecord.t :=
  let control := bool_decide (IncidentStatusCommand.command command = IncidentCommandKind.CONTROL) in
  let reasons :=
    IncidentRecord.reason_codes current
    ++ ["operator_" +:+ IncidentCommandKind.value (IncidentStatusCommand.command command);
        "reason:" +:+ IncidentStatusCommand.reason command]
    ++ (if control then ["controlled_activity_recorded"] else []) in
  let labels :=
    if control && negb (bool_decide (IncidentLabel.CONTROL ∈ IncidentRecord.labels current))
    then IncidentRecord.labels current ++ [IncidentLabel.CONTROL]
    else IncidentRecord.labels current in
  IncidentRecord.set_labels labels
  (IncidentRecord.set_reason_codes (sorted_set reasons)
  (IncidentRecord.set_version (IncidentRecord.version current + 1)
  (IncidentRecord.set_last_observed_at (IncidentStatusCommand.submitted_at command)
  (IncidentRecord.set_confidence confidence (IncidentRecord.set_state state current))))).

Definition change_status (command : IncidentStatusCommand.t) (current : IncidentRecord.t) : M t status_result :=
  let! e := get in
  let! target := lift (commanded command current e) in
  let '(state, confidence) := target in
  raise_if (negb (bool_decide (state ∈ ALLOWED (IncidentRecord.state current))))
    (ValueError ("illegal incident command transition " +:+ IncidentState.value (IncidentRecord.state current)
                 +:+ "->" +:+ IncidentState.value state)) ;;;
  let record := commanded_record command current state confidence in
  commit (IncidentRecord.hazard current) record
    (notification_for record (IncidentRecord.state current) (IncidentStatusCommand.submitted_at command) e) ;;;
  let! _ := record_receipt (status_receipt command (IncidentRecord.version record)
              (digest (dump_incident record)) "component4_incident_command_committed") in
  ret (StatusRecord record).

Definition apply_status_command (command : IncidentStatusCommand.t) : M t status_result :=
  let! e := get in
  match incident_by_id (IncidentStatusCommand.incident_id command) e with
  | None => raise (ValueError "incident command target not found")
  | Some current =>
      raise_if (negb (bool_decide (IncidentRecord.hazard current = IncidentStatusCommand.hazard command)))
        (ValueError "incident command target not found") ;;;
      match IncidentJournalStore.command_receipt (status_scope command) (store e) with
      | Some existing => lift (replayed command existing e)
      | None =>
          raise_if (negb (IncidentRecord.version current =? IncidentStatusCommand.expected_version command))
            (ValueError "stale incident command requires reconfirmation") ;;;
          if IncidentStatusCommand.relational (IncidentStatusCommand.command command)
          then relate command current
          else change_status command current
      end
  end.

(** ** Reviews *)
Definition review (action : ReviewAction.t) : M t IncidentReviewState.t :=
  let! e := get in
  raise_if (match dict_get (ReviewAction.hazard action) (current_ e) with
            | Some c => negb (bool_decide (IncidentRecord.incident_id c = ReviewAction.incident_id action))
            | None => true
            end)
    (ValueError "review action does not target the current incident") ;;;
  on_store (IncidentJournalStore.record_review store_sha256 action).

Definition authorized_review_payload (command : AuthorizedReviewCommand.t) : json :=
  JDict [("incident_id", JStr (AuthorizedReviewCommand.incident_id command));
         ("hazard", JStr (HazardKind.value (AuthorizedReviewCommand.hazard command)));
         ("action", JStr (ReviewActionKind.value (AuthorizedReviewCommand.action command)));
         ("snooze_until", opt_json (isoformat <$> AuthorizedReviewCommand.snooze_until command));
         ("comment", opt_json (AuthorizedReviewCommand.comment command));
         ("idempotency_key", JStr (AuthorizedReviewCommand.idempotency_key command))].

Definition review_target (command : AuthorizedReviewCommand.t) : string :=
  "incident:" +:+ AuthorizedReviewCommand.incident_id command.
Definition review_operation (command : AuthorizedReviewCommand.t) : string :=
  "incidents:" +:+ ReviewActionKind.value (AuthorizedReviewCommand.action command).
Definition review_principal (command : AuthorizedReviewCommand.t) : PrincipalRef.t :=
  AuthorizationDecision.principal (AuthorizedReviewCommand.authorization command).

Definition review_scope (command : AuthorizedReviewCommand.t) : string :=
  CommandAuthorizer.scoped_idempotency_key float_repr sha256 (review_principal command)
    (review_operation command) (review_target command) (AuthorizedReviewCommand.idempotency_key command).

Definition review_action (command : AuthorizedReviewCommand.t) : ReviewAction.t :=
  {| ReviewAction.review_id := AuthorizedReviewCommand.command_id command;
     ReviewAction.incident_id := AuthorizedReviewCommand.incident_id command;
     ReviewAction.hazard := AuthorizedReviewCommand.hazard command;
     ReviewAction.action := AuthorizedReviewCommand.action command;
     ReviewAction.actor := PrincipalRef.principal_id (review_principal command);
     ReviewAction.created_at := AuthorizedReviewCommand.submitted_at command;
     ReviewAction.snooze_until := AuthorizedReviewCommand.snooze_until command;
     ReviewAction.comment := AuthorizedReviewCommand.comment command |}.

Definition review_receipt (command : AuthorizedReviewCommand.t) (state : IncidentReviewState.t)
  : CommandReceipt.t :=
  {| CommandReceipt.command_id := AuthorizedReviewCommand.command_id command;
     CommandReceipt.principal_id := PrincipalRef.principal_id (review_principal command);
     CommandReceipt.operation := review_operation command;
     CommandReceipt.target := review_target command;
     CommandReceipt.scoped_idempotency_key := review_scope command;
     CommandReceipt.payload_sha256 := AuthorizedReviewCommand.payload_sha256 command;
     CommandReceipt.status := CommandStatus.COMMITTED;
     CommandReceipt.accepted_at :=
       AuthorizationDecision.accepted_at (AuthorizedReviewCommand.authorization command);
     CommandReceipt.committed_at := Some (AuthorizedReviewCommand.submitted_at command);
     CommandReceipt.result_version := Some (IncidentReviewState.review_count state);
     CommandReceipt.result_sha256 := Some (digest (dump_review_state state));
     CommandReceipt.reason_codes := ["gateway_authorization_verified"; "component4_committed"] |}.

Definition apply_authorized_review (command : AuthorizedReviewCommand.t)
  : M t (IncidentReviewState.t * CommandReceipt.t) :=
  let! e := get in
  let! _ := lift (CommandAuthorizer.verify float_repr isoformat sha256 hmac (command_authorizer e)
              (AuthorizedReviewCommand.authorization command) (authorized_review_payload command)
              (review_operation command) (review_target command) (Some (review_principal command))
              (AuthorizedReviewCommand.submitted_at command)) in
  match IncidentJournalStore.command_receipt (review_scope command) (store e) with
  | Some existing =>
      raise_if (negb (bool_decide (CommandReceipt.payload_sha256 existing
                                   = AuthorizedReviewCommand.payload_sha256 command)))
        (ValueError "idempotency key conflict") ;;;
      ret (IncidentJournalStore.review_state (AuthorizedReviewCommand.incident_id command) (store e), existing)
  | None =>
      let! action := lift (ReviewAction.validate (review_action command)) in
      let! state := review action in
      let! receipt := record_receipt (review_receipt command state) in
      ret (state, receipt)
  end.

(** ** Projections *)
Definition current (e : t) : list IncidentRecord.t :=
  sort_by (fun x y => String.leb (HazardKind.value (IncidentRecord.hazard x))
                        (HazardKind.value (IncidentRecord.hazard y))) (current_ e).*2.

Definition journal (e : t) : list IncidentRecord.t := IncidentJournalStore.all (store e).

Definition authority_watermark (e : t) : res AuthorityWatermark.t :=
  AuthorityWatermark.from_conformance (IncidentJournalStore.authority_conformance store_sha256 (store e)).

(** [{item.hazard: item for item in self._store.latest_by_hazard()}] *)
Definition durable (e : t) : list (HazardKind.t * IncidentRecord.t) :=
  fold_left (fun d item => dict_set (IncidentRecord.hazard item) item d)
    (IncidentJournalStore.latest_by_hazard (store e)) [].

Record projection_report : Type := mkProjectionReport {
  projection_valid : bool;
  projection_watermark : Z;
  projection_failures : list string
}.

Definition hazards_of (d : list (HazardKind.t * IncidentRecord.t)) : list HazardKind.t := d.*1.

Definition projection_conformance (e : t) : projection_report :=
  let d := durable e in
  let same_set :=
    bool_decide (Forall (fun h => h ∈ hazards_of (current_ e)) (hazards_of d))
    && bool_decide (Forall (fun h => h ∈ hazards_of d) (hazards_of (current_ e))) in
  let hazards :=
    sort_by (fun x y => String.leb (HazardKind.value x) (HazardKind.value y))
      (remove_dups (hazards_of d ++ hazards_of (current_ e))) in
  let diverges h :=
    match dict_get h d, dict_get h (current_ e) with
    | Some l, Some r =>
        negb (bool_decide (IncidentRecord.incident_id l = IncidentRecord.incident_id r))
        || negb (IncidentRecord.version l =? IncidentRecord.version r)
        || negb (bool_decide (IncidentRecord.state l = IncidentRecord.state r))
    | _, _ => false
    end in
  let authority := IncidentJournalStore.authority_conformance store_sha256 (store e) in
  let failures :=
    (if same_set then [] else ["projection_hazard_set_mismatch"])
    ++ map (fun h => "projection_divergence:" +:+ HazardKind.value h) (List.filter diverges hazards)
    ++ (if IncidentJournalStore.valid authority then [] else ["authority_journal_invalid"]) in
  mkProjectionReport (bool_decide (failures = []))
    (IncidentJournalStore.highest_contiguous_position authority) failures.

Record review_report : Type := mkReviewReport {
  acknowledged : Z;
  active_snoozes : Z;
  expired_snoozes : Z;
  review_actions_ : Z
}.

Definition review_metrics (now : datetime) (e : t) : review_report :=
  let states := IncidentJournalStore.review_states (store e) in
  let count (p : IncidentReviewState.t -> bool) := Z.of_nat (length (List.filter p states)) in
  mkReviewReport
    (count (fun s => bool_decide (is_Some (IncidentReviewState.acknowledged_at s))))
    (count (fun s => match IncidentReviewState.snoozed_until s with Some t => now <? t | None => false end))
    (count (fun s => match IncidentReviewState.snoozed_until s with Some t => t <=? now | None => false end))
    (Z.of_nat (length (IncidentJournalStore.reviews (store e)))).

End Engine.
End IncidentEventEngine.
