(* ===== verification/EngineTheorems.v ===== *)
(** What the incident engine guarantees in every execution: the dict of current
    records is the latest durable history, histories are well formed, late and
    repeated analyses are harmless, notifications follow the policy and
    commands are applied once. *)

From Stdlib Require Import ZArith Lia ZifyBool.
From S2P Require Import Prelude Ordering Binary64 Enums Models Records CanonicalJson Auth Journal JournalTheorems Engine.
Import IncidentEventEngine.
Open Scope Z_scope.

(** ** Histories *)

(** The records of a hazard, oldest first. *)
Definition of_hazard (h : HazardKind.t) (r : IncidentRecord.t) : bool :=
  bool_decide (IncidentRecord.hazard r = h).
Definition history (h : HazardKind.t) (rows : list IncidentRecord.t) : list IncidentRecord.t :=
  List.filter (of_hazard h) rows.

(** [next] is a legal successor of [prev]. *)
Record follows (prev next : IncidentRecord.t) : Prop := {
  fo_version : IncidentRecord.version next = IncidentRecord.version prev + 1;
  fo_id : IncidentRecord.incident_id next = IncidentRecord.incident_id prev;
  fo_hazard : IncidentRecord.hazard next = IncidentRecord.hazard prev;
  fo_first : IncidentRecord.first_observed_at next = IncidentRecord.first_observed_at prev;
  fo_state : IncidentRecord.state next ∈ ALLOWED (IncidentRecord.state prev);
  fo_watermark w : IncidentRecord.event_time_watermark prev = Some w ->
    exists w', IncidentRecord.event_time_watermark next = Some w' /\ w <= w';
  fo_analyses : IncidentRecord.analysis_ids prev `prefix_of` IncidentRecord.analysis_ids next;
  fo_labels : IncidentRecord.labels prev `prefix_of` IncidentRecord.labels next
}.

Definition starts (r : IncidentRecord.t) : Prop :=
  IncidentRecord.version r = 1 /\ IncidentRecord.state r ∈ ALLOWED IncidentState.NORMAL.

Fixpoint linked (prev : IncidentRecord.t) (rows : list IncidentRecord.t) : Prop :=
  match rows with
  | [] => True
  | r :: rows => follows prev r /\ linked r rows
  end.

(** A history: it starts at version 1 and every record follows the previous. *)
Definition well_formed (rows : list IncidentRecord.t) : Prop :=
  match rows with
  | [] => True
  | r :: rows => starts r /\ linked r rows
  end.

(** What a new record must satisfy to extend a history. *)
Definition extends (current : option IncidentRecord.t) (r : IncidentRecord.t) : Prop :=
  match current with Some c => follows c r | None => starts r end.

Fixpoint last_of {A} (d : A) (rows : list A) : A :=
  match rows with [] => d | r :: rows => last_of r rows end.

Lemma last_default {A} (rows : list A) (d : A) : last (d :: rows) = Some (last_of d rows).
Proof. revert d. induction rows as [|r rows IH]; intros d; [done|]. by rewrite last_cons_cons, IH. Qed.

Lemma linked_snoc prev rows r :
  linked prev rows -> follows (last_of prev rows) r -> linked prev (rows ++ [r]).
Proof.
  revert prev. induction rows as [|r' rows IH]; intros prev; [by split|].
  intros [Hf Hl] Hr. split; [done|]. by apply IH.
Qed.

Lemma well_formed_snoc rows r : well_formed rows -> extends (last rows) r -> well_formed (rows ++ [r]).
Proof.
  destruct rows as [|r0 rows]; [by split|]. rewrite last_default. intros [Hs Hl] Hr.
  split; [done|]. by apply linked_snoc.
Qed.

Lemma linked_versions prev rows i r :
  linked prev rows -> rows !! i = Some r ->
  IncidentRecord.version r = IncidentRecord.version prev + Z.of_nat i + 1 /\
  IncidentRecord.incident_id r = IncidentRecord.incident_id prev.
Proof.
  revert prev i. induction rows as [|r' rows IH]; intros prev i; [done|].
  intros [[] Hl]. destruct i as [|i]; cbn.
  - intros [= <-]. split; [lia|done].
  - intros Hi. destruct (IH _ _ Hl Hi). split; [lia|congruence].
Qed.

Lemma well_formed_versions rows i r :
  well_formed rows -> rows !! i = Some r -> IncidentRecord.version r = Z.of_nat i + 1.
Proof.
  destruct rows as [|r0 rows]; [done|]. intros [[Hv _] Hl]. destruct i as [|i]; cbn.
  - by intros [= <-].
  - intros Hi. destruct (linked_versions _ _ _ _ Hl Hi). lia.
Qed.

Lemma well_formed_ids rows r r' :
  well_formed rows -> r ∈ rows -> r' ∈ rows -> IncidentRecord.incident_id r = IncidentRecord.incident_id r'.
Proof.
  destruct rows as [|r0 rows]; [set_solver|]. intros [_ Hl].
  assert (Hall : forall x, x ∈ r0 :: rows -> IncidentRecord.incident_id x = IncidentRecord.incident_id r0).
  { intros x [->|Hx]%elem_of_cons; [done|]. apply list_elem_of_lookup in Hx as [i Hi].
    by apply (linked_versions _ _ _ _ Hl Hi). }
  intros Hr Hr'. by rewrite (Hall r), (Hall r').
Qed.

Lemma history_snoc h rows r :
  history h (rows ++ [r]) = if decide (IncidentRecord.hazard r = h) then history h rows ++ [r] else history h rows.
Proof.
  unfold history. rewrite List.filter_app. cbn. unfold of_hazard. case_decide.
  - by rewrite bool_decide_eq_true_2.
  - by rewrite bool_decide_eq_false_2, app_nil_r.
Qed.

Lemma elem_of_history h rows r : r ∈ history h rows <-> r ∈ rows /\ IncidentRecord.hazard r = h.
Proof.
  unfold history. rewrite !list_elem_of_In, List.filter_In. unfold of_hazard.
  by rewrite bool_decide_eq_true.
Qed.

(** ** The durable latest records *)
Import IncidentJournalStore.

Lemma fold_dict_get h items d :
  dict_get h (fold_left (fun d item => dict_set (IncidentRecord.hazard item) item d) items d)
  = match last (history h items) with Some r => Some r | None => dict_get h d end.
Proof.
  induction items as [|r items IH] using rev_ind; [done|].
  rewrite fold_left_app. cbn. rewrite dict_get_set, IH, history_snoc. case_decide; [|done].
  by rewrite last_snoc.
Qed.

Lemma max_version_history h rows :
  well_formed (history h (incident <$> rows)) ->
  max_version h rows = Z.of_nat (length (history h (incident <$> rows))).
Proof.
  assert (Heq : max_version h rows
    = fold_right Z.max 0 (IncidentRecord.version <$> history h (incident <$> rows))).
  { unfold max_version. f_equal. induction rows as [|e rows IH]; [done|]. cbn.
    unfold of_hazard at 1. change (incident_hazard e) with (IncidentRecord.hazard (incident e)).
    destruct (bool_decide _); cbn; [f_equal|]; exact IH. }
  rewrite Heq. generalize (history h (incident <$> rows)). clear. intros l Hl.
  pose proof (well_formed_versions l) as Hv.
  assert (Hub : forall l n, (forall i r, l !! i = Some r -> IncidentRecord.version r <= n) -> 0 <= n ->
    fold_right Z.max 0 (IncidentRecord.version <$> l) <= n).
  { clear. intros l n. induction l as [|r l IH]; intros H Hn; cbn; [done|].
    apply Z.max_lub; [by apply (H 0%nat)|]. apply IH; [|done]. intros i r' Hi. by apply (H (S i)). }
  assert (Hlb : forall l r, r ∈ l -> IncidentRecord.version r <= fold_right Z.max 0 (IncidentRecord.version <$> l)).
  { clear. intros l r. induction l as [|r' l IH]; [set_solver|]. intros [->|H]%elem_of_cons; cbn; [lia|].
    specialize (IH H). lia. }
  apply Z.le_antisymm.
  - apply Hub; [|lia]. intros i r Hi. rewrite (Hv i r Hl Hi). apply lookup_lt_Some in Hi. lia.
  - destruct (last l) as [r|] eqn:El; [|apply last_None in El; by subst].
    rewrite last_lookup in El. pose proof (Hv _ _ Hl El) as Hvr.
    apply list_elem_of_lookup_2, Hlb in El. destruct l as [|x l]; [cbn; lia|].
    rewrite Hvr in El. cbn [length Nat.pred] in *. lia.
Qed.

Lemma last_versions l :
  well_formed l ->
  List.filter (fun r => IncidentRecord.version r =? Z.of_nat (length l)) l = option_list (last l).
Proof.
  intros Hl. destruct l as [|r l _] using rev_ind; [done|].
  assert (Hr : IncidentRecord.version r = Z.of_nat (length l) + 1).
  { apply (well_formed_versions _ _ _ Hl). by rewrite lookup_app_r, Nat.sub_diag. }
  rewrite last_snoc, List.filter_app, length_app. cbn [List.filter option_list length]. rewrite Hr.
  assert (Z.of_nat (length l) + 1 = Z.of_nat (length l + 1)) as -> by lia. rewrite Z.eqb_refl.
  assert (Hnone : forall k, (forall i x, k !! i = Some x -> IncidentRecord.version x < Z.of_nat (length l + 1)) ->
    List.filter (fun r => IncidentRecord.version r =? Z.of_nat (length l + 1)) k = []).
  { intros k. induction k as [|x k IH]; intros H; cbn; [done|].
    pose proof (H 0%nat x eq_refl).  replace (_ =? _) with false by lia. apply IH. intros i y Hi. by apply (H (S i)). }
  rewrite (Hnone l); [done|]. intros i x Hi. pose proof (lookup_lt_Some _ _ _ Hi).
  rewrite (well_formed_versions _ i x Hl) by (rewrite lookup_app_l; done). lia.
Qed.

Lemma history_select h (bound : HazardKind.t -> Z) rows :
  history h (incident <$> select (fun e => incident_version e =? bound (incident_hazard e)) rows)
  = List.filter (fun r => IncidentRecord.version r =? bound h) (history h (incident <$> rows)).
Proof.
  induction rows as [|e rows IH]; [done|]. unfold history, select in *. cbn.
  unfold incident_version, incident_hazard in *.
  destruct (of_hazard h (incident e)) eqn:Hh; cbn.
  - pose proof Hh as Hz. apply bool_decide_eq_true in Hz. rewrite Hz.
    destruct (IncidentRecord.version (incident e) =? bound h); cbn; rewrite ?Hh; [f_equal|]; exact IH.
  - destruct (IncidentRecord.version (incident e) =? _); cbn; rewrite ?Hh; exact IH.
Qed.

Lemma durable_latest e h :
  well_formed (history h (all (store e))) -> dict_get h (durable e) = last (history h (all (store e))).
Proof.
  intros Hwf. unfold durable. rewrite fold_dict_get. cbn.
  assert (Hp : history h (latest_by_hazard (store e)) ≡ₚ option_list (last (history h (all (store e))))).
  { unfold latest_by_hazard. rewrite <- (last_versions _ Hwf).
    change (all (store e)) with (incident <$> incident_events (store e)) in *.
    rewrite <- (max_version_history h _ Hwf).
    rewrite <- (history_select h (fun h => max_version h (incident_events (store e)))).
    apply filter_permutation. by rewrite sort_by_perm. }
  destruct (last (history h (all (store e)))) as [r|] eqn:El; cbn in Hp.
  - by apply Permutation_singleton_r in Hp as ->.
  - by apply Permutation_nil_r in Hp as ->.
Qed.

(** ** Executions *)
Import IncidentEventEngine.

Section Executions.
Context (float_repr : f64 -> string) (isoformat : datetime -> string) (uuid5 : string -> UUID).
Context (sha256 : string -> string) (hmac : string -> string -> string).
Context (dump_incident : IncidentRecord.t -> json) (dump_review_state : IncidentReviewState.t -> json).
Context (store_sha256 : payload -> string).

Notation apply_analysis := (apply_analysis uuid5 store_sha256).
Notation apply_status_command :=
  (apply_status_command float_repr uuid5 sha256 dump_incident store_sha256).
Notation apply_authorized_review :=
  (apply_authorized_review float_repr isoformat sha256 hmac dump_review_state store_sha256).
Notation review := (review store_sha256).
Notation commit := (commit store_sha256).
Notation record_receipt := (record_receipt store_sha256).
Notation notification_for := (notification_for uuid5).

(** Calls on the engine, and the other components' calls on its store. *)
Inductive call : Type :=
  | Analysis (analysis : AnalysisResult.t) (accepted_at : datetime)
  | StatusCommand (command : IncidentStatusCommand.t)
  | Review (action : ReviewAction.t)
  | AuthorizedReview (command : AuthorizedReviewCommand.t)
  | StoreCall (o : JournalTheorems.op).

Definition exec (c : call) : M t unit :=
  match c with
  | Analysis a accepted_at => void (apply_analysis a accepted_at)
  | StatusCommand c => void (apply_status_command c)
  | Review a => void (review a)
  | AuthorizedReview c => void (apply_authorized_review c)
  | StoreCall o => on_store (JournalTheorems.exec store_sha256 o)
  end.

(** The engine is the only writer of incident records. *)
Definition call_valid (c : call) : Prop :=
  match c with
  | StoreCall o => op_valid o /\ forall r n, o <> AppendIncident r n
  | _ => True
  end.

Definition step (e e' : t) : Prop := exists c r, call_valid c /\ exec c e = (r, e').

Definition new_engine (budget : Z) (authorizer : CommandAuthorizer.t) : t := init IncidentJournalStore.init budget authorizer.

Definition reachable (e : t) : Prop := exists budget authorizer, rtc step (new_engine budget authorizer) e.

(** ** What the engine does to its store *)

(** Every method runs operations of the store. *)
Definition store_steps (e e' : t) : Prop := rtc (JournalTheorems.step store_sha256) (store e) (store e').
#[local] Instance store_steps_preorder : PreOrder store_steps.
Proof. split; [intros e; apply rtc_refl|]. intros e1 e2 e3. unfold store_steps. apply transitivity. Qed.

Lemma on_store_exec {A} (m : M IncidentJournalStore.t A) o :
  op_valid o -> (forall s r s', m s = (r, s') -> exists r', JournalTheorems.exec store_sha256 o s = (r', s')) ->
  Steps store_steps (on_store m).
Proof.
  intros Hv Hm e r e' H. unfold on_store, zoom in H. destruct (m (store e)) as [r1 s1] eqn:E.
  injection H as _ <-. apply rtc_once. destruct (Hm _ _ _ E) as [r' Hr']. by exists o, r'.
Qed.

Lemma run_void {A} (m : M IncidentJournalStore.t A) s r s' : m s = (r, s') -> exists r', void m s = (r', s').
Proof. unfold void, bind. intros ->. destruct r; by eexists. Qed.

#[local] Instance on_store_append r n :
  Steps store_steps (on_store (append_incident_with_notification store_sha256 r n)).
Proof. apply (on_store_exec _ (AppendIncident r n)); [done|]. intros s x s'. apply run_void. Qed.
#[local] Instance on_store_receipt r : Steps store_steps (on_store (record_command_receipt store_sha256 r)).
Proof. apply (on_store_exec _ (RecordCommandReceipt r)); [done|]. intros s x s'. apply run_void. Qed.
#[local] Instance on_store_relation r : Steps store_steps (on_store (record_incident_relation store_sha256 r)).
Proof. apply (on_store_exec _ (RecordIncidentRelation r)); [done|]. intros s x s'. apply run_void. Qed.
#[local] Instance on_store_review a : Steps store_steps (on_store (record_review store_sha256 a)).
Proof. apply (on_store_exec _ (RecordReview a)); [done|]. intros s x s'. apply run_void. Qed.

#[local] Instance commit_steps h r n : Steps store_steps (commit h r n).
Proof.
  unfold IncidentEventEngine.commit. apply steps_bind; [apply _..|]. intros _. apply steps_modify.
  intros e. apply rtc_refl.
Qed.

#[local] Instance record_receipt_steps r : Steps store_steps (record_receipt r).
Proof. unfold IncidentEventEngine.record_receipt. steps. Qed.

Lemma exec_store_steps c : call_valid c -> Steps store_steps (exec c).
Proof.
  destruct c as [a at_|c|a|c|o]; intros Hv; cbn [exec]; unfold void.
  - unfold IncidentEventEngine.apply_analysis, accept_analysis. steps.
  - unfold IncidentEventEngine.apply_status_command, change_status, relate. steps.
  - unfold IncidentEventEngine.review. steps.
  - unfold IncidentEventEngine.apply_authorized_review, IncidentEventEngine.review. steps.
  - eapply on_store_exec; [apply Hv|]. eauto.
Qed.

Lemma reachable_store e : reachable e -> JournalTheorems.reachable store_sha256 (store e).
Proof.
  intros (budget & authorizer & H). remember (new_engine budget authorizer) as e0 eqn:He0.
  assert (JournalTheorems.reachable store_sha256 (store e0)) as H0 by (subst; apply rtc_refl). clear He0.
  induction H as [e|e1 e2 e3 (c & r & Hv & Hc) _ IH]; [done|]. apply IH.
  unfold JournalTheorems.reachable in *. etrans; [exact H0|]. by eapply (exec_store_steps c Hv).
Qed.

(** ** Committing a record *)
(** The tables the engine reads. *)
Definition view (s : IncidentJournalStore.t) :=
  (all s, notification_intents s, incident_review_state s, IncidentJournalStore.receipts s, relations s).

Lemma append_authority_view k id at_ p s r s' :
  append_authority store_sha256 k id at_ p s = (r, s') -> view s' = view s.
Proof. intros (ev & seq & sub & ->)%append_authority_frame. reflexivity. Qed.

Lemma insert_incident_view p r s u s' :
  insert_incident p r s = (Ok u, s') ->
  view s' = (all s ++ [r], notification_intents s, incident_review_state s, IncidentJournalStore.receipts s,
    relations s).
Proof.
  unfold insert_incident, bind, get, put. intros [-> _]%insert_ok. unfold view, all. cbn. by rewrite fmap_app.
Qed.

Lemma insert_incident_fresh p r s u s' :
  insert_incident p r s = (Ok u, s') ->
  forall x, x ∈ all s ->
    (IncidentRecord.incident_id x, IncidentRecord.version x)
    <> (IncidentRecord.incident_id r, IncidentRecord.version r).
Proof.
  unfold insert_incident, bind, get, put. intros [_ Hclash]%insert_ok x Hx Heq.
  apply list_elem_of_fmap in Hx as (ev & -> & Hev). apply not_true_iff_false in Hclash. apply Hclash.
  apply List.existsb_exists. exists ev. split; [by apply list_elem_of_In|].
  apply orb_true_iff. left. unfold same_key, incident_key. apply bool_decide_eq_true. by rewrite Heq.
Qed.

Lemma insert_notification_view n s u s' :
  insert_notification n s = (Ok u, s') ->
  view s' = (all s, notification_intents s ++ [n], incident_review_state s, IncidentJournalStore.receipts s,
    relations s).
Proof. intros [-> _]%insert_ok. reflexivity. Qed.

Lemma append_incident_ok r n s b s' :
  append_incident_with_notification store_sha256 r n s = (Ok b, s') ->
  view s' = (all s ++ [r], notification_intents s ++ (if b then option_list n else []),
             incident_review_state s, IncidentJournalStore.receipts s, relations s) /\
  forall x, x ∈ all s ->
    (IncidentRecord.incident_id x, IncidentRecord.version x)
    <> (IncidentRecord.incident_id r, IncidentRecord.version r).
Proof.
  unfold append_incident_with_notification. intros H. rewrite transaction_ok in H.
  apply bind_ok in H as (p & s1 & H1%append_authority_view & H). injection H1 as Ha Hn Hr Hc Hl.
  apply bind_ok in H as ([] & s2 & H2 & H). pose proof (insert_incident_fresh _ _ _ _ _ H2) as Hf.
  rewrite Ha in Hf. split; [|exact Hf]. clear Hf. apply insert_incident_view in H2. rewrite Ha, Hn, Hr, Hc, Hl in H2.
  destruct n as [n|].
  - apply bind_ok in H as (z & s3 & [= <- <-] & H). destruct (select_one _ _).
    + injection H as <- <-. by rewrite app_nil_r.
    + apply bind_ok in H as (p2 & s4 & H3%append_authority_view & H). rewrite H2 in H3.
      injection H3 as Ha3 Hn3 Hr3 Hc3 Hl3.
      apply bind_ok in H as ([] & s5 & H4%insert_notification_view & [= <- <-]).
      by rewrite Ha3, Hn3, Hr3, Hc3, Hl3 in H4.
  - injection H as <- <-. by rewrite app_nil_r.
Qed.

(** What a commit that returns has done; one that raises has done nothing. *)
Record committed (h : HazardKind.t) (r : IncidentRecord.t) (n : option NotificationIntent.t) (e e' : t) : Prop := {
  cm_current : current_ e' = dict_set h r (current_ e);
  cm_all : all (store e') = all (store e) ++ [r];
  cm_fresh x : x ∈ all (store e) ->
    (IncidentRecord.incident_id x, IncidentRecord.version x)
    <> (IncidentRecord.incident_id r, IncidentRecord.version r);
  cm_outbox : exists b : bool, notification_intents (store e')
    = notification_intents (store e) ++ (if b then option_list n else []);
  cm_reviews : incident_review_state (store e') = incident_review_state (store e);
  cm_receipts : IncidentJournalStore.receipts (store e') = IncidentJournalStore.receipts (store e);
  cm_budget : notification_budget e' = notification_budget e;
  cm_authorizer : command_authorizer e' = command_authorizer e
}.

Lemma commit_run h r n e res e' :
  commit h r n e = (res, e') ->
  (exists exc, res = Raise exc /\ e' = e) \/ res = Ok tt /\ committed h r n e e'.
Proof.
  unfold IncidentEventEngine.commit, bind, on_store, zoom, modify.
  destruct (append_incident_with_notification store_sha256 r n (store e)) as [[b|exc] s'] eqn:E; intros [= <- <-].
  - right. split; [done|]. apply append_incident_ok in E as [E Hf]. injection E as ? ? ? ? ?. split; cbn; eauto.
  - left. exists exc. split; [done|]. apply transaction_raise in E as [_ ->]. by destruct e.
Qed.

(** ** The invariant *)
Record consistent (e : t) : Prop := {
  co_history h : well_formed (history h (all (store e)));
  co_current h : dict_get h (current_ e) = last (history h (all (store e)));
  co_keys : NoDup (current_ e).*1;
  co_ids r r' : r ∈ all (store e) -> r' ∈ all (store e) ->
    IncidentRecord.incident_id r = IncidentRecord.incident_id r' ->
    IncidentRecord.hazard r = IncidentRecord.hazard r'
}.

(** The first version of an incident is in its history. *)
Lemma first_version e r :
  consistent e -> r ∈ all (store e) -> exists r0, r0 ∈ all (store e) /\
    IncidentRecord.incident_id r0 = IncidentRecord.incident_id r /\ IncidentRecord.version r0 = 1.
Proof.
  intros Hc Hr. set (h := IncidentRecord.hazard r).
  assert (Hin : r ∈ history h (all (store e))) by by apply elem_of_history.
  destruct (history h (all (store e))) as [|r0 rows] eqn:Eh; [by apply not_elem_of_nil in Hin|].
  assert (H0 : r0 ∈ history h (all (store e))) by (rewrite Eh; left).
  pose proof (co_history e Hc h) as Hwf. rewrite Eh in Hwf. exists r0.
  split; [by apply elem_of_history in H0 as [? _]|]. split.
  - apply (well_formed_ids (r0 :: rows)); [done|left|done].
  - by apply (well_formed_versions _ 0%nat _ Hwf).
Qed.

Lemma commit_consistent h r n e e' :
  consistent e -> IncidentRecord.hazard r = h -> extends (dict_get h (current_ e)) r ->
  committed h r n e e' -> consistent e'.
Proof.
  intros Hc Hh Hext []. pose proof Hc as [Hwf Hcur Hk Hids]. split.
  - intros h'. rewrite cm_all0, history_snoc. case_decide; [|done].
    apply well_formed_snoc; [done|]. rewrite <- Hcur. by subst.
  - intros h'. rewrite cm_all0, cm_current0, dict_get_set, history_snoc, Hh. case_decide; [|done].
    by rewrite last_snoc.
  - rewrite cm_current0. by apply dict_set_NoDup.
  - assert (Hnew : forall x, x ∈ all (store e) ->
      IncidentRecord.incident_id x = IncidentRecord.incident_id r -> IncidentRecord.hazard x = h).
    { intros x Hx Hid. destruct (dict_get h (current_ e)) as [c|] eqn:Hg; cbn in Hext.
      - rewrite Hcur, last_lookup in Hg. apply list_elem_of_lookup_2, elem_of_history in Hg as [Hcin <-].
        apply Hids; [done|done|]. rewrite Hid. by destruct Hext.
      - destruct (first_version e x Hc Hx) as (r0 & Hr0 & Hid0 & Hv0).
        destruct (cm_fresh0 r0 Hr0). destruct Hext as [-> _]. by rewrite Hid0, Hid, Hv0. }
    intros x y. rewrite cm_all0, !elem_of_app, !list_elem_of_singleton.
    intros [Hx|Hx] [Hy|Hy] Heq; [by apply Hids|..].
    + rewrite Hy in Heq |- *. rewrite Hh. by apply Hnew.
    + rewrite Hx in Heq |- *. rewrite Hh. symmetry. by apply Hnew.
    + by rewrite Hx, Hy.
Qed.

(** Engine states that differ in neither records nor current dict. *)
Definition same_records (e e' : t) : Prop :=
  all (store e') = all (store e) /\ current_ e' = current_ e.
#[local] Instance same_records_preorder : PreOrder same_records.
Proof. split; [done|]. intros e1 e2 e3 [] []. split; congruence. Qed.

Lemma same_records_consistent e e' : same_records e e' -> consistent e -> consistent e'.
Proof.
  intros [Ha Hc] [Hwf Hcur Hk Hids].
  split; [intros h; by rewrite Ha|intros h; by rewrite Ha, Hc|by rewrite Hc|rewrite Ha; exact Hids].
Qed.

Lemma on_store_records {A} (m : M IncidentJournalStore.t A) o :
  (forall r n, o <> AppendIncident r n) ->
  (forall s r s', m s = (r, s') -> exists r', JournalTheorems.exec store_sha256 o s = (r', s')) ->
  Steps same_records (on_store m).
Proof.
  intros Ho Hm e r e' H. unfold on_store, zoom in H. destruct (m (store e)) as [r1 s1] eqn:E.
  injection H as _ <-. destruct (Hm _ _ _ E) as [r' Hr']. apply exec_incidents in Hr'; [|done].
  split; [|done]. unfold all; cbn. by rewrite Hr'.
Qed.

(** And that have the same outbox and settings. *)
Definition quiet (e e' : t) : Prop :=
  same_records e e' /\ notification_intents (store e') = notification_intents (store e) /\
  notification_budget e' = notification_budget e /\ command_authorizer e' = command_authorizer e.
#[local] Instance quiet_preorder : PreOrder quiet.
Proof.
  split; [done|]. intros e1 e2 e3 (? & ? & ? & ?) (? & ? & ? & ?). split; [by etrans|]. split_and!; congruence.
Qed.

Lemma on_store_quiet {A} (m : M IncidentJournalStore.t A) o :
  (forall r n, o <> AppendIncident r n) -> (forall id d rc e at_, o <> RecordDelivery id d rc e at_) ->
  (forall s r s', m s = (r, s') -> exists r', JournalTheorems.exec store_sha256 o s = (r', s')) ->
  Steps quiet (on_store m).
Proof.
  intros Ho Hd Hm e r e' H. unfold on_store, zoom in H. destruct (m (store e)) as [r1 s1] eqn:E.
  injection H as _ <-. destruct (Hm _ _ _ E) as [r' Hr']. apply exec_outbox in Hr' as [Hi Hn]; [|done|done].
  split; [|done]. split; [|done]. unfold all; cbn. by rewrite Hi.
Qed.

#[local] Instance quiet_receipt r : Steps quiet (on_store (record_command_receipt store_sha256 r)).
Proof. apply (on_store_quiet _ (RecordCommandReceipt r)); [done|done|]. intros s x s'. apply run_void. Qed.
#[local] Instance quiet_relation r : Steps quiet (on_store (record_incident_relation store_sha256 r)).
Proof. apply (on_store_quiet _ (RecordIncidentRelation r)); [done|done|]. intros s x s'. apply run_void. Qed.
#[local] Instance quiet_review a : Steps quiet (on_store (record_review store_sha256 a)).
Proof. apply (on_store_quiet _ (RecordReview a)); [done|done|]. intros s x s'. apply run_void. Qed.
#[local] Instance quiet_record_receipt r : Steps quiet (record_receipt r).
Proof. unfold IncidentEventEngine.record_receipt. steps. Qed.

#[local] Instance relate_quiet c cur : Steps quiet (relate float_repr uuid5 sha256 store_sha256 c cur).
Proof. unfold relate. steps. Qed.
#[local] Instance review_quiet a : Steps quiet (review a).
Proof. unfold IncidentEventEngine.review. steps. Qed.
#[local] Instance authorized_review_quiet c : Steps quiet (apply_authorized_review c).
Proof. unfold IncidentEventEngine.apply_authorized_review. steps. Qed.

Lemma current_hazard e h c : consistent e -> dict_get h (current_ e) = Some c ->
  IncidentRecord.hazard c = h /\ c ∈ history h (all (store e)).
Proof.
  intros Hc Hg. rewrite (co_current e Hc), last_lookup in Hg. apply list_elem_of_lookup_2 in Hg.
  split; [by apply elem_of_history in Hg as [_ ?]|done].
Qed.

Lemma new_record_extends e a target reasons accepted_at :
  let cur := dict_get (AnalysisResult.hazard a) (current_ e) in
  consistent e -> target ∈ ALLOWED (previous_state cur) ->
  extends cur (new_record uuid5 cur a target reasons accepted_at).
Proof.
  cbv zeta. intros Hc Ht. destruct (dict_get _ (current_ e)) as [c|] eqn:Hg; cbn; [|by split].
  destruct (current_hazard _ _ _ Hc Hg) as [Hh _]. split; cbn; try done; try (by eexists).
  intros w ->. eexists. split; [done|]. lia.
Qed.

Lemma allowed_refl s : s ∈ ALLOWED s.
Proof. destruct s; cbn; set_solver. Qed.

Lemma late_correction_follows c a accepted_at : follows c (late_correction c a accepted_at).
Proof.
  split; cbn; try done; [apply allowed_refl| |by eexists].
  intros w ->. eexists. by split.
Qed.

Lemma commanded_follows cmd c st conf :
  st ∈ ALLOWED (IncidentRecord.state c) -> follows c (commanded_record cmd c st conf).
Proof.
  intros Hs. unfold commanded_record. split; cbn; try done.
  - intros w ->. eexists. by split.
  - destruct (_ && _); [by eexists|done].
Qed.

Lemma validate_record_ok r r' : IncidentRecord.validate r = Ok r' -> r' = r.
Proof. unfold IncidentRecord.validate. by intros ([] & _ & ([] & _ & [= <-])%rbind_ok)%rbind_ok. Qed.

(** The shape of every run of [apply_analysis]. *)
Record accepted (cur : option IncidentRecord.t) (a : AnalysisResult.t) (accepted_at : datetime)
    (e : t) (rec : IncidentRecord.t) (n : option NotificationIntent.t) : Prop := {
  ac_record : rec = new_record uuid5 cur a (target_of cur a).1 (target_of cur a).2 accepted_at;
  ac_allowed : (target_of cur a).1 ∈ ALLOWED (previous_state cur);
  ac_notification : n = notification_for rec (previous_state cur) accepted_at e;
  ac_late c : cur = Some c -> late c a = false
}.

Lemma accept_analysis_run cur a accepted_at e r e' :
  accept_analysis uuid5 store_sha256 cur a accepted_at e = (r, e') ->
  (exists exc, r = Raise exc) /\ e' = e \/ exists rec n, r = Ok rec /\
    committed (AnalysisResult.hazard a) rec n e e' /\
    rec = new_record uuid5 cur a (target_of cur a).1 (target_of cur a).2 accepted_at /\
    (target_of cur a).1 ∈ ALLOWED (previous_state cur) /\
    n = notification_for rec (previous_state cur) accepted_at e.
Proof.
  unfold accept_analysis, bind at 1, get at 1. destruct (target_of cur a) as [target reasons]. cbv zeta.
  unfold raise_if. case_bool_decide as Hall; cbn [negb]; [|intros [= <- <-]; left; eauto].
  unfold bind at 1, ret at 1, bind at 1, lift.
  destruct (IncidentRecord.validate _) as [rec|exc] eqn:Ev; [|intros [= <- <-]; left; eauto].
  apply validate_record_ok in Ev. unfold bind. destruct (commit _ _ _ e) as [[[]|exc] e1] eqn:Ec;
    apply commit_run in Ec as [(exc' & Hexc & ->)|[Hexc Hcm]]; try discriminate; intros [= <- <-].
  - right. exists rec, (notification_for rec (previous_state cur) accepted_at e). by split_and!.
  - left. eauto.
Qed.

Lemma apply_analysis_run a accepted_at e r e' :
  let cur := dict_get (AnalysisResult.hazard a) (current_ e) in
  apply_analysis a accepted_at e = (r, e') ->
  e' = e \/ exists rec n, r = Ok rec /\ committed (AnalysisResult.hazard a) rec n e e' /\
    (accepted cur a accepted_at e rec n
     \/ exists c, cur = Some c /\ late c a = true /\ rec = late_correction c a accepted_at /\ n = None).
Proof.
  cbv zeta. unfold IncidentEventEngine.apply_analysis, bind at 1, get at 1. cbv zeta.
  destruct (dict_get (AnalysisResult.hazard a) (current_ e)) as [c|] eqn:Hg.
  - destruct (decide _); [intros [= _ <-]; by left|].
    destruct (late c a) eqn:Hlate.
    + destruct (superseded c a); [intros [= _ <-]; by left|]. unfold bind.
      destruct (commit _ _ None e) as [[[]|exc] e1] eqn:Ec;
        apply commit_run in Ec as [(exc' & Hexc & ->)|[Hexc Hcm]]; try discriminate; intros [= <- <-]; [|by left].
      right. exists (late_correction c a accepted_at), None. split_and!; try done.
      right. by exists c.
    + intros [[_ ->]|(rec & nt & -> & Hcm & Hrec & Hall & Hn)]%accept_analysis_run; [by left|].
      right. exists rec, nt. split_and!; try done. left. split; try done. by intros c' [= <-].
  - intros [[_ ->]|(rec & n & -> & Hcm & Hrec & Hall & Hn)]%accept_analysis_run; [by left|].
    right. exists rec, n. split_and!; try done. left. by split.
Qed.

Lemma apply_analysis_consistent a accepted_at e r e' :
  consistent e -> apply_analysis a accepted_at e = (r, e') -> consistent e'.
Proof.
  intros Hc [->|(rec & n & -> & Hcm & H)]%apply_analysis_run; [done|].
  eapply commit_consistent; [exact Hc| | |exact Hcm]; destruct H as [[-> Hall _ _]|(c & Hg & _ & -> & _)].
  - done.
  - by apply (current_hazard _ _ _ Hc) in Hg as [? _].
  - by apply new_record_extends.
  - rewrite Hg. apply late_correction_follows.
Qed.

Lemma max_by_elem {A} (key : A -> Z) l x : max_by key l = Some x -> x ∈ l.
Proof.
  revert x. induction l as [|y l IH]; intros x; cbn; [done|]. destruct (max_by key l) as [z|].
  - specialize (IH z eq_refl). destruct (_ <? _); intros [= <-]; [by right|by left].
  - intros [= <-]. by left.
Qed.

Lemma incident_by_id_current e id r :
  consistent e -> incident_by_id id e = Some r ->
  dict_get (IncidentRecord.hazard r) (current_ e) = Some r /\ IncidentRecord.incident_id r = id.
Proof.
  intros Hc. unfold incident_by_id.
  destruct (List.find _ (current_ e).*2) as [x|] eqn:Hf.
  - intros [= <-]. apply List.find_some in Hf as [Hin Hid%bool_decide_eq_true].
    apply list_elem_of_In, list_elem_of_fmap in Hin as ([h x'] & -> & Hin).
    apply (dict_elem_get _ _ _ (co_keys e Hc)) in Hin. cbn in *.
    destruct (current_hazard _ _ _ Hc Hin) as [-> _]. done.
  - intros Hm. apply max_by_elem in Hm. apply list_elem_of_In, List.filter_In in Hm as [Hin Hid].
    apply bool_decide_eq_true in Hid. apply list_elem_of_In in Hin. exfalso.
    assert (Hh : r ∈ history (IncidentRecord.hazard r) (all (store e))) by by apply elem_of_history.
    destruct (dict_get (IncidentRecord.hazard r) (current_ e)) as [x|] eqn:Hg.
    + destruct (current_hazard _ _ _ Hc Hg) as [_ Hx].
      pose proof (well_formed_ids _ _ _ (co_history e Hc _) Hh Hx) as Heq.
      apply (List.find_none _ _) with (x := x) in Hf.
      * apply bool_decide_eq_false in Hf. congruence.
      * apply list_elem_of_In, list_elem_of_fmap. exists (IncidentRecord.hazard r, x). split; [done|].
        by apply dict_get_elem.
    + rewrite (co_current e Hc) in Hg. apply last_None in Hg. rewrite Hg in Hh. by apply not_elem_of_nil in Hh.
Qed.

Lemma change_status_consistent cmd cur e r e' :
  consistent e -> dict_get (IncidentRecord.hazard cur) (current_ e) = Some cur ->
  change_status float_repr uuid5 sha256 dump_incident store_sha256 cmd cur e = (r, e') -> consistent e'.
Proof.
  intros Hc Hg. unfold change_status, bind at 1, get at 1, bind at 1, lift at 1.
  destruct (commanded cmd cur e) as [[st conf]|exc]; [|by intros [= _ <-]].
  unfold bind at 1, raise_if at 1. case_bool_decide as Hall; cbn [negb]; [|by intros [= _ <-]].
  unfold ret at 1. cbv zeta. unfold bind at 1. destruct (commit _ _ _ e) as [[[]|exc] e1] eqn:Ec;
    apply commit_run in Ec as [(exc' & Hexc & ->)|[Hexc Hcm]]; try discriminate; [|by intros [= _ <-]].
  unfold bind. intros H. assert (same_records e1 e') as Hs.
  { destruct (record_receipt _ e1) as [[?|?] e2] eqn:Er; injection H as _ <-;
      exact (proj1 (quiet_record_receipt _ _ _ _ Er)). }
  apply (same_records_consistent _ _ Hs). refine (commit_consistent _ _ _ _ _ Hc _ _ Hcm); [reflexivity|].
  change (IncidentRecord.hazard (commanded_record cmd cur st conf)) with (IncidentRecord.hazard cur).
  rewrite Hg. by apply commanded_follows.
Qed.

Lemma exec_consistent c e r e' : call_valid c -> consistent e -> exec c e = (r, e') -> consistent e'.
Proof.
  assert (Hsame : forall A (m : M t A) e r e', Steps quiet m -> consistent e -> m e = (r, e') -> consistent e').
  { intros A m e0 r0 e0' Hm Hc H. by eapply same_records_consistent; [eapply Hm|]. }
  intros Hv Hc. destruct c as [a at_|cmd|a|cmd|o]; cbn [exec].
  - intros (r' & H & _)%void_run. by eapply apply_analysis_consistent.
  - intros (r' & H & _)%void_run. unfold IncidentEventEngine.apply_status_command, bind at 1, get at 1 in H.
    destruct (incident_by_id _ e) as [cur|] eqn:Hcur; [|by injection H as _ <-].
    apply incident_by_id_current in Hcur as [Hg _]; [|done].
    unfold bind at 1, raise_if at 1 in H. destruct (negb _); [by injection H as _ <-|].
    unfold ret at 1 in H. destruct (command_receipt _ _); [by injection H as _ <-|].
    unfold bind at 1, raise_if at 1 in H. destruct (negb _); [by injection H as _ <-|]. unfold ret at 1 in H.
    destruct (IncidentStatusCommand.relational _).
    + exact (Hsame _ _ _ _ _ (relate_quiet cmd cur) Hc H).
    + by eapply change_status_consistent.
  - intros (r' & H & _)%void_run. exact (Hsame _ _ _ _ _ (review_quiet a) Hc H).
  - intros (r' & H & _)%void_run. exact (Hsame _ _ _ _ _ (authorized_review_quiet cmd) Hc H).
  - intros H. eapply same_records_consistent; [|done]. eapply (on_store_records _ o); [apply Hv|eauto|exact H].
Qed.

Lemma new_engine_consistent budget authorizer : consistent (new_engine budget authorizer).
Proof. split; [done|done|constructor|]. intros r r' Hr. by apply not_elem_of_nil in Hr. Qed.

Lemma reachable_consistent e : reachable e -> consistent e.
Proof.
  intros (budget & authorizer & H). remember (new_engine budget authorizer) as e0 eqn:He0.
  assert (consistent e0) as H0 by (subst; apply new_engine_consistent). clear He0.
  induction H as [e|e1 e2 e3 (c & r & Hv & Hc) _ IH]; [done|]. apply IH. by eapply exec_consistent.
Qed.

(** ** Projections *)
Lemma projection_report_ok e :
  consistent e -> conformant store_sha256 (store e) -> projection_failures (projection_conformance store_sha256 e) = [].
Proof.
  intros Hc Hs. unfold projection_conformance. cbv zeta. cbn [projection_failures].
  assert (Hd : forall h, dict_get h (durable e) = dict_get h (current_ e)).
  { intros h. by rewrite durable_latest, (co_current e Hc) by apply (co_history e Hc). }
  assert (Hkey : forall d h, h ∈ hazards_of d <-> exists r, dict_get h d = Some r).
  { clear. intros d h. unfold hazards_of. induction d as [|[k r] d IH]; cbn.
    - split; [by intros ?%not_elem_of_nil|by intros []].
    - rewrite elem_of_cons. destruct (decide (k = h)) as [->|Hne]; [split; eauto|]. rewrite IH.
      split; [by intros [->|]|auto]. }
  assert (Hvalid : valid (authority_conformance store_sha256 (store e)) = true).
  { pose proof (conformant_no_failures store_sha256 (store e) Hs) as Hf.
    unfold authority_conformance in *; cbn in *. by rewrite Hf. }
  rewrite Hvalid, !bool_decide_eq_true_2; cbn [andb app].
  - rewrite app_nil_r.
    assert (Hnone : forall l, List.filter (fun h =>
      match dict_get h (durable e), dict_get h (current_ e) with
      | Some l, Some r =>
          negb (bool_decide (IncidentRecord.incident_id l = IncidentRecord.incident_id r))
          || negb (IncidentRecord.version l =? IncidentRecord.version r)
          || negb (bool_decide (IncidentRecord.state l = IncidentRecord.state r))
      | _, _ => false
      end) l = []).
    { intros l. induction l as [|h l IH]; [done|]. cbn. rewrite Hd.
      destruct (dict_get h (current_ e)); [|done].
      by rewrite !bool_decide_eq_true_2, Z.eqb_refl. }
    by rewrite Hnone.
  - apply Forall_forall. intros h. rewrite !Hkey. by rewrite Hd.
  - apply Forall_forall. intros h. rewrite !Hkey. by rewrite Hd.
Qed.

(** The process is killed and started again on its database. *)
Definition restart (e : t) : t := init (store e) (notification_budget e) (command_authorizer e).

Lemma restart_current e h : consistent e -> dict_get h (current_ (restart e)) = dict_get h (current_ e).
Proof. intros Hc. cbn. rewrite (co_current e Hc). by apply (durable_latest e), (co_history e Hc). Qed.

Lemma restart_consistent e : consistent e -> consistent (restart e).
Proof.
  intros Hc. split; [apply Hc| | |apply Hc].
  - intros h. rewrite restart_current by done. apply Hc.
  - cbn. assert (forall l (d : list (HazardKind.t * IncidentRecord.t)), NoDup d.*1 ->
      NoDup (fold_left (fun d item => dict_set (IncidentRecord.hazard item) item d) l d).*1) as Hfold.
    { induction l as [|x l IH]; intros d Hd; [done|]. by apply IH, dict_set_NoDup. }
    apply Hfold. constructor.
Qed.

(** C23: the current incidents are the durable ones.  In every execution the
    dict of current records holds, for each hazard, the last record of its
    durable history and nothing else; the engine's own projection audit
    reports no failure; and an engine restarted on the same store has the same
    current records. *)
Theorem projection_matches_history e :
  reachable e ->
  (forall h, dict_get h (current_ e) = last (history h (all (store e)))) /\
  projection_valid (projection_conformance store_sha256 e) = true /\
  projection_failures (projection_conformance store_sha256 e) = [] /\
  forall budget authorizer h,
    dict_get h (current_ (init (store e) budget authorizer)) = dict_get h (current_ e).
Proof.
  intros He. pose proof (reachable_consistent e He) as Hc.
  pose proof (reachable_conformant _ _ (reachable_store e He)) as Hs.
  pose proof (projection_report_ok e Hc Hs) as Hf. split_and!; [apply Hc| |done|].
  - unfold projection_conformance in *. cbv zeta in *. cbn [projection_valid projection_failures] in *. by rewrite Hf.
  - intros budget authorizer h. cbn. rewrite (co_current e Hc).
    by apply (durable_latest e), (co_history e Hc).
Qed.

(** C20: every incident has a well-formed history.  The records of a hazard are
    versions 1, 2, 3, ... of one incident; each transition is an allowed one,
    the event-time watermark never moves back, and analyses and labels are only
    ever added; no two hazards share an incident. *)
Theorem incident_histories_well_formed e :
  reachable e ->
  (forall h, well_formed (history h (all (store e)))) /\
  (forall r r', r ∈ all (store e) -> r' ∈ all (store e) ->
     IncidentRecord.incident_id r = IncidentRecord.incident_id r' ->
     IncidentRecord.hazard r = IncidentRecord.hazard r').
Proof. intros []%reachable_consistent. done. Qed.

(** ** Analyses *)

(** Late analyses never alert.  An analysis older than the watermark of
    the current record leaves the outbox as it was, and whatever it returns,
    the state, confidence, coverage, watermark and start of the incident stay
    as they were. *)
Theorem late_analysis_never_alerts e a accepted_at c r e' :
  dict_get (AnalysisResult.hazard a) (current_ e) = Some c -> late c a = true ->
  apply_analysis a accepted_at e = (r, e') ->
  notification_intents (store e') = notification_intents (store e) /\
  exists c', dict_get (AnalysisResult.hazard a) (current_ e') = Some c' /\
    IncidentRecord.state c' = IncidentRecord.state c /\
    IncidentRecord.confidence c' = IncidentRecord.confidence c /\
    IncidentRecord.coverage c' = IncidentRecord.coverage c /\
    IncidentRecord.event_time_watermark c' = IncidentRecord.event_time_watermark c /\
    IncidentRecord.first_observed_at c' = IncidentRecord.first_observed_at c.
Proof.
  intros Hg Hl [->|(rec & n & -> & Hcm & H)]%apply_analysis_run; [eauto 10|].
  destruct H as [[_ _ _ Hlate]|(c' & Hg' & _ & -> & ->)]; [by rewrite (Hlate c Hg) in Hl|].
  assert (c' = c) as -> by congruence. destruct Hcm. split.
  - destruct cm_outbox0 as [[] ->]; by rewrite app_nil_r.
  - exists (late_correction c a accepted_at). by rewrite cm_current0, dict_get_set, decide_True.
Qed.

(** What the engine remembers of an accepted analysis: it is in the current
    record, or it was too old to change that record. *)
Definition settled (a : AnalysisResult.t) (c : IncidentRecord.t) : Prop :=
  AnalysisResult.analysis_id a ∈ IncidentRecord.analysis_ids c \/ late c a = true /\ superseded c a = true.

Lemma analysis_settles a accepted_at e r e' :
  apply_analysis a accepted_at e = (Ok r, e') ->
  dict_get (AnalysisResult.hazard a) (current_ e') = Some r /\ settled a r.
Proof.
  assert (Hnew : forall rec n, committed (AnalysisResult.hazard a) rec n e e' ->
    AnalysisResult.analysis_id a ∈ IncidentRecord.analysis_ids rec ->
    dict_get (AnalysisResult.hazard a) (current_ e') = Some rec /\ settled a rec).
  { intros rec n [] Hin. rewrite cm_current0, dict_get_set, decide_True by done. by split; [|left]. }
  unfold IncidentEventEngine.apply_analysis, bind at 1, get at 1. cbv zeta.
  assert (Hfresh : forall cur, accept_analysis uuid5 store_sha256 cur a accepted_at e = (Ok r, e') ->
    dict_get (AnalysisResult.hazard a) (current_ e') = Some r /\ settled a r).
  { intros cur [[[exc [= ]] _]|(rec & n & [= ->] & Hcm & Hrec & _)]%accept_analysis_run.
    apply (Hnew _ _ Hcm). rewrite Hrec. cbn. apply elem_of_app. right. left. }
  destruct (dict_get (AnalysisResult.hazard a) (current_ e)) as [c|] eqn:Hg; [|by eapply Hfresh].
  destruct (decide _) as [Hin|Hin]; [intros [= <- <-]; by split; [|left]|].
  destruct (late c a) eqn:Hl; [|by eapply Hfresh]. destruct (superseded c a) eqn:Hs.
  - intros [= <- <-]. by split; [|right].
  - unfold bind. destruct (commit _ _ None e) as [[[]|exc] e1] eqn:Ec; [|done]. intros [= <- <-].
    apply commit_run in Ec as [(? & [= ] & _)|[_ Hcm]]. apply (Hnew _ _ Hcm).
    cbn. apply elem_of_app. right. left.
Qed.

Lemma settled_replay a accepted_at e r :
  dict_get (AnalysisResult.hazard a) (current_ e) = Some r -> settled a r ->
  apply_analysis a accepted_at e = (Ok r, e).
Proof.
  intros Hg H. unfold IncidentEventEngine.apply_analysis, bind, get. cbv zeta. rewrite Hg.
  case_decide; [done|]. destruct H as [?|[-> ->]]; done.
Qed.

(** An analysis is applied once.  Applying again an analysis that was
    accepted, now or at any later time, returns the same record and changes
    nothing. *)
Theorem analysis_applied_once a accepted_at accepted_at' e r e' :
  apply_analysis a accepted_at e = (Ok r, e') -> apply_analysis a accepted_at' e' = (Ok r, e').
Proof. intros []%analysis_settles. by apply settled_replay. Qed.

(** The decision table of an analysis that is neither known nor late.  A
    blind or abstaining one always leads to DEGRADED; SUSPECTED and CONFIRMED
    are reached only on the hint of an analysis that is neither; negative
    evidence sends SUSPECTED and CONFIRMED to RESOLVING, never to NORMAL; an
    illegal transition raises, and whenever the call raises nothing changes. *)
Theorem analysis_decision a accepted_at e r e' :
  let cur := dict_get (AnalysisResult.hazard a) (current_ e) in
  let blind := AnalysisResult.abstained a || bool_decide (AnalysisResult.coverage a = CoverageState.BLIND) in
  let target := (target_of cur a).1 in
  (forall c, cur = Some c -> AnalysisResult.analysis_id a ∉ IncidentRecord.analysis_ids c /\ late c a = false) ->
  apply_analysis a accepted_at e = (r, e') ->
  (blind = true -> target = IncidentState.DEGRADED) /\
  (target = IncidentState.SUSPECTED \/ target = IncidentState.CONFIRMED ->
     target = AnalysisResult.state_hint a /\ blind = false) /\
  (previous_state cur = IncidentState.SUSPECTED \/ previous_state cur = IncidentState.CONFIRMED ->
     target <> IncidentState.NORMAL) /\
  (target ∉ ALLOWED (previous_state cur) ->
     r = Raise (ValueError ("illegal incident transition " +:+ IncidentState.value (previous_state cur)
                            +:+ "->" +:+ IncidentState.value target))) /\
  match r with
  | Ok rec => IncidentRecord.state rec = target /\ dict_get (AnalysisResult.hazard a) (current_ e') = Some rec
  | Raise _ => e' = e
  end.
Proof.
  cbv zeta. set (cur := dict_get _ (current_ e)). intros Hnew Hrun.
  assert (H : accept_analysis uuid5 store_sha256 cur a accepted_at e = (r, e')).
  { unfold IncidentEventEngine.apply_analysis, bind at 1, get at 1 in Hrun. cbv zeta in Hrun. fold cur in Hrun.
    destruct cur as [c|]; [|done]. destruct (Hnew c eq_refl) as [Hin Hl]. by rewrite decide_False, Hl in Hrun. }
  clear Hrun Hnew. split_and!.
  - intros Hb. unfold target_of. rewrite Hb. by destruct cur.
  - unfold target_of. destruct (_ || _).
    + destruct cur; cbn; by intros [|].
    + destruct cur; cbn; [|done]. destruct (_ && _); [by intros [|]|done].
  - unfold target_of, previous_state. destruct cur as [c|]; [|by intros [|]]. intros Hp.
    destruct (if _ || _ then _ else _) as [target reasons]. destruct (_ && _) eqn:E; [done|]. cbn. intros ->.
    by destruct Hp as [Hp|Hp]; rewrite Hp in E.
  - intros Hn. unfold accept_analysis, bind at 1, get at 1 in H. destruct (target_of cur a) as [target reasons].
    cbn [fst] in Hn. cbv zeta in H. unfold bind at 1, raise_if at 1 in H.
    rewrite bool_decide_eq_false_2 in H by done. by injection H as <- _.
  - apply accept_analysis_run in H as [[[exc ->] ->]|(rec & n & -> & Hcm & -> & _)]; [done|].
    split; [done|]. by rewrite (cm_current _ _ _ _ _ Hcm), dict_get_set, decide_True.
Qed.

(** ** Notifications *)

(** The notification policy.  An intent is created exactly when the state
    changes into one that is notified; it is suppressed while the incident is
    snoozed or once its budget is used, except that a confirmation is never
    suppressed; its key names the incident, the version and the state. *)
Theorem notification_policy rec prev accepted_at e :
  let notified := bool_decide (IncidentRecord.state rec ∈ NOTIFY_STATES)
                  && negb (bool_decide (IncidentRecord.state rec = prev)) in
  let confirmed := bool_decide (IncidentRecord.state rec = IncidentState.CONFIRMED) in
  let muted := snoozed (review_state (IncidentRecord.incident_id rec) (store e)) accepted_at
               || (notification_budget e <=? notification_count (IncidentRecord.incident_id rec) (store e)) in
  match notification_for rec prev accepted_at e with
  | None => notified = false
  | Some n =>
      notified = true /\
      NotificationIntent.status n
        = (if negb confirmed && muted then NotificationStatus.SUPPRESSED else NotificationStatus.PENDING) /\
      NotificationIntent.incident_id n = IncidentRecord.incident_id rec /\
      NotificationIntent.incident_version n = IncidentRecord.version rec /\
      NotificationIntent.incident_state n = IncidentRecord.state rec /\
      NotificationIntent.idempotency_key n = idempotency_key_of rec /\
      ("notification_budget_exhausted" ∈ NotificationIntent.reason_codes n <->
         confirmed = false /\
         notification_budget e <= notification_count (IncidentRecord.incident_id rec) (store e))
  end.
Proof.
  cbv zeta. unfold IncidentEventEngine.notification_for.
  destruct (bool_decide (IncidentRecord.state rec ∈ NOTIFY_STATES)); [|done]. cbn [negb orb andb].
  destruct (bool_decide (IncidentRecord.state rec = prev)); [done|]. cbn [negb].
  destruct (snoozed _ _), (bool_decide (IncidentRecord.state rec = IncidentState.CONFIRMED)),
    (notification_budget e <=? _) eqn:Hb; cbn; split_and!; try done; rewrite ?elem_of_cons, ?elem_of_nil;
    intuition (discriminate || lia).
Qed.

(** Intents that were let through the budget. *)
Definition alerting (id : UUID) (n : UUID * UUID * IncidentState.t * string * list string) : bool :=
  let '(_, incident_id, state, _, reasons) := n in
  bool_decide (incident_id = id) && negb (bool_decide (state = IncidentState.CONFIRMED))
  && negb (bool_decide ("notification_budget_exhausted" ∈ reasons)).

Definition cores (e : t) := intent_core <$> notification_intents (store e).
Definition alerts (id : UUID) (e : t) : Z := Z.of_nat (length (List.filter (alerting id) (cores e))).

(** Every call leaves the outbox alone or adds at most one intent of the policy. *)
Definition outbox_step (e e' : t) : Prop :=
  notification_budget e' = notification_budget e /\
  (cores e' = cores e \/
   exists rec prev accepted_at n, notification_for rec prev accepted_at e = Some n /\
     cores e' = cores e ++ [intent_core n]).

Lemma outbox_refl e : outbox_step e e.
Proof. split; [done|by left]. Qed.

Lemma quiet_outbox e e' : quiet e e' -> outbox_step e e'.
Proof. intros (_ & Hn & Hb & _). split; [done|left]. unfold cores. by rewrite Hn. Qed.

Lemma quiet_outbox_step e e1 e' : outbox_step e e1 -> quiet e1 e' -> outbox_step e e'.
Proof.
  intros [Hb H] (_ & Hn & Hb' & _). assert (cores e' = cores e1) as Hc by (unfold cores; by rewrite Hn).
  split; [congruence|]. by rewrite Hc.
Qed.

Lemma committed_outbox h rec n e e' :
  committed h rec n e e' ->
  (n = None \/ exists prev accepted_at, n = notification_for rec prev accepted_at e) -> outbox_step e e'.
Proof.
  intros [] Hn. split; [done|]. unfold cores. destruct cm_outbox0 as [b ->]. rewrite fmap_app.
  destruct b; [|left; apply app_nil_r]. destruct Hn as [->|(prev & at_ & ->)]; [left; apply app_nil_r|].
  destruct (notification_for rec prev at_ e) as [n|] eqn:Hn; [right; eauto 8|left; apply app_nil_r].
Qed.

Lemma exec_outbox_step c e r e' :
  call_valid c -> consistent e -> outbox_ok (store e) -> exec c e = (r, e') -> outbox_step e e'.
Proof.
  intros Hv Hcons Hok. destruct c as [a at_|cmd|a|cmd|o]; cbn [exec].
  - intros (r' & [->|(rec & n & _ & Hcm & H)]%apply_analysis_run & _)%void_run; [apply outbox_refl|].
    eapply committed_outbox; [done|]. destruct H as [[_ _ Hn _]|(_ & _ & _ & _ & ->)]; [right; eauto|by left].
  - intros (r' & H & _)%void_run. unfold IncidentEventEngine.apply_status_command, bind at 1, get at 1 in H.
    destruct (incident_by_id _ e) as [cur|]; [|injection H as _ <-; apply outbox_refl].
    unfold bind at 1, raise_if at 1 in H. destruct (negb _); [injection H as _ <-; apply outbox_refl|].
    unfold ret at 1 in H. destruct (command_receipt _ _); [injection H as _ <-; apply outbox_refl|].
    unfold bind at 1, raise_if at 1 in H. destruct (negb _); [injection H as _ <-; apply outbox_refl|].
    unfold ret at 1 in H. destruct (IncidentStatusCommand.relational _).
    { by eapply quiet_outbox, relate_quiet. }
    unfold change_status, bind at 1, get at 1, bind at 1, lift at 1 in H.
    destruct (commanded cmd cur e) as [[st conf]|exc]; [|injection H as _ <-; apply outbox_refl].
    unfold bind at 1, raise_if at 1 in H. destruct (negb _); [injection H as _ <-; apply outbox_refl|].
    unfold ret at 1 in H. cbv zeta in H. unfold bind at 1 in H.
    destruct (commit _ _ _ e) as [[[]|exc] e1] eqn:Ec;
      apply commit_run in Ec as [(exc' & Hexc & ->)|[Hexc Hcm]]; try discriminate;
      [|injection H as _ <-; apply outbox_refl].
    eapply quiet_outbox_step; [eapply committed_outbox; [exact Hcm|right; eauto]|].
    unfold bind in H. destruct (record_receipt _ e1) as [[?|?] e2] eqn:Er; injection H as _ <-;
      exact (quiet_record_receipt _ _ _ _ Er).
  - intros (r' & H & _)%void_run. exact (quiet_outbox _ _ (review_quiet a _ _ _ H)).
  - intros (r' & H & _)%void_run. exact (quiet_outbox _ _ (authorized_review_quiet cmd _ _ _ H)).
  - unfold on_store, zoom. destruct (JournalTheorems.exec store_sha256 o (store e)) as [r1 s1] eqn:Ho.
    intros [= _ <-]. split; [done|left]. unfold cores; cbn. destruct Hv as [_ Hv].
    assert ((forall id d rc e at_, o <> RecordDelivery id d rc e at_)
            \/ exists id d rc e at_, o = RecordDelivery id d rc e at_) as [Hd|(id & d & rc & er & at_ & ->)]
      by (destruct o; (by left) || (right; by repeat eexists)).
    { by destruct (exec_outbox _ _ _ _ _ Hv Hd Ho) as [_ ->]. }
    cbn in Ho. unfold void, bind in Ho.
    destruct (record_delivery store_sha256 id d rc er at_ (store e)) as [[x|x] s2] eqn:Hr;
      injection Ho as _ <-; by apply record_delivery_core in Hr.
Qed.

(** The alert budget holds in every execution.  For each incident, at most
    [notification_budget] intents that are not confirmations are ever let
    through; the others carry the reason that the budget is exhausted. *)
Theorem alert_budget_respected e id :
  reachable e -> alerts id e <= Z.max 0 (notification_budget e).
Proof.
  intros (budget & authorizer & H). remember (new_engine budget authorizer) as e0 eqn:He0.
  assert (reachable e0) as Hr by (subst; exists budget, authorizer; apply rtc_refl).
  assert (alerts id e0 <= Z.max 0 (notification_budget e0)) as H0 by (subst; exact (Z.le_max_l 0 _)). clear He0.
  induction H as [e|e1 e2 e3 (c & r & Hv & Hc) _ IH]; [done|].
  assert (reachable e2) as Hr2.
  { destruct Hr as (b & au & Hr). exists b, au. eapply rtc_r; [exact Hr|by exists c, r]. }
  apply IH; [done|]. apply exec_outbox_step in Hc as [Hb Hcore]; [|done|by apply reachable_consistent|].
  2: { pose proof (reachable_store _ Hr) as Hs. apply steps_grow in Hs. apply (gr_outbox _ _ _ Hs). constructor. }
  rewrite Hb. unfold alerts in *. destruct Hcore as [->|(rec & prev & at_ & n & Hn & ->)]; [done|].
  rewrite List.filter_app, length_app. cbn [List.filter].
  destruct (alerting id (intent_core n)) eqn:Ha; cbn [length]; [|lia].
  pose proof (notification_policy rec prev at_ e1) as Hp. cbv zeta in Hp. rewrite Hn in Hp.
  destruct Hp as (_ & _ & Hid & _ & Hst & _ & Hex).
  unfold alerting, intent_core in Ha. apply andb_true_iff in Ha as [[Hi Hconf]%andb_true_iff Hre].
  apply bool_decide_eq_true in Hi. rewrite Hst in Hconf. apply negb_true_iff in Hconf.
  apply negb_true_iff, bool_decide_eq_false in Hre.
  assert (Hlt : notification_count id (store e1) < notification_budget e1).
  { destruct (Z.lt_ge_cases (notification_count id (store e1)) (notification_budget e1)); [done|].
    destruct Hre. apply Hex. split; [done|]. by rewrite <- Hid, Hi. }
  assert (Hle : Z.of_nat (length (List.filter (alerting id) (cores e1))) <= notification_count id (store e1)).
  { unfold notification_count, select, cores. generalize (notification_intents (store e1)). clear.
    intros l. induction l as [|n l IH]; [done|]. cbn [fmap list_fmap List.filter].
    unfold alerting at 1, intent_core at 1.
    destruct (bool_decide (NotificationIntent.incident_id n = id)); cbn [andb]; [|done].
    destruct (_ && _); cbn [length]; lia. }
  lia.
Qed.

(** ** Commands *)
Lemma incident_by_id_of_current e h r :
  consistent e -> dict_get h (current_ e) = Some r -> incident_by_id (IncidentRecord.incident_id r) e = Some r.
Proof.
  intros Hc Hg. destruct (current_hazard _ _ _ Hc Hg) as [Hh Hin]. unfold incident_by_id.
  destruct (List.find _ (current_ e).*2) as [x|] eqn:Hf.
  - f_equal. apply List.find_some in Hf as [Hx Hid%bool_decide_eq_true].
    apply list_elem_of_In, list_elem_of_fmap in Hx as ([k x'] & -> & Hx). cbn [fst snd] in *.
    apply (dict_elem_get _ _ _ (co_keys e Hc)) in Hx.
    destruct (current_hazard _ _ _ Hc Hx) as [Hk Hxin].
    apply elem_of_history in Hin as [Hin _], Hxin as [Hxin _].
    pose proof (co_ids e Hc _ _ Hxin Hin Hid). congruence.
  - apply (List.find_none _ _) with (x := r) in Hf.
    + by rewrite bool_decide_eq_true_2 in Hf.
    + apply list_elem_of_In, list_elem_of_fmap. exists (h, r). split; [done|]. by apply dict_get_elem.
Qed.

(** Storing a receipt under a key that has none. *)
Lemma record_receipt_ok rc e x e' :
  command_receipt (CommandReceipt.scoped_idempotency_key rc) (store e) = None ->
  record_receipt rc e = (Ok x, e') ->
  x = rc /\ command_receipt (CommandReceipt.scoped_idempotency_key rc) (store e') = Some rc /\
  incident_review_state (store e') = incident_review_state (store e) /\
  relations (store e') = relations (store e).
Proof.
  intros Hnone. unfold IncidentEventEngine.record_receipt, bind at 1, lift.
  assert (Hv : forall r, CommandReceipt.validate rc = Ok r -> r = rc).
  { unfold CommandReceipt.validate. by intros r ([] & _ & [= <-])%rbind_ok. }
  destruct (CommandReceipt.validate rc) as [rc'|]; [|done]. rewrite (Hv rc' eq_refl). clear Hv rc'.
  unfold on_store, zoom. destruct (record_command_receipt store_sha256 rc (store e)) as [r s'] eqn:Hr.
  intros [= -> <-]. cbn [store set_store]. unfold record_command_receipt in Hr. rewrite transaction_ok in Hr.
  apply bind_ok in Hr as (z & s1 & [= <- <-] & Hr). rewrite Hnone in Hr.
  apply bind_ok in Hr as (p & s1 & H1%append_authority_view & Hr). injection H1 as _ _ Hrs Hrc Hrl.
  apply bind_ok in Hr as ([] & s2 & [-> _]%insert_ok & [= <- <-]).
  split; [done|]. split; [|done]. unfold command_receipt, select_one in *.
  cbn [IncidentJournalStore.receipts set_receipts]. rewrite Hrc.
  revert Hnone. generalize (IncidentJournalStore.receipts (store e)). intros l.
  induction l as [|y l IH]; cbn; [by rewrite bool_decide_eq_true_2|]. destruct (bool_decide _); [done|exact IH].
Qed.

Lemma record_relation_ok rel e x e' :
  on_store (record_incident_relation store_sha256 rel) e = (Ok x, e') ->
  x ∈ relations (store e') /\ IncidentJournalStore.receipts (store e') = IncidentJournalStore.receipts (store e).
Proof.
  unfold on_store, zoom. destruct (record_incident_relation store_sha256 rel (store e)) as [r s'] eqn:Hr.
  intros [= -> <-]. cbn [store set_store]. unfold record_incident_relation in Hr. rewrite transaction_ok in Hr.
  unfold record_once in Hr. apply bind_ok in Hr as (z & s1 & [= <- <-] & Hr).
  destruct (select_one _ _) as [old|] eqn:Hold.
  - apply bind_ok in Hr as ([] & s1 & [_ ->]%raise_if_ok & [= <- <-]). split; [|done].
    apply List.find_some in Hold as [Hin _]. by apply list_elem_of_In.
  - apply bind_ok in Hr as ([] & s1 & Hr & [= <- <-]).
    apply bind_ok in Hr as (p & s2 & H1%append_authority_view & [-> _]%insert_ok).
    injection H1 as _ _ _ Hrc Hrl. cbn. split; [|done]. apply elem_of_app. right. left.
Qed.

Lemma relate_ok cmd cur e r e' :
  command_receipt (status_scope float_repr sha256 cmd) (store e) = None ->
  relate float_repr uuid5 sha256 store_sha256 cmd cur e = (Ok r, e') ->
  exists rel, r = StatusRelation rel /\ rel ∈ relations (store e') /\
    command_receipt (status_scope float_repr sha256 cmd) (store e')
    = Some (status_receipt float_repr sha256 cmd (IncidentRecord.version cur)
              (IncidentRelation.relation_id rel) "incident_relation_committed").
Proof.
  intros Hnone H. unfold relate in H. apply bind_ok in H as (z & e1 & [= <- <-] & H).
  destruct (IncidentStatusCommand.related_incident_id cmd), (IncidentStatusCommand.related_hazard cmd); try done.
  destruct (incident_by_id _ e) as [related|]; [|done]. cbv zeta in H.
  apply bind_ok in H as ([] & e1 & [_ ->]%raise_if_ok & H).
  apply bind_ok in H as ([] & e1 & [_ ->]%raise_if_ok & H).
  apply bind_ok in H as ([] & e1 & [_ ->]%raise_if_ok & H).
  apply bind_ok in H as (rel & e1 & [= _ <-] & H).
  apply bind_ok in H as (rel' & e2 & [Hin Hrc]%record_relation_ok & H).
  apply bind_ok in H as (x & e3 & Hrec & [= <- <-]).
  assert (Hnone2 : command_receipt (status_scope float_repr sha256 cmd) (store e2) = None)
    by (unfold command_receipt; by rewrite Hrc).
  apply record_receipt_ok in Hrec as (-> & Hrec & _ & Hrl); [|done].
  exists rel'. split; [done|]. rewrite Hrl. by split.
Qed.

Lemma change_status_ok cmd cur e r e' :
  consistent e -> dict_get (IncidentRecord.hazard cur) (current_ e) = Some cur ->
  command_receipt (status_scope float_repr sha256 cmd) (store e) = None ->
  change_status float_repr uuid5 sha256 dump_incident store_sha256 cmd cur e = (Ok r, e') ->
  exists st conf digest_,
    let rec := commanded_record cmd cur st conf in
    commanded cmd cur e = Ok (st, conf) /\ st ∈ ALLOWED (IncidentRecord.state cur) /\
    r = StatusRecord rec /\ dict_get (IncidentRecord.hazard cur) (current_ e') = Some rec /\
    command_receipt (status_scope float_repr sha256 cmd) (store e')
    = Some (status_receipt float_repr sha256 cmd (IncidentRecord.version rec) digest_
              "component4_incident_command_committed").
Proof.
  intros Hcons Hg Hnone H. unfold change_status in H. apply bind_ok in H as (z & e1 & [= <- <-] & H).
  apply bind_ok in H as ([st conf] & e1 & [= Hcmd <-] & H).
  apply bind_ok in H as ([] & e1 & [Hall ->]%raise_if_ok & H). cbv zeta in H.
  apply negb_false_iff, bool_decide_eq_true in Hall.
  apply bind_ok in H as ([] & e2 & Hcommit & H). apply bind_ok in H as (x & e3 & Hrec & [= <- <-]).
  apply commit_run in Hcommit as [(? & [= ] & _)|[_ []]].
  assert (Hnone2 : command_receipt (status_scope float_repr sha256 cmd) (store e2) = None)
    by (unfold command_receipt; by rewrite cm_receipts0).
  pose proof (quiet_record_receipt _ _ _ _ Hrec) as [[_ Hcur] _].
  apply record_receipt_ok in Hrec as (-> & Hrec & _); [|done].
  eexists st, conf, _. cbv zeta. split_and!; [done|done|done| |exact Hrec].
  by rewrite Hcur, cm_current0, dict_get_set, decide_True.
Qed.

(** What a status command that returns has seen and done. *)
Lemma apply_status_command_ok cmd e r e' :
  consistent e -> apply_status_command cmd e = (Ok r, e') ->
  exists cur, incident_by_id (IncidentStatusCommand.incident_id cmd) e = Some cur /\
    IncidentRecord.hazard cur = IncidentStatusCommand.hazard cmd /\
    ((exists existing, command_receipt (status_scope float_repr sha256 cmd) (store e) = Some existing /\
        replayed float_repr sha256 cmd existing e = Ok r /\ e' = e) \/
     (command_receipt (status_scope float_repr sha256 cmd) (store e) = None /\
      IncidentRecord.version cur = IncidentStatusCommand.expected_version cmd /\
      if IncidentStatusCommand.relational (IncidentStatusCommand.command cmd)
      then relate float_repr uuid5 sha256 store_sha256 cmd cur e = (Ok r, e')
      else change_status float_repr uuid5 sha256 dump_incident store_sha256 cmd cur e = (Ok r, e'))).
Proof.
  intros Hc H. unfold IncidentEventEngine.apply_status_command in H.
  apply bind_ok in H as (z & e1 & [= <- <-] & H).
  destruct (incident_by_id _ e) as [cur|] eqn:Hcur; [|done]. exists cur. split; [done|].
  apply bind_ok in H as ([] & e1 & [Hh ->]%raise_if_ok & H).
  split; [by apply negb_false_iff, bool_decide_eq_true in Hh|].
  destruct (command_receipt _ (store e)) as [existing|] eqn:Hex.
  - left. exists existing. unfold lift in H. by injection H as -> ->.
  - right. apply bind_ok in H as ([] & e1 & [Hv ->]%raise_if_ok & H).
    apply negb_false_iff, Z.eqb_eq in Hv. split_and!; [done|done|].
    by destruct (IncidentStatusCommand.relational _).
Qed.

(** A status command takes effect once.  When a command was accepted,
    issuing it again changes nothing; it returns the record it produced, or
    for LINK and MERGE a relation with the identifier of the one it made. *)
Theorem status_command_applied_once cmd e r e' :
  reachable e -> apply_status_command cmd e = (Ok r, e') ->
  exists r', apply_status_command cmd e' = (Ok r', e') /\
    match r, r' with
    | StatusRecord x, StatusRecord y => x = y
    | StatusRelation x, StatusRelation y => IncidentRelation.relation_id x = IncidentRelation.relation_id y
    | _, _ => False
    end.
Proof.
  intros Hr H. pose proof (reachable_consistent e Hr) as Hc. pose proof H as Hrun.
  apply apply_status_command_ok in H as (cur & Hcur & Hh & [(ex & _ & _ & ->)|(Hnone & _ & H)]); [| |done].
  { exists r. split; [done|]. by destruct r. }
  destruct (incident_by_id_current _ _ _ Hc Hcur) as [Hg Hid].
  assert (Hc' : consistent e').
  { eapply (exec_consistent (StatusCommand cmd)); [done|exact Hc|]. cbn. unfold void, bind. by rewrite Hrun. }
  assert (Hagain : forall ex cur', incident_by_id (IncidentStatusCommand.incident_id cmd) e' = Some cur' ->
    IncidentRecord.hazard cur' = IncidentStatusCommand.hazard cmd ->
    command_receipt (status_scope float_repr sha256 cmd) (store e') = Some ex ->
    apply_status_command cmd e' = (replayed float_repr sha256 cmd ex e', e')).
  { intros ex cur' Hcur' Hh' Hex. unfold IncidentEventEngine.apply_status_command, bind at 1, get at 1.
    rewrite Hcur'. unfold bind at 1, raise_if at 1. rewrite bool_decide_eq_true_2 by done. cbn [negb].
    unfold ret at 1. by rewrite Hex. }
  destruct (IncidentStatusCommand.relational _) eqn:Hrel.
  - pose proof (relate_quiet cmd cur _ _ _ H) as [[Hall Hcurs] _].
    apply relate_ok in H as (rel & -> & Hin & Hex); [|done].
    assert (Hcur' : incident_by_id (IncidentStatusCommand.incident_id cmd) e' = Some cur).
    { rewrite <- Hid. apply (incident_by_id_of_current _ (IncidentRecord.hazard cur)); [done|]. by rewrite Hcurs. }
    rewrite (Hagain _ _ Hcur' Hh Hex). unfold replayed. rewrite bool_decide_eq_true_2 by done. cbn [negb].
    rewrite Hrel. destruct (List.find _ _) as [rel'|] eqn:Hf.
    + exists (StatusRelation rel'). split; [done|]. apply List.find_some in Hf as [_ Hf%bool_decide_eq_true].
      cbn in Hf. congruence.
    + exfalso. apply (List.find_none _ _) with (x := rel) in Hf.
      * by rewrite bool_decide_eq_true_2 in Hf.
      * apply list_elem_of_In. unfold incident_relations, order_by. by rewrite sort_by_perm.
  - apply change_status_ok in H as (st & conf & d & _ & _ & -> & Hg' & Hex); [|done|done|done].
    set (rec := commanded_record cmd cur st conf) in *.
    assert (Hcur' : incident_by_id (IncidentStatusCommand.incident_id cmd) e' = Some rec).
    { rewrite <- Hid. exact (incident_by_id_of_current _ _ _ Hc' Hg'). }
    rewrite (Hagain _ _ Hcur' Hh Hex). unfold replayed. rewrite bool_decide_eq_true_2 by done. cbn [negb].
    rewrite Hrel, Hcur'. by exists (StatusRecord rec).
Qed.

(** What a status command requires.  One that was not accepted before
    succeeds only against the version its sender saw; RESOLVE never closes an
    incident whose sensors are blind, nor a confirmed one nobody has
    acknowledged; REOPEN applies to resolved incidents only; every accepted
    change is the next version in an allowed state, and CORROBORATE and
    CONTRADICT leave the state alone. *)
Theorem status_command_guards cmd e r e' :
  reachable e -> apply_status_command cmd e = (Ok (StatusRecord r), e') ->
  command_receipt (status_scope float_repr sha256 cmd) (store e) = None ->
  IncidentStatusCommand.relational (IncidentStatusCommand.command cmd) = false ->
  exists cur, dict_get (IncidentStatusCommand.hazard cmd) (current_ e) = Some cur /\
    IncidentRecord.incident_id cur = IncidentStatusCommand.incident_id cmd /\
    IncidentRecord.version cur = IncidentStatusCommand.expected_version cmd /\
    IncidentRecord.version r = IncidentRecord.version cur + 1 /\
    IncidentRecord.state r ∈ ALLOWED (IncidentRecord.state cur) /\
    match IncidentStatusCommand.command cmd with
    | IncidentCommandKind.RESOLVE =>
        IncidentRecord.coverage cur <> CoverageState.BLIND /\
        (IncidentRecord.state cur = IncidentState.CONFIRMED ->
           is_Some (IncidentReviewState.acknowledged_at
             (review_state (IncidentRecord.incident_id cur) (store e))))
    | IncidentCommandKind.REOPEN =>
        IncidentRecord.state cur = IncidentState.RESOLVED /\ IncidentRecord.state r = IncidentState.SUSPECTED
    | _ => IncidentRecord.state r = IncidentRecord.state cur
    end.
Proof.
  intros Hr H Hnone Hrel. pose proof (reachable_consistent e Hr) as Hc.
  apply apply_status_command_ok in H as (cur & Hcur & Hh & [(ex & Hex & _)|(_ & Hv & H)]);
    [by rewrite Hnone in Hex| |done].
  rewrite Hrel in H. destruct (incident_by_id_current _ _ _ Hc Hcur) as [Hg Hid].
  apply change_status_ok in H as (st & conf & d & Hcmd & Hall & [= ->] & _); [|done|done|done].
  exists cur. rewrite <- Hh. split_and!; try done. unfold commanded in Hcmd. cbn.
  destruct (IncidentStatusCommand.command cmd); try by injection Hcmd as <- _.
  - apply rbind_ok in Hcmd as ([] & Hb%check_ok & Hcmd).
    apply rbind_ok in Hcmd as ([] & Ha%check_ok & [= <- _]). apply bool_decide_eq_false in Hb.
    split; [done|]. intros Hs. rewrite Hs in Ha. cbn in Ha. apply bool_decide_eq_false in Ha.
    destruct (IncidentReviewState.acknowledged_at _); [eauto|done].
  - apply rbind_ok in Hcmd as ([] & Hb%check_ok & [= <- _]).
    by apply negb_false_iff, bool_decide_eq_true in Hb.
Qed.

(** ** Reviews *)
Lemma record_review_ok a e st e' :
  on_store (record_review store_sha256 a) e = (Ok st, e') ->
  review_state (ReviewAction.incident_id a) (store e') = st /\
  IncidentJournalStore.receipts (store e') = IncidentJournalStore.receipts (store e).
Proof.
  unfold on_store, zoom. destruct (record_review store_sha256 a (store e)) as [r s'] eqn:Hr.
  intros [= -> <-]. cbn [store set_store]. unfold record_review in Hr. rewrite transaction_ok in Hr.
  apply bind_ok in Hr as (z & s1 & [= <- <-] & Hr). cbv zeta in Hr.
  apply bind_ok in Hr as (p & s1 & H1%append_authority_view & Hr). injection H1 as _ _ Hrv Hrc _.
  apply bind_ok in Hr as ([] & s2 & [-> _]%insert_ok & Hr).
  apply bind_ok in Hr as ([] & s3 & [= <-] & [= Hst <-]).
  set (id := ReviewAction.incident_id a) in *.
  assert (Hid : IncidentReviewState.incident_id st = id).
  { subst st. assert (Hrow : forall rows, IncidentReviewState.incident_id (review_row id rows) = id)
      by (intros rows; unfold review_row; by destruct (rows !! id)).
    unfold apply_review, review_state. destruct (ReviewAction.action a); cbn; apply Hrow. }
  split; [|exact Hrc]. unfold review_state at 1. cbn [incident_review_state set_incident_review_state].
  rewrite Hst, Hid. unfold review_row. rewrite lookup_insert, decide_True by done.
  by destruct st; cbn in *; subst.
Qed.

(** What an accepted review leaves in the store. *)
Lemma review_recorded cmd e st rc e' :
  apply_authorized_review cmd e = (Ok (st, rc), e') ->
  CommandAuthorizer.verify float_repr isoformat sha256 hmac (command_authorizer e)
    (AuthorizedReviewCommand.authorization cmd) (authorized_review_payload isoformat cmd)
    (review_operation cmd) (review_target cmd) (Some (review_principal cmd))
    (AuthorizedReviewCommand.submitted_at cmd) = Ok tt /\
  command_authorizer e' = command_authorizer e /\
  command_receipt (review_scope float_repr sha256 cmd) (store e') = Some rc /\
  CommandReceipt.payload_sha256 rc = AuthorizedReviewCommand.payload_sha256 cmd /\
  review_state (AuthorizedReviewCommand.incident_id cmd) (store e') = st.
Proof.
  intros H. pose proof H as Hrun. pose proof (authorized_review_quiet cmd _ _ _ Hrun) as (_ & _ & _ & Hauth).
  unfold IncidentEventEngine.apply_authorized_review in H. apply bind_ok in H as (z & e1 & [= <- <-] & H).
  apply bind_ok in H as ([] & e1 & [= Hv <-] & H). split; [done|]. split; [done|].
  destruct (command_receipt _ (store e)) as [ex|] eqn:Hex.
  { apply bind_ok in H as ([] & e1 & [Hp ->]%raise_if_ok & [= <- <- <-]).
    apply negb_false_iff, bool_decide_eq_true in Hp. by split_and!. }
  apply bind_ok in H as (a & e1 & [= Ha <-] & H). apply bind_ok in H as (st' & e2 & Hrev & H).
  apply bind_ok in H as (rc' & e3 & Hrec & [= <- <- <-]).
  assert (a = review_action cmd) as ->.
  { unfold ReviewAction.validate in Ha. by repeat (apply rbind_ok in Ha as ([] & _ & Ha)); injection Ha. }
  unfold IncidentEventEngine.review in Hrev. apply bind_ok in Hrev as (z & e1 & [= <- <-] & Hrev).
  apply bind_ok in Hrev as ([] & e1 & [_ ->]%raise_if_ok & Hrev).
  apply record_review_ok in Hrev as [Hst Hrc].
  apply record_receipt_ok in Hrec as (-> & Hrec & Hrs & _); [|unfold command_receipt; cbn; by rewrite Hrc].
  split_and!; [exact Hrec|done|]. rewrite <- Hst. unfold review_state. by rewrite Hrs.
Qed.

(** A verified command of the same scope and payload is answered from the store. *)
Lemma review_replayed cmd e rc :
  CommandAuthorizer.verify float_repr isoformat sha256 hmac (command_authorizer e)
    (AuthorizedReviewCommand.authorization cmd) (authorized_review_payload isoformat cmd)
    (review_operation cmd) (review_target cmd) (Some (review_principal cmd))
    (AuthorizedReviewCommand.submitted_at cmd) = Ok tt ->
  command_receipt (review_scope float_repr sha256 cmd) (store e) = Some rc ->
  CommandReceipt.payload_sha256 rc = AuthorizedReviewCommand.payload_sha256 cmd ->
  apply_authorized_review cmd e = (Ok (review_state (AuthorizedReviewCommand.incident_id cmd) (store e), rc), e).
Proof.
  intros Hv Hrec Hp.
  unfold IncidentEventEngine.apply_authorized_review, bind at 1, get at 1, bind at 1, lift at 1.
  rewrite Hv, Hrec. unfold bind, raise_if. by rewrite bool_decide_eq_true_2.
Qed.

(** A review is authorized and applied once.  An accepted review carries a
    decision that the authorizer verifies for exactly this payload, operation
    and target at the time it was submitted; the same command again returns
    the same review state and receipt and changes nothing. *)
Theorem review_authorized_and_applied_once cmd e st rc e' :
  apply_authorized_review cmd e = (Ok (st, rc), e') ->
  CommandAuthorizer.verify float_repr isoformat sha256 hmac (command_authorizer e)
    (AuthorizedReviewCommand.authorization cmd) (authorized_review_payload isoformat cmd)
    (review_operation cmd) (review_target cmd) (Some (review_principal cmd))
    (AuthorizedReviewCommand.submitted_at cmd) = Ok tt /\
  apply_authorized_review cmd e' = (Ok (st, rc), e').
Proof.
  intros H. apply review_recorded in H as (Hv & Hauth & Hrec & Hp & <-). split; [done|].
  apply review_replayed; [by rewrite Hauth|done|done].
Qed.
End Executions.

(** ** A concrete engine *)
Definition demo_uuid5 (name : string) : UUID := "uuid5:" +:+ name.
Definition demo_isoformat (d : datetime) : string := pretty d.
Definition demo_digest (s : string) : string := "digest:" +:+ s.
Definition demo_tag (secret message : string) : string := secret +:+ ":" +:+ message.
Definition demo_dump {A} (x : A) : json := JNull.
Definition demo_store_sha256 (p : payload) : string := "digest".
Definition demo_engine_authorizer : CommandAuthorizer.t :=
  CommandAuthorizer.mk "0123456789abcdef0123456789abcdef" "local-policy-v1" 30.

Notation demo_exec := (exec demo_repr demo_isoformat demo_uuid5 demo_digest demo_tag demo_dump demo_dump demo_store_sha256).
Notation demo_reachable :=
  (reachable demo_repr demo_isoformat demo_uuid5 demo_digest demo_tag demo_dump demo_dump demo_store_sha256).
Notation demo_apply_analysis := (apply_analysis demo_uuid5 demo_store_sha256).
Notation demo_status := (apply_status_command demo_repr demo_uuid5 demo_digest demo_dump demo_store_sha256).
Notation demo_review :=
  (apply_authorized_review demo_repr demo_isoformat demo_digest demo_tag demo_dump demo_store_sha256).

Definition run_calls (calls : list call) (e : t) : t := fold_left (fun e c => (demo_exec c e).2) calls e.

Lemma run_calls_reachable calls : Forall call_valid calls ->
  demo_reachable (run_calls calls (new_engine 8 demo_engine_authorizer)).
Proof.
  intros Hv. exists 8, demo_engine_authorizer. generalize (new_engine 8 demo_engine_authorizer). intros e.
  revert e Hv. induction calls as [|c calls IH]; intros e; [intros; apply rtc_refl|].
  intros [Hc Hcalls]%List.Forall_cons_iff. cbn. econstructor; [|by apply IH].
  exists c, (demo_exec c e).1. split; [done|]. by destruct (demo_exec c e).
Qed.

Definition demo_analysis (id : UUID) (state : IncidentState.t) (time : datetime) : AnalysisResult.t :=
  {| AnalysisResult.analysis_id := id; AnalysisResult.observation_id := "o"; AnalysisResult.correlation_id := "c";
     AnalysisResult.boot_id := "boot"; AnalysisResult.source_mode := SourceMode.LIVE;
     AnalysisResult.hazard := HazardKind.WILDFIRE; AnalysisResult.score := lit 1 2;
     AnalysisResult.state_hint := state; AnalysisResult.features := ∅;
     AnalysisResult.coverage := CoverageState.SUFFICIENT; AnalysisResult.abstained := false;
     AnalysisResult.reason_codes := ["smoke"]; AnalysisResult.model_profile_id := "model";
     AnalysisResult.source_lineage := "lineage"; AnalysisResult.config_hashes := [];
     AnalysisResult.incident_id_hint := Some "incident-1"; AnalysisResult.produced_at := time;
     AnalysisResult.event_time := Some time |}.

Definition demo_watch : AnalysisResult.t := demo_analysis "a1" IncidentState.WATCH 100.
Definition demo_confirm : AnalysisResult.t := demo_analysis "a2" IncidentState.CONFIRMED 200.
Definition demo_late : AnalysisResult.t :=
  demo_analysis "a3" IncidentState.DEGRADED 150.

Definition demo_calls : list call := [Analysis demo_watch 110; Analysis demo_confirm 210].
Definition demo_engine : t := run_calls demo_calls (new_engine 8 demo_engine_authorizer).

Lemma demo_engine_reachable : demo_reachable demo_engine.
Proof. apply run_calls_reachable. repeat constructor. Qed.

Definition demo_command (kind : IncidentCommandKind.t) (id key : string) : IncidentStatusCommand.t :=
  {| IncidentStatusCommand.command_id := id; IncidentStatusCommand.incident_id := "incident-1";
     IncidentStatusCommand.hazard := HazardKind.WILDFIRE; IncidentStatusCommand.command := kind;
     IncidentStatusCommand.expected_version := 2; IncidentStatusCommand.actor := "operator";
     IncidentStatusCommand.reason := "drill"; IncidentStatusCommand.related_incident_id := None;
     IncidentStatusCommand.related_hazard := None; IncidentStatusCommand.idempotency_key := key;
     IncidentStatusCommand.submitted_at := 300 |}.

Definition demo_record (e : t) : IncidentRecord.t :=
  default (demo_incident 0 IncidentState.NORMAL) (dict_get HazardKind.WILDFIRE (current_ e)).

Lemma projection_matches_history_witness :
  length (all (store demo_engine)) = 2%nat /\
  dict_get HazardKind.WILDFIRE (current_ demo_engine)
  = last (history HazardKind.WILDFIRE (all (store demo_engine))).
Proof.
  split; [vm_compute; reflexivity|].
  destruct (projection_matches_history demo_repr demo_isoformat demo_uuid5 demo_digest demo_tag demo_dump
    demo_dump demo_store_sha256 demo_engine demo_engine_reachable) as [H _]. apply H.
Defined.

Lemma incident_histories_well_formed_witness :
  well_formed (history HazardKind.WILDFIRE (all (store demo_engine))).
Proof.
  destruct (incident_histories_well_formed demo_repr demo_isoformat demo_uuid5 demo_digest demo_tag demo_dump
    demo_dump demo_store_sha256 demo_engine demo_engine_reachable) as [H _]. apply H.
Defined.

Lemma late_analysis_never_alerts_witness :
  late (demo_record demo_engine) demo_late = true /\
  notification_intents (store (demo_apply_analysis demo_late 400 demo_engine).2)
  = notification_intents (store demo_engine).
Proof.
  split; [vm_compute; reflexivity|].
  destruct (late_analysis_never_alerts demo_uuid5 demo_store_sha256 demo_engine demo_late 400
    (demo_record demo_engine) (demo_apply_analysis demo_late 400 demo_engine).1
    (demo_apply_analysis demo_late 400 demo_engine).2) as [H _].
  - vm_compute. reflexivity.
  - vm_compute. reflexivity.
  - destruct (demo_apply_analysis demo_late 400 demo_engine). reflexivity.
  - exact H.
Defined.

Lemma analysis_applied_once_witness :
  let e := run_calls [Analysis demo_watch 110] (new_engine 8 demo_engine_authorizer) in
  demo_apply_analysis demo_confirm 999 demo_engine = (Ok (demo_record demo_engine), demo_engine).
Proof.
  cbv zeta. apply (analysis_applied_once demo_uuid5 demo_store_sha256 demo_confirm 210 999
    (run_calls [Analysis demo_watch 110] (new_engine 8 demo_engine_authorizer))).
  vm_compute. reflexivity.
Defined.

(** Negative evidence against a confirmed incident. *)
Definition demo_clear : AnalysisResult.t := demo_analysis "a4" IncidentState.NORMAL 300.

Lemma analysis_decision_witness :
  (target_of (dict_get HazardKind.WILDFIRE (current_ demo_engine)) demo_clear).1 <> IncidentState.NORMAL.
Proof.
  destruct (analysis_decision demo_uuid5 demo_store_sha256 demo_clear 310 demo_engine
    (demo_apply_analysis demo_clear 310 demo_engine).1 (demo_apply_analysis demo_clear 310 demo_engine).2)
    as (_ & _ & H & _).
  - intros c Hc. assert (Hr : dict_get (AnalysisResult.hazard demo_clear) (current_ demo_engine)
      = Some (demo_record demo_engine)) by (vm_compute; reflexivity).
    rewrite Hr in Hc. injection Hc as <-. split; [|vm_compute; reflexivity].
    assert (Ha : IncidentRecord.analysis_ids (demo_record demo_engine) = ["a1"; "a2"]) by (vm_compute; reflexivity).
    rewrite Ha. intros Hin. apply elem_of_cons in Hin as [Hin|Hin]; [discriminate Hin|].
    apply elem_of_cons in Hin as [Hin|Hin]; [discriminate Hin|]. inversion Hin.
  - destruct (demo_apply_analysis demo_clear 310 demo_engine). reflexivity.
  - apply H. right. vm_compute. reflexivity.
Defined.

Lemma alert_budget_respected_witness :
  alerts "incident-1" demo_engine = 1 /\ alerts "incident-1" demo_engine <= Z.max 0 (notification_budget demo_engine).
Proof.
  split; [vm_compute; reflexivity|].
  apply (alert_budget_respected demo_repr demo_isoformat demo_uuid5 demo_digest demo_tag demo_dump
    demo_dump demo_store_sha256 demo_engine "incident-1" demo_engine_reachable).
Defined.

Definition demo_corroborate : IncidentStatusCommand.t := demo_command IncidentCommandKind.CORROBORATE "cmd-1" "key-1".
Definition demo_corroborated : IncidentRecord.t :=
  match (demo_status demo_corroborate demo_engine).1 with
  | Ok (StatusRecord r) => r
  | _ => demo_incident 0 IncidentState.NORMAL
  end.

Lemma status_command_applied_once_witness :
  exists r', demo_status demo_corroborate (demo_status demo_corroborate demo_engine).2
    = (Ok r', (demo_status demo_corroborate demo_engine).2).
Proof.
  destruct (status_command_applied_once demo_repr demo_isoformat demo_uuid5 demo_digest demo_tag demo_dump
    demo_dump demo_store_sha256 demo_corroborate demo_engine (StatusRecord demo_corroborated)
    (demo_status demo_corroborate demo_engine).2 demo_engine_reachable) as (r' & H & _).
  - vm_compute. reflexivity.
  - exists r'. exact H.
Defined.

Lemma status_command_guards_witness :
  IncidentRecord.state demo_corroborated = IncidentState.CONFIRMED /\
  exists cur, IncidentRecord.version demo_corroborated = IncidentRecord.version cur + 1.
Proof.
  split; [vm_compute; reflexivity|].
  destruct (status_command_guards demo_repr demo_isoformat demo_uuid5 demo_digest demo_tag demo_dump
    demo_dump demo_store_sha256 demo_corroborate demo_engine demo_corroborated
    (demo_status demo_corroborate demo_engine).2 demo_engine_reachable) as (cur & _ & _ & _ & H & _).
  - vm_compute. reflexivity.
  - vm_compute. reflexivity.
  - reflexivity.
  - exists cur. exact H.
Defined.

Definition demo_operator : PrincipalRef.t := AuthManager.development_principal "operator" PrincipalRole.OPERATOR.
Definition demo_review_payload : json :=
  JDict [("incident_id", JStr "incident-1"); ("hazard", JStr "wildfire"); ("action", JStr "acknowledge");
         ("snooze_until", JNull); ("comment", JNull); ("idempotency_key", JStr "key-2")].
Definition demo_review_command : AuthorizedReviewCommand.t :=
  let authorization :=
    match CommandAuthorizer.decide demo_repr demo_isoformat demo_digest demo_tag demo_engine_authorizer demo_operator
            "incidents:acknowledge" "incident:incident-1" demo_review_payload 290 "decision-1" with
    | Ok d => d
    | Raise _ => AuthorizationDecision.mk "" demo_operator "" "" "" "" "" 0 0 ""
    end in
  {| AuthorizedReviewCommand.command_id := "review-1"; AuthorizedReviewCommand.incident_id := "incident-1";
     AuthorizedReviewCommand.hazard := HazardKind.WILDFIRE;
     AuthorizedReviewCommand.action := ReviewActionKind.ACKNOWLEDGE;
     AuthorizedReviewCommand.snooze_until := None; AuthorizedReviewCommand.comment := None;
     AuthorizedReviewCommand.idempotency_key := "key-2";
     AuthorizedReviewCommand.authorization := authorization;
     AuthorizedReviewCommand.payload_sha256 := AuthorizationDecision.payload_sha256 authorization;
     AuthorizedReviewCommand.submitted_at := 300 |}.

Definition demo_reviewed : option (IncidentReviewState.t * CommandReceipt.t) :=
  match (demo_review demo_review_command demo_engine).1 with Ok p => Some p | Raise _ => None end.

Lemma review_authorized_and_applied_once_witness :
  is_Some demo_reviewed /\
  demo_review demo_review_command (demo_review demo_review_command demo_engine).2
  = ((demo_review demo_review_command demo_engine).1, (demo_review demo_review_command demo_engine).2).
Proof.
  destruct (demo_review demo_review_command demo_engine) as [[[st rc]|exc] e'] eqn:E.
  - split; [unfold demo_reviewed; rewrite E; eexists; reflexivity|].
    destruct (review_authorized_and_applied_once demo_repr demo_isoformat demo_digest demo_tag demo_dump
      demo_store_sha256 demo_review_command demo_engine st rc e' E) as [_ H]. exact H.
  - exfalso. assert (Hok : is_ok (demo_review demo_review_command demo_engine).1 = true) by (vm_compute; reflexivity).
    rewrite E in Hok. discriminate Hok.
Defined.

(** The record and the receipt of a status command are two transactions: a
    command that reuses the identifier of another one under a fresh
    idempotency key changes the incident and then raises, without a receipt. *)
Definition demo_reuse : IncidentStatusCommand.t :=
  let c := demo_command IncidentCommandKind.CONTRADICT "cmd-1" "key-3" in
  {| IncidentStatusCommand.command_id := IncidentStatusCommand.command_id c;
     IncidentStatusCommand.incident_id := IncidentStatusCommand.incident_id c;
     IncidentStatusCommand.hazard := IncidentStatusCommand.hazard c;
     IncidentStatusCommand.command := IncidentStatusCommand.command c;
     IncidentStatusCommand.expected_version := 3;
     IncidentStatusCommand.actor := IncidentStatusCommand.actor c;
     IncidentStatusCommand.reason := IncidentStatusCommand.reason c;
     IncidentStatusCommand.related_incident_id := None; IncidentStatusCommand.related_hazard := None;
     IncidentStatusCommand.idempotency_key := IncidentStatusCommand.idempotency_key c;
     IncidentStatusCommand.submitted_at := 300 |}.

Lemma command_id_reuse_commits_without_receipt :
  let e := (demo_status demo_corroborate demo_engine).2 in
  let '(r, e') := demo_status demo_reuse e in
  is_ok r = false /\ length (all (store e')) = S (length (all (store e))) /\
  IncidentJournalStore.receipts (store e') = IncidentJournalStore.receipts (store e).
Proof. vm_compute. split_and!; reflexivity. Qed.
