(* ===== verification/Spool.v ===== *)
(** The critical analysis spool (storage/spool.py), the capability matrix
    (operations/capabilities.py) and the hand-over between spool and incident
    engine (scenario/engine.py, [apply_or_spool], [recover_incident_authority]).

    The table of pending analyses is the list of its rows by sequence number.
    [dump_json] is pydantic's [model_dump_json]: the stored text is only
    compared and measured, and reading it back gives the analysis.  The handler
    of [drain] acts on a state [W] of its own and may raise. *)

From Stdlib Require Import ZArith.
From S2P Require Import Prelude Binary64 Enums Models Records CanonicalJson Auth Journal Engine.
Open Scope Z_scope.

Module CriticalAnalysisSpool.

(** A row of [pending_analysis]. *)
Record row : Type := mkRow {
  sequence : Z;
  analysis : AnalysisResult.t;
  enqueued_at : datetime;
  expires_at : datetime;
  payload_bytes : Z
}.
Definition analysis_id (r : row) : UUID := AnalysisResult.analysis_id (analysis r).

(** A row of [spool_events]. *)
Record event : Type := mkEvent {
  event_analysis_id : UUID;
  status : string;
  recorded_at : datetime;
  reason : option string;
  event_payload_bytes : Z
}.

Record t : Type := mk {
  max_items : Z;
  max_bytes : Z;
  max_age_seconds : Z;
  pending_analysis : list row;
  next_sequence : Z;
  spool_events : list event
}.
Definition set_pending rows next (s : t) : t :=
  mk (max_items s) (max_bytes s) (max_age_seconds s) rows next (spool_events s).
Definition set_events events (s : t) : t :=
  mk (max_items s) (max_bytes s) (max_age_seconds s) (pending_analysis s) (next_sequence s) events.

(** [__init__] on a new database. *)
Definition create (max_items max_bytes max_age_seconds : Z) : res t :=
  check ((max_items <=? 0) || (max_bytes <=? 0) || (max_age_seconds <=? 0))
    (ValueError "spool bounds must be positive") >>!
  Ok (mk max_items max_bytes max_age_seconds [] 1 []).

Definition counts (s : t) : Z * Z :=
  (Z.of_nat (length (pending_analysis s)), foldr Z.add 0 (payload_bytes <$> pending_analysis s)).

(** [INSERT INTO spool_events] *)
Definition log (id : UUID) (status : string) (recorded_at : datetime) (reason : option string) (bytes : Z)
    (s : t) : t :=
  set_events (spool_events s ++ [mkEvent id status recorded_at reason bytes]) s.

Section Operations.
Context (dump_json : AnalysisResult.t -> string).

Definition size_of (a : AnalysisResult.t) : Z := Z.of_nat (String.length (dump_json a)).

Definition enqueue (a : AnalysisResult.t) (enqueued_at : datetime) : M t bool :=
  let id := AnalysisResult.analysis_id a in
  let bytes := size_of a in
  let! '(accepted, exhausted) := transaction
    (let! s := get in
     match select_one (fun r => bool_decide (analysis_id r = id)) (pending_analysis s) with
     | Some existing =>
         raise_if (negb (bool_decide (dump_json (analysis existing) = dump_json a)))
           (ValueError "analysis spool identity conflict") ;;;
         ret (false, false)
     | None =>
         let '(items, total_bytes) := counts s in
         let exhausted := (max_items s <? items + 1) || (max_bytes s <? total_bytes + bytes) in
         (if exhausted then modify (log id "rejected" enqueued_at (Some "spool_exhausted") bytes)
          else
            modify (set_pending
              (pending_analysis s ++
               [mkRow (next_sequence s) a enqueued_at (enqueued_at + seconds (max_age_seconds s)) bytes])
              (next_sequence s + 1))) ;;;
         modify (log id "enqueued" enqueued_at None bytes) ;;;
         ret (true, exhausted)
     end) in
  raise_if exhausted (SpoolExhaustedError "critical analysis spool exhausted") ;;;
  ret accepted.

Definition pending (s : t) : list AnalysisResult.t := analysis <$> pending_analysis s.

Section Drain.
Context {W : Type} (handler : AnalysisResult.t -> W -> res unit * W).

(** [DELETE FROM pending_analysis] and the event, in one transaction. *)
Definition delivered (r : row) (now : datetime) (s : t) : t :=
  log (analysis_id r) "delivered" now None (payload_bytes r)
    (set_pending (List.filter (fun r' => negb (bool_decide (analysis_id r' = analysis_id r)))
                    (pending_analysis s)) (next_sequence s) s).

(** The loop over the rows read at the start. *)
Fixpoint drain_rows (rows : list row) (now : datetime) : M (t * W) (list UUID) :=
  match rows with
  | [] => ret []
  | r :: rows => fun st =>
      let '(s, w) := st in
      if expires_at r <=? now then
        (Ok [], (log (analysis_id r) "expired" now (Some "maximum_age_exceeded") (payload_bytes r) s, w))
      else
        match handler (analysis r) w with
        | (Raise exc, w) =>
            (Ok [], (log (analysis_id r) "delivery_failed" now (Some (exn_name exc)) (payload_bytes r) s, w))
        | (Ok _, w) =>
            (let! ids := drain_rows rows now in ret (analysis_id r :: ids)) (delivered r now s, w)
        end
  end.

Definition drain (now : datetime) : M (t * W) (list UUID) :=
  fun st => drain_rows (pending_analysis st.1) now st.
End Drain.

Record metrics_report : Type := mkMetrics {
  pending_items : Z;
  pending_bytes : Z;
  maximum_items : Z;
  maximum_bytes : Z;
  oldest_age_seconds : f64;
  expired_items : Z;
  exhausted : bool
}.

Definition metrics (now : datetime) (s : t) : metrics_report :=
  let '(items, total_bytes) := counts s in
  let oldest := match enqueued_at <$> pending_analysis s with
                | [] => None | x :: l => Some (foldl Z.min x l) end in
  mkMetrics items total_bytes (max_items s) (max_bytes s)
    (match oldest with Some o => py_max f0 (total_seconds (now - o)) | None => f0 end)
    (Z.of_nat (length (List.filter (fun r => expires_at r <=? now) (pending_analysis s))))
    ((max_items s <=? items) || (max_bytes s <=? total_bytes)).

Definition events (s : t) : list event := spool_events s.
End Operations.
End CriticalAnalysisSpool.

Module CapabilityMatrix.
Record capability : Type := mkCapability {
  capability_id : string;
  state : HealthState.t;
  consequence : string;
  reason_codes : list string
}.
Definition DEFAULTS : list (string * string) :=
  [("acquisition", "local observations can be accepted and durably watermarked");
   ("analysis", "hazard observations can be interpreted");
   ("runtime", "workloads can be admitted and scheduled");
   ("incident_authority", "incident lifecycle can be updated and recovered");
   ("api", "supported client projections can be served");
   ("evidence", "evidence artifacts can be persisted and verified")].

Definition t : Type := gmap string capability.
Definition init : t :=
  list_to_map ((fun kv => (kv.1, mkCapability kv.1 HealthState.HEALTHY kv.2 [])) <$> DEFAULTS).

Definition set (capability_id : string) (state : HealthState.t) (reason_codes : list string) : M t unit :=
  let! m := get in
  match m !! capability_id with
  | None => raise (KeyError capability_id)
  | Some current =>
      put (<[capability_id := mkCapability (CapabilityMatrix.capability_id current) state (consequence current)
                                (sorted_set reason_codes)]> m)
  end.

Definition records (m : t) : list capability := snd <$> sorted_items m.

Definition overall (m : t) : HealthState.t :=
  let has s := existsb (fun kv => bool_decide (state kv.2 = s)) (map_to_list m) in
  if has HealthState.FAILED then HealthState.FAILED
  else if has HealthState.DEGRADED || has HealthState.STALE || has HealthState.UNKNOWN
  then HealthState.DEGRADED else HealthState.HEALTHY.
End CapabilityMatrix.

(** The part of the node that owns the incident engine and the spool. *)
Module IncidentAuthority.

Record t : Type := mk {
  incidents : IncidentEventEngine.t;
  critical_spool : CriticalAnalysisSpool.t;
  capabilities : CapabilityMatrix.t;
  incident_authority_available : bool
}.
Definition set_incidents v (a : t) : t :=
  mk v (critical_spool a) (capabilities a) (incident_authority_available a).
Definition set_critical_spool v (a : t) : t :=
  mk (incidents a) v (capabilities a) (incident_authority_available a).
Definition set_capabilities v (a : t) : t :=
  mk (incidents a) (critical_spool a) v (incident_authority_available a).
Definition set_available v (a : t) : t := mk (incidents a) (critical_spool a) (capabilities a) v.

Section Operations.
Context (uuid5 : string -> UUID) (store_sha256 : payload -> string).
Context (dump_json : AnalysisResult.t -> string).

Definition capability (id : string) (state : HealthState.t) (reasons : list string) : M t unit :=
  zoom capabilities set_capabilities (CapabilityMatrix.set id state reasons).

Definition set_incident_authority_available (available : bool) (reason : string) : M t unit :=
  modify (set_available available) ;;;
  if available then capability "incident_authority" HealthState.HEALTHY ["authority_available"]
  else capability "incident_authority" HealthState.FAILED [reason; "critical_spool_active"].

Definition apply_or_spool (a : AnalysisResult.t) (accepted_at : option datetime)
  : M t (option IncidentRecord.t) :=
  let accepted_at := default (AnalysisResult.produced_at a) accepted_at in
  let! s := get in
  if incident_authority_available s then
    let! r := zoom incidents set_incidents
                (IncidentEventEngine.apply_analysis uuid5 store_sha256 a accepted_at) in
    ret (Some r)
  else
    let! _ := catch (zoom critical_spool set_critical_spool
                       (CriticalAnalysisSpool.enqueue dump_json a accepted_at))
      (fun e => match e with
         | SpoolExhaustedError _ => Some
             (capability "incident_authority" HealthState.FAILED ["critical_spool_exhausted"] ;;;
              capability "evidence" HealthState.DEGRADED ["critical_spool_exhausted"] ;;;
              raise e)
         | _ => None
         end) in
    ret None.

(** [lambda analysis: self.incidents.apply_analysis(analysis, analysis.produced_at)] *)
Definition deliver (a : AnalysisResult.t) (e : IncidentEventEngine.t) : res unit * IncidentEventEngine.t :=
  match IncidentEventEngine.apply_analysis uuid5 store_sha256 a (AnalysisResult.produced_at a) e with
  | (Ok _, e') => (Ok tt, e')
  | (Raise exc, e') => (Raise exc, e')
  end.

Definition recover_incident_authority (now : datetime) : M t (list UUID) :=
  modify (set_available true) ;;;
  let! ids := fun s =>
    match CriticalAnalysisSpool.drain deliver now (critical_spool s, incidents s) with
    | (r, (spool, engine)) => (r, set_critical_spool spool (set_incidents engine s))
    end in
  let! s := get in
  (if negb (CriticalAnalysisSpool.pending_items
              (CriticalAnalysisSpool.metrics now (critical_spool s)) =? 0)
   then capability "incident_authority" HealthState.DEGRADED ["critical_spool_not_drained"]
   else capability "incident_authority" HealthState.HEALTHY ["critical_spool_reconciled"]) ;;;
  ret ids.
End Operations.
End IncidentAuthority.
