(* ===== verification/SpoolTheorems.v ===== *)
(** What the critical analysis spool guarantees: a bounded queue that loses
    nothing and delivers in order, a drain that never fails, recovery from a
    crash in the middle of a drain, and an outage of the incident authority
    that leaves no trace in the incidents. *)

From Stdlib Require Import ZArith Lia ZifyBool.
From S2P Require Import Prelude Binary64 Enums Models Records CanonicalJson Auth Journal Engine EngineTheorems Spool.
Open Scope Z_scope.

(** ** The queue *)
Module SpoolQueue.
Import CriticalAnalysisSpool.

Section Queue.
Context (dump_json : AnalysisResult.t -> string).
Notation enqueue := (enqueue dump_json).

(** The rows are distinct analyses of known size and age, within the bounds. *)
Record well_formed (s : t) : Prop := {
  wf_ids : NoDup (analysis_id <$> pending_analysis s);
  wf_rows r : r ∈ pending_analysis s ->
    payload_bytes r = size_of dump_json (analysis r) /\
    expires_at r = enqueued_at r + seconds (max_age_seconds s) /\ sequence r < next_sequence s;
  wf_order : StronglySorted Z.lt (sequence <$> pending_analysis s);
  wf_items : (counts s).1 <= max_items s;
  wf_bytes : (counts s).2 <= max_bytes s
}.

Definition ids (s : t) : list UUID := analysis_id <$> pending_analysis s.

Lemma create_well_formed n b a s : create n b a = Ok s -> well_formed s /\ ids s = [].
Proof.
  unfold create, rbind, check. destruct (_ || _) eqn:E; [done|]. intros [= <-].
  split; [|done]. split; cbn; [constructor|by intros r ?%not_elem_of_nil|constructor|lia|lia].
Qed.

(** Nothing but an insertion at the end touches the pending rows. *)
Lemma enqueue_run a at_ s r s' :
  enqueue a at_ s = (r, s') ->
  let id := AnalysisResult.analysis_id a in
  (exists x, x ∈ pending_analysis s /\ analysis_id x = id /\ s' = s /\
     r = if decide (dump_json (analysis x) = dump_json a) then Ok false
         else Raise (ValueError "analysis spool identity conflict")) \/
  (id ∉ ids s /\
   ((max_items s < (counts s).1 + 1 \/ max_bytes s < (counts s).2 + size_of dump_json a) /\
    r = Raise (SpoolExhaustedError "critical analysis spool exhausted") /\
    s' = log id "enqueued" at_ None (size_of dump_json a)
           (log id "rejected" at_ (Some "spool_exhausted") (size_of dump_json a) s)
    \/ ((counts s).1 + 1 <= max_items s /\ (counts s).2 + size_of dump_json a <= max_bytes s /\
    r = Ok true /\
    s' = log id "enqueued" at_ None (size_of dump_json a)
           (set_pending (pending_analysis s ++
              [mkRow (next_sequence s) a at_ (at_ + seconds (max_age_seconds s)) (size_of dump_json a)])
              (next_sequence s + 1) s)))).
Proof.
  cbv zeta. unfold CriticalAnalysisSpool.enqueue, bind at 1, transaction, bind at 1, get at 1. cbv zeta.
  unfold select_one. destruct (List.find _ _) as [x|] eqn:Hf.
  - apply List.find_some in Hf as [Hin Hid%bool_decide_eq_true]. apply list_elem_of_In in Hin.
    intros H. left. exists x. split; [done|]. split; [done|]. revert H.
    unfold raise_if, bind, ret. case_bool_decide; cbn; intros [= <- <-];
      (by rewrite decide_True) || by rewrite decide_False.
  - intros H. right. split.
    { unfold ids. intros (x & Hid & Hin)%list_elem_of_fmap. apply list_elem_of_In in Hin.
      pose proof (List.find_none _ _ Hf x Hin) as Hn%bool_decide_eq_false. by symmetry in Hid. }
    destruct (counts s) as [items total] eqn:Hc. revert H. cbn [fst snd].
    destruct ((max_items s <? items + 1) || (max_bytes s <? total + size_of dump_json a)) eqn:Ex;
      unfold bind, modify, ret, raise_if, raise; cbn; intros [= <- <-].
    + left. split; [lia|done].
    + right. split_and!; [lia|lia|done|done].
Qed.

Lemma sum_app (l k : list Z) : foldr Z.add 0 (l ++ k) = foldr Z.add 0 l + foldr Z.add 0 k.
Proof. induction l as [|x l IH]; cbn; [done|]. rewrite IH. lia. Qed.

Lemma StronglySorted_snoc (l : list Z) x :
  StronglySorted Z.lt l -> (forall y, y ∈ l -> y < x) -> StronglySorted Z.lt (l ++ [x]).
Proof.
  induction 1 as [|y l Hl IH Hy]; intros Hx; cbn; [by repeat constructor|].
  constructor; [apply IH; intros z Hz; apply Hx; by right|].
  apply Forall_app. split; [done|]. constructor; [|done]. apply Hx. by left.
Qed.

Lemma enqueue_well_formed a at_ s r s' :
  well_formed s -> enqueue a at_ s = (r, s') ->
  well_formed s' /\ ids s' = ids s ++ (if r is Ok true then [AnalysisResult.analysis_id a] else []).
Proof.
  intros [Hid Hrows Hord Hi Hb] [(x & _ & _ & -> & ->)|(Hfresh & [(_ & -> & ->)|(Hn & Hz & -> & ->)])]%enqueue_run.
  - case_decide; split; [by split|by rewrite app_nil_r|by split|by rewrite app_nil_r].
  - split; [by split|unfold ids; cbn; by rewrite app_nil_r].
  - split; [|unfold ids; cbn; by rewrite fmap_app].
    unfold counts in *. cbn [fst snd] in *. split; unfold counts; cbn [pending_analysis log set_events set_pending
      max_age_seconds max_items max_bytes next_sequence fst snd]; rewrite ?fmap_app.
    + apply NoDup_app. split_and!; [done| |apply NoDup_singleton].
      intros y Hy ->%list_elem_of_singleton. by apply Hfresh.
    + intros y [Hy| ->%list_elem_of_singleton]%elem_of_app; [|by cbn; split_and!; [..|lia]].
      destruct (Hrows y Hy) as (? & ? & ?). split_and!; [done|done|lia].
    + apply StronglySorted_snoc; [done|]. intros y (z & -> & Hz')%list_elem_of_fmap.
      by destruct (Hrows z Hz') as (_ & _ & ?).
    + rewrite length_app. cbn. lia.
    + rewrite sum_app. cbn. lia.
Qed.

(** ** Draining *)
Section Drain.
Context {W : Type} (handler : AnalysisResult.t -> W -> res unit * W).
Notation drain_rows := (drain_rows handler).
Notation drain := (drain handler).

(** The handler accepts all these rows, one after the other. *)
Fixpoint serve (rows : list row) (w : W) : option W :=
  match rows with
  | [] => Some w
  | r :: rows => match handler (analysis r) w with (Ok _, w) => serve rows w | (Raise _, _) => None end
  end.

(** Why a drain stops in front of these rows, and the event it records. *)
Inductive stops (now : datetime) (w : W) : list row -> list event -> W -> Prop :=
  | StopDone : stops now w [] [] w
  | StopExpired r rows : expires_at r <= now ->
      stops now w (r :: rows)
        [mkEvent (analysis_id r) "expired" now (Some "maximum_age_exceeded") (payload_bytes r)] w
  | StopFailed r rows exc w' : now < expires_at r -> handler (analysis r) w = (Raise exc, w') ->
      stops now w (r :: rows)
        [mkEvent (analysis_id r) "delivery_failed" now (Some (exn_name exc)) (payload_bytes r)] w'.

Definition delivery (now : datetime) (r : row) : event :=
  mkEvent (analysis_id r) "delivered" now None (payload_bytes r).

(** Deleting by identity removes the first row only. *)
Lemma delivered_rows now s r rows :
  NoDup (ids s) -> pending_analysis s = r :: rows -> pending_analysis (delivered r now s) = rows.
Proof.
  unfold ids. intros Hnd Hp. cbn. rewrite Hp in *. cbn in *. apply NoDup_cons in Hnd as [Hr Hnd].
  rewrite bool_decide_eq_true_2 by done. cbn. clear Hp Hnd. induction rows as [|x rows IH]; [done|].
  cbn in *. apply not_elem_of_cons in Hr as [Hx Hr]. rewrite bool_decide_eq_false_2 by congruence. cbn.
  by rewrite IH.
Qed.

Lemma delivered_well_formed now s r rows :
  well_formed s -> pending_analysis s = r :: rows -> well_formed (delivered r now s).
Proof.
  intros [Hid Hrows Hord Hi Hb] Hp. pose proof (delivered_rows now s r rows Hid Hp) as Hp'.
  unfold counts in *. rewrite Hp in *. cbn in Hid, Hord, Hi, Hb.
  assert (0 <= payload_bytes r) by (destruct (Hrows r) as (-> & _); [by left|unfold size_of; lia]).
  split; unfold counts; rewrite Hp'; cbn [fst snd delivered log set_events set_pending max_items max_bytes].
  - by apply NoDup_cons in Hid as [].
  - intros x Hx. apply Hrows. by right.
  - by apply StronglySorted_inv in Hord as [].
  - lia.
  - lia.
Qed.

Lemma drain_rows_run now rows s w r s' w' :
  well_formed s -> pending_analysis s = rows -> drain_rows rows now (s, w) = (r, (s', w')) ->
  exists k w1 stop,
    r = Ok (take k (analysis_id <$> rows)) /\ pending_analysis s' = drop k rows /\ well_formed s' /\
    Forall (fun x => now < expires_at x) (take k rows) /\
    serve (take k rows) w = Some w1 /\ stops now w1 (drop k rows) stop w' /\
    spool_events s' = spool_events s ++ (delivery now <$> take k rows) ++ stop.
Proof.
  revert s w r s' w'. induction rows as [|x rows IH]; intros s w r s' w' Hwf Hp; cbn [CriticalAnalysisSpool.drain_rows].
  - intros [= <- <- <-]. exists 0%nat, w, []. split_and!; try done; [constructor|by rewrite app_nil_r].
  - destruct (expires_at x <=? now) eqn:Hx; [intros [= <- <- <-]|].
    { exists 0%nat, w. eexists. split_and!; try done; [by split; apply Hwf|constructor; lia]. }
    destruct (handler (analysis x) w) as [[[]|exc] w1] eqn:Hh; [|intros [= <- <- <-]].
    2: { exists 0%nat, w. eexists. split_and!; try done; [by split; apply Hwf|constructor; [lia|done]]. }
    unfold bind. destruct (drain_rows rows now _) as [r1 [s1 w2]] eqn:Hd.
    apply IH in Hd as (k & w3 & stop & -> & Hp' & Hwf' & Hall & Hserve & Hstop & Hev);
      [|by eapply delivered_well_formed|by eapply delivered_rows; [apply Hwf|]].
    intros [= <- <- <-]. exists (S k), w3, stop. cbn. rewrite Hh.
    split_and!; try done; [constructor; [lia|done]|]. rewrite Hev. cbn. by rewrite <- app_assoc.
Qed.

(** A drain never fails.  It hands a prefix of the pending analyses to the
    handler, oldest first, and stops at the first that expired or that the
    handler refuses; exactly the analyses the handler accepted are removed and
    returned, the rest stays pending in order, and every delivery and the
    reason for stopping are in the event log. *)
Theorem drain_delivers_prefix now s w r s' w' :
  well_formed s -> drain now (s, w) = (r, (s', w')) ->
  exists k w1 stop,
    r = Ok (take k (ids s)) /\ pending_analysis s' = drop k (pending_analysis s) /\
    Forall (fun x => now < expires_at x) (take k (pending_analysis s)) /\
    serve (take k (pending_analysis s)) w = Some w1 /\
    stops now w1 (drop k (pending_analysis s)) stop w' /\
    spool_events s' = spool_events s ++ (delivery now <$> take k (pending_analysis s)) ++ stop.
Proof.
  intros Hwf (k & w1 & stop & ? & ? & ? & ? & ? & ? & ?)%drain_rows_run; [|done..]. by exists k, w1, stop.
Qed.

(** *** Executions *)
Inductive op : Type :=
  | Enqueue (analysis : AnalysisResult.t) (enqueued_at : datetime)
  | Drain (now : datetime).

(** The identities a call accepts and those it delivers. *)
Definition exec (o : op) (st : t * W) : list UUID * list UUID * (t * W) :=
  match o with
  | Enqueue a at_ =>
      let '(r, s) := enqueue a at_ st.1 in
      (if r is Ok true then [AnalysisResult.analysis_id a] else [], [], (s, st.2))
  | Drain now =>
      let '(r, st) := drain now st in ([], if r is Ok ids then ids else [], st)
  end.

Fixpoint run (ops : list op) (st : t * W) : list UUID * list UUID * (t * W) :=
  match ops with
  | [] => ([], [], st)
  | o :: ops =>
      let '(accepted, delivered, st) := exec o st in
      let '(accepted', delivered', st) := run ops st in
      (accepted ++ accepted', delivered ++ delivered', st)
  end.

Lemma exec_fifo o s w accepted delivered s' w' :
  well_formed s -> exec o (s, w) = (accepted, delivered, (s', w')) ->
  well_formed s' /\ ids s ++ accepted = delivered ++ ids s'.
Proof.
  intros Hwf. destruct o as [a at_|now]; cbn [exec fst snd].
  - destruct (enqueue a at_ s) as [r s1] eqn:He. apply enqueue_well_formed in He as [Hwf' Hids]; [|done].
    intros [= <- <- <- <-]. by split.
  - destruct (drain now (s, w)) as [r [s1 w1]] eqn:Hd.
    apply drain_rows_run in Hd as (k & w2 & stop & -> & Hp & Hwf' & _); [|done..].
    intros [= <- <- <- <-]. split; [done|]. unfold ids. rewrite Hp, app_nil_r, fmap_drop. symmetry. apply take_drop.
Qed.

(** The spool is a bounded queue that loses nothing.  In every execution,
    refused, repeated and failed calls included, the analyses accepted so far
    are those delivered followed by those pending, in the same order; the
    pending ones are distinct and within both bounds. *)
Theorem spool_is_bounded_fifo n b age s0 ops w accepted delivered s w' :
  create n b age = Ok s0 -> run ops (s0, w) = (accepted, delivered, (s, w')) ->
  accepted = delivered ++ ids s /\ NoDup (ids s) /\
  (counts s).1 <= max_items s /\ (counts s).2 <= max_bytes s.
Proof.
  intros [Hwf Hids]%create_well_formed H.
  assert (well_formed s /\ ids s0 ++ accepted = delivered ++ ids s) as [Hwf' Heq].
  { clear Hids. revert s0 w accepted delivered s w' Hwf H.
    induction ops as [|o ops IH]; intros s0 w accepted delivered s w' Hwf; cbn [run].
    - intros [= <- <- <- <-]. by rewrite app_nil_r.
    - destruct (exec o (s0, w)) as [[acc1 del1] [s1 w1]] eqn:He. apply exec_fifo in He as [Hwf1 H1]; [|done].
      destruct (run ops (s1, w1)) as [[acc2 del2] [s2 w2]] eqn:Hr. apply IH in Hr as [Hwf2 H2]; [|done].
      intros [= <- <- <- <-]. split; [done|]. by rewrite app_assoc, H1, <- app_assoc, H2, app_assoc. }
  rewrite Hids in Heq. split_and!; [done|apply Hwf'..].
Qed.

Lemma serve_app rows rows' w : serve (rows ++ rows') w = (serve rows w ≫= serve rows').
Proof.
  revert w. induction rows as [|r rows IH]; intros w; cbn; [done|].
  by destruct (handler (analysis r) w) as [[[]|] w1]; [apply IH|].
Qed.

(** When nothing expired and the handler accepts everything, all is delivered. *)
Lemma drain_serves_all now s w w' :
  well_formed s -> Forall (fun x => now < expires_at x) (pending_analysis s) ->
  serve (pending_analysis s) w = Some w' ->
  exists s', drain now (s, w) = (Ok (ids s), (s', w')) /\ well_formed s' /\ pending_analysis s' = [].
Proof.
  intros Hwf Hall Hserve. destruct (drain now (s, w)) as [r [s1 w1]] eqn:Hd.
  pose proof (Hd : drain_rows (pending_analysis s) now (s, w) = _) as Hrun.
  apply drain_rows_run in Hrun as (k & w2 & stop & -> & Hp & Hwf' & _ & Hk & Hstop & _); [|done..].
  rewrite <- (take_drop k (pending_analysis s)) in Hserve. rewrite serve_app, Hk in Hserve. cbn in Hserve.
  assert (Hrest : forall x, x ∈ drop k (pending_analysis s) -> now < expires_at x).
  { intros x Hx. apply (Forall_in _ _ _ Hall).
    rewrite <- (take_drop k (pending_analysis s)). apply elem_of_app. by right. }
  remember (drop k (pending_analysis s)) as rest eqn:Hr.
  destruct Hstop as [|x rows He|x rows exc w3 He Hh].
  - injection Hserve as <-. exists s1. split; [|done].
    pose proof (take_drop k (pending_analysis s)) as Htake. rewrite <- Hr, app_nil_r in Htake.
    unfold ids. by rewrite <- fmap_take, Htake.
  - specialize (Hrest x ltac:(by left)). lia.
  - cbn in Hserve. by rewrite Hh in Hserve.
Qed.

(** *** Crashes *)

(** The process is killed in iteration [n] of a drain, after the handler
    returned and before the row is deleted. *)
Fixpoint killed (n : nat) (rows : list row) (now : datetime) (st : t * W) {struct rows} : option (t * W) :=
  match rows with
  | [] => None
  | r :: rows =>
      let '(s, w) := st in
      if expires_at r <=? now then None else
      match handler (analysis r) w, n with
      | (Raise _, _), _ => None
      | (Ok _, w), O => Some (s, w)
      | (Ok _, w), S n => killed n rows now (delivered r now s, w)
      end
  end.

End Drain.

(** What the spool asks of the consumer of its analyses: a delivery that
    succeeded can be repeated after a restart without any effect. *)
Class ReplaySafe {W} (inv : W -> Prop) (handler : AnalysisResult.t -> W -> res unit * W) (restart : W -> W) : Prop := {
  replay_step a w r w' : inv w -> handler a w = (r, w') -> inv w';
  replay_restart w : inv w -> inv (restart w);
  replay_noop a w w' : inv w -> handler a w = (Ok tt, w') -> handler a (restart w') = (Ok tt, restart w')
}.

Section Crash.
Context {W : Type} (inv : W -> Prop) (handler : AnalysisResult.t -> W -> res unit * W) (restart : W -> W).
Context `{!ReplaySafe inv handler restart}.

(** What a kill leaves behind. *)
Lemma killed_run n now rows s w s1 w1 :
  well_formed s -> inv w -> pending_analysis s = rows -> killed handler n rows now (s, w) = Some (s1, w1) ->
  exists r, rows !! n = Some r /\ pending_analysis s1 = drop n rows /\ well_formed s1 /\ inv w1 /\
    serve handler (take (S n) rows) w = Some w1 /\ exists w0, inv w0 /\ handler (analysis r) w0 = (Ok tt, w1).
Proof.
  revert n s w. induction rows as [|x rows IH]; intros n s w Hwf Hw Hp; cbn [killed]; [done|].
  destruct (expires_at x <=? now); [done|]. cbn [take serve].
  destruct (handler (analysis x) w) as [[[]|] w2] eqn:Hh; [|by destruct n].
  pose proof (replay_step (W := W) _ _ _ _ Hw Hh) as Hw2. destruct n as [|n].
  - intros [= <- <-]. exists x. split_and!; try done. by exists w.
  - intros Hk. apply IH in Hk as (r & Hr & Hp1 & Hwf1 & Hw1 & Hs & Hrep);
      [|by eapply delivered_well_formed|done|by eapply delivered_rows; [apply Hwf|]].
    by exists r.
Qed.

(** After the restart the repeated delivery has no effect: the drain goes on
    as if the row had been deleted before the kill. *)
Lemma crash_redelivers n now now' s w s1 w1 :
  well_formed s -> inv w -> killed handler n (pending_analysis s) now (s, w) = Some (s1, w1) ->
  exists r, pending_analysis s !! n = Some r /\ pending_analysis s1 = drop n (pending_analysis s) /\
    serve handler (take (S n) (pending_analysis s)) w = Some w1 /\
    (now' < expires_at r -> forall ids st,
      drain handler now' (delivered r now' s1, restart w1) = (Ok ids, st) ->
      drain handler now' (s1, restart w1) = (Ok (analysis_id r :: ids), st)).
Proof.
  intros Hwf Hw Hk. apply killed_run in Hk as (r & Hr & Hp & Hwf1 & _ & Hs & w0 & Hw0 & Hh); [|done..].
  exists r. split_and!; try done. intros Hnow ids st. pose proof Hr as Hd.
  apply drop_S in Hd. rewrite Hd in Hp. unfold drain. cbn [fst].
  rewrite (delivered_rows now' _ _ _ (wf_ids _ Hwf1) Hp), Hp. cbn [drain_rows].
  replace (expires_at r <=? now') with false by lia. erewrite replay_noop by done.
  unfold bind. by intros ->.
Qed.
End Crash.
End Queue.
End SpoolQueue.

(** ** Spool and incident engine together *)
Module AuthorityOutage.
Import IncidentAuthority SpoolQueue.

Section Node.
Context (uuid5 : string -> UUID) (store_sha256 : payload -> string) (dump_json : AnalysisResult.t -> string).
Notation deliver := (deliver uuid5 store_sha256).
Notation apply_or_spool := (apply_or_spool uuid5 store_sha256 dump_json).
Notation recover := (recover_incident_authority uuid5 store_sha256).
Notation apply_analysis := (IncidentEventEngine.apply_analysis uuid5 store_sha256).

(** The engine is such a consumer. *)
#[export] Instance engine_replay_safe : ReplaySafe consistent deliver restart.
Proof.
  split.
  - intros a e r e' He. unfold IncidentAuthority.deliver.
    destruct (apply_analysis a _ e) as [[]] eqn:Ha; intros [= _ <-]; by eapply apply_analysis_consistent.
  - apply restart_consistent.
  - intros a e e' He. unfold IncidentAuthority.deliver.
    destruct (apply_analysis a _ e) as [[r|] e1] eqn:Ha; [|done]. intros [= <-].
    pose proof (apply_analysis_consistent _ _ _ _ _ _ _ He Ha) as He'.
    apply analysis_settles in Ha as [Hg Hs]. erewrite settled_replay; [done| |done]. by rewrite restart_current.
Qed.

(** The state of a node in every execution of its methods. *)
Record node_ok (a : t) : Prop := {
  ok_engine : consistent (incidents a);
  ok_spool : well_formed dump_json (critical_spool a);
  ok_capabilities : is_Some (capabilities a !! "incident_authority")
}.

(** What the spool holds when a node goes through an outage. *)
Definition of_spool (f : CriticalAnalysisSpool.t) (e : IncidentEventEngine.t) (a : t) : t :=
  set_critical_spool f (set_incidents e (set_available true a)).

(** The state [recover_incident_authority] leaves the capability in. *)
Definition recovered (a : t) : t :=
  match CriticalAnalysisSpool.pending_analysis (critical_spool a), capabilities a !! "incident_authority" with
  | _, None => a
  | rows, Some c =>
      let '(s, reason) := match rows with
        | [] => (HealthState.HEALTHY, "critical_spool_reconciled")
        | _ => (HealthState.DEGRADED, "critical_spool_not_drained") end in
      set_capabilities (<["incident_authority" := CapabilityMatrix.mkCapability
        (CapabilityMatrix.capability_id c) s (CapabilityMatrix.consequence c) [reason]]> (capabilities a)) a
  end.

Lemma recovered_parts a : incidents (recovered a) = incidents a /\ critical_spool (recovered a) = critical_spool a.
Proof.
  unfold recovered. by destruct (CriticalAnalysisSpool.pending_analysis (critical_spool a)),
    (capabilities a !! "incident_authority").
Qed.

Lemma lookup_set_capability i c (m : CapabilityMatrix.t) : (<[i := c]> m : CapabilityMatrix.t) !! i = Some c.
Proof. apply (lookup_insert_eq (M := gmap string)). Qed.

Lemma recover_run now a r f e :
  is_Some (capabilities a !! "incident_authority") ->
  CriticalAnalysisSpool.drain deliver now (critical_spool a, incidents a) = (Ok r, (f, e)) ->
  recover now a = (Ok r, recovered (of_spool f e a)).
Proof.
  intros [c Hc] Hd. unfold recover_incident_authority, bind, modify. cbn [set_available critical_spool incidents].
  rewrite Hd. unfold get, capability, zoom, CapabilityMatrix.set, bind, get, put, recovered, of_spool. cbn.
  unfold CriticalAnalysisSpool.metrics, CriticalAnalysisSpool.counts. cbn [CriticalAnalysisSpool.pending_items].
  destruct (CriticalAnalysisSpool.pending_analysis f) as [|x rows] eqn:Hp; cbn [length].
  - replace (Z.of_nat 0 =? 0) with true by done. cbn. by rewrite Hc.
  - replace (Z.of_nat (S (length rows)) =? 0) with false by lia. cbn. by rewrite Hc.
Qed.

(** A node killed in iteration [n] of the drain of a recovery, between the
    commit of the engine and the [DELETE] of the spool, and started again. *)
Definition killed_recovery (n : nat) (now : datetime) (a : t) : option t :=
  match killed deliver n (CriticalAnalysisSpool.pending_analysis (critical_spool a)) now
          (critical_spool a, incidents a) with
  | Some (f, e) => Some (mk (restart e) f CapabilityMatrix.init true)
  | None => None
  end.

(** C38: a recovery survives a crash.  A node killed between the commit of an
    incident and the deletion of its spooled analysis has lost nothing that
    was pending.  When it recovers again before the spooled analysis
    expires it ends exactly as if the analysis had been deleted before the
    crash: the second delivery changes neither incidents, notifications nor
    journal.  When it recovers after that, the recovery stops at the analysis:
    the incidents are as they were and everything is still pending. *)
Theorem recovery_survives_crash n now now' a a1 :
  node_ok a -> killed_recovery n now a = Some a1 ->
  exists r, CriticalAnalysisSpool.pending_analysis (critical_spool a) !! n = Some r /\
    CriticalAnalysisSpool.pending_analysis (critical_spool a1)
      = drop n (CriticalAnalysisSpool.pending_analysis (critical_spool a)) /\
    (now' < CriticalAnalysisSpool.expires_at r -> exists ids a2,
       recover now' (set_critical_spool (CriticalAnalysisSpool.delivered r now' (critical_spool a1)) a1)
         = (Ok ids, a2) /\
       recover now' a1 = (Ok (CriticalAnalysisSpool.analysis_id r :: ids), a2)) /\
    (CriticalAnalysisSpool.expires_at r <= now' -> exists a2, recover now' a1 = (Ok [], a2) /\
       incidents a2 = incidents a1 /\
       CriticalAnalysisSpool.pending_analysis (critical_spool a2)
         = CriticalAnalysisSpool.pending_analysis (critical_spool a1)).
Proof.
  intros [He Hf _]. unfold killed_recovery.
  destruct (killed _ _ _ _ _) as [[f e]|] eqn:Hk; [|done]. intros [= <-]. cbn [critical_spool].
  pose proof (killed_run dump_json consistent deliver restart _ _ _ _ _ _ _ Hf He eq_refl Hk)
    as (r' & Hr' & Hp' & Hwf & _).
  eapply (crash_redelivers dump_json consistent deliver restart) with (now' := now') in Hk
    as (r & Hr & Hp & _ & Hagain); [|done..].
  apply drop_S in Hr as Hdrop. exists r. split_and!; [done..| |].
  2: { intros Hnow. rewrite Hdrop in Hp.
    assert (exists f', CriticalAnalysisSpool.drain deliver now' (f, restart e) = (Ok [], (f', restart e)) /\
      CriticalAnalysisSpool.pending_analysis f' = CriticalAnalysisSpool.pending_analysis f) as (f' & Hd & Hsame).
    { unfold CriticalAnalysisSpool.drain. cbn [fst]. rewrite Hp. cbn [CriticalAnalysisSpool.drain_rows].
      replace (CriticalAnalysisSpool.expires_at r <=? now') with true by lia. eexists. split; [reflexivity|done]. }
    eexists. split; [apply (recover_run now' (mk (restart e) f CapabilityMatrix.init true)); [by eexists|exact Hd]|].
    destruct (recovered_parts (of_spool f' (restart e) (mk (restart e) f CapabilityMatrix.init true))) as [-> ->]. done. }
  intros Hnow. specialize (Hagain Hnow). rewrite Hdrop in Hp.
  pose proof (delivered_well_formed dump_json now' _ _ _ Hwf Hp) as Hwf'.
  destruct (CriticalAnalysisSpool.drain deliver now' (CriticalAnalysisSpool.delivered r now' f, restart e))
    as [x [f' e']] eqn:Hd.
  pose proof (drain_rows_run dump_json deliver now' _ _ _ _ _ _ Hwf' eq_refl Hd) as (k & _ & _ & -> & _).
  eexists _, _. split.
  - apply (recover_run now' (set_critical_spool (CriticalAnalysisSpool.delivered r now' f)
      (mk (restart e) f CapabilityMatrix.init true))); [by eexists|exact Hd].
  - apply (recover_run now' (mk (restart e) f CapabilityMatrix.init true)); [by eexists|by apply Hagain].
Qed.

(** *** Outages *)

(** A batch of analyses, each handed over with the time it was accepted. *)
Fixpoint apply_all (l : list (AnalysisResult.t * option datetime)) : M t unit :=
  match l with
  | [] => ret tt
  | x :: l => let! _ := apply_or_spool x.1 x.2 in apply_all l
  end.

(** The same analyses, accepted as they are produced. *)
Definition as_produced (l : list AnalysisResult.t) : list (AnalysisResult.t * option datetime) :=
  (fun x => (x, None)) <$> l.

(** When the spool takes an analysis in. *)
Definition accepted (x : AnalysisResult.t * option datetime) : datetime :=
  default (AnalysisResult.produced_at x.1) x.2.

Lemma apply_all_available l a a1 rows :
  incident_authority_available a = true -> CriticalAnalysisSpool.analysis <$> rows = l ->
  apply_all (as_produced l) a = (Ok tt, a1) -> serve deliver rows (incidents a) = Some (incidents a1).
Proof.
  intros Hav <-. revert a Hav.
  induction rows as [|r rows IH]; intros a Hav; cbn [as_produced fmap list_fmap apply_all serve].
  { by intros [= <-]. }
  unfold bind at 1, IncidentAuthority.apply_or_spool, bind at 1, get. rewrite Hav.
  unfold bind at 1, zoom, IncidentAuthority.deliver. cbn [default].
  destruct (apply_analysis _ _ (incidents a)) as [[rec|exc] e]; [|done]. cbn [ret]. by intros H%IH.
Qed.

Lemma apply_all_outage l a a1 :
  incident_authority_available a = false -> well_formed dump_json (critical_spool a) ->
  NoDup (ids (critical_spool a) ++ (AnalysisResult.analysis_id ∘ fst <$> l)) -> apply_all l a = (Ok tt, a1) ->
  incidents a1 = incidents a /\ capabilities a1 = capabilities a /\ well_formed dump_json (critical_spool a1) /\
  exists rows,
    CriticalAnalysisSpool.pending_analysis (critical_spool a1)
      = CriticalAnalysisSpool.pending_analysis (critical_spool a) ++ rows /\
    Forall2 (fun x r => CriticalAnalysisSpool.analysis r = x.1 /\ CriticalAnalysisSpool.expires_at r = accepted x
      + seconds (CriticalAnalysisSpool.max_age_seconds (critical_spool a))) l rows.
Proof.
  revert a. induction l as [|[x at_] l IH]; intros a Hav Hwf Hnd; cbn [apply_all].
  { intros [= <-]. split_and!; try done. exists []. by rewrite app_nil_r. }
  unfold bind at 1, IncidentAuthority.apply_or_spool, bind at 1, get. rewrite Hav.
  unfold bind at 1, catch, zoom. cbn [fst snd].
  destruct (CriticalAnalysisSpool.enqueue _ x _ _) as [r f] eqn:He.
  pose proof (enqueue_well_formed _ _ _ _ _ _ Hwf He) as [Hwf' Hids].
  apply enqueue_run in He as [(y & Hy & Hid & _)|(_ & [(_ & -> & _)|(_ & _ & -> & ->)])].
  - exfalso. apply NoDup_app in Hnd as (_ & Hnd & _). apply (Hnd (AnalysisResult.analysis_id x)); [|by left].
    unfold ids. rewrite <- Hid. by apply list_elem_of_fmap_2.
  - by unfold capability, bind, zoom; repeat destruct (CapabilityMatrix.set _ _ _ _) as [[]].
  - cbn [ret]. intros H. apply IH in H as (He & Hc & Hwf1 & rows & Hp & Hall); [|done|done|].
    + split_and!; try done. eexists. split; [rewrite Hp; cbn; by rewrite <- app_assoc|].
      cbn. by constructor.
    + cbn [critical_spool set_critical_spool]. rewrite Hids, <- app_assoc. exact Hnd.
Qed.

(** C11: an outage of the incident authority loses nothing.  Take a node whose
    spool is empty, and analyses with distinct identifiers that arrive while the
    authority is down, at whatever times, that the spool accepts and that have
    not expired when it recovers.  They lead to exactly the incidents, histories
    and notifications they lead to without the outage when each is accepted at
    its production time, provided the engine applies them all; they are
    delivered in order, the spool is empty afterwards and the capability is
    reported as healthy again. *)
Theorem outage_leaves_no_trace l reason now a a1 a2 :
  node_ok a -> incident_authority_available a = true ->
  CriticalAnalysisSpool.pending_analysis (critical_spool a) = [] ->
  NoDup (AnalysisResult.analysis_id ∘ fst <$> l) ->
  Forall (fun x => now < accepted x + seconds (CriticalAnalysisSpool.max_age_seconds (critical_spool a))) l ->
  apply_all (as_produced (fst <$> l)) a = (Ok tt, a1) ->
  (set_incident_authority_available false reason ;;; apply_all l) a = (Ok tt, a2) ->
  exists a3, recover now a2 = (Ok (AnalysisResult.analysis_id ∘ fst <$> l), a3) /\
    incidents a3 = incidents a1 /\ incident_authority_available a3 = true /\
    CriticalAnalysisSpool.pending_analysis (critical_spool a3) = [] /\
    CapabilityMatrix.state <$> capabilities a3 !! "incident_authority" = Some HealthState.HEALTHY.
Proof.
  intros [He Hf [c Hc]] Hav Hempty Hnd Hage Hdirect Hout.
  unfold set_incident_authority_available, capability, zoom, bind at 1, modify, bind at 1 in Hout.
  unfold CapabilityMatrix.set, bind at 1, get, put in Hout. cbn [set_available capabilities] in Hout.
  rewrite Hc in Hout.
  apply apply_all_outage in Hout as (Hinc & Hcap & Hwf & rows & Hp & Hexp); [|done|done|].
  2: { cbn. unfold ids. by rewrite Hempty. }
  cbn in Hinc, Hcap, Hp, Hexp. rewrite Hempty in Hp. cbn in Hp.
  assert (Hl : CriticalAnalysisSpool.analysis <$> rows = fst <$> l).
  { clear -Hexp. induction Hexp as [|x r l rows [Hx _] _ IH]; [done|]. cbn. by rewrite Hx, IH. }
  pose proof (apply_all_available (fst <$> l) a a1 rows Hav Hl Hdirect) as Hserve. rewrite <- Hinc, <- Hp in Hserve.
  apply (drain_serves_all dump_json deliver now) in Hserve as (f & Hd & _ & Hnil); [|done|].
  - assert (is_Some (capabilities a2 !! "incident_authority")) as Hsome
      by (rewrite Hcap, lookup_set_capability; by eexists).
    eexists. split; [|split; [|split; [|split]]].
    + rewrite (recover_run _ _ _ _ _ Hsome Hd). unfold ids. rewrite Hp, list_fmap_compose, <- Hl, <- list_fmap_compose. reflexivity.
    + unfold recovered. cbn. by rewrite Hnil, Hcap, lookup_set_capability.
    + unfold recovered. cbn. by rewrite Hnil, Hcap, lookup_set_capability.
    + unfold recovered. cbn. by rewrite Hnil, Hcap, lookup_set_capability.
    + unfold recovered. cbn. rewrite Hnil, Hcap, lookup_set_capability. cbn. by rewrite lookup_set_capability.
  - rewrite Hp. clear -Hexp Hage. induction Hexp as [|x r l rows [_ Hx] _ IH]; [constructor|].
    apply Forall_cons in Hage as [Hnow Hage]. constructor; [lia|by apply IH].
Qed.
End Node.
End AuthorityOutage.

(** ** A concrete spool and node *)
Import CriticalAnalysisSpool SpoolQueue.

Definition demo_spool_dump (a : AnalysisResult.t) : string := "analysis " +:+ AnalysisResult.analysis_id a.
(** Two analyses of eleven bytes, 900 seconds. *)
Definition demo_spool : t := mk 2 22 900 [] 1 [].

(** A consumer that keeps the identities and refuses the second analysis. *)
Definition demo_handler (a : AnalysisResult.t) (w : list UUID) : res unit * list UUID :=
  if bool_decide (AnalysisResult.analysis_id a = "a2") then (Raise (ValueError "refused"), w)
  else (Ok tt, w ++ [AnalysisResult.analysis_id a]).

Definition demo_ops : list op :=
  [Enqueue demo_watch 110; Enqueue demo_watch 120; Enqueue demo_confirm 210; Enqueue demo_late 210; Drain 500].

Definition demo_filled : t := (run demo_spool_dump demo_handler [Enqueue demo_watch 110; Enqueue demo_confirm 210]
  (demo_spool, [])).2.1.

Lemma demo_filled_well_formed : well_formed demo_spool_dump demo_filled.
Proof.
  destruct (enqueue demo_spool_dump demo_watch 110 demo_spool) as [r1 s1] eqn:H1.
  destruct (enqueue demo_spool_dump demo_confirm 210 s1) as [r2 s2] eqn:H2.
  assert (demo_filled = s2) as ->.
  { unfold demo_filled. cbn [run exec fst snd]. rewrite H1. cbn [fst snd]. by rewrite H2. }
  eapply enqueue_well_formed; [|exact H2]. eapply enqueue_well_formed; [|exact H1].
  by apply (create_well_formed demo_spool_dump 2 22 900).
Qed.

(** The second analysis is refused and stays pending. *)
Lemma drain_delivers_prefix_witness :
  (drain demo_handler 500 (demo_filled, [])).1 = Ok ["a1"] /\
  exists k w1 stop, k = 1%nat /\
    stops demo_handler 500 w1 (drop k (pending_analysis demo_filled)) stop ["a1"].
Proof.
  split; [vm_compute; reflexivity|].
  destruct (drain demo_handler 500 (demo_filled, [])) as [r [s w]] eqn:Hd.
  destruct (drain_delivers_prefix demo_spool_dump demo_handler 500 demo_filled [] r s w
    demo_filled_well_formed Hd) as (k & w1 & stop & Hr & _ & _ & _ & Hstop & _).
  vm_compute in Hd. injection Hd as <- _ <-. exists k, w1, stop. split; [|exact Hstop].
  destruct k as [|[|k]]; [done|done|]. vm_compute in Hr. by destruct k.
Defined.

(** The repeated analysis is ignored and the third refused: the spool is full. *)
Lemma spool_is_bounded_fifo_witness :
  create 2 22 900 = Ok demo_spool /\
  (run demo_spool_dump demo_handler demo_ops (demo_spool, [])).1 = (["a1"; "a2"], ["a1"]) /\
  ids (run demo_spool_dump demo_handler demo_ops (demo_spool, [])).2.1 = ["a2"].
Proof.
  split; [reflexivity|]. split; [vm_compute; reflexivity|].
  destruct (run demo_spool_dump demo_handler demo_ops (demo_spool, [])) as [[acc del] [s w]] eqn:Hrun.
  destruct (spool_is_bounded_fifo demo_spool_dump demo_handler 2 22 900 demo_spool demo_ops [] acc del s w
    eq_refl Hrun) as [Heq _].
  vm_compute in Hrun. injection Hrun as <- <- _ _.
  cbn [fst snd app] in Heq |- *. injection Heq as Heq. by symmetry.
Defined.

(** The code of [enqueue] logs a refused analysis as enqueued as well. *)
Lemma exhausted_enqueue_logged_as_enqueued :
  let '(r, s) := enqueue demo_spool_dump demo_late 210 demo_filled in
  r = Raise (SpoolExhaustedError "critical analysis spool exhausted") /\
  pending_analysis s = pending_analysis demo_filled /\
  (fun e => (event_analysis_id e, status e)) <$> spool_events s =
    [("a1", "enqueued"); ("a2", "enqueued"); ("a3", "rejected"); ("a3", "enqueued")].
Proof. vm_compute. done. Qed.

Definition demo_node : IncidentAuthority.t :=
  IncidentAuthority.mk (new_engine 8 demo_engine_authorizer) (mk 4 1000 900 [] 1 []) CapabilityMatrix.init true.

Notation demo_set_down := (IncidentAuthority.set_incident_authority_available false "maintenance").
Notation demo_apply_all := (AuthorityOutage.apply_all demo_uuid5 demo_store_sha256 demo_spool_dump).
Notation demo_recover := (IncidentAuthority.recover_incident_authority demo_uuid5 demo_store_sha256).

Definition demo_arrivals : list (AnalysisResult.t * option datetime) :=
  [(demo_watch, Some 150); (demo_confirm, Some 250)].
Definition demo_direct : IncidentAuthority.t :=
  (demo_apply_all (AuthorityOutage.as_produced [demo_watch; demo_confirm]) demo_node).2.
Definition demo_outage : IncidentAuthority.t := ((demo_set_down ;;; demo_apply_all demo_arrivals) demo_node).2.

Lemma demo_node_ok : AuthorityOutage.node_ok demo_spool_dump demo_node.
Proof.
  split; [apply new_engine_consistent|by apply (create_well_formed demo_spool_dump 4 1000 900)|].
  eexists. vm_compute. reflexivity.
Qed.

Lemma outage_leaves_no_trace_witness :
  dict_get HazardKind.WILDFIRE (IncidentEventEngine.current_ (IncidentAuthority.incidents demo_direct)) <> None /\
  exists a3, demo_recover 500 demo_outage = (Ok ["a1"; "a2"], a3) /\
    IncidentAuthority.incidents a3 = IncidentAuthority.incidents demo_direct.
Proof.
  split; [by vm_compute|].
  destruct (AuthorityOutage.outage_leaves_no_trace demo_uuid5 demo_store_sha256 demo_spool_dump
    demo_arrivals "maintenance" 500 demo_node demo_direct demo_outage demo_node_ok)
    as (a3 & H & Hinc & _).
  - reflexivity.
  - reflexivity.
  - apply (bool_decide_unpack _). vm_compute. exact I.
  - repeat constructor; vm_compute; reflexivity.
  - vm_compute. reflexivity.
  - vm_compute. reflexivity.
  - exists a3. exact (conj H Hinc).
Defined.

(** The acceptance times the callers gave are lost on the way: without the
    outage the incident was last observed, and its notification created, when
    the analysis was accepted, with it when the analysis was produced. *)
Definition last_seen (a : IncidentAuthority.t) : option (datetime * list datetime) :=
  (fun r => (IncidentRecord.last_observed_at r,
             NotificationIntent.created_at <$> IncidentJournalStore.notification_intents
               (IncidentEventEngine.store (IncidentAuthority.incidents a))))
  <$> dict_get HazardKind.WILDFIRE (IncidentEventEngine.current_ (IncidentAuthority.incidents a)).

Lemma acceptance_times_lost :
  last_seen (demo_apply_all demo_arrivals demo_node).2 = Some (250, [150; 250]) /\
  last_seen (demo_recover 500 demo_outage).2 = Some (200, [100; 200]).
Proof. vm_compute. done. Qed.

Lemma demo_outage_ok : AuthorityOutage.node_ok demo_spool_dump demo_outage.
Proof.
  assert ((demo_set_down ;;; demo_apply_all demo_arrivals) demo_node = (Ok tt, demo_outage))
    as H by (vm_compute; reflexivity).
  split.
  - assert (IncidentAuthority.incidents demo_outage = new_engine 8 demo_engine_authorizer) as -> by by vm_compute.
    apply new_engine_consistent.
  - unfold bind at 1 in H. destruct (demo_set_down demo_node) as [[[]|] n] eqn:Hs; [|done].
    eapply AuthorityOutage.apply_all_outage in H as (_ & _ & Hwf & _); [exact Hwf|..];
      vm_compute in Hs; injection Hs as <-; [done|by apply (create_well_formed demo_spool_dump 4 1000 900)|].
    apply (bool_decide_unpack _). vm_compute. exact I.
  - eexists. vm_compute. reflexivity.
Qed.

(** Killed after the second analysis was committed: the first one is gone from
    the spool, the second is delivered again. *)
Lemma recovery_survives_crash_witness :
  exists a1, AuthorityOutage.killed_recovery demo_uuid5 demo_store_sha256 1 500 demo_outage = Some a1 /\
    length (pending_analysis (IncidentAuthority.critical_spool a1)) = 1%nat /\
    exists ids a2, demo_recover 600 a1 = (Ok ("a2" :: ids), a2).
Proof.
  destruct (AuthorityOutage.killed_recovery demo_uuid5 demo_store_sha256 1 500 demo_outage) as [a1|] eqn:Hk;
    [|by vm_compute in Hk].
  exists a1. split; [reflexivity|].
  destruct (AuthorityOutage.recovery_survives_crash demo_uuid5 demo_store_sha256 demo_spool_dump 1 500 600
    demo_outage a1 demo_outage_ok Hk) as (r & Hr & Hp & Hagain).
  assert (match pending_analysis (IncidentAuthority.critical_spool demo_outage) !! 1%nat with
          | Some r => analysis_id r = "a2" /\ 600 < expires_at r | None => False end) as Hrow
    by (vm_compute; split; reflexivity).
  rewrite Hr in Hrow. destruct Hrow as [Hid Hlt].
  destruct Hagain as [Hagain _]. destruct (Hagain Hlt) as (ids & a2 & _ & H2). split; [rewrite Hp; vm_compute; reflexivity|].
  exists ids, a2. rewrite <- Hid. exact H2.
Defined.
