(* ===== verification/Tombstones.v ===== *)
(** Privacy tombstones (privacy/tombstones.py): the journal of lifecycle events
    that keeps deleted evidence deleted when an older backup is restored, and
    the retention decision for backups.

    [sha256] is the hexadecimal digest, [uuid5] is [uuid5(NAMESPACE_URL, name)]
    and [dump_event] the JSON pydantic writes for a lifecycle event.  A journal
    file holds what [model_dump] wrote, so loading one is [validate].  The
    clock readings of the projections are one argument: the fields the code
    reads do not depend on them. *)

From Stdlib Require Import ZArith.
From S2P Require Import Prelude Binary64 Enums Models Records CanonicalJson Journal.
Open Scope Z_scope.

(** The key [(str(evidence_id), resulting_version)], compared as Python does. *)
Definition tombstone_leb (x y : EvidenceLifecycleEvent.t) : bool :=
  let idx := EvidenceLifecycleEvent.evidence_id x in
  let idy := EvidenceLifecycleEvent.evidence_id y in
  if decide (idx = idy)
  then EvidenceLifecycleEvent.resulting_version x <=? EvidenceLifecycleEvent.resulting_version y
  else String.leb idx idy.

Definition is_register (e : EvidenceLifecycleEvent.t) : bool :=
  bool_decide (EvidenceLifecycleEvent.action e = EvidenceLifecycleAction.REGISTER).

Module TombstoneJournal.
Record t : Type := mk {
  schema_ : string;
  journal_id : UUID;
  generated_at : datetime;
  source_authority_position : Z;
  lifecycle_event_count : Z;
  events : list EvidenceLifecycleEvent.t;
  payload_sha256 : string
}.
End TombstoneJournal.

Module LegalHold.
Record t : Type := mk {
  hold_id : string;
  backup_id : string;
  reason : string;
  created_at : datetime;
  expires_at : datetime;
  review_due_at : datetime
}.
Definition validate (h : t) : res t :=
  check (blank (hold_id h) || blank (backup_id h) || blank (reason h))
    (ValidationError "legal hold fields must not be blank") >>!
  check (expires_at h <=? created_at h)
    (ValidationError "legal hold expiry must follow creation") >>!
  check (negb ((created_at h <=? review_due_at h) && (review_due_at h <=? expires_at h)))
    (ValidationError "legal hold review must occur within the hold window") >>!
  Ok h.
End LegalHold.

Module BackupPrivacyPolicy.
Record t : Type := mk {
  schema_ : string;
  backup_id : string;
  retention_expires_at : datetime;
  privacy_classes : list string;
  secret_reference_policy : string;
  tombstone_journal_file : string;
  tombstone_journal_sha256 : string;
  tombstone_authority_position : Z;
  legal_hold : option LegalHold.t
}.
Definition validate (p : t) : res t :=
  check (tombstone_authority_position p <? 0)
    (ValidationError "tombstone_authority_position must be >= 0") >>!
  check (bool_decide (privacy_classes p = [])
         || negb (forallb (fun c => bool_decide (c ∈ ["public"; "internal"; "restricted"])) (privacy_classes p)))
    (ValidationError "backup privacy classes are invalid") >>!
  check (match legal_hold p with
         | Some h => negb (bool_decide (LegalHold.backup_id h = backup_id p))
         | None => false
         end)
    (ValidationError "legal hold must be scoped to the exact backup") >>!
  Ok p.
End BackupPrivacyPolicy.

Module BackupRetentionDecision.
Record t : Type := mk {
  backup_id : string;
  evaluated_at : datetime;
  removable : bool;
  active_legal_hold : bool;
  retention_expired : bool;
  reason_codes : list string
}.
End BackupRetentionDecision.

Definition retention_decision (policy : BackupPrivacyPolicy.t) (now : datetime) : BackupRetentionDecision.t :=
  let retention_expired := BackupPrivacyPolicy.retention_expires_at policy <=? now in
  let active_hold := match BackupPrivacyPolicy.legal_hold policy with
    | Some h => (LegalHold.created_at h <=? now) && (now <? LegalHold.expires_at h)
    | None => false end in
  {| BackupRetentionDecision.backup_id := BackupPrivacyPolicy.backup_id policy;
     BackupRetentionDecision.evaluated_at := now;
     BackupRetentionDecision.removable := retention_expired && negb active_hold;
     BackupRetentionDecision.active_legal_hold := active_hold;
     BackupRetentionDecision.retention_expired := retention_expired;
     BackupRetentionDecision.reason_codes :=
       (if negb retention_expired then ["retention_window_active"] else [])
       ++ (if active_hold then ["exact_backup_legal_hold_active"] else [])
       ++ (if retention_expired && negb active_hold then ["retention_expired_no_active_hold"] else []) |}.

Section Journal.
Context (float_repr : f64 -> string) (sha256 : string -> string) (uuid5 : string -> UUID).
Context (dump_event : EvidenceLifecycleEvent.t -> json).
(** The digest the store computes of the objects it journals. *)
Context (store_sha256 : payload -> string).

Definition tombstone_payload_sha256 (schema_ : string) (source_authority_position lifecycle_event_count : Z)
    (events : list EvidenceLifecycleEvent.t) : string :=
  sha256 (canonical_json_bytes float_repr (JDict
    [("schema", JStr schema_);
     ("source_authority_position", JInt source_authority_position);
     ("lifecycle_event_count", JInt lifecycle_event_count);
     ("events", JList (dump_event <$> events))])).

(** The loop over the events with the keys seen so far. *)
Fixpoint check_events (seen : list (UUID * Z)) (events : list EvidenceLifecycleEvent.t) : res unit :=
  match events with
  | [] => Ok tt
  | e :: events =>
      let key := (EvidenceLifecycleEvent.evidence_id e, EvidenceLifecycleEvent.resulting_version e) in
      check (bool_decide (key ∈ seen)) (ValidationError "duplicate tombstone lifecycle version") >>!
      check (is_register e) (ValidationError "registration events are not privacy tombstones") >>!
      check_events (key :: seen) events
  end.

Definition validate (j : TombstoneJournal.t) : res TombstoneJournal.t :=
  let events := TombstoneJournal.events j in
  check (negb (bool_decide (TombstoneJournal.payload_sha256 j
      = tombstone_payload_sha256 (TombstoneJournal.schema_ j) (TombstoneJournal.source_authority_position j)
          (TombstoneJournal.lifecycle_event_count j) events)))
    (ValidationError "tombstone payload digest mismatch") >>!
  check ((TombstoneJournal.source_authority_position j <? 0) || (TombstoneJournal.lifecycle_event_count j <? 0))
    (ValidationError "tombstone counters must be >= 0") >>!
  check (negb (TombstoneJournal.lifecycle_event_count j =? Z.of_nat (length events)))
    (ValidationError "tombstone lifecycle_event_count mismatch") >>!
  check (negb (bool_decide (events = sort_by tombstone_leb events)))
    (ValidationError "tombstone events must use canonical ordering") >>!
  check_events [] events >>!
  Ok j.

Definition build_tombstone_journal (store : IncidentJournalStore.t) (generated_at : datetime)
  : res TombstoneJournal.t :=
  let events := sort_by tombstone_leb
    (List.filter (fun e => negb (is_register e)) (IncidentJournalStore.evidence_lifecycle_events None None store)) in
  let authority := IncidentJournalStore.authority_conformance store_sha256 store in
  let position := IncidentJournalStore.highest_contiguous_position authority in
  let seed := JDict
    [("source_authority_position", JInt position);
     ("event_ids", JList ((fun e => JStr (EvidenceLifecycleEvent.lifecycle_event_id e)) <$> events))] in
  let journal_id := uuid5 ("sentinel-privacy-tombstones:" +:+ sha256 (canonical_json_bytes float_repr seed)) in
  let schema := "sentinel-edge-privacy-tombstones/1.0" in
  let count := Z.of_nat (length events) in
  validate (TombstoneJournal.mk schema journal_id generated_at position count events
              (tombstone_payload_sha256 schema position count events)).

(** The loop over the events of a journal; [now] is the clock. *)
Fixpoint apply_events (events : list EvidenceLifecycleEvent.t) (now : datetime) (applied skipped : Z)
  : M IncidentJournalStore.t (Z * Z) :=
  match events with
  | [] => ret (applied, skipped)
  | event :: events =>
      let id := EvidenceLifecycleEvent.evidence_id event in
      let! store := get in
      let! current := lift
        match IncidentJournalStore.evidence_lifecycle_projection id now store with
        | Raise (KeyError _) => Raise (ValueError ("tombstone target evidence is missing: " +:+ id))
        | r => r
        end in
      let version := EvidenceLifecycleProjection.version current in
      if EvidenceLifecycleEvent.resulting_version event <=? version
      then apply_events events now applied (skipped + 1)
      else
        raise_if (negb (version =? EvidenceLifecycleEvent.expected_version event))
          (ValueError ("tombstone lifecycle gap for " +:+ id +:+ ": current=" +:+ pretty version
             +:+ " expected=" +:+ pretty (EvidenceLifecycleEvent.expected_version event))) ;;;
        let! _ := IncidentJournalStore.record_evidence_lifecycle store_sha256 event in
        apply_events events now (applied + 1) skipped
  end.

Record application : Type := mkApplication {
  application_journal_id : UUID;
  journal_sha256 : string;
  journal_authority_position : Z;
  applied : Z;
  skipped : Z
}.

Definition apply_tombstone_journal (journal : TombstoneJournal.t) (now : datetime)
  : M IncidentJournalStore.t application :=
  let! '(applied, skipped) := apply_events (TombstoneJournal.events journal) now 0 0 in
  ret (mkApplication (TombstoneJournal.journal_id journal) (TombstoneJournal.payload_sha256 journal)
         (TombstoneJournal.source_authority_position journal) applied skipped).
End Journal.
