(* ===== verification/TombstoneTheorems.v ===== *)
(** What tombstone journals guarantee: a journal that is built is valid, and
    applying it to an older state of the same node brings every piece of
    evidence that state knows to the lifecycle it has on the source: deleted
    evidence cannot come back with a backup. *)

From Stdlib Require Import ZArith Lia ZifyBool.
From S2P Require Import Prelude Ordering Binary64 Enums Models Records CanonicalJson Journal JournalTheorems EvidenceRows.
From S2P Require Import Tombstones.
Import IncidentJournalStore.
Open Scope Z_scope.

Section Restoring.
Context (store_sha256 : payload -> string).
Notation reachable := (reachable store_sha256).
Notation exec := (exec store_sha256).

(** ** Restoring *)

(** [st] is on its way to the lifecycles of [source]. *)
Record restores (source st : t) : Prop := {
  re_conformant : conformant store_sha256 st;
  re_lifecycles : lifecycles_ok st;
  re_prefix id : events_of id (lifecycle_events st) `prefix_of` events_of id (lifecycle_events source)
}.

Lemma restores_elem source st e : restores source st -> e ∈ lifecycle_events st -> e ∈ lifecycle_events source.
Proof.
  intros Hr He. destruct (re_prefix _ _ Hr (EvidenceLifecycleEvent.evidence_id e)) as [k Hk].
  apply (elem_of_events_of (EvidenceLifecycleEvent.evidence_id e)). rewrite Hk. apply elem_of_app. left.
  by apply elem_of_events_of.
Qed.

Lemma chain_prefix v st l k : chain v st (l ++ k) -> chain v st l.
Proof.
  revert v st. induction l as [|x l IH]; intros v st; [done|]. intros (? & ? & ? & ?).
  split_and!; [done..|]. by apply IH.
Qed.

(** The next event of a lifecycle is [e]. *)
Section Next.
Context (source st : t) (e : EvidenceLifecycleEvent.t).
Notation id := (EvidenceLifecycleEvent.evidence_id e).
Context (Hr : restores source st) (Hsource : lifecycles_ok source) (Hev : evidence_ok source).
Context (He : events_of id (lifecycle_events source) !! length (events_of id (lifecycle_events st)) = Some e).

Lemma next_version : EvidenceLifecycleEvent.expected_version e = Z.of_nat (length (events_of id (lifecycle_events st)))
  /\ EvidenceLifecycleEvent.resulting_version e = Z.of_nat (length (events_of id (lifecycle_events st))) + 1.
Proof. by destruct (chain_lookup _ _ _ _ _ (Hsource id) He) as (-> & -> & _). Qed.

(** What the store compares the event with. *)
Lemma next_matches :
  match last (events_of id (lifecycle_events st)) with
  | Some x => EvidenceLifecycleEvent.resulting_version x | None => 0 end = EvidenceLifecycleEvent.expected_version e /\
  EvidenceLifecycleEvent.to_state <$> last (events_of id (lifecycle_events st)) = EvidenceLifecycleEvent.from_state e.
Proof.
  destruct (chain_lookup _ _ _ _ _ (Hsource id) He) as (-> & _ & ->).
  destruct (re_prefix _ _ Hr id) as [k Hk]. rewrite Hk, take_app_length. unfold chain_end.
  destruct (last _) as [x|] eqn:Hl; [|apply last_None in Hl; by rewrite Hl]. split; [|done].
  rewrite last_lookup in Hl. destruct (chain_lookup _ _ _ _ _ (re_lifecycles _ _ Hr id) Hl) as (_ & -> & _).
  pose proof (lookup_lt_Some _ _ _ Hl). lia.
Qed.

Lemma next_fresh x :
  x ∈ lifecycle_events st ->
  EvidenceLifecycleEvent.lifecycle_event_id e <> EvidenceLifecycleEvent.lifecycle_event_id x /\
  ~ (id = EvidenceLifecycleEvent.evidence_id x /\
     EvidenceLifecycleEvent.resulting_version e = EvidenceLifecycleEvent.resulting_version x).
Proof.
  intros Hx. assert (Hver : forall x, x ∈ lifecycle_events st ->
    ~ (id = EvidenceLifecycleEvent.evidence_id x /\
       EvidenceLifecycleEvent.resulting_version e = EvidenceLifecycleEvent.resulting_version x)).
  { clear x Hx. intros x Hx [Hid Hv].
    assert (Hin : x ∈ events_of id (lifecycle_events st)) by by apply elem_of_events_of.
    apply list_elem_of_lookup in Hin as [i Hi]. pose proof (lookup_lt_Some _ _ _ Hi).
    destruct (chain_lookup _ _ _ _ _ (re_lifecycles _ _ Hr id) Hi) as (_ & Hv' & _).
    destruct next_version as [_ Hv'']. lia. }
  split; [|by apply Hver]. intros Heq. assert (e = x) as <-; [|by apply (Hver e Hx)].
  apply (NoDup_fmap_elem _ _ _ _ (ev_ids _ Hev)); [|by apply (restores_elem _ _ _ Hr)|done].
  apply list_elem_of_lookup_2, elem_of_events_of in He. apply He.
Qed.

Lemma next_prefix id' :
  events_of id' (lifecycle_events st ++ [e]) `prefix_of` events_of id' (lifecycle_events source).
Proof.
  rewrite events_of_snoc. case_decide as Hid; [|apply Hr]. subst id'.
  destruct (re_prefix _ _ Hr id) as [k Hk]. rewrite Hk in He |- *. apply prefix_app.
  rewrite lookup_app_r, Nat.sub_diag in He by done. destruct k as [|x k]; [done|].
  injection He as ->. by exists k.
Qed.

(** It is accepted. *)
Lemma next_event_recorded :
  linked st e ->
  exists st', record_evidence_lifecycle store_sha256 e st = (Ok e, st') /\ restores source st' /\
    lifecycle_events st' = lifecycle_events st ++ [e] /\ evidence_items st' = evidence_items st.
Proof.
  intros (item & Hitem & Hinc). destruct next_matches as [Hv Hs].
  unfold record_evidence_lifecycle, transaction, bind at 1, get at 1. rewrite Hitem.
  rewrite bool_decide_eq_true_2 by done. cbn [negb]. rewrite bind_raise_if_false.
  unfold record_evidence_lifecycle_locked, record_once, bind at 1, get at 1.
  assert (select_one (same_key EvidenceLifecycleEvent.lifecycle_event_id e) (lifecycle_events st) = None) as ->.
  { unfold select_one. destruct (List.find _ _) as [x|] eqn:Hf; [|done].
    apply List.find_some in Hf as [Hx%list_elem_of_In Heq%bool_decide_eq_true]. by destruct (next_fresh x Hx). }
  unfold bind at 1 2, get at 1. cbv zeta. rewrite (lifecycle_of_events _ _ (re_lifecycles _ _ Hr)).
  rewrite Hv, Hs, Z.eqb_refl, bool_decide_eq_true_2 by done. cbn [negb orb]. rewrite bind_raise_if_false.
  unfold bind at 1. rewrite append_authority_run by apply Hr.
  rewrite insert_run. cbn [lifecycle_events journaled set_subtypes set_authority_events set_authority_seq].
  assert (existsb (fun y => same_key EvidenceLifecycleEvent.lifecycle_event_id e y
      || same_key EvidenceLifecycleEvent.evidence_id e y && same_key EvidenceLifecycleEvent.resulting_version e y)
    (lifecycle_events st) = false) as ->.
  { apply not_true_iff_false. rewrite List.existsb_exists. intros (x & Hx%list_elem_of_In & Hc).
    destruct (next_fresh x Hx) as [H1 H2]. apply orb_true_iff in Hc as [Hc%bool_decide_eq_true|Hc]; [done|].
    apply andb_true_iff in Hc as [Ha%bool_decide_eq_true Hb%bool_decide_eq_true]. by apply H2. }
  eexists. split; [reflexivity|]. split; [|done]. split; [| |exact next_prefix].
  - destruct (journaled_conformant store_sha256 AuthorityMutationKind.EVIDENCE_LIFECYCLE
      (EvidenceLifecycleEvent.lifecycle_event_id e) (EvidenceLifecycleEvent.created_at e) (PLifecycle e) st
      (re_conformant _ _ Hr)). by split.
  - intros id'. destruct (next_prefix id') as [k Hk]. pose proof (Hsource id') as Hc. rewrite Hk in Hc.
    by apply chain_prefix in Hc.
Qed.
End Next.

(** Registration is always the first event of a lifecycle. *)
Definition registers_first (s : t) : Prop :=
  forall e, e ∈ lifecycle_events s -> is_register e = true -> EvidenceLifecycleEvent.resulting_version e = 1.

Notation version_reached st e :=
  (EvidenceLifecycleEvent.resulting_version e
   <= Z.of_nat (length (events_of (EvidenceLifecycleEvent.evidence_id e) (lifecycle_events st)))).
Notation sorted := (StronglySorted (fun x y => tombstone_leb x y = true)).

(** The events before the next one in the journal have been applied. *)
Lemma no_gap source st done_ e rest :
  restores source st -> lifecycles_ok source -> registers_first source ->
  sorted (e :: rest) ->
  (forall x, x ∈ done_ ++ e :: rest <-> x ∈ lifecycle_events source /\ is_register x = false) ->
  (forall x, x ∈ done_ -> version_reached st x) ->
  events_of (EvidenceLifecycleEvent.evidence_id e) (lifecycle_events st) <> [] -> ~ version_reached st e ->
  events_of (EvidenceLifecycleEvent.evidence_id e) (lifecycle_events source)
    !! length (events_of (EvidenceLifecycleEvent.evidence_id e) (lifecycle_events st)) = Some e.
Proof.
  intros Hr Hsource Hreg Hsort Hall Hdone Hne Hnew. set (id := EvidenceLifecycleEvent.evidence_id e) in *.
  assert (He : e ∈ events_of id (lifecycle_events source)).
  { apply elem_of_events_of. split; [|done]. apply Hall, elem_of_app. right. left. }
  apply list_elem_of_lookup in He as [i Hi].
  destruct (chain_lookup _ _ _ _ _ (Hsource id) Hi) as (_ & Hv & _). cbn in Hv. rewrite Hv in Hnew.
  assert (i = length (events_of id (lifecycle_events st))) as <-; [|done].
  destruct i as [|i]; [destruct (events_of id (lifecycle_events st)); [done|cbn in Hnew; lia]|].
  destruct (lookup_lt_is_Some_2 (events_of id (lifecycle_events source)) i) as [x Hx];
    [apply lookup_lt_Some in Hi; lia|].
  destruct (chain_lookup _ _ _ _ _ (Hsource id) Hx) as (_ & Hvx & _). cbn in Hvx.
  apply list_elem_of_lookup_2, elem_of_events_of in Hx as [Hin Hid].
  assert (version_reached st x) as Hreached; [|rewrite Hid in Hreached; lia].
  destruct (is_register x) eqn:Hx.
  - rewrite (Hreg x Hin Hx), Hid. by destruct (events_of id (lifecycle_events st)); cbn; [|lia].
  - assert (x ∈ done_ ++ e :: rest) as [Hd|Hd]%elem_of_app by by apply Hall.
    + by apply Hdone.
    + exfalso. apply elem_of_cons in Hd as [->|Hd]; [lia|]. apply StronglySorted_inv in Hsort as [_ Hsort].
      apply (Forall_in _ _ _ Hsort) in Hd. unfold tombstone_leb in Hd. rewrite decide_True in Hd by done. lia.
Qed.

Lemma apply_events_restores source now done_ events st a k :
  restores source st -> lifecycles_ok source -> evidence_ok source -> registers_first source ->
  sorted events ->
  (forall x, x ∈ done_ ++ events <-> x ∈ lifecycle_events source /\ is_register x = false) ->
  (forall x, x ∈ done_ -> version_reached st x) ->
  (forall x, x ∈ events ->
     linked st x /\ events_of (EvidenceLifecycleEvent.evidence_id x) (lifecycle_events st) <> []) ->
  exists n m st', apply_events store_sha256 events now a k st = (Ok (a + n, k + m), st') /\
    n + m = Z.of_nat (length events) /\ restores source st' /\ evidence_items st' = evidence_items st /\
    (forall id, events_of id (lifecycle_events st) `prefix_of` events_of id (lifecycle_events st')) /\
    forall x, x ∈ done_ ++ events -> version_reached st' x.
Proof.
  revert done_ st a k. induction events as [|e events IH];
    intros done_ st a k Hr Hsource Hev Hreg Hsort Hall Hdone Hknown.
  { exists 0, 0, st. rewrite !Z.add_0_r. split_and!; try done. intros x. rewrite app_nil_r. apply Hdone. }
  destruct (Hknown e ltac:(by left)) as [Hlinked Hne]. pose proof Hlinked as (item & Hitem & _).
  destruct (projection_ok (EvidenceLifecycleEvent.evidence_id e) now st (re_lifecycles _ _ Hr) ltac:(by eexists) Hne)
    as [p Hp].
  destruct (projection_version _ _ _ _ (re_lifecycles _ _ Hr) Hp) as (Hv & _).
  assert (Hsort' : sorted events) by (apply StronglySorted_inv in Hsort; apply Hsort).
  assert (Hall' : forall x, x ∈ (done_ ++ [e]) ++ events <-> x ∈ lifecycle_events source /\ is_register x = false)
    by (intros x; by rewrite <- app_assoc).
  cbn [apply_events]. unfold bind at 1, get at 1, bind at 1, lift at 1. rewrite Hp. cbv zeta. rewrite Hv.
  destruct (_ <=? _) eqn:Hle.
  - destruct (IH (done_ ++ [e]) st a (k + 1)) as (n & m & st' & Ha & Hnm & Hr' & Hi & Hpre & Hd); try done.
    { intros x [Hx| ->%list_elem_of_singleton]%elem_of_app; [by apply Hdone|lia]. }
    { intros x Hx. apply Hknown. by right. }
    exists n, (m + 1), st'. rewrite Ha. cbn [length]. split_and!; try done; [do 2 f_equal; f_equal; lia|lia|].
    intros x. rewrite <- app_assoc in Hd. apply Hd.
  - assert (Hlookup := no_gap source st done_ e events Hr Hsource Hreg Hsort Hall Hdone Hne ltac:(lia)).
    destruct (next_version source st e Hsource Hlookup) as [Hexp Hres].
    destruct (next_event_recorded source st e Hr Hsource Hev Hlookup Hlinked) as (st1 & Hrec & Hr1 & Hl1 & Hi1).
    rewrite Hexp, Z.eqb_refl. cbn [negb]. rewrite bind_raise_if_false. unfold bind at 1. rewrite Hrec.
    assert (Hgrow : forall id, events_of id (lifecycle_events st) `prefix_of` events_of id (lifecycle_events st1)).
    { intros id. rewrite Hl1, events_of_snoc. case_decide; [by eexists|done]. }
    destruct (IH (done_ ++ [e]) st1 (a + 1) k) as (n & m & st' & Ha & Hnm & Hr' & Hi & Hpre & Hd); try done.
    { intros x [Hx| ->%list_elem_of_singleton]%elem_of_app.
      - specialize (Hdone x Hx). pose proof (prefix_length _ _ (Hgrow (EvidenceLifecycleEvent.evidence_id x))). lia.
      - rewrite Hl1, events_of_snoc, decide_True, length_app by done. cbn. lia. }
    { intros x Hx. destruct (Hknown x ltac:(by right)) as [(y & Hy & ?) Hnx]. split.
      - exists y. split; [|done]. unfold evidence_by_id in *. by rewrite Hi1.
      - intros Hnil. destruct (Hgrow (EvidenceLifecycleEvent.evidence_id x)) as [z Hz]. rewrite Hnil in Hz.
        symmetry in Hz. by apply app_eq_nil in Hz as []. }
    exists (n + 1), m, st'. rewrite Ha. cbn [length].
    split_and!; try done; [do 2 f_equal; f_equal; lia|lia|congruence| |].
    + intros id. by transitivity (events_of id (lifecycle_events st1)).
    + intros x. rewrite <- app_assoc in Hd. apply Hd.
Qed.

(** Once everything is applied, applying again changes nothing. *)
Lemma apply_events_skips now events st a k :
  lifecycles_ok st -> (forall x, x ∈ events -> version_reached st x) ->
  (forall x, x ∈ events ->
     linked st x /\ events_of (EvidenceLifecycleEvent.evidence_id x) (lifecycle_events st) <> []) ->
  apply_events store_sha256 events now a k st = (Ok (a, k + Z.of_nat (length events)), st).
Proof.
  intros Hok. revert k. induction events as [|e events IH]; intros k Hv Hknown; cbn [apply_events length].
  { by rewrite Z.add_0_r. }
  destruct (Hknown e ltac:(by left)) as [(item & Hitem & _) Hne].
  destruct (projection_ok (EvidenceLifecycleEvent.evidence_id e) now st Hok ltac:(by eexists) Hne) as [p Hp].
  destruct (projection_version _ _ _ _ Hok Hp) as (Hpv & _).
  unfold bind at 1, get at 1, bind at 1, lift at 1. rewrite Hp. cbv zeta. rewrite Hpv.
  specialize (Hv e ltac:(by left)) as Hve. replace (_ <=? _) with true by lia.
  rewrite IH; [do 2 f_equal; f_equal; lia|intros x Hx; apply Hv; by right|intros x Hx; apply Hknown; by right].
Qed.
End Restoring.

(** ** The order of the journal *)
Lemma tombstone_leb_total x y : tombstone_leb x y = false -> tombstone_leb y x = true.
Proof.
  unfold tombstone_leb. destruct (decide (_ = _)) as [Heq|Hne].
  - rewrite decide_True by done. lia.
  - rewrite decide_False by congruence. apply String_leb_total.
Qed.

Lemma tombstone_leb_trans x y z :
  tombstone_leb x y = true -> tombstone_leb y z = true -> tombstone_leb x z = true.
Proof.
  unfold tombstone_leb. intros Hxy Hyz.
  destruct (decide (EvidenceLifecycleEvent.evidence_id x = EvidenceLifecycleEvent.evidence_id y)) as [Hx|Hx];
    destruct (decide (EvidenceLifecycleEvent.evidence_id y = EvidenceLifecycleEvent.evidence_id z)) as [Hy|Hy].
  - rewrite decide_True by congruence. lia.
  - rewrite decide_False by congruence. by rewrite Hx.
  - rewrite decide_False by congruence. by rewrite <- Hy.
  - apply String_leb_le in Hxy, Hyz. destruct (decide _) as [Hz|Hz].
    + destruct Hx. rewrite <- Hz in Hyz. by apply (anti_symm String.le).
    + apply String_leb_le. by transitivity (EvidenceLifecycleEvent.evidence_id y).
Qed.

Section Journal.
Context (float_repr : f64 -> string) (sha256 : string -> string) (uuid5 : string -> UUID).
Context (dump_event : EvidenceLifecycleEvent.t -> json) (store_sha256 : payload -> string).
Notation build := (build_tombstone_journal float_repr sha256 uuid5 dump_event store_sha256).
Notation apply_journal := (apply_tombstone_journal store_sha256).
Notation reachable := (reachable store_sha256).

(** The events of the journal of a store. *)
Definition tombstones (s : t) : list EvidenceLifecycleEvent.t :=
  sort_by tombstone_leb (List.filter (fun e => negb (is_register e)) (evidence_lifecycle_events None None s)).

Lemma tombstones_sorted s : StronglySorted (fun x y => tombstone_leb x y = true) (tombstones s).
Proof. apply sort_by_sorted; [apply tombstone_leb_total|apply tombstone_leb_trans]. Qed.

Lemma elem_of_tombstones s e : e ∈ tombstones s <-> e ∈ lifecycle_events s /\ is_register e = false.
Proof.
  unfold tombstones. rewrite sort_by_perm, list_elem_of_In, List.filter_In, <- list_elem_of_In.
  unfold evidence_lifecycle_events, order_by. by rewrite sort_by_perm, negb_true_iff.
Qed.

Lemma filter_sublist {A} (p : A -> bool) l : List.filter p l `sublist_of` l.
Proof. induction l as [|x l IH]; cbn; [constructor|]. destruct (p x); by constructor. Qed.

(** An event is determined by its evidence and version. *)
Lemma same_version s x y :
  lifecycles_ok s -> x ∈ lifecycle_events s -> y ∈ lifecycle_events s ->
  EvidenceLifecycleEvent.evidence_id x = EvidenceLifecycleEvent.evidence_id y ->
  EvidenceLifecycleEvent.resulting_version x = EvidenceLifecycleEvent.resulting_version y -> x = y.
Proof.
  intros Hok Hx Hy Hid Hv.
  assert (forall z, z ∈ lifecycle_events s ->
    EvidenceLifecycleEvent.evidence_id z = EvidenceLifecycleEvent.evidence_id y ->
    exists i, events_of (EvidenceLifecycleEvent.evidence_id y) (lifecycle_events s) !! i = Some z /\
      EvidenceLifecycleEvent.resulting_version z = Z.of_nat i + 1) as Hindex.
  { intros z Hz Heq. assert (z ∈ events_of (EvidenceLifecycleEvent.evidence_id y) (lifecycle_events s)) as Hin
      by by apply elem_of_events_of.
    apply list_elem_of_lookup in Hin as [i Hi]. exists i. split; [done|].
    by destruct (chain_lookup _ _ _ _ _ (Hok _) Hi) as (_ & -> & _). }
  destruct (Hindex x Hx Hid) as (i & Hi & Hvi). destruct (Hindex y Hy eq_refl) as (k & Hk & Hvk).
  assert (i = k) by lia. congruence.
Qed.

Lemma tombstones_checked s :
  lifecycles_ok s -> evidence_ok s -> check_events [] (tombstones s) = Ok tt.
Proof.
  intros Hok Hev.
  assert (Hnd : NoDup (tombstones s)).
  { unfold tombstones. rewrite sort_by_perm. eapply sublist_NoDup; [|apply filter_sublist].
    unfold evidence_lifecycle_events, order_by. rewrite sort_by_perm. eapply NoDup_fmap_1, Hev. }
  assert (Hin : forall e, e ∈ tombstones s -> e ∈ lifecycle_events s /\ is_register e = false)
    by (intros e; apply elem_of_tombstones).
  assert (Hseen : forall e, e ∈ tombstones s ->
    (EvidenceLifecycleEvent.evidence_id e, EvidenceLifecycleEvent.resulting_version e) ∉ @nil (UUID * Z))
    by (intros; apply not_elem_of_nil).
  revert Hnd Hin Hseen. generalize (tombstones s), (@nil (UUID * Z)).
  induction l as [|e l IH]; intros seen Hnd Hin Hseen; [done|]. apply NoDup_cons in Hnd as [Hnew Hnd]. cbn.
  rewrite bool_decide_eq_false_2 by (apply Hseen; by left). destruct (Hin e ltac:(by left)) as [He ->]. cbn.
  apply IH; [done|intros x Hx; apply Hin; by right|].
  intros x Hx. apply not_elem_of_cons. split; [|apply Hseen; by right]. intros [= Hid Hv].
  destruct (Hin x ltac:(by right)) as [Hx' _]. by rewrite (same_version s x e) in Hx.
Qed.

Lemma watermark_nonneg s :
  conformant store_sha256 s -> 0 <= highest_contiguous_position (authority_conformance store_sha256 s).
Proof.
  intros [Hev _ _]. unfold authority_conformance. cbn [highest_contiguous_position].
  destruct (bool_decide _); [|done]. destruct (last _) as [e|] eqn:El; [|done].
  destruct (numbered_last _ _ _ _ Hev El) as [-> _]. lia.
Qed.

(** The journal of a store in any execution is valid. *)
Lemma build_ok s generated_at :
  reachable s -> exists j, build s generated_at = Ok j /\ TombstoneJournal.events j = tombstones s.
Proof.
  intros Hs. pose proof (watermark_nonneg s (reachable_conformant _ _ Hs)) as Hpos.
  unfold build_tombstone_journal, validate. fold (tombstones s). cbv zeta.
  cbn [TombstoneJournal.payload_sha256 TombstoneJournal.schema_ TombstoneJournal.source_authority_position
    TombstoneJournal.lifecycle_event_count TombstoneJournal.events].
  rewrite bool_decide_eq_true_2 by done. cbn [negb check rbind].
  replace (_ || _) with false by lia. rewrite Z.eqb_refl. cbn [negb check rbind].
  rewrite (bool_decide_eq_true_2 (tombstones s = _)) by (symmetry; apply sort_by_id, tombstones_sorted).
  cbn [negb check rbind].
  rewrite tombstones_checked; [|by eapply reachable_lifecycles|by eapply reachable_evidence].
  by eexists.
Qed.

Lemma validate_same j j' : validate float_repr sha256 dump_event j = Ok j' -> j' = j.
Proof. unfold validate. intros H. repeat (apply rbind_ok in H as ([] & _ & H)). by injection H as <-. Qed.

Lemma validate_again j j' :
  validate float_repr sha256 dump_event j = Ok j' -> validate float_repr sha256 dump_event j' = Ok j'.
Proof. intros H. pose proof (validate_same _ _ H) as Heq. by rewrite <- Heq in H. Qed.

(** An earlier state of a node. *)
Section Backup.
Context (source backup : t).
Context (Hbackup : reachable backup) (Hsteps : rtc (step store_sha256) backup source).

Lemma source_reachable : reachable source.
Proof. unfold JournalTheorems.reachable in *. by etrans. Qed.

Lemma backup_evidence id item : evidence_by_id id backup = Some item -> evidence_by_id id source = Some item.
Proof.
  destruct (gr_evidence _ _ _ (steps_grow _ _ _ Hsteps)) as [k Hk]. unfold evidence_by_id, select_one. rewrite Hk.
  rewrite find_app. by intros ->.
Qed.

Lemma backup_restores : restores store_sha256 source backup.
Proof.
  split; [by apply reachable_conformant|by eapply reachable_lifecycles|].
  intros id. destruct (gr_lifecycle _ _ _ (steps_grow _ _ _ Hsteps)) as [k ->].
  unfold events_of, select. rewrite List.filter_app. by eexists.
Qed.

Lemma backup_known now e :
  e ∈ lifecycle_events source ->
  is_ok (evidence_lifecycle_projection (EvidenceLifecycleEvent.evidence_id e) now backup) = true ->
  linked backup e /\ events_of (EvidenceLifecycleEvent.evidence_id e) (lifecycle_events backup) <> [].
Proof.
  intros He Hok. destruct (evidence_lifecycle_projection _ _ _) as [p|] eqn:Hp; [|done].
  destruct (projection_version _ _ _ _ (reachable_lifecycles _ _ Hbackup) Hp) as (_ & [item Hi] & Hne).
  split; [|done]. destruct (ev_linked _ (reachable_evidence _ _ source_reachable) e He) as (item' & Hi' & Hinc).
  pose proof (backup_evidence _ _ Hi). exists item. split; [done|congruence].
Qed.

(** When every tombstone is reached, the lifecycles are those of the source. *)
Lemma restored_complete now restored id p :
  registers_first source -> restores store_sha256 source restored -> evidence_items restored = evidence_items backup ->
  (forall id, events_of id (lifecycle_events backup) `prefix_of` events_of id (lifecycle_events restored)) ->
  (forall e, e ∈ tombstones source -> EvidenceLifecycleEvent.resulting_version e
     <= Z.of_nat (length (events_of (EvidenceLifecycleEvent.evidence_id e) (lifecycle_events restored)))) ->
  evidence_lifecycle_projection id now backup = Ok p ->
  evidence_lifecycle_projection id now restored = evidence_lifecycle_projection id now source.
Proof.
  intros Hreg Hr Hitems Hgrow Hreached Hp. pose proof (reachable_lifecycles _ _ source_reachable) as Hsource.
  destruct (projection_version _ _ _ _ (reachable_lifecycles _ _ Hbackup) Hp) as (_ & [item Hi] & Hne).
  assert (events_of id (lifecycle_events restored) = events_of id (lifecycle_events source)) as Heq.
  { apply prefix_length_eq; [apply Hr|].
    destruct (last (events_of id (lifecycle_events source))) as [e|] eqn:El;
      [|apply last_None in El; rewrite El; cbn; lia].
    rewrite last_lookup in El. destruct (chain_lookup _ _ _ _ _ (Hsource id) El) as (_ & Hv & _).
    apply list_elem_of_lookup_2, elem_of_events_of in El as [He Hid].
    assert (0 < length (events_of id (lifecycle_events restored)))%nat.
    { pose proof (prefix_length _ _ (Hgrow id)).
      destruct (events_of id (lifecycle_events backup)); cbn in *; [done|lia]. }
    destruct (is_register e) eqn:Hx; [specialize (Hreg e He Hx); lia|].
    specialize (Hreached e ltac:(by apply elem_of_tombstones)). rewrite Hid in Hreached. lia. }
  unfold evidence_lifecycle_projection. rewrite !lifecycle_of_events, Heq by (apply Hr || done).
  rewrite (backup_evidence _ _ Hi). unfold evidence_by_id in *. by rewrite Hitems, Hi.
Qed.
End Backup.

(** C9: a restored backup cannot resurrect evidence.  The journal of a node
    can always be built and is valid.  Where registration is the first event of
    every lifecycle of the node, as the evidence service keeps it, and the
    earlier state already knows every piece of evidence the journal has an
    event of, applying the journal to that state succeeds, and afterwards every
    piece of evidence the state knew projects to exactly what it projects to
    on the source: what was deleted, redacted or restricted since is so again.
    Applying the journal a second time skips every event and changes nothing. *)
Theorem no_resurrection source backup generated_at now :
  reachable backup -> rtc (step store_sha256) backup source -> registers_first source ->
  (forall e, e ∈ lifecycle_events source -> is_register e = false ->
     is_ok (evidence_lifecycle_projection (EvidenceLifecycleEvent.evidence_id e) now backup) = true) ->
  exists j report restored,
    build source generated_at = Ok j /\ validate float_repr sha256 dump_event j = Ok j /\
    apply_journal j now backup = (Ok report, restored) /\
    applied report + skipped report = Z.of_nat (length (TombstoneJournal.events j)) /\
    (forall id p, evidence_lifecycle_projection id now backup = Ok p ->
       evidence_lifecycle_projection id now restored = evidence_lifecycle_projection id now source) /\
    exists report', apply_journal j now restored = (Ok report', restored) /\ applied report' = 0.
Proof.
  intros Hbackup Hsteps Hreg Hknown.
  pose proof (source_reachable _ _ Hbackup Hsteps) as Hsource.
  destruct (build_ok source generated_at Hsource) as (j & Hj & Hevents).
  assert (Hk : forall e, e ∈ tombstones source -> linked backup e
    /\ events_of (EvidenceLifecycleEvent.evidence_id e) (lifecycle_events backup) <> []).
  { intros e [He Hx]%elem_of_tombstones. apply (backup_known source backup Hbackup Hsteps now); auto. }
  destruct (apply_events_restores store_sha256 source now [] (tombstones source) backup 0 0)
    as (n & m & restored & Happly & Hnm & Hr & Hitems & Hgrow & Hreached);
    [by apply backup_restores|by eapply reachable_lifecycles|by eapply reachable_evidence|done|
     apply tombstones_sorted|apply elem_of_tombstones|by intros x ?%not_elem_of_nil|exact Hk|].
  exists j. unfold apply_tombstone_journal. rewrite Hevents. unfold bind. rewrite Happly. cbn [ret].
  eexists _, restored. split; [exact Hj|]. split; [eapply validate_again; exact Hj|]. split; [reflexivity|].
  split; [cbn [applied skipped]; lia|]. split.
  - intros id p. by apply (restored_complete source backup Hbackup Hsteps).
  - rewrite (apply_events_skips store_sha256); [by eexists|apply Hr|exact Hreached|].
    intros e He. destruct (Hk e He) as [(item & Hi & ?) Hne]. split.
    + exists item. unfold evidence_by_id in *. by rewrite Hitems.
    + intros Hnil. destruct (Hgrow (EvidenceLifecycleEvent.evidence_id e)) as [z Hz]. rewrite Hnil in Hz.
      symmetry in Hz. by apply app_eq_nil in Hz as [].
Qed.
End Journal.

(** ** A concrete backup *)
Definition demo_before : list op := take 4 demo_ops.
Definition demo_after : list op := drop 4 demo_ops.
Definition demo_backup : t := run_store demo_sha256 demo_before init.
Definition demo_source : t := run_store demo_sha256 demo_after demo_backup.

Definition demo_state (s : t) : option EvidenceContentState.t :=
  match evidence_lifecycle_projection "evidence-1" 100 s with
  | Ok p => Some (EvidenceLifecycleProjection.state p) | Raise _ => None end.

(** The backup holds the evidence as available; it expired afterwards. *)
Lemma no_resurrection_witness :
  demo_state demo_backup = Some EvidenceContentState.AVAILABLE /\
  exists j report restored,
    build_tombstone_journal demo_repr (fun s => s) (fun s => s) (fun e => JNull) demo_sha256 demo_source 50 = Ok j /\
    apply_tombstone_journal demo_sha256 j 100 demo_backup = (Ok report, restored) /\
    demo_state restored = Some EvidenceContentState.EXPIRED.
Proof.
  split; [vm_compute; reflexivity|].
  destruct (no_resurrection demo_repr (fun s => s) (fun s => s) (fun e => JNull) demo_sha256 demo_source demo_backup
    50 100) as (j & report & restored & Hj & _ & Ha & _ & Hp & _).
  - apply run_store_steps. repeat constructor.
  - apply run_store_steps. repeat constructor.
  - intros e He. assert (Forall (fun e => is_register e = true -> EvidenceLifecycleEvent.resulting_version e = 1)
      (lifecycle_events demo_source)) as Hall by (vm_compute; by repeat constructor).
    by apply (Forall_in _ _ _ Hall).
  - intros e He. assert (Forall (fun e => is_register e = false ->
      is_ok (evidence_lifecycle_projection (EvidenceLifecycleEvent.evidence_id e) 100 demo_backup) = true)
      (lifecycle_events demo_source)) as Hall by (vm_compute; by repeat constructor).
    by apply (Forall_in _ _ _ Hall).
  - exists j, report, restored. split; [exact Hj|]. split; [exact Ha|].
    unfold demo_state. destruct (evidence_lifecycle_projection "evidence-1" 100 demo_backup) as [p|e] eqn:E;
      [|vm_compute in E; discriminate E].
    rewrite (Hp "evidence-1" p E). vm_compute. reflexivity.
Defined.

(** The condition on the backup is needed: evidence that was ingested and
    deleted, redacted or expired after the backup was taken makes the restore
    fail, although the backup holds nothing of it to delete. *)
Example later_evidence_blocks_restore :
  match build_tombstone_journal demo_repr (fun s => s) (fun s => s) (fun e => JNull) demo_sha256 demo_source 50 with
  | Ok j => (apply_tombstone_journal demo_sha256 j 100 (run_store demo_sha256 (take 3 demo_ops) init)).1
      = Raise (ValueError "tombstone target evidence is missing: evidence-1")
  | Raise _ => False
  end.
Proof. vm_compute. reflexivity. Qed.
