(* ===== verification/Base64.v ===== *)
(** [base64.b64encode] and [base64.b64decode(validate=True)] of the standard
    library: texts and byte strings are lists of bytes.  Decoding is strict:
    complete groups of four characters of the alphabet, padding only at the
    end; the unused bits of the last character are ignored, as CPython does. *)

From Stdlib Require Import ZArith Lia.
From S2P Require Import Prelude.

Notation byte_of := Ascii.ascii_of_nat.
Notation code := Ascii.nat_of_ascii.

(** The character of six bits. *)
Definition b64_char (n : nat) : Ascii.ascii :=
  byte_of (if n <? 26 then 65 + n else if n <? 52 then 71 + n else if n <? 62 then n - 4
           else if n =? 62 then 43 else 47)%nat.

Definition b64_value (c : Ascii.ascii) : option nat :=
  let n := code c in
  (if (65 <=? n) && (n <=? 90) then Some (n - 65)
   else if (97 <=? n) && (n <=? 122) then Some (n - 71)
   else if (48 <=? n) && (n <=? 57) then Some (n + 4)
   else if n =? 43 then Some 62 else if n =? 47 then Some 63 else None)%nat.

Definition pad : Ascii.ascii := byte_of 61.

(** Two to four sextets as bytes. *)
Definition byte1 (a b : nat) : Ascii.ascii := byte_of (a * 4 + b / 16).
Definition byte2 (b c : nat) : Ascii.ascii := byte_of (b mod 16 * 16 + c / 4).
Definition byte3 (c d : nat) : Ascii.ascii := byte_of (c mod 4 * 64 + d).

Fixpoint b64encode (s : string) : string :=
  match s with
  | EmptyString => ""
  | String x EmptyString =>
      String (b64_char (code x / 4)) (String (b64_char (code x mod 4 * 16)) (String pad (String pad "")))
  | String x (String y EmptyString) =>
      String (b64_char (code x / 4)) (String (b64_char (code x mod 4 * 16 + code y / 16))
        (String (b64_char (code y mod 16 * 4)) (String pad "")))
  | String x (String y (String z s)) =>
      String (b64_char (code x / 4)) (String (b64_char (code x mod 4 * 16 + code y / 16))
        (String (b64_char (code y mod 16 * 4 + code z / 64)) (String (b64_char (code z mod 64)) (b64encode s))))
  end.

(** The last group, which may be padded. *)
Definition b64_last (a b c d : Ascii.ascii) : option string :=
  match b64_value a, b64_value b with
  | Some a, Some b =>
      match b64_value c, b64_value d with
      | Some c, Some d => Some (String (byte1 a b) (String (byte2 b c) (String (byte3 c d) "")))
      | Some c, None => if decide (d = pad) then Some (String (byte1 a b) (String (byte2 b c) "")) else None
      | None, _ => if decide (c = pad /\ d = pad) then Some (String (byte1 a b) "") else None
      end
  | _, _ => None
  end.

Fixpoint b64decode (s : string) : option string :=
  match s with
  | EmptyString => Some ""
  | String a (String b (String c (String d EmptyString))) => b64_last a b c d
  | String a (String b (String c (String d s))) =>
      match b64_value a, b64_value b, b64_value c, b64_value d with
      | Some a, Some b, Some c, Some d =>
          (fun rest => String (byte1 a b) (String (byte2 b c) (String (byte3 c d) rest))) <$> b64decode s
      | _, _, _, _ => None
      end
  | _ => None
  end.

(** ** Round trip *)
Lemma b64_value_char n : (n < 64)%nat -> b64_value (b64_char n) = Some n.
Proof.
  intros Hn. do 64 (destruct n as [|n]; [reflexivity|]). lia.
Qed.

Lemma digit_mod a b k : (b < k)%nat -> ((a * k + b) mod k = b)%nat.
Proof. intros H. rewrite Nat.add_comm, Nat.Div0.mod_add. by apply Nat.mod_small. Qed.

Lemma digit_div a b k : (b < k)%nat -> ((a * k + b) / k = a)%nat.
Proof. intros H. rewrite Nat.div_add_l, Nat.div_small by lia. lia. Qed.

Lemma b64_bytes x y z :
  byte1 (code x / 4) (code x mod 4 * 16 + code y / 16) = x /\
  byte2 (code x mod 4 * 16 + code y / 16) (code y mod 16 * 4 + code z / 64) = y /\
  byte3 (code y mod 16 * 4 + code z / 64) (code z mod 64) = z.
Proof.
  pose proof (Ascii.nat_ascii_bounded x). pose proof (Ascii.nat_ascii_bounded y).
  pose proof (Ascii.nat_ascii_bounded z).
  assert (Hx : forall c n, n = code c -> byte_of n = c) by (intros c n ->; apply Ascii.ascii_nat_embedding).
  pose proof (Nat.div_mod_eq (code x) 4). pose proof (Nat.mod_upper_bound (code x) 4).
  pose proof (Nat.div_mod_eq (code y) 16). pose proof (Nat.mod_upper_bound (code y) 16).
  pose proof (Nat.div_mod_eq (code z) 64). pose proof (Nat.mod_upper_bound (code z) 64).
  assert (code y / 16 < 16)%nat by (apply Nat.Div0.div_lt_upper_bound; lia).
  assert (code z / 64 < 4)%nat by (apply Nat.Div0.div_lt_upper_bound; lia).
  unfold byte1, byte2, byte3. split_and!; apply Hx; rewrite ?digit_mod, ?digit_div by done; lia.
Qed.


(** The sextets of a group are in range. *)
Lemma b64_group x y z :
  (code x / 4 < 64 /\ code x mod 4 * 16 + code y / 16 < 64 /\ code y mod 16 * 4 + code z / 64 < 64
   /\ code z mod 64 < 64)%nat.
Proof.
  pose proof (Ascii.nat_ascii_bounded x). pose proof (Ascii.nat_ascii_bounded y).
  pose proof (Ascii.nat_ascii_bounded z).
  pose proof (Nat.mod_upper_bound (code x) 4). pose proof (Nat.mod_upper_bound (code y) 16).
  pose proof (Nat.mod_upper_bound (code z) 64).
  assert (code x / 4 < 64)%nat by (apply Nat.Div0.div_lt_upper_bound; lia).
  assert (code y / 16 < 16)%nat by (apply Nat.Div0.div_lt_upper_bound; lia).
  assert (code z / 64 < 4)%nat by (apply Nat.Div0.div_lt_upper_bound; lia).
  lia.
Qed.

Lemma code_zero : code (byte_of 0) = 0%nat.
Proof. reflexivity. Qed.

Lemma b64decode_group a b c d rest :
  (a < 64)%nat -> (b < 64)%nat -> (c < 64)%nat -> (d < 64)%nat ->
  b64decode (String (b64_char a) (String (b64_char b) (String (b64_char c) (String (b64_char d) rest))))
  = (fun rest => String (byte1 a b) (String (byte2 b c) (String (byte3 c d) rest))) <$> b64decode rest.
Proof.
  intros. cbn [b64decode]. unfold b64_last. rewrite !b64_value_char by done. by destruct rest.
Qed.

(** Encoded bytes are decoded to themselves. *)
Lemma base64_decodes s : b64decode (b64encode s) = Some s.
Proof.
  induction s as [s IH] using (induction_ltof1 _ String.length). unfold ltof in IH.
  destruct s as [|x [|y [|z s]]]; [done| | |].
  - destruct (b64_group x (byte_of 0) (byte_of 0)) as (Ha & Hb & _). destruct (b64_bytes x (byte_of 0) (byte_of 0)) as (H1 & _).
    rewrite code_zero in *. change (0 / 16)%nat with 0%nat in *. rewrite !Nat.add_0_r in *.
    cbn [b64encode b64decode]. unfold b64_last. by rewrite !b64_value_char, H1 by done.
  - destruct (b64_group x y (byte_of 0)) as (Ha & Hb & Hc & _). destruct (b64_bytes x y (byte_of 0)) as (H1 & H2 & _).
    rewrite code_zero in *. change (0 / 64)%nat with 0%nat in *. rewrite !Nat.add_0_r in *.
    cbn [b64encode b64decode]. unfold b64_last. by rewrite !b64_value_char, H1, H2 by done.
  - destruct (b64_group x y z) as (Ha & Hb & Hc & Hd). destruct (b64_bytes x y z) as (H1 & H2 & H3).
    cbn [b64encode]. rewrite b64decode_group, H1, H2, H3 by done. rewrite IH; [done|]. cbn. lia.
Qed.
