(* ===== verification/KeyLifecycle.v ===== *)
(** The append-only public-key registry (security/key_lifecycle.py): keys by
    identity, generation and purpose, their lifecycle events, and the
    verification of signatures against the state a key had.

    [ed25519_verify key signature message] is [Ed25519PublicKey.verify]: it
    answers whether the call returns instead of raising [InvalidSignature].
    [sha256], [uuid5], [isoformat] and [float_repr] are parameters as in the
    other files; clock readings are arguments.  A row of [key_identities] is the
    record its [payload_json] holds together with the column [current_state]. *)

From Stdlib Require Import ZArith.
From S2P Require Import Prelude Binary64 Enums Models Records CanonicalJson Base64.
Open Scope Z_scope.

Module KeyPurpose.
Inductive t : Type := AUDIT_SIGNING | SOURCE_SIGNING | DEVICE_IDENTITY | UPDATE_SIGNING.
#[global] Instance eq_dec : EqDecision t.
Proof. solve_decision. Defined.
Definition value (x : t) : string :=
  match x with
  | AUDIT_SIGNING => "audit_signing"
  | SOURCE_SIGNING => "source_signing"
  | DEVICE_IDENTITY => "device_identity"
  | UPDATE_SIGNING => "update_signing"
  end.
End KeyPurpose.

Module KeyLifecycleAction.
Inductive t : Type := ACTIVATE | ROTATE | RETIRE | REVOKE_POLICY | SUSPECT_COMPROMISE | CONFIRM_COMPROMISE.
#[global] Instance eq_dec : EqDecision t.
Proof. solve_decision. Defined.
Definition value (x : t) : string :=
  match x with
  | ACTIVATE => "activate"
  | ROTATE => "rotate"
  | RETIRE => "retire"
  | REVOKE_POLICY => "revoke_policy"
  | SUSPECT_COMPROMISE => "suspect_compromise"
  | CONFIRM_COMPROMISE => "confirm_compromise"
  end.
End KeyLifecycleAction.

Module KeyState.
Inductive t : Type := ACTIVE | RETIRED | REVOKED_POLICY | SUSPECTED_COMPROMISE | COMPROMISED.
#[global] Instance eq_dec : EqDecision t.
Proof. solve_decision. Defined.
Definition value (x : t) : string :=
  match x with
  | ACTIVE => "active"
  | RETIRED => "retired"
  | REVOKED_POLICY => "revoked_policy"
  | SUSPECTED_COMPROMISE => "suspected_compromise"
  | COMPROMISED => "compromised"
  end.
End KeyState.

Definition ACTION_TO_STATE (a : KeyLifecycleAction.t) : KeyState.t :=
  match a with
  | KeyLifecycleAction.ACTIVATE => KeyState.ACTIVE
  | KeyLifecycleAction.ROTATE => KeyState.ACTIVE
  | KeyLifecycleAction.RETIRE => KeyState.RETIRED
  | KeyLifecycleAction.REVOKE_POLICY => KeyState.REVOKED_POLICY
  | KeyLifecycleAction.SUSPECT_COMPROMISE => KeyState.SUSPECTED_COMPROMISE
  | KeyLifecycleAction.CONFIRM_COMPROMISE => KeyState.COMPROMISED
  end.

Definition is_compromise (a : KeyLifecycleAction.t) : bool :=
  bool_decide (a ∈ [KeyLifecycleAction.SUSPECT_COMPROMISE; KeyLifecycleAction.CONFIRM_COMPROMISE]).

Module KeyIdentityRecord.
Record t : Type := mk {
  identity_id : string;
  generation : Z;
  purpose : KeyPurpose.t;
  public_key_b64 : string;
  public_key_sha256 : string;
  policy_version : string;
  active_from : datetime;
  active_until : option datetime;
  state : KeyState.t;
  registered_at : datetime
}.
#[global] Instance eq_dec : EqDecision t.
Proof. solve_decision. Defined.

Definition set_state (s : KeyState.t) (r : t) : t :=
  mk (identity_id r) (generation r) (purpose r) (public_key_b64 r) (public_key_sha256 r) (policy_version r)
    (active_from r) (active_until r) s (registered_at r).

Definition validate (sha256 : string -> string) (r : t) : res t :=
  check (generation r <? 1) (ValidationError "key generation must be >= 1") >>!
  check (blank (identity_id r) || blank (policy_version r))
    (ValidationError "key identity fields must not be blank") >>!
  match b64decode (public_key_b64 r) with
  | None => Raise (ValidationError "invalid base64")
  | Some raw =>
      check (negb (String.length raw =? 32)%nat)
        (ValidationError "Ed25519 public key must contain 32 raw bytes") >>!
      check (negb (bool_decide (sha256 raw = public_key_sha256 r)))
        (ValidationError "public key digest mismatch") >>!
      check (match active_until r with Some u => u <=? active_from r | None => false end)
        (ValidationError "active_until must follow active_from") >>!
      Ok r
  end.
End KeyIdentityRecord.

Module KeyLifecycleEvent.
Record t : Type := mk {
  event_id : UUID;
  identity_id : string;
  generation : Z;
  purpose : KeyPurpose.t;
  action : KeyLifecycleAction.t;
  from_state : option KeyState.t;
  to_state : KeyState.t;
  effective_at : datetime;
  actor : string;
  reason : string;
  policy_version : string;
  compromise_floor_position : option Z;
  payload_sha256 : string
}.
Definition validate (e : t) : res t :=
  check ((generation e <? 1) || negb (opt_all (fun p => 1 <=? p) (compromise_floor_position e)))
    (ValidationError "key lifecycle event out of range") >>!
  Ok e.
End KeyLifecycleEvent.

Module SignatureVerification.
Record t : Type := mk {
  accepted : bool;
  status : string;
  identity_id : string;
  generation : Z;
  purpose : KeyPurpose.t;
  policy_version : option string;
  key_state_at_observation : option KeyState.t;
  current_key_state : option KeyState.t;
  historical : bool;
  reason_codes : list string
}.
End SignatureVerification.

Module KeyLifecycleRegistry.

Record key_row : Type := mkRow {
  record : KeyIdentityRecord.t;
  current_state : KeyState.t
}.
Record t : Type := mk {
  key_identities : list key_row;
  key_lifecycle_events : list KeyLifecycleEvent.t
}.
Definition set_key_identities v (s : t) : t := mk v (key_lifecycle_events s).
Definition set_key_lifecycle_events v (s : t) : t := mk (key_identities s) v.
Definition init : t := mk [] [].

Definition key : Type := string * Z * KeyPurpose.t.
Definition key_of (r : KeyIdentityRecord.t) : key :=
  (KeyIdentityRecord.identity_id r, KeyIdentityRecord.generation r, KeyIdentityRecord.purpose r).
Definition event_key (e : KeyLifecycleEvent.t) : key :=
  (KeyLifecycleEvent.identity_id e, KeyLifecycleEvent.generation e, KeyLifecycleEvent.purpose e).
Definition key_name (k : key) : string :=
  k.1.1 +:+ ":" +:+ pretty k.1.2 +:+ ":" +:+ KeyPurpose.value k.2.

Definition find_key (k : key) (s : t) : option key_row :=
  select_one (fun row => bool_decide (key_of (record row) = k)) (key_identities s).

Definition loaded (row : key_row) : KeyIdentityRecord.t := KeyIdentityRecord.set_state (current_state row) (record row).

(** [_load] *)
Definition load (k : key) (s : t) : res KeyIdentityRecord.t :=
  match find_key k s with
  | None => Raise (KeyError (key_name k))
  | Some row => Ok (loaded row)
  end.

Definition public_key_b64 (public_key_raw : string) : res string :=
  check (negb (String.length public_key_raw =? 32)%nat)
    (ValueError "Ed25519 public key must contain 32 raw bytes") >>!
  Ok (b64encode public_key_raw).

(** [events] of one key; the other combinations of its filters are not used. *)
Definition events (k : key) (s : t) : list KeyLifecycleEvent.t :=
  order_by KeyLifecycleEvent.effective_at KeyLifecycleEvent.event_id
    (select (fun e => bool_decide (event_key e = k)) (key_lifecycle_events s)).

Definition records (s : t) : list KeyIdentityRecord.t :=
  loaded <$> sort_by (fun x y =>
    let kx := key_of (record x) in let ky := key_of (record y) in
    if decide (kx.2 = ky.2) then
      if decide (kx.1.1 = ky.1.1) then kx.1.2 <=? ky.1.2 else String.leb kx.1.1 ky.1.1
    else String.leb (KeyPurpose.value kx.2) (KeyPurpose.value ky.2)) (key_identities s).

(** [_state_at]: the last event effective by then. *)
Definition event_at (k : key) (observed_at : datetime) (s : t) : option KeyLifecycleEvent.t :=
  last (List.filter (fun e => KeyLifecycleEvent.effective_at e <=? observed_at) (events k s)).
Definition state_at (k : key) (observed_at : datetime) (s : t) : option KeyState.t :=
  KeyLifecycleEvent.to_state <$> event_at k observed_at s.

(** The validity window of a record. *)
Definition outside_window (r : KeyIdentityRecord.t) (at_ : datetime) : bool :=
  (at_ <? KeyIdentityRecord.active_from r)
  || match KeyIdentityRecord.active_until r with Some u => u <=? at_ | None => false end.

Definition signing_allowed (k : key) (at_ : datetime) (s : t) : res KeyIdentityRecord.t :=
  rbind (load k s) (fun record =>
    check (negb (bool_decide (state_at k at_ s = Some KeyState.ACTIVE))
           || negb (bool_decide (KeyIdentityRecord.state record = KeyState.ACTIVE)))
      (PermissionError "key generation is not active for new signatures") >>!
    check (outside_window record at_)
      (PermissionError "key generation is outside its validity window") >>!
    Ok record).

Section Operations.
Context (float_repr : f64 -> string) (isoformat : datetime -> string).
Context (sha256 : string -> string) (uuid5 : string -> UUID).
Context (ed25519_verify : string -> string -> string -> bool).

(** [INSERT OR IGNORE INTO key_lifecycle_events] *)
Definition insert_event (e : KeyLifecycleEvent.t) : M t unit :=
  modify (fun s =>
    if existsb (fun x =>
         same_key KeyLifecycleEvent.event_id e x
         || same_key event_key e x && same_key KeyLifecycleEvent.effective_at e x
            && same_key KeyLifecycleEvent.action e x) (key_lifecycle_events s)
    then s else set_key_lifecycle_events (key_lifecycle_events s ++ [e]) s).

Definition event_json (k : key) (action : KeyLifecycleAction.t) (from_state : option KeyState.t)
    (to_state : KeyState.t) (effective_at : datetime) (actor reason policy_version : string)
    (compromise_floor_position : option Z) : json :=
  JDict [("identity_id", JStr k.1.1);
         ("generation", JInt k.1.2);
         ("purpose", JStr (KeyPurpose.value k.2));
         ("action", JStr (KeyLifecycleAction.value action));
         ("from_state", match from_state with Some s => JStr (KeyState.value s) | None => JNull end);
         ("to_state", JStr (KeyState.value to_state));
         ("effective_at", JStr (isoformat effective_at));
         ("actor", JStr actor);
         ("reason", JStr reason);
         ("policy_version", JStr policy_version);
         ("compromise_floor_position",
           match compromise_floor_position with Some p => JInt p | None => JNull end)].

Definition append_event (k : key) (action : KeyLifecycleAction.t) (from_state : option KeyState.t)
    (to_state : KeyState.t) (effective_at : datetime) (actor reason policy_version : string)
    (compromise_floor_position : option Z) : M t KeyLifecycleEvent.t :=
  raise_if (blank actor || blank reason || blank policy_version)
    (ValueError "key lifecycle governance fields must not be blank") ;;;
  let payload_sha256 := sha256 (canonical_json_bytes float_repr
    (event_json k action from_state to_state effective_at actor reason policy_version compromise_floor_position)) in
  let! event := lift (KeyLifecycleEvent.validate
    {| KeyLifecycleEvent.event_id := uuid5 ("sentinel-key-lifecycle:" +:+ payload_sha256);
       KeyLifecycleEvent.identity_id := k.1.1;
       KeyLifecycleEvent.generation := k.1.2;
       KeyLifecycleEvent.purpose := k.2;
       KeyLifecycleEvent.action := action;
       KeyLifecycleEvent.from_state := from_state;
       KeyLifecycleEvent.to_state := to_state;
       KeyLifecycleEvent.effective_at := effective_at;
       KeyLifecycleEvent.actor := actor;
       KeyLifecycleEvent.reason := reason;
       KeyLifecycleEvent.policy_version := policy_version;
       KeyLifecycleEvent.compromise_floor_position := compromise_floor_position;
       KeyLifecycleEvent.payload_sha256 := payload_sha256 |}) in
  insert_event event ;;;
  ret event.

(** [UPDATE key_identities SET current_state=?] *)
Definition update_state (k : key) (to_state : KeyState.t) : M t unit :=
  modify (fun s => set_key_identities
    ((fun row => if decide (key_of (record row) = k) then mkRow (record row) to_state else row)
       <$> key_identities s) s).

Definition transition_locked (k : key) (action : KeyLifecycleAction.t) (effective_at : datetime)
    (actor reason policy_version : string) (compromise_floor_position : option Z) : M t KeyLifecycleEvent.t :=
  let! s := get in
  let! current := lift (load k s) in
  raise_if (bool_decide (action ∈ [KeyLifecycleAction.ACTIVATE; KeyLifecycleAction.ROTATE])
            && bool_decide (KeyIdentityRecord.state current = KeyState.COMPROMISED))
    (ValueError "a compromised generation cannot be reactivated") ;;;
  let! event := append_event k action (Some (KeyIdentityRecord.state current)) (ACTION_TO_STATE action)
                  effective_at actor reason policy_version compromise_floor_position in
  update_state k (ACTION_TO_STATE action) ;;;
  ret event.

Definition transition (k : key) (action : KeyLifecycleAction.t) (actor reason policy_version : string)
    (effective_at : datetime) (compromise_floor_position : option Z) : M t KeyLifecycleEvent.t :=
  raise_if (negb (is_compromise action) && negb (bool_decide (compromise_floor_position = None)))
    (ValueError "compromise floor is valid only for compromise lifecycle actions") ;;;
  transaction (transition_locked k action effective_at actor reason policy_version compromise_floor_position).

(** The active generations of an identity, the highest first. *)
Definition prior_active (identity_id : string) (purpose : KeyPurpose.t) (s : t) : list Z :=
  sort_by (fun x y => y <=? x)
    ((fun row => KeyIdentityRecord.generation (record row)) <$>
       select (fun row => bool_decide (KeyIdentityRecord.identity_id (record row) = identity_id)
                          && bool_decide (KeyIdentityRecord.purpose (record row) = purpose)
                          && bool_decide (current_state row = KeyState.ACTIVE)) (key_identities s)).

(** The loop that retires the generations a new one supersedes. *)
Fixpoint retire (generations : list Z) (identity_id : string) (purpose : KeyPurpose.t) (generation : Z)
    (active_from : datetime) (actor policy_version : string) : M t unit :=
  match generations with
  | [] => ret tt
  | g :: generations =>
      let! _ := transition_locked (identity_id, g, purpose) KeyLifecycleAction.RETIRE active_from actor
                  ("superseded_by_generation_" +:+ pretty generation) policy_version None in
      retire generations identity_id purpose generation active_from actor policy_version
  end.

Definition register (identity_id : string) (generation : Z) (purpose : KeyPurpose.t) (public_key_raw : string)
    (policy_version actor reason : string) (active_from active_until : option datetime) (registered_at : datetime)
  : M t KeyIdentityRecord.t :=
  let active_from := default registered_at active_from in
  let! encoded := lift (public_key_b64 public_key_raw) in
  let! new := lift (KeyIdentityRecord.validate sha256
    (KeyIdentityRecord.mk identity_id generation purpose encoded (sha256 public_key_raw) policy_version
       active_from active_until KeyState.ACTIVE registered_at)) in
  let k := (identity_id, generation, purpose) in
  transaction
    (let! s := get in
     match find_key k s with
     | Some row =>
         raise_if (negb (bool_decide (record row = new))) (ValueError "key identity conflict") ;;;
         ret (record row)
     | None =>
         let prior := prior_active identity_id purpose s in
         raise_if (match prior with [] => false | g :: gs => generation <=? foldl Z.max g gs end)
           (ValueError "new key generation must be greater than the active generation") ;;;
         modify (fun s => set_key_identities (key_identities s ++ [mkRow new KeyState.ACTIVE]) s) ;;;
         let! _ := append_event k
                     (if bool_decide (prior = []) then KeyLifecycleAction.ACTIVATE else KeyLifecycleAction.ROTATE)
                     None KeyState.ACTIVE active_from actor reason policy_version None in
         retire prior identity_id purpose generation active_from actor policy_version ;;;
         ret new
     end).

Definition verify (k : key) (message signature_b64 : string) (observed_at accepted_at : datetime)
    (historical : bool) (authority_position : option Z) (s : t) : SignatureVerification.t :=
  let answer accepted status policy observed current historical reasons :=
    {| SignatureVerification.accepted := accepted; SignatureVerification.status := status;
       SignatureVerification.identity_id := k.1.1; SignatureVerification.generation := k.1.2;
       SignatureVerification.purpose := k.2; SignatureVerification.policy_version := policy;
       SignatureVerification.key_state_at_observation := observed;
       SignatureVerification.current_key_state := current;
       SignatureVerification.historical := historical; SignatureVerification.reason_codes := reasons |} in
  match load k s with
  | Raise _ => answer false "unknown_signer" None None None historical ["identity_generation_not_registered"]
  | Ok record =>
      let current := Some (KeyIdentityRecord.state record) in
      let policy := Some (KeyIdentityRecord.policy_version record) in
      if negb (match b64decode signature_b64, b64decode (KeyIdentityRecord.public_key_b64 record) with
               | Some signature, Some public => ed25519_verify public signature message
               | _, _ => false
               end)
      then answer false "invalid_signature" policy None current historical ["ed25519_verification_failed"]
      else
        let observed := state_at k observed_at s in
        if bool_decide (observed = None) || outside_window record observed_at
        then answer false "outside_key_validity" policy None current historical
               ["signature_time_not_covered_by_key_generation"]
        else if negb historical then
          match signing_allowed k accepted_at s with
          | Raise _ => answer false "key_not_accepted_for_new_evidence" policy observed current false
                         ["current_key_lifecycle_blocks_new_acceptance"]
          | Ok _ => answer true "valid_active" policy observed current false []
          end
        else
          let policy := match event_at k observed_at s with
                        | Some e => Some (KeyLifecycleEvent.policy_version e) | None => policy end in
          let later_events := List.filter (fun e => observed_at <? KeyLifecycleEvent.effective_at e) (events k s) in
          match List.find (fun e => is_compromise (KeyLifecycleEvent.action e)) later_events with
          | Some compromise =>
              match KeyLifecycleEvent.compromise_floor_position compromise with
              | None => answer false "indeterminate_compromise_interval" policy observed current true
                          ["compromise_start_unknown"]
              | Some floor =>
                  if match authority_position with None => true | Some p => floor <=? p end
                  then answer false "not_validated_after_compromise_floor" policy observed current true
                         ["checkpoint_at_or_after_compromise_floor"]
                  else answer true "valid_before_compromise_floor" policy observed current true
                         ["checkpoint_precedes_known_compromise_floor"]
              end
          | None =>
              answer true
                match KeyIdentityRecord.state record with
                | KeyState.RETIRED => "historically_valid_retired"
                | KeyState.REVOKED_POLICY => "historically_valid_before_policy_revocation"
                | _ => "valid_active"
                end policy observed current true []
          end
  end.
End Operations.
End KeyLifecycleRegistry.
