(* ===== verification/KeyLifecycleTheorems.v ===== *)
(** What the key registry guarantees: exactly when a signature is accepted, and
    that a key generation that left the active state becomes active again only
    through an explicit activation; with two gaps the code has. *)

From Stdlib Require Import ZArith Lia ZifyBool.
From S2P Require Import Prelude Binary64 Enums Models Records CanonicalJson Base64 KeyLifecycle.
Import KeyLifecycleRegistry.
Open Scope Z_scope.

Section Registry.
Context (float_repr : f64 -> string) (isoformat : datetime -> string).
Context (sha256 : string -> string) (uuid5 : string -> UUID).
Context (ed25519_verify : string -> string -> string -> bool).
Notation verify := (verify ed25519_verify).
Notation append_event := (append_event float_repr isoformat sha256 uuid5).
Notation transition_locked := (transition_locked float_repr isoformat sha256 uuid5).
Notation transition := (transition float_repr isoformat sha256 uuid5).
Notation retire := (retire float_repr isoformat sha256 uuid5).
Notation register := (register float_repr isoformat sha256 uuid5).

(** ** Acceptance *)

(** The first compromise event effective after a time. *)
Definition later_compromise (k : key) (observed_at : datetime) (s : t) : option KeyLifecycleEvent.t :=
  List.find (fun e => is_compromise (KeyLifecycleEvent.action e))
    (List.filter (fun e => observed_at <? KeyLifecycleEvent.effective_at e) (events k s)).

(** The signature is one of this key over this message. *)
Definition signs (r : KeyIdentityRecord.t) (message signature_b64 : string) : Prop :=
  exists signature public, b64decode signature_b64 = Some signature /\
    b64decode (KeyIdentityRecord.public_key_b64 r) = Some public /\ ed25519_verify public signature message = true.

Lemma signs_spec r message signature_b64 :
  match b64decode signature_b64, b64decode (KeyIdentityRecord.public_key_b64 r) with
  | Some signature, Some public => ed25519_verify public signature message
  | _, _ => false
  end = true <-> signs r message signature_b64.
Proof.
  unfold signs. destruct (b64decode signature_b64) as [sg|], (b64decode _) as [pb|]; split;
    try (by intros (? & ? & ? & ? & ?)); try done; [by exists sg, pb|]. by intros (? & ? & [= <-] & [= <-] & ?).
Qed.

Lemma signing_allowed_ok k at_ s r :
  signing_allowed k at_ s = Ok r <->
  load k s = Ok r /\ state_at k at_ s = Some KeyState.ACTIVE /\ KeyIdentityRecord.state r = KeyState.ACTIVE /\
  outside_window r at_ = false.
Proof.
  unfold signing_allowed. rewrite rbind_ok. setoid_rewrite rbind_ok. setoid_rewrite rbind_ok.
  setoid_rewrite check_ok. split.
  - intros (x & Hx & u & [H1 H2]%orb_false_iff & v & Hw & [= <-]).
    apply negb_false_iff in H1, H2. by apply bool_decide_eq_true in H1, H2.
  - intros (Hl & Hs & Hc & Hw). exists r. split; [done|]. exists tt. rewrite !bool_decide_eq_true_2 by done.
    split; [done|]. by exists tt.
Qed.

(** What acceptance asks of the record. *)
Definition acceptable (k : key) (message signature_b64 : string) (observed_at accepted_at : datetime)
    (historical : bool) (position : option Z) (s : t) (r : KeyIdentityRecord.t) : Prop :=
  signs r message signature_b64 /\ state_at k observed_at s <> None /\ outside_window r observed_at = false /\
  if historical
  then forall e, later_compromise k observed_at s = Some e -> exists floor p,
         KeyLifecycleEvent.compromise_floor_position e = Some floor /\ position = Some p /\ p < floor
  else state_at k accepted_at s = Some KeyState.ACTIVE /\ KeyIdentityRecord.state r = KeyState.ACTIVE /\
       outside_window r accepted_at = false.

Lemma accepted_elim k message signature_b64 observed_at accepted_at historical position s r :
  load k s = Ok r ->
  SignatureVerification.accepted (verify k message signature_b64 observed_at accepted_at historical position s) = true ->
  acceptable k message signature_b64 observed_at accepted_at historical position s r.
Proof.
  intros Hl. unfold KeyLifecycleRegistry.verify, acceptable. rewrite Hl, <- signs_spec.
  destruct (match b64decode signature_b64, b64decode _ with Some _, Some _ => _ | _, _ => _ end); cbn; [|done].
  destruct (bool_decide _) eqn:Hs; [done|]. apply bool_decide_eq_false in Hs.
  destruct (outside_window r observed_at); cbn; [done|]. destruct historical; cbn.
  - unfold later_compromise. destruct (List.find _ _) as [e|]; [|done].
    destruct (KeyLifecycleEvent.compromise_floor_position e) as [floor|] eqn:Hf; [|done].
    destruct position as [p|]; [|done]. destruct (floor <=? p) eqn:Hp; [done|]. intros _. split_and!; try done.
    intros e' [= <-]. exists floor, p. split_and!; [done|done|lia].
  - destruct (signing_allowed k accepted_at s) as [r'|] eqn:Ha; [|done].
    apply signing_allowed_ok in Ha as (Hl' & ? & ? & ?). rewrite Hl in Hl'. by injection Hl' as <-.
Qed.

Lemma accepted_intro k message signature_b64 observed_at accepted_at historical position s r :
  load k s = Ok r -> acceptable k message signature_b64 observed_at accepted_at historical position s r ->
  SignatureVerification.accepted (verify k message signature_b64 observed_at accepted_at historical position s) = true.
Proof.
  intros Hl (Hsig%signs_spec & Hs & Hw & H). unfold KeyLifecycleRegistry.verify. rewrite Hl, Hsig. cbn.
  rewrite bool_decide_eq_false_2, Hw by done. cbn. destruct historical; cbn.
  - unfold later_compromise in H. destruct (List.find _ _) as [e|]; [|done].
    destruct (H e eq_refl) as (floor & p & -> & -> & Hp). by replace (floor <=? p) with false by lia.
  - assert (signing_allowed k accepted_at s = Ok r) as ->; [|done]. by apply signing_allowed_ok.
Qed.

(** Exactly when a signature is accepted.  The generation is registered,
    the signature is one of its public key over the message, and the key had a
    state and was within its validity window when it was observed.  A signature
    on new evidence is accepted only if moreover the key is active, now and by
    the event log, and within its window at acceptance; a historical one only
    if no compromise became effective later, or the first that did has a floor
    above the authority position. *)
Theorem signature_acceptance k message signature_b64 observed_at accepted_at historical position s :
  SignatureVerification.accepted (verify k message signature_b64 observed_at accepted_at historical position s) = true
  <-> exists r, load k s = Ok r /\ signs r message signature_b64 /\
    state_at k observed_at s <> None /\ outside_window r observed_at = false /\
    if historical
    then forall e, later_compromise k observed_at s = Some e -> exists floor p,
           KeyLifecycleEvent.compromise_floor_position e = Some floor /\ position = Some p /\ p < floor
    else state_at k accepted_at s = Some KeyState.ACTIVE /\ KeyIdentityRecord.state r = KeyState.ACTIVE /\
         outside_window r accepted_at = false.
Proof.
  split.
  - intros H. destruct (load k s) as [r|exc] eqn:Hl; [exists r; split; [done|]; by apply accepted_elim|].
    unfold KeyLifecycleRegistry.verify in H. by rewrite Hl in H.
  - intros (r & Hl & H). by eapply accepted_intro.
Qed.

(** ** Executions *)
Inductive op : Type :=
  | Register (identity_id : string) (generation : Z) (purpose : KeyPurpose.t)
      (public_key_raw policy_version actor reason : string) (active_from active_until : option datetime)
      (registered_at : datetime)
  | Transition (k : key) (action : KeyLifecycleAction.t) (actor reason policy_version : string)
      (effective_at : datetime) (compromise_floor_position : option Z).

Definition exec (o : op) : M t unit :=
  match o with
  | Register id g p raw policy actor reason from until at_ =>
      let! _ := register id g p raw policy actor reason from until at_ in ret tt
  | Transition k action actor reason policy at_ floor =>
      let! _ := transition k action actor reason policy at_ floor in ret tt
  end.

Definition run (ops : list op) (s : t) : t := fold_left (fun s o => (exec o s).2) ops s.

(** The explicit activation of a key. *)
Definition activates (k : key) (o : op) : Prop :=
  match o with
  | Transition k' action _ _ _ _ _ =>
      k' = k /\ (action = KeyLifecycleAction.ACTIVATE \/ action = KeyLifecycleAction.ROTATE)
  | _ => False
  end.

(** What everything else does to a key. *)
Record keeps (k : key) (s s' : t) : Prop := {
  kp_row row : find_key k s = Some row ->
    exists row', find_key k s' = Some row' /\ record row' = record row /\
      (current_state row' = KeyState.ACTIVE -> current_state row = KeyState.ACTIVE);
  kp_events : key_lifecycle_events s `prefix_of` key_lifecycle_events s'
}.

#[local] Instance keeps_preorder k : PreOrder (keeps k).
Proof.
  split; [by intros s; split; [eauto|]|]. intros s1 s2 s3 [H1 E1] [H2 E2]. split; [|by etrans].
  intros row (row1 & Hr1 & Hrec1 & Ha1)%H1. apply H2 in Hr1 as (row2 & ? & ? & ?). exists row2.
  split_and!; [done|congruence|auto].
Qed.

#[local] Instance insert_event_keeps k e : Steps (keeps k) (insert_event e).
Proof.
  apply steps_modify. intros s. destruct (existsb _ _); [done|]. split; [by eauto|]. by eexists.
Qed.

#[local] Instance append_event_keeps k k' action from to at_ actor reason policy floor :
  Steps (keeps k) (append_event k' action from to at_ actor reason policy floor).
Proof. unfold KeyLifecycleRegistry.append_event. steps. Qed.

Lemma find_key_update k k' st s :
  find_key k (set_key_identities
    ((fun row => if decide (key_of (record row) = k') then mkRow (record row) st else row) <$> key_identities s) s)
  = (fun row => if decide (k = k') then mkRow (record row) st else row) <$> find_key k s.
Proof.
  unfold find_key, select_one. cbn. induction (key_identities s) as [|row rows IH]; [done|]. cbn.
  destruct (decide (key_of (record row) = k')) as [Heq|Hne]; cbn; case_bool_decide as Hk; cbn; try done.
  - by rewrite decide_True by congruence.
  - by rewrite decide_False by congruence.
Qed.

Lemma update_state_keeps k k' st :
  k' <> k \/ st <> KeyState.ACTIVE -> Steps (keeps k) (update_state k' st).
Proof.
  intros Hne. apply steps_modify. intros s. split; [|done]. intros row Hrow. rewrite find_key_update, Hrow. cbn.
  eexists. split; [reflexivity|]. case_decide as Hk; [|done]. split; [done|]. cbn. destruct Hne as [?|?]; congruence.
Qed.

Lemma transition_locked_keeps k k' action at_ actor reason policy floor :
  k' <> k \/ ACTION_TO_STATE action <> KeyState.ACTIVE ->
  Steps (keeps k) (transition_locked k' action at_ actor reason policy floor).
Proof.
  intros Hne. unfold KeyLifecycleRegistry.transition_locked. steps. by apply update_state_keeps.
Qed.

#[local] Instance retire_keeps k gs id p g from actor policy :
  Steps (keeps k) (retire gs id p g from actor policy).
Proof.
  induction gs as [|g' gs IH]; cbn [KeyLifecycleRegistry.retire]; [apply _|].
  apply steps_bind; [apply _|by apply transition_locked_keeps; right|intros _; apply IH].
Qed.

Lemma add_row_keeps k row s : keeps k s (set_key_identities (key_identities s ++ [row]) s).
Proof.
  split; [|done]. intros r Hr. exists r. split; [|done]. unfold find_key, select_one in *. cbn.
  revert Hr. induction (key_identities s) as [|x l IH]; [done|]. cbn. by destruct (bool_decide _).
Qed.

#[local] Instance register_keeps k id g p raw policy actor reason from until at_ :
  Steps (keeps k) (register id g p raw policy actor reason from until at_).
Proof.
  unfold KeyLifecycleRegistry.register. steps. all: apply steps_modify; intros s; apply add_row_keeps.
Qed.

Lemma exec_keeps_key k o : ~ activates k o -> Steps (keeps k) (exec o).
Proof.
  intros Ha. destruct o as [id g p raw policy actor reason from until at_|k' action actor reason policy at_ floor];
    cbn [exec]; [apply _|].
  unfold KeyLifecycleRegistry.transition. apply steps_bind; [apply _| |apply _]. apply steps_bind; [apply _..|].
  intros _. apply steps_transaction; [apply _|]. apply transition_locked_keeps. cbn in Ha.
  destruct (decide (k' = k)); [right|by left]. intros H. apply Ha. split; [done|]. destruct action; auto; discriminate H.
Qed.

Lemma run_keeps ops k s :
  (forall o, o ∈ ops -> ~ activates k o) -> keeps k s (run ops s).
Proof.
  revert s. induction ops as [|o ops IH]; intros s Ho; [reflexivity|]. cbn.
  transitivity (exec o s).2; [|apply IH; intros o' Ho'; apply Ho; by right].
  destruct (exec o s) as [r s'] eqn:E. apply (exec_keeps_key k o (Ho o ltac:(by left)) _ _ _ E).
Qed.

(** C30: a key generation that was retired, revoked or compromised stays out of
    use.  In every execution without a transition that activates or rotates to
    that generation, whatever else is registered or changed, its record and the
    event log so far are kept, it never becomes active again, it may not sign
    at any time, and no signature of it on new evidence is accepted. *)
Theorem inactive_keys_stay_inactive ops k s row :
  find_key k s = Some row -> current_state row <> KeyState.ACTIVE ->
  (forall o, o ∈ ops -> ~ activates k o) ->
  let s' := run ops s in
  key_lifecycle_events s `prefix_of` key_lifecycle_events s' /\
  (exists row', find_key k s' = Some row' /\ record row' = record row /\ current_state row' <> KeyState.ACTIVE) /\
  forall at_, (exists msg, signing_allowed k at_ s' = Raise (PermissionError msg)) /\
    forall message signature_b64 observed_at position,
      SignatureVerification.accepted (verify k message signature_b64 observed_at at_ false position s') = false.
Proof.
  intros Hrow Hst Hops. cbv zeta. destruct (run_keeps ops k s Hops) as [H1 H2].
  destruct (H1 _ Hrow) as (row' & Hrow' & Hrec & Hact). split; [done|].
  assert (current_state row' <> KeyState.ACTIVE) as Hst' by auto.
  split; [by exists row'|]. intros at_.
  assert (exists msg, signing_allowed k at_ (run ops s) = Raise (PermissionError msg)) as [msg Hmsg].
  { unfold signing_allowed, load. rewrite Hrow'. cbn. rewrite (bool_decide_eq_false_2 (current_state row' = _)) by done.
    rewrite orb_true_r. by eexists. }
  split; [by eexists|]. intros message signature_b64 observed_at position.
  unfold KeyLifecycleRegistry.verify, load in *. rewrite Hrow', Hmsg. cbn. by repeat case_match.
Qed.
End Registry.

(** ** A concrete registry *)
Definition demo_key_digest (s : string) : string := "sha256:" +:+ s.
Definition demo_key_uuid5 (s : string) : UUID := s.
Definition demo_key_isoformat (t : datetime) : string := pretty t.
(** A signature is the message itself after the key. *)
Definition demo_signature (public message : string) : string := public +:+ message.
Definition demo_ed25519_verify (public signature message : string) : bool :=
  bool_decide (signature = demo_signature public message).
Definition demo_public : string := "0123456789abcdef0123456789abcdef".
Definition demo_audit_key : key := ("node", 1, KeyPurpose.AUDIT_SIGNING).

Notation demo_run := (run demo_repr demo_key_isoformat demo_key_digest demo_key_uuid5).

Definition demo_register : op :=
  Register "node" 1 KeyPurpose.AUDIT_SIGNING demo_public "policy-1" "operator" "bootstrap" None (Some 1000) 10.
Definition demo_transition (action : KeyLifecycleAction.t) (at_ : datetime) : op :=
  Transition demo_audit_key action "operator" "incident" "policy-1" at_ None.
Definition demo_successor : op :=
  Register "node" 2 KeyPurpose.AUDIT_SIGNING "fedcba9876543210fedcba9876543210" "policy-2" "operator" "rotation"
    (Some 50) None 40.

Definition demo_registry : t := demo_run [demo_register] init.
Definition demo_accepted (observed_at accepted_at : datetime) (historical : bool) (s : t) : bool :=
  SignatureVerification.accepted (verify demo_ed25519_verify demo_audit_key "message"
    (b64encode (demo_signature demo_public "message")) observed_at accepted_at historical (Some 7) s).

Lemma signature_acceptance_witness :
  demo_accepted 20 30 false demo_registry = true /\
  exists r, load demo_audit_key demo_registry = Ok r /\ state_at demo_audit_key 20 demo_registry <> None.
Proof.
  assert (demo_accepted 20 30 false demo_registry = true) as H by (vm_compute; reflexivity).
  split; [exact H|]. unfold demo_accepted in H.
  apply (signature_acceptance demo_ed25519_verify) in H as (r & Hl & _ & Hs & _). exists r. exact (conj Hl Hs).
Defined.

(** Rotation retires the first generation; it then stays out of use. *)
Lemma inactive_keys_stay_inactive_witness :
  exists row, find_key demo_audit_key (demo_run [demo_successor] demo_registry) = Some row /\
    exists msg, signing_allowed demo_audit_key 60
      (demo_run [demo_transition KeyLifecycleAction.REVOKE_POLICY 70] (demo_run [demo_successor] demo_registry))
      = Raise (PermissionError msg).
Proof.
  destruct (find_key demo_audit_key (demo_run [demo_successor] demo_registry)) as [row|] eqn:Hrow;
    [|vm_compute in Hrow; discriminate Hrow].
  exists row. split; [reflexivity|].
  destruct (inactive_keys_stay_inactive demo_repr demo_key_isoformat demo_key_digest demo_key_uuid5
    demo_ed25519_verify [demo_transition KeyLifecycleAction.REVOKE_POLICY 70] demo_audit_key
    (demo_run [demo_successor] demo_registry) row Hrow) as (_ & _ & H).
  - vm_compute in Hrow. injection Hrow as <-. vm_compute. discriminate.
  - intros o Ho. apply list_elem_of_singleton in Ho as ->. intros [_ [H|H]]; discriminate H.
  - apply (H 60).
Defined.

(** A signature made after the compromise of its key was confirmed is accepted
    as historically valid: [verify] looks for compromises that are effective
    after the signature only. *)
Lemma historical_accepts_after_compromise :
  let s := demo_run [demo_transition KeyLifecycleAction.CONFIRM_COMPROMISE 100] demo_registry in
  state_at demo_audit_key 150 s = Some KeyState.COMPROMISED /\
  SignatureVerification.status (verify demo_ed25519_verify demo_audit_key "message"
    (b64encode (demo_signature demo_public "message")) 150 150 true (Some 7) s) = "valid_active" /\
  demo_accepted 150 150 true s = true.
Proof. vm_compute. done. Qed.

(** A compromised generation cannot be reactivated directly, but it can be
    retired first. *)
Lemma compromised_key_reactivated_via_retire :
  let compromised := demo_run [demo_transition KeyLifecycleAction.CONFIRM_COMPROMISE 100] demo_registry in
  let direct := demo_run [demo_transition KeyLifecycleAction.ACTIVATE 110] compromised in
  let retired := demo_run [demo_transition KeyLifecycleAction.RETIRE 110;
                           demo_transition KeyLifecycleAction.ACTIVATE 120] compromised in
  current_state <$> find_key demo_audit_key direct = Some KeyState.COMPROMISED /\
  is_ok (signing_allowed demo_audit_key 130 retired) = true.
Proof. vm_compute. done. Qed.
