(* ===== verification/AuditCheckpoints.v ===== *)
(** Audit checkpoints (audit/checkpoints.py): a hash chain over the authority
    journal, signed by a key of the registry, and its verification.

    [isoformat] is [datetime.isoformat]; [isoformat_z] is the same text with
    "Z" for "+00:00", which is also what pydantic writes.  [ed25519_sign] is
    [Ed25519PrivateKey.from_private_bytes(key).sign(message)].  The payload of
    an entry is the JSON object of the row. *)

From Stdlib Require Import ZArith.
From S2P Require Import Prelude Binary64 Enums Models Records CanonicalJson Base64 Journal KeyLifecycle.
Open Scope Z_scope.

Definition NON_FORENSIC_WORDING : string :=
  "Tamper-evident local journal checkpoint only. It does not prove that a sensor, "
  +:+ "external report, physical event, or operator statement was truthful.".

Module AuthorityMutation.
Record t : Type := mk {
  position : Z;
  kind : AuthorityMutationKind.t;
  entity_id : string;
  accepted_at : datetime;
  payload : json
}.
End AuthorityMutation.

Module AuditCheckpoint.
Record t : Type := mk {
  schema_id : string;
  checkpoint_id : UUID;
  created_at : datetime;
  authority_epoch_id : string;
  first_position : Z;
  head_position : Z;
  entry_count : Z;
  chain_root_sha256 : string;
  transcript_sha256 : string;
  signer_identity_id : string;
  signer_generation : Z;
  signer_policy_version : string;
  verification_policy : string;
  signer_state_at_signing : string;
  non_forensic_wording : string;
  payload_sha256 : string;
  signature_b64 : string
}.
#[global] Instance eq_dec : EqDecision t.
Proof. solve_decision. Defined.
Definition validate (c : t) : res t :=
  check ((first_position c <? 1) || (head_position c <? 1) || (entry_count c <? 1) || (signer_generation c <? 1))
    (ValidationError "audit checkpoint counters must be >= 1") >>!
  check (negb (first_position c =? 1) || negb (entry_count c =? head_position c))
    (ValidationError "audit checkpoint must close a contiguous journal prefix from position 1") >>!
  check (negb (contains (lower (non_forensic_wording c)) "does not prove"))
    (ValidationError "audit checkpoint must retain non-forensic wording") >>!
  Ok c.
End AuditCheckpoint.

Module AuditCheckpointVerification.
Record t : Type := mk {
  valid : bool;
  checkpoint_id : UUID;
  head_position : Z;
  chain_valid : bool;
  signature : SignatureVerification.t;
  failures : list string;
  non_forensic_wording : string
}.
End AuditCheckpointVerification.

Definition by_position (entries : list AuthorityMutation.t) : list AuthorityMutation.t :=
  sort_by (fun x y => AuthorityMutation.position x <=? AuthorityMutation.position y) entries.

Section Checkpoints.
Context (float_repr : f64 -> string) (isoformat isoformat_z : datetime -> string).
Context (sha256 : string -> string) (uuid5 : string -> UUID).
Context (ed25519_sign : string -> string -> string) (ed25519_verify : string -> string -> string -> bool).

Definition digest (j : json) : string := sha256 (canonical_json_bytes float_repr j).

(** [_entry_payload] *)
Definition entry_payload (e : AuthorityMutation.t) : list (string * json) :=
  [("position", JInt (AuthorityMutation.position e));
   ("kind", JStr (AuthorityMutationKind.value (AuthorityMutation.kind e)));
   ("entity_id", JStr (AuthorityMutation.entity_id e));
   ("accepted_at", JStr (isoformat (AuthorityMutation.accepted_at e)));
   ("payload_sha256", JStr (digest (AuthorityMutation.payload e)))].

(** ["0" * 64] *)
Definition genesis : string := "0000000000000000000000000000000000000000000000000000000000000000".

Definition entry_digest (previous : string) (e : AuthorityMutation.t) : string :=
  sha256 (previous +:+ canonical_json_bytes float_repr (JDict (entry_payload e))).

(** The loop over the entries. *)
Fixpoint chain_from (previous : string) (entries : list AuthorityMutation.t) : string * list json :=
  match entries with
  | [] => (previous, [])
  | e :: entries =>
      let d := entry_digest previous e in
      let '(root, transcript) := chain_from d entries in
      (root, JDict (entry_payload e ++ [("predecessor_sha256", JStr previous); ("entry_chain_sha256", JStr d)])
             :: transcript)
  end.

(** [range(1, n + 1)] *)
Definition expected_positions (n : Z) : list Z := (fun i => Z.of_nat i + 1) <$> seq 0 (Z.to_nat n).

Definition authority_chain (entries : list AuthorityMutation.t) : res (string * list json) :=
  let ordered := by_position entries in
  match last ordered with
  | None => Raise (ValueError "audit checkpoint requires at least one authority mutation")
  | Some head =>
      check (negb (bool_decide (AuthorityMutation.position <$> ordered
                                = expected_positions (AuthorityMutation.position head))))
        (ValueError "authority checkpoint prefix must be contiguous from position 1") >>!
      Ok (chain_from genesis ordered)
  end.

(** [_signable_payload] of the dump of a checkpoint. *)
Definition signable_payload (c : AuditCheckpoint.t) : json :=
  JDict [("schema_id", JStr (AuditCheckpoint.schema_id c));
         ("checkpoint_id", JStr (AuditCheckpoint.checkpoint_id c));
         ("created_at", JStr (isoformat_z (AuditCheckpoint.created_at c)));
         ("authority_epoch_id", JStr (AuditCheckpoint.authority_epoch_id c));
         ("first_position", JInt (AuditCheckpoint.first_position c));
         ("head_position", JInt (AuditCheckpoint.head_position c));
         ("entry_count", JInt (AuditCheckpoint.entry_count c));
         ("chain_root_sha256", JStr (AuditCheckpoint.chain_root_sha256 c));
         ("transcript_sha256", JStr (AuditCheckpoint.transcript_sha256 c));
         ("signer_identity_id", JStr (AuditCheckpoint.signer_identity_id c));
         ("signer_generation", JInt (AuditCheckpoint.signer_generation c));
         ("signer_policy_version", JStr (AuditCheckpoint.signer_policy_version c));
         ("verification_policy", JStr (AuditCheckpoint.verification_policy c));
         ("signer_state_at_signing", JStr (AuditCheckpoint.signer_state_at_signing c));
         ("non_forensic_wording", JStr (AuditCheckpoint.non_forensic_wording c))].

Definition set_seal (payload_sha256 signature_b64 : string) (c : AuditCheckpoint.t) : AuditCheckpoint.t :=
  {| AuditCheckpoint.schema_id := AuditCheckpoint.schema_id c;
     AuditCheckpoint.checkpoint_id := AuditCheckpoint.checkpoint_id c;
     AuditCheckpoint.created_at := AuditCheckpoint.created_at c;
     AuditCheckpoint.authority_epoch_id := AuditCheckpoint.authority_epoch_id c;
     AuditCheckpoint.first_position := AuditCheckpoint.first_position c;
     AuditCheckpoint.head_position := AuditCheckpoint.head_position c;
     AuditCheckpoint.entry_count := AuditCheckpoint.entry_count c;
     AuditCheckpoint.chain_root_sha256 := AuditCheckpoint.chain_root_sha256 c;
     AuditCheckpoint.transcript_sha256 := AuditCheckpoint.transcript_sha256 c;
     AuditCheckpoint.signer_identity_id := AuditCheckpoint.signer_identity_id c;
     AuditCheckpoint.signer_generation := AuditCheckpoint.signer_generation c;
     AuditCheckpoint.signer_policy_version := AuditCheckpoint.signer_policy_version c;
     AuditCheckpoint.verification_policy := AuditCheckpoint.verification_policy c;
     AuditCheckpoint.signer_state_at_signing := AuditCheckpoint.signer_state_at_signing c;
     AuditCheckpoint.non_forensic_wording := AuditCheckpoint.non_forensic_wording c;
     AuditCheckpoint.payload_sha256 := payload_sha256;
     AuditCheckpoint.signature_b64 := signature_b64 |}.

(** The service: the key registry and the table [audit_checkpoints]. *)
Record t : Type := mk {
  key_registry : KeyLifecycleRegistry.t;
  audit_checkpoints : list AuditCheckpoint.t
}.
Definition set_audit_checkpoints v (s : t) : t := mk (key_registry s) v.

(** The columns of the UNIQUE constraint. *)
Definition checkpoint_key (c : AuditCheckpoint.t) : Z * string * Z :=
  (AuditCheckpoint.head_position c, AuditCheckpoint.signer_identity_id c, AuditCheckpoint.signer_generation c).

Definition create (entries : list AuthorityMutation.t) (authority_epoch_id signer_identity_id : string)
    (signer_generation : Z) (private_key_raw : string) (created_at : datetime) (verification_policy : string)
  : M t AuditCheckpoint.t :=
  let! s := get in
  let! record := lift (KeyLifecycleRegistry.signing_allowed
    (signer_identity_id, signer_generation, KeyPurpose.AUDIT_SIGNING) created_at (key_registry s)) in
  let ordered := by_position entries in
  let! '(root, transcript) := lift (authority_chain ordered) in
  let head := match last ordered with Some e => AuthorityMutation.position e | None => 0 end in
  let seed := JDict [("authority_epoch_id", JStr authority_epoch_id);
                     ("head_position", JInt head);
                     ("chain_root_sha256", JStr root);
                     ("signer_identity_id", JStr signer_identity_id);
                     ("signer_generation", JInt signer_generation);
                     ("created_at", JStr (isoformat_z created_at))] in
  let unsigned :=
    {| AuditCheckpoint.schema_id := "sentinel-edge-audit-checkpoint/1.0";
       AuditCheckpoint.checkpoint_id := uuid5 ("sentinel-audit-checkpoint:" +:+ digest seed);
       AuditCheckpoint.created_at := created_at;
       AuditCheckpoint.authority_epoch_id := authority_epoch_id;
       AuditCheckpoint.first_position := 1;
       AuditCheckpoint.head_position := head;
       AuditCheckpoint.entry_count := Z.of_nat (length ordered);
       AuditCheckpoint.chain_root_sha256 := root;
       AuditCheckpoint.transcript_sha256 := digest (JList transcript);
       AuditCheckpoint.signer_identity_id := signer_identity_id;
       AuditCheckpoint.signer_generation := signer_generation;
       AuditCheckpoint.signer_policy_version := KeyIdentityRecord.policy_version record;
       AuditCheckpoint.verification_policy := verification_policy;
       AuditCheckpoint.signer_state_at_signing := KeyState.value (KeyIdentityRecord.state record);
       AuditCheckpoint.non_forensic_wording := NON_FORENSIC_WORDING;
       AuditCheckpoint.payload_sha256 := "";
       AuditCheckpoint.signature_b64 := "" |} in
  raise_if (negb (String.length private_key_raw =? 32)%nat)
    (ValueError "Ed25519 private key must contain 32 raw bytes") ;;;
  let message := canonical_json_bytes float_repr (signable_payload unsigned) in
  let! checkpoint := lift (AuditCheckpoint.validate
    (set_seal (sha256 message) (b64encode (ed25519_sign private_key_raw message)) unsigned)) in
  transaction
    (let! s := get in
     match select_one (same_key AuditCheckpoint.checkpoint_id checkpoint) (audit_checkpoints s) with
     | Some observed =>
         raise_if (negb (bool_decide (observed = checkpoint)))
           (ValueError "audit checkpoint identity conflict") ;;;
         ret observed
     | None =>
         let! rows := lift (insert_row "audit_checkpoints" (fun x y => same_key checkpoint_key x y)
                              (audit_checkpoints s) checkpoint) in
         put (set_audit_checkpoints rows s) ;;;
         ret checkpoint
     end).

(** What the journal says about the checkpoint, failures included. *)
Definition chain_failures (c : AuditCheckpoint.t) (entries : list AuthorityMutation.t) : list string :=
  let prefix := List.filter (fun e => AuthorityMutation.position e <=? AuditCheckpoint.head_position c)
                  (by_position entries) in
  match authority_chain prefix with
  | Ok (root, transcript) =>
      (if Z.of_nat (length prefix) =? AuditCheckpoint.entry_count c then [] else ["journal_prefix_truncated"])
      ++ (if decide (root = AuditCheckpoint.chain_root_sha256 c) then [] else ["journal_prefix_substituted"])
      ++ (if decide (digest (JList transcript) = AuditCheckpoint.transcript_sha256 c) then []
          else ["journal_transcript_digest_mismatch"])
  | Raise (ValueError msg) => ["journal_prefix_invalid:" +:+ msg]
  | Raise _ => []
  end.

(** [now] is the clock. *)
Definition verify (c : AuditCheckpoint.t) (entries : list AuthorityMutation.t) (now : datetime) (s : t)
  : AuditCheckpointVerification.t :=
  let journal := chain_failures c entries in
  let message := canonical_json_bytes float_repr (signable_payload c) in
  let signature := KeyLifecycleRegistry.verify ed25519_verify
    (AuditCheckpoint.signer_identity_id c, AuditCheckpoint.signer_generation c, KeyPurpose.AUDIT_SIGNING)
    message (AuditCheckpoint.signature_b64 c) (AuditCheckpoint.created_at c) now true
    (Some (AuditCheckpoint.head_position c)) (key_registry s) in
  let failures :=
    journal
    ++ (if decide (sha256 message = AuditCheckpoint.payload_sha256 c) then []
        else ["checkpoint_payload_digest_mismatch"])
    ++ (if SignatureVerification.accepted signature then []
        else ["signature:" +:+ SignatureVerification.status signature])
    ++ (if decide (AuditCheckpoint.non_forensic_wording c = NON_FORENSIC_WORDING) then []
        else ["non_forensic_wording_changed"]) in
  {| AuditCheckpointVerification.valid := bool_decide (failures = []);
     AuditCheckpointVerification.checkpoint_id := AuditCheckpoint.checkpoint_id c;
     AuditCheckpointVerification.head_position := AuditCheckpoint.head_position c;
     AuditCheckpointVerification.chain_valid := bool_decide (journal = []);
     AuditCheckpointVerification.signature := signature;
     AuditCheckpointVerification.failures := sorted_strings failures;
     AuditCheckpointVerification.non_forensic_wording := AuditCheckpoint.non_forensic_wording c |}.

Definition checkpoints (s : t) : list AuditCheckpoint.t :=
  sort_by (fun x y =>
    match AuditCheckpoint.head_position x ?= AuditCheckpoint.head_position y with
    | Lt => true | Gt => false
    | Eq => match AuditCheckpoint.created_at x ?= AuditCheckpoint.created_at y with
            | Lt => true | Gt => false
            | Eq => String.leb (AuditCheckpoint.checkpoint_id x) (AuditCheckpoint.checkpoint_id y)
            end
    end) (audit_checkpoints s).
End Checkpoints.

(** [IncidentJournalStore.authority_journal]; [dump_payload] is the object in
    the column [payload_json]. *)
Definition authority_journal (dump_payload : payload -> json) (s : IncidentJournalStore.t)
  : list AuthorityMutation.t :=
  (fun e => {| AuthorityMutation.position := IncidentJournalStore.position e;
               AuthorityMutation.kind := IncidentJournalStore.kind e;
               AuthorityMutation.entity_id := IncidentJournalStore.entity_id e;
               AuthorityMutation.accepted_at := IncidentJournalStore.accepted_at e;
               AuthorityMutation.payload := dump_payload (IncidentJournalStore.payload_json e) |})
    <$> IncidentJournalStore.authority_events s.
