(* ===== verification/AuditTheorems.v ===== *)
(** What audit checkpoints guarantee: a checkpoint verifies on every later state
    of the journal it was made of, and two journals that both verify against
    one checkpoint agree on its whole prefix. *)

From Stdlib Require Import ZArith Lia ZifyBool.
From S2P Require Import Prelude Binary64 Enums Models Records CanonicalJson Base64 Journal JournalTheorems.
From S2P Require Import KeyLifecycle KeyLifecycleTheorems AuditCheckpoints.
Open Scope Z_scope.

(** ** Positions *)
Lemma expected_positions_sorted n :
  StronglySorted Z.lt (expected_positions n).
Proof.
  unfold expected_positions. generalize 0%nat. generalize (Z.to_nat n). intros k. induction k as [|k IH]; intros i.
  { constructor. }
  cbn. constructor; [apply IH|]. apply Forall_forall. intros y (j & -> & Hj)%list_elem_of_fmap.
  apply elem_of_seq in Hj. lia.
Qed.

Lemma expected_positions_last n : last (expected_positions (Z.of_nat (S n))) = Some (Z.of_nat (S n)).
Proof.
  unfold expected_positions. rewrite Nat2Z.id, seq_S, fmap_app, last_app. cbn -[Z.of_nat]. f_equal. lia.
Qed.

Section Positions.
Context (entries : list AuthorityMutation.t).

(** A list in position order is left as it is. *)
Lemma by_position_sorted :
  StronglySorted Z.lt (AuthorityMutation.position <$> entries) -> by_position entries = entries.
Proof.
  intros H. apply sort_by_id. induction entries as [|e l IH]; [constructor|]. cbn in H.
  apply StronglySorted_inv in H as [H1 H2]. constructor; [by apply IH|].
  apply Forall_forall. intros x Hx.
  apply (list_elem_of_fmap_2 AuthorityMutation.position), (Forall_in _ _ _ H2) in Hx. lia.
Qed.
End Positions.

Section Audit.
Context (float_repr : f64 -> string) `{!FloatRepr float_repr}.
Context (isoformat isoformat_z : datetime -> string) `{!Inj (=) (=) isoformat}.
Context (sha256 : string -> string) (uuid5 : string -> UUID).
Context (ed25519_sign : string -> string -> string) (ed25519_verify : string -> string -> string -> bool).
Notation digest := (digest float_repr sha256).
Notation entry_payload := (entry_payload float_repr isoformat sha256).
Notation entry_digest := (entry_digest float_repr isoformat sha256).
Notation chain_from := (chain_from float_repr isoformat sha256).
Notation authority_chain := (authority_chain float_repr isoformat sha256).
Notation create := (create float_repr isoformat isoformat_z sha256 uuid5 ed25519_sign).
Notation verify := (verify float_repr isoformat isoformat_z sha256 ed25519_verify).
Notation chain_failures := (chain_failures float_repr isoformat sha256).

(** ** The chain binds its entries *)

(** The texts the chain hashes for one entry after a digest. *)
Definition chain_text (previous : string) (e : AuthorityMutation.t) : string :=
  previous +:+ canonical_json_bytes float_repr (JDict (entry_payload e)).

(** Two chains hash different texts to one digest, at the same place: in the
    chain itself or in the digest of a payload. *)
Fixpoint chains_collide (p : string) (l : list AuthorityMutation.t) (q : string) (k : list AuthorityMutation.t) : Prop :=
  match l, k with
  | e :: l, f :: k =>
      collide sha256 (chain_text p e) (chain_text q f) \/
      collide sha256 (canonical_json_bytes float_repr (AuthorityMutation.payload e))
                     (canonical_json_bytes float_repr (AuthorityMutation.payload f)) \/
      chains_collide (entry_digest p e) l (entry_digest q f) k
  | _, _ => False
  end.

(** The same entry, up to the order of the keys in its payload. *)
Definition same_entry (e f : AuthorityMutation.t) : Prop :=
  AuthorityMutation.position e = AuthorityMutation.position f /\
  AuthorityMutation.kind e = AuthorityMutation.kind f /\
  AuthorityMutation.entity_id e = AuthorityMutation.entity_id f /\
  AuthorityMutation.accepted_at e = AuthorityMutation.accepted_at f /\
  normalize (AuthorityMutation.payload e) = normalize (AuthorityMutation.payload f).

Lemma AuthorityMutationKind_value_inj x y :
  AuthorityMutationKind.value x = AuthorityMutationKind.value y -> x = y.
Proof. by destruct x, y. Qed.

Lemma entry_payload_inj e f :
  normalize (JDict (entry_payload e)) = normalize (JDict (entry_payload f)) ->
  same_entry e f \/ collide sha256 (canonical_json_bytes float_repr (AuthorityMutation.payload e))
                      (canonical_json_bytes float_repr (AuthorityMutation.payload f)).
Proof.
  unfold AuditCheckpoints.entry_payload. cbn -[AuditCheckpoints.digest]. intros H. injection H as Ht Hi Hk Hd Hp.
  apply (collide_or_inj sha256) in Hd as [Hd|Hd]; [left|by right].
  apply canonical_json_inj in Hd; [|done]. apply AuthorityMutationKind_value_inj in Hk.
  apply (inj isoformat) in Ht. by split_and!.
Qed.

Lemma append_inj_length (a b c d : string) :
  String.length a = String.length c -> a +:+ b = c +:+ d -> a = c /\ b = d.
Proof.
  revert c. induction a as [|x a IH]; intros [|y c]; cbn; try done. intros [= Hl] [= -> H].
  by destruct (IH c Hl H) as [-> ->].
Qed.

Context (sha256_length : forall x, String.length (sha256 x) = 64%nat).

Lemma chain_binds p l q k :
  String.length p = 64%nat -> String.length q = 64%nat -> length l = length k ->
  (chain_from p l).1 = (chain_from q k).1 ->
  p = q /\ Forall2 same_entry l k \/ chains_collide p l q k.
Proof.
  revert p q k. induction l as [|e l IH]; intros p q [|f k] Hp Hq; try done.
  { intros _ H. left. split; [exact H|constructor]. }
  intros [= Hl]. cbn [AuditCheckpoints.chain_from chains_collide].
  specialize (IH (entry_digest p e) (entry_digest q f) k (sha256_length _) (sha256_length _) Hl).
  destruct (chain_from (entry_digest p e) l) as [r1 t1], (chain_from (entry_digest q f) k) as [r2 t2].
  cbn in IH |- *. intros Hr. destruct (IH Hr) as [[Hd Hall]|Hc]; [|by auto].
  apply (collide_or_inj sha256) in Hd as [Hd|Hd]; [|by auto].
  apply append_inj_length in Hd as [-> Hd]; [|congruence]. apply canonical_json_inj in Hd; [|done].
  apply entry_payload_inj in Hd as [Hd|Hd]; [|by auto]. left. split; [done|]. by constructor.
Qed.

(** The entries a checkpoint covers. *)
Definition covered (c : AuditCheckpoint.t) (entries : list AuthorityMutation.t) : list AuthorityMutation.t :=
  List.filter (fun e => AuthorityMutation.position e <=? AuditCheckpoint.head_position c) (by_position entries).

Lemma StronglySorted_filter {A} (R : relation A) (p : A -> bool) l :
  StronglySorted R l -> StronglySorted R (List.filter p l).
Proof.
  induction 1 as [|x l Hl IH Hx]; cbn; [constructor|]. destruct (p x); [|done]. constructor; [done|].
  apply Forall_forall. intros y Hy. apply list_elem_of_In, List.filter_In in Hy as [Hy _].
  apply (Forall_in _ _ _ Hx). by apply list_elem_of_In.
Qed.

Lemma covered_sorted c entries : by_position (covered c entries) = covered c entries.
Proof.
  apply sort_by_id, StronglySorted_filter, sort_by_sorted; lia.
Qed.

Lemma chain_failures_nil c entries :
  chain_failures c entries = [] <->
  exists transcript, authority_chain (covered c entries) = Ok (AuditCheckpoint.chain_root_sha256 c, transcript) /\
    Z.of_nat (length (covered c entries)) = AuditCheckpoint.entry_count c /\
    digest (JList transcript) = AuditCheckpoint.transcript_sha256 c.
Proof.
  unfold AuditCheckpoints.chain_failures. fold (covered c entries).
  destruct (authority_chain (covered c entries)) as [[root transcript]|exc] eqn:Ha.
  - destruct (_ =? _) eqn:Hn, (decide (root = _)) as [->|Hr], (decide (_ = _)) as [Ht|Ht]; cbn; split; try done.
    1: intros _; exists transcript; split_and!; [done|lia|done].
    all: intros (tr & Heq & ? & ?); injection Heq; intros; subst; done || lia.
  - split; [|by intros (tr & [= ] & _)]. revert Ha. unfold AuditCheckpoints.authority_chain.
    destruct (last _); [|by intros [= <-]]. destruct (negb _); cbn; [by intros [= <-]|done].
Qed.

Lemma authority_chain_root entries root transcript :
  authority_chain entries = Ok (root, transcript) -> chain_from genesis (by_position entries) = (root, transcript).
Proof.
  unfold AuditCheckpoints.authority_chain. destruct (last _); [|done].
  intros ([] & _ & [= H])%rbind_ok. exact H.
Qed.

(** C16: a checkpoint binds the history it was made of.  Two journals whose
    chains both check against the same checkpoint, whoever presents them, have
    the same entries up to its head: no entry before the head can be changed,
    removed, inserted, reordered or replaced, unless two texts hashed at the
    same place of the two chains collide under SHA-256. *)
Theorem checkpoint_binds_history c entries entries' now now' s s' :
  AuditCheckpointVerification.chain_valid (verify c entries now s) = true ->
  AuditCheckpointVerification.chain_valid (verify c entries' now' s') = true ->
  Forall2 same_entry (covered c entries) (covered c entries')
  \/ chains_collide genesis (covered c entries) genesis (covered c entries').
Proof.
  unfold AuditCheckpoints.verify. cbv zeta. cbn [AuditCheckpointVerification.chain_valid].
  intros (t1 & H1 & Hl1 & _)%bool_decide_eq_true%chain_failures_nil
    (t2 & H2 & Hl2 & _)%bool_decide_eq_true%chain_failures_nil.
  apply authority_chain_root in H1, H2. rewrite covered_sorted in H1, H2.
  destruct (chain_binds genesis (covered c entries) genesis (covered c entries')) as [[_ ?]|?]; auto.
  - lia.
  - by rewrite H1, H2.
Qed.

(** ** A checkpoint of a node *)
Section Node.
Context (ed25519_public : string -> string).
Context (ed25519_law : forall private message,
  ed25519_verify (ed25519_public private) (ed25519_sign private message) message = true).
Context (dump_payload : payload -> json) (store_sha256 : payload -> string).
Notation journal := (authority_journal dump_payload).

Lemma journal_positions st :
  conformant store_sha256 st ->
  AuthorityMutation.position <$> journal st = expected_positions (Z.of_nat (length (journal st))).
Proof.
  intros [Hev _ _]. unfold authority_journal, expected_positions. rewrite length_fmap, Nat2Z.id, <- list_fmap_compose.
  by apply (numbered_seq store_sha256 0%nat).
Qed.

Lemma journal_sorted st : conformant store_sha256 st -> by_position (journal st) = journal st.
Proof.
  intros H. apply by_position_sorted. rewrite (journal_positions _ H). apply expected_positions_sorted.
Qed.

Lemma filter_all {A} (p : A -> bool) l : (forall x, x ∈ l -> p x = true) -> List.filter p l = l.
Proof.
  induction l as [|x l IH]; intros H; [done|]. cbn. rewrite H by by left. f_equal. apply IH.
  intros y Hy. apply H. by right.
Qed.

Lemma filter_none {A} (p : A -> bool) l : (forall x, x ∈ l -> p x = false) -> List.filter p l = [].
Proof.
  induction l as [|x l IH]; intros H; [done|]. cbn. rewrite H by by left. apply IH. intros y Hy. apply H. by right.
Qed.

(** The journal of an earlier state is what the later one holds up to its head. *)
Lemma journal_prefix st st' :
  conformant store_sha256 st' ->
  IncidentJournalStore.authority_events st `prefix_of` IncidentJournalStore.authority_events st' ->
  List.filter (fun e => AuthorityMutation.position e <=? Z.of_nat (length (journal st))) (journal st') = journal st.
Proof.
  intros [Hev _ _] [es Hes]. unfold authority_journal. rewrite length_fmap. rewrite Hes in Hev |- *.
  apply numbered_app in Hev as [H1 H2]. rewrite fmap_app, List.filter_app, filter_all, filter_none, app_nil_r; [done|..].
  - intros x (e & -> & He)%list_elem_of_fmap. cbn. destruct (numbered_positions _ _ _ _ H2 He). lia.
  - intros x (e & -> & He)%list_elem_of_fmap. cbn. destruct (numbered_positions _ _ _ _ H1 He). lia.
Qed.

Lemma journal_chain st :
  conformant store_sha256 st -> journal st <> [] -> authority_chain (journal st) = Ok (chain_from genesis (journal st)).
Proof.
  intros Hc Hne. unfold AuditCheckpoints.authority_chain. rewrite (journal_sorted _ Hc).
  destruct (last (journal st)) as [head|] eqn:Hl; [|by apply last_None in Hl].
  assert (AuthorityMutation.position head = Z.of_nat (length (journal st))) as Hpos.
  { unfold authority_journal in *. rewrite fmap_last in Hl.
    destruct (last (IncidentJournalStore.authority_events st)) as [e|] eqn:He; [|done]. injection Hl as <-. cbn.
    destruct (numbered_last _ _ _ _ (cf_events _ _ Hc) He) as [-> _]. by rewrite length_fmap. }
  rewrite Hpos, (journal_positions _ Hc), bool_decide_eq_true_2 by done. reflexivity.
Qed.

(** What [create] seals. *)
Lemma create_ok entries epoch id gen private created_at policy s c s' :
  create entries epoch id gen private created_at policy s = (Ok c, s') ->
  let ordered := by_position entries in
  exists r transcript,
    KeyLifecycleRegistry.signing_allowed (id, gen, KeyPurpose.AUDIT_SIGNING) created_at (key_registry s) = Ok r /\
    authority_chain ordered = Ok (AuditCheckpoint.chain_root_sha256 c, transcript) /\
    AuditCheckpoint.head_position c = match last ordered with Some e => AuthorityMutation.position e | None => 0 end /\
    AuditCheckpoint.entry_count c = Z.of_nat (length ordered) /\
    AuditCheckpoint.transcript_sha256 c = digest (JList transcript) /\
    AuditCheckpoint.signer_identity_id c = id /\ AuditCheckpoint.signer_generation c = gen /\
    AuditCheckpoint.created_at c = created_at /\ AuditCheckpoint.non_forensic_wording c = NON_FORENSIC_WORDING /\
    let message := canonical_json_bytes float_repr (signable_payload isoformat_z c) in
    AuditCheckpoint.payload_sha256 c = sha256 message /\
    AuditCheckpoint.signature_b64 c = b64encode (ed25519_sign private message) /\
    key_registry s' = key_registry s.
Proof.
  cbv zeta. unfold AuditCheckpoints.create. intros H.
  apply bind_ok in H as (s1 & s2 & [= <- <-] & H). apply bind_ok in H as (r & s1 & [= Hr <-] & H). cbv zeta in H.
  apply bind_ok in H as ([root transcript] & s1 & [= Hchain <-] & H).
  apply bind_ok in H as ([] & s1 & [_ ->]%raise_if_ok & H).
  apply bind_ok in H as (c' & s1 & [= Hv <-] & H).
  assert (c' = c /\ key_registry s' = key_registry s) as [-> Hreg].
  { unfold transaction, bind at 1, get at 1 in H. destruct (select_one _ _) as [observed|].
    - unfold raise_if, bind in H. case_bool_decide as Hb; cbn in H; [|done]. by injection H as <- <-.
    - unfold bind, lift, insert_row in H. destruct (existsb _ _); [done|]. by injection H as <- <-. }
  unfold AuditCheckpoint.validate in Hv. repeat (apply rbind_ok in Hv as ([] & _ & Hv)). injection Hv as <-.
  exists r, transcript. by split_and!.
Qed.

(** The signature of a checkpoint is accepted as historical as long as the
    registry knows the key and no compromise reaches back to its head. *)
Definition key_covers (c : AuditCheckpoint.t) (public : string) (reg : KeyLifecycleRegistry.t) : Prop :=
  let k := (AuditCheckpoint.signer_identity_id c, AuditCheckpoint.signer_generation c, KeyPurpose.AUDIT_SIGNING) in
  exists r, KeyLifecycleRegistry.load k reg = Ok r /\
    KeyIdentityRecord.public_key_b64 r = b64encode public /\
    KeyLifecycleRegistry.state_at k (AuditCheckpoint.created_at c) reg <> None /\
    KeyLifecycleRegistry.outside_window r (AuditCheckpoint.created_at c) = false /\
    forall e, later_compromise k (AuditCheckpoint.created_at c) reg = Some e -> exists floor,
      KeyLifecycleEvent.compromise_floor_position e = Some floor /\ AuditCheckpoint.head_position c < floor.

Lemma key_covers_accepts c private reg now message :
  key_covers c (ed25519_public private) reg ->
  SignatureVerification.accepted (KeyLifecycleRegistry.verify ed25519_verify
    (AuditCheckpoint.signer_identity_id c, AuditCheckpoint.signer_generation c, KeyPurpose.AUDIT_SIGNING)
    message (b64encode (ed25519_sign private message)) (AuditCheckpoint.created_at c) now true
    (Some (AuditCheckpoint.head_position c)) reg) = true.
Proof.
  intros (r & Hl & Hpub & Hs & Hw & Hc). apply (accepted_intro ed25519_verify _ _ _ _ _ _ _ _ r); [done|].
  split_and!; try done.
  - exists (ed25519_sign private message), (ed25519_public private). rewrite Hpub, !base64_decodes.
    by rewrite ed25519_law.
  - intros e (floor & Hf & Hlt)%Hc. by exists floor, (AuditCheckpoint.head_position c).
Qed.

(** C31: a checkpoint of a node's journal verifies for ever.  It is valid, with no
    failure of any kind, on every later state of the same journal, whatever
    was appended since and whoever retired the key, as long as no compromise
    of the key reaches back to the head of the checkpoint. *)
Theorem checkpoint_verifies_later st st' epoch id gen private created_at policy now s c s' s'' :
  JournalTheorems.reachable store_sha256 st -> rtc (JournalTheorems.step store_sha256) st st' ->
  create (journal st) epoch id gen private created_at policy s = (Ok c, s') ->
  key_covers c (ed25519_public private) (key_registry s'') ->
  let v := verify c (journal st') now s'' in
  AuditCheckpointVerification.valid v = true /\ AuditCheckpointVerification.failures v = [] /\
  AuditCheckpointVerification.chain_valid v = true /\
  AuditCheckpoint.head_position c = Z.of_nat (length (IncidentJournalStore.authority_events st)).
Proof.
  intros Hst Hsteps H Hkey.
  pose proof (reachable_conformant _ _ Hst) as Hc.
  assert (Hc' : conformant store_sha256 st') by (by apply (gr_conformant _ _ _ (steps_grow _ _ _ Hsteps))).
  apply create_ok in H
    as (r & tr & _ & Hchain & Hhead & Hcount & Htr & Hid & Hgen & Hat & Hwording & Hdigest & Hsig & _).
  rewrite (journal_sorted _ Hc) in *.
  assert (journal st <> []) as Hne by (intros Hnil; rewrite Hnil in Hchain; discriminate Hchain).
  pose proof (journal_chain _ Hc Hne) as Hown. rewrite Hchain in Hown. injection Hown as Hown.
  assert (AuditCheckpoint.head_position c = Z.of_nat (length (journal st))) as Hhead'.
  { rewrite Hhead. destruct (last (journal st)) as [e|] eqn:He; [|by apply last_None in He].
    pose proof (f_equal last (journal_positions _ Hc)) as Hl. rewrite fmap_last, He in Hl.
    destruct (length (journal st)) as [|n]; [done|]. rewrite expected_positions_last in Hl. by injection Hl as ->. }
  assert (chain_failures c (journal st') = []) as Hfail.
  { apply chain_failures_nil. exists tr. unfold covered. rewrite (journal_sorted _ Hc'), Hhead'.
    rewrite (journal_prefix st st' Hc' (gr_events _ _ _ (steps_grow _ _ _ Hsteps) Hc)). split_and!; [|done|done].
    by rewrite <- Hchain. }
  cbv zeta. unfold AuditCheckpoints.verify. cbv zeta.
  cbn [AuditCheckpointVerification.valid AuditCheckpointVerification.failures AuditCheckpointVerification.chain_valid].
  rewrite Hfail, Hdigest, Hsig, Hwording, key_covers_accepts by done. rewrite !decide_True by done. cbn.
  split_and!; try done. rewrite Hhead'. unfold authority_journal. by rewrite length_fmap.
Qed.
End Node.
End Audit.

(** ** A concrete checkpoint *)
(** A toy hash of 64 hexadecimal digits. *)
Fixpoint demo_hash (s : string) (h : Z) : Z :=
  match s with
  | EmptyString => h
  | String c s => demo_hash s ((h * 257 + Z.of_nat (Ascii.nat_of_ascii c) + 1) mod 2 ^ 256)
  end.
Fixpoint demo_hex (n : nat) (h : Z) : string :=
  match n with
  | O => ""
  | S n => String (Ascii.ascii_of_nat (Z.to_nat (let d := h mod 16 in if d <? 10 then 48 + d else 87 + d)))
             (demo_hex n (h / 16))
  end.
Definition demo_sha256_text (s : string) : string := demo_hex 64 (demo_hash s 7).
Definition demo_zulu (t : datetime) : string := pretty t +:+ "Z".
Definition demo_sign (private message : string) : string := demo_signature private message.
Definition demo_payload_json (p : payload) : json := JNull.

#[export] Instance demo_key_isoformat_inj : Inj (=) (=) demo_key_isoformat.
Proof. intros x y. unfold demo_key_isoformat. apply (inj pretty). Qed.

Lemma demo_hex_length n h : String.length (demo_hex n h) = n.
Proof. revert h. induction n as [|n IH]; intros h; cbn; [done|]. by rewrite IH. Qed.

Lemma demo_sha256_text_length x : String.length (demo_sha256_text x) = 64%nat.
Proof. apply demo_hex_length. Qed.

Notation demo_create := (create demo_repr demo_key_isoformat demo_zulu demo_sha256_text demo_key_uuid5 demo_sign).
Notation demo_verify := (verify demo_repr demo_key_isoformat demo_zulu demo_sha256_text demo_ed25519_verify).
Notation demo_journal := (authority_journal demo_payload_json).

Definition demo_signer : KeyLifecycleRegistry.t :=
  run demo_repr demo_key_isoformat demo_sha256_text demo_key_uuid5 [demo_register] KeyLifecycleRegistry.init.
Definition demo_service : t := mk demo_signer [].

(** The journal when the checkpoint is made, and a later state of it. *)
Definition demo_then : IncidentJournalStore.t := JournalTheorems.demo_store.
Definition demo_later : IncidentJournalStore.t :=
  JournalTheorems.run_store demo_sha256 [JournalTheorems.RecordDelivery "n1" true (Some "r") None 30] demo_then.

Definition demo_sealed : res AuditCheckpoint.t * t :=
  demo_create (demo_journal demo_then) "epoch-1" "node" 1 demo_public 20 "policy" demo_service.

Lemma demo_sealed_ok : exists c s', demo_sealed = (Ok c, s') /\
  AuditCheckpointVerification.chain_valid (demo_verify c (demo_journal demo_then) 30 demo_service) = true /\
  AuditCheckpointVerification.chain_valid (demo_verify c (demo_journal demo_later) 30 demo_service) = true /\
  key_covers c demo_public (key_registry s').
Proof.
  do 2 eexists. split; [vm_compute; reflexivity|]. split; [vm_compute; reflexivity|].
  split; [vm_compute; reflexivity|]. eexists. split; [vm_compute; reflexivity|].
  split; [vm_compute; reflexivity|]. split; [vm_compute; discriminate|].
  split; [vm_compute; reflexivity|]. intros e He. vm_compute in He. discriminate He.
Qed.

Lemma checkpoint_binds_history_witness :
  exists c, demo_sealed.1 = Ok c /\
  (Forall2 same_entry (covered c (demo_journal demo_then)) (covered c (demo_journal demo_later))
   \/ chains_collide demo_repr demo_key_isoformat demo_sha256_text genesis (covered c (demo_journal demo_then))
        genesis (covered c (demo_journal demo_later))).
Proof.
  destruct demo_sealed_ok as (c & s' & H & H1 & H2 & _). exists c. split; [by rewrite H|].
  exact (checkpoint_binds_history demo_repr demo_key_isoformat demo_zulu demo_sha256_text demo_ed25519_verify
           demo_sha256_text_length c _ _ 30 30 demo_service demo_service H1 H2).
Defined.

Lemma checkpoint_verifies_later_witness :
  exists c s', demo_sealed = (Ok c, s') /\
  AuditCheckpointVerification.valid (demo_verify c (demo_journal demo_later) 30 s') = true.
Proof.
  destruct demo_sealed_ok as (c & s' & H & _ & _ & Hk). exists c, s'. split; [exact H|].
  assert (Hlaw : forall private message, demo_ed25519_verify private (demo_sign private message) message = true).
  { intros private message. apply bool_decide_eq_true_2. reflexivity. }
  assert (Hsteps : rtc (JournalTheorems.step demo_sha256) demo_then demo_later).
  { apply JournalTheorems.run_store_steps. repeat constructor. }
  exact (proj1 (checkpoint_verifies_later demo_repr demo_key_isoformat demo_zulu demo_sha256_text demo_key_uuid5
    demo_sign demo_ed25519_verify (fun p => p) Hlaw demo_payload_json demo_sha256 demo_then demo_later "epoch-1"
    "node" 1 demo_public 20 "policy" 30 demo_service c s' s' JournalTheorems.demo_store_reachable Hsteps H Hk)).
Defined.
