(* ===== verification/Disposition.v ===== *)
(** Governed disposition of personal data (privacy/disposition.py): the lineage
    of what was derived from evidence, requests to erase or restrict it,
    consent blocks, and the bounded contact with external recipients.  Closing
    a request is in DispositionClosure.v: it acts on the other stores too.

    The tables are lists of rows, or finite maps where the code upserts by
    primary key; the row of a node, a request or an attempt is the object in its
    [payload_json].  [authority_recorder] is the incident store whose
    [record_authority_mutation] the service was given, if any: its writes commit
    on their own, and are the last step of every block they occur in.  [sha256]
    is the hexadecimal digest, [store_sha256] that of the journal's payloads,
    [isoformat] and [json_time] the two texts of a timestamp; clock readings are
    arguments.  The answers of a [sender] are a function of the node: one
    reconciliation contacts a node at most once. *)

From Stdlib Require Import ZArith.
From S2P Require Import Prelude Binary64 Enums Models Records CanonicalJson Journal.
Open Scope Z_scope.

Module DispositionAction.
Inductive t : Type := ERASE | RESTRICT | CONSENT_WITHDRAWAL | CORRECT.
#[global] Instance eq_dec : EqDecision t.
Proof. solve_decision. Defined.
Definition value (x : t) : string :=
  match x with
  | ERASE => "erase"
  | RESTRICT => "restrict"
  | CONSENT_WITHDRAWAL => "consent_withdrawal"
  | CORRECT => "correct"
  end.
End DispositionAction.

Module DispositionRequestStatus.
Inductive t : Type := RESTRICTED | IN_PROGRESS | COMPLETED | RETAINED_EXCEPTION | EXTERNAL_RECIPIENT_PENDING | FAILED.
#[global] Instance eq_dec : EqDecision t.
Proof. solve_decision. Defined.
Definition value (x : t) : string :=
  match x with
  | RESTRICTED => "restricted"
  | IN_PROGRESS => "in_progress"
  | COMPLETED => "completed"
  | RETAINED_EXCEPTION => "retained_exception"
  | EXTERNAL_RECIPIENT_PENDING => "external_recipient_pending"
  | FAILED => "failed"
  end.
End DispositionRequestStatus.

Module RecipientReconciliationState.
Inductive t : Type := ACKNOWLEDGED | RETRY_SCHEDULED | EXHAUSTED | DEADLINE_EXPIRED | ALREADY_ACKNOWLEDGED | NOT_DUE.
#[global] Instance eq_dec : EqDecision t.
Proof. solve_decision. Defined.
Definition value (x : t) : string :=
  match x with
  | ACKNOWLEDGED => "acknowledged"
  | RETRY_SCHEDULED => "retry_scheduled"
  | EXHAUSTED => "exhausted"
  | DEADLINE_EXPIRED => "deadline_expired"
  | ALREADY_ACKNOWLEDGED => "already_acknowledged"
  | NOT_DUE => "not_due"
  end.
End RecipientReconciliationState.

Module DispositionNodeKind.
Inductive t : Type :=
  ORIGINAL | REDACTION | THUMBNAIL | OCR | ASR | EMBEDDING | SEARCH_INDEX | CACHE | EXPORT | GRANT | LEASE | REPLICA
  | EXTERNAL_RECIPIENT.
#[global] Instance eq_dec : EqDecision t.
Proof. solve_decision. Defined.
Definition value (x : t) : string :=
  match x with
  | ORIGINAL => "original"
  | REDACTION => "redaction"
  | THUMBNAIL => "thumbnail"
  | OCR => "ocr"
  | ASR => "asr"
  | EMBEDDING => "embedding"
  | SEARCH_INDEX => "search_index"
  | CACHE => "cache"
  | EXPORT => "export"
  | GRANT => "grant"
  | LEASE => "lease"
  | REPLICA => "replica"
  | EXTERNAL_RECIPIENT => "external_recipient"
  end.
End DispositionNodeKind.

Module DispositionNodeStatus.
Inductive t : Type := ACTIVE | RESTRICTED | DELETED | REVOKED | RETAINED_EXCEPTION | EXTERNAL_PENDING | FAILED.
#[global] Instance eq_dec : EqDecision t.
Proof. solve_decision. Defined.
Definition value (x : t) : string :=
  match x with
  | ACTIVE => "active"
  | RESTRICTED => "restricted"
  | DELETED => "deleted"
  | REVOKED => "revoked"
  | RETAINED_EXCEPTION => "retained_exception"
  | EXTERNAL_PENDING => "external_pending"
  | FAILED => "failed"
  end.
End DispositionNodeStatus.

(** Nodes that live with somebody else. *)
Definition is_external (k : DispositionNodeKind.t) : bool :=
  bool_decide (k ∈ [DispositionNodeKind.EXTERNAL_RECIPIENT; DispositionNodeKind.EXPORT; DispositionNodeKind.REPLICA]).

Definition opt_json {A} (f : A -> json) (o : option A) : json := match o with Some a => f a | None => JNull end.

Module DispositionLineageNode.
Record t : Type := mk {
  node_id : UUID;
  evidence_id : UUID;
  kind : DispositionNodeKind.t;
  target_ref : string;
  parent_node_id : option UUID;
  external_recipient_digest : option string;
  exception_reason : option string;
  exception_expires_at : option datetime;
  created_at : datetime
}.
#[global] Instance eq_dec : EqDecision t.
Proof. solve_decision. Defined.
Definition validate (n : t) : res t :=
  check (blank (target_ref n)) (ValidationError "disposition target_ref must not be blank") >>!
  check (bool_decide (kind n = DispositionNodeKind.EXTERNAL_RECIPIENT) && negb (truthy (external_recipient_digest n)))
    (ValidationError "external recipient nodes require a recipient digest") >>!
  check (negb (bool_decide (exception_expires_at n = None)) && negb (truthy (exception_reason n)))
    (ValidationError "retained exception expiry requires an explicit reason") >>!
  Ok n.
End DispositionLineageNode.

Module DispositionRequest.
Record t : Type := mk {
  request_id : UUID;
  action : DispositionAction.t;
  evidence_ids : list UUID;
  subject_digest : string;
  subject_basis : string;
  actor : string;
  reason : string;
  deadline : datetime;
  created_at : datetime;
  status : DispositionRequestStatus.t;
  legal_exception_reason : option string;
  legal_exception_expires_at : option datetime;
  terminal_outcome : option string
}.
#[global] Instance eq_dec : EqDecision t.
Proof. solve_decision. Defined.
Definition validate (r : t) : res t :=
  check (negb (is_sha256_hex (subject_digest r)))
    (ValidationError "subject_digest must be a lowercase SHA-256") >>!
  check (bool_decide (evidence_ids r = [])) (ValidationError "disposition request requires evidence scope") >>!
  check (blank (actor r) || blank (reason r) || blank (subject_basis r))
    (ValidationError "disposition request governance fields must not be blank") >>!
  check (deadline r <=? created_at r) (ValidationError "disposition deadline must follow creation") >>!
  check (negb (bool_decide (legal_exception_expires_at r = None)) && negb (truthy (legal_exception_reason r)))
    (ValidationError "legal exception expiry requires an explicit reason") >>!
  Ok r.
(** [model_copy(update={"status": ..., "terminal_outcome": ...})] *)
Definition set_outcome (st : DispositionRequestStatus.t) (outcome : option string) (r : t) : t :=
  mk (request_id r) (action r) (evidence_ids r) (subject_digest r) (subject_basis r) (actor r) (reason r)
    (deadline r) (created_at r) st (legal_exception_reason r) (legal_exception_expires_at r) outcome.
End DispositionRequest.

Module DispositionNodeResult.
Record t : Type := mk {
  node_id : UUID;
  evidence_id : UUID;
  kind : DispositionNodeKind.t;
  status : DispositionNodeStatus.t;
  target_digest : string;
  reason_codes : list string;
  updated_at : datetime;
  receipt_sha256 : option string
}.
#[global] Instance eq_dec : EqDecision t.
Proof. solve_decision. Defined.
End DispositionNodeResult.

(** ExternalRecipientReconciliationAttempt *)
Module ReconciliationAttempt.
Record t : Type := mk {
  attempt_id : UUID;
  request_id : UUID;
  node_id : UUID;
  recipient_digest : string;
  attempt_no : Z;
  state : RecipientReconciliationState.t;
  actor : string;
  created_at : datetime;
  next_retry_at : option datetime;
  response_code : option string;
  receipt_sha256 : option string;
  payload_sha256 : string
}.
#[global] Instance eq_dec : EqDecision t.
Proof. solve_decision. Defined.
End ReconciliationAttempt.

(** ExternalRecipientReconciliationReport *)
Module ReconciliationReport.
Record t : Type := mk {
  request_id : UUID;
  generated_at : datetime;
  attempts : list ReconciliationAttempt.t;
  acknowledged : Z;
  retry_scheduled : Z;
  exhausted : Z;
  deadline_expired : Z;
  pending : Z;
  complete : bool;
  report_sha256 : string
}.
End ReconciliationReport.

(** A row of [external_recipient_receipts]. *)
Module RecipientReceipt.
Record t : Type := mk {
  receipt_id : UUID;
  node_id : UUID;
  recipient_digest : option string;
  actor : string;
  created_at : datetime;
  receipt_sha256 : string
}.
End RecipientReceipt.

(** What [processing_allowed] answers. *)
Module ProcessingDecision.
Record t : Type := mk {
  allowed : bool;
  subject_digest : string;
  request_id : option UUID;
  alternate_basis : option string;
  reason_codes : list string
}.
End ProcessingDecision.

Module PrivacyDispositionService.

Record node_event : Type := mkNodeEvent {
  event_id : UUID;
  event_request_id : UUID;
  result : DispositionNodeResult.t
}.
Record restriction : Type := mkRestriction {
  restricted_by : UUID;
  restricted_action : DispositionAction.t;
  restricted_at : datetime
}.
Record consent_block : Type := mkBlock {
  blocked_by : UUID;
  blocked_at : datetime;
  block_alternate_basis : option string
}.

Record t : Type := mk {
  lineage_nodes : list DispositionLineageNode.t;
  disposition_requests : list DispositionRequest.t;
  request_evidence : list (UUID * UUID);
  node_events : list node_event;
  restrictions : gmap UUID restriction;
  consent_blocks : gmap string consent_block;
  receipts : list RecipientReceipt.t;
  reconciliation_attempts : list ReconciliationAttempt.t;
  authority_recorder : option IncidentJournalStore.t
}.
Definition set_lineage_nodes v (s : t) : t :=
  mk v (disposition_requests s) (request_evidence s) (node_events s) (restrictions s)
    (consent_blocks s) (receipts s) (reconciliation_attempts s) (authority_recorder s).
Definition set_disposition_requests v (s : t) : t :=
  mk (lineage_nodes s) v (request_evidence s) (node_events s) (restrictions s) (consent_blocks s)
    (receipts s) (reconciliation_attempts s) (authority_recorder s).
Definition set_request_evidence v (s : t) : t :=
  mk (lineage_nodes s) (disposition_requests s) v (node_events s) (restrictions s) (consent_blocks
    s) (receipts s) (reconciliation_attempts s) (authority_recorder s).
Definition set_node_events v (s : t) : t :=
  mk (lineage_nodes s) (disposition_requests s) (request_evidence s) v (restrictions s)
    (consent_blocks s) (receipts s) (reconciliation_attempts s) (authority_recorder s).
Definition set_restrictions v (s : t) : t :=
  mk (lineage_nodes s) (disposition_requests s) (request_evidence s) (node_events s) v
    (consent_blocks s) (receipts s) (reconciliation_attempts s) (authority_recorder s).
Definition set_consent_blocks v (s : t) : t :=
  mk (lineage_nodes s) (disposition_requests s) (request_evidence s) (node_events s) (restrictions
    s) v (receipts s) (reconciliation_attempts s) (authority_recorder s).
Definition set_receipts v (s : t) : t :=
  mk (lineage_nodes s) (disposition_requests s) (request_evidence s) (node_events s) (restrictions
    s) (consent_blocks s) v (reconciliation_attempts s) (authority_recorder s).
Definition set_reconciliation_attempts v (s : t) : t :=
  mk (lineage_nodes s) (disposition_requests s) (request_evidence s) (node_events s) (restrictions
    s) (consent_blocks s) (receipts s) v (authority_recorder s).
Definition set_authority_recorder v (s : t) : t :=
  mk (lineage_nodes s) (disposition_requests s) (request_evidence s) (node_events s) (restrictions
    s) (consent_blocks s) (receipts s) (reconciliation_attempts s) v.
Definition init (recorder : option IncidentJournalStore.t) : t := mk [] [] [] [] ∅ ∅ [] [] recorder.

Definition nodes_by_time (l : list DispositionLineageNode.t) : list DispositionLineageNode.t :=
  order_by DispositionLineageNode.created_at DispositionLineageNode.node_id l.
(** [nodes(evidence_id)] *)
Definition nodes (evidence_id : option UUID) (s : t) : list DispositionLineageNode.t :=
  nodes_by_time
    (select (fun n => opt_all (fun id => bool_decide (DispositionLineageNode.evidence_id n = id)) evidence_id)
       (lineage_nodes s)).

Definition find_node (id : UUID) (s : t) : option DispositionLineageNode.t :=
  select_one (fun n => bool_decide (DispositionLineageNode.node_id n = id)) (lineage_nodes s).
Definition find_request (id : UUID) (s : t) : option DispositionRequest.t :=
  select_one (fun r => bool_decide (DispositionRequest.request_id r = id)) (disposition_requests s).

Definition request (id : UUID) (s : t) : res DispositionRequest.t :=
  match find_request id s with Some r => Ok r | None => Raise (KeyError id) end.
Definition requests (s : t) : list DispositionRequest.t :=
  order_by DispositionRequest.created_at DispositionRequest.request_id (disposition_requests s).

Definition is_restricted (evidence_id : UUID) (s : t) : bool :=
  bool_decide (is_Some (restrictions s !! evidence_id)).

(** [UPDATE disposition_requests SET status=?, payload_json=?] *)
Definition update_request (r : DispositionRequest.t) : M t unit :=
  modify (fun s => set_disposition_requests
    ((fun q => if decide (DispositionRequest.request_id q = DispositionRequest.request_id r) then r else q)
       <$> disposition_requests s) s).

(** [_external_ack]: the receipt of the latest acknowledgement. *)
Definition external_ack (node_id : UUID) (s : t) : option string :=
  RecipientReceipt.receipt_sha256 <$>
    head (sort_by (fun x y => RecipientReceipt.created_at y <=? RecipientReceipt.created_at x)
      (select (fun r => bool_decide (RecipientReceipt.node_id r = node_id)) (receipts s))).

(** [external_reconciliation_attempts(request_id)] *)
Definition attempts_of (request_id : option UUID) (s : t) : list ReconciliationAttempt.t :=
  order_by ReconciliationAttempt.created_at ReconciliationAttempt.attempt_id
    (select (fun a => opt_all (fun id => bool_decide (ReconciliationAttempt.request_id a = id)) request_id)
       (reconciliation_attempts s)).

Section Operations.
Context (float_repr : f64 -> string) (isoformat json_time : datetime -> string).
Context (sha256 : string -> string) (uuid5 : string -> UUID) (store_sha256 : payload -> string).

Definition digest (j : json) : string := sha256 (canonical_json_bytes float_repr j).

(** [_authority] *)
Definition authority (entity_id : string) (created_at : datetime) (p : json) : M t unit :=
  let! s := get in
  match authority_recorder s with
  | None => ret tt
  | Some store =>
      let '(r, store') := IncidentJournalStore.record_authority_mutation store_sha256
                            AuthorityMutationKind.DISPOSITION entity_id created_at (PJson p) store in
      put (set_authority_recorder (Some store') s) ;;;
      let! _ := lift r in
      ret tt
  end.

Definition subject_digest (subject_ref : string) : string :=
  sha256 ("sentinel-disposition-subject-v1:" +:+ subject_ref).

Definition register_node (evidence_id : UUID) (kind : DispositionNodeKind.t) (target_ref : string)
    (parent_node_id : option UUID) (external_recipient exception_reason : option string)
    (exception_expires_at : option datetime) (created_at : datetime) : M t DispositionLineageNode.t :=
  let recipient_digest := if truthy external_recipient then subject_digest <$> external_recipient else None in
  let seed := JDict [("evidence_id", JStr evidence_id);
                     ("kind", JStr (DispositionNodeKind.value kind));
                     ("target_ref", JStr target_ref);
                     ("parent_node_id", opt_json JStr parent_node_id);
                     ("recipient_digest", opt_json JStr recipient_digest)] in
  let! node := lift (DispositionLineageNode.validate
    (DispositionLineageNode.mk (uuid5 ("sentinel-disposition-node:" +:+ digest seed)) evidence_id kind target_ref
       parent_node_id recipient_digest exception_reason exception_expires_at created_at)) in
  transaction
    (let! s := get in
     match find_node (DispositionLineageNode.node_id node) s with
     | Some existing =>
         raise_if (negb (bool_decide (existing = node))) (ValueError "disposition node identity conflict") ;;;
         ret existing
     | None =>
         let! rows := lift (insert_row "disposition_lineage_nodes" (same_key DispositionLineageNode.node_id)
                              (lineage_nodes s) node) in
         put (set_lineage_nodes rows s) ;;;
         ret node
     end).

(** [request.model_dump(mode="json")] *)
Definition dump_request (r : DispositionRequest.t) : json :=
  JDict [("request_id", JStr (DispositionRequest.request_id r));
         ("action", JStr (DispositionAction.value (DispositionRequest.action r)));
         ("evidence_ids", JList (JStr <$> DispositionRequest.evidence_ids r));
         ("subject_digest", JStr (DispositionRequest.subject_digest r));
         ("subject_basis", JStr (DispositionRequest.subject_basis r));
         ("actor", JStr (DispositionRequest.actor r));
         ("reason", JStr (DispositionRequest.reason r));
         ("deadline", JStr (json_time (DispositionRequest.deadline r)));
         ("created_at", JStr (json_time (DispositionRequest.created_at r)));
         ("status", JStr (DispositionRequestStatus.value (DispositionRequest.status r)));
         ("legal_exception_reason", opt_json JStr (DispositionRequest.legal_exception_reason r));
         ("legal_exception_expires_at",
           opt_json (fun t => JStr (json_time t)) (DispositionRequest.legal_exception_expires_at r));
         ("terminal_outcome", opt_json JStr (DispositionRequest.terminal_outcome r))].

(** The rows one evidence of a new request gets. *)
Definition restrict_evidence (r : DispositionRequest.t) (evidence_id : UUID) : M t unit :=
  let! s := get in
  let! rows := lift (insert_row "disposition_request_evidence" (same_key id) (request_evidence s)
                       (DispositionRequest.request_id r, evidence_id)) in
  put (set_restrictions
         (<[evidence_id := mkRestriction (DispositionRequest.request_id r) (DispositionRequest.action r)
                             (DispositionRequest.created_at r)]> (restrictions s))
         (set_request_evidence rows s)).

Fixpoint restrict_all (r : DispositionRequest.t) (evidence_ids : list UUID) : M t unit :=
  match evidence_ids with
  | [] => ret tt
  | id :: evidence_ids => restrict_evidence r id ;;; restrict_all r evidence_ids
  end.

Definition create_request (action : DispositionAction.t) (evidence_ids : list UUID)
    (subject_ref subject_basis actor reason : string) (deadline : datetime)
    (legal_exception_reason : option string) (legal_exception_expires_at : option datetime)
    (created_at : datetime) : M t DispositionRequest.t :=
  let subject := subject_digest subject_ref in
  let seed := JDict [("action", JStr (DispositionAction.value action));
                     ("evidence_ids", JList (JStr <$> sorted_strings evidence_ids));
                     ("subject_digest", JStr subject);
                     ("actor", JStr actor);
                     ("reason", JStr reason);
                     ("created_at", JStr (isoformat created_at))] in
  let! request := lift (DispositionRequest.validate
    (DispositionRequest.mk (uuid5 ("sentinel-disposition-request:" +:+ digest seed)) action
       (sorted_set evidence_ids) subject subject_basis actor reason deadline created_at
       DispositionRequestStatus.RESTRICTED legal_exception_reason legal_exception_expires_at None)) in
  transaction
    (let! s := get in
     match find_request (DispositionRequest.request_id request) s with
     | Some existing => ret existing
     | None =>
         let! rows := lift (insert_row "disposition_requests" (same_key DispositionRequest.request_id)
                              (disposition_requests s) request) in
         put (set_disposition_requests rows s) ;;;
         restrict_all request (DispositionRequest.evidence_ids request) ;;;
         (if bool_decide (action = DispositionAction.CONSENT_WITHDRAWAL) then
            modify (fun s => set_consent_blocks
              (<[subject := mkBlock (DispositionRequest.request_id request) created_at None]> (consent_blocks s)) s)
          else ret tt) ;;;
         authority (DispositionRequest.request_id request) created_at (dump_request request) ;;;
         ret request
     end).

Definition processing_allowed (subject_ref basis : string) (s : t) : ProcessingDecision.t :=
  let subject := subject_digest subject_ref in
  match consent_blocks s !! subject with
  | Some b =>
      if negb (bool_decide (basis = "consent"))
      then ProcessingDecision.mk true subject None None []
      else if truthy (block_alternate_basis b)
      then ProcessingDecision.mk true subject None (block_alternate_basis b)
             ["consent_withdrawn_alternate_basis_documented"]
      else ProcessingDecision.mk false subject (Some (blocked_by b)) None
             ["consent_withdrawn_future_processing_blocked"]
  | None => ProcessingDecision.mk true subject None None []
  end.

(** [now] is the clock. *)
Definition document_alternate_basis (subject_ref basis actor reason : string) (now : datetime) : M t unit :=
  raise_if (blank basis || blank actor || blank reason)
    (ValueError "alternate basis governance fields are required") ;;;
  let subject := subject_digest subject_ref in
  transaction
    (let! s := get in
     match consent_blocks s !! subject with
     | None => raise (KeyError subject)
     | Some b =>
         put (set_consent_blocks (<[subject := mkBlock (blocked_by b) (blocked_at b) (Some basis)]>
                                    (consent_blocks s)) s) ;;;
         authority (blocked_by b) now
           (JDict [("action", JStr "alternate_basis_documented");
                   ("subject_digest", JStr subject);
                   ("basis", JStr basis);
                   ("actor", JStr actor);
                   ("reason", JStr reason)])
     end).

(** [_record_node_result]: INSERT OR REPLACE deletes the rows the new one clashes with. *)
Definition record_node_result (request_id : UUID) (r : DispositionNodeResult.t) : M t DispositionNodeResult.t :=
  let event := mkNodeEvent
    (uuid5 ("sentinel-disposition-node-event:" +:+ request_id +:+ ":" +:+ DispositionNodeResult.node_id r +:+ ":"
            +:+ DispositionNodeStatus.value (DispositionNodeResult.status r) +:+ ":"
            +:+ default "" (DispositionNodeResult.receipt_sha256 r))) request_id r in
  transaction (modify (fun s => set_node_events
    (List.filter (fun e =>
       negb (same_key event_id event e
             || same_key event_request_id event e
                && same_key (fun e => DispositionNodeResult.node_id (result e)) event e
                && same_key (fun e => DispositionNodeResult.status (result e)) event e)) (node_events s)
     ++ [event]) s)) ;;;
  ret r.

(** The receipt of an acknowledgement: its identifier and digest cover the other fields. *)
Definition receipt_of (node_id : UUID) (recipient : option string) (actor receipt : string) (created_at : datetime)
  : RecipientReceipt.t :=
  let receipt_sha256 := digest
    (JDict [("node_id", JStr node_id);
            ("recipient_digest", opt_json JStr recipient);
            ("actor", JStr actor);
            ("receipt", JStr receipt);
            ("created_at", JStr (isoformat created_at))]) in
  RecipientReceipt.mk (uuid5 ("sentinel-external-receipt:" +:+ receipt_sha256)) node_id recipient actor created_at
    receipt_sha256.

(** The row is ignored when its identifier is known, and when the node has no
    recipient digest: the column is NOT NULL. *)
Definition acknowledge_external_recipient (node_id : UUID) (actor receipt : string) (created_at : datetime)
  : M t RecipientReceipt.t :=
  let! s := get in
  match find_node node_id s with
  | None => raise (KeyError node_id)
  | Some node =>
      raise_if (negb (is_external (DispositionLineageNode.kind node)))
        (ValueError "node is not an external recipient/export/replica") ;;;
      let recipient := DispositionLineageNode.external_recipient_digest node in
      let row := receipt_of node_id recipient actor receipt created_at in
      transaction
        (modify (fun s =>
           if bool_decide (recipient = None)
              || existsb (same_key RecipientReceipt.receipt_id row) (receipts s)
           then s else set_receipts (receipts s ++ [row]) s) ;;;
         authority (RecipientReceipt.receipt_id row) created_at
           (JDict [("receipt_id", JStr (RecipientReceipt.receipt_id row));
                   ("node_id", JStr node_id);
                   ("recipient_digest", opt_json JStr recipient);
                   ("action", JStr "deletion_acknowledged");
                   ("actor", JStr actor);
                   ("created_at", JStr (isoformat created_at));
                   ("receipt_sha256", JStr (RecipientReceipt.receipt_sha256 row))])) ;;;
      ret row
  end.

(** ** Reconciliation with external recipients *)

(** [attempt.model_dump(mode="json")] *)
Definition dump_attempt (a : ReconciliationAttempt.t) : json :=
  JDict [("attempt_id", JStr (ReconciliationAttempt.attempt_id a));
         ("request_id", JStr (ReconciliationAttempt.request_id a));
         ("node_id", JStr (ReconciliationAttempt.node_id a));
         ("recipient_digest", JStr (ReconciliationAttempt.recipient_digest a));
         ("attempt_no", JInt (ReconciliationAttempt.attempt_no a));
         ("state", JStr (RecipientReconciliationState.value (ReconciliationAttempt.state a)));
         ("actor", JStr (ReconciliationAttempt.actor a));
         ("created_at", JStr (json_time (ReconciliationAttempt.created_at a)));
         ("next_retry_at", opt_json (fun t => JStr (json_time t)) (ReconciliationAttempt.next_retry_at a));
         ("response_code", opt_json JStr (ReconciliationAttempt.response_code a));
         ("receipt_sha256", opt_json JStr (ReconciliationAttempt.receipt_sha256 a));
         ("payload_sha256", JStr (ReconciliationAttempt.payload_sha256 a))].

(** The attempt object: its identifier and digest cover the other fields. *)
Definition attempt_of (request_id node_id : UUID) (recipient : string) (attempt_no : Z)
    (state : RecipientReconciliationState.t) (actor : string) (now : datetime) (next_retry : option datetime)
    (response_code receipt_sha256 : option string) : ReconciliationAttempt.t :=
  let payload_sha256 := digest
    (JDict [("request_id", JStr request_id);
            ("node_id", JStr node_id);
            ("recipient_digest", JStr recipient);
            ("attempt_no", JInt attempt_no);
            ("state", JStr (RecipientReconciliationState.value state));
            ("actor", JStr actor);
            ("created_at", JStr (isoformat now));
            ("next_retry_at", opt_json (fun t => JStr (isoformat t)) next_retry);
            ("response_code", opt_json JStr response_code);
            ("receipt_sha256", opt_json JStr receipt_sha256)]) in
  ReconciliationAttempt.mk (uuid5 ("sentinel-recipient-reconciliation:" +:+ payload_sha256)) request_id node_id
    recipient attempt_no state actor now next_retry response_code receipt_sha256 payload_sha256.

(** [INSERT OR IGNORE] of an attempt and its authority event. *)
Definition record_attempt (a : ReconciliationAttempt.t) (now : datetime) : M t unit :=
  transaction
    (modify (fun s =>
       if existsb (fun x =>
            same_key ReconciliationAttempt.attempt_id a x
            || same_key ReconciliationAttempt.request_id a x && same_key ReconciliationAttempt.node_id a x
               && same_key ReconciliationAttempt.attempt_no a x) (reconciliation_attempts s)
       then s else set_reconciliation_attempts (reconciliation_attempts s ++ [a]) s) ;;;
     authority (ReconciliationAttempt.attempt_id a) now (dump_attempt a)).

Definition has_ended (a : ReconciliationAttempt.t) : bool :=
  bool_decide (ReconciliationAttempt.state a ∈ [RecipientReconciliationState.EXHAUSTED;
                                                RecipientReconciliationState.DEADLINE_EXPIRED]).

(** The previous attempts at one node. *)
Definition previous_attempts (request_id node_id : UUID) (s : t) : list ReconciliationAttempt.t :=
  List.filter (fun a => bool_decide (ReconciliationAttempt.node_id a = node_id)) (attempts_of (Some request_id) s).

(** One contact: the answer of the sender becomes the next attempt. *)
Definition contact (request : DispositionRequest.t) (node : DispositionLineageNode.t) (recipient : string)
    (attempt_no : Z) (sender : DispositionLineageNode.t -> res (bool * string)) (actor : string) (now : datetime)
    (max_attempts retry_delay_seconds : Z) (acknowledged : option string) : M t ReconciliationAttempt.t :=
  let '(success, response_code) :=
    match sender node with
    | Ok (success, code) => (success, code)
    | Raise exc => (false, "sender_exception:" +:+ exn_name exc)
    end in
  let! '(state, next_retry, receipt) :=
    if (success : bool) then
      let! receipt := acknowledge_external_recipient (DispositionLineageNode.node_id node) actor
        (if bool_decide (response_code = "") then "recipient_acknowledged" else response_code) now in
      ret (RecipientReconciliationState.ACKNOWLEDGED, None, Some (RecipientReceipt.receipt_sha256 receipt))
    else if max_attempts <=? attempt_no then ret (RecipientReconciliationState.EXHAUSTED, None, acknowledged)
    else ret (RecipientReconciliationState.RETRY_SCHEDULED, Some (now + retry_delay_seconds * 1000000), acknowledged) in
  let attempt := attempt_of (DispositionRequest.request_id request) (DispositionLineageNode.node_id node) recipient
                   attempt_no state actor now next_retry (Some response_code) receipt in
  record_attempt attempt now ;;;
  ret attempt.

(** What is done about one node. *)
Definition reconcile_node (request : DispositionRequest.t) (node : DispositionLineageNode.t)
    (sender : DispositionLineageNode.t -> res (bool * string)) (actor : string) (now : datetime)
    (max_attempts retry_delay_seconds : Z) : M t ReconciliationAttempt.t :=
  let node_id := DispositionLineageNode.node_id node in
  let request_id := DispositionRequest.request_id request in
  let recipient := DispositionLineageNode.external_recipient_digest node in
  raise_if (negb (truthy recipient)) (ValueError "external reconciliation requires a recipient digest") ;;;
  let recipient := default "" recipient in
  let! s := get in
  let acknowledged := external_ack node_id s in
  let previous := previous_attempts request_id node_id s in
  let attempt_no := Z.of_nat (length previous) + 1 in
  let projected no state next code :=
    ret (attempt_of request_id node_id recipient no state actor now next code acknowledged) in
  if truthy acknowledged then projected attempt_no RecipientReconciliationState.ALREADY_ACKNOWLEDGED None None
  else
    let expired :=
      let attempt := attempt_of request_id node_id recipient attempt_no
                       RecipientReconciliationState.DEADLINE_EXPIRED actor now None None acknowledged in
      record_attempt attempt now ;;; ret attempt in
    let send := contact request node recipient attempt_no sender actor now max_attempts retry_delay_seconds
                  acknowledged in
    match last previous with
    | Some a =>
        if has_ended a then
          projected (ReconciliationAttempt.attempt_no a) (ReconciliationAttempt.state a) None
            (ReconciliationAttempt.response_code a)
        else if DispositionRequest.deadline request <=? now then expired
        else
          match ReconciliationAttempt.next_retry_at a with
          | Some next =>
              if now <? next
              then projected (ReconciliationAttempt.attempt_no a) RecipientReconciliationState.NOT_DUE (Some next) None
              else send
          | None => send
          end
    | None => if DispositionRequest.deadline request <=? now then expired else send
    end.

Fixpoint reconcile_nodes (request : DispositionRequest.t) (nodes : list DispositionLineageNode.t)
    (sender : DispositionLineageNode.t -> res (bool * string)) (actor : string) (now : datetime)
    (max_attempts retry_delay_seconds : Z) : M t (list ReconciliationAttempt.t) :=
  match nodes with
  | [] => ret []
  | node :: nodes =>
      let! attempt := reconcile_node request node sender actor now max_attempts retry_delay_seconds in
      let! attempts := reconcile_nodes request nodes sender actor now max_attempts retry_delay_seconds in
      ret (attempt :: attempts)
  end.

(** The external nodes of a request by identifier. *)
Definition external_nodes (request : DispositionRequest.t) (s : t) : list DispositionLineageNode.t :=
  sort_by (fun x y => String.leb (DispositionLineageNode.node_id x) (DispositionLineageNode.node_id y))
    (List.filter (fun n => is_external (DispositionLineageNode.kind n))
       (DispositionRequest.evidence_ids request ≫= fun id => nodes (Some id) s)).

Definition count_states (states : list RecipientReconciliationState.t) (l : list ReconciliationAttempt.t) : Z :=
  Z.of_nat (length (List.filter (fun a => bool_decide (ReconciliationAttempt.state a ∈ states)) l)).

Definition report_json (time : datetime -> string) (r : ReconciliationReport.t) : list (string * json) :=
  [("request_id", JStr (ReconciliationReport.request_id r));
   ("generated_at", JStr (time (ReconciliationReport.generated_at r)));
   ("attempts", JList (dump_attempt <$> ReconciliationReport.attempts r));
   ("acknowledged", JInt (ReconciliationReport.acknowledged r));
   ("retry_scheduled", JInt (ReconciliationReport.retry_scheduled r));
   ("exhausted", JInt (ReconciliationReport.exhausted r));
   ("deadline_expired", JInt (ReconciliationReport.deadline_expired r));
   ("pending", JInt (ReconciliationReport.pending r));
   ("complete", JBool (ReconciliationReport.complete r))].

Definition reconciliation_report (request_id : UUID) (now : datetime) (attempts : list ReconciliationAttempt.t)
  : ReconciliationReport.t :=
  let acknowledged := count_states [RecipientReconciliationState.ACKNOWLEDGED;
                                    RecipientReconciliationState.ALREADY_ACKNOWLEDGED] attempts in
  let retry := count_states [RecipientReconciliationState.RETRY_SCHEDULED;
                             RecipientReconciliationState.NOT_DUE] attempts in
  let exhausted := count_states [RecipientReconciliationState.EXHAUSTED] attempts in
  let expired := count_states [RecipientReconciliationState.DEADLINE_EXPIRED] attempts in
  let pending := retry + exhausted + expired in
  let report := ReconciliationReport.mk request_id now attempts acknowledged retry exhausted expired pending
                  (pending =? 0) in
  report (digest (JDict (report_json isoformat (report "")))).

Definition reconcile_external_recipients (request_id : UUID)
    (sender : DispositionLineageNode.t -> res (bool * string)) (actor : string) (now : datetime)
    (max_attempts retry_delay_seconds : Z) : M t ReconciliationReport.t :=
  raise_if ((max_attempts <=? 0) || (retry_delay_seconds <=? 0))
    (ValueError "reconciliation attempt and retry limits must be positive") ;;;
  raise_if (blank actor) (ValueError "reconciliation actor is required") ;;;
  let! s := get in
  let! request := lift (request request_id s) in
  let! attempts := reconcile_nodes request (external_nodes request s) sender actor now max_attempts
                     retry_delay_seconds in
  let report := reconciliation_report request_id now attempts in
  authority request_id now
    (JDict [("external_recipient_reconciliation",
             JDict (report_json json_time report
                    ++ [("report_sha256", JStr (ReconciliationReport.report_sha256 report))]))]) ;;;
  ret report.

(** ** What is left of a closed request *)

(** The latest result of each node, by identifier of the node. *)
Definition latest_results (request_id : UUID) (s : t) : list DispositionNodeResult.t :=
  let rows := order_by (fun e => DispositionNodeResult.updated_at (result e)) event_id
                (select (fun e => bool_decide (event_request_id e = request_id)) (node_events s)) in
  sort_by (fun x y => String.leb (DispositionNodeResult.node_id x) (DispositionNodeResult.node_id y))
    (fold_left (fun d r => dict_set (DispositionNodeResult.node_id r) r d) (result <$> rows) []).*2.

Definition node_statuses : list DispositionNodeStatus.t :=
  [DispositionNodeStatus.ACTIVE; DispositionNodeStatus.RESTRICTED; DispositionNodeStatus.DELETED;
   DispositionNodeStatus.REVOKED; DispositionNodeStatus.RETAINED_EXCEPTION;
   DispositionNodeStatus.EXTERNAL_PENDING; DispositionNodeStatus.FAILED].

Definition count_results (statuses : list DispositionNodeStatus.t) (l : list DispositionNodeResult.t) : Z :=
  Z.of_nat (length (List.filter (fun r => bool_decide (DispositionNodeResult.status r ∈ statuses)) l)).

Definition minimal_tombstone (request_id : UUID) (s : t) : res json :=
  rbind (request request_id s) (fun r =>
    let results := latest_results request_id s in
    let payload :=
      [("schema", JStr "sentinel-edge-disposition-tombstone/1.0");
       ("request_id", JStr (DispositionRequest.request_id r));
       ("action", JStr (DispositionAction.value (DispositionRequest.action r)));
       ("subject_digest", JStr (DispositionRequest.subject_digest r));
       ("evidence_count", JInt (Z.of_nat (length (DispositionRequest.evidence_ids r))));
       ("terminal_outcome", opt_json JStr (DispositionRequest.terminal_outcome r));
       ("result_counts", JDict ((fun st => (DispositionNodeStatus.value st, JInt (count_results [st] results)))
                                  <$> node_statuses));
       ("content_retained", JBool false);
       ("exact_location_retained", JBool false);
       ("recipient_identities_retained", JBool false)] in
    Ok (JDict (payload ++ [("tombstone_sha256", JStr (digest (JDict payload)))]))).
End Operations.
End PrivacyDispositionService.
