(* ===== verification/Evidence.v ===== *)
(** The evidence and trust service (evidence/service.py): ingestion into
    families, the legal life of a piece of evidence, claims and what the
    evidence says about them.

    The state holds the incident store and, where they are configured, the
    artifact store and the disposition service, which other components share.
    Fresh identifiers and clock readings are arguments: [clock] is the reading
    while the link of an identifier is looked at. *)

From Stdlib Require Import ZArith.
From S2P Require Import Prelude Binary64 Enums Models Records CanonicalJson Artifacts Journal Disposition.
Open Scope Z_scope.

(** [_LEGAL_TRANSITIONS] *)
Definition LEGAL_TRANSITIONS (s : EvidenceContentState.t) : list EvidenceContentState.t :=
  match s with
  | EvidenceContentState.AVAILABLE =>
      [EvidenceContentState.REDACTED; EvidenceContentState.EXPIRED; EvidenceContentState.DELETED;
       EvidenceContentState.MISSING_EXTERNAL]
  | EvidenceContentState.METADATA_ONLY | EvidenceContentState.REDACTED =>
      [EvidenceContentState.EXPIRED; EvidenceContentState.DELETED; EvidenceContentState.MISSING_EXTERNAL]
  | EvidenceContentState.EXPIRED | EvidenceContentState.MISSING_EXTERNAL
  | EvidenceContentState.UNAVAILABLE_AT_CAPTURE => [EvidenceContentState.DELETED]
  | EvidenceContentState.DELETED => []
  end.

(** [_ACTION_FOR_STATE] *)
Definition ACTION_FOR_STATE (s : EvidenceContentState.t) : res EvidenceLifecycleAction.t :=
  match s with
  | EvidenceContentState.REDACTED => Ok EvidenceLifecycleAction.REDACT
  | EvidenceContentState.EXPIRED => Ok EvidenceLifecycleAction.EXPIRE
  | EvidenceContentState.DELETED => Ok EvidenceLifecycleAction.DELETE
  | EvidenceContentState.MISSING_EXTERNAL => Ok EvidenceLifecycleAction.MARK_EXTERNAL_MISSING
  | _ => Raise (KeyError (EvidenceContentState.value s))
  end.

Module EvidenceTrustService.
Import ContentAddressedArtifactStore(path_of, size_of, files, catalog, set_catalog, delete_digest, Deletion.existed,
  Deletion.deletion_proof_sha256).

Record t : Type := mk {
  store : IncidentJournalStore.t;
  artifacts : option ContentAddressedArtifactStore.t;
  disposition : option PrivacyDispositionService.t
}.
Definition set_store v (s : t) : t := mk v (artifacts s) (disposition s).
Definition set_artifacts v (s : t) : t := mk (store s) v (disposition s).
Definition set_disposition_service v (s : t) : t := mk (store s) (artifacts s) (Some v).

Definition on_store {A} (m : M IncidentJournalStore.t A) : M t A := zoom store set_store m.
(** A call on the artifact store [a] that is configured. *)
Definition on_artifacts {A} (a : ContentAddressedArtifactStore.t) (m : M ContentAddressedArtifactStore.t A) : M t A :=
  zoom (fun _ => a) (fun a => set_artifacts (Some a)) m.

Definition origin_of (item : EvidenceItem.t) : string := lower (strip (EvidenceItem.origin_key item)).

Definition family_seed (item : EvidenceItem.t) : string :=
  match EvidenceItem.parent_evidence_id item with
  | Some parent => "parent:" +:+ parent
  | None =>
      if truthy (EvidenceItem.perceptual_hash item)
      then "phash:" +:+ default "" (EvidenceItem.perceptual_hash item)
      else if negb (bool_decide (EvidenceItem.origin_key item = "")) then "origin:" +:+ origin_of item
      else "sha256:" +:+ EvidenceItem.content_sha256 item
  end.

(** [_item] *)
Definition item_of (evidence_id : UUID) (s : t) : res EvidenceItem.t :=
  match List.find (fun i => bool_decide (EvidenceItem.evidence_id i = evidence_id))
          (IncidentJournalStore.evidence None (store s)) with
  | Some item => Ok item
  | None => Raise (KeyError evidence_id)
  end.

(** The incident a record must exist for, with the same hazard. *)
Definition incident_matches (incident_id : UUID) (hazard : HazardKind.t) (s : t) : bool :=
  match List.find (fun r => bool_decide (IncidentRecord.incident_id r = incident_id))
          (IncidentJournalStore.latest_by_hazard (store s)) with
  | Some r => bool_decide (IncidentRecord.hazard r = hazard)
  | None => false
  end.

(** Two pieces of evidence of one family. *)
Definition related (item prior : EvidenceItem.t) : bool :=
  bool_decide (EvidenceItem.content_sha256 prior = EvidenceItem.content_sha256 item)
  || truthy (EvidenceItem.perceptual_hash prior) && truthy (EvidenceItem.perceptual_hash item)
     && bool_decide (EvidenceItem.perceptual_hash prior = EvidenceItem.perceptual_hash item)
  || bool_decide (origin_of prior = origin_of item)
  || bool_decide (EvidenceItem.parent_evidence_id item = Some (EvidenceItem.evidence_id prior))
  || bool_decide (EvidenceItem.parent_evidence_id prior = Some (EvidenceItem.evidence_id item)).

Definition lifecycle (evidence_id : UUID) (now : datetime) (s : t) : res EvidenceLifecycleProjection.t :=
  IncidentJournalStore.evidence_lifecycle_projection evidence_id now (store s).
Definition lifecycle_events (incident_id : UUID) (s : t) : list EvidenceLifecycleEvent.t :=
  IncidentJournalStore.evidence_lifecycle_events None (Some incident_id) (store s).

(** What links say now: those with eligible evidence that support or
    contradict, and those whose evidence is not eligible. *)
Record link_counts : Type := mkCounts {
  active_supports : Z;
  active_contradictions : Z;
  invalidated : Z
}.
Definition count_link (l : ClaimEvidenceLink.t) (eligible : bool) (c : link_counts) : link_counts :=
  if negb eligible then mkCounts (active_supports c) (active_contradictions c) (invalidated c + 1)
  else
    match ClaimEvidenceLink.relation l with
    | ClaimEvidenceRelation.SUPPORTS =>
        mkCounts (active_supports c + 1) (active_contradictions c) (invalidated c)
    | ClaimEvidenceRelation.CONTRADICTS =>
        mkCounts (active_supports c) (active_contradictions c + 1) (invalidated c)
    | _ => c
    end.
Fixpoint count_links (links : list ClaimEvidenceLink.t) (clock : UUID -> datetime) (s : t) (c : link_counts)
  : res link_counts :=
  match links with
  | [] => Ok c
  | l :: links =>
      rbind (lifecycle (ClaimEvidenceLink.evidence_id l) (clock (ClaimEvidenceLink.link_id l)) s) (fun projection =>
        count_links links clock s (count_link l (EvidenceLifecycleProjection.claim_eligible projection) c))
  end.
Definition claim_reconciliation (incident_id : UUID) (clock : UUID -> datetime) (s : t) : res link_counts :=
  count_links (IncidentJournalStore.claim_links (Some incident_id) (store s)) clock s (mkCounts 0 0 0).

(** [sum(max(0, count - 1) for count in counts.values())] *)
Definition duplicates (counts : gmap string Z) : Z :=
  map_fold (fun _ count total => Z.max 0 (count - 1) + total) 0 counts.

Definition family_members (family_id : string) (items : list EvidenceItem.t) : list EvidenceItem.t :=
  List.filter (fun i => bool_decide (EvidenceItem.family_id i = Some family_id)) items.

Definition family_summary (incident_id : UUID) (items : list EvidenceItem.t) (family_id : string)
  : res EvidenceFamilySummary.t :=
  let members := family_members family_id items in
  let independent_origins := Z.of_nat (length (List.filter EvidenceItem.independent_origin_proven members)) in
  EvidenceFamilySummary.validate
    (EvidenceFamilySummary.mk family_id incident_id (EvidenceItem.evidence_id <$> members)
       (sorted_set (EvidenceItem.origin_key <$> members)) (1 + independent_origins)
       (duplicates (counter (EvidenceItem.content_sha256 <$> members)))
       (duplicates (counter (List.filter (fun h => negb (bool_decide (h = "")))
                               (omap EvidenceItem.perceptual_hash members))))
       independent_origins).

Definition families (incident_id : UUID) (s : t) : res (list EvidenceFamilySummary.t) :=
  let items := IncidentJournalStore.evidence (Some incident_id) (store s) in
  check (existsb (fun i => bool_decide (EvidenceItem.family_id i = None)) items) AssertionError >>!
  rmap (family_summary incident_id items) (sorted_set (omap EvidenceItem.family_id items)).

(** The reasons of a snapshot before the band is chosen. *)
Definition snapshot_reasons (items : list EvidenceItem.t) (c : link_counts) : list string :=
  (if active_contradictions c =? 0 then [] else ["unresolved_contradictions_present"])
  ++ (if invalidated c =? 0 then [] else ["evidence_links_invalidated_by_lifecycle"])
  ++ (if existsb (fun i => bool_decide (EvidenceItem.media_integrity i = MediaIntegrityState.MANIPULATION_SUSPECT)) items
      then ["manipulation_suspect_evidence_present"] else [])
  ++ (if existsb (fun i => bool_decide (EvidenceItem.extraction_confidence_state i
                                        ∈ [ExtractionConfidenceState.UNKNOWN; ExtractionConfidenceState.LOW])) items
      then ["extraction_uncertainty_present"] else [])
  ++ (if existsb (fun i => bool_decide (EvidenceItem.source_standing i = SourceStanding.UNKNOWN)) items
      then ["unknown_source_standing_present"] else []).

Definition summary_band (items : list EvidenceItem.t) (links : nat) (independence_units : Z) (c : link_counts)
  : string :=
  if bool_decide (items = []) then "no_evidence"
  else if negb (active_contradictions c =? 0) then "contested"
  else if (2 <=? independence_units) && (2 <=? active_supports c) then "corroborated"
  else if negb (active_supports c =? 0) then "supported_single_family"
  else if negb (invalidated c =? 0) && negb (links =? 0)%nat then "historical_evidence_not_currently_eligible"
  else "unlinked_evidence".

Definition trust_snapshot (incident_id : UUID) (clock : UUID -> datetime) (s : t) : res TrustDimensionSnapshot.t :=
  let items := IncidentJournalStore.evidence (Some incident_id) (store s) in
  let links := IncidentJournalStore.claim_links (Some incident_id) (store s) in
  let claims := IncidentJournalStore.claims (Some incident_id) (store s) in
  rbind (families incident_id s) (fun families =>
  rbind (count_links links clock s (mkCounts 0 0 0)) (fun c =>
    let independence_units := foldr Z.add 0 (EvidenceFamilySummary.independence_units <$> families) in
    TrustDimensionSnapshot.validate
      {| TrustDimensionSnapshot.incident_id := incident_id;
         TrustDimensionSnapshot.source_standing_counts :=
           counter ((fun i => SourceStanding.value (EvidenceItem.source_standing i)) <$> items);
         TrustDimensionSnapshot.media_integrity_counts :=
           counter ((fun i => MediaIntegrityState.value (EvidenceItem.media_integrity i)) <$> items);
         TrustDimensionSnapshot.extraction_confidence_counts :=
           counter ((fun i => ExtractionConfidenceState.value (EvidenceItem.extraction_confidence_state i)) <$> items);
         TrustDimensionSnapshot.freshness_counts :=
           counter ((fun i => HealthState.value (EvidenceItem.freshness_state i)) <$> items);
         TrustDimensionSnapshot.evidence_families := Z.of_nat (length families);
         TrustDimensionSnapshot.independence_units := independence_units;
         TrustDimensionSnapshot.supporting_links := active_supports c;
         TrustDimensionSnapshot.contradictory_links := active_contradictions c;
         TrustDimensionSnapshot.invalidated_links := invalidated c;
         TrustDimensionSnapshot.unresolved_claims :=
           Z.of_nat (length (List.filter (fun c => bool_decide (ClaimNode.status c = "open")) claims));
         TrustDimensionSnapshot.formula_version := "sentinel-trust-factors-v1";
         TrustDimensionSnapshot.summary_band := summary_band items (length links) independence_units c;
         TrustDimensionSnapshot.reason_codes :=
           sorted_strings (snapshot_reasons items c ++ (if bool_decide (items = []) then ["no_evidence"] else [])) |})).

Section Operations.
Context (float_repr : f64 -> string) (isoformat json_time : datetime -> string).
Context (sha256 : string -> string) (uuid5 : string -> UUID) (store_sha256 : payload -> string).

(** [lifecycle_event_id] is the fresh identifier of the initial lifecycle
    event, [now] the clock. *)
Definition ingest (item : EvidenceItem.t) (lifecycle_event_id : UUID) (now : datetime) : M t EvidenceItem.t :=
  let! s := get in
  raise_if (match disposition s, EvidenceItem.subject_ref item with
            | Some d, Some subject_ref =>
                negb (ProcessingDecision.allowed
                  (PrivacyDispositionService.processing_allowed sha256 subject_ref
                     (EvidenceItem.processing_basis item) d))
            | _, _ => false
            end) (ValueError "future processing blocked by consent withdrawal") ;;;
  raise_if (negb (incident_matches (EvidenceItem.incident_id item) (EvidenceItem.hazard item) s))
    (ValueError "evidence must target an existing incident with the same hazard") ;;;
  let existing := IncidentJournalStore.evidence (Some (EvidenceItem.incident_id item)) (store s) in
  let family_id :=
    match List.find (related item) existing ≫= EvidenceItem.family_id with
    | Some family_id => family_id
    | None => uuid5 ("sentinel-evidence-family:" +:+ EvidenceItem.incident_id item +:+ ":" +:+ family_seed item)
    end in
  let assigned := EvidenceItem.set_family_id (Some family_id) item in
  match artifacts s with
  | None => ret tt
  | Some a =>
      match files a !! path_of (EvidenceItem.content_sha256 assigned) with
      | None => ret tt
      | Some data =>
          let! scope := lift (ArtifactScope.validate
            (ArtifactScope.mk (Some (EvidenceItem.source_id assigned)) (Some (EvidenceItem.incident_id assigned))
               None None)) in
          let! _ := on_artifacts a (zoom catalog set_catalog
            (ArtifactCatalog.register float_repr sha256 uuid5 json_time (EvidenceItem.content_sha256 assigned)
               (path_of (EvidenceItem.content_sha256 assigned)) (size_of data) "application/octet-stream"
               (ArtifactPolicy.incident_evidence true) scope true now)) in
          ret tt
      end
  end ;;;
  on_store (IncidentJournalStore.record_evidence store_sha256 assigned lifecycle_event_id).

(** The proof of a deletion and its reason code. *)
Definition delete_content (item : EvidenceItem.t) (actor : string) (now : datetime) : M t (string * string) :=
  let! s := get in
  match artifacts s with
  | None =>
      ret (sha256 (canonical_json_bytes float_repr
             (JDict [("profile", JStr "sentinel-evidence-delete-v1");
                     ("artifact_sha256", JStr (EvidenceItem.content_sha256 item));
                     ("artifact_store", JStr "not_configured")])),
           "artifact_store_not_configured_metadata_deletion_only")
  | Some a =>
      let! result := on_artifacts a (delete_digest float_repr sha256 uuid5 isoformat
                       (EvidenceItem.content_sha256 item) actor true false now) in
      ret (Deletion.deletion_proof_sha256 result,
           if Deletion.existed result then "artifact_removed" else "artifact_not_present")
  end.

(** The clock of the calls made by one transition. *)
Record clocks : Type := mkClocks {
  deleted_at : datetime;
  projected_at : datetime;
  link_read_at : UUID -> datetime
}.

Definition transition (evidence_id : UUID) (to_state : EvidenceContentState.t) (expected_version : Z)
    (actor reason : string) (now : datetime) (redaction_profile_id : option string)
    (event_id reevaluation_id : UUID) (clock : clocks) : M t EvidenceLifecycleProjection.t :=
  let! s := get in
  let! item := lift (item_of evidence_id s) in
  let! current := lift (lifecycle evidence_id (projected_at clock) s) in
  let from := EvidenceLifecycleProjection.state current in
  raise_if (negb (EvidenceLifecycleProjection.version current =? expected_version))
    (ValueError "evidence lifecycle stale version") ;;;
  raise_if (negb (bool_decide (to_state ∈ LEGAL_TRANSITIONS from)))
    (ValueError ("illegal evidence lifecycle transition: " +:+ EvidenceContentState.value from +:+ "->"
                 +:+ EvidenceContentState.value to_state)) ;;;
  raise_if (bool_decide (to_state = EvidenceContentState.EXPIRED)
            && match EvidenceItem.rights_expires_at item with None => true | Some e => now <? e end)
    (ValueError "evidence rights have not expired") ;;;
  let! '(deletion_proof, reason_codes) :=
    if bool_decide (to_state = EvidenceContentState.DELETED) then
      let! '(proof, code) := delete_content item actor (deleted_at clock) in
      ret (Some proof, [code])
    else ret (None, []) in
  let! action := lift (ACTION_FOR_STATE to_state) in
  let! event := lift (EvidenceLifecycleEvent.validate
    {| EvidenceLifecycleEvent.lifecycle_event_id := event_id;
       EvidenceLifecycleEvent.evidence_id := evidence_id;
       EvidenceLifecycleEvent.incident_id := EvidenceItem.incident_id item;
       EvidenceLifecycleEvent.action := action;
       EvidenceLifecycleEvent.from_state := Some from;
       EvidenceLifecycleEvent.to_state := to_state;
       EvidenceLifecycleEvent.expected_version := EvidenceLifecycleProjection.version current;
       EvidenceLifecycleEvent.resulting_version := EvidenceLifecycleProjection.version current + 1;
       EvidenceLifecycleEvent.actor := actor;
       EvidenceLifecycleEvent.reason := reason;
       EvidenceLifecycleEvent.created_at := now;
       EvidenceLifecycleEvent.deletion_proof_sha256 := deletion_proof;
       EvidenceLifecycleEvent.redaction_profile_id := redaction_profile_id;
       EvidenceLifecycleEvent.reason_codes := reason_codes |}) in
  let! _ := on_store (IncidentJournalStore.record_evidence_lifecycle store_sha256 event) in
  let! s := get in
  let! projection := lift (lifecycle evidence_id (projected_at clock) s) in
  (if bool_decide (to_state ∈ [EvidenceContentState.EXPIRED; EvidenceContentState.DELETED;
                               EvidenceContentState.MISSING_EXTERNAL]) then
     let! c := lift (claim_reconciliation (EvidenceItem.incident_id item) (link_read_at clock) s) in
     let! _ := on_store (IncidentJournalStore.record_evidence_reevaluation store_sha256
       {| EvidenceReevaluationRecord.reevaluation_id := reevaluation_id;
          EvidenceReevaluationRecord.incident_id := EvidenceItem.incident_id item;
          EvidenceReevaluationRecord.evidence_id := evidence_id;
          EvidenceReevaluationRecord.trigger_action := action;
          EvidenceReevaluationRecord.status := "completed";
          EvidenceReevaluationRecord.decision := "claim_links_reconciled_without_incident_state_mutation";
          EvidenceReevaluationRecord.created_at := now;
          EvidenceReevaluationRecord.active_supporting_links := active_supports c;
          EvidenceReevaluationRecord.active_contradictory_links := active_contradictions c;
          EvidenceReevaluationRecord.invalidated_links := invalidated c;
          EvidenceReevaluationRecord.incident_state_mutated := false;
          EvidenceReevaluationRecord.reason_codes := ["component_4_review_required_for_hazard_state_change"] |}) in
     ret tt
   else ret tt) ;;;
  ret projection.

(** The loop over the evidence whose rights have expired by [now]; [fresh]
    and [clock] give the identifiers and readings of each transition. *)
Fixpoint expire_items (items : list EvidenceItem.t) (now : datetime) (actor : string)
    (fresh : UUID -> UUID * UUID) (clock : UUID -> clocks) : M t (list EvidenceLifecycleProjection.t) :=
  match items with
  | [] => ret []
  | item :: items =>
      let id := EvidenceItem.evidence_id item in
      if match EvidenceItem.rights_expires_at item with None => true | Some e => now <? e end
      then expire_items items now actor fresh clock
      else
        let! s := get in
        let! current := lift (lifecycle id (projected_at (clock id)) s) in
        if bool_decide (EvidenceLifecycleProjection.state current
                        ∈ [EvidenceContentState.AVAILABLE; EvidenceContentState.METADATA_ONLY;
                           EvidenceContentState.REDACTED]) then
          let! projection := transition id EvidenceContentState.EXPIRED
                               (EvidenceLifecycleProjection.version current) actor "rights_expiry_reached" now None
                               (fresh id).1 (fresh id).2 (clock id) in
          let! rest := expire_items items now actor fresh clock in
          ret (projection :: rest)
        else expire_items items now actor fresh clock
  end.

Definition enforce_rights_expiry (now : datetime) (actor : string) (fresh : UUID -> UUID * UUID)
    (clock : UUID -> clocks) : M t (list EvidenceLifecycleProjection.t) :=
  let! s := get in
  expire_items (IncidentJournalStore.evidence None (store s)) now actor fresh clock.

Definition create_claim (claim : ClaimNode.t) : M t ClaimNode.t :=
  let! s := get in
  raise_if (negb (incident_matches (ClaimNode.incident_id claim) (ClaimNode.hazard claim) s))
    (ValueError "claim must target an existing incident with the same hazard") ;;;
  on_store (IncidentJournalStore.record_claim store_sha256 claim).

Definition link (l : ClaimEvidenceLink.t) : M t ClaimEvidenceLink.t :=
  on_store (IncidentJournalStore.record_claim_link store_sha256 l).
End Operations.
End EvidenceTrustService.
