(* ===== verification/DispositionClosure.v ===== *)
(** Closing a disposition request ([PrivacyDispositionService.close] in
    privacy/disposition.py) on the node the scenario engine wires together: one
    incident store, one artifact store, the evidence service on both, and the
    disposition service, whose authority recorder is the incident store.

    Fresh identifiers and clock readings are arguments: [deleted_at] is the
    reading while the artifact of a node is deleted, [fresh] and [clock] belong
    to the transition of a piece of evidence. *)

From Stdlib Require Import ZArith.
From S2P Require Import Prelude Binary64 Enums Models Records CanonicalJson Artifacts Journal Disposition Evidence.
Open Scope Z_scope.

Module DispositionReport.
Record t : Type := mk {
  request_id : UUID;
  status : DispositionRequestStatus.t;
  completed : Z;
  retained_by_exception : Z;
  external_recipient_pending : Z;
  failed : Z;
  restricted : Z;
  node_results : list DispositionNodeResult.t;
  subject_digest : string;
  deadline : datetime;
  terminal_outcome : option string;
  generated_at : datetime;
  report_sha256 : string
}.
End DispositionReport.

Module DispositionClosure.
Import PrivacyDispositionService(find_request, find_node, nodes, external_ack, update_request, record_node_result,
  authority, digest, count_results, set_restrictions, restrictions, set_authority_recorder, authority_recorder).

(** The node. *)
Record t : Type := mk {
  store : IncidentJournalStore.t;
  artifacts : ContentAddressedArtifactStore.t;
  disposition : PrivacyDispositionService.t
}.

Definition as_disposition (n : t) : PrivacyDispositionService.t :=
  set_authority_recorder (Some (store n)) (disposition n).
Definition put_disposition (d : PrivacyDispositionService.t) (n : t) : t :=
  mk (default (store n) (authority_recorder d)) (artifacts n) (set_authority_recorder None d).
Definition as_evidence (n : t) : EvidenceTrustService.t :=
  EvidenceTrustService.mk (store n) (Some (artifacts n)) (Some (disposition n)).
Definition put_evidence (e : EvidenceTrustService.t) (n : t) : t :=
  mk (EvidenceTrustService.store e) (default (artifacts n) (EvidenceTrustService.artifacts e)) (disposition n).
Definition put_artifacts (a : ContentAddressedArtifactStore.t) (n : t) : t := mk (store n) a (disposition n).

Definition on_disposition {A} (m : M PrivacyDispositionService.t A) : M t A := zoom as_disposition put_disposition m.
Definition on_evidence {A} (m : M EvidenceTrustService.t A) : M t A := zoom as_evidence put_evidence m.
Definition on_artifacts {A} (m : M ContentAddressedArtifactStore.t A) : M t A := zoom artifacts put_artifacts m.

Fixpoint string_drop (n : nat) (s : string) : string :=
  match n, s with
  | S n, String _ s => string_drop n s
  | _, _ => s
  end.
(** [s.split(":", 1)[1]] of a text that starts with [prefix], its only colon
    at the end. *)
Definition after (prefix s : string) : string := string_drop (String.length prefix) s.

(** [str(exc)] of a [PermissionError]. *)
Definition permission_message (e : exn) : option string :=
  match e with PermissionError msg => Some msg | _ => None end.

(** An exception of [explicit_retained_exception] that still holds. *)
Definition retained (node : DispositionLineageNode.t) (now : datetime) : bool :=
  truthy (DispositionLineageNode.exception_reason node)
  && match DispositionLineageNode.exception_expires_at node with None => true | Some e => now <? e end.

Section Operations.
Context (float_repr : f64 -> string) (isoformat json_time : datetime -> string).
Context (sha256 : string -> string) (uuid5 : string -> UUID) (store_sha256 : payload -> string).

(** The outcome of a node: status, reason, receipt. *)
Definition outcome : Type := DispositionNodeStatus.t * string * option string.

Definition delete_artifact (target_ref actor : string) (deleted_at : datetime) : M t outcome :=
  fun n =>
    match on_artifacts (ContentAddressedArtifactStore.delete_digest float_repr sha256 uuid5 isoformat
            (after "artifact-sha256:" target_ref) actor true false deleted_at) n with
    | (Ok receipt, n) =>
        (Ok (DispositionNodeStatus.DELETED, "local_artifact_deleted",
             Some (ContentAddressedArtifactStore.Deletion.deletion_proof_sha256 receipt)), n)
    | (Raise (PermissionError msg), n) =>
        (Ok (DispositionNodeStatus.RETAINED_EXCEPTION, "artifact_retained:" +:+ msg, None), n)
    | (Raise exc, n) =>
        (Ok (DispositionNodeStatus.FAILED, "artifact_deletion_failed:" +:+ exn_name exc, None), n)
    end.

Definition dispose (request : DispositionRequest.t) (node : DispositionLineageNode.t) (now deleted_at : datetime)
  : M t outcome :=
  let kind := DispositionLineageNode.kind node in
  let target_ref := DispositionLineageNode.target_ref node in
  if retained node now
  then ret (DispositionNodeStatus.RETAINED_EXCEPTION, "explicit_retained_exception", None)
  else if is_external kind then
    let! n := get in
    let receipt := external_ack (DispositionLineageNode.node_id node) (disposition n) in
    if truthy receipt then ret (DispositionNodeStatus.DELETED, "external_deletion_acknowledged", receipt)
    else ret (DispositionNodeStatus.EXTERNAL_PENDING, "external_recipient_pending", receipt)
  else if bool_decide (kind ∈ [DispositionNodeKind.GRANT; DispositionNodeKind.LEASE]) then
    if startswith target_ref "artifact-reference:" then
      on_artifacts (zoom ContentAddressedArtifactStore.catalog ContentAddressedArtifactStore.set_catalog
        (ArtifactCatalog.remove_reference (after "artifact-reference:" target_ref))) ;;;
      ret (DispositionNodeStatus.REVOKED, "artifact_reference_revoked", None)
    else ret (DispositionNodeStatus.REVOKED, "logical_grant_revoked", None)
  else if startswith target_ref "artifact-sha256:"
  then delete_artifact target_ref (DispositionRequest.actor request) deleted_at
  else ret (DispositionNodeStatus.DELETED, "logical_descendant_removed", None).

Fixpoint close_nodes (request : DispositionRequest.t) (nodes : list DispositionLineageNode.t) (now : datetime)
    (deleted_at : UUID -> datetime) : M t (list DispositionNodeResult.t) :=
  match nodes with
  | [] => ret []
  | node :: nodes =>
      let! '(status, reason, receipt) :=
        dispose request node now (deleted_at (DispositionLineageNode.node_id node)) in
      let! result := on_disposition (record_node_result uuid5 (DispositionRequest.request_id request)
        (DispositionNodeResult.mk (DispositionLineageNode.node_id node) (DispositionLineageNode.evidence_id node)
           (DispositionLineageNode.kind node) status (sha256 (DispositionLineageNode.target_ref node)) [reason] now
           receipt)) in
      let! results := close_nodes request nodes now deleted_at in
      ret (result :: results)
  end.

(** The lifecycle of the evidence itself, for an erasure; the result of a failure. *)
Definition erase_evidence (request : DispositionRequest.t) (evidence_id : UUID) (now : datetime)
    (fresh : UUID * UUID) (clock : EvidenceTrustService.clocks) : M t (list DispositionNodeResult.t) :=
  fun n =>
    match on_evidence
            (let! s := get in
             let! projection := lift (EvidenceTrustService.lifecycle evidence_id
                                        (EvidenceTrustService.projected_at clock) s) in
             if bool_decide (EvidenceLifecycleProjection.state projection = EvidenceContentState.DELETED) then ret tt
             else
               let! _ := EvidenceTrustService.transition float_repr isoformat sha256 uuid5 store_sha256 evidence_id
                           EvidenceContentState.DELETED (EvidenceLifecycleProjection.version projection)
                           (DispositionRequest.actor request) (DispositionRequest.reason request) now None
                           fresh.1 fresh.2 clock in
               ret tt) n with
    | (Ok tt, n) => (Ok [], n)
    | (Raise exc, n) =>
        (let! result := on_disposition (record_node_result uuid5 (DispositionRequest.request_id request)
           (DispositionNodeResult.mk
              (uuid5 ("sentinel-disposition-evidence-failure:" +:+ DispositionRequest.request_id request +:+ ":"
                      +:+ evidence_id))
              evidence_id DispositionNodeKind.ORIGINAL DispositionNodeStatus.FAILED
              (sha256 ("evidence:" +:+ evidence_id)) ["evidence_lifecycle_delete_failed:" +:+ exn_name exc] now None)) in
         ret [result]) n
    end.

Fixpoint close_evidence (request : DispositionRequest.t) (evidence_ids : list UUID) (now : datetime)
    (deleted_at : UUID -> datetime) (fresh : UUID -> UUID * UUID) (clock : UUID -> EvidenceTrustService.clocks)
  : M t (list DispositionNodeResult.t) :=
  match evidence_ids with
  | [] => ret []
  | id :: evidence_ids =>
      let! n := get in
      let! results := close_nodes request (nodes (Some id) (disposition n)) now deleted_at in
      let! failures :=
        if bool_decide (DispositionRequest.action request = DispositionAction.ERASE)
        then erase_evidence request id now (fresh id) (clock id) else ret [] in
      let! rest := close_evidence request evidence_ids now deleted_at fresh clock in
      ret (results ++ failures ++ rest)
  end.

Definition dump_result (r : DispositionNodeResult.t) : json :=
  JDict [("node_id", JStr (DispositionNodeResult.node_id r));
         ("evidence_id", JStr (DispositionNodeResult.evidence_id r));
         ("kind", JStr (DispositionNodeKind.value (DispositionNodeResult.kind r)));
         ("status", JStr (DispositionNodeStatus.value (DispositionNodeResult.status r)));
         ("target_digest", JStr (DispositionNodeResult.target_digest r));
         ("reason_codes", JList (JStr <$> DispositionNodeResult.reason_codes r));
         ("updated_at", JStr (json_time (DispositionNodeResult.updated_at r)));
         ("receipt_sha256", opt_json JStr (DispositionNodeResult.receipt_sha256 r))].

Definition report_json (time : datetime -> string) (r : DispositionReport.t) : list (string * json) :=
  [("request_id", JStr (DispositionReport.request_id r));
   ("status", JStr (DispositionRequestStatus.value (DispositionReport.status r)));
   ("completed", JInt (DispositionReport.completed r));
   ("retained_by_exception", JInt (DispositionReport.retained_by_exception r));
   ("external_recipient_pending", JInt (DispositionReport.external_recipient_pending r));
   ("failed", JInt (DispositionReport.failed r));
   ("restricted", JInt (DispositionReport.restricted r));
   ("node_results", JList (dump_result <$> DispositionReport.node_results r));
   ("subject_digest", JStr (DispositionReport.subject_digest r));
   ("deadline", JStr (time (DispositionReport.deadline r)));
   ("terminal_outcome", opt_json JStr (DispositionReport.terminal_outcome r));
   ("generated_at", JStr (time (DispositionReport.generated_at r)))].

(** The status and the terminal outcome the results amount to. *)
Definition conclusion (results : list DispositionNodeResult.t) : DispositionRequestStatus.t * string :=
  if negb (count_results [DispositionNodeStatus.FAILED] results =? 0)
  then (DispositionRequestStatus.FAILED, "closure_failed")
  else if negb (count_results [DispositionNodeStatus.EXTERNAL_PENDING] results =? 0)
  then (DispositionRequestStatus.EXTERNAL_RECIPIENT_PENDING, "external_recipients_unresolved")
  else if negb (count_results [DispositionNodeStatus.RETAINED_EXCEPTION] results =? 0)
  then (DispositionRequestStatus.RETAINED_EXCEPTION, "retained_by_explicit_exception")
  else (DispositionRequestStatus.COMPLETED, "closure_complete").

Definition report_of (request : DispositionRequest.t) (results : list DispositionNodeResult.t) (now : datetime)
  : DispositionReport.t :=
  let '(status, terminal) := conclusion results in
  let report := DispositionReport.mk (DispositionRequest.request_id request) status
    (count_results [DispositionNodeStatus.DELETED; DispositionNodeStatus.REVOKED] results)
    (count_results [DispositionNodeStatus.RETAINED_EXCEPTION] results)
    (count_results [DispositionNodeStatus.EXTERNAL_PENDING] results)
    (count_results [DispositionNodeStatus.FAILED] results)
    (count_results [DispositionNodeStatus.RESTRICTED] results)
    results (DispositionRequest.subject_digest request) (DispositionRequest.deadline request) (Some terminal) now in
  report (digest float_repr sha256 (JDict (report_json isoformat (report "")))).

(** [DELETE FROM disposition_restrictions] for the evidence of a request. *)
Definition lift_restrictions (evidence_ids : list UUID) : M PrivacyDispositionService.t unit :=
  modify (fun d => set_restrictions (foldl (fun m id => delete id m) (restrictions d) evidence_ids) d).

Definition close (request_id : UUID) (now : datetime) (deleted_at : UUID -> datetime)
    (fresh : UUID -> UUID * UUID) (clock : UUID -> EvidenceTrustService.clocks) : M t DispositionReport.t :=
  let! n := get in
  let! request := lift (PrivacyDispositionService.request request_id (disposition n)) in
  on_disposition (transaction (update_request
    (DispositionRequest.set_outcome DispositionRequestStatus.IN_PROGRESS
       (DispositionRequest.terminal_outcome request) request))) ;;;
  let! results := close_evidence request (DispositionRequest.evidence_ids request) now deleted_at fresh clock in
  let report := report_of request results now in
  (if bool_decide (DispositionReport.status report = DispositionRequestStatus.COMPLETED)
   then on_disposition (transaction (lift_restrictions (DispositionRequest.evidence_ids request)))
   else ret tt) ;;;
  on_disposition (transaction
    (update_request (DispositionRequest.set_outcome (DispositionReport.status report)
                       (DispositionReport.terminal_outcome report) request) ;;;
     authority store_sha256 request_id now
       (JDict (report_json json_time report
               ++ [("report_sha256", JStr (DispositionReport.report_sha256 report))])))) ;;;
  ret report.
End Operations.
End DispositionClosure.
