(* ===== verification/DispositionTheorems.v ===== *)
(** What the disposition service promises: a withdrawn consent blocks further
    processing, and external recipients are contacted a bounded number of times
    on a fixed schedule. *)

From Stdlib Require Import ZArith Lia ZifyBool.
From S2P Require Import Prelude Ordering Binary64 Enums Models Records CanonicalJson Journal JournalTheorems ArtifactTheorems Disposition.
Import PrivacyDispositionService.
Open Scope Z_scope.

Section Disposition.
Context (float_repr : f64 -> string) (isoformat json_time : datetime -> string).
Context (sha256 : string -> string) (uuid5 : string -> UUID) (store_sha256 : payload -> string).
Notation subject_digest := (subject_digest sha256).
Notation authority := (authority store_sha256).
Notation register_node := (register_node float_repr sha256 uuid5).
Notation create_request := (create_request float_repr isoformat json_time sha256 uuid5 store_sha256).
Notation document_alternate_basis := (document_alternate_basis sha256 store_sha256).
Notation record_node_result := (record_node_result uuid5).
Notation acknowledge_external_recipient := (acknowledge_external_recipient float_repr isoformat sha256 uuid5 store_sha256).
Notation attempt_of := (attempt_of float_repr isoformat sha256 uuid5).
Notation record_attempt := (record_attempt json_time store_sha256).
Notation contact := (contact float_repr isoformat json_time sha256 uuid5 store_sha256).
Notation reconcile_node := (reconcile_node float_repr isoformat json_time sha256 uuid5 store_sha256).
Notation reconcile_nodes := (reconcile_nodes float_repr isoformat json_time sha256 uuid5 store_sha256).
Notation reconcile_external_recipients :=
  (reconcile_external_recipients float_repr isoformat json_time sha256 uuid5 store_sha256).

(** ** Executions *)

(** Every way the tables of the service change: its methods, the three updates
    a closure makes, and the incident store changing behind the recorder. *)
Inductive op : Type :=
  | RegisterNode (evidence_id : UUID) (kind : DispositionNodeKind.t) (target_ref : string)
      (parent external_recipient exception_reason : option string) (expires : option datetime) (at_ : datetime)
  | CreateRequest (action : DispositionAction.t) (evidence_ids : list UUID)
      (subject_ref subject_basis actor reason : string) (deadline : datetime) (legal_reason : option string)
      (legal_expires : option datetime) (at_ : datetime)
  | DocumentBasis (subject_ref basis actor reason : string) (at_ : datetime)
  | Acknowledge (node_id : UUID) (actor receipt : string) (at_ : datetime)
  | Reconcile (request_id : UUID) (sender : DispositionLineageNode.t -> res (bool * string)) (actor : string)
      (at_ : datetime) (max_attempts retry_delay_seconds : Z)
  | RecordResult (request_id : UUID) (r : DispositionNodeResult.t)
  | SetOutcome (request_id : UUID) (status : DispositionRequestStatus.t) (terminal : option string)
  | LiftRestrictions (restrictions : gmap UUID restriction)
  | Recorder (recorder : option IncidentJournalStore.t).

(** The updates of a request a closure makes: only its outcome changes. *)
Definition set_outcome (id : UUID) (status : DispositionRequestStatus.t) (terminal : option string) : M t unit :=
  modify (fun s => set_disposition_requests
    ((fun q => if decide (DispositionRequest.request_id q = id)
               then DispositionRequest.set_outcome status terminal q else q) <$> disposition_requests s) s).

Definition exec (o : op) : M t unit :=
  match o with
  | RegisterNode id kind target parent recipient reason expires at_ =>
      void (register_node id kind target parent recipient reason expires at_)
  | CreateRequest action ids subject basis actor reason deadline legal expires at_ =>
      void (create_request action ids subject basis actor reason deadline legal expires at_)
  | DocumentBasis subject basis actor reason at_ => document_alternate_basis subject basis actor reason at_
  | Acknowledge id actor receipt at_ => void (acknowledge_external_recipient id actor receipt at_)
  | Reconcile id sender actor at_ max delay =>
      void (reconcile_external_recipients id sender actor at_ max delay)
  | RecordResult id r => void (record_node_result id r)
  | SetOutcome id status terminal => set_outcome id status terminal
  | LiftRestrictions m => modify (set_restrictions m)
  | Recorder v => modify (set_authority_recorder v)
  end.
Definition run (ops : list op) (s : t) : t := foldl (fun s o => (exec o s).2) s ops.

Lemma authority_run id at_ p s r s' :
  authority id at_ p s = (r, s') -> exists v, s' = set_authority_recorder v s.
Proof.
  unfold PrivacyDispositionService.authority, bind, get, ret, put, lift.
  destruct (authority_recorder s) as [store|] eqn:E.
  - destruct (IncidentJournalStore.record_authority_mutation _ _ _ _ _ _) as [[]?].
    all: intros [= _ <-]; by eexists.
  - intros [= _ <-]. exists (authority_recorder s). by destruct s.
Qed.

(** What holds of the tables whatever the recorder has written. *)
Class Recorderless (R : relation t) : Prop :=
  recorderless s v : R s (set_authority_recorder v s).

#[local] Instance authority_steps R `{!Recorderless R} id at_ p : Steps R (authority id at_ p).
Proof. intros s r s' [v ->]%authority_run. apply recorderless. Qed.

(** A method that only changes one table. *)
Section Frame.
Context (R : relation t) `{!PreOrder R} `{!Recorderless R}.
Context (R_nodes : forall v s, R s (set_lineage_nodes v s)).
Context (R_requests : forall v s, R s (set_disposition_requests v s)).
Context (R_evidence : forall v s, R s (set_request_evidence v s)).
Context (R_events : forall v s, R s (set_node_events v s)).
Context (R_restrictions : forall v s, R s (set_restrictions v s)).

Lemma register_node_frame id kind target parent recipient reason expires at_ :
  Steps R (register_node id kind target parent recipient reason expires at_).
Proof.
  unfold PrivacyDispositionService.register_node. apply steps_bind; [done|apply _|]. intros node.
  apply steps_transaction; [done|]. apply steps_get_bind. intros s r s'.
  destruct (find_node _ s) as [old|].
  - apply (steps_bind R (raise_if _ _) (fun _ => ret old)); apply _ || done.
  - unfold bind, lift, put, ret. destruct (insert_row _ _ _ _); intros [= _ <-]; [apply R_nodes|reflexivity].
Qed.

Lemma restrict_evidence_frame r id : Steps R (restrict_evidence r id).
Proof.
  unfold restrict_evidence. apply steps_get_bind. intros s r' s'. unfold bind, lift, put.
  destruct (insert_row _ _ _ _) as [rows|]; intros [= _ <-]; [|reflexivity].
  transitivity (set_request_evidence rows s); [apply R_evidence|apply R_restrictions].
Qed.

Lemma restrict_all_frame r ids : Steps R (restrict_all r ids).
Proof.
  induction ids as [|id ids IH]; cbn; [apply _|]. apply steps_bind; [done|apply restrict_evidence_frame|done].
Qed.

Lemma create_request_frame action ids subject basis actor reason deadline legal expires at_ :
  (forall s b, block_alternate_basis b = None ->
     R s (set_consent_blocks (<[subject_digest subject := b]> (consent_blocks s)) s)) ->
  Steps R (create_request action ids subject basis actor reason deadline legal expires at_).
Proof.
  intros Hb. unfold PrivacyDispositionService.create_request. apply steps_bind; [done|apply _|]. intros req.
  apply steps_transaction; [done|]. apply steps_get_bind. intros s r s'. destruct (find_request _ s) as [old|].
  { intros [= _ <-]. reflexivity. }
  unfold bind at 1, lift. destruct (insert_row _ _ _ _) as [rows|]; [|intros [= _ <-]; reflexivity].
  unfold bind at 1, put. intros H.
  transitivity (set_disposition_requests rows s); [apply R_requests|]. revert H.
  apply steps_elim. apply steps_bind; [done|apply restrict_all_frame|]. intros _.
  apply steps_bind; [done| |intros _; apply steps_bind; [done|by apply authority_steps|intros _; apply _]].
  destruct (bool_decide _); [|apply _]. apply steps_modify. intros s1. by apply Hb.
Qed.

Lemma document_basis_frame subject basis actor reason at_ :
  (forall s b, R s (set_consent_blocks (<[subject_digest subject := b]> (consent_blocks s)) s)) ->
  Steps R (document_alternate_basis subject basis actor reason at_).
Proof.
  intros Hb. unfold PrivacyDispositionService.document_alternate_basis. apply steps_bind; [done|apply _|]. intros _.
  apply steps_transaction; [done|]. apply steps_get_bind. intros s r s'.
  destruct (consent_blocks s !! _) as [b|]; [|intros [= _ <-]; reflexivity].
  unfold bind at 1, put. intros H.
  apply (steps_elim R) in H; [|by apply authority_steps]. etransitivity; [apply Hb|exact H].
Qed.

Lemma record_node_result_frame id r : Steps R (record_node_result id r).
Proof.
  unfold PrivacyDispositionService.record_node_result. apply steps_bind; [done| |intros _; apply _].
  apply steps_transaction; [done|]. by apply steps_modify.
Qed.

Lemma acknowledge_frame id actor receipt at_ :
  (forall v s, R s (set_receipts v s)) -> Steps R (acknowledge_external_recipient id actor receipt at_).
Proof.
  intros Hr. unfold PrivacyDispositionService.acknowledge_external_recipient. apply steps_bind; [done|apply _|].
  intros s. destruct (find_node id s); [|apply _]. apply steps_bind; [done|apply _|]. intros _.
  apply steps_bind; [done| |intros _; apply _]. apply steps_transaction; [done|].
  apply steps_bind; [done| |intros _; by apply authority_steps]. apply steps_modify. intros s1.
  destruct (_ || _); [reflexivity|apply Hr].
Qed.

Context (R_receipts : forall v s, R s (set_receipts v s)).
Context (R_attempts : forall v s, R s (set_reconciliation_attempts v s)).

Lemma record_attempt_frame a at_ : Steps R (record_attempt a at_).
Proof.
  unfold PrivacyDispositionService.record_attempt. apply steps_transaction; [done|].
  apply steps_bind; [done| |intros _; by apply authority_steps]. apply steps_modify. intros s.
  destruct (existsb _ _); [reflexivity|apply R_attempts].
Qed.

Lemma contact_frame req node recipient no sender actor at_ max delay ack :
  Steps R (contact req node recipient no sender actor at_ max delay ack).
Proof.
  unfold PrivacyDispositionService.contact.
  destruct (match sender node with Ok _ => _ | Raise _ => _ end) as [success code].
  apply steps_bind; [done| |intros [[state next] rc]; apply steps_bind;
    [done|apply record_attempt_frame|intros _; apply _]].
  destruct success; [apply steps_bind; [done|by apply acknowledge_frame|intros ?; apply _]|].
  destruct (_ <=? _); apply _.
Qed.

Lemma reconcile_node_frame req node sender actor at_ max delay :
  Steps R (reconcile_node req node sender actor at_ max delay).
Proof.
  pose proof record_attempt_frame. pose proof contact_frame.
  unfold PrivacyDispositionService.reconcile_node. cbv zeta. apply steps_bind; [done|apply _|]. intros _.
  apply steps_bind; [done|apply _|]. intros s. repeat (case_match; try apply _).
Qed.

Lemma reconcile_nodes_frame req nodes sender actor at_ max delay :
  Steps R (reconcile_nodes req nodes sender actor at_ max delay).
Proof.
  induction nodes as [|node nodes IH]; cbn; [apply _|]. apply steps_bind; [done|apply reconcile_node_frame|].
  intros a. apply steps_bind; [done|done|]. intros l. apply _.
Qed.

Lemma reconcile_frame id sender actor at_ max delay :
  Steps R (reconcile_external_recipients id sender actor at_ max delay).
Proof.
  unfold PrivacyDispositionService.reconcile_external_recipients.
  do 2 (apply steps_bind; [done|apply _|]; intros _). apply steps_bind; [done|apply _|]. intros s.
  apply steps_bind; [done|apply _|]. intros req. apply steps_bind; [done|apply reconcile_nodes_frame|]. intros l.
  apply steps_bind; [done|by apply authority_steps|]. intros _. apply _.
Qed.
End Frame.

(** ** Withdrawn consent *)

(** The subject may not be processed on the basis of consent. *)
Definition blocked (subject : string) (s : t) : Prop :=
  exists b, consent_blocks s !! subject = Some b /\ truthy (block_alternate_basis b) = false.
Definition stays_blocked (subject : string) (s s' : t) : Prop := blocked subject s -> blocked subject s'.

#[local] Instance stays_blocked_preorder subject : PreOrder (stays_blocked subject).
Proof. split; [intros s H; exact H|intros s1 s2 s3 H1 H2 H; exact (H2 (H1 H))]. Qed.
#[local] Instance stays_blocked_recorderless subject : Recorderless (stays_blocked subject).
Proof. intros s v H. exact H. Qed.

Definition documents (subject : string) (o : op) : Prop :=
  match o with DocumentBasis ref _ _ _ _ => subject_digest ref = subject | _ => False end.

Lemma exec_void {S A} (R : relation S) `{!PreOrder R} (m : M S A) : Steps R m -> Steps R (void m).
Proof. intros Hm. apply steps_bind; [done..|]. intros a. apply _. Qed.

(** A table the relation does not look at. *)
Ltac untouched := first [apply _ | intros ? ? H; exact H | intros ? H; exact H].

Lemma exec_blocked subject o : ~ documents subject o -> Steps (stays_blocked subject) (exec o).
Proof.
  intros Hd. destruct o; cbn in Hd |- *.
  - apply exec_void; [apply _|]. apply register_node_frame; untouched.
  - apply exec_void; [apply _|]. apply create_request_frame; try untouched.
    intros s b Hb (b' & H1 & H2). destruct (decide (subject_digest subject_ref = subject)) as [<-|Hne].
    + exists b. cbn. by rewrite lookup_insert_eq, Hb.
    + exists b'. cbn. by rewrite lookup_insert_ne.
  - unfold PrivacyDispositionService.document_alternate_basis. apply steps_bind; [apply _..|]. intros _.
    apply steps_transaction; [apply _|]. apply steps_get_bind. intros s r s'.
    destruct (consent_blocks s !! _) as [b|]; [|by intros [= _ <-]].
    unfold bind at 1, put. intros H. apply (steps_elim (stays_blocked subject)) in H; [|apply _].
    intros (b' & H1 & H2). apply H. exists b'. cbn. by rewrite lookup_insert_ne.
  - apply exec_void; [apply _|]. apply acknowledge_frame; untouched.
  - apply exec_void; [apply _|]. apply reconcile_frame; untouched.
  - apply exec_void; [apply _|]. apply record_node_result_frame; untouched.
  - apply steps_modify. untouched.
  - apply steps_modify. untouched.
  - apply steps_modify. untouched.
Qed.

Lemma run_blocked subject ops s :
  (forall o, o ∈ ops -> ~ documents subject o) -> blocked subject s -> blocked subject (run ops s).
Proof.
  revert s. induction ops as [|o ops IH]; intros s Ho Hb; [done|]. cbn. apply IH; [intros; apply Ho; by right|].
  destruct (exec o s) as [r s'] eqn:E. refine (exec_blocked subject o _ s r s' E Hb). apply Ho. by left.
Qed.

(** A new withdrawal blocks its subject. *)
Lemma withdrawal_blocks ids subject basis actor reason deadline legal expires at_ s req s' :
  create_request DispositionAction.CONSENT_WITHDRAWAL ids subject basis actor reason deadline legal expires at_ s
    = (Ok req, s') ->
  find_request (DispositionRequest.request_id req) s = None -> blocked (subject_digest subject) s'.
Proof.
  unfold PrivacyDispositionService.create_request. intros H Hnew.
  apply bind_ok in H as (r & s1 & [= Hr <-] & H). rewrite transaction_ok in H.
  apply bind_ok in H as (s2 & s3 & [= <- <-] & H).
  destruct (find_request _ s) as [old|] eqn:Hf.
  { injection H as -> _. unfold find_request, select_one in Hf, Hnew. pose proof Hf as Hf'.
    apply List.find_some in Hf' as [_ Hid]. apply bool_decide_eq_true in Hid. rewrite Hid in Hnew. congruence. }
  apply bind_ok in H as (rows & s2 & _ & H). apply bind_ok in H as ([] & s3 & _ & H).
  apply bind_ok in H as ([] & s4 & _ & H). cbn in H. apply bind_ok in H as ([] & s5 & [= <-] & H).
  apply bind_ok in H as ([] & s6 & H & [= _ <-]). apply authority_run in H as [v ->].
  eexists. cbn. split; [apply lookup_insert_eq|done].
Qed.

(** ** The schedule of contacts *)

(** The attempts at one node for one request, as they were stored. *)
Definition attempts_at (r n : UUID) (s : t) : list ReconciliationAttempt.t :=
  List.filter (fun a => bool_decide (ReconciliationAttempt.node_id a = n))
    (List.filter (fun a => bool_decide (ReconciliationAttempt.request_id a = r)) (reconciliation_attempts s)).

(** An attempt is not made before the time set by the previous one. *)
Definition due (from : option datetime) (at_ : datetime) : Prop := opt_all (fun t => t <=? at_) from = true.

(** Attempts with numbers from [no] on, at most [limit]: contacts before the
    deadline, each not before the time the previous one set, the last of which
    may end the series; after the deadline one note that it has passed. *)
Fixpoint schedule (limit deadline no : Z) (from : option datetime) (l : list ReconciliationAttempt.t) : Prop :=
  match l with
  | [] => True
  | a :: l =>
      let at_ := ReconciliationAttempt.created_at a in
      ReconciliationAttempt.attempt_no a = no /\ no <= limit /\
      match ReconciliationAttempt.state a with
      | RecipientReconciliationState.RETRY_SCHEDULED =>
          at_ < deadline /\ due from at_ /\ no < limit /\
          exists next, ReconciliationAttempt.next_retry_at a = Some next /\ at_ < next /\
            schedule limit deadline (no + 1) (Some next) l
      | RecipientReconciliationState.ACKNOWLEDGED | RecipientReconciliationState.EXHAUSTED =>
          at_ < deadline /\ due from at_ /\ l = []
      | RecipientReconciliationState.DEADLINE_EXPIRED => deadline <= at_ /\ l = []
      | _ => False
      end
  end.

(** The last attempt leaves the series open. *)
Definition open (l : list ReconciliationAttempt.t) : Prop :=
  forall b, last l = Some b -> ReconciliationAttempt.state b = RecipientReconciliationState.RETRY_SCHEDULED.
(** When the next contact is due. *)
Definition next_due (from : option datetime) (l : list ReconciliationAttempt.t) : option datetime :=
  match last l with Some b => ReconciliationAttempt.next_retry_at b | None => from end.

Section Schedule.
Context (limit deadline : Z).

Lemma schedule_cases no from a l (P : Prop) :
  schedule limit deadline no from (a :: l) ->
  (ReconciliationAttempt.state a = RecipientReconciliationState.RETRY_SCHEDULED ->
   forall next, ReconciliationAttempt.created_at a < deadline -> due from (ReconciliationAttempt.created_at a) -> no < limit ->
   ReconciliationAttempt.next_retry_at a = Some next -> ReconciliationAttempt.created_at a < next ->
   schedule limit deadline (no + 1) (Some next) l -> P) ->
  (ReconciliationAttempt.state a <> RecipientReconciliationState.RETRY_SCHEDULED -> l = [] ->
   deadline <= ReconciliationAttempt.created_at a \/ due from (ReconciliationAttempt.created_at a) -> P) -> P.
Proof.
  intros (_ & _ & H) Hretry Hend. destruct (ReconciliationAttempt.state a); try done.
  - destruct H as (? & ? & ?). apply Hend; auto.
  - destruct H as (? & ? & ? & next & ? & ? & ?). by apply (Hretry eq_refl next).
  - destruct H as (? & ? & ?). apply Hend; auto.
  - destruct H as (? & ?). apply Hend; auto.
Qed.

Lemma schedule_bounded no from l :
  schedule limit deadline no from l -> 0 < no -> Z.of_nat (length l) <= Z.max 0 (limit - no + 1).
Proof.
  revert no from. induction l as [|a l IH]; intros no from H Hpos; cbn [length]; [lia|].
  pose proof H as (_ & Hno & _). apply (schedule_cases _ _ _ _ _ H).
  - intros _ next _ _ Hlt _ _ H'%IH; lia.
  - intros _ -> _. cbn. lia.
Qed.

Lemma schedule_sorted no from l :
  schedule limit deadline no from l ->
  StronglySorted (fun x y => ReconciliationAttempt.created_at x < ReconciliationAttempt.created_at y) l /\
  Forall (fun x => deadline <= ReconciliationAttempt.created_at x \/ due from (ReconciliationAttempt.created_at x)) l.
Proof.
  revert no from. induction l as [|a l IH]; intros no from H; [split; constructor|].
  apply (schedule_cases _ _ _ _ _ H).
  - intros _ next Hdl Hdue _ _ Hnext [H1 H2]%IH. split.
    + constructor; [done|]. eapply Forall_impl; [exact H2|]. unfold due. cbn. intros x [Hx|Hx]; lia.
    + constructor; [by right|]. eapply Forall_impl; [exact H2|]. unfold due. cbn. intros x [Hx|Hx]; [by left|right].
      destruct from; unfold due in *; cbn in *; [lia|done].
  - intros _ -> Hfrom. split; [apply SSorted_cons; [apply SSorted_nil|done]|by apply Forall_singleton].
Qed.

Lemma schedule_states no from l :
  schedule limit deadline no from l -> forall a, a ∈ l ->
  ReconciliationAttempt.state a ∈ [RecipientReconciliationState.RETRY_SCHEDULED; RecipientReconciliationState.ACKNOWLEDGED;
    RecipientReconciliationState.EXHAUSTED; RecipientReconciliationState.DEADLINE_EXPIRED].
Proof.
  revert no from. induction l as [|b l IH]; intros no from H a Ha; [by apply elem_of_nil in Ha|].
  apply elem_of_cons in Ha as [->|Ha].
  - destruct H as (_ & _ & H). destruct (ReconciliationAttempt.state b); try done; set_solver.
  - apply (schedule_cases _ _ _ _ _ H).
    + intros _ next _ _ _ _ _ H'. by apply (IH _ _ H').
    + intros _ -> _. by apply elem_of_nil in Ha.
Qed.

Lemma schedule_ended no from l :
  schedule limit deadline no from l -> forall a, a ∈ l ->
  ReconciliationAttempt.state a <> RecipientReconciliationState.RETRY_SCHEDULED -> last l = Some a.
Proof.
  revert no from. induction l as [|b l IH]; intros no from H a Ha Hst; [by apply elem_of_nil in Ha|].
  apply (schedule_cases _ _ _ _ _ H).
  - intros Hb next _ _ _ _ _ H'. apply elem_of_cons in Ha as [->|Ha]; [done|].
    destruct l as [|c l]; [by apply elem_of_nil in Ha|]. rewrite last_cons_cons. by apply (IH _ _ H').
  - intros _ -> _. by apply list_elem_of_singleton in Ha as ->.
Qed.

Lemma schedule_next no from l :
  schedule limit deadline no from l -> open l -> no <= limit -> no + Z.of_nat (length l) <= limit.
Proof.
  revert no from. induction l as [|a l IH]; intros no from H Ho Hle; cbn [length]; [lia|].
  apply (schedule_cases _ _ _ _ _ H).
  - intros _ next _ _ Hlt _ _ H'. destruct l as [|b l]; [cbn; lia|].
    apply IH in H'; [lia| |lia]. intros c Hc. apply Ho. by rewrite last_cons_cons.
  - intros Hst -> _. destruct Hst. by apply Ho.
Qed.

Lemma schedule_snoc no from l a :
  schedule limit deadline no from l -> open l -> no <= limit ->
  schedule limit deadline (no + Z.of_nat (length l)) (next_due from l) [a] ->
  schedule limit deadline no from (l ++ [a]).
Proof.
  revert no from. induction l as [|b l IH]; intros no from H Ho Hle Ha.
  { cbn in Ha. by rewrite Z.add_0_r in Ha. }
  pose proof H as (Hno & _). assert (ReconciliationAttempt.state b = RecipientReconciliationState.RETRY_SCHEDULED) as Hb.
  { apply (schedule_cases _ _ _ _ _ H); [done|]. intros Hst -> _. destruct Hst. by apply Ho. }
  apply (schedule_cases _ _ _ _ _ H); [|done]. intros _ next Hdl Hdue Hlt Hnext Hafter H'.
  cbn [schedule app]. rewrite Hb. split_and!; [done..|]. exists next. split_and!; [done..|].
  apply IH; [done| |lia|].
  - destruct l as [|c l]; [by intros ?|]. intros d Hd. apply Ho. by rewrite last_cons_cons.
  - replace (no + 1 + Z.of_nat (length l)) with (no + Z.of_nat (length (b :: l))) by (cbn [length]; lia).
    destruct l as [|c l]; [cbn in Ha |- *; by rewrite Hnext in Ha|]. unfold next_due in *. rewrite last_cons_cons in Ha.
    by destruct (last (c :: l)) eqn:Hl; [|apply last_None in Hl].
Qed.
End Schedule.

Lemma schedule_weaken limit limit' deadline no from l :
  limit <= limit' -> schedule limit deadline no from l -> schedule limit' deadline no from l.
Proof.
  intros Hl. revert no from. induction l as [|a l IH]; intros no from; cbn [schedule]; [done|].
  intros (H1 & H2 & H). split_and!; [done|lia|]. destruct (ReconciliationAttempt.state a); try done.
  destruct H as (? & ? & ? & next & ? & ? & H). split_and!; [done..|lia|]. exists next. auto.
Qed.

(** ** The invariant of the contacts *)
Context `{!FloatRepr float_repr} (sha256_nonempty : forall x, sha256 x <> "").
Notation receipt_of := (receipt_of float_repr isoformat sha256 uuid5).

(** The receipt of a node whose recipient answers that it has deleted. *)
Definition sent (sender : DispositionLineageNode.t -> res (bool * string)) (actor : string) (at_ : datetime)
    (node : DispositionLineageNode.t) : option RecipientReceipt.t :=
  match sender node with
  | Ok (true, code) => Some (receipt_of (DispositionLineageNode.node_id node)
      (DispositionLineageNode.external_recipient_digest node) actor
      (if bool_decide (code = "") then "recipient_acknowledged" else code) at_)
  | _ => None
  end.

(** The receipts a call can write, and those of a sequence of calls. *)
Definition written (o : op) (s : t) : list RecipientReceipt.t :=
  match o with
  | Acknowledge id actor receipt at_ =>
      match find_node id s with
      | Some node => [receipt_of id (DispositionLineageNode.external_recipient_digest node) actor receipt at_]
      | None => []
      end
  | Reconcile _ sender actor at_ _ _ => omap (sent sender actor at_) (lineage_nodes s)
  | _ => []
  end.
Fixpoint all_written (ops : list op) (s : t) : list RecipientReceipt.t :=
  match ops with [] => [] | o :: ops => written o s ++ all_written ops (exec o s).2 end.

(** Receipts of different nodes have different identifiers. *)
Definition told_apart (l : list RecipientReceipt.t) : bool :=
  forallb (fun x => forallb (fun y => bool_decide (RecipientReceipt.node_id x = RecipientReceipt.node_id y)
    || negb (bool_decide (RecipientReceipt.receipt_id x = RecipientReceipt.receipt_id y))) l) l.

Section Known.
Context (known : list RecipientReceipt.t).

(** Two receipts of different nodes with one identifier. *)
Definition receipt_collision : Prop :=
  exists x y, x ∈ known /\ y ∈ known /\ RecipientReceipt.node_id x <> RecipientReceipt.node_id y /\
    RecipientReceipt.receipt_id x = RecipientReceipt.receipt_id y.

Lemma told_apart_no_collision : told_apart known = true -> ~ receipt_collision.
Proof.
  unfold told_apart. rewrite forallb_forall. intros H (x & y & Hx%list_elem_of_In & Hy%list_elem_of_In & Hn & Hid).
  specialize (H x Hx). rewrite forallb_forall in H. specialize (H y Hy).
  rewrite bool_decide_eq_false_2, bool_decide_eq_true_2 in H by done. done.
Qed.

Definition receipt_made (x : RecipientReceipt.t) : Prop :=
  x ∈ known /\
  exists recipient actor receipt at_, x = receipt_of (RecipientReceipt.node_id x) recipient actor receipt at_.

Record contacts_ok (limit : Z) (s : t) : Prop := {
  co_nodes : NoDup (DispositionLineageNode.node_id <$> lineage_nodes s);
  co_receipts : Forall receipt_made (receipts s);
  co_attempts : forall r n,
    match find_request r s with
    | Some q => schedule limit (DispositionRequest.deadline q) 1 None (attempts_at r n s)
    | None => attempts_at r n s = []
    end;
  co_acks : forall r n a, a ∈ attempts_at r n s ->
    ReconciliationAttempt.state a = RecipientReconciliationState.ACKNOWLEDGED ->
    exists x, x ∈ receipts s /\ RecipientReceipt.node_id x = n
}.

Lemma external_ack_truthy s n :
  Forall receipt_made (receipts s) ->
  truthy (external_ack n s) = true <-> exists x, x ∈ receipts s /\ RecipientReceipt.node_id x = n.
Proof.
  intros Hmade. unfold external_ack.
  set (l := sort_by _ _). assert (Hl : forall x, x ∈ l <-> x ∈ receipts s /\ RecipientReceipt.node_id x = n).
  { intros x. unfold l, select. rewrite sort_by_perm, list_elem_of_In, List.filter_In, bool_decide_eq_true.
    by rewrite <- list_elem_of_In. }
  split.
  - destruct l as [|x l']; [done|]. intros _. exists x. apply Hl. by left.
  - intros (x & Hx%Hl). destruct l as [|y l']; [by apply elem_of_nil in Hx|]. cbn.
    assert (receipt_made y) as (_ & a & b & c & d & ->) by (apply (Forall_in _ _ _ Hmade), Hl; by left). cbn.
    unfold digest. by rewrite bool_decide_eq_false_2.
Qed.

Lemma previous_attempts_at r n limit deadline s :
  schedule limit deadline 1 None (attempts_at r n s) -> previous_attempts r n s = attempts_at r n s.
Proof.
  intros [H _]%schedule_sorted. unfold previous_attempts, attempts_of. rewrite filter_order_by.
  apply order_by_increasing, H.
Qed.

(** Nothing the contacts depend on has changed. *)
Definition same_contacts (s s' : t) : Prop :=
  lineage_nodes s' = lineage_nodes s /\ receipts s' = receipts s /\
  reconciliation_attempts s' = reconciliation_attempts s /\ disposition_requests s' = disposition_requests s.
#[local] Instance same_contacts_preorder : PreOrder same_contacts.
Proof. split; [by intros s|]. intros s1 s2 s3 (? & ? & ? & ?) (? & ? & ? & ?). unfold same_contacts. by split_and!; etransitivity. Qed.
#[local] Instance same_contacts_recorderless : Recorderless same_contacts.
Proof. by intros s v. Qed.

Lemma same_contacts_ok limit s s' : same_contacts s s' -> contacts_ok limit s -> contacts_ok limit s'.
Proof.
  intros (H1 & H2 & H3 & H4) [Hn Hr Ha Hk]. split.
  - by rewrite H1.
  - by rewrite H2.
  - intros r n. unfold find_request, attempts_at. rewrite H3, H4. apply Ha.
  - intros r n a. unfold attempts_at. rewrite H2, H3. apply Hk.
Qed.

(** An attempt appended to the table. *)
Definition add_attempt (a : ReconciliationAttempt.t) (s : t) : t :=
  set_reconciliation_attempts (reconciliation_attempts s ++ [a]) s.

Lemma attempts_at_add r n a s :
  attempts_at r n (add_attempt a s)
  = attempts_at r n s
    ++ (if bool_decide (ReconciliationAttempt.request_id a = r /\ ReconciliationAttempt.node_id a = n) then [a] else []).
Proof.
  unfold attempts_at, add_attempt. cbn [reconciliation_attempts set_reconciliation_attempts].
  rewrite !List.filter_app. cbn. repeat case_bool_decide; cbn; rewrite ?List.filter_app; cbn;
    repeat case_bool_decide; try tauto; by rewrite ?app_nil_r.
Qed.

Lemma record_attempt_run a at_ s r s' :
  record_attempt a at_ s = (r, s') ->
  same_contacts s s' \/ same_contacts (add_attempt a s) s'.
Proof.
  unfold PrivacyDispositionService.record_attempt, transaction. intros H.
  destruct (bind _ _ s) as [[u|e] s1] eqn:E; injection H as _ <-; [|left; done].
  unfold bind at 1, modify in E. apply authority_run in E as [v ->].
  destruct (existsb _ _); [left|right]; apply recorderless.
Qed.

(** The attempt may be appended when it continues the series. *)
Lemma add_attempt_ok limit q a s :
  contacts_ok limit s -> 1 <= limit ->
  find_request (ReconciliationAttempt.request_id a) s = Some q ->
  let l := attempts_at (ReconciliationAttempt.request_id a) (ReconciliationAttempt.node_id a) s in
  open l -> schedule limit (DispositionRequest.deadline q) (1 + Z.of_nat (length l)) (next_due None l) [a] ->
  (ReconciliationAttempt.state a = RecipientReconciliationState.ACKNOWLEDGED ->
   exists x, x ∈ receipts s /\ RecipientReceipt.node_id x = ReconciliationAttempt.node_id a) ->
  contacts_ok limit (add_attempt a s).
Proof.
  intros [Hn Hr Ha Hk] Hlimit Hq. cbv zeta. intros Ho Hs Hack. split; [exact Hn|exact Hr|..].
  - intros r n. rewrite attempts_at_add. specialize (Ha r n). change (find_request r (add_attempt a s)) with (find_request r s).
    case_bool_decide as Hkey; [|by rewrite app_nil_r]. destruct Hkey as [<- <-]. rewrite Hq in *.
    by apply schedule_snoc.
  - intros r n b. rewrite attempts_at_add, elem_of_app. intros [Hb|Hb]; [exact (Hk r n b Hb)|].
    case_bool_decide as Hkey; [|by apply elem_of_nil in Hb]. apply list_elem_of_singleton in Hb as ->.
    destruct Hkey as [_ <-]. exact Hack.
Qed.

(** ** Every operation keeps the invariant *)

(** Whatever an operation does, the invariant survives it, or the digests of
    two receipts collide. *)
Definition keeps_contacts (limit : Z) (s s' : t) : Prop :=
  contacts_ok limit s -> receipt_collision \/ contacts_ok limit s'.

Lemma find_node_elem id s n : find_node id s = Some n -> n ∈ lineage_nodes s /\ DispositionLineageNode.node_id n = id.
Proof.
  unfold find_node, select_one. intros [H1%list_elem_of_In H2]%List.find_some. by apply bool_decide_eq_true in H2.
Qed.

Lemma node_found s n :
  NoDup (DispositionLineageNode.node_id <$> lineage_nodes s) -> n ∈ lineage_nodes s ->
  find_node (DispositionLineageNode.node_id n) s = Some n.
Proof.
  intros Hnd Hn. destruct (find_node _ s) as [m|] eqn:E.
  - apply find_node_elem in E as [Hm Hid]. f_equal. by apply (NoDup_fmap_elem _ _ _ _ Hnd).
  - unfold find_node, select_one in E.
    apply list_elem_of_In in Hn. apply (List.find_none _ _ E) in Hn. by apply bool_decide_eq_false in Hn.
Qed.

(** An acknowledgement of a node with a recipient is stored. *)
Lemma acknowledge_run limit node actor receipt at_ s r s' :
  contacts_ok limit s -> find_node (DispositionLineageNode.node_id node) s = Some node ->
  receipt_of (DispositionLineageNode.node_id node) (DispositionLineageNode.external_recipient_digest node)
    actor receipt at_ ∈ known ->
  acknowledge_external_recipient (DispositionLineageNode.node_id node) actor receipt at_ s = (r, s') ->
  receipt_collision \/
  (exists rows, same_contacts (set_receipts (receipts s ++ rows) s) s' /\ Forall receipt_made rows /\
    (is_ok r = true -> DispositionLineageNode.external_recipient_digest node <> None ->
     exists x, x ∈ receipts s ++ rows /\ RecipientReceipt.node_id x = DispositionLineageNode.node_id node)).
Proof.
  intros Hok Hnode Hknown. unfold PrivacyDispositionService.acknowledge_external_recipient.
  unfold bind at 1, get at 1. rewrite Hnode. intros H.
  assert (Hnone : same_contacts (set_receipts (receipts s ++ []) s) s) by (rewrite app_nil_r; by destruct s).
  destruct (is_external _); [|injection H as <- <-; right; exists []; by split_and!; [|constructor|]].
  rewrite bind_raise_if_false in H. set (row := receipt_of _ _ _ _ _) in H.
  unfold bind at 1 in H. destruct (transaction _ s) as [[u|e] s1] eqn:Ht.
  2:{ apply transaction_raise in Ht as [_ ->]. injection H as <- <-. right. exists []. by split_and!; [|constructor|]. }
  injection H as <- <-. rewrite transaction_ok in Ht. unfold bind at 1, modify in Ht.
  apply authority_run in Ht as [v ->]. destruct (bool_decide (_ = None)) eqn:Hd; cbn [orb].
  { apply bool_decide_eq_true in Hd. right. exists []. split_and!; [|constructor|by intros _ []].
    etransitivity; [exact Hnone|apply recorderless]. }
  apply bool_decide_eq_false in Hd. destruct (existsb _ _) eqn:Hex.
  - apply List.existsb_exists in Hex as (x & Hx%list_elem_of_In & Hid%bool_decide_eq_true).
    destruct (decide (RecipientReceipt.node_id x = DispositionLineageNode.node_id node)) as [Hn|Hn].
    + right. exists []. split_and!; [etransitivity; [exact Hnone|apply recorderless]|constructor|]. intros _ _. exists x.
      by rewrite app_nil_r.
    + left. exists x, row. destruct (Forall_in _ _ _ (co_receipts _ _ Hok) Hx) as [Hmade _]. by split_and!.
  - right. exists [row]. split_and!; [apply recorderless| |].
    + apply Forall_singleton. split; [done|]. by do 4 eexists.
    + intros _ _. exists row. split; [|done]. rewrite elem_of_app. right. by apply list_elem_of_singleton.
Qed.

Lemma receipts_ok limit s rows : Forall receipt_made rows -> contacts_ok limit s -> contacts_ok limit (set_receipts (receipts s ++ rows) s).
Proof.
  intros Hrows [Hn Hr Ha Hk]. split; [exact Hn|by apply Forall_app|exact Ha|].
  intros r n a Hin Hst. destruct (Hk r n a Hin Hst) as (x & Hx & Hid). exists x. split; [|done]. cbn.
  apply elem_of_app. by left.
Qed.

Lemma attempts_same s s' r n : same_contacts s s' -> attempts_at r n s' = attempts_at r n s.
Proof. intros (_ & _ & H & _). unfold attempts_at. by rewrite H. Qed.
Lemma request_same s s' r : same_contacts s s' -> find_request r s' = find_request r s.
Proof. intros (_ & _ & _ & H). unfold find_request. by rewrite H. Qed.
Lemma node_same s s' r : same_contacts s s' -> find_node r s' = find_node r s.
Proof. intros (H & _). unfold find_node. by rewrite H. Qed.

Section Contact.
Context (limit max_attempts delay : Z) (Hmax : 1 <= max_attempts <= limit) (Hdelay : 0 < delay).
Context (sender : DispositionLineageNode.t -> res (bool * string)) (actor : string) (now : datetime).
Context (req : DispositionRequest.t) (node : DispositionLineageNode.t).
Context (Hsent : forall x, sent sender actor now node = Some x -> x ∈ known).
Notation r := (DispositionRequest.request_id req).
Notation n := (DispositionLineageNode.node_id node).

(** Storing an attempt that continues the series. *)
Lemma store_attempt s no state next code receipt res s' recipient :
  contacts_ok limit s -> find_request r s = Some req -> open (attempts_at r n s) ->
  no = 1 + Z.of_nat (length (attempts_at r n s)) ->
  let a := attempt_of r n recipient no state actor now next code receipt in
  schedule limit (DispositionRequest.deadline req) no (next_due None (attempts_at r n s)) [a] ->
  (state = RecipientReconciliationState.ACKNOWLEDGED ->
   exists x, x ∈ receipts s /\ RecipientReceipt.node_id x = n) ->
  (record_attempt a now ;;; ret a) s = (res, s') -> contacts_ok limit s'.
Proof.
  intros Hok Hreq Ho ->. cbv zeta. set (a := attempt_of _ _ _ _ _ _ _ _ _ _). intros Hs Hack H. unfold bind in H.
  destruct (record_attempt a now s) as [[u|e] s1] eqn:E; injection H as _ <-; apply record_attempt_run in E.
  all: destruct E as [E|E]; [by apply (same_contacts_ok _ _ _ E)|apply (same_contacts_ok _ _ _ E)].
  all: apply (add_attempt_ok limit req); try done; lia.
Qed.

Lemma contact_keeps s recipient ack res s' :
  contacts_ok limit s -> find_request r s = Some req -> find_node n s = Some node ->
  DispositionLineageNode.external_recipient_digest node = Some recipient ->
  open (attempts_at r n s) -> now < DispositionRequest.deadline req -> due (next_due None (attempts_at r n s)) now ->
  contact req node recipient (Z.of_nat (length (attempts_at r n s)) + 1) sender actor now max_attempts delay ack s
    = (res, s') ->
  receipt_collision \/ contacts_ok limit s'.
Proof.
  intros Hok Hreq Hnode Hrec Ho Hdl Hdue. unfold PrivacyDispositionService.contact.
  assert (Hlen : 1 + Z.of_nat (length (attempts_at r n s)) <= limit).
  { pose proof (co_attempts _ _ Hok r n) as Hs. rewrite Hreq in Hs. apply (schedule_next _ _ _ _ _ Hs Ho). lia. }
  assert (Hw : forall code, sender node = Ok (true, code) ->
    receipt_of n (DispositionLineageNode.external_recipient_digest node) actor
      (if bool_decide (code = "") then "recipient_acknowledged" else code) now ∈ known).
  { intros code Hs. apply Hsent. unfold sent. by rewrite Hs. }
  set (answer := match sender node with Ok _ => _ | Raise _ => _ end).
  assert (Hanswer : answer.1 = true -> sender node = Ok (true, answer.2)).
  { subst answer. destruct (sender node) as [[[] code]|]; done. }
  clearbody answer. destruct answer as [success code]. cbn [fst snd] in Hanswer. unfold bind at 1.
  destruct success.
  - specialize (Hw _ (Hanswer eq_refl)).
    unfold bind at 1. destruct (acknowledge_external_recipient _ _ _ _ s) as [[receipt|e] s1] eqn:Hack.
    all: apply (acknowledge_run limit) in Hack; [|done..].
    all: destruct Hack as [?|(rows & Hsame & Hrows & Hin)]; [by left|].
    all: apply (receipts_ok limit s rows Hrows) in Hok; apply (same_contacts_ok _ _ _ Hsame) in Hok.
    2:{ intros [= _ <-]. by right. }
    assert (Hat : attempts_at r n s1 = attempts_at r n s) by by rewrite (attempts_same _ _ _ _ Hsame).
    intros H. right. revert H. cbn [bind ret]. apply store_attempt; rewrite ?Hat; try done; try lia.
    + by rewrite (request_same _ _ _ Hsame).
    + cbn -[attempts_at Z.add Z.mul Z.of_nat]. split_and!; [done|lia|done..].
    + intros _. destruct Hin as (x & Hx & Hid); [done|by rewrite Hrec|]. exists x. split; [|done].
      destruct Hsame as (_ & -> & _). exact Hx.
  - intros H. right. revert H. destruct (max_attempts <=? _) eqn:Hlast; cbn [ret]; apply store_attempt; try done; try lia.
    + cbn -[attempts_at Z.add Z.mul Z.of_nat]. split_and!; [done|lia|done..].
    + cbn -[attempts_at Z.add Z.mul Z.of_nat]. split_and!; try done; try lia. eexists. split_and!; try done; cbn; lia.
Qed.

Lemma reconcile_node_keeps s res s' :
  contacts_ok limit s -> find_request r s = Some req -> find_node n s = Some node ->
  reconcile_node req node sender actor now max_attempts delay s = (res, s') ->
  receipt_collision \/ contacts_ok limit s'.
Proof.
  intros Hok Hreq Hnode. unfold PrivacyDispositionService.reconcile_node.
  destruct (DispositionLineageNode.external_recipient_digest node) as [recipient|] eqn:Hrec.
  2:{ intros [= _ <-]. by right. }
  unfold bind at 1. destruct (raise_if _ _ s) as [[u|e] s1] eqn:Hraise.
  2:{ apply raise_if_raise in Hraise as (_ & _ & ->). intros [= _ <-]. by right. }
  apply raise_if_ok in Hraise as [_ ->]. unfold bind at 1, get. cbn [default].
  pose proof (co_attempts _ _ Hok r n) as Hs. rewrite Hreq in Hs. rewrite (previous_attempts_at _ _ _ _ _ Hs).
  destruct (truthy (external_ack n s)) eqn:Hack; [intros [= _ <-]; by right|].
  assert (Hno : forall a, a ∈ attempts_at r n s -> ReconciliationAttempt.state a <> RecipientReconciliationState.ACKNOWLEDGED).
  { intros a Ha Hst. rewrite (proj2 (external_ack_truthy s n (co_receipts _ _ Hok)) (co_acks _ _ Hok r n a Ha Hst)) in Hack.
    done. }
  set (l := attempts_at r n s) in *.
  assert (Hopen : (forall a, last l = Some a -> has_ended a = false) -> open l).
  { intros He a Hl. pose proof (last_Some_elem_of _ _ Hl) as Ha. specialize (Hno a Ha). specialize (He a Hl).
    unfold has_ended in He. apply bool_decide_eq_false in He. pose proof (schedule_states _ _ _ _ _ Hs a Ha) as Hst.
    destruct (ReconciliationAttempt.state a); try done; set_solver. }
  assert (Hexpired : open l -> DispositionRequest.deadline req <= now -> forall no, no = 1 + Z.of_nat (length l) ->
    (record_attempt (attempt_of r n recipient no RecipientReconciliationState.DEADLINE_EXPIRED actor now None None
       (external_ack n s)) now ;;;
     ret (attempt_of r n recipient no RecipientReconciliationState.DEADLINE_EXPIRED actor now None None
       (external_ack n s))) s = (res, s') -> receipt_collision \/ contacts_ok limit s').
  { intros Ho Hdl no Hno' H. right. revert H. apply store_attempt; try done.
    pose proof (schedule_next _ _ _ _ _ Hs Ho). cbn -[attempts_at Z.add Z.mul Z.of_nat]. split_and!; [done|lia|done..]. }
  assert (Hsend : open l -> now < DispositionRequest.deadline req -> due (next_due None l) now ->
    contact req node recipient (Z.of_nat (length l) + 1) sender actor now max_attempts delay (external_ack n s) s
      = (res, s') -> receipt_collision \/ contacts_ok limit s').
  { intros. by eapply contact_keeps. }
  destruct (last l) as [a|] eqn:Hl.
  - destruct (has_ended a) eqn:He; [intros [= _ <-]; by right|].
    assert (Ho : open l) by (apply Hopen; intros b [= <-]; done).
    destruct (_ <=? now) eqn:Hdl; [apply Hexpired; [done|lia..]|].
    unfold next_due in Hsend. rewrite Hl in Hsend. destruct (ReconciliationAttempt.next_retry_at a) as [next|] eqn:Hn.
    + destruct (now <? next) eqn:Hnx; [intros [= _ <-]; by right|]. apply Hsend; [done|lia|]. unfold due. cbn. lia.
    + apply Hsend; [done|lia|done].
  - assert (Ho : open l) by (by apply Hopen; intros b [= ]).
    destruct (_ <=? now) eqn:Hdl; [apply Hexpired; [done|lia..]|].
    apply Hsend; [done|lia|]. unfold next_due. by rewrite Hl.
Qed.
End Contact.

(** The nodes and the requests are as before. *)
Definition same_scope (s s' : t) : Prop :=
  lineage_nodes s' = lineage_nodes s /\ disposition_requests s' = disposition_requests s.
#[local] Instance same_scope_preorder : PreOrder same_scope.
Proof. split; [by intros s|]. intros s1 s2 s3 (? & ?) (? & ?). unfold same_scope. by split_and!; etransitivity. Qed.
#[local] Instance same_scope_recorderless : Recorderless same_scope.
Proof. by intros s v. Qed.

Lemma reconcile_node_scope req node sender actor at_ max delay :
  Steps same_scope (reconcile_node req node sender actor at_ max delay).
Proof. apply reconcile_node_frame; try apply _; by intros. Qed.

Lemma reconcile_nodes_keeps limit max delay sender actor now req nodes s res s' :
  1 <= max <= limit -> 0 < delay -> contacts_ok limit s ->
  find_request (DispositionRequest.request_id req) s = Some req ->
  Forall (fun n => find_node (DispositionLineageNode.node_id n) s = Some n /\
    forall x, sent sender actor now n = Some x -> x ∈ known) nodes ->
  reconcile_nodes req nodes sender actor now max delay s = (res, s') -> receipt_collision \/ contacts_ok limit s'.
Proof.
  intros Hmax Hdelay. revert s res. induction nodes as [|n nodes IH]; intros s res Hok Hreq Hn; cbn.
  { intros [= _ <-]. by right. }
  apply Forall_cons in Hn as [[Hn Hsent] Hnodes]. unfold bind at 1.
  destruct (reconcile_node _ _ _ _ _ _ _ s) as [r1 s1] eqn:E.
  pose proof (steps_elim same_scope _ _ _ _ (reconcile_node_scope _ _ _ _ _ _ _) E) as [Hs1 Hs2].
  apply (reconcile_node_keeps limit) in E as [?|E]; try done; [by left|].
  destruct r1 as [a|e]; [|intros [= _ <-]; by right]. unfold bind at 1.
  destruct (reconcile_nodes _ _ _ _ _ _ _ s1) as [r2 s2] eqn:E2. intros H.
  assert (s' = s2) as ->. { destruct r2; by injection H. }
  eapply (IH s1); [done| |..|exact E2].
  - unfold find_request in *. by rewrite Hs2.
  - eapply Forall_impl; [exact Hnodes|]. cbn. intros x [Hx ?]. split; [|done]. unfold find_node in *. by rewrite Hs1.
Qed.

Lemma find_request_id id s q : find_request id s = Some q -> DispositionRequest.request_id q = id.
Proof. unfold find_request, select_one. intros [_ H]%List.find_some. by apply bool_decide_eq_true in H. Qed.

Lemma external_nodes_found limit req s :
  contacts_ok limit s ->
  Forall (fun n => find_node (DispositionLineageNode.node_id n) s = Some n /\ n ∈ lineage_nodes s) (external_nodes req s).
Proof.
  intros Hok. apply Forall_forall. intros n Hn. enough (n ∈ lineage_nodes s) as Hin.
  { split; [|done]. by apply node_found; [apply (co_nodes _ _ Hok)|]. }
  unfold external_nodes in Hn. rewrite sort_by_perm in Hn. apply list_elem_of_In, List.filter_In in Hn as [Hn _].
  apply list_elem_of_In, list_elem_of_bind in Hn as (id & Hn & _).
  unfold nodes, nodes_by_time, order_by, select in Hn. rewrite sort_by_perm in Hn.
  by apply list_elem_of_In, List.filter_In in Hn as [Hn%list_elem_of_In _].
Qed.

Lemma reconcile_keeps limit id sender actor now max delay s res s' :
  max <= limit -> contacts_ok limit s -> (forall x, x ∈ omap (sent sender actor now) (lineage_nodes s) -> x ∈ known) ->
  reconcile_external_recipients id sender actor now max delay s = (res, s') ->
  receipt_collision \/ contacts_ok limit s'.
Proof.
  intros Hmax Hok Hsent. unfold PrivacyDispositionService.reconcile_external_recipients. unfold bind at 1.
  destruct (raise_if _ _ s) as [[u|e] s1] eqn:E; [|apply raise_if_raise in E as (_ & _ & ->); intros [= _ <-]; by right].
  apply raise_if_ok in E as [Hpos ->]. unfold bind at 1.
  destruct (raise_if _ _ s) as [[u'|e] s1] eqn:E; [|apply raise_if_raise in E as (_ & _ & ->); intros [= _ <-]; by right].
  apply raise_if_ok in E as [_ ->]. unfold bind at 1, get, bind at 1, lift, request.
  destruct (find_request id s) as [q|] eqn:Hq; [|intros [= _ <-]; by right].
  pose proof (find_request_id _ _ _ Hq) as Hid. unfold bind at 1.
  destruct (reconcile_nodes _ _ _ _ _ _ _ s) as [r1 s1] eqn:E.
  apply (reconcile_nodes_keeps limit) in E as [?|E]; try done; [by left| |lia|lia|by rewrite Hid|].
  2:{ eapply Forall_impl; [by eapply external_nodes_found|]. cbn. intros x [Hx Hin]. split; [done|].
      intros y Hy. apply Hsent, list_elem_of_omap. by exists x. }
  destruct r1 as [l|e]; [|intros [= _ <-]; by right]. cbv zeta. unfold bind at 1.
  destruct (authority _ _ _ s1) as [r2 s2] eqn:E2. apply authority_run in E2 as [v ->]. intros H. right.
  apply (same_contacts_ok limit s1); [|done]. destruct r2; injection H as _ <-; apply recorderless.
Qed.

(** ** The other operations *)
Lemma record_node_result_contacts id r : Steps same_contacts (record_node_result id r).
Proof. apply record_node_result_frame; try apply _; by intros. Qed.

Lemma add_request_ok limit q s s' :
  find_request (DispositionRequest.request_id q) s = None ->
  same_contacts (set_disposition_requests (disposition_requests s ++ [q]) s) s' ->
  contacts_ok limit s -> contacts_ok limit s'.
Proof.
  intros Hq Hs [Hn Hr Ha Hk]. apply (same_contacts_ok _ _ _ Hs). split; [exact Hn|exact Hr| |exact Hk].
  intros r n. specialize (Ha r n). change (attempts_at r n (set_disposition_requests _ s)) with (attempts_at r n s).
  unfold find_request, select_one in *. cbn. rewrite find_app.
  destruct (List.find (fun q => bool_decide (DispositionRequest.request_id q = r)) _) eqn:Hf; [done|].
  cbn. case_bool_decide; [|done]. by rewrite Ha.
Qed.

Lemma create_request_keeps limit action ids subject basis actor reason deadline legal expires at_ s res s' :
  create_request action ids subject basis actor reason deadline legal expires at_ s = (res, s') ->
  contacts_ok limit s -> contacts_ok limit s'.
Proof.
  unfold PrivacyDispositionService.create_request. unfold bind at 1, lift at 1.
  destruct (DispositionRequest.validate _) as [q|]; [|by intros [= _ <-]].
  unfold transaction, bind at 1, get. destruct (find_request _ s) as [old|] eqn:Hf; [by intros [= _ <-]|].
  unfold bind at 1, lift. unfold insert_row. destruct (existsb _ _); [by intros [= _ <-]|]. unfold bind at 1, put.
  set (s0 := set_disposition_requests _ s).
  set (m := bind _ _). destruct (m s0) as [[a|e] s1] eqn:E; intros [= _ <-]; [|done].
  apply (add_request_ok limit q); [done|].
  refine (steps_elim same_contacts m s0 _ _ _ E). unfold m. apply steps_bind; [apply _| |intros _].
  { apply restrict_all_frame; try apply _; by intros. }
  apply steps_bind; [apply _| |intros _; apply _]. destruct (bool_decide _); [|apply _]. by apply steps_modify.
Qed.

Lemma register_node_keeps limit id kind target parent recipient reason expires at_ s res s' :
  register_node id kind target parent recipient reason expires at_ s = (res, s') ->
  contacts_ok limit s -> contacts_ok limit s'.
Proof.
  unfold PrivacyDispositionService.register_node. unfold bind at 1, lift at 1.
  destruct (DispositionLineageNode.validate _) as [q|]; [|by intros [= _ <-]].
  unfold transaction, bind at 1, get. destruct (find_node _ s) as [old|] eqn:Hf.
  { unfold bind, raise_if. destruct (negb _); cbn; by intros [= _ <-]. }
  unfold bind at 1, lift. unfold insert_row. destruct (existsb _ _) eqn:Hex; [by intros [= _ <-]|].
  cbn. intros [= _ <-] [Hn Hr Ha Hk]. split; [|exact Hr|exact Ha|exact Hk]. cbn. rewrite fmap_app.
  apply NoDup_app. split_and!; [done| |apply NoDup_singleton]. cbn. intros x Hx ->%list_elem_of_singleton.
  apply list_elem_of_fmap in Hx as (y & Hid & Hy). unfold find_node, select_one in Hf.
  apply list_elem_of_In in Hy. apply (List.find_none _ _ Hf) in Hy. by apply bool_decide_eq_false in Hy.
Qed.

Lemma set_outcome_keeps limit id status terminal s :
  contacts_ok limit s ->
  contacts_ok limit (set_disposition_requests
    ((fun q => if decide (DispositionRequest.request_id q = id)
               then DispositionRequest.set_outcome status terminal q else q) <$> disposition_requests s) s).
Proof.
  intros [Hn Hr Ha Hk]. split; [exact Hn|exact Hr| |exact Hk]. intros r n. specialize (Ha r n).
  change (attempts_at r n (set_disposition_requests _ s)) with (attempts_at r n s).
  unfold find_request, select_one in *. cbn. revert Ha. induction (disposition_requests s) as [|q l IH]; cbn; [done|].
  destruct (decide (DispositionRequest.request_id q = id)); cbn; repeat case_bool_decide; done || auto.
Qed.

Definition within (limit : Z) (o : op) : Prop :=
  match o with Reconcile _ _ _ _ max_attempts _ => max_attempts <= limit | _ => True end.

Lemma acknowledge_keeps limit id actor receipt at_ s res s' :
  (forall x, x ∈ written (Acknowledge id actor receipt at_) s -> x ∈ known) ->
  acknowledge_external_recipient id actor receipt at_ s = (res, s') -> keeps_contacts limit s s'.
Proof.
  intros Hw H Hok. cbn in Hw. destruct (find_node id s) as [node|] eqn:Hf.
  - pose proof (find_node_elem _ _ _ Hf) as [_ <-]. specialize (Hw _ ltac:(by apply list_elem_of_singleton)).
    apply (acknowledge_run limit) in H as [?|(rows & Hs & Hrows & _)]; [by left| |done..].
    right. apply (same_contacts_ok _ _ _ Hs). by apply receipts_ok.
  - unfold PrivacyDispositionService.acknowledge_external_recipient in H. unfold bind at 1, get at 1 in H.
    rewrite Hf in H. injection H as _ <-. by right.
Qed.

Lemma exec_contacts limit o s res s' :
  within limit o -> (forall x, x ∈ written o s -> x ∈ known) -> exec o s = (res, s') -> keeps_contacts limit s s'.
Proof.
  intros Hw Hk H Hok. destruct o; cbn in Hw; unfold exec in H; try (apply void_run in H as (res' & H & _)).
  - right. by eapply register_node_keeps.
  - right. by eapply create_request_keeps.
  - right. eapply same_contacts_ok; [|done].
    refine (steps_elim same_contacts _ _ _ _ _ H). apply document_basis_frame; try apply _; by intros.
  - by eapply acknowledge_keeps.
  - by eapply reconcile_keeps.
  - right. eapply same_contacts_ok; [|done]. exact (steps_elim same_contacts _ _ _ _ (record_node_result_contacts _ _) H).
  - right. injection H as _ <-. by apply set_outcome_keeps.
  - right. injection H as _ <-. by apply (same_contacts_ok limit s); [repeat split|].
  - right. injection H as _ <-. by apply (same_contacts_ok limit s); [repeat split|].
Qed.

Lemma run_contacts limit ops s :
  Forall (within limit) ops -> (forall x, x ∈ all_written ops s -> x ∈ known) -> contacts_ok limit s ->
  receipt_collision \/ contacts_ok limit (run ops s).
Proof.
  intros Hops. revert s. induction Hops as [|o ops Ho _ IH]; intros s Hk Hs; [by right|]. cbn in *.
  destruct (exec o s) as [r s'] eqn:E.
  destruct (exec_contacts limit o s r s' Ho ltac:(intros; apply Hk, elem_of_app; by left) E Hs) as [?|H]; [by left|].
  cbn in *. apply IH; [|done]. intros x Hx. apply Hk, elem_of_app. by right.
Qed.

Lemma init_contacts limit recorder : contacts_ok limit (init recorder).
Proof. split; cbn; [constructor|constructor|done|]. intros r n a Ha. by apply elem_of_nil in Ha. Qed.
End Known.

(** Whether a node is to be contacted now. *)
Definition contact_due (req : DispositionRequest.t) (n : UUID) (now : datetime) (s : t) : bool :=
  negb (truthy (external_ack n s)) && (now <? DispositionRequest.deadline req)
  && match last (previous_attempts (DispositionRequest.request_id req) n s) with
     | Some a => negb (has_ended a) && opt_all (fun t => t <=? now) (ReconciliationAttempt.next_retry_at a)
     | None => true
     end.

Lemma bind_ext {S A B} (m : M S A) (k k' : A -> M S B) s :
  (forall a s', m s = (Ok a, s') -> k a s' = k' a s') -> bind m k s = bind m k' s.
Proof. intros H. unfold bind. destruct (m s) as [[a|e] s']; [by apply H|done]. Qed.

Lemma sender_silent req node now actor max delay s sender sender' :
  contact_due req (DispositionLineageNode.node_id node) now s = false ->
  reconcile_node req node sender actor now max delay s = reconcile_node req node sender' actor now max delay s.
Proof.
  unfold contact_due, PrivacyDispositionService.reconcile_node. intros Hdue.
  apply bind_ext. intros u s1 [_ ->]%raise_if_ok. apply bind_ext. intros s1 s2 [= <- <-].
  destruct (truthy (external_ack _ _)); [done|].
  destruct (last _) as [a|]; cbn in Hdue.
  - destruct (has_ended a); [done|]. destruct (_ <=? now) eqn:Hd; [done|].
    destruct (ReconciliationAttempt.next_retry_at a) as [next|]; cbn in Hdue; [|lia].
    replace (now <? next) with true by lia. done.
  - destruct (_ <=? now) eqn:Hd; [done|]. lia.
Qed.

(** C19: external recipients are contacted a bounded number of times on a fixed
    schedule.  In every execution whose reconciliations allow at most [limit]
    attempts, and in which no two receipts the calls can write for different
    nodes have one identifier, the attempts at a node for a request are numbered
    1, 2, 3, ..., are at most [limit], lie before the deadline of the request and
    not before the time the previous attempt set; an acknowledged, exhausted or
    expired series has ended for good.  A node that is not due is not contacted:
    what the sender would answer has no effect. *)
Theorem recipients_contacted_on_schedule (limit : Z) (ops : list op) recorder :
  Forall (within limit) ops -> told_apart (all_written ops (init recorder)) = true ->
  let s := run ops (init recorder) in
  forall req node, find_request (DispositionRequest.request_id req) s = Some req ->
  let l := attempts_at (DispositionRequest.request_id req) (DispositionLineageNode.node_id node) s in
  schedule limit (DispositionRequest.deadline req) 1 None l /\
  Z.of_nat (length l) <= Z.max 0 limit /\
  (forall a, a ∈ l -> ReconciliationAttempt.state a <> RecipientReconciliationState.RETRY_SCHEDULED ->
   forall now, contact_due req (DispositionLineageNode.node_id node) now s = false) /\
  forall now actor max delay sender sender',
    contact_due req (DispositionLineageNode.node_id node) now s = false ->
    reconcile_node req node sender actor now max delay s = reconcile_node req node sender' actor now max delay s.
Proof.
  intros Hops Hapart. cbv zeta.
  destruct (run_contacts _ limit ops _ Hops (fun _ H => H) (init_contacts _ limit recorder)) as [Hc|Hok];
    [by apply told_apart_no_collision in Hc|].
  intros req node Hreq. set (s := run ops (init recorder)) in *. set (n := DispositionLineageNode.node_id node).
  pose proof (co_attempts _ _ _ Hok (DispositionRequest.request_id req) n) as Hs. rewrite Hreq in Hs.
  split_and!; [done|by pose proof (schedule_bounded _ _ _ _ _ Hs ltac:(lia)); lia| |by intros; apply sender_silent].
  intros a Ha Hst now. unfold contact_due. rewrite (previous_attempts_at _ _ _ _ _ Hs).
  pose proof (schedule_ended _ _ _ _ _ Hs a Ha Hst) as Hlast. fold n. rewrite Hlast.
  pose proof (schedule_states _ _ _ _ _ Hs a Ha) as Hin.
  destruct (decide (ReconciliationAttempt.state a = RecipientReconciliationState.ACKNOWLEDGED)) as [Hack|Hack].
  - rewrite (proj2 (external_ack_truthy _ s n (co_receipts _ _ _ Hok)) (co_acks _ _ _ Hok _ _ a Ha Hack)). done.
  - assert (has_ended a = true) as ->; [|by rewrite andb_false_r].
    unfold has_ended. apply bool_decide_eq_true. destruct (ReconciliationAttempt.state a); set_solver.
Qed.
End Disposition.

(** ** A concrete service *)
Definition demo_digest : string -> string := ArtifactTheorems.demo_sha256.
Definition demo_name : string -> UUID := ArtifactTheorems.demo_uuid5.
Definition demo_at : datetime -> string := ArtifactTheorems.demo_time.
Notation demo_run := (run demo_repr demo_at demo_at demo_digest demo_name JournalTheorems.demo_sha256).

Lemma demo_digest_nonempty x : demo_digest x <> "".
Proof.
  intros H. pose proof (ArtifactTheorems.demo_sha256_digest x) as Hd. unfold demo_digest in H. rewrite H in Hd.
  discriminate Hd.
Qed.

Definition demo_recipient : op :=
  RegisterNode "evidence-1" DispositionNodeKind.EXTERNAL_RECIPIENT "recipient:clinic" None (Some "clinic") None None 10.
Definition demo_erase : op :=
  CreateRequest DispositionAction.ERASE ["evidence-1"] "subject-1" "consent" "officer" "erasure" 1000000000 None None 20.
Definition demo_service : t := demo_run [demo_recipient; demo_erase] (init (Some JournalTheorems.demo_store)).
Definition demo_request_id : UUID :=
  match disposition_requests demo_service with r :: _ => DispositionRequest.request_id r | [] => "" end.
(** Two failures of the clinic: one is retried, the second exhausts the
    attempts; the contact in between is not due.  The laboratory answers. *)
Definition demo_failing (n : DispositionLineageNode.t) : res (bool * string) := Ok (false, "unreachable").
Definition demo_laboratory : op :=
  RegisterNode "evidence-1" DispositionNodeKind.REPLICA "recipient:laboratory" None (Some "laboratory") None None 11.
Definition demo_answering (n : DispositionLineageNode.t) : res (bool * string) :=
  if bool_decide (DispositionLineageNode.kind n = DispositionNodeKind.REPLICA) then Ok (true, "deleted")
  else Ok (false, "unreachable").
Definition demo_rounds : list op :=
  (fun at_ => Reconcile demo_request_id demo_answering "worker" at_ 2 1) <$> [100; 200; 3000000].
Definition demo_contacts : list op := demo_recipient :: demo_laboratory :: demo_erase :: demo_rounds.

Lemma recipients_contacted_on_schedule_witness :
  let s := demo_run demo_contacts (init (Some JournalTheorems.demo_store)) in
  length (reconciliation_attempts s) = 3%nat /\ length (receipts s) = 1%nat /\
  forall req node, find_request (DispositionRequest.request_id req) s = Some req ->
    schedule 2 (DispositionRequest.deadline req) 1 None
      (attempts_at (DispositionRequest.request_id req) (DispositionLineageNode.node_id node) s).
Proof.
  cbv zeta. split; [vm_compute; reflexivity|]. split; [vm_compute; reflexivity|].
  assert (Hw : Forall (within 2) demo_contacts) by (repeat constructor; vm_compute; discriminate).
  intros req node Hreq.
  exact (proj1 (recipients_contacted_on_schedule demo_repr demo_at demo_at demo_digest demo_name
    JournalTheorems.demo_sha256 demo_digest_nonempty 2 demo_contacts (Some JournalTheorems.demo_store) Hw
    ltac:(vm_compute; reflexivity) req node Hreq)).
Defined.

(** An export without a recipient can never be acknowledged: the receipt is
    journaled and returned, but its row is dropped, and reconciliation raises. *)
Definition demo_export : op :=
  RegisterNode "evidence-1" DispositionNodeKind.EXPORT "export:1" None None None None 10.
Lemma export_without_recipient_stays_pending :
  let s := demo_run [demo_export; demo_erase] (init (Some JournalTheorems.demo_store)) in
  let node := match lineage_nodes s with n :: _ => DispositionLineageNode.node_id n | [] => "" end in
  let '(acknowledged, s') := acknowledge_external_recipient demo_repr demo_at demo_digest demo_name
                               JournalTheorems.demo_sha256 node "officer" "deleted" 30 s in
  is_ok acknowledged = true /\ receipts s' = [] /\ external_ack node s' = None /\
  is_ok (reconcile_external_recipients demo_repr demo_at demo_at demo_digest demo_name JournalTheorems.demo_sha256
           demo_request_id demo_failing "worker" 40 2 1 s').1 = false.
Proof. vm_compute. done. Qed.

(** Registration is not idempotent over time: the identifier covers what the
    node is, the comparison also its creation time. *)
Lemma registering_again_conflicts :
  let again at_ := register_node demo_repr demo_digest demo_name "evidence-1" DispositionNodeKind.CACHE "cache:1" None None
                     None None at_ in
  let s := (again 10 (init None)).2 in
  is_ok (again 10 s).1 = true /\ (again 11 s).1 = Raise (ValueError "disposition node identity conflict").
Proof. vm_compute. done. Qed.
