(* ===== verification/EvidenceTheorems.v ===== *)
(** What the evidence service promises: the legal life of a piece of evidence,
    deletions that reach the bytes, families that partition the evidence, and
    ingestion that respects a withdrawn consent. *)

From Stdlib Require Import ZArith Lia ZifyBool.
From S2P Require Import Prelude Ordering Binary64 Enums Models Records CanonicalJson Artifacts ArtifactTheorems Journal.
From S2P Require Import JournalTheorems EvidenceRows Disposition DispositionTheorems Evidence.
Import EvidenceTrustService.
Open Scope Z_scope.

Section Evidence.
Context (float_repr : f64 -> string) (isoformat json_time : datetime -> string).
Context (sha256 : string -> string) (uuid5 : string -> UUID) (store_sha256 : payload -> string).
Notation ingest := (ingest float_repr json_time sha256 uuid5 store_sha256).
Notation delete_content := (delete_content float_repr isoformat sha256 uuid5).
Notation transition := (transition float_repr isoformat sha256 uuid5 store_sha256).
Notation expire_items := (expire_items float_repr isoformat sha256 uuid5 store_sha256).
Notation enforce_rights_expiry := (enforce_rights_expiry float_repr isoformat sha256 uuid5 store_sha256).
Notation create_claim := (create_claim store_sha256).
Notation link := (link store_sha256).
Notation reachable := (JournalTheorems.reachable store_sha256).
Notation step := (JournalTheorems.step store_sha256).
Notation evidence_by_id := IncidentJournalStore.evidence_by_id.
Notation lifecycle_of := IncidentJournalStore.lifecycle_of.
Notation initial_content_state := IncidentJournalStore.initial_content_state.

(** ** Single calls *)
Definition void_result {A} (r : res A) : res unit := match r with Ok _ => Ok tt | Raise e => Raise e end.

Lemma step_of {A} (m : M IncidentJournalStore.t A) o st r st' :
  op_valid o -> JournalTheorems.exec store_sha256 o = void m -> m st = (r, st') -> step st st'.
Proof.
  intros Ho He H. exists o, (void_result r). split; [done|].
  rewrite He. unfold void, bind. rewrite H. by destruct r.
Qed.

Lemma item_of_ok id s item :
  evidence_ok (store s) -> item_of id s = Ok item -> evidence_by_id id (store s) = Some item.
Proof.
  intros Hok. unfold item_of. destruct (List.find _ _) as [x|] eqn:Hf; [|done]. intros [= ->].
  apply List.find_some in Hf as [Hx%list_elem_of_In Hid%bool_decide_eq_true].
  unfold IncidentJournalStore.evidence, select in Hx. rewrite order_by_time, sort_by_perm in Hx.
  apply list_elem_of_In, List.filter_In in Hx as [Hx%list_elem_of_In _].
  unfold IncidentJournalStore.evidence_by_id, select_one. destruct (List.find _ _) as [y|] eqn:Hy.
  - apply List.find_some in Hy as [Hy%list_elem_of_In Hid'%bool_decide_eq_true]. f_equal.
    apply (NoDup_fmap_elem EvidenceItem.evidence_id _ _ _ (ev_items _ Hok)); congruence.
  - apply list_elem_of_In in Hx. apply (List.find_none _ _ Hy) in Hx. by apply bool_decide_eq_false in Hx.
Qed.

Lemma store_call_run {A} (m : M IncidentJournalStore.t A) s r s' :
  on_store m s = (r, s') -> exists st, m (store s) = (r, st) /\ s' = set_store st s.
Proof. unfold on_store, zoom. destruct (m (store s)) as [r0 st]. intros [= -> <-]. by eexists. Qed.

(** The artifact store after the content of evidence was to be deleted. *)
Lemma delete_content_run item actor at_ s r s' :
  delete_content item actor at_ s = (r, s') ->
  store s' = store s /\ disposition s' = disposition s /\
  match artifacts s with
  | None => s' = s
  | Some a => exists a' d, artifacts s' = Some a' /\
      ContentAddressedArtifactStore.delete_digest float_repr sha256 uuid5 isoformat (EvidenceItem.content_sha256 item)
        actor true false at_ a = (d, a') /\ is_ok r = is_ok d
  end.
Proof.
  unfold EvidenceTrustService.delete_content, bind at 1, get. destruct (artifacts s) as [a|] eqn:Ha.
  - unfold bind, on_artifacts, zoom. destruct (ContentAddressedArtifactStore.delete_digest _ _ _ _ _ _ _ _ _ a) as [[d|e] a'].
    all: intros [= <- <-]; split_and!; [done..|]; by do 2 eexists.
  - intros [= <- <-]. done.
Qed.

(** The artifact store may lose files, and gains none; its references stay. *)
Definition shrinks (s s' : t) : Prop :=
  match artifacts s, artifacts s' with
  | Some a, Some a' =>
      ContentAddressedArtifactStore.files a' ⊆ ContentAddressedArtifactStore.files a /\
      ArtifactCatalog.artifact_references (ContentAddressedArtifactStore.catalog a')
      = ArtifactCatalog.artifact_references (ContentAddressedArtifactStore.catalog a)
  | None, None => True
  | _, _ => False
  end.

Lemma shrinks_refl s : shrinks s s.
Proof. unfold shrinks. by destruct (artifacts s). Qed.

Lemma delete_content_shrinks item actor at_ s r s' :
  delete_content item actor at_ s = (r, s') ->
  store s' = store s /\ disposition s' = disposition s /\ shrinks s s'.
Proof.
  intros (Hs & Hd & Ha)%delete_content_run. split_and!; [done..|]. unfold shrinks.
  destruct (artifacts s) as [a|] eqn:Has; [|subst s'; by rewrite Has].
  destruct Ha as (a' & d & -> & Hdel & _). apply delete_digest_run in Hdel as [->|(_ & _ & -> & _ & _ & ->)]; [done|].
  split; [apply delete_subseteq|done].
Qed.

(** The event a transition of [item] from what [current] says writes. *)
Record planned (item : EvidenceItem.t) (current : EvidenceLifecycleProjection.t) (to_state : EvidenceContentState.t)
    (now : datetime) (event_id : UUID) (e : EvidenceLifecycleEvent.t) : Prop := {
  pl_id : EvidenceLifecycleEvent.lifecycle_event_id e = event_id;
  pl_evidence : EvidenceLifecycleEvent.evidence_id e = EvidenceItem.evidence_id item;
  pl_from : EvidenceLifecycleEvent.from_state e = Some (EvidenceLifecycleProjection.state current);
  pl_to : EvidenceLifecycleEvent.to_state e = to_state;
  pl_legal : to_state ∈ LEGAL_TRANSITIONS (EvidenceLifecycleProjection.state current);
  pl_action : ACTION_FOR_STATE to_state = Ok (EvidenceLifecycleEvent.action e);
  pl_at : EvidenceLifecycleEvent.created_at e = now;
  pl_expired : to_state = EvidenceContentState.EXPIRED ->
    exists t, EvidenceItem.rights_expires_at item = Some t /\ t <= now;
  pl_valid : EvidenceLifecycleEvent.validate e = Ok e;
  pl_version : EvidenceLifecycleEvent.resulting_version e = EvidenceLifecycleProjection.version current + 1
}.

Lemma item_of_id id s item : item_of id s = Ok item -> EvidenceItem.evidence_id item = id.
Proof.
  unfold item_of. destruct (List.find _ _) as [x|] eqn:Hf; [|done]. intros [= ->].
  by apply List.find_some in Hf as [_ ?%bool_decide_eq_true].
Qed.

Lemma validate_event e e' : EvidenceLifecycleEvent.validate e = Ok e' -> e' = e.
Proof.
  unfold EvidenceLifecycleEvent.validate. intros H. repeat (apply rbind_ok in H as ([] & _ & H)). by injection H as ->.
Qed.

Lemma expired_guard to item now :
  bool_decide (to = EvidenceContentState.EXPIRED)
  && match EvidenceItem.rights_expires_at item with None => true | Some e => now <? e end = false ->
  to = EvidenceContentState.EXPIRED -> exists t, EvidenceItem.rights_expires_at item = Some t /\ t <= now.
Proof.
  intros H ->. rewrite bool_decide_eq_true_2 in H by done. cbn in H.
  destruct (EvidenceItem.rights_expires_at item) as [t|]; [|done]. exists t. split; [done|lia].
Qed.

(** What a transition does to the incident store: nothing, or it records the
    planned event, and after it perhaps a reevaluation. *)
Definition writes id to now (eid : UUID) ck (s s' : t) : Prop :=
  disposition s' = disposition s /\ shrinks s s' /\
  (store s' = store s \/
   exists item current e r1 st,
     item_of id s = Ok item /\ lifecycle id (projected_at ck) s = Ok current /\ planned item current to now eid e /\
     IncidentJournalStore.record_evidence_lifecycle store_sha256 e (store s) = (r1, st) /\
     (store s' = st \/
      exists record r2, IncidentJournalStore.record_evidence_reevaluation store_sha256 record st = (r2, store s'))).

Lemma writes_none id to now eid ck s s' :
  disposition s' = disposition s -> store s' = store s -> shrinks s s' -> writes id to now eid ck s s'.
Proof. intros Hd Hs Ha. split_and!; [done|done|by left]. Qed.

(** A step that stops before anything is recorded. *)
Ltac stopped := intros [= _ <-]; by (apply writes_none; [| |apply shrinks_refl] || apply writes_none).

Lemma transition_run id to v actor reason now prof eid rid ck s r s' :
  transition id to v actor reason now prof eid rid ck s = (r, s') -> writes id to now eid ck s s'.
Proof.
  unfold EvidenceTrustService.transition, bind at 1, get at 1. unfold bind at 1, lift at 1.
  destruct (item_of id s) as [item|exc] eqn:Hitem; [|stopped].
  unfold bind at 1, lift at 1. destruct (lifecycle _ _ s) as [cur|exc] eqn:Hcur; [|stopped].
  cbv zeta. unfold bind at 1, raise_if at 1. destruct (negb _); [stopped|].
  unfold ret at 1. unfold bind at 1, raise_if at 1. destruct (negb _) eqn:Hlegal; [stopped|].
  apply negb_false_iff, bool_decide_eq_true in Hlegal.
  unfold ret at 1. unfold bind at 1, raise_if at 1.
  destruct (bool_decide _ && _) eqn:Hexp; [stopped|]. unfold ret at 1.
  unfold bind at 1. set (del := if bool_decide (to = EvidenceContentState.DELETED) then _ else _).
  assert (Hdel : forall q s1, del s = (q, s1) -> store s1 = store s /\ disposition s1 = disposition s /\ shrinks s s1).
  { intros q s1. subst del. destruct (bool_decide (to = EvidenceContentState.DELETED)); [|unfold ret; intros [= _ <-]; split_and!; [done..|apply shrinks_refl]].
    unfold bind, ret. destruct (delete_content item actor (deleted_at ck) s) as [[[p c]|exc] s2] eqn:Hd; intros [= _ <-];
      by apply delete_content_shrinks in Hd. }
  destruct (del s) as [[[proof codes]|exc] s1]; destruct (Hdel _ _ eq_refl) as (Hst & Hdi & Hsh); clear Hdel;
    [|stopped].
  unfold bind at 1, lift at 1. destruct (ACTION_FOR_STATE to) as [act|exc] eqn:Hact; [|stopped].
  unfold bind at 1, lift at 1. destruct (EvidenceLifecycleEvent.validate _) as [e|exc] eqn:Hval;
    [|stopped].
  pose proof (validate_event _ _ Hval) as He.
  assert (Hplan : planned item cur to now eid e).
  { split; rewrite ?He in *; cbn; try done; [by rewrite (item_of_id _ _ _ Hitem)|by apply expired_guard]. }
  clear He Hval Hexp. unfold bind at 1, on_store at 1, zoom at 1. rewrite Hst.
  destruct (IncidentJournalStore.record_evidence_lifecycle store_sha256 e (store s)) as [r1 st] eqn:Hrec.
  assert (Hdone : forall s2, store s2 = st -> disposition s2 = disposition s1 -> artifacts s2 = artifacts s1 ->
    writes id to now eid ck s s2).
  { intros s2 H2 H3 H4. split_and!; [congruence|unfold shrinks in *; by rewrite H4|]. right. do 5 eexists. eauto 10. }
  destruct r1 as [x|exc]; cbn beta iota; [|intros [= _ <-]; by apply Hdone].
  unfold bind at 1, get at 1. unfold bind at 1, lift at 1.
  destruct (lifecycle id (projected_at ck) (set_store st s1)) as [p|exc]; [|intros [= _ <-]; by apply Hdone].
  unfold bind at 1. destruct (bool_decide (to ∈ _)); [|intros [= _ <-]; by apply Hdone].
  unfold bind at 1, lift at 1. destruct (claim_reconciliation _ _ _) as [c|exc]; [|intros [= _ <-]; by apply Hdone].
  unfold bind at 1, on_store at 1, zoom at 1.
  destruct (IncidentJournalStore.record_evidence_reevaluation _ _ _) as [r2 st2] eqn:Hree. intros H.
  assert (s' = set_store st2 (set_store st s1)) as -> by (destruct r2; by injection H as _ <-).
  split_and!; [done|done|]. right. exists item, cur, e. do 2 eexists. split_and!; [done..|]. right. do 2 eexists. exact Hree.
Qed.

(** ** Executions of the service *)

(** A step of the life of [item]: its registration in the state its retention
    gives, or a transition that is allowed, expiry only once its rights have
    expired, deletion only with a proof. *)
Definition legal_step (item : EvidenceItem.t) (e : EvidenceLifecycleEvent.t) : Prop :=
  let to := EvidenceLifecycleEvent.to_state e in
  EvidenceLifecycleEvent.incident_id e = EvidenceItem.incident_id item /\
  match EvidenceLifecycleEvent.from_state e with
  | None => EvidenceLifecycleEvent.action e = EvidenceLifecycleAction.REGISTER /\ to = initial_content_state item
  | Some from =>
      to ∈ LEGAL_TRANSITIONS from /\ ACTION_FOR_STATE to = Ok (EvidenceLifecycleEvent.action e) /\
      (to = EvidenceContentState.EXPIRED ->
       exists t, EvidenceItem.rights_expires_at item = Some t /\ t <= EvidenceLifecycleEvent.created_at e) /\
      (to = EvidenceContentState.DELETED -> exists proof,
        EvidenceLifecycleEvent.deletion_proof_sha256 e = Some proof /\ is_sha256_hex proof = true)
  end.

Definition all_legal (st : IncidentJournalStore.t) : Prop :=
  forall e, e ∈ IncidentJournalStore.lifecycle_events st ->
  exists item, evidence_by_id (EvidenceLifecycleEvent.evidence_id e) st = Some item /\ legal_step item e.

Record sound (st : IncidentJournalStore.t) : Prop := { sd_reachable : reachable st; sd_legal : all_legal st }.

Lemma legal_rows st st' : same_rows st st' -> all_legal st -> all_legal st'.
Proof. intros [Hl Hi] H e He. rewrite Hl in He. destruct (H e He) as (x & ? & ?). exists x. unfold evidence_by_id in *. by rewrite Hi. Qed.

Lemma sound_step st st' : step st st' -> same_rows st st' -> sound st -> sound st'.
Proof. intros Hs Hr [Hre Hl]. split; [|by eapply legal_rows]. by eapply rtc_r. Qed.

Lemma register_legal item e st st' :
  adds_item item st st' -> registers item e ->
  IncidentJournalStore.lifecycle_events st' = IncidentJournalStore.lifecycle_events st ++ [e] ->
  all_legal st -> all_legal st'.
Proof.
  intros Ha (Hid & Hinc & Hact & Hfrom & Hto) Hl H x Hx. rewrite Hl in Hx.
  apply elem_of_app in Hx as [Hx|Hx].
  - destruct (H x Hx) as (y & Hy & ?). exists y. split; [by eapply item_stays|done].
  - apply list_elem_of_singleton in Hx. subst x. exists item. rewrite Hid. split; [by eapply item_added|].
    unfold legal_step. rewrite Hfrom. done.
Qed.

(** A piece of evidence that is recorded without a lifecycle event. *)
Lemma item_legal item st st' :
  adds_item item st st' -> IncidentJournalStore.lifecycle_events st' = IncidentJournalStore.lifecycle_events st ->
  all_legal st -> all_legal st'.
Proof. intros Ha Hl H x Hx. rewrite Hl in Hx. destruct (H x Hx) as (y & Hy & ?). exists y. split; [by eapply item_stays|done]. Qed.

Lemma record_evidence_sound item id st r st' :
  IncidentJournalStore.record_evidence store_sha256 item id st = (r, st') -> sound st -> sound st'.
Proof.
  intros H Hs. assert (Hst : step st st') by (eapply (step_of _ (RecordEvidence item id)); done).
  destruct Hs as [Hre Hl]. split; [by eapply rtc_r|].
  apply record_evidence_run in H as [H|(Ha & [Hle|(e & He & _ & Hle)])];
    eauto using legal_rows, item_legal, register_legal.
Qed.

Lemma deletion_proof_given e :
  EvidenceLifecycleEvent.validate e = Ok e ->
  ACTION_FOR_STATE (EvidenceLifecycleEvent.to_state e) = Ok (EvidenceLifecycleEvent.action e) ->
  EvidenceLifecycleEvent.to_state e = EvidenceContentState.DELETED ->
  exists proof, EvidenceLifecycleEvent.deletion_proof_sha256 e = Some proof /\ is_sha256_hex proof = true.
Proof.
  unfold EvidenceLifecycleEvent.validate. intros H Ha Ht. rewrite Ht in Ha. injection Ha as Ha.
  do 3 apply rbind_ok in H as ([] & _ & H). apply rbind_ok in H as ([] & H1%check_ok & H).
  apply rbind_ok in H as ([] & H2%check_ok & _). rewrite <- Ha in H1. apply negb_false_iff in H2.
  destruct (EvidenceLifecycleEvent.deletion_proof_sha256 e) as [proof|]; [|done]. by exists proof.
Qed.

Lemma planned_legal item current to now eid e st st' :
  planned item current to now eid e -> linked st e -> adds_event e st st' ->
  evidence_by_id (EvidenceItem.evidence_id item) st = Some item -> all_legal st -> all_legal st'.
Proof.
  intros [_ Hid Hfrom Hto Hleg Hact Hat Hexp Hval _] (x & Hx & Hinc) (_ & Hl & Hi) Hitem H y Hy. rewrite Hl in Hy.
  assert (x = item) as -> by (rewrite Hid in Hx; congruence). clear Hx.
  apply elem_of_app in Hy as [Hy|Hy].
  - destruct (H y Hy) as (z & ? & ?). exists z. unfold evidence_by_id in *. by rewrite Hi.
  - apply list_elem_of_singleton in Hy. subst y. exists item. unfold evidence_by_id in *. rewrite Hi, Hid. split; [exact Hitem|].
    unfold legal_step. rewrite Hfrom. split; [done|]. rewrite Hto, Hat. split_and!; [done..|].
    intros Hd. apply deletion_proof_given; [done| |]; by rewrite Hto.
Qed.

Lemma transition_sound id to now eid ck s s' : writes id to now eid ck s s' -> sound (store s) -> sound (store s').
Proof.
  intros (_ & _ & [->|(item & cur & e & r1 & st & Hitem & _ & Hp & Hr & Hs)]) H; [done|].
  assert (Hmid : sound st).
  { pose proof H as [Hre Hl]. assert (Hst : step (store s) st).
    { eapply (step_of _ (RecordEvidenceLifecycle e)); [apply (pl_valid _ _ _ _ _ _ Hp)|done|exact Hr]. }
    apply record_evidence_lifecycle_run in Hr as [Hr|[Hlk Hr]]; [by eapply sound_step|].
    split; [by eapply rtc_r|]. eapply planned_legal; try done.
    rewrite (item_of_id _ _ _ Hitem). apply item_of_ok; [by eapply reachable_evidence|done]. }
  destruct Hs as [->|(record & r2 & Hs)]; [done|].
  eapply sound_step; [| |exact Hmid]; [by eapply (step_of _ (RecordEvidenceReevaluation record))|].
  eapply (other_rows store_sha256 (RecordEvidenceReevaluation record) eq_refl st (void_result r2)).
  unfold JournalTheorems.exec, void, bind. rewrite Hs. by destruct r2.
Qed.

(** What an ingestion does: it is refused and nothing changes, or the catalog
    may name the content, and the item is recorded with a family. *)
Lemma ingestion_run item id now s r s' :
  ingest item id now s = (r, s') ->
  disposition s' = disposition s /\
  (store s' = store s /\ is_ok r = false \/
   exists family r1, IncidentJournalStore.record_evidence store_sha256 (EvidenceItem.set_family_id (Some family) item) id
     (store s) = (r1, store s') /\ r = r1).
Proof.
  unfold EvidenceTrustService.ingest, bind at 1, get at 1. unfold bind at 1, raise_if at 1.
  destruct (match disposition s with Some _ => _ | None => _ end); [intros [= <- <-]; split; [done|by left]|].
  unfold ret at 1. unfold bind at 1, raise_if at 1. destruct (negb _); [intros [= <- <-]; split; [done|by left]|].
  unfold ret at 1. cbv zeta. match goal with |- context [EvidenceItem.set_family_id (Some ?f) item] => generalize f; intros family end.
  unfold bind at 1. match goal with |- context [match ?m s with _ => _ end] => set (files := m) end.
  assert (Hf : forall q s1, files s = (q, s1) -> store s1 = store s /\ disposition s1 = disposition s).
  { intros q s1. subst files. destruct (artifacts s) as [a|]; [|unfold ret; by intros [= _ <-]].
    destruct (ContentAddressedArtifactStore.files a !! _); [|unfold ret; by intros [= _ <-]]. unfold bind, lift, ret.
    destruct (ArtifactScope.validate _); [|by intros [= _ <-]]. unfold on_artifacts, zoom.
    destruct (ArtifactCatalog.register _ _ _ _ _ _ _ _ _ _ _ _ _) as [[|] a2]; by intros [= _ <-]. }
  destruct (files s) as [[[]|exc] s1]; destruct (Hf _ _ eq_refl) as [Hst Hdi]; clear Hf;
    [|intros [= <- <-]; split; [done|by left]].
  intros (st & H & ->)%store_call_run. rewrite Hst in H. split; [done|]. right. by exists family, r.
Qed.

Lemma expire_items_sound items now actor fresh ck s r s' :
  expire_items items now actor fresh ck s = (r, s') -> sound (store s) -> sound (store s').
Proof.
  revert s r s'. induction items as [|item items IH]; intros s r s'; cbn [EvidenceTrustService.expire_items].
  { by intros [= _ <-]. }
  cbv zeta. destruct (match EvidenceItem.rights_expires_at item with None => true | Some e => now <? e end); [apply IH|].
  unfold bind at 1, get at 1. unfold bind at 1, lift at 1.
  destruct (lifecycle (EvidenceItem.evidence_id item) _ s) as [cur|exc] eqn:Hc; [|by intros [= _ <-]].
  destruct (bool_decide _); [|apply IH]. unfold bind at 1.
  destruct (EvidenceTrustService.transition _ _ _ _ _ _ _ _ _ _ _ _ _ _ _ s) as [[p|exc] s1] eqn:Ht;
    apply transition_run in Ht; intros H Hs; apply (transition_sound _ _ _ _ _ _ _ Ht) in Hs;
    [|by injection H as _ <-].
  unfold bind in H. destruct (expire_items _ _ _ _ _ s1) as [[rest|exc] s2] eqn:He;
    apply IH in He; try done; by injection H as _ <-.
Qed.

(** One constructor per operation of the service, and the operations other
    components perform on the stores they share with it. *)
Inductive action : Type :=
  | Ingest (item : EvidenceItem.t) (lifecycle_event_id : UUID) (now : datetime)
  | Transition (evidence_id : UUID) (to_state : EvidenceContentState.t) (expected_version : Z) (actor reason : string)
      (now : datetime) (redaction_profile_id : option string) (event_id reevaluation_id : UUID) (clock : clocks)
  | EnforceExpiry (now : datetime) (actor : string) (fresh : UUID -> UUID * UUID) (clock : UUID -> clocks)
  | CreateClaim (claim : ClaimNode.t)
  | Link (l : ClaimEvidenceLink.t)
  | StoreOp (o : JournalTheorems.op)
  | ArtifactOp (m : M ContentAddressedArtifactStore.t unit)
  | DispositionOp (m : M PrivacyDispositionService.t unit).

Definition exec (a : action) : M t unit :=
  match a with
  | Ingest item id now => void (ingest item id now)
  | Transition id to v actor reason now prof eid rid ck =>
      void (transition id to v actor reason now prof eid rid ck)
  | EnforceExpiry now actor fresh ck => void (enforce_rights_expiry now actor fresh ck)
  | CreateClaim claim => void (create_claim claim)
  | Link l => void (link l)
  | StoreOp o => on_store (JournalTheorems.exec store_sha256 o)
  | ArtifactOp m => let! s := get in
      match artifacts s with None => ret tt | Some a => on_artifacts a m end
  | DispositionOp m => let! s := get in
      match disposition s with None => ret tt | Some d => zoom (fun _ => d) set_disposition_service m end
  end.

(** Evidence is written by the service alone. *)
Definition action_valid (a : action) : Prop :=
  match a with StoreOp o => op_valid o /\ on_evidence o = false | _ => True end.

Definition run (l : list action) (s : t) : t := foldl (fun s a => (exec a s).2) s l.

Lemma exec_sound a s r s' : action_valid a -> exec a s = (r, s') -> sound (store s) -> sound (store s').
Proof.
  destruct a; cbn [action_valid]; unfold exec; intros Hv H Hs; try apply void_run in H as (r1 & H & _).
  - apply ingestion_run in H as (_ & [[-> _]|(family & r2 & H & _)]); [done|by eapply record_evidence_sound].
  - by eapply transition_sound; [eapply transition_run|].
  - unfold EvidenceTrustService.enforce_rights_expiry, bind, get in H. by eapply expire_items_sound.
  - unfold EvidenceTrustService.create_claim, bind at 1, get at 1 in H. unfold bind, raise_if in H.
    destruct (negb _); [by injection H as _ <-|]. apply store_call_run in H as (st & H & ->).
    eapply sound_step; [| |done]; [by eapply (step_of _ (RecordClaim claim))|].
    eapply (other_rows store_sha256 (RecordClaim claim) eq_refl _ (void_result r1)).
    unfold JournalTheorems.exec, void, bind. cbn [store set_store]. rewrite H. by destruct r1.
  - apply store_call_run in H as (st & H & ->).
    eapply sound_step; [| |done]; [by eapply (step_of _ (RecordClaimLink l))|].
    eapply (other_rows store_sha256 (RecordClaimLink l) eq_refl _ (void_result r1)).
    unfold JournalTheorems.exec, void, bind. cbn [store set_store]. rewrite H. by destruct r1.
  - apply store_call_run in H as (st & H & ->). destruct Hv as [Ho He].
    eapply sound_step; [| |done]; [by exists o, r|]. by eapply other_rows.
  - unfold bind, get in H. destruct (artifacts s); [|by injection H as _ <-].
    unfold on_artifacts, zoom in H. destruct (m t0). by injection H as _ <-.
  - unfold bind, get in H. destruct (disposition s); [|by injection H as _ <-].
    unfold zoom in H. destruct (m t0). by injection H as _ <-.
Qed.

Lemma run_sound l s : Forall action_valid l -> sound (store s) -> sound (store (run l s)).
Proof.
  revert s. induction l as [|a l IH]; intros s; [done|]. intros [Ha Hl]%List.Forall_cons_iff Hs.
  cbn. apply IH; [done|]. destruct (exec a s) as [r s'] eqn:E. cbn. by eapply exec_sound.
Qed.

Lemma init_sound : sound IncidentJournalStore.init.
Proof. split; [apply rtc_refl|]. by intros e He%not_elem_of_nil. Qed.

Lemma deletion_is_last item v st l i e :
  chain v st l -> Forall (legal_step item) l -> l !! i = Some e ->
  EvidenceLifecycleEvent.to_state e = EvidenceContentState.DELETED -> S i = length l.
Proof.
  intros Hc Hl Hi Hd. pose proof (lookup_lt_Some _ _ _ Hi). destruct (l !! S i) as [x|] eqn:Hx;
    [|apply lookup_ge_None in Hx; lia].
  destruct (chain_lookup _ _ _ _ _ Hc Hx) as (_ & _ & Hf). rewrite (take_S_r _ _ _ Hi) in Hf.
  unfold chain_end in Hf. rewrite last_snoc in Hf. cbn in Hf. rewrite Hd in Hf.
  apply (Forall_in _ _ x) in Hl; [|by eapply list_elem_of_lookup_2]. unfold legal_step in Hl. rewrite Hf in Hl.
  destruct Hl as (_ & Hl & _). by apply not_elem_of_nil in Hl.
Qed.

Lemma sound_life st id item :
  sound st -> evidence_by_id id st = Some item ->
  chain 0 None (lifecycle_of id st) /\ Forall (legal_step item) (lifecycle_of id st).
Proof.
  intros [Hre Hl] Hitem. pose proof (reachable_lifecycles _ _ Hre) as Hc. rewrite lifecycle_of_events by done.
  split; [apply Hc|]. apply Forall_forall. intros e [He Hid]%elem_of_events_of.
  destruct (Hl e He) as (x & Hx & ?). rewrite Hid in Hx. congruence.
Qed.

(** C13: evidence lives legally.  In every execution of the service, whatever
    other components do to the stores it shares, the events of a piece of
    evidence form a gapless chain that starts with its registration, follows
    the transition table, expires only after the rights have expired, deletes
    only with a digest that proves it, and has nothing after a deletion. *)
Theorem evidence_life_legal l a d id item :
  let st := store (run l (mk IncidentJournalStore.init a d)) in
  Forall action_valid l -> evidence_by_id id st = Some item ->
  chain 0 None (lifecycle_of id st) /\ Forall (legal_step item) (lifecycle_of id st) /\
  forall i e, lifecycle_of id st !! i = Some e ->
    EvidenceLifecycleEvent.to_state e = EvidenceContentState.DELETED -> S i = length (lifecycle_of id st).
Proof.
  intros st Hl Hitem. destruct (sound_life st id item) as [Hc Hleg]; [by apply run_sound, init_sound|done|].
  split_and!; [done..|]. intros i e Hi Hd. by eapply deletion_is_last.
Qed.

(** ** Families and what the evidence says *)
Lemma filter_key_cons {A} (key : A -> option string) x items k (ks : list string) :
  key x = Some k -> k ∉ ks ->
  (fun k => List.filter (fun i => bool_decide (key i = Some k)) (x :: items)) <$> ks =
  (fun k => List.filter (fun i => bool_decide (key i = Some k)) items) <$> ks.
Proof.
  intros Hk Hn. apply list_fmap_ext. intros i k' Hi. cbn. rewrite bool_decide_eq_false_2; [done|].
  intros Heq. apply Hn. apply list_elem_of_lookup_2 in Hi. congruence.
Qed.

Lemma concat_by_key {A} (key : A -> option string) (ks : list string) items :
  NoDup ks -> (forall i, i ∈ items -> exists k, key i = Some k /\ k ∈ ks) ->
  concat ((fun k => List.filter (fun i => bool_decide (key i = Some k)) items) <$> ks) ≡ₚ items.
Proof.
  intros Hnd. induction items as [|x items IH]; intros Hin.
  - clear Hnd Hin. by induction ks as [|k ks IHk].
  - destruct (Hin x) as (k & Hk & Hks); [left|].
    etrans; [|apply perm_skip, IH; intros i Hi; apply Hin; by right]. clear IH Hin.
    apply list_elem_of_split in Hks as (l1 & l2 & ->).
    apply NoDup_app in Hnd as (_ & Hn1 & [Hn2 _]%NoDup_cons).
    rewrite !fmap_app, !concat_app, !fmap_cons. cbn [concat].
    rewrite (filter_key_cons _ _ _ _ l1 Hk) by (intros Hk1; apply (Hn1 k Hk1); left).
    rewrite (filter_key_cons _ _ _ _ l2 Hk) by done.
    cbn [List.filter]. rewrite bool_decide_eq_true_2 by done. cbn. symmetry. apply Permutation_middle.
Qed.

Lemma rmap_Forall2 {A B} (f : A -> res B) l k :
  rmap f l = Ok k -> Forall2 (fun x y => f x = Ok y) l k.
Proof.
  revert k. induction l as [|x l IH]; intros k; cbn; [intros [= <-]; constructor|].
  intros (y & Hy & (ys & Hys & [= <-])%rbind_ok)%rbind_ok. constructor; auto.
Qed.

Lemma family_summary_ok incident items family f :
  family_summary incident items family = Ok f ->
  EvidenceFamilySummary.family_id f = family /\
  EvidenceFamilySummary.evidence_ids f = EvidenceItem.evidence_id <$> family_members family items /\
  EvidenceFamilySummary.independence_units f =
    1 + Z.of_nat (length (List.filter EvidenceItem.independent_origin_proven (family_members family items))).
Proof.
  unfold family_summary, EvidenceFamilySummary.validate. intros ([] & _ & [= <-])%rbind_ok. done.
Qed.

Definition total (l : list Z) : Z := foldr Z.add 0 l.

Lemma length_filter_concat {A} (p : A -> bool) (ls : list (list A)) :
  total ((fun l => Z.of_nat (length (List.filter p l))) <$> ls) = Z.of_nat (length (List.filter p (concat ls))).
Proof.
  induction ls as [|l ls IH]; [done|]. cbn. rewrite List.filter_app, length_app. unfold total in *. cbn in IH. lia.
Qed.

Lemma total_units incident items families fs :
  Forall2 (fun family f => family_summary incident items family = Ok f) families fs ->
  total (EvidenceFamilySummary.independence_units <$> fs) =
  Z.of_nat (length fs) +
  total ((fun l => Z.of_nat (length (List.filter EvidenceItem.independent_origin_proven l)))
         <$> ((fun k => family_members k items) <$> families)).
Proof.
  induction 1 as [|family f families fs Hf _ IH]; [done|]. apply family_summary_ok in Hf as (_ & _ & Hu).
  cbn [fmap list_fmap length]. unfold total in *. cbn [foldr]. rewrite Hu, IH. cbn [fmap list_fmap]. lia.
Qed.

(** The families of an incident partition its evidence: each piece is counted
    in exactly one summary, families are distinct, and the units of
    independence are one for each family and one for each piece of evidence
    whose origin is proven independent. *)
Lemma families_partition incident s fs :
  families incident s = Ok fs ->
  let items := IncidentJournalStore.evidence (Some incident) (store s) in
  NoDup (EvidenceFamilySummary.family_id <$> fs) /\
  concat (EvidenceFamilySummary.evidence_ids <$> fs) ≡ₚ EvidenceItem.evidence_id <$> items /\
  foldr Z.add 0 (EvidenceFamilySummary.independence_units <$> fs) =
    Z.of_nat (length fs) + Z.of_nat (length (List.filter EvidenceItem.independent_origin_proven items)).
Proof.
  unfold families. cbv zeta. set (items := IncidentJournalStore.evidence _ _).
  intros ([] & Hall%check_ok & H%rmap_Forall2)%rbind_ok. set (keys := sorted_set _) in H.
  assert (Hin : forall i, i ∈ items -> exists k, EvidenceItem.family_id i = Some k /\ k ∈ keys).
  { intros i Hi. destruct (EvidenceItem.family_id i) as [k|] eqn:Hk.
    - exists k. split; [done|]. unfold keys. rewrite elem_of_sorted_set. apply list_elem_of_omap. eauto.
    - assert (existsb (fun i => bool_decide (EvidenceItem.family_id i = None)) items = true); [|congruence].
      apply List.existsb_exists. exists i. split; [by apply list_elem_of_In|]. by apply bool_decide_eq_true. }
  pose proof (concat_by_key EvidenceItem.family_id keys items (NoDup_sorted_set _) Hin) as Hperm.
  change (fun k => List.filter (fun i => bool_decide (EvidenceItem.family_id i = Some k)) items)
    with (fun k => family_members k items) in Hperm.
  assert (Hids : EvidenceFamilySummary.family_id <$> fs = keys /\ EvidenceFamilySummary.evidence_ids <$> fs =
    (fmap EvidenceItem.evidence_id) <$> ((fun k => family_members k items) <$> keys)).
  { clear -H. induction H as [|k f keys fs Hf _ [IH1 IH2]]; [done|]. apply family_summary_ok in Hf as (H1 & H2 & _).
    cbn. rewrite IH1, IH2, H1, H2. done. }
  destruct Hids as [-> ->]. split; [apply NoDup_sorted_set|]. split.
  - etrans; [|apply (fmap_Permutation EvidenceItem.evidence_id), Hperm]. rewrite <- List.concat_map. done.
  - pose proof (total_units _ _ _ _ H) as Ht. rewrite length_filter_concat in Ht. unfold total in Ht. rewrite Ht.
    do 2 f_equal. apply Permutation_length, filter_permutation, Hperm.
Qed.

(** Whether a link counts, and how many of [links] satisfy [p]. *)
Definition eligible clock s (l : ClaimEvidenceLink.t) : bool :=
  match lifecycle (ClaimEvidenceLink.evidence_id l) (clock (ClaimEvidenceLink.link_id l)) s with
  | Ok projection => EvidenceLifecycleProjection.claim_eligible projection
  | Raise _ => false
  end.
Definition says relation (l : ClaimEvidenceLink.t) : bool := bool_decide (ClaimEvidenceLink.relation l = relation).
Definition number (p : ClaimEvidenceLink.t -> bool) (links : list ClaimEvidenceLink.t) : Z :=
  Z.of_nat (length (List.filter p links)).

Lemma number_cons p l links : number p (l :: links) = (if p l then 1 else 0) + number p links.
Proof. unfold number. cbn. destruct (p l); cbn [length]; lia. Qed.

Lemma count_links_spec links clock s c c' :
  count_links links clock s c = Ok c' ->
  active_supports c' = active_supports c
    + number (fun l => eligible clock s l && says ClaimEvidenceRelation.SUPPORTS l) links /\
  active_contradictions c' = active_contradictions c
    + number (fun l => eligible clock s l && says ClaimEvidenceRelation.CONTRADICTS l) links /\
  invalidated c' = invalidated c + number (fun l => negb (eligible clock s l)) links.
Proof.
  revert c. induction links as [|l links IH]; intros c; cbn [count_links].
  { intros [= <-]. unfold number. cbn. lia. }
  intros (p & Hp & (IH1 & IH2 & IH3)%IH)%rbind_ok. rewrite IH1, IH2, IH3, !number_cons.
  assert (Hel : eligible clock s l = EvidenceLifecycleProjection.claim_eligible p) by (unfold eligible; by rewrite Hp).
  rewrite Hel. unfold count_link, says. destruct (EvidenceLifecycleProjection.claim_eligible p); cbn; [|lia].
  destruct (ClaimEvidenceLink.relation l); repeat case_bool_decide; try done; cbn; lia.
Qed.

(** What a trust snapshot says is what the store holds.  It counts the
    supporting and contradicting links whose evidence is eligible now and the
    links whose evidence is not, its units of independence are the families and
    the proven independent origins, and it calls an incident corroborated
    exactly when no eligible evidence contradicts, two eligible links support
    and there are two units of independence. *)
Theorem trust_snapshot_accounts incident clock s t :
  trust_snapshot incident clock s = Ok t ->
  let items := IncidentJournalStore.evidence (Some incident) (store s) in
  let links := IncidentJournalStore.claim_links (Some incident) (store s) in
  let supports := number (fun l => eligible clock s l && says ClaimEvidenceRelation.SUPPORTS l) links in
  let contradicts := number (fun l => eligible clock s l && says ClaimEvidenceRelation.CONTRADICTS l) links in
  TrustDimensionSnapshot.supporting_links t = supports /\
  TrustDimensionSnapshot.contradictory_links t = contradicts /\
  TrustDimensionSnapshot.invalidated_links t = number (fun l => negb (eligible clock s l)) links /\
  TrustDimensionSnapshot.independence_units t = TrustDimensionSnapshot.evidence_families t
    + Z.of_nat (length (List.filter EvidenceItem.independent_origin_proven items)) /\
  (TrustDimensionSnapshot.summary_band t = "corroborated" <->
   items <> [] /\ contradicts = 0 /\ 2 <= supports /\ 2 <= TrustDimensionSnapshot.independence_units t).
Proof.
  unfold trust_snapshot. cbv zeta. set (items := IncidentJournalStore.evidence _ _).
  set (links := IncidentJournalStore.claim_links _ _). intros (fs & Hfs & (c & Hc & H)%rbind_ok)%rbind_ok.
  unfold TrustDimensionSnapshot.validate in H. apply rbind_ok in H as ([] & _ & [= <-]). cbn.
  apply count_links_spec in Hc as (Hs & Hk & Hi). cbn in Hs, Hk, Hi. rewrite Hs, Hk, Hi.
  assert (Hu : foldr Z.add 0 (EvidenceFamilySummary.independence_units <$> fs) = Z.of_nat (length fs)
    + Z.of_nat (length (List.filter EvidenceItem.independent_origin_proven items))).
  { by apply (families_partition incident s fs). }
  rewrite Hu. split_and!; try lia. unfold summary_band. rewrite Hs, Hk.
  case_bool_decide as He; [split; [done|by intros [? _]]|]. destruct (negb (_ =? 0)) eqn:Hk0; [split; [done|lia]|].
  destruct ((2 <=? _) && (2 <=? _)) eqn:H2; [split; [intros _; repeat split; try done; lia|done]|].
  repeat match goal with |- context [if ?b then _ else _] => destruct b eqn:? end; (split; [done|lia]).
Qed.

(** ** Withdrawn consent *)

(** C25: after a subject has withdrawn consent, nothing is ingested about it on
    the basis of consent: whatever is done to the disposition service that does
    not document another basis for the subject, the ingestion is refused and
    changes nothing. *)
Theorem withdrawn_consent_blocks_ingestion ids subject basis actor reason deadline legal expires at_ d req d1 ops s item
    id now :
  PrivacyDispositionService.create_request float_repr isoformat json_time sha256 uuid5 store_sha256
    DispositionAction.CONSENT_WITHDRAWAL ids subject basis actor reason deadline legal expires at_ d = (Ok req, d1) ->
  PrivacyDispositionService.find_request (DispositionRequest.request_id req) d = None ->
  (forall o, o ∈ ops -> ~ documents sha256 (PrivacyDispositionService.subject_digest sha256 subject) o) ->
  disposition s = Some (DispositionTheorems.run float_repr isoformat json_time sha256 uuid5 store_sha256 ops d1) ->
  EvidenceItem.subject_ref item = Some subject -> EvidenceItem.processing_basis item = "consent" ->
  ingest item id now s = (Raise (ValueError "future processing blocked by consent withdrawal"), s).
Proof.
  intros Hreq Hnew Hops Hd Hs Hb. apply withdrawal_blocks in Hreq; [|done].
  apply (run_blocked float_repr isoformat json_time sha256 uuid5 store_sha256 _ _ _ Hops) in Hreq.
  unfold EvidenceTrustService.ingest, bind at 1, get at 1. rewrite Hd, Hs. unfold bind at 1, raise_if at 1.
  destruct Hreq as (b & Hb1 & Hb2). unfold PrivacyDispositionService.processing_allowed. rewrite Hb1, Hb.
  rewrite bool_decide_eq_true_2 by done. cbn [negb]. by rewrite Hb2.
Qed.
End Evidence.

(** ** A concrete service *)
Definition demo_digest : string -> string := ArtifactTheorems.demo_sha256.
Definition demo_name : string -> UUID := ArtifactTheorems.demo_uuid5.
Definition demo_at : datetime -> string := ArtifactTheorems.demo_time.
Notation demo_store_sha256 := JournalTheorems.demo_sha256.
Notation demo_evidence_run := (run demo_repr demo_at demo_at demo_digest demo_name demo_store_sha256).
Notation demo_disposition_run :=
  (DispositionTheorems.run demo_repr demo_at demo_at demo_digest demo_name demo_store_sha256).
Definition demo_clock (at_ : datetime) : clocks := mkClocks at_ at_ (fun _ => at_).

(** Registration, redaction, deletion, and an expiry that comes too late. *)
Definition demo_life : list action :=
  [StoreOp (AppendIncident (demo_incident 1 IncidentState.WATCH) None);
   Ingest demo_evidence "lc-1" 12;
   Transition "evidence-1" EvidenceContentState.REDACTED 1 "officer" "faces" 20 (Some "blur") "lc-2" "re-1"
     (demo_clock 20);
   Transition "evidence-1" EvidenceContentState.DELETED 2 "officer" "erasure" 30 None "lc-3" "re-2" (demo_clock 30);
   Transition "evidence-1" EvidenceContentState.EXPIRED 3 "officer" "retention" 40 None "lc-4" "re-3" (demo_clock 40)].

Lemma demo_life_valid : Forall action_valid demo_life.
Proof. repeat constructor. Qed.

Lemma demo_life_recorded :
  exists item, IncidentJournalStore.evidence_by_id "evidence-1"
    (store (demo_evidence_run demo_life (mk IncidentJournalStore.init None None))) = Some item.
Proof. eexists. vm_compute. reflexivity. Qed.

Lemma evidence_life_legal_witness :
  let st := store (demo_evidence_run demo_life (mk IncidentJournalStore.init None None)) in
  (EvidenceLifecycleEvent.to_state <$> IncidentJournalStore.lifecycle_of "evidence-1" st)
    = [EvidenceContentState.AVAILABLE; EvidenceContentState.REDACTED; EvidenceContentState.DELETED] /\
  exists item, Forall (legal_step item) (IncidentJournalStore.lifecycle_of "evidence-1" st).
Proof.
  cbv zeta. split; [vm_compute; reflexivity|]. destruct demo_life_recorded as [item Hitem]. exists item.
  exact (proj1 (proj2 (evidence_life_legal demo_repr demo_at demo_at demo_digest demo_name demo_store_sha256
    demo_life None None "evidence-1" item demo_life_valid Hitem))).
Defined.

(** Two pieces of evidence with two origins that support one claim. *)
Definition demo_second : EvidenceItem.t :=
  {| EvidenceItem.evidence_id := "evidence-2"; EvidenceItem.incident_id := "incident-1";
     EvidenceItem.hazard := HazardKind.WILDFIRE; EvidenceItem.source_id := "tower";
     EvidenceItem.source_standing := SourceStanding.FIRST_PARTY; EvidenceItem.authority_role := "observer";
     EvidenceItem.media_integrity := MediaIntegrityState.UNKNOWN;
     EvidenceItem.extraction_confidence_state := ExtractionConfidenceState.UNKNOWN;
     EvidenceItem.extraction_confidence := None; EvidenceItem.freshness_state := HealthState.HEALTHY;
     EvidenceItem.claim_text := "smoke"; EvidenceItem.content_sha256 := "01";
     EvidenceItem.perceptual_hash := None; EvidenceItem.origin_key := "tower";
     EvidenceItem.family_id := None; EvidenceItem.parent_evidence_id := None;
     EvidenceItem.independent_origin_proven := false;
     EvidenceItem.retention_state := EvidenceRetentionState.RETAINED;
     EvidenceItem.parser_state := ParserIsolationState.NOT_REQUIRED;
     EvidenceItem.rights_basis := Some "consent"; EvidenceItem.rights_mode := Some EvidenceRightsMode.RETAIN_BYTES;
     EvidenceItem.rights_expires_at := None; EvidenceItem.modality := "image"; EvidenceItem.received_at := 13;
     EvidenceItem.reason_codes := []; EvidenceItem.person_identification_performed := false;
     EvidenceItem.subject_ref := Some "subject-1"; EvidenceItem.processing_basis := "consent" |}.
Definition demo_claim : ClaimNode.t :=
  {| ClaimNode.claim_id := "claim-1"; ClaimNode.incident_id := "incident-1"; ClaimNode.hazard := HazardKind.WILDFIRE;
     ClaimNode.statement := "smoke is visible"; ClaimNode.origin := ContentOrigin.SOURCE; ClaimNode.lineage := [];
     ClaimNode.model_id := None; ClaimNode.created_at := 14; ClaimNode.status := "open"; ClaimNode.reason_codes := [] |}.
Definition demo_link (id evidence : UUID) (at_ : datetime) : ClaimEvidenceLink.t :=
  {| ClaimEvidenceLink.link_id := id; ClaimEvidenceLink.claim_id := "claim-1"; ClaimEvidenceLink.evidence_id := evidence;
     ClaimEvidenceLink.relation := ClaimEvidenceRelation.SUPPORTS; ClaimEvidenceLink.created_at := at_;
     ClaimEvidenceLink.reason_codes := [] |}.
Definition demo_corroboration : list action :=
  [StoreOp (AppendIncident (demo_incident 1 IncidentState.WATCH) None);
   Ingest demo_evidence "lc-1" 12; Ingest demo_second "lc-2" 13; CreateClaim demo_claim;
   Link (demo_link "link-1" "evidence-1" 15); Link (demo_link "link-2" "evidence-2" 16)].
Definition demo_trust : t := demo_evidence_run demo_corroboration (mk IncidentJournalStore.init None None).

Lemma demo_trust_snapshot :
  exists t, trust_snapshot "incident-1" (fun _ => 20) demo_trust = Ok t /\
    TrustDimensionSnapshot.summary_band t = "corroborated".
Proof. eexists. split; vm_compute; reflexivity. Qed.

Lemma trust_snapshot_accounts_witness :
  exists t, trust_snapshot "incident-1" (fun _ => 20) demo_trust = Ok t /\
    2 <= TrustDimensionSnapshot.independence_units t.
Proof.
  destruct demo_trust_snapshot as (t & Ht & Hband). exists t. split; [exact Ht|].
  destruct (trust_snapshot_accounts "incident-1" (fun _ => 20) demo_trust t Ht) as (_ & _ & _ & _ & Hb).
  destruct (proj1 Hb Hband) as (_ & _ & _ & Hu). exact Hu.
Defined.

(** Once a piece expires or is deleted, its link no longer counts. *)
Example deleted_evidence_supports_nothing :
  let s := demo_evidence_run [Transition "evidence-2" EvidenceContentState.DELETED 1 "officer" "erasure" 30 None "lc-3"
             "re-1" (demo_clock 30)] demo_trust in
  match trust_snapshot "incident-1" (fun _ => 40) s with
  | Ok t => (TrustDimensionSnapshot.supporting_links t, TrustDimensionSnapshot.invalidated_links t,
             TrustDimensionSnapshot.summary_band t)
  | Raise _ => (0, 0, "")
  end = (1, 1, "supported_single_family").
Proof. vm_compute. reflexivity. Qed.

Definition demo_withdrawal : M PrivacyDispositionService.t DispositionRequest.t :=
  PrivacyDispositionService.create_request demo_repr demo_at demo_at demo_digest demo_name demo_store_sha256
    DispositionAction.CONSENT_WITHDRAWAL ["evidence-1"] "subject-1" "consent" "officer" "withdrawn" 1000 None None 20.
Definition demo_rights : PrivacyDispositionService.t := PrivacyDispositionService.init (Some demo_store).
Definition demo_other_basis : DispositionTheorems.op := DocumentBasis "subject-2" "vital interest" "officer" "review" 25.

Lemma demo_withdrawn : exists req d1, demo_withdrawal demo_rights = (Ok req, d1).
Proof. do 2 eexists. vm_compute. reflexivity. Qed.

Lemma demo_other_basis_undocumented o :
  o ∈ [demo_other_basis] -> ~ documents demo_digest (PrivacyDispositionService.subject_digest demo_digest "subject-1") o.
Proof. intros ->%list_elem_of_singleton. vm_compute. discriminate. Qed.

Lemma withdrawn_consent_blocks_ingestion_witness :
  exists d1, let s := mk IncidentJournalStore.init None (Some (demo_disposition_run [demo_other_basis] d1)) in
  (exists req, demo_withdrawal demo_rights = (Ok req, d1)) /\
  ingest demo_repr demo_at demo_digest demo_name demo_store_sha256 demo_second "lc-9" 30 s
    = (Raise (ValueError "future processing blocked by consent withdrawal"), s).
Proof.
  destruct demo_withdrawn as (req & d1 & H). exists d1. cbv zeta. split; [exists req; exact H|].
  exact (withdrawn_consent_blocks_ingestion demo_repr demo_at demo_at demo_digest demo_name demo_store_sha256
    ["evidence-1"] "subject-1" "consent" "officer" "withdrawn" 1000 None None 20 demo_rights req d1 [demo_other_basis]
    (mk IncidentJournalStore.init None (Some (demo_disposition_run [demo_other_basis] d1))) demo_second "lc-9" 30
    H eq_refl demo_other_basis_undocumented eq_refl eq_refl eq_refl).
Defined.

(** A piece of evidence that shares its content with one family and its origin
    with another joins the older one: the two families stay apart, and count
    as independent, although a chain of relations connects them. *)
Definition demo_bridge : EvidenceItem.t :=
  EvidenceItem.mk "evidence-3" "incident-1" HazardKind.WILDFIRE "tower" SourceStanding.FIRST_PARTY "observer"
    MediaIntegrityState.UNKNOWN ExtractionConfidenceState.UNKNOWN None HealthState.HEALTHY "smoke" "00" None "tower"
    None None false EvidenceRetentionState.RETAINED ParserIsolationState.NOT_REQUIRED (Some "consent")
    (Some EvidenceRightsMode.RETAIN_BYTES) None "image" 14 [] false None "basis".
Lemma bridged_families_stay_apart :
  related demo_bridge demo_evidence = true /\ related demo_bridge demo_second = true /\
  match trust_snapshot "incident-1" (fun _ => 20) (demo_evidence_run [Ingest demo_bridge "lc-3" 17] demo_trust) with
  | Ok t => (TrustDimensionSnapshot.independence_units t, TrustDimensionSnapshot.summary_band t)
  | Raise _ => (0, "")
  end = (2, "corroborated").
Proof. vm_compute. done. Qed.

(** The bytes are deleted before the event is validated: a deletion without a
    reason fails, the evidence is still available, and its content is gone. *)
Definition demo_content : string := "ember".
Definition demo_stored_evidence : EvidenceItem.t :=
  EvidenceItem.mk "evidence-1" "incident-1" HazardKind.WILDFIRE "tower" SourceStanding.FIRST_PARTY "observer"
    MediaIntegrityState.UNKNOWN ExtractionConfidenceState.UNKNOWN None HealthState.HEALTHY "smoke"
    (demo_digest demo_content) None "tower" None None false EvidenceRetentionState.RETAINED
    ParserIsolationState.NOT_REQUIRED (Some "consent") (Some EvidenceRightsMode.RETAIN_BYTES) None "image" 14 [] false
    None "basis".
Lemma deletion_precedes_validation :
  let stored := (ArtifactTheorems.demo_put_bytes demo_content (ArtifactPolicy.incident_evidence true) demo_init).2 in
  let s := demo_evidence_run
    [StoreOp (AppendIncident (demo_incident 1 IncidentState.WATCH) None); Ingest demo_stored_evidence "lc-1" 12]
    (mk IncidentJournalStore.init (Some stored) None) in
  let '(r, s') := transition demo_repr demo_at demo_digest demo_name demo_store_sha256 "evidence-1"
    EvidenceContentState.DELETED 1 "officer" " " 30 None "lc-2" "re-1" (demo_clock 30) s in
  let path := ContentAddressedArtifactStore.path_of (demo_digest demo_content) in
  r = Raise (ValidationError "evidence lifecycle event requires actor and reason") /\
  (artifacts s ≫= fun a => ContentAddressedArtifactStore.files a !! path) = Some demo_content /\
  (artifacts s' ≫= fun a => ContentAddressedArtifactStore.files a !! path) = None /\
  match lifecycle "evidence-1" 40 s' with
  | Ok p => EvidenceLifecycleProjection.readable p = true
  | Raise _ => False
  end.
Proof. vm_compute. done. Qed.
