(* ===== verification/ClosureTheorems.v ===== *)
(** What closing a disposition request promises: an erasure that reports
    completion has deleted every piece of evidence of the request, the bytes
    that were still there, and every copy the lineage names. *)

From Stdlib Require Import ZArith Lia ZifyBool.
From S2P Require Import Prelude Ordering Binary64 Enums Models Records CanonicalJson Artifacts ArtifactTheorems Journal.
From S2P Require Import JournalTheorems EvidenceRows Disposition DispositionTheorems Evidence EvidenceTheorems.
From S2P Require Import DispositionClosure Tombstones TombstoneTheorems.
Import DispositionClosure.
Open Scope Z_scope.

Notation files n := (ContentAddressedArtifactStore.files (artifacts n)).
Notation refs n := (ArtifactCatalog.artifact_references (ContentAddressedArtifactStore.catalog (artifacts n))).
Notation path_of := ContentAddressedArtifactStore.path_of.
Notation evidence_by_id := IncidentJournalStore.evidence_by_id.
Notation lifecycle_events := IncidentJournalStore.lifecycle_events.
Notation lifecycle := IncidentJournalStore.evidence_lifecycle_projection.

Section Closure.
Context (float_repr : f64 -> string) (isoformat json_time : datetime -> string).
Context (sha256 : string -> string) (uuid5 : string -> UUID) (store_sha256 : payload -> string).
Notation delete_digest := (ContentAddressedArtifactStore.delete_digest float_repr sha256 uuid5 isoformat).
Notation transition := (EvidenceTrustService.transition float_repr isoformat sha256 uuid5 store_sha256).
Notation dispose := (dispose float_repr isoformat sha256 uuid5).
Notation close_nodes := (close_nodes float_repr isoformat sha256 uuid5).
Notation erase_evidence := (erase_evidence float_repr isoformat sha256 uuid5 store_sha256).
Notation close_evidence := (close_evidence float_repr isoformat sha256 uuid5 store_sha256).
Notation close := (close float_repr isoformat json_time sha256 uuid5 store_sha256).
Notation sound := (sound store_sha256).

(** ** Evidence that is deleted *)
Definition deleted (id : UUID) (st : IncidentJournalStore.t) : Prop :=
  exists e, last (events_of id (lifecycle_events st)) = Some e /\
    EvidenceLifecycleEvent.to_state e = EvidenceContentState.DELETED.

Lemma sound_lifecycles st : sound st -> lifecycles_ok st.
Proof. intros [H _]. by eapply reachable_lifecycles. Qed.

Lemma projection_last id now st p :
  sound st -> lifecycle id now st = Ok p ->
  exists e item, last (events_of id (lifecycle_events st)) = Some e /\ evidence_by_id id st = Some item /\
    EvidenceLifecycleProjection.state p = EvidenceLifecycleEvent.to_state e.
Proof.
  intros Hs. unfold lifecycle. rewrite lifecycle_of_events by by apply sound_lifecycles.
  destruct (evidence_by_id id st) as [item|]; [|done].
  destruct (last _) as [e|]; [|done]. intros [= <-]. by exists e, item.
Qed.

(** An event that deletes is the last one. *)
Lemma deleting_event e st :
  sound st -> e ∈ lifecycle_events st -> EvidenceLifecycleEvent.to_state e = EvidenceContentState.DELETED ->
  deleted (EvidenceLifecycleEvent.evidence_id e) st.
Proof.
  intros Hs He Hd. pose proof Hs as [_ Hl]. destruct (Hl e He) as (item & Hitem & _).
  destruct (sound_life _ st _ item Hs Hitem) as [Hc Hleg].
  rewrite lifecycle_of_events in Hc, Hleg by by apply sound_lifecycles.
  assert (Hin : e ∈ events_of (EvidenceLifecycleEvent.evidence_id e) (lifecycle_events st)) by by apply elem_of_events_of.
  apply list_elem_of_lookup_1 in Hin as [i Hi]. exists e. split; [|done]. rewrite last_lookup, <- Hi. f_equal.
  pose proof (deletion_is_last item _ _ _ i e Hc Hleg Hi Hd). lia.
Qed.

Lemma deleted_event id st :
  deleted id st -> exists e, e ∈ lifecycle_events st /\ EvidenceLifecycleEvent.evidence_id e = id /\
    EvidenceLifecycleEvent.to_state e = EvidenceContentState.DELETED.
Proof.
  intros (e & He & Hd). rewrite last_lookup in He. apply list_elem_of_lookup_2, elem_of_events_of in He as [? ?]. eauto.
Qed.

Lemma classic_deleted id st : deleted id st \/ ~ deleted id st.
Proof.
  unfold deleted. destruct (last _) as [e|]; [|right; by intros (x & [=] & _)].
  destruct (decide (EvidenceLifecycleEvent.to_state e = EvidenceContentState.DELETED)) as [H|H]; [left; eauto|right].
  by intros (x & [= <-] & ?).
Qed.

Lemma deleted_stays id st st' :
  sound st' -> lifecycle_events st `prefix_of` lifecycle_events st' -> deleted id st -> deleted id st'.
Proof.
  intros Hs [l Hl] (e & He & <- & Hd)%deleted_event. apply deleting_event; [done| |done].
  rewrite Hl. apply elem_of_app. by left.
Qed.

(** The evidence service registers evidence first, as the tombstone journal
    assumes. *)
Lemma service_registers_first st : sound st -> registers_first st.
Proof.
  intros Hs e He Hreg. pose proof Hs as [_ Hl]. destruct (Hl e He) as (item & _ & _ & Hstep).
  unfold is_register in Hreg. apply bool_decide_eq_true in Hreg.
  destruct (EvidenceLifecycleEvent.from_state e) as [from|] eqn:Hf.
  { destruct Hstep as (_ & Hact & _). rewrite Hreg in Hact.
    by destruct (EvidenceLifecycleEvent.to_state e). }
  assert (Hin : e ∈ events_of (EvidenceLifecycleEvent.evidence_id e) (lifecycle_events st)) by by apply elem_of_events_of.
  apply list_elem_of_lookup_1 in Hin as [i Hi].
  destruct (chain_lookup _ _ _ _ _ (sound_lifecycles _ Hs _) Hi) as (_ & -> & Hfrom). rewrite Hf in Hfrom.
  destruct i as [|i]; [done|]. unfold chain_end in Hfrom.
  destruct (events_of _ _) as [|x l]; [done|]. cbn [take] in Hfrom. by destruct (last (x :: take i l)) eqn:E; [|apply last_None in E].
Qed.

(** ** Progress of a closure

    The incident store stays sound and gains only deletions under the
    identifiers given for the evidence, the artifact store gains no file and no
    reference, the nodes and the receipts are left alone, and no request comes or goes. *)
Definition by_closure (fresh : UUID -> UUID * UUID) (e : EvidenceLifecycleEvent.t) : Prop :=
  EvidenceLifecycleEvent.to_state e = EvidenceContentState.DELETED /\
  EvidenceLifecycleEvent.lifecycle_event_id e = (fresh (EvidenceLifecycleEvent.evidence_id e)).1.

Definition request_ids (d : PrivacyDispositionService.t) : list UUID :=
  DispositionRequest.request_id <$> PrivacyDispositionService.disposition_requests d.

Record same_tables (d d' : PrivacyDispositionService.t) : Prop := {
  st_requests : request_ids d' = request_ids d;
  st_nodes : PrivacyDispositionService.lineage_nodes d' = PrivacyDispositionService.lineage_nodes d;
  st_receipts : PrivacyDispositionService.receipts d' = PrivacyDispositionService.receipts d
}.

Record grows (fresh : UUID -> UUID * UUID) (st st' : IncidentJournalStore.t) : Prop := {
  gr_sound : sound st';
  gr_events : exists l, lifecycle_events st' = lifecycle_events st ++ l /\ Forall (by_closure fresh) l;
  gr_items id : evidence_by_id id st' = evidence_by_id id st
}.

Record progress (fresh : UUID -> UUID * UUID) (n n' : t) : Prop := {
  pr_store : sound (store n) -> grows fresh (store n) (store n');
  pr_files : files n' ⊆ files n;
  pr_refs : refs n' ⊆ refs n;
  pr_tables : same_tables (disposition n) (disposition n')
}.

#[local] Instance same_tables_preorder : PreOrder same_tables.
Proof. split; [by split|]. intros d1 d2 d3 [] []. split; congruence. Qed.

Lemma grows_refl fresh st : sound st -> grows fresh st st.
Proof. intros Hs. split; [done| |done]. exists []. by rewrite app_nil_r. Qed.

Lemma grows_trans fresh st1 st2 st3 : grows fresh st1 st2 -> grows fresh st2 st3 -> grows fresh st1 st3.
Proof.
  intros [_ (l1 & E1 & H1) I1] [S2 (l2 & E2 & H2) I2]. split; [done| |intros id; by rewrite I2, I1].
  exists (l1 ++ l2). rewrite E2, E1, app_assoc. split; [done|]. by apply List.Forall_app.
Qed.

#[local] Instance progress_preorder fresh : PreOrder (progress fresh).
Proof.
  split; [intros n; split; [apply grows_refl|done..]|].
  intros n1 n2 n3 [A1 F1 R1 T1] [A2 F2 R2 T2]. split; [|by etransitivity..].
  intros Hs. pose proof (A1 Hs) as G. eapply grows_trans; [done|]. apply A2, G.
Qed.

Lemma same_rows_grows fresh st st' : sound st' -> same_rows st st' -> grows fresh st st'.
Proof.
  intros Hs [Hl Hi]. split; [done| |]; unfold IncidentJournalStore.evidence_by_id; rewrite ?Hl, ?Hi; [|done].
  exists []. by rewrite app_nil_r.
Qed.

Lemma reevaluation_rows record st r st' :
  IncidentJournalStore.record_evidence_reevaluation store_sha256 record st = (r, st') -> same_rows st st'.
Proof.
  intros H. eapply (other_rows store_sha256 (RecordEvidenceReevaluation record) eq_refl st (void_result r)).
  unfold JournalTheorems.exec, void, bind. rewrite H. by destruct r.
Qed.

(** A transition to DELETED adds at most its event. *)
Lemma writes_grows fresh id now eid ck s s' :
  writes store_sha256 id EvidenceContentState.DELETED now eid ck s s' -> eid = (fresh id).1 ->
  sound (EvidenceTrustService.store s) -> grows fresh (EvidenceTrustService.store s) (EvidenceTrustService.store s').
Proof.
  intros Hw He Hs. pose proof (transition_sound _ _ _ _ _ _ _ _ Hw Hs) as Hs'.
  destruct Hw as (_ & _ & [->|(item & cur & e & r1 & st & Hitem & _ & Hp & Hr & Hst)]); [by apply grows_refl|].
  assert (Hrows : forall st, same_rows st (EvidenceTrustService.store s') ->
    lifecycle_events st = lifecycle_events (EvidenceTrustService.store s') /\
    forall id, evidence_by_id id st = evidence_by_id id (EvidenceTrustService.store s')).
  { intros st0 [Hl Hi]. unfold IncidentJournalStore.evidence_by_id. by rewrite Hl, Hi. }
  assert (Hsame : same_rows st (EvidenceTrustService.store s')).
  { destruct Hst as [->|(rec & r2 & Hst)]; [by split|by eapply reevaluation_rows]. }
  destruct (Hrows _ Hsame) as [Hl Hi]. apply record_evidence_lifecycle_run in Hr as [[Hl' Hi']|[_ (_ & Hl' & Hi')]].
  - apply same_rows_grows; [done|]. destruct Hsame. split; congruence.
  - split; [done| |].
    + exists [e]. rewrite <- Hl, Hl'. split; [done|]. constructor; [|constructor].
      split; [by rewrite (pl_to _ _ _ _ _ _ Hp)|].
      rewrite (pl_id _ _ _ _ _ _ Hp), (pl_evidence _ _ _ _ _ _ Hp), (item_of_id _ _ _ Hitem). done.
    + intros id'. rewrite <- Hi. unfold IncidentJournalStore.evidence_by_id. by rewrite Hi'.
Qed.

Lemma writes_others id now eid ck s s' id' :
  writes store_sha256 id EvidenceContentState.DELETED now eid ck s s' -> sound (EvidenceTrustService.store s) ->
  deleted id' (EvidenceTrustService.store s') -> id' = id \/ deleted id' (EvidenceTrustService.store s).
Proof.
  intros (_ & _ & [->|(item & cur & e & r1 & st & Hitem & _ & Hp & Hr & Hst)]) Hs Hd; [by right|].
  assert (Hl : lifecycle_events (EvidenceTrustService.store s') = lifecycle_events st).
  { destruct Hst as [->|(rec & r2 & Hst)]; [done|by apply reevaluation_rows in Hst as [-> _]]. }
  apply deleted_event in Hd as (x & Hx & <- & Hxd). rewrite Hl in Hx.
  apply record_evidence_lifecycle_run in Hr as [[Hl' _]|[_ (_ & Hl' & _)]]; rewrite Hl' in Hx.
  - right. by apply deleting_event.
  - apply elem_of_app in Hx as [Hx| ->%list_elem_of_singleton]; [right; by apply deleting_event|left].
    by rewrite (pl_evidence _ _ _ _ _ _ Hp), (item_of_id _ _ _ Hitem).
Qed.

Lemma delete_digest_ok digest actor tombstone force at_ a d a' :
  delete_digest digest actor tombstone force at_ a = (Ok d, a') ->
  ContentAddressedArtifactStore.files a' = delete (path_of digest) (ContentAddressedArtifactStore.files a).
Proof.
  intros H. unfold ContentAddressedArtifactStore.delete_digest in H.
  apply bind_ok in H as ([] & s1 & [_ ->]%raise_if_ok & H). apply bind_ok in H as (s2 & s3 & [= <- <-] & H).
  apply bind_ok in H as (policy & s1 & [= Hp <-] & H). cbv zeta in H.
  apply bind_ok in H as ([] & s1 & [_ ->]%raise_if_ok & H). apply bind_ok in H as ([] & s1 & [= <-] & H).
  apply bind_ok in H as ([] & s2 & H & [= _ <-]). destruct policy as [policy|]; [|by injection H as <-].
  apply bind_ok in H as (u & s3 & H & [= <-]). unfold ContentAddressedArtifactStore.on_catalog in H.
  apply zoom_ok in H as (c & _ & ->). done.
Qed.

(** A lifecycle event with a new identifier that is accepted is recorded. *)
Lemma lifecycle_recorded e st x st' :
  IncidentJournalStore.record_evidence_lifecycle store_sha256 e st = (Ok x, st') -> fresh e st ->
  lifecycle_events st' = lifecycle_events st ++ [e].
Proof.
  unfold IncidentJournalStore.record_evidence_lifecycle. rewrite transaction_ok. intros H Hf.
  apply bind_ok in H as (s1 & s2 & [= <- <-] & H). apply bind_ok in H as ([] & s1 & [_ ->]%raise_if_ok & H).
  unfold IncidentJournalStore.record_evidence_lifecycle_locked, IncidentJournalStore.record_once in H.
  apply bind_ok in H as (s1 & s2 & [= <- <-] & H).
  destruct (select_one _ (lifecycle_events st)) as [old|] eqn:Hold.
  { apply List.find_some in Hold as [Hin Hid]. exfalso. apply Hf. apply list_elem_of_fmap. exists old.
    split; [by apply bool_decide_eq_true in Hid|by apply list_elem_of_In]. }
  apply bind_ok in H as ([] & s1 & H & [= _ <-]). apply bind_ok in H as (s2 & s3 & [= <- <-] & H). cbv zeta in H.
  apply bind_ok in H as ([] & s2 & [_ ->]%raise_if_ok & H). apply bind_ok in H as (p & s2 & Ha & H).
  apply append_authority_frame in Ha as (ev & seq & sub & ->). by apply insert_ok in H as [-> _].
Qed.

(** A transition to DELETED that succeeds has deleted the evidence and, where
    there is an artifact store, the bytes of its content. *)
Lemma transition_deleted id v actor reason now prof eid rid ck s p s' :
  transition id EvidenceContentState.DELETED v actor reason now prof eid rid ck s = (Ok p, s') ->
  sound (EvidenceTrustService.store s) ->
  eid ∉ EvidenceLifecycleEvent.lifecycle_event_id <$> lifecycle_events (EvidenceTrustService.store s) ->
  deleted id (EvidenceTrustService.store s') /\
  exists item, evidence_by_id id (EvidenceTrustService.store s) = Some item /\
    forall a, EvidenceTrustService.artifacts s = Some a -> exists a', EvidenceTrustService.artifacts s' = Some a' /\
      ContentAddressedArtifactStore.files a'
      = delete (path_of (EvidenceItem.content_sha256 item)) (ContentAddressedArtifactStore.files a).
Proof.
  intros H Hs Hf. pose proof H as Hw. apply transition_run in Hw.
  pose proof (transition_sound _ _ _ _ _ _ _ _ Hw Hs) as Hs'.
  unfold EvidenceTrustService.transition in H. apply bind_ok in H as (s1 & s2 & [= <- <-] & H).
  apply bind_ok in H as (item & s1 & [= Hitem <-] & H). apply bind_ok in H as (cur & s1 & [= Hcur <-] & H).
  cbv zeta in H. do 3 apply bind_ok in H as ([] & s1 & [_ ->]%raise_if_ok & H).
  rewrite bool_decide_eq_true_2 in H by done. apply bind_ok in H as ([proof codes] & s1 & Hd & H).
  apply bind_ok in Hd as ([pr code] & s2 & Hd & [= <- <- <-]). apply delete_content_run in Hd as (Hst & _ & Ha).
  apply bind_ok in H as (act & s1 & [= <- <-] & H).
  apply bind_ok in H as (e & s1 & [= Hval <-] & H). apply validate_event in Hval.
  apply bind_ok in H as (x & s1 & (st & Hrec & ->)%store_call_run & H).
  apply bind_ok in H as (s1 & s3 & [= <- <-] & H). apply bind_ok in H as (pj & s1 & [= Hpj <-] & H).
  apply bind_ok in H as ([] & s1 & H & [= <- <-]). rewrite bool_decide_eq_true_2 in H by set_solver.
  apply bind_ok in H as (c & s3 & [= Hc <-] & H). apply bind_ok in H as (y & s3 & (st2 & Hree & ->)%store_call_run & H).
  injection H as <-. rewrite Hst in Hrec. cbn [EvidenceTrustService.store EvidenceTrustService.set_store] in *.
  assert (Hev : lifecycle_events st2 = lifecycle_events (EvidenceTrustService.store s) ++ [e]).
  { apply reevaluation_rows in Hree as [-> _]. eapply lifecycle_recorded; [exact Hrec|]. unfold fresh.
    by rewrite Hval. }
  split.
  - replace id with (EvidenceLifecycleEvent.evidence_id e) by by rewrite Hval.
    apply deleting_event; [done| |by rewrite Hval]. rewrite Hev. apply elem_of_app. right. by apply list_elem_of_singleton.
  - exists item. split.
    + apply item_of_ok in Hitem; [done|]. by destruct Hs as [?%reachable_evidence _].
    + intros a Hart. rewrite Hart in Ha. destruct Ha as (a' & d & Ha' & Hdel & Hok). exists a'. split; [done|].
      destruct d as [d|]; [|done]. by eapply delete_digest_ok.
Qed.

(** ** The nodes of the lineage *)
Lemma record_result_run fresh id r n :
  exists n', on_disposition (PrivacyDispositionService.record_node_result uuid5 id r) n = (Ok r, n') /\
    store n' = store n /\ artifacts n' = artifacts n /\ progress fresh n n'.
Proof.
  eexists. split; [reflexivity|]. split; [done|]. split; [done|]. split; [apply grows_refl|done|done|by split].
Qed.

Definition remains (s : DispositionNodeStatus.t) : Prop :=
  s ∈ [DispositionNodeStatus.FAILED; DispositionNodeStatus.EXTERNAL_PENDING; DispositionNodeStatus.RETAINED_EXCEPTION].

(** A copy is gone: no exception retains it; an external recipient has
    acknowledged its deletion; the reference behind a grant or a lease is
    removed; the bytes of a local artifact are deleted.  A node of another form
    names nothing the closure could remove. *)
Definition disposed (now : datetime) (node : DispositionLineageNode.t) (n : t) : Prop :=
  let kind := DispositionLineageNode.kind node in
  let target_ref := DispositionLineageNode.target_ref node in
  retained node now = false /\
  if is_external kind
  then truthy (PrivacyDispositionService.external_ack (DispositionLineageNode.node_id node) (disposition n)) = true
  else if bool_decide (kind ∈ [DispositionNodeKind.GRANT; DispositionNodeKind.LEASE])
  then startswith target_ref "artifact-reference:" = true ->
       forall r, r ∈ refs n -> ArtifactReference.reference_id r <> after "artifact-reference:" target_ref
  else startswith target_ref "artifact-sha256:" = true ->
       files n !! path_of (after "artifact-sha256:" target_ref) = None.

Lemma disposed_stays fresh now node n n' : progress fresh n n' -> disposed now node n -> disposed now node n'.
Proof.
  intros [_ Hf Hrf [_ _ Hr]] [Hret H]. split; [done|]. destruct (is_external _).
  - unfold PrivacyDispositionService.external_ack. by rewrite Hr.
  - destruct (bool_decide _); intros Ht; specialize (H Ht); [auto|]. destruct (files n' !! _) as [x|] eqn:Hx; [|done].
    by rewrite (lookup_weaken _ _ _ _ Hx Hf) in H.
Qed.

Lemma artifacts_progress fresh n a :
  ContentAddressedArtifactStore.files a ⊆ files n ->
  ArtifactCatalog.artifact_references (ContentAddressedArtifactStore.catalog a) ⊆ refs n ->
  progress fresh n (put_artifacts a n).
Proof. intros Hf Hr. split; [apply grows_refl|done|done|by split]. Qed.

(** A reference that was removed is gone, the others stay. *)
Lemma remove_reference_run id c :
  exists c', ArtifactCatalog.remove_reference id c = (Ok tt, c') /\
    forall r, r ∈ ArtifactCatalog.artifact_references c' <->
      r ∈ ArtifactCatalog.artifact_references c /\ ArtifactReference.reference_id r <> id.
Proof.
  eexists. split; [reflexivity|]. intros r. cbn.
  rewrite list_elem_of_In, List.filter_In, <- list_elem_of_In, negb_true_iff, bool_decide_eq_false. done.
Qed.

Lemma delete_digest_refs digest actor tombstone force at_ a r a' :
  delete_digest digest actor tombstone force at_ a = (r, a') ->
  ArtifactCatalog.artifact_references (ContentAddressedArtifactStore.catalog a')
  = ArtifactCatalog.artifact_references (ContentAddressedArtifactStore.catalog a).
Proof. intros H. by apply delete_digest_run in H as [->|(_ & _ & _ & _ & _ & Hr)]. Qed.

Lemma dispose_run fresh request node now at_ n r n' :
  dispose request node now at_ n = (r, n') ->
  progress fresh n n' /\ store n' = store n /\
  forall status reason receipt, r = Ok (status, reason, receipt) -> remains status \/ disposed now node n'.
Proof.
  unfold DispositionClosure.dispose, disposed. cbv zeta. destruct (retained node now).
  { intros [= <- <-]. split_and!; [done..|]. intros ? ? ? [= <- _ _]. left. unfold remains. set_solver. }
  destruct (is_external _).
  { unfold bind, get, ret. destruct (truthy _) eqn:Ht; intros [= <- <-]; (split_and!; [done..|]); intros ? ? ? [= <- _ _].
    - by right.
    - left. unfold remains. set_solver. }
  destruct (bool_decide _).
  { destruct (startswith _ _) eqn:Hs; [|intros [= <- <-]; split_and!; [done..|intros; right; split; [done|congruence]]].
    unfold bind, on_artifacts, zoom.
    destruct (remove_reference_run (after "artifact-reference:" (DispositionLineageNode.target_ref node))
      (ContentAddressedArtifactStore.catalog (artifacts n))) as (c & -> & Hc). intros [= <- <-]. split_and!; [|done|].
    - apply artifacts_progress; [done|]. intros r. cbn. by intros [? _]%Hc.
    - intros ? ? ? _. right. split; [done|]. intros _ r. cbn. by intros [_ ?]%Hc. }
  destruct (startswith _ _) eqn:Hsha; [|intros [= <- <-]; split_and!; [done..|intros; right; split; [done|congruence]]].
  unfold DispositionClosure.delete_artifact, on_artifacts, zoom.
  destruct (delete_digest _ _ true false _ (artifacts n)) as [[d|exc] a'] eqn:Hd; pose proof (delete_digest_refs _ _ _ _ _ _ _ _ Hd) as Hrefs.
  - intros [= <- <-]. split_and!; [|done|].
    + apply artifacts_progress; [|by rewrite Hrefs]. rewrite (delete_digest_ok _ _ _ _ _ _ _ _ Hd). apply delete_subseteq.
    + intros ? ? ? _. right. split; [done|]. intros _. cbn. rewrite (delete_digest_ok _ _ _ _ _ _ _ _ Hd).
      apply lookup_delete_eq.
  - intros H. assert (n' = put_artifacts a' n) as -> by (by destruct exc; injection H as _ <-). split_and!; [|done|].
    + apply artifacts_progress; [|by rewrite Hrefs].
      apply delete_digest_run in Hd as [->|(_ & _ & -> & _)]; [done|apply delete_subseteq].
    + intros ? ? ? ->. left. unfold remains. destruct exc; injection H as <- _; set_solver.
Qed.

Lemma close_nodes_run fresh request nodes now deleted_at n r n' :
  close_nodes request nodes now deleted_at n = (r, n') ->
  progress fresh n n' /\ store n' = store n /\
  forall results, r = Ok results ->
  Forall2 (fun node x => DispositionNodeResult.node_id x = DispositionLineageNode.node_id node /\
    (remains (DispositionNodeResult.status x) \/ disposed now node n')) nodes results.
Proof.
  revert n r n'. induction nodes as [|node nodes IH]; intros n r n'; cbn [DispositionClosure.close_nodes].
  { intros [= <- <-]. split_and!; [done..|]. intros ? [= <-]. constructor. }
  unfold bind at 1. destruct (dispose request node now _ n) as [[[[status reason] receipt]|exc] n1] eqn:Hd;
    apply (dispose_run fresh) in Hd as (Hp & Hs1 & Hd); [|by intros [= <- <-]].
  unfold bind at 1. destruct (record_result_run fresh (DispositionRequest.request_id request)
    (DispositionNodeResult.mk (DispositionLineageNode.node_id node) (DispositionLineageNode.evidence_id node)
       (DispositionLineageNode.kind node) status (sha256 (DispositionLineageNode.target_ref node)) [reason] now receipt)
    n1) as (n2 & -> & Hst & Har & Hp2).
  unfold bind at 1. destruct (close_nodes request nodes now deleted_at n2) as [[results|exc] n3] eqn:Hc;
    apply IH in Hc as (Hp3 & Hs3 & Hc); intros [= <- <-];
    (split; [by do 2 (etransitivity; [eassumption|])|]); (split; [congruence|]); [|done].
  intros ? [= <-]. constructor; [|by apply Hc]. split; [done|]. destruct (Hd _ _ _ eq_refl) as [?|Hx]; [by left|right].
  by do 2 (eapply disposed_stays; [eassumption|]).
Qed.

(** ** The evidence itself *)
Definition event_ids (st : IncidentJournalStore.t) : list UUID :=
  EvidenceLifecycleEvent.lifecycle_event_id <$> lifecycle_events st.

(** What an erasure leaves of a piece of evidence: nothing, or what a deletion
    before it left. *)
Definition erased (id : UUID) (n n' : t) : Prop :=
  deleted id (store n') /\
  (deleted id (store n) \/
   exists item, evidence_by_id id (store n) = Some item /\ files n' !! path_of (EvidenceItem.content_sha256 item) = None).

Lemma put_evidence_progress fresh id now ck n e :
  writes store_sha256 id EvidenceContentState.DELETED now (fresh id).1 ck (as_evidence n) e ->
  progress fresh n (put_evidence e n).
Proof.
  intros Hw. pose proof Hw as (_ & Hsh & _). unfold shrinks in Hsh. cbn in Hsh.
  split; [intros Hs; eapply (writes_grows _ _ _ _ _ (as_evidence n)); [exact Hw|done|exact Hs]| | |by split]; cbn;
    (destruct (EvidenceTrustService.artifacts e); [|done]); destruct Hsh as [? Hr]; cbn; rewrite ?Hr; done.
Qed.

Lemma erase_run fresh request id now ck n r n' :
  erase_evidence request id now (fresh id) ck n = (r, n') ->
  progress fresh n n' /\
  (sound (store n) -> forall id', deleted id' (store n') -> id' = id \/ deleted id' (store n)) /\
  forall l, r = Ok l ->
  (exists x, l = [x] /\ remains (DispositionNodeResult.status x)) \/
  l = [] /\ (sound (store n) -> (~ deleted id (store n) -> (fresh id).1 ∉ event_ids (store n)) -> erased id n n').
Proof.
  unfold DispositionClosure.erase_evidence, on_evidence, zoom.
  match goal with |- context [match ?m (as_evidence n) with _ => _ end] => destruct (m (as_evidence n)) as [r0 e] eqn:H end.
  assert (Hrun : e = as_evidence n /\ (r0 = Ok tt -> exists p, lifecycle id (EvidenceTrustService.projected_at ck) (store n)
      = Ok p /\ EvidenceLifecycleProjection.state p = EvidenceContentState.DELETED) \/
    exists v r1, transition id EvidenceContentState.DELETED v (DispositionRequest.actor request)
      (DispositionRequest.reason request) now None (fresh id).1 (fresh id).2 ck (as_evidence n) = (r1, e) /\
      (r0 = Ok tt -> is_ok r1 = true)).
  { unfold bind at 1, get in H. unfold bind at 1, lift, EvidenceTrustService.lifecycle in H.
    cbn [EvidenceTrustService.store as_evidence] in H.
    destruct (lifecycle id _ (store n)) as [p|exc]; [|left; by injection H as <- <-].
    destruct (bool_decide _) eqn:Hb.
    - injection H as <- <-. left. split; [done|]. intros _. exists p. split; [done|by apply bool_decide_eq_true in Hb].
    - right. unfold bind in H. destruct (transition _ _ _ _ _ _ _ _ _ _ (as_evidence n)) as [r1 e1] eqn:Ht.
      exists (EvidenceLifecycleProjection.version p), r1. rewrite Ht. destruct r1; injection H as <- <-; done. }
  clear H. assert (Hp : progress fresh n (put_evidence e n)).
  { destruct Hrun as [[-> _]|(v & r1 & Ht & _)]; [|by eapply put_evidence_progress, transition_run].
    split; [apply grows_refl|done|done|by split]. }
  assert (Ho : sound (store n) -> forall id', deleted id' (store (put_evidence e n)) -> id' = id \/ deleted id' (store n)).
  { intros Hs id'. destruct Hrun as [[-> _]|(v & r1 & Ht & _)]; [by right|]. intros Hd.
    by eapply (writes_others _ _ _ _ (as_evidence n)); [eapply transition_run|done|]. }
  destruct r0 as [[]|exc].
  - intros [= <- <-]. split_and!; [done..|]. intros l [= <-]. right. split; [done|]. intros Hs Hf.
    destruct Hrun as [[-> (p & Hl & Hst)]|(v & r1 & Ht & Hok)]; [done| |].
    + apply projection_last in Hl as (x & item & Hx & _ & Hxs); [|done].
      assert (deleted id (store n)) by (exists x; split; congruence). by split; [|left].
    + destruct r1 as [p|]; [|by specialize (Hok eq_refl)].
      destruct (decide ((fresh id).1 ∈ event_ids (store n))) as [Hin|Hnew].
      { assert (Hd : deleted id (store n)) by (destruct (classic_deleted id (store n)); [done|tauto]).
        split; [|by left]. eapply deleted_stays; [apply (gr_sound _ _ _ (pr_store _ _ _ Hp Hs))| |exact Hd].
        destruct (gr_events _ _ _ (pr_store _ _ _ Hp Hs)) as (l & -> & _). by exists l. }
      apply transition_deleted in Ht as (Hd & item & Hitem & Ha); [|done|done]. split; [done|].
      right. exists item. split; [done|]. destruct (Ha (artifacts n) eq_refl) as (a' & Ha' & Hfiles).
      unfold put_evidence. cbn. rewrite Ha'. cbn. rewrite Hfiles. apply lookup_delete_eq.
  - match goal with |- context [on_disposition (PrivacyDispositionService.record_node_result _ ?i ?x)] =>
      destruct (record_result_run fresh i x (put_evidence e n)) as (n2 & Hr & Hst & _ & Hp2) end.
    unfold bind. rewrite Hr. intros [= <- <-]. split; [by etransitivity|]. rewrite Hst. split; [done|]. intros l [= <-]. left.
    eexists. split; [reflexivity|]. unfold remains. cbn. set_solver.
Qed.

(** ** The whole closure *)
Section Fresh.
Context (fresh : UUID -> UUID * UUID) (fresh_inj : forall x y, (fresh x).1 = (fresh y).1 -> x = y).

(** The identifiers of deletions to come are new. *)
Definition unused (st : IncidentJournalStore.t) : Prop := forall id, ~ deleted id st -> (fresh id).1 ∉ event_ids st.

Lemma unused_grows st st' : grows fresh st st' -> unused st -> unused st'.
Proof.
  intros [Hs (l & Hl & Hby) _] Hu id Hd Hin. unfold event_ids in Hin. rewrite Hl, fmap_app in Hin.
  apply elem_of_app in Hin as [Hin|(e & Heq & He)%list_elem_of_fmap].
  - apply (Hu id); [|done]. intros Hd'. apply Hd. eapply deleted_stays; [done| |exact Hd']. rewrite Hl. by exists l.
  - apply (Forall_in _ _ _ Hby) in He as Hx. destruct Hx as [Hxd Hid]. rewrite Hid in Heq.
    apply fresh_inj in Heq as ->. apply Hd, deleting_event; [done| |done]. rewrite Hl. apply elem_of_app. by right.
Qed.

Lemma erased_grows id n n1 n' :
  sound (store n1) -> progress fresh n1 n' -> erased id n n1 -> erased id n n'.
Proof.
  intros Hs [Hst Hf _ _] [Hd Hc]. destruct (Hst Hs) as [Hs' (l & Hl & _) _]. split.
  - eapply deleted_stays; [done| |exact Hd]. rewrite Hl. by exists l.
  - destruct Hc as [?|(item & Hi & Hg)]; [by left|right]. exists item. split; [done|].
    destruct (files n' !! _) as [x|] eqn:Hx; [|done]. by rewrite (lookup_weaken _ _ _ _ Hx Hf) in Hg.
Qed.

(** The second half of the work on one piece of evidence, for an erasure. *)
Lemma erase_if_run request id now ck n r n' :
  (if bool_decide (DispositionRequest.action request = DispositionAction.ERASE)
   then erase_evidence request id now (fresh id) ck else ret []) n = (r, n') ->
  progress fresh n n' /\
  forall l, r = Ok l -> DispositionRequest.action request = DispositionAction.ERASE ->
    (sound (store n) -> forall id', deleted id' (store n') -> id' = id \/ deleted id' (store n)) /\
    ((exists x, x ∈ l /\ remains (DispositionNodeResult.status x)) \/
     (sound (store n) -> (~ deleted id (store n) -> (fresh id).1 ∉ event_ids (store n)) -> erased id n n')).
Proof.
  case_bool_decide as Ha; [|unfold ret; by intros [= <- <-]]. intros H.
  apply erase_run in H as (P & Ho & H). split; [done|]. intros l Hl _. split; [done|].
  destruct (H l Hl) as [(x & -> & Hx)|[-> He]]; [left; exists x; split; [by left|done]|by right].
Qed.

(** Two erasures of evidence in a row. *)
Lemma erased_tail id id' n n1 n2 n' :
  sound (store n1) -> store n1 = store n -> grows fresh (store n1) (store n2) ->
  (forall id', deleted id' (store n2) -> id' = id \/ deleted id' (store n1)) ->
  id' <> id -> erased id' n2 n' -> erased id' n n'.
Proof.
  intros Hs S1 G2 Ho Hne [Hd Hc]. split; [done|]. destruct Hc as [Hc|(item & Hi & Hg)].
  - left. destruct (Ho id' Hc) as [?|?]; [done|]. by rewrite <- S1.
  - right. exists item. split; [|done]. rewrite <- S1, <- (gr_items _ _ _ G2 id'). done.
Qed.

Lemma close_evidence_run request ids now deleted_at ck n r n' :
  close_evidence request ids now deleted_at fresh ck n = (r, n') ->
  progress fresh n n' /\
  forall results, r = Ok results -> (forall x, x ∈ results -> ~ remains (DispositionNodeResult.status x)) ->
  (forall id node, id ∈ ids -> node ∈ PrivacyDispositionService.nodes (Some id) (disposition n) ->
     disposed now node n' /\ exists x, x ∈ results /\ DispositionNodeResult.node_id x = DispositionLineageNode.node_id node) /\
  (DispositionRequest.action request = DispositionAction.ERASE -> sound (store n) -> unused (store n) ->
   forall id, id ∈ ids -> erased id n n').
Proof.
  revert n r n'. induction ids as [|id ids IH]; intros n r n'; cbn [DispositionClosure.close_evidence].
  { intros [= <- <-]. split; [done|]. intros results [= <-] _. split; [by intros ? ? ?%not_elem_of_nil|].
    by intros _ _ _ id ?%not_elem_of_nil. }
  unfold bind at 1, get. unfold bind at 1.
  destruct (close_nodes request _ now deleted_at n) as [[l1|exc] n1] eqn:H1;
    apply (close_nodes_run fresh) in H1 as (P1 & S1 & F1); [|by intros [= <- <-]].
  specialize (F1 l1 eq_refl). unfold bind at 1.
  match goal with |- context [match ?m n1 with _ => _ end] => destruct (m n1) as [[l2|exc] n2] eqn:H2 end;
    apply erase_if_run in H2 as [P2 F2]; [|intros [= <- <-]; split; [by etransitivity|done]].
  specialize (F2 l2 eq_refl). unfold bind at 1.
  destruct (close_evidence request ids now deleted_at fresh ck n2) as [[l3|exc] n3] eqn:H3;
    apply IH in H3 as [P3 F3]; intros [= <- <-]; (split; [by do 2 (etransitivity; [eassumption|])|]); [|done].
  intros results [= <-] Hok. destruct (F3 l3 eq_refl) as [N3 E3].
  { intros x Hx. apply Hok. rewrite !elem_of_app. tauto. }
  assert (P12 : progress fresh n n2) by by etransitivity. split.
  - intros id' node [->|Hid]%elem_of_cons Hnode.
    + apply list_elem_of_lookup_1 in Hnode as [i Hi]. destruct (Forall2_lookup_l _ _ _ _ _ F1 Hi) as (x & Hx & Hxn & Hd).
      apply list_elem_of_lookup_2 in Hx. destruct Hd as [Hd|Hd].
      { exfalso. apply (Hok x); [|done]. rewrite !elem_of_app. tauto. }
      split; [|exists x; rewrite !elem_of_app; tauto]. eapply disposed_stays; [exact P3|].
      eapply disposed_stays; [exact P2|exact Hd].
    + destruct (N3 id' node) as (Hd & x & Hx & Hxn); [done| |split; [done|exists x; rewrite !elem_of_app; tauto]].
      unfold PrivacyDispositionService.nodes in *. by rewrite (st_nodes _ _ (pr_tables _ _ _ P12)).
  - intros Ha Hs Hu. assert (Hs1 : sound (store n1)) by by rewrite S1. assert (Hu1 : unused (store n1)) by by rewrite S1.
    destruct (F2 Ha) as [Ho He]. pose proof (pr_store _ _ _ P2 Hs1) as G2.
    assert (Hhead : erased id n n2).
    { destruct He as [(x & Hx & Hr)|He].
      - exfalso. apply (Hok x); [rewrite !elem_of_app; tauto|done].
      - destruct (He Hs1 (Hu1 id)) as [Hd Hc]. split; [done|]. by rewrite <- S1. }
    intros id' Hin. destruct (decide (id' = id)) as [->|Hne].
    { eapply erased_grows; [apply (gr_sound _ _ _ G2)|exact P3|exact Hhead]. }
    apply elem_of_cons in Hin as [?|Hin]; [done|].
    eapply erased_tail; [exact Hs1|exact S1|exact G2|by apply Ho|exact Hne|].
    apply E3; [done|apply G2|by apply (unused_grows _ _ G2)|done].
Qed.
End Fresh.

Lemma update_request_run fresh r n :
  exists n', on_disposition (transaction (PrivacyDispositionService.update_request r)) n = (Ok tt, n') /\
    store n' = store n /\ progress fresh n n'.
Proof.
  eexists. split; [reflexivity|]. split; [done|]. split; [apply grows_refl|done|done|]. split; [|done..].
  cbn. unfold request_ids. cbn. rewrite <- list_fmap_compose. apply list_fmap_ext. intros i x _. cbn.
  by case_decide.
Qed.

Lemma find_updated r d :
  DispositionRequest.request_id r ∈ request_ids d ->
  select_one (fun q => bool_decide (DispositionRequest.request_id q = DispositionRequest.request_id r))
    ((fun q => if decide (DispositionRequest.request_id q = DispositionRequest.request_id r) then r else q)
       <$> PrivacyDispositionService.disposition_requests d) = Some r.
Proof.
  unfold request_ids, select_one. induction (PrivacyDispositionService.disposition_requests d) as [|q l IH]; cbn;
    [by intros ?%not_elem_of_nil|]. case_decide as Hq; cbn.
  - intros _. by rewrite bool_decide_eq_true_2.
  - rewrite bool_decide_eq_false_2 by done. intros [?|?]%elem_of_cons; [done|by apply IH].
Qed.

(** The journal entry of a report. *)
Lemma authority_grows id at_ p d u d' st :
  PrivacyDispositionService.authority store_sha256 id at_ p d = (Ok u, d') ->
  PrivacyDispositionService.authority_recorder d = Some st -> sound st ->
  exists st', d' = PrivacyDispositionService.set_authority_recorder (Some st') d /\ forall fresh, grows fresh st st'.
Proof.
  unfold PrivacyDispositionService.authority, bind at 1, get. intros H Hd Hs. rewrite Hd in H.
  destruct (IncidentJournalStore.record_authority_mutation _ _ _ _ _ st) as [r st'] eqn:Hr.
  unfold bind at 1, put in H. apply bind_ok in H as (x & s1 & [= -> <-] & [= _ <-]). exists st'. split; [done|].
  intros fresh. set (o := RecordAuthorityMutation AuthorityMutationKind.DISPOSITION id at_ (PJson p)).
  assert (Hrows : same_rows st st').
  { eapply (other_rows store_sha256 o eq_refl st (Ok tt)). unfold JournalTheorems.exec, o, void, bind. by rewrite Hr. }
  apply same_rows_grows; [|done]. eapply sound_step; [|done|done].
  eapply (step_of _ _ o); [|reflexivity|exact Hr]. by right.
Qed.

Lemma deleted_projection id now st :
  sound st -> deleted id st -> exists p, lifecycle id now st = Ok p /\
    EvidenceLifecycleProjection.state p = EvidenceContentState.DELETED /\
    EvidenceLifecycleProjection.readable p = false /\ EvidenceLifecycleProjection.claim_eligible p = false.
Proof.
  intros Hs Hd. pose proof Hd as (x & Hx & <- & _)%deleted_event. destruct Hd as (e & He & Ht).
  pose proof Hs as [_ Hl]. destruct (Hl x Hx) as (item & Hitem & _). unfold lifecycle.
  rewrite Hitem, lifecycle_of_events, He by by apply sound_lifecycles. eexists. split; [reflexivity|]. cbn. by rewrite Ht.
Qed.

Lemma count_none status statuses results :
  PrivacyDispositionService.count_results statuses results = 0 -> status ∈ statuses ->
  forall x, x ∈ results -> DispositionNodeResult.status x <> status.
Proof.
  unfold PrivacyDispositionService.count_results. intros Hn Hin x Hx <-.
  assert (Hf : x ∈ List.filter (fun r => bool_decide (DispositionNodeResult.status r ∈ statuses)) results).
  { apply list_elem_of_In, List.filter_In. split; [by apply list_elem_of_In|by apply bool_decide_eq_true]. }
  destruct (List.filter _ results); [by apply not_elem_of_nil in Hf|]. cbn in Hn. lia.
Qed.

(** Completion is reported when nothing remains. *)
Lemma completed_nothing_remains results :
  (conclusion results).1 = DispositionRequestStatus.COMPLETED ->
  forall x, x ∈ results -> ~ remains (DispositionNodeResult.status x).
Proof.
  unfold conclusion. destruct (negb (PrivacyDispositionService.count_results [DispositionNodeStatus.FAILED] _ =? 0)) eqn:H1; [intros [=]|].
  destruct (negb (PrivacyDispositionService.count_results [DispositionNodeStatus.EXTERNAL_PENDING] _ =? 0)) eqn:H2; [intros [=]|].
  destruct (negb (PrivacyDispositionService.count_results [DispositionNodeStatus.RETAINED_EXCEPTION] _ =? 0)) eqn:H3; [intros [=]|].
  intros _ x Hx Hr. unfold remains in Hr.
  apply negb_false_iff, Z.eqb_eq in H1, H2, H3.
  repeat (apply elem_of_cons in Hr as [Hr|Hr]); [| | |by apply not_elem_of_nil in Hr].
  - exact (count_none _ _ _ H1 ltac:(by left) x Hx Hr).
  - exact (count_none _ _ _ H2 ltac:(by left) x Hx Hr).
  - exact (count_none _ _ _ H3 ltac:(by left) x Hx Hr).
Qed.

(** The last transaction of a closure: the outcome is stored, the report journaled. *)
Lemma finish_run r id at_ p n u n' :
  on_disposition (transaction (PrivacyDispositionService.update_request r ;;;
    PrivacyDispositionService.authority store_sha256 id at_ p)) n = (Ok u, n') ->
  sound (store n) -> DispositionRequest.request_id r ∈ request_ids (disposition n) ->
  (forall fresh, grows fresh (store n) (store n')) /\ artifacts n' = artifacts n /\
  PrivacyDispositionService.find_request (DispositionRequest.request_id r) (disposition n') = Some r /\
  PrivacyDispositionService.restrictions (disposition n') = PrivacyDispositionService.restrictions (disposition n) /\
  same_tables (disposition n) (disposition n').
Proof.
  unfold on_disposition. intros (d & H & ->)%zoom_ok Hs Hid. rewrite transaction_ok in H.
  apply bind_ok in H as ([] & d1 & [= <-] & H).
  eapply authority_grows in H as (st' & -> & Hg); [|reflexivity|exact Hs].
  cbn. split_and!; [exact Hg|done|by apply (find_updated r (disposition n))|done|].
  split; [|done..]. unfold request_ids. cbn. rewrite <- list_fmap_compose. apply list_fmap_ext. intros i x _. cbn.
  by case_decide.
Qed.

Lemma lift_run fresh ids n u n' :
  on_disposition (transaction (lift_restrictions ids)) n = (Ok u, n') ->
  store n' = store n /\ progress fresh n n' /\
  forall id, id ∈ ids -> PrivacyDispositionService.restrictions (disposition n') !! id = None.
Proof.
  intros [= _ <-]. split; [done|]. split; [split; [apply grows_refl|done|done|by split]|]. cbn. intros id.
  generalize (PrivacyDispositionService.restrictions (disposition n)). induction ids as [|x ids IH]; intros m;
    [by intros ?%not_elem_of_nil|]. intros [->|Hin]%elem_of_cons; cbn; [|by apply IH].
  assert (Hkeep : forall (m : gmap UUID PrivacyDispositionService.restriction),
    m !! x = None -> foldl (fun m id => delete id m) m ids !! x = None); [|apply Hkeep, lookup_delete_eq].
  clear. induction ids as [|y ids IH]; intros m Hm; [done|]. cbn. apply IH. by rewrite lookup_delete_None; right.
Qed.

Lemma report_status request results now :
  DispositionReport.status (report_of float_repr isoformat json_time sha256 request results now) = (conclusion results).1.
Proof. unfold report_of. by destruct (conclusion results). Qed.

(** Where a closure that completes leads: the work on the evidence with nothing
    remaining, then the restrictions lifted, then the outcome stored. *)
Lemma close_run fresh request_id now deleted_at ck n report n' request :
  close request_id now deleted_at fresh ck n = (Ok report, n') ->
  PrivacyDispositionService.find_request request_id (disposition n) = Some request ->
  DispositionReport.status report = DispositionRequestStatus.COMPLETED -> sound (store n) ->
  (forall x y, (fresh x).1 = (fresh y).1 -> x = y) ->
  exists n1 n2 results,
    store n1 = store n /\ progress fresh n n1 /\
    close_evidence request (DispositionRequest.evidence_ids request) now deleted_at fresh ck n1 = (Ok results, n2) /\
    (forall x, x ∈ results -> ~ remains (DispositionNodeResult.status x)) /\
    progress fresh n2 n' /\
    (forall id, id ∈ DispositionRequest.evidence_ids request ->
       PrivacyDispositionService.restrictions (disposition n') !! id = None) /\
    exists q, PrivacyDispositionService.find_request request_id (disposition n') = Some q /\
      DispositionRequest.status q = DispositionRequestStatus.COMPLETED.
Proof.
  intros H Hreq Hst Hs Hinj. pose proof Hreq as [Hin Hid%bool_decide_eq_true]%List.find_some.
  unfold DispositionClosure.close in H. apply bind_ok in H as (n1 & n2 & [= <- <-] & H).
  unfold PrivacyDispositionService.request in H. rewrite Hreq in H. apply bind_ok in H as (q & n1 & [= <- <-] & H).
  match type of H with context [on_disposition (transaction (PrivacyDispositionService.update_request ?r))] =>
    destruct (update_request_run fresh r n) as (n1 & Hup & S1 & P1) end.
  unfold bind at 1 in H. rewrite Hup in H. clear Hup.
  apply bind_ok in H as (results & n2 & Hc & H). cbv zeta in H.
  pose proof (proj1 (close_evidence_run fresh Hinj _ _ _ _ _ _ _ _ Hc)) as P2. apply bind_ok in H as ([] & n3 & Hl & H).
  apply bind_ok in H as ([] & n4 & Hf & [= <- <-]). rewrite bool_decide_eq_true_2 in Hl by done.
  apply (lift_run fresh) in Hl as (S3 & P3 & Hlift).
  assert (P13 : progress fresh n n3) by (do 2 (etransitivity; [eassumption|]); done).
  apply finish_run in Hf as (G4 & A4 & Hq & R4 & T4); [|apply (pr_store _ _ _ P13 Hs)|].
  2: { rewrite (st_requests _ _ (pr_tables _ _ _ P13)). apply list_elem_of_In in Hin. by apply (list_elem_of_fmap_2 DispositionRequest.request_id) in Hin. }
  assert (P4 : progress fresh n3 n4) by (split; [intros _; apply G4|by rewrite A4|by rewrite A4|done]).
  exists n1, n2, results. split_and!; [done|done|done| |by etransitivity| |].
  - apply completed_nothing_remains. by rewrite <- Hst, report_status.
  - intros id Hi. rewrite R4. by apply Hlift.
  - eexists. split; [cbn in Hq; rewrite Hid in Hq; exact Hq|exact Hst].
Qed.

(** C1: an erasure that reports completion is complete.  Every piece of
    evidence of the request is deleted in the incident store, and its bytes are
    gone, unless it was already deleted before the closure; every node of its
    lineage is disposed of: none is retained by an exception, an external copy
    has an acknowledged receipt, the artifact reference a grant or a lease
    names is removed, and the bytes a local copy names are gone; the
    restrictions are lifted and the request is recorded as completed. *)
Theorem erasure_complete request_id now deleted_at fresh ck n report n' request :
  close request_id now deleted_at fresh ck n = (Ok report, n') ->
  PrivacyDispositionService.find_request request_id (disposition n) = Some request ->
  DispositionRequest.action request = DispositionAction.ERASE ->
  DispositionReport.status report = DispositionRequestStatus.COMPLETED ->
  sound (store n) -> unused fresh (store n) -> (forall x y, (fresh x).1 = (fresh y).1 -> x = y) ->
  (forall id, id ∈ DispositionRequest.evidence_ids request ->
   erased id n n' /\
   (exists p, lifecycle id now (store n') = Ok p /\
      EvidenceLifecycleProjection.state p = EvidenceContentState.DELETED /\
      EvidenceLifecycleProjection.readable p = false /\ EvidenceLifecycleProjection.claim_eligible p = false) /\
   (forall node, node ∈ PrivacyDispositionService.nodes (Some id) (disposition n) -> disposed now node n') /\
   PrivacyDispositionService.restrictions (disposition n') !! id = None) /\
  exists q, PrivacyDispositionService.find_request request_id (disposition n') = Some q /\
    DispositionRequest.status q = DispositionRequestStatus.COMPLETED.
Proof.
  intros H Hreq Hact Hst Hs Hu Hinj.
  destruct (close_run fresh _ _ _ _ _ _ _ _ H Hreq Hst Hs Hinj) as (n1 & n2 & results & S1 & P1 & Hc & Hrem & P4 & Hlift & Hq).
  split; [|done]. apply (close_evidence_run fresh Hinj) in Hc as [P2 F]. destruct (F results eq_refl Hrem) as [N E].
  assert (Hs1 : sound (store n1)) by by rewrite S1. pose proof (pr_store _ _ _ P2 Hs1) as G2.
  intros id Hid. assert (He : erased id n n').
  { unfold erased. rewrite <- S1. eapply (erased_grows fresh id n1 n2); [apply G2|exact P4|].
    apply E; [done|done|by rewrite S1|done]. }
  split_and!; [done| | |by apply Hlift].
  - apply deleted_projection; [apply (pr_store _ _ _ P4), G2|apply He].
  - intros node Hnode. eapply disposed_stays; [exact P4|]. apply (N id node); [done|].
    unfold PrivacyDispositionService.nodes in *. by rewrite (st_nodes _ _ (pr_tables _ _ _ P1)).
Qed.
End Closure.

(** ** A concrete closure *)
Notation demo_store_sha256 := JournalTheorems.demo_sha256.
Notation demo_close := (close demo_repr demo_at demo_at demo_digest demo_name demo_store_sha256).

Definition demo_evidence_state : EvidenceTrustService.t :=
  EvidenceTheorems.run demo_repr demo_at demo_at demo_digest demo_name demo_store_sha256
    [StoreOp (AppendIncident (demo_incident 1 IncidentState.WATCH) None); Ingest demo_stored_evidence "lc-1" 12]
    (EvidenceTrustService.mk IncidentJournalStore.init
       (Some (ArtifactTheorems.demo_put_bytes demo_content (ArtifactPolicy.incident_evidence true) demo_init).2) None).

(** A local copy and an external one, whose deletion is acknowledged. *)
Definition demo_copy : DispositionTheorems.op :=
  RegisterNode "evidence-1" DispositionNodeKind.CACHE ("artifact-sha256:" +:+ demo_digest demo_content) None None None
    None 11.
Notation demo_rights_run := (DispositionTheorems.run demo_repr demo_at demo_at demo_digest demo_name demo_store_sha256).
Definition demo_requested : PrivacyDispositionService.t :=
  demo_rights_run [demo_recipient; demo_copy; demo_erase] (PrivacyDispositionService.init None).
Definition demo_recipient_id : UUID :=
  match PrivacyDispositionService.nodes (Some "evidence-1") demo_requested with
  | n :: _ => DispositionLineageNode.node_id n
  | [] => ""
  end.
Definition demo_closure_request : UUID :=
  match PrivacyDispositionService.requests demo_requested with r :: _ => DispositionRequest.request_id r | [] => "" end.
Definition demo_node (d : PrivacyDispositionService.t) : t :=
  mk (EvidenceTrustService.store demo_evidence_state)
    (default demo_init (EvidenceTrustService.artifacts demo_evidence_state)) d.
Definition demo_acknowledged : t :=
  demo_node (demo_rights_run [Acknowledge demo_recipient_id "clinic" "deleted" 30] demo_requested).
Definition demo_fresh (id : UUID) : UUID * UUID := ("delete:" +:+ id, "review:" +:+ id).
Definition demo_clocks (_ : UUID) : EvidenceTrustService.clocks := EvidenceTheorems.demo_clock 40.
Notation demo_closing := (demo_close demo_closure_request 40 (fun _ => 40) demo_fresh demo_clocks).

Lemma demo_sound : sound demo_store_sha256 (store demo_acknowledged).
Proof.
  apply (run_sound demo_repr demo_at demo_at demo_digest demo_name demo_store_sha256); [repeat constructor|].
  apply init_sound.
Qed.

Lemma demo_unused : unused demo_fresh (store demo_acknowledged).
Proof.
  intros id _. assert (event_ids (store demo_acknowledged) = ["lc-1"]) as -> by (vm_compute; reflexivity).
  intros [=]%list_elem_of_singleton.
Qed.

Lemma demo_fresh_inj x y : (demo_fresh x).1 = (demo_fresh y).1 -> x = y.
Proof. intros H. cbn in H. by injection H. Qed.

Lemma demo_closes : exists report n' request,
  demo_closing demo_acknowledged = (Ok report, n') /\
  PrivacyDispositionService.find_request demo_closure_request (disposition demo_acknowledged) = Some request /\
  DispositionRequest.action request = DispositionAction.ERASE /\
  DispositionReport.status report = DispositionRequestStatus.COMPLETED /\
  "evidence-1" ∈ DispositionRequest.evidence_ids request.
Proof. do 3 eexists. do 4 (split; [vm_compute; reflexivity|]). apply list_elem_of_here. Qed.

Lemma erasure_complete_witness : exists report n',
  demo_closing demo_acknowledged = (Ok report, n') /\
  files demo_acknowledged !! path_of (demo_digest demo_content) = Some demo_content /\
  erased "evidence-1" demo_acknowledged n' /\
  PrivacyDispositionService.restrictions (disposition n') !! "evidence-1" = None.
Proof.
  destruct demo_closes as (report & n' & request & H & Hreq & Hact & Hst & Hin). exists report, n'.
  split; [exact H|]. split; [vm_compute; reflexivity|].
  destruct (proj1 (erasure_complete demo_repr demo_at demo_at demo_digest demo_name demo_store_sha256
    demo_closure_request 40 (fun _ => 40) demo_fresh demo_clocks demo_acknowledged report n' request
    H Hreq Hact Hst demo_sound demo_unused demo_fresh_inj) "evidence-1" Hin) as (He & _ & _ & Hr).
  split; [exact He|exact Hr].
Defined.

(** Without the acknowledgement the erasure stays pending. *)
Example unacknowledged_stays_pending :
  match (demo_closing (demo_node demo_requested)).1 with
  | Ok report => DispositionReport.status report = DispositionRequestStatus.EXTERNAL_RECIPIENT_PENDING /\
      DispositionReport.external_recipient_pending report = 1 /\ DispositionReport.completed report = 1
  | Raise _ => False
  end.
Proof. vm_compute. done. Qed.

(** Restrictions are kept by evidence, not by request: completing one request
    lifts the restriction another open request still relies on. *)
Definition demo_restriction : DispositionTheorems.op :=
  CreateRequest DispositionAction.RESTRICT ["evidence-1"] "subject-1" "dispute" "officer" "dispute" 1000000000 None None 25.
Lemma completion_lifts_other_restrictions :
  let d := demo_rights_run [demo_restriction; Acknowledge demo_recipient_id "clinic" "deleted" 30] demo_requested in
  let '(r, n') := demo_closing (demo_node d) in
  is_ok r = true /\ PrivacyDispositionService.is_restricted "evidence-1" d = true /\
  PrivacyDispositionService.is_restricted "evidence-1" (disposition n') = false /\
  DispositionRequestStatus.RESTRICTED ∈
    (DispositionRequest.status <$> PrivacyDispositionService.disposition_requests (disposition n')).
Proof. vm_compute. split_and!; [done..|]. set_solver. Qed.

(** What a closure does to the lineage does not depend on the action: closing a
    request to restrict processing deletes the stored copies as well. *)
Lemma closing_a_restriction_deletes_copies :
  let d := demo_rights_run [demo_copy; demo_restriction] (PrivacyDispositionService.init None) in
  let id := match PrivacyDispositionService.requests d with r :: _ => DispositionRequest.request_id r | [] => "" end in
  let '(r, n') := demo_close id 40 (fun _ => 40) demo_fresh demo_clocks (demo_node d) in
  is_ok r = true /\ files (demo_node d) !! path_of (demo_digest demo_content) = Some demo_content /\
  files n' !! path_of (demo_digest demo_content) = None.
Proof. vm_compute. done. Qed.
