(* ===== verification/Collaboration.v ===== *)
(** Collaborative detection (collaboration/): signals shared by peer nodes, the
    hazard-specific correlation policy, the bounded repository and the service
    that records explainable decisions.

    The policy is the one [load_policy] has read; its hazards are a dictionary
    by name, so a hazard it does not cover raises [KeyError].  The incident
    writer is a parameter, as the port of the code is: a function of the
    decision that names an incident, or raises.  [sha256] is the hexadecimal
    digest, [isoformat] the text of a timestamp; clock readings are arguments. *)

From Stdlib Require Import ZArith.
From S2P Require Import Prelude Enums Models Records.
Open Scope Z_scope.

Module DomainKind.
Inductive t : Type :=
  SPATIAL_CELL | OBSERVATION_AREA | CAMERA_SECTOR | RIVER_REACH | CATCHMENT | SLOPE | MONITORED_SITE | UNKNOWN.
#[global] Instance eq_dec : EqDecision t.
Proof. solve_decision. Defined.
Definition value (x : t) : string :=
  match x with
  | SPATIAL_CELL => "spatial_cell"
  | OBSERVATION_AREA => "observation_area"
  | CAMERA_SECTOR => "camera_sector"
  | RIVER_REACH => "river_reach"
  | CATCHMENT => "catchment"
  | SLOPE => "slope"
  | MONITORED_SITE => "monitored_site"
  | UNKNOWN => "unknown"
  end.
End DomainKind.

Module Action.
Inductive t : Type :=
  NO_ACTION | CONTEXT_ONLY | CREATE_REVIEW_INCIDENT | UPDATE_INCIDENT | MULTI_NODE_TRIGGER_SIMULATED.
#[global] Instance eq_dec : EqDecision t.
Proof. solve_decision. Defined.
Definition value (x : t) : string :=
  match x with
  | NO_ACTION => "no_action"
  | CONTEXT_ONLY => "context_only"
  | CREATE_REVIEW_INCIDENT => "create_review_incident"
  | UPDATE_INCIDENT => "update_incident"
  | MULTI_NODE_TRIGGER_SIMULATED => "multi_node_trigger_simulated"
  end.
End Action.

Module ValidationState.
Inductive t : Type := ADMITTED | CONTEXT_ONLY | REJECTED.
#[global] Instance eq_dec : EqDecision t.
Proof. solve_decision. Defined.
Definition value (x : t) : string :=
  match x with ADMITTED => "admitted" | CONTEXT_ONLY => "context_only" | REJECTED => "rejected" end.
End ValidationState.

Module CorrelationDomain.
Record t : Type := mk { kind : DomainKind.t; id : string; domain_policy_id : option string }.
End CorrelationDomain.

Module CollaborativeSignal.
Record t : Type := mk {
  signal_id : string;
  episode_id : string;
  sequence : Z;
  node_pseudonym : string;
  hazard : HazardKind.t;
  observation : string;
  correlation_domain : CorrelationDomain.t;
  event_time_bucket : datetime;
  confidence_band : string;
  coverage_band : string;
  sensor_health : string;
  clock_uncertainty_band : string;
  source_mode : string;
  sharing_policy_version : string;
  research_use_allowed : bool;
  expires_at : datetime;
  reason_codes : list string
}.

(** [OBSERVATIONS] *)
Definition OBSERVATIONS (h : HazardKind.t) : list string :=
  match h with
  | HazardKind.WILDFIRE => ["possible_smoke"; "persistent_smoke"; "review_required"; "smoke_observation_resolved"]
  | HazardKind.EARTHQUAKE => ["local_trigger"; "earthquake_like_signal"; "shaking_ended"]
  | HazardKind.FLOOD =>
      ["rainfall_elevated"; "water_rising"; "threshold_approaching"; "threshold_exceeded"; "flooding_observed"; "falling"]
  | HazardKind.LANDSLIDE => ["saturation_rising"; "movement_anomaly"; "review_required"; "movement_observation_resolved"]
  end.
(** [validate_observation] *)
Definition validate (s : t) : res t :=
  check (negb (bool_decide (observation s ∈ OBSERVATIONS (hazard s)))) (ValidationError "UNSUPPORTED_OBSERVATION") >>!
  Ok s.
End CollaborativeSignal.

Module CollaborativeSignalEnvelope.
Record t : Type := mk {
  received_at : datetime;
  transport : string;
  transport_message_id : string;
  transport_trust : string;
  signal : CollaborativeSignal.t;
  validation_state : ValidationState.t;
  validation_reason_codes : list string;
  correlation_id : string
}.
End CollaborativeSignalEnvelope.

Module CorrelationDecisionRecord.
Record t : Type := mk {
  decision_id : string;
  policy_id : string;
  hazard : HazardKind.t;
  domain_kind : DomainKind.t;
  domain_id : string;
  window_start : datetime;
  window_end : datetime;
  candidate_signal_ids : list string;
  accepted_signal_ids : list string;
  rejected_signal_ids : list string;
  independent_peer_count : Z;
  selected_action : Action.t;
  positive_reasons : list string;
  blocking_reasons : list string;
  created_or_updated_incident_id : option string;
  created_at : datetime
}.
Definition set_context_only (blocking : list string) (d : t) : t :=
  mk (decision_id d) (policy_id d) (hazard d) (domain_kind d) (domain_id d) (window_start d) (window_end d)
    (candidate_signal_ids d) (accepted_signal_ids d) (rejected_signal_ids d) (independent_peer_count d)
    Action.CONTEXT_ONLY [] blocking None (created_at d).
Definition set_incident (incident : option string) (d : t) : t :=
  mk (decision_id d) (policy_id d) (hazard d) (domain_kind d) (domain_id d) (window_start d) (window_end d)
    (candidate_signal_ids d) (accepted_signal_ids d) (rejected_signal_ids d) (independent_peer_count d)
    (selected_action d) (positive_reasons d) (blocking_reasons d) incident (created_at d).
Definition length_between (lo hi : nat) (s : string) : bool :=
  ((lo <=? String.length s) && (String.length s <=? hi))%nat.
Definition validate (d : t) : res t :=
  check (negb (length_between 8 96 (decision_id d))) (ValidationError "decision_id") >>!
  check (negb (length_between 1 96 (policy_id d))) (ValidationError "policy_id") >>!
  check (negb (length_between 1 96 (domain_id d))) (ValidationError "domain_id") >>!
  Ok d.
End CorrelationDecisionRecord.

Module HazardCorrelationPolicy.
Record t : Type := mk {
  domain_kinds : list DomainKind.t;
  window_seconds : Z;
  min_independent_peers : Z;
  allowed_observations : list string;
  email_unverified_action : Action.t;
  fixture_qualified_action : Action.t;
  require_clock_band_at_most : option string
}.
End HazardCorrelationPolicy.

Record CollaborationPolicy : Type := mkPolicy {
  policy_version : string;
  hazards : gmap string HazardCorrelationPolicy.t
}.

(** [list(dict.fromkeys(l))] *)
Definition unique (l : list string) : list string := foldl (fun l x => append_new x l) [] l.

Module CorrelationPolicy.
Import CollaborativeSignal.

Definition CLOCK_RANK (band : string) : res Z :=
  if bool_decide (band = "low") then Ok 0
  else if bool_decide (band = "medium") then Ok 1
  else if bool_decide (band = "high") then Ok 2
  else if bool_decide (band = "unknown") then Ok 3
  else Raise (KeyError band).

(** [policy.hazards[hazard]] *)
Definition policy_of (policy : CollaborationPolicy) (h : HazardKind.t) : res HazardCorrelationPolicy.t :=
  match hazards policy !! HazardKind.value h with
  | Some hp => Ok hp
  | None => Raise (KeyError (HazardKind.value h))
  end.

Definition kind_of (s : CollaborativeSignal.t) : DomainKind.t := CorrelationDomain.kind (correlation_domain s).

Definition validate_signal (signal : CollaborativeSignal.t) (now : datetime) (policy : CollaborationPolicy)
  : res (list string) :=
  rbind (policy_of policy (hazard signal)) (fun hp =>
  rbind (match HazardCorrelationPolicy.require_clock_band_at_most hp with
         | None => Ok []
         | Some limit =>
             rbind (CLOCK_RANK (clock_uncertainty_band signal)) (fun rank =>
             rbind (CLOCK_RANK limit) (fun bound => Ok (if bound <? rank then ["CLOCK_UNSAFE"] else [])))
         end) (fun clock =>
    Ok ((if expires_at signal <=? now then ["SIGNAL_EXPIRED"] else [])
        ++ (if bool_decide (source_mode signal = "replayed") then ["SOURCE_MODE_REPLAYED"] else [])
        ++ (if bool_decide (kind_of signal = DomainKind.UNKNOWN) then ["DOMAIN_UNKNOWN"]
            else if negb (bool_decide (kind_of signal ∈ HazardCorrelationPolicy.domain_kinds hp))
            then ["HAZARD_DOMAIN_MISMATCH"] else [])
        ++ (if negb (bool_decide (observation signal ∈ HazardCorrelationPolicy.allowed_observations hp))
            then ["OBSERVATION_NOT_CORRELATION_ELIGIBLE"] else [])
        ++ clock))).

(** Two signals of one hazard and one domain. *)
Definition same_key (a b : CollaborativeSignal.t) : bool :=
  bool_decide (hazard a = hazard b) && bool_decide (kind_of a = kind_of b)
  && bool_decide (CorrelationDomain.id (correlation_domain a) = CorrelationDomain.id (correlation_domain b)).

(** One round of the loop: a signal with its reasons. *)
Definition judge (anchor : CollaborativeSignal.t) (window_start window_end now : datetime)
    (policy : CollaborationPolicy) (signal : CollaborativeSignal.t) : res (CollaborativeSignal.t * list string) :=
  rbind (validate_signal signal now policy) (fun reasons =>
    Ok (signal,
        reasons ++ (if same_key signal anchor then [] else ["CORRELATION_KEY_MISMATCH"])
        ++ (if (window_start <=? event_time_bucket signal) && (event_time_bucket signal <=? window_end)
            then [] else ["OUTSIDE_POLICY_WINDOW"]))).
Fixpoint judge_all (anchor : CollaborativeSignal.t) (window_start window_end now : datetime)
    (policy : CollaborationPolicy) (signals : list CollaborativeSignal.t)
  : res (list (CollaborativeSignal.t * list string)) :=
  match signals with
  | [] => Ok []
  | signal :: signals =>
      rbind (judge anchor window_start window_end now policy signal) (fun j =>
      rbind (judge_all anchor window_start window_end now policy signals) (fun js => Ok (j :: js)))
  end.

Definition non_clock (reasons : list string) : list string :=
  List.filter (fun r => negb (bool_decide (r = "CLOCK_UNSAFE"))) reasons.
Definition empty (l : list string) : bool := bool_decide (l = []).

Definition strengthening (a : Action.t) : bool :=
  bool_decide (a ∈ [Action.CREATE_REVIEW_INCIDENT; Action.UPDATE_INCIDENT; Action.MULTI_NODE_TRIGGER_SIMULATED]).

(** What the transport is trusted with. *)
Definition trusted_action (hp : HazardCorrelationPolicy.t) (transport_trust : string)
  : Action.t * list string * list string :=
  if bool_decide (transport_trust = "email_unverified")
  then (HazardCorrelationPolicy.email_unverified_action hp, ["EMAIL_UNVERIFIED_REVIEW_ONLY"], [])
  else if bool_decide (transport_trust = "fixture_qualified")
  then (HazardCorrelationPolicy.fixture_qualified_action hp, ["FIXTURE_QUALIFIED_SIMULATION"], [])
  else if bool_decide (transport_trust = "authenticated_peer")
  then (Action.CREATE_REVIEW_INCIDENT, [], ["AUTHENTICATED_PEER_PATH_NOT_QUALIFIED_V1"])
  else (Action.NO_ACTION, [], ["PEER_UNTRUSTED"]).

Section Evaluation.
Context (isoformat : datetime -> string) (sha256 : string -> string).

Definition decision_id_of (policy_id : string) (h : HazardKind.t) (domain_id : string) (now : datetime)
    (signal_ids : list string) : string :=
  "corrdec_" +:+ String.substring 0 24
    (sha256 (join "|" ([policy_id; HazardKind.value h; domain_id; isoformat now] ++ sorted_strings signal_ids))).

Definition incident_of (anchor : CollaborativeSignal.t) : string :=
  "collab-" +:+ HazardKind.value (hazard anchor) +:+ "-" +:+ String.substring 0 20
    (sha256 (HazardKind.value (hazard anchor) +:+ "|" +:+ DomainKind.value (kind_of anchor) +:+ "|"
             +:+ CorrelationDomain.id (correlation_domain anchor))).

Definition evaluate_correlation (signals : list CollaborativeSignal.t) (now : datetime) (transport_trust : string)
    (policy : CollaborationPolicy) : res CorrelationDecisionRecord.t :=
  match signals with
  | [] => Raise (ValueError "CORRELATION_REQUIRES_SIGNAL")
  | anchor :: _ =>
      rbind (policy_of policy (hazard anchor)) (fun hp =>
      let window := HazardCorrelationPolicy.window_seconds hp * 1000000 in
      let window_start := event_time_bucket anchor - window in
      let window_end := event_time_bucket anchor + window in
      rbind (judge_all anchor window_start window_end now policy signals) (fun judged =>
        let accepted := fst <$> List.filter (fun j => empty j.2) judged in
        let rejected := fst <$> List.filter (fun j => negb (empty j.2)) judged in
        let peer_candidates := fst <$> List.filter (fun j => empty (non_clock j.2)) judged in
        let peers := remove_dups (node_pseudonym <$> peer_candidates) in
        let peer_count := Z.of_nat (length peers) in
        let met := HazardCorrelationPolicy.min_independent_peers hp <=? peer_count in
        let positive := if met then ["MIN_PEERS_MET"; "DOMAIN_MATCH"; "POLICY_WINDOW_MATCH"] else [] in
        let blocking := concat (snd <$> judged) ++ (if met then [] else ["MIN_PEERS_NOT_MET"]) in
        let '(action, more, against) :=
          if bool_decide (kind_of anchor = DomainKind.UNKNOWN) then (Action.CONTEXT_ONLY, [], ["DOMAIN_UNKNOWN"])
          else if met && negb (bool_decide ("CLOCK_UNSAFE" ∈ blocking)) then trusted_action hp transport_trust
          else (Action.NO_ACTION, [], []) in
        let ids l := signal_id <$> l in
        CorrelationDecisionRecord.validate
          {| CorrelationDecisionRecord.decision_id :=
               decision_id_of (policy_version policy) (hazard anchor) (CorrelationDomain.id (correlation_domain anchor))
                 now (ids signals);
             CorrelationDecisionRecord.policy_id := policy_version policy;
             CorrelationDecisionRecord.hazard := hazard anchor;
             CorrelationDecisionRecord.domain_kind := kind_of anchor;
             CorrelationDecisionRecord.domain_id := CorrelationDomain.id (correlation_domain anchor);
             CorrelationDecisionRecord.window_start := window_start;
             CorrelationDecisionRecord.window_end := window_end;
             CorrelationDecisionRecord.candidate_signal_ids := ids signals;
             CorrelationDecisionRecord.accepted_signal_ids := ids accepted;
             CorrelationDecisionRecord.rejected_signal_ids := ids rejected;
             CorrelationDecisionRecord.independent_peer_count := peer_count;
             CorrelationDecisionRecord.selected_action := action;
             CorrelationDecisionRecord.positive_reasons := unique (positive ++ more);
             CorrelationDecisionRecord.blocking_reasons := unique (blocking ++ against);
             CorrelationDecisionRecord.created_or_updated_incident_id :=
               if strengthening action then Some (incident_of anchor) else None;
             CorrelationDecisionRecord.created_at := now |}))
  end.

(** [correlate], the facade of the demo: action, reasons, peers, trust. *)
Definition correlate (signals : list CollaborativeSignal.t) (now : datetime) (transport_trust : string)
    (policy : CollaborationPolicy) : res (string * list string * Z * string) :=
  match signals with
  | [] => Ok ("NO_CORRELATION", ["INSUFFICIENT_INDEPENDENT_PEERS"], 0, transport_trust)
  | _ =>
      rbind (evaluate_correlation signals now transport_trust policy) (fun record =>
        let action := CorrelationDecisionRecord.selected_action record in
        let positive := CorrelationDecisionRecord.positive_reasons record in
        let blocking := CorrelationDecisionRecord.blocking_reasons record in
        let reasons := if empty positive then blocking else positive in
        let reasons :=
          if bool_decide (action = Action.NO_ACTION) && bool_decide ("MIN_PEERS_NOT_MET" ∈ blocking)
          then ["INSUFFICIENT_INDEPENDENT_PEERS"] else reasons in
        let reasons :=
          if bool_decide (action = Action.CREATE_REVIEW_INCIDENT) && bool_decide (transport_trust = "email_unverified")
          then ["EMAIL_UNVERIFIED_TRANSPORT"] else reasons in
        let reasons :=
          if bool_decide (action = Action.MULTI_NODE_TRIGGER_SIMULATED) then ["INDEPENDENT_PEERS_MATCHED"] else reasons in
        Ok (match action with
            | Action.NO_ACTION => "NO_CORRELATION"
            | Action.CONTEXT_ONLY => "CONTEXT_ONLY"
            | Action.CREATE_REVIEW_INCIDENT | Action.UPDATE_INCIDENT => "REVIEW_REQUIRED"
            | Action.MULTI_NODE_TRIGGER_SIMULATED => "MULTI_NODE_TRIGGER_SIMULATED"
            end, reasons, CorrelationDecisionRecord.independent_peer_count record, transport_trust))
  end.
End Evaluation.
End CorrelationPolicy.

Module CollaborationRepository.
Import CollaborativeSignalEnvelope.

Record t : Type := mk {
  max_envelopes : Z;
  max_decisions : Z;
  envelopes : list CollaborativeSignalEnvelope.t;
  decisions : list CorrelationDecisionRecord.t;
  signal_ids : gset string
}.
Definition init (max_envelopes max_decisions : Z) : t := mk max_envelopes max_decisions [] [] ∅.
Definition set_envelopes v ids (s : t) : t := mk (max_envelopes s) (max_decisions s) v (decisions s) ids.
Definition set_decisions v (s : t) : t := mk (max_envelopes s) (max_decisions s) (envelopes s) v (signal_ids s).

Definition id_of (e : CollaborativeSignalEnvelope.t) : string := CollaborativeSignal.signal_id (signal e).

(** [while len(q) >= limit: q.popleft()]: what is evicted and what is kept;
    an empty deque raises. *)
Fixpoint evict {A} (limit : Z) (q : list A) : list A * res (list A) :=
  match q with
  | [] => ([], if limit <=? 0 then Raise (OtherError "IndexError") else Ok [])
  | x :: q' =>
      if limit <=? Z.of_nat (length q)
      then let '(evicted, kept) := evict limit q' in (x :: evicted, kept)
      else ([], Ok q)
  end.

Definition add_envelope (envelope : CollaborativeSignalEnvelope.t) : M t bool :=
  let! s := get in
  if bool_decide (id_of envelope ∈ signal_ids s) then ret false
  else
    let '(evicted, kept) := evict (max_envelopes s) (envelopes s) in
    let ids := foldl (fun ids e => ids ∖ {[id_of e]}) (signal_ids s) evicted in
    put (set_envelopes (default [] (match kept with Ok l => Some l | Raise _ => None end)) ids s) ;;;
    let! kept := lift kept in
    modify (set_envelopes (kept ++ [envelope]) (ids ∪ {[id_of envelope]})) ;;;
    ret true.

Definition add_decision (decision : CorrelationDecisionRecord.t) : M t unit :=
  let! s := get in
  let kept := (evict (max_decisions s) (decisions s)).2 in
  put (set_decisions (default [] (match kept with Ok l => Some l | Raise _ => None end)) s) ;;;
  let! kept := lift kept in
  modify (set_decisions (kept ++ [decision])).

Definition episode_envelopes (envelope : CollaborativeSignalEnvelope.t) (s : t) : list CollaborativeSignalEnvelope.t :=
  List.filter (fun item => CorrelationPolicy.same_key (signal item) (signal envelope)) (envelopes s).

Definition purge_expired (now : datetime) : M t Z :=
  let! s := get in
  let kept := List.filter (fun item => now <? CollaborativeSignal.expires_at (signal item)) (envelopes s) in
  modify (set_envelopes kept (list_to_set (id_of <$> kept))) ;;;
  ret (Z.of_nat (length (envelopes s)) - Z.of_nat (length kept)).
End CollaborationRepository.

Module CollaborationMetrics.
(** Counters by name and sorted labels; gauges are counts. *)
Record t : Type := mk { counters : gmap (string * list (string * string)) Z; gauges : gmap string Z }.
Definition init : t := mk ∅ ∅.

Definition ALLOWED_LABELS (key : string) : list string :=
  if bool_decide (key = "hazard") then ["wildfire"; "earthquake"; "flood"; "landslide"]
  else if bool_decide (key = "result") then ["accepted"; "rejected"; "sent"; "failed"; "expired"; "duplicate"]
  else if bool_decide (key = "validation_state") then ["admitted"; "context_only"; "rejected"]
  else if bool_decide (key = "transport_trust")
  then ["fixture_qualified"; "email_unverified"; "authenticated_peer"; "rejected"]
  else if bool_decide (key = "kind") then ["signal"; "transport_message"]
  else if bool_decide (key = "action")
  then ["no_action"; "context_only"; "create_review_incident"; "update_incident"; "multi_node_trigger_simulated"]
  else [].

Definition label_leb (x y : string * string) : bool := String.leb x.1 y.1.
Definition inc (name : string) (labels : list (string * string)) : M t unit :=
  raise_if (existsb (fun l => negb (bool_decide (l.2 ∈ ALLOWED_LABELS l.1))) labels)
    (ValueError "COLLABORATION_METRIC_HIGH_CARDINALITY_OR_UNKNOWN_LABEL") ;;;
  modify (fun m => let key := (name, sort_by label_leb labels) in
                   mk (<[key := default 0 (counters m !! key) + 1]> (counters m)) (gauges m)).
Definition set_gauge (name : string) (value : Z) : M t unit :=
  modify (fun m => mk (counters m) (<[name := value]> (gauges m))).
End CollaborationMetrics.

Module CollaborativeCorrelationService.
Import CollaborativeSignalEnvelope.

Record t : Type := mk {
  repository : CollaborationRepository.t;
  metrics : CollaborationMetrics.t
}.
Definition set_repository v (s : t) : t := mk v (metrics s).
Definition set_metrics v (s : t) : t := mk (repository s) v.
Definition on_repository {A} (m : M CollaborationRepository.t A) : M t A := zoom repository set_repository m.
Definition on_metrics {A} (m : M CollaborationMetrics.t A) : M t A := zoom metrics set_metrics m.

(** The trust of an episode [envelope] belongs to. *)
Definition episode_trust (envelope : CollaborativeSignalEnvelope.t) (episode : list CollaborativeSignalEnvelope.t)
  : string :=
  if existsb (fun e => bool_decide (transport_trust e = "email_unverified")) episode then "email_unverified"
  else transport_trust envelope.

(** The signals of an episode that are correlated. *)
Definition episode_signals (envelope : CollaborativeSignalEnvelope.t) (episode : list CollaborativeSignalEnvelope.t)
  : list CollaborativeSignal.t :=
  match signal <$> List.filter (fun e => bool_decide (validation_state e = ValidationState.ADMITTED)) episode with
  | [] => [signal envelope]
  | signals => signals
  end.

Section Service.
Context (isoformat : datetime -> string) (sha256 : string -> string).
Context (policy : CollaborationPolicy).
Context (incident_writer : option (CorrelationDecisionRecord.t -> res (option string))).

Definition ingest (envelope : CollaborativeSignalEnvelope.t) (now : datetime) : M t CorrelationDecisionRecord.t :=
  raise_if (bool_decide (validation_state envelope = ValidationState.REJECTED))
    (ValueError "REJECTED_ENVELOPE_CANNOT_ENTER_CORRELATOR") ;;;
  let! added := on_repository (CollaborationRepository.add_envelope envelope) in
  (if added then ret tt
   else on_metrics (CollaborationMetrics.inc "collaboration_duplicates_total" [("kind", "signal")]) ;;;
        raise (ValueError "SIGNAL_DUPLICATE")) ;;;
  on_metrics (CollaborationMetrics.inc "collaboration_inbound_total"
    [("validation_state", ValidationState.value (validation_state envelope));
     ("transport_trust", transport_trust envelope)]) ;;;
  let! s := get in
  let episode := CollaborationRepository.episode_envelopes envelope (repository s) in
  let! decision := lift (CorrelationPolicy.evaluate_correlation isoformat sha256 (episode_signals envelope episode) now
                           (episode_trust envelope episode) policy) in
  let decision :=
    if bool_decide (validation_state envelope = ValidationState.CONTEXT_ONLY)
    then CorrelationDecisionRecord.set_context_only
           (unique (CorrelationDecisionRecord.blocking_reasons decision ++ validation_reason_codes envelope
                    ++ ["CONTEXT_ONLY_INPUT"])) decision
    else decision in
  let! decision :=
    match incident_writer with
    | Some write =>
        if CorrelationPolicy.strengthening (CorrelationDecisionRecord.selected_action decision) then
          let! incident_id := lift (write decision) in
          ret (if truthy incident_id then CorrelationDecisionRecord.set_incident incident_id decision else decision)
        else ret decision
    | None => ret decision
    end in
  on_repository (CollaborationRepository.add_decision decision) ;;;
  let hazard := HazardKind.value (CorrelationDecisionRecord.hazard decision) in
  on_metrics (CollaborationMetrics.inc "collaboration_correlation_decisions_total"
    [("hazard", hazard); ("action", Action.value (CorrelationDecisionRecord.selected_action decision))]) ;;;
  let! s := get in
  let active := Z.of_nat (length (List.filter (fun d =>
      bool_decide (CorrelationDecisionRecord.hazard d = CorrelationDecisionRecord.hazard decision)
      && negb (bool_decide (CorrelationDecisionRecord.selected_action d = Action.NO_ACTION)))
    (CollaborationRepository.decisions (repository s)))) in
  on_metrics (CollaborationMetrics.set_gauge ("collaboration_correlation_episodes_active." +:+ hazard) active) ;;;
  ret decision.
End Service.
End CollaborativeCorrelationService.
