(* ===== verification/CollaborationTheorems.v ===== *)
(** What collaborative detection guarantees: the repository stays bounded and
    counts a signal once, and a decision strengthens an incident only on enough
    distinct, currently valid peers, never beyond a review when the transport
    is unverified; with two gaps the code has. *)

From Stdlib Require Import ZArith Lia ZifyBool.
From S2P Require Import Prelude Enums Models Records Collaboration.
Import CollaborativeCorrelationService.
Open Scope Z_scope.

Notation id_of := CollaborationRepository.id_of.
Notation envelopes := CollaborationRepository.envelopes.
Notation selected_action := CorrelationDecisionRecord.selected_action.
Notation signal := CollaborativeSignalEnvelope.signal.
Notation validation_state := CollaborativeSignalEnvelope.validation_state.
Notation transport_trust := CollaborativeSignalEnvelope.transport_trust.

(** ** The repository *)
Record repository_ok (r : CollaborationRepository.t) : Prop := {
  rp_ids : CollaborationRepository.signal_ids r = list_to_set (id_of <$> envelopes r);
  rp_once : NoDup (id_of <$> envelopes r);
  rp_bound : Z.of_nat (length (envelopes r)) <= Z.max 0 (CollaborationRepository.max_envelopes r)
}.

Lemma evict_split {A} limit (q : list A) evicted kept :
  CollaborationRepository.evict limit q = (evicted, kept) ->
  match kept with
  | Ok l => q = evicted ++ l /\ Z.of_nat (length l) < limit
  | Raise _ => q = evicted /\ limit <= 0
  end.
Proof.
  revert evicted kept. induction q as [|x q IH]; intros evicted kept; cbn [CollaborationRepository.evict].
  { intros [= <- <-]. destruct (limit <=? 0) eqn:H; cbn [length]; split; [done|lia|done|lia]. }
  destruct (limit <=? _) eqn:H.
  - destruct (CollaborationRepository.evict limit q) as [e k]. intros [= <- <-]. specialize (IH e k eq_refl).
    destruct k; destruct IH as [-> ?]; by split.
  - intros [= <- <-]. split; [done|lia].
Qed.

Lemma discard_all (l : list CollaborativeSignalEnvelope.t) (ids : gset string) x :
  x ∈ foldl (fun ids e => ids ∖ {[id_of e]}) ids l <-> x ∈ ids /\ x ∉ id_of <$> l.
Proof.
  revert ids. induction l as [|e l IH]; intros ids; [cbn; set_solver|]. rewrite fmap_cons. cbn [foldl].
  rewrite IH. set_solver.
Qed.

Lemma remaining_ids e l (ids : gset string) :
  ids = list_to_set (id_of <$> e ++ l) -> NoDup (id_of <$> e ++ l) ->
  foldl (fun ids e => ids ∖ {[id_of e]}) ids e = list_to_set (id_of <$> l).
Proof.
  intros -> Hnd. apply set_eq. intros x. rewrite discard_all, !elem_of_list_to_set, fmap_app, elem_of_app.
  rewrite fmap_app in Hnd. apply NoDup_app in Hnd as (_ & Hd & _). split; [intuition|]. intros Hx. split; [by right|].
  intros He. by apply (Hd x He).
Qed.

Lemma add_envelope_ok e r res r' :
  CollaborationRepository.add_envelope e r = (res, r') -> repository_ok r ->
  repository_ok r' /\ CollaborationRepository.max_envelopes r' = CollaborationRepository.max_envelopes r /\
  (res = Ok true -> e ∈ envelopes r') /\ (res = Ok false -> r' = r).
Proof.
  unfold CollaborationRepository.add_envelope, bind at 1, get. intros H Hok. pose proof Hok as [Hids Honce Hb].
  destruct (bool_decide (id_of e ∈ _)) eqn:Hin; [injection H as <- <-; by split_and!|].
  apply bool_decide_eq_false in Hin. rewrite Hids, elem_of_list_to_set in Hin.
  destruct (CollaborationRepository.evict _ _) as [evicted kept] eqn:Hev. apply evict_split in Hev.
  unfold bind, put, lift, modify, ret in H. destruct kept as [l|exc]; destruct Hev as [Hq Hl]; injection H as <- <-.
  - rewrite Hq in Honce, Hids, Hin. pose proof (remaining_ids _ _ _ Hids Honce) as ->. cbn.
    rewrite fmap_app in Honce, Hin. apply NoDup_app in Honce as (_ & _ & Hnd).
    split_and!; [|done|intros _; apply elem_of_app; right; by apply list_elem_of_singleton|done].
    split; cbn.
    + rewrite fmap_app, list_to_set_app_L. cbn. set_solver.
    + rewrite fmap_app. apply NoDup_app. split_and!; [done| |apply NoDup_singleton].
      intros x Hx ->%list_elem_of_singleton. set_solver.
    + rewrite length_app. cbn. lia.
  - rewrite Hq in Honce, Hids. rewrite (remaining_ids evicted [] _) by by rewrite app_nil_r.
    split_and!; [|done..]. split; cbn; [done|constructor|lia].
Qed.

Lemma add_decision_envelopes d r res r' :
  CollaborationRepository.add_decision d r = (res, r') ->
  envelopes r' = envelopes r /\ CollaborationRepository.signal_ids r' = CollaborationRepository.signal_ids r /\
  CollaborationRepository.max_envelopes r' = CollaborationRepository.max_envelopes r.
Proof.
  unfold CollaborationRepository.add_decision, bind, get, put, lift, modify.
  destruct (CollaborationRepository.evict _ _).2; intros [= _ <-]; done.
Qed.

Lemma purge_ok now r res r' :
  CollaborationRepository.purge_expired now r = (res, r') -> repository_ok r ->
  repository_ok r' /\ CollaborationRepository.max_envelopes r' = CollaborationRepository.max_envelopes r.
Proof.
  unfold CollaborationRepository.purge_expired, bind, get, modify, ret. intros [= _ <-] [_ Hnd Hb].
  split; [|done]. split; cbn; [done| |].
  - revert Hnd. clear Hb. induction (envelopes r) as [|e l IH]; cbn; [done|]. intros [Hn Hl]%NoDup_cons.
    destruct (_ <? _); [|by apply IH]. cbn. apply NoDup_cons. split; [|by apply IH].
    intros (x & Hx & Hxl)%list_elem_of_fmap. apply Hn. apply list_elem_of_fmap. exists x. split; [done|].
    by apply list_elem_of_In, List.filter_In in Hxl as [?%list_elem_of_In _].
  - pose proof (List.filter_length_le (fun item => now <? CollaborativeSignal.expires_at (signal item)) (envelopes r)). lia.
Qed.

(** ** The policy *)
Lemma judge_all_ok anchor lo hi now policy signals js :
  CorrelationPolicy.judge_all anchor lo hi now policy signals = Ok js ->
  js.*1 = signals /\
  Forall (fun j => exists reasons, CorrelationPolicy.validate_signal j.1 now policy = Ok reasons /\
    j.2 = reasons ++ (if CorrelationPolicy.same_key j.1 anchor then [] else ["CORRELATION_KEY_MISMATCH"])
          ++ (if (lo <=? CollaborativeSignal.event_time_bucket j.1) && (CollaborativeSignal.event_time_bucket j.1 <=? hi)
              then [] else ["OUTSIDE_POLICY_WINDOW"])) js.
Proof.
  revert js. induction signals as [|x l IH]; intros js; cbn.
  { intros [= <-]. by split. }
  intros (j & Hj & H)%rbind_ok. apply rbind_ok in H as (js' & Hjs & [= <-]).
  apply rbind_ok in Hj as (reasons & Hr & [= <-]). destruct (IH _ Hjs) as [<- HF].
  split; [done|]. constructor; [|done]. by exists reasons.
Qed.

(** A signal without reasons is valid, of the key of the anchor, and in its
    window. *)
Definition correlates (policy : CollaborationPolicy) (now : datetime) (d : CorrelationDecisionRecord.t)
    (anchor s : CollaborativeSignal.t) : Prop :=
  CorrelationPolicy.validate_signal s now policy = Ok [] /\ CorrelationPolicy.same_key s anchor = true /\
  CorrelationDecisionRecord.window_start d <= CollaborativeSignal.event_time_bucket s
    <= CorrelationDecisionRecord.window_end d.

Lemma empty_true l : CorrelationPolicy.empty l = true <-> l = [].
Proof. unfold CorrelationPolicy.empty. apply bool_decide_eq_true. Qed.

Lemma non_clock_id l : "CLOCK_UNSAFE" ∉ l -> CorrelationPolicy.non_clock l = l.
Proof.
  induction l as [|x l IH]; cbn; [done|]. intros [Hx Hl]%not_elem_of_cons.
  rewrite bool_decide_eq_false_2 by congruence. cbn. f_equal. by apply IH.
Qed.

Lemma filter_ext_in {A} (p q : A -> bool) l : (forall x, x ∈ l -> p x = q x) -> List.filter p l = List.filter q l.
Proof.
  induction l as [|x l IH]; [done|]. intros H. cbn. rewrite (H x) by left. rewrite IH; [done|].
  intros y Hy. apply H. by right.
Qed.

Section Service.
Context (isoformat : datetime -> string) (sha256 : string -> string) (policy : CollaborationPolicy).
Context (incident_writer : option (CorrelationDecisionRecord.t -> res (option string))).
Notation evaluate := (CorrelationPolicy.evaluate_correlation isoformat sha256).
Notation ingest := (ingest isoformat sha256 policy incident_writer).

(** What a strengthening decision rests on. *)
Lemma evaluate_strengthening anchor rest now trust d :
  evaluate (anchor :: rest) now trust policy = Ok d ->
  CorrelationPolicy.strengthening (selected_action d) = true ->
  exists hp accepted,
    CorrelationPolicy.policy_of policy (CollaborativeSignal.hazard anchor) = Ok hp /\
    accepted `sublist_of` anchor :: rest /\
    CorrelationDecisionRecord.accepted_signal_ids d = CollaborativeSignal.signal_id <$> accepted /\
    HazardCorrelationPolicy.min_independent_peers hp
      <= Z.of_nat (length (remove_dups (CollaborativeSignal.node_pseudonym <$> accepted))) /\
    Forall (correlates policy now d anchor) accepted /\
    selected_action d = (CorrelationPolicy.trusted_action hp trust).1.1.
Proof.
  cbn [CorrelationPolicy.evaluate_correlation]. intros (hp & Hhp & H)%rbind_ok Hst.
  apply rbind_ok in H as (judged & Hj & H). apply judge_all_ok in Hj as [Hfst HF].
  set (met := _ <=? _) in H. set (blocking := concat _ ++ _) in H.
  destruct (bool_decide (CorrelationPolicy.kind_of anchor = _)) eqn:Hu.
  { apply rbind_ok in H as (? & _ & H). repeat (apply rbind_ok in H as (? & _ & H)). injection H as <-. done. }
  destruct (met && negb (bool_decide (_ ∈ blocking))) eqn:Hm.
  2: { repeat (apply rbind_ok in H as (? & _ & H)). injection H as <-. done. }
  apply andb_true_iff in Hm as [Hm Hc%negb_true_iff%bool_decide_eq_false].
  destruct (CorrelationPolicy.trusted_action hp trust) as [[action more] against] eqn:Ht.
  repeat (apply rbind_ok in H as (? & _ & H)). injection H as <-. cbn in Hst |- *.
  assert (Hcl : forall j, j ∈ judged -> "CLOCK_UNSAFE" ∉ j.2).
  { intros j Hin Hx. apply Hc. unfold blocking. apply elem_of_app. left. apply list_elem_of_In, in_concat.
    exists j.2. split; apply list_elem_of_In; [by apply list_elem_of_fmap_2|done]. }
  exists hp, (fst <$> List.filter (fun j => CorrelationPolicy.empty j.2) judged).
  split_and!; [done| |done| | |by rewrite Ht].
  - rewrite <- Hfst. apply fmap_sublist. clear. induction judged as [|j l IH]; cbn; [done|].
    destruct (CorrelationPolicy.empty _); by constructor.
  - unfold met in Hm. rewrite (filter_ext_in _ (fun j => CorrelationPolicy.empty j.2)) in Hm; [lia|].
    intros j Hin. by rewrite non_clock_id by by apply Hcl.
  - apply Forall_fmap, Forall_forall. intros j (Hin & Hj)%list_elem_of_In%List.filter_In.
    apply list_elem_of_In in Hin. apply empty_true in Hj. eapply Forall_in in HF as (reasons & Hr & Hj2); [|done].
    cbn. rewrite Hj2 in Hj. apply app_eq_nil in Hj as [-> Hj]. apply app_eq_nil in Hj as [Hk Hw].
    split_and!; [done| |..].
    + by destruct (CorrelationPolicy.same_key j.1 anchor).
    + cbn. destruct (_ && _) eqn:E in Hw; [lia|done].
    + cbn. destruct (_ && _) eqn:E in Hw; [lia|done].
Qed.

(** ** Executions of the service *)
#[local] Instance preserves_repository : PreOrder (fun s s' : t =>
  repository_ok (repository s) -> repository_ok (repository s')).
Proof. split; [by intros ?|intros ??? H1 H2 H; by apply H2, H1]. Qed.

Inductive op : Type :=
| Ingest (envelope : CollaborativeSignalEnvelope.t) (now : datetime)
| Purge (now : datetime).
Definition exec (o : op) : M t unit :=
  match o with
  | Ingest e now => void (ingest e now)
  | Purge now => void (on_repository (CollaborationRepository.purge_expired now))
  end.
(** Executions from a fresh repository of either capacity. *)
Inductive reachable : t -> Prop :=
| Reachable_init me md : reachable (mk (CollaborationRepository.init me md) CollaborationMetrics.init)
| Reachable_step o s r s' : reachable s -> exec o s = (r, s') -> reachable s'.

Notation kept := (fun s s' : t => repository_ok (repository s) -> repository_ok (repository s')).

Lemma on_repository_kept {A} (m : M CollaborationRepository.t A) :
  (forall r res r', m r = (res, r') -> repository_ok r -> repository_ok r') -> Steps kept (on_repository m).
Proof.
  intros Hm s r s'. unfold on_repository, zoom. destruct (m (repository s)) as [res r'] eqn:E.
  intros [= <- <-] Hs. cbn. by eapply Hm.
Qed.
Lemma on_metrics_repository {A} (m : M CollaborationMetrics.t A) s r s' :
  on_metrics m s = (r, s') -> repository s' = repository s.
Proof. unfold on_metrics, zoom. destruct (m (metrics s)). by intros [= _ <-]. Qed.
Lemma on_metrics_kept {A} (m : M CollaborationMetrics.t A) : Steps kept (on_metrics m).
Proof. intros s r s' ->%on_metrics_repository. done. Qed.
Lemma add_envelope_kept e : Steps kept (on_repository (CollaborationRepository.add_envelope e)).
Proof. apply on_repository_kept. intros r res r' H Hr. by eapply add_envelope_ok. Qed.
Lemma add_decision_kept d : Steps kept (on_repository (CollaborationRepository.add_decision d)).
Proof.
  apply on_repository_kept. intros r res r' (He & Hi & Hm)%add_decision_envelopes [H1 H2 H3].
  split; congruence.
Qed.
#[local] Hint Resolve on_metrics_kept add_envelope_kept add_decision_kept : typeclass_instances.

Lemma ingest_kept e now : Steps kept (ingest e now).
Proof. unfold CollaborativeCorrelationService.ingest. steps. Qed.

Lemma reachable_repository s : reachable s -> repository_ok (repository s).
Proof.
  induction 1 as [me md|o s r s' _ IH H].
  - split; cbn; [done|constructor|lia].
  - destruct o as [e now|now]; unfold exec in H; apply void_run in H as (r1 & H & _).
    + by eapply ingest_kept.
    + revert H IH. apply on_repository_kept. intros ??? H Hr. by eapply purge_ok.
Qed.

(** Two decisions that differ in their incident only. *)
Definition same_decision (d d0 : CorrelationDecisionRecord.t) : Prop :=
  CorrelationDecisionRecord.set_incident None d = CorrelationDecisionRecord.set_incident None d0.

Lemma ingest_ok e now s d s' :
  ingest e now s = (Ok d, s') ->
  validation_state e <> ValidationState.REJECTED /\
  exists r1 d0, CollaborationRepository.add_envelope e (repository s) = (Ok true, r1) /\
    envelopes (repository s') = envelopes r1 /\
    evaluate (episode_signals e (CollaborationRepository.episode_envelopes e r1)) now
      (episode_trust e (CollaborationRepository.episode_envelopes e r1)) policy = Ok d0 /\
    (CorrelationPolicy.strengthening (selected_action d) = true ->
     validation_state e <> ValidationState.CONTEXT_ONLY /\ same_decision d d0).
Proof.
  unfold CollaborativeCorrelationService.ingest. intros H.
  apply bind_ok in H as (u & s1 & Hr & H). apply raise_if_ok in Hr as [Hv%bool_decide_eq_false ->].
  split; [done|]. apply bind_ok in H as (added & s2 & Ha & H). apply zoom_ok in Ha as (r1 & Ha & ->).
  apply bind_ok in H as (u1 & s3 & Hd & H). destruct added.
  2: { apply bind_ok in Hd as (? & ? & _ & Hd). discriminate. }
  injection Hd as <- <-. apply bind_ok in H as (u2 & s4 & Hm%on_metrics_repository & H). cbn in Hm.
  apply bind_ok in H as (s5 & s6 & [= <- <-] & H). rewrite Hm in H.
  apply bind_ok in H as (d0 & s7 & Hd0 & H). unfold lift in Hd0. injection Hd0 as Hd0 <-.
  exists r1, d0. split; [done|].
  apply bind_ok in H as (d1 & s8 & Hw & H). apply bind_ok in H as (u3 & s9 & Hadd & H).
  apply bind_ok in H as (u4 & s10 & Hm2%on_metrics_repository & H). apply bind_ok in H as (s11 & s12 & [= <- <-] & H).
  apply bind_ok in H as (u5 & s13 & Hm3%on_metrics_repository & H). injection H as <- <-.
  set (d2 := if bool_decide _ then _ else d0) in Hw.
  assert (s8 = s4 /\ same_decision d1 d2) as [-> Hd1].
  { destruct incident_writer as [w|]; [|by injection Hw as <- <-].
    destruct (CorrelationPolicy.strengthening _); [|by injection Hw as <- <-].
    apply bind_ok in Hw as (i & s14 & Hi & Hw). unfold lift in Hi. injection Hi as _ <-.
    destruct (truthy i); by injection Hw as <- <-. }
  apply zoom_ok in Hadd as (r2 & (He & _)%add_decision_envelopes & ->). cbn in *. rewrite Hm in He.
  split; [by rewrite Hm3, Hm2|]. split; [done|]. intros Hst. unfold d2 in Hd1.
  destruct (bool_decide (validation_state e = _)) eqn:Hc; [|by apply bool_decide_eq_false in Hc].
  assert (selected_action d1 = Action.CONTEXT_ONLY) as Hx by (by injection Hd1).
  by rewrite Hx in Hst.
Qed.
End Service.


Lemma fmap_sublist_inv {A B} (f : A -> B) l k :
  l `sublist_of` f <$> k -> exists l', l = f <$> l' /\ l' `sublist_of` k.
Proof.
  revert l. induction k as [|x k IH]; intros l; cbn.
  - intros ->%sublist_nil_r. by exists [].
  - intros [H|(l1 & -> & H)]%sublist_cons_r; destruct (IH _ H) as (l' & -> & Hl').
    + exists l'. split; [done|by constructor].
    + exists (x :: l'). split; [done|by constructor].
Qed.

Lemma list_filter_sublist {A} (p : A -> bool) l : List.filter p l `sublist_of` l.
Proof. induction l as [|x l IH]; cbn; [done|]. destruct (p x); by constructor. Qed.

Lemma same_key_trans a b c :
  CorrelationPolicy.same_key a b = true -> CorrelationPolicy.same_key b c = true -> CorrelationPolicy.same_key a c = true.
Proof.
  unfold CorrelationPolicy.same_key. rewrite !andb_true_iff, !bool_decide_eq_true. intuition congruence.
Qed.
Lemma same_key_refl a : CorrelationPolicy.same_key a a = true.
Proof. unfold CorrelationPolicy.same_key. by rewrite !bool_decide_eq_true_2. Qed.
Lemma same_key_hazard a b :
  CorrelationPolicy.same_key a b = true -> CollaborativeSignal.hazard a = CollaborativeSignal.hazard b.
Proof. unfold CorrelationPolicy.same_key. rewrite !andb_true_iff, !bool_decide_eq_true. intuition. Qed.

(** The correlated signals of an admitted envelope that is retained. *)
Lemma episode_signals_admitted e r :
  e ∈ envelopes r -> validation_state e = ValidationState.ADMITTED ->
  exists anchor rest, episode_signals e (CollaborationRepository.episode_envelopes e r) = anchor :: rest /\
    anchor :: rest = signal <$> List.filter (fun x => bool_decide (validation_state x = ValidationState.ADMITTED))
                                  (CollaborationRepository.episode_envelopes e r).
Proof.
  intros He Hv. unfold episode_signals.
  destruct (signal <$> List.filter _ _) as [|a l] eqn:Heq; [|by exists a, l]. exfalso.
  apply fmap_nil_inv in Heq. assert (e ∈ @nil CollaborativeSignalEnvelope.t) as H; [|by apply elem_of_nil in H].
  rewrite <- Heq. apply list_elem_of_In, List.filter_In. rewrite Hv. split; [|by apply bool_decide_eq_true].
  apply List.filter_In. split; [by apply list_elem_of_In|apply same_key_refl].
Qed.

(** [x] supports a decision [d] about [e]. *)
Definition supports (policy : CollaborationPolicy) (now : datetime) (d : CorrelationDecisionRecord.t)
    (e x : CollaborativeSignalEnvelope.t) : Prop :=
  validation_state x = ValidationState.ADMITTED /\
  CorrelationPolicy.validate_signal (signal x) now policy = Ok [] /\
  CorrelationPolicy.same_key (signal x) (signal e) = true /\
  CorrelationDecisionRecord.window_start d <= CollaborativeSignal.event_time_bucket (signal x)
    <= CorrelationDecisionRecord.window_end d.

(** C7: In every execution, whatever signals peers have sent and whatever has
    been purged, the repository counts each signal once and never exceeds its
    capacity.  And when the ingestion of an envelope returns a decision that creates or
    updates an incident, the envelope was admitted, the decision names distinct
    retained envelopes of enough different pseudonyms, every one admitted,
    unexpired, not replayed, of an allowed observation and clock, of the same
    hazard and domain and inside the policy window of the first; and under a
    policy that never triggers on unverified e-mail, a multi-node trigger
    means that no retained envelope of that domain came by unverified e-mail. *)
Theorem unverified_peers_only_review isoformat sha256 policy incident_writer s e now d s'
    (Hs : reachable isoformat sha256 policy incident_writer s) :
  repository_ok (repository s) /\
  (ingest isoformat sha256 policy incident_writer e now s = (Ok d, s') ->
   CorrelationPolicy.strengthening (selected_action d) = true ->
   validation_state e = ValidationState.ADMITTED /\ exists hp accepted,
    CorrelationPolicy.policy_of policy (CollaborativeSignal.hazard (signal e)) = Ok hp /\
    accepted `sublist_of` envelopes (repository s') /\
    CorrelationDecisionRecord.accepted_signal_ids d = id_of <$> accepted /\ NoDup (id_of <$> accepted) /\
    HazardCorrelationPolicy.min_independent_peers hp
      <= Z.of_nat (length (remove_dups ((fun x => CollaborativeSignal.node_pseudonym (signal x)) <$> accepted))) /\
    Forall (supports policy now d e) accepted /\
    (HazardCorrelationPolicy.email_unverified_action hp <> Action.MULTI_NODE_TRIGGER_SIMULATED ->
     selected_action d = Action.MULTI_NODE_TRIGGER_SIMULATED ->
     forall x, x ∈ envelopes (repository s') -> CorrelationPolicy.same_key (signal x) (signal e) = true ->
       transport_trust x <> "email_unverified")).
Proof.
  pose proof (reachable_repository _ _ _ _ _ Hs) as Hok. split; [done|]. intros H Hst.
  pose proof (ingest_kept _ _ _ _ _ _ _ _ _ H Hok) as Hok'.
  apply ingest_ok in H as (Hv & r1 & d0 & Ha & He & Hev & Hsame).
  destruct (Hsame Hst) as [Hc Hd]. assert (validation_state e = ValidationState.ADMITTED) as Hadm.
  { by destruct (validation_state e). }
  split; [done|]. rewrite He.
  apply add_envelope_ok in Ha as (_ & _ & Hin & _); [|done]. specialize (Hin eq_refl).
  destruct (episode_signals_admitted e r1 Hin Hadm) as (anchor & rest & Hep & Hsig). rewrite Hep in Hev.
  assert (Hsel : selected_action d = selected_action d0) by by injection Hd.
  apply evaluate_strengthening in Hev as (hp & acc & Hhp & Hsub & Hids & Hmin & HF & Hact); [|by rewrite <- Hsel].
  rewrite Hsig in Hsub. apply fmap_sublist_inv in Hsub as (accepted & -> & Hsub).
  assert (Hak : CorrelationPolicy.same_key anchor (signal e) = true).
  { assert (anchor ∈ anchor :: rest) as Hx by left. rewrite Hsig in Hx.
    apply list_elem_of_fmap in Hx as (x & -> & Hx). apply list_elem_of_In, List.filter_In in Hx as [Hx _].
    apply List.filter_In in Hx as [_ Hx]. exact Hx. }
  exists hp, accepted.
  assert (Hsub' : accepted `sublist_of` envelopes r1).
  { rewrite Hsub. unfold CollaborationRepository.episode_envelopes. by rewrite !list_filter_sublist. }
  split_and!.
  - by rewrite <- (same_key_hazard _ _ Hak).
  - done.
  - replace (CorrelationDecisionRecord.accepted_signal_ids d) with (CorrelationDecisionRecord.accepted_signal_ids d0)
      by by injection Hd. rewrite Hids. by rewrite <- list_fmap_compose.
  - eapply sublist_NoDup; [|by apply fmap_sublist]. rewrite <- He. apply Hok'.
  - clear -Hmin. by rewrite <- list_fmap_compose in Hmin.
  - rewrite Forall_fmap in HF. apply Forall_forall. intros x Hx.
    destruct (Forall_in _ _ _ HF Hx) as (Hval & Hk & Hw). cbn in Hk, Hval, Hw.
    pose proof (elem_of_sublist _ _ _ Hx Hsub) as Hxe. apply list_elem_of_In, List.filter_In in Hxe as [_ Hxe].
    split_and!; [by apply bool_decide_eq_true in Hxe|done|by eapply same_key_trans|..];
      [replace (CorrelationDecisionRecord.window_start d) with (CorrelationDecisionRecord.window_start d0) by by injection Hd
      |replace (CorrelationDecisionRecord.window_end d) with (CorrelationDecisionRecord.window_end d0) by by injection Hd]; lia.
  - intros Hpol Hm x Hx Hkx Hem. rewrite Hsel, Hact in Hm. unfold episode_trust in Hm.
    destruct (existsb _ _) eqn:Hex; [done|]. rewrite <- not_true_iff_false in Hex. apply Hex, existsb_exists.
    exists x. split; [|by apply bool_decide_eq_true].
    apply List.filter_In. split; [by apply list_elem_of_In|done].
Qed.

(** ** The released policy on concrete signals *)
Definition released_policy : CollaborationPolicy :=
  let review kinds window observations :=
    HazardCorrelationPolicy.mk kinds window 2 observations
      Action.CREATE_REVIEW_INCIDENT Action.CREATE_REVIEW_INCIDENT None in
  mkPolicy "collab-demo-v1" (list_to_map [
    ("earthquake", HazardCorrelationPolicy.mk [DomainKind.SPATIAL_CELL] 10 2 ["local_trigger"; "earthquake_like_signal"]
                     Action.CREATE_REVIEW_INCIDENT Action.MULTI_NODE_TRIGGER_SIMULATED (Some "medium"));
    ("wildfire", review [DomainKind.OBSERVATION_AREA; DomainKind.CAMERA_SECTOR] 180 ["possible_smoke"; "persistent_smoke"]);
    ("flood", review [DomainKind.RIVER_REACH; DomainKind.CATCHMENT] 600
                ["water_rising"; "threshold_approaching"; "threshold_exceeded"; "flooding_observed"]);
    ("landslide", review [DomainKind.SLOPE; DomainKind.MONITORED_SITE] 600 ["movement_anomaly"; "review_required"])]).

(** An earthquake signal of a peer at a second, valid for an hour. *)
Definition tremor (id peer trust : string) (second : Z) : CollaborativeSignalEnvelope.t :=
  CollaborativeSignalEnvelope.mk (second * 1000000) "fixture" ("m-" +:+ id) trust
    (CollaborativeSignal.mk ("peer-signal-000" +:+ id) ("peer-episode-00" +:+ id) 0 ("peer-pseudonym-" +:+ peer)
       HazardKind.EARTHQUAKE "local_trigger"
       (CorrelationDomain.mk DomainKind.SPATIAL_CELL "cell-1" None) (second * 1000000) "moderate" "moderate" "healthy"
       "low" "fixture" "v1" false (second * 1000000 + 3600000000) [])
    ValidationState.ADMITTED [] ("episode-" +:+ id).

Notation ex_ingest e second := (ingest (fun _ => "now") (fun s => s) released_policy None e (second * 1000000)).
Notation ex_init := (mk (CollaborationRepository.init 1000 1000) CollaborationMetrics.init).

Notation ex_first := (exec (fun _ => "now") (fun s => s) released_policy None
  (Ingest (tremor "1" "a" "fixture_qualified" 1) 1000000)).
Notation ex_second := (ex_ingest (tremor "2" "b" "fixture_qualified" 2) 2).

Lemma two_peers_run :
  match (ex_second (ex_first ex_init).2).1 with
  | Ok d => selected_action d = Action.MULTI_NODE_TRIGGER_SIMULATED
  | Raise _ => False
  end.
Proof. vm_compute. reflexivity. Qed.

Lemma two_peers_trigger : exists d s s',
  reachable (fun _ => "now") (fun s => s) released_policy None s /\
  ex_second s = (Ok d, s') /\ selected_action d = Action.MULTI_NODE_TRIGGER_SIMULATED.
Proof.
  pose proof two_peers_run as H. destruct (ex_first ex_init) as [r s] eqn:H1. cbn [snd] in H.
  destruct (ex_second s) as [[d|e] s'] eqn:H2; [|destruct H]. exists d, s, s'.
  split; [|by split]. eapply Reachable_step; [apply Reachable_init|exact H1].
Qed.

Lemma unverified_peers_only_review_witness : exists d hp accepted,
  selected_action d = Action.MULTI_NODE_TRIGGER_SIMULATED /\
  CorrelationPolicy.policy_of released_policy HazardKind.EARTHQUAKE = Ok hp /\
  CorrelationDecisionRecord.accepted_signal_ids d = id_of <$> accepted /\
  2 <= Z.of_nat (length (remove_dups ((fun x => CollaborativeSignal.node_pseudonym (signal x)) <$> accepted))).
Proof.
  destruct two_peers_trigger as (d & s & s' & Hs & H & Hd).
  destruct (proj2 (unverified_peers_only_review (fun _ => "now") (fun s => s) released_policy None s _ _ d s' Hs) H)
    as (_ & hp & accepted & Hhp & _ & Hids & _ & Hmin & _).
  { rewrite Hd. vm_compute. reflexivity. }
  exists d, hp, accepted. split; [exact Hd|]. split; [exact Hhp|]. split; [exact Hids|].
  assert (HazardCorrelationPolicy.min_independent_peers hp = 2) as <-; [|exact Hmin].
  vm_compute in Hhp. injection Hhp as <-. reflexivity.
Defined.

(** ** Gaps *)
(** The oldest retained signal of a domain is the anchor, however old it is:
    nothing purges the repository, so two peers that agree within a second stay
    uncorrelated, and without a repository entry from the day before they are
    correlated. *)
Lemma stale_anchor_blocks :
  let day := 86400 in
  let agree s := match ex_ingest (tremor "3" "c" "fixture_qualified" (day + 2)) (day + 2)
                   (ex_ingest (tremor "2" "b" "fixture_qualified" (day + 1)) (day + 1) s).2 with
                 | (Ok d, _) => Some (selected_action d)
                 | (Raise _, _) => None
                 end in
  agree ex_init = Some Action.MULTI_NODE_TRIGGER_SIMULATED /\
  agree (ex_ingest (tremor "1" "a" "fixture_qualified" 1) 1 ex_init).2 = Some Action.NO_ACTION.
Proof. vm_compute. split; reflexivity. Qed.

(** The trust of a mixed episode is that of its newest envelope when no e-mail
    is in it: an authenticated peer is not qualified to trigger, and a fixture
    envelope after its own makes it count towards a trigger. *)
Lemma mixed_trust_not_weakest :
  let second_trust a b :=
    match ex_ingest (tremor "2" "b" b 2) 2 (ex_ingest (tremor "1" "a" a 1) 1 ex_init).2 with
    | (Ok d, _) => Some (selected_action d, CorrelationDecisionRecord.accepted_signal_ids d)
    | (Raise _, _) => None
    end in
  second_trust "fixture_qualified" "authenticated_peer"
    = Some (Action.CREATE_REVIEW_INCIDENT, ["peer-signal-0001"; "peer-signal-0002"]) /\
  second_trust "authenticated_peer" "fixture_qualified"
    = Some (Action.MULTI_NODE_TRIGGER_SIMULATED, ["peer-signal-0001"; "peer-signal-0002"]).
Proof. vm_compute. split; reflexivity. Qed.
