(* ===== verification/Updates.v ===== *)
(** Offline updates (update/): building a signed bundle, verifying it, staging
    it and moving the activation pointer, with the anti-rollback policies.

    An archive is the list of its members in order; a directory tree maps the
    components of a path to the bytes of the file there, and the source root
    holds no symbolic links.  Bundle identifiers hold no path separator.  The
    pointer file is written and read as JSON: it is a record.  Ed25519 is a
    pair of parameters over raw keys, [load_metadata] is what pydantic makes of
    the bytes of metadata.json and [self_test] the caller's test, which may
    change the staged directory or raise.  Texts are ASCII. *)

From Stdlib Require Import ZArith.
From S2P Require Import Prelude Binary64 Enums Models Records CanonicalJson Configuration Journal Tombstones Base64.
Open Scope Z_scope.

(** ** Text and paths *)
(** [s.split(sep)] for a separator of one character. *)
Fixpoint split (sep : Ascii.ascii) (s : string) : list string :=
  match s with
  | EmptyString => [""]
  | String c s =>
      if decide (c = sep) then "" :: split sep s
      else match split sep s with [] => [String c ""] | x :: l => String c x :: l end
  end.

Definition slash : Ascii.ascii := chr 47.

(** [s.replace("\\", "/")] *)
Fixpoint forward_slashes (s : string) : string :=
  match s with
  | EmptyString => EmptyString
  | String c s => String (if decide (c = chr 92) then slash else c) (forward_slashes s)
  end.

(** The components [pathlib] keeps of a path. *)
Definition parts (path : string) : list string :=
  List.filter (fun p => negb (bool_decide (p = "") || bool_decide (p = "."))) (split slash path).

(** The directories on the way to a file: [q] is a proper ancestor of [p]. *)
Fixpoint ancestor (q p : list string) : bool :=
  match q, p with
  | [], _ :: _ => true
  | x :: q, y :: p => bool_decide (x = y) && ancestor q p
  | _, [] => false
  end.

Definition tree : Type := gmap (list string) string.

(** [path.parent.mkdir(parents=True, exist_ok=True); path.write_bytes(data)] *)
Definition write_bytes (path data : string) (files : tree) : res tree :=
  let file := parts path in
  check (bool_decide (file = [])) (OSError "is a directory") >>!
  check (existsb (fun f => ancestor f file || ancestor file f) (map_to_list files).*1)
    (OSError "a file is in the way of a directory") >>!
  Ok (<[file := data]> files).

(** ** Data *)
Module UpdateBundleState.
Inductive t : Type := STAGED | VERIFIED | REJECTED | ACTIVATED | ROLLED_BACK.
#[global] Instance eq_dec : EqDecision t.
Proof. solve_decision. Defined.
Definition value (x : t) : string :=
  match x with
  | STAGED => "staged"
  | VERIFIED => "verified"
  | REJECTED => "rejected"
  | ACTIVATED => "activated"
  | ROLLED_BACK => "rolled_back"
  end.
End UpdateBundleState.

Module OfflineUpdateTarget.
Record t : Type := mk { path : string; length : Z; sha256 : string }.

Definition safe_relative_target_path (value : string) : res string :=
  let candidate := forward_slashes (strip value) in
  check (bool_decide (candidate = "") || startswith candidate "/" || bool_decide (".." ∈ split slash candidate))
    (ValidationError "update target path must be a safe relative path") >>!
  Ok candidate.

(** The constructor, with its validator. *)
Definition create (path : string) (length : Z) (sha256 : string) : res t :=
  rbind (safe_relative_target_path path) (fun path =>
    check (length <? 0) (ValidationError "length must be >= 0") >>! Ok (mk path length sha256)).
End OfflineUpdateTarget.

Module OfflineUpdateMetadata.
Record t : Type := mk {
  schema_version : string;
  bundle_id : string;
  version : Z;
  created_at : datetime;
  expires_at : datetime;
  compatible_project : string;
  compatible_min_version : string;
  compatible_max_version : string;
  targets : list OfflineUpdateTarget.t;
  root_key_id : string;
  minimum_tombstone_authority_position : Z;
  required_tombstone_journal_sha256 : option string
}.

(** [len(v) == 64] and its lower case is hexadecimal. *)
Definition hex_digest (v : string) : bool :=
  (String.length v =? 64)%nat &&
  forallb (fun c => contains "0123456789abcdef" (String c "")) (String.list_ascii_of_string (lower v)).

Definition validate (m : t) : res t :=
  check ((version m <? 1) || (minimum_tombstone_authority_position m <? 0)) (ValidationError "out of range") >>!
  check (expires_at m <=? created_at m) (ValidationError "update metadata expiry must follow creation") >>!
  check (bool_decide (targets m = [])) (ValidationError "update bundle requires at least one target") >>!
  check (match required_tombstone_journal_sha256 m with Some v => negb (hex_digest v) | None => false end)
    (ValidationError "required_tombstone_journal_sha256 must be a lowercase SHA-256 digest") >>!
  check (negb (bool_decide (NoDup (OfflineUpdateTarget.path <$> targets m))))
    (ValidationError "update target paths must be unique") >>!
  Ok m.
End OfflineUpdateMetadata.

Module OfflineUpdateVerification.
Record t : Type := mk {
  bundle_id : string;
  version : Z;
  state : UpdateBundleState.t;
  verified_at : datetime;
  metadata_sha256 : string;
  signer_key_id : string;
  reason_codes : list string
}.
Definition set_state v (x : t) : t :=
  mk (bundle_id x) (version x) v (verified_at x) (metadata_sha256 x) (signer_key_id x) (reason_codes x).
End OfflineUpdateVerification.

(** ** Small policies *)
Module RollbackPolicy.
Record UpdateBundle : Type := mkBundle { bundle_type : string; version : Z; rollback_version : Z; digest : string }.
Record RollbackDecision : Type := mkDecision { accepted : bool; action : string; reason : string }.
Definition evaluate_update (active candidate : UpdateBundle) (canary_passed : bool) : RollbackDecision :=
  if (version candidate <? version active) && (version candidate <? rollback_version active)
  then mkDecision false "reject" "anti_rollback_floor"
  else if (version candidate =? version active) && bool_decide (digest candidate = digest active)
  then mkDecision false "reject" "replay"
  else if negb canary_passed then mkDecision false "restore_last_known_good" "canary_failed"
  else mkDecision true "activate" "verified_and_canary_passed".
End RollbackPolicy.

Module ActivationPreconditions.
Record t : Type := mk { power_ok : bool; storage_ok : bool; compatible : bool }.
Definition safe (p : t) : bool := power_ok p && storage_ok p && compatible p.
Definition require_safe (p : t) : res (list string) :=
  let failures := fst <$> List.filter (fun x => negb x.2)
    [("power", power_ok p); ("storage", storage_ok p); ("compatibility", compatible p)] in
  check (negb (bool_decide (failures = [])))
    (ValueError ("activation preconditions failed: " +:+ join "," failures)) >>!
  Ok ["power_ok"; "storage_ok"; "compatibility_ok"].
End ActivationPreconditions.

Module OtaRetrievalPolicy.
Record t : Type := mk { enabled : bool; acceptance_dependency : bool; release_gate_dependency : bool }.
Definition validate (p : t) : res unit :=
  check (acceptance_dependency p || release_gate_dependency p)
    (ValueError "automatic OTA retrieval cannot be an acceptance dependency").
Definition as_metadata (p : t) : res (list (string * bool)) :=
  validate p >>!
  Ok [("automatic_ota_retrieval_enabled", enabled p); ("acceptance_dependency", false);
      ("release_gate_dependency", false)].
End OtaRetrievalPolicy.

(** ** Versions *)
(** [tuple(int(part) for part in l)] *)
Fixpoint ints (l : list string) : res (list Z) :=
  match l with
  | [] => Ok []
  | x :: l => rbind (int_of_string x) (fun z => rbind (ints l) (fun zs => Ok (z :: zs)))
  end.
Definition version_tuple (value : string) : res (list Z) :=
  let head sep s := default "" (head (split sep s)) in
  match ints (split (chr 46) (head (chr 45) (head (chr 43) value))) with
  | Ok t => Ok t
  | Raise _ => Raise (ValueError ("invalid semantic version: " +:+ value))
  end.
(** [a < b] on tuples. *)
Fixpoint tuple_lt (a b : list Z) : bool :=
  match a, b with
  | [], _ :: _ => true
  | x :: a, y :: b => if x =? y then tuple_lt a b else x <? y
  | _, [] => false
  end.

Definition METADATA : string := "metadata.json".
Definition SIGNATURE : string := "metadata.ed25519".
Definition PROTECTED_TARGET_PREFIXES : list string := ["artifacts/"; "evidence/"; "backups/"; "privacy/"; "state/"].
Definition protected (path : string) : bool := existsb (startswith path) PROTECTED_TARGET_PREFIXES.

(** [active.json] *)
Module Pointer.
Record t : Type := mk {
  bundle_id : string; version : Z; path : string; metadata_sha256 : string; activated_at : string
}.
End Pointer.

Module OfflineUpdateManager.
(** The trees below [staged_root] and [activated_root], the pointer file and
    the journal store of incidents.sqlite3. *)
Record t : Type := mk {
  staged : gmap string tree;
  activated : gmap string tree;
  pointer : option Pointer.t;
  incidents : option IncidentJournalStore.t
}.
Definition set_staged v (s : t) : t := mk v (activated s) (pointer s) (incidents s).
Definition set_activated v (s : t) : t := mk (staged s) v (pointer s) (incidents s).
Definition set_pointer v (s : t) : t := mk (staged s) (activated s) v (incidents s).
Definition set_incidents v (s : t) : t := mk (staged s) (activated s) (pointer s) v.

Definition current_update_version (s : t) : Z :=
  match pointer s with Some p => Pointer.version p | None => 0 end.

(** [f"{bundle_id}-{version}"] *)
Definition directory (m : OfflineUpdateMetadata.t) : string :=
  OfflineUpdateMetadata.bundle_id m +:+ "-" +:+ pretty (OfflineUpdateMetadata.version m).

Section Manager.
Context (float_repr : f64 -> string) (isoformat json_time : datetime -> string).
Context (sha256 : string -> string) (uuid5 : string -> UUID).
Context (dump_event : EvidenceLifecycleEvent.t -> json) (store_sha256 : payload -> string).
Context (public_of : string -> string) (ed25519_sign : string -> string -> string).
Context (ed25519_verify : string -> string -> string -> bool).
Context (load_metadata : string -> res OfflineUpdateMetadata.t).

Definition key_id (public_key : string) : string := String.substring 0 32 (sha256 public_key).

(** [metadata.model_dump(mode="json")] *)
Definition dump_target (t : OfflineUpdateTarget.t) : json :=
  JDict [("path", JStr (OfflineUpdateTarget.path t)); ("length", JInt (OfflineUpdateTarget.length t));
         ("sha256", JStr (OfflineUpdateTarget.sha256 t))].
Definition dump_metadata (m : OfflineUpdateMetadata.t) : json :=
  JDict [("schema_version", JStr (OfflineUpdateMetadata.schema_version m));
         ("bundle_id", JStr (OfflineUpdateMetadata.bundle_id m));
         ("version", JInt (OfflineUpdateMetadata.version m));
         ("created_at", JStr (json_time (OfflineUpdateMetadata.created_at m)));
         ("expires_at", JStr (json_time (OfflineUpdateMetadata.expires_at m)));
         ("compatible_project", JStr (OfflineUpdateMetadata.compatible_project m));
         ("compatible_min_version", JStr (OfflineUpdateMetadata.compatible_min_version m));
         ("compatible_max_version", JStr (OfflineUpdateMetadata.compatible_max_version m));
         ("targets", JList (dump_target <$> OfflineUpdateMetadata.targets m));
         ("root_key_id", JStr (OfflineUpdateMetadata.root_key_id m));
         ("minimum_tombstone_authority_position", JInt (OfflineUpdateMetadata.minimum_tombstone_authority_position m));
         ("required_tombstone_journal_sha256",
          match OfflineUpdateMetadata.required_tombstone_journal_sha256 m with Some v => JStr v | None => JNull end)].
Definition metadata_bytes (m : OfflineUpdateMetadata.t) : string := canonical_json_bytes float_repr (dump_metadata m).

(** ["0" * 64] *)
Definition zeros : string := "0000000000000000000000000000000000000000000000000000000000000000".

(** The loop over the target paths: the paths, targets and data. *)
Fixpoint collect_targets (source : tree) (paths : list string) : res (list (OfflineUpdateTarget.t * string)) :=
  match paths with
  | [] => Ok []
  | raw :: paths =>
      rbind (OfflineUpdateTarget.create raw 0 zeros) (fun target =>
      let path := OfflineUpdateTarget.path target in
      match source !! parts path with
      | None => Raise (FileNotFoundError path)
      | Some data =>
          check (protected path)
            (ValueError "update targets cannot overwrite protected state, evidence, backup, or privacy paths") >>!
          rbind (OfflineUpdateTarget.create path (Z.of_nat (String.length data)) (sha256 data)) (fun target =>
          rbind (collect_targets source paths) (fun rest => Ok ((target, data) :: rest)))
      end)
  end.

(** The name [ZipFile.write] gives a member. *)
Definition arcname (path : string) : string := join "/" (parts path).

(** The arguments of [build_update_bundle] that the metadata records. *)
Record request : Type := mkRequest {
  private_key : string;
  bundle_id : string;
  version : Z;
  created_at : datetime;
  expires_at : datetime;
  compatible_min_version : string;
  compatible_max_version : string;
  minimum_tombstone_authority_position : Z;
  required_tombstone_journal_sha256 : option string
}.

Definition bundle_metadata (r : request) (targets : list OfflineUpdateTarget.t) : OfflineUpdateMetadata.t :=
  {| OfflineUpdateMetadata.schema_version := "1.0.0";
     OfflineUpdateMetadata.bundle_id := bundle_id r;
     OfflineUpdateMetadata.version := version r;
     OfflineUpdateMetadata.created_at := created_at r;
     OfflineUpdateMetadata.expires_at := expires_at r;
     OfflineUpdateMetadata.compatible_project := "sentinel-edge";
     OfflineUpdateMetadata.compatible_min_version := compatible_min_version r;
     OfflineUpdateMetadata.compatible_max_version := compatible_max_version r;
     OfflineUpdateMetadata.targets := targets;
     OfflineUpdateMetadata.root_key_id := key_id (public_of (private_key r));
     OfflineUpdateMetadata.minimum_tombstone_authority_position := minimum_tombstone_authority_position r;
     OfflineUpdateMetadata.required_tombstone_journal_sha256 := required_tombstone_journal_sha256 r |}.

Definition build_update_bundle (source : tree) (target_paths : list string) (r : request)
  : res (list (string * string)) :=
  rbind (collect_targets source (sorted_set target_paths)) (fun collected =>
  rbind (OfflineUpdateMetadata.validate (bundle_metadata r collected.*1)) (fun metadata =>
    let bytes := metadata_bytes metadata in
    Ok ([(METADATA, bytes); (SIGNATURE, b64encode (ed25519_sign (private_key r) bytes))]
        ++ ((fun x => (arcname (OfflineUpdateTarget.path x.1), x.2)) <$> collected)))).

(** The manager of a node. *)
Context (public_key current_project_version : string) (mode : RuntimeMode.t).

Definition current_tombstone_status (s : t) (now : datetime) : res (Z * string) :=
  match incidents s with
  | None => Ok (0, sha256 (canonical_json_bytes float_repr
                     (JDict [("schema", JStr "sentinel-edge-privacy-tombstones/empty")])))
  | Some store =>
      rbind (build_tombstone_journal float_repr sha256 uuid5 dump_event store_sha256 store now) (fun journal =>
        Ok (TombstoneJournal.source_authority_position journal, TombstoneJournal.payload_sha256 journal))
  end.

Definition verify_tombstone_requirement (m : OfflineUpdateMetadata.t) (s : t) (now : datetime) : res (list string) :=
  rbind (current_tombstone_status s now) (fun '(position, digest) =>
    let minimum := OfflineUpdateMetadata.minimum_tombstone_authority_position m in
    check (position <? minimum) (ValueError "update requires a newer privacy tombstone watermark") >>!
    check (match OfflineUpdateMetadata.required_tombstone_journal_sha256 m with
           | Some required => (position =? minimum) && negb (bool_decide (digest = required))
           | None => false
           end)
      (ValueError "update tombstone journal digest does not match the required watermark") >>!
    Ok ["tombstone_position:" +:+ pretty position; "tombstone_requirement_satisfied"]).

Definition read (archive : list (string * string)) (name : string) : res string :=
  match dict_get name archive with Some data => Ok data | None => Raise (KeyError name) end.

(** The names of the members. *)
Fixpoint check_names (names : list string) : res unit :=
  match names with
  | [] => Ok tt
  | name :: names =>
      rbind (OfflineUpdateTarget.create name 0 zeros) (fun safe =>
        check (negb (bool_decide (OfflineUpdateTarget.path safe = name)))
          (ValueError "update archive member is not canonical") >>!
        check_names names)
  end.

(** The loop over the signed targets. *)
Fixpoint check_targets (archive : list (string * string)) (targets : list OfflineUpdateTarget.t) : res unit :=
  match targets with
  | [] => Ok tt
  | target :: targets =>
      let path := OfflineUpdateTarget.path target in
      check (protected path) (ValueError "update metadata targets a protected state or privacy path") >>!
      rbind (read archive path) (fun data =>
        check (negb (Z.of_nat (String.length data) =? OfflineUpdateTarget.length target)
               || negb (bool_decide (sha256 data = OfflineUpdateTarget.sha256 target)))
          (ValueError ("update target verification failed: " +:+ path)) >>!
        check_targets archive targets)
  end.

Definition verified (m : OfflineUpdateMetadata.t) (bytes : string) (now : datetime) (tombstones : list string)
  : OfflineUpdateVerification.t :=
  {| OfflineUpdateVerification.bundle_id := OfflineUpdateMetadata.bundle_id m;
     OfflineUpdateVerification.version := OfflineUpdateMetadata.version m;
     OfflineUpdateVerification.state := UpdateBundleState.VERIFIED;
     OfflineUpdateVerification.verified_at := now;
     OfflineUpdateVerification.metadata_sha256 := sha256 bytes;
     OfflineUpdateVerification.signer_key_id := OfflineUpdateMetadata.root_key_id m;
     OfflineUpdateVerification.reason_codes :=
       ["ed25519_signature_valid"; "expiry_valid"; "rollback_check_passed"; "targets_verified"] ++ tombstones |}.

Definition subset (a b : list string) : bool := forallb (fun x => bool_decide (x ∈ b)) a.

Definition verify (archive : list (string * string)) (now : datetime) (s : t)
  : res (OfflineUpdateMetadata.t * OfflineUpdateVerification.t) :=
  let names := archive.*1 in
  check (negb (bool_decide (NoDup names))) (ValueError "update bundle contains duplicate archive members") >>!
  check_names names >>!
  check (negb (bool_decide (METADATA ∈ names)) || negb (bool_decide (SIGNATURE ∈ names)))
    (ValueError "update bundle is missing signed metadata") >>!
  rbind (read archive METADATA) (fun bytes =>
  rbind (read archive SIGNATURE) (fun encoded =>
  check (match b64decode encoded with
         | Some signature => negb (ed25519_verify public_key signature bytes)
         | None => true
         end) (ValueError "update metadata signature is invalid") >>!
  rbind (load_metadata bytes) (fun m =>
  check (negb (bool_decide (key_id public_key = OfflineUpdateMetadata.root_key_id m)))
    (ValueError "update root key identifier mismatch") >>!
  check (negb (bool_decide (metadata_bytes m = bytes))) (ValueError "update metadata is not canonical") >>!
  check (OfflineUpdateMetadata.expires_at m <=? now) (ValueError "update metadata is expired") >>!
  check (now <? OfflineUpdateMetadata.created_at m) (ValueError "update metadata creation time is in the future") >>!
  rbind (version_tuple current_project_version) (fun current =>
  rbind (version_tuple (OfflineUpdateMetadata.compatible_min_version m)) (fun lowest =>
  rbind (if tuple_lt current lowest then Ok true
         else rbind (version_tuple (OfflineUpdateMetadata.compatible_max_version m)) (fun highest =>
                Ok (tuple_lt highest current))) (fun incompatible =>
  check incompatible (ValueError "update bundle is incompatible with the current project version") >>!
  check (OfflineUpdateMetadata.version m <=? current_update_version s)
    (ValueError "update rollback or replay detected") >>!
  let declared := OfflineUpdateTarget.path <$> OfflineUpdateMetadata.targets m in
  check (negb (subset names (declared ++ [METADATA; SIGNATURE])) || negb (subset declared names))
    (ValueError "update archive members differ from signed targets") >>!
  check_targets archive (OfflineUpdateMetadata.targets m) >>!
  rbind (verify_tombstone_requirement m s now) (fun tombstones =>
  Ok (m, verified m bytes now tombstones)))))))).

(** The extraction of the targets into the temporary directory. *)
Fixpoint extract (archive : list (string * string)) (targets : list OfflineUpdateTarget.t) (temp : tree) : res tree :=
  match targets with
  | [] => Ok temp
  | target :: targets =>
      let path := OfflineUpdateTarget.path target in
      rbind (read archive path) (fun data =>
      rbind (write_bytes path data temp) (fun temp =>
        check (negb (bool_decide (sha256 data = OfflineUpdateTarget.sha256 target)))
          (ValueError "staged target digest mismatch") >>!
        extract archive targets temp))
  end.

Definition stage (archive : list (string * string)) (now : datetime) : M t (string * OfflineUpdateVerification.t) :=
  raise_if (bool_decide (mode ∈ [RuntimeMode.JUDGE; RuntimeMode.BENCHMARK]))
    (PermissionError "judge and benchmark modes are immutable") ;;;
  let! s := get in
  let! '(m, verification) := lift (verify archive now s) in
  let destination := directory m in
  modify (fun s => set_staged (delete destination (staged s)) s) ;;;
  let! temp := lift (rbind (extract archive (OfflineUpdateMetadata.targets m) ∅)
                       (write_bytes METADATA (metadata_bytes m))) in
  modify (fun s => set_staged (<[destination := temp]> (staged s)) s) ;;;
  ret (destination, OfflineUpdateVerification.set_state UpdateBundleState.STAGED verification).

(** A staged target still has its size and digest. *)
Definition target_matches (files : tree) (target : OfflineUpdateTarget.t) : bool :=
  match files !! parts (OfflineUpdateTarget.path target) with
  | Some data => (Z.of_nat (String.length data) =? OfflineUpdateTarget.length target)
                 && bool_decide (sha256 data = OfflineUpdateTarget.sha256 target)
  | None => false
  end.

Definition read_metadata (files : tree) : res string :=
  match files !! [METADATA] with Some bytes => Ok bytes | None => Raise (FileNotFoundError METADATA) end.

Definition outcome (m : OfflineUpdateMetadata.t) (state : UpdateBundleState.t) (now : datetime) (digest : string)
    (reasons : list string) : OfflineUpdateVerification.t :=
  OfflineUpdateVerification.mk (OfflineUpdateMetadata.bundle_id m) (OfflineUpdateMetadata.version m) state now digest
    (OfflineUpdateMetadata.root_key_id m) reasons.

(** [activate] up to the pointer: the outcome of a failed self-test, or the
    metadata and the pointer to commit.  [None] is a path outside the root. *)
Definition prepare (staged_path : option string) (self_test : tree -> res bool * tree) (now : datetime)
  : M t (OfflineUpdateVerification.t + OfflineUpdateMetadata.t * Pointer.t) :=
  raise_if (negb (bool_decide (mode = RuntimeMode.FIELD_LAB)))
    (PermissionError "offline update activation is field-lab only") ;;;
  let! name := lift match staged_path with
    | Some name => Ok name
    | None => Raise (ValueError "staged update is outside the update root")
    end in
  let! s := get in
  let files := default ∅ (staged s !! name) in
  let! m := lift (rbind (read_metadata files) load_metadata) in
  let! _ := lift (verify_tombstone_requirement m s now) in
  raise_if (OfflineUpdateMetadata.version m <=? current_update_version s)
    (ValueError "update rollback or replay detected") ;;;
  raise_if (negb (forallb (target_matches files) (OfflineUpdateMetadata.targets m)))
    (ValueError "staged update target no longer matches signed metadata") ;;;
  let '(passed, files) := self_test files in
  modify (fun s => set_staged (<[name := files]> (staged s)) s) ;;;
  let! passed := lift passed in
  if negb passed then
    let! bytes := lift (read_metadata files) in
    ret (inl (outcome m UpdateBundleState.ROLLED_BACK now (sha256 bytes)
                ["self_test_failed"; "previous_active_pointer_preserved"]))
  else
    modify (fun s => set_activated (<[directory m := files]> (activated s)) s) ;;;
    let! bytes := lift (read_metadata files) in
    ret (inr (m, Pointer.mk (OfflineUpdateMetadata.bundle_id m) (OfflineUpdateMetadata.version m)
                   ("updates/activated/" +:+ directory m) (sha256 bytes) (isoformat now))).

Definition activate (staged_path : option string) (self_test : tree -> res bool * tree) (now : datetime)
  : M t OfflineUpdateVerification.t :=
  let! prepared := prepare staged_path self_test now in
  match prepared with
  | inl verification => ret verification
  | inr (m, pointer) =>
      modify (set_pointer (Some pointer)) ;;;
      ret (outcome m UpdateBundleState.ACTIVATED now (Pointer.metadata_sha256 pointer)
             ["self_test_passed"; "activation_pointer_committed"])
  end.
End Manager.
End OfflineUpdateManager.
