(* ===== verification/UpdateTheorems.v ===== *)
(** What offline updates promise: the pointer moves only forward, only to a
    directory whose targets matched their metadata and passed the self-test,
    and never dangles, crashes included; a bundle the builder made is verified,
    staged and activated; with the gaps of activation. *)

From Stdlib Require Import ZArith Lia ZifyBool.
From S2P Require Import Prelude Binary64 Enums Models Records CanonicalJson Configuration Journal Tombstones Base64.
From S2P Require Import Updates.
Import OfflineUpdateManager.
Open Scope Z_scope.

Notation version := OfflineUpdateMetadata.version.
Notation targets := OfflineUpdateMetadata.targets.
Notation path := OfflineUpdateTarget.path.

(** ** Directory names *)
Definition dash : Ascii.ascii := chr 45.
Definition no_dash (s : string) : bool := all_of (fun c => negb (bool_decide (c = dash))) s.

Lemma no_dash_app c s t : no_dash (s +:+ String c t) = true -> c <> dash.
Proof.
  unfold no_dash. induction s as [|a s IH]; cbn; intros [H1 H2]%andb_true_iff; [|by apply IH].
  by apply negb_true_iff, bool_decide_eq_false in H1.
Qed.

Lemma last_dash x y d d' :
  no_dash d = true -> no_dash d' = true -> x +:+ String dash d = y +:+ String dash d' -> d = d'.
Proof.
  intros Hd Hd'. revert y. induction x as [|a x IH]; intros [|b y]; cbn.
  - by intros [= ->].
  - intros [= _ ->]. by apply no_dash_app in Hd.
  - intros [= _ <-]. by apply no_dash_app in Hd'.
  - intros [= _ H]. by apply (IH y).
Qed.

Lemma pretty_no_dash z : 0 < z -> no_dash (pretty z) = true.
Proof.
  destruct z as [|p|p]; [lia| |lia]. intros _. unfold pretty, pretty_Z, pretty, pretty_positive, pretty, pretty_N.
  case_decide; [done|]. clear. assert (H : no_dash "" = true) by done. revert H. generalize "".
  induction (N.lt_wf_0 (Npos p)) as [n _ IH]. intros s Hs.
  destruct (decide (n = 0)%N) as [->|Hn]; [by rewrite pretty_N_go_0|].
  rewrite pretty_N_go_step by lia. apply IH; [apply N.div_lt; lia|]. unfold no_dash in *. cbn. rewrite Hs.
  unfold pretty_N_char. by repeat case_match.
Qed.

Lemma directory_version m m' :
  0 < version m -> 0 < version m' -> directory m = directory m' -> version m = version m'.
Proof.
  intros Hm Hm' H. unfold directory in H. change ("-" +:+ ?x) with (String dash x) in H.
  apply last_dash in H; [|by apply pretty_no_dash..]. by apply (inj pretty) in H.
Qed.

Section Updates.
Context (float_repr : f64 -> string) (isoformat json_time : datetime -> string).
Context (sha256 : string -> string) (uuid5 : string -> UUID).
Context (dump_event : EvidenceLifecycleEvent.t -> json) (store_sha256 : payload -> string).
Context (public_of : string -> string) (ed25519_sign : string -> string -> string).
Context (ed25519_verify : string -> string -> string -> bool).
Context (load_metadata : string -> res OfflineUpdateMetadata.t).
Context (public_key current_project_version : string) (mode : RuntimeMode.t).
Notation verify := (verify float_repr json_time sha256 uuid5 dump_event store_sha256 ed25519_verify load_metadata
                      public_key current_project_version).
Notation stage := (stage float_repr json_time sha256 uuid5 dump_event store_sha256 ed25519_verify load_metadata
                      public_key current_project_version mode).
Notation prepare := (prepare float_repr isoformat sha256 uuid5 dump_event store_sha256 load_metadata mode).
Notation activate := (activate float_repr isoformat sha256 uuid5 dump_event store_sha256 load_metadata mode).
Notation tombstones_ok := (verify_tombstone_requirement float_repr sha256 uuid5 dump_event store_sha256).

(** ** Executions *)
Inductive op : Type :=
| Stage (archive : list (string * string)) (now : datetime)
| Activate (staged_path : option string) (self_test : tree -> res bool * tree) (now : datetime)
(** An activation that crashes before it commits the pointer. *)
| Interrupt (staged_path : option string) (self_test : tree -> res bool * tree) (now : datetime)
(** What others do to the staged directories and to the journal. *)
| Tamper (directories : gmap string tree)
| Record_incidents (store : option IncidentJournalStore.t).

Definition exec (o : op) : M t unit :=
  match o with
  | Stage archive now => void (stage archive now)
  | Activate staged_path self_test now => void (activate staged_path self_test now)
  | Interrupt staged_path self_test now => void (prepare staged_path self_test now)
  | Tamper directories => modify (set_staged directories)
  | Record_incidents store => modify (set_incidents store)
  end.

Definition fresh : t := mk ∅ ∅ None None.
Inductive reachable : t -> Prop :=
| Reachable_fresh : reachable fresh
| Reachable_step o s r s' : reachable s -> exec o s = (r, s') -> reachable s'.

(** The pointer names a directory that exists, with the metadata it records. *)
Definition pointer_ok (s : t) : Prop :=
  match pointer s with
  | None => True
  | Some p => 0 < Pointer.version p /\ exists m files bytes,
      version m = Pointer.version p /\ Pointer.path p = "updates/activated/" +:+ directory m /\
      activated s !! directory m = Some files /\ read_metadata files = Ok bytes /\
      Pointer.metadata_sha256 p = sha256 bytes
  end.

Lemma pointer_version s : pointer_ok s -> 0 <= current_update_version s.
Proof. unfold pointer_ok, current_update_version. destruct (pointer s); [|lia]. intros [? _]. lia. Qed.

(** What [activate] has checked before it commits. *)
Definition approved (s : t) (staged_path : option string) (self_test : tree -> res bool * tree) (now : datetime)
    (m : OfflineUpdateMetadata.t) (tested : tree) : Prop :=
  mode = RuntimeMode.FIELD_LAB /\ current_update_version s < version m /\
  exists name files bytes reasons, staged_path = Some name /\ staged s !! name = Some files /\
    read_metadata files = Ok bytes /\ load_metadata bytes = Ok m /\ tombstones_ok m s now = Ok reasons /\
    forallb (target_matches sha256 files) (targets m) = true /\ self_test files = (Ok true, tested).

Lemma prepare_run p test now s r s' :
  prepare p test now s = (r, s') ->
  pointer s' = pointer s /\ incidents s' = incidents s /\
  match r with
  | Ok (inr (m, q)) => exists tested bytes,
      approved s p test now m tested /\ read_metadata tested = Ok bytes /\
      activated s' = <[directory m := tested]> (activated s) /\
      q = Pointer.mk (OfflineUpdateMetadata.bundle_id m) (version m) ("updates/activated/" +:+ directory m)
            (sha256 bytes) (isoformat now)
  | Ok (inl v) => activated s' = activated s /\ OfflineUpdateVerification.state v = UpdateBundleState.ROLLED_BACK
  | Raise _ => activated s' = activated s \/
      exists m tested, approved s p test now m tested /\ activated s' = <[directory m := tested]> (activated s)
  end.
Proof.
  unfold OfflineUpdateManager.prepare, bind, get, modify, ret, lift.
  destruct (raise_if (negb (bool_decide (mode = _))) _ s) as [[u|e] s1] eqn:Hm.
  2: { apply raise_if_raise in Hm as (_ & _ & ->). intros [= <- <-]. split_and!; [done..|by left]. }
  apply raise_if_ok in Hm as [Hm%negb_false_iff%bool_decide_eq_true ->].
  destruct p as [name|]; [|intros [= <- <-]; split_and!; [done..|by left]].
  set (files := default ∅ (staged s !! name)).
  destruct (rbind (read_metadata files) load_metadata) as [m|e] eqn:Hl.
  2: { intros [= <- <-]; split_and!; [done..|by left]. }
  apply rbind_ok in Hl as (bytes & Hb & Hl).
  destruct (tombstones_ok m s now) as [reasons|e] eqn:Ht; [|intros [= <- <-]; split_and!; [done..|by left]].
  destruct (raise_if (version m <=? current_update_version s) _ s) as [[u1|e] s2] eqn:Hv.
  2: { apply raise_if_raise in Hv as (_ & _ & ->). intros [= <- <-]. split_and!; [done..|by left]. }
  apply raise_if_ok in Hv as [Hv ->].
  destruct (raise_if (negb (forallb _ _)) _ s) as [[u2|e] s3] eqn:Hf.
  2: { apply raise_if_raise in Hf as (_ & _ & ->). intros [= <- <-]. split_and!; [done..|by left]. }
  apply raise_if_ok in Hf as [Hf%negb_false_iff ->].
  destruct (test files) as [[passed|e] tested] eqn:Htest; [|intros [= <- <-]; cbn; split_and!; [done..|by left]].
  assert (Happ : passed = true -> approved s (Some name) test now m tested).
  { intros ->. split; [done|]. split; [lia|]. exists name, files, bytes, reasons. split_and!; try done.
    unfold files in *. destruct (staged s !! name) as [fs|]; [done|]. discriminate Hb. }
  destruct passed; cbn; destruct (read_metadata tested) as [tb|e] eqn:Hrt; intros [= <- <-]; cbn; split_and!; try done.
  - exists tested, tb. split_and!; try done. by apply Happ.
  - right. exists m, tested. split; [by apply Happ|done].
  - by left.
Qed.

(** Staging leaves the pointer and the activated directories. *)
Definition stage_keeps (s s' : t) : Prop :=
  pointer s' = pointer s /\ activated s' = activated s /\ incidents s' = incidents s.
#[local] Instance stage_keeps_preorder : PreOrder stage_keeps.
Proof. split; [by intros ?|]. intros ??? (? & ? & ?) (? & ? & ?). unfold stage_keeps. intuition congruence. Qed.
Lemma stage_steps archive now : Steps stage_keeps (stage archive now).
Proof.
  unfold OfflineUpdateManager.stage. steps; apply steps_modify; intros ?; by split_and!.
Qed.

Lemma update_activate_run p test now s r s' :
  activate p test now s = (r, s') ->
  exists rp s1, prepare p test now s = (rp, s1) /\
    match rp with
    | Ok (inr (m, q)) => s' = set_pointer (Some q) s1 /\ is_ok r = true
    | _ => s' = s1
    end.
Proof.
  unfold OfflineUpdateManager.activate, bind. destruct (prepare p test now s) as [[[v|[m q]]|e] s1]; cbn;
    intros [= <- <-]; by eexists _, _.
Qed.

(** Every step keeps the pointer, or moves it forward after an activation. *)
Definition moves (o : op) (s s' : t) : Prop :=
  pointer s' = pointer s \/
  exists p test now m tested q, o = Activate p test now /\ approved s p test now m tested /\
    pointer s' = Some q /\ Pointer.version q = version m /\ Pointer.path q = "updates/activated/" +:+ directory m /\
    activated s' !! directory m = Some tested.

Lemma pointer_ok_insert s s' m files :
  pointer_ok s -> pointer s' = pointer s -> current_update_version s < version m ->
  activated s' = <[directory m := files]> (activated s) -> pointer_ok s'.
Proof.
  unfold pointer_ok, current_update_version. intros Hok -> Hv ->. destruct (pointer s) as [p|]; [|done].
  destruct Hok as (Hp & m0 & files0 & bytes & H1 & H2 & H3 & H4 & H5). split; [done|]. exists m0, files0, bytes.
  split_and!; try done. rewrite lookup_insert_ne; [by apply H3|].
  intros H. apply directory_version in H; [|lia..]. lia.
Qed.

Lemma pointer_ok_same s s' : pointer_ok s -> pointer s' = pointer s -> activated s' = activated s -> pointer_ok s'.
Proof. unfold pointer_ok. by intros H -> ->. Qed.

Lemma exec_pointer o s r s' : exec o s = (r, s') -> pointer_ok s -> pointer_ok s' /\ moves o s s'.
Proof.
  intros H Hok. pose proof (pointer_version s Hok) as Hcur. destruct o as [a now|p test now|p test now|d|st]; cbn in H.
  - apply void_run in H as (r1 & H & _). apply stage_steps in H as (H1 & H2 & _).
    split; [by eapply pointer_ok_same|by left].
  - apply void_run in H as (r1 & H & _). apply update_activate_run in H as (rp & s1 & Hp & H).
    pose proof (prepare_run _ _ _ _ _ _ Hp) as (H1 & H2 & H3). destruct rp as [[v|[m q]]|e].
    + subst s'. destruct H3 as [H3 _]. split; [by eapply pointer_ok_same|by left].
    + destruct H as [-> _]. destruct H3 as (tested & bytes & Ha & Hb & Hi & ->).
      assert (current_update_version s < version m) as Hv by apply Ha.
      split; [|right; exists p, test, now, m, tested; eexists; split_and!; try done].
      * split; cbn; [lia|]. exists m, tested, bytes. split_and!; try done. rewrite Hi. apply lookup_insert_eq.
      * cbn. rewrite Hi. apply lookup_insert_eq.
    + subst s'. destruct H3 as [H3|(m & tested & Ha & Hi)]; split; try by left.
      * by eapply pointer_ok_same.
      * eapply pointer_ok_insert; try done. apply Ha.
  - apply void_run in H as (r1 & H & _). pose proof (prepare_run _ _ _ _ _ _ H) as (H1 & H2 & H3).
    split; [|by left]. destruct r1 as [[v|[m q]]|e].
    + destruct H3 as [H3 _]. by eapply pointer_ok_same.
    + destruct H3 as (tested & bytes & Ha & _ & Hi & _). eapply pointer_ok_insert; try done. apply Ha.
    + destruct H3 as [H3|(m & tested & Ha & Hi)]; [by eapply pointer_ok_same|].
      eapply pointer_ok_insert; try done. apply Ha.
  - injection H as _ <-. split; [by eapply pointer_ok_same|by left].
  - injection H as _ <-. split; [by eapply pointer_ok_same|by left].
Qed.

Lemma reachable_pointer s : reachable s -> pointer_ok s.
Proof. induction 1 as [|o s r s' _ IH H]; [done|]. by eapply exec_pointer. Qed.

(** C10: In every execution of stagings, activations, crashes before the
    pointer is committed, changes others make to the staged directories and
    writes to the journal, the pointer never dangles: it names an activated
    directory whose metadata has the recorded digest.  Its version never
    decreases, and it moves only in an activation in field-lab mode, to a
    greater version, to the directory the self-test accepted, after the target
    files of the staged metadata matched their lengths and digests and the
    tombstone watermark was met. *)
Theorem updates_only_move_forward s o r s' (Hs : reachable s) (H : exec o s = (r, s')) :
  pointer_ok s' /\ current_update_version s <= current_update_version s' /\
  (pointer s' <> pointer s ->
   exists p test now m tested q, o = Activate p test now /\ approved s p test now m tested /\
     pointer s' = Some q /\ Pointer.version q = version m /\ Pointer.path q = "updates/activated/" +:+ directory m /\
     activated s' !! directory m = Some tested).
Proof.
  apply exec_pointer in H as [Hok' Hm]; [|by apply reachable_pointer]. split; [done|].
  destruct Hm as [He|Hm]; [unfold current_update_version; rewrite He; split; [lia|done]|].
  split; [|done]. destruct Hm as (p & test & now & m & tested & q & _ & (_ & Hv & _) & Hq & Hqv & _).
  unfold current_update_version at 2. rewrite Hq, Hqv. lia.
Qed.

(** ** A bundle that was built *)
Notation metadata_bytes := (metadata_bytes float_repr json_time).
Notation build := (build_update_bundle float_repr json_time sha256 public_of ed25519_sign).

(** The components of a file that is neither metadata.json nor below it. *)
Definition ordinary (file : list string) : Prop :=
  match file with [] => False | a :: _ => a <> METADATA end.

(** A path as the builder, the archive and the file system write it, that is
    not one of the control files or below one. *)
Definition canonical (p : string) : Prop :=
  OfflineUpdateTarget.safe_relative_target_path p = Ok p /\ arcname p = p /\ p <> METADATA /\ p <> SIGNATURE /\
  ordinary (parts p).

(** The target describes the file. *)
Definition describes (x : OfflineUpdateTarget.t * string) : Prop :=
  OfflineUpdateTarget.length x.1 = Z.of_nat (String.length x.2) /\ OfflineUpdateTarget.sha256 x.1 = sha256 x.2 /\
  protected (path x.1) = false.

Lemma create_target p n d t :
  OfflineUpdateTarget.safe_relative_target_path p = Ok p -> OfflineUpdateTarget.create p n d = Ok t ->
  t = OfflineUpdateTarget.mk p n d.
Proof. intros Hp. unfold OfflineUpdateTarget.create. rewrite Hp. cbn. destruct (n <? 0); [done|]. by intros [= <-]. Qed.

Lemma collect_ok source paths l :
  Forall canonical paths -> collect_targets sha256 source paths = Ok l ->
  path <$> l.*1 = paths /\ Forall (fun x => describes x /\ source !! parts (path x.1) = Some x.2) l.
Proof.
  intros HF. revert l. induction HF as [|p paths (Hp & _) _ IH]; intros l; cbn [collect_targets].
  { intros [= <-]. split; [done|constructor]. }
  intros (t & Ht & H)%rbind_ok. apply create_target in Ht as ->; [|done]. cbn [path OfflineUpdateTarget.path] in H.
  destruct (source !! parts p) as [data|] eqn:Hd; [|done]. apply rbind_ok in H as (u & Hc%check_ok & H).
  apply rbind_ok in H as (t & Ht & H). apply create_target in Ht as ->; [|done].
  apply rbind_ok in H as (rest & Hr & [= <-]). destruct (IH _ Hr) as [<- HF']. split; [done|].
  constructor; [|done]. by split_and!.
Qed.

Lemma canonical_parts p q : canonical p -> canonical q -> parts p = parts q -> p = q.
Proof. intros (_ & Hp & _) (_ & Hq & _) H. unfold arcname in *. by rewrite <- Hp, <- Hq, H. Qed.

(** Reading a member of the archive of a bundle. *)
Definition members (l : list (OfflineUpdateTarget.t * string)) : list (string * string) :=
  (fun x => (arcname (path x.1), x.2)) <$> l.

Lemma members_names l : Forall canonical (path <$> l.*1) -> (members l).*1 = path <$> l.*1.
Proof.
  unfold members. induction l as [|x l IH]; [done|]. intros [(_ & Ha & _) HF]%Forall_cons.
  rewrite !fmap_cons. cbn [fst]. rewrite Ha. f_equal. by apply IH.
Qed.

Section Archive.
Context (bytes encoded : string) (l : list (OfflineUpdateTarget.t * string)).
Context (Hcan : Forall canonical (path <$> l.*1)) (Hnd : NoDup (path <$> l.*1)) (Hdesc : Forall describes l).
Notation archive := ([(METADATA, bytes); (SIGNATURE, encoded)] ++ members l).

Lemma archive_names : archive.*1 = METADATA :: SIGNATURE :: (path <$> l.*1).
Proof. rewrite fmap_app, members_names by done. done. Qed.

Lemma archive_once : NoDup archive.*1.
Proof.
  rewrite archive_names. rewrite Forall_forall in Hcan.
  apply NoDup_cons. split; [|apply NoDup_cons; split; [|done]].
  - intros [H|H]%elem_of_cons; [by vm_compute in H|]. by apply Hcan in H as (_ & _ & ? & _).
  - intros H. by apply Hcan in H as (_ & _ & _ & ? & _).
Qed.

Lemma read_member x : x ∈ l -> read archive (path x.1) = Ok x.2.
Proof.
  intros Hx. unfold read. rewrite (dict_elem_get (path x.1) x.2); [done|apply archive_once|].
  apply elem_of_app. right. apply list_elem_of_fmap. exists x. split; [|done].
  rewrite Forall_forall in Hcan. assert (canonical (path x.1)) as (_ & -> & _); [|done].
  apply Hcan. rewrite <- list_fmap_compose. by apply (list_elem_of_fmap_2 (path ∘ fst)).
Qed.

Lemma check_names_ok : check_names archive.*1 = Ok tt.
Proof.
  rewrite archive_names. cbn [check_names]. change (check_names (path <$> l.*1) = Ok tt).
  clear -Hcan. induction Hcan as [|p ps (Hp & _) _ IH]; [done|]. cbn [check_names].
  unfold OfflineUpdateTarget.create. rewrite Hp. cbn. rewrite bool_decide_eq_true_2 by done. apply IH. by inversion Hcan.
Qed.

Lemma check_targets_ok : check_targets sha256 archive l.*1 = Ok tt.
Proof.
  assert (Hread : forall x, x ∈ l -> read archive (path x.1) = Ok x.2) by apply read_member.
  revert Hread. generalize archive. intros a. clear Hcan Hnd. induction Hdesc as [|x k (Hlen & Hsha & Hp) _ IH]; [done|].
  intros Hread. rewrite fmap_cons. cbn [check_targets]. rewrite Hp. cbn [check rbind].
  rewrite Hread by left. cbn [rbind]. rewrite Hlen, Hsha, Z.eqb_refl, bool_decide_eq_true_2 by done. cbn.
  apply IH; [by inversion Hdesc|]. intros y Hy. apply Hread. by right.
Qed.
End Archive.

(** ** Extraction *)
(** No file of a file system is a directory on the way to another. *)
Definition tree_ok (files : tree) : Prop :=
  forall a b, is_Some (files !! a) -> is_Some (files !! b) -> ancestor a b = false.

Lemma parts_nonempty p : canonical p -> parts p <> [].
Proof.
  intros (_ & _ & _ & _ & Ho) H. by rewrite H in Ho.
Qed.

Lemma write_ok p data files :
  parts p <> [] -> (forall k, is_Some (files !! k) -> ancestor k (parts p) = false /\ ancestor (parts p) k = false) ->
  write_bytes p data files = Ok (<[parts p := data]> files).
Proof.
  intros Hp Hk. unfold write_bytes. rewrite bool_decide_eq_false_2 by done. cbn [check rbind].
  replace (existsb _ _) with false; [done|]. symmetry. apply not_true_iff_false. intros Hx.
  apply existsb_exists in Hx as (k & Hin%list_elem_of_In & Hx). apply list_elem_of_fmap in Hin as ([k' v] & -> & Hin).
  apply elem_of_map_to_list in Hin. destruct (Hk k') as [H1 H2]; [by eexists|]. cbn in Hx. by rewrite H1, H2 in Hx.
Qed.

Section Extraction.
Context (source : tree) (Hsource : tree_ok source).
Context (archive : list (string * string)) (l : list (OfflineUpdateTarget.t * string)).
Context (Hread : forall x, x ∈ l -> read archive (path x.1) = Ok x.2).
Context (Hcan : Forall canonical (path <$> l.*1)).
Context (Hin : Forall (fun x => describes x /\ source !! parts (path x.1) = Some x.2) l).

Lemma extract_ok temp :
  temp ⊆ source -> (forall k, is_Some (temp !! k) -> ordinary k) ->
  exists files, extract sha256 archive l.*1 temp = Ok files /\ temp ⊆ files /\ files ⊆ source /\
    (forall k, is_Some (files !! k) -> ordinary k) /\
    Forall (fun x => files !! parts (path x.1) = Some x.2) l.
Proof using All.
  revert temp Hread Hcan. induction Hin as [|x k [(Hlen & Hsha & _) Hx] _ IH]; intros temp Hr Hc Ht Hm.
  { exists temp. split_and!; [done..|constructor]. }
  rewrite !fmap_cons in *. apply Forall_cons in Hc as [Hcx Hc]. cbn [extract].
  rewrite Hr by left. cbn [rbind]. rewrite write_ok.
  2: by apply parts_nonempty.
  2: { intros q [v Hq]. pose proof (lookup_weaken _ _ _ _ Hq Ht). split; apply Hsource; by eexists. }
  cbn [rbind]. rewrite Hsha, bool_decide_eq_true_2 by done. cbn [negb check rbind].
  destruct (IH ltac:(by inversion Hin) (<[parts (path x.1) := x.2]> temp)) as (files & He & Hsub & Hf & Hk & HF).
  - intros y Hy. apply Hr. by right.
  - done.
  - by apply insert_subseteq_l.
  - intros q [v Hq]. apply lookup_insert_Some in Hq as [[<- _]|[_ Hq]]; [apply Hcx|]. apply Hm. by eexists.
  - exists files. split_and!; try done.
    + etrans; [|exact Hsub]. apply map_subseteq_spec. intros q w Hq.
      unfold tree in *. destruct (decide (parts (path x.1) = q)) as [<-|Hne]; [|by rewrite lookup_insert_ne].
      rewrite lookup_insert_eq. pose proof (lookup_weaken _ _ _ _ Hq Ht). congruence.
    + constructor; [|done]. eapply lookup_weaken; [|done]. apply lookup_insert_eq.
Qed.
End Extraction.

(** ** From the builder to the pointer *)
(** A bundle is for this node at this time: its signer, window and versions. *)
Record addressed (now : datetime) (r : request) : Prop := {
  ad_key : public_key = public_of (private_key r);
  ad_window : OfflineUpdateManager.created_at r <= now < OfflineUpdateManager.expires_at r;
  ad_compatible : exists current lowest highest,
    version_tuple current_project_version = Ok current /\
    version_tuple (OfflineUpdateManager.compatible_min_version r) = Ok lowest /\
    version_tuple (OfflineUpdateManager.compatible_max_version r) = Ok highest /\
    tuple_lt current lowest = false /\ tuple_lt highest current = false
}.

(** It is newer than what is active, and the privacy journal is recent enough. *)
Definition due (s : t) (now : datetime) (m : OfflineUpdateMetadata.t) : Prop :=
  current_update_version s < version m /\ is_ok (tombstones_ok m s now) = true.

Lemma metadata_validated m m' : OfflineUpdateMetadata.validate m = Ok m' -> m' = m /\ NoDup (path <$> targets m).
Proof.
  unfold OfflineUpdateMetadata.validate. intros (? & _ & H)%rbind_ok. do 3 apply rbind_ok in H as (? & _ & H).
  apply rbind_ok in H as (? & Hnd%check_ok & [= <-]). split; [done|].
  by apply negb_false_iff, bool_decide_eq_true in Hnd.
Qed.

Lemma subset_refl a b : (forall x, x ∈ a -> x ∈ b) -> subset a b = true.
Proof.
  intros H. apply List.forallb_forall. intros x Hx%list_elem_of_In. apply bool_decide_eq_true. by apply H.
Qed.

Section Built.
Context (Hsign : forall key message, ed25519_verify (public_of key) (ed25519_sign key message) message = true).
Context (source : tree) (paths : list string) (r : request) (l : list (OfflineUpdateTarget.t * string)).
Context (Hsource : tree_ok source) (Hpaths : Forall canonical paths).
Context (Hl : collect_targets sha256 source (sorted_set paths) = Ok l).
Notation m := (bundle_metadata sha256 public_of r l.*1).
Context (Hload : load_metadata (metadata_bytes m) = Ok m).
Context (archive : list (string * string)) (Hbuild : build source paths r = Ok archive).

Lemma built_facts :
  archive = [(METADATA, metadata_bytes m); (SIGNATURE, b64encode (ed25519_sign (private_key r) (metadata_bytes m)))]
            ++ members l /\
  Forall canonical (path <$> l.*1) /\ NoDup (path <$> l.*1) /\ path <$> l.*1 = sorted_set paths /\
  Forall (fun x => describes x /\ source !! parts (path x.1) = Some x.2) l.
Proof using Hpaths Hl Hbuild.
  assert (Hs : Forall canonical (sorted_set paths)).
  { apply Forall_forall. intros p Hp. rewrite elem_of_sorted_set in Hp. exact (Forall_in _ _ _ Hpaths Hp). }
  destruct (collect_ok _ _ _ Hs Hl) as [Hp Hd]. rewrite <- Hp in Hs.
  unfold build_update_bundle in Hbuild. rewrite Hl in Hbuild. cbn [rbind] in Hbuild.
  apply rbind_ok in Hbuild as (m' & [-> Hnd]%metadata_validated & [= <-]). by split_and!.
Qed.

(** Only the version and the watermark remain to be checked. *)
Lemma built_verify s now :
  addressed now r ->
  verify archive now s =
    (check (version m <=? current_update_version s) (ValueError "update rollback or replay detected") >>!
     rbind (tombstones_ok m s now) (fun tombstones => Ok (m, verified sha256 m (metadata_bytes m) now tombstones))).
Proof using All.
  destruct built_facts as (-> & Hc & Hnd & _ & Hd). intros [Hk Hw (cur & lo & hi & E1 & E2 & E3 & E4 & E5)].
  assert (Hdesc : Forall describes l) by (eapply Forall_impl; [exact Hd|by intros x [? _]]).
  unfold OfflineUpdateManager.verify. rewrite (check_names_ok _ _ _ Hc).
  rewrite (bool_decide_eq_true_2 (NoDup _)) by by apply archive_once.
  rewrite !(bool_decide_eq_true_2 (_ ∈ _)) by (rewrite archive_names by done; set_solver).
  cbn [check rbind negb orb].
  change (read _ METADATA) with (Ok (metadata_bytes m)).
  change (read _ SIGNATURE) with (Ok (b64encode (ed25519_sign (private_key r) (metadata_bytes m)))).
  cbn [rbind]. rewrite base64_decodes, Hk, Hsign. cbn [check rbind negb]. rewrite Hload. cbn [rbind].
  rewrite !bool_decide_eq_true_2 by done. cbn [check rbind negb].
  replace (OfflineUpdateMetadata.expires_at m <=? now) with false by (cbn; lia).
  replace (now <? OfflineUpdateMetadata.created_at m) with false by (cbn; lia). cbn [check rbind].
  rewrite E1. cbn [rbind]. change (OfflineUpdateMetadata.compatible_min_version m) with (compatible_min_version r).
  rewrite E2. cbn [rbind]. change (OfflineUpdateMetadata.compatible_max_version m) with (compatible_max_version r).
  rewrite E3, E4. cbn [rbind]. rewrite E5. cbn [check rbind].
  rewrite !subset_refl by (rewrite archive_names by done; cbn; set_solver). cbn [negb orb check rbind].
  change (targets m) with l.*1. rewrite (check_targets_ok _ _ _ Hc Hnd Hdesc).
  destruct (version m <=? current_update_version s); reflexivity.
Qed.

Lemma built_verifies s now : addressed now r -> due s now m -> exists v, verify archive now s = Ok (m, v).
Proof using All.
  intros Ha [Hv Ht]. rewrite (built_verify s now Ha).
  replace (version m <=? current_update_version s) with false by lia. cbn [check rbind].
  destruct (tombstones_ok m s now) as [reasons|e]; [|done]. by eexists.
Qed.

(** The staged directory: the targets as the source has them, and the metadata. *)
Definition staged_as (files : tree) : Prop :=
  read_metadata files = Ok (metadata_bytes m) /\ (forall p, p ∈ paths -> files !! parts p = source !! parts p) /\
  forallb (target_matches sha256 files) (targets m) = true.

Lemma built_stages s now :
  mode = RuntimeMode.FIELD_LAB -> addressed now r -> due s now m ->
  exists v files, stage archive now s = (Ok (directory m, v), set_staged (<[directory m := files]> (staged s)) s) /\
    staged_as files.
Proof using All.
  intros Hm Ha0 Hdue. destruct (built_verifies s now Ha0 Hdue) as [v Hv].
  exists (OfflineUpdateVerification.set_state UpdateBundleState.STAGED v).
  destruct built_facts as (Ha & Hc & Hnd & Hp & Hd).
  destruct (extract_ok source Hsource archive l) with (temp := (∅ : tree)) as (files & He & _ & _ & Hk & HF); try done.
  { rewrite Ha. by apply read_member. }
  { apply map_empty_subseteq. }
  { intros k [x Hx]. unfold tree in *. by rewrite lookup_empty in Hx. }
  exists (<[[METADATA] := metadata_bytes m]> files). split.
  - unfold OfflineUpdateManager.stage, bind, get, modify, ret, lift. rewrite Hm. cbn [bool_decide].
    rewrite bool_decide_eq_false_2 by set_solver. cbn [raise_if]. unfold ret. rewrite Hv.
    change (targets m) with l.*1 in He |- *. rewrite He. cbn [rbind]. rewrite write_ok.
    + cbn. unfold set_staged. cbn. do 2 f_equal. apply insert_delete_eq.
    + done.
    + intros k Hx%Hk. destruct k as [|a k]; [done|]. change (parts METADATA) with [METADATA].
      cbn [ancestor]. cbn in Hx. rewrite !bool_decide_eq_false_2 by congruence. done.
  - unfold staged_as, target_matches, read_metadata, tree in *.
    assert (Hne : forall x, x ∈ l -> [METADATA] <> parts (path x.1)).
    { intros x Hx Heq. assert (canonical (path x.1)) as (_ & _ & _ & _ & Hh); [|by rewrite <- Heq in Hh].
      eapply Forall_in; [exact Hc|]. rewrite <- list_fmap_compose. by apply (list_elem_of_fmap_2 (path ∘ fst)). }
    assert (Hlook : forall x, x ∈ l -> <[[METADATA] := metadata_bytes m]> files !! parts (path x.1) = Some x.2).
    { intros x Hx. rewrite lookup_insert_ne by by apply Hne. exact (Forall_in _ _ _ HF Hx). }
    split_and!.
    + by rewrite lookup_insert_eq.
    + intros p Hin. rewrite <- (elem_of_sorted_set paths p), <- Hp, <- list_fmap_compose in Hin.
      apply list_elem_of_fmap in Hin as (x & -> & Hx). unfold compose. rewrite Hlook by done.
      symmetry. by apply (Forall_in _ _ _ Hd Hx).
    + apply List.forallb_forall. intros t Ht%list_elem_of_In. cbn in Ht. apply list_elem_of_fmap in Ht as (x & -> & Hx).
      destruct (Forall_in _ _ _ Hd Hx) as [(Hlen & Hsha & _) _]. rewrite Hlook by done.
      rewrite Hlen, Hsha, Z.eqb_refl. by apply bool_decide_eq_true.
Qed.

End Built.
End Updates.

(** ** A concrete node *)
Definition demo_source : tree := <[["app"; "main.py"] := "print(1)"]> {[ ["model.bin"] := "weights" ]}.
Definition demo_paths : list string := ["model.bin"; "app/main.py"].
Definition demo_request : request := mkRequest "k" "bundle" 1 0 100 "0.20.0" "0.21.9" 0 None.
Definition demo_targets : list (OfflineUpdateTarget.t * string) :=
  [(OfflineUpdateTarget.mk "app/main.py" 8 "print(1)", "print(1)");
   (OfflineUpdateTarget.mk "model.bin" 7 "weights", "weights")].
Notation text := (fun s : string => s).
Definition demo_metadata : OfflineUpdateMetadata.t := bundle_metadata text text demo_request demo_targets.*1.
Definition demo_bytes : string := metadata_bytes demo_repr (fun z => pretty z) demo_metadata.
Definition demo_sign (key message : string) : string := key +:+ message.
Definition demo_check (key signature message : string) : bool := bool_decide (signature = key +:+ message).
Definition demo_load (bytes : string) : res OfflineUpdateMetadata.t :=
  if bool_decide (bytes = demo_bytes) then Ok demo_metadata else Raise (ValueError "not JSON").
Definition demo_archive : list (string * string) :=
  [(METADATA, demo_bytes); (SIGNATURE, b64encode (demo_sign "k" demo_bytes))] ++ members demo_targets.
Notation passing := (fun files : tree => (Ok true : res bool, files)).
Notation demo_exec load := (exec demo_repr (fun _ => "now") (fun z => pretty z) text text (fun _ => JNull) (fun _ => "")
                              demo_check load "k" "0.21.4" RuntimeMode.FIELD_LAB).
Notation demo_reachable load := (reachable demo_repr (fun _ => "now") (fun z => pretty z) text text (fun _ => JNull)
                                   (fun _ => "") demo_check load "k" "0.21.4" RuntimeMode.FIELD_LAB).

Lemma demo_activates :
  let s1 := (demo_exec demo_load (Stage demo_archive 50) fresh).2 in
  let '(r, s2) := demo_exec demo_load (Activate (Some "bundle-1") passing 50) s1 in
  r = Ok tt /\ pointer s1 = None /\ Pointer.version <$> pointer s2 = Some 1.
Proof. vm_compute. by split_and!. Qed.

Lemma demo_run : exists s s',
  demo_reachable demo_load s /\ demo_exec demo_load (Activate (Some "bundle-1") passing 50) s = (Ok tt, s') /\
  pointer s = None /\ Pointer.version <$> pointer s' = Some 1.
Proof.
  pose proof demo_activates as H. cbv zeta in H.
  destruct (demo_exec demo_load (Stage demo_archive 50) fresh) as [r1 s1] eqn:H1. cbn [snd] in H.
  destruct (demo_exec demo_load (Activate _ _ _) s1) as [r2 s2] eqn:H2. destruct H as (-> & Hp & Hv).
  exists s1, s2. split; [|by split_and!]. eapply Reachable_step; [apply Reachable_fresh|exact H1].
Qed.

Lemma updates_only_move_forward_witness : exists s s' m,
  demo_exec demo_load (Activate (Some "bundle-1") passing 50) s = (Ok tt, s') /\
  current_update_version s < version m /\ current_update_version s <= current_update_version s' /\
  Pointer.version <$> pointer s' = Some 1.
Proof.
  destruct demo_run as (s & s' & Hs & H & Hp & Hv).
  destruct (updates_only_move_forward demo_repr (fun _ => "now") (fun z => pretty z) text text (fun _ => JNull)
              (fun _ => "") text demo_sign demo_check demo_load "k" "0.21.4" RuntimeMode.FIELD_LAB s _ _ s' Hs H)
    as (_ & Hle & Hmove).
  destruct Hmove as (p & test & now & m & tested & q & _ & (_ & Hm & _) & _).
  { rewrite Hp. intros He. by rewrite He in Hv. }
  exists s, s', m. split; [exact H|]. split; [exact Hm|]. split; [exact Hle|exact Hv].
Defined.

Lemma demo_source_ok : tree_ok demo_source.
Proof.
  intros a b [x Ha] [y Hb]. unfold demo_source, tree in *.
  apply lookup_insert_Some in Ha as [[<- _]|[_ [<- _]%lookup_singleton_Some]];
    apply lookup_insert_Some in Hb as [[<- _]|[_ [<- _]%lookup_singleton_Some]]; vm_compute; reflexivity.
Qed.

Lemma demo_canonical : Forall canonical demo_paths.
Proof. repeat constructor; try (vm_compute; reflexivity); vm_compute; discriminate. Qed.


(** ** Gaps *)
(** Activation reads the staged metadata again without its signature or its
    window: a directory nobody signed is activated, and so is a staged bundle
    long after it has expired. *)
Definition unsigned_metadata : OfflineUpdateMetadata.t :=
  bundle_metadata text text (mkRequest "other" "bundle" 7 0 100 "9.0.0" "9.9.9" 0 None) demo_targets.*1.
Lemma activation_trusts_the_directory :
  let load bytes := if bool_decide (bytes = demo_bytes) then Ok demo_metadata else Ok unsigned_metadata in
  let planted : tree := <[[METADATA] := "{}"]> demo_source in
  let after o s := (demo_exec load o s).2 in
  let active s := Pointer.version <$> pointer s in
  active (after (Activate (Some "bundle-1") passing 5000) (after (Stage demo_archive 50) fresh)) = Some 1 /\
  active (after (Activate (Some "planted") passing 50) (after (Tamper {["planted" := planted]}) fresh)) = Some 7.
Proof. vm_compute. split; reflexivity. Qed.

(** The guard on protected paths compares text: a leading [./] evades it. *)
Lemma protected_prefix_evaded :
  protected "evidence/x" = true /\ protected "./evidence/x" = false /\ parts "./evidence/x" = parts "evidence/x" /\
  OfflineUpdateTarget.safe_relative_target_path "./evidence/x" = Ok "./evidence/x".
Proof. vm_compute. by split_and!. Qed.

(** The builder accepts [./model.bin]; the archive names it [model.bin] and
    the node refuses the bundle. *)
Lemma dotted_path_bundle_refused :
  let paths := ["./model.bin"] in
  let metadata := bundle_metadata text text demo_request [OfflineUpdateTarget.mk "./model.bin" 7 "weights"] in
  match build_update_bundle demo_repr (fun z => pretty z) text text demo_sign demo_source paths demo_request with
  | Ok archive =>
      verify demo_repr (fun z => pretty z) text text (fun _ => JNull) (fun _ => "") demo_check (fun _ => Ok metadata)
        "k" "0.21.4" archive 50 fresh = Raise (ValueError "update archive members differ from signed targets")
  | Raise _ => False
  end.
Proof. vm_compute. reflexivity. Qed.

(** Versions are compared as tuples of any length: 0.21.0 is above 0.21. *)
Lemma shorter_version_is_smaller :
  version_tuple "0.21" = Ok [0; 21] /\ version_tuple "0.21.0" = Ok [0; 21; 0] /\
  tuple_lt [0; 21] [0; 21; 0] = true.
Proof. vm_compute. by split_and!. Qed.

(** The validator that asks for a lowercase digest accepts an uppercase one. *)
Lemma uppercase_digest_accepted :
  OfflineUpdateMetadata.hex_digest "ABCDEFABCDEFABCDEFABCDEFABCDEFABCDEFABCDEFABCDEFABCDEFABCDEFABCD" = true.
Proof. vm_compute. reflexivity. Qed.
