(* ===== verification/Projections.v ===== *)
(** Projections (projections/): cursors, the signed projection of the incident
    engine, the continuity of a stream and the bounded buffer of a client.

    A UUID is its canonical text.  [sha256] is the hexadecimal digest and
    [hmac secret message] the hexadecimal tag; [dump_incident],
    [dump_watermark] and [dump_generated_at] are what pydantic writes.  The
    random epochs of [uuid4] and clock readings are arguments.  Texts are
    ASCII; the buffer treats a projection as a value of any type. *)

From Stdlib Require Import ZArith.
From S2P Require Import Prelude Binary64 Enums Models Records CanonicalJson Configuration Journal Engine Updates.
Open Scope Z_scope.

(** ** [uuid.UUID(text)] *)
Definition hex_value (c : Ascii.ascii) : option Z :=
  let n := Z.of_nat (Ascii.nat_of_ascii c) in
  if (48 <=? n) && (n <=? 57) then Some (n - 48)
  else if (97 <=? n) && (n <=? 102) then Some (n - 87)
  else if (65 <=? n) && (n <=? 70) then Some (n - 55)
  else None.

(** [s.replace(word, "")], [fuel] the length of [s]. *)
Fixpoint drop_prefix (word s : string) : option string :=
  match word, s with
  | EmptyString, _ => Some s
  | String a word, String b s => if decide (a = b) then drop_prefix word s else None
  | String _ _, EmptyString => None
  end.
Fixpoint remove_word (word s : string) (fuel : nat) : string :=
  match fuel with
  | O => s
  | S fuel =>
      match drop_prefix word s with
      | Some rest => remove_word word rest fuel
      | None => match s with EmptyString => EmptyString | String c s => String c (remove_word word s fuel) end
      end
  end.
Definition brace (c : Ascii.ascii) : bool := bool_decide (c = chr 123) || bool_decide (c = chr 125).
(** [s.strip("{}")] *)
Fixpoint strip_left (l : list Ascii.ascii) : list Ascii.ascii :=
  match l with c :: l' => if brace c then strip_left l' else l | [] => [] end.
Definition strip_braces (l : list Ascii.ascii) : list Ascii.ascii := rev (strip_left (rev (strip_left l))).

(** [int(text, 16)]: white space around, a sign, a prefix, digits with single
    underscores between them. *)
Fixpoint hex_digits (l : list Ascii.ascii) (acc : Z) : option Z :=
  match l with
  | [] => None
  | [c] => (fun d => acc * 16 + d) <$> hex_value c
  | c :: ((u :: rest') as rest) =>
      match hex_value c with
      | None => None
      | Some d => hex_digits (if decide (u = chr 95) then rest' else rest) (acc * 16 + d)
      end
  end.
Definition hex_prefixed (l : list Ascii.ascii) : option Z :=
  match l with
  | z :: x :: rest =>
      if decide (z = chr 48 /\ (x = chr 120 \/ x = chr 88)) then
        match rest with
        | u :: rest' => hex_digits (if decide (u = chr 95) then rest' else rest) 0
        | [] => None
        end
      else hex_digits l 0
  | _ => hex_digits l 0
  end.
Definition int16 (text : string) : option Z :=
  match String.list_ascii_of_string (strip text) with
  | c :: l =>
      if decide (c = chr 45) then Z.opp <$> hex_prefixed l
      else if decide (c = chr 43) then hex_prefixed l else hex_prefixed (c :: l)
  | [] => None
  end.

(** ["%0{n}x" % z], and the dashes of [str(uuid)]. *)
Definition hex_char (d : Z) : Ascii.ascii := Ascii.ascii_of_nat (Z.to_nat (if d <? 10 then d + 48 else d + 87)).
Fixpoint hex_text (n : nat) (z : Z) (acc : list Ascii.ascii) : list Ascii.ascii :=
  match n with O => acc | S n => hex_text n (z / 16) (hex_char (z mod 16) :: acc) end.
Definition dashes (l : list Ascii.ascii) : string :=
  let text i n := String.string_of_list_ascii (take n (drop i l)) in
  join "-" [text 0 8; text 8 4; text 12 4; text 16 4; text 20 12]%nat.

Definition parse_uuid (value : string) : res UUID :=
  let plain := remove_word "uuid:" (remove_word "urn:" value (String.length value)) (String.length value) in
  let digits := List.filter (fun c => negb (bool_decide (c = chr 45)))
                  (strip_braces (String.list_ascii_of_string plain)) in
  check (negb (length digits =? 32)%nat) (ValueError "badly formed hexadecimal UUID string") >>!
  match int16 (String.string_of_list_ascii digits) with
  | None => Raise (ValueError "invalid literal for int() with base 16")
  | Some z =>
      check (z <? 0) (ValueError "int is out of range (need a 128-bit value)") >>!
      Ok (dashes (hex_text 32 z []))
  end.

Definition colon : Ascii.ascii := chr 58.

Module ProjectionCursor.
Record t : Type := mk {
  stream_epoch : UUID;
  authority_position : Z;
  projection_version : Z;
  scope_sha256 : string
}.
#[global] Instance eq_dec : EqDecision t.
Proof. solve_decision. Defined.

Definition validate (c : t) : res t :=
  check ((authority_position c <? 0) || (projection_version c <? 0)) (ValidationError "out of range") >>! Ok c.

Definition event_id (c : t) : string :=
  stream_epoch c +:+ ":" +:+ pretty (authority_position c) +:+ ":" +:+ pretty (projection_version c) +:+ ":"
  +:+ scope_sha256 c.

Definition parse (value : string) : res t :=
  let fields epoch position version scope :=
    rbind (parse_uuid epoch) (fun epoch =>
    rbind (int_of_string position) (fun position =>
    rbind (int_of_string version) (fun version => validate (mk epoch position version scope)))) in
  match split colon value with
  | [epoch; position; version] => fields epoch position version "unbound"
  | [epoch; position; version; scope] => fields epoch position version scope
  | _ => Raise (ValueError "invalid projection cursor")
  end.

(** [model_dump(mode="json")] *)
Definition dump (c : t) : json :=
  JDict [("stream_epoch", JStr (stream_epoch c)); ("authority_position", JInt (authority_position c));
         ("projection_version", JInt (projection_version c)); ("scope_sha256", JStr (scope_sha256 c))].
End ProjectionCursor.

(** [validate_cursor] of cursor_policy.py; ages in microseconds. *)
Definition validate_cursor (value : string) (issued_at now max_age max_buffer : Z) : res bool :=
  check ((max_age <=? 0) || (max_buffer <? 1)) (ValueError "invalid cursor policy") >>!
  Ok match split colon value with
     | [epoch; position; version; scope] =>
         is_ok (parse_uuid epoch) && is_ok (int_of_string position) && is_ok (int_of_string version)
         && OfflineUpdateMetadata.hex_digest scope && (now - issued_at <=? max_age)
     | _ => false
     end.

Module SignedProjection.
Record t : Type := mk {
  schema_id : string;
  cursor : ProjectionCursor.t;
  generated_at : datetime;
  rebuild_state : string;
  projection_lag : Z;
  last_applied_authority_position : Z;
  authority_watermark : AuthorityWatermark.t;
  incidents : list json;
  command_ids : list string;
  aggregate_versions : list (string * Z);
  causation_command_ids : list (string * list string);
  payload_sha256 : string;
  authentication_tag : string
}.
Definition set_seal (digest tag : string) (p : t) : t :=
  mk (schema_id p) (cursor p) (generated_at p) (rebuild_state p) (projection_lag p)
    (last_applied_authority_position p) (authority_watermark p) (incidents p) (command_ids p)
    (aggregate_versions p) (causation_command_ids p) digest tag.
End SignedProjection.

(** ** The buffer of a client *)
Module ProjectionClientBuffer.
Section Buffer.
Context {A : Type}.
Record t : Type := mk { capacity : Z; items : list A; resync_required : bool }.

Definition create (capacity : Z) : res t :=
  check (capacity <? 1) (ValueError "projection client buffer capacity must be positive") >>!
  Ok (mk capacity [] false).

Definition offer (projection : A) (b : t) : string * t :=
  if resync_required b then ("resync_required", b)
  else if capacity b <=? Z.of_nat (length (items b)) then ("resync_required", mk (capacity b) [] true)
  else ("queued", mk (capacity b) (items b ++ [projection]) false).

Definition drain (limit : option Z) (b : t) : list A * t :=
  if resync_required b then ([], b)
  else
    let count := match limit with None => Z.of_nat (length (items b)) | Some n => Z.max 0 n end in
    let n := Nat.min (Z.to_nat count) (length (items b)) in
    (take n (items b), mk (capacity b) (drop n (items b)) false).

Definition reset_after_resync (b : t) : t := mk (capacity b) [] false.
End Buffer.
Arguments t : clear implicits.
End ProjectionClientBuffer.

(** ** The service *)
Module ProjectionService.
Record t : Type := mk { secret : string; stream_epoch : UUID; rebuild_state : string; created_at : datetime }.

Section Service.
Context (float_repr : f64 -> string) (isoformat : datetime -> string).
Context (sha256 : string -> string) (hmac : string -> string -> string) (store_sha256 : payload -> string).
Context (dump_incident : IncidentRecord.t -> json) (dump_watermark : AuthorityWatermark.t -> json).
Context (dump_generated_at : datetime -> json).

(** The constructor: [secret or] the digest of the development key. *)
Definition create (secret : option string) (development_key : string) (epoch : UUID) (now : datetime) : res t :=
  let secret := match secret with
                | Some s => if bool_decide (s = "") then development_key else s
                | None => development_key
                end in
  check (String.length secret <? 32)%nat
    (ValueError "projection signing secret must contain at least 32 bytes") >>!
  Ok (mk secret epoch "ready" now).

Definition rotate_epoch (reason : string) (epoch : UUID) (now : datetime) : M t UUID :=
  raise_if (blank reason) (ValueError "projection epoch reason must not be blank") ;;;
  modify (fun s => mk (secret s) epoch "ready" now) ;;;
  ret epoch.

(** [max((item.version for item in current), default=0)] *)
Definition projection_version (e : IncidentEventEngine.t) : Z :=
  match IncidentRecord.version <$> IncidentEventEngine.current e with
  | [] => 0
  | v :: vs => foldl Z.max v vs
  end.

Definition command_ids (e : IncidentEventEngine.t) : list string :=
  CommandReceipt.command_id <$> IncidentJournalStore.command_receipts (IncidentEventEngine.store e).

(** [target.removeprefix("incident:")] *)
Definition incident_target (target : string) : string := default target (drop_prefix "incident:" target).

Definition aggregate_bindings (e : IncidentEventEngine.t) : list (string * Z) * list (string * list string) :=
  let versions := fold_left (fun d item => dict_set (IncidentRecord.incident_id item) (IncidentRecord.version item) d)
                    (IncidentEventEngine.current e) [] in
  let commands := fold_left (fun d receipt =>
      let target := incident_target (CommandReceipt.target receipt) in
      match dict_get target d with
      | Some ids => dict_set target (ids ++ [CommandReceipt.command_id receipt]) d
      | None => d
      end)
    (IncidentJournalStore.command_receipts (IncidentEventEngine.store e)) ((fun item => (item.1, [])) <$> versions) in
  (versions, commands).

(** The signed payload, and the message of its tag. *)
Definition payload_of (p : SignedProjection.t) : json :=
  JDict [("schema", JStr (SignedProjection.schema_id p));
         ("cursor", ProjectionCursor.dump (SignedProjection.cursor p));
         ("generated_at", JStr (isoformat (SignedProjection.generated_at p)));
         ("rebuild_state", JStr (SignedProjection.rebuild_state p));
         ("projection_lag", JInt (SignedProjection.projection_lag p));
         ("last_applied_authority_position", JInt (SignedProjection.last_applied_authority_position p));
         ("authority_watermark", dump_watermark (SignedProjection.authority_watermark p));
         ("incidents", JList (SignedProjection.incidents p));
         ("command_ids", JList (JStr <$> SignedProjection.command_ids p));
         ("aggregate_versions", JDict ((fun x => (x.1, JInt x.2)) <$> SignedProjection.aggregate_versions p));
         ("causation_command_ids",
          JDict ((fun x => (x.1, JList (JStr <$> x.2))) <$> SignedProjection.causation_command_ids p))].
Definition digest_of (p : SignedProjection.t) : string := sha256 (canonical_json_bytes float_repr (payload_of p)).
Definition tag_of (s : t) (p : SignedProjection.t) : string :=
  hmac (secret s) (canonical_json_bytes float_repr
    (JDict [("payload_sha256", JStr (digest_of p));
            ("cursor", JStr (ProjectionCursor.event_id (SignedProjection.cursor p)))])).

Definition scope_digest (principal_scope filter_scope : string) : string :=
  sha256 (canonical_json_bytes float_repr
    (JDict [("principal", JStr principal_scope); ("filter", JStr filter_scope)])).

Definition snapshot (e : IncidentEventEngine.t) (generated_at : option datetime) (principal_scope filter_scope : string)
    (s : t) : res SignedProjection.t :=
  let report := IncidentEventEngine.projection_conformance store_sha256 e in
  check (negb (IncidentEventEngine.projection_valid report))
    (RuntimeError ("projection conformance failed: " +:+ join "," (IncidentEventEngine.projection_failures report))) >>!
  let journal := IncidentJournalStore.authority_journal (IncidentEventEngine.store e) in
  let generated_at :=
    match generated_at, last journal with
    | Some at_, _ => at_
    | None, Some entry => IncidentJournalStore.accepted_at entry
    | None, None => created_at s
    end in
  rbind (IncidentEventEngine.authority_watermark store_sha256 e) (fun watermark =>
  check (negb (AuthorityWatermark.valid watermark))
    (RuntimeError ("authority watermark is invalid: " +:+ join "," (AuthorityWatermark.failures watermark))) >>!
  let position := AuthorityWatermark.highest_contiguous_position watermark in
  let '(versions, commands) := aggregate_bindings e in
  rbind (ProjectionCursor.validate
    (ProjectionCursor.mk (stream_epoch s) position (projection_version e) (scope_digest principal_scope filter_scope)))
    (fun cursor =>
  let unsealed :=
    {| SignedProjection.schema_id := "sentinel-edge-incident-projection/1.0";
       SignedProjection.cursor := cursor;
       SignedProjection.generated_at := generated_at;
       SignedProjection.rebuild_state := rebuild_state s;
       SignedProjection.projection_lag := 0;
       SignedProjection.last_applied_authority_position := position;
       SignedProjection.authority_watermark := watermark;
       SignedProjection.incidents := dump_incident <$> IncidentEventEngine.current e;
       SignedProjection.command_ids := command_ids e;
       SignedProjection.aggregate_versions := versions;
       SignedProjection.causation_command_ids := commands;
       SignedProjection.payload_sha256 := "";
       SignedProjection.authentication_tag := "" |} in
  Ok (SignedProjection.set_seal (digest_of unsealed) (tag_of s unsealed) unsealed))).

Definition verify (p : SignedProjection.t) (s : t) : bool :=
  bool_decide (digest_of p = SignedProjection.payload_sha256 p)
  && bool_decide (tag_of s p = SignedProjection.authentication_tag p).

Definition continuity (e : IncidentEventEngine.t) (last_event_id : option string) (principal_scope filter_scope : string)
    (s : t) : res (string * SignedProjection.t) :=
  rbind (snapshot e None principal_scope filter_scope s) (fun current =>
  Ok (match last_event_id with
      | None | Some EmptyString => "projection"
      | Some value =>
          let here := SignedProjection.cursor current in
          match ProjectionCursor.parse value with
          | Raise _ => "resync_required"
          | Ok previous =>
              if negb (bool_decide (ProjectionCursor.stream_epoch previous = ProjectionCursor.stream_epoch here))
                 || negb (bool_decide (ProjectionCursor.scope_sha256 previous = ProjectionCursor.scope_sha256 here))
                 || (ProjectionCursor.authority_position here <? ProjectionCursor.authority_position previous)
                 || (ProjectionCursor.authority_position previous <? ProjectionCursor.authority_position here - 1)
              then "resync_required" else "projection"
          end
      end, current)).

(** [projection.model_dump(mode="json")] *)
Definition dump_projection (p : SignedProjection.t) : list (string * json) :=
  [("schema", JStr (SignedProjection.schema_id p));
   ("cursor", ProjectionCursor.dump (SignedProjection.cursor p));
   ("generated_at", dump_generated_at (SignedProjection.generated_at p));
   ("rebuild_state", JStr (SignedProjection.rebuild_state p));
   ("projection_lag", JInt (SignedProjection.projection_lag p));
   ("last_applied_authority_position", JInt (SignedProjection.last_applied_authority_position p));
   ("authority_watermark", dump_watermark (SignedProjection.authority_watermark p));
   ("incidents", JList (SignedProjection.incidents p));
   ("command_ids", JList (JStr <$> SignedProjection.command_ids p));
   ("aggregate_versions", JDict ((fun x => (x.1, JInt x.2)) <$> SignedProjection.aggregate_versions p));
   ("causation_command_ids",
    JDict ((fun x => (x.1, JList (JStr <$> x.2))) <$> SignedProjection.causation_command_ids p));
   ("payload_sha256", JStr (SignedProjection.payload_sha256 p));
   ("authentication_tag", JStr (SignedProjection.authentication_tag p))].

Definition newline : string := String (chr 10) "".
Definition sse (event : string) (p : SignedProjection.t) : string :=
  let data := JDict (dump_projection p) in
  let data := if bool_decide (event = "resync_required")
              then JDict [("reason", JStr "cursor_gap_or_epoch_change");
                          ("rest_projection", JStr "/v1/projections/incidents");
                          ("authority_watermark", dump_watermark (SignedProjection.authority_watermark p));
                          ("current", data)]
              else data in
  "id: " +:+ ProjectionCursor.event_id (SignedProjection.cursor p) +:+ newline +:+ "event: " +:+ event +:+ newline
  +:+ "data: " +:+ canonical_json_bytes float_repr data +:+ newline +:+ newline.
End Service.
End ProjectionService.

Example parse_uuid_forms :
  parse_uuid "urn:uuid:12345678-1234-5678-1234-56781234ABCD" = Ok "12345678-1234-5678-1234-56781234abcd" /\
  parse_uuid "{1234567812345678123456781234abcd}" = Ok "12345678-1234-5678-1234-56781234abcd" /\
  is_ok (parse_uuid "12345678") = false.
Proof. by vm_compute. Qed.
