(* ===== verification/ProjectionTheorems.v ===== *)
(** What projections promise: a client that resumes a stream is asked to resync
    unless it is at most one authority event behind in the same epoch and
    scope, every snapshot verifies, cursors survive their text form, and the
    client's buffer never loses a projection silently. *)

From Stdlib Require Import ZArith Lia ZifyBool.
From S2P Require Import Prelude Ordering Binary64 Enums Models Records CanonicalJson Configuration Auth Journal.
From S2P Require Import JournalTheorems Engine EngineTheorems Updates Projections.
Open Scope Z_scope.

(** ** Text *)
Definition no_colon (s : string) : bool := all_of (fun c => negb (bool_decide (c = colon))) s.

Lemma split_app x y : no_colon x = true -> split colon (x +:+ String colon y) = x :: split colon y.
Proof.
  unfold no_colon. induction x as [|c x IH]; [done|]. rewrite append_cons. cbn [all_of split].
  intros [Hc%negb_true_iff%bool_decide_eq_false Hx]%andb_true_iff. rewrite decide_False by done. by rewrite IH.
Qed.

Lemma split_plain x : no_colon x = true -> split colon x = [x].
Proof.
  unfold no_colon. induction x as [|c x IH]; [done|]. cbn [all_of split].
  intros [Hc%negb_true_iff%bool_decide_eq_false Hx]%andb_true_iff. rewrite decide_False by done. by rewrite IH.
Qed.

(** Decimal text of a natural number. *)
Definition digit (c : Ascii.ascii) : bool := match digit_value c with Some _ => true | None => false end.
Definition decimal (acc : Z) (l : list Ascii.ascii) : Z :=
  fold_left (fun acc c => acc * 10 + default 0 (digit_value c)) l acc.

Lemma digits_value_decimal c l acc :
  Forall (fun c => digit c = true) (c :: l) -> digits_value (c :: l) acc = Some (decimal acc (c :: l)).
Proof.
  revert c acc. induction l as [|u l IH]; intros c acc [Hc Hl]%Forall_cons; unfold digit in Hc; cbn.
  - by destruct (digit_value c).
  - destruct (digit_value c) as [d|] eqn:E; [|done]. rewrite decide_False; [apply IH; done|].
    apply Forall_cons in Hl as [Hu _]. intros ->. by vm_compute in Hu.
Qed.

Lemma digit_char n :
  digit (pretty_N_char (n mod 10)) = true /\
  default 0 (digit_value (pretty_N_char (n mod 10))) = Z.of_N (n mod 10).
Proof.
  assert (n mod 10 < 10)%N as H by (apply N.mod_lt; lia). revert H. generalize (n mod 10)%N. intros m H.
  destruct m as [|m]; [by vm_compute|]. do 4 (destruct m as [m|m|]; try lia; try (by vm_compute)).
Qed.

Lemma pretty_go_decimal n s :
  Forall (fun c => digit c = true) (String.list_ascii_of_string s) ->
  Forall (fun c => digit c = true) (String.list_ascii_of_string (pretty_N_go n s)) /\
  decimal 0 (String.list_ascii_of_string (pretty_N_go n s)) = decimal (Z.of_N n) (String.list_ascii_of_string s).
Proof.
  revert s. induction (N.lt_wf_0 n) as [n _ IH]. intros s Hs.
  destruct (decide (n = 0)%N) as [->|Hn]; [by rewrite pretty_N_go_0|].
  rewrite pretty_N_go_step by lia. destruct (digit_char n) as [H1 H2].
  assert (n / 10 < n)%N as Hlt by (apply N.div_lt; lia).
  assert (Hc : Forall (fun c => digit c = true) (String.list_ascii_of_string (String (pretty_N_char (n mod 10)) s)))
    by by constructor.
  destruct (IH _ Hlt _ Hc) as [H3 H4]. split; [done|].
  rewrite H4. cbn. unfold decimal. f_equal. rewrite H2. pose proof (N.div_mod n 10). lia.
Qed.

Lemma digit_not_space c : digit c = true -> ascii_is_space c = false.
Proof.
  unfold digit, digit_value, ascii_is_space. destruct ((48 <=? Z.of_nat _) && _) eqn:E; [|done]. intros _.
  destruct (Ascii.nat_of_ascii c) as [|n]; [done|]. do 60 (destruct n as [|n]; try done).
Qed.

Lemma strip_digits s : Forall (fun c => digit c = true) (String.list_ascii_of_string s) -> strip s = s.
Proof.
  intros H. assert (rstrip s = s) as Hr.
  { induction s as [|c s IH]; [done|]. cbn in H. apply Forall_cons in H as [Hc Hs]. cbn.
    rewrite digit_not_space by done. cbn. by rewrite IH. }
  unfold strip. destruct s as [|c s]; [done|]. cbn in H. apply Forall_cons in H as [Hc Hs]. cbn [lstrip].
  by rewrite digit_not_space.
Qed.

Lemma int_of_pretty z : 0 <= z -> int_of_string (pretty z) = Ok z.
Proof.
  intros Hz. assert (Hd : Forall (fun c => digit c = true) (String.list_ascii_of_string (pretty z)) /\
    decimal 0 (String.list_ascii_of_string (pretty z)) = z /\ pretty z <> "").
  { split_and!; [..|apply pretty_int]; destruct z as [|p|p]; try lia; try (by vm_compute);
      try (by repeat constructor); unfold pretty, pretty_Z, pretty, pretty_positive, pretty, pretty_N;
      rewrite decide_False by lia; by apply pretty_go_decimal. }
  destruct Hd as (Hd & Hv & Hne). unfold int_of_string. rewrite strip_digits by done.
  destruct (pretty z) as [|c s]; [done|]. cbn [String.list_ascii_of_string] in Hd, Hv |- *. pose proof (Forall_cons_1 _ _ _ Hd) as [Hc _].
  rewrite !decide_False by (intros ->; by vm_compute in Hc). by rewrite digits_value_decimal, Hv by done.
Qed.

(** ** Cursors *)
Lemma parse_event_id c :
  parse_uuid (ProjectionCursor.stream_epoch c) = Ok (ProjectionCursor.stream_epoch c) ->
  no_colon (ProjectionCursor.stream_epoch c) = true -> no_colon (ProjectionCursor.scope_sha256 c) = true ->
  0 <= ProjectionCursor.authority_position c -> 0 <= ProjectionCursor.projection_version c ->
  ProjectionCursor.parse (ProjectionCursor.event_id c) = Ok c.
Proof.
  intros He H1 H2 Hp Hv. unfold ProjectionCursor.parse, ProjectionCursor.event_id.
  assert (Hint : forall z, no_colon (pretty (z : Z)) = true).
  { intros z. eapply all_of_impl; [|apply pretty_int]. intros a Ha. apply negb_true_iff, bool_decide_eq_false.
    intros ->. by vm_compute in Ha. }
  repeat change (":" +:+ ?x) with (String colon x). rewrite !split_app, split_plain by (done || apply Hint).
  rewrite He. cbn [rbind]. rewrite !int_of_pretty by done. cbn [rbind].
  unfold ProjectionCursor.validate. cbn. replace (_ <? 0) with false by lia. replace (_ <? 0) with false by lia.
  by destruct c.
Qed.

(** ** Snapshots of the engine *)
Section Streams.
Context (float_repr : f64 -> string) (isoformat : datetime -> string) (uuid5 : string -> UUID).
Context (sha256 : string -> string) (hmac : string -> string -> string).
Context (dump_incident : IncidentRecord.t -> json) (dump_review_state : IncidentReviewState.t -> json).
Context (store_sha256 : payload -> string) (dump_watermark : AuthorityWatermark.t -> json).
Notation reachable := (EngineTheorems.reachable float_repr isoformat uuid5 sha256 hmac dump_incident dump_review_state
                         store_sha256).
Notation step := (EngineTheorems.step float_repr isoformat uuid5 sha256 hmac dump_incident dump_review_state store_sha256).
Notation snapshot := (ProjectionService.snapshot float_repr isoformat sha256 hmac store_sha256 dump_incident dump_watermark).
Notation verify := (ProjectionService.verify float_repr isoformat sha256 hmac dump_watermark).
Notation continuity := (ProjectionService.continuity float_repr isoformat sha256 hmac store_sha256 dump_incident
                          dump_watermark).
Notation scope_digest := (ProjectionService.scope_digest float_repr sha256).
Notation events e := (IncidentJournalStore.authority_events (IncidentEventEngine.store e)).

Lemma watermark_ok e :
  reachable e -> exists w, IncidentEventEngine.authority_watermark store_sha256 e = Ok w /\
    AuthorityWatermark.valid w = true /\
    AuthorityWatermark.highest_contiguous_position w = Z.of_nat (length (events e)).
Proof.
  intros He. pose proof (reachable_conformant _ _ (reachable_store _ _ _ _ _ _ _ _ e He)) as Hs.
  pose proof (conformant_no_failures store_sha256 _ Hs) as Hf.
  unfold IncidentEventEngine.authority_watermark, AuthorityWatermark.from_conformance.
  assert (Hv : IncidentJournalStore.valid (IncidentJournalStore.authority_conformance store_sha256
                 (IncidentEventEngine.store e)) = true).
  { unfold IncidentJournalStore.authority_conformance in *. cbn in *. by rewrite Hf. }
  assert (Hp : IncidentJournalStore.highest_contiguous_position (IncidentJournalStore.authority_conformance store_sha256
                 (IncidentEventEngine.store e)) = Z.of_nat (length (events e))).
  { destruct Hs as [Hn _ _]. unfold IncidentJournalStore.authority_conformance in *.
    cbn [IncidentJournalStore.valid IncidentJournalStore.highest_contiguous_position] in *. rewrite Hv.
    destruct (last (events e)) as [row|] eqn:El.
    - destruct (numbered_last _ _ _ _ Hn El) as [-> _]. lia.
    - apply last_None in El. by rewrite El. }
  rewrite Hv, Hf, Hp. unfold AuthorityWatermark.validate. cbn.
  replace (_ || _) with false by lia. cbn. eexists. split; [reflexivity|]. by split.
Qed.

Lemma projection_version_nonneg e : reachable e -> 0 <= ProjectionService.projection_version e.
Proof.
  intros He. pose proof (reachable_consistent _ _ _ _ _ _ _ _ e He) as Hc.
  assert (Hall : Forall (fun v => 0 <= v) (IncidentRecord.version <$> IncidentEventEngine.current e)).
  { apply Forall_fmap, Forall_forall. intros r Hr. unfold IncidentEventEngine.current in Hr.
    rewrite sort_by_perm in Hr. apply list_elem_of_fmap in Hr as ([h r'] & -> & Hr). cbn in *.
    apply (dict_elem_get _ _ _ (co_keys e Hc)) in Hr. rewrite (co_current e Hc), last_lookup in Hr.
    rewrite (well_formed_versions _ _ _ (co_history e Hc h) Hr). lia. }
  unfold ProjectionService.projection_version. destruct Hall as [|v vs Hv _]; [done|].
  assert (v <= foldl Z.max v vs); [|lia]. clear Hv. revert v. induction vs as [|x vs IH]; intros v; cbn; [lia|].
  specialize (IH (Z.max v x)). lia.
Qed.

(** A snapshot of a reachable engine exists, names its position and verifies. *)
Lemma snapshot_ok e at_ ps fs s :
  reachable e -> exists p, snapshot e at_ ps fs s = Ok p /\ verify p s = true /\
    SignedProjection.incidents p = dump_incident <$> IncidentEventEngine.current e /\
    SignedProjection.cursor p
    = ProjectionCursor.mk (ProjectionService.stream_epoch s) (Z.of_nat (length (events e)))
        (ProjectionService.projection_version e) (scope_digest ps fs).
Proof.
  intros He. destruct (watermark_ok e He) as (w & Hw & Hwv & Hwp). pose proof (projection_version_nonneg e He) as Hpv.
  pose proof (projection_report_ok _ e (reachable_consistent _ _ _ _ _ _ _ _ e He)
                (reachable_conformant _ _ (reachable_store _ _ _ _ _ _ _ _ e He))) as Hf.
  unfold ProjectionService.snapshot. rewrite Hw. cbn [rbind]. rewrite Hwv, Hwp.
  replace (IncidentEventEngine.projection_valid (IncidentEventEngine.projection_conformance store_sha256 e)) with true.
  2: { unfold IncidentEventEngine.projection_conformance in *. cbv zeta in *.
       cbn [IncidentEventEngine.projection_valid IncidentEventEngine.projection_failures] in *. by rewrite Hf. }
  cbn [negb check rbind]. destruct (ProjectionService.aggregate_bindings e) as [versions commands].
  unfold ProjectionCursor.validate. cbn [ProjectionCursor.authority_position ProjectionCursor.projection_version].
  replace (_ || _) with false by lia. cbn [check rbind]. eexists. split; [reflexivity|]. split; [|by split].
  unfold ProjectionService.verify. apply andb_true_iff. by rewrite !bool_decide_eq_true_2.
Qed.

Lemma events_grow e e' : reachable e -> rtc step e e' -> events e `prefix_of` events e'.
Proof.
  intros He H. pose proof (reachable_conformant _ _ (reachable_store _ _ _ _ _ _ _ _ e He)) as Hs.
  eapply gr_events; [|exact Hs]. eapply steps_grow. clear He Hs.
  induction H as [e|e1 e2 e3 (c & r & Hc & Hx) _ IH]; [apply rtc_refl|].
  etrans; [|exact IH]. by eapply exec_store_steps.
Qed.

Lemma reachable_steps e e' : reachable e -> rtc step e e' -> reachable e'.
Proof. intros (b & a & H) H'. exists b, a. by etrans. Qed.

(** C26: A client resumes a stream with the identifier of a projection it was
    given, by this service or one before a restart or a rebuild, and the
    incident engine has moved on in any way.  The answer is always the
    verifiable current snapshot, of every current incident; it is a plain
    continuation exactly when the client's epoch and scope are the service's
    and at most one authority event was accepted since, and otherwise asks for
    a resync. *)
Theorem stream_resumes_without_gap e e' at_ ps fs ps' fs' s0 s p
    (Hhex : forall text, no_colon (sha256 text) = true)
    (Hepoch : parse_uuid (ProjectionService.stream_epoch s0) = Ok (ProjectionService.stream_epoch s0))
    (Hplain : no_colon (ProjectionService.stream_epoch s0) = true)
    (He : reachable e) (Hstep : rtc step e e') (Hp : snapshot e at_ ps fs s0 = Ok p) :
  exists event current,
    continuity e' (Some (ProjectionCursor.event_id (SignedProjection.cursor p))) ps' fs' s = Ok (event, current) /\
    verify current s = true /\
    SignedProjection.incidents current = dump_incident <$> IncidentEventEngine.current e' /\
    (event = "projection" <->
     ProjectionService.stream_epoch s0 = ProjectionService.stream_epoch s /\ scope_digest ps fs = scope_digest ps' fs' /\
     (length (events e') <= length (events e) + 1)%nat) /\
    (event <> "projection" -> event = "resync_required").
Proof.
  destruct (snapshot_ok e at_ ps fs s0 He) as (p0 & Hp0 & _ & _ & Hc). rewrite Hp in Hp0. injection Hp0 as <-.
  pose proof (reachable_steps e e' He Hstep) as He'. pose proof (prefix_length _ _ (events_grow e e' He Hstep)) as Hlen.
  destruct (snapshot_ok e' None ps' fs' s He') as (cur & Hcur & Hver & Hinc & Hcc).
  eexists _, cur. unfold ProjectionService.continuity. rewrite Hcur. cbn [rbind]. split; [reflexivity|].
  split; [done|]. split; [done|]. rewrite parse_event_id; rewrite Hc; cbn.
  2-6: first [exact Hepoch|exact Hplain|apply Hhex|lia|by apply projection_version_nonneg].
  rewrite Hcc. cbn. destruct (ProjectionCursor.event_id _) eqn:Hid.
  { exfalso. unfold ProjectionCursor.event_id in Hid. cbn in Hid. by destruct (ProjectionService.stream_epoch s0). }
  repeat case_bool_decide; cbn; try (split; [split; [done|by intros (? & ? & ?)]|done]).
  replace (_ <? _) with false by lia. cbn. destruct (_ <? _) eqn:E; (split; [split|done]).
  - done.
  - intros (_ & _ & ?). lia.
  - intros _. split_and!; [done..|lia].
  - done.
Qed.
End Streams.

(** ** The buffer of a client *)
Section Buffer.
Import ProjectionClientBuffer.
Context {A : Type}.

Inductive op : Type := Offer (projection : A) | Drain (limit : option Z) | Reset.

(** What has been offered and delivered since the last reset, and the buffer. *)
Record session : Type := mkSession { offered : list A; delivered : list A; buffer : ProjectionClientBuffer.t A }.
Definition exec (o : op) (s : session) : session :=
  match o with
  | Offer p => mkSession (offered s ++ [p]) (delivered s) (offer p (buffer s)).2
  | Drain limit => let '(out, b) := drain limit (buffer s) in mkSession (offered s) (delivered s ++ out) b
  | Reset => mkSession [] [] (reset_after_resync (buffer s))
  end.
Definition run (ops : list op) (s : session) : session := fold_left (fun s o => exec o s) ops s.

(** The specification: a queue that has lost nothing, or a session that must
    resync because more was undelivered than the buffer holds. *)
Definition faithful (s : session) : Prop :=
  1 <= capacity (buffer s) /\
  if resync_required (buffer s)
  then items (buffer s) = [] /\ delivered s `prefix_of` offered s /\
       capacity (buffer s) < Z.of_nat (length (offered s)) - Z.of_nat (length (delivered s))
  else offered s = delivered s ++ items (buffer s) /\ Z.of_nat (length (items (buffer s))) <= capacity (buffer s).

Lemma exec_faithful o s : faithful s -> faithful (exec o s).
Proof.
  destruct s as [off del [cap its rs]]. unfold faithful. cbn. intros [Hc H]. destruct o as [p|limit|]; cbn.
  - unfold offer. cbn. destruct rs; cbn.
    + destruct H as (-> & Hpre & Hlen). rewrite length_app. cbn.
      split_and!; [done|done|by apply prefix_app_r|lia].
    + destruct H as [-> Hlen]. destruct (cap <=? _) eqn:E; cbn.
      * rewrite !length_app. cbn. split_and!; [done|done|by do 2 apply prefix_app_r|lia].
      * rewrite length_app. cbn. split_and!; [done|by rewrite <- app_assoc|lia].
  - unfold drain. cbn. destruct rs; cbn; [by rewrite app_nil_r|].
    destruct H as [-> Hlen]. rewrite length_drop. split_and!; [done| |lia].
    by rewrite <- app_assoc, take_drop.
  - split_and!; [done|done|lia].
Qed.

(** C27: However offers, drains of any limit and resyncs interleave, a client
    receives the projections offered since its last resync in order, each
    once and without a gap: what was delivered is a prefix of what was offered,
    and unless a resync is required the buffer holds exactly the rest, within
    its capacity.  A resync is required only when more projections were
    undelivered than the buffer holds, and from then on nothing is delivered
    until the client resyncs. *)
Theorem buffer_never_skips cap b ops limit (Hb : create cap = Ok b) :
  let s := run ops (mkSession [] [] b) in
  delivered s `prefix_of` offered s /\
  (resync_required (buffer s) = false ->
   offered s = delivered s ++ items (buffer s) /\ Z.of_nat (length (items (buffer s))) <= cap /\
   (drain None (buffer s)).1 = items (buffer s)) /\
  (resync_required (buffer s) = true ->
   cap < Z.of_nat (length (offered s)) - Z.of_nat (length (delivered s)) /\ (drain limit (buffer s)).1 = []).
Proof.
  assert (Hrun : faithful (run ops (mkSession [] [] b)) /\ capacity (buffer (run ops (mkSession [] [] b))) = cap).
  { apply rbind_ok in Hb as (u & Hc%check_ok & [= <-]). unfold run.
    assert (H0 : faithful (mkSession [] [] (mk cap [] false)) /\ capacity (buffer (mkSession [] [] (mk cap [] false))) = cap).
    { unfold faithful. cbn. split_and!; [lia|done|lia|done]. }
    revert H0. generalize (mkSession [] [] (mk cap [] false)). induction ops as [|o ops IH]; [done|].
    intros s [Hf Hcap]. apply IH. split; [by apply exec_faithful|].
    destruct s as [off del [c its rs]], o; cbn in *; unfold offer, drain; cbn; [|destruct rs; cbn|]; try done.
    destruct rs; [done|]. by destruct (c <=? _). }
  cbv zeta. destruct Hrun as [[Hc Hf] Hcap]. rewrite <- Hcap. unfold drain.
  destruct (resync_required (buffer _)) eqn:Hr.
  - destruct Hf as (_ & Hpre & Hlen). by split_and!.
  - destruct Hf as [Hoff Hlen]. rewrite Hoff. split_and!; [by apply prefix_app_r| |done]. intros _.
    split_and!; [done|done|]. cbn. rewrite Nat2Z.id, Nat.min_id. apply firstn_all.
Qed.
End Buffer.

Lemma buffer_never_skips_witness :
  let s := run [Offer 1; Offer 2; Drain (Some 1); Offer 3; Offer 4] (mkSession [] [] (ProjectionClientBuffer.mk 2 [] false)) in
  delivered s = [1] /\ delivered s `prefix_of` offered s /\
  2 < Z.of_nat (length (offered s)) - Z.of_nat (length (delivered s)).
Proof.
  destruct (buffer_never_skips 2 (ProjectionClientBuffer.mk 2 [] false)
              [Offer 1; Offer 2; Drain (Some 1); Offer 3; Offer 4] None eq_refl) as (Hp & _ & Hr).
  split; [vm_compute; reflexivity|]. split; [exact Hp|]. apply Hr. vm_compute. reflexivity.
Defined.

(** ** A concrete stream *)
Notation ex_digest := (fun _ : string => "d19e57").
Notation ex_exec := (EngineTheorems.exec demo_repr demo_isoformat demo_uuid5 ex_digest demo_tag demo_dump demo_dump
                       demo_store_sha256).
Notation ex_step := (EngineTheorems.step demo_repr demo_isoformat demo_uuid5 ex_digest demo_tag demo_dump demo_dump
                       demo_store_sha256).
Notation ex_snapshot := (ProjectionService.snapshot demo_repr demo_isoformat ex_digest demo_tag demo_store_sha256
                           demo_dump demo_dump).
Notation ex_continuity := (ProjectionService.continuity demo_repr demo_isoformat ex_digest demo_tag demo_store_sha256
                             demo_dump demo_dump).
Definition ex_service : ProjectionService.t :=
  ProjectionService.mk "secret" "12345678-1234-5678-1234-567812345678" "ready" 0.
Notation ex_e0 := (new_engine 8 demo_engine_authorizer).
Notation ex_e1 := (ex_exec (Analysis demo_watch 110) ex_e0).2.
Notation ex_e2 := (ex_exec (Analysis demo_confirm 210) ex_e1).2.

Lemma ex_steps : rtc ex_step ex_e0 ex_e1 /\ rtc ex_step ex_e1 ex_e2.
Proof.
  split; apply rtc_once; [exists (Analysis demo_watch 110)|exists (Analysis demo_confirm 210)]; eexists;
    (split; [exact I|apply surjective_pairing]).
Qed.

Lemma ex_snapshot_taken : exists p, ex_snapshot ex_e1 None "" "incidents" ex_service = Ok p.
Proof.
  destruct (snapshot_ok demo_repr demo_isoformat demo_uuid5 ex_digest demo_tag demo_dump demo_dump demo_store_sha256
    demo_dump ex_e1 None "" "incidents" ex_service) as (p & Hp & _); [|by exists p].
  exists 8, demo_engine_authorizer. apply ex_steps.
Qed.

Lemma stream_resumes_without_gap_witness : exists p event current,
  ex_continuity ex_e2 (Some (ProjectionCursor.event_id (SignedProjection.cursor p))) "" "incidents" ex_service
  = Ok (event, current) /\ event = "resync_required".
Proof.
  destruct ex_snapshot_taken as [p Hp]. exists p.
  destruct (stream_resumes_without_gap demo_repr demo_isoformat demo_uuid5 ex_digest demo_tag demo_dump demo_dump
    demo_store_sha256 demo_dump ex_e1 ex_e2 None "" "incidents" "" "incidents" ex_service ex_service p)
    as (event & current & Hc & _ & _ & Hiff & Hother).
  - reflexivity.
  - vm_compute. reflexivity.
  - vm_compute. reflexivity.
  - exists 8, demo_engine_authorizer. apply ex_steps.
  - apply ex_steps.
  - exact Hp.
  - exists event, current. split; [exact Hc|]. apply Hother. rewrite Hiff. intros (_ & _ & Hlen).
    vm_compute in Hlen. lia.
Defined.
