(* ===== verification/TrustedTime.v ===== *)
(** Trusted time (runtime/trusted_time.py): the choice of a time source among
    observations of several, and what the chosen time may be used for.

    Times are binary64 milliseconds as the code computes them; a timestamp
    always has a zone.  The dict of sources keeps one observation per source. *)

From Stdlib Require Import ZArith.
From Stdlib Require Import SpecFloat.
From S2P Require Import Prelude Binary64 Models Records.
Open Scope Z_scope.

Module TimeOrigin.
Inductive t : Type := RTC | MANUAL | GNSS | NTP | NTS | FIXTURE.
#[global] Instance eq_dec : EqDecision t.
Proof. solve_decision. Defined.
Definition value (x : t) : string :=
  match x with
  | RTC => "rtc" | MANUAL => "manual" | GNSS => "gnss" | NTP => "ntp" | NTS => "nts" | FIXTURE => "fixture"
  end.
End TimeOrigin.

Module TimeTrustState.
Inductive t : Type := TRUSTED | DISPLAY_ONLY | DEGRADED | UNUSABLE.
#[global] Instance eq_dec : EqDecision t.
Proof. solve_decision. Defined.
Definition value (x : t) : string :=
  match x with
  | TRUSTED => "trusted" | DISPLAY_ONLY => "display_only" | DEGRADED => "degraded" | UNUSABLE => "unusable"
  end.
End TimeTrustState.

Module TimeSourceObservation.
Record t : Type := mk {
  source_id : string;
  origin : TimeOrigin.t;
  authenticated : bool;
  observed_utc : datetime;
  observed_monotonic_ns : Z;
  uncertainty_ms : f64;
  age_ms : f64;
  stratum : option Z;
  reference_id : option string;
  continuity_id : string;
  clock_epoch : Z;
  clock_uncertainty_ms : f64;
  certificate_bootstrap_valid : option bool
}.
Definition validate (o : t) : res t :=
  check ((observed_monotonic_ns o <? 0) || (clock_epoch o <? 0)
         || negb (fle f0 (uncertainty_ms o)) || negb (fle f0 (age_ms o)) || negb (fle f0 (clock_uncertainty_ms o))
         || match stratum o with Some s => (s <? 0) || (16 <? s) | None => false end)
    (ValidationError "out of range") >>!
  check (blank (source_id o) || blank (continuity_id o)) (ValidationError "time source fields must not be blank") >>!
  Ok o.
End TimeSourceObservation.

Module TimeTrustSnapshot.
Record t : Type := mk {
  state : TimeTrustState.t;
  selected_source_id : option string;
  selected_origin : option TimeOrigin.t;
  authenticated : bool;
  uncertainty_ms : option f64;
  clock_epoch : Z;
  display_time_allowed : bool;
  security_validity_allowed : bool;
  remote_freshness_allowed : bool;
  peer_correlation_allowed : bool;
  reason_codes : list string;
  sources : list TimeSourceObservation.t
}.
End TimeTrustSnapshot.

Record TimeTrustPolicy : Type := mkPolicy {
  max_trusted_uncertainty_ms : f64;
  max_display_uncertainty_ms : f64;
  max_source_age_ms : f64;
  disagreement_threshold_ms : f64;
  authenticated_origins : list TimeOrigin.t;
  locally_trusted_origins : list TimeOrigin.t
}.

Module TrustedTimeManager.
Import TimeSourceObservation.

Record t : Type := mk {
  sources_ : list (string * TimeSourceObservation.t);
  clock_epoch_ : Z;
  last_selected : option TimeSourceObservation.t;
  last_snapshot : TimeTrustSnapshot.t
}.

(** A snapshot without a usable source. *)
Definition unusable (epoch : Z) (reasons : list string) (sources : list TimeSourceObservation.t) : TimeTrustSnapshot.t :=
  TimeTrustSnapshot.mk TimeTrustState.UNUSABLE None None false None epoch false false false false reasons sources.
Definition init : t := mk [] 0 None (unusable 0 ["no_time_source"] []).

Definition set_sources v (s : t) : t := mk v (clock_epoch_ s) (last_selected s) (last_snapshot s).
Definition set_selected epoch selected (s : t) : t := mk (sources_ s) epoch (Some selected) (last_snapshot s).
Definition set_snapshot v (s : t) : t := mk (sources_ s) (clock_epoch_ s) (last_selected s) v.

(** [_utc_ms] *)
Definition utc_ms (value : datetime) : f64 := fmul (int_truediv value 1000000) (of_Z 1000).

Section Manager.
Context (policy : TimeTrustPolicy).

(** The sources by identifier, and those that are fresh. *)
Definition ordered (s : t) : list TimeSourceObservation.t :=
  sort_by (fun x y => String.leb (source_id x) (source_id y)) (sources_ s).*2.
Definition candidates (s : t) : list TimeSourceObservation.t :=
  List.filter (fun o => fle (age_ms o) (max_source_age_ms policy)) (ordered s).

Definition trusted_source (o : TimeSourceObservation.t) : bool :=
  ((bool_decide (origin o ∈ authenticated_origins policy) && authenticated o)
   || bool_decide (origin o ∈ locally_trusted_origins policy))
  && fle (uncertainty_ms o) (max_trusted_uncertainty_ms policy).
Definition display_source (o : TimeSourceObservation.t) : bool :=
  fle (uncertainty_ms o) (max_display_uncertainty_ms policy).

(** [(uncertainty_ms, age_ms, source_id)] compared as tuples. *)
Definition key_lt (x y : TimeSourceObservation.t) : bool :=
  if negb (feq (uncertainty_ms x) (uncertainty_ms y)) then flt (uncertainty_ms x) (uncertainty_ms y)
  else if negb (feq (age_ms x) (age_ms y)) then flt (age_ms x) (age_ms y)
  else String.ltb (source_id x) (source_id y).
(** [min(pool, key=...)] of a non-empty pool: the first of the least. *)
Definition select (first : TimeSourceObservation.t) (pool : list TimeSourceObservation.t) : TimeSourceObservation.t :=
  fold_left (fun best o => if key_lt o best then o else best) pool first.

(** [max(times) - min(times) > threshold] *)
Definition disagree (trusted : list TimeSourceObservation.t) : bool :=
  match (fun o => utc_ms (observed_utc o)) <$> trusted with
  | time :: ((_ :: _) as times) =>
      flt (disagreement_threshold_ms policy) (fsub (fold_left py_max times time) (fold_left py_min times time))
  | _ => false
  end.

(** What changed against the last selection. *)
Definition selection_changes (selected : TimeSourceObservation.t) (last : option TimeSourceObservation.t)
  : list string :=
  match last with
  | None => []
  | Some last =>
      (if bool_decide (source_id selected = source_id last) then [] else ["selected_time_source_changed"])
      ++ (if Bool.eqb (authenticated selected) (authenticated last) then []
          else ["selected_time_authentication_changed"])
      ++ (if bool_decide (continuity_id selected = continuity_id last) then [] else ["selected_time_continuity_changed"])
  end.

Definition EPOCH_REASONS : list string :=
  ["trusted_sources_disagree"; "utc_rollback_detected"; "utc_step_detected"; "selected_time_authentication_changed";
   "selected_time_continuity_changed"; "time_authentication_changed"; "time_source_continuity_changed"].

(** The state and the allowance of the selected source, with their reasons. *)
Definition judge (selected : TimeSourceObservation.t) (trusted : bool) (display : bool)
  : TimeTrustState.t * bool * list string :=
  let '(state, allowed, reasons) :=
    if trusted then (TimeTrustState.TRUSTED, true, ["trusted_time_selected"])
    else if display then (TimeTrustState.DISPLAY_ONLY, false, ["unauthenticated_or_uncertain_time_display_only"])
    else (TimeTrustState.DEGRADED, false, ["time_uncertainty_exceeds_display_policy"]) in
  let '(state, allowed, reasons) :=
    if bool_decide (origin selected = TimeOrigin.NTP) && negb (authenticated selected) then
      (if bool_decide (state = TimeTrustState.TRUSTED) then TimeTrustState.DISPLAY_ONLY else state, false,
       reasons ++ ["unauthenticated_ntp_cannot_strengthen_security"])
    else (state, allowed, reasons) in
  if bool_decide (certificate_bootstrap_valid selected = Some false)
  then (TimeTrustState.DEGRADED, false, reasons ++ ["certificate_bootstrap_invalid"])
  else (state, allowed, reasons).

Definition evaluate (extra_reasons : list string) : M t TimeTrustSnapshot.t :=
  let! s := get in
  match candidates s with
  | [] =>
      ret (unusable (clock_epoch_ s)
             (sorted_set (extra_reasons ++ [if bool_decide (ordered s = []) then "no_time_source"
                                            else "all_time_sources_stale"])) (ordered s))
  | c :: cs =>
      let trusted := List.filter trusted_source (c :: cs) in
      let display := List.filter display_source (c :: cs) in
      let selected := match trusted, display with
                      | first :: pool, _ => select first pool
                      | [], first :: pool => select first pool
                      | [], [] => select c cs
                      end in
      let reasons := extra_reasons ++ (if disagree trusted then ["trusted_sources_disagree"] else [])
                     ++ selection_changes selected (last_selected s) in
      let epoch := clock_epoch_ s + if existsb (fun r => bool_decide (r ∈ EPOCH_REASONS)) reasons then 1 else 0 in
      let '(state, allowed, more) :=
        judge selected (trusted_source selected && negb (bool_decide ("trusted_sources_disagree" ∈ reasons)))
          (display_source selected) in
      modify (set_selected epoch selected) ;;;
      ret {| TimeTrustSnapshot.state := state;
             TimeTrustSnapshot.selected_source_id := Some (source_id selected);
             TimeTrustSnapshot.selected_origin := Some (origin selected);
             TimeTrustSnapshot.authenticated := authenticated selected;
             TimeTrustSnapshot.uncertainty_ms := Some (uncertainty_ms selected);
             TimeTrustSnapshot.clock_epoch := epoch;
             TimeTrustSnapshot.display_time_allowed := negb (bool_decide (state = TimeTrustState.UNUSABLE));
             TimeTrustSnapshot.security_validity_allowed := allowed;
             TimeTrustSnapshot.remote_freshness_allowed := allowed;
             TimeTrustSnapshot.peer_correlation_allowed := allowed;
             TimeTrustSnapshot.reason_codes := sorted_set (reasons ++ more);
             TimeTrustSnapshot.sources := ordered s |}
  end.

(** The discontinuities of an observation against the one before. *)
Definition discontinuities (previous o : TimeSourceObservation.t) : res (list string) :=
  check (clock_epoch o <? clock_epoch previous) (ValueError "time source clock epoch rollback") >>!
  rbind
    (if bool_decide (continuity_id o = continuity_id previous) then
       let expected := int_truediv (observed_monotonic_ns o - observed_monotonic_ns previous) 1000000 in
       let observed := fsub (utc_ms (observed_utc o)) (utc_ms (observed_utc previous)) in
       check (observed_monotonic_ns o <? observed_monotonic_ns previous)
         (ValueError "time source monotonic rollback") >>!
       Ok (if flt observed (SFopp (disagreement_threshold_ms policy)) then ["utc_rollback_detected"]
           else if flt (disagreement_threshold_ms policy) (fabs (fsub observed expected)) then ["utc_step_detected"]
           else [])
     else Ok ["time_source_continuity_changed"]) (fun reasons =>
  Ok (reasons ++ if Bool.eqb (authenticated o) (authenticated previous) then [] else ["time_authentication_changed"])).

Definition update (o : TimeSourceObservation.t) : M t TimeTrustSnapshot.t :=
  let! s := get in
  let! reasons := lift match dict_get (source_id o) (sources_ s) with
                       | Some previous => discontinuities previous o
                       | None => Ok []
                       end in
  modify (fun s => set_sources (dict_set (source_id o) o (sources_ s)) s) ;;;
  let! snapshot := evaluate reasons in
  modify (set_snapshot snapshot) ;;;
  ret snapshot.

Definition register_fixture (now : datetime) (monotonic_ns : Z) (source_id : string) : M t TimeTrustSnapshot.t :=
  let! o := lift (validate
    (TimeSourceObservation.mk source_id TimeOrigin.FIXTURE false now monotonic_ns f0 f0 None
       (Some "signed-scenario-manifest") "fixture-continuity-v1" 0 f0 (Some true))) in
  update o.
End Manager.
End TrustedTimeManager.
