(* ===== verification/TimeTheorems.v ===== *)
(** What trusted time promises: security validity is granted only to the most
    certain of the qualified and agreeing sources that reported themselves young
    enough, and clock epochs only advance; with two gaps of the code. *)

From Stdlib Require Import ZArith Lia ZifyBool SpecFloat.
From S2P Require Import Prelude Binary64 Models Records TrustedTime.
Import TimeSourceObservation TrustedTimeManager.
Open Scope Z_scope.

(** ** Selection *)
Lemma feq_fle x y : feq x y = true -> fle x y = true.
Proof. unfold feq, fle, SFeqb, SFleb. by destruct (SFcompare x y) as [[]|]. Qed.
Lemma feq_flt x y : feq x y = true -> flt x y = false.
Proof. unfold feq, flt, SFeqb, SFltb. by destruct (SFcompare x y) as [[]|]. Qed.

Definition certain (o : TimeSourceObservation.t) : Prop := is_nan (uncertainty_ms o) = false.

Lemma key_lt_fle x y : key_lt x y = true -> fle (uncertainty_ms x) (uncertainty_ms y) = true.
Proof.
  unfold key_lt. destruct (feq _ _) eqn:E; cbn; [|by apply flt_fle]. intros _. by apply feq_fle.
Qed.
Lemma key_lt_false x y :
  certain x -> certain y -> key_lt x y = false -> fle (uncertainty_ms y) (uncertainty_ms x) = true.
Proof.
  unfold key_lt. intros Hx Hy. destruct (feq _ _) eqn:E; cbn; intros H; apply flt_false_fle; try done.
  by apply feq_flt.
Qed.

(** The selected source is of the pool, and none is more certain. *)
Lemma select_least first pool :
  Forall certain (first :: pool) ->
  select first pool ∈ first :: pool /\
  Forall (fun o => fle (uncertainty_ms (select first pool)) (uncertainty_ms o) = true) (first :: pool).
Proof.
  unfold select. revert first. induction pool as [|o pool IH]; intros first Hc.
  { apply Forall_cons in Hc as [Hc _]. cbn. split; [by left|]. repeat constructor. by apply fle_refl. }
  apply Forall_cons in Hc as [Hf [Ho Hp]%Forall_cons]. cbn [fold_left].
  destruct (key_lt o first) eqn:E.
  - destruct (IH o) as [Hin HF]; [by constructor|]. apply Forall_cons in HF as [H1 HF]. split; [by right|].
    repeat constructor; [|done|done]. eapply fle_trans; [exact H1|by apply key_lt_fle].
  - destruct (IH first) as [Hin HF]; [by constructor|]. apply Forall_cons in HF as [H1 HF].
    split; [apply elem_of_cons in Hin as [->|Hin]; [by left|by right; right]|].
    repeat constructor; [done| |done]. eapply fle_trans; [exact H1|by apply key_lt_false].
Qed.

(** A time in milliseconds is a number. *)
Lemma utc_ms_number d : is_nan (utc_ms d) = false.
Proof.
  assert (Hdiv : is_nan (int_truediv d 1000000) = false).
  { unfold int_truediv. destruct d as [|p|p]; [done|..]; cbn [exact_Z]; unfold SFdiv, SFdiv_core_binary;
      cbn [exact_Z]; match goal with |- context [Z.div_eucl ?a ?b] => set (a0 := a); set (b0 := b) end;
      (assert (Ha : 0 <= a0) by (unfold a0; destruct (_ - _ - _); [lia|by apply Z.shiftl_nonneg|lia]));
      pose proof (Z.div_pos a0 b0 Ha eq_refl) as Hq; unfold Z.div in Hq; destruct (Z.div_eucl a0 b0) as [q r];
      match goal with |- context [binary_round_aux _ _ ?s ?m ?e ?l] =>
        pose proof (binary_round_aux_sign s m e l Hq) as H; by destruct (binary_round_aux _ _ s m e l) end. }
  unfold utc_ms. destruct (int_truediv d 1000000) as [sx|sx| |sx mx ex]; try done.
  unfold fmul. assert (of_Z 1000 = S754_finite false 8796093022208000 (-43)) as -> by (vm_compute; reflexivity).
  cbn [SFmul]. match goal with |- context [binary_round_aux _ _ ?s ?m ?e ?l] =>
    pose proof (binary_round_aux_sign s m e l ltac:(lia)) as H; by destruct (binary_round_aux _ _ s m e l) end.
Qed.

(** The extremes of times that are numbers are among them. *)
Lemma fold_max_extreme x l :
  is_nan x = false -> Forall (fun y => is_nan y = false) l ->
  fold_left py_max l x ∈ x :: l /\ Forall (fun y => fle y (fold_left py_max l x) = true) (x :: l).
Proof.
  intros Hx Hl. revert x Hx. induction Hl as [|y l Hy _ IH]; intros x Hx; cbn [fold_left].
  { split; [by left|]. repeat constructor. by apply fle_refl. }
  assert (Hm : is_nan (py_max x y) = false) by (unfold py_max; by destruct (flt x y)).
  destruct (IH _ Hm) as [Hin [H1 Hall]%Forall_cons]. split.
  - apply elem_of_cons in Hin as [->|Hin]; [unfold py_max; destruct (flt x y); set_solver|set_solver].
  - pose proof (py_max_ge_l x y Hx) as Hge. constructor; [by eapply fle_trans|]. constructor; [|done].
    eapply fle_trans; [|exact H1]. unfold py_max. destruct (flt x y) eqn:E; [by apply fle_refl|by apply flt_false_fle].
Qed.

Lemma fold_min_extreme x l :
  is_nan x = false -> Forall (fun y => is_nan y = false) l ->
  fold_left py_min l x ∈ x :: l /\ Forall (fun y => fle (fold_left py_min l x) y = true) (x :: l).
Proof.
  intros Hx Hl. revert x Hx. induction Hl as [|y l Hy _ IH]; intros x Hx; cbn [fold_left].
  { split; [by left|]. repeat constructor. by apply fle_refl. }
  assert (Hm : is_nan (py_min x y) = false) by (unfold py_min; by destruct (flt y x)).
  destruct (IH _ Hm) as [Hin [H1 Hall]%Forall_cons]. split.
  - apply elem_of_cons in Hin as [->|Hin]; [unfold py_min; destruct (flt y x); set_solver|set_solver].
  - pose proof (py_min_le_l x y Hx) as Hge. constructor; [by eapply fle_trans|]. constructor; [|done].
    eapply fle_trans; [exact H1|]. unfold py_min. destruct (flt y x) eqn:E; [by apply fle_refl|by apply flt_false_fle].
Qed.

Section Time.
Context (policy : TimeTrustPolicy).
Notation update := (update policy).
Notation evaluate := (evaluate policy).

(** ** Executions *)
Inductive op : Type := Update (o : TimeSourceObservation.t) | Evaluate.
Definition exec (o : op) : M t TimeTrustSnapshot.t :=
  match o with Update o => update o | Evaluate => evaluate [] end.
Definition op_valid (o : op) : Prop :=
  match o with Update o => TimeSourceObservation.validate o = Ok o | Evaluate => True end.
Inductive reachable : t -> Prop :=
| Reachable_init : reachable init
| Reachable_step o s r s' : reachable s -> op_valid o -> exec o s = (r, s') -> reachable s'.

(** One valid observation per source. *)
Definition sources_ok (s : t) : Prop :=
  NoDup (sources_ s).*1 /\
  Forall (fun x => source_id x.2 = x.1 /\ certain x.2) (sources_ s).

Lemma valid_certain o : TimeSourceObservation.validate o = Ok o -> certain o.
Proof.
  unfold TimeSourceObservation.validate. intros (u & Hc%check_ok & _)%rbind_ok. unfold certain.
  destruct (fle f0 (uncertainty_ms o)) eqn:E; [exact (proj2 (fle_not_nan _ _ E))|]. lia.
Qed.

Lemma dict_set_elem {K V} `{EqDecision K} (k : K) (v : V) d x : x ∈ dict_set k v d -> x = (k, v) \/ x ∈ d.
Proof.
  induction d as [|[k' v'] d IH]; cbn; [set_solver|]. case_decide; [subst; set_solver|].
  intros [->|Hx]%elem_of_cons; [set_solver|]. apply IH in Hx. set_solver.
Qed.

Lemma evaluate_run extra s r s' :
  evaluate extra s = (r, s') -> sources_ s' = sources_ s /\ clock_epoch_ s <= clock_epoch_ s' <= clock_epoch_ s + 1.
Proof.
  unfold TrustedTimeManager.evaluate, bind, get, modify, ret. destruct (candidates policy s) as [|c cs].
  { intros [= _ <-]. split; [done|lia]. }
  cbv zeta. destruct (judge _ _ _) as [[st al] more]. intros [= _ <-]. cbn. split; [done|]. case_match; lia.
Qed.

Lemma update_run o s r s' :
  update o s = (r, s') ->
  match r with
  | Ok snap => exists reasons s1, match dict_get (source_id o) (sources_ s) with
                          | Some previous => discontinuities policy previous o
                          | None => Ok []
                          end = Ok reasons /\
      evaluate reasons (set_sources (dict_set (source_id o) o (sources_ s)) s) = (Ok snap, s1) /\
      s' = set_snapshot snap s1
  | Raise _ => s' = s
  end.
Proof.
  unfold TrustedTimeManager.update, bind at 1, get at 1, bind at 1, lift at 1.
  destruct (match dict_get _ _ with Some _ => _ | None => _ end) as [reasons|e]; [|by intros [= <- <-]].
  unfold bind at 1, modify at 1. unfold bind at 1. destruct (evaluate reasons _) as [[snap|e] s1] eqn:E.
  - unfold bind, modify, ret. intros [= <- <-]. by exists reasons, s1.
  - exfalso. unfold TrustedTimeManager.evaluate, bind, get, modify, ret in E.
    destruct (candidates policy _); [done|]. cbv zeta in E. by destruct (judge _ _ _) as [[st al] more].
Qed.

Lemma reachable_sources s : reachable s -> sources_ok s.
Proof.
  induction 1 as [|o s r s' _ [IH1 IH2] Hv H]; [by split; constructor|]. destruct o as [o|]; unfold exec in H.
  - apply update_run in H. destruct r as [snap|e]; [|by subst].
    destruct H as (reasons & s1 & _ & He & ->). apply evaluate_run in He as [He _]. unfold sources_ok.
    cbn. rewrite He. cbn. split; [by apply dict_set_NoDup|]. apply Forall_forall.
    intros x [->|Hx]%dict_set_elem; [|by apply (Forall_in _ _ _ IH2)]. cbn. split; [done|]. by apply valid_certain.
  - apply evaluate_run in H as [He _]. unfold sources_ok. by rewrite He.
Qed.

(** ** What a snapshot grants *)
(** The source reported an age within the maximum, is certain enough and of a
    qualified origin. *)
Definition young (o : TimeSourceObservation.t) : Prop := fle (age_ms o) (max_source_age_ms policy) = true.
Definition qualified (o : TimeSourceObservation.t) : Prop :=
  fle (age_ms o) (max_source_age_ms policy) = true /\
  fle (uncertainty_ms o) (max_trusted_uncertainty_ms policy) = true /\
  ((origin o ∈ authenticated_origins policy /\ authenticated o = true) \/ origin o ∈ locally_trusted_origins policy).

Lemma elem_of_candidates s o :
  sources_ok s -> o ∈ candidates policy s <->
  dict_get (source_id o) (sources_ s) = Some o /\ fle (age_ms o) (max_source_age_ms policy) = true.
Proof.
  intros [Hnd HF]. unfold candidates, ordered. rewrite list_elem_of_In, List.filter_In, <- list_elem_of_In, sort_by_perm.
  split; intros [Ho Ha]; (split; [|done]).
  - apply list_elem_of_fmap in Ho as ([k v] & -> & Hin). destruct (Forall_in _ _ _ HF Hin) as [Hk _].
    cbn in *. rewrite Hk. by apply dict_elem_get.
  - apply dict_get_elem in Ho. apply list_elem_of_fmap. by exists (source_id o, o).
Qed.

Lemma candidates_certain s : sources_ok s -> Forall certain (candidates policy s).
Proof.
  intros Hs. apply Forall_forall. intros o [Ho _]%elem_of_candidates; [|done]. apply dict_get_elem in Ho.
  destruct Hs as [_ HF]. apply (Forall_in _ _ _ HF Ho).
Qed.

Lemma trusted_qualified s o :
  sources_ok s ->
  o ∈ List.filter (trusted_source policy) (candidates policy s) <->
  dict_get (source_id o) (sources_ s) = Some o /\ qualified o.
Proof.
  intros Hs. rewrite list_elem_of_In, List.filter_In, <- list_elem_of_In, elem_of_candidates by done.
  unfold trusted_source, qualified. rewrite andb_true_iff, orb_true_iff, andb_true_iff, !bool_decide_eq_true. intuition.
Qed.

Lemma judge_allowed selected trusted display :
  let '(state, allowed, _) := judge selected trusted display in
  (allowed = true <-> state = TimeTrustState.TRUSTED) /\
  (allowed = true -> trusted = true /\ certificate_bootstrap_valid selected <> Some false /\
     (origin selected = TimeOrigin.NTP -> authenticated selected = true)).
Proof.
  unfold judge. destruct trusted, display; cbn;
    destruct (bool_decide (origin selected = _)) eqn:Hn, (authenticated selected);
    cbn; (destruct (bool_decide (certificate_bootstrap_valid selected = _)) eqn:Hc; cbn);
    try (split; [done|]); try done;
    apply bool_decide_eq_false in Hc; try apply bool_decide_eq_false in Hn; intros _; by split_and!.
Qed.

Lemma forall_filter {A} (P : A -> Prop) (p : A -> bool) l : Forall P l -> Forall P (List.filter p l).
Proof. induction 1; cbn; [constructor|]. destruct (p _); [by constructor|done]. Qed.

(** The last observation of a source, where it is qualified. *)
Definition qualifies (s : t) (o : TimeSourceObservation.t) : Prop :=
  dict_get (source_id o) (sources_ s) = Some o /\ qualified o.

(** The earliest and the latest of the qualified times are within the
    threshold. *)
Definition in_agreement (s : t) : Prop :=
  exists lo hi, qualifies s lo /\ qualifies s hi /\
    (forall o, qualifies s o -> fle (utc_ms (observed_utc lo)) (utc_ms (observed_utc o)) = true /\
                              fle (utc_ms (observed_utc o)) (utc_ms (observed_utc hi)) = true) /\
    flt (disagreement_threshold_ms policy) (fsub (utc_ms (observed_utc hi)) (utc_ms (observed_utc lo))) = false.

Lemma agreement s a b :
  sources_ok s -> disagree policy (List.filter (trusted_source policy) (candidates policy s)) = false ->
  qualifies s a -> qualifies s b -> source_id a <> source_id b -> in_agreement s.
Proof.
  intros Hs Hd Ha Hb Hne. pose proof (fun o => trusted_qualified s o Hs) as Hq.
  set (trusted := List.filter (trusted_source policy) (candidates policy s)) in *. fold (qualifies s) in *.
  assert (Hq' : forall o, o ∈ trusted <-> qualifies s o) by exact Hq. clear Hq.
  apply Hq' in Ha, Hb. unfold disagree in Hd. destruct trusted as [|x [|y l]] eqn:E.
  { by apply not_elem_of_nil in Ha. }
  { apply list_elem_of_singleton in Ha, Hb. congruence. }
  cbn [fmap list_fmap] in Hd. set (f := fun o => utc_ms (observed_utc o)) in *.
  change (flt (disagreement_threshold_ms policy)
    (fsub (fold_left py_max (f <$> y :: l) (f x)) (fold_left py_min (f <$> y :: l) (f x))) = false) in Hd.
  assert (Hn : Forall (fun z => is_nan z = false) (f <$> y :: l)).
  { apply Forall_fmap, Forall_forall. intros o _. apply utc_ms_number. }
  destruct (fold_max_extreme (f x) (f <$> y :: l) (utc_ms_number _) Hn) as [Hmax Hle].
  destruct (fold_min_extreme (f x) (f <$> y :: l) (utc_ms_number _) Hn) as [Hmin Hge].
  set (top := fold_left py_max _ _) in *. set (bottom := fold_left py_min _ _) in *.
  change (f x :: (f <$> y :: l)) with (f <$> x :: y :: l) in *.
  apply list_elem_of_fmap in Hmax as (hi & Hhi & Hhin). apply list_elem_of_fmap in Hmin as (lo & Hlo & Hlin).
  exists lo, hi. split; [by apply Hq'|]. split; [by apply Hq'|]. fold (f lo) (f hi).
  rewrite <- Hhi, <- Hlo. split; [|exact Hd]. intros o Ho. apply Hq' in Ho.
  rewrite Forall_fmap in Hle, Hge. split; [exact (Forall_in _ _ _ Hge Ho)|exact (Forall_in _ _ _ Hle Ho)].
Qed.

(** What an evaluation grants. *)
Definition granted (s : t) (snap : TimeTrustSnapshot.t) : Prop :=
  exists selected, TimeTrustSnapshot.selected_source_id snap = Some (source_id selected) /\
    qualifies s selected /\
    certificate_bootstrap_valid selected <> Some false /\
    (origin selected = TimeOrigin.NTP -> authenticated selected = true) /\
    (forall o, qualifies s o -> fle (uncertainty_ms selected) (uncertainty_ms o) = true) /\
    ((exists o, qualifies s o /\ source_id o <> source_id selected) -> in_agreement s).

Lemma evaluate_grants extra s snap s' :
  sources_ok s -> evaluate extra s = (Ok snap, s') ->
  TimeTrustSnapshot.clock_epoch snap = clock_epoch_ s' /\
  TimeTrustSnapshot.remote_freshness_allowed snap = TimeTrustSnapshot.security_validity_allowed snap /\
  TimeTrustSnapshot.peer_correlation_allowed snap = TimeTrustSnapshot.security_validity_allowed snap /\
  (TimeTrustSnapshot.security_validity_allowed snap = true <-> TimeTrustSnapshot.state snap = TimeTrustState.TRUSTED) /\
  (TimeTrustSnapshot.security_validity_allowed snap = true -> granted s snap) /\
  (candidates policy s <> [] -> (exists r, r ∈ extra /\ r ∈ EPOCH_REASONS) -> clock_epoch_ s' = clock_epoch_ s + 1).
Proof.
  intros Hs. pose proof (candidates_certain s Hs) as Hcert. pose proof (trusted_qualified s) as Hq.
  unfold TrustedTimeManager.evaluate, bind, get, modify, ret.
  destruct (candidates policy s) as [|c cs] eqn:Hcand; [intros [= <- <-]; by split_and!|]. cbv zeta.
  set (trusted := List.filter (trusted_source policy) (c :: cs)) in *.
  set (display := List.filter (display_source policy) _).
  set (selected := match trusted with [] => _ | _ => _ end). set (reasons := extra ++ _).
  pose proof (judge_allowed selected
    (trusted_source policy selected && negb (bool_decide ("trusted_sources_disagree" ∈ reasons)))
    (display_source policy selected)) as Hj.
  destruct (judge _ _ _) as [[state allowed] more]. intros [= <- <-]. cbn. destruct Hj as [Hst Hall].
  split_and!; try done.
  - intros Ha. destruct (Hall Ha) as (Ht & Hcb & Hntp). apply andb_true_iff in Ht as [Hts Hd].
    apply negb_true_iff, bool_decide_eq_false in Hd.
    assert (Hct : Forall certain trusted) by by apply forall_filter.
    assert (Hcd : Forall certain display) by by apply forall_filter.
    assert (Hin : selected ∈ trusted).
    { apply list_elem_of_In, List.filter_In. split; [|done]. apply list_elem_of_In.
      assert (Hsub : forall p (l : list TimeSourceObservation.t) o, o ∈ List.filter p l -> o ∈ l).
      { intros p l o. rewrite !list_elem_of_In, List.filter_In. by intros []. }
      unfold selected. destruct trusted as [|t0 tl] eqn:E1; [destruct display as [|d0 dl] eqn:E2|].
      - by apply select_least.
      - eapply (Hsub (display_source policy)). fold display. rewrite E2. by apply select_least.
      - eapply (Hsub (trusted_source policy)). fold trusted. rewrite E1. by apply select_least. }
    exists selected. apply Hq in Hin as Hsel; [|done]. destruct Hsel as [Hget Hqual].
    assert (Hself : qualifies s selected) by by split.
    split_and!; try done.
    + intros o Ho. assert (Hoin : o ∈ trusted) by by apply Hq.
      unfold selected. destruct trusted as [|t0 tl]; [by apply not_elem_of_nil in Hoin|].
      destruct (select_least t0 tl Hct) as [_ HF]. exact (Forall_in _ _ _ HF Hoin).
    + intros (o & Ho & Hne). eapply (agreement s o selected); try done. rewrite Hcand. fold trusted.
      destruct (disagree policy trusted) eqn:E; [|done]. destruct Hd. unfold reasons. rewrite ?E. set_solver.
  - intros _ (r & Hr & Hre). replace (existsb _ reasons) with true; [done|]. symmetry. apply existsb_exists.
    exists r. split; [|by apply bool_decide_eq_true]. apply list_elem_of_In. unfold reasons. set_solver.
Qed.

(** A source's clock never goes back. *)
Definition follows_clock (p q : TimeSourceObservation.t) : Prop :=
  clock_epoch p <= clock_epoch q /\
  (continuity_id p = continuity_id q -> observed_monotonic_ns p <= observed_monotonic_ns q).

Lemma discontinuities_follow p o reasons : discontinuities policy p o = Ok reasons -> follows_clock p o.
Proof.
  unfold discontinuities. intros (u & Hc%check_ok & H)%rbind_ok. split; [lia|]. intros Hid.
  rewrite bool_decide_eq_true_2 in H by done. apply rbind_ok in H as (rs & H & _).
  apply rbind_ok in H as (u' & Hm%check_ok & _). lia.
Qed.

Lemma discontinuities_epoch p o r : forall reasons,
  discontinuities policy p o = Ok reasons -> r ∈ reasons -> r ∈ EPOCH_REASONS.
Proof.
  unfold discontinuities. intros reasons (u & _ & H)%rbind_ok Hr. apply rbind_ok in H as (rs & H & [= <-]).
  assert (Hrs : forall x, x ∈ rs -> x ∈ EPOCH_REASONS).
  { destruct (bool_decide _); [apply rbind_ok in H as (? & _ & H)|]; injection H as <-;
      repeat case_match; unfold EPOCH_REASONS; set_solver. }
  apply elem_of_app in Hr as [Hr|Hr]; [by apply Hrs|]. case_match; unfold EPOCH_REASONS; set_solver.
Qed.

(** An observation breaks the continuity of its source: another continuity or
    authentication, or a UTC that went back by more than the threshold or moved
    by more than the threshold from what the monotonic clock says. *)
Definition breaks (p o : TimeSourceObservation.t) : Prop :=
  let moved := fsub (utc_ms (observed_utc o)) (utc_ms (observed_utc p)) in
  let elapsed := int_truediv (observed_monotonic_ns o - observed_monotonic_ns p) 1000000 in
  continuity_id o <> continuity_id p \/ authenticated o <> authenticated p \/
  flt moved (SFopp (disagreement_threshold_ms policy)) = true \/
  flt (disagreement_threshold_ms policy) (fabs (fsub moved elapsed)) = true.

Lemma breaks_discontinuity p o reasons :
  discontinuities policy p o = Ok reasons -> breaks p o -> exists r, r ∈ reasons.
Proof.
  unfold discontinuities, breaks. cbv zeta. intros (u & _ & H)%rbind_ok. apply rbind_ok in H as (rs & H & [= <-]).
  intros Hb. destruct (decide (continuity_id o = continuity_id p)) as [Hc|Hc].
  2: { rewrite bool_decide_eq_false_2 in H by done. injection H as <-. eexists. apply elem_of_app. left. by left. }
  rewrite bool_decide_eq_true_2 in H by done. apply rbind_ok in H as (u' & _ & [= <-]).
  destruct Hb as [?|[Ha|Hb]]; [done| |].
  - exists "time_authentication_changed". apply elem_of_app. right.
    destruct (Bool.eqb _ _) eqn:E; [by apply Bool.eqb_prop in E|by left].
  - destruct (flt _ (SFopp _)); [eexists; apply elem_of_app; left; by left|]. destruct Hb as [?|Hb]; [done|].
    rewrite Hb. eexists. apply elem_of_app. left. by left.
Qed.

(** C29: After any sequence of observations and evaluations, the next step that
    returns keeps the clock epoch or advances it by one, and advances it when
    the observation breaks the continuity of its source, by its continuity or
    authentication or by a step or rollback of its UTC, and some source has
    reported an age within the maximum; no source's own epoch or monotonic clock
    goes back.  Security validity, remote freshness and peer correlation are
    granted together, exactly in the trusted state, and only on the last
    observation of a source that reported an age within the maximum, is certain
    enough and of a qualified origin, whose certificate is not known to be
    invalid, and which no other qualified source beats in certainty; and where
    there are several qualified sources, the earliest and the latest of their
    times differ by no more than the threshold. *)
Theorem trusted_time_is_earned s o snap s'
    (Hs : reachable s) (Hv : op_valid o) (H : exec o s = (Ok snap, s')) :
  clock_epoch_ s <= clock_epoch_ s' <= clock_epoch_ s + 1 /\ TimeTrustSnapshot.clock_epoch snap = clock_epoch_ s' /\
  (forall id p, dict_get id (sources_ s) = Some p ->
     exists q, dict_get id (sources_ s') = Some q /\ (q = p \/ follows_clock p q)) /\
  (forall x p, o = Update x -> dict_get (source_id x) (sources_ s) = Some p -> breaks p x ->
     (exists y, dict_get (source_id y) (sources_ s') = Some y /\ young y) ->
     clock_epoch_ s' = clock_epoch_ s + 1) /\
  TimeTrustSnapshot.remote_freshness_allowed snap = TimeTrustSnapshot.security_validity_allowed snap /\
  TimeTrustSnapshot.peer_correlation_allowed snap = TimeTrustSnapshot.security_validity_allowed snap /\
  (TimeTrustSnapshot.security_validity_allowed snap = true <-> TimeTrustSnapshot.state snap = TimeTrustState.TRUSTED) /\
  (TimeTrustSnapshot.security_validity_allowed snap = true -> granted s' snap).
Proof.
  assert (Hok' : sources_ok s') by (eapply reachable_sources, Reachable_step; eassumption).
  apply reachable_sources in Hs as Hok. destruct o as [x|]; unfold exec in H.
  - apply update_run in H as (reasons & s1 & Hd & He & ->).
    pose proof (evaluate_run _ _ _ _ He) as [Hsrc Hep]. cbn in Hsrc, Hep.
    assert (Hok1 : sources_ok (set_sources (dict_set (source_id x) x (sources_ s)) s)).
    { unfold sources_ok in *. cbn in Hok' |- *. by rewrite Hsrc in Hok'. }
    destruct (evaluate_grants _ _ _ _ Hok1 He) as (H1 & H2 & H3 & H4 & H5 & H6). cbn in *.
    assert (Hcand : candidates policy (set_snapshot snap s1)
                    = candidates policy (set_sources (dict_set (source_id x) x (sources_ s)) s)).
    { unfold candidates, ordered. cbn. by rewrite Hsrc. }
    split_and!; try done; try lia.
    + intros id p Hp. rewrite Hsrc, dict_get_set. destruct (decide (source_id x = id)) as [<-|Hne]; [|exists p; auto].
      exists x. split; [done|]. right. rewrite Hp in Hd. by eapply discontinuities_follow.
    + intros y p [= <-] Hp Hbr (z & Hz & Hyoung). rewrite Hp in Hd.
      destruct (breaks_discontinuity _ _ _ Hd Hbr) as [r Hr].
      apply H6; [|exists r; split; [done|by eapply discontinuities_epoch]].
      intros Hnil. apply (not_elem_of_nil z). rewrite <- Hnil.
      change (z ∈ candidates policy (set_sources (dict_set (source_id x) x (sources_ s)) s)).
      rewrite <- Hcand. by apply elem_of_candidates.
    + intros Ha. destruct (H5 Ha) as (sel & G). exists sel. unfold in_agreement, qualifies in *.
      unfold set_snapshot. cbn [sources_]. by rewrite Hsrc.
  - pose proof (evaluate_run _ _ _ _ H) as [Hsrc Hep].
    destruct (evaluate_grants _ _ _ _ Hok H) as (H1 & H2 & H3 & H4 & H5 & _).
    split_and!; try done; try lia.
    + intros id p Hp. exists p. rewrite Hsrc. auto.
    + intros Ha. destruct (H5 Ha) as (sel & G). exists sel. unfold in_agreement, qualifies in *. by rewrite Hsrc.
Qed.
End Time.

(** ** The released policy on concrete sources *)
Definition released_policy : TimeTrustPolicy :=
  mkPolicy (of_Z 250) (of_Z 10000) (of_Z 60000) (of_Z 1000) [TimeOrigin.NTS] [TimeOrigin.FIXTURE].
(** A source read at a second, by its own clock and by the monotonic one. *)
Definition reading (id : string) (origin : TimeOrigin.t) (auth : bool) (utc monotonic age : Z)
  : TimeSourceObservation.t :=
  TimeSourceObservation.mk id origin auth (utc * 1000000) (monotonic * 1000000000) (of_Z 10) (of_Z age) (Some 1) None
    "boot-1" 0 f0 (Some true).
Notation after := (fold_left (fun s o => (exec released_policy (Update o) s).2)).
Definition nts (utc monotonic age : Z) : TimeSourceObservation.t := reading "nts" TimeOrigin.NTS true utc monotonic age.

Lemma trusted_time_is_earned_witness : exists snap s',
  exec released_policy (Update (nts 100 100 0)) init = (Ok snap, s') /\
  TimeTrustSnapshot.security_validity_allowed snap = true /\ granted released_policy s' snap.
Proof.
  pose proof (surjective_pairing (exec released_policy (Update (nts 100 100 0)) init)) as H.
  destruct (exec released_policy (Update (nts 100 100 0)) init).1 as [snap|e] eqn:E; [|vm_compute in E; discriminate E].
  eexists snap, _. split; [exact H|].
  assert (Ha : TimeTrustSnapshot.security_validity_allowed snap = true).
  { vm_compute in E. injection E as <-. reflexivity. }
  split; [exact Ha|].
  apply (trusted_time_is_earned released_policy init (Update (nts 100 100 0)) snap _
           (Reachable_init released_policy) ltac:(vm_compute; reflexivity) H). exact Ha.
Defined.

(** ** Gaps *)
(** The age of a source is the one it reported: a source that has not been
    heard for a year still grants security validity. *)
Lemma silent_source_stays_fresh :
  let year := 31536000 in
  let s := after [nts 100 100 0; reading "rtc" TimeOrigin.RTC false (100 + year) (100 + year) 0] init in
  TimeTrustSnapshot.security_validity_allowed (last_snapshot s) = true /\
  TimeTrustSnapshot.selected_source_id (last_snapshot s) = Some "nts".
Proof. vm_compute. split; reflexivity. Qed.

(** A step of the clock that is observed while every source is stale advances
    no epoch: the stepped time is trusted again in the epoch of the old one. *)
Lemma stale_step_is_forgotten :
  let s := after [nts 100 100 0; nts 5000 101 90000; nts 5001 102 0] init in
  clock_epoch_ s = 0 /\ TimeTrustSnapshot.state (last_snapshot s) = TimeTrustState.TRUSTED /\
  clock_epoch_ (after [nts 100 100 0; nts 5000 101 0; nts 5001 102 0] init) = 1.
Proof. vm_compute. by split_and!. Qed.
