(* ===== verification/Identity.v ===== *)
(** Incident identity (incidents/identity.py): which incident a candidate
    belongs to, by source event or by distance in time and space, recorded in
    the journal store.

    The functions of libm ([sin], [cos], [atan2], [pow(x, 2)] and the radians
    of an angle) are parameters; every other operation is the binary64 one.
    [isoformat] and [fixed5] are the texts of a timestamp and of [f"{x:.5f}"],
    [uuid5] is [uuid5(NAMESPACE_URL, name)]; clock readings are arguments. *)

From Stdlib Require Import ZArith.
From S2P Require Import Prelude Binary64 Enums Models Records Journal.
Open Scope Z_scope.

Module IncidentIdentityService.
Import IncidentCandidate.

Section Service.
Context (sin cos radians pow2 : f64 -> f64) (atan2 : f64 -> f64 -> f64).
Context (isoformat : datetime -> string) (fixed5 : f64 -> string) (uuid5 : string -> UUID).
Context (store_sha256 : payload -> string).

Definition distance_m (left_ right_ : IncidentCandidate.t) : f64 :=
  let radius := int_truediv 63710088 10 in
  let lat1 := radians (latitude left_) in
  let lat2 := radians (latitude right_) in
  let dlat := fsub lat2 lat1 in
  let dlon := radians (fsub (longitude right_) (longitude left_)) in
  let two := of_Z 2 in
  let a := fadd (pow2 (sin (fdiv dlat two)))
             (fmul (fmul (cos lat1) (cos lat2)) (pow2 (sin (fdiv dlon two)))) in
  fmul (fmul radius two) (atan2 (fsqrt a) (fsqrt (py_max f0 (fsub f1 a)))).

Definition new_incident_id (candidate : IncidentCandidate.t) : UUID :=
  let source_key :=
    match source_event_id candidate with
    | Some id => if bool_decide (id = "")
                 then isoformat (observed_at candidate) +:+ ":" +:+ fixed5 (latitude candidate) +:+ ":"
                      +:+ fixed5 (longitude candidate)
                 else id
    | None => isoformat (observed_at candidate) +:+ ":" +:+ fixed5 (latitude candidate) +:+ ":"
              +:+ fixed5 (longitude candidate)
    end in
  uuid5 ("sentinel-incident-identity:" +:+ HazardKind.value (hazard candidate) +:+ ":" +:+ source_key).

(** The best prior so far: separation, time difference, prior, incident, reasons. *)
Record best_match : Type := mkMatch {
  separation : f64;
  time_delta : f64;
  prior : IncidentCandidate.t;
  incident_id : UUID;
  reasons : list string
}.

Definition time_between (candidate prior : IncidentCandidate.t) : f64 :=
  fabs (total_seconds (observed_at candidate - observed_at prior)).

(** The two report one event of one source. *)
Definition same_source_event (candidate prior : IncidentCandidate.t) : bool :=
  truthy (source_event_id candidate) && truthy (source_event_id prior)
  && bool_decide (source_id candidate = source_id prior)
  && bool_decide (source_event_id candidate = source_event_id prior).

Definition time_limit (candidate prior : IncidentCandidate.t) : f64 :=
  py_max (temporal_window_seconds candidate) (temporal_window_seconds prior).
Definition spatial_limit (candidate prior : IncidentCandidate.t) : f64 :=
  fadd (py_max (spatial_window_m candidate) (spatial_window_m prior))
    (fadd (horizontal_uncertainty_m candidate) (horizontal_uncertainty_m prior)).

(** [(s, t) < (s', t')] *)
Definition closer (s t : f64) (best : best_match) : bool :=
  if feq s (separation best) then flt t (time_delta best) else flt s (separation best).

(** The loop over the prior candidates of the hazard. *)
Fixpoint search (candidate : IncidentCandidate.t) (priors : list (IncidentCandidate.t * UUID))
    (best : option best_match) : option best_match :=
  match priors with
  | [] => best
  | (prior, incident) :: priors =>
      let dt := time_between candidate prior in
      if same_source_event candidate prior
      then Some (mkMatch f0 dt prior incident ["same_source_event_id"])
      else if flt (time_limit candidate prior) dt then search candidate priors best
      else
        let separation := distance_m candidate prior in
        if flt (spatial_limit candidate prior) separation then search candidate priors best
        else
          let found := mkMatch separation dt prior incident
                         ["temporal_window_match"; "spatial_window_match"; "same_hazard"] in
          search candidate priors
            (match best with
             | None => Some found
             | Some b => if closer separation dt b then Some found else best
             end)
  end.

Definition decide_identity (candidate : IncidentCandidate.t) (priors : list (IncidentCandidate.t * UUID))
    (now : datetime)
  : IncidentIdentityDecision.t :=
  let decision_id := uuid5 ("sentinel-identity-decision:" +:+ candidate_id candidate) in
  match search candidate priors None with
  | None =>
      IncidentIdentityDecision.mk decision_id (candidate_id candidate) (new_incident_id candidate)
        IncidentIdentityOutcome.NEW None None None now ["no_temporal_spatial_duplicate"; "hazard_specific_identity"]
  | Some best =>
      IncidentIdentityDecision.mk decision_id (candidate_id candidate) (incident_id best)
        IncidentIdentityOutcome.DUPLICATE (Some (candidate_id (prior best))) (Some (separation best))
        (Some (time_delta best)) now (reasons best)
  end.

Definition resolve (candidate : IncidentCandidate.t) (now : datetime)
  : M IncidentJournalStore.t IncidentIdentityDecision.t :=
  let! priors := gets (IncidentJournalStore.incident_candidates (Some (hazard candidate))) in
  IncidentJournalStore.record_identity_decision store_sha256 candidate (decide_identity candidate priors now).
End Service.

(** [bind_analysis]: every member of [HazardKind] is supported. *)
Definition bind_analysis (a : AnalysisResult.t) (decision : IncidentIdentityDecision.t) : AnalysisResult.t :=
  AnalysisResult.mk (AnalysisResult.analysis_id a) (AnalysisResult.observation_id a) (AnalysisResult.correlation_id a)
    (AnalysisResult.boot_id a) (AnalysisResult.source_mode a) (AnalysisResult.hazard a) (AnalysisResult.score a)
    (AnalysisResult.state_hint a) (AnalysisResult.features a) (AnalysisResult.coverage a) (AnalysisResult.abstained a)
    (AnalysisResult.reason_codes a) (AnalysisResult.model_profile_id a) (AnalysisResult.source_lineage a)
    (AnalysisResult.config_hashes a) (Some (IncidentIdentityDecision.incident_id decision))
    (AnalysisResult.produced_at a) (AnalysisResult.event_time a).
End IncidentIdentityService.
