(* ===== verification/IdentityTheorems.v ===== *)
(** What incident identity promises: incidents of different hazards are never
    merged, a duplicate joins the incident of a prior candidate that matches
    and is the nearest, and a new incident has no match; with the gaps of the
    derivation. *)

From Stdlib Require Import ZArith Lia ZifyBool SpecFloat.
From S2P Require Import Prelude Binary64 Enums Models Records Journal TrustedTime TimeTheorems Identity.
From S2P Require JournalTheorems.
Import IncidentCandidate IncidentIdentityService.
Open Scope Z_scope.

Notation candidates := IncidentJournalStore.candidates.
Notation decisions := IncidentJournalStore.decisions.
Notation incident_of := IncidentIdentityDecision.incident_id.

Section Identity.
Context (sin cos radians pow2 : f64 -> f64) (atan2 : f64 -> f64 -> f64).
Context (isoformat : datetime -> string) (fixed5 : f64 -> string) (uuid5 : string -> UUID).
Context (store_sha256 : payload -> string).
Notation distance_m := (distance_m sin cos radians pow2 atan2).
Notation search := (search sin cos radians pow2 atan2).
Notation resolve := (resolve sin cos radians pow2 atan2 isoformat fixed5 uuid5 store_sha256).
Notation decide_identity := (decide_identity sin cos radians pow2 atan2 isoformat fixed5 uuid5).
Notation new_incident_id := (new_incident_id isoformat fixed5 uuid5).

(** ** The search *)
(** Inside both windows. *)
Definition near (c p : IncidentCandidate.t) : Prop :=
  flt (time_limit c p) (time_between c p) = false /\ flt (spatial_limit c p) (distance_m c p) = false.
Definition matches (c p : IncidentCandidate.t) : Prop := same_source_event c p = true \/ near c p.

Definition by_event (c : IncidentCandidate.t) (x : IncidentCandidate.t * UUID) : best_match :=
  mkMatch f0 (time_between c x.1) x.1 x.2 ["same_source_event_id"].
Definition by_distance (c : IncidentCandidate.t) (x : IncidentCandidate.t * UUID) : best_match :=
  mkMatch (distance_m c x.1) (time_between c x.1) x.1 x.2
    ["temporal_window_match"; "spatial_window_match"; "same_hazard"].

Lemma closer_fle s t b : closer s t b = true -> fle s (separation b) = true.
Proof. unfold closer. destruct (feq _ _) eqn:E; intros H; [by apply feq_fle|by apply flt_fle]. Qed.
Lemma closer_false s t b :
  is_nan s = false -> is_nan (separation b) = false -> closer s t b = false -> fle (separation b) s = true.
Proof.
  unfold closer. intros Hs Hb. destruct (feq _ _) eqn:E; intros H; apply flt_false_fle; try done. by apply feq_flt.
Qed.

(** The prior a search starts with or finds, and that none is nearer, unless a
    distance is not a number. *)
Definition measurable (c : IncidentCandidate.t) (l : list (IncidentCandidate.t * UUID)) : Prop :=
  Forall (fun x => is_nan (distance_m c x.1) = false) l.

Lemma search_some c l best m :
  search c l best = Some m ->
  (exists x, x ∈ l /\ same_source_event c x.1 = true /\ m = by_event c x) \/
  (Forall (fun x => same_source_event c x.1 = false) l /\
   (best = Some m \/ exists x, x ∈ l /\ near c x.1 /\ m = by_distance c x) /\
   (measurable c l -> (forall b, best = Some b -> is_nan (separation b) = false) ->
    Forall (fun x => near c x.1 -> fle (separation m) (distance_m c x.1) = true) l /\
    (forall b, best = Some b -> fle (separation m) (separation b) = true))).
Proof.
  revert best. induction l as [|[p i] l IH]; intros best; cbn [IncidentIdentityService.search].
  { intros ->. right. split_and!; [constructor|by left|]. intros _ Hb. split; [constructor|].
    intros b [= <-]. apply fle_refl. by apply Hb. }
  destruct (same_source_event c p) eqn:Hev.
  { intros [= <-]. left. exists (p, i). split; [by left|done]. }
  assert (Hskip : (~ near c p) -> search c l best = Some m ->
    (exists x, x ∈ (p, i) :: l /\ same_source_event c x.1 = true /\ m = by_event c x) \/
    (Forall (fun x => same_source_event c x.1 = false) ((p, i) :: l) /\
     (best = Some m \/ exists x, x ∈ (p, i) :: l /\ near c x.1 /\ m = by_distance c x) /\
     (measurable c ((p, i) :: l) -> (forall b, best = Some b -> is_nan (separation b) = false) ->
      Forall (fun x => near c x.1 -> fle (separation m) (distance_m c x.1) = true) ((p, i) :: l) /\
      (forall b, best = Some b -> fle (separation m) (separation b) = true)))).
  { intros Hn Hs. destruct (IH best Hs) as [(x & Hx & H)|(H1 & H2 & H3)].
    - left. exists x. split; [by right|done].
    - right. split_and!; [by constructor| |].
      + destruct H2 as [H2|(x & Hx & H2)]; [by left|right]. exists x. split; [by right|done].
      + intros [_ Hl]%Forall_cons Hb. destruct (H3 Hl Hb) as [H4 H5]. split; [by constructor|done]. }
  destruct (flt (time_limit c p) _) eqn:Ht; [apply Hskip; intros [? ?]; congruence|].
  destruct (flt (spatial_limit c p) _) eqn:Hsp; [apply Hskip; intros [? ?]; congruence|]. clear Hskip.
  assert (Hnear : near c p) by done. fold (by_distance c (p, i)).
  set (best' := match best with None => _ | Some _ => _ end). intros Hs.
  assert (Hbest' : exists b', best' = Some b' /\ (best = Some b' \/ b' = by_distance c (p, i)) /\
    (is_nan (distance_m c p) = false -> (forall b, best = Some b -> is_nan (separation b) = false) ->
     is_nan (separation b') = false /\ fle (separation b') (distance_m c p) = true /\
     forall b, best = Some b -> fle (separation b') (separation b) = true)).
  { unfold best'. destruct best as [b|].
    - destruct (closer _ _ _) eqn:Hcl; eexists; (split; [reflexivity|]).
      + split; [by right|]. intros Hd Hb. split_and!; [done|by apply fle_refl|]. intros ? [= <-]. by eapply closer_fle.
      + split; [by left|]. intros Hd Hb. specialize (Hb b eq_refl).
        split_and!; [done| |intros ? [= <-]; by apply fle_refl]. by eapply closer_false.
    - eexists. split; [reflexivity|]. split; [by right|]. intros Hd _. split_and!; [done|by apply fle_refl|done]. }
  destruct Hbest' as (b' & Hb' & Hor & Hleast). rewrite Hb' in Hs.
  destruct (IH (Some b') Hs) as [(x & Hx & H)|(H1 & H2 & H3)].
  - left. exists x. split; [by right|done].
  - right. split_and!; [by constructor| |].
    + destruct H2 as [[= ->]|(x & Hx & H2)].
      * destruct Hor as [Hor| ->]; [by left|]. right. exists (p, i). split; [by left|done].
      * right. exists x. split; [by right|done].
    + intros [Hd Hl]%Forall_cons Hb. destruct (Hleast Hd Hb) as (Hnan & Hle & Hleb).
      destruct (H3 Hl ltac:(by intros ? [= <-])) as [H4 H5]. specialize (H5 b' eq_refl). split.
      * constructor; [|done]. intros _. by eapply fle_trans.
      * intros b Hbb. eapply fle_trans; [exact H5|by apply Hleb].
Qed.

Lemma search_none c l best : search c l best = None <-> best = None /\ Forall (fun x => ~ matches c x.1) l.
Proof.
  revert best. induction l as [|[p i] l IH]; intros best; cbn [IncidentIdentityService.search].
  { split; [by intros ->|by intros [-> _]]. }
  unfold matches, near. destruct (same_source_event c p) eqn:Hev.
  { split; [done|]. intros [_ [H _]%Forall_cons]. destruct H. by left. }
  destruct (flt (time_limit c p) _) eqn:Ht; [rewrite IH, Forall_cons; cbn; rewrite Hev, Ht; intuition congruence|].
  destruct (flt (spatial_limit c p) _) eqn:Hs; [rewrite IH, Forall_cons; cbn; rewrite Hev, Hs; intuition congruence|].
  rewrite IH, Forall_cons. cbn. split.
  - intros [H _]. destruct best as [b|]; [|done]. destruct (closer _ _ _); done.
  - intros [_ [H _]]. destruct H. by right.
Qed.

(** ** Executions *)
(** The service is the only writer of candidates and decisions; the rest of
    the store may change in any way. *)
Inductive reachable : IncidentJournalStore.t -> Prop :=
| Reachable_init : reachable IncidentJournalStore.init
| Reachable_resolve s c now r s' : reachable s -> resolve c now s = (r, s') -> reachable s'
| Reachable_other s s' : reachable s -> candidates s' = candidates s -> decisions s' = decisions s -> reachable s'.

Notation priors c s := (IncidentJournalStore.incident_candidates (Some (hazard c)) s).
Definition decided (c : IncidentCandidate.t) (s : IncidentJournalStore.t) : bool :=
  existsb (fun d => bool_decide (IncidentIdentityDecision.candidate_id d = candidate_id c)) (decisions s).

Lemma elem_of_priors c s x : x ∈ priors c s <-> x ∈ candidates s /\ hazard x.1 = hazard c.
Proof.
  unfold IncidentJournalStore.incident_candidates, order_by, select. rewrite sort_by_perm.
  rewrite list_elem_of_In, List.filter_In, <- list_elem_of_In. cbn. by rewrite bool_decide_eq_true.
Qed.

Lemma resolve_run c now s r s' :
  resolve c now s = (r, s') ->
  match r with
  | Raise _ => s' = s
  | Ok d =>
      if decided c s then s' = s /\ d ∈ decisions s
      else d = decide_identity c (priors c s) now /\ candidates s' = candidates s ++ [(c, incident_of d)] /\
           decisions s' = decisions s ++ [d]
  end.
Proof.
  unfold IncidentIdentityService.resolve, bind at 1, gets at 1. set (d := decide_identity _ _ _).
  unfold IncidentJournalStore.record_identity_decision, transaction, IncidentJournalStore.record_once.
  unfold bind at 1, get at 1. unfold decided, select_one. destruct (List.find _ _) as [old|] eqn:Hf.
  - apply List.find_some in Hf as [Hin Hid].
    replace (existsb _ (decisions s)) with true by (symmetry; apply existsb_exists; by exists old).
    unfold bind. destruct (raise_if _ _ s) as [[u|e] s1] eqn:Hr.
    + apply raise_if_ok in Hr as [_ ->]. unfold ret. intros [= <- <-]. split; [done|by apply list_elem_of_In].
    + intros [= <- <-]. done.
  - replace (existsb _ (decisions s)) with false.
    2: { symmetry. apply not_true_iff_false. intros (x & Hx & Hxc)%existsb_exists.
         apply (List.find_none _ _ Hf) in Hx. congruence. }
    unfold bind. destruct (IncidentJournalStore.insert "incident_candidates" _ _ _ _ s) as [[u|e] s1] eqn:H1.
    2: { intros [= <- <-]. done. }
    destruct (IncidentJournalStore.insert "incident_identity_decisions" _ _ _ _ s1) as [[u2|e] s2] eqn:H2.
    2: { intros [= <- <-]. done. }
    apply JournalTheorems.insert_ok in H1 as [-> _]. apply JournalTheorems.insert_ok in H2 as [-> _].
    unfold ret. intros [= <- <-]. by split_and!.
Qed.

(** Every incident began as the new incident of a candidate of its hazard. *)
Definition founded (s : IncidentJournalStore.t) : Prop :=
  forall x, x ∈ candidates s -> exists y, y ∈ candidates s /\ hazard y.1 = hazard x.1 /\ x.2 = new_incident_id y.1.

Lemma decide_incident c l now :
  (exists x, x ∈ l /\ incident_of (decide_identity c l now) = x.2) \/
  incident_of (decide_identity c l now) = new_incident_id c.
Proof.
  unfold IncidentIdentityService.decide_identity. destruct (search c l None) as [m|] eqn:Hs; [left|by right]. cbn.
  assert (Hin : forall l best, search c l best = Some m -> (exists x, x ∈ l /\ incident_id m = x.2) \/ best = Some m).
  { clear. induction l as [|[p i] l IH]; intros best; cbn [IncidentIdentityService.search]; [by right|].
    destruct (same_source_event c p); [intros [= <-]; left; exists (p, i); split; [by left|done]|].
    assert (Hw : forall b, search c l b = Some m -> (b = best \/ exists b', b = Some b' /\ incident_id b' = i) ->
      (exists x, x ∈ (p, i) :: l /\ incident_id m = x.2) \/ best = Some m).
    { intros b Hb Hor. apply IH in Hb as [(x & Hx & Hi)|Hb]; [left; exists x; split; [by right|done]|].
      destruct Hor as [->|(b' & -> & Hi)]; [by right|]. injection Hb as ->. left. exists (p, i). split; [by left|done]. }
    destruct (flt _ _); [intros H; apply (Hw _ H); by left|].
    destruct (flt _ _); [intros H; apply (Hw _ H); by left|]. intros H. apply (Hw _ H).
    destruct best as [b|]; [destruct (closer _ _ _); [right|by left]|right]; by eexists. }
  destruct (Hin _ _ Hs) as [H|H]; [done|done].
Qed.

Lemma reachable_founded s : reachable s -> founded s.
Proof.
  induction 1 as [|s c now r s' _ IH H|s s' _ IH Hc _]; [by intros x Hx%not_elem_of_nil| |unfold founded; by rewrite Hc].
  apply resolve_run in H. destruct r as [d|e]; [|by subst]. destruct (decided c s); [by destruct H as [-> _]|].
  destruct H as (-> & Hc & _). unfold founded. rewrite Hc. intros x [Hx|Hx]%elem_of_app.
  - destruct (IH x Hx) as (y & Hy & H). exists y. split; [|done]. apply elem_of_app. by left.
  - apply list_elem_of_singleton in Hx as ->. cbn. destruct (decide_incident c (priors c s) now) as [(x & Hx & ->)| ->].
    + apply elem_of_priors in Hx as [Hx Hh]. destruct (IH x Hx) as (y & Hy & Hyh & Hyi). exists y.
      split; [apply elem_of_app; by left|]. split; [congruence|done].
    + exists (c, new_incident_id c). split; [|done]. apply elem_of_app. right. by left.
Qed.

(** What the identifier of a new incident is the name-based UUID of. *)
Definition new_name (c : IncidentCandidate.t) : string :=
  "sentinel-incident-identity:" +:+ HazardKind.value (hazard c) +:+ ":" +:+
  match source_event_id c with
  | Some id => if bool_decide (id = "") then isoformat (observed_at c) +:+ ":" +:+ fixed5 (latitude c) +:+ ":"
                 +:+ fixed5 (longitude c) else id
  | None => isoformat (observed_at c) +:+ ":" +:+ fixed5 (latitude c) +:+ ":" +:+ fixed5 (longitude c)
  end.

(** Names of different hazards differ. *)
Lemma new_name_hazard c p : new_name c = new_name p -> hazard c = hazard p.
Proof. intros H. destruct (hazard c) eqn:Hc, (hazard p) eqn:Hp; try done; exfalso; unfold new_name in H; rewrite Hc, Hp in H; discriminate H. Qed.

(** Two recorded candidates whose names are different and have one UUID. *)
Definition name_collision (s : IncidentJournalStore.t) : Prop :=
  exists x y, x ∈ candidates s /\ y ∈ candidates s /\ new_name x.1 <> new_name y.1 /\
    uuid5 (new_name x.1) = uuid5 (new_name y.1).

(** C21: However candidates have been resolved, two candidates that belong to
    one incident report the same hazard, unless the names of two recorded
    candidates, which are exhibited, are different and have one UUID.
    Resolving a candidate that was decided before changes nothing.  A new one
    is recorded with its decision.  It is decided new exactly when no recorded
    candidate of its hazard reports the same source event or lies inside both
    windows, and then gets the identifier derived from its own report, which
    may be that of an incident another source has founded.  Otherwise it joins
    the incident of one that does: of the same source event if there is any,
    and else, where every distance is a number, of one at the least distance. *)
Theorem identity_never_merges_hazards s c now d s'
    (Hs : reachable s) (H : resolve c now s = (Ok d, s')) :
  (name_collision s' \/
   forall x y, x ∈ candidates s' -> y ∈ candidates s' -> x.2 = y.2 -> hazard x.1 = hazard y.1) /\
  (if decided c s then s' = s else
   candidates s' = candidates s ++ [(c, incident_of d)] /\ d ∈ decisions s' /\
   (IncidentIdentityDecision.outcome d = IncidentIdentityOutcome.NEW <->
    forall x, x ∈ candidates s -> hazard x.1 = hazard c -> ~ matches c x.1) /\
   (IncidentIdentityDecision.outcome d = IncidentIdentityOutcome.NEW -> incident_of d = uuid5 (new_name c)) /\
   (IncidentIdentityDecision.outcome d = IncidentIdentityOutcome.DUPLICATE ->
    exists x, x ∈ candidates s /\ hazard x.1 = hazard c /\ incident_of d = x.2 /\
      IncidentIdentityDecision.matched_candidate_id d = Some (candidate_id x.1) /\
      (same_source_event c x.1 = true \/
       near c x.1 /\ forall y, y ∈ candidates s -> hazard y.1 = hazard c ->
         same_source_event c y.1 = false /\
         (measurable c (priors c s) -> near c y.1 -> fle (distance_m c x.1) (distance_m c y.1) = true)))).
Proof.
  assert (Hs' : reachable s') by by eapply Reachable_resolve.
  split.
  { destruct (decide (Exists (fun x => Exists (fun y => new_name x.1 <> new_name y.1 /\
      uuid5 (new_name x.1) = uuid5 (new_name y.1)) (candidates s')) (candidates s'))) as [Hc|Hc].
    { left. apply Exists_exists in Hc as (x & Hx & (y & Hy & ?)%Exists_exists). by exists x, y. }
    right. intros x y Hx Hy Heq. destruct (reachable_founded s' Hs' x Hx) as (x0 & Hx0 & <- & Hxi).
    destruct (reachable_founded s' Hs' y Hy) as (y0 & Hy0 & <- & Hyi). apply new_name_hazard.
    destruct (decide (new_name x0.1 = new_name y0.1)) as [|Hne]; [done|]. destruct Hc.
    apply Exists_exists. exists x0. split; [done|]. apply Exists_exists. exists y0. split; [done|]. split; [done|].
    change (new_incident_id x0.1 = new_incident_id y0.1). congruence. }
  apply resolve_run in H. destruct (decided c s); [by destruct H|]. destruct H as (Hd & Hc & Hds).
  split; [done|]. split; [rewrite Hds; apply elem_of_app; right; by left|].
  unfold IncidentIdentityService.decide_identity in Hd. destruct (search c (priors c s) None) as [m|] eqn:Hm;
    subst d; cbn.
  - apply search_some in Hm. split; [|split; [done|]].
    + split; [done|]. intros Hno. exfalso. destruct Hm as [(x & Hx & He & _)|(_ & [Hm|(x & Hx & Hn & _)] & _)]; [|done|];
        apply elem_of_priors in Hx as [Hx Hh]; apply (Hno x Hx Hh); [by left|by right].
    + intros _. destruct Hm as [(x & Hx & He & ->)|(Hev & [Hm|(x & Hx & Hn & ->)] & Hle)]; [|done|];
        apply elem_of_priors in Hx as [Hx Hh]; exists x; split_and!; try done; [by left|right].
      split; [done|]. intros y Hy Hyh. assert (Hyp : y ∈ priors c s) by by apply elem_of_priors.
      split; [exact (Forall_in _ _ _ Hev Hyp)|]. intros Hnum.
      exact (Forall_in _ _ _ (proj1 (Hle Hnum ltac:(done))) Hyp).
  - apply search_none in Hm as [_ Hm]. split; [|by split]. split; [|done]. intros _ x Hx Hh.
    apply (Forall_in _ _ _ Hm). by apply elem_of_priors.
Qed.
End Identity.

(** ** Concrete candidates *)
Notation text := (fun s : string => s).
Notation constant x := (fun _ => x).
(** Every pair of candidates is [far] radii apart. *)
Notation ex_resolve far := (resolve (constant f0) (constant f0) (constant f0) (constant f0) (fun _ _ => far)
  (fun d => pretty d) (constant "0.00000") text (constant "")).
Notation ex_reachable far := (reachable (constant f0) (constant f0) (constant f0) (constant f0) (fun _ _ => far)
  (fun d => pretty d) (constant "0.00000") text (constant "")).
Definition candidate_of (kind : HazardKind.t) (id source event : string) : IncidentCandidate.t :=
  IncidentCandidate.mk id kind 0 f0 f0 f0 (of_Z 300) (of_Z 1000) source (Some event).
Definition candidate : string -> string -> string -> IncidentCandidate.t := candidate_of HazardKind.EARTHQUAKE.

(** A landslide and an earthquake are known when another network reports the
    earthquake. *)
Definition ex_known : IncidentJournalStore.t :=
  (ex_resolve f0 (candidate "c1" "usgs" "e1") 2
     (ex_resolve f0 (candidate_of HazardKind.LANDSLIDE "c0" "usgs" "e1") 1 IncidentJournalStore.init).2).2.

Lemma ex_known_reachable : ex_reachable f0 ex_known.
Proof.
  unfold ex_known. destruct (ex_resolve f0 (candidate_of HazardKind.LANDSLIDE "c0" "usgs" "e1") 1 _) as [r0 s0] eqn:E0.
  cbn [snd]. destruct (ex_resolve f0 (candidate "c1" "usgs" "e1") 2 s0) as [r1 s1] eqn:E1. cbn [snd].
  eapply Reachable_resolve; [|exact E1]. eapply Reachable_resolve; [apply Reachable_init|exact E0].
Qed.

Lemma identity_never_merges_hazards_witness : exists d s',
  ex_resolve f0 (candidate "c2" "ingv" "77") 3 ex_known = (Ok d, s') /\
  candidates s' = candidates ex_known ++ [(candidate "c2" "ingv" "77", incident_of d)] /\
  IncidentIdentityDecision.outcome d = IncidentIdentityOutcome.DUPLICATE /\
  IncidentIdentityDecision.matched_candidate_id d = Some "c1" /\
  forall x y, x ∈ candidates s' -> y ∈ candidates s' -> x.2 = y.2 -> hazard x.1 = hazard y.1.
Proof.
  destruct (ex_resolve f0 (candidate "c2" "ingv" "77") 3 ex_known) as [[d|e] s'] eqn:E;
    [|vm_compute in E; discriminate E].
  exists d, s'. split; [reflexivity|].
  destruct (identity_never_merges_hazards (constant f0) (constant f0) (constant f0) (constant f0)
    (fun _ _ => f0) (fun d => pretty d) (constant "0.00000") text (constant "") ex_known
    (candidate "c2" "ingv" "77") 3 d s' ex_known_reachable E) as [[Hc|Hh] Hrest].
  { destruct Hc as (x & y & _ & _ & Hne & Heq). destruct (Hne Heq). }
  split; [exact (proj1 Hrest)|]. split; [vm_compute in E; injection E as <- _; reflexivity|].
  split; [vm_compute in E; injection E as <- _; reflexivity|exact Hh].
Defined.

(** ** Gaps *)
(** The name of a new incident holds the source's event but not the source:
    two sources that number their events alike, half the globe apart, found
    one and the same incident, both as new. *)
Lemma sources_share_event_numbers :
  let first := ex_resolve f1 (candidate "c1" "usgs" "1") 1 IncidentJournalStore.init in
  let second := ex_resolve f1 (candidate "c2" "ingv" "1") 2 first.2 in
  match first.1, second.1 with
  | Ok d, Ok d' =>
      IncidentIdentityDecision.outcome d = IncidentIdentityOutcome.NEW /\
      IncidentIdentityDecision.outcome d' = IncidentIdentityOutcome.NEW /\ incident_of d = incident_of d'
  | _, _ => False
  end.
Proof. vm_compute. by split_and!. Qed.

(** A candidate that is resolved again matches itself, the decision differs
    from the recorded one, and the store raises a conflict. *)
Lemma resolving_again_conflicts :
  let sha p := match p with
               | PDecision d => IncidentIdentityOutcome.value (IncidentIdentityDecision.outcome d)
               | _ => ""
               end in
  let resolve := IncidentIdentityService.resolve (constant f0) (constant f0) (constant f0) (constant f0) (fun _ _ => f0)
                   (fun d => pretty d) (constant "0.00000") text sha in
  let c := candidate "c1" "usgs" "1" in
  (resolve c 1 (resolve c 1 IncidentJournalStore.init).2).1
  = Raise (ValueError "incident identity decision conflict").
Proof. vm_compute. reflexivity. Qed.
