(* ===== verification/ProtectedState.v ===== *)
(** Protected local state (security/protected_state.py): the access grants of a
    client, the cache and the queued commands held under them, and the purge
    that follows a revocation.

    [sha256] is the hexadecimal digest of a string of bytes, [uuid5] is
    [uuid5(NAMESPACE_URL, name)] and [isoformat] the text of a timestamp; clock
    readings are arguments.  A row whose [payload_json] is the dump of a model
    holds that model, and the column [state] of a grant is kept beside it. *)

From Stdlib Require Import ZArith.
From S2P Require Import Prelude Binary64 Models Records CanonicalJson.
Open Scope Z_scope.

Module GrantState.
Inductive t : Type := ACTIVE | RETIRED | REVOKED_POLICY | SUSPECTED_COMPROMISE | COMPROMISED | EXPIRED.
#[global] Instance eq_dec : EqDecision t.
Proof. solve_decision. Defined.
Definition value (x : t) : string :=
  match x with
  | ACTIVE => "active" | RETIRED => "retired" | REVOKED_POLICY => "revoked_policy"
  | SUSPECTED_COMPROMISE => "suspected_compromise" | COMPROMISED => "compromised" | EXPIRED => "expired"
  end.
End GrantState.

Module GrantLifecycleAction.
Inductive t : Type :=
  | ACTIVATE | LOGOUT | DEVICE_REVOCATION | RETENTION_EXPIRY | PLANNED_RETIREMENT | POLICY_REVOCATION
  | SUSPECT_COMPROMISE | CONFIRM_COMPROMISE.
#[global] Instance eq_dec : EqDecision t.
Proof. solve_decision. Defined.
Definition value (x : t) : string :=
  match x with
  | ACTIVATE => "activate" | LOGOUT => "logout" | DEVICE_REVOCATION => "device_revocation"
  | RETENTION_EXPIRY => "retention_expiry" | PLANNED_RETIREMENT => "planned_retirement"
  | POLICY_REVOCATION => "policy_revocation" | SUSPECT_COMPROMISE => "suspect_compromise"
  | CONFIRM_COMPROMISE => "confirm_compromise"
  end.
End GrantLifecycleAction.

Definition ACTION_STATE (a : GrantLifecycleAction.t) : GrantState.t :=
  match a with
  | GrantLifecycleAction.ACTIVATE => GrantState.ACTIVE
  | GrantLifecycleAction.LOGOUT => GrantState.REVOKED_POLICY
  | GrantLifecycleAction.DEVICE_REVOCATION => GrantState.REVOKED_POLICY
  | GrantLifecycleAction.RETENTION_EXPIRY => GrantState.EXPIRED
  | GrantLifecycleAction.PLANNED_RETIREMENT => GrantState.RETIRED
  | GrantLifecycleAction.POLICY_REVOCATION => GrantState.REVOKED_POLICY
  | GrantLifecycleAction.SUSPECT_COMPROMISE => GrantState.SUSPECTED_COMPROMISE
  | GrantLifecycleAction.CONFIRM_COMPROMISE => GrantState.COMPROMISED
  end.

Module LocalAccessGrant.
Record t : Type := mk {
  grant_id : UUID;
  principal_id : string;
  session_epoch : Z;
  device_trust_epoch : Z;
  scope : list string;
  issued_at : datetime;
  expires_at : datetime;
  state : GrantState.t
}.
Definition set_state (v : GrantState.t) (g : t) : t :=
  mk (grant_id g) (principal_id g) (session_epoch g) (device_trust_epoch g) (scope g) (issued_at g)
    (expires_at g) v.
Definition validate (g : t) : res t :=
  check (blank (principal_id g)) (ValidationError "grant principal_id must not be blank") >>!
  check ((session_epoch g <? 0) || (device_trust_epoch g <? 0)) (ValidationError "epoch must be >= 0") >>!
  check (expires_at g <=? issued_at g) (ValidationError "grant expiry must follow issue time") >>!
  check (bool_decide (scope g = [])) (ValidationError "grant requires at least one scope") >>!
  Ok g.
End LocalAccessGrant.

Module ProtectedStatePurgeReceipt.
Record t : Type := mk {
  receipt_id : UUID;
  grant_id : UUID;
  action : GrantLifecycleAction.t;
  resulting_state : GrantState.t;
  principal_id : string;
  purged_cache_entries : Z;
  purged_queued_authority : Z;
  purged_payload_sha256 : list string;
  actor : string;
  reason : string;
  created_at : datetime;
  receipt_sha256 : string
}.
End ProtectedStatePurgeReceipt.

(** ** The store *)
Module ProtectedLocalStateStore.

(** A row of each table. *)
Record grant_row : Type := mkGrantRow {
  grant : LocalAccessGrant.t;
  row_state : GrantState.t
}.
Record event_row : Type := mkEventRow {
  event_id : UUID;
  event_grant_id : UUID;
  event_action : GrantLifecycleAction.t;
  resulting_state : GrantState.t;
  event_created_at : datetime;
  event_payload : json
}.
Record cache_row : Type := mkCacheRow {
  cache_id : UUID;
  cache_grant_id : UUID;
  key_sha256 : string;
  cache_payload_sha256 : string;
  cache_payload : string;
  retention_expires_at : datetime;
  cache_created_at : datetime
}.
Record queue_row : Type := mkQueueRow {
  queue_id : UUID;
  queue_grant_id : UUID;
  queue_payload_sha256 : string;
  queue_payload : json;
  queue_created_at : datetime
}.
Record t : Type := mk {
  local_access_grants : list grant_row;
  grant_lifecycle_events : list event_row;
  protected_cache_entries : list cache_row;
  queued_authority : list queue_row;
  purge_receipts : list ProtectedStatePurgeReceipt.t
}.
Definition set_grants v (s : t) : t :=
  mk v (grant_lifecycle_events s) (protected_cache_entries s) (queued_authority s) (purge_receipts s).
Definition set_events v (s : t) : t :=
  mk (local_access_grants s) v (protected_cache_entries s) (queued_authority s) (purge_receipts s).
Definition set_cache v (s : t) : t :=
  mk (local_access_grants s) (grant_lifecycle_events s) v (queued_authority s) (purge_receipts s).
Definition set_queue v (s : t) : t :=
  mk (local_access_grants s) (grant_lifecycle_events s) (protected_cache_entries s) v (purge_receipts s).
Definition set_receipts v (s : t) : t :=
  mk (local_access_grants s) (grant_lifecycle_events s) (protected_cache_entries s) (queued_authority s) v.
Definition init : t := mk [] [] [] [] [].

Definition row_id (r : grant_row) : UUID := LocalAccessGrant.grant_id (grant r).
Definition find_grant (grant_id : UUID) (s : t) : option grant_row :=
  select_one (fun r => bool_decide (row_id r = grant_id)) (local_access_grants s).
Definition of_row (r : grant_row) : LocalAccessGrant.t := LocalAccessGrant.set_state (row_state r) (grant r).

(** [_load] *)
Definition load (grant_id : UUID) (s : t) : res LocalAccessGrant.t :=
  match find_grant grant_id s with
  | None => Raise (KeyError grant_id)
  | Some r => Ok (of_row r)
  end.

Section Store.
Context (float_repr : f64 -> string) (sha256 : string -> string) (uuid5 : string -> UUID).
Context (isoformat : datetime -> string).

Definition event_json (g : LocalAccessGrant.t) (action : GrantLifecycleAction.t) (actor reason : string)
    (at_ : datetime) : json :=
  JDict [("grant_id", JStr (LocalAccessGrant.grant_id g));
         ("principal_id", JStr (LocalAccessGrant.principal_id g));
         ("action", JStr (GrantLifecycleAction.value action));
         ("resulting_state", JStr (GrantState.value (ACTION_STATE action)));
         ("actor", JStr actor);
         ("reason", JStr reason);
         ("created_at", JStr (isoformat at_))].

(** [_record_event] *)
Definition record_event (g : LocalAccessGrant.t) (action : GrantLifecycleAction.t) (actor reason : string)
    (at_ : datetime) : M t unit :=
  let payload := event_json g action actor reason at_ in
  let event_id := uuid5 ("sentinel-grant-event:" +:+ sha256 (canonical_json_bytes float_repr payload)) in
  let row := mkEventRow event_id (LocalAccessGrant.grant_id g) action (ACTION_STATE action) at_ payload in
  modify (fun s =>
    if existsb (same_key ProtectedLocalStateStore.event_id row) (grant_lifecycle_events s) then s
    else set_events (grant_lifecycle_events s ++ [row]) s).

Definition seed (principal : PrincipalRef.t) (scope : list string) (issued_at expires_at : datetime) : json :=
  JDict [("principal_id", JStr (PrincipalRef.principal_id principal));
         ("session_epoch", JInt (PrincipalRef.session_epoch principal));
         ("device_trust_epoch", JInt (PrincipalRef.device_trust_epoch principal));
         ("scope", JList (JStr <$> sorted_strings scope));
         ("issued_at", JStr (isoformat issued_at));
         ("expires_at", JStr (isoformat expires_at))].

Definition create_grant (principal : PrincipalRef.t) (scope : list string) (expires_at issued_at : datetime)
  : M t LocalAccessGrant.t :=
  let grant_id := uuid5 ("sentinel-local-grant:"
    +:+ sha256 (canonical_json_bytes float_repr (seed principal scope issued_at expires_at))) in
  let! g := lift (LocalAccessGrant.validate
    {| LocalAccessGrant.grant_id := grant_id;
       LocalAccessGrant.principal_id := PrincipalRef.principal_id principal;
       LocalAccessGrant.session_epoch := PrincipalRef.session_epoch principal;
       LocalAccessGrant.device_trust_epoch := PrincipalRef.device_trust_epoch principal;
       LocalAccessGrant.scope := sorted_set scope;
       LocalAccessGrant.issued_at := issued_at;
       LocalAccessGrant.expires_at := expires_at;
       LocalAccessGrant.state := GrantState.ACTIVE |}) in
  transaction (
    let! s := get in
    match find_grant grant_id s with
    | Some row => ret (grant row)
    | None =>
        raise_if (negb (sqlite_integer (LocalAccessGrant.session_epoch g)
                        && sqlite_integer (LocalAccessGrant.device_trust_epoch g)))
          (OtherError "OverflowError") ;;;
        put (set_grants (local_access_grants s ++ [mkGrantRow g (LocalAccessGrant.state g)]) s) ;;;
        record_event g GrantLifecycleAction.ACTIVATE (PrincipalRef.principal_id principal) "grant_issued"
          issued_at ;;;
        ret g
    end).

(** ** Revocation *)
Definition cache_of (grant_id : UUID) (s : t) : list cache_row :=
  sort_by (fun x y => String.leb (cache_id x) (cache_id y))
    (select (fun r => bool_decide (cache_grant_id r = grant_id)) (protected_cache_entries s)).
Definition queue_of (grant_id : UUID) (s : t) : list queue_row :=
  sort_by (fun x y => String.leb (queue_id x) (queue_id y))
    (select (fun r => bool_decide (queue_grant_id r = grant_id)) (queued_authority s)).

Definition update_state (grant_id : UUID) (state : GrantState.t) (rows : list grant_row) : list grant_row :=
  (fun r => if bool_decide (row_id r = grant_id) then mkGrantRow (grant r) state else r) <$> rows.

Definition receipt_json (g : LocalAccessGrant.t) (action : GrantLifecycleAction.t) (cache queue : nat)
    (digests : list string) (actor reason : string) (now : datetime) : json :=
  JDict [("grant_id", JStr (LocalAccessGrant.grant_id g));
         ("action", JStr (GrantLifecycleAction.value action));
         ("resulting_state", JStr (GrantState.value (ACTION_STATE action)));
         ("principal_id", JStr (LocalAccessGrant.principal_id g));
         ("purged_cache_entries", JInt (Z.of_nat cache));
         ("purged_queued_authority", JInt (Z.of_nat queue));
         ("purged_payload_sha256", JList (JStr <$> digests));
         ("actor", JStr actor);
         ("reason", JStr reason);
         ("created_at", JStr (isoformat now))].

Definition revoke_locked (grant_id : UUID) (action : GrantLifecycleAction.t) (actor reason : string)
    (now : datetime) : M t ProtectedStatePurgeReceipt.t :=
  let! s := get in
  let! g := lift (load grant_id s) in
  let id := LocalAccessGrant.grant_id g in
  let cache_rows := cache_of id s in
  let queue_rows := queue_of id s in
  let payload_digests :=
    sorted_set ((cache_payload_sha256 <$> cache_rows) ++ (queue_payload_sha256 <$> queue_rows)) in
  modify (fun s => set_cache
    (select (fun r => negb (bool_decide (cache_grant_id r = id))) (protected_cache_entries s)) s) ;;;
  modify (fun s => set_queue
    (select (fun r => negb (bool_decide (queue_grant_id r = id))) (queued_authority s)) s) ;;;
  modify (fun s => set_grants (update_state id (ACTION_STATE action) (local_access_grants s)) s) ;;;
  record_event g action actor reason now ;;;
  let receipt_sha := sha256 (canonical_json_bytes float_repr
    (receipt_json g action (length cache_rows) (length queue_rows) payload_digests actor reason now)) in
  let receipt :=
    {| ProtectedStatePurgeReceipt.receipt_id := uuid5 ("sentinel-protected-purge:" +:+ receipt_sha);
       ProtectedStatePurgeReceipt.grant_id := id;
       ProtectedStatePurgeReceipt.action := action;
       ProtectedStatePurgeReceipt.resulting_state := ACTION_STATE action;
       ProtectedStatePurgeReceipt.principal_id := LocalAccessGrant.principal_id g;
       ProtectedStatePurgeReceipt.purged_cache_entries := Z.of_nat (length cache_rows);
       ProtectedStatePurgeReceipt.purged_queued_authority := Z.of_nat (length queue_rows);
       ProtectedStatePurgeReceipt.purged_payload_sha256 := payload_digests;
       ProtectedStatePurgeReceipt.actor := actor;
       ProtectedStatePurgeReceipt.reason := reason;
       ProtectedStatePurgeReceipt.created_at := now;
       ProtectedStatePurgeReceipt.receipt_sha256 := receipt_sha |} in
  modify (fun s =>
    if existsb (same_key ProtectedStatePurgeReceipt.receipt_id receipt) (purge_receipts s) then s
    else set_receipts (purge_receipts s ++ [receipt]) s) ;;;
  ret receipt.

Definition revoke (grant_id : UUID) (action : GrantLifecycleAction.t) (actor reason : string) (now : datetime)
  : M t ProtectedStatePurgeReceipt.t :=
  raise_if (bool_decide (action = GrantLifecycleAction.ACTIVATE))
    (ValueError "activate is not a revocation action") ;;;
  raise_if (blank actor || blank reason) (ValueError "revocation actor and reason are required") ;;;
  transaction (revoke_locked grant_id action actor reason now).

(** [tuple(self.revoke(row[0], ...) for row in rows)]: one transaction a grant. *)
Fixpoint revoke_all (rows : list UUID) (action : GrantLifecycleAction.t) (actor reason : string)
    (now : datetime) : M t (list ProtectedStatePurgeReceipt.t) :=
  match rows with
  | [] => ret []
  | id :: rows =>
      let! receipt := revoke id action actor reason now in
      let! receipts := revoke_all rows action actor reason now in
      ret (receipt :: receipts)
  end.

Definition is_active (r : grant_row) : bool := bool_decide (row_state r = GrantState.ACTIVE).

Definition purge_principal (principal : PrincipalRef.t) (action : GrantLifecycleAction.t)
    (actor reason : string) (now : datetime) : M t (list ProtectedStatePurgeReceipt.t) :=
  let! s := get in
  let rows := select (fun r =>
      bool_decide (LocalAccessGrant.principal_id (grant r) = PrincipalRef.principal_id principal)
      && (LocalAccessGrant.session_epoch (grant r) =? PrincipalRef.session_epoch principal)
      && (LocalAccessGrant.device_trust_epoch (grant r) =? PrincipalRef.device_trust_epoch principal)
      && is_active r) (local_access_grants s) in
  revoke_all (row_id <$> rows) action actor reason now.

(** [ORDER BY grant_id] *)
Definition by_id (rows : list grant_row) : list UUID :=
  row_id <$> sort_by (fun x y => String.leb (row_id x) (row_id y)) rows.

Definition purge_principal_id (principal_id : string) (action : GrantLifecycleAction.t)
    (actor reason : string) (now : datetime) : M t (list ProtectedStatePurgeReceipt.t) :=
  let! s := get in
  let rows := select (fun r =>
      bool_decide (LocalAccessGrant.principal_id (grant r) = principal_id) && is_active r)
    (local_access_grants s) in
  revoke_all (by_id rows) action actor reason now.

(** [expires_at<=?] compares the texts of the timestamps. *)
Definition purge_expired (now : datetime) : M t (list ProtectedStatePurgeReceipt.t) :=
  let! s := get in
  let rows := select (fun r =>
      is_active r && String.leb (isoformat (LocalAccessGrant.expires_at (grant r))) (isoformat now))
    (local_access_grants s) in
  revoke_all (by_id rows) GrantLifecycleAction.RETENTION_EXPIRY "system-retention" "retention_expired" now.

(** ** Protected reads and writes *)

(** [_require_active]: an expired grant is revoked before the call is refused. *)
Definition require_active (grant_id : UUID) (scope : option string) (now : datetime) : M t LocalAccessGrant.t :=
  let! s := get in
  let! g := lift (load grant_id s) in
  raise_if (negb (bool_decide (LocalAccessGrant.state g = GrantState.ACTIVE)))
    (PermissionError "local access grant is not active") ;;;
  if LocalAccessGrant.expires_at g <=? now then
    let! _ := revoke (LocalAccessGrant.grant_id g) GrantLifecycleAction.RETENTION_EXPIRY "system"
                "grant_expired" now in
    raise (PermissionError "local access grant expired")
  else
    raise_if (match scope with
              | Some scope => negb (bool_decide (scope ∈ LocalAccessGrant.scope g))
              | None => false
              end) (PermissionError "local access grant scope mismatch") ;;;
    ret g.

(** The row of a key of a grant, which [UNIQUE(grant_id,key_sha256)] makes the only one. *)
Definition is_entry (grant_id : UUID) (key_sha : string) (r : cache_row) : bool :=
  bool_decide (cache_grant_id r = grant_id) && bool_decide (key_sha256 r = key_sha).

(** [INSERT ... ON CONFLICT(grant_id,key_sha256) DO UPDATE]: the conflict
    target is looked at before the primary key. *)
Definition upsert_cache (row : cache_row) (s : t) : res t :=
  if existsb (is_entry (cache_grant_id row) (key_sha256 row)) (protected_cache_entries s)
  then Ok (set_cache ((fun r =>
         if is_entry (cache_grant_id row) (key_sha256 row) r
         then mkCacheRow (cache_id r) (cache_grant_id r) (key_sha256 r) (cache_payload_sha256 row)
                (cache_payload row) (retention_expires_at row) (cache_created_at row)
         else r) <$> protected_cache_entries s) s)
  else rbind (insert_row "protected_cache_entries.cache_id" (same_key cache_id)
                (protected_cache_entries s) row) (fun rows => Ok (set_cache rows s)).

Definition put_cache (grant_id : UUID) (key payload : string) (retention_expires_at : datetime)
    (scope : string) (now : datetime) : M t UUID :=
  let! _ := require_active grant_id (Some scope) now in
  raise_if (retention_expires_at <=? now) (ValueError "cache retention expiry must be in the future") ;;;
  let key_sha := sha256 key in
  let payload_sha := sha256 payload in
  let cache_id := uuid5 ("sentinel-protected-cache:" +:+ grant_id +:+ ":" +:+ key_sha) in
  transaction (
    let! s := get in
    let! s' := lift (upsert_cache
      (mkCacheRow cache_id grant_id key_sha payload_sha payload retention_expires_at now) s) in
    put s') ;;;
  ret cache_id.

Definition read_cache (grant_id : UUID) (key : string) (now : datetime) : M t string :=
  let! _ := require_active grant_id (Some "protected_cache") now in
  let key_sha := sha256 key in
  let! s := get in
  match select_one (is_entry grant_id key_sha) (protected_cache_entries s) with
  | None => raise (KeyError key)
  | Some row =>
      if retention_expires_at row <=? now then
        transaction (modify (fun s => set_cache
          (select (fun r => negb (is_entry grant_id key_sha r)) (protected_cache_entries s)) s)) ;;;
        raise (KeyError key)
      else ret (cache_payload row)
  end.

Definition queue_authority (grant_id : UUID) (payload : json) (now : datetime) : M t UUID :=
  let! _ := require_active grant_id (Some "queued_authority") now in
  let payload_sha := sha256 (canonical_json_bytes float_repr payload) in
  let queue_id := uuid5 ("sentinel-protected-queue:" +:+ grant_id +:+ ":" +:+ payload_sha) in
  let row := mkQueueRow queue_id grant_id payload_sha payload now in
  transaction (modify (fun s =>
    if existsb (same_key ProtectedLocalStateStore.queue_id row) (queued_authority s) then s
    else set_queue (queued_authority s ++ [row]) s)) ;;;
  ret queue_id.

(** ** Projections *)
Definition grants (s : t) : list LocalAccessGrant.t :=
  of_row <$> sort_by (fun x y =>
    let px := LocalAccessGrant.principal_id (grant x) in
    let py := LocalAccessGrant.principal_id (grant y) in
    let ex := isoformat (LocalAccessGrant.expires_at (grant x)) in
    let ey := isoformat (LocalAccessGrant.expires_at (grant y)) in
    if bool_decide (px = py) then
      if bool_decide (ex = ey) then String.leb (row_id x) (row_id y) else String.leb ex ey
    else String.leb px py) (local_access_grants s).

Definition receipts (s : t) : list ProtectedStatePurgeReceipt.t :=
  sort_by (fun x y =>
    let cx := isoformat (ProtectedStatePurgeReceipt.created_at x) in
    let cy := isoformat (ProtectedStatePurgeReceipt.created_at y) in
    if bool_decide (cx = cy)
    then String.leb (ProtectedStatePurgeReceipt.receipt_id x) (ProtectedStatePurgeReceipt.receipt_id y)
    else String.leb cx cy) (purge_receipts s).

(** The counts of [metrics]; its other entries are constants. *)
Record metrics_t : Type := mkMetrics {
  active_grants : Z;
  cache_entries : Z;
  queued_authority_items : Z
}.
Definition metrics (s : t) : metrics_t :=
  mkMetrics (Z.of_nat (length (select is_active (local_access_grants s))))
    (Z.of_nat (length (protected_cache_entries s))) (Z.of_nat (length (queued_authority s))).
End Store.
End ProtectedLocalStateStore.
