(* ===== verification/ProtectedTheorems.v ===== *)
(** What the protected local state promises: only an active grant holds cached
    payloads or queued commands, a revocation purges them for good and accounts
    for them, and a read returns what was last written; with one gap of the
    code. *)

From Stdlib Require Import ZArith Lia ZifyBool.
From S2P Require Import Prelude Binary64 Enums Models Records CanonicalJson ProtectedState.
Import ProtectedLocalStateStore.
Open Scope Z_scope.

(** ** Rows of one grant *)
Lemma elem_of_select {R} (p : R -> bool) rows x : x ∈ select p rows <-> x ∈ rows /\ p x = true.
Proof. unfold select. by rewrite !list_elem_of_In, filter_In. Qed.

Lemma find_grant_id id s r : find_grant id s = Some r -> row_id r = id.
Proof. unfold find_grant, select_one. intros [_ H]%find_some. by apply bool_decide_eq_true in H. Qed.

Lemma find_grant_snoc id rows r s :
  find_grant id (set_grants (rows ++ [r]) s)
  = match find_grant id (set_grants rows s) with
    | Some r' => Some r' | None => if bool_decide (row_id r = id) then Some r else None end.
Proof.
  unfold find_grant, select_one. cbn.
  induction rows as [|x rows IH]; cbn; [done|]. by destruct (bool_decide (row_id x = id)).
Qed.

Lemma find_update id st rows id' :
  List.find (fun r => bool_decide (row_id r = id')) (update_state id st rows)
  = (fun r => if bool_decide (id' = id) then mkGrantRow (grant r) st else r)
      <$> List.find (fun r => bool_decide (row_id r = id')) rows.
Proof.
  unfold update_state. induction rows as [|x rows IH]; cbn; [done|].
  destruct (decide (row_id x = id)) as [Hx|Hx].
  - rewrite (bool_decide_eq_true_2 (row_id x = id)) by done. change (row_id (mkGrantRow (grant x) st)) with (row_id x).
    destruct (decide (row_id x = id')) as [Hx'|Hx'].
    + rewrite (bool_decide_eq_true_2 (row_id x = id')) by done. cbn. by rewrite bool_decide_eq_true_2 by congruence.
    + rewrite (bool_decide_eq_false_2 (row_id x = id')) by done. exact IH.
  - rewrite (bool_decide_eq_false_2 (row_id x = id)) by done.
    destruct (decide (row_id x = id')) as [Hx'|Hx'].
    + rewrite (bool_decide_eq_true_2 (row_id x = id')) by done. cbn. by rewrite bool_decide_eq_false_2 by congruence.
    + rewrite (bool_decide_eq_false_2 (row_id x = id')) by done. exact IH.
Qed.

(** The grant of an identifier is active. *)
Definition active (id : UUID) (s : t) : Prop :=
  exists r, find_grant id s = Some r /\ row_state r = GrantState.ACTIVE.
(** It is known and not active. *)
Definition inactive (id : UUID) (s : t) : Prop :=
  exists r, find_grant id s = Some r /\ row_state r <> GrantState.ACTIVE.

(** Whatever is held is held under an active grant. *)
Definition held (s : t) : Prop :=
  Forall (fun r => active (cache_grant_id r) s) (protected_cache_entries s) /\
  Forall (fun r => active (queue_grant_id r) s) (queued_authority s).

(** What revoking a grant leaves. *)
Definition revoked (id : UUID) (st : GrantState.t) (s s' : t) : Prop :=
  local_access_grants s' = update_state id st (local_access_grants s) /\
  protected_cache_entries s'
    = select (fun r => negb (bool_decide (cache_grant_id r = id))) (protected_cache_entries s) /\
  queued_authority s' = select (fun r => negb (bool_decide (queue_grant_id r = id))) (queued_authority s).

Definition quiet (s s' : t) : Prop :=
  local_access_grants s' = local_access_grants s /\
  protected_cache_entries s' = protected_cache_entries s /\ queued_authority s' = queued_authority s.

(** The changes the operations are made of; [writes] allows entries to be put. *)
Inductive move (writes : bool) (s s' : t) : Prop :=
  | Move_quiet : quiet s s' -> move writes s s'
  | Move_grant g : local_access_grants s' = local_access_grants s ++ [g] ->
      find_grant (row_id g) s = None ->
      protected_cache_entries s' = protected_cache_entries s -> queued_authority s' = queued_authority s ->
      move writes s s'
  | Move_revoke id st : st <> GrantState.ACTIVE -> revoked id st s s' -> move writes s s'
  | Move_evict p : local_access_grants s' = local_access_grants s ->
      protected_cache_entries s' = select p (protected_cache_entries s) ->
      queued_authority s' = queued_authority s -> move writes s s'
  | Move_put row : writes = true -> active (cache_grant_id row) s -> upsert_cache row s = Ok s' -> move writes s s'
  | Move_queue row : active (queue_grant_id row) s ->
      local_access_grants s' = local_access_grants s ->
      protected_cache_entries s' = protected_cache_entries s ->
      queued_authority s' = queued_authority s ++ [row] -> move writes s s'.

Lemma find_grant_eq id s s' :
  local_access_grants s' = local_access_grants s -> find_grant id s' = find_grant id s.
Proof. unfold find_grant. by intros ->. Qed.
Lemma active_eq id s s' : local_access_grants s' = local_access_grants s -> active id s -> active id s'.
Proof. intros H (r & Hr & Hs). exists r. by rewrite (find_grant_eq id s s'). Qed.

Lemma upsert_ok row s s' :
  upsert_cache row s = Ok s' ->
  local_access_grants s' = local_access_grants s /\ queued_authority s' = queued_authority s /\
  forall r, r ∈ protected_cache_entries s' ->
    if is_entry (cache_grant_id row) (key_sha256 row) r
    then cache_grant_id r = cache_grant_id row /\ cache_payload r = cache_payload row /\
         retention_expires_at r = retention_expires_at row
    else r ∈ protected_cache_entries s.
Proof.
  unfold upsert_cache. destruct (existsb _ _) eqn:Hex.
  - intros [= <-]. split_and!; [done|done|]. intros r (x & -> & Hx)%list_elem_of_fmap.
    destruct (is_entry _ _ x) eqn:E; [|by rewrite E]. unfold is_entry in *. cbn. rewrite E.
    apply andb_true_iff in E as [E%bool_decide_eq_true _]. by split_and!.
  - unfold insert_row. destruct (existsb (same_key cache_id row) _); [done|].
    cbn [rbind]. intros [= <-]. split_and!; [done|done|]. cbn.
    intros r [Hr| ->%list_elem_of_singleton]%elem_of_app.
    + destruct (is_entry _ _ r) eqn:E; [|done]. exfalso.
      assert (existsb (is_entry (cache_grant_id row) (key_sha256 row)) (protected_cache_entries s) = true); [|congruence].
      apply existsb_exists. exists r. by rewrite <- list_elem_of_In.
    + unfold is_entry. by rewrite !bool_decide_eq_true_2.
Qed.

Lemma inactive_move w id s s' : move w s s' -> inactive id s -> inactive id s'.
Proof.
  intros Hm (r & Hr & Hs).
  assert (Heq : local_access_grants s' = local_access_grants s -> inactive id s').
  { intros H. exists r. by rewrite (find_grant_eq id s s'). }
  destruct Hm as [[H _]|g H _ _ _|id' st Hst [H _]|p H _ _|row _ _ [H _]%upsert_ok|row _ H _ _]; try by apply Heq.
  - exists r. split; [|done]. unfold find_grant, select_one in *. rewrite H.
    assert (Hf := find_grant_snoc id (local_access_grants s) g s). unfold find_grant, select_one in Hf.
    cbn in Hf. by rewrite Hf, Hr.
  - unfold inactive, find_grant, select_one in *. rewrite H, find_update, Hr. cbn. eexists. split; [done|].
    by destruct (bool_decide _).
Qed.

Lemma select_cons {R} (p : R -> bool) x rows : select p (x :: rows) = if p x then x :: select p rows else select p rows.
Proof. done. Qed.

Lemma Forall_select {R} (P : R -> Prop) (p : R -> bool) rows : Forall P rows -> Forall P (select p rows).
Proof. rewrite !Forall_forall. intros H x [Hx _]%elem_of_select. by apply H. Qed.

Lemma active_revoked id st s s' id' : revoked id st s s' -> id' <> id -> active id' s -> active id' s'.
Proof.
  intros (H & _) Hne (r & Hr & Hs). unfold active, find_grant, select_one in *. rewrite H, find_update, Hr.
  cbn. rewrite bool_decide_eq_false_2 by done. by exists r.
Qed.

Lemma held_move w s s' : move w s s' -> held s -> held s'.
Proof.
  intros Hm [Hc Hq]. unfold held.
  destruct Hm as [(Hg & -> & ->)|g Hg Hn -> ->|id st Hst Hr|p Hg -> ->|row _ Ha Hup|row Ha Hg -> ->].
  - split; eapply Forall_impl; eauto using active_eq.
  - assert (Hkeep : forall id, active id s -> active id s').
    { intros id (r & Hr & Hs). exists r. split; [|done]. unfold find_grant, select_one in *. rewrite Hg.
      assert (Hf := find_grant_snoc id (local_access_grants s) g s). unfold find_grant, select_one in Hf.
      cbn in Hf. by rewrite Hf, Hr. }
    split; eapply Forall_impl; eauto.
  - pose proof Hr as (_ & -> & ->).
    split; apply Forall_forall; intros r [Hin Hne%negb_true_iff%bool_decide_eq_false]%elem_of_select;
      eapply active_revoked; eauto; [by apply (Forall_in _ _ _ Hc)|by apply (Forall_in _ _ _ Hq)].
  - split; [apply Forall_select|]; eapply Forall_impl; eauto using active_eq.
  - apply upsert_ok in Hup as (Hg & -> & Hrows). split; [|eapply Forall_impl; eauto using active_eq].
    apply Forall_forall. intros r Hin. apply Hrows in Hin. apply (active_eq _ s); [done|].
    destruct (is_entry _ _ r); [by destruct Hin as [-> _]|by apply (Forall_in _ _ _ Hc)].
  - split; [eapply Forall_impl; eauto using active_eq|].
    apply Forall_app. split; [eapply Forall_impl; eauto using active_eq|]. repeat constructor.
    by apply (active_eq _ s).
Qed.

Lemma shrink_move s s' r : move false s s' -> r ∈ protected_cache_entries s' -> r ∈ protected_cache_entries s.
Proof.
  intros [(_ & -> & _)|g _ _ -> _|id st _ (_ & -> & _)|p _ -> _|row [=]|row _ _ -> _]; try done;
    by intros [? _]%elem_of_select.
Qed.

Lemma move_weaken s s' : move false s s' -> move true s s'.
Proof.
  intros [H|g H1 H2 H3 H4|id st H1 H2|p H1 H2 H3|row [=]|row H1 H2 H3 H4];
    [by apply Move_quiet|by eapply Move_grant|by eapply Move_revoke|by eapply Move_evict|by eapply Move_queue].
Qed.
Lemma moves_weaken s s' : rtc (move false) s s' -> rtc (move true) s s'.
Proof. apply rtc_subrel. exact move_weaken. Qed.

Lemma shrink_moves s s' r :
  rtc (move false) s s' -> r ∈ protected_cache_entries s' -> r ∈ protected_cache_entries s.
Proof. induction 1 as [|s s1 s' H _ IH]; [done|]. eauto using shrink_move. Qed.
Lemma inactive_moves w id s s' : rtc (move w) s s' -> inactive id s -> inactive id s'.
Proof. induction 1; eauto using inactive_move. Qed.
Lemma held_moves w s s' : rtc (move w) s s' -> held s -> held s'.
Proof. induction 1; eauto using held_move. Qed.

Section Runs.
Context (float_repr : f64 -> string) (sha256 : string -> string) (uuid5 : string -> UUID).
Context (isoformat : datetime -> string).
Notation revoke := (revoke float_repr sha256 uuid5 isoformat).
Notation revoke_all := (revoke_all float_repr sha256 uuid5 isoformat).
Notation require_active := (require_active float_repr sha256 uuid5 isoformat).
Notation put_cache := (put_cache float_repr sha256 uuid5 isoformat).
Notation read_cache := (read_cache float_repr sha256 uuid5 isoformat).
Notation queue_authority := (queue_authority float_repr sha256 uuid5 isoformat).
Notation create_grant := (create_grant float_repr sha256 uuid5 isoformat).
Notation purge_principal := (purge_principal float_repr sha256 uuid5 isoformat).
Notation purge_principal_id := (purge_principal_id float_repr sha256 uuid5 isoformat).
Notation purge_expired := (purge_expired float_repr sha256 uuid5 isoformat).

Inductive op : Type :=
  | CreateGrant (principal : PrincipalRef.t) (scope : list string) (expires_at issued_at : datetime)
  | Revoke (grant_id : UUID) (action : GrantLifecycleAction.t) (actor reason : string) (now : datetime)
  | PurgePrincipal (principal : PrincipalRef.t) (action : GrantLifecycleAction.t) (actor reason : string)
      (now : datetime)
  | PurgePrincipalId (principal_id : string) (action : GrantLifecycleAction.t) (actor reason : string)
      (now : datetime)
  | PurgeExpired (now : datetime)
  | PutCache (grant_id : UUID) (key payload : string) (retention : datetime) (scope : string) (now : datetime)
  | ReadCache (grant_id : UUID) (key : string) (now : datetime)
  | QueueAuthority (grant_id : UUID) (payload : json) (now : datetime).

Definition exec (o : op) : M t unit :=
  match o with
  | CreateGrant p scope e i => void (create_grant p scope e i)
  | Revoke id a actor reason now => void (revoke id a actor reason now)
  | PurgePrincipal p a actor reason now => void (purge_principal p a actor reason now)
  | PurgePrincipalId p a actor reason now => void (purge_principal_id p a actor reason now)
  | PurgeExpired now => void (purge_expired now)
  | PutCache id key payload ret scope now => void (put_cache id key payload ret scope now)
  | ReadCache id key now => void (read_cache id key now)
  | QueueAuthority id payload now => void (queue_authority id payload now)
  end.

(** The state after a sequence of calls, refused ones included. *)
Definition run (ops : list op) (s : t) : t := fold_left (fun s o => (exec o s).2) ops s.

Lemma record_event_run g a actor reason at_ s r s' :
  record_event float_repr sha256 uuid5 isoformat g a actor reason at_ s = (r, s') ->
  r = Ok tt /\ quiet s s' /\ purge_receipts s' = purge_receipts s.
Proof. unfold record_event, modify. intros [= <- <-]. by destruct (existsb _ _). Qed.

(** A revocation is refused and changes nothing, or purges and accounts. *)
Lemma revoke_run id a actor reason now s r s' :
  revoke id a actor reason now s = (r, s') ->
  (s' = s /\ exists e, r = Raise e) \/
  a <> GrantLifecycleAction.ACTIVATE /\ revoked id (ACTION_STATE a) s s' /\ is_Some (find_grant id s) /\
  exists receipt, r = Ok receipt /\ ProtectedStatePurgeReceipt.grant_id receipt = id /\
    ProtectedStatePurgeReceipt.purged_cache_entries receipt = Z.of_nat (length (cache_of id s)) /\
    ProtectedStatePurgeReceipt.purged_queued_authority receipt = Z.of_nat (length (queue_of id s)) /\
    ProtectedStatePurgeReceipt.purged_payload_sha256 receipt
    = sorted_set ((cache_payload_sha256 <$> cache_of id s) ++ (queue_payload_sha256 <$> queue_of id s)).
Proof.
  unfold ProtectedLocalStateStore.revoke, raise_if, bind. destruct (bool_decide _) eqn:Ha; cbn; [intros [= <- <-]; eauto|].
  apply bool_decide_eq_false in Ha. destruct (blank actor || blank reason); cbn; [intros [= <- <-]; eauto|].
  destruct r as [rc|e]; intros H; [rewrite transaction_ok in H|apply transaction_raise in H as [_ ->]; eauto].
  revert H.
  unfold revoke_locked, bind, get, lift, load, modify, ret. destruct (find_grant id s) as [row|] eqn:Hf; [|done].
  pose proof (find_grant_id _ _ _ Hf) as Hid. unfold row_id in Hid. unfold of_row. cbn. rewrite Hid.
  intros [= <- <-]. right. split; [done|].
  split; [|split; [done|eexists; by split_and!]].
  unfold revoked. by do 2 destruct (existsb _ _).
Qed.

Lemma revoke_moves w id a actor reason now s r s' : revoke id a actor reason now s = (r, s') -> rtc (move w) s s'.
Proof.
  intros [[-> _]|(Ha & Hr & _)]%revoke_run; [done|]. apply rtc_once. eapply Move_revoke; [|exact Hr].
  by destruct a.
Qed.

(** The calls that purge, and [with] blocks made of moves, are sequences of moves. *)
Lemma create_grant_moves w p scope e i s r s' : create_grant p scope e i s = (r, s') -> rtc (move w) s s'.
Proof.
  unfold ProtectedLocalStateStore.create_grant, bind, lift.
  set (gid := uuid5 _). set (g := LocalAccessGrant.mk _ _ _ _ _ _ _ _).
  destruct (LocalAccessGrant.validate g) as [g'|exc] eqn:Hv; [|by intros [= _ <-]].
  assert (g' = g) as ->.
  { unfold LocalAccessGrant.validate in Hv. do 4 apply rbind_ok in Hv as (? & _ & Hv). congruence. }
  destruct r as [x|exc]; intros H; [rewrite transaction_ok in H|by apply transaction_raise in H as [_ ->]].
  unfold get, bind in H. destruct (find_grant gid s) as [row|] eqn:Hf; [by injection H as _ <-|].
  unfold raise_if, ret, raise in H. destruct (negb _); [done|]. cbn in H.
  apply rtc_once, (Move_grant _ _ _ (mkGrantRow g GrantState.ACTIVE)).
  all: injection H as _ <-; try (by destruct (existsb _ _)). exact Hf.
Qed.

Lemma revoke_all_moves w rows a actor reason now s r s' :
  revoke_all rows a actor reason now s = (r, s') -> rtc (move w) s s'.
Proof.
  revert s r s'. induction rows as [|id rows IH]; intros s r s'; [by intros [= _ <-]|].
  cbn [ProtectedLocalStateStore.revoke_all]. unfold bind at 1.
  destruct (revoke id a actor reason now s) as [[rc|e] s1] eqn:H1; apply (revoke_moves w) in H1; [|by intros [= _ <-]].
  unfold bind. destruct (revoke_all rows a actor reason now s1) as [[rs|e] s2] eqn:H2; apply IH in H2;
    intros [= _ <-]; by etrans.
Qed.

Lemma load_ok id s g :
  load id s = Ok g -> exists row, find_grant id s = Some row /\ g = of_row row /\ LocalAccessGrant.grant_id g = id.
Proof.
  unfold load. destruct (find_grant id s) as [row|] eqn:Hf; [|done]. intros [= <-]. exists row. split_and!; [done|done|].
  exact (find_grant_id _ _ _ Hf).
Qed.

(** The grant that admits a call. *)
Definition admits (id : UUID) (scope : option string) (now : datetime) (s : t) (g : LocalAccessGrant.t) : Prop :=
  load id s = Ok g /\ LocalAccessGrant.state g = GrantState.ACTIVE /\ now < LocalAccessGrant.expires_at g /\
  forall x, scope = Some x -> x ∈ LocalAccessGrant.scope g.

Lemma admits_active id scope now s g : admits id scope now s g -> active id s.
Proof. intros ((row & Hf & -> & _)%load_ok & Hs & _). by exists row. Qed.

Lemma require_active_run w id scope now s r s' :
  require_active id scope now s = (r, s') ->
  rtc (move w) s s' /\ forall g, r = Ok g -> s' = s /\ admits id scope now s g.
Proof.
  unfold ProtectedLocalStateStore.require_active. unfold bind at 1, get. unfold bind at 1, lift.
  destruct (load id s) as [g|e] eqn:Hl; [|by intros [= <- <-]].
  unfold raise_if at 1, bind at 1. destruct (bool_decide _) eqn:Ha; cbn [negb]; [|by intros [= <- <-]].
  apply bool_decide_eq_true in Ha. unfold ret at 1.
  destruct (LocalAccessGrant.expires_at g <=? now) eqn:He.
  - unfold bind, raise. destruct (revoke _ _ _ _ _ _) as [[rc|e] s1] eqn:Hr; apply (revoke_moves w) in Hr;
      by intros [= <- <-].
  - unfold bind, raise_if, ret, raise. destruct scope as [sc|].
    + destruct (bool_decide (sc ∈ _)) eqn:Hs; cbn [negb]; intros [= <- <-]; [|done].
      apply bool_decide_eq_true in Hs. split; [done|]. intros g' [= <-]. split; [done|].
      split_and!; [done|done|lia|]. by intros x [= <-].
    + intros [= <- <-]. split; [done|]. intros g' [= <-]. split; [done|]. by split_and!; [done|done|lia|].
Qed.

(** A grant that is not active admits nothing. *)
Lemma require_inactive id scope now s :
  inactive id s -> require_active id scope now s = (Raise (PermissionError "local access grant is not active"), s).
Proof.
  intros (row & Hf & Hs). unfold ProtectedLocalStateStore.require_active, bind, get, lift, load, raise_if, raise.
  rewrite Hf. cbn. by rewrite bool_decide_eq_false_2.
Qed.

Lemma put_cache_run id key payload ret_ scope now s r s' :
  put_cache id key payload ret_ scope now s = (r, s') ->
  match r with
  | Ok _ => exists row g, admits id (Some scope) now s g /\ cache_grant_id row = id /\ key_sha256 row = sha256 key /\
      cache_payload row = payload /\ retention_expires_at row = ret_ /\ now < ret_ /\ upsert_cache row s = Ok s'
  | Raise _ => rtc (move false) s s'
  end.
Proof.
  unfold ProtectedLocalStateStore.put_cache. unfold bind at 1.
  destruct (require_active id (Some scope) now s) as [[g|e] s1] eqn:Hreq.
  2:{ apply (require_active_run false) in Hreq as [Hm _]. by intros [= <- <-]. }
  apply (require_active_run false) in Hreq as [_ Hg]. destruct (Hg g eq_refl) as [-> Had].
  unfold bind at 1, raise_if. destruct (ret_ <=? now) eqn:Hret; [by intros [= <- <-]|].
  unfold ret at 1. unfold bind at 1.
  set (row := mkCacheRow _ _ _ _ _ _ _). destruct (transaction _ s) as [[[]|e] s2] eqn:Ht.
  - rewrite transaction_ok in Ht. unfold bind, get, lift, put in Ht.
    destruct (upsert_cache row s) as [s3|e] eqn:Hup; [|done]. injection Ht as <-. intros [= <- <-].
    exists row, g. split_and!; try done; lia.
  - apply transaction_raise in Ht as [_ ->]. by intros [= <- <-].
Qed.

Lemma read_cache_run w id key now s r s' :
  read_cache id key now s = (r, s') ->
  rtc (move w) s s' /\ forall b, r = Ok b -> s' = s /\ exists row g,
    admits id (Some "protected_cache") now s g /\ row ∈ protected_cache_entries s /\
    is_entry id (sha256 key) row = true /\ cache_payload row = b /\ now < retention_expires_at row.
Proof.
  unfold ProtectedLocalStateStore.read_cache. unfold bind at 1.
  destruct (require_active id (Some "protected_cache") now s) as [[g|e] s1] eqn:Hreq;
    apply (require_active_run w) in Hreq as [Hm Hg]; [|by intros [= <- <-]].
  destruct (Hg g eq_refl) as [-> Had]. unfold bind at 1, get.
  destruct (select_one _ _) as [row|] eqn:Hsel; [|by intros [= <- <-]].
  destruct (retention_expires_at row <=? now) eqn:Hret.
  - intros [= <- <-]. split; [|done]. apply rtc_once. by eapply Move_evict.
  - intros [= <- <-]. split; [done|]. intros b [= <-]. split; [done|]. exists row, g.
    apply find_some in Hsel as [Hin Hent]. rewrite <- list_elem_of_In in Hin. split_and!; try done; lia.
Qed.

Lemma queue_authority_moves w id payload now s r s' :
  queue_authority id payload now s = (r, s') -> rtc (move w) s s'.
Proof.
  unfold ProtectedLocalStateStore.queue_authority. unfold bind at 1.
  destruct (require_active id (Some "queued_authority") now s) as [[g|e] s1] eqn:Hreq;
    apply (require_active_run w) in Hreq as [Hm Hg]; [|by intros [= <- <-]].
  destruct (Hg g eq_refl) as [-> Had%admits_active]. unfold bind, transaction, modify, ret.
  set (row := mkQueueRow _ _ _ _ _). intros [= <- <-]. destruct (existsb _ _); [done|].
  apply rtc_once. by apply (Move_queue _ _ _ row).
Qed.

Definition is_put (o : op) : bool := match o with PutCache _ _ _ _ _ _ => true | _ => false end.

Lemma exec_moves o s r s' : exec o s = (r, s') -> rtc (move (is_put o)) s s'.
Proof.
  destruct o as [p scope e i|id a actor reason now|p a actor reason now|p a actor reason now|now
    |id key payload ret_ scope now|id key now|id payload now]; cbn [exec is_put];
    intros (r1 & H & _)%void_run.
  - by eapply create_grant_moves.
  - by eapply revoke_moves.
  - exact (revoke_all_moves _ _ _ _ _ _ _ _ _ H).
  - exact (revoke_all_moves _ _ _ _ _ _ _ _ _ H).
  - exact (revoke_all_moves _ _ _ _ _ _ _ _ _ H).
  - apply put_cache_run in H. destruct r1 as [x|e]; [|by apply moves_weaken].
    destruct H as (row & g & Had%admits_active & Hid & _ & _ & _ & _ & Hup). apply rtc_once.
    by apply (Move_put _ _ _ row); [|rewrite Hid|].
  - by eapply read_cache_run.
  - by eapply queue_authority_moves.
Qed.

Lemma run_calls_snoc ops o s : run (ops ++ [o]) s = (exec o (run ops s)).2.
Proof. unfold run. by rewrite fold_left_app. Qed.

Lemma run_moves ops s : rtc (move true) s (run ops s).
Proof.
  induction ops as [|o ops IH] using rev_ind; [done|]. rewrite run_calls_snoc. etrans; [exact IH|].
  destruct (exec o (run ops s)) as [r s'] eqn:He. apply exec_moves in He.
  destruct (is_put o); [done|by apply moves_weaken].
Qed.

Lemma run_held ops : held (run ops init).
Proof. eapply held_moves; [apply run_moves|]. by split. Qed.

(** A known grant that is revoked is not active. *)
Lemma revoked_inactive id st s s' :
  st <> GrantState.ACTIVE -> revoked id st s s' -> is_Some (find_grant id s) -> inactive id s'.
Proof.
  intros Hst (Hg & _) [row Hf]. unfold inactive, find_grant, select_one in *. rewrite Hg, find_update, Hf. cbn.
  rewrite bool_decide_eq_true_2 by done. by eexists.
Qed.

Lemma inactive_holds_nothing id s : held s -> inactive id s ->
  Forall (fun r => cache_grant_id r <> id) (protected_cache_entries s) /\
  Forall (fun r => queue_grant_id r <> id) (queued_authority s).
Proof.
  intros [Hc Hq] (row & Hf & Hs).
  split; eapply Forall_impl; eauto; cbn; intros r (row' & Hf' & Hs') He; rewrite He in Hf'; congruence.
Qed.

(** The digests of what a grant holds. *)
Definition holds_digest (id : UUID) (s : t) (d : string) : Prop :=
  (exists r, r ∈ protected_cache_entries s /\ cache_grant_id r = id /\ cache_payload_sha256 r = d) \/
  (exists r, r ∈ queued_authority s /\ queue_grant_id r = id /\ queue_payload_sha256 r = d).

Lemma purged_digests id s d :
  d ∈ sorted_set ((cache_payload_sha256 <$> cache_of id s) ++ (queue_payload_sha256 <$> queue_of id s))
  <-> holds_digest id s d.
Proof.
  rewrite elem_of_sorted_set, elem_of_app, !list_elem_of_fmap. unfold cache_of, queue_of, holds_digest.
  setoid_rewrite sort_by_perm. setoid_rewrite elem_of_select. setoid_rewrite bool_decide_eq_true. naive_solver.
Qed.

(** C14: a revocation is final.  It answers with a receipt that counts the cache
    entries and the queued commands held under the grant and lists exactly the
    digests of their payloads, and touches no entry of another grant.  After
    any further calls, refused ones included, nothing is held under the grant
    again, every read, write and queueing under it is refused and changes
    nothing, and whatever is held is held under an active grant. *)
Theorem revocation_purges_for_good ops id a actor reason now receipt s1 after :
  let s := run ops init in
  revoke id a actor reason now s = (Ok receipt, s1) ->
  let s2 := run after s1 in
  let refused := Raise (PermissionError "local access grant is not active") in
  ProtectedStatePurgeReceipt.purged_cache_entries receipt
  = Z.of_nat (length (select (fun r => bool_decide (cache_grant_id r = id)) (protected_cache_entries s))) /\
  ProtectedStatePurgeReceipt.purged_queued_authority receipt
  = Z.of_nat (length (select (fun r => bool_decide (queue_grant_id r = id)) (queued_authority s))) /\
  (forall d, d ∈ ProtectedStatePurgeReceipt.purged_payload_sha256 receipt <-> holds_digest id s d) /\
  protected_cache_entries s1
  = select (fun r => negb (bool_decide (cache_grant_id r = id))) (protected_cache_entries s) /\
  queued_authority s1 = select (fun r => negb (bool_decide (queue_grant_id r = id))) (queued_authority s) /\
  Forall (fun r => cache_grant_id r <> id) (protected_cache_entries s2) /\
  Forall (fun r => queue_grant_id r <> id) (queued_authority s2) /\
  (forall key now, read_cache id key now s2 = (refused, s2)) /\
  (forall key payload ret scope now, put_cache id key payload ret scope now s2 = (refused, s2)) /\
  (forall payload now, queue_authority id payload now s2 = (refused, s2)) /\
  held s2.
Proof.
  intros s Hrev s2 refused. pose proof (run_held ops) as Hheld. fold s in Hheld.
  pose proof (revoke_moves true _ _ _ _ _ _ _ _ Hrev) as Hm.
  apply revoke_run in Hrev as [[_ [e [=]]]|(Ha & Hr & Hf & rc & [= <-] & _ & Hc & Hq & Hd)].
  assert (Hin : inactive id s2).
  { eapply inactive_moves; [apply run_moves|]. eapply revoked_inactive; [|done|done]. by destruct a. }
  assert (Hh : held s2) by (eapply held_moves; [apply run_moves|]; by eapply held_moves).
  destruct (inactive_holds_nothing _ _ Hh Hin) as [H1 H2]. destruct Hr as (_ & Hc1 & Hq1).
  split_and!; try done.
  - rewrite Hc. unfold cache_of. by rewrite sort_by_perm.
  - rewrite Hq. unfold queue_of. by rewrite sort_by_perm.
  - intros d. rewrite Hd. apply purged_digests.
  - intros key now'. unfold ProtectedLocalStateStore.read_cache, bind. by rewrite require_inactive.
  - intros key payload ret_ scope now'. unfold ProtectedLocalStateStore.put_cache, bind. by rewrite require_inactive.
  - intros payload now'. unfold ProtectedLocalStateStore.queue_authority, bind. by rewrite require_inactive.
Qed.

(** The call stores an entry for the key of a grant. *)
Definition writes (id : UUID) (key_sha : string) (o : op) (s : t) : bool :=
  match o with
  | PutCache id' key _ _ _ _ => bool_decide (id' = id) && bool_decide (sha256 key = key_sha) && is_ok (exec o s).1
  | _ => false
  end.

(** The entry is what the last call that stored one wrote. *)
Definition last_written (id : UUID) (key_sha : string) (ops : list op) (payload : string) (retention : datetime)
  : Prop :=
  exists before key scope at_ after,
    ops = before ++ PutCache id key payload retention scope at_ :: after /\
    writes id key_sha (PutCache id key payload retention scope at_) (run before init) = true /\
    forall mid o rest, after = mid ++ o :: rest ->
      writes id key_sha o (run (before ++ PutCache id key payload retention scope at_ :: mid) init) = false.

Lemma not_writes_old id k o s row :
  writes id k o s = false -> is_entry id k row = true ->
  row ∈ protected_cache_entries (exec o s).2 -> row ∈ protected_cache_entries s.
Proof.
  intros Hw Hent Hin. destruct (exec o s) as [r s'] eqn:He. pose proof (exec_moves _ _ _ _ He) as Hm.
  destruct (is_put o) eqn:Hp; [|by eapply shrink_moves]. destruct o as [| | | | |id' key payload ret_ scope now| |]; try done.
  cbn [writes] in Hw. rewrite He in Hw. cbn [exec] in He. apply void_run in He as (r1 & Hput & Hok).
  apply put_cache_run in Hput. destruct r1 as [x|e]; [|by eapply shrink_moves].
  destruct r as [u|e]; [|done]. cbn in Hw. rewrite andb_true_r in Hw.
  destruct Hput as (new & g & _ & Hid & Hk & _ & _ & _ & Hup).
  apply upsert_ok in Hup as (_ & _ & Hrows). specialize (Hrows row Hin). rewrite Hid, Hk in Hrows.
  destruct (is_entry id' (sha256 key) row) eqn:E; [|done]. exfalso. unfold is_entry in *.
  apply andb_true_iff in E as [E1%bool_decide_eq_true E2%bool_decide_eq_true].
  apply andb_true_iff in Hent as [H1%bool_decide_eq_true H2%bool_decide_eq_true].
  rewrite !bool_decide_eq_true_2 in Hw by congruence. done.
Qed.

Lemma writes_new id k o s row :
  writes id k o s = true -> is_entry id k row = true -> row ∈ protected_cache_entries (exec o s).2 ->
  exists key scope at_, o = PutCache id key (cache_payload row) (retention_expires_at row) scope at_.
Proof.
  destruct o as [| | | | |id' key payload ret_ scope now| |]; try done. cbn [writes].
  intros [[Hid%bool_decide_eq_true Hk%bool_decide_eq_true]%andb_true_iff Hok]%andb_true_iff Hent Hin.
  destruct (exec _ s) as [r s'] eqn:He. cbn [exec] in He. apply void_run in He as (r1 & Hput & Hok').
  cbn in Hok. rewrite Hok in Hok'. apply put_cache_run in Hput. destruct r1 as [x|e]; [|done].
  destruct Hput as (new & g & _ & Hid' & Hk' & Hpay & Hret & _ & Hup).
  apply upsert_ok in Hup as (_ & _ & Hrows). specialize (Hrows row Hin). rewrite Hid', Hk', Hid, Hk, Hent in Hrows.
  destruct Hrows as (_ & Hp & Hr). exists key, scope, now. congruence.
Qed.

Lemma entries_last_written ops id k row :
  row ∈ protected_cache_entries (run ops init) -> is_entry id k row = true ->
  last_written id k ops (cache_payload row) (retention_expires_at row).
Proof.
  induction ops as [|o ops IH] using rev_ind; [by intros ?%elem_of_nil|]. rewrite run_calls_snoc. intros Hin Hent.
  destruct (writes id k o (run ops init)) eqn:Hw.
  - destruct (writes_new _ _ _ _ _ Hw Hent Hin) as (key & scope & at_ & ->).
    exists ops, key, scope, at_, []. split_and!; [done|done|]. by intros [] ? ?.
  - destruct (IH (not_writes_old _ _ _ _ _ Hw Hent Hin) Hent) as (before & key & scope & at_ & after & -> & Hwr & Hlast).
    exists before, key, scope, at_, (after ++ [o]). split_and!; [by rewrite <- app_assoc|done|].
    intros mid o' rest. destruct rest as [|o2 rest _] using rev_ind.
    + intros [<- [= <-]]%app_inj_tail. exact Hw.
    + rewrite app_comm_cons, app_assoc. intros [Heq _]%app_inj_tail. by eapply Hlast.
Qed.

(** A protected read returns what was last written.  Whenever a read
    answers, it changes nothing, the grant is active, has not expired and has
    the scope of the protected cache, and the bytes are those of the last call
    that stored an entry for that key under that grant, whose retention time
    has not passed. *)
Theorem protected_read_is_last_write ops id key now payload s' :
  let s := run ops init in
  read_cache id key now s = (Ok payload, s') ->
  s' = s /\
  (exists g, load id s = Ok g /\ LocalAccessGrant.state g = GrantState.ACTIVE /\
     now < LocalAccessGrant.expires_at g /\ "protected_cache" ∈ LocalAccessGrant.scope g) /\
  exists retention, now < retention /\ last_written id (sha256 key) ops payload retention.
Proof.
  intros s Hr. apply (read_cache_run true) in Hr as [_ Hr].
  destruct (Hr _ eq_refl) as (-> & row & g & (Hl & Ha & He & Hsc) & Hin & Hent & <- & Hret).
  split; [done|]. split; [exists g; split_and!; auto|].
  exists (retention_expires_at row). split; [done|]. by apply entries_last_written.
Qed.
End Runs.

(** ** Concrete instances *)
Definition demo_grant_sha256 (s : string) : string := "digest:" +:+ s.
Definition demo_grant_uuid5 (s : string) : UUID := "uuid:" +:+ s.
Definition demo_grant_isoformat (t : datetime) : string := pretty t.
Definition demo_client : PrincipalRef.t :=
  {| PrincipalRef.principal_id := "operator"; PrincipalRef.roles := [PrincipalRole.OPERATOR];
     PrincipalRef.scopes := []; PrincipalRef.authentication_method := "local_bearer";
     PrincipalRef.principal_kind := PrincipalKind.human; PrincipalRef.session_epoch := 1;
     PrincipalRef.device_trust_epoch := 1 |}.
Definition demo_create_grant : M t LocalAccessGrant.t :=
  create_grant demo_repr demo_grant_sha256 demo_grant_uuid5 demo_grant_isoformat demo_client
    ["queued_authority"; "protected_cache"] 5000 1000.
Definition demo_grant_id : UUID :=
  match (demo_create_grant init).1 with Ok g => LocalAccessGrant.grant_id g | Raise _ => "" end.
Definition demo_grant_ops : list op :=
  [CreateGrant demo_client ["queued_authority"; "protected_cache"] 5000 1000;
   PutCache demo_grant_id "k" "old" 4000 "protected_cache" 1500;
   QueueAuthority demo_grant_id (JDict [("action", JStr "acknowledge")]) 1600;
   PutCache demo_grant_id "k" "new" 4500 "protected_cache" 1700;
   ReadCache demo_grant_id "other" 1800].
Notation demo_run := (run demo_repr demo_grant_sha256 demo_grant_uuid5 demo_grant_isoformat).
Notation demo_revoke :=
  (revoke demo_repr demo_grant_sha256 demo_grant_uuid5 demo_grant_isoformat demo_grant_id
     GrantLifecycleAction.DEVICE_REVOCATION "admin" "device lost" 2000).
Definition demo_purge_receipt : option ProtectedStatePurgeReceipt.t :=
  match (demo_revoke (demo_run demo_grant_ops init)).1 with Ok r => Some r | Raise _ => None end.

Lemma revocation_purges_for_good_witness :
  exists receipt s1, demo_revoke (demo_run demo_grant_ops init) = (Ok receipt, s1) /\
    ProtectedStatePurgeReceipt.purged_cache_entries receipt = 1 /\
    ProtectedStatePurgeReceipt.purged_queued_authority receipt = 1 /\
    Forall (fun r => cache_grant_id r <> demo_grant_id)
      (protected_cache_entries (demo_run demo_grant_ops s1)).
Proof.
  assert (H : is_ok (demo_revoke (demo_run demo_grant_ops init)).1 = true) by (vm_compute; reflexivity).
  assert (Hc : length (select (fun r => bool_decide (cache_grant_id r = demo_grant_id))
    (protected_cache_entries (demo_run demo_grant_ops init))) = 1%nat) by (vm_compute; reflexivity).
  assert (Hq : length (select (fun r => bool_decide (queue_grant_id r = demo_grant_id))
    (queued_authority (demo_run demo_grant_ops init))) = 1%nat) by (vm_compute; reflexivity).
  destruct (demo_revoke (demo_run demo_grant_ops init)) as [[receipt|e] s1] eqn:Hr; [|discriminate H].
  destruct (revocation_purges_for_good demo_repr demo_grant_sha256 demo_grant_uuid5 demo_grant_isoformat
    demo_grant_ops demo_grant_id GrantLifecycleAction.DEVICE_REVOCATION "admin" "device lost" 2000 receipt s1
    demo_grant_ops Hr) as (H1 & H2 & _ & _ & _ & H3 & _).
  rewrite Hc in H1. rewrite Hq in H2. exists receipt, s1. split_and!; [reflexivity|exact H1|exact H2|exact H3].
Defined.

Lemma protected_read_is_last_write_witness :
  exists retention, 2000 < retention /\
    last_written demo_repr demo_grant_sha256 demo_grant_uuid5 demo_grant_isoformat demo_grant_id
      (demo_grant_sha256 "k") demo_grant_ops "new" retention.
Proof.
  assert (H : (read_cache demo_repr demo_grant_sha256 demo_grant_uuid5 demo_grant_isoformat demo_grant_id "k" 2000
    (demo_run demo_grant_ops init)).1 = Ok "new") by (vm_compute; reflexivity).
  destruct (read_cache demo_repr demo_grant_sha256 demo_grant_uuid5 demo_grant_isoformat demo_grant_id "k" 2000
    (demo_run demo_grant_ops init)) as [r s'] eqn:Hr. cbn in H. subst r.
  exact (proj2 (proj2 (protected_read_is_last_write demo_repr demo_grant_sha256 demo_grant_uuid5
    demo_grant_isoformat demo_grant_ops demo_grant_id "k" 2000 "new" s' Hr))).
Defined.

(** Issuing a revoked grant again answers with a grant that says it is active:
    the stored dump is returned without the [state] column. *)
Lemma reissued_grant_says_active :
  let s := (demo_revoke (demo_run demo_grant_ops init)).2 in
  match (demo_create_grant s).1 with
  | Ok g => LocalAccessGrant.state g = GrantState.ACTIVE /\
      load (LocalAccessGrant.grant_id g) s = Ok (LocalAccessGrant.set_state GrantState.REVOKED_POLICY g)
  | Raise _ => False
  end.
Proof. vm_compute. split; reflexivity. Qed.

(** A confirmed compromise does not stay one: a later logout of the grant
    overwrites the state. *)
Lemma compromise_is_overwritten :
  let s := (revoke demo_repr demo_grant_sha256 demo_grant_uuid5 demo_grant_isoformat demo_grant_id
              GrantLifecycleAction.CONFIRM_COMPROMISE "admin" "stolen" 2000 (demo_run demo_grant_ops init)).2 in
  let s' := (revoke demo_repr demo_grant_sha256 demo_grant_uuid5 demo_grant_isoformat demo_grant_id
               GrantLifecycleAction.LOGOUT "operator" "logout" 2100 s).2 in
  row_state <$> find_grant demo_grant_id s = Some GrantState.COMPROMISED /\
  row_state <$> find_grant demo_grant_id s' = Some GrantState.REVOKED_POLICY.
Proof. vm_compute. split; reflexivity. Qed.
