(* ===== verification/Offline.v ===== *)
(** Offline review commands (gateway/offline.py): a client prepares a signed
    ticket while it is disconnected, and the gateway authorizes it again
    against the current incident when the client is back.

    [sha256] is the hexadecimal digest, [sha256_digest] the raw one, [hmac
    secret message] the hexadecimal HMAC-SHA256 tag; [isoformat] and
    [float_repr] are the texts of a timestamp and of a float.  Clock readings
    and fresh identifiers are arguments. *)

From Stdlib Require Import ZArith.
From S2P Require Import Prelude Binary64 Enums Models Records CanonicalJson Auth Engine.
Open Scope Z_scope.

Module OfflineReviewRequest.
Record t : Type := mk {
  action : ReviewActionKind.t;
  idempotency_key : string;
  until : option datetime
}.
Definition validate (r : t) : res t :=
  check (negb (bool_decide (action r ∈ [ReviewActionKind.ACKNOWLEDGE; ReviewActionKind.SNOOZE])))
    (ValidationError "offline client supports acknowledge and snooze only") >>!
  check (bool_decide (action r = ReviewActionKind.SNOOZE) && bool_decide (until r = None))
    (ValidationError "offline snooze requires until") >>!
  check (blank (idempotency_key r)) (ValidationError "idempotency_key must not be blank") >>!
  Ok r.
End OfflineReviewRequest.

Module OfflineReviewTicket.
Record t : Type := mk {
  ticket_id : UUID;
  incident_id : UUID;
  hazard : HazardKind.t;
  action : ReviewActionKind.t;
  idempotency_key : string;
  snooze_until : option datetime;
  base_incident_version : Z;
  issued_at : datetime;
  expires_at : datetime;
  principal : PrincipalRef.t;
  payload_sha256 : string;
  authorization_tag : string
}.
Definition validate (x : t) : res t :=
  check (base_incident_version x <? 1) (ValidationError "base_incident_version must be >= 1") >>!
  Ok x.
End OfflineReviewTicket.

Module OfflineCommandService.
Import OfflineReviewTicket.

Record service : Type := mkService {
  authorizer : CommandAuthorizer.t;
  ttl_seconds : Z;
  ticket_secret : string
}.

Section Service.
Context (float_repr : f64 -> string) (isoformat : datetime -> string).
Context (sha256 sha256_digest : string -> string) (hmac : string -> string -> string).

(** [__init__]; an empty secret counts as none. *)
Definition init (authorizer : CommandAuthorizer.t) (ttl_seconds : Z) (ticket_secret : option string)
  : res service :=
  let ticket_secret :=
    match ticket_secret with
    | Some secret => if bool_decide (secret = "")
                     then sha256_digest "sentinel-edge-development-offline-ticket-v1" else secret
    | None => sha256_digest "sentinel-edge-development-offline-ticket-v1"
    end in
  if (String.length ticket_secret <? 32)%nat
  then Raise (ValueError "offline ticket secret must contain at least 32 bytes")
  else Ok (mkService authorizer ttl_seconds ticket_secret).

Definition time_json (t : option datetime) : json := match t with Some t => JStr (isoformat t) | None => JNull end.

(** [_ticket_body], of the fields of a ticket or of those it will have. *)
Definition ticket_body (incident_id : UUID) (hazard : HazardKind.t) (action : ReviewActionKind.t)
    (idempotency_key : string) (snooze_until : option datetime) (base_incident_version : Z)
    (issued_at expires_at : datetime) (principal : PrincipalRef.t) : json :=
  JDict [("incident_id", JStr incident_id);
         ("hazard", JStr (HazardKind.value hazard));
         ("action", JStr (ReviewActionKind.value action));
         ("idempotency_key", JStr idempotency_key);
         ("snooze_until", time_json snooze_until);
         ("base_incident_version", JInt base_incident_version);
         ("issued_at", JStr (isoformat issued_at));
         ("expires_at", JStr (isoformat expires_at));
         ("principal", CommandAuthorizer.dump_principal principal)].

Definition body_of (x : OfflineReviewTicket.t) : json :=
  ticket_body (incident_id x) (hazard x) (action x) (idempotency_key x) (snooze_until x)
    (base_incident_version x) (issued_at x) (expires_at x) (principal x).

(** [_sign_ticket] *)
Definition sign_ticket (s : service) (body : json) : string * string :=
  let digest := sha256 (canonical_json_bytes float_repr body) in
  let tag := hmac (ticket_secret s)
    (canonical_json_bytes float_repr (JDict [("payload_sha256", JStr digest)])) in
  (digest, tag).

Definition prepare (s : service) (incident : IncidentRecord.t) (request : OfflineReviewRequest.t)
    (principal : PrincipalRef.t) (now : datetime) (ticket_id : UUID) : res OfflineReviewTicket.t :=
  let expires_at := now + seconds (ttl_seconds s) in
  let body := ticket_body (IncidentRecord.incident_id incident) (IncidentRecord.hazard incident)
    (OfflineReviewRequest.action request) (OfflineReviewRequest.idempotency_key request)
    (OfflineReviewRequest.until request) (IncidentRecord.version incident) now expires_at principal in
  let signed := sign_ticket s body in
  OfflineReviewTicket.validate
    {| OfflineReviewTicket.ticket_id := ticket_id;
       OfflineReviewTicket.incident_id := IncidentRecord.incident_id incident;
       OfflineReviewTicket.hazard := IncidentRecord.hazard incident;
       OfflineReviewTicket.action := OfflineReviewRequest.action request;
       OfflineReviewTicket.idempotency_key := OfflineReviewRequest.idempotency_key request;
       OfflineReviewTicket.snooze_until := OfflineReviewRequest.until request;
       OfflineReviewTicket.base_incident_version := IncidentRecord.version incident;
       OfflineReviewTicket.issued_at := now;
       OfflineReviewTicket.expires_at := expires_at;
       OfflineReviewTicket.principal := principal;
       OfflineReviewTicket.payload_sha256 := signed.1;
       OfflineReviewTicket.authorization_tag := signed.2 |}.

(** The payload the fresh decision is for. *)
Definition reconcile_payload (x : OfflineReviewTicket.t) : json :=
  JDict [("incident_id", JStr (incident_id x));
         ("hazard", JStr (HazardKind.value (hazard x)));
         ("action", JStr (ReviewActionKind.value (action x)));
         ("snooze_until", time_json (snooze_until x));
         ("comment", JNull);
         ("idempotency_key", JStr (idempotency_key x))].

Definition reconcile (s : service) (ticket : OfflineReviewTicket.t) (current_incident : IncidentRecord.t)
    (current_principal : PrincipalRef.t) (now : datetime) (decision_id command_id : UUID)
  : res AuthorizedReviewCommand.t :=
  let signed := sign_ticket s (body_of ticket) in
  check (negb (bool_decide (signed.1 = payload_sha256 ticket))
         || negb (bool_decide (signed.2 = authorization_tag ticket)))
    (AuthorizationError "offline command ticket authentication failed") >>!
  check (expires_at ticket <=? now)
    (AuthorizationError "offline command expired; reconfirmation required") >>!
  check (negb (bool_decide (principal ticket = current_principal)))
    (AuthorizationError "offline command principal or trust epoch changed") >>!
  check (negb (bool_decide (incident_id ticket = IncidentRecord.incident_id current_incident))
         || negb (bool_decide (hazard ticket = IncidentRecord.hazard current_incident)))
    (AuthorizationError "offline command incident identity changed") >>!
  check (negb (base_incident_version ticket =? IncidentRecord.version current_incident))
    (AuthorizationError "offline command base incident version is stale") >>!
  let operation := "incidents:" +:+ ReviewActionKind.value (action ticket) in
  let target := "incident:" +:+ incident_id ticket in
  rbind (CommandAuthorizer.decide float_repr isoformat sha256 hmac (authorizer s) current_principal operation
           target (reconcile_payload ticket) now decision_id) (fun fresh =>
  AuthorizedReviewCommand.validate
    {| AuthorizedReviewCommand.command_id := command_id;
       AuthorizedReviewCommand.incident_id := incident_id ticket;
       AuthorizedReviewCommand.hazard := hazard ticket;
       AuthorizedReviewCommand.action := action ticket;
       AuthorizedReviewCommand.snooze_until := snooze_until ticket;
       AuthorizedReviewCommand.comment := None;
       AuthorizedReviewCommand.idempotency_key := idempotency_key ticket;
       AuthorizedReviewCommand.authorization := fresh;
       AuthorizedReviewCommand.payload_sha256 := AuthorizationDecision.payload_sha256 fresh;
       AuthorizedReviewCommand.submitted_at := now |}).
End Service.
End OfflineCommandService.
