(* ===== verification/OfflineTheorems.v ===== *)
(** What offline commands promise: exactly when a prepared ticket is admitted,
    that the command it becomes passes the engine's own authorization, that a
    ticket cannot be altered, and that reconciling one twice applies it once. *)

From Stdlib Require Import ZArith Lia ZifyBool.
From S2P Require Import Prelude Binary64 Enums Models Records CanonicalJson Auth AuthTheorems Journal Engine.
From S2P Require Import EngineTheorems Offline.
Import IncidentJournalStore IncidentEventEngine OfflineCommandService OfflineReviewTicket.
Open Scope Z_scope.

Section Offline.
Context (float_repr : f64 -> string) `{!FloatRepr float_repr}.
Context (isoformat : datetime -> string) `{!Inj (=) (=) isoformat}.
Context (sha256 sha256_digest : string -> string) (hmac : string -> string -> string).
Notation sign_ticket := (sign_ticket float_repr sha256 hmac).
Notation prepare := (prepare float_repr isoformat sha256 hmac).
Notation reconcile := (reconcile float_repr isoformat sha256 hmac).
Notation body_of := (body_of isoformat).
Notation verify := (CommandAuthorizer.verify float_repr isoformat sha256 hmac).
Notation decide := (CommandAuthorizer.decide float_repr isoformat sha256 hmac).

(** ** Admission *)
Lemma prepare_ok s incident request p now id x :
  prepare s incident request p now id = Ok x ->
  incident_id x = IncidentRecord.incident_id incident /\ hazard x = IncidentRecord.hazard incident /\
  action x = OfflineReviewRequest.action request /\
  idempotency_key x = OfflineReviewRequest.idempotency_key request /\
  snooze_until x = OfflineReviewRequest.until request /\
  base_incident_version x = IncidentRecord.version incident /\ issued_at x = now /\
  expires_at x = now + seconds (ttl_seconds s) /\ principal x = p /\
  sign_ticket s (body_of x) = (payload_sha256 x, authorization_tag x).
Proof.
  unfold OfflineCommandService.prepare, OfflineReviewTicket.validate. intros (u & _ & [= <-])%rbind_ok.
  by split_and!.
Qed.

(** The ticket carries the digest and the tag of its own body. *)
Definition authentic (s : service) (x : OfflineReviewTicket.t) : Prop :=
  sign_ticket s (body_of x) = (payload_sha256 x, authorization_tag x).

(** The command a ticket becomes. *)
Definition command_of (x : OfflineReviewTicket.t) (fresh : AuthorizationDecision.t) (now : datetime)
    (command_id : UUID) : AuthorizedReviewCommand.t :=
  {| AuthorizedReviewCommand.command_id := command_id;
     AuthorizedReviewCommand.incident_id := incident_id x;
     AuthorizedReviewCommand.hazard := hazard x;
     AuthorizedReviewCommand.action := action x;
     AuthorizedReviewCommand.snooze_until := snooze_until x;
     AuthorizedReviewCommand.comment := None;
     AuthorizedReviewCommand.idempotency_key := idempotency_key x;
     AuthorizedReviewCommand.authorization := fresh;
     AuthorizedReviewCommand.payload_sha256 := AuthorizationDecision.payload_sha256 fresh;
     AuthorizedReviewCommand.submitted_at := now |}.

Notation operation_of x := ("incidents:" +:+ ReviewActionKind.value (action x)).
Notation target_of x := ("incident:" +:+ incident_id x).

Lemma reconcile_ok s x current p now did cid c :
  reconcile s x current p now did cid = Ok c <->
  authentic s x /\ now < expires_at x /\ principal x = p /\
  incident_id x = IncidentRecord.incident_id current /\ hazard x = IncidentRecord.hazard current /\
  base_incident_version x = IncidentRecord.version current /\
  exists fresh, decide (authorizer s) p (operation_of x) (target_of x) (reconcile_payload isoformat x) now did
                = Ok fresh /\
    AuthorizedReviewCommand.validate (command_of x fresh now cid) = Ok c.
Proof.
  unfold OfflineCommandService.reconcile, authentic. repeat setoid_rewrite rbind_ok.
  setoid_rewrite check_ok. split.
  - intros ([] & [H1 H2]%orb_false_iff & [] & H3 & [] & H4 & [] & [H5 H6]%orb_false_iff & [] & H7 & fresh & Hd & Hc).
    apply negb_false_iff in H1, H2, H4, H5, H6, H7. apply bool_decide_eq_true in H1, H2, H4, H5, H6.
    split_and!; try done; [by rewrite <- H1, <- H2, <- surjective_pairing|lia|lia|]. by exists fresh.
  - intros (H1 & H2 & H3 & H4 & H5 & H6 & fresh & Hd & Hc).
    exists tt. split; [rewrite H1; cbn; by rewrite !bool_decide_eq_true_2|].
    exists tt. split; [lia|]. exists tt. split; [by rewrite bool_decide_eq_true_2|].
    exists tt. split; [by rewrite !bool_decide_eq_true_2|]. exists tt. split; [lia|]. by exists fresh.
Qed.

(** A text that starts with a letter is not blank. *)
Lemma blank_operation x : blank (operation_of x) = false.
Proof. by destruct (action x). Qed.
Lemma blank_target id : blank ("incident:" +:+ id) = false.
Proof. reflexivity. Qed.

Lemma auth_decide_total a p op tgt payload t id :
  blank op = false -> blank tgt = false ->
  is_ok (decide a p op tgt payload t id) = true <->
  0 < seconds (CommandAuthorizer.ttl_seconds a) /\ blank (CommandAuthorizer.policy_version a) = false.
Proof.
  intros Ho Ht. unfold CommandAuthorizer.decide, AuthorizationDecision.validate. cbn. rewrite Ho, Ht. cbn.
  destruct (_ <=? _) eqn:E; cbn; [split; [done|lia]|]. destruct (blank (CommandAuthorizer.policy_version a)); cbn.
  - split; [done|]. by intros [_ ?].
  - split; [|done]. intros _. split; [lia|done].
Qed.

(** The payload the gateway has authorized is the one the engine checks. *)
Lemma payload_agrees x fresh now cid :
  authorized_review_payload isoformat (command_of x fresh now cid) = reconcile_payload isoformat x.
Proof. unfold authorized_review_payload, reconcile_payload, time_json. cbn. by destruct (snooze_until x). Qed.

Lemma reconciled_command s x current p now did cid c :
  reconcile s x current p now did cid = Ok c ->
  exists fresh, c = command_of x fresh now cid /\ AuthorizationDecision.principal fresh = p /\
    AuthorizationDecision.payload_sha256 fresh
    = CommandAuthorizer.payload_digest float_repr sha256 (reconcile_payload isoformat x) /\
    verify (authorizer s) fresh (authorized_review_payload isoformat c) (review_operation c) (review_target c)
      (Some p) now = Ok tt.
Proof.
  intros (_ & _ & _ & _ & _ & _ & fresh & Hd & Hc)%reconcile_ok. exists fresh.
  assert (c = command_of x fresh now cid) as ->.
  { unfold AuthorizedReviewCommand.validate in Hc. do 3 apply rbind_ok in Hc as (? & _ & Hc). congruence. }
  pose proof Hd as (Httl & Hp & _ & _ & Hdig & _)%auth_decide_ok. split_and!; [done|done|done|].
  rewrite payload_agrees. by eapply decide_then_verify; [exact Hd| |lia].
Qed.

(** Exactly when a prepared ticket is admitted.  A ticket made for an
    incident, a request and a principal is reconciled if and only if it has not
    expired, the same principal with the same trust epochs brings it, and the
    incident, its hazard and its version are still the ones it was made for
    (and the gateway's policy can decide at all).  The command it becomes is
    the requested action on that incident, and it passes the verification the
    incident engine makes of it. *)
Theorem prepared_ticket_admitted s incident request p issued tid x current p' now did cid :
  OfflineReviewRequest.validate request = Ok request ->
  prepare s incident request p issued tid = Ok x ->
  (is_ok (reconcile s x current p' now did cid) = true <->
     now < issued + seconds (ttl_seconds s) /\ p' = p /\
     IncidentRecord.incident_id current = IncidentRecord.incident_id incident /\
     IncidentRecord.hazard current = IncidentRecord.hazard incident /\
     IncidentRecord.version current = IncidentRecord.version incident /\
     0 < seconds (CommandAuthorizer.ttl_seconds (authorizer s)) /\
     blank (CommandAuthorizer.policy_version (authorizer s)) = false) /\
  forall c, reconcile s x current p' now did cid = Ok c ->
    AuthorizedReviewCommand.incident_id c = IncidentRecord.incident_id incident /\
    AuthorizedReviewCommand.hazard c = IncidentRecord.hazard incident /\
    AuthorizedReviewCommand.action c = OfflineReviewRequest.action request /\
    AuthorizedReviewCommand.snooze_until c = OfflineReviewRequest.until request /\
    AuthorizedReviewCommand.idempotency_key c = OfflineReviewRequest.idempotency_key request /\
    AuthorizedReviewCommand.submitted_at c = now /\
    verify (authorizer s) (AuthorizedReviewCommand.authorization c) (authorized_review_payload isoformat c)
      (review_operation c) (review_target c) (Some p) now = Ok tt.
Proof.
  intros Hreq (Hi & Hh & Ha & Hk & Hu & Hv & _ & He & Hp & Hauth)%prepare_ok. split.
  - split.
    + destruct (reconcile s x current p' now did cid) as [c|] eqn:Hr; [|done]. intros _.
      apply reconcile_ok in Hr as (_ & Hnow & Hp' & Hi' & Hh' & Hv' & fresh & Hd & _).
      assert (Hok : is_ok (decide (authorizer s) p' (operation_of x) (target_of x) (reconcile_payload isoformat x)
                             now did) = true) by (by rewrite Hd).
      apply auth_decide_total in Hok as [Httl Hpol]; [|apply blank_operation|done]. split_and!; congruence.
    + intros (Hnow & -> & Hi' & Hh' & Hv' & Httl & Hpol).
      destruct (decide (authorizer s) p (operation_of x) (target_of x) (reconcile_payload isoformat x) now did)
        as [fresh|e] eqn:Hd.
      2:{ exfalso. assert (is_ok (decide (authorizer s) p (operation_of x) (target_of x)
            (reconcile_payload isoformat x) now did) = true) as Hok.
          { apply auth_decide_total; [apply blank_operation|done|done]. } by rewrite Hd in Hok. }
      assert (Hr : reconcile s x current p now did cid = Ok (command_of x fresh now cid)); [|by rewrite Hr].
      apply reconcile_ok. split_and!; try congruence. exists fresh. split; [done|].
      unfold OfflineReviewRequest.validate in Hreq.
      apply rbind_ok in Hreq as ([] & _ & Hreq). apply rbind_ok in Hreq as ([] & Hsn%check_ok & Hreq).
      apply rbind_ok in Hreq as ([] & Hbl%check_ok & _).
      unfold AuthorizedReviewCommand.validate, command_of. cbn. rewrite bool_decide_eq_true_2 by done. cbn.
      by rewrite Ha, Hu, Hsn, Hk, Hbl.
  - intros c Hr. pose proof Hr as (_ & _ & Hp' & _)%reconcile_ok.
    apply reconciled_command in Hr as (fresh & -> & _ & _ & Hver). cbn. split_and!; try done. by rewrite <- Hp, Hp'.
Qed.

(** ** Authenticity *)
Lemma hazard_value_inj x y : HazardKind.value x = HazardKind.value y -> x = y.
Proof. by destruct x, y. Qed.
Lemma action_value_inj x y : ReviewActionKind.value x = ReviewActionKind.value y -> x = y.
Proof. by destruct x, y. Qed.

(** What the tag of a ticket covers: everything but its identifier. *)
Definition same_request (x y : OfflineReviewTicket.t) : Prop :=
  incident_id x = incident_id y /\ hazard x = hazard y /\ action x = action y /\
  idempotency_key x = idempotency_key y /\ snooze_until x = snooze_until y /\
  base_incident_version x = base_incident_version y /\ issued_at x = issued_at y /\
  expires_at x = expires_at y /\ principal x = principal y.

Lemma body_inj x y : normalize (body_of x) = normalize (body_of y) -> same_request x y.
Proof.
  unfold OfflineCommandService.body_of, ticket_body, same_request.
  remember (CommandAuthorizer.dump_principal (principal x)) as P eqn:HP.
  remember (CommandAuthorizer.dump_principal (principal y)) as Q eqn:HQ.
  unfold time_json. destruct (snooze_until x) as [u|], (snooze_until y) as [v|]; cbn; intros H; injection H;
    intros; subst P Q; split_and!; try done;
    try (by apply action_value_inj); try (by apply hazard_value_inj); try (by apply dump_principal_inj);
    try (by apply (inj isoformat)); f_equal; by apply (inj isoformat).
Qed.

Definition tag_message (digest : string) : string :=
  canonical_json_bytes float_repr (JDict [("payload_sha256", JStr digest)]).

Lemma authentic_tag s x :
  authentic s x ->
  payload_sha256 x = sha256 (canonical_json_bytes float_repr (body_of x)) /\
  authorization_tag x = hmac (ticket_secret s) (tag_message (payload_sha256 x)).
Proof.
  unfold authentic, OfflineCommandService.sign_ticket. intros H.
  pose proof (f_equal fst H : _ = payload_sha256 x) as Hd. pose proof (f_equal snd H : _ = authorization_tag x) as Ht.
  split; [by rewrite <- Hd|]. by rewrite <- Ht, <- Hd.
Qed.

(** A ticket cannot be altered.  Whatever is reconciled with the tag of a
    prepared ticket asks for the same action on the same incident, version and
    until the same times, by the same principal, unless SHA-256 or HMAC is
    broken. *)
Theorem altered_ticket_refused s incident request p issued tid x x' current p' now did cid c :
  prepare s incident request p issued tid = Ok x ->
  authorization_tag x' = authorization_tag x ->
  reconcile s x' current p' now did cid = Ok c ->
  same_request x' x
  \/ collide sha256 (canonical_json_bytes float_repr (body_of x')) (canonical_json_bytes float_repr (body_of x))
  \/ collide (hmac (ticket_secret s)) (tag_message (payload_sha256 x')) (tag_message (payload_sha256 x)).
Proof.
  intros (_ & _ & _ & _ & _ & _ & _ & _ & _ & Hx)%prepare_ok Htag (Hx' & _)%reconcile_ok.
  apply authentic_tag in Hx as [Hd Ht], Hx' as [Hd' Ht']. rewrite Htag, Ht in Ht'.
  destruct (collide_or_inj _ _ _ (eq_sym Ht')) as [Hm|Hm]; [|auto].
  apply canonical_json_inj in Hm; [|done]. cbn in Hm. injection Hm as Hm. rewrite Hd, Hd' in Hm.
  destruct (collide_or_inj _ _ _ Hm) as [Hb|Hb]; [|auto].
  apply canonical_json_inj in Hb; [|done]. left. by apply body_inj.
Qed.

(** ** Composition with the incident engine *)
Section Engine.
Context (uuid5 : string -> UUID).
Context (dump_incident : IncidentRecord.t -> json) (dump_review_state : IncidentReviewState.t -> json).
Context (store_sha256 : payload -> string).
Notation apply_authorized_review :=
  (IncidentEventEngine.apply_authorized_review float_repr isoformat sha256 hmac dump_review_state store_sha256).

(** C15: an offline command is applied once.  A client that does not learn that
    its ticket was applied may have it reconciled again: the new command, with
    its fresh decision and identifier, is answered with the review state and
    the receipt of the first, and the engine does not change. *)
Theorem offline_command_applied_once s x e current p now did cid c st rc e1 current' p' now' did' cid' c' :
  command_authorizer e = authorizer s ->
  reconcile s x current p now did cid = Ok c ->
  apply_authorized_review c e = (Ok (st, rc), e1) ->
  reconcile s x current' p' now' did' cid' = Ok c' ->
  apply_authorized_review c' e1 = (Ok (st, rc), e1).
Proof.
  intros Hauth Hr Happ Hr'.
  pose proof Hr as (_ & _ & Hp & _)%reconcile_ok. pose proof Hr' as (_ & _ & Hp' & _)%reconcile_ok.
  apply reconciled_command in Hr as (fresh & -> & Hf & Hd & _).
  apply reconciled_command in Hr' as (fresh' & -> & Hf' & Hd' & Hver).
  apply review_recorded in Happ as (_ & Hae & Hrec & Hpay & <-).
  change (AuthorizedReviewCommand.incident_id (command_of x fresh now cid))
    with (AuthorizedReviewCommand.incident_id (command_of x fresh' now' cid')).
  apply review_replayed.
  - rewrite Hae, Hauth. unfold review_principal. cbn [AuthorizedReviewCommand.authorization command_of]. by rewrite Hf'.
  - rewrite <- Hrec. f_equal. unfold review_scope, review_principal, review_operation, review_target.
    cbn. by rewrite Hf, Hf', <- Hp, <- Hp'.
  - rewrite Hpay. cbn. congruence.
Qed.
End Engine.
End Offline.

(** ** Concrete instances *)
#[local] Instance demo_isoformat_injective : Inj (=) (=) demo_isoformat.
Proof. intros x y H. by apply (inj pretty) in H. Qed.

Definition demo_offline : service :=
  mkService demo_engine_authorizer 900 "fedcba9876543210fedcba9876543210".
Definition demo_offline_request : OfflineReviewRequest.t :=
  OfflineReviewRequest.mk ReviewActionKind.SNOOZE "offline-1" (Some 5000).
Definition demo_incident : IncidentRecord.t :=
  match dict_get HazardKind.WILDFIRE (current_ demo_engine) with
  | Some r => r
  | None => new_record demo_uuid5 None demo_watch IncidentState.WATCH [] 0
  end.
Notation demo_prepare := (prepare demo_repr demo_isoformat demo_digest demo_tag).
Notation demo_reconcile := (reconcile demo_repr demo_isoformat demo_digest demo_tag).
Definition demo_ticket : OfflineReviewTicket.t :=
  match demo_prepare demo_offline demo_incident demo_offline_request demo_operator 300 "ticket-1" with
  | Ok x => x
  | Raise _ => OfflineReviewTicket.mk "" "" HazardKind.WILDFIRE ReviewActionKind.SNOOZE "" None 0 0 0 demo_operator "" ""
  end.
Lemma demo_ticket_prepared :
  demo_prepare demo_offline demo_incident demo_offline_request demo_operator 300 "ticket-1" = Ok demo_ticket.
Proof. vm_compute. reflexivity. Qed.

Lemma prepared_ticket_admitted_witness :
  is_ok (demo_reconcile demo_offline demo_ticket demo_incident demo_operator 400 "decision-2" "command-2") = true.
Proof.
  apply (prepared_ticket_admitted demo_repr demo_isoformat demo_digest demo_tag demo_offline demo_incident
    demo_offline_request demo_operator 300 "ticket-1" demo_ticket demo_incident demo_operator 400 "decision-2"
    "command-2").
  - vm_compute. reflexivity.
  - exact demo_ticket_prepared.
  - split_and!; try reflexivity.
Defined.

Definition demo_offline_command (now : datetime) (id : UUID) : option AuthorizedReviewCommand.t :=
  match demo_reconcile demo_offline demo_ticket demo_incident demo_operator now ("decision-" +:+ id) id with
  | Ok c => Some c | Raise _ => None end.

Lemma altered_ticket_refused_witness : same_request demo_ticket demo_ticket.
Proof.
  destruct (demo_reconcile demo_offline demo_ticket demo_incident demo_operator 400 "decision-2" "command-2")
    as [c|e] eqn:Hr.
  - destruct (altered_ticket_refused demo_repr demo_isoformat demo_digest demo_tag demo_offline demo_incident
      demo_offline_request demo_operator 300 "ticket-1" demo_ticket demo_ticket demo_incident demo_operator 400
      "decision-2" "command-2" c demo_ticket_prepared eq_refl Hr) as [H|[[Hne _]|[Hne _]]].
    + exact H.
    + destruct Hne. reflexivity.
    + destruct Hne. reflexivity.
  - exfalso. assert (H : is_ok (demo_reconcile demo_offline demo_ticket demo_incident demo_operator 400
      "decision-2" "command-2") = true) by (vm_compute; reflexivity).
    rewrite Hr in H. discriminate H.
Defined.

(** The ticket is reconciled at 400, and again at 500. *)
Lemma offline_command_applied_once_witness :
  exists c c' st rc e1,
    demo_offline_command 400 "c1" = Some c /\ demo_offline_command 500 "c2" = Some c' /\
    AuthorizedReviewCommand.command_id c <> AuthorizedReviewCommand.command_id c' /\
    demo_review c demo_engine = (Ok (st, rc), e1) /\ demo_review c' e1 = (Ok (st, rc), e1).
Proof.
  assert (Hok : match demo_offline_command 400 "c1", demo_offline_command 500 "c2" with
    | Some c, Some c' => is_ok (demo_review c demo_engine).1 = true /\
        AuthorizedReviewCommand.command_id c <> AuthorizedReviewCommand.command_id c'
    | _, _ => False end) by (vm_compute; split; [reflexivity|discriminate]).
  unfold demo_offline_command in *.
  destruct (demo_reconcile demo_offline demo_ticket demo_incident demo_operator 400 _ "c1") as [c|] eqn:H1;
    [|destruct Hok].
  destruct (demo_reconcile demo_offline demo_ticket demo_incident demo_operator 500 _ "c2") as [c'|] eqn:H2;
    [|destruct Hok].
  destruct Hok as [Hok Hne]. destruct (demo_review c demo_engine) as [[[st rc]|exc] e1] eqn:H; [|discriminate Hok].
  exists c, c', st, rc, e1. split_and!; try reflexivity; try assumption.
  exact (offline_command_applied_once demo_repr demo_isoformat demo_digest demo_tag demo_dump demo_store_sha256
    demo_offline demo_ticket demo_engine demo_incident demo_operator 400 _ "c1" c st rc e1 demo_incident demo_operator
    500 _ "c2" c' eq_refl H1 H H2).
Defined.
