(* ===== verification/Analysis.v ===== *)
(** Analysis of an observation (analysis/service.py): the measurement contract,
    the adapter of the hazard, and the identity the result takes from the
    observation.

    [uuid5] is [uuid5(NAMESPACE_URL, name)].  The fresh identifiers and the
    clock an adapter reads are a [stamp], and [latency_ms] the duration the
    wildfire adapter measures.  [model_copy] does not validate. *)

From Stdlib Require Import ZArith.
From S2P Require Import Prelude Binary64 Enums Models Measurements Hazards.
Open Scope Z_scope.

Module AnalysisEnrichmentEngine.

(** The registry and the two adapters that have parameters or state. *)
Record t : Type := mk {
  measurements : MeasurementRegistry.t;
  flood : FloodAdapter.t;
  landslide : LandslideAdapter.t
}.
Definition set_landslide v (e : t) : t := mk (measurements e) (flood e) v.

Section Operations.
Context (uuid5 : string -> UUID).

(** [self._adapters[hazard].analyze(observation)] *)
Definition adapter (latency_ms : f64) (st : stamp) (o : Observation.t) : M t AnalysisResult.t :=
  let! e := get in
  match Observation.hazard o with
  | HazardKind.WILDFIRE => lift (WildfireAdapter.analyze latency_ms st o)
  | HazardKind.FLOOD => lift (FloodAdapter.analyze (flood e) st o)
  | HazardKind.EARTHQUAKE => lift (EarthquakeAdapter.analyze st o)
  | HazardKind.LANDSLIDE => zoom landslide set_landslide (LandslideAdapter.analyze st o)
  end.

(** [code.startswith(("quality_", "uncertainty_", "reference_"))] *)
Definition measurement_reason (code : string) : bool :=
  startswith code "quality_" || startswith code "uncertainty_" || startswith code "reference_".

(** [tuple(sorted(set(result.reason_codes + codes)))] *)
Definition add_reasons (codes : list string) (r : AnalysisResult.t) : AnalysisResult.t :=
  AnalysisResult.mk (AnalysisResult.analysis_id r) (AnalysisResult.observation_id r)
    (AnalysisResult.correlation_id r) (AnalysisResult.boot_id r) (AnalysisResult.source_mode r)
    (AnalysisResult.hazard r) (AnalysisResult.score r) (AnalysisResult.state_hint r)
    (AnalysisResult.features r) (AnalysisResult.coverage r) (AnalysisResult.abstained r)
    (sorted_set (AnalysisResult.reason_codes r ++ codes)) (AnalysisResult.model_profile_id r)
    (AnalysisResult.source_lineage r) (AnalysisResult.config_hashes r) (AnalysisResult.incident_id_hint r)
    (AnalysisResult.produced_at r) (AnalysisResult.event_time r).

(** [model_copy(update={"score": 0.0, "state_hint": IncidentState.NORMAL})] *)
Definition zero_contribution (r : AnalysisResult.t) : AnalysisResult.t :=
  AnalysisResult.mk (AnalysisResult.analysis_id r) (AnalysisResult.observation_id r)
    (AnalysisResult.correlation_id r) (AnalysisResult.boot_id r) (AnalysisResult.source_mode r)
    (AnalysisResult.hazard r) f0 IncidentState.NORMAL (AnalysisResult.features r)
    (AnalysisResult.coverage r) (AnalysisResult.abstained r) (AnalysisResult.reason_codes r)
    (AnalysisResult.model_profile_id r) (AnalysisResult.source_lineage r) (AnalysisResult.config_hashes r)
    (AnalysisResult.incident_id_hint r) (AnalysisResult.produced_at r) (AnalysisResult.event_time r).

(** The last [model_copy]: what the result takes from the observation. *)
Definition identified (o : Observation.t) (r : AnalysisResult.t) : AnalysisResult.t :=
  AnalysisResult.mk
    (uuid5 ("sentinel-analysis:" +:+ Observation.observation_id o +:+ ":" +:+ AnalysisResult.model_profile_id r))
    (AnalysisResult.observation_id r) (Observation.correlation_id o) (Observation.boot_id o)
    (Observation.source_mode o) (AnalysisResult.hazard r) (AnalysisResult.score r)
    (AnalysisResult.state_hint r) (AnalysisResult.features r) (AnalysisResult.coverage r)
    (AnalysisResult.abstained r) (AnalysisResult.reason_codes r) (AnalysisResult.model_profile_id r)
    (Observation.source_lineage o) (AnalysisResult.config_hashes r) (AnalysisResult.incident_id_hint r)
    (Observation.received_at o) (Some (Observation.observed_at o)).

Definition expired (o : Observation.t) : bool := (Observation.capture_age_ms o >? of_Z 5000)%f64.

Definition analyze (latency_ms : f64) (st : stamp) (o : Observation.t) : M t AnalysisResult.t :=
  let! e := get in
  let! '(sanitized, measurement_report) := lift (MeasurementRegistry.sanitize o (measurements e)) in
  let! result := adapter latency_ms st sanitized in
  let measurement_reasons :=
    List.filter measurement_reason (MeasurementContractReport.reason_codes measurement_report) in
  let result := add_reasons measurement_reasons result in
  let result :=
    if expired sanitized
    then add_reasons ["source_ttl_expired_zero_contribution"] (zero_contribution result)
    else result in
  ret (identified o result).
End Operations.
End AnalysisEnrichmentEngine.
