(* ===== verification/AnalysisTheorems.v ===== *)
(** What an analysis promises: it is a function of the observation, an escalated
    state rests on usable measurements of a fresh capture, and a stale capture
    contributes nothing; with one gap of the code. *)

From Stdlib Require Import ZArith Lia ZifyBool SpecFloat.
From S2P Require Import Prelude Binary64 Enums Models Measurements Hazards HazardTheorems Analysis.
Import AnalysisEnrichmentEngine.
Open Scope Z_scope.

(** ** Results but for the stamp *)
Definition map_res {A B} (f : A -> B) (r : res A) : res B :=
  match r with Ok a => Ok (f a) | Raise e => Raise e end.

Lemma map_res_rbind {A B C} (f : B -> C) (r : res A) (k : A -> res B) :
  map_res f (rbind r k) = rbind r (fun a => map_res f (k a)).
Proof. by destruct r. Qed.
Lemma rbind_ext {A B} (r : res A) (k k' : A -> res B) : (forall a, k a = k' a) -> rbind r k = rbind r k'.
Proof. intros H. by destruct r; cbn. Qed.

(** The result with the fresh identifiers and the clock of another stamp. *)
Definition restamp (st : stamp) (r : AnalysisResult.t) : AnalysisResult.t :=
  AnalysisResult.mk (new_analysis_id st) (AnalysisResult.observation_id r) (new_correlation st)
    (AnalysisResult.boot_id r) (AnalysisResult.source_mode r) (AnalysisResult.hazard r)
    (AnalysisResult.score r) (AnalysisResult.state_hint r) (AnalysisResult.features r)
    (AnalysisResult.coverage r) (AnalysisResult.abstained r) (AnalysisResult.reason_codes r)
    (AnalysisResult.model_profile_id r) (AnalysisResult.source_lineage r) (AnalysisResult.config_hashes r)
    (AnalysisResult.incident_id_hint r) (now st) (AnalysisResult.event_time r).

Lemma build_result_restamp st st' o score state features coverage abstained reasons profile :
  build_result st' o score state features coverage abstained reasons profile
  = map_res (restamp st') (build_result st o score state features coverage abstained reasons profile).
Proof. unfold build_result, AnalysisResult.validate. cbn. by destruct (check _ _). Qed.

(** Go under the binds and the branches both sides share. *)
Ltac restamp_step st :=
  lazymatch goal with
  | |- rbind ?r _ = map_res _ (rbind ?r _) => rewrite map_res_rbind; apply rbind_ext; intros ?
  | |- context [let '(_, _) := ?p in _] => destruct p
  | |- build_result _ _ _ _ _ _ _ _ _ = _ => apply (build_result_restamp st)
  end.
Ltac restamp st := cbv zeta; repeat restamp_step st.

Lemma earthquake_restamp st st' o :
  EarthquakeAdapter.analyze st' o = map_res (restamp st') (EarthquakeAdapter.analyze st o).
Proof. unfold EarthquakeAdapter.analyze. restamp st. Qed.
Lemma flood_restamp st st' a o :
  FloodAdapter.analyze a st' o = map_res (restamp st') (FloodAdapter.analyze a st o).
Proof. unfold FloodAdapter.analyze. restamp st. Qed.
Lemma wildfire_restamp st st' latency o :
  WildfireAdapter.analyze latency st' o = map_res (restamp st') (WildfireAdapter.analyze latency st o).
Proof. unfold WildfireAdapter.analyze. restamp st. Qed.

(** Runs of a stateful adapter under two stamps: one state, results that differ
    by the stamp. *)
Definition restamps {S} (st' : stamp) (m' m : M S AnalysisResult.t) : Prop :=
  forall s, m' s = (map_res (restamp st') (m s).1, (m s).2).

Lemma restamps_lift {S} st' (r' r : res AnalysisResult.t) :
  r' = map_res (restamp st') r -> restamps st' (@lift S _ r') (lift r).
Proof. by intros ->. Qed.
Lemma restamps_bind {S A} st' (m : M S A) (k' k : A -> M S AnalysisResult.t) :
  (forall a, restamps st' (k' a) (k a)) -> restamps st' (bind m k') (bind m k).
Proof. intros H s. unfold bind. destruct (m s) as [[a|e] s1]; [apply H|done]. Qed.

Lemma landslide_restamp st st' o :
  restamps st' (LandslideAdapter.analyze st' o) (LandslideAdapter.analyze st o).
Proof.
  unfold LandslideAdapter.analyze.
  repeat (apply restamps_bind; intros ?; cbv zeta). apply restamps_lift, build_result_restamp.
Qed.

Lemma adapter_restamp latency st st' o :
  restamps st' (adapter latency st' o) (adapter latency st o).
Proof.
  unfold adapter. apply restamps_bind. intros e. destruct (Observation.hazard o).
  - apply restamps_lift, wildfire_restamp.
  - apply restamps_lift, flood_restamp.
  - apply restamps_lift, earthquake_restamp.
  - intros s. unfold zoom. rewrite (landslide_restamp st). by destruct (LandslideAdapter.analyze st o _).
Qed.

Section Analysis.
Context (uuid5 : string -> UUID).
Notation analyze := (analyze uuid5).

(** An analysis is a function of the observation.  Neither the random
    identifiers an adapter draws nor the clock it reads show in the answer,
    the exception or the state of the adapters: replaying the observations in
    order gives the analyses again (for one measured wildfire latency). *)
Theorem analysis_replays latency st st' o e : analyze latency st' o e = analyze latency st o e.
Proof.
  unfold AnalysisEnrichmentEngine.analyze. unfold bind at 1 4, get. cbv beta iota.
  unfold bind at 1 3, lift. destruct (MeasurementRegistry.sanitize o _) as [[o' report]|exc]; [|done].
  unfold bind. rewrite (adapter_restamp latency st).
  destruct (adapter latency st o' e) as [[r|exc] e'] eqn:Ha; cbn [fst snd map_res]; [|done].
  by destruct (expired o').
Qed.

(** ** Evidence *)

(** A usable measurement of the observation, admitted by the registry, stands
    for the value. *)
Definition backed (reg : MeasurementRegistry.t) (o : Observation.t) (key : string) : Prop :=
  exists m, m ∈ Observation.measurements o /\ MeasurementValue.source_value_key m = key /\
    MeasurementRegistry.usable_quality m = true /\ MeasurementRegistry.admitted reg m.

Lemma sanitized_backed reg o o' report key :
  MeasurementRegistry.sanitize o reg = Ok (o', report) -> key ∈ dom (Observation.values o') -> backed reg o key.
Proof.
  intros (Hv & -> & ->)%MeasurementRegistry.sanitize_ok Hk.
  destruct (MeasurementRegistry.report_properties _ _ Hv) as [Hu _].
  apply MeasurementRegistry.validate_valid in Hv as (_ & _ & Hall).
  apply elem_of_dom in Hk as [v [_ Hin]%map_lookup_filter_Some]. cbn [fst] in Hin. rewrite Hu in Hin.
  apply elem_of_sorted_set, list_elem_of_fmap in Hin as (m & -> & [Hm Husable]%list_elem_of_In%List.filter_In).
  apply list_elem_of_In in Hm. exists m. split_and!; [done|done|done|]. by apply (Forall_in _ _ _ Hall).
Qed.

Lemma sanitized_same reg o o' report :
  MeasurementRegistry.sanitize o reg = Ok (o', report) ->
  Observation.hazard o' = Observation.hazard o /\ Observation.clock_epoch o' = Observation.clock_epoch o /\
  expired o' = expired o.
Proof. by intros (_ & _ & ->)%MeasurementRegistry.sanitize_ok. Qed.

(** The values an escalated state of each hazard needs. *)
Definition rests_on (reg : MeasurementRegistry.t) (o : Observation.t) : Prop :=
  match Observation.hazard o with
  | HazardKind.EARTHQUAKE =>
      backed reg o "accel_x" /\ backed reg o "accel_y" /\ backed reg o "accel_z" /\ Observation.clock_epoch o <= 0
  | HazardKind.FLOOD => backed reg o "water_level_m" /\ backed reg o "rate_of_rise_m_per_h"
  | HazardKind.WILDFIRE => backed reg o "temporal_persistence"
  | HazardKind.LANDSLIDE => backed reg o "tilt_rate_deg_h" \/ backed reg o "vibration_rms"
  end.

Lemma none_missing (required d : gset string) key : required ∖ d = ∅ -> key ∈ required -> key ∈ d.
Proof. set_solver. Qed.

Lemma persistence_present o :
  fle (lit 1 2) (WildfireAdapter.persistence o) = true -> "temporal_persistence" ∈ dom (Observation.values o).
Proof.
  unfold WildfireAdapter.persistence, WildfireAdapter.clamped, value_or.
  destruct (Observation.values o !! "temporal_persistence") as [v|] eqn:Hv; [intros _; by apply elem_of_dom|].
  intros H. vm_compute in H. discriminate H.
Qed.

Lemma at_least_45 x : fle (lit 55 100) x = true -> fle (lit 45 100) x = true.
Proof. intros H. by apply (fle_trans _ (lit 55 100)); [vm_compute|]. Qed.

Lemma adapter_escalated latency st o report o' e r e' :
  MeasurementRegistry.sanitize o (measurements e) = Ok (o', report) ->
  adapter latency st o' e = (Ok r, e') -> escalated (AnalysisResult.state_hint r) ->
  rests_on (measurements e) o /\ fle (lit 45 100) (AnalysisResult.score r) = true.
Proof.
  intros Hs. assert (Hb := fun key => sanitized_backed _ _ _ _ key Hs).
  destruct (sanitized_same _ _ _ _ Hs) as (Hh & Hep & _). unfold adapter, rests_on, bind at 1, get. cbv beta iota.
  rewrite <- Hh, <- Hep. destruct (Observation.hazard o'); intros Ha Hesc.
  - injection Ha as Ha _. apply wildfire_escalation_guarded in Ha as [Ha _].
    destruct (Ha Hesc) as (Hp & _ & _ & _ & Hsc). split; [by apply Hb, persistence_present|by apply at_least_45].
  - injection Ha as Ha _. apply flood_escalation_guarded in Ha as [Ha _].
    destruct (Ha Hesc) as (Hm & _ & Hsc). split; [|by apply at_least_45].
    split; apply Hb; eapply none_missing; eauto; unfold FloodAdapter.required; set_solver.
  - injection Ha as Ha _. apply earthquake_escalation_guarded in Ha as [Ha _].
    destruct (Ha Hesc) as (Hm & Hc & _ & _ & Hsc). split; [|done].
    split_and!; [apply Hb; eapply none_missing; eauto; unfold EarthquakeAdapter.required; set_solver..|done].
  - unfold zoom in Ha. destruct (LandslideAdapter.analyze st o' (landslide e)) as [r1 l1] eqn:Hl.
    injection Ha as -> _. apply landslide_escalation_needs_movement in Hl as [Hl _].
    destruct (Hl Hesc) as (Hm & Hsc). split; [|by apply at_least_45].
    apply orb_true_iff in Hm as [Hm|Hm]; unfold has in Hm; apply bool_decide_eq_true in Hm; [left|right]; by apply Hb.
Qed.

(** The parts of an answer. *)
Lemma analyze_ok latency st o e r e' :
  analyze latency st o e = (Ok r, e') ->
  exists o' report raw, MeasurementRegistry.sanitize o (measurements e) = Ok (o', report) /\
    adapter latency st o' e = (Ok raw, e') /\
    let measured := add_reasons (List.filter measurement_reason (MeasurementContractReport.reason_codes report)) raw in
    r = identified uuid5 o
          (if expired o then add_reasons ["source_ttl_expired_zero_contribution"] (zero_contribution measured)
           else measured).
Proof.
  intros H. unfold AnalysisEnrichmentEngine.analyze in H.
  apply bind_ok in H as (e0 & e1 & [= <- <-] & H).
  apply bind_ok in H as ([o' report] & e1 & [= Hs <-] & H).
  apply bind_ok in H as (raw & e1 & Ha & [= <- <-]).
  exists o', report, raw. destruct (sanitized_same _ _ _ _ Hs) as (_ & _ & ->). by split_and!.
Qed.

(** C3: an escalated analysis rests on usable measurements.  When the answer
    suspects or confirms an event, the capture was at most five seconds old,
    the score is at least 0.45, and every value the hazard needs (the three
    acceleration axes and a clock that was not stepped, the water level and
    its rise, the persistence of the smoke, a tilt or a vibration) is in the
    observation as a measurement of usable quality within its contract. *)
Theorem escalation_rests_on_usable_measurements latency st o e r e' :
  analyze latency st o e = (Ok r, e') -> escalated (AnalysisResult.state_hint r) ->
  expired o = false /\ rests_on (measurements e) o /\ fle (lit 45 100) (AnalysisResult.score r) = true.
Proof.
  intros (o' & report & raw & Hs & Ha & ->)%analyze_ok. destruct (expired o).
  - intros Hesc. exfalso. by destruct Hesc as [H|H]; cbn in H.
  - intros Hesc. split; [done|]. exact (adapter_escalated _ _ _ _ _ _ _ _ Hs Ha Hesc).
Qed.

(** A stale capture contributes nothing, and every answer carries the identity
    of its observation. *)
Lemma analysis_identified latency st o e r e' :
  analyze latency st o e = (Ok r, e') ->
  AnalysisResult.correlation_id r = Observation.correlation_id o /\
  AnalysisResult.boot_id r = Observation.boot_id o /\
  AnalysisResult.source_mode r = Observation.source_mode o /\
  AnalysisResult.source_lineage r = Observation.source_lineage o /\
  AnalysisResult.produced_at r = Observation.received_at o /\
  AnalysisResult.event_time r = Some (Observation.observed_at o) /\
  (expired o = true ->
     AnalysisResult.score r = f0 /\ AnalysisResult.state_hint r = IncidentState.NORMAL /\
     "source_ttl_expired_zero_contribution" ∈ AnalysisResult.reason_codes r).
Proof.
  intros (o' & report & raw & Hs & Ha & ->)%analyze_ok. split_and!; try done.
  intros ->. split_and!; [done|done|]. cbn. apply elem_of_sorted_set. set_solver.
Qed.
End Analysis.

(** ** Concrete instances *)
Definition demo_analysis_engine : t :=
  mk MeasurementRegistry.demo_registry
    (FloodAdapter.mk FloodAdapter.default_profile None 3600 (lit 25 100) "forecast") demo_landslide.
Definition demo_quake_reading : Observation.t :=
  Observation.mk "2.0.0" "observation-2" "correlation-2" "imu-1" HazardKind.EARTHQUAKE SourceMode.LIVE
    "boot-1" 1 1000000 2000000
    {["accel_x" := lit 3 2; "accel_y" := lit 1 2; "accel_z" := f1]}
    {["accel_x" := "g"; "accel_y" := "g"; "accel_z" := "g"]} [] "lineage" 0 f0 [] ∅ ∅ ∅.
Definition demo_quake : Observation.t :=
  match Observation.validate demo_quake_reading with Ok o => o | Raise _ => demo_quake_reading end.
Definition demo_analyze (latency : f64) (o : Observation.t) : res AnalysisResult.t :=
  (analyze (fun s => s) latency demo_stamp o demo_analysis_engine).1.

Lemma escalation_rests_on_usable_measurements_witness :
  exists r, demo_analyze f0 demo_quake = Ok r /\ AnalysisResult.state_hint r = IncidentState.CONFIRMED /\
    backed (measurements demo_analysis_engine) demo_quake "accel_x".
Proof.
  assert (H : match demo_analyze f0 demo_quake with
    | Ok r => AnalysisResult.state_hint r = IncidentState.CONFIRMED | Raise _ => False end)
    by (vm_compute; reflexivity).
  unfold demo_analyze in *.
  destruct (analyze (fun s => s) f0 demo_stamp demo_quake demo_analysis_engine) as [[r|exc] e'] eqn:Ha;
    [|destruct H]. exists r. split_and!; [reflexivity|exact H|].
  destruct (escalation_rests_on_usable_measurements (fun s => s) f0 demo_stamp demo_quake demo_analysis_engine r e' Ha)
    as (_ & Hr & _); [right; exact H|]. exact (proj1 Hr).
Defined.

(** Two analyses of one wildfire observation have one identifier and different
    features, because the measured duration is one of them. *)
Lemma wildfire_analysis_holds_latency :
  match demo_analyze f0 MeasurementRegistry.demo_observation, demo_analyze f1 MeasurementRegistry.demo_observation with
  | Ok r, Ok r' => AnalysisResult.analysis_id r = AnalysisResult.analysis_id r' /\
      AnalysisResult.features r !! "stage1_latency_ms" = Some f0 /\
      AnalysisResult.features r' !! "stage1_latency_ms" = Some f1
  | _, _ => False
  end.
Proof. vm_compute. split_and!; reflexivity. Qed.
