(* ===== verification/Pipeline.v ===== *)
(** The scenario run (scenario/engine.py): how the collector, the scheduler, the
    analysis and the incident authority work together, over the virtual clock
    of runtime/clock.py.

    An observation comes with a [draw]: the fresh identifiers and the readings
    its analysis and its job take from outside.  The projections of trusted
    time, storage, timing and notifications in the result are not modelled. *)

From Stdlib Require Import ZArith.
From S2P Require Import Prelude Binary64 Enums Models Records Opportunities Scheduler Measurements Collector.
From S2P Require Import Hazards Analysis Journal Engine Spool.
Open Scope Z_scope.

Module VirtualClock.
Definition advance_ms (milliseconds_ : Z) (c : WorkloadScheduler.clock) : res WorkloadScheduler.clock :=
  check (milliseconds_ <? 0) (ValueError "cannot move virtual clock backwards") >>!
  Ok (WorkloadScheduler.mkClock (WorkloadScheduler.now_utc c + milliseconds milliseconds_)
        (WorkloadScheduler.monotonic_ns c + milliseconds_ * 1000000)).
End VirtualClock.

Module DeterministicScenarioEngine.

Record t : Type := mk {
  ready : bool;
  clock : WorkloadScheduler.clock;
  collector : StreamingSourceCollector.t;
  analysis : AnalysisEnrichmentEngine.t;
  runtime : WorkloadScheduler.t;
  authority : IncidentAuthority.t
}.
Definition set_clock v (s : t) : t := mk (ready s) v (collector s) (analysis s) (runtime s) (authority s).
Definition set_collector v (s : t) : t := mk (ready s) (clock s) v (analysis s) (runtime s) (authority s).
Definition set_analysis v (s : t) : t := mk (ready s) (clock s) (collector s) v (runtime s) (authority s).
Definition set_runtime v (s : t) : t := mk (ready s) (clock s) (collector s) (analysis s) v (authority s).
Definition set_authority v (s : t) : t := mk (ready s) (clock s) (collector s) (analysis s) (runtime s) v.

(** What one observation takes from outside. *)
Record draw : Type := mkDraw {
  analysis_stamp : stamp;
  wildfire_latency_ms : f64;
  job_id : UUID;
  unused_correlation_id : UUID
}.

(** The workloads of [default_configuration_bundle]. *)
Definition default_workloads : list WorkloadSpec.t :=
  [WorkloadSpec.mk "earthquake-trigger" HazardKind.EARTHQUAKE CriticalityTier.A_IMMEDIATE
     10 100 0 5 16 "seismic-trigger-v1" None;
   WorkloadSpec.mk "wildfire-stage2" HazardKind.WILDFIRE CriticalityTier.B_URGENT
     1000 1500 2000 80 96 "wildfire-deterministic-v1" (Some 5000);
   WorkloadSpec.mk "flood-evaluate" HazardKind.FLOOD CriticalityTier.C_TIMELY
     5000 3000 10000 15 24 "flood-rules-v2" None;
   WorkloadSpec.mk "landslide-evaluate" HazardKind.LANDSLIDE CriticalityTier.C_TIMELY
     5000 3000 10000 15 24 "landslide-rules-v2" None].

(** [_register_workloads] *)
Fixpoint register_workloads (specs : list WorkloadSpec.t) : M WorkloadScheduler.t unit :=
  match specs with
  | [] => ret tt
  | spec :: specs => WorkloadScheduler.register spec ;;; register_workloads specs
  end.

(** The scheduler [__init__] builds for the workloads of the active bundle. *)
Definition new_runtime (mode : RuntimeMode.t) (workloads : list WorkloadSpec.t) : res WorkloadScheduler.t :=
  let empty := WorkloadScheduler.init 128 64 mode
    (Some (list_to_set (WorkloadSpec.profile_id <$> workloads))) [] in
  match register_workloads workloads empty with
  | (Ok _, runtime) => Ok runtime
  | (Raise e, _) => Raise e
  end.

(** [workload_by_hazard] *)
Definition workload_by_hazard (h : HazardKind.t) : string :=
  match h with
  | HazardKind.EARTHQUAKE => "earthquake-trigger"
  | HazardKind.WILDFIRE => "wildfire-stage2"
  | HazardKind.FLOOD => "flood-evaluate"
  | HazardKind.LANDSLIDE => "landslide-evaluate"
  end.

(** [(received_at, source_id, sequence)] *)
Definition observation_leb (x y : Observation.t) : bool :=
  match Observation.received_at x ?= Observation.received_at y with
  | Lt => true
  | Gt => false
  | Eq => if bool_decide (Observation.source_id x = Observation.source_id y)
          then Observation.sequence x <=? Observation.sequence y
          else String.leb (Observation.source_id x) (Observation.source_id y)
  end.

Record result : Type := mkResult {
  scenario_id : string;
  observations : Z;
  analyses : Z;
  incident_versions : Z;
  authority_mutations : Z;
  dispatch_order : list string;
  final_states : list (string * IncidentState.t);
  source_health : list (string * HealthState.t);
  opportunity_counts : list (string * Z);
  opportunity_balanced : bool;
  trace_ids : list (string * UUID)
}.

Definition on_clock (ms : Z) : M t unit :=
  let! s := get in
  let! c := lift (VirtualClock.advance_ms ms (clock s)) in
  put (set_clock c s).

Section Run.
Context (uuid5 : string -> UUID) (isoformat : datetime -> string) (store_sha256 : payload -> string).
Context (dump_json : AnalysisResult.t -> string).

(** [{**raw, "correlation_id": ..., "observation_id": ...}] *)
Definition identify (scenario_id : string) (o : Observation.t) : Observation.t :=
  let name := scenario_id +:+ ":" +:+ Observation.source_id o +:+ ":" +:+ pretty (Observation.sequence o) in
  Observation.mk (Observation.schema_version o) (uuid5 ("sentinel-observation:" +:+ name))
    (uuid5 ("sentinel:" +:+ name)) (Observation.source_id o) (Observation.hazard o)
    (Observation.source_mode o) (Observation.boot_id o) (Observation.sequence o)
    (Observation.observed_at o) (Observation.received_at o) (Observation.values o) (Observation.units o)
    (Observation.quality_flags o) (Observation.source_lineage o) (Observation.clock_epoch o)
    (Observation.clock_uncertainty_ms o) (Observation.measurements o)
    (Observation.measurement_references o) (Observation.measurement_orientations o)
    (Observation.measurement_uncertainty o).

(** [self.clock.advance_ms(max(0, int(delta.total_seconds() * 1000)))] *)
Definition follow_clock (previous_received : option datetime) (o : Observation.t) : M t unit :=
  match previous_received with
  | None => ret tt
  | Some previous =>
      let! delta_ms := lift (py_int (fmul (total_seconds (Observation.received_at o - previous)) (of_Z 1000))) in
      on_clock (Z.max 0 delta_ms)
  end.

Definition submission_of (o : Observation.t) : WorkloadScheduler.submission :=
  WorkloadScheduler.mkSubmission (workload_by_hazard (Observation.hazard o))
    (JDict [("observation_id", JStr (Observation.observation_id o))])
    (Some (Observation.received_at o)) (Some (Observation.received_at o)) (Some (Observation.observed_at o))
    (Some (Observation.correlation_id o)).

Definition submit_job (d : draw) (o : Observation.t) : M t unit :=
  let! s := get in
  void (zoom runtime set_runtime
    (WorkloadScheduler.submit uuid5 isoformat (submission_of o) (clock s) (job_id d) (unused_correlation_id d))).

(** [traces[source_id] = str(incident.correlation_ids[-1])] *)
Definition trace (o : Observation.t) (incident : option IncidentRecord.t) (traces : list (string * UUID))
  : M t (list (string * UUID)) :=
  match incident with
  | None => ret traces
  | Some r =>
      match last (IncidentRecord.correlation_ids r) with
      | Some id => ret (dict_set (Observation.source_id o) id traces)
      | None => raise (OtherError "IndexError")
      end
  end.

(** One iteration of [for observation in observations]. *)
Definition observe (d : draw) (previous_received : option datetime) (o : Observation.t)
    (traces : list (string * UUID)) : M t (list (string * UUID)) :=
  follow_clock previous_received o ;;;
  let! _ := zoom collector set_collector (StreamingSourceCollector.ingest uuid5 isoformat o) in
  submit_job d o ;;;
  let! a := zoom analysis set_analysis
              (AnalysisEnrichmentEngine.analyze uuid5 (wildfire_latency_ms d) (analysis_stamp d) o) in
  let! incident := zoom authority set_authority
              (IncidentAuthority.apply_or_spool uuid5 store_sha256 dump_json a
                 (Some (Observation.received_at o))) in
  trace o incident traces.

Fixpoint observe_all (items : list (draw * Observation.t)) (previous_received : option datetime)
    (traces : list (string * UUID)) : M t (list (string * UUID)) :=
  match items with
  | [] => ret traces
  | (d, o) :: items =>
      let! traces := observe d previous_received o traces in
      observe_all items (Some (Observation.received_at o)) traces
  end.

Definition capability (id : string) (state : HealthState.t) (reasons : list string) : M t unit :=
  zoom authority set_authority (IncidentAuthority.capability id state reasons).

(** [while self.runtime.queued]: the fuel bounds the iterations, and no answer
    means it was spent. *)
Fixpoint drain (fuel : nat) (resources : ResourceSnapshot.t) (dispatch_order : list string)
  : M t (option (list string)) :=
  let! s := get in
  if WorkloadScheduler.queued (runtime s) =? 0 then ret (Some dispatch_order)
  else
    match fuel with
    | O => ret None
    | S fuel =>
        let! job := zoom runtime set_runtime
                      (WorkloadScheduler.dispatch resources (WorkloadScheduler.monotonic_ns (clock s))) in
        match job with
        | None =>
            capability "runtime" HealthState.DEGRADED ["admission_stalled"] ;;;
            ret (Some dispatch_order)
        | Some id =>
            let! s := get in
            match WorkloadScheduler.jobs (runtime s) !! id with
            | None => raise (KeyError id)
            | Some j =>
                let spec := JobRequest.workload j in
                on_clock (WorkloadSpec.estimated_cost_ms spec) ;;;
                let! s := get in
                zoom runtime set_runtime
                  (WorkloadScheduler.complete id (WorkloadScheduler.monotonic_ns (clock s))) ;;;
                drain fuel resources (dispatch_order ++ [WorkloadSpec.workload_id spec])
            end
        end
    end.

(** The clock starts over at the first observation. *)
Definition start_clock (observations : list Observation.t) : M t unit :=
  match observations with
  | [] => ret tt
  | o :: _ => modify (set_clock (WorkloadScheduler.mkClock (Observation.received_at o) 0))
  end.

Definition answer (id : string) (observations : list Observation.t) (dispatch_order : list string)
    (traces : list (string * UUID)) (s : t) : result :=
  let engine := IncidentAuthority.incidents (authority s) in
  let ledger := WorkloadScheduler.opportunities (runtime s) in
  {| scenario_id := id;
     DeterministicScenarioEngine.observations := Z.of_nat (length observations);
     analyses := Z.of_nat (length observations);
     incident_versions := Z.of_nat (length (IncidentEventEngine.journal engine));
     authority_mutations := Z.of_nat (length (IncidentJournalStore.authority_journal (IncidentEventEngine.store engine)));
     DeterministicScenarioEngine.dispatch_order := dispatch_order;
     final_states := (fun r => (HazardKind.value (IncidentRecord.hazard r), IncidentRecord.state r))
                       <$> IncidentEventEngine.current engine;
     source_health := (fun h => (SourceHealth.source_id h, SourceHealth.state h))
                        <$> StreamingSourceCollector.health (collector s);
     opportunity_counts := OpportunityLedger.counts ledger;
     opportunity_balanced := OpportunityLedger.balanced (OpportunityLedger.reconcile ledger);
     trace_ids := traces |}.

(** [draws] gives the i-th observation, in order of processing, its draw. *)
Definition run (id : string) (raw : list Observation.t) (resources : ResourceSnapshot.t) (draws : nat -> draw)
  : M t result :=
  let! s := get in
  raise_if (negb (ready s)) (RuntimeError "startup readiness barrier is not ready") ;;;
  let! identified := lift (rmap (fun o => Observation.validate (identify id o)) raw) in
  let observations := sort_by observation_leb identified in
  start_clock observations ;;;
  let! traces := observe_all (imap (fun i o => (draws i, o)) observations) None [] in
  let! resources := lift (ResourceSnapshot.validate resources) in
  let! s := get in
  let! order := drain (length (WorkloadScheduler.queue (runtime s))) resources [] in
  match order with
  | None => raise (OtherError "out of fuel")
  | Some order => gets (answer id observations order traces)
  end.
End Run.
End DeterministicScenarioEngine.
