(* ===== verification/PipelineTheorems.v ===== *)
(** What a scenario run promises: once the observations are in, it always
    answers, with every job settled or a stall declared; and two runs of one
    scenario give the same incidents. *)

From Stdlib Require Import ZArith Lia ZifyBool.
From S2P Require Import Prelude Binary64 Enums Models Records Opportunities Scheduler SchedulerTheorems SchedulerReplay.
From S2P Require Import Measurements Collector Hazards Analysis AnalysisTheorems Auth Journal Engine Spool Pipeline.
Import DeterministicScenarioEngine.
Open Scope Z_scope.

(** ** The jobs of the scheduler *)

(** A call adds at most one job, the one given with its workload, and never
    changes the workload of a job. *)
Definition adds_job (new : option (UUID * WorkloadSpec.t)) (s s' : WorkloadScheduler.t) : Prop :=
  WorkloadScheduler.registry_ s' = WorkloadScheduler.registry_ s /\
  forall k j, WorkloadScheduler.jobs s' !! k = Some j ->
    (exists j0, WorkloadScheduler.jobs s !! k = Some j0 /\ JobRequest.workload j = JobRequest.workload j0) \/
    new = Some (k, JobRequest.workload j).

#[local] Instance adds_job_preorder new : PreOrder (adds_job new).
Proof.
  split; [intros s; split; [done|eauto]|]. intros s1 s2 s3 [Hr1 H1] [Hr2 H2]. split; [congruence|].
  intros k j [(j0 & Hj0 & Hw)|Hk]%H2; [|by right].
  apply H1 in Hj0 as [(j1 & Hj1 & Hw1)|Hk]; [left; exists j1; split; congruence|right; congruence].
Qed.

Lemma same_jobs id s s' :
  WorkloadScheduler.registry_ s' = WorkloadScheduler.registry_ s ->
  WorkloadScheduler.jobs s' = WorkloadScheduler.jobs s -> adds_job id s s'.
Proof. intros H1 H2. split; [done|]. rewrite H2. eauto. Qed.

Lemma update_job_adds id k f :
  (forall j, JobRequest.workload (f j) = JobRequest.workload j) ->
  Steps (adds_job id) (WorkloadScheduler.update_job k f).
Proof.
  intros Hf. apply steps_modify. intros s. split; [done|]. cbn. intros k' j. rewrite lookup_alter.
  case_decide as Hk; [|eauto]. subst k'.
  intros (j0 & Hj0 & ->)%fmap_Some. left. exists j0. split; [done|apply Hf].
Qed.

#[local] Instance on_ledger_adds {A} id (m : M OpportunityLedger.t A) : Steps (adds_job id) (WorkloadScheduler.on_ledger m).
Proof.
  intros s r s'. unfold WorkloadScheduler.on_ledger, zoom. destruct (m _). intros [= _ <-]. by apply same_jobs.
Qed.

#[local] Instance declare_overload_adds id reason : Steps (adds_job id) (WorkloadScheduler.declare_overload reason).
Proof. apply steps_modify. intros s. by apply same_jobs. Qed.

Lemma modify_adds id f :
  (forall s, WorkloadScheduler.registry_ (f s) = WorkloadScheduler.registry_ s) ->
  (forall s, WorkloadScheduler.jobs (f s) = WorkloadScheduler.jobs s) -> Steps (adds_job id) (modify f).
Proof. intros H1 H2. apply steps_modify. intros s. by apply same_jobs. Qed.
#[local] Hint Extern 0 (Steps (adds_job _) (modify _)) => (apply modify_adds; intros; reflexivity) : typeclass_instances.
#[local] Hint Extern 0 (Steps (adds_job _) (WorkloadScheduler.update_job _ _)) =>
  (apply update_job_adds; intros; reflexivity) : typeclass_instances.

#[local] Instance admissible_adds id j r now_ns : Steps (adds_job id) (WorkloadScheduler.admissible j r now_ns).
Proof. unfold WorkloadScheduler.admissible. steps. Qed.

#[local] Instance dispatch_loop_adds id q held r now_ns :
  Steps (adds_job id) (WorkloadScheduler.dispatch_loop q held r now_ns).
Proof.
  revert held. induction q as [|x q IH]; intros held; cbn [WorkloadScheduler.dispatch_loop]; [apply _|].
  unfold WorkloadScheduler.reject_step, WorkloadScheduler.defer_step. steps; try apply IH.
Qed.

#[local] Instance dispatch_adds id r now_ns : Steps (adds_job id) (WorkloadScheduler.dispatch r now_ns).
Proof. unfold WorkloadScheduler.dispatch. steps. Qed.

#[local] Instance complete_adds id k now_ns : Steps (adds_job id) (WorkloadScheduler.complete k now_ns).
Proof. unfold WorkloadScheduler.complete. steps. Qed.

Lemma steps_lift_bind {S A B} (R : relation S) `{!PreOrder R} (r : res A) (k : A -> M S B) :
  (forall a, r = Ok a -> Steps R (k a)) -> Steps R (bind (lift r) k).
Proof.
  intros Hk s r' s'. unfold bind, lift. destruct r as [a|e]; [by apply Hk|]. intros [= _ <-]. reflexivity.
Qed.

(** A job costs no negative time. *)
Definition costs (s : WorkloadScheduler.t) : Prop :=
  map_Forall (fun _ j => 0 <= WorkloadSpec.estimated_cost_ms (JobRequest.workload j)) (WorkloadScheduler.jobs s).

Lemma adds_costs new s s' :
  adds_job new s s' -> (forall k w, new = Some (k, w) -> 0 <= WorkloadSpec.estimated_cost_ms w) ->
  costs s -> costs s'.
Proof.
  intros [_ H] Hnew Hc k j [(j0 & Hj0 & ->)|Hk]%H; [by apply (Hc _ _ Hj0)|by eapply Hnew].
Qed.

(** Between two scenarios nothing runs. *)
Record idle (s : WorkloadScheduler.t) : Prop := {
  idle_good : good s;
  idle_active : WorkloadScheduler.active s = [];
  idle_costs : costs s
}.

Section Submission.
Context (uuid5 : string -> UUID) (isoformat : datetime -> string).
Notation submit := (WorkloadScheduler.submit uuid5 isoformat).

Lemma submit_adds a c id cid s r s' spec :
  WorkloadScheduler.registry_ s !! WorkloadScheduler.sub_workload_id a = Some spec ->
  submit a c id cid s = (r, s') -> adds_job (Some (id, spec)) s s'.
Proof.
  intros Hs. unfold WorkloadScheduler.submit, bind at 1, get. cbv beta iota. rewrite Hs. cbv zeta.
  match goal with |- ?m s = _ -> _ => enough (Hm : Steps (adds_job (Some (id, spec))) m) by apply Hm end.
  unfold WorkloadScheduler.freeze, WorkloadScheduler.push. apply steps_bind; [apply _..|]. intros _.
  apply steps_bind; [apply _|destruct (decide _); apply _|]. intros _.
  apply steps_bind; [apply _..|]. intros opportunity. apply steps_lift_bind; [apply _|].
  intros j Hj. assert (JobRequest.workload j = spec) as Hw.
  { unfold JobRequest.validate in Hj. apply rbind_ok in Hj as (_ & _ & [= <-]). done. }
  apply steps_bind; [apply _| |intros _; steps].
  apply steps_modify. intros s1. split; [done|]. cbn. intros k jk [[<- <-]|[_ Hk]]%lookup_insert_Some; [|eauto].
  right. by rewrite Hw.
Qed.

Lemma submit_idle a c id cid s r s' :
  idle s -> WorkloadScheduler.jobs s !! id = None -> 0 <= WorkloadScheduler.monotonic_ns c ->
  submit a c id cid s = (r, s') ->
  idle s' /\ forall k, k <> id -> WorkloadScheduler.jobs s !! k = None -> WorkloadScheduler.jobs s' !! k = None.
Proof.
  intros [Hg Ha Hc] Hnew Hns H. pose proof (submit_good _ _ _ _ _ _ _ _ _ Hg Hnew Hns H) as Hg'.
  destruct (WorkloadScheduler.registry_ s !! WorkloadScheduler.sub_workload_id a) as [spec|] eqn:Hs.
  2:{ rewrite WorkloadScheduler.submit_unknown in H by done. injection H as _ <-. by split. }
  pose proof (submit_adds _ _ _ _ _ _ _ _ Hs H) as Hadd.
  assert (Hcost : 0 <= WorkloadSpec.estimated_cost_ms spec).
  { pose proof (good_registry _ Hg _ _ Hs) as Hv. unfold WorkloadSpec.validate in Hv.
    apply rbind_ok in Hv as (u & Hv%check_ok & _). rewrite negb_false_iff, !andb_true_iff in Hv. lia. }
  split.
  - split; [done| |by eapply adds_costs; [exact Hadd|intros k w [= <- <-]|]].
    destruct Hg as [Hwf Hreg].
    destruct (WorkloadScheduler.submit_run uuid5 isoformat a c id cid s Hwf Hreg Hnew Hns)
      as [[e He]|(spec' & j & s2 & He & Hacc)]; rewrite He in H; injection H as _ <-; [done|].
    by rewrite (WorkloadScheduler.ac_active _ _ _ _ _ _ Hacc).
  - intros k Hk Hn. destruct (WorkloadScheduler.jobs s' !! k) as [j|] eqn:Hj; [|done].
    apply Hadd in Hj as [(j0 & Hj0 & _)|[= <- _]]; congruence.
Qed.
End Submission.

(** ** The dispatch loop *)

(** What the loop leaves alone. *)
Definition kept (s s' : t) : Prop :=
  collector s' = collector s /\ analysis s' = analysis s /\
  IncidentAuthority.incidents (authority s') = IncidentAuthority.incidents (authority s) /\
  IncidentAuthority.critical_spool (authority s') = IncidentAuthority.critical_spool (authority s) /\
  IncidentAuthority.incident_authority_available (authority s')
  = IncidentAuthority.incident_authority_available (authority s).
#[local] Instance kept_preorder : PreOrder kept.
Proof. split; [intros s; unfold kept; by split_and!|]. intros a b c (?&?&?&?&?) (?&?&?&?&?). unfold kept. split_and!; congruence. Qed.

Definition runtime_capability (s : t) : option CapabilityMatrix.capability :=
  IncidentAuthority.capabilities (authority s) !! "runtime".

(** The loop ended with an empty queue, or has declared a stall. *)
Definition stalled (s : t) : Prop :=
  exists c, runtime_capability s = Some c /\ CapabilityMatrix.state c = HealthState.DEGRADED /\
    CapabilityMatrix.reason_codes c = ["admission_stalled"].
Definition settled (s : t) : Prop := WorkloadScheduler.queue (runtime s) = [] \/ stalled s.

Section Drain.
(** The lemmas on the scheduler are of any source of identifiers and texts. *)
Context (uuid5 : string -> UUID) (isoformat : datetime -> string).

Lemma dispatch_idle r now_ns s :
  idle s -> exists sel s', WorkloadScheduler.dispatch r now_ns s = (Ok sel, s') /\ good s' /\ costs s' /\
    match sel with
    | None => WorkloadScheduler.active s' = []
    | Some id => WorkloadScheduler.active s' = [id] /\
        (length (WorkloadScheduler.queue s') < length (WorkloadScheduler.queue s))%nat /\
        exists j, WorkloadScheduler.jobs s' !! id = Some j /\ JobRequest.status j = JobStatus.RUNNING
    end.
Proof.
  intros [Hg Ha Hc]. destruct (WorkloadScheduler.dispatch_run r now_ns s) as (sel & s' & Hd & Hpost); [apply Hg|].
  exists (WorkloadScheduler.job <$> sel), s'. split; [done|]. split; [by eapply dispatch_good|]. split.
  { apply (adds_costs None s); [|done|done]. by apply (dispatch_adds None r now_ns s _ _ Hd). }
  pose proof (WorkloadScheduler.dp_active _ _ _ _ _ Hpost) as Hact. rewrite Ha in Hact.
  destruct (WorkloadScheduler.dp_split _ _ _ _ _ Hpost) as (pre & rest & kp & dropped & Hq & Hp & Hq' & _ & _ & _).
  destruct sel as [x|]; [|done]. cbn in *. split; [done|]. split.
  - apply Permutation_length in Hp, Hq'. rewrite length_app in Hp, Hq'. rewrite Hq, length_app. cbn. lia.
  - pose proof (WorkloadScheduler.dp_running _ _ _ _ _ Hpost x eq_refl) as [Hs _].
    unfold WorkloadScheduler.status_of in Hs.
    destruct (WorkloadScheduler.jobs s' !! WorkloadScheduler.job x) as [j|]; [|done]. exists j. by injection Hs.
Qed.

Lemma complete_idle id now_ns j s :
  good s -> costs s -> WorkloadScheduler.active s = [id] -> WorkloadScheduler.jobs s !! id = Some j ->
  JobRequest.status j = JobStatus.RUNNING ->
  exists s', WorkloadScheduler.complete id now_ns s = (Ok tt, s') /\ idle s' /\
    WorkloadScheduler.queue s' = WorkloadScheduler.queue s.
Proof.
  intros Hg Hc Ha Hj Hrun. destruct (SchedulerTheorems.complete_run uuid5 isoformat id now_ns j s (good_wf _ Hg) Hj Hrun)
    as (rec & _ & Hrun').
  exists (SchedulerTheorems.completed j id now_ns rec s). split; [done|]. split; [|done]. split.
  - by apply completed_good.
  - cbn. rewrite Ha. cbn. by rewrite bool_decide_eq_true_2.
  - apply (adds_costs None s); [|done|done]. by apply (complete_adds None id now_ns s _ _ Hrun').
Qed.

Lemma capability_stalls s :
  is_Some (runtime_capability s) ->
  exists s', capability "runtime" HealthState.DEGRADED ["admission_stalled"] s = (Ok tt, s') /\
    kept s s' /\ runtime s' = runtime s /\ stalled s'.
Proof.
  intros [c Hc]. unfold capability, IncidentAuthority.capability, zoom, CapabilityMatrix.set, bind, get, put.
  unfold runtime_capability in Hc. rewrite Hc. eexists. split; [reflexivity|]. split_and!; [done|done|].
  unfold stalled, runtime_capability. cbn -[insert lookup]. unfold CapabilityMatrix.t. rewrite lookup_insert_eq. by eexists.
Qed.

Definition advanced (ms : Z) (s : t) : t :=
  set_clock (WorkloadScheduler.mkClock (WorkloadScheduler.now_utc (clock s) + milliseconds ms)
               (WorkloadScheduler.monotonic_ns (clock s) + ms * 1000000)) s.
Lemma on_clock_ok ms s : 0 <= ms -> on_clock ms s = (Ok tt, advanced ms s).
Proof.
  intros H. unfold on_clock, bind, get, lift, VirtualClock.advance_ms, put.
  by replace (ms <? 0) with false by lia.
Qed.

Lemma drain_settles fuel r order s :
  idle (runtime s) -> is_Some (runtime_capability s) ->
  (length (WorkloadScheduler.queue (runtime s)) <= fuel)%nat ->
  exists order' s', drain fuel r order s = (Ok (Some (order ++ order')), s') /\
    idle (runtime s') /\ kept s s' /\ settled s' /\
    (length order' <= length (WorkloadScheduler.queue (runtime s)))%nat.
Proof.
  revert order s. induction fuel as [|fuel IH]; intros order s Hidle Hcap Hfuel; cbn [drain];
    unfold bind at 1, get; cbv beta iota; unfold WorkloadScheduler.queued;
    destruct (Z.of_nat _ =? 0) eqn:Hq.
  1,3: exists [], s; rewrite app_nil_r; split_and!; [done|done|done| |cbn; lia];
    left; apply nil_length_inv; lia.
  { lia. }
  destruct (dispatch_idle r (WorkloadScheduler.monotonic_ns (clock s)) (runtime s) Hidle)
    as (sel & rt & Hd & Hg & Hc & Hsel).
  unfold bind at 1, zoom at 1. rewrite Hd. destruct sel as [id|].
  - destruct Hsel as (Ha & Hlen & j & Hj & Hrun). unfold bind at 1. cbn [runtime set_runtime]. rewrite Hj.
    unfold bind at 1. rewrite on_clock_ok by exact (Hc _ _ Hj).
    set (s1 := advanced _ _). unfold bind at 1. unfold bind at 1, zoom at 1.
    destruct (complete_idle id (WorkloadScheduler.monotonic_ns (clock s1)) j rt Hg Hc Ha Hj Hrun)
      as (rt' & Hcomp & Hidle' & Hq').
    change (runtime s1) with rt. rewrite Hcomp.
    destruct (IH (order ++ [WorkloadSpec.workload_id (JobRequest.workload j)]) (set_runtime rt' s1))
      as (order' & s' & Hrest & Hi & Hk & Hset & Hl); [done|done|cbn; rewrite Hq'; lia|].
    exists (WorkloadSpec.workload_id (JobRequest.workload j) :: order'), s'.
    rewrite <- app_assoc in Hrest. split_and!; [done|done| |done|cbn in *; rewrite Hq' in Hl; lia].
    etrans; [|exact Hk]. by split_and!.
  - destruct (capability_stalls (set_runtime rt s)) as (s' & Hcs & Hk & Hrt & Hst); [done|].
    exists [], s'. rewrite app_nil_r. unfold bind. rewrite Hcs.
    split_and!; [done| | |by right|cbn; lia].
    + rewrite Hrt. by split.
    + etrans; [|exact Hk]. by split_and!.
Qed.
End Drain.

(** ** The observation loop *)
Lemma advance_ok ms c c' :
  VirtualClock.advance_ms ms c = Ok c' -> 0 <= WorkloadScheduler.monotonic_ns c ->
  0 <= WorkloadScheduler.monotonic_ns c'.
Proof. unfold VirtualClock.advance_ms. intros (u & H%check_ok & [= <-])%rbind_ok Hc. cbn. lia. Qed.

Lemma follow_ok previous o s s0 :
  follow_clock previous o s = (Ok tt, s0) ->
  exists c, s0 = set_clock c s /\
    (0 <= WorkloadScheduler.monotonic_ns (clock s) -> 0 <= WorkloadScheduler.monotonic_ns c) /\
    forall s', clock s' = clock s -> follow_clock previous o s' = (Ok tt, set_clock c s').
Proof.
  unfold follow_clock. destruct previous as [previous|].
  - unfold bind at 1, lift. destruct (py_int _) as [n|e]; [|done].
    unfold on_clock, bind, get, lift, put.
    destruct (VirtualClock.advance_ms (Z.max 0 n) (clock s)) as [c|e] eqn:Hc; [|done].
    intros [= <-]. exists c. split_and!; [done|by eapply advance_ok|]. intros s' Hs'. by rewrite Hs', Hc.
  - intros [= <-]. exists (clock s). split_and!; [by destruct s|done|]. intros s' <-. by destruct s'.
Qed.

Section Observe.
Context (uuid5 : string -> UUID) (isoformat : datetime -> string) (store_sha256 : payload -> string).
Context (dump_json : AnalysisResult.t -> string).
Notation observe := (observe uuid5 isoformat store_sha256 dump_json).
Notation observe_all := (observe_all uuid5 isoformat store_sha256 dump_json).
Notation run := (run uuid5 isoformat store_sha256 dump_json).
Notation ingest := (StreamingSourceCollector.ingest uuid5 isoformat).
Notation submit := (WorkloadScheduler.submit uuid5 isoformat).
Notation analyze := (AnalysisEnrichmentEngine.analyze uuid5).
Notation apply_or_spool := (IncidentAuthority.apply_or_spool uuid5 store_sha256 dump_json).

(** The trace a record leaves. *)
Definition traced (o : Observation.t) (incident : option IncidentRecord.t) (traces : list (string * UUID))
  : list (string * UUID) :=
  match incident with
  | None => traces
  | Some r => match last (IncidentRecord.correlation_ids r) with
              | Some id => dict_set (Observation.source_id o) id traces | None => traces end
  end.

(** The calls an iteration that completes is made of. *)
Lemma observe_ok d previous o traces s traces' s1 :
  observe d previous o traces s = (Ok traces', s1) ->
  exists c col rt an au o' j a incident,
    follow_clock previous o s = (Ok tt, set_clock c s) /\
    ingest o (collector s) = (Ok o', col) /\
    submit (submission_of o) c (job_id d) (unused_correlation_id d) (runtime s) = (Ok j, rt) /\
    analyze (wildfire_latency_ms d) (analysis_stamp d) o (analysis s) = (Ok a, an) /\
    apply_or_spool a (Some (Observation.received_at o)) (authority s) = (Ok incident, au) /\
    traces' = traced o incident traces /\ s1 = mk (ready s) c col an rt au.
Proof.
  intros H. unfold DeterministicScenarioEngine.observe in H.
  apply bind_ok in H as ([] & s0 & Hf & H). pose proof Hf as (c & -> & _ & _)%follow_ok.
  apply bind_ok in H as (o' & s2 & Hi & H). apply zoom_ok in Hi as (col & Hi & ->).
  apply bind_ok in H as ([] & s3 & Hs & H). unfold submit_job in Hs.
  apply bind_ok in Hs as (z & s4 & [= <- <-] & Hs). apply void_run in Hs as ([j|e] & Hs & Hok); [|done].
  apply zoom_ok in Hs as (rt & Hs & ->).
  apply bind_ok in H as (a & s5 & Ha & H). apply zoom_ok in Ha as (an & Ha & ->).
  apply bind_ok in H as (incident & s6 & Hp & H). apply zoom_ok in Hp as (au & Hp & ->).
  exists c, col, rt, an, au, o', j, a, incident. split_and!; try done.
  - unfold trace in H. unfold traced. destruct incident as [r|]; [|by injection H].
    destruct (last _); [by injection H|done].
  - unfold trace in H. destruct incident as [r|]; [destruct (last _); [|done]|]; by injection H as _ <-.
Qed.

Lemma apply_or_spool_capabilities a at_ s incident s' :
  apply_or_spool a at_ s = (Ok incident, s') -> IncidentAuthority.capabilities s' = IncidentAuthority.capabilities s.
Proof.
  unfold IncidentAuthority.apply_or_spool. intros H. apply bind_ok in H as (z & s1 & [= <- <-] & H).
  destruct (IncidentAuthority.incident_authority_available s).
  - apply bind_ok in H as (r & s1 & Hz & [= _ <-]). by apply zoom_ok in Hz as (e & _ & ->).
  - apply bind_ok in H as (r & s1 & Hz & [= _ <-]). unfold catch in Hz.
    unfold zoom in Hz at 1. destruct (CriticalAnalysisSpool.enqueue _ _ _ _) as [[x|e] sp].
    + by injection Hz as _ <-.
    + destruct e; try done. apply bind_ok in Hz as (u & s2 & _ & Hz). by apply bind_ok in Hz as (u2 & s3 & _ & Hz).
Qed.

(** What the observation loop needs of the state it starts from. *)
Record observable (ids : list UUID) (s : t) : Prop := {
  obs_idle : idle (runtime s);
  obs_fresh : NoDup ids;
  obs_new : Forall (fun id => WorkloadScheduler.jobs (runtime s) !! id = None) ids;
  obs_clock : 0 <= WorkloadScheduler.monotonic_ns (clock s);
  obs_capability : is_Some (runtime_capability s)
}.

Lemma observe_observable d previous o traces s traces' s1 ids :
  observable (job_id d :: ids) s -> observe d previous o traces s = (Ok traces', s1) -> observable ids s1.
Proof.
  intros [Hi [Hd Hnd]%NoDup_cons [Hnew Hall]%Forall_cons Hc Hcap] H.
  apply observe_ok in H as (c & col & rt & an & au & o' & j & a & inc & Hf & _ & Hs & _ & Hp & _ & ->).
  apply follow_ok in Hf as (c' & Heq & Hcl & _). injection Heq as ->.
  destruct (submit_idle uuid5 isoformat _ _ _ _ _ _ _ Hi Hnew (Hcl Hc) Hs) as [Hi' Hkeep].
  split; [done|done| |by apply Hcl|].
  - eapply Forall_impl_in; [exact Hall|]. intros id Hin Hid. apply Hkeep; [|done]. by intros ->.
  - unfold runtime_capability in *. cbn. by rewrite (apply_or_spool_capabilities _ _ _ _ _ Hp).
Qed.

Lemma observe_all_observable items previous traces s traces' s1 :
  observable ((fun p => job_id p.1) <$> items) s -> observe_all items previous traces s = (Ok traces', s1) ->
  observable [] s1.
Proof.
  revert previous traces s. induction items as [|[d o] items IH]; intros previous traces s Hobs H; cbn in H.
  { by injection H as _ <-. }
  apply bind_ok in H as (traces1 & s2 & Ho & H). rewrite fmap_cons in Hobs.
  eapply IH; [|exact H]. exact (observe_observable _ _ _ _ _ _ _ _ Hobs Ho).
Qed.

(** ** Runs *)
Lemma imap_shift (draws : nat -> draw) (l : list Observation.t) k :
  imap (fun i o => (draws (S k + i)%nat, o)) l = imap ((fun i o => (draws (k + i)%nat, o)) ∘ S) l.
Proof. apply imap_ext. intros i x _. cbn. by rewrite Nat.add_succ_r. Qed.

Lemma drawn_jobs (draws : nat -> draw) (l : list Observation.t) k :
  (fun p : draw * Observation.t => job_id p.1) <$> imap (fun i o => (draws (k + i)%nat, o)) l
  = (fun i => job_id (draws i)) <$> seq k (length l).
Proof.
  revert k. induction l as [|o l IH]; intros k; [done|]. rewrite imap_cons. cbn. f_equal; [by rewrite Nat.add_0_r|].
  by rewrite <- IH, imap_shift.
Qed.

(** The job identifiers drawn for [n] observations are new. *)
Definition fresh_draws (draws : nat -> draw) (n : nat) (s : t) : Prop :=
  let ids := (fun i => job_id (draws i)) <$> seq 0 n in
  NoDup ids /\ Forall (fun id => WorkloadScheduler.jobs (runtime s) !! id = None) ids.

Lemma rmap_length {A B} (f : A -> res B) l k : rmap f l = Ok k -> length k = length l.
Proof.
  revert k. induction l as [|x l IH]; intros k; cbn; [by intros [= <-]|].
  intros (y & _ & (ys & Hys & [= <-])%rbind_ok)%rbind_ok. cbn. f_equal. by apply IH.
Qed.

Definition observed (id : string) (raw : list Observation.t) (observations : list Observation.t) : Prop :=
  exists identified, rmap (fun o => Observation.validate (identify uuid5 id o)) raw = Ok identified /\
    observations = sort_by observation_leb identified.
Definition observation_loop (observations : list Observation.t) (draws : nat -> draw) : M t (list (string * UUID)) :=
  start_clock observations ;;; observe_all (imap (fun i o => (draws i, o)) observations) None [].

Lemma run_unfold id raw resources draws observations traces s s1 :
  ready s = true -> observed id raw observations -> observation_loop observations draws s = (Ok traces, s1) ->
  ResourceSnapshot.validate resources = Ok resources ->
  run id raw resources draws s =
  match drain (length (WorkloadScheduler.queue (runtime s1))) resources [] s1 with
  | (Ok (Some order), s2) => (Ok (answer id observations order traces s2), s2)
  | (Ok None, s2) => (Raise (OtherError "out of fuel"), s2)
  | (Raise e, s2) => (Raise e, s2)
  end.
Proof.
  intros Hr (identified & Hid & ->) Hl Hv. unfold DeterministicScenarioEngine.run.
  unfold bind at 1, get at 1. rewrite Hr. rewrite bind_raise_if_false.
  unfold bind at 1, lift at 1. rewrite Hid. unfold observation_loop, bind in Hl. unfold bind at 1.
  destruct (start_clock (sort_by observation_leb identified) s) as [[[]|e] s0]; [|done].
  unfold bind at 1. rewrite Hl. unfold bind at 1, lift. rewrite Hv. unfold bind, get.
  by destruct (drain _ _ _ s1) as [[[order|]|e] s2].
Qed.

Lemma loop_observable observations draws traces s s1 :
  idle (runtime s) -> is_Some (runtime_capability s) -> fresh_draws draws (length observations) s ->
  0 <= WorkloadScheduler.monotonic_ns (clock s) ->
  observation_loop observations draws s = (Ok traces, s1) -> observable [] s1.
Proof.
  intros Hi Hcap [Hnd Hnew] Hc H. apply bind_ok in H as ([] & s0 & Hs & H).
  eapply observe_all_observable; [|exact H]. pose proof (drawn_jobs draws observations 0) as Hd. cbn [Nat.add] in Hd. rewrite Hd.
  assert (runtime s0 = runtime s /\ authority s0 = authority s /\ 0 <= WorkloadScheduler.monotonic_ns (clock s0))
    as (Hr & Ha & Hc0).
  { destruct observations; injection Hs as <-; cbn; split_and!; try done; lia. }
  split; rewrite ?Hr; try done. unfold runtime_capability. by rewrite Ha.
Qed.

(** C5: a scenario run answers and settles.  When nothing runs yet and the
    observations went through, the run always answers, within one dispatch per
    queued job, and accounts for every observation; afterwards no job is left
    running, the incidents are those of the observation loop, and either every
    opportunity has a terminal disposition, or jobs still wait and the runtime
    is declared degraded by a stalled admission. *)
Theorem scenario_run_settles id raw resources draws observations traces s s1 :
  ready s = true -> idle (runtime s) -> is_Some (runtime_capability s) ->
  0 <= WorkloadScheduler.monotonic_ns (clock s) -> fresh_draws draws (length observations) s ->
  observed id raw observations -> observation_loop observations draws s = (Ok traces, s1) ->
  ResourceSnapshot.validate resources = Ok resources ->
  exists answer s2, run id raw resources draws s = (Ok answer, s2) /\
    DeterministicScenarioEngine.observations answer = Z.of_nat (length raw) /\
    analyses answer = Z.of_nat (length raw) /\
    (length (dispatch_order answer) <= length (WorkloadScheduler.queue (runtime s1)))%nat /\
    WorkloadScheduler.active (runtime s2) = [] /\
    IncidentAuthority.incidents (authority s2) = IncidentAuthority.incidents (authority s1) /\
    (WorkloadScheduler.queue (runtime s2) = [] /\ opportunity_balanced answer = true \/
     WorkloadScheduler.queue (runtime s2) <> [] /\ stalled s2).
Proof.
  intros Hr Hi Hcap Hc Hf Hobs Hl Hv. rewrite (run_unfold _ _ _ _ _ _ _ _ Hr Hobs Hl Hv).
  pose proof (loop_observable _ _ _ _ _ Hi Hcap Hf Hc Hl) as [Hi1 _ _ _ Hcap1].
  destruct (drain_settles uuid5 isoformat _ resources [] s1 Hi1 Hcap1 (le_n _))
    as (order & s2 & -> & Hi2 & (_ & _ & Hinc & _) & Hset & Hlen).
  destruct Hobs as (identified & Hid & ->). apply rmap_length in Hid.
  assert (Hn : length (sort_by observation_leb identified) = length raw) by (by rewrite sort_by_perm).
  eexists _, s2. split; [reflexivity|]. cbn. rewrite Hn. split_and!; try done; [apply Hi2|].
  destruct (decide (WorkloadScheduler.queue (runtime s2) = [])) as [Hq|Hq].
  - left. split; [done|]. apply good_balanced; [apply Hi2|done|apply Hi2].
  - right. split; [done|]. by destruct Hset.
Qed.

(** ** Replay *)

(** Two states that differ in the identifiers of the scheduler's jobs. *)
Record alike (L : pairing) (s s' : t) : Prop := {
  al_ready : ready s' = ready s;
  al_clock : clock s' = clock s;
  al_collector : collector s' = collector s;
  al_analysis : analysis s' = analysis s;
  al_authority : authority s' = authority s;
  al_runtime : twins L (runtime s) (runtime s')
}.

(** What a call of the scheduler answers, its twin answers. *)
Lemma both_answer {A B} L L' (R : A -> B -> Prop) m m' s s' a s1 :
  Both L L' R m m' -> twins L s s' -> m s = (Ok a, s1) ->
  exists b s1', m' s' = (Ok b, s1') /\ R a b /\ twins L' s1 s1'.
Proof.
  intros Hm Hs H. specialize (Hm s s' Hs). rewrite H in Hm. destruct (m' s') as [[b|e] s1']; [|done].
  by exists b, s1'.
Qed.

Lemma observe_replays L d d' previous o traces s s' a s1 :
  alike L s s' -> one_one ((job_id d, job_id d') :: L) -> wildfire_latency_ms d' = wildfire_latency_ms d ->
  observe d previous o traces s = (Ok a, s1) ->
  exists s1', observe d' previous o traces s' = (Ok a, s1') /\ alike ((job_id d, job_id d') :: L) s1 s1'.
Proof.
  intros [Hready Hc Hcol Han Hau Hrt] HL Hlat H. unfold DeterministicScenarioEngine.observe, submit_job, void in H |- *.
  apply bind_ok in H as ([] & s0 & Hf & H). apply follow_ok in Hf as (c & -> & _ & Hsame).
  unfold bind at 1. rewrite (Hsame s' Hc).
  apply bind_ok in H as (o1 & s0 & (col & Hi & ->)%zoom_ok & H). unfold bind at 1, zoom at 1.
  cbn [collector set_clock] in Hi |- *. rewrite Hcol, Hi.
  apply bind_ok in H as (u & s0 & Hb & H). apply bind_ok in Hb as (z & s2 & [= <- <-] & Hb).
  apply bind_ok in Hb as (job & s2 & (rt & Hs & ->)%zoom_ok & [= <- <-]).
  cbn [runtime set_collector set_clock clock] in Hs.
  assert (Hc0 : is_Some (WorkloadScheduler.sub_correlation_id (submission_of o))) by by eexists.
  destruct (both_answer _ _ _ _ _ _ _ _ _ (submit_same uuid5 isoformat L _ _ HL (submission_of o) c (unused_correlation_id d)
    (unused_correlation_id d') Hc0) Hrt Hs) as (j' & rt' & Hs' & _ & Hrt').
  unfold bind at 1, bind at 1, get at 1, bind at 1, zoom at 1. cbn [runtime set_collector set_clock clock]. rewrite Hs'.
  apply bind_ok in H as (r & s0 & (an & Ha & ->)%zoom_ok & H). unfold ret at 1, bind at 1, zoom at 1.
  cbn [analysis set_runtime set_collector set_clock] in Ha |- *.
  rewrite Hlat, Han, (analysis_replays uuid5 _ (analysis_stamp d)), Ha.
  apply bind_ok in H as (inc & s0 & (au & Hp & ->)%zoom_ok & H). unfold bind at 1, zoom at 1.
  cbn [authority set_analysis set_runtime set_collector set_clock] in Hp |- *. rewrite Hau, Hp.
  unfold trace in H |- *. destruct inc as [inc|]; [destruct (last _); [|done]|]; injection H as <- <-;
    (eexists; split; [reflexivity|by split]).
Qed.

Lemma observe_all_replays (draws draws' : nat -> draw) observations k L previous traces s s' a s1 :
  (forall i, wildfire_latency_ms (draws' i) = wildfire_latency_ms (draws i)) -> alike L s s' ->
  one_one (zip ((fun i => job_id (draws i)) <$> seq k (length observations))
             ((fun i => job_id (draws' i)) <$> seq k (length observations)) ++ L) ->
  observe_all (imap (fun i o => (draws (k + i)%nat, o)) observations) previous traces s = (Ok a, s1) ->
  exists L' s1', observe_all (imap (fun i o => (draws' (k + i)%nat, o)) observations) previous traces s' = (Ok a, s1') /\
    one_one L' /\ alike L' s1 s1'.
Proof.
  intros Hlat. revert k L previous traces s s'.
  induction observations as [|o obs IH]; intros k L previous traces s s' Hal HL H.
  { injection H as <- <-. by exists L, s'. }
  rewrite imap_cons in H |- *. cbn in H, HL |- *. rewrite Nat.add_0_r in H |- *. apply one_one_next in HL as [Hnext HL].
  apply bind_ok in H as (t1 & s2 & Ho & H).
  destruct (observe_replays _ _ _ _ _ _ _ _ _ _ Hal Hnext (Hlat _) Ho) as (s2' & Ho' & Hal').
  unfold bind. rewrite Ho'. rewrite <- imap_shift in H |- *. eapply IH; [exact Hal'|exact HL|exact H].
Qed.

Lemma drain_replays L fuel r order s s' a s1 :
  one_one L -> alike L s s' -> drain fuel r order s = (Ok a, s1) ->
  exists s1', drain fuel r order s' = (Ok a, s1') /\ alike L s1 s1'.
Proof.
  intros HL. revert order s s'. induction fuel as [|fuel IH]; intros order s s' Hal H; cbn [drain] in H |- *;
    pose proof Hal as [Hready Hc Hcol Han Hau Hrt]; unfold bind at 1, get at 1 in H; unfold bind at 1, get at 1;
    assert (Hq : WorkloadScheduler.queued (runtime s') = WorkloadScheduler.queued (runtime s))
      by (destruct Hrt; unfold WorkloadScheduler.queued; cbn; by erewrite <- Forall2_length);
    rewrite Hq; destruct (WorkloadScheduler.queued (runtime s) =? 0).
  1-3: injection H as <- <-; by exists s'.
  apply bind_ok in H as (sel & s2 & (rt & Hd & ->)%zoom_ok & H). unfold bind at 1, zoom at 1. rewrite Hc.
  destruct (both_answer _ _ _ _ _ _ _ _ _ (dispatch_same L HL _ _) Hrt Hd) as (sel' & rt' & -> & Hsel & Hrt').
  assert (Hal2 : alike L (set_runtime rt s) (set_runtime rt' s')) by by split.
  destruct Hsel as [x y Hxy|].
  - apply bind_ok in H as (z & s3 & [= <- <-] & H). unfold bind at 1, get at 1. cbn [runtime set_runtime] in H |- *.
    assert (Hj : exists j, WorkloadScheduler.jobs rt !! x = Some j /\ WorkloadScheduler.jobs rt' !! y = Some (with_id y j))
      by (destruct Hrt' as [q js ids d _ _ Hj]; destruct (Hj _ _ Hxy) as (j & ? & _ & ?); by exists j).
    destruct Hj as (j & Hjx & Hjy). rewrite Hjx in H. rewrite Hjy. cbn [with_id JobRequest.workload].
    apply bind_ok in H as ([] & s3 & Hck & H). unfold on_clock in Hck. apply bind_ok in Hck as (z & s4 & [= <- <-] & Hck).
    apply bind_ok in Hck as (c & s4 & [= Hadv <-] & [= <-]). unfold bind at 1, on_clock, bind at 1, get at 1.
    unfold bind at 1, lift. cbn [clock set_runtime] in Hadv |- *. rewrite Hc, Hadv. unfold put.
    apply bind_ok in H as (z & s4 & [= <- <-] & H). unfold bind at 1, get at 1.
    apply bind_ok in H as ([] & s4 & (rt2 & Hcm & ->)%zoom_ok & H). unfold bind at 1, zoom at 1.
    cbn [runtime set_runtime set_clock clock] in Hcm |- *.
    destruct (both_answer _ _ _ _ _ _ _ _ _ (complete_same L HL _ _ _ Hxy) Hrt' Hcm) as ([] & rt2' & -> & _ & Hrt2).
    eapply IH; [|exact H]. by split.
  - apply bind_ok in H as ([] & s3 & Hcap & [= <- <-]). unfold capability in Hcap |- *.
    apply zoom_ok in Hcap as (au & Hcap & ->). unfold bind, zoom. cbn [authority set_runtime] in Hcap |- *.
    rewrite Hau, Hcap. eexists. split; [reflexivity|]. by split.
Qed.

(** C6: a scenario run does not depend on the identifiers it draws.  If a run
    from a well-formed scheduler answers, then so does every run of the same
    scenario from the same state that draws other fresh identifiers for its
    jobs, whatever its analyses are stamped with, as long as the
    measured wildfire latencies are the same; and the two answer the same result (the
    dispatch order, the counts and balance of the opportunities, the final
    states, the source health, the traces), with the same incidents and
    capabilities, collector, analysis engine, clock and opportunity ledger. *)
Theorem scenario_replays id raw resources draws draws' s a s1
    (Hs : good (runtime s))
    (Hfresh : fresh_draws draws (length raw) s) (Hfresh' : fresh_draws draws' (length raw) s)
    (Hlat : forall i, wildfire_latency_ms (draws' i) = wildfire_latency_ms (draws i))
    (H : run id raw resources draws s = (Ok a, s1)) :
  exists s1', run id raw resources draws' s = (Ok a, s1') /\
    authority s1' = authority s1 /\ collector s1' = collector s1 /\ analysis s1' = analysis s1 /\
    clock s1' = clock s1 /\
    WorkloadScheduler.opportunities (runtime s1') = WorkloadScheduler.opportunities (runtime s1).
Proof.
  unfold DeterministicScenarioEngine.run in H |- *. unfold bind at 1, get at 1. apply bind_ok in H as (z & s0 & [= <- <-] & H).
  apply bind_ok in H as ([] & s0 & [Hr ->]%raise_if_ok & H). rewrite Hr, bind_raise_if_false.
  apply bind_ok in H as (identified & s0 & [= Hid <-] & H). unfold bind at 1, lift at 1. rewrite Hid.
  apply bind_ok in H as ([] & s2 & Hclk & H). unfold bind at 1. rewrite Hclk.
  assert (Hrt : runtime s2 = runtime s) by (destruct (sort_by observation_leb identified); by injection Hclk as <-).
  assert (Hlen : length (sort_by observation_leb identified) = length raw)
    by (rewrite sort_by_perm; by eapply rmap_length).
  apply bind_ok in H as (traces & s3 & Hl & H). destruct Hfresh as [Hnd Hnew], Hfresh' as [Hnd' Hnew'].
  destruct (observe_all_replays draws draws' (sort_by observation_leb identified) 0 (self (runtime s)) None [] s2 s2 traces s3)
    as (L & s3' & Hl' & HL & Hal); [done| | |exact Hl|].
  { split; try done. rewrite Hrt. apply twins_self, Hs. }
  { rewrite Hlen. apply self_extends; try done. by rewrite !length_fmap. }
  unfold bind at 1. cbn [Nat.add] in Hl'. rewrite Hl'.
  apply bind_ok in H as (rs & s4 & [= Hv <-] & H). unfold bind at 1, lift. rewrite Hv.
  apply bind_ok in H as (z & s4 & [= <- <-] & H). unfold bind at 1, get.
  apply bind_ok in H as ([order|] & s4 & Hd & H); [|done]. unfold gets in H. injection H as <- <-.
  destruct (drain_replays L _ _ _ _ _ _ _ HL Hal Hd) as (s4' & Hd' & [Hready Hc Hcol Han Hau Htw]).
  assert (Hq : length (WorkloadScheduler.queue (runtime s3')) = length (WorkloadScheduler.queue (runtime s3)))
    by (destruct Hal as [_ _ _ _ _ []]; cbn; symmetry; by eapply Forall2_length).
  assert (Hop : WorkloadScheduler.opportunities (runtime s4') = WorkloadScheduler.opportunities (runtime s4))
    by by destruct Htw.
  exists s4'. rewrite Hq. unfold bind. rewrite Hd'. split; [|by split_and!].
  unfold gets, answer. by rewrite Hau, Hcol, Hop.
Qed.
End Observe.

(** A new scheduler is idle. *)
Lemma new_runtime_idle mode workloads runtime :
  Forall (fun w => WorkloadSpec.validate w = Ok w) workloads ->
  new_runtime mode workloads = Ok runtime -> idle runtime /\ WorkloadScheduler.jobs runtime = ∅.
Proof.
  unfold new_runtime. set (s0 := WorkloadScheduler.init _ _ _ _ _). intros Hv.
  assert (Hs : good s0 /\ WorkloadScheduler.active s0 = [] /\ WorkloadScheduler.jobs s0 = ∅)
    by (split_and!; [apply init_good|done|done]).
  clearbody s0. revert s0 Hs. induction Hv as [|w ws Hw _ IH]; intros s0 (Hg & Ha & Hj); cbn.
  - intros [= <-]. split; [|done]. split; [done|done|]. unfold costs. rewrite Hj. apply map_Forall_empty.
  - unfold bind. destruct (WorkloadScheduler.register w s0) as [[[]|e] s1] eqn:Hr; [|done].
    apply IH. split; [by eapply register_good|].
    unfold WorkloadScheduler.register, bind, get, raise_if, put, raise, ret in Hr. by repeat case_match; simplify_eq.
Qed.

(** ** A concrete run: a shaking and a smoke *)
Definition demo_runtime : WorkloadScheduler.t :=
  match new_runtime RuntimeMode.JUDGE default_workloads with
  | Ok r => r | Raise _ => WorkloadScheduler.init 0 0 RuntimeMode.JUDGE None [] end.
Definition demo_collector : StreamingSourceCollector.t :=
  StreamingSourceCollector.mk 64 MeasurementRegistry.demo_registry ∅ SourceCursorStore.init [] ∅.
Definition demo_authority : IncidentAuthority.t :=
  IncidentAuthority.mk
    (IncidentEventEngine.init IncidentJournalStore.init 8
       (CommandAuthorizer.mk "0123456789abcdef0123456789abcdef" "local-policy-v1" 30))
    (CriticalAnalysisSpool.mk 256 4194304 900 [] 1 []) CapabilityMatrix.init true.
Definition demo_pipeline : t :=
  mk true (WorkloadScheduler.mkClock 0 0) demo_collector demo_analysis_engine demo_runtime demo_authority.
Definition demo_raw : list Observation.t := [MeasurementRegistry.demo_reading; demo_quake_reading].
Definition demo_draws (salt : string) (i : nat) : draw :=
  mkDraw (mkStamp (salt +:+ "analysis" +:+ pretty i) (salt +:+ "correlation" +:+ pretty i) 0) f1
    (salt +:+ "job" +:+ pretty i) "".
Definition demo_pipeline_sha256 (p : payload) : string := "digest".
Definition demo_pipeline_dump (a : AnalysisResult.t) : string := "analysis".
Notation demo_pipeline_run :=
  (run (fun s => s) pretty demo_pipeline_sha256 demo_pipeline_dump "demo" demo_raw (demo_resources 512)).
Definition demo_observations : list Observation.t :=
  match rmap (fun o => Observation.validate (identify (fun s => s) "demo" o)) demo_raw with
  | Ok l => sort_by observation_leb l | Raise _ => [] end.
Notation demo_loop :=
  (observation_loop (fun s => s) pretty demo_pipeline_sha256 demo_pipeline_dump demo_observations (demo_draws "a")
     demo_pipeline).

Lemma demo_pipeline_ready :
  idle (runtime demo_pipeline) /\ is_Some (runtime_capability demo_pipeline) /\
  fresh_draws (demo_draws "a") (length demo_observations) demo_pipeline.
Proof.
  assert (Hn : new_runtime RuntimeMode.JUDGE default_workloads = Ok demo_runtime) by (vm_compute; reflexivity).
  apply new_runtime_idle in Hn as [Hi Hj]; [|repeat constructor].
  split; [exact Hi|]. split; [vm_compute; by eexists|].
  change (length demo_observations) with 2%nat. split.
  - apply (bool_decide_unpack _). vm_compute. exact I.
  - change (runtime demo_pipeline) with demo_runtime. rewrite Hj. repeat constructor; apply lookup_empty.
Qed.

Lemma demo_other_draws : fresh_draws (demo_draws "b") (length demo_raw) demo_pipeline.
Proof.
  split.
  - apply (bool_decide_unpack _). vm_compute. exact I.
  - assert (Hn : new_runtime RuntimeMode.JUDGE default_workloads = Ok demo_runtime) by (vm_compute; reflexivity).
    apply new_runtime_idle in Hn as [_ Hj]; [|repeat constructor].
    change (runtime demo_pipeline) with demo_runtime. rewrite Hj. repeat constructor; apply lookup_empty.
Qed.

Lemma scenario_run_settles_witness :
  exists answer s2, demo_pipeline_run (demo_draws "a") demo_pipeline = (Ok answer, s2) /\
    observations answer = 2 /\ WorkloadScheduler.active (runtime s2) = [].
Proof.
  assert (Hok : is_ok demo_loop.1 = true) by (vm_compute; reflexivity).
  destruct demo_loop as [[traces|e] s1] eqn:Hl; [|discriminate Hok].
  destruct demo_pipeline_ready as (Hi & Hc & Hf).
  destruct (scenario_run_settles (fun s => s) pretty demo_pipeline_sha256 demo_pipeline_dump "demo" demo_raw
    (demo_resources 512) (demo_draws "a") demo_observations traces demo_pipeline s1)
    as (answer & s2 & Hrun & Hobs & _ & _ & Ha & _).
  - reflexivity.
  - exact Hi.
  - exact Hc.
  - vm_compute. discriminate.
  - exact Hf.
  - eexists. split; [vm_compute; reflexivity|vm_compute; reflexivity].
  - exact Hl.
  - vm_compute. reflexivity.
  - exists answer, s2. split; [exact Hrun|]. split; [exact Hobs|exact Ha].
Defined.

Lemma scenario_replays_witness :
  exists a s1 s1', demo_pipeline_run (demo_draws "a") demo_pipeline = (Ok a, s1) /\
    demo_pipeline_run (demo_draws "b") demo_pipeline = (Ok a, s1') /\
    dispatch_order a = ["earthquake-trigger"; "wildfire-stage2"] /\
    WorkloadScheduler.opportunities (runtime s1') = WorkloadScheduler.opportunities (runtime s1).
Proof.
  assert (Ha : match (demo_pipeline_run (demo_draws "a") demo_pipeline).1 with
               | Ok a => dispatch_order a = ["earthquake-trigger"; "wildfire-stage2"] | Raise _ => False end)
    by (vm_compute; reflexivity).
  destruct (demo_pipeline_run (demo_draws "a") demo_pipeline) as [[a|e] s1] eqn:H1; [|destruct Ha].
  destruct demo_pipeline_ready as (Hi & _ & Hf).
  destruct (scenario_replays (fun s => s) pretty demo_pipeline_sha256 demo_pipeline_dump "demo" demo_raw
    (demo_resources 512) (demo_draws "a") (demo_draws "b") demo_pipeline a s1) as (s1' & H2 & _ & _ & _ & _ & Ho).
  - exact (idle_good _ Hi).
  - exact Hf.
  - exact demo_other_draws.
  - intros i. reflexivity.
  - exact H1.
  - exists a, s1, s1'. split; [reflexivity|]. split; [exact H2|]. split; [exact Ha|exact Ho].
Defined.

(** Jobs that are all rejected leave nothing waiting, and the run declares a
    stall all the same. *)
Lemma drained_queue_declared_stalled :
  exists s s', drain 1 (demo_resources 0) [] s = (Ok (Some []), s') /\
    WorkloadScheduler.queue (runtime s) <> [] /\ WorkloadScheduler.queue (runtime s') = [] /\ stalled s'.
Proof.
  pose (sub := WorkloadScheduler.submit (fun s => s) pretty
    (WorkloadScheduler.mkSubmission "earthquake-trigger" JNull None None None None)
    (WorkloadScheduler.mkClock 0 0) "job" "correlation" demo_runtime).
  exists (set_runtime sub.2 demo_pipeline), (drain 1 (demo_resources 0) [] (set_runtime sub.2 demo_pipeline)).2.
  split; [vm_compute; reflexivity|]. split; [vm_compute; discriminate|]. split; [vm_compute; reflexivity|].
  eexists. split; [vm_compute; reflexivity|]. split; vm_compute; reflexivity.
Qed.
