(* ===== verification/ModelGraph.v ===== *)
(** Inspection of a model file (runtime/model_packages.py, first half): the
    protobuf wire format, the budget that bounds the work, and the parts of an
    ONNX graph the admission of a package looks at.

    [data] stands for what is left of a Python [data[offset:]]; a generator
    with the loop that consumes it is one loop with the consumer's body.
    [ProtobufParseError] is a subclass of [ValueError] that nothing tells from
    it.  [sha256] is a parameter; text is its UTF-8 encoding. *)

From Stdlib Require Import ZArith.
From S2P Require Import Prelude Binary64 Enums Models CanonicalJson.
Open Scope Z_scope.

Definition ProtobufParseError (msg : string) : exn := ValueError msg.

(** Raised by no code: the fuel of a loop is used up.  [ModelGraphTheorems]
    shows that it never happens. *)
Definition OutOfFuel : exn := OtherError "OutOfFuel".

Definition len (s : string) : Z := Z.of_nat (String.length s).

(** [s[n:]] *)
Fixpoint drop_bytes (n : nat) (s : string) : string :=
  match n, s with
  | S n, String _ s => drop_bytes n s
  | _, _ => s
  end.
(** [s[:n]] *)
Fixpoint take_bytes (n : nat) (s : string) : string :=
  match n, s with
  | S n, String c s => String c (take_bytes n s)
  | _, _ => ""
  end.

(** [_DTYPE_INFO] *)
Definition _DTYPE_INFO : list (Z * (string * option Z)) :=
  [(1, ("float32", Some 4)); (2, ("uint8", Some 1)); (3, ("int8", Some 1));
   (4, ("uint16", Some 2)); (5, ("int16", Some 2)); (6, ("int32", Some 4));
   (7, ("int64", Some 8)); (8, ("string", None)); (9, ("bool", Some 1));
   (10, ("float16", Some 2)); (11, ("float64", Some 8)); (12, ("uint32", Some 4));
   (13, ("uint64", Some 8)); (14, ("complex64", Some 8)); (15, ("complex128", Some 16));
   (16, ("bfloat16", Some 2)); (17, ("float8e4m3fn", Some 1)); (18, ("float8e4m3fnuz", Some 1));
   (19, ("float8e5m2", Some 1)); (20, ("float8e5m2fnuz", Some 1))].

(** [_DTYPE_INFO.get(number, (f"onnx_dtype_{number}", None))[0]] *)
Definition dtype_name (number : Z) : string :=
  match dict_get number _DTYPE_INFO with
  | Some info => info.1
  | None => "onnx_dtype_" +:+ pretty number
  end.

(** ** The budget *)
Module ParseBudget.
Record t : Type := mk {
  max_total_bytes : Z;
  max_fields : Z;
  max_depth : Z;
  max_string_bytes : Z;
  max_nodes : Z;
  max_initializers : Z;
  max_attributes : Z;
  fields_seen : Z;
  nodes_seen : Z;
  initializers_seen : Z;
  attributes_seen : Z
}.
Definition default (max_total_bytes : Z) : t :=
  mk max_total_bytes 100000 16 4096 100000 100000 200000 0 0 0 0.
Definition count_field (b : t) : t :=
  mk (max_total_bytes b) (max_fields b) (max_depth b) (max_string_bytes b) (max_nodes b)
    (max_initializers b) (max_attributes b) (fields_seen b + 1) (nodes_seen b)
    (initializers_seen b) (attributes_seen b).
Definition count_node (b : t) : t :=
  mk (max_total_bytes b) (max_fields b) (max_depth b) (max_string_bytes b) (max_nodes b)
    (max_initializers b) (max_attributes b) (fields_seen b) (nodes_seen b + 1)
    (initializers_seen b) (attributes_seen b).
Definition count_initializer (b : t) : t :=
  mk (max_total_bytes b) (max_fields b) (max_depth b) (max_string_bytes b) (max_nodes b)
    (max_initializers b) (max_attributes b) (fields_seen b) (nodes_seen b)
    (initializers_seen b + 1) (attributes_seen b).
Definition count_attribute (b : t) : t :=
  mk (max_total_bytes b) (max_fields b) (max_depth b) (max_string_bytes b) (max_nodes b)
    (max_initializers b) (max_attributes b) (fields_seen b) (nodes_seen b)
    (initializers_seen b) (attributes_seen b + 1).

Definition consume (depth : Z) : M t unit :=
  let! b := get in
  raise_if (depth >? max_depth b) (ProtobufParseError "protobuf_recursion_limit_exceeded") ;;;
  modify count_field ;;;
  let! b := get in
  raise_if (fields_seen b >? max_fields b) (ProtobufParseError "protobuf_field_limit_exceeded").
Definition consume_node : M t unit :=
  modify count_node ;;;
  let! b := get in
  raise_if (nodes_seen b >? max_nodes b) (ProtobufParseError "onnx_node_limit_exceeded").
Definition consume_initializer : M t unit :=
  modify count_initializer ;;;
  let! b := get in
  raise_if (initializers_seen b >? max_initializers b)
    (ProtobufParseError "onnx_initializer_limit_exceeded").
Definition consume_attribute : M t unit :=
  modify count_attribute ;;;
  let! b := get in
  raise_if (attributes_seen b >? max_attributes b)
    (ProtobufParseError "onnx_attribute_limit_exceeded").
End ParseBudget.

(** ** The wire format *)
Module Protobuf.

(** The passes [for _ in range(10)] that are left. *)
Fixpoint varint_loop (passes : nat) (value shift : Z) (data : string) : res (Z * string) :=
  match passes with
  | O => Raise (ProtobufParseError "oversized_varint")
  | S passes =>
      match data with
      | EmptyString => Raise (ProtobufParseError "truncated_varint")
      | String c data =>
          let byte := Z.of_nat (Ascii.nat_of_ascii c) in
          let value := Z.lor value (Z.shiftl (Z.land byte 127) shift) in
          if Z.land byte 128 =? 0 then Ok (value, data)
          else varint_loop passes value (shift + 7) data
      end
  end.
Definition read_varint (data : string) : res (Z * string) := varint_loop 10 0 0 data.

(** The wire type and the value that goes with it. *)
Inductive payload : Type :=
  | Varint (value : Z)
  | Fixed64 (value : string)
  | Delimited (value : string)
  | Fixed32 (value : string).

(** What follows the key of a field. *)
Definition read_payload (wire : Z) (data : string) : res (payload * string) :=
  if wire =? 0 then rbind (read_varint data) (fun x => Ok (Varint x.1, x.2))
  else if wire =? 1 then
    check (8 >? len data) (ProtobufParseError "truncated_fixed64") >>!
    Ok (Fixed64 (take_bytes 8 data), drop_bytes 8 data)
  else if wire =? 2 then
    rbind (read_varint data) (fun x =>
    check (x.1 >? len x.2) (ProtobufParseError "truncated_length_delimited") >>!
    Ok (Delimited (take_bytes (Z.to_nat x.1) x.2), drop_bytes (Z.to_nat x.1) x.2))
  else if wire =? 5 then
    check (4 >? len data) (ProtobufParseError "truncated_fixed32") >>!
    Ok (Fixed32 (take_bytes 4 data), drop_bytes 4 data)
  else Raise (ProtobufParseError ("unsupported_wire_type:" +:+ pretty wire)).

Definition read_field (data : string) : res (Z * payload * string) :=
  rbind (read_varint data) (fun key =>
  let field := Z.shiftr key.1 3 in
  let wire := Z.land key.1 7 in
  check (field <=? 0) (ProtobufParseError "invalid_protobuf_field_number") >>!
  rbind (read_payload wire key.2) (fun x => Ok (field, x.1, x.2))).

Section Fields.
Context {A : Type} (depth : Z) (body : Z -> payload -> A -> M ParseBudget.t A).

Fixpoint fields_loop (fuel : nat) (data : string) (acc : A) : M ParseBudget.t A :=
  match data with
  | EmptyString => ret acc
  | String _ _ =>
      match fuel with
      | O => raise OutOfFuel
      | S fuel =>
          ParseBudget.consume depth ;;;
          let! x := lift (read_field data) in
          let! acc := body x.1.1 x.1.2 acc in
          fields_loop fuel x.2 acc
      end
  end.

(** [for field, wire, value in _iter_fields(data, budget, depth=depth): body] *)
Definition iter_fields (data : string) (acc : A) : M ParseBudget.t A :=
  let! b := get in
  raise_if (len data >? ParseBudget.max_total_bytes b)
    (ProtobufParseError "protobuf_message_too_large") ;;;
  fields_loop (String.length data) data acc.
End Fields.

Definition byte_in (low high : nat) (c : Ascii.ascii) : bool :=
  let n := Ascii.nat_of_ascii c in ((low <=? n) && (n <=? high))%nat.
Definition tail_byte : Ascii.ascii -> bool := byte_in 128 191.

(** [bytes.decode("utf-8")] accepts: no overlong form, no surrogate, nothing
    past U+10FFFF. *)
Fixpoint utf8 (s : string) : bool :=
  match s with
  | EmptyString => true
  | String a r1 =>
      if byte_in 0 127 a then utf8 r1 else
      match r1 with
      | EmptyString => false
      | String b r2 =>
          if byte_in 194 223 a then tail_byte b && utf8 r2 else
          match r2 with
          | EmptyString => false
          | String c r3 =>
              if byte_in 224 239 a then
                (if byte_in 224 224 a then byte_in 160 191 b
                 else if byte_in 237 237 a then byte_in 128 159 b
                 else tail_byte b) && tail_byte c && utf8 r3
              else
              match r3 with
              | EmptyString => false
              | String d r4 =>
                  byte_in 240 244 a &&
                  (if byte_in 240 240 a then byte_in 144 191 b
                   else if byte_in 244 244 a then byte_in 128 143 b
                   else tail_byte b) && tail_byte c && tail_byte d && utf8 r4
              end
          end
      end
  end.

Definition decode_text (value : string) : M ParseBudget.t string :=
  let! b := get in
  raise_if (len value >? ParseBudget.max_string_bytes b)
    (ProtobufParseError "protobuf_string_too_large") ;;;
  raise_if (negb (utf8 value)) (ProtobufParseError "protobuf_string_not_utf8") ;;;
  ret value.
End Protobuf.

(** ** The graph *)
Module OnnxGraph.
Import Protobuf.

(** [int | str | None] *)
Inductive dimension : Type := DimInt (n : Z) | DimText (symbol : string) | DimNone.
#[global] Instance dimension_eq_dec : EqDecision dimension.
Proof. solve_decision. Defined.

Module TensorShape.
Record t : Type := mk { name : string; dtype : string; dimensions : list dimension }.
End TensorShape.

Module TensorInitializer.
Record t : Type := mk {
  name : string;
  dtype : string;
  dimensions : list Z;
  external_data : list (string * string);
  external_location : bool;
  raw_bytes : Z
}.
End TensorInitializer.

Module Node.
Record t : Type := mk {
  path : string;
  domain : string;
  operator : string;
  attributes_sha256 : string;
  has_subgraph : bool
}.
End Node.

Definition P (A : Type) : Type := M ParseBudget.t A.

Definition parse_dimension (data : string) (depth : Z) : P dimension :=
  iter_fields depth (fun field value result =>
    match value with
    | Varint n => if field =? 1 then ret (DimInt n) else ret result
    | Delimited v =>
        if field =? 2 then let! text := decode_text v in ret (DimText text) else ret result
    | _ => ret result
    end) data DimNone.

(** The dimensions of a TensorShapeProto. *)
Definition parse_shape (data : string) (depth : Z) (parsed_dims : list dimension) : P (list dimension) :=
  iter_fields depth (fun field value parsed_dims =>
    match value with
    | Delimited v =>
        if field =? 1 then let! d := parse_dimension v (depth + 1) in ret (parsed_dims ++ [d])
        else ret parsed_dims
    | _ => ret parsed_dims
    end) data parsed_dims.

(** The element type and the dimensions of a TypeProto.Tensor. *)
Definition parse_tensor_type (data : string) (depth : Z) : P (Z * list dimension) :=
  iter_fields depth (fun field value acc =>
    match value with
    | Varint n => if field =? 1 then ret (n, acc.2) else ret acc
    | Delimited v =>
        if field =? 2 then let! dims := parse_shape v (depth + 1) acc.2 in ret (acc.1, dims)
        else ret acc
    | _ => ret acc
    end) data (0, []).

(** The tensor type of a TypeProto, the last one it holds. *)
Definition parse_type (data : string) (depth : Z) (found : string * list dimension) :
    P (string * list dimension) :=
  iter_fields depth (fun field value found =>
    match value with
    | Delimited v =>
        if field =? 1 then
          let! x := parse_tensor_type v (depth + 1) in ret (dtype_name x.1, x.2)
        else ret found
    | _ => ret found
    end) data found.

Definition parse_value_info (data : string) (depth : Z) : P TensorShape.t :=
  let! x := iter_fields depth (fun field value acc =>
    match value with
    | Delimited v =>
        if field =? 1 then let! name := decode_text v in ret (name, acc.2)
        else if field =? 2 then let! found := parse_type v (depth + 1) acc.2 in ret (acc.1, found)
        else ret acc
    | _ => ret acc
    end) data ("", ("unknown", [])) in
  ret (TensorShape.mk x.1 x.2.1 x.2.2).

Definition parse_string_entry (data : string) (depth : Z) : P (string * string) :=
  iter_fields depth (fun field value acc =>
    match value with
    | Delimited v =>
        if field =? 1 then let! key := decode_text v in ret (key, acc.2)
        else if field =? 2 then let! text := decode_text v in ret (acc.1, text)
        else ret acc
    | _ => ret acc
    end) data ("", "").

(** [while offset < len(value): item, offset = _read_varint(value, offset)] *)
Fixpoint packed_loop (fuel : nat) (data : string) (dims : list Z) : res (list Z) :=
  match data with
  | EmptyString => Ok dims
  | String _ _ =>
      match fuel with
      | O => Raise OutOfFuel
      | S fuel => rbind (read_varint data) (fun x => packed_loop fuel x.2 (dims ++ [x.1]))
      end
  end.

Record tensor : Type := mkTensor {
  dims : list Z;
  dtype_number : Z;
  tensor_name : string;
  raw_bytes : Z;
  external : list (string * string);
  external_location : bool
}.

Definition parse_tensor (data : string) (depth : Z) : P TensorInitializer.t :=
  let! x := iter_fields depth (fun field value x =>
    match value with
    | Varint n =>
        if field =? 1 then
          ret (mkTensor (dims x ++ [n]) (dtype_number x) (tensor_name x) (raw_bytes x) (external x)
                 (external_location x))
        else if field =? 2 then
          ret (mkTensor (dims x) n (tensor_name x) (raw_bytes x) (external x) (external_location x))
        else if field =? 14 then
          ret (mkTensor (dims x) (dtype_number x) (tensor_name x) (raw_bytes x) (external x) (n =? 1))
        else ret x
    | Delimited v =>
        if field =? 1 then
          let! items := lift (packed_loop (String.length v) v (dims x)) in
          ret (mkTensor items (dtype_number x) (tensor_name x) (raw_bytes x) (external x)
                 (external_location x))
        else if field =? 8 then
          let! name := decode_text v in
          ret (mkTensor (dims x) (dtype_number x) name (raw_bytes x) (external x) (external_location x))
        else if field =? 9 then
          ret (mkTensor (dims x) (dtype_number x) (tensor_name x) (len v) (external x)
                 (external_location x))
        else if field =? 13 then
          let! entry := parse_string_entry v (depth + 1) in
          ret (mkTensor (dims x) (dtype_number x) (tensor_name x) (raw_bytes x)
                 (external x ++ [entry]) (external_location x))
        else ret x
    | _ => ret x
    end) data (mkTensor [] 0 "" 0 [] false) in
  ret (TensorInitializer.mk (tensor_name x) (dtype_name (dtype_number x)) (dims x) (external x)
         (external_location x) (raw_bytes x)).

Section Sha.
Context (sha256 : string -> string).

Record graph_parts : Type := mkParts {
  nodes : list Node.t;
  initializers : list TensorInitializer.t;
  inputs : list TensorShape.t;
  outputs : list TensorShape.t;
  node_index : Z
}.

(** The name of an attribute and the graphs in it. *)
Definition parse_attribute (data : string) (depth : Z) : P (string * list string) :=
  iter_fields depth (fun field value acc =>
    match value with
    | Delimited v =>
        if field =? 1 then let! name := decode_text v in ret (name, acc.2)
        else if (field =? 6) || (field =? 11) then ret (acc.1, acc.2 ++ [v])
        else ret acc
    | _ => ret acc
    end) data ("", []).

Section Node.
(** [_parse_graph], which calls [_parse_node] back. *)
Context (parse_graph : string -> string -> Z -> P graph_parts).

(** [for index, graph_message in enumerate(graph_messages)], from [index] on *)
Fixpoint parse_subgraphs (path attr_name : string) (depth index : Z) (messages : list string)
    (nested : list Node.t) : P (list Node.t) :=
  match messages with
  | [] => ret nested
  | message :: messages =>
      let! graph := parse_graph message
        (path +:+ "/attr:" +:+ (if bool_decide (attr_name = "") then "anonymous" else attr_name)
         +:+ ":" +:+ pretty index) (depth + 2) in
      parse_subgraphs path attr_name depth (index + 1) messages (nested ++ nodes graph)
  end.

Record node_parts : Type := mkNodeParts {
  domain : string;
  operator : string;
  attributes : list string;
  nested : list Node.t;
  has_subgraph : bool
}.

Definition parse_node (data path : string) (depth : Z) : P (Node.t * list Node.t) :=
  ParseBudget.consume_node ;;;
  let! x := iter_fields depth (fun field value x =>
    match value with
    | Delimited v =>
        if field =? 4 then
          let! operator := decode_text v in
          ret (mkNodeParts (domain x) operator (attributes x) (nested x) (has_subgraph x))
        else if field =? 7 then
          let! domain := decode_text v in
          ret (mkNodeParts domain (operator x) (attributes x) (nested x) (has_subgraph x))
        else if field =? 5 then
          ParseBudget.consume_attribute ;;;
          let! attr := parse_attribute v (depth + 1) in
          let! nested := parse_subgraphs path attr.1 depth 0 attr.2 (nested x) in
          ret (mkNodeParts (domain x) (operator x) (attributes x ++ [v]) nested
                 (has_subgraph x || negb (bool_decide (attr.2 = []))))
        else ret x
    | _ => ret x
    end) data (mkNodeParts "" "" [] [] false) in
  ret (Node.mk path (if bool_decide (domain x = "") then "ai.onnx" else domain x) (operator x)
         (sha256 (join "" (sort_by String.leb (attributes x)))) (has_subgraph x),
       nested x).
End Node.

(** [fuel] bounds the nesting of graphs. *)
Fixpoint parse_graph (fuel : nat) (data path : string) (depth : Z) : P graph_parts :=
  match fuel with
  | O => raise OutOfFuel
  | S fuel =>
      iter_fields depth (fun field value x =>
        match value with
        | Delimited v =>
            if field =? 1 then
              let! node := parse_node (parse_graph fuel) v
                             (path +:+ "/node:" +:+ pretty (node_index x)) (depth + 1) in
              ret (mkParts (nodes x ++ node.1 :: node.2) (initializers x) (inputs x) (outputs x)
                     (node_index x + 1))
            else if field =? 5 then
              ParseBudget.consume_initializer ;;;
              let! tensor := parse_tensor v (depth + 1) in
              ret (mkParts (nodes x) (initializers x ++ [tensor]) (inputs x) (outputs x) (node_index x))
            else if field =? 11 then
              let! shape := parse_value_info v (depth + 1) in
              ret (mkParts (nodes x) (initializers x) (inputs x ++ [shape]) (outputs x) (node_index x))
            else if field =? 12 then
              let! shape := parse_value_info v (depth + 1) in
              ret (mkParts (nodes x) (initializers x) (inputs x) (outputs x ++ [shape]) (node_index x))
            else ret x
        | _ => ret x
        end) data (mkParts [] [] [] [] 0)
  end.

(** Graphs are nested three levels apart, so at most six of them fit into the
    depth limit; the seventh raises. *)
Definition graph_fuel : nat := 7.

(** ** The fingerprint *)
Record fingerprint : Type := mkFingerprint {
  ir_version : Z;
  opsets : list (string * Z);
  operators : list Node.t;
  initializer_list : list TensorInitializer.t;
  input_shapes : list TensorShape.t;
  output_shapes : list TensorShape.t;
  function_count : Z
}.

Record model : Type := mkModel {
  model_ir_version : Z;
  model_opsets : list (string * Z);
  graph_payload : option string;
  functions : Z
}.

Definition parse_opset (data : string) : P (string * Z) :=
  iter_fields 1 (fun field value acc =>
    match value with
    | Delimited v =>
        if field =? 1 then
          let! text := decode_text v in
          ret (if bool_decide (text = "") then "ai.onnx" else text, acc.2)
        else ret acc
    | Varint n => if field =? 2 then ret (acc.1, n) else ret acc
    | _ => ret acc
    end) data ("ai.onnx", 0).

Definition parse_model (data : string) : P model :=
  iter_fields 0 (fun field value x =>
    match value with
    | Varint n =>
        if field =? 1 then ret (mkModel n (model_opsets x) (graph_payload x) (functions x)) else ret x
    | Delimited v =>
        if field =? 7 then
          raise_if (negb (bool_decide (graph_payload x = None))) (ProtobufParseError "multiple_model_graphs") ;;;
          ret (mkModel (model_ir_version x) (model_opsets x) (Some v) (functions x))
        else if field =? 8 then
          let! opset := parse_opset v in
          ret (mkModel (model_ir_version x) (model_opsets x ++ [opset]) (graph_payload x) (functions x))
        else if field =? 25 then
          let! b := get in
          raise_if (functions x + 1 >? ParseBudget.max_attributes b)
            (ProtobufParseError "onnx_function_limit_exceeded") ;;;
          ret (mkModel (model_ir_version x) (model_opsets x) (graph_payload x) (functions x + 1))
        else ret x
    | _ => ret x
    end) data (mkModel 0 [] None 0).

(** [(item["domain"], item["version"])] *)
Definition opset_le (x y : string * Z) : bool :=
  if bool_decide (x.1 = y.1) then x.2 <=? y.2 else String.leb x.1 y.1.

Definition dimension_json (d : dimension) : json :=
  match d with DimInt n => JInt n | DimText s => JStr s | DimNone => JNull end.
Definition shape_json (s : TensorShape.t) : json :=
  JDict [("name", JStr (TensorShape.name s)); ("dtype", JStr (TensorShape.dtype s));
         ("dimensions", JList (map dimension_json (TensorShape.dimensions s)))].
Definition node_json (n : Node.t) : json :=
  JDict [("path", JStr (Node.path n)); ("domain", JStr (Node.domain n));
         ("operator", JStr (Node.operator n)); ("attributes_sha256", JStr (Node.attributes_sha256 n));
         ("has_subgraph", JBool (Node.has_subgraph n))].
Definition initializer_json (i : TensorInitializer.t) : json :=
  JDict [("name", JStr (TensorInitializer.name i)); ("dtype", JStr (TensorInitializer.dtype i));
         ("dimensions", JList (map JInt (TensorInitializer.dimensions i)));
         ("external_data", JList (map (fun pair => JList [JStr pair.1; JStr pair.2])
                                    (TensorInitializer.external_data i)));
         ("external_location", JBool (TensorInitializer.external_location i));
         ("raw_bytes", JInt (TensorInitializer.raw_bytes i))].
Definition fingerprint_json (f : fingerprint) : json :=
  JDict [("ir_version", JInt (ir_version f));
         ("opsets", JList (map (fun o => JDict [("domain", JStr o.1); ("version", JInt o.2)]) (opsets f)));
         ("operators", JList (map node_json (operators f)));
         ("initializers", JList (map initializer_json (initializer_list f)));
         ("inputs", JList (map shape_json (input_shapes f)));
         ("outputs", JList (map shape_json (output_shapes f)));
         ("function_count", JInt (function_count f))].

Record inspection : Type := mkInspection {
  model_sha256 : string;
  graph : fingerprint;
  graph_capability_sha256 : string;
  protobuf_fields_seen : Z
}.

Context (float_repr : f64 -> string).

(** [inspect_onnx_graph] on the bytes of the file, with the budget it ends
    with. *)
Definition inspect_run (data : string) : P inspection :=
  let! m := parse_model data in
  let! g := match graph_payload m with
            | None => raise (ProtobufParseError "onnx_graph_missing")
            | Some payload => parse_graph graph_fuel payload "graph" 0
            end in
  let f := mkFingerprint (model_ir_version m) (sort_by opset_le (model_opsets m))
             (sort_by (fun x y => String.leb (Node.path x) (Node.path y)) (nodes g))
             (sort_by (fun x y => String.leb (TensorInitializer.name x) (TensorInitializer.name y))
                (initializers g))
             (inputs g) (outputs g) (functions m) in
  let! b := get in
  ret (mkInspection (sha256 data) f (sha256 (canonical_json_bytes float_repr (fingerprint_json f)))
         (ParseBudget.fields_seen b)).

Definition inspect_onnx_graph (data : string) : res inspection :=
  (inspect_run data (ParseBudget.default (Z.max (len data) 1))).1.
End Sha.
End OnnxGraph.
