(* ===== verification/ModelGraphTheorems.v ===== *)
(** What the inspection of a model file guarantees: fields that were written
    are read back, and the work on any file, well formed or not, is bounded. *)

From Stdlib Require Import ZArith Lia.
From S2P Require Import Prelude Binary64 Enums Models CanonicalJson ModelGraph.
Import Protobuf OnnxGraph.
Open Scope Z_scope.

(** ** Byte strings *)

Lemma len_app a b : len (a +:+ b) = len a + len b.
Proof.
  unfold len. rewrite <-Nat2Z.inj_add. f_equal. induction a as [|c a IH]; [done|].
  rewrite append_cons. cbn [String.length]. by rewrite IH.
Qed.

Lemma len_nonneg s : 0 <= len s.
Proof. unfold len. lia. Qed.

Lemma len_cons c s : len (String c s) = len s + 1.
Proof. unfold len. cbn [String.length]. lia. Qed.

Lemma take_drop n s : take_bytes n s +:+ drop_bytes n s = s.
Proof. revert s. induction n as [|n IH]; intros [|c s]; [done..|]. cbn. by rewrite append_cons, IH. Qed.

Lemma take_app n a b : String.length a = n -> take_bytes n (a +:+ b) = a.
Proof.
  intros <-. induction a as [|c a IH]; [by destruct b|]. rewrite append_cons. cbn. by rewrite IH.
Qed.

Lemma drop_app n a b : String.length a = n -> drop_bytes n (a +:+ b) = b.
Proof.
  intros <-. induction a as [|c a IH]; [by destruct b|]. rewrite append_cons. cbn. by rewrite IH.
Qed.

Lemma length_split n s :
  (String.length (take_bytes n s) + String.length (drop_bytes n s) = String.length s)%nat.
Proof. revert s. induction n as [|n IH]; intros [|c s]; [done..|]. cbn. by rewrite IH. Qed.

(** ** Writing the wire format

    What protobuf's own encoder writes, the reference for the reader. *)

(** [n] in at most [bytes] groups of seven bits, the lowest first. *)
Fixpoint put_varint (bytes : nat) (n : Z) : string :=
  match bytes with
  | O => ""
  | S bytes =>
      if n <? 128 then String (Ascii.ascii_of_nat (Z.to_nat n)) ""
      else String (Ascii.ascii_of_nat (Z.to_nat (n mod 128 + 128))) (put_varint bytes (n / 128))
  end.
Definition varint (n : Z) : string := put_varint 10 n.

Definition wire_type (p : payload) : Z :=
  match p with Varint _ => 0 | Fixed64 _ => 1 | Delimited _ => 2 | Fixed32 _ => 5 end.
Definition payload_bytes (p : payload) : string :=
  match p with
  | Varint n => varint n
  | Delimited s => varint (len s) +:+ s
  | Fixed64 s | Fixed32 s => s
  end.
Definition field_bytes (f : Z * payload) : string :=
  varint (8 * f.1 + wire_type f.2) +:+ payload_bytes f.2.
Fixpoint message (fields : list (Z * payload)) : string :=
  match fields with [] => "" | f :: fields => field_bytes f +:+ message fields end.

(** A field the format can carry: ten groups of seven bits. *)
Definition writable (f : Z * payload) : Prop :=
  0 < f.1 < 2 ^ 67 /\
  match f.2 with
  | Varint n => 0 <= n < 2 ^ 70
  | Fixed64 s => len s = 8
  | Delimited s => len s < 2 ^ 70
  | Fixed32 s => len s = 4
  end.

(** The loop over fields that are known: the reference for the loop over the
    bytes. *)
Fixpoint each_field {A} (depth : Z) (body : Z -> payload -> A -> P A) (fields : list (Z * payload))
    (acc : A) : P A :=
  match fields with
  | [] => ret acc
  | f :: fields =>
      ParseBudget.consume depth ;;;
      let! acc := body f.1 f.2 acc in
      each_field depth body fields acc
  end.

Lemma nat_of_byte n : 0 <= n < 256 -> Z.of_nat (Ascii.nat_of_ascii (Ascii.ascii_of_nat (Z.to_nat n))) = n.
Proof. intros H. rewrite Ascii.nat_ascii_embedding; lia. Qed.

Lemma low_bits n : 0 <= n < 256 -> Z.land n 127 = n mod 128.
Proof. intros H. change 127 with (Z.ones 7). by rewrite Z.land_ones. Qed.

Lemma high_bit n : 0 <= n < 256 -> Z.land n 128 = if n <? 128 then 0 else 128.
Proof.
  intros H. assert (Hall : forallb (fun k => Z.land (Z.of_nat k) 128 =? (if Z.of_nat k <? 128 then 0 else 128))
    (seq 0 256) = true) by by vm_compute.
  rewrite forallb_forall in Hall. specialize (Hall (Z.to_nat n)).
  rewrite Z2Nat.id in Hall by lia. apply Z.eqb_eq, Hall, in_seq. lia.
Qed.

(** Groups of bits below and from a position on do not overlap. *)
Lemma lor_shift value n shift :
  0 <= n -> 0 <= shift ->
  Z.lor (Z.lor value (Z.shiftl (n mod 128) shift)) (Z.shiftl (n / 128) (shift + 7)) =
  Z.lor value (Z.shiftl n shift).
Proof.
  intros Hn Hs. rewrite <-Z.lor_assoc. f_equal. rewrite (Z.add_comm shift 7), <-Z.shiftl_shiftl, <-Z.shiftl_lor by lia.
  f_equal.
  change 128 with (2 ^ 7). rewrite <-Z.land_ones, <-Z.shiftr_div_pow2 by lia.
  apply Z.bits_inj'. intros i Hi. rewrite Z.lor_spec, Z.land_spec.
  destruct (Z.ltb_spec i 7).
  - rewrite Z.ones_spec_low, Z.shiftl_spec_low by lia. by rewrite andb_true_r, orb_false_r.
  - rewrite Z.ones_spec_high, Z.shiftl_spec, Z.shiftr_spec by lia.
    rewrite andb_false_r. cbn. f_equal. lia.
Qed.

(** A number that was written is read back, whatever follows it. *)
Lemma varint_loop_put passes value shift n rest :
  0 <= n < 2 ^ (7 * Z.of_nat passes) -> 0 <= shift -> (0 < passes)%nat ->
  varint_loop passes value shift (put_varint passes n +:+ rest) = Ok (Z.lor value (Z.shiftl n shift), rest).
Proof.
  revert value shift n. induction passes as [|passes IH]; [lia|]. intros value shift n Hn Hs _.
  cbn [put_varint]. destruct (Z.ltb_spec n 128) as [Hlt|Hge].
  - rewrite append_cons, append_nil. cbn [varint_loop].
    rewrite nat_of_byte, high_bit, low_bits, Z.mod_small by lia. by destruct (Z.ltb_spec n 128); [|lia].
  - pose proof (Z.mod_pos_bound n 128). rewrite append_cons. cbn [varint_loop].
    rewrite nat_of_byte, high_bit, low_bits by lia. destruct (Z.ltb_spec (n mod 128 + 128) 128); [lia|].
    cbn [Z.eqb]. rewrite IH; [|split; [apply Z.div_pos; lia|]|lia|].
    + replace ((n mod 128 + 128) mod 128) with (n mod 128) by (Z.div_mod_to_equations; lia).
      by rewrite lor_shift by lia.
    + apply Z.div_lt_upper_bound; [lia|]. eapply Z.lt_le_trans; [apply Hn|].
      change 128 with (2 ^ 7). rewrite <-Z.pow_add_r by lia. apply Z.pow_le_mono_r; lia.
    + destruct passes; [|lia]. change (2 ^ (7 * Z.of_nat 1)) with 128 in Hn. lia.
Qed.

Lemma read_varint_put n rest : 0 <= n < 2 ^ 70 -> read_varint (varint n +:+ rest) = Ok (n, rest).
Proof. intros H. unfold read_varint, varint. rewrite varint_loop_put by lia. by rewrite Z.shiftl_0_r. Qed.

(** A field that was written is read back. *)
Lemma read_field_put f rest : writable f -> read_field (field_bytes f +:+ rest) = Ok (f.1, f.2, rest).
Proof.
  destruct f as [k p]. intros [Hk Hp]. cbn in *. unfold field_bytes, read_field. cbn [fst snd].
  assert (Hw : 0 <= wire_type p < 8) by (destruct p; cbn; lia).
  rewrite append_assoc, read_varint_put by lia. cbn [rbind fst snd].
  replace (Z.shiftr (8 * k + wire_type p) 3) with k
    by (rewrite Z.shiftr_div_pow2 by lia; change (2 ^ 3) with 8; Z.div_mod_to_equations; lia).
  replace (Z.land (8 * k + wire_type p) 7) with (wire_type p)
    by (change 7 with (Z.ones 3); rewrite Z.land_ones by lia; change (2 ^ 3) with 8;
        Z.div_mod_to_equations; lia).
  destruct (Z.leb_spec k 0); [lia|]. cbn [check rbind].
  destruct p as [n|s|s|s]; cbn [wire_type payload_bytes Z.eqb Pos.eqb]; unfold read_payload; cbn [Z.eqb Pos.eqb].
  - by rewrite read_varint_put by lia.
  - assert (String.length s = 8%nat) by (unfold len in Hp; lia).
    rewrite len_app, Hp. pose proof (len_nonneg rest). destruct (Z.gtb_spec 8 (8 + len rest)); [lia|].
    cbn [check rbind fst snd]. by rewrite take_app, drop_app.
  - pose proof (len_nonneg s). pose proof (len_nonneg rest).
    rewrite append_assoc, read_varint_put by lia. cbn [rbind fst snd]. rewrite len_app.
    destruct (Z.gtb_spec (len s) (len s + len rest)); [lia|]. cbn [check rbind fst snd].
    by rewrite take_app, drop_app by (unfold len; lia).
  - assert (String.length s = 4%nat) by (unfold len in Hp; lia).
    rewrite len_app, Hp. pose proof (len_nonneg rest). destruct (Z.gtb_spec 4 (4 + len rest)); [lia|].
    cbn [check rbind fst snd]. by rewrite take_app, drop_app.
Qed.

Lemma varint_loop_shrinks passes value shift data x :
  varint_loop passes value shift data = Ok x -> (String.length x.2 < String.length data)%nat.
Proof.
  revert value shift data. induction passes as [|passes IH]; [done|]. intros value shift [|c data]; [done|].
  cbn [varint_loop]. destruct (_ =? 0).
  - intros [= <-]. cbn. lia.
  - intros H%IH. cbn. lia.
Qed.

Lemma read_varint_shrinks data x :
  read_varint data = Ok x -> (String.length x.2 < String.length data)%nat.
Proof. apply varint_loop_shrinks. Qed.

#[local] Arguments take_bytes : simpl never.
#[local] Arguments drop_bytes : simpl never.

Definition payload_len (p : payload) : Z :=
  match p with Varint _ => 0 | Fixed64 s | Delimited s | Fixed32 s => len s end.

(** Reading a field takes bytes away, and its value is a part of them. *)
Lemma read_field_shrinks data x :
  read_field data = Ok x ->
  (String.length x.2 < String.length data)%nat /\ payload_len x.1.2 <= len data.
Proof.
  unfold read_field. intros (key & Hkey%read_varint_shrinks & H)%rbind_ok.
  apply rbind_ok in H as (u & _ & H). apply rbind_ok in H as (y & Hy & [= <-]). cbn [fst snd].
  revert Hy. unfold read_payload, len in *. pose proof (length_split 8 key.2). pose proof (length_split 4 key.2).
  repeat match goal with |- context [if ?c then _ else _] => destruct c end.
  - intros (v & Hv%read_varint_shrinks & [= <-])%rbind_ok. cbn. lia.
  - intros (_ & _ & [= <-])%rbind_ok. cbn [fst snd payload_len]. unfold len. lia.
  - intros (v & Hv%read_varint_shrinks & Hr)%rbind_ok. apply rbind_ok in Hr as (_ & _ & [= <-]).
    pose proof (length_split (Z.to_nat v.1) v.2). cbn [fst snd payload_len]. unfold len. lia.
  - intros (_ & _ & [= <-])%rbind_ok. cbn [fst snd payload_len]. unfold len. lia.
  - done.
Qed.

Lemma fields_loop_step {A} depth (body : Z -> payload -> A -> P A) fuel data acc b :
  data <> "" ->
  fields_loop depth body (S fuel) data acc b =
    bind (ParseBudget.consume depth) (fun _ =>
    bind (lift (read_field data)) (fun x =>
    bind (body x.1.1 x.1.2 acc) (fun acc => fields_loop depth body fuel x.2 acc))) b.
Proof. by destruct data. Qed.

Lemma bind_same_runs {S A B} (m : M S A) (k k' : A -> M S B) s :
  (forall a s', k a s' = k' a s') -> bind m k s = bind m k' s.
Proof. intros H. unfold bind. by destruct (m s) as [[a|e] s']. Qed.

Lemma field_bytes_nonempty f rest :
  (0 < String.length (field_bytes f))%nat /\ field_bytes f +:+ rest <> "".
Proof.
  unfold field_bytes, varint. cbn [put_varint].
  destruct (_ <? 128); rewrite !append_cons; (split; [cbn; lia|done]).
Qed.

Lemma fields_loop_put {A} depth (body : Z -> payload -> A -> P A) fields fuel acc b :
  Forall writable fields -> (String.length (message fields) <= fuel)%nat ->
  fields_loop depth body fuel (message fields) acc b = each_field depth body fields acc b.
Proof.
  intros Hf. revert fuel acc b. induction Hf as [|f fields Hw _ IH]; intros fuel acc b; cbn [message each_field].
  { by destruct fuel. }
  destruct (field_bytes_nonempty f (message fields)) as [Hpos Hne]. intros Hfuel.
  assert (Hl : String.length (field_bytes f +:+ message fields) =
               (String.length (field_bytes f) + String.length (message fields))%nat)
    by (pose proof (len_app (field_bytes f) (message fields)); unfold len in *; lia).
  destruct fuel as [|fuel]; [lia|]. rewrite fields_loop_step by done.
  apply bind_same_runs. intros _ b1. rewrite read_field_put by done.
  unfold bind at 1, lift. cbn [fst snd]. apply bind_same_runs. intros acc' b2. apply IH. lia.
Qed.

(** C33: Whatever consumes them, the fields of a message are read back one by
    one as they were written, at any depth and within any budget: the loop over
    the bytes is the loop over the fields, exceptions included. *)
Theorem message_fields_read {A} depth (body : Z -> payload -> A -> P A) fields acc b :
  Forall writable fields -> len (message fields) <= ParseBudget.max_total_bytes b ->
  iter_fields depth body (message fields) acc b = each_field depth body fields acc b.
Proof.
  intros Hf Hlen. unfold iter_fields, bind, get, raise_if.
  destruct (Z.gtb_spec (len (message fields)) (ParseBudget.max_total_bytes b)); [lia|]. cbn.
  by apply fields_loop_put.
Qed.

(** ** The work on any file

    [Spec w m W Q]: run with the limits [L], [m] never runs out of fuel, never
    meets the limit on total bytes, and an answer [a] satisfies [Q] and has
    taken at least [W a - w] fields, within the limit on fields. *)
Definition message_too_large : exn := ProtobufParseError "protobuf_message_too_large".

Definition clean {A} (r : res A) : Prop := r <> Raise OutOfFuel /\ r <> Raise message_too_large.

(** The wire format raises neither. *)
Lemma varint_clean passes value shift data : clean (varint_loop passes value shift data).
Proof.
  revert value shift data. induction passes as [|passes IH]; intros value shift [|c data]; [done..|].
  cbn [varint_loop]. destruct (_ =? 0); [done|apply IH].
Qed.

Lemma clean_rbind {A B} (r : res A) (k : A -> res B) :
  clean r -> (forall a, clean (k a)) -> clean (rbind r k).
Proof. intros [H1 H2] Hk. destruct r as [a|e]; [apply Hk|]. cbn. split; congruence. Qed.

Lemma clean_check c e : clean (@Raise unit e) -> clean (check c e).
Proof. by destruct c. Qed.

Lemma read_field_clean data : clean (read_field data).
Proof.
  apply clean_rbind; [apply varint_clean|]. intros key. apply clean_rbind; [by apply clean_check|]. intros _.
  apply clean_rbind; [|done]. unfold read_payload.
  repeat match goal with |- context [if ?c then _ else _] => destruct c end.
  - by apply clean_rbind; [apply varint_clean|].
  - by apply clean_rbind; [apply clean_check|].
  - apply clean_rbind; [apply varint_clean|]. intros x. by apply clean_rbind; [apply clean_check|].
  - by apply clean_rbind; [apply clean_check|].
  - done.
Qed.

Definition same_limits (b b' : ParseBudget.t) : Prop :=
  ParseBudget.max_total_bytes b' = ParseBudget.max_total_bytes b /\
  ParseBudget.max_depth b' = ParseBudget.max_depth b /\
  ParseBudget.max_fields b' = ParseBudget.max_fields b.

Section Work.
Context (L : ParseBudget.t).
Notation T := (ParseBudget.max_total_bytes L).
Notation D := (ParseBudget.max_depth L).

Class Spec {A} (w : Z) (m : P A) (W : A -> Z) (Q : A -> Prop) : Prop :=
  spec b r b' : same_limits L b -> m b = (r, b') ->
    same_limits L b' /\ clean r /\
    forall a, r = Ok a ->
      Q a /\ ParseBudget.fields_seen b + (W a - w) <= ParseBudget.fields_seen b' /\
      (ParseBudget.fields_seen b <= ParseBudget.max_fields L ->
       ParseBudget.fields_seen b' <= ParseBudget.max_fields L).

Lemma spec_ret {A} w (a : A) (W : A -> Z) (Q : A -> Prop) : Q a -> W a <= w -> Spec w (ret a) W Q.
Proof. intros HQ Hw b r b' HL [= <- <-]. split; [done|]. split; [done|]. intros _ [= <-]. split; [done|]. lia. Qed.

Lemma spec_lift {A} w (r : res A) (Q : A -> Prop) :
  clean r -> (forall a, r = Ok a -> Q a) -> Spec w (lift r) (fun _ => w) Q.
Proof.
  intros Hc HQ b r' b' HL [= <- <-]. split; [done|]. split; [done|]. intros a Ha. split; [by apply HQ|]. lia.
Qed.

Lemma spec_raise {A} w e (W : A -> Z) Q : clean (@Raise A e) -> Spec w (raise e) W Q.
Proof. intros Hc b r b' HL [= <- <-]. done. Qed.

Lemma spec_raise_if w c e : clean (@Raise unit e) -> Spec w (raise_if c e) (fun _ => w) (fun _ => True).
Proof.
  intros Hc. destruct c; [by apply (spec_raise w e (fun _ => w))|]. by apply (spec_ret w tt (fun _ => w)).
Qed.

Lemma spec_get w : Spec w get (fun _ => w) (fun b => same_limits L b).
Proof. intros b r b' HL [= <- <-]. split; [done|]. split; [done|]. intros a [= <-]. split; [done|]. lia. Qed.

Lemma spec_bind {A B} w (m : P A) (k : A -> P B) W1 Q1 W2 Q2 :
  Spec w m W1 Q1 -> (forall a, Q1 a -> Spec (W1 a) (k a) W2 Q2) -> Spec w (bind m k) W2 Q2.
Proof.
  intros Hm Hk b r b' HL H. unfold bind in H. destruct (m b) as [[a|e] b1] eqn:E.
  - destruct (Hm b _ b1 HL E) as (HL1 & _ & Ha). destruct (Ha a eq_refl) as (HQ & Hf & Hb).
    destruct (Hk a HQ b1 r b' HL1 H) as (HL2 & Hc & Hr). split; [done|]. split; [done|].
    intros x Hx. destruct (Hr x Hx) as (HQ2 & Hf2 & Hb2). split; [done|]. split; [lia|auto].
  - injection H as <- <-. destruct (Hm b _ b1 HL E) as (HL1 & [Hc1 Hc2] & _). split; [done|].
    split; [|done]. split; congruence.
Qed.

Lemma spec_weaken {A} w w' (m : P A) (W W' : A -> Z) (Q Q' : A -> Prop) :
  Spec w m W Q -> (forall a, Q a -> Q' a /\ W' a - w' <= W a - w) -> Spec w' m W' Q'.
Proof.
  intros Hm Himp b r b' HL H. destruct (Hm b r b' HL H) as (HL' & Hc & Hr). split; [done|]. split; [done|].
  intros a Ha. destruct (Hr a Ha) as (HQ & Hf & Hb). destruct (Himp a HQ). split; [done|]. split; [lia|done].
Qed.

(** Consuming a field pays for one unit, and only within the depth limit. *)
Lemma spec_consume w depth :
  Spec w (ParseBudget.consume depth) (fun _ => w + 1) (fun _ => depth <= D).
Proof.
  intros b r b' (HT & HD & HF) H. unfold ParseBudget.consume, bind, get, modify, raise_if in H.
  destruct (Z.gtb_spec depth (ParseBudget.max_depth b)); cbn in H.
  { by injection H as <- <-. }
  destruct (Z.gtb_spec (ParseBudget.fields_seen b + 1) (ParseBudget.max_fields b)); cbn in H;
    injection H as <- <-; [done|]. split; [done|]. split; [done|]. intros a _. cbn. lia.
Qed.

Lemma spec_loop {A} (body : Z -> payload -> A -> P A) (W : A -> Z) (Q : A -> Prop) depth bound :
  (depth <= D -> forall field value acc, Q acc -> payload_len value <= bound ->
     Spec (W acc + 1) (body field value acc) W Q) ->
  forall fuel data acc, (String.length data <= fuel)%nat -> len data <= bound -> Q acc ->
  Spec (W acc) (fields_loop depth body fuel data acc) W Q.
Proof.
  intros Hbody. induction fuel as [|fuel IH]; intros data acc Hfuel Hlen HQ.
  { destruct data; [|cbn in Hfuel; lia]. by apply spec_ret. }
  destruct data as [|c data]; [by apply spec_ret|].
  eapply spec_bind; [apply (spec_consume (W acc) depth)|]. intros [] Hd.
  eapply (spec_bind _ _ _ (fun _ => W acc + 1)
    (fun x => (String.length x.2 <= fuel)%nat /\ len x.2 <= bound /\ payload_len x.1.2 <= bound)).
  { apply spec_lift.
    - apply read_field_clean.
    - intros x Hx%read_field_shrinks. cbn [String.length] in *. unfold len in *. cbn [String.length] in *. lia. }
  intros x (Hx1 & Hx2 & Hx3). eapply spec_bind; [by apply Hbody|]. intros acc' HQ'. by apply IH.
Qed.

Definition any {A} (a : A) : Prop := True.

Lemma spec_iter {A} (body : Z -> payload -> A -> P A) (W : A -> Z) (Q : A -> Prop) depth data acc :
  len data <= T -> Q acc ->
  (depth <= D -> forall field value acc, Q acc -> payload_len value <= T ->
     Spec (W acc + 1) (body field value acc) W Q) ->
  Spec (W acc) (iter_fields depth body data acc) W Q.
Proof.
  intros Hlen HQ Hbody b r b' HL H. pose proof HL as (HT & _ & _).
  unfold iter_fields, bind, get, raise_if in H. rewrite HT in H.
  destruct (Z.gtb_spec (len data) T); [lia|]. cbn in H.
  by eapply (spec_loop body W Q depth T Hbody (String.length data) data acc).
Qed.

(** A loop whose body needs no more than the field it is given. *)
Lemma spec_quiet {A} w (body : Z -> payload -> A -> P A) (Q : A -> Prop) depth data acc :
  len data <= T -> Q acc ->
  (forall field value acc, Q acc -> payload_len value <= T ->
     Spec w (body field value acc) (fun _ => w) Q) ->
  Spec w (iter_fields depth body data acc) (fun _ => w) Q.
Proof.
  intros Hlen HQ Hbody. apply (spec_iter body (fun _ => w) Q); [done..|].
  intros _ field value acc' HQ' Hv. eapply spec_weaken; [by apply Hbody|]. intros a Ha. split; [done|lia].
Qed.

Lemma decode_text_spec w v : Spec w (decode_text v) (fun _ => w) any.
Proof.
  eapply spec_bind; [apply spec_get|]. intros b _. eapply spec_bind; [by apply spec_raise_if|]. intros [] _.
  eapply spec_bind; [by apply spec_raise_if|]. intros [] _. by apply spec_ret.
Qed.
End Work.

(** [work] runs through a loop body: a test for a test, a rule for a call. *)
Create HintDb work.
#[export] Hint Resolve decode_text_spec : work.
#[export] Hint Extern 1 (any _) => exact I : work.
#[export] Hint Extern 2 (_ <= _) => (cbn in *; lia) : work.
Ltac work_step :=
  match goal with
  | |- Spec _ _ (match ?x with _ => _ end) _ _ => destruct x
  | |- Spec _ _ (if ?x then _ else _) _ _ => destruct x
  | |- Spec _ _ (ret _) _ _ => apply spec_ret; [cbn; auto with work|lia]
  | |- Spec _ _ (raise_if _ _) _ _ => by apply spec_raise_if
  | |- Spec _ _ get _ _ => apply spec_get
  | |- Spec _ _ (bind _ _) _ _ => eapply spec_bind; [solve [work_call]|cbn beta; intros]
  | |- Spec _ _ _ _ _ => work_call
  end
with work_call :=
  first [by apply spec_raise_if | apply spec_get | eauto with work].
Ltac work := repeat work_step.

Section Parsers.
Context (L : ParseBudget.t).
Notation T := (ParseBudget.max_total_bytes L).
Notation D := (ParseBudget.max_depth L).
Notation quiet w m := (Spec L w m (fun _ => w) any).

Lemma dimension_spec w data depth : len data <= T -> quiet w (parse_dimension data depth).
Proof. intros H. apply spec_quiet; [done..|]. intros field value acc _ Hv. work. Qed.
#[local] Hint Resolve dimension_spec : work.

Lemma shape_spec w data depth found : len data <= T -> quiet w (parse_shape data depth found).
Proof. intros H. apply spec_quiet; [done..|]. intros field value acc _ Hv. work. Qed.
#[local] Hint Resolve shape_spec : work.

Lemma tensor_type_spec w data depth : len data <= T -> quiet w (parse_tensor_type data depth).
Proof. intros H. apply spec_quiet; [done..|]. intros field value acc _ Hv. work. Qed.
#[local] Hint Resolve tensor_type_spec : work.

Lemma type_spec w data depth found : len data <= T -> quiet w (parse_type data depth found).
Proof. intros H. apply spec_quiet; [done..|]. intros field value acc _ Hv. work. Qed.
#[local] Hint Resolve type_spec : work.

Lemma value_info_spec w data depth : len data <= T -> quiet w (parse_value_info data depth).
Proof.
  intros H. apply (spec_bind L w _ _ (fun _ => w) any); [|intros; work].
  apply (spec_quiet L w _ any); [done..|]. intros field value acc _ Hv. work.
Qed.

Lemma string_entry_spec w data depth : len data <= T -> quiet w (parse_string_entry data depth).
Proof. intros H. apply spec_quiet; [done..|]. intros field value acc _ Hv. work. Qed.
#[local] Hint Resolve string_entry_spec : work.

Lemma packed_clean fuel data found : (String.length data <= fuel)%nat -> clean (packed_loop fuel data found).
Proof.
  revert data found. induction fuel as [|fuel IH]; intros [|c data] found Hf; [done|cbn in Hf; lia|done|].
  cbn [packed_loop]. destruct (read_varint (String c data)) as [x|e] eqn:E.
  - cbn [rbind]. apply IH. apply read_varint_shrinks in E. lia.
  - pose proof (varint_clean 10 0 0 (String c data)) as [H1 H2]. unfold read_varint in E. rewrite E in H1, H2.
    split; cbn [rbind]; congruence.
Qed.

Lemma packed_spec w v found : quiet w (lift (packed_loop (String.length v) v found)).
Proof. apply spec_lift; [|done]. by apply packed_clean. Qed.
#[local] Hint Resolve packed_spec : work.

Lemma tensor_spec w data depth : len data <= T -> quiet w (parse_tensor data depth).
Proof.
  intros H. apply (spec_bind L w _ _ (fun _ => w) any); [|intros; work].
  apply (spec_quiet L w _ any); [done..|]. intros field value acc _ Hv. work.
Qed.

Lemma opset_spec w data : len data <= T -> quiet w (parse_opset data).
Proof. intros H. apply spec_quiet; [done..|]. intros field value acc _ Hv. work. Qed.

(** Messages that are part of the file. *)
Definition fits (messages : list string) : Prop := Forall (fun m => len m <= T) messages.

Lemma attribute_spec w data depth :
  len data <= T -> Spec L w (parse_attribute data depth) (fun _ => w) (fun x => fits x.2).
Proof.
  intros H. apply spec_quiet; [done|by constructor|]. intros field value acc Hacc Hv.
  assert (Hadd : forall v, len v <= T -> fits (acc.2 ++ [v]))
    by (intros; apply Forall_app; auto). work.
Qed.

Lemma consume_node_spec w : quiet w ParseBudget.consume_node.
Proof.
  intros b r b' (HT & HD & HF) H. unfold ParseBudget.consume_node, bind, get, modify, raise_if in H.
  destruct (_ >? _); injection H as <- <-; (split; [done|]); (split; [done|]); [done|].
  intros a _. cbn. split; [done|lia].
Qed.

Lemma consume_initializer_spec w : quiet w ParseBudget.consume_initializer.
Proof.
  intros b r b' (HT & HD & HF) H. unfold ParseBudget.consume_initializer, bind, get, modify, raise_if in H.
  destruct (_ >? _); injection H as <- <-; (split; [done|]); (split; [done|]); [done|].
  intros a _. cbn. split; [done|lia].
Qed.

Lemma consume_attribute_spec w : quiet w ParseBudget.consume_attribute.
Proof.
  intros b r b' (HT & HD & HF) H. unfold ParseBudget.consume_attribute, bind, get, modify, raise_if in H.
  destruct (_ >? _); injection H as <- <-; (split; [done|]); (split; [done|]); [done|].
  intros a _. cbn. split; [done|lia].
Qed.

Definition count {A} (l : list A) : Z := Z.of_nat (List.length l).

(** The parts of a graph, one field each. *)
Definition weight (g : graph_parts) : Z :=
  count (nodes g) + count (initializers g) + count (inputs g) + count (outputs g).

Lemma count_app {A} (l k : list A) : count (l ++ k) = count l + count k.
Proof. unfold count. rewrite List.length_app. lia. Qed.
Lemma count_cons {A} (x : A) l : count (x :: l) = count l + 1.
Proof. unfold count. cbn [List.length]. lia. Qed.
Lemma count_nonneg {A} (l : list A) : 0 <= count l.
Proof. unfold count. lia. Qed.

Section Sha.
Context (sha256 : string -> string).

Section Node.
Context (parse_graph : string -> string -> Z -> P graph_parts) (below : Z).
Context (Hgraph : below <= D -> forall w data path, len data <= T ->
  Spec L w (parse_graph data path (below + 2)) (fun g => w + weight g) any).

Lemma subgraphs_spec w path attr_name index messages nested :
  below <= D -> fits messages ->
  Spec L (w + count nested) (parse_subgraphs parse_graph path attr_name below index messages nested)
    (fun l => w + count l) any.
Proof.
  intros Hd. revert index nested. induction messages as [|message messages IH]; intros index nested Hm.
  { by apply spec_ret. }
  apply Forall_cons in Hm as [Hlen Hm]. cbn [parse_subgraphs]. eapply spec_bind; [by apply Hgraph|].
  intros g _. eapply spec_weaken; [by apply IH|]. intros l _. split; [done|]. rewrite count_app. unfold weight.
  pose proof (count_nonneg (initializers g)). pose proof (count_nonneg (inputs g)).
  pose proof (count_nonneg (outputs g)). lia.
Qed.

Lemma node_spec w data path :
  len data <= T ->
  Spec L w (parse_node sha256 parse_graph data path below) (fun x => w + count x.2) any.
Proof.
  intros Hlen. eapply spec_bind; [apply consume_node_spec|]. intros [] _.
  eapply (spec_bind L _ _ _ (fun x => w + count (nested x)) any); [|intros x _; apply spec_ret; [done|cbn; lia]].
  replace w with (w + count (nested (mkNodeParts "" "" [] [] false))) at 1 by (unfold count; cbn; lia).
  apply (spec_iter L _ (fun x => w + count (nested x)) any); [done..|].
  intros Hd field value acc _ Hv. destruct value as [n|v|v|v]; try (apply spec_ret; [done|lia]).
  destruct (field =? 4); [eapply spec_bind; [apply decode_text_spec|]; intros; apply spec_ret; [done|cbn; lia]|].
  destruct (field =? 7); [eapply spec_bind; [apply decode_text_spec|]; intros; apply spec_ret; [done|cbn; lia]|].
  destruct (field =? 5); [|apply spec_ret; [done|lia]].
  eapply spec_bind; [apply consume_attribute_spec|]. intros [] _.
  eapply spec_bind; [by apply attribute_spec|]. intros attr Hattr.
  eapply (spec_bind L _ _ _ (fun l => w + count l) any); [|intros l _; apply spec_ret; [done|cbn; lia]].
  eapply spec_weaken; [by apply (subgraphs_spec w)|]. intros l _. split; [done|lia].
Qed.
End Node.

(** Enough fuel for the levels that are left below the depth limit. *)
Lemma graph_spec fuel w data path depth :
  (0 < fuel)%nat -> D < depth + 3 * (Z.of_nat fuel - 1) -> len data <= T ->
  Spec L w (parse_graph sha256 fuel data path depth) (fun g => w + weight g) any.
Proof.
  revert w data path depth. induction fuel as [|fuel IH]; [lia|]. intros w data path depth _ HD Hlen.
  cbn [parse_graph]. eapply spec_weaken.
  { eapply (spec_iter L _ (fun g => w + weight g) any); [done..|]. intros Hd field value g _ Hv.
    assert (Hsub : depth + 1 <= D -> forall w data path, len data <= T ->
      Spec L w (parse_graph sha256 fuel data path (depth + 1 + 2)) (fun g => w + weight g) any)
      by (intros; apply IH; lia).
    destruct value as [n|v|v|v]; try (apply spec_ret; [done|lia]). unfold weight.
    destruct (field =? 1).
    { eapply spec_bind; [by apply node_spec|]. intros x _. apply spec_ret; [done|]. cbn.
      rewrite count_app, count_cons. lia. }
    destruct (field =? 5).
    { eapply spec_bind; [apply consume_initializer_spec|]. intros [] _.
      eapply spec_bind; [by apply tensor_spec|]. intros x _. apply spec_ret; [done|]. cbn.
      rewrite count_app, count_cons. unfold count. cbn. lia. }
    destruct (field =? 11).
    { eapply spec_bind; [by apply value_info_spec|]. intros x _. apply spec_ret; [done|]. cbn.
      rewrite count_app, count_cons. unfold count. cbn. lia. }
    destruct (field =? 12); [|apply spec_ret; [done|lia]].
    eapply spec_bind; [by apply value_info_spec|]. intros x _. apply spec_ret; [done|]. cbn.
    rewrite count_app, count_cons. unfold count. cbn. lia. }
  intros g _. split; [done|]. unfold weight, count. cbn. lia.
Qed.
End Sha.

(** A graph was found by spending a field on it. *)
Definition found (m : model) : Z := if graph_payload m then 1 else 0.

Lemma model_spec w data :
  len data <= T ->
  Spec L w (parse_model data) (fun m => w + found m)
    (fun m => match graph_payload m with Some g => len g <= T | None => True end).
Proof.
  intros Hlen. eapply spec_weaken.
  { eapply (spec_iter L _ (fun m => w + found m)
      (fun m => match graph_payload m with Some g => len g <= T | None => True end)); [done..|].
    intros _ field value m Hm Hv. destruct value as [n|v|v|v]; try (apply spec_ret; [done|lia]).
    { destruct (field =? 1); (apply spec_ret; [done|unfold found; cbn; lia]). }
    destruct (field =? 7).
    { eapply spec_bind; [by apply spec_raise_if|]. intros [] _. apply spec_ret; [done|].
      unfold found. cbn. destruct (graph_payload m); lia. }
    destruct (field =? 8).
    { eapply spec_bind; [by apply opset_spec|]. intros x _. apply spec_ret; [done|unfold found; cbn; lia]. }
    destruct (field =? 25); [|apply spec_ret; [done|lia]].
    eapply spec_bind; [apply spec_get|]. intros b _. eapply spec_bind; [by apply spec_raise_if|]. intros [] _.
    apply spec_ret; [done|unfold found; cbn; lia]. }
  intros m Hm. split; [done|]. unfold found. cbn. lia.
Qed.
End Parsers.

(** ** The inspection *)
Section Inspection.
Context (sha256 : string -> string) (float_repr : f64 -> string).

Lemma count_sorted {A} (leb : A -> A -> bool) l : count (sort_by leb l) = count l.
Proof. unfold count. by rewrite (Permutation_length (sort_by_perm leb l)). Qed.

Definition graph_size (f : fingerprint) : Z :=
  count (operators f) + count (initializer_list f) + count (input_shapes f) + count (output_shapes f).

Lemma inspect_run_spec L data :
  len data <= ParseBudget.max_total_bytes L -> ParseBudget.max_depth L = 16 ->
  Spec L 0 (inspect_run sha256 float_repr data) (fun i => graph_size (graph i) + 1) any.
Proof.
  intros Hlen HD. eapply spec_bind; [by apply (model_spec L 0)|]. intros m Hm. cbn beta in Hm.
  unfold found. destruct (graph_payload m) as [payload|].
  - eapply spec_bind; [apply graph_spec; [unfold graph_fuel; lia|rewrite HD; unfold graph_fuel; lia|done]|]. intros g _.
    eapply spec_bind; [apply spec_get|]. intros b _. apply spec_ret; [done|].
    unfold graph_size. cbn. rewrite !count_sorted. unfold weight. lia.
  - eapply (spec_bind L _ _ _ (fun g => 0 + weight g + 1) any); [by apply spec_raise|]. intros g _.
    eapply spec_bind; [apply spec_get|]. intros b _. apply spec_ret; [done|].
    unfold graph_size. cbn. rewrite !count_sorted. unfold weight. lia.
Qed.

Lemma inspect_run_fields data b i b' :
  inspect_run sha256 float_repr data b = (Ok i, b') -> protobuf_fields_seen i = ParseBudget.fields_seen b'.
Proof.
  unfold inspect_run. intros (m & b1 & _ & H)%bind_ok. apply bind_ok in H as (g & b2 & _ & H).
  apply bind_ok in H as (x & b3 & [= <- <-] & [= <- <-]). done.
Qed.

(** C4: The inspection of any file ends with an answer of its own: the nesting
    of graphs stays within the fuel of the model, so no loop is cut short.  An
    accepted graph has fewer operators, initializers, inputs and outputs
    together than the fields that were read, which are at most 100000. *)
Theorem inspection_is_bounded data :
  inspect_onnx_graph sha256 float_repr data <> Raise OutOfFuel /\
  forall i, inspect_onnx_graph sha256 float_repr data = Ok i ->
    graph_size (graph i) < protobuf_fields_seen i <= 100000.
Proof.
  set (L := ParseBudget.default (Z.max (len data) 1)).
  assert (Hlen : len data <= ParseBudget.max_total_bytes L) by (cbn; lia).
  unfold inspect_onnx_graph. fold L. destruct (inspect_run sha256 float_repr data L) as [r b'] eqn:E.
  destruct (inspect_run_spec L data Hlen eq_refl L r b' ltac:(done) E) as (_ & [Hfuel _] & Hr).
  split; [done|]. cbn [fst]. intros i ->. destruct (Hr i eq_refl) as (_ & Hsize & Hmax).
  rewrite (inspect_run_fields _ _ _ _ E). cbn in Hsize, Hmax. lia.
Qed.

(** The limit on the size of a file is the size of the file, so it never
    applies. *)
Lemma file_size_unlimited data : inspect_onnx_graph sha256 float_repr data <> Raise message_too_large.
Proof.
  set (L := ParseBudget.default (Z.max (len data) 1)).
  assert (Hlen : len data <= ParseBudget.max_total_bytes L) by (cbn; lia).
  unfold inspect_onnx_graph. fold L. destruct (inspect_run sha256 float_repr data L) as [r b'] eqn:E.
  by destruct (inspect_run_spec L data Hlen eq_refl L r b' ltac:(done) E) as (_ & [_ Hsize] & _).
Qed.
End Inspection.

(** ** The nodes of a graph, whatever reads them

    A message as the list of its fields, and the nodes of a graph and of the
    graphs in the attributes of its nodes, at any depth. *)
Inductive wire_fields : string -> list (Z * payload) -> Prop :=
| wire_nil : wire_fields "" []
| wire_cons data k p rest fs :
    read_field data = Ok (k, p, rest) -> wire_fields rest fs -> wire_fields data ((k, p) :: fs).

Definition has_field (data : string) (k : Z) (v : string) : Prop :=
  exists fs, wire_fields data fs /\ (k, Delimited v) ∈ fs.

(** The graphs in the attributes of a node: field 5 of the node, fields 6 and
    11 of the attribute. *)
Definition subgraph (node sub : string) : Prop :=
  exists a, has_field node 5 a /\ (has_field a 6 sub \/ has_field a 11 sub).

Inductive carries (g : string) : string -> Prop :=
| carries_node n : has_field g 1 n -> carries g n
| carries_nested n0 sub n : has_field g 1 n0 -> subgraph n0 sub -> carries sub n -> carries g n.

Definition texts (k : Z) (fs : list (Z * payload)) : list string :=
  omap (fun f => match f.2 with Delimited v => if f.1 =? k then Some v else None | _ => None end) fs.

(** The last text of a field. *)
Definition field_text (k : Z) (fs : list (Z * payload)) : string := default "" (last (texts k fs)).

(** What the admission looks at, of the message of a node. *)
Definition describes (n : string) (item : Node.t) : Prop :=
  (exists fs, wire_fields n fs /\ Node.operator item = field_text 4 fs /\
     Node.domain item = if bool_decide (field_text 7 fs = "") then "ai.onnx" else field_text 7 fs) /\
  (Node.has_subgraph item = true <-> exists sub, subgraph n sub).

Lemma wire_fields_functional data fs fs' : wire_fields data fs -> wire_fields data fs' -> fs = fs'.
Proof.
  intros H. revert fs'. induction H as [|data k p rest fs Hr _ IH]; intros fs'; inversion 1; subst; [done|..].
  - by cbn in H.
  - by cbn in Hr.
  - f_equal; [congruence|]. apply IH. congruence.
Qed.

Lemma has_field_in data fs k v : wire_fields data fs -> has_field data k v <-> (k, Delimited v) ∈ fs.
Proof.
  intros H. split; [|intros Hin; by exists fs]. intros (fs' & H' & Hin).
  by rewrite (wire_fields_functional _ _ _ H H').
Qed.

Lemma fields_loop_ok {A} depth (body : Z -> payload -> A -> P A) fuel data acc b a b' :
  fields_loop depth body fuel data acc b = (Ok a, b') ->
  exists fs, wire_fields data fs /\ each_field depth body fs acc b = (Ok a, b').
Proof.
  revert data acc b. induction fuel as [|fuel IH]; intros [|c data] acc b H; cbn [fields_loop] in H; try done;
    try (exists []; split; [constructor|done]).
  apply bind_ok in H as ([] & b1 & Hc & H). apply bind_ok in H as (x & b2 & Hr & H).
  apply bind_ok in H as (acc' & b3 & Hb & H). destruct (IH _ _ _ H) as (fs & Hw & He).
  injection Hr as Hr <-. destruct x as [[k p] rest]. exists ((k, p) :: fs). split; [by econstructor|].
  cbn [each_field]. apply bind_ok. exists tt, b1. split; [done|]. apply bind_ok. by exists acc', b3.
Qed.

(** An invariant of the fields read so far holds of the answer. *)
Lemma each_field_inv {A} depth (body : Z -> payload -> A -> P A) (I : list (Z * payload) -> A -> Prop)
    fs acc b a b' :
  I [] acc ->
  (forall fs k p acc acc' b b', I fs acc -> body k p acc b = (Ok acc', b') -> I (fs ++ [(k, p)]) acc') ->
  each_field depth body fs acc b = (Ok a, b') -> I fs a.
Proof.
  intros H0 Hstep. change fs with ([] ++ fs) at 2. revert H0. generalize (@nil (Z * payload)) as seen.
  revert acc b. induction fs as [|[k p] fs IH]; intros acc b seen H0; cbn [each_field].
  - intros [= <- _]. by rewrite app_nil_r.
  - intros (_ & b1 & _ & (acc' & b2 & Hb & H)%bind_ok)%bind_ok. cbn in Hb.
    specialize (IH _ _ (seen ++ [(k, p)]) (Hstep _ _ _ _ _ _ _ H0 Hb) H). by rewrite <-app_assoc in IH.
Qed.

Lemma iter_fields_inv {A} depth (body : Z -> payload -> A -> P A) (I : list (Z * payload) -> A -> Prop)
    data acc b a b' :
  iter_fields depth body data acc b = (Ok a, b') -> I [] acc ->
  (forall fs k p acc acc' b b', I fs acc -> body k p acc b = (Ok acc', b') -> I (fs ++ [(k, p)]) acc') ->
  exists fs, wire_fields data fs /\ I fs a.
Proof.
  unfold iter_fields. intros (b0 & b1 & _ & H)%bind_ok H0 Hstep. apply bind_ok in H as (? & b2 & _ & H).
  apply fields_loop_ok in H as (fs & Hw & He). exists fs. split; [done|]. by eapply each_field_inv.
Qed.

Lemma texts_app k fs fs' : texts k (fs ++ fs') = texts k fs ++ texts k fs'.
Proof. apply omap_app. Qed.

Lemma field_text_app k fs f :
  field_text k (fs ++ [f]) =
    match f.2 with Delimited v => if f.1 =? k then v else field_text k fs | _ => field_text k fs end.
Proof.
  unfold field_text. rewrite texts_app. cbn. destruct f as [j [n|v|v|v]]; cbn; rewrite ?app_nil_r; try done.
  destruct (j =? k); [by rewrite last_snoc|by rewrite app_nil_r].
Qed.

Lemma decode_text_same v b text b' : decode_text v b = (Ok text, b') -> text = v.
Proof.
  unfold decode_text. intros (? & ? & _ & H)%bind_ok. apply bind_ok in H as (? & ? & _ & H).
  apply bind_ok in H as (? & ? & _ & H). by injection H.
Qed.

(** The graphs of an attribute are found, in any order. *)
Lemma attribute_graphs data depth b x b' :
  parse_attribute data depth b = (Ok x, b') ->
  forall sub, sub ∈ x.2 <-> has_field data 6 sub \/ has_field data 11 sub.
Proof.
  intros H. edestruct (iter_fields_inv _ _ (fun fs x => forall sub, sub ∈ x.2 <->
    (6, Delimited sub) ∈ fs \/ (11, Delimited sub) ∈ fs) _ _ _ _ _ H) as (fs & Hw & HI).
  - cbn. set_solver.
  - intros fs k p acc acc' b1 b1' HI Hb sub. rewrite !elem_of_app, !list_elem_of_singleton.
    assert (Hskip : acc'.2 = acc.2 -> (forall v, p = Delimited v -> k <> 6 /\ k <> 11) ->
      sub ∈ acc'.2 <-> ((6, Delimited sub) ∈ fs \/ (6, Delimited sub) = (k, p)) \/
                      ((11, Delimited sub) ∈ fs \/ (11, Delimited sub) = (k, p))).
    { intros -> Hp. rewrite HI. split; [tauto|]. intros [[?|E]|[?|E]]; try tauto;
        injection E as <- <-; by destruct (Hp _ eq_refl). }
    destruct p as [n|v|v|v]; try (injection Hb as <- <-; by apply Hskip).
    destruct (Z.eqb_spec k 1) as [->|].
    { apply bind_ok in Hb as (? & ? & _ & [= <- <-]). apply Hskip; [done|]. intros; lia. }
    destruct (Z.eqb_spec k 6) as [->|]; [|destruct (Z.eqb_spec k 11) as [->|]]; cbn in Hb;
      injection Hb as <- <-; cbn.
    + rewrite elem_of_app, list_elem_of_singleton, HI. split; [|naive_solver]. naive_solver.
    + rewrite elem_of_app, list_elem_of_singleton, HI. split; [|naive_solver]. naive_solver.
    + by apply Hskip.
  - intros sub. rewrite HI, !(has_field_in data fs) by done. done.
Qed.

Section Nodes.
Context (sha256 : string -> string).

Definition found_in (l : list Node.t) (n : string) : Prop := exists item, item ∈ l /\ describes n item.

Lemma found_in_incl l l' n : (forall item, item ∈ l -> item ∈ l') -> found_in l n -> found_in l' n.
Proof. intros Hl (item & Hi & Hd). exists item. auto. Qed.

Section Node.
Context (parse_graph : string -> string -> Z -> P graph_parts).
Context (Hgraph : forall data path depth b g b', parse_graph data path depth b = (Ok g, b') ->
  forall n, carries data n -> found_in (nodes g) n).

Lemma subgraphs_found path attr_name depth index messages l b l' b' :
  parse_subgraphs parse_graph path attr_name depth index messages l b = (Ok l', b') ->
  (forall item, item ∈ l -> item ∈ l') /\
  forall sub, sub ∈ messages -> forall n, carries sub n -> found_in l' n.
Proof.
  revert index l b. induction messages as [|message messages IH]; intros index l b; cbn [parse_subgraphs].
  { intros [= <- _]. split; [done|]. intros sub Hs. by apply elem_of_nil in Hs. }
  intros (g & b1 & Hg & H)%bind_ok. destruct (IH _ _ _ H) as [Hl Hr]. split; [set_solver|].
  intros sub [->|Hs]%elem_of_cons n Hn; [|by eapply Hr].
  eapply found_in_incl; [|by eapply Hgraph]. set_solver.
Qed.

Definition sub_at (fs : list (Z * payload)) (sub : string) : Prop :=
  exists a, (5, Delimited a) ∈ fs /\ (has_field a 6 sub \/ has_field a 11 sub).

(** The node, its text and everything nested in it. *)
Lemma graph_node_found data path depth b x b' :
  parse_node sha256 parse_graph data path depth b = (Ok x, b') ->
  describes data x.1 /\ forall sub, subgraph data sub -> forall n, carries sub n -> found_in x.2 n.
Proof.
  unfold parse_node. intros ([] & b0 & _ & (y & b1 & H & [= <- _])%bind_ok)%bind_ok. cbn [fst snd].
  edestruct (iter_fields_inv _ _ (fun fs y =>
    operator y = field_text 4 fs /\ domain y = field_text 7 fs /\
    (has_subgraph y = true <-> exists sub, sub_at fs sub) /\
    forall sub, sub_at fs sub -> forall n, carries sub n -> found_in (nested y) n) _ _ _ _ _ H)
    as (fs & Hw & Ho & Hd & Hs & Hn).
  - cbn. do 2 (split; [done|]). split; [split; [done|]; intros (? & a & Ha & _)|intros ? (a & Ha & _)];
      by apply elem_of_nil in Ha.
  - clear -sha256 Hgraph. intros fs k p y y' b b' (Ho & Hd & Hs & Hn) Hb.
    assert (Hskip : (forall v, p = Delimited v -> k <> 5) ->
      forall sub, sub_at (fs ++ [(k, p)]) sub <-> sub_at fs sub).
    { intros Hp sub. unfold sub_at. setoid_rewrite elem_of_app. setoid_rewrite list_elem_of_singleton.
      split; [|naive_solver]. intros (a & [Ha|E] & Hf); [by exists a|]. injection E as <- <-.
      by destruct (Hp _ eq_refl). }
    assert (Hsame : (forall v, p = Delimited v -> k <> 5) ->
      has_subgraph y' = has_subgraph y -> nested y' = nested y -> operator y' = field_text 4 (fs ++ [(k, p)]) ->
      domain y' = field_text 7 (fs ++ [(k, p)]) ->
      operator y' = field_text 4 (fs ++ [(k, p)]) /\ domain y' = field_text 7 (fs ++ [(k, p)]) /\
      (has_subgraph y' = true <-> exists sub, sub_at (fs ++ [(k, p)]) sub) /\
      forall sub, sub_at (fs ++ [(k, p)]) sub -> forall n, carries sub n -> found_in (nested y') n).
    { intros Hp Hy1 Hy2 ? ?. rewrite Hy1, Hy2. specialize (Hskip Hp). do 2 (split; [done|]).
      split; [rewrite Hs; split; intros [sub ?]; exists sub; by apply Hskip|].
      intros sub Hsub. apply Hn. by apply Hskip. }
    rewrite !field_text_app in Hsame. rewrite !field_text_app. cbn [fst snd] in *.
    destruct p as [n|v|v|v];
      try (injection Hb as <- <-; by apply Hsame).
    destruct (Z.eqb_spec k 4) as [->|].
    { apply bind_ok in Hb as (t & ? & Ht%decode_text_same & [= <- <-]). subst t. cbn.
      apply Hsame; cbn; done. }
    destruct (Z.eqb_spec k 7) as [->|].
    { apply bind_ok in Hb as (t & ? & Ht%decode_text_same & [= <- <-]). subst t. cbn.
      apply Hsame; cbn; done. }
    destruct (Z.eqb_spec k 5) as [->|];
      [|injection Hb as <- <-; apply Hsame; try done; congruence].
    apply bind_ok in Hb as ([] & ? & _ & Hb). apply bind_ok in Hb as (attr & ? & Ha & Hb).
    apply bind_ok in Hb as (l & ? & Hl & [= <- <-]). cbn [operator domain has_subgraph nested].
    pose proof (attribute_graphs _ _ _ _ _ Ha) as Hg. destruct (subgraphs_found _ _ _ _ _ _ _ _ _ Hl) as [Hin Hall].
    assert (Hadd : forall sub, sub_at (fs ++ [(5, Delimited v)]) sub <-> sub_at fs sub \/ sub ∈ attr.2).
    { intros sub. rewrite Hg. unfold sub_at. setoid_rewrite elem_of_app. setoid_rewrite list_elem_of_singleton.
      split; [|naive_solver]. intros (a & [Hf|E] & Hs'); [left; by exists a|]. injection E as ->. by right. }
    do 2 (split; [done|]). setoid_rewrite Hadd. split.
    + rewrite orb_true_iff, negb_true_iff, bool_decide_eq_false, Hs. split.
      * intros [(sub & ?)|Hne]; [by exists sub; left|]. destruct attr.2 as [|sub l']; [done|]. exists sub. right. left.
      * intros (sub & [?|Hin']); [left; by exists sub|]. right. intros E. rewrite E in Hin'. by apply elem_of_nil in Hin'.
    + intros sub [Hsub|Hsub] n' Hc; [|by eapply Hall]. eapply found_in_incl; [exact Hin|by eapply Hn].
  - assert (Hsub : forall sub, subgraph data sub <-> sub_at fs sub)
      by (intros; unfold subgraph, sub_at; by setoid_rewrite (has_field_in data fs _ _ Hw)).
    split; [|intros sub; by rewrite Hsub; apply Hn]. split; [|by setoid_rewrite Hsub].
    exists fs. cbn. split; [done|]. by rewrite Ho, Hd.
Qed.
End Node.

(** Every node of a graph that was parsed is in the list, nested ones
    included. *)
Lemma graph_found fuel data path depth b g b' :
  parse_graph sha256 fuel data path depth b = (Ok g, b') ->
  forall n, carries data n -> found_in (nodes g) n.
Proof.
  revert data path depth b g b'. induction fuel as [|fuel IH]; [done|]. intros data path depth b g b' H.
  cbn [parse_graph] in H. edestruct (iter_fields_inv _ _ (fun fs g => forall n0, (1, Delimited n0) ∈ fs ->
    found_in (nodes g) n0 /\ forall sub, subgraph n0 sub -> forall n, carries sub n -> found_in (nodes g) n)
    _ _ _ _ _ H) as (fs & Hw & HI).
  - intros n0 Hn. by apply elem_of_nil in Hn.
  - clear -IH. intros fs k p g g' b b' HI Hb n0. rewrite elem_of_app, list_elem_of_singleton.
    assert (Hskip : nodes g' = nodes g -> (forall v, p = Delimited v -> k <> 1) ->
      (1, Delimited n0) ∈ fs \/ (1, Delimited n0) = (k, p) ->
      found_in (nodes g') n0 /\ forall sub, subgraph n0 sub -> forall n, carries sub n -> found_in (nodes g') n).
    { intros -> Hp [Hn|E]; [by apply HI|]. injection E as <- <-. by destruct (Hp _ eq_refl). }
    destruct p as [n|v|v|v]; try (injection Hb as <- <-; by apply Hskip).
    destruct (Z.eqb_spec k 1) as [->|].
    { apply bind_ok in Hb as (x & ? & Hx & [= <- <-]). destruct (graph_node_found _ IH _ _ _ _ _ _ Hx) as [Hd Hnest].
      cbn [nodes]. intros [Hn|E].
      - destruct (HI _ Hn) as [H1 H2]. split; [|intros sub Hs n Hc]; (eapply found_in_incl; [|by eauto]);
          set_solver.
      - injection E as ->. split; [exists x.1; split; [set_solver|done]|]. intros sub Hs n Hc.
        eapply found_in_incl; [|by eapply Hnest]. set_solver. }
    destruct (k =? 5); [|destruct (k =? 11); [|destruct (k =? 12)]].
    + apply bind_ok in Hb as ([] & ? & _ & Hb). apply bind_ok in Hb as (? & ? & _ & [= <- <-]).
      apply Hskip; [done|]. congruence.
    + apply bind_ok in Hb as (? & ? & _ & [= <- <-]). apply Hskip; [done|]. congruence.
    + apply bind_ok in Hb as (? & ? & _ & [= <- <-]). apply Hskip; [done|]. congruence.
    + injection Hb as <- <-. apply Hskip; [done|]. congruence.
  - intros n Hc. inversion Hc as [n' Hf|n0 sub n' Hf Hs Hc']; subst; apply (has_field_in _ _ _ _ Hw) in Hf;
      destruct (HI _ Hf); eauto.
Qed.

Lemma model_graph data b m b' :
  parse_model data b = (Ok m, b') -> forall v, has_field data 7 v -> graph_payload m = Some v.
Proof.
  intros H. edestruct (iter_fields_inv _ _ (fun fs m => forall v, (7, Delimited v) ∈ fs ->
    graph_payload m = Some v) _ _ _ _ _ H) as (fs & Hw & HI).
  - intros v Hv. by apply elem_of_nil in Hv.
  - clear. intros fs k p m m' b b' HI Hb v. rewrite elem_of_app, list_elem_of_singleton.
    assert (Hskip : graph_payload m' = graph_payload m -> (forall v, p = Delimited v -> k <> 7) ->
      (7, Delimited v) ∈ fs \/ (7, Delimited v) = (k, p) -> graph_payload m' = Some v).
    { intros -> Hp [Hn|E]; [by apply HI|]. injection E as <- <-. by destruct (Hp _ eq_refl). }
    destruct p as [n|w|w|w]; try (injection Hb as <- <-; by apply Hskip).
    { destruct (k =? 1); injection Hb as <- <-; by apply Hskip. }
    destruct (Z.eqb_spec k 7) as [->|].
    { apply bind_ok in Hb as ([] & ? & [Hnone _]%raise_if_ok & [= <- <-]).
      apply negb_false_iff, bool_decide_eq_true in Hnone. cbn. intros [Hn%HI|E]; [congruence|].
      by injection E as ->. }
    destruct (k =? 8); [|destruct (k =? 25)].
    + apply bind_ok in Hb as (? & ? & _ & [= <- <-]). apply Hskip; [done|]. congruence.
    + apply bind_ok in Hb as (? & ? & _ & Hb). apply bind_ok in Hb as ([] & ? & _ & [= <- <-]).
      apply Hskip; [done|]. congruence.
    + injection Hb as <- <-. apply Hskip; [done|]. congruence.
  - intros v Hv. apply HI. by apply (has_field_in _ _ _ _ Hw).
Qed.

(** Every node of the graph of a model is among the operators of its
    inspection. *)
Lemma operators_found float_repr data i g :
  inspect_onnx_graph sha256 float_repr data = Ok i -> has_field data 7 g ->
  forall n, carries g n -> found_in (operators (graph i)) n.
Proof.
  unfold inspect_onnx_graph. destruct (inspect_run _ _ _ _) as [r b'] eqn:E. cbn [fst]. intros -> Hg n Hc.
  unfold inspect_run in E. apply bind_ok in E as (m & b1 & Hm & H). apply bind_ok in H as (x & b2 & Hx & H).
  apply bind_ok in H as (? & b3 & _ & [= <- _]). cbn [graph operators].
  rewrite (model_graph _ _ _ _ Hm _ Hg) in Hx. destruct (graph_found _ _ _ _ _ _ _ Hx _ Hc) as (item & Hi & Hd).
  exists item. split; [|done]. by rewrite sort_by_perm.
Qed.
End Nodes.

(** ** Examples *)
Definition demo_fields : list (Z * payload) :=
  [(1, Varint 300); (2, Delimited "ab"); (16, Fixed32 "wxyz")].

Lemma message_fields_read_witness :
  iter_fields 0 (fun field _ acc => ret (acc ++ [field])) (message demo_fields) [] (ParseBudget.default 100) =
    each_field 0 (fun field _ acc => ret (acc ++ [field])) demo_fields [] (ParseBudget.default 100) /\
  (each_field 0 (fun field _ acc => ret (acc ++ [field])) demo_fields [] (ParseBudget.default 100)).1 =
    Ok [1; 2; 16].
Proof.
  split; [|by vm_compute]. apply message_fields_read; [|by vm_compute].
  repeat constructor; cbn; try lia. all: vm_compute; congruence.
Defined.

(** A graph of one operator, nested in the attribute of another. *)
Definition nested_model : string :=
  message [(7, Delimited (message [(1, Delimited (message [(4, Delimited "If");
    (5, Delimited (message [(1, Delimited "then_branch");
       (6, Delimited (message [(1, Delimited (message [(4, Delimited "Relu")]))]))]))]))]))].

Lemma inspection_is_bounded_witness :
  match inspect_onnx_graph (fun s => s) (fun _ => "") nested_model with
  | Ok i => map Node.operator (operators (graph i)) = ["If"; "Relu"] /\
            graph_size (graph i) < protobuf_fields_seen i <= 100000
  | Raise _ => False
  end.
Proof.
  assert (Hops : match inspect_onnx_graph (fun s => s) (fun _ => "") nested_model with
    | Ok i => Some (map Node.operator (operators (graph i))) | Raise _ => None end = Some ["If"; "Relu"])
    by by vm_compute.
  destruct (inspection_is_bounded (fun s => s) (fun _ => "") nested_model) as [_ Hb].
  destruct (inspect_onnx_graph (fun s => s) (fun _ => "") nested_model) as [i|e]; [|done].
  injection Hops as Hops. split; [done|]. by apply Hb.
Defined.
