(* ===== verification/ModelAdmission.v ===== *)
(** Admission of a model package (runtime/model_packages.py, second half): the
    manifest with its contracts, and the report that says whether the package
    may be run.

    The file system is a parameter: where a path leads, which paths are
    directories, the bytes of the regular files and the permission bits.  The
    inspection runs in a process of its own, whose fate is an argument.
    [sha256], [isoformat], [float_repr] and pydantic's dump of a manifest are
    parameters. *)

From Stdlib Require Import ZArith.
From S2P Require Import Prelude Binary64 Enums Models CanonicalJson Updates ModelGraph.
Open Scope Z_scope.

(** ** [PurePosixPath] *)
Module PurePosixPath.
Definition root (s : string) : string :=
  if startswith s "//" && negb (startswith s "///") then "//"
  else if startswith s "/" then "/" else "".
Definition is_absolute (s : string) : bool := negb (bool_decide (root s = "")).
Definition climbs (s : string) : bool := existsb (fun p => bool_decide (p = "..")) (Updates.parts s).
Definition as_posix (s : string) : string :=
  let text := root s +:+ join "/" (Updates.parts s) in
  if bool_decide (text = "") then "." else text.
End PurePosixPath.

Definition member (x : string) (l : list string) : bool := existsb (fun y => bool_decide (y = x)) l.
Definition same_set (l k : list string) : bool := bool_decide (sorted_set l = sorted_set k).

(** ** The manifest *)
Module DimensionBound.
Record t : Type := mk { minimum : Z; maximum : Z; symbol : option string }.
Definition validate (d : t) : res t :=
  check (minimum d <? 1) (ValidationError "minimum must be >= 1") >>!
  check (maximum d <? 1) (ValidationError "maximum must be >= 1") >>!
  check (maximum d <? minimum d) (ValidationError "dimension maximum must be >= minimum") >>!
  check (match symbol d with Some s => blank s | None => false end)
    (ValidationError "dimension symbol must not be blank") >>!
  Ok d.
End DimensionBound.

(** [next((size for name, size in _DTYPE_INFO.values() if name == dtype), None)] *)
Definition dtype_width (dtype : string) : option Z :=
  match List.find (fun item => bool_decide (item.2.1 = dtype)) _DTYPE_INFO with
  | Some item => item.2.2
  | None => None
  end.

(** [math.prod] *)
Definition prod (l : list Z) : Z := fold_left Z.mul l 1.

Module TensorAllocationContract.
Record t : Type := mk {
  name : string;
  dtype : string;
  rank : Z;
  dimensions : list DimensionBound.t;
  maximum_elements : Z;
  maximum_bytes : Z
}.
Definition validate (c : t) : res t :=
  check ((rank c <? 0) || (16 <? rank c)) (ValidationError "rank must be between 0 and 16") >>!
  check (maximum_elements c <? 1) (ValidationError "maximum_elements must be >= 1") >>!
  check (maximum_bytes c <? 1) (ValidationError "maximum_bytes must be >= 1") >>!
  check (blank (name c) || blank (dtype c))
    (ValidationError "tensor contract name and dtype must not be blank") >>!
  check (negb (rank c =? Z.of_nat (length (dimensions c))))
    (ValidationError "tensor rank must equal the number of dimensions") >>!
  let computed := prod (map DimensionBound.maximum (dimensions c)) in
  check (negb (computed =? maximum_elements c))
    (ValidationError "maximum_elements must equal the product of dimension maxima") >>!
  match dtype_width (dtype c) with
  | None => Raise (ValidationError "release tensor dtype must have a finite byte width")
  | Some width =>
      check (negb (computed * width =? maximum_bytes c))
        (ValidationError "maximum_bytes must equal maximum_elements times dtype width") >>!
      Ok c
  end.
End TensorAllocationContract.

Module PackageFile.
Record t : Type := mk { path : string; sha256 : string; bytes : Z }.
Definition safe_path (value : string) : res string :=
  check (PurePosixPath.is_absolute value || PurePosixPath.climbs value || blank value
         || contains value "://") (ValidationError "package file path must be safe and relative") >>!
  Ok (PurePosixPath.as_posix value).
Definition validate (f : t) : res t :=
  rbind (safe_path (path f)) (fun path =>
  check (bytes f <? 0) (ValidationError "bytes must be >= 0") >>!
  Ok (mk path (sha256 f) (bytes f))).
End PackageFile.

Module ModelPackageManifest.
Record t : Type := mk {
  package_id : string;
  model_path : string;
  model_sha256 : string;
  release_root : string;
  package_files : list PackageFile.t;
  inputs : list TensorAllocationContract.t;
  outputs : list TensorAllocationContract.t;
  allowed_opsets : list (string * (Z * Z));
  allowed_operators : list (string * list string);
  allowed_custom_domains : list string;
  external_data_allowed : bool;
  allowed_external_data : list string;
  control_flow_allowed : bool;
  python_ops_allowed : bool;
  custom_op_libraries : list string;
  runtime_extensions : list string;
  plugin_execution_providers : list string;
  expected_execution_provider : string;
  fallback_allowed : bool;
  created_at : datetime;
  expires_at : datetime
}.
Definition validate (m : t) : res t :=
  check (existsb blank [package_id m; model_path m; release_root m; expected_execution_provider m])
    (ValidationError "model package fields must not be blank") >>!
  check (expires_at m <=? created_at m)
    (ValidationError "model package manifest must expire after creation") >>!
  let paths := map PackageFile.path (package_files m) in
  check (negb (bool_decide (NoDup paths))) (ValidationError "model package file paths must be unique") >>!
  check (negb (member (model_path m) paths))
    (ValidationError "model_path must be declared in package_files") >>!
  check (existsb (fun x => negb (member x paths)) (allowed_external_data m))
    (ValidationError "allowed external data must be declared package files") >>!
  check (python_ops_allowed m) (ValidationError "release profile cannot enable Python operators") >>!
  check (negb (bool_decide (custom_op_libraries m = [])) || negb (bool_decide (runtime_extensions m = []))
         || negb (bool_decide (plugin_execution_providers m = [])))
    (ValidationError "unqualified executable extensions are prohibited") >>!
  check (match inputs m with [] => true | _ => match outputs m with [] => true | _ => false end end)
    (ValidationError "release model requires input and output contracts") >>!
  Ok m.

(** What pydantic has checked of a manifest that exists. *)
Definition valid (m : t) : Prop :=
  validate m = Ok m /\
  Forall (fun f => PackageFile.validate f = Ok f) (package_files m) /\
  Forall (fun c => TensorAllocationContract.validate c = Ok c /\
                   Forall (fun d => DimensionBound.validate d = Ok d) (TensorAllocationContract.dimensions c))
    (inputs m ++ outputs m).
End ModelPackageManifest.

Module RuntimeAdmissionContext.
Record t : Type := mk {
  runtime_name : string;
  runtime_version : string;
  execution_provider : string;
  compiler : string;
  architecture : string;
  runtime_package_sha256 : string;
  target_host_qualified : bool;
  target_runtime_measured : bool;
  provider_assignment_proven : bool;
  fallback_observed : bool
}.
End RuntimeAdmissionContext.

(** ** The file system *)
Record host : Type := mkHost {
  resolve : string -> res string;
  is_dir : string -> bool;
  contents : string -> option string;
  mode : string -> Z
}.

(** How the worker process ends. *)
Inductive worker_fate : Type := Completed | TimedOut | Killed | Garbled.

Module ModelAdmission.
Import OnnxGraph ModelPackageManifest RuntimeAdmissionContext.

Section Admission.
Context (sha256 : string -> string) (float_repr : f64 -> string) (isoformat : datetime -> string).
Context (model_dump : ModelPackageManifest.t -> json).
Context (h : host).

(** [root / relative] *)
Definition joinpath (root relative : string) : string :=
  if PurePosixPath.is_absolute relative then relative else root +:+ "/" +:+ relative.

(** [candidate.relative_to(root)] *)
Definition relative_to (candidate root : string) : res unit :=
  check (negb (bool_decide (PurePosixPath.root candidate = PurePosixPath.root root) &&
               bool_decide (Updates.parts root `prefix_of` Updates.parts candidate)))
    (ValueError "path is not in the subpath").

Definition _safe_member (root relative : string) : res string :=
  rbind (resolve h (joinpath root relative)) (fun candidate =>
  rbind (resolve h root) (fun base =>
  relative_to candidate base >>! Ok candidate)).

Definition _read_only (path : string) : bool := Z.land (Z.land (mode h path) 4095) 146 =? 0.

Definition is_file (path : string) : bool := negb (bool_decide (contents h path = None)).

(** [inspect_onnx_graph_bounded] with its default timeout. *)
Definition inspect_onnx_graph_bounded (fate : worker_fate) (data : string) : res inspection :=
  match fate with
  | TimedOut => Raise (ProtobufParseError "onnx_inspection_timeout")
  | Killed => Raise (ProtobufParseError "onnx_inspection_worker_failed")
  | Garbled => Raise (ProtobufParseError "onnx_inspection_worker_invalid_output")
  | Completed =>
      match inspect_onnx_graph sha256 float_repr data with
      | Ok i => Ok i
      | Raise _ => Raise (ProtobufParseError "onnx_inspection_worker_failed")
      end
  end.

(** [dict(item["external_data"]).get("location")] decides what an initializer
    contributes. *)
Definition external_location_of (i : TensorInitializer.t) : list string :=
  let entries := fold_left (fun d item => dict_set item.1 item.2 d) (TensorInitializer.external_data i) [] in
  match dict_get "location" entries with
  | None => if TensorInitializer.external_location i then [""] else []
  | Some location => [location]
  end.
Definition _external_locations (f : fingerprint) : list string :=
  concat (map external_location_of (initializer_list f)).

(** ** Tensors against their contracts *)
Definition failing (c : bool) (reason : string) : list string := if c then [reason] else [].

(** One pass of [for index, (observed_dimension, bound) in enumerate(...)] *)
Definition dimension_failures (direction name : string) (index : Z)
    (observed : dimension) (bound : DimensionBound.t) : list string :=
  let at_index := ":" +:+ name +:+ ":" +:+ pretty index in
  match observed with
  | DimInt n =>
      failing ((n <? DimensionBound.minimum bound) || (DimensionBound.maximum bound <? n))
        (direction +:+ "_dimension_out_of_bounds" +:+ at_index)
  | DimText s =>
      failing (match DimensionBound.symbol bound with
               | Some symbol => negb (bool_decide (s = symbol))
               | None => false
               end) (direction +:+ "_symbol_mismatch" +:+ at_index) ++
      failing (DimensionBound.maximum bound <=? 0)
        (direction +:+ "_unbounded_symbolic_dimension" +:+ at_index)
  | DimNone => [direction +:+ "_unknown_dimension" +:+ at_index]
  end.

Fixpoint dimensions_failures (direction name : string) (index : Z)
    (observed : list dimension) (bounds : list DimensionBound.t) : list string :=
  match observed, bounds with
  | d :: observed, b :: bounds =>
      dimension_failures direction name index d b ++
      dimensions_failures direction name (index + 1) observed bounds
  | _, _ => []
  end.

Definition contract_failures (direction name : string) (item : TensorShape.t)
    (contract : TensorAllocationContract.t) : list string :=
  failing (negb (bool_decide (TensorShape.dtype item = TensorAllocationContract.dtype contract)))
    (direction +:+ "_dtype_mismatch:" +:+ name) ++
  if negb (Z.of_nat (length (TensorShape.dimensions item)) =? TensorAllocationContract.rank contract)
  then [direction +:+ "_rank_mismatch:" +:+ name]
  else dimensions_failures direction name 0 (TensorShape.dimensions item)
         (TensorAllocationContract.dimensions contract).

Definition by_name {A} (name : A -> string) (l : list A) : list (string * A) :=
  fold_left (fun d item => dict_set (name item) item d) l [].

Definition _validate_tensor_contracts (direction : string) (observed : list TensorShape.t)
    (declared : list TensorAllocationContract.t) : list string :=
  let observed_by_name := by_name TensorShape.name observed in
  let declared_by_name := by_name TensorAllocationContract.name declared in
  failing (negb (same_set (map fst observed_by_name) (map fst declared_by_name)))
    (direction +:+ "_tensor_set_mismatch") ++
  concat (map (fun c =>
    match dict_get c.1 observed_by_name with
    | None => []
    | Some item => contract_failures direction c.1 item c.2
    end) declared_by_name).

(** ** The graph against the manifest *)
Section Manifest.
Context (package : ModelPackageManifest.t).

Definition opset_failures (o : string * Z) : list string :=
  failing (match dict_get o.1 (allowed_opsets package) with
           | None => true
           | Some bounds => negb ((bounds.1 <=? o.2) && (o.2 <=? bounds.2))
           end) ("opset_not_allowed:" +:+ o.1 +:+ ":" +:+ pretty o.2).

Definition operator_failures (n : Node.t) : list string :=
  let domain := Node.domain n in
  let name := Node.operator n in
  failing (negb (member domain ["ai.onnx"; "ai.onnx.ml"]) &&
           negb (member domain (allowed_custom_domains package)))
    ("custom_domain_not_allowed:" +:+ domain) ++
  failing (negb (member name (default [] (dict_get domain (allowed_operators package)))))
    ("operator_not_allowed:" +:+ domain +:+ ":" +:+ name) ++
  failing (Node.has_subgraph n && negb (control_flow_allowed package))
    ("control_flow_not_allowed:" +:+ Node.path n) ++
  failing (member (lower name) ["pyop"; "pythonop"] || startswith (lower domain) "ai.onnx.contrib.python")
    "python_operator_not_allowed".

Definition location_failures (location : string) : list string :=
  failing (bool_decide (location = "") || PurePosixPath.is_absolute location
           || PurePosixPath.climbs location || contains location "://")
    ("external_data_path_unsafe:" +:+ if bool_decide (location = "") then "<missing>" else location) ++
  failing (negb (member (PurePosixPath.as_posix location) (allowed_external_data package)))
    ("external_data_not_manifest_approved:" +:+ PurePosixPath.as_posix location).

Definition graph_failures (f : fingerprint) : list string :=
  let imported := fold_left (fun d o => dict_set o.1 o.2 d) (opsets f) [] in
  let external_locations := _external_locations f in
  concat (map opset_failures imported) ++
  concat (map operator_failures (operators f)) ++
  failing (negb (function_count f =? 0)) "local_functions_not_allowed" ++
  failing (negb (bool_decide (external_locations = [])) && negb (external_data_allowed package))
    "external_data_disabled" ++
  concat (map location_failures external_locations) ++
  _validate_tensor_contracts "input" (input_shapes f) (inputs package) ++
  _validate_tensor_contracts "output" (output_shapes f) (outputs package).

(** ** The files of the package *)

(** The release root, the path of the model and the failure to find them. *)
Definition locate (repository_root : string) : res (string * string * list string) :=
  match rbind (_safe_member repository_root (release_root package)) (fun root =>
        rbind (_safe_member root (model_path package)) (fun path => Ok (root, path))) with
  | Ok x => Ok (x.1, x.2, [])
  | Raise (ValueError _) | Raise (OSError _) | Raise (PermissionError _) | Raise (FileNotFoundError _) =>
      Ok (repository_root, joinpath repository_root "__invalid__", ["model_path_outside_release_root"])
  | Raise e => Raise e
  end.

Definition root_failures (root : string) : list string :=
  if negb (is_dir h root) then ["release_root_missing"]
  else failing (negb (_read_only root)) "release_root_not_read_only".

Definition file_failures (root relative : string) (declared : PackageFile.t) : res (list string) :=
  match _safe_member root relative with
  | Raise (ValueError _) => Ok ["package_path_outside_root:" +:+ relative]
  | Raise e => Raise e
  | Ok path =>
      match contents h path with
      | None => Ok ["package_file_missing:" +:+ relative]
      | Some data =>
          Ok (failing (negb (bool_decide (sha256 data = PackageFile.sha256 declared)))
                ("package_file_digest_mismatch:" +:+ relative) ++
              failing (negb (len data =? PackageFile.bytes declared))
                ("package_file_size_mismatch:" +:+ relative) ++
              failing (negb (_read_only path)) ("package_file_not_read_only:" +:+ relative))
      end
  end.

Fixpoint files_failures (root : string) (declared : list (string * PackageFile.t)) : res (list string) :=
  match declared with
  | [] => Ok []
  | f :: declared =>
      rbind (file_failures root f.1 f.2) (fun l =>
      rbind (files_failures root declared) (fun l' => Ok (l ++ l')))
  end.

(** The model file: what is wrong with it, and its graph when it has one. *)
Definition model_failures (fate : worker_fate) (path : string) : list string * option inspection :=
  match contents h path with
  | None => (["model_artifact_missing"], None)
  | Some data =>
      let digest := failing (negb (bool_decide (sha256 data = model_sha256 package))) "model_digest_mismatch" in
      match inspect_onnx_graph_bounded fate data with
      | Ok i => (digest, Some i)
      | Raise (ValueError msg) | Raise (OSError msg) => (digest ++ ["onnx_graph_invalid:" +:+ msg], None)
      | Raise e => (digest, None)
      end
  end.

Definition evaluation_true (key : string) (evaluation : list (string * json)) : bool :=
  match dict_get key evaluation with Some (JBool true) => true | _ => false end.

Definition runtime_failures (runtime : RuntimeAdmissionContext.t)
    (evaluation : option (list (string * json))) (now : datetime) : list string :=
  failing (negb (bool_decide (execution_provider runtime = expected_execution_provider package)))
    "execution_provider_mismatch" ++
  failing (fallback_observed runtime && negb (fallback_allowed package)) "provider_fallback_observed" ++
  failing (negb (provider_assignment_proven runtime)) "provider_assignment_not_proven" ++
  match evaluation with
  | None => ["runtime_issue_evaluation_missing"]
  | Some evaluation =>
      failing (negb (evaluation_true "activation_allowed" evaluation)) "runtime_issue_evaluation_failed"
  end ++
  failing (expires_at package <=? now) "model_package_manifest_expired".
End Manifest.

(** ** The report *)
Record report : Type := mkReport {
  report_package : ModelPackageManifest.t;
  report_runtime : RuntimeAdmissionContext.t;
  graph : option inspection;
  admission_passed : bool;
  target_qualified : bool;
  release_admissible : bool;
  failures : list string;
  limitations : list string;
  evaluated_at : datetime
}.

Definition inspection_json (i : inspection) : json :=
  match fingerprint_json (OnnxGraph.graph i) with
  | JDict items =>
      JDict ([("schema", JStr "sentinel-edge-onnx-graph-fingerprint/1.0");
              ("model_sha256", JStr (OnnxGraph.model_sha256 i))] ++ items ++
             [("graph_capability_sha256", JStr (graph_capability_sha256 i));
              ("protobuf_fields_seen", JInt (protobuf_fields_seen i))])
  | j => j
  end.

Definition assignment_json (runtime : RuntimeAdmissionContext.t) (n : Node.t) : json :=
  JDict ([("path", JStr (Node.path n)); ("operator", JStr (Node.operator n));
          ("provider", JStr (execution_provider runtime))] ++
         if fallback_observed runtime then [("fallback", JBool true)] else []).

Definition allocation (l : list TensorAllocationContract.t) : Z :=
  fold_left Z.add (map TensorAllocationContract.maximum_bytes l) 0.

Definition report_body (r : report) : json :=
  let package := report_package r in
  let runtime := report_runtime r in
  JDict [("schema", JStr "sentinel-edge-model-package-admission/1.0");
         ("package_id", JStr (package_id package));
         ("manifest_sha256", JStr (sha256 (canonical_json_bytes float_repr (model_dump package))));
         ("model_sha256", JStr (model_sha256 package));
         ("graph_capability_sha256",
          match graph r with Some i => JStr (graph_capability_sha256 i) | None => JNull end);
         ("runtime_package_sha256", JStr (runtime_package_sha256 runtime));
         ("runtime_name", JStr (runtime_name runtime));
         ("runtime_version", JStr (runtime_version runtime));
         ("execution_provider", JStr (execution_provider runtime));
         ("provider_assignment",
          JList (map (assignment_json runtime)
            match graph r with Some i => operators (OnnxGraph.graph i) | None => [] end));
         ("provider_fallback_observed", JBool (fallback_observed runtime));
         ("architecture", JStr (architecture runtime));
         ("input_allocation_bytes", JInt (allocation (inputs package)));
         ("output_allocation_bytes", JInt (allocation (outputs package)));
         ("graph", match graph r with Some i => inspection_json i | None => JNull end);
         ("admission_passed", JBool (admission_passed r));
         ("target_qualified", JBool (target_qualified r));
         ("release_admissible", JBool (release_admissible r));
         ("failures", JList (map JStr (failures r)));
         ("limitations", JList (map JStr (limitations r)));
         ("evaluated_at", JStr (isoformat (evaluated_at r)))].

(** [admit_model_package]: the report and its digest. *)
Definition admit_model_package (package : ModelPackageManifest.t) (root : string)
    (runtime : RuntimeAdmissionContext.t) (evaluation : option (list (string * json)))
    (fate : worker_fate) (now : datetime) : res (report * string) :=
  rbind (resolve h root) (fun repository_root =>
  rbind (locate package repository_root) (fun place =>
  let release_root := place.1.1 in
  rbind (files_failures release_root (by_name PackageFile.path (package_files package))) (fun files =>
  let model := model_failures package fate place.1.2 in
  let all :=
    place.2 ++ root_failures release_root ++ files ++ model.1 ++
    match model.2 with Some i => graph_failures package (OnnxGraph.graph i) | None => [] end ++
    runtime_failures package runtime evaluation now in
  let passed := bool_decide (all = []) in
  let qualified := passed && target_host_qualified runtime && target_runtime_measured runtime in
  let r := mkReport package runtime model.2 passed qualified
    (qualified && match evaluation with Some e => evaluation_true "target_qualified" e | None => false end)
    (sorted_set all)
    (sorted_set (failing (negb (target_host_qualified runtime)) "target_host_not_qualified" ++
                 failing (negb (target_runtime_measured runtime)) "target_runtime_not_measured"))
    now in
  Ok (r, sha256 (canonical_json_bytes float_repr (report_body r)))))).
End Admission.
End ModelAdmission.
