(* ===== verification/AdmissionTheorems.v ===== *)
(** What an admitted model package has: the files the manifest names, a graph
    of allowed operators only, and tensors within the declared memory. *)

From Stdlib Require Import ZArith Lia.
From S2P Require Import Prelude Binary64 Enums Models CanonicalJson Updates ModelGraph ModelGraphTheorems.
From S2P Require Import ModelAdmission.
Import Protobuf OnnxGraph ModelAdmission.
Open Scope Z_scope.

(** ** Lists of failures *)

Lemma failing_nil c reason : failing c reason = [] <-> c = false.
Proof. by destruct c. Qed.

Lemma concat_map_nil {A B} (f : A -> list B) l : concat (map f l) = [] -> forall x, x ∈ l -> f x = [].
Proof.
  induction l as [|y l IH]; cbn; [set_solver|]. intros [H1 H2]%app_eq_nil x [->|Hx]%elem_of_cons; auto.
Qed.

Lemma member_elem x l : member x l = true <-> x ∈ l.
Proof.
  unfold member. rewrite existsb_exists. split.
  - intros (y & Hy & He%bool_decide_eq_true). subst. by apply list_elem_of_In.
  - intros H. exists x. split; [by apply list_elem_of_In|by apply bool_decide_eq_true].
Qed.

Lemma same_set_elem l k : same_set l k = true -> forall x, x ∈ l <-> x ∈ k.
Proof.
  unfold same_set. rewrite bool_decide_eq_true. intros H x.
  by rewrite <-(elem_of_sorted_set l), <-(elem_of_sorted_set k), H.
Qed.

(** ** Items by name *)
Section ByName.
Context {A : Type} (name : A -> string).
Notation fill := (fold_left (fun d item => dict_set (name item) item d)).

Lemma fill_elem l d k v : (k, v) ∈ fill l d -> (k, v) ∈ d \/ (v ∈ l /\ name v = k).
Proof.
  revert d. induction l as [|x l IH]; intros d; cbn; [auto|].
  intros [Hin|[Hv Hk]]%IH; [|right; set_solver]. revert Hin. clear.
  induction d as [|[k1 v1] d IHd]; cbn.
  - intros [= -> ->]%list_elem_of_singleton. right. split; [left|done].
  - case_decide as Hk; rewrite !elem_of_cons.
    + intros [[= -> ->]|Hd]; [right; split; [by left|done]|left; by right].
    + intros [->|Hd]; [left; by left|]. destruct (IHd Hd) as [?|[?%elem_of_cons ?]]; [left; by right|by right].
Qed.

Lemma fill_keys l d k : k ∈ (fill l d).*1 <-> k ∈ d.*1 \/ k ∈ (name <$> l).
Proof.
  revert d. induction l as [|x l IH]; intros d; cbn; [set_solver|].
  rewrite IH, dict_set_keys, elem_of_append_new. set_solver.
Qed.

Lemma by_name_elem l k v : (k, v) ∈ by_name name l -> v ∈ l /\ name v = k.
Proof. intros [?%elem_of_nil|H]%fill_elem; done. Qed.

Lemma by_name_keys l k : k ∈ (by_name name l).*1 <-> k ∈ (name <$> l).
Proof. unfold by_name. rewrite fill_keys. set_solver. Qed.

Lemma by_name_get l x : NoDup (name <$> l) -> x ∈ l -> dict_get (name x) (by_name name l) = Some x.
Proof.
  intros Hn Hx. unfold by_name. rewrite (dict_of_items name l []) by done. cbn.
  apply dict_elem_get; [|apply list_elem_of_fmap; by exists x].
  by rewrite <-list_fmap_compose.
Qed.

Lemma by_name_in l x : NoDup (name <$> l) -> x ∈ l -> (name x, x) ∈ by_name name l.
Proof. intros. by apply dict_get_elem, by_name_get. Qed.
End ByName.

(** ** Tensors *)

(** A dimension within its bound; a symbol stands for itself. *)
Definition dimension_ok (d : dimension) (b : DimensionBound.t) : Prop :=
  match d with
  | DimInt n => DimensionBound.minimum b <= n <= DimensionBound.maximum b
  | DimText s => match DimensionBound.symbol b with Some symbol => s = symbol | None => True end
  | DimNone => False
  end.

Definition conforms (s : TensorShape.t) (c : TensorAllocationContract.t) : Prop :=
  TensorShape.name s = TensorAllocationContract.name c /\
  TensorShape.dtype s = TensorAllocationContract.dtype c /\
  Forall2 dimension_ok (TensorShape.dimensions s) (TensorAllocationContract.dimensions c).

Lemma dimensions_ok direction name index ds bs :
  length ds = length bs -> dimensions_failures direction name index ds bs = [] -> Forall2 dimension_ok ds bs.
Proof.
  revert index bs. induction ds as [|d ds IH]; intros index [|b bs] Hl; try done. cbn.
  injection Hl as Hl. intros [Hd Hr]%app_eq_nil. constructor; [|by eapply IH]. destruct d as [n|s|]; cbn in *; [| |done].
  - apply failing_nil, orb_false_iff in Hd as [?%Z.ltb_ge ?%Z.ltb_ge]. lia.
  - apply app_eq_nil in Hd as [Hs%failing_nil _]. destruct (DimensionBound.symbol b); [|done].
    by apply negb_false_iff, bool_decide_eq_true in Hs.
Qed.

Lemma contract_ok direction name s c :
  TensorAllocationContract.validate c = Ok c -> name = TensorAllocationContract.name c ->
  TensorShape.name s = name -> contract_failures direction name s c = [] -> conforms s c.
Proof.
  intros Hv Hn Hs [Hd%failing_nil Hr]%app_eq_nil. apply negb_false_iff, bool_decide_eq_true in Hd.
  split; [congruence|]. split; [done|].
  destruct (Z.eqb_spec (Z.of_nat (length (TensorShape.dimensions s))) (TensorAllocationContract.rank c)) as [He|];
    [|done]. cbn in Hr. eapply dimensions_ok; [|exact Hr]. unfold TensorAllocationContract.validate in Hv.
  do 4 (apply rbind_ok in Hv as (? & _ & Hv)). apply rbind_ok in Hv as (? & Hk%check_ok & _).
  apply negb_false_iff, Z.eqb_eq in Hk. lia.
Qed.

Definition valid_contract (c : TensorAllocationContract.t) : Prop :=
  TensorAllocationContract.validate c = Ok c /\
  Forall (fun d => DimensionBound.validate d = Ok d) (TensorAllocationContract.dimensions c).

(** Every tensor of the graph has a contract it conforms to. *)
Lemma tensors_conform direction observed declared s :
  Forall valid_contract declared -> NoDup (TensorShape.name <$> observed) ->
  _validate_tensor_contracts direction observed declared = [] -> s ∈ observed ->
  exists c, c ∈ declared /\ conforms s c.
Proof.
  intros Hd Hn [Hset%failing_nil Hall]%app_eq_nil Hs. apply negb_false_iff in Hset.
  pose proof (proj1 (same_set_elem _ _ Hset (TensorShape.name s))) as Hkey.
  assert (Hin : TensorShape.name s ∈ map fst (by_name TensorAllocationContract.name declared)).
  { apply Hkey, by_name_keys. apply list_elem_of_fmap. by exists s. }
  apply list_elem_of_fmap in Hin as ([k c] & Hk & Hc). cbn in Hk. subst k.
  pose proof (concat_map_nil _ _ Hall _ Hc) as Hf. cbn in Hf.
  rewrite by_name_get in Hf by done. apply by_name_elem in Hc as [Hc Hname].
  exists c. split; [done|]. apply (contract_ok direction (TensorShape.name s) s c); [|done..].
  by destruct (Forall_in _ _ _ Hd Hc).
Qed.

Lemma fold_mul_acc l a : fold_left Z.mul l a = a * prod l.
Proof.
  unfold prod. revert a. induction l as [|x l IH]; intros a; cbn [fold_left]; [lia|].
  rewrite IH, (IH (1 * x)). lia.
Qed.

Lemma prod_cons x l : prod (x :: l) = x * prod l.
Proof. unfold prod at 1. cbn [fold_left]. rewrite fold_mul_acc. lia. Qed.

Lemma prod_bounded ns bs :
  Forall (fun d => DimensionBound.validate d = Ok d) bs ->
  Forall2 dimension_ok (map DimInt ns) bs ->
  0 <= prod ns <= prod (map DimensionBound.maximum bs).
Proof.
  intros Hv. revert ns. induction Hv as [|b bs Hb Hv IH]; intros [|n ns] H; try (by inversion H).
  cbn [map] in H. apply Forall2_cons in H as [Hn H]. specialize (IH _ H). cbn [map].
  rewrite !prod_cons. unfold DimensionBound.validate in Hb. apply rbind_ok in Hb as (_ & Hm%check_ok & _).
  apply Z.ltb_ge in Hm. cbn in Hn. nia.
Qed.

(** A tensor of fixed size that conforms takes the declared memory at most. *)
Lemma conforming_bytes s c ns width :
  valid_contract c -> conforms s c -> TensorShape.dimensions s = map DimInt ns ->
  dtype_width (TensorShape.dtype s) = Some width ->
  prod ns * width <= TensorAllocationContract.maximum_bytes c.
Proof.
  intros [Hv Hb] (_ & Hd & Hf) Hs Hw. rewrite Hs in Hf. rewrite Hd in Hw.
  pose proof (prod_bounded _ _ Hb Hf) as Hp. unfold TensorAllocationContract.validate in Hv.
  do 6 (apply rbind_ok in Hv as (? & _ & Hv)). rewrite Hw in Hv.
  apply rbind_ok in Hv as (_ & He%check_ok & _). apply negb_false_iff, Z.eqb_eq in He.
  assert (0 <= width).
  { unfold dtype_width in Hw. destruct (List.find _ _) as [item|] eqn:E; [|done].
    apply find_some in E as [Hin _]. cbn in Hin. repeat (destruct Hin as [<-|Hin]; [cbn in Hw; first [discriminate|injection Hw as <-; lia]|]). done. }
  nia.
Qed.

(** ** The report *)
Section Admission.
Context (sha256 : string -> string) (float_repr : f64 -> string) (isoformat : datetime -> string).
Context (model_dump : ModelPackageManifest.t -> json) (h : host).
Notation admission := (admit_model_package sha256 float_repr isoformat model_dump h).
Notation safe_member := (_safe_member h).

(** A file of the package is where the manifest says, as it says. *)
Definition intact (base : string) (f : PackageFile.t) : Prop :=
  exists path data, safe_member base (PackageFile.path f) = Ok path /\ contents h path = Some data /\
    sha256 data = PackageFile.sha256 f /\ len data = PackageFile.bytes f /\ _read_only h path = true.

(** The manifest allows an operator. *)
Definition permitted (package : ModelPackageManifest.t) (n : Node.t) : Prop :=
  (Node.domain n ∈ ["ai.onnx"; "ai.onnx.ml"] \/ Node.domain n ∈ ModelPackageManifest.allowed_custom_domains package) /\
  Node.operator n ∈ default [] (dict_get (Node.domain n) (ModelPackageManifest.allowed_operators package)) /\
  (Node.has_subgraph n = true -> ModelPackageManifest.control_flow_allowed package = true).

Lemma file_intact base relative f :
  file_failures sha256 h base relative f = Ok [] -> relative = PackageFile.path f -> intact base f.
Proof.
  unfold file_failures. intros H ->. destruct (safe_member base (PackageFile.path f)) as [path|e] eqn:Hp;
    [|by destruct e]. destruct (contents h path) as [data|] eqn:Hc; [|done]. injection H as H.
  apply app_eq_nil in H as [Hd%failing_nil H]. apply app_eq_nil in H as [Hl%failing_nil Hm%failing_nil].
  apply negb_false_iff in Hd, Hl, Hm. apply bool_decide_eq_true in Hd. apply Z.eqb_eq in Hl.
  exists path, data. done.
Qed.

Lemma files_intact base l :
  files_failures sha256 h base l = Ok [] -> forall x, x ∈ l -> file_failures sha256 h base x.1 x.2 = Ok [].
Proof.
  induction l as [|y l IH]; cbn; [set_solver|].
  intros (a & Ha & (b & Hb & [= [-> ->]%app_eq_nil])%rbind_ok)%rbind_ok x [->|Hx]%elem_of_cons; auto.
Qed.

Lemma operator_permitted package n : operator_failures package n = [] -> permitted package n.
Proof.
  intros [Hd%failing_nil H]%app_eq_nil. apply app_eq_nil in H as [Ho%failing_nil H].
  apply app_eq_nil in H as [Hs%failing_nil _]. split; [|split].
  - apply andb_false_iff in Hd as [Hd|Hd]; apply negb_false_iff, member_elem in Hd; auto.
  - by apply member_elem, negb_false_iff.
  - intros Hn. rewrite Hn in Hs. by destruct (ModelPackageManifest.control_flow_allowed package).
Qed.

Lemma located package repo base path l :
  locate h package repo = Ok (base, path, l) -> l = [] ->
  safe_member repo (ModelPackageManifest.release_root package) = Ok base /\
  safe_member base (ModelPackageManifest.model_path package) = Ok path.
Proof.
  unfold locate. destruct (rbind _ _) as [x|e] eqn:E.
  - intros [= <- <- <-] _. apply rbind_ok in E as (root & Hr & H). apply rbind_ok in H as (p & Hp & [= <-]). done.
  - by destruct e; intros [= <- <- <-].
Qed.

(** An admission without failures, taken apart. *)
Lemma admitted package root runtime evaluation fate now r d repo :
  resolve h root = Ok repo ->
  admission package root runtime evaluation fate now = Ok (r, d) -> admission_passed r = true ->
  exists base path data i,
    safe_member repo (ModelPackageManifest.release_root package) = Ok base /\
    safe_member base (ModelPackageManifest.model_path package) = Ok path /\
    is_dir h base = true /\ _read_only h base = true /\
    files_failures sha256 h base (by_name PackageFile.path (ModelPackageManifest.package_files package)) = Ok [] /\
    contents h path = Some data /\ sha256 data = ModelPackageManifest.model_sha256 package /\
    inspect_onnx_graph sha256 float_repr data = Ok i /\ graph r = Some i /\
    graph_failures package (OnnxGraph.graph i) = [] /\
    runtime_failures package runtime evaluation now = [].
Proof.
  intros Hroot H Hpass. unfold admit_model_package in H. rewrite Hroot in H. cbn [rbind] in H.
  apply rbind_ok in H as ([[base path] place] & Hplace & H). apply rbind_ok in H as (files & Hfiles & [= <- _]).
  cbn in Hpass. apply bool_decide_eq_true in Hpass. cbn [fst snd] in *.
  apply app_eq_nil in Hpass as [-> H]. apply app_eq_nil in H as [Hroots H]. apply app_eq_nil in H as [-> H].
  apply app_eq_nil in H as [Hm H]. apply app_eq_nil in H as [Hg Hr].
  destruct (located _ _ _ _ _ Hplace eq_refl) as [Hbase Hpath]. exists base, path.
  unfold root_failures in Hroots. destruct (is_dir h base) eqn:Hdir; [|done]. apply failing_nil, negb_false_iff in Hroots.
  unfold model_failures in *. cbn [graph]. destruct (contents h path) as [data|]; [|done]. exists data.
  destruct fate; cbn in *; try (by apply app_eq_nil in Hm as [_ ?]).
  destruct (inspect_onnx_graph sha256 float_repr data) as [i|e]; [|by apply app_eq_nil in Hm as [_ ?]].
  exists i. cbn in *. apply failing_nil, negb_false_iff, bool_decide_eq_true in Hm. done.
Qed.

(** C2: A package is admitted only when the release root is a directory
    without write permission, the model file and every file of the manifest are
    inside it with the declared digests, sizes and no write permission, the
    file with the declared digest has a graph, every node of that graph and of
    the graphs nested in the attributes of its nodes, at any depth, is an
    operator of an allowed domain and on its list, control flow appears only
    where it is allowed, the runtime uses the expected execution provider, and
    the manifest has not expired. *)
Theorem admitted_package_is_covered package root runtime evaluation fate now r d repo :
  ModelPackageManifest.valid package -> resolve h root = Ok repo ->
  admission package root runtime evaluation fate now = Ok (r, d) -> admission_passed r = true ->
  exists base path data i,
    safe_member repo (ModelPackageManifest.release_root package) = Ok base /\
    is_dir h base = true /\ _read_only h base = true /\
    safe_member base (ModelPackageManifest.model_path package) = Ok path /\
    contents h path = Some data /\ sha256 data = ModelPackageManifest.model_sha256 package /\
    inspect_onnx_graph sha256 float_repr data = Ok i /\ graph r = Some i /\
    Forall (intact base) (ModelPackageManifest.package_files package) /\
    Forall (permitted package) (operators (OnnxGraph.graph i)) /\
    (forall g n, has_field data 7 g -> carries g n ->
       exists item, item ∈ operators (OnnxGraph.graph i) /\ describes n item /\ permitted package item) /\
    RuntimeAdmissionContext.execution_provider runtime = ModelPackageManifest.expected_execution_provider package /\
    now < ModelPackageManifest.expires_at package.
Proof.
  intros (Hv & _) Hroot H Hpass.
  destruct (admitted _ _ _ _ _ _ _ _ _ Hroot H Hpass)
    as (base & path & data & i & Hb & Hp & Hdir & Hro & Hfiles & Hc & Hd & Hi & Hr & Hg & Hrun).
  assert (Hops : forall n, n ∈ operators (OnnxGraph.graph i) -> permitted package n).
  { intros n Hn. apply operator_permitted. unfold graph_failures in Hg. apply app_eq_nil in Hg as [_ Hg].
    apply app_eq_nil in Hg as [Ho _]. by apply (concat_map_nil _ _ Ho). }
  exists base, path, data, i. do 8 (split; [done|]). split; [|split; [|split; [|split]]].
  - apply Forall_forall. intros f Hf. apply (file_intact base (PackageFile.path f)); [|done].
    apply (files_intact _ _ Hfiles (PackageFile.path f, f)). apply by_name_in; [|done].
    unfold ModelPackageManifest.validate in Hv. do 2 (apply rbind_ok in Hv as (? & _ & Hv)).
    apply rbind_ok in Hv as (_ & Hn%check_ok & _). by apply negb_false_iff, bool_decide_eq_true in Hn.
  - by apply Forall_forall.
  - intros g n Hgraph Hn. destruct (operators_found _ _ _ _ _ Hi Hgraph _ Hn) as (item & Hin & Hdesc). eauto.
  - apply app_eq_nil in Hrun as [He%failing_nil _]. by apply negb_false_iff, bool_decide_eq_true in He.
  - unfold runtime_failures in Hrun. do 4 (apply app_eq_nil in Hrun as [_ Hrun]).
    apply failing_nil, Z.leb_gt in Hrun. done.
Qed.

(** C22: Where the tensors of an admitted graph have names of their own, each
    input and output has a declared contract with its name, type and bounds,
    and one of fixed size takes the declared memory at most. *)
Theorem admitted_tensors_fit package root runtime evaluation fate now r d repo i :
  ModelPackageManifest.valid package -> resolve h root = Ok repo ->
  admission package root runtime evaluation fate now = Ok (r, d) -> admission_passed r = true -> graph r = Some i ->
  forall observed declared,
    (observed, declared) ∈ [(input_shapes (OnnxGraph.graph i), ModelPackageManifest.inputs package);
                            (output_shapes (OnnxGraph.graph i), ModelPackageManifest.outputs package)] ->
    NoDup (TensorShape.name <$> observed) ->
  forall s, s ∈ observed -> exists c, c ∈ declared /\ conforms s c /\
    forall ns width, TensorShape.dimensions s = map DimInt ns ->
      dtype_width (TensorShape.dtype s) = Some width ->
      prod ns * width <= TensorAllocationContract.maximum_bytes c.
Proof.
  intros (_ & _ & Hc) Hroot H Hpass Hi observed declared Hin Hn s Hs.
  destruct (admitted _ _ _ _ _ _ _ _ _ Hroot H Hpass)
    as (base & path & data & i' & _ & _ & _ & _ & _ & _ & _ & _ & Hr & Hg & _).
  rewrite Hr in Hi. injection Hi as ->. unfold graph_failures in Hg.
  do 5 (apply app_eq_nil in Hg as [_ Hg]). apply app_eq_nil in Hg as [Hgi Hgo].
  apply Forall_app in Hc as [Hci Hco].
  assert (exists direction, _validate_tensor_contracts direction observed declared = [] /\
            Forall valid_contract declared) as (direction & Hf & Hd).
  { apply elem_of_cons in Hin as [[= -> ->]|[= -> ->]%list_elem_of_singleton]; eexists; eauto. }
  destruct (tensors_conform _ _ _ _ Hd Hn Hf Hs) as (c & Hcd & Hconf). exists c. split; [done|].
  split; [done|]. intros ns width. apply conforming_bytes; [by apply (Forall_in _ _ _ Hd)|done].
Qed.
End Admission.

(** ** A package that is admitted *)
Definition identity (s : string) : string := s.
Definition no_text {A} (_ : A) : string := "".
Definition no_dump (_ : ModelPackageManifest.t) : json := JNull.

Notation text n s := (n, Delimited s).
Definition demo_dimension (n : Z) : string := message [(1, Varint n)].
(** A tensor of element type [dtype] with one dimension. *)
Definition demo_value (name : string) (dtype n : Z) : string :=
  message [text 1 name;
           text 2 (message [text 1 (message [(1, Varint dtype);
             text 2 (message [text 1 (demo_dimension n)])])])].
Definition demo_model (nodes inputs : list string) : string :=
  message [(1, Varint 8); text 8 (message [(2, Varint 17)]);
           text 7 (message (map (fun v => text 1 v) nodes ++ map (fun v => text 11 v) inputs ++
                            [text 12 (demo_value "y" 1 4)]))].
Definition demo_node : string := message [text 4 "Relu"].

Definition demo_contract (name : string) : TensorAllocationContract.t :=
  TensorAllocationContract.mk name "float32" 1 [DimensionBound.mk 1 8 None] 8 32.
Definition demo_manifest (control_flow : bool) (data : string) : ModelPackageManifest.t :=
  ModelPackageManifest.mk "smoke-v1" "model.onnx" data "release"
    [PackageFile.mk "model.onnx" data (len data)] [demo_contract "x"] [demo_contract "y"]
    [("ai.onnx", (13, 17))] [("ai.onnx", ["Relu"; "Constant"])] [] false [] control_flow false [] [] []
    "CPUExecutionProvider" false 0 100.
Notation demo_package := (demo_manifest false).
Definition demo_runtime : RuntimeAdmissionContext.t :=
  RuntimeAdmissionContext.mk "onnxruntime" "1.18" "CPUExecutionProvider" "gcc" "arm64" "" true true true false.
Definition demo_host (data : string) : host :=
  mkHost Ok (fun p => bool_decide (p = "/repo/release"))
    (fun p => if bool_decide (p = "/repo/release/model.onnx") then Some data else None) (fun _ => 365).
Definition demo_admission (control_flow : bool) (data : string) : res (report * string) :=
  admit_model_package identity no_text no_text no_dump (demo_host data) (demo_manifest control_flow data) "/repo"
    demo_runtime (Some [("activation_allowed", JBool true); ("target_qualified", JBool true)]) Completed 50.
Notation demo_admit := (demo_admission false).
Definition demo_data : string := demo_model [demo_node] [demo_value "x" 1 4].

Lemma demo_admitted :
  match demo_admit demo_data with
  | Ok (r, _) => admission_passed r && release_admissible r && bool_decide (failures r = [])
  | Raise _ => false
  end = true.
Proof. by vm_compute. Qed.

Lemma demo_valid control_flow data : ModelPackageManifest.valid (demo_manifest control_flow data).
Proof.
  split; [by destruct control_flow; vm_compute|]. split.
  - constructor; [|constructor]. unfold PackageFile.validate. cbn -[len]. rewrite (proj2 (Z.ltb_ge _ _)); [done|].
    apply len_nonneg.
  - repeat (constructor; [split; [by vm_compute|repeat constructor]|]). constructor.
Qed.

(** A node with another in the graph of its attribute. *)
Definition inner_graph : string := message [text 1 demo_node].
Definition outer_attribute : string := message [text 1 "body"; text 6 inner_graph].
Definition outer_node : string := message [text 4 "Relu"; text 5 outer_attribute].
Definition nested_data : string := demo_model [outer_node] [demo_value "x" 1 4].
Definition nested_graph : string :=
  message [text 1 outer_node; text 11 (demo_value "x" 1 4); text 12 (demo_value "y" 1 4)].

(** A field that was written is there. *)
Lemma message_fields fields : Forall writable fields -> wire_fields (message fields) fields.
Proof.
  induction 1 as [|[k p] fields Hw _ IH]; [constructor|]. eapply wire_cons; [|exact IH].
  cbn [message]. by rewrite read_field_put.
Qed.

Ltac written := eexists; split; [apply message_fields; repeat constructor; vm_compute; congruence|set_solver].

Lemma inner_carried : has_field nested_data 7 nested_graph /\ carries nested_graph demo_node.
Proof.
  split; [written|]. apply (carries_nested _ outer_node inner_graph); [written| |apply carries_node; written].
  exists outer_attribute. split; [written|left; written].
Qed.

Lemma admitted_package_is_covered_witness :
  exists i item, inspect_onnx_graph identity no_text nested_data = Ok i /\
    item ∈ operators (OnnxGraph.graph i) /\ describes demo_node item /\
    permitted (demo_manifest true nested_data) item /\
    Forall (intact identity (demo_host nested_data) "/repo/release")
      (ModelPackageManifest.package_files (demo_manifest true nested_data)).
Proof.
  assert (Hd : match demo_admission true nested_data with Ok (r, _) => admission_passed r | Raise _ => false end = true)
    by by vm_compute.
  destruct (demo_admission true nested_data) as [[r d]|e] eqn:E; [|done].
  destruct (admitted_package_is_covered identity no_text no_text no_dump (demo_host nested_data)
    (demo_manifest true nested_data) "/repo" demo_runtime _ Completed 50 r d "/repo" (demo_valid _ _) eq_refl E Hd)
    as (base & path & data & i & Hb & _ & _ & Hm & Hc & Hs & Hi & Hr & Hf & _ & Hn & _).
  assert (base = "/repo/release") as -> by (vm_compute in Hb; congruence).
  assert (data = nested_data) as -> by exact Hs.
  destruct inner_carried as [Hg Hin]. destruct (Hn _ _ Hg Hin) as (item & H1 & H2 & H3).
  exists i, item. exact (conj Hi (conj H1 (conj H2 (conj H3 Hf)))).
Defined.

Lemma admitted_tensors_fit_witness :
  match demo_admit demo_data with
  | Ok (r, _) =>
      match graph r with
      | Some i => exists s c, input_shapes (OnnxGraph.graph i) = [s] /\ conforms s c /\
          TensorAllocationContract.maximum_bytes c = 32 /\ TensorShape.dimensions s = [DimInt 4] /\ 4 * 4 <= 32
      | None => False
      end
  | Raise _ => False
  end.
Proof.
  pose proof demo_admitted as Hd.
  assert (Hshape : match demo_admit demo_data with
    | Ok (r, _) => option_map (fun i => input_shapes (OnnxGraph.graph i)) (graph r)
    | Raise _ => None end = Some [TensorShape.mk "x" "float32" [DimInt 4]]) by by vm_compute.
  destruct (demo_admit demo_data) as [[r d]|e] eqn:E; [|done].
  apply andb_true_iff in Hd as [[Hp _]%andb_true_iff _].
  destruct (graph r) as [i|] eqn:Hi; [|done]. injection Hshape as Hshape.
  destruct (admitted_tensors_fit identity no_text no_text no_dump (demo_host demo_data)
    (demo_package demo_data) "/repo" demo_runtime _ Completed 50 r d "/repo" i (demo_valid _ _) eq_refl E Hp Hi
    _ _ (list_elem_of_here _ _) ltac:(rewrite Hshape; repeat constructor; set_solver) (TensorShape.mk "x" "float32" [DimInt 4])
    ltac:(rewrite Hshape; left)) as (c & Hc & Hconf & Hb).
  exists (TensorShape.mk "x" "float32" [DimInt 4]), c. split; [done|]. split; [done|].
  assert (c = demo_contract "x") as -> by (by apply list_elem_of_singleton in Hc).
  split; [done|]. split; [done|]. exact (Hb [4] 4 eq_refl eq_refl).
Defined.

(** ** What the admission does not see *)

(** A tensor attribute of a node that keeps its data in another file. *)
Definition constant_node : string :=
  message [text 4 "Constant";
           text 5 (message [text 1 "value";
             text 5 (message [text 13 (message [text 1 "location"; text 2 "/etc/passwd"]); (14, Varint 1)])])].

(** The rule against external data looks at the initializers of the outermost
    graph only: the package is admitted although external data is disabled. *)
Lemma attribute_data_escapes :
  ModelPackageManifest.external_data_allowed (demo_package "") = false /\
  match demo_admit (demo_model [constant_node] [demo_value "x" 1 4]) with
  | Ok (r, _) => admission_passed r
  | Raise _ => false
  end = true.
Proof. by vm_compute. Qed.

(** Of two inputs with one name the contracts see the second: a first one of
    another type and far out of bounds is admitted. *)
Lemma repeated_input_unchecked :
  match demo_admit (demo_model [demo_node] [demo_value "x" 11 1000000; demo_value "x" 1 4]) with
  | Ok (r, _) => admission_passed r
  | Raise _ => false
  end = true.
Proof. by vm_compute. Qed.
